(* ===== verification/_CoqProject ===== *)
-Q . S2P
Prelude.v
Vaddr.v
Arith64.v
KList.v
KListSort.v
CString.v
CStdlib.v
Stdio.v
StdioOk.v
StdioProps.v
Bitmap.v
Hash.v
Block.v
FsState.v
Inode.v
FreeMap.v
File.v
Directory.v
FsInv.v
FsFiles.v
FsDir.v
FsSpec.v
FsOps.v
FsNames.v
FsMount.v
FsProps.v
FsGrow.v
Palloc.v
Pagedir.v
Spage.v
Swap.v
Frame.v
Fault.v
VmInv.v
Clock.v
Evict.v
Paging.v
PageFault.v
UserMemory.v
ProcessExit.v
Loader.v
LoadSteps.v
LoadOk.v
LoadStack.v
LoadProps.v
Syscall.v
SyscallMem.v
SyscallOk.v
SyscallCall.v
Descriptors.v
SyscallProps.v
VmProps.v
Sched.v
Synch.v
Thread.v
KernelInv.v
KernelSteps.v
KernelProps.v
KernelLive.v
