(* ===== verification/Prelude.v ===== *)
(** * Pintos: a verification development for the CS439 kernel

    The program (under src/src/) is a small kernel for 80x86 machines with the
    work of a course on operating systems in it: threads and synchronization
    ([threads/]), a file system ([filesys/]) over block devices ([devices/]), user
    processes with system calls ([userprog/]), and paging of their memory to the
    executable and to swap ([vm/]), over a library of its own ([lib/]).

    ** How code is modelled

    A C function is a function in the monad [M S] of this file: from the state [S]
    of its component to a result and a new state, or to the fault that stops the
    machine ([res]: a failed ASSERT, a PANIC, a wild access or CPU exception).
    Every ASSERT of the source is in the model, so a theorem that a call answers
    [Ok] says that no assertion fails in it.  Integers are [Z] with the wrap-around
    of their C types written out ([u8], [u32], [s32], [u64], [s64]).  Objects in
    kernel memory are kept by address in finite maps, and freed objects trap.

    ** The files

    Library.  [Vaddr]: [threads/vaddr.h], [threads/pte.h].  [Arith64]:
    [lib/arithmetic.c].  [KList], [KListSort]: [lib/kernel/list.c] on a heap of
    links.  [CString]: [lib/string.c].  [CStdlib]: [lib/stdlib.c].  [Stdio],
    [StdioOk], [StdioProps]: [__vprintf] and [snprintf] of [lib/stdio.c].
    [Bitmap]: [lib/kernel/bitmap.c].  [Hash]: [lib/kernel/hash.c].

    File system.  [Block]: [devices/block.c] over a driver with the laws
    [BlockLaws]; all that follows is proved for any driver that has them.
    [FsState]: the objects in memory and on disk.  [Inode], [FreeMap], [File],
    [Directory]: the files of [filesys/] with these names and [filesys/filesys.c].
    [FsInv]: the invariant.  [FsFiles], [FsDir]: steps over it.  [FsSpec]: the
    abstract file system, names to contents, and the relation [refines].
    [FsOps], [FsNames], [FsMount]: every call implements its abstract operation.
    [FsProps]: the theorems.  [FsGrow]: addresses of [malloc] stay taken.

    Memory.  [Palloc]: [threads/palloc.c].  [Pagedir]: [userprog/pagedir.c] as
    words of memory.  [Spage], [Swap], [Frame]: the files of [vm/].  [Fault]:
    [page_fault] of [userprog/exception.c] and the end of a process.  [VmInv]: the
    invariant, with the bytes of every page of every process as a ghost.  [Clock],
    [Evict], [Paging], [PageFault]: eviction and faults keep these bytes.
    [UserMemory]: loads and stores of a process as the CPU makes them.
    [ProcessExit], [VmProps]: the end of a process, and the theorems.

    Processes and system calls.  [Loader]: [load] of [userprog/process.c].
    [LoadSteps], [LoadOk], [LoadStack], [LoadProps]: what a loaded program finds in
    its memory.  [Syscall]: [userprog/syscall.c].  [SyscallMem], [SyscallOk],
    [SyscallCall], [Descriptors], [SyscallProps]: calls from the words on the stack
    to bytes in user memory and in files.

    Threads.  [Sched]: the scheduler of [threads/thread.c] and the dispatch of
    [threads/interrupt.c].  [Synch]: [threads/synch.c].  [Thread]: the life of a
    thread, [process_execute] and [process_wait], and the step relation: the
    running thread calls a primitive or goes on inside one, or an interrupt
    arrives.  What a sleeping thread has still to do is a stack of return points.
    [KernelInv], [KernelSteps]: the invariant of every reachable state.
    [KernelProps], [KernelLive]: the theorems.

    The components meet in interfaces: the laws of a block device between a driver
    and the file system and swap, [refines] between the file system and its
    callers, [vm_inv] between page faults and everything that touches user memory.

    ** What the theorems show

    - The file system implements the abstract one call by call, as long as
      [malloc] has memory; formatting gives the empty one, and mounting again gives
      back every file.
    - A process cannot tell paging from plain memory: loads and stores behave as on
      an array of bytes, whatever pages are moved, and no other process loses one.
      The clock finds a victim within one turn and one step; the end of a process
      gives back all its memory.
    - [load] puts the segments of the executable and the arguments of [main] where
      they belong; [read], [write], [open] and [close] do what their callers expect,
      or the kernel runs out of memory on the way.
    - In every reachable state of the kernel a thread is on the lists its status
      says, a lock has one owner and no wake-up is lost; a ready thread runs after
      at most as many switches as there are threads before it.
    - Lists, bitmaps, hash tables, sorting, strings, division and formatted output
      compute what their reference definitions say, and their loops end.
    - Some runs do what they should not: a search for a descriptor that hangs, a
      frame that is leaked, an assertion a user process can make fail, a [struct
      thread] used after it was freed.  Each is a theorem with the run in it.

    ** Fuel

    A loop that is not structural takes fuel; [OutOfFuel] is no behaviour of the
    code.  The fuel is the length of a list plus one for lists, the number of mapped
    bytes plus one for strings, one turn of the clock plus one for eviction, the
    number of pages for segments, the length of the format plus that of a message
    for formats.  That it is enough is part of the theorems: they say that the call
    answers [Ok].  [fd_search_hangs] alone says that no fuel is enough.

    ** Parameters

    [find_spinfo_by_kpage], which [evict_page] calls and no file of the repository
    defines, is the class [KpageSearch] with the laws [KpageLaws]; an instance that
    searches the table has them.  Values the code reads before they are set
    ([junk] and [djunk] arguments) and the content of memory at boot are arguments,
    so the theorems hold for all of them.  The answers of [malloc] are part of the
    state; the invariants ask for memory left, and a theorem of [FsProps] shows what
    happens to a directory when there is none.

    ** Not modelled

    - Drivers ([devices/ide.c], [kbd.c], [serial.c], [vga.c], [timer.c] and the
      like): input and output on ports of the hardware.  The block layer takes a
      driver as an interface, timer interrupts are steps of the kernel.
    - Boot and the machine ([threads/init.c], the assembly files, [userprog/gdt.c],
      [tss.c]): run once to set up tables the models start from.
    - [threads/malloc.c]: an allocation gives an address never used before, or
      fails.
    - The console and what prints on it ([lib/kernel/console.c], [printf]), messages
      and statistics, [lib/random.c], [lib/ustar.c] and the self tests.
    - The cache of translations of the CPU; the two locks of the page pools.
    - One call of the virtual memory or of the file system is one step: the locks
      [memory_master_lock] and [syscall_lock] are in the state and are tested, but
      their waiting is that of [Synch], in the other machine.
    - Programs that run outside the kernel ([examples/], [tests/], [utils/],
      [lib/user/]). *)

From Stdlib Require Export ZArith Lia.
From stdpp Require Export prelude gmap strings list.

#[global] Open Scope Z_scope.

(** ** Results of C code

    A C function of the kernel either returns or stops the machine: [ASSERT]
    and [PANIC] both call [debug_panic], a wild access or a divide error is a
    CPU exception in kernel mode.  [OutOfFuel] is not a behaviour of the code:
    it marks a bounded run of an unbounded loop that has not finished. *)

Inductive fault :=
  | AssertFailed
  | Panicked (msg : string)
  | Trap
  | OutOfFuel.

Inductive res (A : Type) :=
  | Ok (a : A)
  | Err (f : fault).
Arguments Ok {A} a.
Arguments Err {A} f.

#[global] Instance fault_eq_dec : EqDecision fault.
Proof. solve_decision. Defined.

#[global] Instance res_ret : MRet res := fun A a => Ok a.
#[global] Instance res_bind : MBind res :=
  fun A B f m => match m with Ok a => f a | Err e => Err e end.
#[global] Instance res_fmap : FMap res :=
  fun A B f m => match m with Ok a => Ok (f a) | Err e => Err e end.

Definition ASSERT (b : bool) : res unit := if b then Ok tt else Err AssertFailed.

(** [of_option f o] reads a cell that may be absent; absence is the fault [f]. *)
Definition of_option {A} (f : fault) (o : option A) : res A :=
  match o with Some a => Ok a | None => Err f end.

(** A C statement list threading a store [S]: what it returns and the store
    it leaves, or the fault that stopped the kernel. *)
Definition M (S A : Type) := S -> res (A * S).
#[global] Instance M_ret S : MRet (M S) := fun A a s => Ok (a, s).
#[global] Instance M_bind S : MBind (M S) :=
  fun A B f m s => match m s with Ok (a, s') => f a s' | Err e => Err e end.

Definition get {S} : M S S := fun s => Ok (s, s).
Definition put {S} (s : S) : M S unit := fun _ => Ok (tt, s).
Definition modify {S} (f : S -> S) : M S unit := fun s => Ok (tt, f s).
Definition fail {S A} (f : fault) : M S A := fun _ => Err f.
Definition lift {S A} (r : res A) : M S A :=
  fun s => match r with Ok a => Ok (a, s) | Err e => Err e end.
Definition assert {S} (b : bool) : M S unit := lift (ASSERT b).

(** ** Machine integers

    The kernel is ILP32 code: [int], [long], [size_t] and pointers are 32 bits.
    A value is kept as the integer it denotes; [uN] and [sN] are the
    conversions to an unsigned or signed N-bit type. *)
Definition u8 (x : Z) : Z := x mod 2 ^ 8.
Definition u32 (x : Z) : Z := x mod 2 ^ 32.
Definition u64 (x : Z) : Z := x mod 2 ^ 64.
Definition s32 (x : Z) : Z := (x + 2 ^ 31) mod 2 ^ 32 - 2 ^ 31.
Definition s64 (x : Z) : Z := (x + 2 ^ 63) mod 2 ^ 64 - 2 ^ 63.

(** The null pointer. *)
Definition NULL : Z := 0.

Definition SIZE_MAX : Z := 2 ^ 32 - 1.
Definition INT_MAX : Z := 2 ^ 31 - 1.

(** The macros of [lib/round.h] at type [size_t]. *)
Definition DIV_ROUND_UP (x step : Z) : Z := u32 (x + step - 1) / step.
Definition ROUND_UP (x step : Z) : Z := u32 (u32 (x + step - 1) / step * step).
Definition ROUND_DOWN (x step : Z) : Z := x / step * step.

Create HintDb word.
Create Rewrite HintDb word.

Lemma u32_small x : 0 <= x < 2 ^ 32 -> u32 x = x.
Proof. apply Z.mod_small. Qed.
Lemma u64_small x : 0 <= x < 2 ^ 64 -> u64 x = x.
Proof. apply Z.mod_small. Qed.
Lemma u8_small x : 0 <= x < 2 ^ 8 -> u8 x = x.
Proof. apply Z.mod_small. Qed.
Lemma s32_small x : - 2 ^ 31 <= x < 2 ^ 31 -> s32 x = x.
Proof. unfold s32. intros ?. rewrite Z.mod_small; lia. Qed.
Lemma s64_small x : - 2 ^ 63 <= x < 2 ^ 63 -> s64 x = x.
Proof. unfold s64. intros ?. rewrite Z.mod_small; lia. Qed.

Lemma u8_range x : 0 <= u8 x < 2 ^ 8.
Proof. apply Z.mod_pos_bound; lia. Qed.
Lemma u32_range x : 0 <= u32 x < 2 ^ 32.
Proof. apply Z.mod_pos_bound; lia. Qed.
Lemma u64_range x : 0 <= u64 x < 2 ^ 64.
Proof. apply Z.mod_pos_bound; lia. Qed.
Lemma s32_range x : - 2 ^ 31 <= s32 x < 2 ^ 31.
Proof. unfold s32. pose proof (Z.mod_pos_bound (x + 2 ^ 31) (2 ^ 32)). lia. Qed.
#[export] Hint Resolve u8_range u32_range u64_range s32_range : word.
#[export] Hint Rewrite u32_small u64_small u8_small s32_small s64_small using lia : word.

(** [word] clears the conversions whose argument is in range. *)
Ltac word := autorewrite with word.

(** ** Bitwise reasoning: compare two integers bit by bit. *)
Create Rewrite HintDb zbits.
#[export] Hint Rewrite Z.land_spec Z.lor_spec Z.lxor_spec Z.ldiff_spec : zbits.
#[export] Hint Rewrite Z.lnot_spec Z.shiftl_spec Z.shiftr_spec Z.bits_0 using lia : zbits.
#[export] Hint Rewrite Bool.andb_true_r Bool.andb_false_r Bool.orb_true_r Bool.orb_false_r
  Bool.andb_true_l Bool.andb_false_l Bool.orb_true_l Bool.orb_false_l : zbits.

Lemma testbit_high x n i : 0 <= x < 2 ^ n -> 0 <= n <= i -> Z.testbit x i = false.
Proof.
  intros Hx Hi. rewrite <- (Z.mod_small x (2 ^ n)) by done.
  apply Z.mod_pow2_bits_high; lia.
Qed.

Lemma testbit_ones n i : 0 <= n -> 0 <= i -> Z.testbit (Z.ones n) i = (i <? n).
Proof.
  intros Hn Hi. destruct (i <? n) eqn:E.
  - apply Z.ones_spec_low. lia.
  - apply Z.ones_spec_high. lia.
Qed.

Lemma testbit_pow2 n i : 0 <= n -> Z.testbit (2 ^ n) i = bool_decide (n = i).
Proof.
  intros Hn. case_bool_decide.
  - subst. by apply Z.pow2_bits_true.
  - apply Z.pow2_bits_false. lia.
Qed.

Lemma land_pow2_nonzero x n :
  0 <= n -> negb (Z.land x (2 ^ n) =? 0) = Z.testbit x n.
Proof.
  intros Hn. destruct (Z.testbit x n) eqn:E.
  - apply negb_true_iff, Z.eqb_neq. intros H0.
    assert (Z.testbit (Z.land x (2 ^ n)) n = true) as Hb.
    { rewrite Z.land_spec, E, testbit_pow2 by done. by rewrite bool_decide_true. }
    by rewrite H0, Z.bits_0 in Hb.
  - apply negb_false_iff, Z.eqb_eq, Z.bits_inj'. intros i Hi.
    rewrite Z.land_spec, testbit_pow2, Z.bits_0 by done.
    case_bool_decide; [subst; by rewrite E | by rewrite andb_false_r].
Qed.

Lemma land_range x y n : 0 <= x < 2 ^ n -> 0 <= y -> 0 <= Z.land x y < 2 ^ n.
Proof.
  intros Hx Hy. assert (0 <= n) by (destruct (decide (0 <= n)); [done|];
    rewrite Z.pow_neg_r in Hx by lia; lia).
  split; [apply Z.land_nonneg; lia|].
  destruct (decide (Z.land x y = 0)) as [->|]; [apply Z.pow_pos_nonneg; lia|].
  assert (0 <= Z.land x y) by (apply Z.land_nonneg; lia).
  apply Z.log2_lt_pow2; [lia|].
  pose proof (Z.log2_land x y ltac:(lia) ltac:(lia)).
  destruct (decide (x = 0)) as [->|]; [rewrite Z.land_0_l in *; lia|].
  assert (Z.log2 x < n) by (apply Z.log2_lt_pow2; lia). lia.
Qed.

Lemma lor_range x y n : 0 <= x < 2 ^ n -> 0 <= y < 2 ^ n -> 0 <= Z.lor x y < 2 ^ n.
Proof.
  intros Hx Hy. assert (0 <= n) by (destruct (decide (0 <= n)); [done|];
    rewrite Z.pow_neg_r in Hx by lia; lia).
  split; [apply Z.lor_nonneg; lia|].
  destruct (decide (Z.lor x y = 0)) as [->|]; [apply Z.pow_pos_nonneg; lia|].
  assert (0 <= Z.lor x y) by (apply Z.lor_nonneg; lia).
  apply Z.log2_lt_pow2; [lia|]. rewrite Z.log2_lor by lia.
  apply Z.max_lub_lt.
  - destruct (decide (x = 0)) as [->|]; [|apply Z.log2_lt_pow2; lia].
    destruct (decide (n = 0)); [subst; simpl in *|rewrite Z.log2_nonpos; lia].
    assert (y = 0) by lia. subst. done.
  - destruct (decide (y = 0)) as [->|]; [|apply Z.log2_lt_pow2; lia].
    destruct (decide (n = 0)); [subst; simpl in *|rewrite Z.log2_nonpos; lia].
    assert (x = 0) by lia. subst. done.
Qed.

Lemma lxor_range x y n : 0 <= x < 2 ^ n -> 0 <= y < 2 ^ n -> 0 <= Z.lxor x y < 2 ^ n.
Proof.
  intros Hx Hy. assert (0 <= n) by (destruct (decide (0 <= n)); [done|];
    rewrite Z.pow_neg_r in Hx by lia; lia).
  assert (Z.lxor x y mod 2 ^ n = Z.lxor x y) as <-.
  { apply Z.bits_inj'. intros i Hi. destruct (decide (i < n)).
    - by rewrite Z.mod_pow2_bits_low by lia.
    - rewrite Z.mod_pow2_bits_high, Z.lxor_spec by lia.
      by rewrite !(testbit_high _ n i) by lia. }
  apply Z.mod_pos_bound, Z.pow_pos_nonneg; lia.
Qed.

(** ** Running the monads: inversion of a successful run. *)
Lemma bind_ok {A B} (m : res A) (f : A -> res B) b :
  m ≫= f = Ok b -> exists a, m = Ok a /\ f a = Ok b.
Proof. destruct m; simpl; [eauto | done]. Qed.

Lemma M_bind_ok {S A B} (m : M S A) (f : A -> M S B) s b s' :
  (m ≫= f) s = Ok (b, s') -> exists a s1, m s = Ok (a, s1) /\ f a s1 = Ok (b, s').
Proof. unfold mbind, M_bind. destruct (m s) as [[a s1]|]; [eauto | done]. Qed.

(** Running a statement forward. *)
Lemma bind_run {S A B} (m : M S A) (k : A -> M S B) s a s' :
  m s = Ok (a, s') -> (m ≫= k) s = k a s'.
Proof. intros H. unfold mbind, M_bind. by rewrite H. Qed.
Lemma assert_run {S} b (s : S) : b = true -> assert b s = Ok (tt, s).
Proof. by intros ->. Qed.

(** [bind_by t] runs the first statement of the goal, [t] shows how it runs. *)
Tactic Notation "bind_by" tactic3(t) := erewrite bind_run by t; cbv beta.

Lemma ASSERT_ok b u : ASSERT b = Ok u -> b = true.
Proof. by destruct b. Qed.

Lemma ASSERT_true b : b = true -> ASSERT b = Ok tt.
Proof. by intros ->. Qed.

(** [inv_ok H] peels the statements off a run that returned. *)
Ltac inv_ok H :=
  repeat first
    [ progress simplify_eq
    | match type of H with
      | (_ ≫= _) = Ok _ =>
          let a := fresh "a" in let E := fresh "E" in
          apply bind_ok in H; destruct H as (a & E & H)
      | (_ ≫= _) _ = Ok _ =>
          let a := fresh "a" in let s := fresh "s" in let E := fresh "E" in
          apply M_bind_ok in H; destruct H as (a & s & E & H)
      end ].

Ltac bool_to_prop :=
  repeat match goal with
    | H : negb _ = true |- _ => apply negb_true_iff in H
    | H : negb _ = false |- _ => apply negb_false_iff in H
    | H : _ && _ = true |- _ => apply andb_true_iff in H; destruct H
    | H : _ || _ = false |- _ => apply orb_false_iff in H; destruct H
    | H : (_ <? _) = true |- _ => apply Z.ltb_lt in H
    | H : (_ <? _) = false |- _ => apply Z.ltb_ge in H
    | H : (_ <=? _) = true |- _ => apply Z.leb_le in H
    | H : (_ <=? _) = false |- _ => apply Z.leb_gt in H
    | H : (_ =? _) = true |- _ => apply Z.eqb_eq in H
    | H : (_ =? _) = false |- _ => apply Z.eqb_neq in H
    | H : bool_decide _ = true |- _ => apply bool_decide_eq_true in H
    | H : bool_decide _ = false |- _ => apply bool_decide_eq_false in H
    end.

(** ** Lists *)

Lemma filter_all {A} (P : A -> Prop) `{forall x, Decision (P x)} (l : list A) :
  (forall x, x ∈ l -> P x) -> filter P l = l.
Proof.
  induction l as [|x l IH]; intros HP; [done|].
  rewrite filter_cons_True by (apply HP; left). f_equal. apply IH. intros y Hy. apply HP. by right.
Qed.

Lemma filter_ne_perm {A} `{EqDecision A} x (xs : list A) :
  NoDup xs -> x ∈ xs -> xs ≡ₚ x :: filter (fun y => y <> x) xs.
Proof.
  induction 1 as [|y xs Hy Hn IH]; intros Hx; [by apply not_elem_of_nil in Hx|].
  apply elem_of_cons in Hx as [->|Hx].
  - rewrite filter_cons_False by (intros Hne; by apply Hne). f_equiv.
    rewrite filter_all; [done|]. by intros z Hz ->.
  - rewrite filter_cons_True by (by intros ->). rewrite (IH Hx) at 1. apply Permutation_swap.
Qed.

Lemma join_filter {A} (P : A -> Prop) `{forall x, Decision (P x)} (bs : list (list A)) :
  mjoin (map (filter P) bs) = filter P (mjoin bs).
Proof. induction bs as [|b bs IH]; simpl; [done|]. by rewrite filter_app, IH. Qed.

(** ** Sums over finite maps *)

Definition b2z (b : bool) : Z := if b then 1 else 0.

(** [map_sum w m] adds up the weights of the entries of [m]. *)
Definition map_sum `{Countable K} {A} (w : A -> Z) (m : gmap K A) : Z :=
  map_fold (fun _ a n => w a + n) 0 m.

Section MapSum.
Context `{Countable K} {A : Type} (w : A -> Z).
Implicit Types m : gmap K A.

Lemma map_sum_new m i a : m !! i = None -> map_sum w (<[i := a]> m) = w a + map_sum w m.
Proof.
  intros Hi. unfold map_sum. rewrite map_fold_insert_L; [done| |done].
  intros. lia.
Qed.

Lemma map_sum_delete m i a : m !! i = Some a -> map_sum w (delete i m) = map_sum w m - w a.
Proof.
  intros Hi. pose proof (map_sum_new (delete i m) i a (lookup_delete_eq _ _)) as E.
  rewrite insert_delete_id in E by done. lia.
Qed.

Lemma map_sum_update m i a a' :
  m !! i = Some a -> map_sum w (<[i := a']> m) = map_sum w m - w a + w a'.
Proof.
  intros Hi. rewrite <- insert_delete_eq, map_sum_new by apply lookup_delete_eq.
  rewrite (map_sum_delete _ _ a) by done. lia.
Qed.

Lemma map_sum_nonneg m : (forall i a, m !! i = Some a -> 0 <= w a) -> 0 <= map_sum w m.
Proof.
  induction m as [|i a m Hi IH] using map_ind; intros Hw; [done|].
  rewrite map_sum_new by done. specialize (Hw i a (lookup_insert_eq _ _ _)) as Hwa.
  assert (0 <= map_sum w m); [|lia]. apply IH. intros j b Hj. apply (Hw j b).
  rewrite lookup_insert_ne by (intros ->; congruence). done.
Qed.

Lemma map_sum_ge m i a :
  (forall j b, m !! j = Some b -> 0 <= w b) -> m !! i = Some a -> w a <= map_sum w m.
Proof.
  intros Hw Hi. pose proof (map_sum_delete m i a Hi) as Hd.
  assert (0 <= map_sum w (delete i m)); [|lia]. apply map_sum_nonneg.
  intros j b [_ Hj]%lookup_delete_Some. by eapply Hw.
Qed.

Lemma map_sum_pos m : 0 < map_sum w m -> exists i a, m !! i = Some a /\ 0 < w a.
Proof.
  induction m as [|i a m Hi IH] using map_ind; [unfold map_sum; rewrite map_fold_empty; lia|].
  rewrite map_sum_new by done. intros Hpos. destruct (decide (0 < w a)).
  - exists i, a. split; [apply lookup_insert_eq|done].
  - destruct IH as (j & b & Hj & Hb); [lia|]. exists j, b. split; [|done].
    rewrite lookup_insert_ne by (intros ->; congruence). done.
Qed.

Lemma map_sum_zero m : (forall i x, m !! i = Some x -> w x = 0) -> map_sum w m = 0.
Proof.
  intros Hw. assert (forall i x, m !! i = Some x -> 0 <= w x) as Hnn.
  { intros i x Hi. rewrite (Hw i x Hi). done. }
  pose proof (map_sum_nonneg m Hnn).
  destruct (decide (0 < map_sum w m)) as [Hp|]; [|lia].
  apply map_sum_pos in Hp as (i & a & Hi & Ha). rewrite (Hw i a Hi) in Ha. lia.
Qed.
End MapSum.

Lemma map_sum_size `{Countable K} {A} (w : A -> Z) (m : gmap K A) :
  (forall i a, m !! i = Some a -> w a <= 1) -> map_sum w m <= Z.of_nat (size m).
Proof.
  induction m as [|i a m Hi IH] using map_ind; intros Hw; [done|].
  rewrite map_sum_new, map_size_insert_None by done. specialize (Hw i a (lookup_insert_eq _ _ _)) as Hwa.
  assert (map_sum w m <= Z.of_nat (size m)); [|lia]. apply IH. intros j b Hj. apply (Hw j b).
  rewrite lookup_insert_ne by (intros ->; congruence). done.
Qed.

Lemma map_sum_le `{Countable K} {A} (w v : A -> Z) (m : gmap K A) :
  (forall i a, m !! i = Some a -> w a <= v a) -> map_sum w m <= map_sum v m.
Proof.
  induction m as [|i a m Hi IH] using map_ind; intros Hw; [done|].
  rewrite !map_sum_new by done. specialize (Hw i a (lookup_insert_eq _ _ _)) as Hwa.
  assert (map_sum w m <= map_sum v m); [|lia]. apply IH. intros j b Hj. apply (Hw j b).
  rewrite lookup_insert_ne by (intros ->; congruence). done.
Qed.

(** ** Bytes in memory *)

(** A 32-bit word is four bytes, least significant first. *)
Definition elem_bytes (w : Z) : list Z :=
  [w mod 256; w / 256 mod 256; w / 65536 mod 256; w / 16777216 mod 256].
Definition elem_of_bytes (l : list Z) : Z :=
  nth 0 l 0 + 256 * nth 1 l 0 + 65536 * nth 2 l 0 + 16777216 * nth 3 l 0.

(** [n] bytes of a buffer from offset [ofs]; reading past its end is a fault. *)
Definition read_bytes (buf : list Z) (ofs n : Z) : res (list Z) :=
  if (0 <=? ofs) && (0 <=? n) && (ofs + n <=? Z.of_nat (length buf))
  then Ok (take (Z.to_nat n) (drop (Z.to_nat ofs) buf)) else Err Trap.

(** [memcpy] of [data] to offset [ofs] of a buffer. *)
Definition overwrite (buf : list Z) (ofs : Z) (data : list Z) : list Z :=
  take (Z.to_nat ofs) buf ++ data ++ drop (Z.to_nat ofs + length data) buf.

Lemma elem_bytes_roundtrip w : 0 <= w < 2 ^ 32 -> elem_of_bytes (elem_bytes w) = w.
Proof. intros. unfold elem_of_bytes, elem_bytes. cbn [nth]. Z.to_euclidean_division_equations. lia. Qed.

Lemma read_bytes_ok buf ofs n :
  0 <= ofs -> 0 <= n -> ofs + n <= Z.of_nat (length buf) ->
  read_bytes buf ofs n = Ok (take (Z.to_nat n) (drop (Z.to_nat ofs) buf)).
Proof.
  intros. unfold read_bytes.
  by rewrite (proj2 (Z.leb_le 0 ofs)), (proj2 (Z.leb_le 0 n)), (proj2 (Z.leb_le _ _)) by lia.
Qed.

Lemma overwrite_length buf ofs data :
  0 <= ofs -> ofs + Z.of_nat (length data) <= Z.of_nat (length buf) ->
  length (overwrite buf ofs data) = length buf.
Proof. intros. unfold overwrite. rewrite !length_app, length_take, length_drop. lia. Qed.

Lemma lookup_overwrite buf ofs data i :
  0 <= ofs <= Z.of_nat (length buf) ->
  overwrite buf ofs data !! i =
    if decide (Z.to_nat ofs <= i < Z.to_nat ofs + length data)%nat then data !! (i - Z.to_nat ofs)%nat
    else buf !! i.
Proof.
  intros Ho. unfold overwrite. set (o := Z.to_nat ofs).
  assert (length (take o buf) = o) as Ht by (rewrite length_take; lia).
  case_decide as Hd.
  - rewrite lookup_app_r, lookup_app_l, Ht by lia. done.
  - destruct (decide (i < o)%nat).
    + rewrite lookup_app_l, lookup_take_lt by lia. done.
    + rewrite lookup_app_r, lookup_app_r, Ht, lookup_drop by lia. f_equal. lia.
Qed.
