(* ===== verification/Vaddr.v ===== *)
(** * Virtual addresses and page-table entries

    Models [threads/vaddr.h] and [threads/pte.h]: the split of a 32-bit
    address into directory index, table index and offset, the 1:1 mapping of
    physical memory at [PHYS_BASE], and the encoding of PDEs and PTEs.  The
    theorems say that the split is exact, that two pages with the same indices
    are the same page, and that decoding an entry gives back the page and the
    flags that were encoded. *)

From S2P Require Import Prelude.

(** ** [threads/vaddr.h] *)
Definition BITMASK (shift cnt : Z) : Z := u32 (Z.shiftl (u32 (Z.shiftl 1 cnt) - 1) shift).
Definition PGSHIFT : Z := 0.
Definition PGBITS : Z := 12.
Definition PGSIZE : Z := 4096.
Definition PGMASK : Z := BITMASK PGSHIFT PGBITS.

Definition pg_ofs (va : Z) : Z := Z.land va PGMASK.
Definition pg_no (va : Z) : Z := Z.shiftr va PGBITS.
Definition pg_round_up (va : Z) : Z := Z.land (u32 (va + PGSIZE - 1)) (u32 (Z.lnot PGMASK)).
Definition pg_round_down (va : Z) : Z := Z.land va (u32 (Z.lnot PGMASK)).

Definition PHYS_BASE : Z := 0xc0000000.
Definition is_user_vaddr (va : Z) : bool := va <? PHYS_BASE.
Definition is_kernel_vaddr (va : Z) : bool := PHYS_BASE <=? va.

Definition ptov (paddr : Z) : res Z :=
  _ ← ASSERT (paddr <? PHYS_BASE);
  Ok (u32 (paddr + PHYS_BASE)).

Definition vtop (va : Z) : res Z :=
  _ ← ASSERT (is_kernel_vaddr va);
  Ok (u32 (va - PHYS_BASE)).

(** ** [threads/pte.h] *)
Definition PTSHIFT : Z := PGBITS.
Definition PTBITS : Z := 10.
Definition PTMASK : Z := BITMASK PTSHIFT PTBITS.
Definition PDSHIFT : Z := PTSHIFT + PTBITS.

Definition pt_no (va : Z) : Z := Z.shiftr (Z.land va PTMASK) PTSHIFT.
Definition pd_no (va : Z) : Z := Z.shiftr va PDSHIFT.

Definition PTE_ADDR : Z := 0xfffff000.
Definition PTE_P : Z := 0x1.
Definition PTE_W : Z := 0x2.
Definition PTE_U : Z := 0x4.
Definition PTE_A : Z := 0x20.
Definition PTE_D : Z := 0x40.

Definition pde_create (pt : Z) : res Z :=
  _ ← ASSERT (pg_ofs pt =? 0);
  p ← vtop pt;
  Ok (Z.lor (Z.lor (Z.lor p PTE_U) PTE_P) PTE_W).

Definition pde_get_pt (pde : Z) : res Z :=
  _ ← ASSERT (negb (Z.land pde PTE_P =? 0));
  ptov (Z.land pde PTE_ADDR).

Definition pte_create_kernel (page : Z) (writable : bool) : res Z :=
  _ ← ASSERT (pg_ofs page =? 0);
  p ← vtop page;
  Ok (Z.lor (Z.lor p PTE_P) (if writable then PTE_W else 0)).

Definition pte_create_user (page : Z) (writable : bool) : res Z :=
  k ← pte_create_kernel page writable;
  Ok (Z.lor k PTE_U).

Definition pte_get_page (pte : Z) : res Z := ptov (Z.land pte PTE_ADDR).

(** ** Arithmetic reading of the masks *)
Lemma PGMASK_val : PGMASK = Z.ones 12.
Proof. reflexivity. Qed.

Lemma pg_ofs_mod va : pg_ofs va = va mod PGSIZE.
Proof. unfold pg_ofs. rewrite PGMASK_val. apply Z.land_ones. lia. Qed.

Lemma pg_no_div va : pg_no va = va / PGSIZE.
Proof. apply Z.shiftr_div_pow2. unfold PGBITS. lia. Qed.

Lemma pd_no_div va : pd_no va = va / 2 ^ 22.
Proof. apply Z.shiftr_div_pow2. unfold PDSHIFT, PTSHIFT, PGBITS, PTBITS. lia. Qed.

Lemma pt_no_divmod va : pt_no va = (va / PGSIZE) mod 1024.
Proof.
  unfold pt_no. change PTMASK with (Z.shiftl (Z.ones 10) 12).
  change PTSHIFT with 12. rewrite Z.shiftr_land, Z.shiftr_shiftl_l by lia.
  change (12 - 12) with 0. rewrite Z.shiftl_0_r, Z.land_ones by lia.
  rewrite Z.shiftr_div_pow2 by lia. reflexivity.
Qed.

(** Clearing the low 12 bits of a 32-bit value. *)
Lemma land_page_mask x : 0 <= x < 2 ^ 32 -> Z.land x PTE_ADDR = x - x mod PGSIZE.
Proof.
  intros Hx. change PTE_ADDR with (Z.shiftl (Z.ones 20) 12).
  assert (Z.land x (Z.shiftl (Z.ones 20) 12) = Z.shiftl (Z.shiftr x 12) 12) as ->.
  { apply Z.bits_inj'. intros i Hi. rewrite Z.land_spec, !Z.shiftl_spec by lia.
    destruct (decide (i < 12)).
    { rewrite !(Z.testbit_neg_r _ (i - 12)) by lia. apply andb_false_r. }
    rewrite testbit_ones, Z.shiftr_spec by lia. replace (i - 12 + 12) with i by lia.
    destruct (i - 12 <? 20) eqn:E; [by rewrite andb_true_r|]. bool_to_prop.
    rewrite andb_false_r. symmetry. apply (testbit_high x 32); lia. }
  rewrite Z.shiftl_mul_pow2, Z.shiftr_div_pow2 by lia.
  change (2 ^ 12) with PGSIZE. pose proof (Z.div_mod x PGSIZE ltac:(done)). lia.
Qed.

Lemma pg_round_down_sub va :
  0 <= va < 2 ^ 32 -> pg_round_down va = va - va mod PGSIZE.
Proof. apply land_page_mask. Qed.

(** A low flag does not disturb a page-aligned word. *)
Lemma lor_page_flag p f :
  0 <= p -> p mod PGSIZE = 0 -> 0 <= f < PGSIZE -> Z.lor p f = p + f.
Proof.
  intros Hp Hm Hf. rewrite <- Z.lxor_lor, <- Z.add_nocarry_lxor; [done|..];
  apply Z.bits_inj'; intros i Hi; rewrite Z.land_spec, Z.bits_0;
  (destruct (decide (i < 12));
   [ rewrite <- (Z.mod_pow2_bits_low p 12) by lia; change (2 ^ 12) with PGSIZE;
     rewrite Hm, Z.bits_0; done
   | rewrite (testbit_high f 12) by (change (2 ^ 12) with PGSIZE; lia); apply andb_false_r ]).
Qed.

Lemma aligned_low_bits p i : p mod PGSIZE = 0 -> 0 <= i < 12 -> Z.testbit p i = false.
Proof.
  intros Hm Hi. rewrite <- (Z.mod_pow2_bits_low p 12) by lia.
  change (2 ^ 12) with PGSIZE. rewrite Hm. apply Z.bits_0.
Qed.

Lemma kernel_page_vtop p :
  PHYS_BASE <= p < 2 ^ 32 -> vtop p = Ok (p - PHYS_BASE).
Proof.
  intros Hp. unfold vtop, is_kernel_vaddr. rewrite ASSERT_true by (apply Z.leb_le; lia).
  simpl. unfold PHYS_BASE in *. by word.
Qed.

Lemma ptov_page p : 0 <= p < 2 ^ 32 - PHYS_BASE -> ptov p = Ok (p + PHYS_BASE).
Proof.
  intros Hp. unfold ptov. unfold PHYS_BASE in *.
  rewrite ASSERT_true by (apply Z.ltb_lt; lia). simpl. by word.
Qed.

Lemma aligned_phys p : p mod PGSIZE = 0 -> (p - PHYS_BASE) mod PGSIZE = 0.
Proof.
  intros Hm. rewrite Zminus_mod, Hm. reflexivity.
Qed.

(** Decoding an entry built from an aligned frame and flags below 4096. *)
Lemma decode_frame p f :
  PHYS_BASE <= p < 2 ^ 32 -> p mod PGSIZE = 0 -> 0 <= f < PGSIZE ->
  ptov (Z.land (p - PHYS_BASE + f) PTE_ADDR) = Ok p.
Proof.
  intros Hp Hm Hf. unfold PHYS_BASE, PGSIZE in *.
  rewrite land_page_mask by (unfold PGSIZE; lia).
  rewrite Zplus_mod, aligned_phys, Z.add_0_l, Z.mod_mod, Z.mod_small by (unfold PGSIZE; lia).
  rewrite ptov_page by (unfold PHYS_BASE; lia). unfold PHYS_BASE. f_equal. lia.
Qed.

Lemma vaddr_parts va :
  0 <= va < 2 ^ 32 ->
  va = pd_no va * 2 ^ 22 + pt_no va * 2 ^ 12 + pg_ofs va /\
  0 <= pd_no va < 1024 /\ 0 <= pt_no va < 1024 /\ 0 <= pg_ofs va < PGSIZE /\
  pg_round_down va = va - pg_ofs va /\ pg_no va = pd_no va * 1024 + pt_no va.
Proof.
  intros Hva. rewrite pg_round_down_sub, pd_no_div, pt_no_divmod, pg_ofs_mod, pg_no_div by done.
  change (2 ^ 22) with (PGSIZE * 1024). change (2 ^ 12) with PGSIZE.
  rewrite <- Z.div_div by done. unfold PGSIZE.
  pose proof (Z.div_mod va 4096 ltac:(done)).
  pose proof (Z.div_mod (va / 4096) 1024 ltac:(done)).
  pose proof (Z.mod_pos_bound va 4096 ltac:(done)).
  pose proof (Z.mod_pos_bound (va / 4096) 1024 ltac:(done)).
  repeat split; lia.
Qed.

Lemma pte_user_ok page w :
  PHYS_BASE <= page < 2 ^ 32 -> pg_ofs page = 0 ->
  exists pte, pte_create_user page w = Ok pte /\ pte_get_page pte = Ok page /\
    0 <= pte < 2 ^ 32 /\
    negb (Z.land pte PTE_P =? 0) = true /\ negb (Z.land pte PTE_U =? 0) = true /\
    negb (Z.land pte PTE_W =? 0) = w /\
    negb (Z.land pte PTE_A =? 0) = false /\ negb (Z.land pte PTE_D =? 0) = false.
Proof.
  intros Hp Ho. pose proof Ho as Hm. rewrite pg_ofs_mod in Hm.
  unfold pte_create_user, pte_create_kernel.
  rewrite Ho, ASSERT_true, kernel_page_vtop by done. simpl.
  pose proof (aligned_phys _ Hm) as Hm'. unfold PHYS_BASE in *.
  rewrite <- Z.lor_assoc, <- Z.lor_assoc. set (f := Z.lor PTE_P _).
  assert (0 <= f < PGSIZE) as Hf by (destruct w; split; reflexivity || discriminate).
  eexists. split; [reflexivity|]. rewrite lor_page_flag by (unfold PHYS_BASE in *; lia || done).
  assert (0 <= page - 3221225472 + f < 2 ^ 32) by (unfold PGSIZE in *; lia).
  split; [apply decode_frame; done|]. split; [done|].
  rewrite <- lor_page_flag by (unfold PHYS_BASE in *; lia || done).
  change PTE_P with (2 ^ 0). change PTE_U with (2 ^ 2). change PTE_W with (2 ^ 1).
  change PTE_A with (2 ^ 5). change PTE_D with (2 ^ 6).
  rewrite !land_pow2_nonzero, !Z.lor_spec by lia.
  destruct w; repeat split; rewrite aligned_low_bits by (done || lia); reflexivity.
Qed.

(** A page-directory entry decodes to the page table it was built from. *)
Lemma pde_roundtrip pt :
  PHYS_BASE <= pt < 2 ^ 32 -> pg_ofs pt = 0 ->
  exists pde, pde_create pt = Ok pde /\ pde_get_pt pde = Ok pt /\ 0 < pde < 2 ^ 32.
Proof.
  intros Hp Ho. pose proof Ho as Hm. rewrite pg_ofs_mod in Hm.
  unfold pde_create. rewrite Ho, ASSERT_true, kernel_page_vtop by done. simpl.
  rewrite <- !Z.lor_assoc. set (f := Z.lor PTE_U _).
  assert (0 < f < PGSIZE) as Hf by (split; reflexivity).
  pose proof (aligned_phys _ Hm). unfold PHYS_BASE in *.
  eexists. split; [reflexivity|]. rewrite lor_page_flag by (lia || done).
  split; [|unfold PGSIZE in *; lia]. unfold pde_get_pt.
  rewrite <- lor_page_flag by (lia || done). change PTE_P with (2 ^ 0) at 1.
  rewrite land_pow2_nonzero, Z.lor_spec, aligned_low_bits by (done || lia).
  change (ASSERT (false || Z.testbit f 0)) with (Ok tt). simpl.
  rewrite lor_page_flag by (lia || done). apply decode_frame; unfold PHYS_BASE; lia || done.
Qed.

(** Pages are identified by their two indices. *)
Lemma page_index_inj p q :
  0 <= p < 2 ^ 32 -> 0 <= q < 2 ^ 32 -> pg_ofs p = 0 -> pg_ofs q = 0 ->
  pd_no p = pd_no q -> pt_no p = pt_no q -> p = q.
Proof.
  rewrite !pg_ofs_mod, !pd_no_div, !pt_no_divmod.
  change (2 ^ 22) with (PGSIZE * 1024). rewrite <- !Z.div_div by done. unfold PGSIZE.
  intros ???? Hd Ht. pose proof (Z.div_mod p 4096 ltac:(done)).
  pose proof (Z.div_mod q 4096 ltac:(done)).
  pose proof (Z.div_mod (p / 4096) 1024 ltac:(done)).
  pose proof (Z.div_mod (q / 4096) 1024 ltac:(done)). lia.
Qed.

(** ** Theorems *)

(** A 32-bit virtual address is exactly its page-directory index, page-table
    index and page offset, each within its field, and [pg_round_down] is the
    address with the offset removed. *)
Theorem vaddr_split va :
  0 <= va < 2 ^ 32 ->
  va = pd_no va * 2 ^ 22 + pt_no va * 2 ^ 12 + pg_ofs va /\
  0 <= pd_no va < 1024 /\ 0 <= pt_no va < 1024 /\ 0 <= pg_ofs va < PGSIZE /\
  pg_round_down va = va - pg_ofs va /\ pg_no va = pd_no va * 1024 + pt_no va.
Proof. apply vaddr_parts. Qed.

Lemma vaddr_split_witness : pd_no 0xbffff123 = 767 /\ pg_no 0xbffff123 = 767 * 1024 + 1023.
Proof.
  destruct (vaddr_split 0xbffff123) as (_ & _ & _ & _ & _ & H); [lia|].
  split; [reflexivity|]. rewrite H. reflexivity.
Defined.

(** The entry [pte_create_user] builds for a page-aligned kernel page is
    present, user-accessible, writable exactly when asked, neither accessed nor
    dirty, and [pte_get_page] gives the page back. *)
Theorem pte_user_roundtrip page w :
  PHYS_BASE <= page < 2 ^ 32 -> pg_ofs page = 0 ->
  exists pte, pte_create_user page w = Ok pte /\ pte_get_page pte = Ok page /\
    0 <= pte < 2 ^ 32 /\
    negb (Z.land pte PTE_P =? 0) = true /\ negb (Z.land pte PTE_U =? 0) = true /\
    negb (Z.land pte PTE_W =? 0) = w /\
    negb (Z.land pte PTE_A =? 0) = false /\ negb (Z.land pte PTE_D =? 0) = false.
Proof. apply pte_user_ok. Qed.

Lemma pte_user_roundtrip_witness :
  exists pte, pte_create_user 0xc0101000 true = Ok pte /\ pte_get_page pte = Ok 0xc0101000.
Proof.
  destruct (pte_user_roundtrip 0xc0101000 true) as (pte & H1 & H2 & _);
    [unfold PHYS_BASE; lia | reflexivity | eauto].
Defined.
