(* ===== verification/Arith64.v ===== *)
(** * 64-bit division: [lib/arithmetic.c]

    The routines GCC calls for 64-bit [/] and [%].  [divl] is the x86 DIVL
    instruction, which traps when the quotient does not fit in 32 bits, so the
    theorems prove both that no trap occurs and that the quotient is exact.
    The remainder routines return 32-bit types; the theorems say what they
    compute and when that is the remainder. *)

From S2P Require Import Prelude.

(** The operand N is the register pair n1:n0. *)
Definition divl (n d : Z) : res Z :=
  let n1 := u32 (Z.shiftr n 32) in
  let n0 := u32 n in
  if (d =? 0) || (2 ^ 32 <=? (n1 * 2 ^ 32 + n0) / d) then Err Trap
  else Ok ((n1 * 2 ^ 32 + n0) / d).

Definition nlz (x0 : Z) : Z :=
  let n0 := 0 in
  let '(n1, x1) := if x0 <=? 0x0000FFFF then (n0 + 16, u32 (Z.shiftl x0 16)) else (n0, x0) in
  let '(n2, x2) := if x1 <=? 0x00FFFFFF then (n1 + 8, u32 (Z.shiftl x1 8)) else (n1, x1) in
  let '(n3, x3) := if x2 <=? 0x0FFFFFFF then (n2 + 4, u32 (Z.shiftl x2 4)) else (n2, x2) in
  let '(n4, x4) := if x3 <=? 0x3FFFFFFF then (n3 + 2, u32 (Z.shiftl x3 2)) else (n3, x3) in
  if x4 <=? 0x7FFFFFFF then n4 + 1 else n4.

Definition udiv64 (n d : Z) : res Z :=
  if Z.shiftr d 32 =? 0 then
    let b := Z.shiftl 1 32 in
    let n1 := u32 (Z.shiftr n 32) in
    let n0 := u32 n in
    let d0 := u32 d in
    if d0 =? 0 then Err Trap
    else
      q ← divl (u64 (b * (n1 mod d0) + n0)) d0;
      Ok (u64 (q + u64 (b * (n1 / d0))))
  else if n <? d then Ok 0
  else
    let d1 := u32 (Z.shiftr d 32) in
    let s := nlz d1 in
    q0 ← divl (Z.shiftr n 1) (u32 (Z.shiftr (u64 (Z.shiftl d s)) 32));
    let q := Z.shiftr q0 (31 - s) in
    Ok (if u64 (n - u64 (u64 (q - 1) * d)) <? d then u64 (q - 1) else q).

Definition umod64 (n d : Z) : res Z :=
  q ← udiv64 n d;
  Ok (u32 (u64 (n - u64 (d * q)))).

Definition sdiv64 (n d : Z) : res Z :=
  let n_abs := if 0 <=? n then n else u64 (- n) in
  let d_abs := if 0 <=? d then d else u64 (- d) in
  q_abs ← udiv64 n_abs d_abs;
  Ok (if eqb (n <? 0) (d <? 0) then s64 q_abs else s64 (- s64 q_abs)).

Definition smod64 (n d : Z) : res Z :=
  q ← sdiv64 n d;
  Ok (s32 (s64 (n - s64 (d * q)))).

Definition __divdi3 (n d : Z) : res Z := sdiv64 n d.
Definition __moddi3 (n d : Z) : res Z := smod64 n d.
Definition __udivdi3 (n d : Z) : res Z := udiv64 n d.
Definition __umoddi3 (n d : Z) : res Z := umod64 n d.

(** ** Lemmas *)

Lemma divl_ok n d :
  0 <= n < 2 ^ 64 -> 0 < d -> n / d < 2 ^ 32 -> divl n d = Ok (n / d).
Proof.
  intros Hn Hd Hq. unfold divl.
  assert (u32 (Z.shiftr n 32) * 2 ^ 32 + u32 n = n) as ->.
  { rewrite Z.shiftr_div_pow2 by lia. unfold u32.
    rewrite (Z.mod_small (n / 2 ^ 32)); [rewrite (Z.div_mod n (2 ^ 32)) at 3; lia|].
    split; [apply Z.div_pos; lia | apply Z.div_lt_upper_bound; lia]. }
  rewrite (proj2 (Z.eqb_neq d 0)) by lia. rewrite (proj2 (Z.leb_gt _ _)) by lia. done.
Qed.

(** One step of the binary search in [nlz]. *)
Lemma nlz_spec x :
  0 < x < 2 ^ 32 -> 0 <= nlz x <= 31 /\ 2 ^ 31 <= x * 2 ^ nlz x < 2 ^ 32.
Proof.
  intros Hx. unfold nlz.
  repeat match goal with
  | |- context [if ?a <=? ?b then _ else _] =>
      let E := fresh in destruct (a <=? b) eqn:E; bool_to_prop;
      rewrite ?Z.shiftl_mul_pow2 in * by lia;
      rewrite ?u32_small in * by lia
  end; (split; [lia|]); simpl Z.add; lia.
Qed.

(** The normalised estimate of Hacker's Delight: dividing by the divisor with
    its low bits cleared overshoots the quotient by at most one. *)
Lemma estimate n d a t Q q v :
  0 <= n < 2 ^ 64 -> 0 < a -> 0 < t -> a * t = 2 ^ 31 ->
  2 ^ 63 <= d * a < 2 ^ 64 -> Q = n / d -> v = d / (2 * t) -> q = n / (v * (2 * t)) ->
  2 ^ 31 <= v /\ Q <= q <= Q + 1.
Proof.
  intros Hn Ha Ht Hat Hd HQ Hv Hq.
  assert (2 ^ 31 <= v).
  { subst v. apply Z.div_le_lower_bound; [lia|]. nia. }
  split; [done|].
  pose proof (Z.div_mod d (2 * t) ltac:(lia)) as Dd.
  pose proof (Z.mod_pos_bound d (2 * t) ltac:(lia)). rewrite <- Hv in Dd.
  pose proof (Z.div_mod n d ltac:(nia)) as Dn.
  pose proof (Z.mod_pos_bound n d ltac:(nia)). rewrite <- HQ in Dn.
  set (D := v * (2 * t)) in *. assert (2 ^ 32 * t <= D) by (unfold D; nia).
  pose proof (Z.div_mod n D ltac:(nia)) as DD.
  pose proof (Z.mod_pos_bound n D ltac:(nia)). rewrite <- Hq in DD.
  assert (D = d - d mod (2 * t)) by (unfold D; lia).
  assert (0 <= Q) by (subst Q; apply Z.div_pos; nia).
  split.
  - subst q Q. apply Z.div_le_lower_bound; [lia|].
    transitivity (d * (n / d)); [|apply Z.mul_div_le; lia]. apply Z.mul_le_mono_nonneg_r; lia.
  - destruct (decide (q <= Q + 1)); [done|]. exfalso.
    assert (Q < 2 * a) by nia.
    assert ((Q + 2) * D <= n) by nia.
    assert ((Q + 1) * (d mod (2 * t)) > D) by nia.
    assert ((Q + 1) * (d mod (2 * t)) <= 2 * a * (2 * t - 1))
      by (apply Z.mul_le_mono_nonneg; lia).
    assert (t = 1 \/ 2 <= t) as [->|] by lia; nia.
Qed.

Lemma udiv64_small_divisor n d :
  0 <= n < 2 ^ 64 -> 0 < d < 2 ^ 32 -> udiv64 n d = Ok (n / d).
Proof.
  intros Hn Hd. unfold udiv64.
  rewrite Z.shiftr_div_pow2, (Z.div_small d) by lia. simpl.
  rewrite (u32_small d), (proj2 (Z.eqb_neq d 0)) by lia.
  set (b := 2 ^ 32). change (Z.shiftl 1 32) with b.
  assert (u32 (Z.shiftr n 32) = n / b) as ->.
  { rewrite Z.shiftr_div_pow2 by lia. apply u32_small.
    split; [apply Z.div_pos; lia | apply Z.div_lt_upper_bound; lia]. }
  change (u32 n) with (n mod b).
  set (n1 := n / b). set (n0 := n mod b).
  pose proof (Z.div_mod n b ltac:(done)) as Dn. fold n1 n0 in Dn.
  assert (0 <= n0 < b) by (apply Z.mod_pos_bound; done).
  assert (0 <= n1 < b) by (split; [apply Z.div_pos; lia | apply Z.div_lt_upper_bound; lia]).
  pose proof (Z.div_mod n1 d ltac:(lia)) as D1.
  pose proof (Z.mod_pos_bound n1 d ltac:(lia)) as B1.
  assert (0 <= n1 / d < b).
  { split; [apply Z.div_pos; lia|]. apply Z.div_lt_upper_bound; nia. }
  assert (b * (n1 mod d) + n0 < b * d) by nia.
  rewrite !u64_small by (unfold b in *; nia).
  assert ((b * (n1 mod d) + n0) / d < b) by (apply Z.div_lt_upper_bound; lia).
  assert (0 <= (b * (n1 mod d) + n0) / d) by (apply Z.div_pos; nia).
  rewrite divl_ok by (unfold b in *; nia). simpl.
  assert ((b * (n1 mod d) + n0) / d + b * (n1 / d) = n / d) as ->.
  { rewrite <- Z.div_add by lia. f_equal. nia. }
  rewrite u64_small; [done|]. split; [apply Z.div_pos; lia|].
  apply Z.div_lt_upper_bound; nia.
Qed.

Lemma udiv64_big_divisor n d :
  0 <= n < 2 ^ 64 -> 2 ^ 32 <= d < 2 ^ 64 -> udiv64 n d = Ok (n / d).
Proof.
  intros Hn Hd. unfold udiv64. set (d1 := Z.shiftr d 32).
  assert (Hd1 : d1 = d / 2 ^ 32) by (apply Z.shiftr_div_pow2; lia).
  pose proof (Z.div_mod d (2 ^ 32) ltac:(done)) as Dd. rewrite <- Hd1 in Dd.
  pose proof (Z.mod_pos_bound d (2 ^ 32) ltac:(done)).
  assert (0 < d1 < 2 ^ 32) by lia.
  rewrite (proj2 (Z.eqb_neq _ _)) by lia.
  destruct (n <? d) eqn:E; bool_to_prop; [by rewrite Z.div_small by lia|].
  rewrite (u32_small d1) by lia.
  destruct (nlz_spec d1) as [Hs Hx]; [done|]. set (s := nlz d1) in *.
  set (a := 2 ^ s) in *. set (t := 2 ^ (31 - s)).
  assert (a * t = 2 ^ 31) as Hat by (unfold a, t; rewrite <- Z.pow_add_r by lia; f_equal; lia).
  assert (0 < a) by (apply Z.pow_pos_nonneg; lia).
  assert (0 < t) by (apply Z.pow_pos_nonneg; lia).
  assert (2 ^ 63 <= d * a < 2 ^ 64) as Hda.
  { split; [nia|]. assert (d1 + 1 <= 2 * t) by nia.
    assert (d * a < (d1 + 1) * 2 ^ 32 * a) by (apply Z.mul_lt_mono_pos_r; lia).
    assert ((d1 + 1) * a <= 2 * t * a) by (apply Z.mul_le_mono_nonneg_r; lia). lia. }
  set (v := d / (2 * t)).
  assert (u32 (Z.shiftr (u64 (Z.shiftl d s)) 32) = v) as ->.
  { rewrite Z.shiftl_mul_pow2 by lia. fold a. rewrite u64_small by lia.
    rewrite Z.shiftr_div_pow2 by lia.
    replace (2 ^ 32) with (2 * t * a) by lia. rewrite Z.div_mul_cancel_r by lia.
    apply u32_small. split; [apply Z.div_pos; lia|]. apply Z.div_lt_upper_bound; nia. }
  destruct (estimate n d a t (n / d) (n / (v * (2 * t))) v) as [Hv [Hlo Hhi]];
    [lia..|reflexivity|reflexivity|reflexivity|].
  rewrite (Z.shiftr_div_pow2 n 1) by lia.
  rewrite divl_ok; cycle 1; [|lia| |].
  { split; [apply Z.div_pos; lia | apply Z.div_lt_upper_bound; lia]. }
  { apply Z.div_lt_upper_bound; [lia|]. apply Z.div_lt_upper_bound; [lia|]. nia. }
  cbn [mbind res_bind].
  assert (Z.shiftr (n / 2 ^ 1 / v) (31 - s) = n / (v * (2 * t))) as ->.
  { rewrite Z.shiftr_div_pow2 by lia. fold t. rewrite !Z.div_div by nia. f_equal. lia. }
  set (q := n / (v * (2 * t))) in *. set (Q := n / d) in *.
  assert (1 <= Q) by (apply Z.div_le_lower_bound; lia).
  pose proof (Z.div_mod n d ltac:(lia)) as Dn. fold Q in Dn.
  pose proof (Z.mod_pos_bound n d ltac:(lia)).
  assert (Q < 2 ^ 32) by (apply Z.div_lt_upper_bound; nia).
  rewrite (u64_small (q - 1)), (u64_small ((q - 1) * d)) by nia.
  rewrite u64_small by nia. f_equal.
  assert (q = Q \/ q = Q + 1) as [->| ->] by lia.
  - rewrite (proj2 (Z.ltb_ge _ _)) by nia. done.
  - rewrite (proj2 (Z.ltb_lt _ _)) by nia. lia.
Qed.

Lemma udiv64_ok n d :
  0 <= n < 2 ^ 64 -> 0 < d < 2 ^ 64 -> udiv64 n d = Ok (n / d).
Proof.
  intros. destruct (decide (d < 2 ^ 32));
    [apply udiv64_small_divisor | apply udiv64_big_divisor]; lia.
Qed.

Lemma div_range n d : 0 <= n < 2 ^ 64 -> 0 < d -> 0 <= n / d < 2 ^ 64.
Proof. intros. split; [apply Z.div_pos; lia | apply Z.div_lt_upper_bound; nia]. Qed.

Lemma sdiv64_ok n d :
  - 2 ^ 63 <= n < 2 ^ 63 -> - 2 ^ 63 <= d < 2 ^ 63 -> d <> 0 ->
  ~ (n = - 2 ^ 63 /\ d = -1) -> sdiv64 n d = Ok (Z.quot n d).
Proof.
  intros Hn Hd H0 Hmin. unfold sdiv64.
  assert ((if 0 <=? n then n else u64 (- n)) = Z.abs n) as ->
    by (destruct (0 <=? n) eqn:?; bool_to_prop; [|rewrite u64_small]; lia).
  assert ((if 0 <=? d then d else u64 (- d)) = Z.abs d) as ->
    by (destruct (0 <=? d) eqn:?; bool_to_prop; [|rewrite u64_small]; lia).
  rewrite udiv64_ok by lia. simpl. f_equal.
  rewrite Z.quot_div by done. set (q := Z.abs n / Z.abs d).
  assert (0 <= q) by (apply Z.div_pos; lia).
  assert (q <= Z.abs n) by (apply Z.div_le_upper_bound; nia).
  assert (n = - 2 ^ 63 -> d = 1 \/ q < 2 ^ 63) as Hq.
  { intros ->. destruct (decide (d = 1)); [by left|right].
    apply Z.div_lt_upper_bound; lia. }
  destruct (decide (n = 0)) as [->|].
  { assert (q = 0) as -> by (unfold q; simpl; apply Z.div_0_l; lia). by destruct d. }
  assert (n = - 2 ^ 63 /\ d = 1 \/ q < 2 ^ 63) as [[-> ->]|Hs] by lia.
  { unfold q. reflexivity. }
  rewrite (s64_small q) by lia.
  destruct n, d; try lia; cbn; rewrite ?s64_small; lia.
Qed.

(** ** Theorems *)

(** C33: For every 64-bit dividend and nonzero 64-bit divisor, [__udivdi3] does not
    trap and returns the exact quotient. *)
Theorem udivdi3_correct n d :
  0 <= n < 2 ^ 64 -> 0 < d < 2 ^ 64 -> __udivdi3 n d = Ok (n / d).
Proof. apply udiv64_ok. Qed.

Lemma udivdi3_correct_witness : __udivdi3 (2 ^ 64 - 1) (2 ^ 32 + 1) = Ok (2 ^ 32 - 1).
Proof. rewrite (udivdi3_correct (2 ^ 64 - 1) (2 ^ 32 + 1)) by lia. reflexivity. Defined.

(** The signed quotient truncates toward zero, as C requires, for all operands
    except a zero divisor and the overflowing [INT64_MIN / -1]. *)
Theorem divdi3_correct n d :
  - 2 ^ 63 <= n < 2 ^ 63 -> - 2 ^ 63 <= d < 2 ^ 63 -> d <> 0 ->
  ~ (n = - 2 ^ 63 /\ d = -1) -> __divdi3 n d = Ok (Z.quot n d).
Proof. apply sdiv64_ok. Qed.

Lemma divdi3_correct_witness : __divdi3 (- 2 ^ 63) 3 = Ok (- 3074457345618258602).
Proof. rewrite (divdi3_correct (- 2 ^ 63) 3) by lia. reflexivity. Defined.

(** [__umoddi3] returns the remainder truncated to 32 bits, because [umod64] is
    declared to return [uint32_t]; it is the remainder exactly when the remainder
    is below 2^32. *)
Theorem umoddi3_truncates n d :
  0 <= n < 2 ^ 64 -> 0 < d < 2 ^ 64 ->
  __umoddi3 n d = Ok ((n mod d) mod 2 ^ 32) /\
  (__umoddi3 n d = Ok (n mod d) <-> n mod d < 2 ^ 32).
Proof.
  intros Hn Hd. unfold __umoddi3, umod64. rewrite udiv64_ok by done.
  pose proof (div_range n d Hn ltac:(lia)).
  pose proof (Z.div_mod n d ltac:(lia)). pose proof (Z.mod_pos_bound n d ltac:(lia)).
  cbn [mbind res_bind]. assert (0 <= d * (n / d) <= n) by nia.
  rewrite (u64_small (d * (n / d))), u64_small by lia.
  replace (n - d * (n / d)) with (n mod d) by lia. split; [done|].
  unfold u32. split.
  - intros [= E]. rewrite <- E. apply Z.mod_pos_bound. lia.
  - intros. f_equal. apply Z.mod_small. lia.
Qed.

Lemma umoddi3_truncates_witness :
  __umoddi3 (2 ^ 33 - 1) (2 ^ 33) = Ok (2 ^ 32 - 1) /\
  (2 ^ 33 - 1) mod 2 ^ 33 <> 2 ^ 32 - 1.
Proof.
  destruct (umoddi3_truncates (2 ^ 33 - 1) (2 ^ 33)) as [H _]; [lia|lia|].
  rewrite H. split; [reflexivity | discriminate].
Defined.
