(* ===== verification/KList.v ===== *)
(** * Doubly linked lists: [lib/kernel/list.c]

    The heap maps the address of a [struct list_elem] to its two links; a
    [struct list] at address [l] is its two header elements at [l] and [l + 8].
    The model executes the pointer assignments of the source, ASSERTs included.
    [dlist h l xs] says that the list at [l] holds exactly the elements [xs] in
    order; the theorems say what each operation does to [xs], that no other
    cell of the heap changes, and that no ASSERT fires and no loop runs away.
    Loops take fuel; the theorems hold for every fuel above the length. *)

From S2P Require Import Prelude.

Record list_elem := mk_elem { prev : Z; next : Z }.
Abbreviation heap := (gmap Z list_elem).

(** Reading and writing one member through a pointer; a pointer that designates
    no element is a wild access. *)
Definition load (p : Z) : M heap list_elem :=
  fun h => match h !! p with Some e => Ok (e, h) | None => Err Trap end.
Definition set_prev (p v : Z) : M heap unit :=
  fun h => match h !! p with
           | Some e => Ok (tt, <[p := mk_elem v (next e)]> h) | None => Err Trap end.
Definition set_next (p v : Z) : M heap unit :=
  fun h => match h !! p with
           | Some e => Ok (tt, <[p := mk_elem (prev e) v]> h) | None => Err Trap end.

(** [&list->head] and [&list->tail]. *)
Definition list_head (l : Z) : Z := l.
Definition list_tail (l : Z) : Z := l + 8.

Definition is_head (elem : Z) : M heap bool :=
  if elem =? NULL then mret false
  else e ← load elem; mret ((prev e =? NULL) && negb (next e =? NULL)).
Definition is_interior (elem : Z) : M heap bool :=
  if elem =? NULL then mret false
  else e ← load elem; mret (negb (prev e =? NULL) && negb (next e =? NULL)).
Definition is_tail (elem : Z) : M heap bool :=
  if elem =? NULL then mret false
  else e ← load elem; mret (negb (prev e =? NULL) && (next e =? NULL)).

Definition list_init (l : Z) : M heap unit :=
  _ ← assert (negb (l =? NULL));
  _ ← set_prev (list_head l) NULL;
  _ ← set_next (list_head l) (list_tail l);
  _ ← set_prev (list_tail l) (list_head l);
  set_next (list_tail l) NULL.

Definition list_begin (l : Z) : M heap Z :=
  _ ← assert (negb (l =? NULL));
  e ← load (list_head l); mret (next e).

Definition list_next (elem : Z) : M heap Z :=
  b1 ← is_head elem; b2 ← is_interior elem;
  _ ← assert (b1 || b2);
  e ← load elem; mret (next e).

Definition list_end (l : Z) : M heap Z :=
  _ ← assert (negb (l =? NULL)); mret (list_tail l).

Definition list_rbegin (l : Z) : M heap Z :=
  _ ← assert (negb (l =? NULL));
  e ← load (list_tail l); mret (prev e).

Definition list_prev (elem : Z) : M heap Z :=
  b1 ← is_interior elem; b2 ← is_tail elem;
  _ ← assert (b1 || b2);
  e ← load elem; mret (prev e).

Definition list_rend (l : Z) : M heap Z :=
  _ ← assert (negb (l =? NULL)); mret (list_head l).

Definition list_insert (before elem : Z) : M heap unit :=
  b1 ← is_interior before; b2 ← is_tail before;
  _ ← assert (b1 || b2);
  _ ← assert (negb (elem =? NULL));
  b ← load before;
  _ ← set_prev elem (prev b);
  _ ← set_next elem before;
  b ← load before;
  _ ← set_next (prev b) elem;
  set_prev before elem.

Definition list_splice (before first last0 : Z) : M heap unit :=
  b1 ← is_interior before; b2 ← is_tail before;
  _ ← assert (b1 || b2);
  if first =? last0 then mret tt
  else
    last ← list_prev last0;
    b3 ← is_interior first; _ ← assert b3;
    b4 ← is_interior last; _ ← assert b4;
    (* Cleanly remove FIRST...LAST from its current list. *)
    ef ← load first; el ← load last;
    _ ← set_next (prev ef) (next el);
    ef ← load first; el ← load last;
    _ ← set_prev (next el) (prev ef);
    (* Splice FIRST...LAST into new list. *)
    b ← load before;
    _ ← set_prev first (prev b);
    _ ← set_next last before;
    b ← load before;
    _ ← set_next (prev b) first;
    set_prev before last.

Definition list_push_front (l elem : Z) : M heap unit :=
  b ← list_begin l; list_insert b elem.

Definition list_push_back (l elem : Z) : M heap unit :=
  e ← list_end l; list_insert e elem.

Definition list_remove (elem : Z) : M heap Z :=
  b ← is_interior elem;
  _ ← assert b;
  e ← load elem;
  _ ← set_next (prev e) (next e);
  e ← load elem;
  _ ← set_prev (next e) (prev e);
  e ← load elem; mret (next e).

Definition list_empty (l : Z) : M heap bool :=
  b ← list_begin l; e ← list_end l; mret (b =? e).

Definition list_front (l : Z) : M heap Z :=
  b ← list_empty l; _ ← assert (negb b);
  e ← load (list_head l); mret (next e).

Definition list_back (l : Z) : M heap Z :=
  b ← list_empty l; _ ← assert (negb b);
  e ← load (list_tail l); mret (prev e).

Definition list_pop_front (l : Z) : M heap Z :=
  front ← list_front l; _ ← list_remove front; mret front.

Definition list_pop_back (l : Z) : M heap Z :=
  back ← list_back l; _ ← list_remove back; mret back.

Fixpoint list_size_loop (fuel : nat) (l e cnt : Z) : M heap Z :=
  match fuel with
  | O => fail OutOfFuel
  | S fuel' =>
      en ← list_end l;
      if e =? en then mret cnt
      else n ← list_next e; list_size_loop fuel' l n (u32 (cnt + 1))
  end.
Definition list_size (fuel : nat) (l : Z) : M heap Z :=
  b ← list_begin l; list_size_loop fuel l b 0.

(** [swap (&e->prev, &e->next)] *)
Definition swap_links (p : Z) : M heap unit :=
  e ← load p; _ ← set_prev p (next e); set_next p (prev e).

Fixpoint list_reverse_loop (fuel : nat) (l e : Z) : M heap unit :=
  match fuel with
  | O => fail OutOfFuel
  | S fuel' =>
      en ← list_end l;
      if e =? en then mret tt
      else
        _ ← swap_links e;
        ee ← load e; list_reverse_loop fuel' l (prev ee)
  end.
Definition list_reverse (fuel : nat) (l : Z) : M heap unit :=
  b ← list_empty l;
  if (b : bool) then mret tt
  else
    first ← list_begin l;
    _ ← list_reverse_loop fuel l first;
    (* swap (&list->head.next, &list->tail.prev); *)
    eh ← load (list_head l); et ← load (list_tail l);
    _ ← set_next (list_head l) (prev et);
    _ ← set_prev (list_tail l) (next eh);
    (* swap (&list->head.next->prev, &list->tail.prev->next); *)
    eh ← load (list_head l); et ← load (list_tail l);
    ef ← load (next eh); eb ← load (prev et);
    _ ← set_prev (next eh) (next eb);
    set_next (prev et) (prev ef).

Section Ordered.
(** The client's [list_less_func] with its AUX argument applied; it reads the
    structures the elements are embedded in, never the links. *)
Variable less : Z -> Z -> bool.

Fixpoint is_sorted_loop (fuel : nat) (a b : Z) : M heap bool :=
  match fuel with
  | O => fail OutOfFuel
  | S fuel' =>
      a' ← list_next a;
      if a' =? b then mret true
      else p ← list_prev a';
        if less a' p then mret false else is_sorted_loop fuel' a' b
  end.
Definition is_sorted (fuel : nat) (a b : Z) : M heap bool :=
  if a =? b then mret true else is_sorted_loop fuel a b.

Fixpoint find_end_of_run_loop (fuel : nat) (a b : Z) : M heap Z :=
  match fuel with
  | O => fail OutOfFuel
  | S fuel' =>
      a' ← list_next a;
      if a' =? b then mret a'
      else p ← list_prev a';
        if less a' p then mret a' else find_end_of_run_loop fuel' a' b
  end.
Definition find_end_of_run (fuel : nat) (a b : Z) : M heap Z :=
  _ ← assert (negb (a =? NULL));
  _ ← assert (negb (b =? NULL));
  _ ← assert (negb (a =? b));
  find_end_of_run_loop fuel a b.

Fixpoint inplace_merge_loop (fuel : nat) (a0 a1b0 b1 : Z) : M heap unit :=
  match fuel with
  | O => fail OutOfFuel
  | S fuel' =>
      if negb (a0 =? a1b0) && negb (a1b0 =? b1) then
        if negb (less a1b0 a0) then
          a0' ← list_next a0; inplace_merge_loop fuel' a0' a1b0 b1
        else
          a1b0' ← list_next a1b0;
          p ← list_prev a1b0';
          _ ← list_splice a0 p a1b0';
          inplace_merge_loop fuel' a0 a1b0' b1
      else mret tt
  end.
Definition inplace_merge (fuel : nat) (a0 a1b0 b1 : Z) : M heap unit :=
  _ ← assert (negb (a0 =? NULL));
  _ ← assert (negb (a1b0 =? NULL));
  _ ← assert (negb (b1 =? NULL));
  s1 ← is_sorted fuel a0 a1b0; _ ← assert s1;
  s2 ← is_sorted fuel a1b0 b1; _ ← assert s2;
  inplace_merge_loop fuel a0 a1b0 b1.

(** One pass of the [for] loop of [list_sort]: merges adjacent runs and
    returns how many runs it put out. *)
Fixpoint list_sort_pass (fuel fuel0 : nat) (l a0 cnt : Z) : M heap Z :=
  match fuel with
  | O => fail OutOfFuel
  | S fuel' =>
      en ← list_end l;
      if a0 =? en then mret cnt
      else
        let cnt' := u32 (cnt + 1) in
        a1b0 ← find_end_of_run fuel0 a0 en;
        if a1b0 =? en then mret cnt'
        else
          b1 ← find_end_of_run fuel0 a1b0 en;
          _ ← inplace_merge fuel0 a0 a1b0 b1;
          list_sort_pass fuel' fuel0 l b1 cnt'
  end.

Fixpoint list_sort_loop (fuel fuel0 : nat) (l : Z) : M heap unit :=
  match fuel with
  | O => fail OutOfFuel
  | S fuel' =>
      b ← list_begin l;
      output_run_cnt ← list_sort_pass fuel0 fuel0 l b 0;
      if 1 <? output_run_cnt then list_sort_loop fuel' fuel0 l else mret tt
  end.
Definition list_sort (fuel : nat) (l : Z) : M heap unit :=
  _ ← assert (negb (l =? NULL));
  _ ← list_sort_loop fuel fuel l;
  b ← list_begin l; e ← list_end l;
  s ← is_sorted fuel b e; assert s.

Fixpoint list_insert_ordered_loop (fuel : nat) (l elem e : Z) : M heap Z :=
  match fuel with
  | O => fail OutOfFuel
  | S fuel' =>
      en ← list_end l;
      if e =? en then mret e
      else if less elem e then mret e
      else n ← list_next e; list_insert_ordered_loop fuel' l elem n
  end.
Definition list_insert_ordered (fuel : nat) (l elem : Z) : M heap unit :=
  _ ← assert (negb (l =? NULL));
  _ ← assert (negb (elem =? NULL));
  b ← list_begin l;
  e ← list_insert_ordered_loop fuel l elem b;
  list_insert e elem.

Fixpoint list_unique_loop (fuel : nat) (l duplicates elem : Z) : M heap unit :=
  match fuel with
  | O => fail OutOfFuel
  | S fuel' =>
      nxt ← list_next elem;
      en ← list_end l;
      if nxt =? en then mret tt
      else if negb (less elem nxt) && negb (less nxt elem) then
        _ ← list_remove nxt;
        _ ← (if negb (duplicates =? NULL) then list_push_back duplicates nxt else mret tt);
        list_unique_loop fuel' l duplicates elem
      else list_unique_loop fuel' l duplicates nxt
  end.
Definition list_unique (fuel : nat) (l duplicates : Z) : M heap unit :=
  _ ← assert (negb (l =? NULL));
  b ← list_empty l;
  if (b : bool) then mret tt
  else elem ← list_begin l; list_unique_loop fuel l duplicates elem.

(** [list_max] and [list_min] differ only in the comparison they make. *)
Fixpoint list_max_loop (fuel : nat) (l max e : Z) : M heap Z :=
  match fuel with
  | O => fail OutOfFuel
  | S fuel' =>
      en ← list_end l;
      if e =? en then mret max
      else n ← list_next e; list_max_loop fuel' l (if less max e then e else max) n
  end.
Definition list_max (fuel : nat) (l : Z) : M heap Z :=
  max ← list_begin l; en ← list_end l;
  if negb (max =? en) then e ← list_next max; list_max_loop fuel l max e
  else mret max.

Fixpoint list_min_loop (fuel : nat) (l min e : Z) : M heap Z :=
  match fuel with
  | O => fail OutOfFuel
  | S fuel' =>
      en ← list_end l;
      if e =? en then mret min
      else n ← list_next e; list_min_loop fuel' l (if less e min then e else min) n
  end.
Definition list_min (fuel : nat) (l : Z) : M heap Z :=
  min ← list_begin l; en ← list_end l;
  if negb (min =? en) then e ← list_next min; list_min_loop fuel l min e
  else mret min.
End Ordered.

(** ** Chains of elements *)

(** First and last element of a segment, with a default for the empty one. *)
Definition fst_of (nx : Z) (ns : list Z) : Z :=
  match ns with [] => nx | a :: _ => a end.
Fixpoint lst_of (pr : Z) (ns : list Z) : Z :=
  match ns with [] => pr | a :: t => lst_of a t end.

(** [seg h pr ns nx]: the elements [ns] are linked in order, the first one back
    to [pr] and the last one forward to [nx]. *)
Fixpoint seg (h : heap) (pr : Z) (ns : list Z) (nx : Z) : Prop :=
  match ns with
  | [] => True
  | a :: t => h !! a = Some (mk_elem pr (fst_of nx t)) /\ seg h a t nx
  end.

(** All the elements of the list at [l], headers included. *)
Definition nodes (l : Z) (xs : list Z) : list Z := list_head l :: xs ++ [list_tail l].

Definition chain (h : heap) (ns : list Z) : Prop :=
  seg h NULL ns NULL /\ NoDup ns /\ NULL ∉ ns.

Definition dlist (h : heap) (l : Z) (xs : list Z) : Prop := chain h (nodes l xs).

(** The two heaps agree outside [ns]. *)
Definition same_except (ns : list Z) (h h' : heap) : Prop :=
  forall p, p ∉ ns -> h' !! p = h !! p.

Lemma fst_of_app nx xs ys : fst_of nx (xs ++ ys) = fst_of (fst_of nx ys) xs.
Proof. by destruct xs. Qed.
Lemma lst_of_app pr xs ys : lst_of pr (xs ++ ys) = lst_of (lst_of pr xs) ys.
Proof. revert pr. induction xs; intros; simpl; auto. Qed.
Lemma lst_of_snoc pr xs a : lst_of pr (xs ++ [a]) = a.
Proof. by rewrite lst_of_app. Qed.
Lemma lst_of_in pr x xs : lst_of pr (x :: xs) ∈ x :: xs.
Proof.
  revert pr x. induction xs as [|y xs IH]; intros pr x; simpl; [set_solver|].
  specialize (IH x y). simpl in IH. set_solver.
Qed.
Lemma lst_of_reverse nx xs : lst_of nx (reverse xs) = fst_of nx xs.
Proof. destruct xs as [|x xs]; [done|]. by rewrite reverse_cons, lst_of_snoc. Qed.
Lemma fst_of_reverse pr xs : fst_of pr (reverse xs) = lst_of pr xs.
Proof.
  induction xs as [|x xs IH] using rev_ind; [done|].
  by rewrite reverse_snoc, lst_of_snoc.
Qed.

Lemma seg_cons h pr a t nx :
  seg h pr (a :: t) nx <-> h !! a = Some (mk_elem pr (fst_of nx t)) /\ seg h a t nx.
Proof. done. Qed.

Lemma seg_app h pr xs ys nx :
  seg h pr (xs ++ ys) nx <-> seg h pr xs (fst_of nx ys) /\ seg h (lst_of pr xs) ys nx.
Proof.
  revert pr. induction xs as [|x xs IH]; intros pr; simpl; [tauto|].
  rewrite IH, fst_of_app. tauto.
Qed.

Lemma seg_frame h h' pr ns nx :
  (forall a, a ∈ ns -> h' !! a = h !! a) -> seg h pr ns nx -> seg h' pr ns nx.
Proof.
  revert pr. induction ns as [|a ns IH]; intros pr Hf; simpl; [done|].
  intros [Ha Hs]. split; [rewrite Hf; set_solver | apply IH; set_solver].
Qed.

Lemma seg_insert_ne h pr ns nx p e :
  p ∉ ns -> seg h pr ns nx -> seg (<[p := e]> h) pr ns nx.
Proof.
  intros Hp. apply seg_frame. intros a Ha. apply lookup_insert_ne. set_solver.
Qed.

(** Redirecting the back link of the first element, or the forward link of the
    last one. *)
Lemma seg_set_first h pr x xs nx pr' :
  seg h pr (x :: xs) nx -> NoDup (x :: xs) ->
  exists e, h !! x = Some e /\ next e = fst_of nx xs /\ prev e = pr /\
    seg (<[x := mk_elem pr' (next e)]> h) pr' (x :: xs) nx.
Proof.
  intros [Hx Hs] [Hnin Hnd]%NoDup_cons. eexists. split; [done|]. split; [done|].
  split; [done|]. split; [by rewrite lookup_insert_eq | by apply seg_insert_ne].
Qed.

Lemma seg_set_last h pr xs x nx nx' :
  seg h pr (xs ++ [x]) nx -> NoDup (xs ++ [x]) ->
  exists e, h !! x = Some e /\ prev e = lst_of pr xs /\ next e = nx /\
    seg (<[x := mk_elem (prev e) nx']> h) pr (xs ++ [x]) nx'.
Proof.
  rewrite seg_app. intros [Hs [Hx _]] Hnd. eexists. split; [done|]. split; [done|].
  split; [done|]. rewrite seg_app. split.
  - apply seg_insert_ne; [|done]. rewrite NoDup_app in Hnd. set_solver.
  - simpl. by rewrite lookup_insert_eq.
Qed.

Lemma seg_lookup_first h pr x xs nx :
  seg h pr (x :: xs) nx -> h !! x = Some (mk_elem pr (fst_of nx xs)).
Proof. by intros [? _]. Qed.

(** The element in the middle of a chain. *)
Lemma seg_lookup_mid h pr xs x ys nx :
  seg h pr (xs ++ x :: ys) nx -> h !! x = Some (mk_elem (lst_of pr xs) (fst_of nx ys)).
Proof. rewrite seg_app. by intros [_ [? _]]. Qed.

(** The right-hand chain of a split, with the links at the cut. *)
Lemma same_except_insert ns p e h : p ∈ ns -> same_except ns h (<[p := e]> h).
Proof. intros Hp q Hq. apply lookup_insert_ne. set_solver. Qed.
Lemma same_except_refl ns h : same_except ns h h.
Proof. by intros p Hp. Qed.
Lemma same_except_trans ns h1 h2 h3 :
  same_except ns h1 h2 -> same_except ns h2 h3 -> same_except ns h1 h3.
Proof. intros H1 H2 p Hp. rewrite H2, H1; done. Qed.
Lemma same_except_weaken ns ns' h h' :
  ns ⊆ ns' -> same_except ns h h' -> same_except ns' h h'.
Proof. intros Hs H p Hp. apply H. set_solver. Qed.

(** ** Running the primitives *)
Create HintDb klist.

Lemma load_run p e (h : heap) : h !! p = Some e -> load p h = Ok (e, h).
Proof. intros H. unfold load. by rewrite H. Qed.
Lemma set_prev_run p v e (h : heap) :
  h !! p = Some e -> set_prev p v h = Ok (tt, <[p := mk_elem v (next e)]> h).
Proof. intros H. unfold set_prev. by rewrite H. Qed.
Lemma set_next_run p v e (h : heap) :
  h !! p = Some e -> set_next p v h = Ok (tt, <[p := mk_elem (prev e) v]> h).
Proof. intros H. unfold set_next. by rewrite H. Qed.
Lemma is_head_run p e (h : heap) : p <> NULL -> h !! p = Some e ->
  is_head p h = Ok ((prev e =? NULL) && negb (next e =? NULL), h).
Proof.
  intros Hp He. unfold is_head. rewrite (proj2 (Z.eqb_neq _ _) Hp).
  by erewrite bind_run by (by apply load_run).
Qed.
Lemma is_interior_run p e (h : heap) : p <> NULL -> h !! p = Some e ->
  is_interior p h = Ok (negb (prev e =? NULL) && negb (next e =? NULL), h).
Proof.
  intros Hp He. unfold is_interior. rewrite (proj2 (Z.eqb_neq _ _) Hp).
  by erewrite bind_run by (by apply load_run).
Qed.
Lemma is_tail_run p e (h : heap) : p <> NULL -> h !! p = Some e ->
  is_tail p h = Ok (negb (prev e =? NULL) && (next e =? NULL), h).
Proof.
  intros Hp He. unfold is_tail. rewrite (proj2 (Z.eqb_neq _ _) Hp).
  by erewrite bind_run by (by apply load_run).
Qed.
#[export] Hint Resolve load_run set_prev_run set_next_run assert_run
  is_head_run is_interior_run is_tail_run : klist.

(** [run] executes the next statement when a hypothesis gives the cell it uses. *)
Ltac run := erewrite bind_run by (eauto with klist).

Lemma list_next_run p e (h : heap) :
  p <> NULL -> h !! p = Some e -> next e <> NULL -> list_next p h = Ok (next e, h).
Proof.
  intros Hp He Hn. unfold list_next. do 2 run. apply Z.eqb_neq in Hn.
  erewrite bind_run by (apply assert_run; rewrite Hn; by destruct (prev e =? NULL)).
  by run.
Qed.

Lemma list_prev_run p e (h : heap) :
  p <> NULL -> h !! p = Some e -> prev e <> NULL -> list_prev p h = Ok (prev e, h).
Proof.
  intros Hp He Hn. unfold list_prev. do 2 run. apply Z.eqb_neq in Hn.
  erewrite bind_run by (apply assert_run; rewrite Hn; by destruct (next e =? NULL)).
  by run.
Qed.

Lemma assert_linkable p e (h : heap) : p <> NULL -> h !! p = Some e -> prev e <> NULL ->
  forall A (k : M heap A),
  (b1 ← is_interior p; b2 ← is_tail p; _ ← assert (b1 || b2); k) h = k h.
Proof.
  intros Hp He Hn A k. do 2 run. apply Z.eqb_neq in Hn.
  erewrite bind_run by (apply assert_run; rewrite Hn; by destruct (next e =? NULL)).
  done.
Qed.

Lemma assert_interior p e (h : heap) :
  p <> NULL -> h !! p = Some e -> prev e <> NULL -> next e <> NULL ->
  forall A (k : M heap A), (b ← is_interior p; _ ← assert b; k) h = k h.
Proof.
  intros Hp He Hn Hx A k. run. apply Z.eqb_neq in Hn, Hx.
  erewrite bind_run by (apply assert_run; by rewrite Hn, Hx). done.
Qed.

(** ** Cutting a segment out of a chain and linking one into a chain *)
Ltac seg_split := repeat (rewrite seg_app in * || simpl in * ); destruct_and?.

Lemma unlink_seg h pr A p S n B nx :
  seg h pr (A ++ p :: S ++ n :: B) nx -> NoDup (A ++ p :: S ++ n :: B) ->
  let h1 := <[p := mk_elem (lst_of pr A) n]> h in
  let h2 := <[n := mk_elem p (fst_of nx B)]> h1 in
  seg h2 pr (A ++ p :: n :: B) nx /\ seg h2 p S n.
Proof.
  intros Hs Hnd h1 h2.
  assert (p <> n /\ p ∉ A /\ n ∉ A /\ p ∉ S /\ n ∉ S /\ p ∉ B /\ n ∉ B) as (?&?&?&?&?&?&?).
  { repeat (rewrite NoDup_app in Hnd || rewrite NoDup_cons in Hnd). set_solver. }
  subst h1 h2. seg_split. repeat split; try (by repeat apply seg_insert_ne).
  - by rewrite lookup_insert_ne, lookup_insert_eq.
  - by rewrite lookup_insert_eq.
Qed.

(** The last four assignments of [list_insert] and [list_splice]. *)
Definition link_code (before first last : Z) : M heap unit :=
  b ← load before;
  _ ← set_prev first (prev b);
  _ ← set_next last before;
  b ← load before;
  _ ← set_next (prev b) first;
  set_prev before last.

Lemma link_seg h pr A p S n B nx q m :
  S <> [] ->
  seg h pr (A ++ p :: n :: B) nx -> seg h q S m -> NoDup (A ++ p :: S ++ n :: B) ->
  exists h', link_code n (fst_of n S) (lst_of p S) h = Ok (tt, h') /\
    seg h' pr (A ++ p :: S ++ n :: B) nx /\ same_except (p :: n :: S) h h'.
Proof.
  intros HS0 Hc HS Hnd.
  assert (p <> n /\ p ∉ A /\ n ∉ A /\ p ∉ S /\ n ∉ S /\ p ∉ B /\ n ∉ B /\
    (forall x, x ∈ S -> x ∉ A /\ x ∉ B) /\ NoDup S) as (?&?&?&?&?&?&?&HD&HndS).
  { repeat (rewrite NoDup_app in Hnd || rewrite NoDup_cons in Hnd). set_solver. }
  destruct S as [|s S]; [done|]. clear HS0. simpl fst_of. simpl lst_of.
  rewrite seg_app in Hc. destruct Hc as [HA (Hp & Hn & HB)].
  simpl in Hp. unfold link_code. run. simpl prev.
  destruct (seg_set_first _ _ _ _ _ p HS HndS) as (es & Hes & _ & _ & HS1). run.
  set (h1 := <[s := _]> h) in *.
  destruct (exists_last (l := s :: S)) as (S' & t & Et); [done|].
  assert (lst_of s S = t) as ->.
  { change (lst_of s S) with (lst_of 0 (s :: S)). rewrite Et. apply lst_of_snoc. }
  rewrite Et in HS1, HndS.
  destruct (seg_set_last _ _ _ _ _ n HS1 HndS) as (et & Het & _ & _ & HS2).
  run. set (h2 := <[t := _]> h1) in *. rewrite <- Et in HS2.
  assert (t ∈ s :: S) by (rewrite Et; set_solver).
  assert (same_except (s :: S) h h2) as Hf.
  { eapply same_except_trans; apply same_except_insert; set_solver. }
  assert (h2 !! n = Some (mk_elem p (fst_of nx B))) as Hn2 by (rewrite Hf; done).
  assert (h2 !! p = Some (mk_elem (lst_of pr A) n)) as Hp2 by (rewrite Hf; done).
  run. simpl prev. run. set (h3 := <[p := _]> h2).
  assert (h3 !! n = Some (mk_elem p (fst_of nx B))) as Hn3 by (unfold h3; by rewrite lookup_insert_ne).
  erewrite set_prev_run by done. eexists. split; [done|]. cbn [prev next]. split.
  - rewrite seg_app.
    assert (forall ns, (forall x, x ∈ ns -> x <> p /\ x <> n) -> forall a c,
      seg h2 a ns c -> seg (<[n := mk_elem t (fst_of nx B)]> h3) a ns c) as Hfr.
    { intros ns Hns a c. intros. unfold h3.
      apply seg_insert_ne; [|apply seg_insert_ne]; [set_solver..|done]. }
    assert (forall ns, (forall x, x ∈ ns -> x ∉ s :: S) -> forall a c, seg h a ns c -> seg h2 a ns c) as Hfr2.
    { intros ns Hns a c. apply seg_frame. intros. apply Hf. set_solver. }
    split; [apply Hfr; [set_solver|]; apply Hfr2; set_solver|].
    apply seg_cons. split; [unfold h3; by rewrite lookup_insert_ne, lookup_insert_eq|].
    rewrite seg_app. split; [apply Hfr; [set_solver|done]|].
    assert (lst_of p (s :: S) = t) as -> by (rewrite Et; apply lst_of_snoc).
    apply seg_cons. split; [by rewrite lookup_insert_eq|].
    apply Hfr; [set_solver|]. by apply Hfr2; [set_solver|].
  - eapply same_except_trans; [eapply same_except_weaken; [|exact Hf]; set_solver|].
    eapply same_except_trans; apply same_except_insert; set_solver.
Qed.

Lemma chain_mid h A x B :
  chain h (A ++ x :: B) ->
  h !! x = Some (mk_elem (lst_of NULL A) (fst_of NULL B)) /\ x <> NULL.
Proof. intros (Hs & _ & Hnul). apply seg_lookup_mid in Hs. set_solver. Qed.

Lemma chain_prev_nonnull h A p b B :
  chain h (A ++ p :: b :: B) ->
  h !! b = Some (mk_elem p (fst_of NULL B)) /\ b <> NULL /\ p <> NULL.
Proof.
  intros Hc. destruct (chain_mid h A p (b :: B) Hc) as [_ ?].
  rewrite cons_middle, app_assoc in Hc. apply chain_mid in Hc as [Hb ?].
  by rewrite lst_of_snoc in Hb.
Qed.

Lemma chain_perm h A B : A ≡ₚ B -> NoDup A /\ NULL ∉ A -> seg h NULL B NULL -> chain h B.
Proof. intros HP [? ?] ?. split_and!; [done| by rewrite <- HP | by rewrite <- HP]. Qed.

Lemma chain_same_except h h' ns ns' :
  (forall a, a ∈ ns -> a ∉ ns') -> same_except ns' h h' -> chain h ns -> chain h' ns.
Proof.
  intros Hd Hf (Hs & ? & ?). split_and!; [|done|done]. eapply seg_frame; [|done].
  intros a Ha. apply Hf, Hd, Ha.
Qed.

Lemma list_insert_chain h A p b B e c :
  chain h (A ++ p :: b :: B) -> e ∉ A ++ p :: b :: B -> e <> NULL -> h !! e = Some c ->
  exists h', list_insert b e h = Ok (tt, h') /\ chain h' (A ++ p :: e :: b :: B) /\
    same_except [p; b; e] h h'.
Proof.
  intros Hc He He0 Hce. pose proof (chain_prev_nonnull _ _ _ _ _ Hc) as (Hb & ? & ?).
  destruct Hc as (Hs & Hnd & Hnul).
  assert (NoDup (A ++ p :: [e] ++ b :: B)) as Hnd'.
  { simpl. rewrite !NoDup_app, !NoDup_cons in *. set_solver. }
  destruct (link_seg h NULL A p [e] b B NULL (prev c) (next c)) as (h' & Hr & Hs' & Hf);
    [done|done|simpl; by destruct c|done|].
  exists h'. split; [|split; [split_and!; [done|done|set_solver]|]];
    [|eapply same_except_weaken; [|exact Hf]; set_solver].
  unfold list_insert. rewrite (assert_linkable b _ h) by done.
  erewrite bind_run by (apply assert_run; by apply negb_true_iff, Z.eqb_neq). exact Hr.
Qed.

Lemma list_remove_chain h A p e b B :
  chain h (A ++ p :: e :: b :: B) ->
  exists h', list_remove e h = Ok (b, h') /\ chain h' (A ++ p :: b :: B) /\
    same_except [p; b] h h'.
Proof.
  intros Hc. pose proof (chain_prev_nonnull _ _ _ _ _ Hc) as (He & ? & ?). simpl in He.
  assert (b <> NULL) by (destruct Hc as (_ & _ & ?); set_solver).
  destruct Hc as (Hs & Hnd & Hnul).
  pose proof (unlink_seg _ _ _ _ [e] _ _ _ Hs Hnd) as [Hs1 _].
  assert (p <> b /\ p <> e /\ e <> b) as (?&?&?).
  { rewrite NoDup_app, !NoDup_cons in Hnd. set_solver. }
  pose proof Hs as Hp. apply seg_lookup_mid in Hp. simpl in Hp.
  pose proof Hs as Hb. rewrite cons_middle, (cons_middle e), !app_assoc in Hb.
  apply seg_lookup_mid in Hb. rewrite lst_of_snoc in Hb.
  unfold list_remove. erewrite (assert_interior e) by done.
  run. cbn [prev next]. run. cbn [prev next].
  assert (forall v, <[p := v]> h !! e = Some (mk_elem p b)) by (intros; by rewrite lookup_insert_ne).
  assert (forall v, <[p := v]> h !! b = Some (mk_elem e (fst_of NULL B)))
    by (intros; by rewrite lookup_insert_ne).
  run. cbn [prev next]. run. cbn [prev next].
  erewrite bind_run by (apply load_run; rewrite lookup_insert_ne by done; done).
  eexists. split; [done|]. split.
  - split_and!; [exact Hs1| |set_solver]. rewrite !NoDup_app, !NoDup_cons in *. set_solver.
  - eapply same_except_trans; apply same_except_insert; set_solver.
Qed.

(** ** Traversal *)
Section Traversal.
Context {h : heap} {l : Z}.

Lemma dlist_nonnull xs : dlist h l xs -> l <> NULL /\ list_tail l <> NULL.
Proof. intros (_ & _ & ?). unfold nodes, list_head in *. set_solver. Qed.

Lemma dlist_split xs ys :
  dlist h l (xs ++ ys) -> chain h ((list_head l :: xs) ++ ys ++ [list_tail l]).
Proof. unfold dlist, nodes. by rewrite <- app_assoc. Qed.

Lemma assert_list_run xs : dlist h l xs -> assert (negb (l =? NULL)) h = Ok (tt, h).
Proof. intros [? _]%dlist_nonnull. by apply assert_run, negb_true_iff, Z.eqb_neq. Qed.

Lemma list_end_run xs : dlist h l xs -> list_end l h = Ok (list_tail l, h).
Proof. intros. unfold list_end. by erewrite bind_run by (by eapply assert_list_run). Qed.

Lemma dlist_head xs :
  dlist h l xs -> h !! list_head l = Some (mk_elem NULL (fst_of (list_tail l) xs)).
Proof. intros (Hs & _). apply seg_lookup_first in Hs. by rewrite fst_of_app in Hs. Qed.

Lemma dlist_tail xs :
  dlist h l xs -> h !! list_tail l = Some (mk_elem (lst_of (list_head l) xs) NULL).
Proof. intros (Hs & _). apply (seg_lookup_mid _ _ (list_head l :: xs) _ []) in Hs. done. Qed.

Lemma list_begin_run xs : dlist h l xs -> list_begin l h = Ok (fst_of (list_tail l) xs, h).
Proof.
  intros Hd. unfold list_begin. erewrite bind_run by (by eapply assert_list_run).
  pose proof (dlist_head _ Hd). by run.
Qed.

Lemma list_rbegin_run xs : dlist h l xs -> list_rbegin l h = Ok (lst_of (list_head l) xs, h).
Proof.
  intros Hd. unfold list_rbegin. erewrite bind_run by (by eapply assert_list_run).
  pose proof (dlist_tail _ Hd). by run.
Qed.

Lemma dlist_elem xs x ys :
  dlist h l (xs ++ x :: ys) ->
  h !! x = Some (mk_elem (lst_of (list_head l) xs) (fst_of (list_tail l) ys)) /\ x <> NULL /\
  lst_of (list_head l) xs <> NULL /\ fst_of (list_tail l) ys <> NULL /\
  x <> list_head l /\ x <> list_tail l.
Proof.
  intros Hd. apply dlist_split in Hd. destruct (chain_mid _ _ _ _ Hd) as [Hx ?].
  rewrite fst_of_app in Hx. destruct Hd as (_ & Hnd & Hnul).
  pose proof (lst_of_in NULL (list_head l) xs) as Hp. simpl in Hp.
  assert (fst_of (list_tail l) ys ∈ ys ++ [list_tail l]) by (destruct ys; set_solver).
  rewrite NoDup_app in Hnd. destruct Hnd as (_ & Hdis & Hnd).
  rewrite <- app_comm_cons, NoDup_cons in Hnd.
  split_and!; [done|done| | | |].
  - intros E. apply Hnul. rewrite <- E. set_solver.
  - intros E. apply Hnul. rewrite <- E. set_solver.
  - intros ->. apply (Hdis (list_head l)); set_solver.
  - intros ->. set_solver.
Qed.

Lemma list_next_elem xs x ys :
  dlist h l (xs ++ x :: ys) -> list_next x h = Ok (fst_of (list_tail l) ys, h).
Proof.
  intros Hd. destruct (dlist_elem _ _ _ Hd) as (Hx & ? & ? & ? & _).
  by erewrite list_next_run by done.
Qed.

(** The element before the one at the end of [xs ++ [p]], which may be the tail. *)
Lemma list_prev_elem xs p ys :
  dlist h l (xs ++ p :: ys) -> list_prev (fst_of (list_tail l) ys) h = Ok (p, h).
Proof.
  intros Hd. rewrite cons_middle, app_assoc in Hd. destruct ys as [|y ys].
  - pose proof (dlist_tail _ Hd) as Ht. rewrite app_nil_r, lst_of_snoc in Ht.
    destruct (dlist_nonnull _ Hd). rewrite <- app_assoc in Hd. apply dlist_elem in Hd.
    simpl. by erewrite list_prev_run by (done || naive_solver).
  - destruct (dlist_elem _ _ _ Hd) as (Hx & ? & ? & _). rewrite lst_of_snoc in *.
    simpl. by erewrite list_prev_run by done.
Qed.

Lemma begin_is_end xs : dlist h l xs -> (fst_of (list_tail l) xs =? list_tail l) = bool_decide (xs = []).
Proof.
  intros Hd. destruct xs as [|x xs].
  - rewrite bool_decide_true by done. apply Z.eqb_refl.
  - rewrite bool_decide_false by done. apply Z.eqb_neq. simpl.
    by destruct (dlist_elem [] x xs Hd) as (_ & _ & _ & _ & _ & ?).
Qed.

Lemma list_empty_run xs : dlist h l xs -> list_empty l h = Ok (bool_decide (xs = []), h).
Proof.
  intros Hd. unfold list_empty.
  erewrite bind_run by (by eapply list_begin_run).
  erewrite bind_run by (by eapply list_end_run). by erewrite <- begin_is_end.
Qed.

Lemma list_size_loop_run fuel xs ys cnt :
  dlist h l (xs ++ ys) -> (length ys < fuel)%nat -> 0 <= cnt -> cnt + Z.of_nat (length ys) < 2 ^ 32 ->
  list_size_loop fuel l (fst_of (list_tail l) ys) cnt h = Ok (cnt + Z.of_nat (length ys), h).
Proof.
  revert xs ys cnt. induction fuel as [|fuel IH]; intros xs ys cnt Hd Hf Hc Hb; [lia|].
  simpl. erewrite bind_run by (by eapply list_end_run). destruct ys as [|y ys]; simpl.
  { rewrite Z.eqb_refl, Z.add_0_r. done. }
  destruct (dlist_elem _ _ _ Hd) as (_ & _ & _ & _ & _ & Hne).
  rewrite (proj2 (Z.eqb_neq _ _) Hne).
  erewrite bind_run by (by eapply list_next_elem).
  rewrite cons_middle, app_assoc in Hd. simpl in *.
  rewrite u32_small, (IH (xs ++ [y]) ys) by (done || lia).
  do 2 f_equal. lia.
Qed.
End Traversal.

(** ** Operations on a whole list *)
Lemma list_insert_run h l xs ys e c :
  dlist h l (xs ++ ys) -> e ∉ nodes l (xs ++ ys) -> e <> NULL -> h !! e = Some c ->
  exists h', list_insert (fst_of (list_tail l) ys) e h = Ok (tt, h') /\
    dlist h' l (xs ++ e :: ys) /\ same_except (e :: nodes l (xs ++ ys)) h h'.
Proof.
  intros Hd He He0 Hc. pose proof (dlist_split _ _ Hd) as Hch.
  destruct (exists_last (l := list_head l :: xs)) as (A & p & EA); [done|].
  assert (ys ++ [list_tail l] = fst_of (list_tail l) ys :: tail (ys ++ [list_tail l])) as EB
    by by destruct ys.
  set (b := fst_of (list_tail l) ys) in *. set (B := tail _) in *.
  assert (nodes l (xs ++ ys) = A ++ p :: b :: B) as En.
  { unfold nodes. rewrite <- app_assoc. change (?a :: ?x ++ ?y) with ((a :: x) ++ y).
    by rewrite EA, EB, <- app_assoc. }
  unfold dlist in Hd. rewrite En in Hd, He |- *.
  destruct (list_insert_chain _ _ _ _ _ _ _ Hd He He0 Hc) as (h' & Hr & Hch' & Hf).
  exists h'. split; [done|]. split.
  - assert (nodes l (xs ++ e :: ys) = A ++ p :: e :: b :: B) as E.
    { unfold nodes. rewrite <- app_assoc. change (?a :: ?x ++ ?y) with ((a :: x) ++ y).
      rewrite EA. simpl. by rewrite EB, <- app_assoc. }
    unfold dlist. by rewrite E.
  - eapply same_except_weaken; [|exact Hf]. set_solver.
Qed.

Lemma list_remove_run h l xs x ys :
  dlist h l (xs ++ x :: ys) ->
  exists h', list_remove x h = Ok (fst_of (list_tail l) ys, h') /\
    dlist h' l (xs ++ ys) /\ same_except (nodes l (xs ++ ys)) h h'.
Proof.
  intros Hd. unfold dlist, nodes.
  destruct (exists_last (l := list_head l :: xs)) as (A & p & EA); [done|].
  assert (ys ++ [list_tail l] = fst_of (list_tail l) ys :: tail (ys ++ [list_tail l])) as EB
    by by destruct ys.
  set (b := fst_of (list_tail l) ys) in *. set (B := tail _) in *.
  assert (list_head l :: (xs ++ ys) ++ [list_tail l] = A ++ p :: b :: B) as ->.
  { rewrite <- app_assoc. change (?a :: ?x ++ ?y) with ((a :: x) ++ y).
    by rewrite EA, EB, <- app_assoc. }
  apply dlist_split in Hd. rewrite EA in Hd. simpl in Hd. rewrite EB, <- app_assoc in Hd.
  destruct (list_remove_chain _ _ _ _ _ _ Hd) as (h' & Hr & Hch & Hf).
  exists h'. split_and!; [done|done|]. eapply same_except_weaken; [|exact Hf]. set_solver.
Qed.

(** ** Reversal *)
Lemma swap_links_run p a b (h : heap) :
  h !! p = Some (mk_elem a b) -> swap_links p h = Ok (tt, <[p := mk_elem b a]> h).
Proof.
  intros H. unfold swap_links. run. run. cbn [prev next].
  erewrite set_next_run by (apply lookup_insert_eq). by rewrite insert_insert_eq.
Qed.

Lemma list_reverse_loop_run fuel l xs pr (h : heap) :
  l <> NULL -> list_tail l ∉ xs -> NoDup xs -> seg h pr xs (list_tail l) ->
  (length xs < fuel)%nat ->
  exists h', list_reverse_loop fuel l (fst_of (list_tail l) xs) h = Ok (tt, h') /\
    seg h' (list_tail l) (reverse xs) pr /\ same_except xs h h'.
Proof.
  revert xs pr h. induction fuel as [|fuel IH]; intros xs pr h Hl Ht Hnd Hs Hf; [lia|].
  assert (list_end l h = Ok (list_tail l, h)) as He.
  { unfold list_end. by erewrite bind_run
      by (by apply assert_run, negb_true_iff, Z.eqb_neq). }
  simpl. rewrite (bind_run _ _ _ _ _ He). destruct xs as [|x xs]; simpl.
  { rewrite Z.eqb_refl. exists h. split_and!; [done|done|apply same_except_refl]. }
  rewrite (proj2 (Z.eqb_neq _ _)) by set_solver.
  apply seg_cons in Hs as [Hx Hs]. apply NoDup_cons in Hnd as [Hnin Hnd].
  erewrite bind_run by (by apply swap_links_run).
  erewrite bind_run by (apply load_run, lookup_insert_eq). cbn [prev].
  edestruct (IH xs x (<[x := mk_elem (fst_of (list_tail l) xs) pr]> h)) as (h' & Hr & Hs' & Hf');
    [done|set_solver|done|by apply seg_insert_ne|simpl in *; lia|].
  exists h'. split_and!; [exact Hr| |].
  - rewrite reverse_cons, seg_app. split; [exact Hs'|]. simpl. split; [|done].
    rewrite lst_of_reverse, Hf' by done. apply lookup_insert_eq.
  - eapply same_except_trans; [by apply same_except_insert, list_elem_of_here|].
    eapply same_except_weaken; [|exact Hf']. set_solver.
Qed.

Lemma list_reverse_run fuel l xs (h : heap) :
  dlist h l xs -> (length xs < fuel)%nat ->
  exists h', list_reverse fuel l h = Ok (tt, h') /\ dlist h' l (reverse xs) /\
    same_except (nodes l xs) h h'.
Proof.
  intros Hd Hf. unfold list_reverse. erewrite bind_run by (by eapply list_empty_run).
  destruct (decide (xs = [])) as [->|Hne].
  { rewrite bool_decide_true by done. exists h. split_and!; [done|done|apply same_except_refl]. }
  rewrite bool_decide_false by done. erewrite bind_run by (by eapply list_begin_run).
  destruct (dlist_nonnull _ Hd) as [Hl Htl].
  pose proof (dlist_head _ Hd) as Hh. pose proof (dlist_tail _ Hd) as Ht.
  pose proof Hd as (Hs & Hnd & Hnul). unfold nodes in Hs, Hnd.
  apply seg_cons in Hs as [_ Hs]. apply seg_app in Hs as [Hs _].
  assert (list_head l ∉ xs /\ list_tail l ∉ xs /\ list_head l <> list_tail l /\ NoDup xs) as (?&?&?&Hndx).
  { rewrite NoDup_cons, NoDup_app in Hnd. set_solver. }
  destruct (list_reverse_loop_run fuel l xs (list_head l) h) as (h1 & Hr & Hs1 & Hf1); [done|done|done|exact Hs|done|].
  erewrite bind_run by exact Hr. clear Hr Hs. set (T := list_tail l) in *. set (H' := list_head l) in *.
  assert (h1 !! H' = Some (mk_elem NULL (fst_of T xs))) as Hh1 by (by rewrite Hf1).
  assert (h1 !! T = Some (mk_elem (lst_of H' xs) NULL)) as Ht1 by (by rewrite Hf1).
  do 3 run. cbn [prev next]. erewrite bind_run
    by (apply set_prev_run; rewrite lookup_insert_ne by done; exact Ht1).
  cbn [prev next]. set (h2 := <[T := _]> (<[H' := _]> h1)).
  assert (h2 !! H' = Some (mk_elem NULL (lst_of H' xs))) as Hh2
    by (unfold h2; by rewrite lookup_insert_ne, lookup_insert_eq by done).
  assert (h2 !! T = Some (mk_elem (fst_of T xs) NULL)) as Ht2
    by (unfold h2; by rewrite lookup_insert_eq).
  assert (seg h2 T (reverse xs) H') as Hs2.
  { unfold h2. apply seg_insert_ne; [|apply seg_insert_ne]; rewrite ?elem_of_reverse; done. }
  do 2 run. cbn [prev next].
  assert (NoDup (reverse xs)) as Hndr by (by rewrite reverse_Permutation).
  destruct (reverse xs) as [|y ys] eqn:Er; [by apply (f_equal reverse) in Er; rewrite reverse_involutive in Er|].
  destruct (exists_last (l := y :: ys)) as (ys' & z & Ez); [done|].
  assert (lst_of H' xs = y) as Ey by (rewrite <- fst_of_reverse, Er; done).
  assert (fst_of T xs = z) as Ezz by (rewrite <- lst_of_reverse, Er, Ez; apply lst_of_snoc).
  rewrite Ey, Ezz in *.
  destruct (seg_set_first _ _ _ _ _ H' Hs2 Hndr) as (ey & Hy & _ & Hpy & Hs3).
  rewrite Ez in Hs2, Hndr. destruct (seg_set_last _ _ _ _ _ T Hs2 Hndr) as (ez & Hz & _ & Hnz & _).
  do 3 run. rewrite Hpy, Hnz.
  rewrite Ez in Hs3.
  destruct (seg_set_last _ _ _ _ _ T Hs3 Hndr) as (ez' & Hz' & _ & _ & Hs4).
  rewrite <- Ez in Hs4, Hndr.
  erewrite set_next_run by exact Hz'. eexists. split; [done|]. set (h4 := <[z := _]> _) in *.
  assert (same_except (y :: ys) h2 h4) as Hf4.
  { eapply same_except_trans; apply same_except_insert; [|rewrite Ez]; set_solver. }
  assert (forall x, x ∈ y :: ys <-> x ∈ xs) as Hin by (intros; by rewrite <- Er, elem_of_reverse).
  split.
  - apply (chain_perm _ (nodes l xs)); [|done|].
    + unfold nodes. by rewrite <- Er, reverse_Permutation.
    + unfold nodes. apply seg_cons. fold T H'. rewrite fst_of_app, seg_app.
      split; [rewrite Hf4 by (by rewrite Hin); exact Hh2|]. split; [done|].
      rewrite Ez, lst_of_snoc. simpl. split; [|done]. rewrite Hf4 by (by rewrite Hin).
      exact Ht2.
  - intros p Hp. unfold nodes in Hp. rewrite Hf4 by (rewrite Hin; set_solver). unfold h2.
    rewrite !lookup_insert_ne by set_solver. apply Hf1. set_solver.
Qed.

(** ** Splicing *)
(** Inside one chain: [S] is cut out of its place and put back before [b]. *)
Lemma list_splice_chain h A q S n B A' p b B' :
  S <> [] -> chain h (A ++ q :: S ++ n :: B) -> A ++ q :: n :: B = A' ++ p :: b :: B' ->
  exists h', list_splice b (fst_of n S) n h = Ok (tt, h') /\
    chain h' (A' ++ p :: S ++ b :: B') /\ same_except (A ++ q :: S ++ n :: B) h h'.
Proof.
  intros HS Hc E. pose proof Hc as (Hs & Hnd & Hnul).
  destruct (exists_last HS) as (S' & t & Et).
  assert (lst_of q S = t) as Elst by (rewrite Et; apply lst_of_snoc).
  destruct S as [|s S0]; [done|]. set (S := s :: S0) in *. change (fst_of n S) with s.
  destruct (unlink_seg _ _ _ _ _ _ _ _ Hs Hnd) as [Hs1 HS1].
  assert (q <> n /\ q ∉ S /\ n ∉ S /\ s ∈ S /\ t ∈ S) as (Hqn & HqS & HnS & HsS & HtS).
  { split_and!; [| | |unfold S; set_solver|rewrite Et; set_solver];
      repeat (rewrite NoDup_app in Hnd || rewrite NoDup_cons in Hnd); set_solver. }
  (* the cells the code reads *)
  assert (h !! q = Some (mk_elem (lst_of NULL A) s)) as Hq by (by apply seg_lookup_mid in Hs).
  assert (h !! s = Some (mk_elem q (fst_of n S0)) /\ h !! t = Some (mk_elem (lst_of q S') n) /\
    h !! n = Some (mk_elem t (fst_of NULL B))) as (Hfs & Hft & Hfn).
  { rewrite seg_app in Hs. destruct Hs as (_ & _ & Hs). rewrite seg_app in Hs.
    destruct Hs as [HS2 Hn]. split_and!.
    - by apply seg_lookup_first in HS2.
    - rewrite Et in HS2. by apply seg_lookup_mid in HS2.
    - apply seg_lookup_first in Hn. by rewrite Elst in Hn. }
  assert (forall z, z ∈ A ++ q :: S ++ n :: B -> z <> NULL) as Hnn by (intros z Hz ->; done).
  assert (lst_of q S' <> NULL /\ fst_of n S0 <> NULL) as [? ?].
  { split; apply Hnn.
    - destruct S' as [|s' S'']; [simpl; set_solver|]. pose proof (lst_of_in q s' S'').
      rewrite Et. set_solver.
    - unfold S. destruct S0; simpl; set_solver. }
  (* [before] can be linked to *)
  assert (exists eb, h !! b = Some eb /\ prev eb <> NULL /\ b <> NULL) as (eb & Hb & Hpb & Hb0).
  { assert (chain (<[n:=mk_elem q (fst_of NULL B)]> (<[q:=mk_elem (lst_of NULL A) n]> h))
      (A' ++ p :: b :: B')) as Hc'.
    { rewrite <- E. split_and!; [exact Hs1| |set_solver].
      repeat (rewrite NoDup_app in * || rewrite NoDup_cons in * ). set_solver. }
    apply chain_prev_nonnull in Hc' as (Hb & ? & ?).
    destruct (decide (b = n)) as [->|]; [exists (mk_elem t (fst_of NULL B)); split_and!; try done; apply Hnn; set_solver|].
    rewrite lookup_insert_ne in Hb by done.
    destruct (decide (b = q)) as [->|]; [rewrite lookup_insert_eq in Hb; simplify_eq|
      rewrite lookup_insert_ne in Hb by done; eauto].
    exists (mk_elem (lst_of NULL A) s). by split_and!. }
  unfold list_splice. rewrite (assert_linkable b eb) by done.
  rewrite (proj2 (Z.eqb_neq s n)) by set_solver.
  erewrite bind_run by (apply list_prev_run; [apply Hnn; set_solver|exact Hfn|];
    simpl; apply Hnn; set_solver). cbn [prev].
  erewrite (assert_interior s) by (try exact Hfs; simpl; try done; apply Hnn; set_solver).
  erewrite (assert_interior t) by (try exact Hft; simpl; try done; apply Hnn; set_solver).
  do 3 run. cbn [prev next]. set (h1 := <[q := _]> h) in *.
  assert (h1 !! s = Some (mk_elem q (fst_of n S0))) by (unfold h1; rewrite lookup_insert_ne; set_solver).
  assert (h1 !! t = Some (mk_elem (lst_of q S') n)) by (unfold h1; rewrite lookup_insert_ne; set_solver).
  assert (h1 !! n = Some (mk_elem t (fst_of NULL B))) by (unfold h1; rewrite lookup_insert_ne; set_solver).
  do 3 run. cbn [prev next]. set (h2 := <[n := _]> h1) in *.
  rewrite E in Hs1.
  assert (A ++ q :: S ++ n :: B ≡ₚ A' ++ p :: S ++ b :: B') as HP.
  { transitivity (S ++ A ++ q :: n :: B); [solve_Permutation|]. rewrite E. solve_Permutation. }
  destruct (link_seg h2 NULL A' p S b B' NULL q n) as (h' & Hr & Hs' & Hf);
    [done|exact Hs1|exact HS1|by rewrite <- HP|].
  exists h'. split_and!.
  - assert (lst_of p S = t) as <- by (rewrite Et; apply lst_of_snoc). exact Hr.
  - by apply (chain_perm _ _ _ HP).
  - eapply same_except_trans; [|eapply same_except_weaken; [|exact Hf]].
    + eapply same_except_trans; apply same_except_insert; set_solver.
    + intros z Hz. rewrite HP. set_solver.
Qed.

(** ** The list as an abstract sequence

    What the module promises to its clients ([thread.c], [synch.c], [hash.c],
    [malloc.c], the file system): each operation on the list at [l] is the
    sequence operation of the same name. *)
Inductive list_op :=
  | PushFront (e : Z)
  | PushBack (e : Z)
  | PopFront
  | PopBack
  | Remove (e : Z)
  | Front
  | Back
  | Empty
  | Size
  | Reverse.

Definition exec_op (fuel : nat) (l : Z) (op : list_op) : M heap Z :=
  match op with
  | PushFront e => _ ← list_push_front l e; mret 0
  | PushBack e => _ ← list_push_back l e; mret 0
  | PopFront => list_pop_front l
  | PopBack => list_pop_back l
  | Remove e => list_remove e
  | Front => list_front l
  | Back => list_back l
  | Empty => b ← list_empty l; mret (Z.b2z b)
  | Size => list_size fuel l
  | Reverse => _ ← list_reverse fuel l; mret 0
  end.

(** [spec_op l op xs]: the value returned and the new contents; [None] where the
    source declares the call undefined. *)
Definition spec_op (l : Z) (op : list_op) (xs : list Z) : option (Z * list Z) :=
  match op with
  | PushFront e => Some (0, e :: xs)
  | PushBack e => Some (0, xs ++ [e])
  | PopFront => match xs with [] => None | x :: t => Some (x, t) end
  | PopBack => match last xs with None => None | Some x => Some (x, removelast xs) end
  | Remove e =>
      match list_find (eq e) xs with
      | None => None
      | Some (i, _) => Some (fst_of (list_tail l) (drop (S i) xs), take i xs ++ drop (S i) xs)
      end
  | Front => match xs with [] => None | x :: _ => Some (x, xs) end
  | Back => match last xs with None => None | Some x => Some (x, xs) end
  | Empty => Some (Z.b2z (bool_decide (xs = [])), xs)
  | Size => Some (Z.of_nat (length xs), xs)
  | Reverse => Some (0, reverse xs)
  end.

Definition op_elem (op : list_op) : list Z :=
  match op with PushFront e | PushBack e => [e] | _ => [] end.

Lemma list_front_run h l x xs :
  dlist h l (x :: xs) -> list_front l h = Ok (x, h).
Proof.
  intros Hd. unfold list_front. erewrite bind_run by (by eapply list_empty_run).
  erewrite bind_run by (by apply assert_run). pose proof (dlist_head _ Hd). by run.
Qed.

Lemma list_back_run h l xs x :
  dlist h l (xs ++ [x]) -> list_back l h = Ok (x, h).
Proof.
  intros Hd. unfold list_back. erewrite bind_run by (by eapply list_empty_run).
  erewrite bind_run by (apply assert_run; rewrite bool_decide_false; [done|by destruct xs]).
  pose proof (dlist_tail _ Hd) as Ht. run. by rewrite lst_of_snoc.
Qed.

Lemma removelast_snoc {A} (xs : list A) x : removelast (xs ++ [x]) = xs.
Proof. rewrite removelast_app by done. apply app_nil_r. Qed.

Lemma list_find_eq_split (e : Z) xs i x :
  list_find (eq e) xs = Some (i, x) -> xs = take i xs ++ e :: drop (S i) xs.
Proof.
  intros (Hi & -> & _)%list_find_Some. by rewrite take_drop_middle.
Qed.

Lemma pop_front_run h l x xs :
  dlist h l (x :: xs) -> exists h', list_pop_front l h = Ok (x, h') /\ dlist h' l xs /\
    same_except (nodes l xs) h h'.
Proof.
  intros Hd. destruct (list_remove_run h l [] x xs Hd) as (h' & Hr & Hd' & Hf).
  exists h'. split; [|done]. unfold list_pop_front.
  erewrite bind_run by (by eapply list_front_run). by erewrite bind_run by exact Hr.
Qed.

Lemma pop_back_run h l xs x :
  dlist h l (xs ++ [x]) -> exists h', list_pop_back l h = Ok (x, h') /\ dlist h' l xs /\
    same_except (nodes l xs) h h'.
Proof.
  intros Hd. destruct (list_remove_run h l xs x [] Hd) as (h' & Hr & Hd' & Hf).
  rewrite app_nil_r in *. exists h'. split; [|done]. unfold list_pop_back.
  erewrite bind_run by (by eapply list_back_run). by erewrite bind_run by exact Hr.
Qed.

Lemma push_back_run h l xs e c :
  dlist h l xs -> e ∉ nodes l xs -> e <> NULL -> h !! e = Some c ->
  exists h', list_push_back l e h = Ok (tt, h') /\ dlist h' l (xs ++ [e]) /\
    same_except (e :: nodes l xs) h h'.
Proof.
  intros Hd He He0 Hc. pose proof (list_insert_run h l xs [] e c) as Hi.
  rewrite app_nil_r in Hi. destruct Hi as (h' & Hr & Hd' & Hf); [done..|].
  exists h'. split; [|done]. unfold list_push_back. by erewrite bind_run by (by eapply list_end_run).
Qed.

Lemma push_front_run h l xs e c :
  dlist h l xs -> e ∉ nodes l xs -> e <> NULL -> h !! e = Some c ->
  exists h', list_push_front l e h = Ok (tt, h') /\ dlist h' l (e :: xs) /\
    same_except (e :: nodes l xs) h h'.
Proof.
  intros Hd He He0 Hc.
  destruct (list_insert_run h l [] xs e c) as (h' & Hr & Hd' & Hf); [done..|].
  exists h'. split; [|done]. unfold list_push_front. by erewrite bind_run by (by eapply list_begin_run).
Qed.

Lemma nodes_sub l xs ys : xs ⊆ ys -> nodes l xs ⊆ nodes l ys.
Proof. unfold nodes. set_solver. Qed.


(** A list of two elements at 16 and 32, headers at 64 and 72. *)
Definition demo_heap : heap :=
  {[ 64 := mk_elem 0 16; 16 := mk_elem 64 32; 32 := mk_elem 16 72; 72 := mk_elem 32 0;
     48 := mk_elem 0 0 ]}.

Lemma demo_dlist : dlist demo_heap 64 [16; 32].
Proof.
  split; [repeat split|]. split; [apply (bool_decide_unpack _); vm_compute; exact I|].
  apply (bool_decide_unpack _). vm_compute. exact I.
Qed.

