(* ===== verification/KListSort.v ===== *)
(** * Ordered lists: the sorting half of [lib/kernel/list.c]

    [list_sort] is a natural merge sort that rearranges the links in place.
    The reference definitions below work on sequences; the pointer code of
    KList is shown to compute them, and they are shown to sort.  Every loop is
    shown to finish within a fuel linear in the length of the list. *)

From Stdlib Require Import Sorted.
From S2P Require Import Prelude KList.

Section Sorting.
Variable less : Z -> Z -> bool.

(** [x] may stand before [y]. *)
Definition le_by (x y : Z) : Prop := less y x = false.

(** ** Reference definitions *)

(** The elements after [x] that continue the run of [x], and what follows. *)
Fixpoint run_rest (x : Z) (t : list Z) : list Z * list Z :=
  match t with
  | [] => ([], [])
  | y :: t' =>
      if less y x then ([], t) else let '(r, u) := run_rest y t' in (y :: r, u)
  end.

Fixpoint merge (A : list Z) : list Z -> list Z :=
  fix aux (B : list Z) : list Z :=
    match A, B with
    | [], _ => B
    | _, [] => A
    | a :: A', b :: B' => if less b a then b :: aux B' else a :: merge A' B
    end.

(** One pass: how many runs come out, and the rearranged sequence. *)
Fixpoint pass (n : nat) (xs : list Z) : nat * list Z :=
  match n, xs with
  | S n', x :: t =>
      let '(r, u) := run_rest x t in
      match u with
      | [] => (1%nat, x :: r)
      | y :: t2 =>
          let '(r2, u2) := run_rest y t2 in
          let '(c, z) := pass n' u2 in (S c, merge (x :: r) (y :: r2) ++ z)
      end
  | _, _ => (O, [])
  end.

Fixpoint runs_from (x : Z) (t : list Z) : nat :=
  match t with
  | [] => 1
  | y :: t' => if less y x then S (runs_from y t') else runs_from y t'
  end.
Definition runs (xs : list Z) : nat :=
  match xs with [] => O | x :: t => runs_from x t end.

(** ** Facts about the reference definitions *)
Lemma run_rest_app x t r u : run_rest x t = (r, u) -> t = r ++ u.
Proof.
  revert x r u. induction t as [|y t IH]; intros x r u; simpl; [by intros [= <- <-]|].
  destruct (less y x); [by intros [= <- <-]|].
  destruct (run_rest y t) as [r' u'] eqn:E. intros [= <- <-]. simpl. f_equal. by eapply IH.
Qed.

Lemma run_rest_sorted x t r u : run_rest x t = (r, u) -> Sorted le_by (x :: r).
Proof.
  revert x r u. induction t as [|y t IH]; intros x r u; simpl.
  { intros [= <- <-]. by repeat constructor. }
  destruct (less y x) eqn:E; [intros [= <- <-]; by repeat constructor|].
  destruct (run_rest y t) as [r' u'] eqn:E'. intros [= <- <-]. constructor; [by eapply IH|].
  by constructor.
Qed.

Lemma run_rest_runs x t r u : run_rest x t = (r, u) -> runs (x :: t) = S (runs u).
Proof.
  revert x r u. induction t as [|y t IH]; intros x r u; simpl; [by intros [= <- <-]|].
  destruct (less y x) eqn:E; [by intros [= <- <-]|].
  destruct (run_rest y t) as [r' u'] eqn:E'. intros [= <- <-]. by eapply IH.
Qed.

Lemma runs_from_app x xs ys : (runs_from x (xs ++ ys) <= runs_from x xs + runs ys)%nat.
Proof.
  revert x. induction xs as [|y xs IH]; intros x; simpl.
  - destruct ys as [|y ys]; simpl; [lia|]. destruct (less y x); lia.
  - specialize (IH y). destruct (less y x); lia.
Qed.

Lemma runs_app xs ys : (runs (xs ++ ys) <= runs xs + runs ys)%nat.
Proof. destruct xs; [simpl; lia|]. apply runs_from_app. Qed.

Lemma runs_sorted xs : Sorted le_by xs <-> (runs xs <= 1)%nat.
Proof.
  destruct xs as [|x xs]; simpl; [split; [lia|constructor]|].
  revert x. induction xs as [|y xs IH]; intros x; simpl.
  { split; [lia|by repeat constructor]. }
  assert (1 <= runs_from y xs)%nat by (clear; revert y; induction xs as [|z xs IH];
    intros y; simpl; [lia|specialize (IH z); destruct (less z y); lia]).
  destruct (less y x) eqn:E; split.
  - intros Hs. inversion Hs as [|?? _ Hh]. inversion Hh as [|?? Hl]. unfold le_by in Hl. congruence.
  - lia.
  - intros Hs. apply IH. by inversion Hs.
  - intros Hr. constructor; [by apply IH|by constructor].
Qed.

Lemma runs_length xs : (runs xs <= length xs)%nat.
Proof.
  destruct xs as [|x xs]; simpl; [lia|]. revert x.
  induction xs as [|y xs IH]; intros x; simpl; [lia|].
  specialize (IH y). destruct (less y x); lia.
Qed.

Lemma merge_nil_r A : merge A [] = A.
Proof. by destruct A. Qed.

Lemma merge_perm A B : merge A B ≡ₚ A ++ B.
Proof.
  revert B. induction A as [|a A IH]; intros B; [by destruct B|].
  induction B as [|b B IHB]; simpl; [by rewrite app_nil_r|].
  destruct (less b a).
  - transitivity (b :: (a :: A) ++ B); [by apply perm_skip|].
    apply (Permutation_middle (a :: A) B b).
  - apply perm_skip. apply IH.
Qed.

Hypothesis less_asym : forall x y, less x y = true -> less y x = false.

Lemma HdRel_merge x A B :
  HdRel le_by x A -> HdRel le_by x B -> HdRel le_by x (merge A B).
Proof.
  intros HA HB. destruct A as [|a A]; [by destruct B|]. destruct B as [|b B]; [done|].
  simpl. inversion HA. inversion HB. by destruct (less b a); constructor.
Qed.

Lemma merge_sorted A B : Sorted le_by A -> Sorted le_by B -> Sorted le_by (merge A B).
Proof.
  revert B. induction A as [|a A IH]; intros B HA HB; [by destruct B|].
  induction B as [|b B IHB]; [done|]. simpl. destruct (less b a) eqn:E.
  - inversion HB as [|?? HB' Hh]. constructor; [by apply IHB|].
    apply (HdRel_merge b (a :: A) B); [|done]. constructor. unfold le_by. by apply less_asym.
  - inversion HA as [|?? HA' Hh]. constructor; [by apply IH|].
    apply HdRel_merge; [done|]. by constructor.
Qed.

#[local] Arguments merge : simpl never.

(** A pass permutes its input, leaves at most as many runs as it reports, and
    reports half as many as there were. *)
Lemma pass_spec n xs c z :
  (length xs <= n)%nat -> pass n xs = (c, z) ->
  z ≡ₚ xs /\ (runs z <= c)%nat /\ (2 * c <= runs xs + 1)%nat.
Proof.
  revert xs c z. induction n as [|n IH]; intros xs c z Hn.
  { destruct xs; [|simpl in Hn; lia]. intros [= <- <-]. simpl. split_and!; [done|lia..]. }
  destruct xs as [|x t]; simpl; [intros [= <- <-]; simpl; split_and!; [done|lia..]|].
  destruct (run_rest x t) as [r u] eqn:E1.
  pose proof (run_rest_app _ _ _ _ E1) as ->. pose proof (run_rest_sorted _ _ _ _ E1) as S1.
  pose proof (run_rest_runs _ _ _ _ E1) as R1. simpl in R1, Hn. rewrite length_app in Hn.
  destruct u as [|y t2].
  { intros [= <- <-]. rewrite app_nil_r in *. apply runs_sorted in S1. simpl in *. split_and!; [done|lia..]. }
  destruct (run_rest y t2) as [r2 u2] eqn:E2.
  pose proof (run_rest_app _ _ _ _ E2) as ->. pose proof (run_rest_sorted _ _ _ _ E2) as S2.
  pose proof (run_rest_runs _ _ _ _ E2) as R2. simpl in R2, Hn. rewrite length_app in Hn.
  destruct (pass n u2) as [c' z'] eqn:E3. intros [= <- <-].
  destruct (IH u2 c' z') as (P & Q & R); [lia|done|]. split_and!.
  - rewrite P, merge_perm. simpl. by rewrite <- app_assoc.
  - pose proof (runs_app (merge (x :: r) (y :: r2)) z').
    pose proof (proj1 (runs_sorted _) (merge_sorted _ _ S1 S2)). lia.
  - simpl in *. lia.
Qed.

(** ** The pointer code computes the reference definitions *)
Section Pointers.
Context {l : Z}.
Local Abbreviation T := (list_tail l).

Lemma fst_neq h xs y ys post :
  dlist h l (xs ++ y :: ys ++ post) -> y <> fst_of T post.
Proof.
  intros (_ & Hnd & _). unfold nodes in Hnd.
  apply NoDup_cons in Hnd as [_ H]. rewrite NoDup_app, NoDup_app, NoDup_cons in H. destruct post; simpl; set_solver.
Qed.

Lemma dlist_snoc h xs y ys : dlist h l (xs ++ y :: ys) -> dlist h l ((xs ++ [y]) ++ ys).
Proof. by rewrite <- app_assoc. Qed.

Lemma find_end_of_run_loop_run fuel h pre x rest post r u :
  dlist h l (pre ++ x :: rest ++ post) -> (length rest < fuel)%nat -> run_rest x rest = (r, u) ->
  find_end_of_run_loop less fuel x (fst_of T post) h = Ok (fst_of (fst_of T post) u, h).
Proof.
  revert pre x rest r u. induction fuel as [|fuel IH]; intros pre x rest r u Hd Hf E; [lia|].
  simpl. erewrite bind_run by (by eapply list_next_elem). rewrite fst_of_app.
  destruct rest as [|y rest]; simpl in *; [by simplify_eq; rewrite Z.eqb_refl|].
  rewrite (proj2 (Z.eqb_neq _ _)) by (apply (fst_neq h (pre ++ [x]) y rest); by apply dlist_snoc).
  pose proof (list_prev_elem pre x (y :: rest ++ post) Hd) as Hp. simpl in Hp.
  erewrite bind_run by exact Hp. destruct (less y x); [by simplify_eq|].
  destruct (run_rest y rest) as [r' u'] eqn:E'. simplify_eq.
  eapply (IH (pre ++ [x])); [by apply dlist_snoc|lia|exact E'].
Qed.

Lemma is_sorted_run fuel h pre xs post :
  dlist h l (pre ++ xs ++ post) -> (length xs < fuel)%nat -> Sorted le_by xs ->
  is_sorted less fuel (fst_of (fst_of T post) xs) (fst_of T post) h = Ok (true, h).
Proof.
  intros Hd Hf Hs. unfold is_sorted. destruct xs as [|x xs]; simpl; [by rewrite Z.eqb_refl|].
  rewrite (proj2 (Z.eqb_neq _ _)) by (by eapply fst_neq).
  revert pre x xs Hd Hf Hs. induction fuel as [|fuel IH]; intros pre x rest Hd Hf Hs; [lia|].
  simpl. erewrite bind_run by (by eapply list_next_elem). rewrite fst_of_app.
  destruct rest as [|y rest]; simpl in *; [by rewrite Z.eqb_refl|].
  rewrite (proj2 (Z.eqb_neq _ _)) by (apply (fst_neq h (pre ++ [x]) y rest); by apply dlist_snoc).
  pose proof (list_prev_elem pre x (y :: rest ++ post) Hd) as Hp. simpl in Hp.
  erewrite bind_run by exact Hp. inversion Hs as [|?? Hs' Hh]. inversion Hh as [|?? Hl].
  unfold le_by in Hl. rewrite Hl. eapply (IH (pre ++ [x])); [by apply dlist_snoc|lia|done].
Qed.

(** Moving one element of the list up, before an earlier one. *)
Lemma splice_one h pre a mid b ys :
  dlist h l (pre ++ a :: mid ++ b :: ys) ->
  exists h', list_splice a b (fst_of T ys) h = Ok (tt, h') /\
    dlist h' l (pre ++ b :: a :: mid ++ ys) /\
    same_except (nodes l (pre ++ a :: mid ++ b :: ys)) h h'.
Proof.
  intros Hd. set (n := fst_of T ys).
  assert (ys ++ [T] = n :: tail (ys ++ [T])) as EB by by destruct ys.
  set (B := tail (ys ++ [T])) in *.
  destruct (exists_last (l := list_head l :: pre)) as (A' & p & EA'); [done|].
  destruct (exists_last (l := a :: mid)) as (M' & q & EM); [done|].
  assert (nodes l (pre ++ a :: mid ++ b :: ys) = (A' ++ [p] ++ M') ++ q :: [b] ++ n :: B) as En.
  { unfold nodes. rewrite <- app_assoc. change (?x :: pre ++ ?y) with ((x :: pre) ++ y).
    rewrite EA'. change ((a :: mid ++ b :: ys) ++ [T]) with (((a :: mid) ++ b :: ys) ++ [T]).
    rewrite EM, <- !app_assoc. simpl. by rewrite EB. }
  destruct (list_splice_chain h (A' ++ [p] ++ M') q [b] n B A' p a (mid ++ n :: B))
    as (h' & Hr & Hc & Hf); [done|unfold dlist in Hd; by rewrite En in Hd| |].
  { rewrite <- !app_assoc. simpl. f_equal. f_equal.
    change (a :: mid ++ n :: B) with ((a :: mid) ++ n :: B). by rewrite EM, <- app_assoc. }
  exists h'. split_and!; [exact Hr| |by rewrite En].
  assert (nodes l (pre ++ b :: a :: mid ++ ys) = A' ++ p :: [b] ++ a :: mid ++ n :: B) as E.
  { unfold nodes. rewrite <- app_assoc. change (?x :: pre ++ ?y) with ((x :: pre) ++ y).
    rewrite EA', <- !app_assoc. simpl. do 4 f_equal. by rewrite <- app_assoc, EB. }
  unfold dlist. by rewrite E.
Qed.

Lemma nodes_perm xs ys : xs ≡ₚ ys -> nodes l xs ⊆ nodes l ys.
Proof. intros H. apply nodes_sub. intros z. by rewrite H. Qed.

Lemma inplace_merge_loop_run fuel h pre A B post :
  dlist h l (pre ++ A ++ B ++ post) -> (length A + length B < fuel)%nat ->
  exists h', inplace_merge_loop less fuel (fst_of T (A ++ B ++ post)) (fst_of T (B ++ post))
      (fst_of T post) h = Ok (tt, h') /\
    dlist h' l (pre ++ merge A B ++ post) /\
    same_except (nodes l (pre ++ A ++ B ++ post)) h h'.
Proof.
  revert h pre A B. induction fuel as [|fuel IH]; intros h pre A B Hd Hf; [lia|]. simpl.
  destruct A as [|a A].
  { rewrite Z.eqb_refl. exists h. split_and!; [done| |apply same_except_refl]. by destruct B. }
  assert (a <> fst_of T (B ++ post)) as Ha by (by eapply (fst_neq h pre a A (B ++ post))).
  simpl. rewrite (proj2 (Z.eqb_neq _ _) Ha). destruct B as [|b B].
  { simpl. rewrite Z.eqb_refl. exists h. split_and!; [done|done|apply same_except_refl]. }
  assert (b <> fst_of T post) as Hb.
  { eapply (fst_neq h (pre ++ a :: A) b B post). by rewrite <- app_assoc. }
  simpl. rewrite (proj2 (Z.eqb_neq _ _) Hb). simpl.
  destruct (less b a) eqn:E; simpl.
  - (* B's element goes first *)
    assert (dlist h l ((pre ++ a :: A) ++ b :: B ++ post)) as Hd1 by (by rewrite <- app_assoc).
    erewrite bind_run by (by eapply list_next_elem).
    erewrite bind_run by (by eapply list_prev_elem).
    destruct (splice_one h pre a A b (B ++ post)) as (h1 & Hr & Hd2 & Hf1); [done|].
    erewrite bind_run by exact Hr.
    destruct (IH h1 (pre ++ [b]) (a :: A) B) as (h' & Hr' & Hd' & Hf').
    { by rewrite <- app_assoc. } { simpl in *. lia. }
    exists h'. split_and!; [exact Hr'| |].
    + unfold merge; fold merge. rewrite E. by rewrite <- app_assoc in Hd'.
    + eapply same_except_trans; [exact Hf1|]. eapply same_except_weaken; [|exact Hf'].
      apply nodes_perm. rewrite <- app_assoc. simpl. solve_Permutation.
  - (* A's element stays *)
    erewrite bind_run by (eapply (list_next_elem pre a); exact Hd).
    destruct (IH h (pre ++ [a]) A (b :: B)) as (h' & Hr' & Hd' & Hf').
    { by rewrite <- app_assoc. } { simpl in *. lia. }
    exists h'. split_and!; [exact Hr'| |].
    + unfold merge; fold merge. rewrite E. by rewrite <- app_assoc in Hd'.
    + by rewrite <- app_assoc in Hf'.
Qed.

Lemma find_end_of_run_run fuel h pre x rest r u :
  dlist h l (pre ++ x :: rest) -> (length rest < fuel)%nat -> run_rest x rest = (r, u) ->
  find_end_of_run less fuel x T h = Ok (fst_of T u, h).
Proof.
  intros Hd Hf E. destruct (dlist_elem _ _ _ Hd) as (_ & ? & _ & _ & _ & ?).
  destruct (dlist_nonnull _ Hd). unfold find_end_of_run.
  do 3 (erewrite bind_run by (by apply assert_run, negb_true_iff, Z.eqb_neq)).
  eapply (find_end_of_run_loop_run fuel h pre x rest []); [by rewrite app_nil_r|done..].
Qed.

Lemma inplace_merge_run fuel h pre a A b B post :
  dlist h l (pre ++ (a :: A) ++ (b :: B) ++ post) ->
  (S (length A) + S (length B) < fuel)%nat ->
  Sorted le_by (a :: A) -> Sorted le_by (b :: B) ->
  exists h', inplace_merge less fuel a b (fst_of T post) h = Ok (tt, h') /\
    dlist h' l (pre ++ merge (a :: A) (b :: B) ++ post) /\
    same_except (nodes l (pre ++ (a :: A) ++ (b :: B) ++ post)) h h'.
Proof.
  intros Hd Hf SA SB.
  assert (dlist h l ((pre ++ a :: A) ++ (b :: B) ++ post)) as Hd1 by (by rewrite <- app_assoc).
  destruct (dlist_elem pre a (A ++ (b :: B) ++ post) Hd) as (_ & Ha & _).
  destruct (dlist_elem _ b (B ++ post) Hd1) as (_ & Hb & _ & Hn & _).
  assert (fst_of T post <> NULL) as Hp.
  { destruct post as [|p post]; [by destruct (dlist_nonnull _ Hd)|].
    rewrite !app_assoc in Hd. by destruct (dlist_elem _ p post Hd) as (_ & ? & _). }
  destruct (inplace_merge_loop_run fuel h pre (a :: A) (b :: B) post) as (h' & Hr & ?);
    [done|simpl; lia|].
  exists h'. split; [|done]. unfold inplace_merge.
  do 3 (erewrite bind_run by (by apply assert_run, negb_true_iff, Z.eqb_neq)).
  erewrite bind_run by (apply (is_sorted_run fuel h pre (a :: A) ((b :: B) ++ post));
    [done|simpl; lia|done]).
  erewrite bind_run by (by apply assert_run).
  erewrite bind_run by (apply (is_sorted_run fuel h (pre ++ a :: A) (b :: B) post);
    [done|simpl; lia|done]).
  erewrite bind_run by (by apply assert_run). exact Hr.
Qed.

Lemma list_sort_pass_run fuel fuel0 h pre xs n cnt c z :
  dlist h l (pre ++ xs) -> (length xs <= n)%nat -> (length xs < fuel)%nat ->
  (length xs < fuel0)%nat -> 0 <= cnt -> cnt + Z.of_nat (length xs) < 2 ^ 32 ->
  pass n xs = (c, z) ->
  exists h', list_sort_pass less fuel fuel0 l (fst_of T xs) cnt h = Ok (cnt + Z.of_nat c, h') /\
    dlist h' l (pre ++ z) /\ same_except (nodes l (pre ++ xs)) h h'.
Proof.
  revert fuel h pre xs cnt c z.
  induction n as [|n IH]; intros fuel h pre xs cnt c z Hd Hn Hf Hf0 Hc Hb.
  - destruct xs; [|simpl in Hn; lia]. intros [= <- <-]. destruct fuel; [lia|]. simpl.
    erewrite bind_run by (by eapply list_end_run). rewrite Z.eqb_refl, Z.add_0_r.
    exists h. split_and!; [done|done|apply same_except_refl].
  - destruct fuel as [|fuel]; [lia|]. simpl.
    erewrite bind_run by (by eapply list_end_run). destruct xs as [|x t]; simpl.
    { intros [= <- <-]. rewrite Z.eqb_refl, Z.add_0_r. exists h.
      split_and!; [done|done|apply same_except_refl]. }
    destruct (dlist_elem _ _ _ Hd) as (_ & _ & _ & _ & _ & Hxt).
    rewrite (proj2 (Z.eqb_neq _ _) Hxt). simpl in Hn, Hf, Hf0, Hb.
    destruct (run_rest x t) as [r u] eqn:E1.
    erewrite bind_run by (eapply find_end_of_run_run; [exact Hd|lia|exact E1]).
    pose proof (run_rest_app _ _ _ _ E1) as ->. rewrite length_app in *.
    destruct u as [|y t2].
    { intros [= <- <-]. simpl. rewrite Z.eqb_refl, u32_small by lia. exists h.
      rewrite app_nil_r in *. split_and!; [done|done|apply same_except_refl]. }
    simpl in Hn, Hf, Hf0, Hb |- *.
    assert (dlist h l ((pre ++ x :: r) ++ y :: t2)) as Hd1 by (by rewrite <- app_assoc).
    destruct (dlist_elem _ _ _ Hd1) as (_ & _ & _ & _ & _ & Hyt).
    rewrite (proj2 (Z.eqb_neq _ _) Hyt).
    destruct (run_rest y t2) as [r2 u2] eqn:E2.
    erewrite bind_run by (eapply find_end_of_run_run; [exact Hd1|lia|exact E2]).
    pose proof (run_rest_app _ _ _ _ E2) as ->. rewrite length_app in *.
    destruct (pass n u2) as [c' z'] eqn:E3. intros [= <- <-].
    destruct (inplace_merge_run fuel0 h pre x r y r2 u2) as (h1 & Hr1 & Hd2 & Hf1);
      [done|lia|by eapply run_rest_sorted|by eapply run_rest_sorted|].
    erewrite bind_run by exact Hr1.
    destruct (IH fuel h1 (pre ++ merge (x :: r) (y :: r2)) u2 (cnt + 1) c' z')
      as (h' & Hr & Hd' & Hf'); [by rewrite <- app_assoc|lia..|done|].
    exists h'. rewrite u32_small, Hr by lia. split_and!; [do 2 f_equal; lia| |].
    + by rewrite app_assoc.
    + eapply same_except_trans; [exact Hf1|]. eapply same_except_weaken; [|exact Hf'].
      apply nodes_perm. rewrite merge_perm, <- !app_assoc. done.
Qed.

Lemma list_sort_loop_run fuel fuel0 h xs :
  dlist h l xs -> (runs xs <= fuel)%nat -> (0 < fuel)%nat -> (length xs < fuel0)%nat ->
  Z.of_nat (length xs) < 2 ^ 32 ->
  exists h' ys, list_sort_loop less fuel fuel0 l h = Ok (tt, h') /\ dlist h' l ys /\
    ys ≡ₚ xs /\ Sorted le_by ys /\ same_except (nodes l xs) h h'.
Proof.
  revert h xs. induction fuel as [|fuel IH]; intros h xs Hd Hr H0 Hf Hb; [lia|]. simpl.
  erewrite bind_run by (by eapply list_begin_run).
  destruct (pass (length xs) xs) as [c z] eqn:E.
  destruct (pass_spec (length xs) xs c z) as (HP & Hc & H2); [lia|done|].
  destruct (list_sort_pass_run fuel0 fuel0 h [] xs (length xs) 0 c z) as (h1 & Hr1 & Hd1 & Hf1);
    [done|lia..|done|].
  erewrite bind_run by exact Hr1. rewrite Z.add_0_l. simpl in Hd1, Hf1.
  destruct (1 <? Z.of_nat c) eqn:E1; bool_to_prop.
  - destruct (IH h1 z) as (h' & ys & Hr' & Hd' & HP' & Hs' & Hf');
      [done|lia|lia|by rewrite HP|by rewrite HP|].
    exists h', ys. split_and!; [done|done|by rewrite HP'|done|].
    eapply same_except_trans; [exact Hf1|]. eapply same_except_weaken; [|exact Hf'].
    by apply nodes_perm.
  - exists h1, z. split_and!; [done|done|done| |done]. apply runs_sorted. lia.
Qed.

Lemma list_insert_ordered_loop_run fuel h pre ys e :
  dlist h l (pre ++ ys) -> (length ys < fuel)%nat ->
  exists zs us, ys = zs ++ us /\ list_insert_ordered_loop less fuel l e (fst_of T ys) h = Ok (fst_of T us, h) /\
    Forall (fun z => less e z = false) zs /\ match us with [] => True | u :: _ => less e u = true end.
Proof.
  revert pre ys. induction fuel as [|fuel IH]; intros pre ys Hd Hf; [lia|]. simpl.
  erewrite bind_run by (by eapply list_end_run). destruct ys as [|y ys]; simpl in *.
  { exists [], []. rewrite Z.eqb_refl. done. }
  destruct (dlist_elem _ _ _ Hd) as (_ & _ & _ & _ & _ & Hy).
  rewrite (proj2 (Z.eqb_neq _ _) Hy). destruct (less e y) eqn:E; [by exists [], (y :: ys)|].
  erewrite bind_run by (by eapply list_next_elem).
  destruct (IH (pre ++ [y]) ys) as (zs & us & -> & Hr & Hz & Hu);
    [by rewrite <- app_assoc|lia|].
  exists (y :: zs), us. auto.
Qed.

Lemma sorted_insert e zs us :
  Sorted le_by (zs ++ us) -> Forall (fun z => less e z = false) zs ->
  match us with [] => True | u :: _ => less e u = true end -> Sorted le_by (zs ++ e :: us).
Proof.
  intros Hs Hz Hu. induction zs as [|z zs IH]; simpl in *.
  - constructor; [done|]. destruct us; constructor. by apply less_asym.
  - apply Sorted_inv in Hs as [Hs Hh]. apply Forall_cons in Hz as [Hz1 Hz].
    constructor; [auto|]. destruct zs; [by constructor|]. simpl in *.
    constructor. by inversion Hh.
Qed.

Lemma list_max_loop_run fuel h pre ys m :
  dlist h l (pre ++ ys) -> (length ys < fuel)%nat ->
  list_max_loop less fuel l m (fst_of T ys) h =
    Ok (foldl (fun m e => if less m e then e else m) m ys, h).
Proof.
  revert pre ys m. induction fuel as [|fuel IH]; intros pre ys m Hd Hf; [lia|]. simpl.
  erewrite bind_run by (by eapply list_end_run). destruct ys as [|y ys]; simpl in *.
  { by rewrite Z.eqb_refl. }
  destruct (dlist_elem _ _ _ Hd) as (_ & _ & _ & _ & _ & Hy).
  rewrite (proj2 (Z.eqb_neq _ _) Hy). erewrite bind_run by (by eapply list_next_elem).
  apply (IH (pre ++ [y])); [by rewrite <- app_assoc|lia].
Qed.

Lemma list_min_loop_run fuel h pre ys m :
  dlist h l (pre ++ ys) -> (length ys < fuel)%nat ->
  list_min_loop less fuel l m (fst_of T ys) h =
    Ok (foldl (fun m e => if less e m then e else m) m ys, h).
Proof.
  revert pre ys m. induction fuel as [|fuel IH]; intros pre ys m Hd Hf; [lia|]. simpl.
  erewrite bind_run by (by eapply list_end_run). destruct ys as [|y ys]; simpl in *.
  { by rewrite Z.eqb_refl. }
  destruct (dlist_elem _ _ _ Hd) as (_ & _ & _ & _ & _ & Hy).
  rewrite (proj2 (Z.eqb_neq _ _) Hy). erewrite bind_run by (by eapply list_next_elem).
  apply (IH (pre ++ [y])); [by rewrite <- app_assoc|lia].
Qed.

(** [list_max] and [list_min] compute the left fold of the comparison over the
    list, so the earliest of several extreme elements wins. *)
Lemma list_max_run fuel h x xs :
  dlist h l (x :: xs) -> (length xs < fuel)%nat ->
  list_max less fuel l h = Ok (foldl (fun m e => if less m e then e else m) x xs, h).
Proof.
  intros Hd Hf. unfold list_max. erewrite bind_run by (by eapply list_begin_run).
  erewrite bind_run by (by eapply list_end_run).
  destruct (dlist_elem [] x xs Hd) as (_ & _ & _ & _ & _ & Hx). simpl.
  rewrite (proj2 (Z.eqb_neq _ _) Hx). simpl.
  erewrite bind_run by (by eapply (list_next_elem [])). by apply (list_max_loop_run _ _ [x]).
Qed.

Lemma list_min_run fuel h x xs :
  dlist h l (x :: xs) -> (length xs < fuel)%nat ->
  list_min less fuel l h = Ok (foldl (fun m e => if less e m then e else m) x xs, h).
Proof.
  intros Hd Hf. unfold list_min. erewrite bind_run by (by eapply list_begin_run).
  erewrite bind_run by (by eapply list_end_run).
  destruct (dlist_elem [] x xs Hd) as (_ & _ & _ & _ & _ & Hx). simpl.
  rewrite (proj2 (Z.eqb_neq _ _) Hx). simpl.
  erewrite bind_run by (by eapply (list_next_elem [])). by apply (list_min_loop_run _ _ [x]).
Qed.
End Pointers.
End Sorting.

(** ** Theorems *)

(** C24: [list_sort] terminates, fails no ASSERT, and leaves in the same list the
    same elements in nondecreasing order of LESS, touching no cell outside the
    list.  The only assumption on the comparison is that it is asymmetric. *)
Theorem list_sort_correct less fuel h l xs :
  (forall x y, less x y = true -> less y x = false) ->
  dlist h l xs -> (length xs < fuel)%nat -> Z.of_nat (length xs) < 2 ^ 32 ->
  exists h' ys, list_sort less fuel l h = Ok (tt, h') /\ dlist h' l ys /\ ys ≡ₚ xs /\
    Sorted (fun x y => less y x = false) ys /\ same_except (nodes l xs) h h'.
Proof.
  intros Hasym Hd Hf Hb. pose proof (runs_length less xs).
  destruct (list_sort_loop_run (l:=l) less Hasym fuel fuel h xs) as (h' & ys & Hr & Hd' & HP & Hs & Hf');
    [done|lia..|].
  exists h', ys. split_and!; [|done..]. unfold list_sort.
  erewrite bind_run by (by eapply assert_list_run). erewrite bind_run by exact Hr.
  erewrite bind_run by (by eapply list_begin_run).
  erewrite bind_run by (by eapply list_end_run).
  erewrite bind_run by (apply (is_sorted_run (l:=l) less Hasym fuel h' [] ys []);
    [by rewrite app_nil_r|by rewrite HP|done]).
  by apply assert_run.
Qed.

Lemma list_sort_correct_witness :
  exists h' ys, list_sort Z.gtb 3 64 demo_heap = Ok (tt, h') /\ dlist h' 64 ys /\ ys ≡ₚ [16; 32].
Proof.
  destruct (list_sort_correct Z.gtb 3 demo_heap 64 [16; 32]) as (h' & ys & Hr & Hd & HP & _).
  - intros x y. rewrite !Z.gtb_ltb. lia.
  - exact demo_dlist.
  - simpl. lia.
  - reflexivity.
  - eauto.
Defined.

(** [list_insert_ordered] puts the element into a sorted list so that it
    stays sorted: after every element it is not less than, before the first one
    it is less than; no cell outside the list and the element changes. *)
Theorem list_insert_ordered_correct less fuel h l xs e c :
  (forall x y, less x y = true -> less y x = false) ->
  dlist h l xs -> (length xs < fuel)%nat ->
  e ∉ nodes l xs -> e <> NULL -> h !! e = Some c ->
  Sorted (fun x y => less y x = false) xs ->
  exists h' zs us, list_insert_ordered less fuel l e h = Ok (tt, h') /\ xs = zs ++ us /\
    dlist h' l (zs ++ e :: us) /\ Sorted (fun x y => less y x = false) (zs ++ e :: us) /\
    Forall (fun z => less e z = false) zs /\ same_except (e :: nodes l xs) h h'.
Proof.
  intros Hasym Hd Hf He He0 Hc Hs.
  destruct (list_insert_ordered_loop_run (l:=l) less fuel h [] xs e) as (zs & us & -> & Hr & Hz & Hu);
    [done..|].
  destruct (list_insert_run h l zs us e c) as (h' & Hi & Hd' & Hf'); [done..|].
  exists h', zs, us. split_and!; [|done|done|by apply sorted_insert|done|done].
  unfold list_insert_ordered. erewrite bind_run by (by eapply assert_list_run).
  erewrite bind_run by (by apply assert_run, negb_true_iff, Z.eqb_neq).
  erewrite bind_run by (by eapply list_begin_run). by erewrite bind_run by exact Hr.
Qed.

Lemma list_insert_ordered_correct_witness :
  exists h' zs us, list_insert_ordered Z.ltb 3 64 48 demo_heap = Ok (tt, h') /\
    [16; 32] = zs ++ us /\ dlist h' 64 (zs ++ 48 :: us).
Proof.
  destruct (list_insert_ordered_correct Z.ltb 3 demo_heap 64 [16; 32] 48 (mk_elem 0 0))
    as (h' & zs & us & Hr & E & Hd & _).
  - intros x y. lia.
  - exact demo_dlist.
  - simpl. lia.
  - apply (bool_decide_unpack _). vm_compute. exact I.
  - discriminate.
  - reflexivity.
  - repeat constructor.
  - exists h', zs, us. auto.
Defined.
