(* ===== verification/CString.v ===== *)
(** * Strings and blocks of memory: [lib/string.c]

    Memory is a map from addresses to bytes; an access to an address that is not
    mapped traps.  A loop over a string reads one byte more in every turn, so the
    number of mapped bytes bounds its turns. *)

From S2P Require Import Prelude.

Abbreviation cmem := (gmap Z Z).

Definition load1 (a : Z) : M cmem Z := fun m =>
  match m !! a with Some b => Ok (b, m) | None => Err Trap end.
Definition store1 (a b : Z) : M cmem unit := fun m =>
  match m !! a with Some _ => Ok (tt, <[a := b]> m) | None => Err Trap end.

(** The turns of a loop over a string. *)
Definition str_fuel : M cmem nat := m ← get; mret (S (size (m : cmem))).

(** ** Blocks *)

Fixpoint copy_up (n : nat) (dst src : Z) : M cmem unit :=
  match n with
  | O => mret tt
  | S n => b ← load1 src; _ ← store1 dst b; copy_up n (dst + 1) (src + 1)
  end.
Fixpoint copy_down (n : nat) (dst src : Z) : M cmem unit :=
  match n with
  | O => mret tt
  | S n => b ← load1 (src - 1); _ ← store1 (dst - 1) b; copy_down n (dst - 1) (src - 1)
  end.

Definition memcpy (dst src size : Z) : M cmem Z :=
  _ ← assert (negb (dst =? NULL) || (size =? 0));
  _ ← assert (negb (src =? NULL) || (size =? 0));
  _ ← copy_up (Z.to_nat size) dst src;
  mret dst.

(** The value returned is the variable the loops move. *)
Definition memmove (dst src size : Z) : M cmem Z :=
  _ ← assert (negb (dst =? NULL) || (size =? 0));
  _ ← assert (negb (src =? NULL) || (size =? 0));
  if dst <? src then _ ← copy_up (Z.to_nat size) dst src; mret (dst + size)
  else _ ← copy_down (Z.to_nat size) (dst + size) (src + size); mret dst.

Fixpoint memcmp_loop (n : nat) (a b : Z) : M cmem Z :=
  match n with
  | O => mret 0
  | S n =>
      x ← load1 a; y ← load1 b;
      if negb (x =? y) then mret (if y <? x then 1 else -1) else memcmp_loop n (a + 1) (b + 1)
  end.
Definition memcmp (a b size : Z) : M cmem Z :=
  _ ← assert (negb (a =? NULL) || (size =? 0));
  _ ← assert (negb (b =? NULL) || (size =? 0));
  memcmp_loop (Z.to_nat size) a b.

Fixpoint memchr_loop (n : nat) (block ch : Z) : M cmem Z :=
  match n with
  | O => mret NULL
  | S n => x ← load1 block; if x =? ch then mret block else memchr_loop n (block + 1) ch
  end.
Definition memchr (block ch size : Z) : M cmem Z :=
  _ ← assert (negb (block =? NULL) || (size =? 0));
  memchr_loop (Z.to_nat size) block (u8 ch).

Fixpoint memset_loop (n : nat) (dst value : Z) : M cmem unit :=
  match n with
  | O => mret tt
  | S n => _ ← store1 dst (u8 value); memset_loop n (dst + 1) value
  end.
Definition memset (dst value size : Z) : M cmem Z :=
  _ ← assert (negb (dst =? NULL) || (size =? 0));
  _ ← memset_loop (Z.to_nat size) dst value;
  mret dst.

(** ** Strings *)

Fixpoint strcmp_loop (fuel : nat) (a b : Z) : M cmem Z :=
  match fuel with
  | O => fail OutOfFuel
  | S fuel =>
      x ← load1 a;
      if negb (x =? 0) then
        y ← load1 b;
        if x =? y then strcmp_loop fuel (a + 1) (b + 1) else mret (if x <? y then -1 else b2z (y <? x))
      else y ← load1 b; mret (if x <? y then -1 else b2z (y <? x))
  end.
Definition strcmp (a b : Z) : M cmem Z :=
  _ ← assert (negb (a =? NULL));
  _ ← assert (negb (b =? NULL));
  fuel ← str_fuel;
  strcmp_loop fuel a b.

Fixpoint strchr_loop (fuel : nat) (string c : Z) : M cmem Z :=
  match fuel with
  | O => fail OutOfFuel
  | S fuel =>
      x ← load1 string;
      if x =? c then mret string else if x =? 0 then mret NULL else strchr_loop fuel (string + 1) c
  end.
Definition strchr (string c : Z) : M cmem Z :=
  _ ← assert (negb (string =? NULL));
  fuel ← str_fuel;
  strchr_loop fuel string (u8 c).

Fixpoint strcspn_loop (fuel : nat) (string stop length : Z) : M cmem Z :=
  match fuel with
  | O => fail OutOfFuel
  | S fuel =>
      x ← load1 (string + length);
      if x =? 0 then mret length
      else
        r ← strchr stop x;
        if negb (r =? NULL) then mret length else strcspn_loop fuel string stop (length + 1)
  end.
Definition strcspn (string stop : Z) : M cmem Z := fuel ← str_fuel; strcspn_loop fuel string stop 0.

Fixpoint strpbrk_loop (fuel : nat) (string stop : Z) : M cmem Z :=
  match fuel with
  | O => fail OutOfFuel
  | S fuel =>
      x ← load1 string;
      if x =? 0 then mret NULL
      else
        r ← strchr stop x;
        if negb (r =? NULL) then mret string else strpbrk_loop fuel (string + 1) stop
  end.
Definition strpbrk (string stop : Z) : M cmem Z := fuel ← str_fuel; strpbrk_loop fuel string stop.

Fixpoint strrchr_loop (fuel : nat) (string c p : Z) : M cmem Z :=
  match fuel with
  | O => fail OutOfFuel
  | S fuel =>
      x ← load1 string;
      if x =? 0 then mret p else strrchr_loop fuel (string + 1) c (if x =? c then string else p)
  end.
Definition strrchr (string c : Z) : M cmem Z := fuel ← str_fuel; strrchr_loop fuel string (u8 c) NULL.

Fixpoint strspn_loop (fuel : nat) (string skip length : Z) : M cmem Z :=
  match fuel with
  | O => fail OutOfFuel
  | S fuel =>
      x ← load1 (string + length);
      if x =? 0 then mret length
      else
        r ← strchr skip x;
        if r =? NULL then mret length else strspn_loop fuel string skip (length + 1)
  end.
Definition strspn (string skip : Z) : M cmem Z := fuel ← str_fuel; strspn_loop fuel string skip 0.

Fixpoint strlen_loop (fuel : nat) (p : Z) : M cmem Z :=
  match fuel with
  | O => fail OutOfFuel
  | S fuel => x ← load1 p; if x =? 0 then mret p else strlen_loop fuel (p + 1)
  end.
Definition strlen (string : Z) : M cmem Z :=
  _ ← assert (negb (string =? NULL));
  fuel ← str_fuel;
  p ← strlen_loop fuel string;
  mret (p - string).

(** The test of the byte comes before the test of the bound. *)
Fixpoint strnlen_loop (fuel : nat) (string maxlen length : Z) : M cmem Z :=
  match fuel with
  | O => fail OutOfFuel
  | S fuel =>
      x ← load1 (string + length);
      if negb (x =? 0) && (length <? maxlen) then strnlen_loop fuel string maxlen (length + 1) else mret length
  end.
Definition strnlen (string maxlen : Z) : M cmem Z := fuel ← str_fuel; strnlen_loop fuel string maxlen 0.

Fixpoint strstr_loop (n : nat) (haystack needle needle_len i : Z) : M cmem Z :=
  match n with
  | O => mret NULL
  | S n =>
      c ← memcmp (haystack + i) needle needle_len;
      if c =? 0 then mret (haystack + i) else strstr_loop n haystack needle needle_len (i + 1)
  end.
Definition strstr (haystack needle : Z) : M cmem Z :=
  haystack_len ← strlen haystack;
  needle_len ← strlen needle;
  if needle_len <=? haystack_len
  then strstr_loop (Z.to_nat (haystack_len - needle_len + 1)) haystack needle needle_len 0
  else mret NULL.

(** [strtok_r] skips delimiters; [None] is the end of the string. *)
Fixpoint skip_delimiters (fuel : nat) (s delimiters : Z) : M cmem (Z * bool) :=
  match fuel with
  | O => fail OutOfFuel
  | S fuel =>
      x ← load1 s;
      r ← strchr delimiters x;
      if negb (r =? NULL) then if x =? 0 then mret (s, true) else skip_delimiters fuel (s + 1) delimiters
      else mret (s, false)
  end.
Fixpoint skip_token (fuel : nat) (s delimiters : Z) : M cmem Z :=
  match fuel with
  | O => fail OutOfFuel
  | S fuel =>
      x ← load1 s;
      r ← strchr delimiters x;
      if r =? NULL then skip_token fuel (s + 1) delimiters else mret s
  end.
(** The result is the token and the new value of [*save_ptr]. *)
Definition strtok_r (s delimiters save_ptr : Z) : M cmem (Z * Z) :=
  _ ← assert (negb (delimiters =? NULL));
  let s := if s =? NULL then save_ptr else s in
  _ ← assert (negb (s =? NULL));
  fuel ← str_fuel;
  r ← skip_delimiters fuel s delimiters;
  let (token, ended) := (r : Z * bool) in
  if ended then mret (NULL, token)
  else
    s ← skip_token fuel token delimiters;
    x ← load1 s;
    if negb (x =? 0) then _ ← store1 s 0; mret (token, s + 1) else mret (token, s).

Definition strlcpy (dst src size : Z) : M cmem Z :=
  _ ← assert (negb (dst =? NULL));
  _ ← assert (negb (src =? NULL));
  src_len ← strlen src;
  _ ← (if 0 <? size then
         let dst_len := if src_len <? size - 1 then src_len else size - 1 in
         _ ← memcpy dst src dst_len;
         store1 (dst + dst_len) 0
       else mret tt);
  mret src_len.

Definition strlcat (dst src size : Z) : M cmem Z :=
  _ ← assert (negb (dst =? NULL));
  _ ← assert (negb (src =? NULL));
  src_len ← strlen src;
  dst_len ← strlen dst;
  _ ← (if (0 <? size) && (dst_len <? size) then
         let copy_cnt := if src_len <? size - dst_len - 1 then src_len else size - dst_len - 1 in
         _ ← memcpy (dst + dst_len) src copy_cnt;
         store1 (dst + dst_len + copy_cnt) 0
       else mret tt);
  mret (u32 (src_len + dst_len)).

(** ** Blocks and strings in memory *)

Implicit Types m : cmem.

(** [bs] is at address [p]. *)
Definition bytes_at m (p : Z) (bs : list Z) : Prop :=
  forall i b, bs !! i = Some b -> m !! (p + Z.of_nat i) = Some b.
(** Memory with [bs] stored at [p]. *)
Fixpoint put_bytes m (p : Z) (bs : list Z) : cmem :=
  match bs with [] => m | b :: bs => put_bytes (<[p := b]> m) (p + 1) bs end.
(** A string: bytes that are not null, and a null. *)
Definition is_char (b : Z) : Prop := 0 < b < 256.
Definition str_at m (p : Z) (s : list Z) : Prop := bytes_at m p (s ++ [0]) /\ Forall is_char s.
(** [n] addresses from [p] on are mapped. *)
Definition mapped_from m (p : Z) (n : nat) : Prop := forall i, (i < n)%nat -> is_Some (m !! (p + Z.of_nat i)).

Lemma put_bytes_lookup bs : forall m p a,
  put_bytes m p bs !! a = if decide (p <= a < p + Z.of_nat (length bs)) then bs !! Z.to_nat (a - p) else m !! a.
Proof.
  induction bs as [|b bs IH]; intros m p a; simpl.
  - rewrite decide_False by lia. done.
  - rewrite IH. destruct (decide (a = p)) as [->|Hne].
    + rewrite decide_False, decide_True, lookup_insert_eq, Z.sub_diag by lia. done.
    + destruct (decide (p + 1 <= a < p + 1 + Z.of_nat (length bs))) as [Hd|Hd].
      * rewrite decide_True by lia. replace (Z.to_nat (a - p)) with (S (Z.to_nat (a - (p + 1)))) by lia. done.
      * rewrite decide_False, lookup_insert_ne by lia. done.
Qed.

Lemma put_bytes_at m p bs : bytes_at (put_bytes m p bs) p bs.
Proof.
  intros i b Hi. apply lookup_lt_Some in Hi as Hl. rewrite put_bytes_lookup, decide_True by lia.
  by replace (Z.to_nat (p + Z.of_nat i - p)) with i by lia.
Qed.

Lemma bytes_at_cons m p b bs : bytes_at m p (b :: bs) <-> m !! p = Some b /\ bytes_at m (p + 1) bs.
Proof.
  split.
  - intros Hb. split; [specialize (Hb 0%nat b eq_refl); by rewrite Z.add_0_r in Hb|].
    intros i x Hx. specialize (Hb (S i) x Hx). by replace (p + 1 + Z.of_nat i) with (p + Z.of_nat (S i)) by lia.
  - intros [H0 Hb] [|i] x Hx; [injection Hx as <-; by rewrite Z.add_0_r|]. specialize (Hb i x Hx).
    by replace (p + Z.of_nat (S i)) with (p + 1 + Z.of_nat i) by lia.
Qed.

Lemma bytes_at_app m p bs bs' : bytes_at m p (bs ++ bs') <-> bytes_at m p bs /\ bytes_at m (p + Z.of_nat (length bs)) bs'.
Proof.
  revert p. induction bs as [|b bs IH]; intros p; simpl.
  - rewrite Z.add_0_r. split; [|by intros []]. intros Hb. split; [|done]. by intros i x Hx.
  - rewrite !bytes_at_cons, IH. replace (p + 1 + Z.of_nat (length bs)) with (p + Z.of_nat (S (length bs))) by lia. tauto.
Qed.

Lemma mapped_cons m p n : mapped_from m p (S n) <-> is_Some (m !! p) /\ mapped_from m (p + 1) n.
Proof.
  split.
  - intros Hm. split; [specialize (Hm 0%nat); rewrite Z.add_0_r in Hm; apply Hm; lia|].
    intros i Hi. replace (p + 1 + Z.of_nat i) with (p + Z.of_nat (S i)) by lia. apply Hm. lia.
  - intros [H0 Hm] [|i] Hi; [by rewrite Z.add_0_r|].
    replace (p + Z.of_nat (S i)) with (p + 1 + Z.of_nat i) by lia. apply Hm. lia.
Qed.
Lemma mapped_insert m p n a b : mapped_from m p n -> mapped_from (<[a := b]> m) p n.
Proof. intros Hm i Hi. rewrite lookup_insert_is_Some. destruct (decide (a = p + Z.of_nat i)); [by left|right; auto]. Qed.
Lemma bytes_mapped m p bs : bytes_at m p bs -> mapped_from m p (length bs).
Proof. intros Hb i Hi. apply lookup_lt_is_Some_2 in Hi as [b Hi]. rewrite (Hb i b Hi). by eexists. Qed.

Lemma mapped_le m p k n : (k <= n)%nat -> mapped_from m p n -> mapped_from m p k.
Proof. intros Hk Hm i Hi. apply Hm. lia. Qed.

(** A block outside the bytes stored. *)
Lemma bytes_at_put m p bs q cs :
  bytes_at m p bs -> p + Z.of_nat (length bs) <= q \/ q + Z.of_nat (length cs) <= p -> bytes_at (put_bytes m q cs) p bs.
Proof.
  intros Hb Hd i b Hi. apply lookup_lt_Some in Hi as Hl. rewrite put_bytes_lookup, decide_False by lia. by apply Hb.
Qed.
Lemma mapped_put m p n q cs : mapped_from m p n -> mapped_from (put_bytes m q cs) p n.
Proof.
  intros Hm i Hi. rewrite put_bytes_lookup. case_decide; [apply lookup_lt_is_Some_2; lia|by apply Hm].
Qed.

Lemma load1_run m a b : m !! a = Some b -> load1 a m = Ok (b, m).
Proof. intros Ha. unfold load1. by rewrite Ha. Qed.
Lemma store1_run m a b : is_Some (m !! a) -> store1 a b m = Ok (tt, <[a := b]> m).
Proof. intros [x Hx]. unfold store1. by rewrite Hx. Qed.

(** ** Blocks *)

(** The copy upwards is right when the destination is below the source or the
    blocks are apart: no byte is overwritten before it is read. *)
Lemma copy_up_ok n : forall m dst src bs,
  length bs = n -> bytes_at m src bs -> mapped_from m dst n -> dst <= src \/ src + Z.of_nat n <= dst ->
  copy_up n dst src m = Ok (tt, put_bytes m dst bs).
Proof.
  induction n as [|n IH]; intros m dst src bs Hl Hb Hm Hd; destruct bs as [|b bs]; simplify_eq/=; [done|].
  apply bytes_at_cons in Hb as [H0 Hb]. apply mapped_cons in Hm as [Hm0 Hm].
  bind_by (by apply load1_run). bind_by (by apply store1_run). apply IH; [done| |by apply mapped_insert|lia].
  intros i x Hx. apply lookup_lt_Some in Hx as Hlt. rewrite lookup_insert_ne by lia. by apply Hb.
Qed.

Lemma put_bytes_snoc bs : forall m p b, put_bytes m p (bs ++ [b]) = <[p + Z.of_nat (length bs) := b]> (put_bytes m p bs).
Proof.
  induction bs as [|c bs IH]; intros m p b; simpl; [by rewrite Z.add_0_r|]. rewrite IH. f_equal. lia.
Qed.
Lemma put_bytes_insert bs m p q b : q < p \/ p + Z.of_nat (length bs) <= q -> put_bytes (<[q := b]> m) p bs = <[q := b]> (put_bytes m p bs).
Proof.
  intros Hq. apply map_eq. intros a. rewrite put_bytes_lookup. destruct (decide (a = q)) as [->|Hne].
  - rewrite lookup_insert_eq, decide_False, lookup_insert_eq by lia. done.
  - rewrite !(lookup_insert_ne _ q) by done. by rewrite put_bytes_lookup.
Qed.

Lemma copy_down_ok n : forall m dst src bs,
  length bs = n -> bytes_at m src bs -> mapped_from m dst n -> src <= dst ->
  copy_down n (dst + Z.of_nat n) (src + Z.of_nat n) m = Ok (tt, put_bytes m dst bs).
Proof.
  induction n as [|n IH]; intros m dst src bs Hl Hb Hm Hd.
  { by destruct bs. }
  destruct bs as [|b bs _] using rev_ind; [done|]. rewrite length_app in Hl. simpl in Hl.
  apply bytes_at_app in Hb as [Hb H1]. apply bytes_at_cons in H1 as [H1 _]. cbn [copy_down].
  replace (src + Z.of_nat (S n) - 1) with (src + Z.of_nat n) by lia. replace (dst + Z.of_nat (S n) - 1) with (dst + Z.of_nat n) by lia.
  bind_by (apply load1_run; by replace n with (length bs) by lia). bind_by (apply store1_run, Hm; lia).
  rewrite (IH _ dst src bs); [|lia| |apply mapped_insert, (mapped_le _ _ n (S n)); [lia|done]|done].
  - rewrite put_bytes_snoc, put_bytes_insert by lia. by replace (length bs) with n by lia.
  - intros i x Hx. apply lookup_lt_Some in Hx as Hlt. rewrite lookup_insert_ne by lia. by apply Hb.
Qed.

Lemma null_assert p n : p <> NULL \/ n = 0 -> negb (p =? NULL) || (n =? 0) = true.
Proof. intros [Hp| ->]; [by rewrite (proj2 (Z.eqb_neq _ _) Hp)|by rewrite orb_true_r]. Qed.

Lemma memcpy_ok m dst src bs :
  bytes_at m src bs -> mapped_from m dst (length bs) -> dst <> NULL -> src <> NULL ->
  dst <= src \/ src + Z.of_nat (length bs) <= dst ->
  memcpy dst src (Z.of_nat (length bs)) m = Ok (dst, put_bytes m dst bs).
Proof.
  intros Hb Hm Hd Hs Ha. unfold memcpy. bind_by (apply assert_run, null_assert; by left).
  bind_by (apply assert_run, null_assert; by left). rewrite Nat2Z.id. bind_by (by apply copy_up_ok). done.
Qed.

Lemma memmove_ok m dst src bs :
  bytes_at m src bs -> mapped_from m dst (length bs) -> dst <> NULL -> src <> NULL ->
  memmove dst src (Z.of_nat (length bs)) m =
    Ok (if dst <? src then dst + Z.of_nat (length bs) else dst, put_bytes m dst bs).
Proof.
  intros Hb Hm Hd Hs. unfold memmove. bind_by (apply assert_run, null_assert; by left).
  bind_by (apply assert_run, null_assert; by left). rewrite Nat2Z.id. destruct (dst <? src) eqn:E; bool_to_prop.
  - bind_by (apply copy_up_ok; [done|exact Hb|done|lia]). done.
  - bind_by (apply copy_down_ok; [done|exact Hb|done|lia]). done.
Qed.

Lemma memset_loop_ok n : forall m dst value,
  mapped_from m dst n -> memset_loop n dst value m = Ok (tt, put_bytes m dst (replicate n (u8 value))).
Proof.
  induction n as [|n IH]; intros m dst value Hm; [done|]. apply mapped_cons in Hm as [H0 Hm]. cbn [memset_loop].
  bind_by (by apply store1_run). by apply IH, mapped_insert.
Qed.
Lemma memset_ok m dst value n :
  mapped_from m dst n -> dst <> NULL ->
  memset dst value (Z.of_nat n) m = Ok (dst, put_bytes m dst (replicate n (u8 value))).
Proof.
  intros Hm Hd. unfold memset. bind_by (apply assert_run, null_assert; by left). rewrite Nat2Z.id.
  bind_by (by apply memset_loop_ok). done.
Qed.

(** ** Strings *)

Lemma bytes_size m p bs : bytes_at m p bs -> (length bs <= size m)%nat.
Proof.
  intros Hb. set (l := map (fun i => p + Z.of_nat i) (seq 0 (length bs))).
  assert (Hnd : NoDup l). { apply NoDup_fmap_2; [intros i j E; lia|apply NoDup_seq]. }
  assert (Hsub : list_to_set l ⊆ dom m).
  { intros a (i & -> & Hi)%elem_of_list_to_set%list_elem_of_fmap. apply elem_of_seq in Hi. apply elem_of_dom.
    apply (bytes_mapped m p bs Hb). lia. }
  apply subseteq_size in Hsub. rewrite size_list_to_set, size_dom in Hsub by done. unfold l in Hsub.
  by rewrite length_map, length_seq in Hsub.
Qed.
Lemma str_size m p s : str_at m p s -> (length s < size m)%nat.
Proof. intros [Hb%bytes_size _]. rewrite length_app in Hb. simpl in Hb. lia. Qed.

Lemma str_nil m p : str_at m p [] <-> m !! p = Some 0.
Proof.
  unfold str_at. simpl. rewrite bytes_at_cons. split; [naive_solver|]. intros H0. split; [|done]. split; [done|]. by intros i b Hb.
Qed.
Lemma str_cons m p b s : str_at m p (b :: s) <-> m !! p = Some b /\ is_char b /\ str_at m (p + 1) s.
Proof. unfold str_at. simpl. rewrite bytes_at_cons, Forall_cons. tauto. Qed.
Lemma str_app m p s t : str_at m p (s ++ t) -> str_at m (p + Z.of_nat (length s)) t.
Proof.
  intros [Hb Hf]. rewrite <- app_assoc in Hb. apply bytes_at_app in Hb as [_ Hb]. apply Forall_app in Hf as [_ Hf]. done.
Qed.
Lemma str_head m p s : str_at m p s -> m !! p = Some (default 0 (head s)).
Proof. destruct s; [by rewrite str_nil|]. by intros [? _]%str_cons. Qed.

Lemma is_char_nonzero b : is_char b -> (b =? 0) = false.
Proof. intros Hb. apply Z.eqb_neq. unfold is_char in Hb. lia. Qed.

Lemma str_fuel_run m : str_fuel m = Ok (S (size m), m).
Proof. done. Qed.

Lemma strlen_loop_ok s : forall m p fuel,
  str_at m p s -> (length s < fuel)%nat -> strlen_loop fuel p m = Ok (p + Z.of_nat (length s), m).
Proof.
  induction s as [|b s IH]; intros m p [|fuel] Hs Hf; simpl in Hf; try lia; cbn [strlen_loop].
  - apply str_nil in Hs. bind_by (by apply load1_run). simpl. by rewrite Z.add_0_r.
  - apply str_cons in Hs as (Hb & Hc & Hs). bind_by (by apply load1_run). rewrite is_char_nonzero by done.
    rewrite IH by (done || lia). do 2 f_equal. simpl. lia.
Qed.
Lemma strlen_ok m p s : str_at m p s -> p <> NULL -> strlen p m = Ok (Z.of_nat (length s), m).
Proof.
  intros Hs Hp. pose proof (str_size _ _ _ Hs). unfold strlen. bind_by (apply assert_run; by rewrite (proj2 (Z.eqb_neq _ _) Hp)).
  bind_by reflexivity. bind_by (apply (strlen_loop_ok s); [done|lia]). unfold mret, M_ret. do 2 f_equal. lia.
Qed.

(** The first byte equal to [c], the null at the end included. *)
Definition index_of (c : Z) (l : list Z) : option nat := fst <$> list_find (eq c) l.

Lemma index_of_cons c b l : index_of c (b :: l) = if decide (c = b) then Some 0%nat else S <$> index_of c l.
Proof. unfold index_of. simpl. case_decide; [done|]. by destruct (list_find _ l) as [[]|]. Qed.
Lemma index_of_None c l : index_of c l = None <-> c ∉ l.
Proof.
  unfold index_of. rewrite fmap_None, list_find_None, Forall_forall. split.
  - intros Hf Hc. by apply (Hf c).
  - intros Hc x Hx ->. done.
Qed.

Lemma strchr_loop_ok s : forall m p c fuel,
  str_at m p s -> (length s < fuel)%nat ->
  strchr_loop fuel p c m = Ok (match index_of c (s ++ [0]) with Some i => p + Z.of_nat i | None => NULL end, m).
Proof.
  induction s as [|b s IH]; intros m p c [|fuel] Hs Hf; simpl in Hf; try lia; cbn [strchr_loop app]; rewrite index_of_cons.
  - apply str_nil in Hs. bind_by (by apply load1_run). destruct (decide (c = 0)) as [->|Hc].
    + simpl. by rewrite Z.add_0_r.
    + by rewrite (proj2 (Z.eqb_neq 0 c)) by done.
  - apply str_cons in Hs as (Hb & Hc & Hs). bind_by (by apply load1_run). destruct (decide (c = b)) as [->|Hne].
    + rewrite Z.eqb_refl. simpl. by rewrite Z.add_0_r.
    + rewrite (proj2 (Z.eqb_neq b c)), is_char_nonzero by done. rewrite IH by (done || lia).
      destruct (index_of c (s ++ [0])) as [i|]; simpl; [|done]. do 2 f_equal. lia.
Qed.
Lemma strchr_ok m p s c :
  str_at m p s -> p <> NULL -> 0 <= c < 256 ->
  strchr p c m = Ok (match index_of c (s ++ [0]) with Some i => p + Z.of_nat i | None => NULL end, m).
Proof.
  intros Hs Hp Hc. pose proof (str_size _ _ _ Hs). unfold strchr. bind_by (apply assert_run; by rewrite (proj2 (Z.eqb_neq _ _) Hp)).
  bind_by reflexivity. rewrite u8_small by lia. apply strchr_loop_ok; [done|lia].
Qed.

(** Whether a byte is in a string, as the callers of [strchr] ask. *)
Lemma strchr_member m p s c :
  str_at m p s -> 0 < p -> 0 <= c < 256 ->
  exists r, strchr p c m = Ok (r, m) /\ (r =? NULL) = negb (bool_decide (c ∈ s ++ [0])).
Proof.
  intros Hs Hp Hc. eexists. split; [apply strchr_ok; [done|unfold NULL; lia|done]|].
  pose proof (index_of_None c (s ++ [0])) as Hi. destruct (index_of c (s ++ [0])) as [i|].
  - rewrite bool_decide_true; [apply Z.eqb_neq; unfold NULL; lia|]. destruct (decide (c ∈ s ++ [0])); [done|naive_solver].
  - by rewrite bool_decide_false by (by apply Hi).
Qed.

(** The longest prefix of bytes with a property. *)
Fixpoint prefix_len (P : Z -> bool) (s : list Z) : nat :=
  match s with [] => 0%nat | b :: s => if P b then S (prefix_len P s) else 0%nat end.
Definition in_set (ds : list Z) (b : Z) : bool := bool_decide (b ∈ ds).
Definition out_set (ds : list Z) (b : Z) : bool := negb (in_set ds b).

Lemma prefix_len_le P s : (prefix_len P s <= length s)%nat.
Proof. induction s as [|b s IH]; simpl; [lia|]. destruct (P b); lia. Qed.
Lemma prefix_len_take P s b : b ∈ take (prefix_len P s) s -> P b = true.
Proof.
  induction s as [|c s IH]; simpl; [by intros ?%not_elem_of_nil|]. destruct (P c) eqn:E; [|by intros ?%not_elem_of_nil].
  simpl. intros [->|Hb]%elem_of_cons; auto.
Qed.
Lemma prefix_len_drop P s b t : drop (prefix_len P s) s = b :: t -> P b = false.
Proof.
  induction s as [|c s IH]; simpl; [done|]. destruct (P c) eqn:E; [apply IH|]. by intros [= -> ->].
Qed.
Lemma in_set_char ds b : is_char b -> bool_decide (b ∈ ds ++ [0]) = in_set ds b.
Proof.
  intros Hb. unfold in_set. apply bool_decide_ext. rewrite elem_of_app, list_elem_of_singleton. unfold is_char in Hb.
  split; [|by left]. intros [| ->]; [done|lia].
Qed.

Lemma is_char_byte b : is_char b -> 0 <= b < 256.
Proof. unfold is_char. lia. Qed.
#[local] Hint Resolve is_char_byte : core.

Section Span.
Context (m : cmem) (d : Z) (ds : list Z).
Hypothesis Hd : str_at m d ds.
Hypothesis Hdp : 0 < d.

Lemma strspn_loop_ok s : forall p k fuel,
  str_at m (p + k) s -> (length s < fuel)%nat ->
  strspn_loop fuel p d k m = Ok (k + Z.of_nat (prefix_len (in_set ds) s), m).
Proof.
  induction s as [|b s IH]; intros p k [|fuel] Hs Hf; simpl in Hf; try lia; cbn [strspn_loop prefix_len].
  - apply str_nil in Hs. bind_by (by apply load1_run). simpl. by rewrite Z.add_0_r.
  - apply str_cons in Hs as (Hb & Hc & Hs). bind_by (by apply load1_run). rewrite is_char_nonzero by done.
    destruct (strchr_member m d ds b Hd Hdp) as (r & E & Hr); [auto|]. bind_by (exact E). rewrite Hr, in_set_char by done.
    destruct (in_set ds b); simpl; [|by rewrite Z.add_0_r]. rewrite (IH p (k + 1)); [do 2 f_equal; lia| |lia].
    by replace (p + (k + 1)) with (p + k + 1) by lia.
Qed.
Lemma strcspn_loop_ok s : forall p k fuel,
  str_at m (p + k) s -> (length s < fuel)%nat ->
  strcspn_loop fuel p d k m = Ok (k + Z.of_nat (prefix_len (out_set ds) s), m).
Proof.
  induction s as [|b s IH]; intros p k [|fuel] Hs Hf; simpl in Hf; try lia; cbn [strcspn_loop prefix_len].
  - apply str_nil in Hs. bind_by (by apply load1_run). simpl. by rewrite Z.add_0_r.
  - apply str_cons in Hs as (Hb & Hc & Hs). bind_by (by apply load1_run). rewrite is_char_nonzero by done.
    destruct (strchr_member m d ds b Hd Hdp) as (r & E & Hr); [auto|]. bind_by (exact E). rewrite Hr, in_set_char by done.
    unfold out_set at 1. destruct (in_set ds b); simpl; [by rewrite Z.add_0_r|]. rewrite (IH p (k + 1)); [do 2 f_equal; lia| |lia].
    by replace (p + (k + 1)) with (p + k + 1) by lia.
Qed.
Lemma strpbrk_loop_ok s : forall p fuel,
  str_at m p s -> (length s < fuel)%nat ->
  strpbrk_loop fuel p d m =
    Ok (if (prefix_len (out_set ds) s =? length s)%nat then NULL else p + Z.of_nat (prefix_len (out_set ds) s), m).
Proof.
  induction s as [|b s IH]; intros p [|fuel] Hs Hf; simpl in Hf; try lia; cbn [strpbrk_loop prefix_len].
  - apply str_nil in Hs. bind_by (by apply load1_run). done.
  - apply str_cons in Hs as (Hb & Hc & Hs). bind_by (by apply load1_run). rewrite is_char_nonzero by done.
    destruct (strchr_member m d ds b Hd Hdp) as (r & E & Hr); [auto|]. bind_by (exact E). rewrite Hr, in_set_char by done.
    unfold out_set at 1 3. destruct (in_set ds b); simpl; [by rewrite Z.add_0_r|]. rewrite IH by (done || lia).
    destruct (prefix_len (out_set ds) s =? length s)%nat; [done|]. do 2 f_equal. lia.
Qed.

Lemma skip_delimiters_ok s : forall p fuel,
  str_at m p s -> (length s < fuel)%nat ->
  skip_delimiters fuel p d m =
    Ok ((p + Z.of_nat (prefix_len (in_set ds) s), bool_decide (prefix_len (in_set ds) s = length s)), m).
Proof.
  induction s as [|b s IH]; intros p [|fuel] Hs Hf; simpl in Hf; try lia; cbn [skip_delimiters prefix_len].
  - apply str_nil in Hs. bind_by (by apply load1_run). destruct (strchr_member m d ds 0 Hd Hdp) as (r & E & Hr); [lia|].
    bind_by (exact E). rewrite Hr, bool_decide_true by (apply elem_of_app; right; by left). simpl. by rewrite Z.add_0_r.
  - apply str_cons in Hs as (Hb & Hc & Hs). bind_by (by apply load1_run).
    destruct (strchr_member m d ds b Hd Hdp) as (r & E & Hr); [auto|]. bind_by (exact E). rewrite Hr, in_set_char by done.
    destruct (in_set ds b); simpl.
    + rewrite is_char_nonzero, IH by (done || lia). unfold mret, M_ret. do 3 f_equal; [lia|]. apply bool_decide_ext. lia.
    + by rewrite Z.add_0_r.
Qed.
Lemma skip_token_ok s : forall p fuel,
  str_at m p s -> (length s < fuel)%nat -> skip_token fuel p d m = Ok (p + Z.of_nat (prefix_len (out_set ds) s), m).
Proof.
  induction s as [|b s IH]; intros p [|fuel] Hs Hf; simpl in Hf; try lia; cbn [skip_token prefix_len].
  - apply str_nil in Hs. bind_by (by apply load1_run). destruct (strchr_member m d ds 0 Hd Hdp) as (r & E & Hr); [lia|].
    bind_by (exact E). rewrite Hr, bool_decide_true by (apply elem_of_app; right; by left). simpl. by rewrite Z.add_0_r.
  - apply str_cons in Hs as (Hb & Hc & Hs). bind_by (by apply load1_run).
    destruct (strchr_member m d ds b Hd Hdp) as (r & E & Hr); [auto|]. bind_by (exact E). rewrite Hr, in_set_char by done.
    unfold out_set at 1. destruct (in_set ds b); simpl; [by rewrite Z.add_0_r|]. rewrite IH by (done || lia). do 2 f_equal. lia.
Qed.
End Span.

Lemma strspn_ok m p s d ds :
  str_at m p s -> str_at m d ds -> 0 < d -> strspn p d m = Ok (Z.of_nat (prefix_len (in_set ds) s), m).
Proof.
  intros Hs Hd Hp. pose proof (str_size _ _ _ Hs). unfold strspn. bind_by reflexivity.
  rewrite (strspn_loop_ok m d ds Hd Hp s); [done|by rewrite Z.add_0_r|lia].
Qed.
Lemma strcspn_ok m p s d ds :
  str_at m p s -> str_at m d ds -> 0 < d -> strcspn p d m = Ok (Z.of_nat (prefix_len (out_set ds) s), m).
Proof.
  intros Hs Hd Hp. pose proof (str_size _ _ _ Hs). unfold strcspn. bind_by reflexivity.
  rewrite (strcspn_loop_ok m d ds Hd Hp s); [done|by rewrite Z.add_0_r|lia].
Qed.
Lemma strpbrk_ok m p s d ds :
  str_at m p s -> str_at m d ds -> 0 < d ->
  strpbrk p d m = Ok (if (prefix_len (out_set ds) s =? length s)%nat then NULL else p + Z.of_nat (prefix_len (out_set ds) s), m).
Proof.
  intros Hs Hd Hp. pose proof (str_size _ _ _ Hs). unfold strpbrk. bind_by reflexivity. apply strpbrk_loop_ok; [done|done|done|lia].
Qed.

(** The last byte equal to [c]. *)
Fixpoint last_index (c : Z) (s : list Z) : option nat :=
  match s with
  | [] => None
  | b :: s => match last_index c s with Some i => Some (S i) | None => if b =? c then Some 0%nat else None end
  end.
Lemma strrchr_loop_ok s : forall m p c r fuel,
  str_at m p s -> (length s < fuel)%nat ->
  strrchr_loop fuel p c r m = Ok (match last_index c s with Some i => p + Z.of_nat i | None => r end, m).
Proof.
  induction s as [|b s IH]; intros m p c r [|fuel] Hs Hf; simpl in Hf; try lia; cbn [strrchr_loop last_index].
  - apply str_nil in Hs. by bind_by (by apply load1_run).
  - apply str_cons in Hs as (Hb & Hc & Hs). bind_by (by apply load1_run). rewrite is_char_nonzero, IH by (done || lia).
    destruct (last_index c s) as [i|]; [do 2 f_equal; lia|]. destruct (b =? c); [|done]. by rewrite Z.add_0_r.
Qed.
Lemma strrchr_ok m p s c :
  str_at m p s -> 0 <= c < 256 ->
  strrchr p c m = Ok (match last_index c s with Some i => p + Z.of_nat i | None => NULL end, m).
Proof.
  intros Hs Hc. pose proof (str_size _ _ _ Hs). unfold strrchr. bind_by reflexivity. rewrite u8_small by lia.
  apply strrchr_loop_ok; [done|lia].
Qed.

(** Lexicographic order of bytes. *)
Fixpoint str_compare (s t : list Z) : Z :=
  match s, t with
  | [], [] => 0
  | [], _ :: _ => -1
  | _ :: _, [] => 1
  | x :: s, y :: t => if x <? y then -1 else if y <? x then 1 else str_compare s t
  end.

Lemma strcmp_loop_ok s : forall t m p q fuel,
  str_at m p s -> str_at m q t -> (length s < fuel)%nat -> strcmp_loop fuel p q m = Ok (str_compare s t, m).
Proof.
  induction s as [|x s IH]; intros t m p q [|fuel] Hs Ht Hf; simpl in Hf; try lia; cbn [strcmp_loop]; destruct t as [|y t].
  - apply str_nil in Hs, Ht. by bind_by (by apply load1_run); simpl; bind_by (by apply load1_run).
  - apply str_nil in Hs. apply str_cons in Ht as (Hb & Hc & Ht). bind_by (by apply load1_run). simpl. bind_by (by apply load1_run).
    unfold is_char in Hc. by rewrite (proj2 (Z.ltb_lt 0 y)) by lia.
  - apply str_nil in Ht. apply str_cons in Hs as (Hb & Hc & Hs). bind_by (by apply load1_run). rewrite is_char_nonzero by done.
    simpl. bind_by (by apply load1_run). rewrite is_char_nonzero by done. unfold is_char in Hc.
    by rewrite (proj2 (Z.ltb_ge x 0)), (proj2 (Z.ltb_lt 0 x)) by lia.
  - apply str_cons in Hs as (Hb & Hc & Hs). apply str_cons in Ht as (Hb' & Hc' & Ht). bind_by (by apply load1_run).
    rewrite is_char_nonzero by done. simpl. bind_by (by apply load1_run). destruct (x =? y) eqn:E; bool_to_prop.
    + subst. rewrite (IH t) by (done || lia). by rewrite Z.ltb_irrefl.
    + destruct (x <? y) eqn:E1; [done|]. bool_to_prop. by rewrite (proj2 (Z.ltb_lt y x)) by lia.
Qed.
Lemma strcmp_ok m p s q t :
  str_at m p s -> str_at m q t -> p <> NULL -> q <> NULL -> strcmp p q m = Ok (str_compare s t, m).
Proof.
  intros Hs Ht Hp Hq. pose proof (str_size _ _ _ Hs). unfold strcmp.
  bind_by (apply assert_run; by rewrite (proj2 (Z.eqb_neq _ _) Hp)). bind_by (apply assert_run; by rewrite (proj2 (Z.eqb_neq _ _) Hq)).
  bind_by reflexivity. apply strcmp_loop_ok; [done|done|lia].
Qed.

Lemma str_compare_eq s : forall t, str_compare s t = 0 <-> s = t.
Proof.
  induction s as [|x s IH]; intros [|y t]; simpl; try done. destruct (x <? y) eqn:E1; bool_to_prop; [split; [done|]; intros; simplify_eq; lia|].
  destruct (y <? x) eqn:E2; bool_to_prop; [split; [done|]; intros; simplify_eq; lia|].
  assert (x = y) as -> by lia. rewrite IH. split; [by intros ->|by intros [=]].
Qed.
Lemma str_compare_anti s : forall t, str_compare t s = - str_compare s t.
Proof.
  induction s as [|x s IH]; intros [|y t]; simpl; try done. destruct (x <? y) eqn:E1, (y <? x) eqn:E2; try done; bool_to_prop; lia.
Qed.

Lemma memcmp_loop_ok a : forall b m p q,
  bytes_at m p a -> bytes_at m q b -> length a = length b -> memcmp_loop (length a) p q m = Ok (str_compare a b, m).
Proof.
  induction a as [|x a IH]; intros b m p q Ha Hb Hl; destruct b as [|y b]; simplify_eq/=; [done|].
  apply bytes_at_cons in Ha as [Hx Ha]. apply bytes_at_cons in Hb as [Hy Hb].
  bind_by (by apply load1_run). bind_by (by apply load1_run). destruct (x =? y) eqn:E; simpl; bool_to_prop.
  - subst. rewrite (IH b) by done. by rewrite Z.ltb_irrefl.
  - destruct (x <? y) eqn:E1, (y <? x) eqn:E2; try done; bool_to_prop; lia.
Qed.
Lemma memcmp_ok m p a q b :
  bytes_at m p a -> bytes_at m q b -> length a = length b -> p <> NULL -> q <> NULL ->
  memcmp p q (Z.of_nat (length a)) m = Ok (str_compare a b, m).
Proof.
  intros Ha Hb Hl Hp Hq. unfold memcmp. bind_by (apply assert_run, null_assert; by left).
  bind_by (apply assert_run, null_assert; by left). rewrite Nat2Z.id. by apply memcmp_loop_ok.
Qed.

Lemma memchr_loop_ok bs : forall m p c,
  bytes_at m p bs -> memchr_loop (length bs) p c m = Ok (match index_of c bs with Some i => p + Z.of_nat i | None => NULL end, m).
Proof.
  induction bs as [|b bs IH]; intros m p c Hb; [done|]. apply bytes_at_cons in Hb as [H0 Hb]. cbn [memchr_loop length].
  bind_by (by apply load1_run). rewrite index_of_cons. destruct (decide (c = b)) as [->|Hne].
  - rewrite Z.eqb_refl. simpl. by rewrite Z.add_0_r.
  - rewrite (proj2 (Z.eqb_neq b c)), IH by done. destruct (index_of c bs) as [i|]; simpl; [|done]. do 2 f_equal. lia.
Qed.

Lemma strnlen_loop_ok s : forall m p k maxlen fuel,
  str_at m (p + k) s -> (length s < fuel)%nat -> k <= maxlen ->
  strnlen_loop fuel p maxlen k m = Ok (Z.min (k + Z.of_nat (length s)) maxlen, m).
Proof.
  induction s as [|b s IH]; intros m p k maxlen [|fuel] Hs Hf Hk; simpl in Hf; try lia; cbn [strnlen_loop].
  - apply str_nil in Hs. bind_by (by apply load1_run). unfold mret, M_ret. simpl. do 2 f_equal. lia.
  - apply str_cons in Hs as (Hb & Hc & Hs). bind_by (by apply load1_run). rewrite is_char_nonzero by done. simpl.
    destruct (k <? maxlen) eqn:E; bool_to_prop.
    + rewrite IH; [do 2 f_equal; lia| |lia|lia]. by replace (p + (k + 1)) with (p + k + 1) by lia.
    + unfold mret, M_ret. do 2 f_equal. lia.
Qed.
Lemma strnlen_ok m p s maxlen :
  str_at m p s -> 0 <= maxlen -> strnlen p maxlen m = Ok (Z.min (Z.of_nat (length s)) maxlen, m).
Proof.
  intros Hs Hm. pose proof (str_size _ _ _ Hs). unfold strnlen. bind_by reflexivity.
  rewrite (strnlen_loop_ok s); [done|by rewrite Z.add_0_r|lia|lia].
Qed.

(** The first place where [n] occurs in [h]. *)
Fixpoint sub_index (n h : list Z) : option nat :=
  if bool_decide (take (length n) h = n) then Some 0%nat
  else match h with [] => None | _ :: h => S <$> sub_index n h end.

Lemma sub_index_short n h : (length h < length n)%nat -> sub_index n h = None.
Proof.
  induction h as [|b h IH]; intros Hl; simpl.
  - destruct n; simpl in *; [lia|done].
  - rewrite bool_decide_false; [by rewrite IH by (simpl in Hl; lia)|]. intros E. apply (f_equal length) in E.
    rewrite length_take in E. simpl in *. lia.
Qed.

Lemma strstr_loop_ok n q k : forall h m p i,
  bytes_at m (p + i) h -> bytes_at m q n -> 0 < p -> 0 <= i -> q <> NULL -> (k + length n = S (length h))%nat ->
  strstr_loop k p q (Z.of_nat (length n)) i m =
    Ok (match sub_index n h with Some j => p + i + Z.of_nat j | None => NULL end, m).
Proof.
  induction k as [|k IH]; intros h m p i Hh Hn Hp Hi Hq Hl; cbn [strstr_loop].
  { by rewrite sub_index_short by lia. }
  set (t := take (length n) h). assert (Ht : length t = length n) by (unfold t; rewrite length_take; lia).
  assert (Hbt : bytes_at m (p + i) t). { rewrite <- (take_drop (length n) h) in Hh. by apply bytes_at_app in Hh as [? _]. }
  bind_by (rewrite <- Ht; apply memcmp_ok; [exact Hbt|exact Hn|done|unfold NULL; lia|done]).
  assert (Hs : sub_index n h = if bool_decide (t = n) then Some 0%nat else match h with [] => None | _ :: h => S <$> sub_index n h end)
    by (by destruct h).
  rewrite Hs. destruct (str_compare t n =? 0) eqn:E; bool_to_prop.
  - apply str_compare_eq in E. rewrite bool_decide_true by done. unfold mret, M_ret. do 2 f_equal. lia.
  - rewrite bool_decide_false by (intros ?%str_compare_eq; done). destruct h as [|b h].
    + simpl in Hl. assert (k = 0%nat) as -> by lia. done.
    + apply bytes_at_cons in Hh as [_ Hh]. rewrite (IH h); [|by replace (p + (i + 1)) with (p + i + 1) by lia|done|done|lia|done|simpl in Hl; lia].
      destruct (sub_index n h) as [j|]; simpl; [|done]. do 2 f_equal. lia.
Qed.
Lemma strstr_ok m p h q n :
  str_at m p h -> str_at m q n -> 0 < p -> q <> NULL ->
  strstr p q m = Ok (match sub_index n h with Some i => p + Z.of_nat i | None => NULL end, m).
Proof.
  intros Hh Hn Hp Hq. unfold strstr. bind_by (apply strlen_ok; [exact Hh|unfold NULL; lia]). bind_by (by apply strlen_ok).
  destruct (Z.of_nat (length n) <=? Z.of_nat (length h)) eqn:E; bool_to_prop; [|by rewrite sub_index_short by lia].
  destruct Hh as [Hh%bytes_at_app _], Hn as [Hn%bytes_at_app _].
  rewrite (strstr_loop_ok n q _ h); [by rewrite Z.add_0_r| |apply Hn|done|lia|done|lia]. rewrite Z.add_0_r. apply Hh.
Qed.

(** [p .. p + n) and [q .. q + k) do not meet. *)
Definition ranges_apart (p : Z) (n : nat) (q : Z) (k : nat) : Prop := p + Z.of_nat n <= q \/ q + Z.of_nat k <= p.

(** The end of [strlcpy] and [strlcat]: as much of [s] as fits, and a null. *)
Lemma copy_string_ok m dst src s n :
  str_at m src s -> mapped_from m dst (S n) -> 0 < dst -> src <> NULL -> ranges_apart src (S (length s)) dst (S n) ->
  let len := if Z.of_nat (length s) <? Z.of_nat n then Z.of_nat (length s) else Z.of_nat n in
  (_ ← memcpy dst src len; store1 (dst + len) 0) m = Ok (tt, put_bytes m dst (take n s ++ [0])).
Proof.
  intros [Hs _] Hm Hd Hsp Ha len. set (t := take n s). assert (Hlen : len = Z.of_nat (length t)).
  { unfold len, t. rewrite length_take. destruct (Z.of_nat (length s) <? Z.of_nat n) eqn:E; bool_to_prop; lia. }
  assert (Hb : bytes_at m src t).
  { rewrite <- (take_drop n s), <- app_assoc in Hs. by apply bytes_at_app in Hs as [? _]. }
  assert (Hl : (length t <= n)%nat /\ (length t <= length s)%nat) by (unfold t; rewrite length_take; lia).
  unfold ranges_apart in Ha. rewrite Hlen. bind_by (apply memcpy_ok; [exact Hb|apply (mapped_le _ _ _ (S n)); [lia|done]|unfold NULL; lia|done|lia]).
  rewrite store1_run; [by rewrite put_bytes_snoc|]. apply mapped_put with (n := S n); [done|lia].
Qed.

Lemma strlcpy_ok m dst src s n :
  str_at m src s -> mapped_from m dst (S n) -> 0 < dst -> src <> NULL -> ranges_apart src (S (length s)) dst (S n) ->
  strlcpy dst src (Z.of_nat (S n)) m = Ok (Z.of_nat (length s), put_bytes m dst (take n s ++ [0])).
Proof.
  intros Hs Hm Hd Hsp Ha. unfold strlcpy. bind_by (apply assert_run; rewrite (proj2 (Z.eqb_neq _ _)); [done|unfold NULL; lia]).
  bind_by (apply assert_run; by rewrite (proj2 (Z.eqb_neq _ _) Hsp)). bind_by (by apply strlen_ok).
  rewrite (proj2 (Z.ltb_lt 0 _)) by lia. replace (Z.of_nat (S n) - 1) with (Z.of_nat n) by lia.
  bind_by (by apply copy_string_ok). done.
Qed.

Lemma strlcat_ok m dst src s t n :
  str_at m src s -> str_at m dst t -> (length t <= n)%nat -> mapped_from m dst (S n) -> 0 < dst -> src <> NULL ->
  ranges_apart src (S (length s)) dst (S n) -> Z.of_nat (length s) + Z.of_nat (length t) < 2 ^ 32 ->
  strlcat dst src (Z.of_nat (S n)) m =
    Ok (Z.of_nat (length s + length t), put_bytes m (dst + Z.of_nat (length t)) (take (n - length t) s ++ [0])).
Proof.
  intros Hs Ht Hl Hm Hd Hsp Ha Hr. unfold strlcat. bind_by (apply assert_run; rewrite (proj2 (Z.eqb_neq _ _)); [done|unfold NULL; lia]).
  bind_by (apply assert_run; by rewrite (proj2 (Z.eqb_neq _ _) Hsp)). bind_by (by apply strlen_ok).
  bind_by (apply strlen_ok; [exact Ht|unfold NULL; lia]). rewrite !(proj2 (Z.ltb_lt _ (Z.of_nat (S n)))) by lia. cbn [andb].
  replace (Z.of_nat (S n) - Z.of_nat (length t) - 1) with (Z.of_nat (n - length t)) by lia.
  assert (Hm' : mapped_from m (dst + Z.of_nat (length t)) (S (n - length t))).
  { intros i Hi. rewrite <- Z.add_assoc, <- Nat2Z.inj_add. apply Hm. lia. }
  bind_by (apply copy_string_ok; [done|done|lia|done|unfold ranges_apart in *; lia]).
  unfold mret, M_ret. rewrite u32_small by lia. do 2 f_equal. lia.
Qed.

(** ** Tokens *)

(** The tokens of a string: its maximal parts without delimiters. *)
Fixpoint words_from (fuel : nat) (ds s : list Z) : list (list Z) :=
  match fuel with
  | O => []
  | S fuel =>
      let t := drop (prefix_len (in_set ds) s) s in
      match t with
      | [] => []
      | _ => take (prefix_len (out_set ds) t) t :: words_from fuel ds (drop (S (prefix_len (out_set ds) t)) t)
      end
  end.
Definition words (ds s : list Z) : list (list Z) := words_from (S (length s)) ds s.

(** The loop over the tokens, as [load] has it. *)
Fixpoint token_loop (fuel : nat) (s delimiters save_ptr : Z) : M cmem (list Z) :=
  match fuel with
  | O => fail OutOfFuel
  | S fuel =>
      r ← strtok_r s delimiters save_ptr;
      if r.1 =? NULL then mret []
      else ps ← token_loop fuel NULL delimiters r.2; mret (r.1 :: ps)
  end.

Lemma str_at_drop m p s n : str_at m p s -> (n <= length s)%nat -> str_at m (p + Z.of_nat n) (drop n s).
Proof.
  intros Hs Hn. rewrite <- (take_drop n s) in Hs. apply str_app in Hs. rewrite length_take in Hs.
  by replace (n `min` length s)%nat with n in Hs by lia.
Qed.

(** A null cuts a string in two. *)
Lemma str_at_cut m p s n :
  str_at m p s -> (n < length s)%nat ->
  str_at (<[p + Z.of_nat n := 0]> m) p (take n s) /\ str_at (<[p + Z.of_nat n := 0]> m) (p + Z.of_nat n + 1) (drop (S n) s).
Proof.
  intros Hs Hn. split.
  - destruct Hs as [Hb Hf]. split; [|by apply Forall_take]. intros i b Hi. destruct (decide (i = n)) as [->|Hne].
    + rewrite lookup_insert_eq. rewrite lookup_app_r in Hi by (rewrite length_take; lia). rewrite length_take in Hi.
      replace (n - n `min` length s)%nat with 0%nat in Hi by lia. by simplify_eq/=.
    + rewrite lookup_insert_ne by lia. apply Hb. apply lookup_lt_Some in Hi as Hl. rewrite length_app, length_take in Hl. simpl in Hl.
      rewrite lookup_app_l in Hi by (rewrite length_take; lia). rewrite lookup_take_lt in Hi by lia. by apply lookup_app_l_Some.
  - pose proof (str_at_drop m p s (S n) Hs ltac:(lia)) as [Hb Hf].
    replace (p + Z.of_nat n + 1) with (p + Z.of_nat (S n)) by lia. split; [|done].
    intros i b Hi. rewrite lookup_insert_ne by lia. by apply Hb.
Qed.

Lemma str_at_elsewhere m p s a b :
  str_at m p s -> a < p \/ p + Z.of_nat (length s) < a -> str_at (<[a := b]> m) p s.
Proof.
  intros [Hb Hf] Ha. split; [|done]. intros i x Hi. apply lookup_lt_Some in Hi as Hl. rewrite length_app in Hl. simpl in Hl.
  rewrite lookup_insert_ne by lia. by apply Hb.
Qed.

(** One call: no token is left, or the first token and the rest of the string. *)
Lemma strtok_ok m p save t d ds :
  let s := if p =? NULL then save else p in
  str_at m s t -> str_at m d ds -> 0 < s -> 0 < d -> ranges_apart s (S (length t)) d (S (length ds)) ->
  let k := prefix_len (in_set ds) t in
  let u := drop k t in
  let n := prefix_len (out_set ds) u in
  exists sv m', strtok_r p d save m = Ok ((match u with [] => NULL | _ => s + Z.of_nat k end, sv), m') /\
    (u <> [] -> str_at m' (s + Z.of_nat k) (take n u)) /\
    str_at m' sv (drop (S n) u) /\ s <= sv <= s + Z.of_nat (length t) /\ sv + Z.of_nat (length (drop (S n) u)) = s + Z.of_nat (length t) /\
    (u <> [] -> s + Z.of_nat (k + n) <= sv) /\
    (forall a, a < s + Z.of_nat k \/ sv <= a -> m' !! a = m !! a).
Proof.
  intros s Hs Hd Hsp Hdp Ha k u n. pose proof (prefix_len_le (in_set ds) t) as Hk. fold k in Hk. pose proof (str_size _ _ _ Hs) as Hsz.
  assert (Hu : str_at m (s + Z.of_nat k) u) by (by apply str_at_drop).
  assert (Hlu : length u = (length t - k)%nat) by apply length_drop.
  unfold strtok_r. bind_by (apply assert_run; rewrite (proj2 (Z.eqb_neq _ _)); [done|unfold NULL; lia]). fold s. cbv zeta.
  bind_by (apply assert_run; rewrite (proj2 (Z.eqb_neq _ _)); [done|unfold NULL; lia]). bind_by reflexivity.
  bind_by (apply (skip_delimiters_ok m d ds Hd Hdp t); [done|lia]). fold k.
  destruct (decide (u = [])) as [Eu|Hne].
  { rewrite Eu in *. simpl in Hlu. rewrite bool_decide_true by lia. exists (s + Z.of_nat k), m. rewrite drop_nil.
    split; [done|]. split; [done|]. split; [done|]. simpl. split_and!; [lia|lia|lia|done|done]. }
  assert (Hkl : (k < length t)%nat) by (destruct u; [done|simpl in Hlu; lia]).
  rewrite bool_decide_false by lia. pose proof (prefix_len_le (out_set ds) u) as Hn. fold n in Hn.
  bind_by (apply (skip_token_ok m d ds Hd Hdp u); [done|lia]). fold n.
  pose proof (str_head _ _ _ (str_at_drop m _ u n Hu Hn)) as Hh. bind_by (apply load1_run; exact Hh).
  replace (match u with [] => NULL | _ => s + Z.of_nat k end) with (s + Z.of_nat k) by (by destruct u).
  destruct (decide (n < length u)%nat) as [Hlt|Hge].
  - destruct (drop n u) as [|x v] eqn:Ed. { apply (f_equal length) in Ed. rewrite length_drop in Ed. simpl in Ed. lia. }
    simpl. assert (Hx : is_char x). { destruct Hu as [_ Hf]. rewrite Forall_forall in Hf. apply Hf. rewrite <- (take_drop n u), Ed.
      apply elem_of_app. right. by left. }
    rewrite is_char_nonzero by done. simpl. destruct (str_at_cut m _ u n Hu Hlt) as [Hc1 Hc2].
    bind_by (apply store1_run; rewrite Hh; by eexists). exists (s + Z.of_nat k + Z.of_nat n + 1), (<[s + Z.of_nat k + Z.of_nat n := 0]> m).
    split; [done|]. split; [done|]. split; [done|]. rewrite length_drop, Hlu. split_and!; [lia|lia|lia|lia|].
    intros a Hout. apply lookup_insert_ne. lia.
  - assert (n = length u) as En by lia. rewrite En in Hh |- *. rewrite drop_all in Hh |- *. simpl in Hh |- *.
    exists (s + Z.of_nat k + Z.of_nat (length u)), m. split; [done|]. rewrite firstn_all, (drop_ge u (S (length u))) by lia.
    split; [done|]. split; [by apply str_nil|]. simpl. split_and!; [lia|lia|lia|lia|done].
Qed.

Lemma str_at_agree m m' p s :
  str_at m p s -> (forall a, p <= a <= p + Z.of_nat (length s) -> m' !! a = m !! a) -> str_at m' p s.
Proof.
  intros [Hb Hf] He. split; [|done]. intros i x Hi. apply lookup_lt_Some in Hi as Hl. rewrite length_app in Hl. simpl in Hl.
  rewrite He by lia. by apply Hb.
Qed.

Lemma token_loop_ok d ds fuel : forall m p save t,
  let s := if p =? NULL then save else p in
  str_at m s t -> str_at m d ds -> 0 < s -> 0 < d -> ranges_apart s (S (length t)) d (S (length ds)) -> (length t < fuel)%nat ->
  exists ps m', token_loop fuel p d save m = Ok (ps, m') /\ Forall2 (str_at m') ps (words_from fuel ds t) /\
    Forall (fun q => s <= q < s + Z.of_nat (length t)) ps /\
    (forall a, a < s \/ s + Z.of_nat (length t) <= a -> m' !! a = m !! a).
Proof.
  induction fuel as [|fuel IH]; intros m p save t s Hs Hd Hsp Hdp Ha Hf; [lia|]. cbn [token_loop words_from].
  destruct (strtok_ok m p save t d ds Hs Hd Hsp Hdp Ha) as (sv & m1 & E & Htok & Hrest & Hsv & Hlen & Hsvn & Hsame).
  fold s in E, Htok, Hsv, Hlen, Hsvn, Hsame. set (k := prefix_len (in_set ds) t) in *. set (u := drop k t) in *.
  set (n := prefix_len (out_set ds) u) in *. assert (Hlu : length u = (length t - k)%nat) by apply length_drop.
  bind_by (exact E). simpl. destruct (decide (u = [])) as [Eu|Hne].
  { rewrite Eu in *. simpl. exists [], m1. split_and!; [done|by constructor|by constructor|]. intros a Hout. apply Hsame.
    simpl in Hlu. pose proof (prefix_len_le (in_set ds) t) as Hk. fold k in Hk. destruct Hout; [left; lia|right]. lia. }
  replace (match u with [] => NULL | _ => s + Z.of_nat k end) with (s + Z.of_nat k) by (by destruct u).
  rewrite (proj2 (Z.eqb_neq _ _)) by (unfold NULL; lia). unfold ranges_apart in *. rewrite length_drop in Hlen.
  assert (Hul : (0 < length u)%nat) by (by destruct u; simpl; [|lia]).
  destruct (IH m1 NULL sv (drop (S n) u)) as (ps & m2 & E2 & Hw & Hps & Hsame2).
  { exact Hrest. }
  { apply (str_at_agree m); [done|]. intros a Hin. apply Hsame. lia. }
  { simpl. lia. } { done. } { rewrite length_drop. simpl. lia. } { rewrite length_drop. lia. }
  simpl in Hps, Hsame2. rewrite length_drop in Hps, Hsame2. bind_by (exact E2).
  replace (match u with [] => [] | _ => take n u :: words_from fuel ds (drop (S n) u) end)
    with (take n u :: words_from fuel ds (drop (S n) u)) by (by destruct u).
  specialize (Htok Hne). specialize (Hsvn Hne). pose proof (prefix_len_le (out_set ds) u) as Hn. fold n in Hn.
  exists (s + Z.of_nat k :: ps), m2. split_and!; [done| | |].
  - constructor; [|done]. apply (str_at_agree m1); [done|]. rewrite length_take. intros a Hin. apply Hsame2. lia.
  - constructor; [lia|]. eapply Forall_impl; [exact Hps|]. simpl. intros q Hq. lia.
  - intros a Hout. rewrite Hsame2 by lia. apply Hsame. lia.
Qed.

Lemma token_loop_mono fuel : forall p d save m r k, token_loop fuel p d save m = Ok r -> token_loop (fuel + k) p d save m = Ok r.
Proof.
  induction fuel as [|fuel IH]; intros p d save m r k; [done|]. cbn [token_loop Nat.add]. unfold mbind, M_bind.
  destruct (strtok_r p d save m) as [[t m1]|]; [|done]. destruct (t.1 =? NULL); [done|].
  destruct (token_loop fuel NULL d t.2 m1) as [[ps m2]|] eqn:E; [|done]. by rewrite (IH _ _ _ _ _ k E).
Qed.

(** What the tokens are: never empty, without delimiters, and together all that
    is not a delimiter. *)
Lemma words_from_join ds fuel : forall s, (length s < fuel)%nat -> mjoin (words_from fuel ds s) = filter (fun b => b ∉ ds) s.
Proof.
  induction fuel as [|fuel IH]; intros s Hf; [lia|]. cbn [words_from]. set (k := prefix_len (in_set ds) s).
  rewrite <- (take_drop k s) at 2. rewrite filter_app. set (t := drop k s).
  assert (filter (fun b => b ∉ ds) (take k s) = []) as ->.
  { apply elem_of_nil_inv. intros b [Hn Hb]%list_elem_of_filter. apply prefix_len_take in Hb. unfold in_set in Hb.
    by apply bool_decide_eq_true in Hb. }
  cbv zeta. set (n := prefix_len (out_set ds) t). destruct (decide (t = [])) as [->|Hne]; [done|].
  assert (Hlt : (0 < length t <= length s)%nat) by (split; [by destruct t; simpl; [|lia]|unfold t; rewrite length_drop; lia]).
  replace (match t with [] => [] | _ => take n t :: words_from fuel ds (drop (S n) t) end)
    with (take n t :: words_from fuel ds (drop (S n) t)) by (by destruct t).
  simpl. rewrite IH by (rewrite length_drop; lia). rewrite <- (take_drop n t) at 3. rewrite filter_app. f_equal.
  - symmetry. apply filter_all. intros x Hx. apply prefix_len_take in Hx. unfold out_set, in_set in Hx. by bool_to_prop.
  - destruct (drop n t) as [|x v] eqn:Ed.
    + rewrite (drop_ge t) by (apply (f_equal length) in Ed; rewrite length_drop in Ed; simpl in Ed; lia). done.
    + apply prefix_len_drop in Ed as Hx. unfold out_set, in_set in Hx. bool_to_prop. rewrite filter_cons_False by naive_solver.
      f_equal. replace (S n) with (n + 1)%nat by lia. by rewrite <- drop_drop, Ed.
Qed.

Lemma words_from_nonempty ds fuel : forall s w, w ∈ words_from fuel ds s -> w <> [].
Proof.
  induction fuel as [|fuel IH]; intros s w; cbn [words_from]; [by intros ?%not_elem_of_nil|].
  set (t := drop (prefix_len (in_set ds) s) s). destruct t as [|b t0] eqn:Et; [by intros ?%not_elem_of_nil|].
  intros [->|Hw]%elem_of_cons; [|by eapply IH]. simpl. unfold t in Et. apply prefix_len_drop in Et. unfold out_set. by rewrite Et.
Qed.

(** ** Theorems *)

(** The delimiter string of one blank at address 50, and two words after a
    blank at address 100. *)
Definition demo_strings : cmem := put_bytes (put_bytes ∅ 50 [32; 0]) 100 [32; 97; 98; 32; 32; 99; 0].

Lemma demo_delimiter : str_at demo_strings 50 [32].
Proof. split; [|repeat constructor; done]. apply bytes_at_put; [apply put_bytes_at|simpl; lia]. Qed.
Lemma demo_line : str_at demo_strings 100 [32; 97; 98; 32; 32; 99].
Proof. split; [apply put_bytes_at|repeat constructor; done]. Qed.

(** C30: The loop over the tokens of a string, which [load] runs over the command
    line, terminates and gives, in order, pointers to strings that are exactly the
    words of the string: its parts between delimiters, none of them empty, which
    together are all its bytes that are not delimiters.  Nothing outside the
    string changes. *)
Theorem tokens_are_words m p t d ds :
  str_at m p t -> str_at m d ds -> 0 < p -> 0 < d -> ranges_apart p (S (length t)) d (S (length ds)) ->
  exists ps m', (forall fuel, (length t < fuel)%nat -> token_loop fuel p d 0 m = Ok (ps, m')) /\
    Forall2 (str_at m') ps (words ds t) /\ mjoin (words ds t) = filter (fun b => b ∉ ds) t /\
    (forall w, w ∈ words ds t -> w <> []) /\
    (forall a, a < p \/ p + Z.of_nat (length t) <= a -> m' !! a = m !! a).
Proof.
  intros Ht Hd Hp Hdp Ha. assert (Es : (if p =? NULL then 0 else p) = p) by (by rewrite (proj2 (Z.eqb_neq _ _)) by (unfold NULL; lia)).
  destruct (token_loop_ok d ds (S (length t)) m p 0 t) as (ps & m' & E & Hw & _ & Hsame); rewrite ?Es; try done; [lia|].
  rewrite Es in Hsame. exists ps, m'. split_and!; [|done|apply words_from_join; lia|apply words_from_nonempty|done].
  intros fuel Hf. replace fuel with (S (length t) + (fuel - S (length t)))%nat by lia. by apply token_loop_mono.
Qed.

Lemma tokens_are_words_witness :
  exists ps m', token_loop 7 100 50 0 demo_strings = Ok (ps, m') /\ Forall2 (str_at m') ps [[97; 98]; [99]].
Proof.
  destruct (tokens_are_words demo_strings 100 [32; 97; 98; 32; 32; 99] 50 [32] demo_line demo_delimiter) as (ps & m' & E & Hw & _).
  - lia.
  - lia.
  - right. simpl. lia.
  - exists ps, m'. split; [apply E; simpl; lia|exact Hw].
Defined.

(** [strlcpy] stays within the destination.  Of a block of [n] bytes it
    stores to no byte outside; it leaves there the first [n - 1] bytes of the
    source, or all of it, as a string that ends within the block, and answers the
    length of the source. *)
Theorem strlcpy_bounds m dst src s n :
  str_at m src s -> mapped_from m dst n -> 0 < dst -> src <> NULL -> (0 < n)%nat -> ranges_apart src (S (length s)) dst n ->
  exists m', strlcpy dst src (Z.of_nat n) m = Ok (Z.of_nat (length s), m') /\
    str_at m' dst (take (n - 1) s) /\ (length (take (n - 1) s) < n)%nat /\
    (forall a, a < dst \/ dst + Z.of_nat n <= a -> m' !! a = m !! a).
Proof.
  intros Hs Hm Hd Hsp Hn Ha. destruct n as [|n]; [lia|]. simpl Nat.sub. rewrite Nat.sub_0_r.
  eexists. split; [by apply strlcpy_ok|]. split_and!.
  - split; [apply put_bytes_at|]. destruct Hs as [_ Hf]. by apply Forall_take.
  - rewrite length_take. lia.
  - intros a Hout. rewrite put_bytes_lookup, decide_False; [done|]. rewrite length_app, length_take. simpl. lia.
Qed.

Lemma strlcpy_bounds_witness :
  exists m', strlcpy 200 100 3 (put_bytes demo_strings 200 [7; 7; 7]) = Ok (6, m') /\ str_at m' 200 [32; 97].
Proof.
  destruct (strlcpy_bounds (put_bytes demo_strings 200 [7; 7; 7]) 200 100 [32; 97; 98; 32; 32; 99] 3) as (m' & E & Hs & _).
  - destruct demo_line as [Hb Hf]. split; [|exact Hf]. apply bytes_at_put; [exact Hb|simpl; lia].
  - apply (bytes_mapped _ 200 [7; 7; 7]), put_bytes_at.
  - lia.
  - discriminate.
  - lia.
  - left. simpl. lia.
  - exists m'. split; [exact E|exact Hs].
Defined.

(** [memmove] moves a block of any length between places that may overlap
    as if through a copy: afterwards the destination has the bytes the source had,
    and no other byte has changed.  It does not return the destination, as its
    comment says, when that is below the source, but the address after it. *)
Theorem memmove_overlap m dst src bs :
  bytes_at m src bs -> mapped_from m dst (length bs) -> dst <> NULL -> src <> NULL ->
  exists m', memmove dst src (Z.of_nat (length bs)) m =
      Ok (if dst <? src then dst + Z.of_nat (length bs) else dst, m') /\
    bytes_at m' dst bs /\ (forall a, a < dst \/ dst + Z.of_nat (length bs) <= a -> m' !! a = m !! a).
Proof.
  intros Hb Hm Hd Hs. eexists. split; [by apply memmove_ok|]. split; [apply put_bytes_at|].
  intros a Hout. by rewrite put_bytes_lookup, decide_False by lia.
Qed.

Lemma memmove_overlap_witness :
  exists m', memmove 100 101 5 demo_strings = Ok (105, m') /\ bytes_at m' 100 [97; 98; 32; 32; 99].
Proof.
  destruct demo_line as [Hb _]. apply bytes_at_cons in Hb as [H0 Hb].
  destruct (memmove_overlap demo_strings 100 101 [97; 98; 32; 32; 99]) as (m' & E & Hm & _).
  - apply (bytes_at_app _ _ [97; 98; 32; 32; 99] [0]) in Hb. apply Hb.
  - intros i Hi. simpl in Hi. do 5 (destruct i as [|i]; [vm_compute; by eexists|]). lia.
  - discriminate.
  - discriminate.
  - exists m'. split; [exact E|exact Hm].
Defined.

(** [strcmp] is the lexicographic order of strings of bytes: it answers what
    [str_compare] does, which is zero for equal strings only and changes its sign
    when the strings are exchanged. *)
Theorem strcmp_order m p s q t :
  str_at m p s -> str_at m q t -> p <> NULL -> q <> NULL ->
  exists c, strcmp p q m = Ok (c, m) /\ c = str_compare s t /\ (c = 0 <-> s = t) /\ strcmp q p m = Ok (- c, m).
Proof.
  intros Hs Ht Hp Hq. exists (str_compare s t). split_and!; [by apply strcmp_ok|done|apply str_compare_eq|].
  rewrite (strcmp_ok m q t p s) by done. by rewrite str_compare_anti.
Qed.

Lemma strcmp_order_witness : exists c, strcmp 50 100 demo_strings = Ok (c, demo_strings) /\ c = -1.
Proof.
  destruct (strcmp_order demo_strings 50 [32] 100 [32; 97; 98; 32; 32; 99] demo_delimiter demo_line) as (c & E & Hc & _).
  - discriminate.
  - discriminate.
  - exists c. split; [exact E|exact Hc].
Defined.
