(* ===== verification/CStdlib.v ===== *)
(** * Numbers, sorting and searching: [lib/stdlib.c]

    An array is its bytes, elements of [size] bytes one after the other; the
    comparison function gets the bytes of two elements. *)

From S2P Require Import Prelude CString.

(** ** [atoi] *)

Definition isdigit (c : Z) : bool := (48 <=? c) && (c <=? 57).
Definition isspace (c : Z) : bool := (c =? 32) || (c =? 12) || (c =? 10) || (c =? 13) || (c =? 9) || (c =? 11).

Fixpoint skip_spaces (fuel : nat) (s : Z) : M cmem Z :=
  match fuel with
  | O => fail OutOfFuel
  | S fuel => x ← load1 s; if isspace x then skip_spaces fuel (s + 1) else mret s
  end.
(** The value is kept negative; it wraps where an [int] overflows. *)
Fixpoint digits_loop (fuel : nat) (s value : Z) : M cmem Z :=
  match fuel with
  | O => fail OutOfFuel
  | S fuel => x ← load1 s; if isdigit x then digits_loop fuel (s + 1) (s32 (s32 (value * 10) - (x - 48))) else mret value
  end.
Definition atoi (s : Z) : M cmem Z :=
  _ ← assert (negb (s =? NULL));
  fuel ← str_fuel;
  s ← skip_spaces fuel s;
  x ← load1 s;
  let negative := x =? 45 in
  let s := if (x =? 43) || (x =? 45) then s + 1 else s in
  value ← digits_loop fuel s 0;
  mret (if negb negative then s32 (- value) else value).

(** ** Sorting *)

Section Sort.
Context (size : Z) (compare : list Z -> list Z -> Z).

Definition get_byte (i : Z) : M (list Z) Z := fun a =>
  if i <? 0 then Err Trap else match a !! Z.to_nat i with Some b => Ok (b, a) | None => Err Trap end.
Definition set_byte (i b : Z) : M (list Z) unit := fun a =>
  if (i <? 0) || (Z.of_nat (length a) <=? i) then Err Trap else Ok (tt, <[Z.to_nat i := b]> a).
(** The element at a byte offset. *)
Definition element (ofs : Z) : M (list Z) (list Z) := a ← get; lift (read_bytes a ofs size).

Fixpoint swap_bytes (n : nat) (a b : Z) : M (list Z) unit :=
  match n with
  | O => mret tt
  | S n =>
      t ← get_byte a;
      x ← get_byte b;
      _ ← set_byte a x;
      _ ← set_byte b t;
      swap_bytes n (a + 1) (b + 1)
  end.
Definition do_swap (a_idx b_idx : Z) : M (list Z) unit :=
  swap_bytes (Z.to_nat size) (u32 ((a_idx - 1) * size)) (u32 ((b_idx - 1) * size)).

Definition do_compare (a_idx b_idx : Z) : M (list Z) Z :=
  x ← element (u32 ((a_idx - 1) * size));
  y ← element (u32 ((b_idx - 1) * size));
  mret (compare x y).

Fixpoint heapify (fuel : nat) (i cnt : Z) : M (list Z) unit :=
  match fuel with
  | O => fail OutOfFuel
  | S fuel =>
      let left := u32 (2 * i) in
      let right := u32 (2 * i + 1) in
      max ← (if left <=? cnt then c ← do_compare left i; mret (if 0 <? c then left else i) else mret i);
      max ← (if right <=? cnt then c ← do_compare right max; mret (if 0 <? c then right else max) else mret max);
      if max =? i then mret tt
      else _ ← do_swap i max; heapify fuel max cnt
  end.
(** Every turn goes to a child. *)
Definition heap_fuel (cnt : Z) : nat := S (Z.to_nat cnt).

Fixpoint build_heap (i : nat) (cnt : Z) : M (list Z) unit :=
  match i with
  | O => mret tt
  | S n => _ ← heapify (heap_fuel cnt) (Z.of_nat i) cnt; build_heap n cnt
  end.
Fixpoint sort_heap (i : nat) : M (list Z) unit :=
  match i with
  | O => mret tt
  | S n =>
      if 1 <? Z.of_nat i then
        _ ← do_swap 1 (Z.of_nat i);
        _ ← heapify (heap_fuel (Z.of_nat i - 1)) 1 (Z.of_nat i - 1);
        sort_heap n
      else mret tt
  end.
Definition sort (cnt : Z) : M (list Z) unit :=
  _ ← assert (0 <? size);
  _ ← build_heap (Z.to_nat (cnt / 2)) cnt;
  sort_heap (Z.to_nat cnt).
Definition qsort (cnt : Z) : M (list Z) unit := sort cnt.

(** ** Searching *)

(** The offset of a match, or nothing. *)
Fixpoint search_loop (fuel : nat) (key : list Z) (first last : Z) : M (list Z) (option Z) :=
  match fuel with
  | O => fail OutOfFuel
  | S fuel =>
      if first <? last then
        let range := (last - first) / size in
        let middle := first + range / 2 * size in
        x ← element middle;
        let cmp := compare key x in
        if cmp <? 0 then search_loop fuel key first middle
        else if 0 <? cmp then search_loop fuel key (middle + size) last
        else mret (Some middle)
      else mret None
  end.
Definition binary_search (key : list Z) (cnt : Z) : M (list Z) (option Z) :=
  search_loop (S (Z.to_nat cnt)) key 0 (size * cnt).
Definition bsearch (key : list Z) (cnt : Z) : M (list Z) (option Z) := binary_search key cnt.
End Sort.

(** ** Arrays as lists of elements *)

(** [l] with its elements at [i] and [j] exchanged. *)
Definition exchange (l : list (list Z)) (i j : nat) : list (list Z) :=
  match l !! i, l !! j with Some x, Some y => <[i := y]> (<[j := x]> l) | _, _ => l end.

Lemma split_two (l : list (list Z)) i j x y :
  (i < j)%nat -> l !! i = Some x -> l !! j = Some y ->
  exists L1 L2 L3, l = L1 ++ x :: L2 ++ y :: L3 /\ length L1 = i /\ (length L1 + S (length L2))%nat = j /\
    exchange l i j = L1 ++ y :: L2 ++ x :: L3.
Proof.
  intros Hij Hi Hj. pose proof (list_elem_of_split_length l i x Hi) as (L1 & T & El & ->). rewrite El in Hj.
  rewrite lookup_app_r in Hj by lia. replace (j - length L1)%nat with (S (j - S (length L1))) in Hj by lia. simpl in Hj.
  pose proof (list_elem_of_split_length T _ y Hj) as (L2 & L3 & ET & Hl2). exists L1, L2, L3.
  split; [congruence|]. split; [done|]. split; [lia|]. unfold exchange. rewrite Hi. rewrite El, lookup_app_r by lia.
  replace (j - length L1)%nat with (S (j - S (length L1))) by lia. simpl. rewrite Hj, ET.
  replace j with (length L1 + S (length L2))%nat by lia. rewrite insert_app_r. simpl. rewrite insert_app_r_alt by lia.
  rewrite Nat.sub_diag. simpl. rewrite insert_app_r_alt by lia. rewrite Nat.sub_diag. done.
Qed.

Lemma exchange_lookup l i j k :
  (i < j)%nat -> is_Some (l !! i) -> is_Some (l !! j) ->
  exchange l i j !! k = if decide (k = i) then l !! j else if decide (k = j) then l !! i else l !! k.
Proof.
  intros Hij [x Hi] [y Hj]. unfold exchange. rewrite Hi, Hj. apply lookup_lt_Some in Hi as Hli. apply lookup_lt_Some in Hj as Hlj.
  destruct (decide (k = i)) as [->|]; [by rewrite list_lookup_insert_eq by (rewrite length_insert; lia)|].
  rewrite list_lookup_insert_ne by done. destruct (decide (k = j)) as [->|]; [by rewrite list_lookup_insert_eq by lia|].
  by rewrite list_lookup_insert_ne by done.
Qed.

Lemma exchange_perm l i j : (i < j)%nat -> is_Some (l !! i) -> is_Some (l !! j) -> exchange l i j ≡ₚ l.
Proof.
  intros Hij [x Hi] [y Hj]. destruct (split_two l i j x y Hij Hi Hj) as (L1 & L2 & L3 & -> & _ & _ & ->).
  apply Permutation_app_head. rewrite <- !Permutation_middle. apply Permutation_swap.
Qed.
Lemma exchange_length l i j : length (exchange l i j) = length l.
Proof. unfold exchange. destruct (l !! i), (l !! j); by rewrite ?length_insert. Qed.
Lemma exchange_forall (P : list Z -> Prop) l i j : Forall P l -> Forall P (exchange l i j).
Proof.
  intros HP. unfold exchange. destruct (l !! i) as [x|] eqn:Hi, (l !! j) as [y|] eqn:Hj; try done.
  rewrite Forall_lookup in HP. repeat apply Forall_insert; eauto. by apply Forall_lookup.
Qed.

Lemma get_byte_at P b R : get_byte (Z.of_nat (length P)) (P ++ b :: R) = Ok (b, P ++ b :: R).
Proof.
  unfold get_byte. rewrite (proj2 (Z.ltb_ge _ _)) by lia. by rewrite Nat2Z.id, list_lookup_middle.
Qed.
Lemma set_byte_at P b c R : set_byte (Z.of_nat (length P)) c (P ++ b :: R) = Ok (tt, P ++ c :: R).
Proof.
  unfold set_byte. rewrite (proj2 (Z.ltb_ge _ _)), (proj2 (Z.leb_gt _ _)) by (rewrite ?length_app; simpl; lia). simpl.
  by rewrite Nat2Z.id, insert_app_r_alt, Nat.sub_diag by lia.
Qed.

Lemma swap_bytes_ok n : forall x y P Q R,
  length x = n -> length y = n ->
  swap_bytes n (Z.of_nat (length P)) (Z.of_nat (length (P ++ x ++ Q))) (P ++ x ++ Q ++ y ++ R) = Ok (tt, P ++ y ++ Q ++ x ++ R).
Proof.
  induction n as [|n IH]; intros x y P Q R Hx Hy; destruct x as [|x0 x], y as [|y0 y]; simplify_eq/=; [done|].
  bind_by (apply get_byte_at).
  assert (E1 : P ++ x0 :: x ++ Q ++ y0 :: y ++ R = (P ++ (x0 :: x) ++ Q) ++ y0 :: y ++ R) by (by rewrite <- !app_assoc).
  bind_by (rewrite E1; apply get_byte_at). rewrite <- E1. bind_by (apply set_byte_at).
  assert (E2 : P ++ y0 :: x ++ Q ++ y0 :: y ++ R = (P ++ (y0 :: x) ++ Q) ++ y0 :: y ++ R) by (by rewrite <- !app_assoc).
  bind_by (rewrite E2; replace (length (P ++ x0 :: x ++ Q)) with (length (P ++ (y0 :: x) ++ Q))
    by (rewrite !length_app; simpl; by rewrite !length_app); apply set_byte_at).
  specialize (IH x y (P ++ [y0]) (Q ++ [x0]) R ltac:(done) ltac:(done)).
  replace (Z.of_nat (length P) + 1) with (Z.of_nat (length (P ++ [y0]))) by (rewrite length_app; simpl; lia).
  replace (Z.of_nat (length (P ++ x0 :: x ++ Q)) + 1) with (Z.of_nat (length ((P ++ [y0]) ++ x ++ Q ++ [x0])))
    by (rewrite !length_app; simpl; rewrite !length_app; simpl; lia).
  replace ((P ++ (y0 :: x) ++ Q) ++ x0 :: y ++ R) with ((P ++ [y0]) ++ x ++ (Q ++ [x0]) ++ y ++ R)
    by (rewrite <- !app_assoc; done).
  rewrite IH. f_equal. f_equal. rewrite <- !app_assoc. done.
Qed.

Section Elements.
Context (size : Z) (compare : list Z -> list Z -> Z).
Hypothesis Hsize : 0 < size.

(** An array of [cnt] elements. *)
Definition array_of (l : list (list Z)) (cnt : Z) : Prop :=
  Z.of_nat (length l) = cnt /\ Forall (fun x => length x = Z.to_nat size) l /\ cnt * size < 2 ^ 32 /\ 2 * cnt + 1 < 2 ^ 32.
(** The element with index [i], from one on. *)
Definition at_ (l : list (list Z)) (i : Z) : option (list Z) := l !! Z.to_nat (i - 1).

Lemma join_length (l : list (list Z)) : Forall (fun x => length x = Z.to_nat size) l -> length (mjoin l) = (length l * Z.to_nat size)%nat.
Proof. induction 1 as [|x l Hx _ IH]; [done|]. simpl. rewrite length_app, IH, Hx. lia. Qed.

Lemma offset_ok l cnt i : array_of l cnt -> 1 <= i <= cnt -> u32 ((i - 1) * size) = (i - 1) * size /\ 0 <= (i - 1) * size.
Proof. intros (_ & _ & Hm & _) Hi. split; [apply u32_small|]; nia. Qed.

Lemma at_some l cnt i : array_of l cnt -> 1 <= i <= cnt -> exists x, at_ l i = Some x /\ length x = Z.to_nat size.
Proof.
  intros (Hl & Hf & _) Hi. destruct (lookup_lt_is_Some_2 l (Z.to_nat (i - 1))) as [x Hx]; [lia|]. exists x. split; [done|].
  rewrite Forall_lookup in Hf. by apply (Hf (Z.to_nat (i - 1))).
Qed.

Lemma element_at l cnt i x :
  array_of l cnt -> 1 <= i <= cnt -> at_ l i = Some x -> element size ((i - 1) * size) (mjoin l) = Ok (x, mjoin l).
Proof.
  intros Ha Hi Hx. pose proof Ha as (Hl & Hf & _). unfold element. bind_by reflexivity. unfold at_ in Hx.
  destruct (list_elem_of_split_length l _ x Hx) as (L1 & L2 & -> & Hl1). apply Forall_app in Hf as [Hf1 Hf2].
  apply Forall_cons in Hf2 as [Hxl Hf2]. assert (E1 : (i - 1) * size = Z.of_nat (length (mjoin L1))) by (rewrite join_length by done; nia).
  unfold lift. rewrite join_app. simpl. rewrite E1, read_bytes_ok; [|lia|lia|rewrite !length_app; lia].
  rewrite Nat2Z.id, drop_app_length. do 2 f_equal. rewrite <- Hxl. apply take_app_length.
Qed.

Lemma do_compare_ok l cnt i j x y :
  array_of l cnt -> 1 <= i <= cnt -> 1 <= j <= cnt -> at_ l i = Some x -> at_ l j = Some y ->
  do_compare size compare i j (mjoin l) = Ok (compare x y, mjoin l).
Proof.
  intros Ha Hi Hj Hx Hy. unfold do_compare. rewrite (proj1 (offset_ok l cnt i Ha Hi)), (proj1 (offset_ok l cnt j Ha Hj)).
  bind_by (by eapply element_at). bind_by (by eapply element_at). done.
Qed.

Lemma do_swap_ok l cnt i j :
  array_of l cnt -> 1 <= i < j -> j <= cnt ->
  do_swap size i j (mjoin l) = Ok (tt, mjoin (exchange l (Z.to_nat (i - 1)) (Z.to_nat (j - 1)))).
Proof.
  intros Ha Hij Hj. destruct (at_some l cnt i Ha) as (x & Hx & Hxl); [lia|]. destruct (at_some l cnt j Ha) as (y & Hy & Hyl); [lia|].
  unfold do_swap. rewrite (proj1 (offset_ok l cnt i Ha ltac:(lia))), (proj1 (offset_ok l cnt j Ha ltac:(lia))).
  pose proof Ha as (_ & Hf & _). unfold at_ in *.
  destruct (split_two l (Z.to_nat (i - 1)) (Z.to_nat (j - 1)) x y ltac:(lia) Hx Hy) as (L1 & L2 & L3 & -> & E1 & E2 & ->).
  apply Forall_app in Hf as [Hf1 Hf]. apply Forall_cons in Hf as [_ Hf]. apply Forall_app in Hf as [Hf2 _].
  assert (Ei : (i - 1) * size = Z.of_nat (length (mjoin L1))) by (rewrite join_length by done; nia).
  assert (Ej : (j - 1) * size = Z.of_nat (length (mjoin L1 ++ x ++ mjoin L2))).
  { rewrite !length_app, !join_length, Hxl by done. nia. }
  rewrite Ei, Ej, !join_app. simpl. rewrite !join_app. simpl. by apply swap_bytes_ok.
Qed.

Lemma array_exchange l cnt i j : array_of l cnt -> array_of (exchange l i j) cnt.
Proof. intros (Hl & Hf & R). split; [by rewrite exchange_length|]. split; [by apply exchange_forall|done]. Qed.
End Elements.

(** ** Heaps *)

Section Heap.
Context (size : Z) (compare : list Z -> list Z -> Z).
Hypothesis Hsize : 0 < size.
(** The comparison is one of [strcmp]'s kind. *)
Hypothesis Hflip : forall x y, 0 < compare x y <-> compare y x < 0.
Hypothesis Htrans : forall x y z, 0 <= compare x y -> 0 <= compare y z -> 0 <= compare x z.

Definition ge_at (l : list (list Z)) (i j : Z) : Prop :=
  forall x y, at_ l i = Some x -> at_ l j = Some y -> 0 <= compare x y.
Definition child (j c : Z) : Prop := c = 2 * j \/ c = 2 * j + 1.
(** The nodes from [k] to [n], but [e], are not less than their children. *)
Definition heap_but (l : list (list Z)) (k n e : Z) : Prop :=
  forall j c, k <= j -> j <> e -> child j c -> c <= n -> ge_at l j c.

Lemma compare_refl x : 0 <= compare x x.
Proof. destruct (decide (compare x x < 0)) as [E|]; [|lia]. pose proof (proj2 (Hflip x x) E). lia. Qed.
Lemma compare_not x y : ~ 0 < compare y x -> 0 <= compare x y.
Proof. rewrite Hflip. lia. Qed.

(** The choice of the largest of a node and its children. *)
Lemma pick_max l cnt i n :
  array_of size l cnt -> 1 <= i <= n -> n <= cnt ->
  exists max, (forall fuel, heapify size compare (S fuel) i n (mjoin l) =
      (if max =? i then mret tt else _ ← do_swap size i max; heapify size compare fuel max n) (mjoin l)) /\
    (max = i \/ child i max) /\ max <= n /\ ge_at l max i /\ (forall c, child i c -> c <= n -> ge_at l max c).
Proof.
  intros Ha Hi Hn. pose proof Ha as (_ & _ & _ & Hr). cbn [heapify]. rewrite !u32_small by lia.
  destruct (at_some size l cnt i Ha) as (x & Hx & _); [lia|].
  assert (H1 : exists max, (if 2 * i <=? n then c ← do_compare size compare (2 * i) i; mret (if 0 <? c then 2 * i else i) else mret i) (mjoin l) =
      Ok (max, mjoin l) /\ (max = i \/ max = 2 * i) /\ max <= n /\ ge_at l max i /\ (2 * i <= n -> ge_at l max (2 * i))).
  { destruct (2 * i <=? n) eqn:E; bool_to_prop.
    - destruct (at_some size l cnt (2 * i) Ha) as (y & Hy & _); [lia|].
      bind_by (apply (do_compare_ok size compare Hsize l cnt _ _ y x); (done || lia)). destruct (0 <? compare y x) eqn:Ec; bool_to_prop.
      + exists (2 * i). split_and!; [done|by right|lia|intros a b ??; simplify_eq; lia|intros _ a b ??; simplify_eq; apply compare_refl].
      + exists i. split_and!; [done|by left|lia|intros a b ??; simplify_eq; apply compare_refl|].
        intros _ a b ??. simplify_eq. apply compare_not. lia.
    - exists i. split_and!; [done|by left|lia| |lia]. intros a b ??. simplify_eq. apply compare_refl. }
  destruct H1 as (m1 & E1 & Hm1 & Hn1 & Hg1 & Hl1).
  assert (H2 : exists max, (if 2 * i + 1 <=? n then c ← do_compare size compare (2 * i + 1) m1; mret (if 0 <? c then 2 * i + 1 else m1) else mret m1) (mjoin l) =
      Ok (max, mjoin l) /\ (max = m1 \/ max = 2 * i + 1) /\ max <= n /\ ge_at l max m1 /\ (2 * i + 1 <= n -> ge_at l max (2 * i + 1))).
  { destruct (at_some size l cnt m1 Ha) as (y & Hy & _); [lia|]. destruct (2 * i + 1 <=? n) eqn:E; bool_to_prop.
    - destruct (at_some size l cnt (2 * i + 1) Ha) as (z & Hz & _); [lia|].
      bind_by (apply (do_compare_ok size compare Hsize l cnt _ _ z y); (done || lia)). destruct (0 <? compare z y) eqn:Ec; bool_to_prop.
      + exists (2 * i + 1). split_and!; [done|by right|lia|intros a b ??; simplify_eq; lia|intros _ a b ??; simplify_eq; apply compare_refl].
      + exists m1. split_and!; [done|by left|lia|intros a b ??; simplify_eq; apply compare_refl|].
        intros _ a b ??. simplify_eq. apply compare_not. lia.
    - exists m1. split_and!; [done|by left|lia| |lia]. intros a b ??. simplify_eq. apply compare_refl. }
  destruct H2 as (m2 & E2 & Hm2 & Hn2 & Hg2 & Hl2).
  destruct (at_some size l cnt m1 Ha) as (y & Hy & _); [lia|]. exists m2. split_and!.
  - intros fuel. bind_by (exact E1). bind_by (exact E2). done.
  - unfold child. lia.
  - lia.
  - intros a b Hb Hc. eapply Htrans; [by apply (Hg2 a y)|by apply (Hg1 y b)].
  - intros c [->| ->] Hc; [|auto]. intros a b Hb Hcb. eapply Htrans; [by apply (Hg2 a y)|by apply (Hl1 Hc y b)].
Qed.

Lemma at_exchange l cnt i j k :
  array_of size l cnt -> 1 <= i < j -> j <= cnt -> 1 <= k ->
  at_ (exchange l (Z.to_nat (i - 1)) (Z.to_nat (j - 1))) k =
    if decide (k = i) then at_ l j else if decide (k = j) then at_ l i else at_ l k.
Proof.
  intros Ha Hij Hj Hk. destruct (at_some size l cnt i Ha) as (x & Hx & _); [lia|]. destruct (at_some size l cnt j Ha) as (y & Hy & _); [lia|].
  unfold at_ in *. rewrite exchange_lookup; [|lia|by eexists|by eexists].
  destruct (decide (k = i)) as [->|]; [by rewrite decide_True|]. rewrite decide_False by lia.
  destruct (decide (k = j)) as [->|]; [by rewrite decide_True|]. by rewrite decide_False by lia.
Qed.

(** The result of a call of [heapify] within the first [n] elements. *)
Record heapified (l l' : list (list Z)) (n : Z) : Prop := {
  hf_perm : l' ≡ₚ l;
  hf_rest : forall idx, n <= Z.of_nat idx -> l' !! idx = l !! idx;
}.
Lemma heapified_refl l n : heapified l l n.
Proof. done. Qed.
Lemma heapified_trans l l1 l2 n : heapified l l1 n -> heapified l1 l2 n -> heapified l l2 n.
Proof. intros [P1 R1] [P2 R2]. split; [by rewrite P2|]. intros idx Hi. by rewrite R2, R1. Qed.
Lemma heapified_exchange l cnt i j n :
  array_of size l cnt -> 1 <= i < j -> j <= n -> n <= cnt ->
  heapified l (exchange l (Z.to_nat (i - 1)) (Z.to_nat (j - 1))) n.
Proof.
  intros (Hl & _) Hij Hj Hn. assert (is_Some (l !! Z.to_nat (i - 1))) by (apply lookup_lt_is_Some_2; lia).
  assert (is_Some (l !! Z.to_nat (j - 1))) by (apply lookup_lt_is_Some_2; lia). split.
  - apply exchange_perm; [lia|done|done].
  - intros idx Hi. by rewrite exchange_lookup, !decide_False by (done || lia).
Qed.

Lemma heapify_ok fuel : forall l cnt k i n,
  array_of size l cnt -> 1 <= k <= i -> i <= n <= cnt -> heap_but l k n i ->
  (forall c, child i c -> c <= n -> k <= i / 2 -> ge_at l (i / 2) c) -> n - i < Z.of_nat fuel ->
  exists l', heapify size compare fuel i n (mjoin l) = Ok (tt, mjoin l') /\ array_of size l' cnt /\ heapified l l' n /\ heap_but l' k n 0.
Proof.
  induction fuel as [|fuel IH]; intros l cnt k i n Ha Hk Hi Hh Hg Hf; [lia|].
  destruct (pick_max l cnt i n Ha ltac:(lia) ltac:(lia)) as (max & E & Hm & Hmn & Hmi & Hmc). rewrite E.
  destruct (max =? i) eqn:Ei; bool_to_prop.
  { subst max. exists l. split_and!; try done. intros j c Hj _ Hc Hcn. destruct (decide (j = i)) as [->|]; [by apply Hmc|by apply Hh]. }
  destruct Hm as [?|Hm]; [done|]. assert (Him : i < max) by (unfold child in Hm; lia).
  bind_by (apply (do_swap_ok size Hsize l cnt i max Ha); lia). set (l1 := exchange l (Z.to_nat (i - 1)) (Z.to_nat (max - 1))).
  assert (Hat : forall q, 1 <= q -> at_ l1 q = if decide (q = i) then at_ l max else if decide (q = max) then at_ l i else at_ l q).
  { intros q Hq. apply (at_exchange l cnt); (done || lia). }
  destruct (IH l1 cnt k max n) as (l' & E' & Ha' & Hp' & Hh').
  - by apply array_exchange.
  - lia.
  - lia.
  - intros j c Hj Hne Hc Hcn x y. assert (1 <= j /\ 1 <= c) as [Hj1 Hc1] by (unfold child in *; lia). rewrite !Hat by done.
    destruct (decide (j = i)) as [->|Hji].
    + rewrite decide_False by (unfold child in *; lia). destruct (decide (c = max)) as [->|]; [apply Hmi|by apply Hmc].
    + rewrite decide_False by done. destruct (decide (c = i)) as [->|Hci].
      * assert (j = i / 2) as -> by (unfold child in *; Z.to_euclidean_division_equations; lia). apply Hg; [done|done|lia].
      * destruct (decide (c = max)) as [->|]; [unfold child in *; lia|]. by apply (Hh j c).
  - intros c Hc Hcn _ x y. assert (max / 2 = i) as -> by (unfold child in *; Z.to_euclidean_division_equations; lia).
    rewrite !Hat by (unfold child in *; lia). rewrite decide_True, !decide_False by (unfold child in *; lia).
    apply (Hh max c); (done || lia).
  - lia.
  - exists l'. split_and!; try done. apply (heapified_trans _ l1); [|done]. apply (heapified_exchange l cnt); (done || lia).
Qed.

Lemma build_heap_ok i : forall l cnt,
  array_of size l cnt -> Z.of_nat i <= cnt -> heap_but l (Z.of_nat i + 1) cnt 0 ->
  exists l', build_heap size compare i cnt (mjoin l) = Ok (tt, mjoin l') /\ array_of size l' cnt /\ l' ≡ₚ l /\ heap_but l' 1 cnt 0.
Proof.
  induction i as [|i IH]; intros l cnt Ha Hi Hh; [by exists l|]. cbn [build_heap].
  destruct (heapify_ok (heap_fuel cnt) l cnt (Z.of_nat (S i)) (Z.of_nat (S i)) cnt) as (l1 & E1 & Ha1 & [Hp1 _] & Hh1);
    [done|lia|lia| | |unfold heap_fuel; lia|].
  - intros j c Hj Hne Hc Hcn. apply Hh; (done || lia).
  - intros c _ _ Hle. exfalso. Z.to_euclidean_division_equations. lia.
  - bind_by (exact E1). destruct (IH l1 cnt Ha1 ltac:(lia)) as (l' & E & Ha' & Hp & Hh'); [|].
    + intros j c Hj. apply Hh1. lia.
    + exists l'. split_and!; try done. by rewrite Hp.
Qed.

(** The first element of a heap is the largest. *)
Lemma heap_root l cnt n :
  array_of size l cnt -> n <= cnt -> heap_but l 1 n 0 -> forall j, 1 <= j <= n -> ge_at l 1 j.
Proof.
  intros Ha Hn Hh j. induction j as [j IH] using (well_founded_induction (Z.lt_wf 0)). intros Hj.
  destruct (decide (j = 1)) as [->|]; [intros x y ??; simplify_eq; apply compare_refl|].
  assert (Hd : 1 <= j / 2 < j) by (Z.to_euclidean_division_equations; lia).
  destruct (at_some size l cnt (j / 2) Ha) as (z & Hz & _); [lia|]. intros x y Hx Hy.
  apply (Htrans x z y); [apply (IH (j / 2) ltac:(lia) ltac:(lia)); done|].
  apply (Hh (j / 2) j); try done; [lia|lia|unfold child; Z.to_euclidean_division_equations; lia|lia].
Qed.

Lemma heapified_from l l' n a x :
  heapified l l' (Z.of_nat n) -> (n <= length l)%nat -> (a < n)%nat -> l' !! a = Some x -> exists c, (c < n)%nat /\ l !! c = Some x.
Proof.
  intros [Hp Hr] Hn Ha Hx. assert (Hd : drop n l' = drop n l).
  { apply list_eq. intros i. rewrite !lookup_drop. apply Hr. lia. }
  rewrite <- (take_drop n l'), <- (take_drop n l), Hd in Hp. apply Permutation_app_inv_r in Hp.
  assert (Hin : x ∈ take n l'). { apply list_elem_of_lookup. exists a. by rewrite lookup_take_lt. }
  rewrite Hp in Hin. apply list_elem_of_lookup in Hin as [c Hc]. exists c. apply lookup_take_Some in Hc. tauto.
Qed.

(** From index [i] on every element is in its place. *)
Definition placed_from (l : list (list Z)) (i : nat) : Prop :=
  forall a b x y, (a < b)%nat -> (i <= b)%nat -> l !! a = Some x -> l !! b = Some y -> 0 <= compare y x.

Lemma sort_heap_ok i : forall l cnt,
  array_of size l cnt -> Z.of_nat i <= cnt -> heap_but l 1 (Z.of_nat i) 0 -> placed_from l i ->
  exists l', sort_heap size compare i (mjoin l) = Ok (tt, mjoin l') /\ l' ≡ₚ l /\ placed_from l' 0.
Proof.
  induction i as [|i IH]; intros l cnt Ha Hi Hh Hpl; [by exists l|]. cbn [sort_heap]. destruct (1 <? Z.of_nat (S i)) eqn:E1; bool_to_prop.
  2: { exists l. split_and!; [done|done|]. intros a b x y Hab _. apply Hpl; lia. }
  replace (Z.of_nat (S i) - 1) with (Z.of_nat i) by lia. pose proof Ha as (Hl & _).
  bind_by (apply (do_swap_ok size Hsize l cnt); (done || lia)). set (l1 := exchange l _ _).
  assert (Ha1 : array_of size l1 cnt) by (by apply array_exchange).
  assert (Hat : forall q, 1 <= q -> at_ l1 q = if decide (q = 1) then at_ l (Z.of_nat (S i)) else if decide (q = Z.of_nat (S i)) then at_ l 1 else at_ l q).
  { intros q Hq. apply (at_exchange l cnt); (done || lia). }
  destruct (heapify_ok (heap_fuel (Z.of_nat i)) l1 cnt 1 1 (Z.of_nat i)) as (l2 & E2 & Ha2 & Hf & Hh2); [done|lia|lia| | |unfold heap_fuel; lia|].
  { intros j c Hj Hne Hc Hcn x y. rewrite !Hat, !decide_False by (unfold child in *; lia). apply (Hh j c); (done || lia). }
  { intros c _ _ Hle. exfalso. Z.to_euclidean_division_equations. lia. }
  bind_by (exact E2). assert (Hx1 : heapified l l1 (Z.of_nat (S i))) by (apply (heapified_exchange l cnt); (done || lia)).
  destruct (IH l2 cnt Ha2 ltac:(lia) Hh2) as (l' & E' & Hp' & Hpl').
  - intros a b x y Hab Hb Hx Hy. rewrite (hf_rest _ _ _ Hf) in Hy by lia.
    assert (Hbl : (b < length l)%nat) by (apply lookup_lt_Some in Hy; unfold l1 in Hy; by rewrite exchange_length in Hy).
    assert (Hc : (a < i)%nat -> exists c, (c < S i)%nat /\ l !! c = Some x).
    { intros Hai. destruct (heapified_from l1 l2 i a x Hf) as (c1 & Hc1 & Ex1); [unfold l1; rewrite exchange_length; lia|done|done|].
      apply (heapified_from l l1 (S i) c1 x Hx1); [lia|lia|done]. }
    destruct (decide (b = i)) as [->|Hbi].
    + destruct Hc as (c & Hc & Ex); [lia|]. specialize (Hat (Z.of_nat (S i)) ltac:(lia)). rewrite decide_False, decide_True in Hat by lia.
      unfold at_ in Hat. replace (Z.to_nat (Z.of_nat (S i) - 1)) with i in Hat by lia. rewrite Hat in Hy.
      apply (heap_root l cnt (Z.of_nat (S i)) Ha ltac:(lia) Hh (Z.of_nat c + 1) ltac:(lia) y x); [done|].
      unfold at_. by replace (Z.to_nat (Z.of_nat c + 1 - 1)) with c by lia.
    + rewrite (hf_rest _ _ _ Hx1) in Hy by lia. destruct (decide (a < i)%nat) as [Hai|Hai].
      * destruct (Hc Hai) as (c & Hc' & Ex). apply (Hpl c b); (done || lia).
      * rewrite (hf_rest _ _ _ Hf) in Hx by lia. destruct (decide (a = i)) as [->|Hne].
        -- specialize (Hat (Z.of_nat (S i)) ltac:(lia)). rewrite decide_False, decide_True in Hat by lia. unfold at_ in Hat.
           replace (Z.to_nat (Z.of_nat (S i) - 1)) with i in Hat by lia. rewrite Hat in Hx. apply (Hpl (Z.to_nat (1 - 1)) b); (done || lia).
        -- rewrite (hf_rest _ _ _ Hx1) in Hx by lia. apply (Hpl a b); (done || lia).
  - exists l'. split_and!; [done| |done]. rewrite Hp'. rewrite (hf_perm _ _ _ Hf). apply Hx1.
Qed.

Lemma sort_ok l cnt :
  array_of size l cnt ->
  exists l', sort size compare cnt (mjoin l) = Ok (tt, mjoin l') /\ l' ≡ₚ l /\ placed_from l' 0.
Proof.
  intros Ha. pose proof Ha as (Hl & _). unfold sort. bind_by (apply assert_run, Z.ltb_lt; done).
  assert (Hd : 0 <= cnt / 2 <= cnt) by (Z.to_euclidean_division_equations; lia).
  destruct (build_heap_ok (Z.to_nat (cnt / 2)) l cnt Ha) as (l1 & E1 & Ha1 & Hp1 & Hh1); [lia| |].
  { intros j c Hj _ Hc Hcn. exfalso. unfold child in Hc. Z.to_euclidean_division_equations. lia. }
  bind_by (exact E1). destruct (sort_heap_ok (Z.to_nat cnt) l1 cnt Ha1) as (l' & E & Hp & Hpl); [lia|by rewrite Z2Nat.id by lia| |].
  { intros a b x y _ Hb _ Hy. exfalso. apply lookup_lt_Some in Hy. destruct Ha1 as (Hl1 & _). lia. }
  exists l'. split_and!; [done| |done]. by rewrite Hp.
Qed.
End Heap.

(** ** Searching *)

Section Search.
Context (size : Z) (compare : list Z -> list Z -> Z).
Hypothesis Hsize : 0 < size.

(** The array is in order, as far as comparisons with the key show. *)
Definition ordered_for (key : list Z) (l : list (list Z)) : Prop :=
  forall i j x y, (i < j)%nat -> l !! i = Some x -> l !! j = Some y ->
    (compare key x < 0 -> compare key y < 0) /\ (0 < compare key y -> 0 < compare key x).

Lemma search_loop_ok key fuel : forall l cnt a b,
  array_of size l cnt -> ordered_for key l -> 0 <= a <= b -> b <= cnt -> b - a < Z.of_nat fuel ->
  (forall i x, l !! i = Some x -> compare key x = 0 -> a <= Z.of_nat i < b) ->
  exists r, search_loop size compare fuel key (size * a) (size * b) (mjoin l) = Ok (r, mjoin l) /\
    match r with
    | Some p => exists i x, p = size * Z.of_nat i /\ l !! i = Some x /\ compare key x = 0
    | None => forall i x, l !! i = Some x -> compare key x <> 0
    end.
Proof.
  induction fuel as [|fuel IH]; intros l cnt a b Ha Ho Hab Hb Hf Hin; [lia|]. cbn [search_loop].
  destruct (decide (a = b)) as [->|Hne].
  { rewrite Z.ltb_irrefl. exists None. split; [done|]. intros i x Hx Hc. specialize (Hin i x Hx Hc). lia. }
  rewrite (proj2 (Z.ltb_lt (size * a) (size * b))) by nia.
  replace ((size * b - size * a) / size) with (b - a) by (rewrite <- Z.mul_sub_distr_l, Z.mul_comm, Z.div_mul; lia).
  set (h := a + (b - a) / 2). assert (Hh : a <= h < b) by (unfold h; Z.to_euclidean_division_equations; lia).
  replace (size * a + (b - a) / 2 * size) with ((h + 1 - 1) * size) by (unfold h; lia).
  destruct (at_some size l cnt (h + 1) Ha) as (x & Hx & _); [lia|]. bind_by (apply (element_at size Hsize l cnt); (done || lia)).
  unfold at_ in Hx. replace (h + 1 - 1) with h in * by lia. replace (h * size) with (size * h) by lia.
  destruct (compare key x <? 0) eqn:E1; [|destruct (0 <? compare key x) eqn:E2]; bool_to_prop.
  - apply (IH l cnt); try done; [lia|lia|lia|]. intros i y Hy Hc. specialize (Hin i y Hy Hc). split; [lia|].
    destruct (decide (h <= Z.of_nat i)) as [Hge|]; [|lia]. exfalso. destruct (decide (h = Z.of_nat i)) as [Heq|Hi].
    + replace (Z.to_nat h) with i in Hx by lia. simplify_eq. lia.
    + destruct (Ho (Z.to_nat h) i x y) as [Hlt _]; [lia|done|done|]. lia.
  - replace (size * h + size) with (size * (h + 1)) by lia. apply (IH l cnt); try done; [lia|lia|].
    intros i y Hy Hc. specialize (Hin i y Hy Hc). split; [|lia].
    destruct (decide (Z.of_nat i <= h)) as [Hge|]; [|lia]. exfalso. destruct (decide (h = Z.of_nat i)) as [Heq|Hi].
    + replace (Z.to_nat h) with i in Hx by lia. simplify_eq. lia.
    + destruct (Ho i (Z.to_nat h) y x) as [_ Hgt]; [lia|done|done|]. lia.
  - exists (Some (size * h)). split; [done|]. exists (Z.to_nat h), x. split; [lia|]. split; [done|lia].
Qed.

Lemma binary_search_ok key l cnt :
  array_of size l cnt -> ordered_for key l ->
  exists r, binary_search size compare key cnt (mjoin l) = Ok (r, mjoin l) /\
    match r with
    | Some p => exists i x, p = size * Z.of_nat i /\ l !! i = Some x /\ compare key x = 0
    | None => forall i x, l !! i = Some x -> compare key x <> 0
    end.
Proof.
  intros Ha Ho. pose proof Ha as (Hl & _). unfold binary_search.
  destruct (search_loop_ok key (S (Z.to_nat cnt)) l cnt 0 cnt) as (r & E & Hr); try done; [lia|lia| |rewrite Z.mul_0_r in E; by exists r]. intros i x Hx _. apply lookup_lt_Some in Hx. lia.
Qed.

Lemma placed_ordered key l :
  (forall x y z, 0 <= compare x y -> 0 <= compare y z -> 0 <= compare x z) -> (forall x y, 0 < compare x y <-> compare y x < 0) ->
  placed_from compare l 0 -> ordered_for key l.
Proof.
  intros Ht Hf Hp i j x y Hij Hx Hy. pose proof (Hp i j x y Hij ltac:(lia) Hx Hy) as Hyx. split.
  - intros Hk. destruct (decide (compare key y < 0)); [done|]. pose proof (Ht key y x ltac:(lia) Hyx). lia.
  - intros Hk. apply Hf in Hk. apply Hf. destruct (decide (compare x key < 0)); [done|]. pose proof (Ht y x key Hyx ltac:(lia)). lia.
Qed.
End Search.

(** ** Numbers *)

Definition digits_value (v : Z) (ds : list Z) : Z := foldl (fun v d => v * 10 - (d - 48)) v ds.
Definition is_digit (d : Z) : Prop := 48 <= d <= 57.

Lemma digits_value_le ds : forall v, Forall is_digit ds -> v <= 0 -> digits_value v ds <= v.
Proof.
  induction ds as [|d ds IH]; intros v Hd Hv; simpl; [done|]. apply Forall_cons in Hd as [Hd Hds]. unfold is_digit in Hd.
  specialize (IH (v * 10 - (d - 48)) Hds ltac:(lia)). unfold digits_value in *. lia.
Qed.

Lemma digits_loop_ok ds : forall m p v rest fuel,
  str_at m p (ds ++ rest) -> Forall is_digit ds -> isdigit (default 0 (head rest)) = false ->
  v <= 0 -> - 2 ^ 31 <= digits_value v ds -> (length ds < fuel)%nat ->
  digits_loop fuel p v m = Ok (digits_value v ds, m).
Proof.
  induction ds as [|d ds IH]; intros m p v rest [|fuel] Hs Hd Hr Hv Hb Hf; simpl in Hf; try lia; cbn [digits_loop].
  - bind_by (apply load1_run, (str_head _ _ _ Hs)). simpl. by rewrite Hr.
  - apply Forall_cons in Hd as [Hd Hds]. simpl in Hs. apply str_cons in Hs as (H0 & _ & Hs). bind_by (by apply load1_run).
    unfold is_digit in Hd. assert (isdigit d = true) as -> by (unfold isdigit; apply andb_true_iff; rewrite !Z.leb_le; lia).
    pose proof (digits_value_le ds (v * 10 - (d - 48)) Hds ltac:(lia)) as Hle. change (- 2 ^ 31 <= digits_value (v * 10 - (d - 48)) ds) in Hb.
    rewrite (s32_small (v * 10)) by lia. rewrite s32_small by lia. rewrite (IH m (p + 1) _ rest); [done|done|done|done|lia|done|lia].
Qed.

Lemma skip_spaces_ok sp : forall m p rest fuel,
  str_at m p (sp ++ rest) -> Forall (fun c => isspace c = true) sp -> isspace (default 0 (head rest)) = false ->
  (length sp < fuel)%nat -> skip_spaces fuel p m = Ok (p + Z.of_nat (length sp), m).
Proof.
  induction sp as [|c sp IH]; intros m p rest [|fuel] Hs Hc Hr Hf; simpl in Hf; try lia; cbn [skip_spaces].
  - bind_by (apply load1_run, (str_head _ _ _ Hs)). simpl. by rewrite Hr, Z.add_0_r.
  - apply Forall_cons in Hc as [Hc Hcs]. simpl in Hs. apply str_cons in Hs as (H0 & _ & Hs). bind_by (by apply load1_run).
    rewrite Hc, (IH m (p + 1) rest) by (done || lia). do 2 f_equal. simpl. lia.
Qed.

(** A number in decimal, after white space, with a sign or none. *)
Lemma atoi_ok m p sp sign ds rest :
  str_at m p (sp ++ sign ++ ds ++ rest) -> p <> NULL -> Forall (fun c => isspace c = true) sp ->
  sign = [] \/ sign = [43] \/ sign = [45] -> ds <> [] -> Forall is_digit ds -> isdigit (default 0 (head rest)) = false ->
  (if decide (sign = [45]) then - 2 ^ 31 else 1 - 2 ^ 31) <= digits_value 0 ds ->
  atoi p m = Ok (if decide (sign = [45]) then digits_value 0 ds else - digits_value 0 ds, m).
Proof.
  intros Hs Hp Hsp Hsign Hne Hd Hr Hb. pose proof (str_size _ _ _ Hs) as Hsz. rewrite !length_app in Hsz. unfold atoi.
  bind_by (apply assert_run; by rewrite (proj2 (Z.eqb_neq _ _) Hp)). bind_by reflexivity.
  destruct ds as [|d ds]; [done|]. pose proof Hd as Hd0. apply Forall_cons in Hd0 as [Hd0 _]. unfold is_digit in Hd0.
  assert (Hhead : isspace (default 0 (head (sign ++ (d :: ds) ++ rest))) = false).
  { destruct Hsign as [->|[->| ->]]; simpl; [|done|done]. unfold isspace. rewrite !orb_false_iff, !Z.eqb_neq. lia. }
  bind_by (apply (skip_spaces_ok sp m p _ _ Hs Hsp Hhead); lia). apply str_app in Hs.
  bind_by (apply load1_run, (str_head _ _ _ Hs)). pose proof (digits_value_le (d :: ds) 0 Hd ltac:(lia)) as Hle.
  assert (- 2 ^ 31 <= digits_value 0 (d :: ds)) by (destruct (decide (sign = [45])); lia).
  destruct Hsign as [->|[->| ->]]; cbn [app head from_option] in Hs |- *; unfold id; rewrite ?decide_True, ?decide_False by done;
    rewrite ?decide_False in Hb by done.
  - rewrite (proj2 (Z.eqb_neq d 43)), (proj2 (Z.eqb_neq d 45)) by lia. simpl orb. cbv iota. simpl in Hsz.
    bind_by (apply (digits_loop_ok (d :: ds) _ _ _ rest); [exact Hs|done|done|done|done|simpl; lia]).
    unfold mret, M_ret. simpl negb. cbv iota. by rewrite s32_small by lia.
  - apply str_cons in Hs as (_ & _ & Hs). simpl orb. cbv iota. simpl in Hsz.
    bind_by (apply (digits_loop_ok (d :: ds) _ _ _ rest); [exact Hs|done|done|done|done|simpl; lia]).
    unfold mret, M_ret. simpl negb. cbv iota. by rewrite s32_small by lia.
  - apply str_cons in Hs as (_ & _ & Hs). simpl orb. cbv iota. simpl in Hsz.
    bind_by (apply (digits_loop_ok (d :: ds) _ _ _ rest); [exact Hs|done|done|done|done|simpl; lia]). done.
Qed.

(** ** Theorems *)

(** C31: [sort] puts every array in order.  For a comparison of [strcmp]'s kind
    (exchanging its arguments changes the sign, and it is transitive) the heap sort
    terminates, touches nothing but the array, and leaves the same elements in
    nondecreasing order. *)
Theorem sort_correct size compare l cnt :
  0 < size -> (forall x y, 0 < compare x y <-> compare y x < 0) ->
  (forall x y z, 0 <= compare x y -> 0 <= compare y z -> 0 <= compare x z) -> array_of size l cnt ->
  exists l', sort size compare cnt (mjoin l) = Ok (tt, mjoin l') /\ l' ≡ₚ l /\
    forall i j x y, (i < j)%nat -> l' !! i = Some x -> l' !! j = Some y -> 0 <= compare y x.
Proof.
  intros Hs Hf Ht Ha. destruct (sort_ok size compare Hs Hf Ht l cnt Ha) as (l' & E & Hp & Hpl).
  exists l'. split_and!; [done|done|]. intros i j x y Hij. apply Hpl; [done|lia].
Qed.

(** Elements of one byte, by their value. *)
Definition byte_compare (x y : list Z) : Z := default 0 (head x) - default 0 (head y).

Lemma sort_correct_witness :
  exists l', sort 1 byte_compare 4 [3; 1; 2; 1] = Ok (tt, mjoin l') /\ l' ≡ₚ [[3]; [1]; [2]; [1]].
Proof.
  destruct (sort_correct 1 byte_compare [[3]; [1]; [2]; [1]] 4) as (l' & E & Hp & _).
  - lia.
  - intros x y. unfold byte_compare. lia.
  - intros x y z. unfold byte_compare. lia.
  - split; [reflexivity|]. split; [by repeat constructor|]. lia.
  - exists l'. split; [exact E|exact Hp].
Defined.

(** C32: Binary search in a sorted array is the same as looking at every element.
    After [sort], [binary_search] finds the place of an element that compares equal
    to the key if the array has one, and otherwise answers a null pointer. *)
Theorem search_after_sort size compare l cnt key :
  0 < size -> (forall x y, 0 < compare x y <-> compare y x < 0) ->
  (forall x y z, 0 <= compare x y -> 0 <= compare y z -> 0 <= compare x z) -> array_of size l cnt ->
  exists l' r, (_ ← sort size compare cnt; binary_search size compare key cnt) (mjoin l) = Ok (r, mjoin l') /\
    (is_Some r <-> exists x, x ∈ l /\ compare key x = 0) /\
    forall p, r = Some p -> exists i x, p = size * Z.of_nat i /\ l' !! i = Some x /\ compare key x = 0.
Proof.
  intros Hs Hf Ht Ha. destruct (sort_ok size compare Hs Hf Ht l cnt Ha) as (l' & E & Hp & Hpl).
  assert (Ha' : array_of size l' cnt). { destruct Ha as (Hl & Hall & R). split; [by rewrite Hp|]. split; [by rewrite Hp|done]. }
  destruct (binary_search_ok size compare Hs key l' cnt Ha' (placed_ordered compare key l' Ht Hf Hpl)) as (r & Er & Hr).
  exists l', r. split; [by bind_by (exact E)|]. split; [|by intros p ->]. split.
  - intros [p ->]. destruct Hr as (i & x & _ & Hx & Hc). exists x. split; [|done]. rewrite <- Hp. by eapply list_elem_of_lookup_2.
  - intros (x & Hx & Hc). rewrite <- Hp in Hx. apply list_elem_of_lookup in Hx as [i Hi]. destruct r; [by eexists|]. by destruct (Hr i x Hi).
Qed.

Lemma search_after_sort_witness :
  exists l' r, (_ ← sort 1 byte_compare 4; binary_search 1 byte_compare [2] 4) [3; 1; 2; 1] = Ok (r, mjoin l') /\ is_Some r.
Proof.
  destruct (search_after_sort 1 byte_compare [[3]; [1]; [2]; [1]] 4 [2]) as (l' & r & E & Hr & _).
  - lia.
  - intros x y. unfold byte_compare. lia.
  - intros x y z. unfold byte_compare. lia.
  - split; [reflexivity|]. split; [by repeat constructor|]. lia.
  - exists l', r. split; [exact E|]. apply Hr. exists [2]. split; [by do 2 right; left|reflexivity].
Defined.
