(* ===== verification/Stdio.v ===== *)
(** * Formatted output: [lib/stdio.c]

    A format is the list of its characters, up to the terminator; the variable
    arguments are the words on the stack from the first one on.  Characters go to
    an [output] function with its own data, and strings are read from memory.

    Loops: a conversion makes at most one digit for every bit of its value; a turn
    of the loop of [__vprintf] consumes a character of the format, and the formats
    of its two messages are shorter than [vprintf_extra]. *)

From S2P Require Import Prelude CString CStdlib.

(** The characters of a literal. *)
Definition literal (s : string) : list Z := map (fun c => Z.of_N (Ascii.N_of_ascii c)) (String.list_ascii_of_string s).

(** ** Conversions *)

Definition MINUS : Z := Z.shiftl 1 0.
Definition PLUS : Z := Z.shiftl 1 1.
Definition SPACE : Z := Z.shiftl 1 2.
Definition POUND : Z := Z.shiftl 1 3.
Definition ZERO : Z := Z.shiftl 1 4.
Definition GROUP : Z := Z.shiftl 1 5.

Inductive conversion_type := CHAR | SHORT | INT | INTMAX | LONG | LONGLONG | PTRDIFFT | SIZET.
Record printf_conversion := mk_conversion { flags : Z; width : Z; precision : Z; type : conversion_type }.
Definition set_flags f c := mk_conversion f (width c) (precision c) (type c).
Definition flag (c : printf_conversion) (f : Z) : bool := negb (Z.land (flags c) f =? 0).

Record integer_base := mk_base { base : Z; digits : list Z; base_mark : Z; group : Z }.
Definition base_d : integer_base := mk_base 10 (literal "0123456789") 0 3.
Definition base_o : integer_base := mk_base 8 (literal "01234567") 0 3.
Definition base_x : integer_base := mk_base 16 (literal "0123456789abcdef") 120 4.
Definition base_X : integer_base := mk_base 16 (literal "0123456789ABCDEF") 88 4.

(** [va_arg]: one word, or two with the low half first. *)
Definition va_word (args : list Z) : res (Z * list Z) :=
  match args with w :: args => Ok (w, args) | [] => Err Trap end.
Definition va_long (args : list Z) : res (Z * list Z) :=
  match args with lo :: hi :: args => Ok (lo + 2 ^ 32 * hi, args) | _ => Err Trap end.

(** ** [parse_conversion] *)

Definition char_at (format : list Z) : Z := default 0 (head format).

Fixpoint parse_flags (format : list Z) (flags : Z) : Z * list Z :=
  match format with
  | ch :: rest =>
      if ch =? 45 then parse_flags rest (Z.lor flags MINUS)
      else if ch =? 43 then parse_flags rest (Z.lor flags PLUS)
      else if ch =? 32 then parse_flags rest (Z.lor flags SPACE)
      else if ch =? 35 then parse_flags rest (Z.lor flags POUND)
      else if ch =? 48 then parse_flags rest (Z.lor flags ZERO)
      else if ch =? 39 then parse_flags rest (Z.lor flags GROUP)
      else (flags, format)
  | [] => (flags, [])
  end.
Fixpoint parse_number (format : list Z) (n : Z) : Z * list Z :=
  match format with
  | ch :: rest => if isdigit ch then parse_number rest (s32 (n * 10 + ch - 48)) else (n, format)
  | [] => (n, [])
  end.
(** A number, or [*] for an argument. *)
Definition parse_count (format : list Z) (args : list Z) : res (Z * list Z * list Z) :=
  if char_at format =? 42 then '(w, args) ← va_word args; mret (s32 w, tail format, args)
  else let '(n, rest) := parse_number format 0 in mret (n, rest, args).
Definition parse_precision (format : list Z) (args : list Z) : res (Z * list Z * list Z) :=
  if char_at format =? 46 then
    '(p, rest, args) ← parse_count (tail format) args;
    mret (if p <? 0 then -1 else p, rest, args)
  else mret (-1, format, args).
Definition parse_type (format : list Z) : conversion_type * list Z :=
  let ch := char_at format in
  let rest := tail format in
  if ch =? 104 then if char_at rest =? 104 then (CHAR, tail rest) else (SHORT, rest)
  else if ch =? 106 then (INTMAX, rest)
  else if ch =? 108 then if char_at rest =? 108 then (LONGLONG, tail rest) else (LONG, rest)
  else if ch =? 116 then (PTRDIFFT, rest)
  else if ch =? 122 then (SIZET, rest)
  else (INT, format).
Definition parse_conversion (format : list Z) (args : list Z) : res (printf_conversion * list Z * list Z) :=
  let '(fl, format) := parse_flags format 0 in
  let fl := if negb (Z.land fl MINUS =? 0) then Z.land fl (Z.lnot ZERO) else fl in
  let fl := if negb (Z.land fl PLUS =? 0) then Z.land fl (Z.lnot SPACE) else fl in
  '(w, format, args) ← parse_count format args;
  let fl := if w <? 0 then Z.lor fl MINUS else fl in
  let w := if w <? 0 then s32 (- w) else w in
  '(p, format, args) ← parse_precision format args;
  let fl := if 0 <=? p then Z.land fl (Z.lnot ZERO) else fl in
  let '(t, format) := parse_type format in
  mret (mk_conversion fl w p t, format, args).

(** The argument of a signed and of an unsigned conversion. *)
Definition s8 (z : Z) : Z := (z + 128) mod 256 - 128.
Definition s16 (z : Z) : Z := (z + 2 ^ 15) mod 2 ^ 16 - 2 ^ 15.
Definition signed_arg (t : conversion_type) (args : list Z) : res (Z * list Z) :=
  match t with
  | CHAR => '(w, args) ← va_word args; mret (s8 w, args)
  | SHORT => '(w, args) ← va_word args; mret (s16 w, args)
  | INT | LONG | PTRDIFFT => '(w, args) ← va_word args; mret (s32 w, args)
  | INTMAX | LONGLONG => '(w, args) ← va_long args; mret (s64 w, args)
  | SIZET => '(w, args) ← va_word args; mret (if SIZE_MAX / 2 <? w then w - SIZE_MAX - 1 else w, args)
  end.
Definition unsigned_arg (t : conversion_type) (args : list Z) : res (Z * list Z) :=
  match t with
  | CHAR => '(w, args) ← va_word args; mret (u8 w, args)
  | SHORT => '(w, args) ← va_word args; mret (w mod 2 ^ 16, args)
  | INT | LONG | SIZET => va_word args
  | INTMAX | LONGLONG => va_long args
  | PTRDIFFT => '(w, args) ← va_word args; mret (Z.land (u64 (s32 w)) (Z.lor (Z.shiftl (2 ^ 31 - 1) 1) 1), args)
  end.

(** ** Integers *)

(** [buf] of [format_integer]. *)
Definition buf_size : nat := 64.
Definition push_char (buf : list Z) (ch : Z) : res (list Z) :=
  if (length buf <? buf_size)%nat then Ok (buf ++ [ch]) else Err Trap.

Fixpoint digit_loop (fuel : nat) (b : integer_base) (c : printf_conversion) (value digit_cnt : Z) (buf : list Z) : res (list Z) :=
  match fuel with
  | O => Err OutOfFuel
  | S fuel =>
      if 0 <? value then
        buf ← (if flag c GROUP && (0 <? digit_cnt) && (digit_cnt mod group b =? 0) then push_char buf 44 else mret buf);
        d ← of_option Trap (digits b !! Z.to_nat (value mod base b));
        buf ← push_char buf d;
        digit_loop fuel b c (value / base b) (digit_cnt + 1) buf
      else mret buf
  end.
Fixpoint zero_loop (fuel : nat) (prec : Z) (buf : list Z) : res (list Z) :=
  match fuel with
  | O => Err OutOfFuel
  | S fuel =>
      if (Z.of_nat (length buf) <? prec) && (length buf <? buf_size - 1)%nat then buf ← push_char buf 48; zero_loop fuel prec buf
      else mret buf
  end.

Section Print.
Context {A : Type} (output : Z -> M (cmem * A) unit) (null_string : Z).

Definition on_mem {B} (m : M cmem B) : M (cmem * A) B := fun s =>
  match m s.1 with Ok (b, mem) => Ok (b, (mem, s.2)) | Err e => Err e end.

Fixpoint output_dup (ch : Z) (cnt : nat) : M (cmem * A) unit :=
  match cnt with O => mret tt | S cnt => _ ← output ch; output_dup ch cnt end.
Fixpoint output_list (l : list Z) : M (cmem * A) unit :=
  match l with [] => mret tt | ch :: l => _ ← output ch; output_list l end.

Definition format_integer (value : Z) (is_signed negative : bool) (b : integer_base) (c : printf_conversion) : M (cmem * A) unit :=
  let sign :=
    if is_signed then
      if flag c PLUS then if negative then 45 else 43
      else if flag c SPACE then if negative then 45 else 32
      else if negative then 45 else 0
    else 0 in
  let x := if flag c POUND && negb (value =? 0) then base_mark b else 0 in
  buf ← lift (digit_loop 65 b c value 0 []);
  let prec := if precision c <? 0 then 1 else precision c in
  buf ← lift (zero_loop 65 prec buf);
  buf ← lift (if flag c POUND && (base b =? 8) && ((length buf =? 0)%nat || negb (default 0 (last buf) =? 48))
              then push_char buf 48 else mret buf);
  let pad_cnt := s32 (width c - Z.of_nat (length buf) - (if x =? 0 then 0 else 2) - b2z (negb (sign =? 0))) in
  let pad := Z.to_nat pad_cnt in
  _ ← (if negb (flag c (Z.lor MINUS ZERO)) then output_dup 32 pad else mret tt);
  _ ← (if negb (sign =? 0) then output sign else mret tt);
  _ ← (if negb (x =? 0) then _ ← output 48; output x else mret tt);
  _ ← (if flag c ZERO then output_dup 48 pad else mret tt);
  _ ← output_list (reverse buf);
  if flag c MINUS then output_dup 32 pad else mret tt.

(** [string] gives the characters from its first on. *)
Fixpoint output_string (n : nat) (string : Z -> M (cmem * A) Z) (i : Z) : M (cmem * A) unit :=
  match n with
  | O => mret tt
  | S n => ch ← string i; _ ← output ch; output_string n string (i + 1)
  end.
Definition format_string (string : Z -> M (cmem * A) Z) (length : Z) (c : printf_conversion) : M (cmem * A) unit :=
  _ ← (if (length <? width c) && negb (flag c MINUS) then output_dup 32 (Z.to_nat (width c - length)) else mret tt);
  _ ← output_string (Z.to_nat length) string 0;
  if (length <? width c) && flag c MINUS then output_dup 32 (Z.to_nat (width c - length)) else mret tt.

(** The [switch] on the conversion: what is left of the arguments, or [None] for
    a character that is no conversion. *)
Definition convert (ch : Z) (c : printf_conversion) (args : list Z) : M (cmem * A) (option (list Z)) :=
  if (ch =? 100) || (ch =? 105) then
    '(value, args) ← lift (signed_arg (type c) args);
    _ ← format_integer (u64 (if value <? 0 then - value else value)) true (value <? 0) base_d c;
    mret (Some args)
  else if (ch =? 111) || (ch =? 117) || (ch =? 120) || (ch =? 88) then
    '(value, args) ← lift (unsigned_arg (type c) args);
    let b := if ch =? 111 then base_o else if ch =? 117 then base_d else if ch =? 120 then base_x else base_X in
    _ ← format_integer value false false b c;
    mret (Some args)
  else if ch =? 99 then
    '(w, args) ← lift (va_word args);
    _ ← format_string (fun _ => mret (u8 w)) 1 c;
    mret (Some args)
  else if ch =? 115 then
    '(s, args) ← lift (va_word args);
    let s := if s =? NULL then null_string else s in
    n ← on_mem (strnlen s (u32 (precision c)));
    _ ← format_string (fun i => on_mem (load1 (s + i))) (s32 n) c;
    mret (Some args)
  else if ch =? 112 then
    '(p, args) ← lift (va_word args);
    _ ← format_integer p false false base_x (set_flags POUND c);
    mret (Some args)
  else mret None.

Definition no_conversion (ch : Z) : list Z :=
  if (ch =? 102) || (ch =? 101) || (ch =? 69) || (ch =? 103) || (ch =? 71) || (ch =? 110)
  then literal "<<no %%%c in kernel>>" else literal "<<no %%%c conversion>>".

(** After a format that ends in a conversion without its character the loop goes
    on behind the terminator. *)
Fixpoint vprintf_loop (fuel : nat) (format : list Z) (args : list Z) : M (cmem * A) unit :=
  match fuel with
  | O => fail OutOfFuel
  | S fuel =>
      match format with
      | [] => mret tt
      | ch :: rest =>
          if negb (ch =? 37) then _ ← output ch; vprintf_loop fuel rest args
          else if char_at rest =? 37 then _ ← output 37; vprintf_loop fuel (tail rest) args
          else
            '(c, rest, args) ← lift (parse_conversion rest args);
            o ← convert (char_at rest) c args;
            args ← (match o with
                    | Some args => mret args
                    | None => _ ← vprintf_loop fuel (no_conversion (char_at rest)) [char_at rest]; mret args
                    end);
            match rest with
            | [] => fail Trap
            | _ :: rest => vprintf_loop fuel rest args
            end
      end
  end.
Definition vprintf_extra : nat := 32.
Definition __vprintf (format : list Z) (args : list Z) : M (cmem * A) unit :=
  vprintf_loop (length format + vprintf_extra) format args.
End Print.

(** ** [vsnprintf] *)

Record vsnprintf_aux := mk_aux { p : Z; aux_length : Z; max_length : Z }.
Definition vsnprintf_helper (ch : Z) : M (cmem * vsnprintf_aux) unit :=
  s ← get;
  let aux := s.2 in
  let length := s32 (aux_length aux + 1) in
  if aux_length aux <? max_length aux then
    _ ← on_mem (store1 (p aux) ch);
    modify (fun s => (s.1, mk_aux (p aux + 1) length (max_length aux)))
  else modify (fun s => (s.1, mk_aux (p aux) length (max_length aux))).

Definition vsnprintf (null_string buffer size : Z) (format args : list Z) : M cmem Z := fun m =>
  let aux := mk_aux buffer 0 (s32 (if 0 <? size then size - 1 else 0)) in
  match (_ ← __vprintf vsnprintf_helper null_string format args;
         s ← get;
         _ ← (if 0 <? size then on_mem (store1 (p s.2) 0) else mret tt);
         mret (aux_length s.2)) (m, aux) with
  | Ok (n, s) => Ok (n, s.1)
  | Err e => Err e
  end.
Definition snprintf (null_string buffer size : Z) (format args : list Z) : M cmem Z := vsnprintf null_string buffer size format args.
