(* ===== verification/StdioOk.v ===== *)
(** * Integer conversions of formatted output

    The loops of [format_integer] over its buffer: the characters they leave denote
    the value, and never more than the buffer holds.  [field] is the text of a whole
    conversion. *)

From S2P Require Import Prelude CString CStdlib Stdio.

(** ** Numerals *)

(** The value of a digit, and of a numeral in base [n]; separators do not count. *)
Definition digit_value (ch : Z) : Z := if ch <? 58 then ch - 48 else if ch <? 71 then ch - 55 else ch - 87.
Definition numeral_value (n : Z) (l : list Z) : Z := foldl (fun v ch => if ch =? 44 then v else v * n + digit_value ch) 0 l.

(** What the code relies on in a base. *)
Record base_ok (b : integer_base) : Prop := {
  bo_base : 8 <= base b <= 16;
  bo_group : 0 < group b;
  bo_digit : forall d, 0 <= d < base b -> exists ch, digits b !! Z.to_nat d = Some ch /\ ch <> 44 /\ digit_value ch = d;
  bo_zero : 48 ∈ digits b;
}.
Lemma bases_ok : Forall base_ok [base_d; base_o; base_x; base_X].
Proof.
  assert (Hone : forall b, (forallb (fun i => match digits b !! i with Some ch => negb (ch =? 44) && (digit_value ch =? Z.of_nat i) | None => false end)
    (seq 0 (Z.to_nat (base b)))) = true -> 8 <= base b <= 16 -> 0 < group b -> head (digits b) = Some 48 -> base_ok b).
  { intros b Hb Hr Hg Hz. constructor; [done|done| |by apply head_Some_elem_of].  intros d Hd. rewrite forallb_forall in Hb. specialize (Hb (Z.to_nat d) ltac:(apply in_seq; lia)).
    destruct (digits b !! Z.to_nat d) as [ch|]; [|done]. exists ch. bool_to_prop. split; [done|]. lia. }
  repeat constructor; apply Hone; done.
Qed.

(** The same from the last digit on. *)
Definition low_value (n : Z) (l : list Z) : Z := foldr (fun ch v => if ch =? 44 then v else v * n + digit_value ch) 0 l.
Lemma numeral_reverse n l : numeral_value n (reverse l) = low_value n l.
Proof.
  unfold numeral_value, low_value. induction l as [|ch l IH]; [done|]. rewrite reverse_cons, foldl_app. simpl. by rewrite IH.
Qed.
Lemma low_zeros n l k : low_value n (l ++ replicate k 48) = low_value n l.
Proof.
  unfold low_value. rewrite foldr_app. f_equal. induction k as [|k IH]; [done|]. simpl. by rewrite IH, Z.mul_0_l.
Qed.

Section Integer.
Context (b : integer_base) (Hb : base_ok b) (c : printf_conversion).

Lemma push_char_ok buf ch : (length buf < 64)%nat -> push_char buf ch = Ok (buf ++ [ch]).
Proof. intros H. unfold push_char, buf_size. by rewrite (proj2 (Nat.ltb_lt _ _) H). Qed.

(** The digits of [value], the last one first, with or without separators. *)
Lemma digit_loop_ok fuel : forall value cnt buf k,
  0 <= value < base b ^ Z.of_nat k -> (k < fuel)%nat -> (length buf + 2 * k <= 64)%nat ->
  exists l, digit_loop fuel b c value cnt buf = Ok (buf ++ l) /\ (length l <= 2 * k)%nat /\ low_value (base b) l = value /\
    (flag c GROUP = false -> Forall (fun ch => ch ∈ digits b) l /\ (length l <= k)%nat).
Proof.
  destruct Hb as [Hr Hg Hd _]. induction fuel as [|fuel IH]; intros value cnt buf k Hv Hf Hlen; [lia|]. cbn [digit_loop].
  destruct (0 <? value) eqn:E0; bool_to_prop.
  2: { exists []. rewrite app_nil_r. assert (value = 0) as -> by lia. split; [done|]. split; [simpl; lia|]. split; [done|]. intros _. split; [done|simpl; lia]. }
  destruct k as [|k]; [simpl in Hv; lia|].
  assert (Hm : 0 <= value mod base b < base b) by (apply Z.mod_pos_bound; lia). destruct (Hd _ Hm) as (ch & Hch & Hne & Hval).
  assert (Hq : 0 <= value / base b < base b ^ Z.of_nat k).
  { split; [apply Z.div_pos; lia|]. apply Z.div_lt_upper_bound; [lia|]. rewrite <- Z.pow_succ_r by lia. rewrite <- Nat2Z.inj_succ; apply Hv. }
  set (sep := flag c GROUP && (0 <? cnt) && (cnt mod group b =? 0)). set (pre := if sep then [44] else []).
  assert (Hpre : (if sep then push_char buf 44 else mret buf) = Ok (buf ++ pre)).
  { unfold pre. destruct sep; [apply push_char_ok; lia|]. by rewrite app_nil_r. }
  assert (Hpl : (length pre <= 1)%nat) by (unfold pre; by destruct sep; simpl; lia).
  rewrite Hpre. cbn [mbind res_bind]. rewrite Hch. cbn [of_option mbind res_bind].
  rewrite push_char_ok by (rewrite length_app; lia). cbn [mbind res_bind].
  destruct (IH (value / base b) (cnt + 1) ((buf ++ pre) ++ [ch]) k Hq) as (l & E & Hl & Hlv & Hns); [lia|rewrite !length_app; simpl; lia|].
  exists (pre ++ ch :: l). split_and!.
  - rewrite E. f_equal. by rewrite <- !app_assoc.
  - rewrite length_app. simpl. lia.
  - unfold low_value in *. rewrite foldr_app. cbn [foldr]. rewrite (proj2 (Z.eqb_neq ch 44) Hne), Hlv, Hval.
    transitivity (value / base b * base b + value mod base b); [unfold pre; by destruct sep|]. rewrite (Z.div_mod value (base b)) at 3 by lia. lia.
  - intros Hgr. unfold pre, sep. rewrite Hgr. destruct (Hns Hgr) as [Hds Hk]. split; [|simpl; lia]. constructor; [by eapply list_elem_of_lookup_2|done].
Qed.

Lemma zero_loop_ok prec fuel : forall buf, (length buf <= 63)%nat -> (63 - length buf < fuel)%nat ->
  exists k, zero_loop fuel prec buf = Ok (buf ++ replicate k 48) /\ (length buf + k <= 63)%nat /\
    (prec <= 63 -> Z.of_nat (length buf + k) = Z.max prec (Z.of_nat (length buf))).
Proof.
  induction fuel as [|fuel IH]; intros buf Hb1 Hf; [lia|]. cbn [zero_loop]. unfold buf_size. change (64 - 1)%nat with 63%nat.
  destruct ((Z.of_nat (length buf) <? prec) && (length buf <? 63)%nat) eqn:E.
  - apply andb_true_iff in E as [E1%Z.ltb_lt E2%Nat.ltb_lt]. rewrite push_char_ok by lia. cbn [mbind res_bind].
    destruct (IH (buf ++ [48])) as (k & Ek & Hk & Hp); [rewrite length_app; simpl; lia..|]. rewrite length_app in *. simpl in *.
    exists (S k). rewrite Ek, <- app_assoc. split; [done|]. split; [lia|]. intros Hpr. specialize (Hp Hpr). lia.
  - exists 0%nat. rewrite app_nil_r. split; [done|]. split; [lia|]. apply andb_false_iff in E as [E%Z.ltb_ge|E%Nat.ltb_ge]; lia.
Qed.
End Integer.

(** ** What an integer conversion prints *)

Definition sign_text (is_signed negative : bool) (c : printf_conversion) : list Z :=
  if is_signed then if negative then [45] else if flag c PLUS then [43] else if flag c SPACE then [32] else [] else [].
Definition mark_text (b : integer_base) (c : printf_conversion) (value : Z) : list Z :=
  if flag c POUND && negb (value =? 0) && negb (base_mark b =? 0) then [48; base_mark b] else [].
(** The field around the numeral [body]: filled up to the width with blanks on
    the left, with zeros after the sign, or with blanks on the right. *)
Definition field (c : printf_conversion) (sign mark body : list Z) : list Z :=
  let pad := Z.to_nat (s32 (width c - Z.of_nat (length body) - Z.of_nat (length mark) - Z.of_nat (length sign))) in
  (if flag c (Z.lor MINUS ZERO) then [] else replicate pad 32) ++ sign ++ mark ++
  (if flag c ZERO then replicate pad 48 else []) ++ body ++ (if flag c MINUS then replicate pad 32 else []).

Section Output.
Context {A : Type} (output : Z -> M (cmem * A) unit).

Lemma output_list_app l1 l2 s : output_list output (l1 ++ l2) s = (_ ← output_list output l1; output_list output l2) s.
Proof.
  revert s. induction l1 as [|ch l1 IH]; intros s; [done|]. cbn [output_list app]. unfold mbind, M_bind in *.
  destruct (output ch s) as [[[] s1]|]; [|done]. apply IH.
Qed.
Lemma output_dup_list ch n s : output_dup output ch n s = output_list output (replicate n ch) s.
Proof.
  revert s. induction n as [|n IH]; intros s; [done|]. cbn [output_dup replicate output_list]. unfold mbind, M_bind.
  destruct (output ch s) as [[[] s1]|]; [|done]. apply IH.
Qed.
(** Printing one text and then another. *)
Lemma output_seq l1 l2 (m k : M (cmem * A) unit) s :
  (forall s, m s = output_list output l1 s) -> (forall s, k s = output_list output l2 s) ->
  (m ≫= fun _ => k) s = output_list output (l1 ++ l2) s.
Proof.
  intros E1 E2. rewrite output_list_app. unfold mbind, M_bind. rewrite E1. by destruct (output_list output l1 s) as [[[] s1]|].
Qed.
End Output.

(** The three loops over the buffer. *)
Lemma numeral_buf b c value :
  base_ok b -> 0 <= value < 2 ^ 64 ->
  let prec := if precision c <? 0 then 1 else precision c in
  exists l1 l2 l3, digit_loop 65 b c value 0 [] = Ok l1 /\ zero_loop 65 prec l1 = Ok l2 /\
    (if flag c POUND && (base b =? 8) && ((length l2 =? 0)%nat || negb (default 0 (last l2) =? 48)) then push_char l2 48 else mret l2) = Ok l3 /\
    (length l3 <= 64)%nat /\ low_value (base b) l3 = value /\
    (precision c < 0 -> flag c GROUP = false -> l3 <> [] /\ Forall (fun ch => ch ∈ digits b) l3 /\
       (flag c POUND = false -> forall k, (0 < k)%nat -> value < base b ^ Z.of_nat k -> (length l3 <= k)%nat)).
Proof.
  intros Hb Hv prec. assert (Hpow : 2 ^ 64 <= base b ^ Z.of_nat 22).
  { transitivity (8 ^ Z.of_nat 22); [done|]. apply Z.pow_le_mono_l. destruct Hb. lia. }
  destruct (digit_loop_ok b Hb c 65 value 0 [] 22) as (l & E1 & Hl & Hlv & Hns); [lia|lia|simpl; lia|].
  rewrite app_nil_l in E1. destruct (zero_loop_ok prec 65 l) as (k & E2 & Hk & Hpr); [lia|lia|].
  set (l2 := l ++ replicate k 48) in *. set (q := flag c POUND && (base b =? 8) && ((length l2 =? 0)%nat || negb (default 0 (last l2) =? 48))). exists l, l2, (l2 ++ replicate (if q then 1 else 0) 48).
  split; [done|]. split; [done|]. split.
  { fold q. subst l2. clearbody q. destruct q; [apply push_char_ok; rewrite length_app, length_replicate; lia|]. simpl. by rewrite app_nil_r. }
  assert (Hq : flag c POUND = false -> q = false) by (unfold q; by intros ->). clearbody q. subst l2. split; [rewrite !length_app, !length_replicate; destruct q; lia|]. split; [by rewrite !low_zeros|].
  intros Hneg Hgr. assert (prec = 1) as Ep by (unfold prec; by rewrite (proj2 (Z.ltb_lt _ _) Hneg)). destruct (Hns Hgr) as [Hds _]. split_and!.
  - intros E. apply (f_equal length) in E. rewrite !length_app, !length_replicate in E. simpl in E. lia.
  - rewrite !Forall_app. split; [split; [done|]|]; apply Forall_replicate, (bo_zero _ Hb).
  - intros Hpo i Hi Hvi. assert (length l <= i)%nat.
    { destruct (decide (22 < i)%nat); [destruct (Hns Hgr); lia|].
      destruct (digit_loop_ok b Hb c 65 value 0 [] i) as (l' & E' & _ & _ & Hns'); [lia|lia|simpl; lia|].
      rewrite app_nil_l, E1 in E'. injection E' as ->. by apply Hns'. }
    rewrite !length_app, !length_replicate, (Hq Hpo). lia.
Qed.

(** For every value and every conversion the buffer is large enough, and the
    numeral in it denotes the value. *)
Lemma format_integer_ok b c value is_signed negative :
  base_ok b -> 0 <= value < 2 ^ 64 ->
  exists body, (length body <= 64)%nat /\ numeral_value (base b) body = value /\
    (forall A (output : Z -> M (cmem * A) unit) s, format_integer output value is_signed negative b c s =
       output_list output (field c (sign_text is_signed negative c) (mark_text b c value) body) s) /\
    (precision c < 0 -> flag c GROUP = false -> body <> [] /\ Forall (fun ch => ch ∈ digits b) body /\
       (flag c POUND = false -> forall k, (0 < k)%nat -> value < base b ^ Z.of_nat k -> (length body <= k)%nat)).
Proof.
  intros Hb Hv. destruct (numeral_buf b c value Hb Hv) as (l1 & l2 & l3 & E1 & E2 & E3 & Hlen & Hval & Hdef).
  exists (reverse l3). rewrite length_reverse, numeral_reverse. split; [done|]. split; [done|]. split.
  2: { intros Hp Hg. destruct (Hdef Hp Hg) as (Hne & Hf & Hsh). split; [by rewrite <- reverse_nil; intros E%(inj reverse)|]. split; [by apply Forall_reverse|done]. }
  intros A output s. unfold format_integer. bind_by (unfold lift; rewrite E1; reflexivity). bind_by (unfold lift; rewrite E2; reflexivity).
  bind_by (unfold lift; rewrite E3; reflexivity).
  set (sg := if is_signed then _ else 0). set (x := if flag c POUND && _ then base_mark b else 0).
  assert (Hsg : forall s, (if negb (sg =? 0) then output sg else mret tt) s = output_list output (sign_text is_signed negative c) s).
  { intros s'. unfold sg, sign_text. destruct is_signed; [|done]. destruct (flag c PLUS), (flag c SPACE), negative; cbn; try done;
      unfold mbind, M_bind; by destruct (output _ s') as [[[] ?]|]. }
  assert (Hsl : b2z (negb (sg =? 0)) = Z.of_nat (length (sign_text is_signed negative c))).
  { unfold sg, sign_text. by destruct is_signed, (flag c PLUS), (flag c SPACE), negative. }
  assert (Hx : forall s, (if negb (x =? 0) then _ ← output 48; output x else mret tt) s = output_list output (mark_text b c value) s).
  { intros s'. unfold x, mark_text. destruct (flag c POUND && negb (value =? 0)); cbn [andb]; [|done]. destruct (base_mark b =? 0); cbn [negb]; [done|].
    unfold output_list, mbind, M_bind. destruct (output 48 s') as [[[] s1]|]; [|done]. by destruct (output (base_mark b) s1) as [[[] ?]|]. }
  assert (Hxl : (if x =? 0 then 0 else 2) = Z.of_nat (length (mark_text b c value))).
  { unfold x, mark_text. destruct (flag c POUND && negb (value =? 0)); cbn [andb]; [|done]. by destruct (base_mark b =? 0). }
  rewrite Hsl, Hxl. cbv zeta. unfold field. rewrite length_reverse. set (pad := Z.to_nat (s32 _)).
  assert (Hd : forall ch s, output_dup output ch pad s = output_list output (replicate pad ch) s) by (intros; apply output_dup_list).
  repeat (apply output_seq; [|intros ?]); [intros ?| exact Hsg | exact Hx | intros ?| done |].
  - destruct (flag c (Z.lor MINUS ZERO)); [done|apply Hd].
  - destruct (flag c ZERO); [apply Hd|done].
  - destruct (flag c MINUS); [apply Hd|done].
Qed.
