(* ===== verification/StdioProps.v ===== *)
(** * Formatted output: what [snprintf] stores

    The text of a format is what [__vprintf] hands to an output function that
    collects characters.  [snprintf] is related to that run step by step: the
    buffer holds the first characters collected, the count is that of all. *)

From S2P Require Import Prelude CString CStdlib Stdio StdioOk.

(** ** The text of a format *)

Definition collect (ch : Z) : M (cmem * list Z) unit := fun s => Ok (tt, (s.1, s.2 ++ [ch])).
Definition format_text (null_string : Z) (format args : list Z) (m : cmem) : res (list Z) :=
  match __vprintf collect null_string format args (m, []) with Ok (_, s) => Ok s.2 | Err e => Err e end.
(** Memory without the [size] bytes at [buffer]. *)
Definition outside (m : cmem) (buffer size : Z) : cmem := filter (fun '(a, _) => a < buffer \/ buffer + size <= a) m.
(** The longest text that is stored, and its terminator. *)
Definition stored (size : Z) (text : list Z) : list Z := take (Z.to_nat (size - 1)) text ++ [0].

(** ** Reads *)

(** A read has the same result in a memory with more mapped. *)
Definition reads_mem {B} (r : M cmem B) : Prop :=
  forall m1 m2 b m1', r m1 = Ok (b, m1') -> m1 ⊆ m2 -> m1' = m1 /\ r m2 = Ok (b, m2).

Lemma load1_reads a : reads_mem (load1 a).
Proof.
  intros m1 m2 b m1' E Hs. unfold load1 in *. destruct (m1 !! a) as [x|] eqn:Ea; [|done]. injection E as -> ->.
  by rewrite (lookup_weaken _ _ _ _ Ea Hs).
Qed.
Lemma strnlen_loop_reads s maxlen m1 m2 : m1 ⊆ m2 -> forall f1 f2 k n m1',
  strnlen_loop f1 s maxlen k m1 = Ok (n, m1') -> (f1 <= f2)%nat -> m1' = m1 /\ strnlen_loop f2 s maxlen k m2 = Ok (n, m2).
Proof.
  intros Hs. induction f1 as [|f1 IH]; intros [|f2] k n m1' E Hf; try done; [lia|]. cbn [strnlen_loop] in *. unfold mbind, M_bind in *.
  destruct (load1 (s + k) m1) as [[x m3]|] eqn:El; [|done]. destruct (load1_reads _ _ _ _ _ El Hs) as [-> ->].
  destruct (negb (x =? 0) && (k <? maxlen)); [apply (IH f2 _ _ _ E); lia|]. by injection E as -> ->.
Qed.
Lemma strnlen_reads s maxlen : reads_mem (strnlen s maxlen).
Proof.
  intros m1 m2 n m1' E Hs. unfold strnlen in *. apply (strnlen_loop_reads s maxlen m1 m2 Hs _ _ _ _ _ E).
  apply map_subseteq_size in Hs. lia.
Qed.

(** ** The simulation *)

Section Simulation.
Context (m0 m : cmem) (buffer : Z) (n : nat).
Hypothesis room_for : mapped_from m buffer (S n).
Hypothesis apart : m0 = outside m buffer (Z.of_nat (S n)).

(** [collect] on the left, [vsnprintf_helper] on the right. *)
Definition buffered (text : list Z) : cmem * vsnprintf_aux :=
  (put_bytes m buffer (take n text), mk_aux (buffer + Z.of_nat (length (take n text))) (Z.of_nat (length text)) (Z.of_nat n)).
Definition sim {B} (p : M (cmem * list Z) B) (q : M (cmem * vsnprintf_aux) B) : Prop :=
  forall text b s, p (m0, text) = Ok (b, s) ->
    s.1 = m0 /\ (length text <= length s.2)%nat /\
    (Z.of_nat (length s.2) < 2 ^ 31 -> q (buffered text) = Ok (b, buffered s.2)).

Lemma sim_ret {B} (b : B) : sim (mret b) (mret b).
Proof. intros text b' s E. injection E as <- <-. done. Qed.
Lemma sim_fail {B} e : sim (fail e : M _ B) (fail e).
Proof. intros text b s E. done. Qed.
Lemma sim_lift {B} (r : res B) : sim (lift r) (lift r).
Proof. intros text b s E. unfold lift in *. destruct r; [|done]. injection E as <- <-. done. Qed.
Lemma sim_bind {B C} (p : M _ B) q (k : B -> M _ C) k' :
  sim p q -> (forall b, sim (k b) (k' b)) -> sim (p ≫= k) (q ≫= k').
Proof.
  intros Hp Hk text c s E. unfold mbind, M_bind in *. destruct (p (m0, text)) as [[b [m1 t1]]|] eqn:E1; [|done].
  destruct (Hp _ _ _ E1) as (E0 & Hl1 & Hq1). simpl in *. subst m1. destruct (Hk b _ _ _ E) as (? & Hl2 & Hq2).
  split; [done|]. split; [lia|]. intros Hs. rewrite Hq1 by lia. by apply Hq2.
Qed.
Lemma sim_if {B} (c : bool) (p1 p2 : M _ B) q1 q2 : sim p1 q1 -> sim p2 q2 -> sim (if c then p1 else p2) (if c then q1 else q2).
Proof. by destruct c. Qed.

Lemma outside_buffer l : (length l <= S n)%nat -> m0 ⊆ put_bytes m buffer l.
Proof.
  intros Hl. apply map_subseteq_spec. intros a b Ha. rewrite apart in Ha. unfold outside in Ha.
  rewrite map_lookup_filter_Some in Ha. destruct Ha as [Ha Hd]. rewrite put_bytes_lookup, decide_False by lia. done.
Qed.
Lemma sim_mem {B} (r : M cmem B) : reads_mem r -> sim (on_mem r) (on_mem r).
Proof.
  intros Hr text b s E. unfold on_mem in *. simpl in *. destruct (r m0) as [[b1 m1]|] eqn:Er; [|done]. injection E as <- <-.
  destruct (Hr _ (put_bytes m buffer (take n text)) _ _ Er) as [-> E2]; [apply outside_buffer; rewrite length_take; lia|].
  simpl. rewrite E2. done.
Qed.
Lemma sim_output ch : sim (collect ch) (vsnprintf_helper ch).
Proof.
  intros text b s E. injection E as <- <-. simpl. rewrite length_app. simpl. split; [done|]. split; [lia|]. intros Hs.
  unfold vsnprintf_helper. bind_by reflexivity. simpl. rewrite s32_small by lia. case_match; bool_to_prop.
  - rewrite !take_ge by (rewrite ?length_app; simpl; lia). unfold mbind, M_bind, on_mem. simpl.
    rewrite store1_run by (apply (mapped_put _ _ _ _ _ room_for); lia). unfold modify, buffered. simpl.
    rewrite !take_ge by (rewrite ?length_app; simpl; lia). rewrite length_app. simpl.
    do 4 f_equal; [by rewrite put_bytes_snoc|lia|lia].
  - unfold modify, buffered. simpl. rewrite take_app_le by lia. rewrite length_app. simpl. do 4 f_equal. lia.
Qed.

Lemma sim_load a : sim (on_mem (load1 a)) (on_mem (load1 a)).
Proof. apply sim_mem, load1_reads. Qed.
Lemma sim_strnlen s k : sim (on_mem (strnlen s k)) (on_mem (strnlen s k)).
Proof. apply sim_mem, strnlen_reads. Qed.

#[local] Hint Resolve sim_ret sim_fail sim_lift sim_output sim_load sim_strnlen : core.
(** Walks through the statements of a pair of runs. *)
Ltac sim_steps :=
  repeat first
    [ progress auto
    | apply sim_bind; [|intros ?]
    | apply sim_if
    | match goal with |- sim (match ?o with _ => _ end) _ => destruct o end ].

Lemma sim_dup ch k : sim (output_dup collect ch k) (output_dup vsnprintf_helper ch k).
Proof. induction k; simpl; sim_steps. Qed.
Lemma sim_list l : sim (output_list collect l) (output_list vsnprintf_helper l).
Proof. induction l; simpl; sim_steps. Qed.
Lemma sim_string k f f' : (forall i, sim (f i) (f' i)) -> forall i, sim (output_string collect k f i) (output_string vsnprintf_helper k f' i).
Proof. intros Hf. induction k as [|k IH]; intros i; simpl; sim_steps. Qed.
#[local] Hint Resolve sim_dup sim_list sim_string : core.

Lemma sim_format_string f f' k c : (forall i, sim (f i) (f' i)) -> sim (format_string collect f k c) (format_string vsnprintf_helper f' k c).
Proof. intros Hf. unfold format_string. sim_steps. Qed.
Lemma sim_integer v sg neg b c : sim (format_integer collect v sg neg b c) (format_integer vsnprintf_helper v sg neg b c).
Proof. unfold format_integer. sim_steps. Qed.
#[local] Hint Resolve sim_format_string sim_integer : core.

Lemma sim_convert ns ch c args : sim (convert collect ns ch c args) (convert vsnprintf_helper ns ch c args).
Proof. unfold convert. sim_steps. Qed.
Lemma sim_loop ns fuel : forall format args, sim (vprintf_loop collect ns fuel format args) (vprintf_loop vsnprintf_helper ns fuel format args).
Proof. induction fuel as [|fuel IH]; intros format args; simpl; [auto|]. pose proof sim_convert. sim_steps. Qed.
End Simulation.

(** ** [snprintf] *)

Lemma snprintf_run ns m buffer size format args text :
  0 < size <= 2 ^ 31 -> mapped_from m buffer (Z.to_nat size) ->
  format_text ns format args (outside m buffer size) = Ok text -> Z.of_nat (length text) < 2 ^ 31 ->
  snprintf ns buffer size format args m = Ok (Z.of_nat (length text), put_bytes m buffer (stored size text)).
Proof.
  intros Hs Hm Ht Hl. set (n := Z.to_nat (size - 1)). assert (size = Z.of_nat (S n)) as Es by (unfold n; lia).
  rewrite Es, Nat2Z.id in Hm. unfold format_text, __vprintf in Ht. destruct (vprintf_loop _ _ _ _ _ _) as [[[] s]|] eqn:E; [|done]. injection Ht as <-.
  rewrite Es in E.
  destruct (sim_loop _ m buffer n Hm eq_refl ns _ format args _ _ _ E) as (_ & _ & Hsim). specialize (Hsim Hl).
  unfold snprintf, vsnprintf. rewrite (proj2 (Z.ltb_lt 0 size)) by lia.
  assert (s32 (size - 1) = Z.of_nat n) as -> by (rewrite s32_small; lia).
  unfold buffered in Hsim. cbn [take length] in Hsim. rewrite take_nil in Hsim. cbn [put_bytes length] in Hsim. rewrite Z.add_0_r in Hsim.
  unfold __vprintf. bind_by (exact Hsim). bind_by reflexivity. cbn [snd p aux_length].
  assert (Hf : (length (take n (s.2)) < S n)%nat) by (rewrite length_take; lia).
  bind_by (unfold on_mem; cbn [fst]; rewrite store1_run by (apply (mapped_put _ _ _ _ _ Hm); lia); reflexivity).
  unfold mret, M_ret. cbn. do 2 f_equal. unfold stored. fold n. by rewrite put_bytes_snoc.
Qed.

(** ** Integers *)

Lemma collect_list l s : output_list collect l s = Ok (tt, (s.1, s.2 ++ l)).
Proof.
  revert s. induction l as [|ch l IH]; intros [m text]; simpl; [by rewrite app_nil_r|]. bind_by reflexivity. rewrite IH. simpl.
  by rewrite <- app_assoc.
Qed.
Lemma flag_or c f g : flag c (Z.lor f g) = flag c f || flag c g.
Proof.
  unfold flag. rewrite Z.land_lor_distr_r, <- negb_andb. f_equal. apply eq_true_iff_eq. rewrite andb_true_iff, !Z.eqb_eq. apply Z.lor_eq_0_iff.
Qed.

(** A field is as wide as the conversion asks for, wider only for what does not fit. *)
Lemma field_length c sign mark body :
  0 <= width c < 2 ^ 31 -> Z.of_nat (length (sign ++ mark ++ body)) < 2 ^ 31 -> flag c MINUS && flag c ZERO = false ->
  Z.of_nat (length (field c sign mark body)) = Z.max (width c) (Z.of_nat (length (sign ++ mark ++ body))).
Proof.
  intros Hw Hl Hf. unfold field. rewrite flag_or. rewrite !length_app in *. rewrite s32_small by lia. set (pad := Z.to_nat _).
  destruct (flag c MINUS), (flag c ZERO); try done; simpl; rewrite ?length_replicate; lia.
Qed.
Lemma field_narrow c sign mark body : width c = 0 -> Z.of_nat (length (sign ++ mark ++ body)) < 2 ^ 31 -> field c sign mark body = sign ++ mark ++ body.
Proof.
  intros Hw Hl. unfold field. rewrite !length_app in Hl. rewrite Hw, s32_small by lia. replace (Z.to_nat _) with 0%nat by lia.
  destruct (flag c _), (flag c ZERO), (flag c MINUS); simpl; by rewrite ?app_nil_r.
Qed.

(** Turns of the loop. *)
Lemma vprintf_end {A} (output : Z -> M (cmem * A) unit) ns fuel args s : vprintf_loop output ns (S fuel) [] args s = Ok (tt, s).
Proof. done. Qed.
Lemma vprintf_conversion {A} (output : Z -> M (cmem * A) unit) ns fuel rest args c ch rest' args' args'' s s' :
  char_at rest =? 37 = false -> parse_conversion rest args = Ok (c, ch :: rest', args') ->
  convert output ns ch c args' s = Ok (Some args'', s') ->
  vprintf_loop output ns (S fuel) (37 :: rest) args s = vprintf_loop output ns fuel rest' args'' s'.
Proof.
  intros Hch Hp Hc. cbn [vprintf_loop]. change (negb (37 =? 37)) with false. rewrite Hch, Hp. cbv iota.
  bind_by reflexivity. cbv iota. bind_by (exact Hc). by bind_by reflexivity.
Qed.

(** ** Decimal numbers *)

Lemma digits_numeral l : forall v, Forall is_digit l -> digits_value (- v) l = - foldl (fun v ch => if ch =? 44 then v else v * 10 + digit_value ch) v l.
Proof.
  induction l as [|d l IH]; intros v Hd; [done|]. apply Forall_cons in Hd as [Hd Hl]. unfold is_digit in Hd. cbn [digits_value foldl].
  rewrite (proj2 (Z.eqb_neq d 44)) by lia. rewrite <- IH by done. unfold digits_value. f_equal. unfold digit_value.
  rewrite (proj2 (Z.ltb_lt d 58)) by lia. lia.
Qed.
Lemma base_d_digits : Forall is_digit (digits base_d).
Proof. repeat constructor; done. Qed.

Lemma s32_u32 v : - 2 ^ 31 <= v < 2 ^ 31 -> s32 (u32 v) = v.
Proof. intros Hv. unfold s32, u32. Z.to_euclidean_division_equations. lia. Qed.

(** What [%d] prints. *)
Lemma decimal_text ns v m :
  - 2 ^ 31 <= v < 2 ^ 31 ->
  exists ds, format_text ns (literal "%d") [u32 v] m = Ok ((if v <? 0 then [45] else []) ++ ds) /\
    ds <> [] /\ Forall is_digit ds /\ (length ds <= 10)%nat /\ digits_value 0 ds = - Z.abs v.
Proof.
  intros Hv. set (c := mk_conversion 0 0 (-1) INT). assert (Hb : base_ok base_d) by (pose proof bases_ok as Hb; by apply Forall_cons in Hb as [Hb _]).
  destruct (format_integer_ok base_d c (Z.abs v) true (v <? 0) Hb ltac:(lia)) as (ds & _ & Hval & Hrun & Hdef).
  destruct Hdef as (Hne & Hds & Hshort); [done|done|]. specialize (Hshort eq_refl 10%nat ltac:(lia) ltac:(simpl; lia)).
  assert (Hdig : Forall is_digit ds).
  { eapply Forall_impl; [exact Hds|]. intros ch Hch. pose proof base_d_digits as Hd. rewrite Forall_forall in Hd. by apply Hd. }
  exists ds. split; [|split; [done|split; [done|split; [done|]]]].
  2: { change 0 with (- 0) at 1. rewrite digits_numeral by done. f_equal. exact Hval. }
  assert (Habs : u64 (if v <? 0 then - v else v) = Z.abs v) by (rewrite u64_small; destruct (v <? 0) eqn:E; bool_to_prop; lia).
  assert (Hcv : convert collect ns 100 c [u32 v] (m, []) = Ok (Some [], (m, (if v <? 0 then [45] else []) ++ ds))).
  { unfold convert. change ((100 =? 100) || (100 =? 105)) with true. cbv iota. bind_by reflexivity. rewrite s32_u32 by lia. rewrite Habs.
    bind_by (rewrite Hrun, collect_list, field_narrow; [reflexivity|done|]; destruct (v <? 0); simpl; lia). cbn [fst snd app].
    destruct (v <? 0); done. }
  unfold format_text, __vprintf. change (literal "%d") with [37; 100]. change (_ + vprintf_extra)%nat with 34%nat.
  rewrite (vprintf_conversion _ _ 33 [100] [u32 v] c 100 [] [u32 v] [] _ _ eq_refl eq_refl Hcv). by rewrite (vprintf_end _ _ 32).
Qed.

(** ** Claims *)

(** A demonstration: sixteen bytes of memory for a buffer, and a string behind them. *)
Definition demo_memory : cmem := put_bytes (put_bytes ∅ 100 (replicate 16 7)) 200 (literal "pintos" ++ [0]).
Lemma demo_mapped : mapped_from demo_memory 100 16.
Proof.
  intros i Hi. unfold demo_memory. rewrite put_bytes_lookup, decide_False, put_bytes_lookup, decide_True by (rewrite ?length_replicate; lia).
  apply lookup_lt_is_Some_2. rewrite length_replicate. lia.
Qed.

(** C27: [snprintf] never writes outside its buffer and always terminates it: for
    every format and arguments whose text [text] is made from memory outside the
    buffer, it stores the first [size - 1] characters of [text] and a null at the
    start of the buffer, leaves every other byte alone, and returns the length of
    the whole text. *)
Theorem snprintf_stores ns m buffer size format args text :
  0 < size <= 2 ^ 31 -> mapped_from m buffer (Z.to_nat size) ->
  format_text ns format args (outside m buffer size) = Ok text -> Z.of_nat (length text) < 2 ^ 31 ->
  snprintf ns buffer size format args m = Ok (Z.of_nat (length text), put_bytes m buffer (stored size text)) /\
  (Z.of_nat (length (stored size text)) <= size) /\ bytes_at (put_bytes m buffer (stored size text)) buffer (take (Z.to_nat (size - 1)) text ++ [0]) /\
  (forall a, a < buffer \/ buffer + size <= a -> put_bytes m buffer (stored size text) !! a = m !! a).
Proof.
  intros Hs Hm Ht Hl. assert (Hsl : Z.of_nat (length (stored size text)) <= size) by (unfold stored; rewrite length_app, length_take; simpl; lia).
  split; [by apply snprintf_run|]. split; [done|]. split; [apply put_bytes_at|].
  intros a Ha. by rewrite put_bytes_lookup, decide_False by lia.
Qed.
Lemma snprintf_stores_witness :
  snprintf NULL 100 16 (literal "%s: %#05x|%-4u|%c") [200; 255; 7; 33] demo_memory =
  Ok (20, put_bytes demo_memory 100 (literal "pintos: 0x0ff|7" ++ [0])).
Proof.
  apply (snprintf_stores NULL demo_memory 100 16 (literal "%s: %#05x|%-4u|%c") [200; 255; 7; 33] (literal "pintos: 0x0ff|7   |!"));
    [lia|exact demo_mapped|vm_compute; reflexivity|done].
Defined.

(** C28: A number printed by [snprintf] with [%d] is read back by [atoi], for every
    [int] and every buffer of at least twelve bytes; both functions return. *)
Theorem decimal_roundtrip ns m buffer size v :
  - 2 ^ 31 <= v < 2 ^ 31 -> 12 <= size <= 2 ^ 31 -> buffer <> NULL -> mapped_from m buffer (Z.to_nat size) ->
  exists n m', snprintf ns buffer size (literal "%d") [u32 v] m = Ok (n, m') /\ 1 <= n <= 11 /\ atoi buffer m' = Ok (v, m').
Proof.
  intros Hv Hs Hb Hm. destruct (decimal_text ns v (outside m buffer size) Hv) as (ds & Et & Hne & Hd & Hl & Hval).
  set (sg := if v <? 0 then [45] else []) in *. assert (Hsg : (length sg <= 1)%nat) by (unfold sg; destruct (v <? 0); simpl; lia).
  assert (Hds : (0 < length ds)%nat) by (destruct ds; [done|simpl; lia]).
  do 2 eexists. split; [apply (snprintf_run ns m buffer size _ _ _ ltac:(lia) Hm Et); rewrite length_app; lia|].
  split; [rewrite length_app; lia|]. rewrite (atoi_ok _ buffer [] sg ds []); [| |done|done| |done|done|done|].
  - f_equal. f_equal. unfold sg. destruct (v <? 0) eqn:E; bool_to_prop; [rewrite decide_True by done|rewrite decide_False by done]; lia.
  - split.
    + rewrite app_nil_r, app_nil_l. unfold stored. rewrite take_ge by (rewrite length_app; lia). apply put_bytes_at.
    + rewrite app_nil_r, app_nil_l. apply Forall_app. split; [unfold sg; destruct (v <? 0); repeat constructor; done|].
      eapply Forall_impl; [exact Hd|]. intros ch. unfold is_digit, is_char. lia.
  - unfold sg. destruct (v <? 0); auto.
  - unfold sg. destruct (v <? 0) eqn:E; bool_to_prop; [rewrite decide_True by done|rewrite decide_False by done]; lia.
Qed.
Lemma decimal_roundtrip_witness :
  exists n m', snprintf NULL 100 16 (literal "%d") [u32 (- 2 ^ 31)] demo_memory = Ok (n, m') /\ 1 <= n <= 11 /\ atoi 100 m' = Ok (- 2 ^ 31, m').
Proof. apply (decimal_roundtrip NULL demo_memory 100 16 (- 2 ^ 31)); [lia|lia|done|exact demo_mapped]. Defined.

