(* ===== verification/Bitmap.v ===== *)
(** * Bitmaps: [lib/kernel/bitmap.c]

    A bitmap is an array of 32-bit elements that stands for an array of bits.
    The operations below work on the elements, as the code does; [bit b i] is
    the array of bits they stand for, and the lemmas describe every operation
    by what it does to the bits.  Palloc, the free map and the swap table are
    clients. *)

From S2P Require Import Prelude.

Definition ELEM_BITS : Z := 32.
Definition BITMAP_ERROR : Z := SIZE_MAX.

Record bitmap := mk_bitmap { bit_cnt : Z; bits : list Z }.

Definition elem_idx (bit_idx : Z) : Z := bit_idx / ELEM_BITS.
Definition bit_mask (bit_idx : Z) : Z := u32 (Z.shiftl 1 (bit_idx mod ELEM_BITS)).
Definition elem_cnt (bit_cnt : Z) : Z := DIV_ROUND_UP bit_cnt ELEM_BITS.
Definition byte_cnt (bit_cnt : Z) : Z := u32 (4 * elem_cnt bit_cnt).
Definition last_mask (b : bitmap) : Z :=
  let last_bits := bit_cnt b mod ELEM_BITS in
  if negb (last_bits =? 0) then u32 (Z.shiftl 1 last_bits - 1) else u32 (-1).

(** Reading and writing the element array; an index outside it is a wild access. *)
Definition get_elem (b : bitmap) (idx : Z) : res Z :=
  of_option Trap (bits b !! Z.to_nat idx).
Definition set_elem (b : bitmap) (idx x : Z) : res bitmap :=
  _ ← get_elem b idx; mret (mk_bitmap (bit_cnt b) (<[Z.to_nat idx := x]> (bits b))).

Definition bitmap_size (b : bitmap) : Z := bit_cnt b.

Definition bitmap_mark (b : bitmap) (bit_idx : Z) : res bitmap :=
  let idx := elem_idx bit_idx in
  let mask := bit_mask bit_idx in
  w ← get_elem b idx; set_elem b idx (Z.lor w mask).
Definition bitmap_reset (b : bitmap) (bit_idx : Z) : res bitmap :=
  let idx := elem_idx bit_idx in
  let mask := bit_mask bit_idx in
  w ← get_elem b idx; set_elem b idx (Z.land w (u32 (Z.lnot mask))).
Definition bitmap_flip (b : bitmap) (bit_idx : Z) : res bitmap :=
  let idx := elem_idx bit_idx in
  let mask := bit_mask bit_idx in
  w ← get_elem b idx; set_elem b idx (Z.lxor w mask).

Definition bitmap_set (b : bitmap) (idx : Z) (value : bool) : res bitmap :=
  _ ← ASSERT (idx <? bit_cnt b);
  if value then bitmap_mark b idx else bitmap_reset b idx.

Definition bitmap_test (b : bitmap) (idx : Z) : res bool :=
  _ ← ASSERT (idx <? bit_cnt b);
  w ← get_elem b (elem_idx idx);
  mret (negb (Z.land w (bit_mask idx) =? 0)).

(** The [for (i = 0; i < cnt; i++)] loops: [n] iterations are left, [k] is
    [start + i]. *)
Fixpoint bitmap_set_loop (n : nat) (b : bitmap) (k : Z) (value : bool) : res bitmap :=
  match n with
  | O => mret b
  | S n' => b' ← bitmap_set b (u32 k) value; bitmap_set_loop n' b' (k + 1) value
  end.
Definition bitmap_set_multiple (b : bitmap) (start cnt : Z) (value : bool) : res bitmap :=
  _ ← ASSERT (start <=? bit_cnt b);
  _ ← ASSERT (u32 (start + cnt) <=? bit_cnt b);
  bitmap_set_loop (Z.to_nat cnt) b start value.
Definition bitmap_set_all (b : bitmap) (value : bool) : res bitmap :=
  bitmap_set_multiple b 0 (bitmap_size b) value.

Fixpoint bitmap_count_loop (n : nat) (b : bitmap) (k : Z) (value : bool) (value_cnt : Z) : res Z :=
  match n with
  | O => mret value_cnt
  | S n' =>
      t ← bitmap_test b (u32 k);
      bitmap_count_loop n' b (k + 1) value
        (if Bool.eqb t value then u32 (value_cnt + 1) else value_cnt)
  end.
Definition bitmap_count (b : bitmap) (start cnt : Z) (value : bool) : res Z :=
  _ ← ASSERT (start <=? bit_cnt b);
  _ ← ASSERT (u32 (start + cnt) <=? bit_cnt b);
  bitmap_count_loop (Z.to_nat cnt) b start value 0.

Fixpoint bitmap_contains_loop (n : nat) (b : bitmap) (k : Z) (value : bool) : res bool :=
  match n with
  | O => mret false
  | S n' =>
      t ← bitmap_test b (u32 k);
      if Bool.eqb t value then mret true else bitmap_contains_loop n' b (k + 1) value
  end.
Definition bitmap_contains (b : bitmap) (start cnt : Z) (value : bool) : res bool :=
  _ ← ASSERT (start <=? bit_cnt b);
  _ ← ASSERT (u32 (start + cnt) <=? bit_cnt b);
  bitmap_contains_loop (Z.to_nat cnt) b start value.
Definition bitmap_any (b : bitmap) (start cnt : Z) : res bool :=
  bitmap_contains b start cnt true.
Definition bitmap_none (b : bitmap) (start cnt : Z) : res bool :=
  c ← bitmap_contains b start cnt true; mret (negb c).
Definition bitmap_all (b : bitmap) (start cnt : Z) : res bool :=
  c ← bitmap_contains b start cnt false; mret (negb c).

(** [for (i = start; i <= last; i++)], with [n] iterations left. *)
Fixpoint bitmap_scan_loop (n : nat) (b : bitmap) (i cnt : Z) (value : bool) : res Z :=
  match n with
  | O => mret BITMAP_ERROR
  | S n' =>
      c ← bitmap_contains b i cnt (negb value);
      if negb c then mret i else bitmap_scan_loop n' b (i + 1) cnt value
  end.
Definition bitmap_scan (b : bitmap) (start cnt : Z) (value : bool) : res Z :=
  _ ← ASSERT (start <=? bit_cnt b);
  if cnt <=? bit_cnt b then
    let last := bit_cnt b - cnt in
    bitmap_scan_loop (Z.to_nat (last - start + 1)) b start cnt value
  else mret BITMAP_ERROR.
Definition bitmap_scan_and_flip (b : bitmap) (start cnt : Z) (value : bool) : res (Z * bitmap) :=
  idx ← bitmap_scan b start cnt value;
  if negb (idx =? BITMAP_ERROR) then
    b' ← bitmap_set_multiple b idx cnt (negb value); mret (idx, b')
  else mret (idx, b).

(** [malloc] gives back NULL or [elem_cnt] elements of unspecified content.
    [b_ok] says whether the allocation of the header succeeds. *)
Definition bitmap_create (b_ok : bool) (malloc : Z -> option (list Z)) (bit_cnt : Z)
    : res (option bitmap) :=
  if b_ok then
    match malloc (byte_cnt bit_cnt) with
    | Some ws => b ← bitmap_set_all (mk_bitmap bit_cnt ws) false; mret (Some b)
    | None =>
        if bit_cnt =? 0 then b ← bitmap_set_all (mk_bitmap bit_cnt []) false; mret (Some b)
        else mret None
    end
  else mret None.

Definition bitmap_buf_size (bit_cnt : Z) : Z := u32 (8 + byte_cnt bit_cnt).
(** [block] is the content of the buffer after the header. *)
Definition bitmap_create_in_buf (bit_cnt : Z) (block : list Z) (block_size : Z) : res bitmap :=
  _ ← ASSERT (bitmap_buf_size bit_cnt <=? block_size);
  bitmap_set_all (mk_bitmap bit_cnt block) false.

Definition bitmap_file_size (b : bitmap) : Z := byte_cnt (bit_cnt b).

(** Elements as bytes. *)
Fixpoint elems_of_bytes (n : nat) (l : list Z) : list Z :=
  match n with
  | O => []
  | S n' => elem_of_bytes (take 4 l) :: elems_of_bytes n' (drop 4 l)
  end.
Definition elems_bytes (ws : list Z) : list Z := ws ≫= elem_bytes.

(** [bitmap_read] and [bitmap_write] use a file only through [file_read_at]
    and [file_write_at] at offset 0.  The former gives the number of bytes it
    read and the bytes, which overwrite a prefix of the buffer. *)
Definition bitmap_read {S} (file_read_at : Z -> M S (Z * list Z)) (b : bitmap) : M S (bool * bitmap) :=
  if 0 <? bit_cnt b then
    let size := s32 (byte_cnt (bit_cnt b)) in
    r ← file_read_at size;
    let success := r.1 =? size in
    let buf := r.2 ++ drop (length r.2) (elems_bytes (bits b)) in
    let b1 := mk_bitmap (bit_cnt b) (elems_of_bytes (length (bits b)) buf) in
    let k := elem_cnt (bit_cnt b) - 1 in
    w ← lift (get_elem b1 k); b2 ← lift (set_elem b1 k (Z.land w (last_mask b1)));
    mret (success, b2)
  else mret (true, b).
Definition bitmap_write {S} (file_write_at : list Z -> Z -> M S Z) (b : bitmap) : M S bool :=
  let size := s32 (byte_cnt (bit_cnt b)) in
  n ← file_write_at (elems_bytes (bits b)) size;
  mret (n =? size).

(** ** The bits a bitmap stands for *)

Definition bit (b : bitmap) (i : Z) : bool :=
  Z.testbit (nth (Z.to_nat (i / 32)) (bits b) 0) (i mod 32).

(** Enough elements for the bits, each one a 32-bit value, and a bit count for
    which [elem_cnt] does not wrap. *)
Record bitmap_ok (b : bitmap) : Prop := {
  ok_cnt : 0 <= bit_cnt b <= 2 ^ 32 - 32;
  ok_len : elem_cnt (bit_cnt b) <= Z.of_nat (length (bits b));
  ok_words : Forall (fun w => 0 <= w < 2 ^ 32) (bits b);
}.

(** [b'] is [b] with the bits rewritten by [f]. *)
Definition updated (b b' : bitmap) (f : Z -> bool) : Prop :=
  bitmap_ok b' /\ bit_cnt b' = bit_cnt b /\ length (bits b') = length (bits b) /\
  forall i, 0 <= i -> bit b' i = f i.

Definition in_range (start cnt i : Z) : bool := (start <=? i) && (i <? start + cnt).

(** A group of [cnt] bits of value [v] that starts at [i]. *)
Definition group (b : bitmap) (i cnt : Z) (v : bool) : Prop :=
  i + cnt <= bit_cnt b /\ forall k, i <= k < i + cnt -> bit b k = v.

Lemma elem_cnt_div n : 0 <= n <= 2 ^ 32 - 32 -> elem_cnt n = (n + 31) / 32.
Proof. intros. unfold elem_cnt, DIV_ROUND_UP, ELEM_BITS. rewrite u32_small by lia. f_equal. lia. Qed.

Lemma bit_mask_pow i : bit_mask i = 2 ^ (i mod 32).
Proof.
  unfold bit_mask, ELEM_BITS. pose proof (Z.mod_pos_bound i 32).
  rewrite Z.shiftl_1_l, u32_small; [done|].
  split; [apply Z.pow_nonneg; lia|apply Z.pow_lt_mono_r; lia].
Qed.

Lemma get_elem_ok b i :
  bitmap_ok b -> 0 <= i < bit_cnt b ->
  exists w, bits b !! Z.to_nat (i / 32) = Some w /\ get_elem b (elem_idx i) = Ok w /\
    nth (Z.to_nat (i / 32)) (bits b) 0 = w /\ 0 <= w < 2 ^ 32.
Proof.
  intros [Hc Hl Hw] Hi. rewrite elem_cnt_div in Hl by done.
  destruct (lookup_lt_is_Some_2 (bits b) (Z.to_nat (i / 32))) as [w E].
  { apply Nat2Z.inj_lt. rewrite Z2Nat.id by (apply Z.div_pos; lia).
    eapply Z.lt_le_trans; [|exact Hl]. apply Z.div_lt_upper_bound; [lia|].
    pose proof (Z.div_mod (bit_cnt b + 31) 32). pose proof (Z.mod_pos_bound (bit_cnt b + 31) 32). lia. }
  exists w. unfold get_elem, elem_idx, ELEM_BITS. rewrite E.
  destruct (Forall_lookup_1 _ _ _ _ Hw E). split_and!; [done|done|by apply nth_lookup_Some|done|done].
Qed.

(** Rewriting one element rewrites the bits it holds and no other. *)
Lemma set_elem_ok b i w x :
  bitmap_ok b -> 0 <= i -> bits b !! Z.to_nat (i / 32) = Some w -> 0 <= x < 2 ^ 32 ->
  exists b', set_elem b (elem_idx i) x = Ok b' /\
    updated b b' (fun j => if decide (j / 32 = i / 32) then Z.testbit x (j mod 32) else bit b j).
Proof.
  intros [Hc Hl Hw] Hi E Hx. unfold set_elem, get_elem, elem_idx, ELEM_BITS. rewrite E. simpl.
  eexists; split; [reflexivity|]. split_and!; simpl.
  - constructor; simpl; [done|by rewrite length_insert|by apply Forall_insert].
  - done.
  - by rewrite length_insert.
  - intros j Hj. unfold bit. simpl. case_decide as Hd.
    + f_equal. apply nth_lookup_Some. rewrite Hd. apply list_lookup_insert_eq.
      eapply lookup_lt_Some; exact E.
    + f_equal. rewrite !nth_lookup, list_lookup_insert_ne; [done|].
      intros Heq. apply Hd. apply Z2Nat.inj in Heq; [done|apply Z.div_pos; lia..].
Qed.

Lemma same_bit i j : 0 <= i -> 0 <= j -> i / 32 = j / 32 -> i mod 32 = j mod 32 -> i = j.
Proof. intros. rewrite (Z.div_mod i 32), (Z.div_mod j 32) by lia. congruence. Qed.

Lemma updated_ext b b' f g :
  updated b b' f -> (forall i, 0 <= i -> f i = g i) -> updated b b' g.
Proof. intros (? & ? & ? & Hb) He. split_and!; auto. intros. by rewrite Hb, He. Qed.

Lemma bitmap_mark_ok b i :
  bitmap_ok b -> 0 <= i < bit_cnt b ->
  exists b', bitmap_mark b i = Ok b' /\ updated b b' (fun j => bool_decide (j = i) || bit b j).
Proof.
  intros Hb Hi. destruct (get_elem_ok b i) as (w & El & Eg & En & Hw); [done..|].
  unfold bitmap_mark. rewrite Eg, bit_mask_pow. simpl. pose proof (Z.mod_pos_bound i 32).
  destruct (set_elem_ok b i w (Z.lor w (2 ^ (i mod 32)))) as (b' & -> & Hu); [done|lia|done| |].
  { apply lor_range; [done|]. split; [apply Z.pow_nonneg; lia|apply Z.pow_lt_mono_r; lia]. }
  exists b'. split; [done|]. eapply updated_ext; [exact Hu|]. intros j Hj. simpl.
  pose proof (Z.mod_pos_bound j 32). case_decide as Hd.
  - rewrite Z.lor_spec, testbit_pow2 by lia. unfold bit. rewrite Hd, En, orb_comm. f_equal.
    apply bool_decide_ext. split; [intros; apply same_bit; lia|by intros ->].
  - rewrite bool_decide_false; [done|]. by intros ->.
Qed.

Lemma bitmap_reset_ok b i :
  bitmap_ok b -> 0 <= i < bit_cnt b ->
  exists b', bitmap_reset b i = Ok b' /\ updated b b' (fun j => negb (bool_decide (j = i)) && bit b j).
Proof.
  intros Hb Hi. destruct (get_elem_ok b i) as (w & El & Eg & En & Hw); [done..|].
  unfold bitmap_reset. rewrite Eg, bit_mask_pow. simpl. pose proof (Z.mod_pos_bound i 32).
  destruct (set_elem_ok b i w (Z.land w (u32 (Z.lnot (2 ^ (i mod 32)))))) as (b' & -> & Hu); [done|lia|done| |].
  { apply land_range; [done|]. apply u32_range. }
  exists b'. split; [done|]. eapply updated_ext; [exact Hu|]. intros j Hj. simpl.
  pose proof (Z.mod_pos_bound j 32). case_decide as Hd.
  - unfold u32. rewrite Z.land_spec, Z.mod_pow2_bits_low, Z.lnot_spec, testbit_pow2 by lia.
    unfold bit. rewrite Hd, En, andb_comm. f_equal. f_equal.
    apply bool_decide_ext. split; [intros; apply same_bit; lia|by intros ->].
  - rewrite bool_decide_false; [done|]. by intros ->.
Qed.

Lemma bitmap_flip_ok b i :
  bitmap_ok b -> 0 <= i < bit_cnt b ->
  exists b', bitmap_flip b i = Ok b' /\ updated b b' (fun j => xorb (bit b j) (bool_decide (j = i))).
Proof.
  intros Hb Hi. destruct (get_elem_ok b i) as (w & El & Eg & En & Hw); [done..|].
  unfold bitmap_flip. rewrite Eg, bit_mask_pow. simpl. pose proof (Z.mod_pos_bound i 32).
  destruct (set_elem_ok b i w (Z.lxor w (2 ^ (i mod 32)))) as (b' & -> & Hu); [done|lia|done| |].
  { assert (0 <= 2 ^ (i mod 32) < 2 ^ 32)
      by (split; [apply Z.pow_nonneg; lia|apply Z.pow_lt_mono_r; lia]).
    by apply lxor_range. }
  exists b'. split; [done|]. eapply updated_ext; [exact Hu|]. intros j Hj. simpl.
  pose proof (Z.mod_pos_bound j 32). case_decide as Hd.
  - rewrite Z.lxor_spec, testbit_pow2 by lia. unfold bit. rewrite Hd, En. f_equal.
    apply bool_decide_ext. split; [intros; apply same_bit; lia|by intros ->].
  - rewrite bool_decide_false; [by rewrite xorb_false_r|]. by intros ->.
Qed.

Lemma bitmap_set_ok b i v :
  bitmap_ok b -> 0 <= i < bit_cnt b ->
  exists b', bitmap_set b i v = Ok b' /\ updated b b' (fun j => if decide (j = i) then v else bit b j).
Proof.
  intros Hb Hi. unfold bitmap_set. rewrite ASSERT_true by lia. simpl.
  destruct v.
  - destruct (bitmap_mark_ok b i) as (b' & -> & Hu); [done..|]. exists b'. split; [done|].
    eapply updated_ext; [exact Hu|]. intros j ?. simpl. by repeat case_decide || case_bool_decide.
  - destruct (bitmap_reset_ok b i) as (b' & -> & Hu); [done..|]. exists b'. split; [done|].
    eapply updated_ext; [exact Hu|]. intros j ?. simpl. by repeat case_decide || case_bool_decide.
Qed.

Lemma bitmap_test_ok b i : bitmap_ok b -> 0 <= i < bit_cnt b -> bitmap_test b i = Ok (bit b i).
Proof.
  intros Hb Hi. destruct (get_elem_ok b i) as (w & El & Eg & En & Hw); [done..|].
  unfold bitmap_test. rewrite ASSERT_true by lia. simpl. rewrite Eg. simpl.
  rewrite bit_mask_pow, land_pow2_nonzero by (apply Z.mod_pos_bound; lia).
  unfold bit. by rewrite En.
Qed.

(** ** Groups of bits *)

Lemma bitmap_set_loop_ok n b k v :
  bitmap_ok b -> 0 <= k -> k + Z.of_nat n <= bit_cnt b ->
  exists b', bitmap_set_loop n b k v = Ok b' /\
    updated b b' (fun j => if in_range k (Z.of_nat n) j then v else bit b j).
Proof.
  revert b k. induction n as [|n IH]; intros b k Hb Hk Hn; simpl.
  - exists b. split; [done|]. split_and!; auto. intros j _.
    destruct (in_range k (Z.of_nat 0) j) eqn:E; [|done]. unfold in_range in E. bool_to_prop. lia.
  - pose proof (ok_cnt _ Hb). rewrite u32_small by lia.
    destruct (bitmap_set_ok b k v) as (b1 & -> & Hb1 & Hc1 & Hl1 & Hbit1); [done|lia|]. simpl.
    destruct (IH b1 (k + 1)) as (b' & -> & Hb' & Hc' & Hl' & Hbit'); [done|lia|lia|].
    exists b'. split; [done|]. split_and!; [done|congruence|congruence|]. intros j Hj.
    rewrite Hbit', Hbit1 by done. unfold in_range.
    destruct (decide (j = k)) as [->|].
    + rewrite (proj2 (Z.leb_le k k)), (proj2 (Z.ltb_lt k (k + Z.of_nat (S n)))) by lia. by destruct (_ && _).
    + by replace (k + 1 <=? j) with (k <=? j) by lia;
        replace (k + 1 + Z.of_nat n) with (k + Z.of_nat (S n)) by lia.
Qed.

Lemma bitmap_set_multiple_ok b start cnt v :
  bitmap_ok b -> 0 <= start -> 0 <= cnt -> start + cnt <= bit_cnt b ->
  exists b', bitmap_set_multiple b start cnt v = Ok b' /\
    updated b b' (fun j => if in_range start cnt j then v else bit b j).
Proof.
  intros Hb Hs Hc Hle. pose proof (ok_cnt _ Hb). unfold bitmap_set_multiple.
  rewrite u32_small, !ASSERT_true by lia. simpl.
  destruct (bitmap_set_loop_ok (Z.to_nat cnt) b start v) as (b' & -> & Hu); [done|lia|lia|].
  exists b'. rewrite Z2Nat.id in Hu by lia. done.
Qed.

Lemma bitmap_contains_loop_ok n b k v :
  bitmap_ok b -> 0 <= k -> k + Z.of_nat n <= bit_cnt b ->
  exists c, bitmap_contains_loop n b k v = Ok c /\
    (c = true <-> exists j, k <= j < k + Z.of_nat n /\ bit b j = v).
Proof.
  revert k. induction n as [|n IH]; intros k Hb Hk Hn; simpl.
  - exists false. split; [done|]. split; [done|]. intros (j & ? & _). lia.
  - pose proof (ok_cnt _ Hb). rewrite u32_small, bitmap_test_ok by (done || lia). simpl.
    destruct (Bool.eqb (bit b k) v) eqn:E.
    + apply Bool.eqb_prop in E. exists true. split; [done|]. split; [|done].
      intros _. exists k. split; [lia|done].
    + apply Bool.eqb_false_iff in E. destruct (IH (k + 1)) as (c & -> & Hc); [done|lia|lia|].
      exists c. split; [done|]. rewrite Hc. split; intros (j & ? & ?); exists j; (split; [|done]); [lia|].
      assert (j <> k) by (by intros ->). lia.
Qed.

Lemma bitmap_contains_ok b start cnt v :
  bitmap_ok b -> 0 <= start -> 0 <= cnt -> start + cnt <= bit_cnt b ->
  exists c, bitmap_contains b start cnt v = Ok c /\
    (c = true <-> exists j, start <= j < start + cnt /\ bit b j = v).
Proof.
  intros Hb Hs Hc Hle. pose proof (ok_cnt _ Hb). unfold bitmap_contains.
  rewrite u32_small, !ASSERT_true by lia. simpl.
  destruct (bitmap_contains_loop_ok (Z.to_nat cnt) b start v) as (c & -> & Hc'); [done|lia|lia|].
  exists c. split; [done|]. by rewrite Z2Nat.id in Hc' by lia.
Qed.

(** [bitmap_contains (... !value)] is false exactly on a group of [value]. *)
Lemma contains_group b i cnt v c :
  bitmap_ok b -> 0 <= i -> 0 <= cnt -> i + cnt <= bit_cnt b ->
  bitmap_contains b i cnt (negb v) = Ok c -> (c = false <-> group b i cnt v).
Proof.
  intros Hb Hi Hc Hle E. destruct (bitmap_contains_ok b i cnt (negb v)) as (c' & E' & H); [done..|].
  assert (c' = c) as -> by congruence. unfold group. split.
  - intros ->. split; [done|]. intros k Hk. destruct (bit b k) eqn:Eb, v; try done;
      by assert (false = true) by (apply H; eauto).
  - intros [_ Hg]. destruct c; [|done]. destruct (proj1 H eq_refl) as (j & Hj & Ej).
    rewrite Hg in Ej by done. by destruct v.
Qed.

Lemma bitmap_all_ok b start cnt :
  bitmap_ok b -> 0 <= start -> 0 <= cnt -> start + cnt <= bit_cnt b ->
  exists c, bitmap_all b start cnt = Ok c /\ (c = true <-> group b start cnt true).
Proof.
  intros. unfold bitmap_all. destruct (bitmap_contains_ok b start cnt false) as (c & E & _); [done..|].
  rewrite E. exists (negb c). split; [done|]. rewrite <- (contains_group b start cnt true c) by done.
  by destruct c.
Qed.

Lemma bitmap_none_ok b start cnt :
  bitmap_ok b -> 0 <= start -> 0 <= cnt -> start + cnt <= bit_cnt b ->
  exists c, bitmap_none b start cnt = Ok c /\ (c = true <-> group b start cnt false).
Proof.
  intros. unfold bitmap_none. destruct (bitmap_contains_ok b start cnt true) as (c & E & _); [done..|].
  rewrite E. exists (negb c). split; [done|]. rewrite <- (contains_group b start cnt false c) by done.
  by destruct c.
Qed.

(** Number of bits of value [v] among the [n] bits from [k] on. *)
Fixpoint count_bits (n : nat) (b : bitmap) (k : Z) (v : bool) : Z :=
  match n with
  | O => 0
  | S n' => (if Bool.eqb (bit b k) v then 1 else 0) + count_bits n' b (k + 1) v
  end.

Lemma bitmap_count_ok b start cnt v :
  bitmap_ok b -> 0 <= start -> 0 <= cnt -> start + cnt <= bit_cnt b ->
  bitmap_count b start cnt v = Ok (count_bits (Z.to_nat cnt) b start v).
Proof.
  intros Hb Hs Hc Hle. pose proof (ok_cnt _ Hb). unfold bitmap_count.
  rewrite u32_small, !ASSERT_true by lia. simpl.
  assert (Hloop : forall n k vc, 0 <= k -> k + Z.of_nat n <= bit_cnt b -> 0 <= vc ->
    vc + Z.of_nat n < 2 ^ 32 ->
    bitmap_count_loop n b k v vc = Ok (vc + count_bits n b k v)).
  { induction n as [|n IH]; intros k vc Hk Hn Hv Hlt; simpl; [by rewrite Z.add_0_r|].
    rewrite (u32_small k), bitmap_test_ok by (done || lia). simpl.
    destruct (Bool.eqb (bit b k) v); rewrite ?u32_small, IH by lia; f_equal; lia. }
  rewrite Hloop by lia. done.
Qed.

Lemma bitmap_scan_loop_ok n b i cnt v :
  bitmap_ok b -> 0 <= i -> 0 <= cnt -> i + Z.of_nat n - 1 + cnt <= bit_cnt b ->
  exists r, bitmap_scan_loop n b i cnt v = Ok r /\
    ((i <= r < i + Z.of_nat n /\ group b r cnt v /\ forall j, i <= j < r -> ~ group b j cnt v) \/
     (r = BITMAP_ERROR /\ forall j, i <= j < i + Z.of_nat n -> ~ group b j cnt v)).
Proof.
  revert i. induction n as [|n IH]; intros i Hb Hi Hc Hn; simpl.
  - exists BITMAP_ERROR. split; [done|]. right. split; [done|]. intros ? ?. lia.
  - destruct (bitmap_contains_ok b i cnt (negb v)) as (c & E & _); [done|lia..|]. rewrite E. simpl.
    assert (c = false <-> group b i cnt v) as Hg by (apply contains_group; lia || done).
    destruct c; simpl.
    + assert (~ group b i cnt v) as Hng by (by rewrite <- Hg).
      destruct (IH (i + 1)) as (r & -> & Hr); [done|lia..|]. exists r. split; [done|].
      assert (forall P : Z -> Prop, (forall j, i + 1 <= j -> P j -> ~ group b j cnt v) ->
        forall j, i <= j -> P j -> ~ group b j cnt v) as Hstep.
      { intros P HP j Hj. destruct (decide (j = i)) as [->|]; [done|]. apply HP. lia. }
      destruct Hr as [(Hr & Hgr & Hf)|(-> & Hf)]; [left|right].
      * split_and!; [lia|lia|done|]. intros j Hj.
        apply (Hstep (fun j => j < r)); [|lia|lia]. intros. apply Hf. lia.
      * split; [done|]. intros j Hj.
        apply (Hstep (fun j => j < i + Z.of_nat (S n))); [|lia|lia]. intros. apply Hf. lia.
    + exists i. split; [done|]. left. split_and!; [lia|lia|by apply Hg|intros ? ?; lia].
Qed.

(** What [bitmap_scan] returns: the first group, or [BITMAP_ERROR]. *)
Definition scan_result (b : bitmap) (start cnt : Z) (v : bool) (r : Z) : Prop :=
  (start <= r /\ r < BITMAP_ERROR /\ group b r cnt v /\ forall j, start <= j < r -> ~ group b j cnt v) \/
  (r = BITMAP_ERROR /\ forall j, start <= j -> ~ group b j cnt v).

Lemma bitmap_scan_ok b start cnt v :
  bitmap_ok b -> 0 <= start <= bit_cnt b -> 0 <= cnt ->
  exists r, bitmap_scan b start cnt v = Ok r /\ scan_result b start cnt v r.
Proof.
  intros Hb Hs Hc. pose proof (ok_cnt _ Hb). unfold bitmap_scan. rewrite ASSERT_true by lia. simpl.
  destruct (cnt <=? bit_cnt b) eqn:E; bool_to_prop.
  - destruct (decide (start <= bit_cnt b - cnt)).
    + destruct (bitmap_scan_loop_ok (Z.to_nat (bit_cnt b - cnt - start + 1)) b start cnt v)
        as (r & -> & Hr); [done|lia..|].
      exists r. split; [done|]. rewrite Z2Nat.id in Hr by lia.
      destruct Hr as [(Hr & Hg & Hf)|(-> & Hf)]; [left|right].
      * split_and!; [lia|unfold BITMAP_ERROR, SIZE_MAX; lia|done|done].
      * split; [done|]. intros j Hj Hg. pose proof (proj1 Hg). apply (Hf j); [lia|done].
    + replace (Z.to_nat (bit_cnt b - cnt - start + 1)) with 0%nat by lia. simpl. eexists. split; [done|]. right.
      split; [done|]. intros j Hj [Hg _]. lia.
  - eexists. split; [done|]. right. split; [done|]. intros j Hj [Hg _]. lia.
Qed.

Lemma bitmap_scan_and_flip_ok b start cnt v :
  bitmap_ok b -> 0 <= start <= bit_cnt b -> 0 <= cnt ->
  exists r b', bitmap_scan_and_flip b start cnt v = Ok (r, b') /\ scan_result b start cnt v r /\
    if decide (r = BITMAP_ERROR) then b' = b
    else updated b b' (fun j => if in_range r cnt j then negb v else bit b j).
Proof.
  intros Hb Hs Hc. unfold bitmap_scan_and_flip.
  destruct (bitmap_scan_ok b start cnt v) as (r & -> & Hr); [done..|]. simpl.
  destruct Hr as [(H1 & H2 & H3 & H4)|(-> & H2)].
  - rewrite (proj2 (Z.eqb_neq _ _)) by lia. simpl.
    destruct (bitmap_set_multiple_ok b r cnt (negb v)) as (b' & -> & Hu); [done|lia|lia|apply H3|].
    exists r, b'. split; [done|]. split; [by left|]. by rewrite decide_False by lia.
  - rewrite Z.eqb_refl. simpl. eexists _, b. split; [done|]. split; [by right|].
    by rewrite decide_True.
Qed.

(** ** Storage in a file *)

Lemma byte_cnt_val n : 0 <= n <= 2 ^ 32 - 32 ->
  byte_cnt n = 4 * ((n + 31) / 32) /\ 0 <= (n + 31) / 32 < 2 ^ 27.
Proof.
  intros H. assert (0 <= (n + 31) / 32 < 2 ^ 27).
  { split; [apply Z.div_pos; lia|apply Z.div_lt_upper_bound; lia]. }
  unfold byte_cnt. rewrite elem_cnt_div, u32_small by lia. done.
Qed.

Lemma elems_bytes_length ws : length (elems_bytes ws) = (4 * length ws)%nat.
Proof.
  induction ws as [|w ws IH]; [done|].
  change (elems_bytes (w :: ws)) with (elem_bytes w ++ elems_bytes ws).
  rewrite length_app, IH. simpl. lia.
Qed.

Lemma elems_bytes_roundtrip ws :
  Forall (fun w => 0 <= w < 2 ^ 32) ws -> elems_of_bytes (length ws) (elems_bytes ws) = ws.
Proof.
  induction 1 as [|w ws Hw Hws IH]; [done|].
  change (elems_bytes (w :: ws)) with (elem_bytes w ++ elems_bytes ws).
  cbn [length elems_of_bytes]. rewrite take_app_length', drop_app_length' by done.
  by rewrite elem_bytes_roundtrip, IH.
Qed.

Lemma last_mask_bits b i :
  0 <= bit_cnt b -> 0 <= i < 32 ->
  Z.testbit (last_mask b) i = if bit_cnt b mod 32 =? 0 then true else i <? bit_cnt b mod 32.
Proof.
  intros Hc Hi. unfold last_mask, ELEM_BITS, u32. pose proof (Z.mod_pos_bound (bit_cnt b) 32).
  destruct (bit_cnt b mod 32 =? 0); simpl negb; cbn iota; rewrite Z.mod_pow2_bits_low by lia.
  - apply Z.bits_m1. lia.
  - rewrite Z.shiftl_1_l, Z.sub_1_r, <- Z.ones_equiv. apply testbit_ones; lia.
Qed.

Lemma bitmap_write_ok {S} (file_write_at : list Z -> Z -> M S Z) b f n f' :
  bitmap_ok b -> file_write_at (elems_bytes (bits b)) (byte_cnt (bit_cnt b)) f = Ok (n, f') ->
  bitmap_write file_write_at b f = Ok (n =? byte_cnt (bit_cnt b), f').
Proof.
  intros Hb Hw. pose proof (ok_cnt _ Hb) as Hc.
  destruct (byte_cnt_val (bit_cnt b)) as [E ?]; [done|].
  unfold bitmap_write. rewrite s32_small by lia. by bind_by (exact Hw).
Qed.

(** Reading back the bytes of a bitmap of the same size. *)
Lemma bitmap_read_ok {S} (file_read_at : Z -> M S (Z * list Z)) b b0 f f' :
  bitmap_ok b -> Z.of_nat (length (bits b)) = elem_cnt (bit_cnt b) ->
  bit_cnt b0 = bit_cnt b -> length (bits b0) = length (bits b) -> 0 < bit_cnt b ->
  file_read_at (byte_cnt (bit_cnt b)) f = Ok ((byte_cnt (bit_cnt b), elems_bytes (bits b)), f') ->
  exists b', bitmap_read file_read_at b0 f = Ok ((true, b'), f') /\
    updated b b' (fun i => (i <? bit_cnt b) && bit b i).
Proof.
  intros Hb Hl Hc0 Hl0 Hpos Hr. pose proof (ok_cnt _ Hb) as Hc.
  destruct (byte_cnt_val (bit_cnt b)) as [E Hrng]; [done|].
  pose proof Hl as Hl2. rewrite elem_cnt_div in Hl2 by done.
  unfold bitmap_read. rewrite Hc0, (proj2 (Z.ltb_lt _ _) Hpos), s32_small by lia.
  bind_by (exact Hr). cbn [fst snd]. rewrite Hl0, elems_bytes_length.
  rewrite drop_ge by (rewrite elems_bytes_length; lia). rewrite app_nil_r, elems_bytes_roundtrip by apply Hb.
  change (mk_bitmap _ _) with (mk_bitmap (bit_cnt b) (bits b)).
  replace (mk_bitmap (bit_cnt b) (bits b)) with b by (by destruct b).
  set (i := bit_cnt b - 1).
  assert (elem_cnt (bit_cnt b) - 1 = elem_idx i) as ->.
  { rewrite elem_cnt_div by done. unfold elem_idx, i, ELEM_BITS.
    replace (bit_cnt b + 31) with (bit_cnt b - 1 + 1 * 32) by lia. rewrite Z.div_add by lia. lia. }
  destruct (get_elem_ok b i) as (w & El & Eg & En & Hw); [done|lia|].
  destruct (set_elem_ok b i w (Z.land w (last_mask b))) as (b' & Es & Hu); [done|lia|done| |].
  { apply land_range; [done|]. unfold last_mask. case_match; apply u32_range. }
  exists b'. bind_by (rewrite Eg; reflexivity). bind_by (rewrite Es; reflexivity).
  split; [by rewrite Z.eqb_refl|]. pose proof Hu as (Hb' & Hc' & Hl' & Hbit). split_and!; [done..|].
  intros j Hj. rewrite Hbit by done. pose proof (Z.mod_pos_bound j 32). case_decide as Hd.
  - rewrite Z.land_spec, last_mask_bits by lia. unfold bit. rewrite Hd, En, andb_comm. f_equal.
    unfold i in Hd. clear -Hd Hj H Hpos. case_match; bool_to_prop; [symmetry; apply Z.ltb_lt|].
    + Z.to_euclidean_division_equations. lia.
    + apply Bool.eq_iff_eq_true. rewrite !Z.ltb_lt. Z.to_euclidean_division_equations. lia.
  - destruct (j <? bit_cnt b) eqn:Ej; [done|]. bool_to_prop. simpl.
    unfold bit. rewrite nth_overflow; [apply Z.bits_0|].
    assert (i / 32 < j / 32).
    { assert (i / 32 <= j / 32) by (apply Z.div_le_mono; lia). lia. }
    apply Nat2Z.inj_le. rewrite Z2Nat.id by (apply Z.div_pos; lia). rewrite Hl2.
    replace (bit_cnt b + 31) with (i + 1 * 32) by lia. rewrite Z.div_add by lia. lia.
Qed.

Lemma bitmap_create_ok malloc n ws :
  0 <= n <= 2 ^ 32 - 32 -> malloc (byte_cnt n) = Some ws ->
  elem_cnt n <= Z.of_nat (length ws) -> Forall (fun w => 0 <= w < 2 ^ 32) ws ->
  exists b, bitmap_create true malloc n = Ok (Some b) /\ bitmap_ok b /\ bit_cnt b = n /\
    length (bits b) = length ws /\ forall i, 0 <= i < n -> bit b i = false.
Proof.
  intros Hn Hm Hl Hw. unfold bitmap_create. rewrite Hm. unfold bitmap_set_all, bitmap_size.
  destruct (bitmap_set_multiple_ok (mk_bitmap n ws) 0 n false) as (b & E & Hb & Hc & Hlen & Hbit);
    [by constructor|lia|lia|simpl; lia|].
  simpl in *. rewrite E. exists b. split_and!; [done..|]. intros i Hi. rewrite Hbit by lia.
  unfold in_range. by rewrite (proj2 (Z.leb_le 0 i)), (proj2 (Z.ltb_lt i (0 + n))) by lia.
Qed.

(** ** Theorems *)


(** Bits 0, 1, 2 and 4 are set: bit 3 is free, the first free pair starts at 5. *)
Definition demo_bitmap : bitmap := mk_bitmap 8 [23].


(** A file that is an array of bytes. *)
Definition flat_read (size : Z) : M (list Z) (Z * list Z) := fun f =>
  let got := take (Z.to_nat size) f in Ok ((Z.of_nat (length got), got), f).
Definition flat_write (buf : list Z) (size : Z) : M (list Z) Z := fun f =>
  Ok (size, take (Z.to_nat size) buf ++ drop (Z.to_nat size) f).

(** A bitmap survives its file: what [bitmap_write] hands to the file
    system, read back by [bitmap_read] into a bitmap of the same size, gives the
    same bits, and clears the unused bits of the last element. *)
Theorem bitmap_file_roundtrip b b0 f :
  bitmap_ok b -> Z.of_nat (length (bits b)) = elem_cnt (bit_cnt b) -> 0 < bit_cnt b ->
  bit_cnt b0 = bit_cnt b -> length (bits b0) = length (bits b) ->
  exists f' b',
    bitmap_write flat_write b f = Ok (true, f') /\
    bitmap_read flat_read b0 f' = Ok ((true, b'), f') /\
    bitmap_ok b' /\ bit_cnt b' = bit_cnt b /\
    (forall i, 0 <= i < bit_cnt b -> bit b' i = bit b i) /\
    (forall i, bit_cnt b <= i -> bit b' i = false).
Proof.
  intros Hb Hl Hpos Hc0 Hl0. pose proof (ok_cnt _ Hb) as Hc.
  destruct (byte_cnt_val (bit_cnt b)) as [E Hrng]; [done|].
  pose proof Hl as Hl2. rewrite elem_cnt_div in Hl2 by done.
  set (data := elems_bytes (bits b)).
  assert (length data = Z.to_nat (byte_cnt (bit_cnt b))) as Hdata.
  { unfold data. rewrite elems_bytes_length, E. lia. }
  exists (data ++ drop (length data) f).
  destruct (bitmap_read_ok flat_read b b0 (data ++ drop (length data) f) (data ++ drop (length data) f))
    as (b' & Hr & Hu); [done..| |].
  { unfold flat_read. rewrite <- Hdata, take_app_length. fold data. repeat f_equal. lia. }
  destruct Hu as (Hb' & Hc' & _ & Hbit). exists b'. split_and!; [|done..| |].
  - erewrite bitmap_write_ok; [|done|unfold flat_write; reflexivity]. fold data.
    rewrite Z.eqb_refl, take_ge, Hdata by lia. done.
  - intros i Hi. rewrite Hbit by lia. by rewrite (proj2 (Z.ltb_lt _ _)) by lia.
  - intros i Hi. rewrite Hbit by lia. by rewrite (proj2 (Z.ltb_ge _ _)) by lia.
Qed.

Lemma bitmap_file_roundtrip_witness :
  exists f' b', bitmap_write flat_write demo_bitmap [] = Ok (true, f') /\
    bitmap_read flat_read (mk_bitmap 8 [0]) f' = Ok ((true, b'), f') /\
    (forall i, 0 <= i < 8 -> bit b' i = bit demo_bitmap i).
Proof.
  destruct (bitmap_file_roundtrip demo_bitmap (mk_bitmap 8 [0]) []) as (f' & b' & Hw & Hr & _ & _ & Hi & _).
  - constructor; [simpl; lia|simpl; vm_compute; discriminate|repeat constructor; lia].
  - reflexivity.
  - reflexivity.
  - reflexivity.
  - reflexivity.
  - exists f', b'. split; [exact Hw|split; [exact Hr|exact Hi]].
Defined.
