(* ===== verification/Hash.v ===== *)
(** * Hash tables: [lib/kernel/hash.c]

    A table is an array of buckets; each bucket is one of the lists of KList,
    kept here as the sequence of its elements ([list_push_front] is [cons],
    [list_remove] unlinks an element from whichever bucket links it).  The hash
    and comparison functions of [struct hash] are section variables, as is the
    outcome of the allocation inside [rehash]. *)

From S2P Require Import Prelude.

(** ** Hash values: Fowler-Noll-Vo, 32 bits *)

Definition FNV_32_PRIME : Z := 16777619.
Definition FNV_32_BASIS : Z := 2166136261.

Definition fnv_step (hash c : Z) : Z := Z.lxor (u32 (hash * FNV_32_PRIME)) c.
Definition hash_bytes (buf : list Z) : Z := foldl fnv_step FNV_32_BASIS buf.

(** [hash_string] stops at the terminator; [s] is the memory from the string on. *)
Fixpoint hash_string_loop (hash : Z) (s : list Z) : res Z :=
  match s with
  | [] => Err Trap
  | c :: s' => if c =? 0 then mret hash else hash_string_loop (fnv_step hash c) s'
  end.
Definition hash_string (s : list Z) : res Z := hash_string_loop FNV_32_BASIS s.

Definition hash_int (i : Z) : Z :=
  let w := u32 i in
  hash_bytes [w mod 256; w / 256 mod 256; w / 65536 mod 256; w / 16777216 mod 256].

(** ** Powers of two *)

Definition turn_off_least_1bit (x : Z) : Z := Z.land x (u32 (x - 1)).
Definition is_power_of_2 (x : Z) : bool := negb (x =? 0) && (turn_off_least_1bit x =? 0).

Definition MIN_ELEMS_PER_BUCKET : Z := 1.
Definition BEST_ELEMS_PER_BUCKET : Z := 2.
Definition MAX_ELEMS_PER_BUCKET : Z := 4.

(** The [while] loop of [rehash]; every turn clears one bit of a [size_t], so
    33 turns are enough. *)
Fixpoint round_to_power_of_2 (fuel : nat) (n : Z) : res Z :=
  match fuel with
  | O => Err OutOfFuel
  | S fuel' =>
      if negb (is_power_of_2 n) then round_to_power_of_2 fuel' (turn_off_least_1bit n)
      else mret n
  end.
Definition ideal_bucket_cnt (elem_cnt : Z) : res Z :=
  let n := elem_cnt / BEST_ELEMS_PER_BUCKET in
  round_to_power_of_2 33 (if n <? 4 then 4 else n).

Section Table.
Context {E : Type} `{EqDecision E}.
Variable hash : E -> Z.
Variable less : E -> E -> bool.

Record hash_table := mk_hash { elem_cnt : Z; bucket_cnt : Z; buckets : list (list E) }.

(** [hash_clear] calls the destructor on the elements it pops, in order. *)
Definition hash_clear (h : hash_table) : hash_table * list E :=
  (mk_hash 0 (bucket_cnt h) (replicate (Z.to_nat (bucket_cnt h)) []), mjoin (buckets h)).
Definition hash_init (malloc_ok : bool) : option hash_table :=
  let h := mk_hash 0 4 (replicate 4 []) in
  if malloc_ok then Some (hash_clear h).1 else None.

Definition bucket_idx (h : hash_table) (e : E) : Z :=
  Z.land (hash e) (u32 (bucket_cnt h - 1)).
Definition get_bucket (h : hash_table) (i : Z) : res (list E) :=
  of_option Trap (buckets h !! Z.to_nat i).

Definition equal (x e : E) : bool := negb (less x e) && negb (less e x).
Fixpoint find_elem (bucket : list E) (e : E) : option E :=
  match bucket with
  | [] => None
  | hi :: rest => if equal hi e then Some hi else find_elem rest e
  end.

(** [list_push_front] onto bucket number [i]. *)
Definition push_bucket (bs : list (list E)) (i : Z) (e : E) : list (list E) :=
  alter (fun b => e :: b) (Z.to_nat i) bs.
Definition insert_elem (h : hash_table) (i : Z) (e : E) : hash_table :=
  mk_hash (u32 (elem_cnt h + 1)) (bucket_cnt h) (push_bucket (buckets h) i e).
Definition remove_elem (h : hash_table) (e : E) : hash_table :=
  mk_hash (u32 (elem_cnt h - 1)) (bucket_cnt h) (map (filter (fun x => x <> e)) (buckets h)).

(** Moving the old elements, bucket by bucket and front to back. *)
Definition move_elem (h : hash_table) (e : E) : hash_table :=
  mk_hash (elem_cnt h) (bucket_cnt h) (push_bucket (buckets h) (bucket_idx h e) e).
Definition rehash (malloc_ok : bool) (h : hash_table) : res hash_table :=
  new_bucket_cnt ← ideal_bucket_cnt (elem_cnt h);
  if new_bucket_cnt =? bucket_cnt h then mret h
  else if negb malloc_ok then mret h
  else
    let h1 := mk_hash (elem_cnt h) new_bucket_cnt (replicate (Z.to_nat new_bucket_cnt) []) in
    mret (foldl move_elem h1 (mjoin (buckets h))).

Definition hash_insert (malloc_ok : bool) (h : hash_table) (new : E) : res (option E * hash_table) :=
  bucket ← get_bucket h (bucket_idx h new);
  let old := find_elem bucket new in
  let h1 := match old with None => insert_elem h (bucket_idx h new) new | Some _ => h end in
  h2 ← rehash malloc_ok h1; mret (old, h2).
Definition hash_replace (malloc_ok : bool) (h : hash_table) (new : E) : res (option E * hash_table) :=
  bucket ← get_bucket h (bucket_idx h new);
  let old := find_elem bucket new in
  let h1 := match old with None => h | Some o => remove_elem h o end in
  h2 ← rehash malloc_ok (insert_elem h1 (bucket_idx h new) new); mret (old, h2).
Definition hash_find (h : hash_table) (e : E) : res (option E) :=
  bucket ← get_bucket h (bucket_idx h e); mret (find_elem bucket e).
Definition hash_delete (malloc_ok : bool) (h : hash_table) (e : E) : res (option E * hash_table) :=
  bucket ← get_bucket h (bucket_idx h e);
  match find_elem bucket e with
  | Some found => h2 ← rehash malloc_ok (remove_elem h found); mret (Some found, h2)
  | None => mret (None, h)
  end.

Definition hash_size (h : hash_table) : Z := elem_cnt h.
Definition hash_empty (h : hash_table) : bool := elem_cnt h =? 0.

(** [hash_apply] calls the action on every element, bucket by bucket. *)
Definition hash_apply {S} (action : S -> E -> S) (h : hash_table) (s : S) : S :=
  foldl (fun s bucket => foldl action s bucket) s (buckets h).

(** An iterator: the bucket it is in and the elements of it still ahead. *)
Record hash_iterator := mk_iter { i_bucket : nat; i_rest : list E; i_elem : option E }.
Definition hash_first (h : hash_table) : hash_iterator :=
  mk_iter 0 (default [] (buckets h !! 0%nat)) None.
Fixpoint next_bucket (bs : list (list E)) (k : nat) : hash_iterator :=
  match bs with
  | [] => mk_iter k [] None
  | [] :: bs' => next_bucket bs' (S k)
  | (x :: rest) :: _ => mk_iter k rest (Some x)
  end.
Definition hash_next (h : hash_table) (i : hash_iterator) : hash_iterator :=
  match i_rest i with
  | x :: rest => mk_iter (i_bucket i) rest (Some x)
  | [] => next_bucket (drop (S (i_bucket i)) (buckets h)) (S (i_bucket i))
  end.
Definition hash_cur (i : hash_iterator) : option E := i_elem i.
End Table.
Arguments mk_hash {E} _ _ _.
Arguments elem_cnt {E} _.
Arguments bucket_cnt {E} _.
Arguments buckets {E} _.

(** ** Rounding to a power of two *)

Lemma u32_pred n : 0 < n < 2 ^ 32 -> u32 (n - 1) = n - 1.
Proof. intros. apply u32_small. lia. Qed.

Lemma turn_off_low n i :
  0 < n < 2 ^ 32 -> 0 <= i -> (2 ^ i | n) -> (2 ^ (i + 1) | turn_off_least_1bit n).
Proof.
  intros Hn Hi [q ->]. unfold turn_off_least_1bit. rewrite u32_pred by done.
  assert (0 < 2 ^ i) by (apply Z.pow_pos_nonneg; lia).
  apply Z.mod_divide; [pose proof (Z.pow_pos_nonneg 2 (i + 1)); lia|].
  apply Z.bits_inj'. intros j Hj. rewrite Z.bits_0.
  destruct (decide (j < i + 1)); [|by rewrite Z.mod_pow2_bits_high by lia].
  rewrite Z.mod_pow2_bits_low, Z.land_spec by lia.
  destruct (decide (j < i)); [by rewrite Z.mul_pow2_bits_low by lia|].
  replace j with (0 + i) by lia. rewrite <- !Z.shiftr_spec, !Z.shiftr_div_pow2 by lia.
  replace (q * 2 ^ i - 1) with ((2 ^ i - 1) + (q - 1) * 2 ^ i) by lia.
  rewrite Z.div_mul, Z.div_add, Z.div_small, Z.add_0_l by lia.
  rewrite !Z.bit0_odd, Z.odd_sub. by destruct (Z.odd q).
Qed.

Lemma turn_off_log2 n :
  0 < n < 2 ^ 32 -> n <> 2 ^ Z.log2 n ->
  2 ^ Z.log2 n <= turn_off_least_1bit n < n /\ Z.log2 (turn_off_least_1bit n) = Z.log2 n.
Proof.
  intros Hn Hne. unfold turn_off_least_1bit. rewrite u32_pred by done.
  pose proof (Z.log2_spec n) as Hl. assert (0 <= Z.log2 n) by apply Z.log2_nonneg.
  assert (Z.log2 (n - 1) = Z.log2 n) as Hl1 by (apply Z.log2_unique; lia).
  assert (0 < 2 ^ Z.log2 n) by (apply Z.pow_pos_nonneg; lia).
  assert (Z.testbit (Z.land n (n - 1)) (Z.log2 n) = true) as Hb.
  { rewrite Z.land_spec, Z.bit_log2 by lia. rewrite <- Hl1. apply Z.bit_log2. lia. }
  assert (0 <= Z.land n (n - 1)) by (apply Z.land_nonneg; lia).
  assert (2 ^ Z.log2 n <= Z.land n (n - 1)).
  { destruct (decide (2 ^ Z.log2 n <= Z.land n (n - 1))); [done|].
    rewrite (testbit_high _ (Z.log2 n)) in Hb by lia. done. }
  assert (Z.land n (n - 1) <= n - 1).
  { rewrite <- (Z.lor_ldiff_and (n - 1) n) at 2. rewrite (Z.land_comm n).
    apply Z.ldiff_le; [apply Z.lor_nonneg; split; [apply Z.ldiff_nonneg; lia|by rewrite Z.land_comm]|].
    apply Z.bits_inj'. intros i Hi. rewrite Z.ldiff_spec, Z.lor_spec, Z.bits_0.
    destruct (Z.testbit (Z.land (n - 1) n) i); [by rewrite orb_true_r|done]. }
  split; [lia|]. apply Z.log2_unique; lia.
Qed.

Lemma is_power_of_2_log2 n : 0 < n < 2 ^ 32 -> is_power_of_2 n = bool_decide (n = 2 ^ Z.log2 n).
Proof.
  intros Hn. unfold is_power_of_2. rewrite (proj2 (Z.eqb_neq n 0)) by lia. simpl.
  case_bool_decide as E.
  - apply Z.eqb_eq. unfold turn_off_least_1bit. rewrite u32_pred by done. rewrite E at 1 2.
    rewrite Z.sub_1_r, <- Z.ones_equiv, Z.land_ones by apply Z.log2_nonneg.
    apply Z.mod_same. lia.
  - apply Z.eqb_neq. destruct (turn_off_log2 n) as [H _]; [done..|].
    pose proof (Z.pow_pos_nonneg 2 (Z.log2 n) ltac:(lia) (Z.log2_nonneg n)). lia.
Qed.

(** The loop clears low bits until the highest one is left. *)
Lemma round_to_power_of_2_ok fuel n i :
  0 < n < 2 ^ 32 -> 0 <= i -> (2 ^ i | n) -> 33 <= i + Z.of_nat fuel ->
  round_to_power_of_2 fuel n = Ok (2 ^ Z.log2 n).
Proof.
  revert n i. induction fuel as [|fuel IH]; intros n i Hn Hi Hd Hf.
  - exfalso. assert (2 ^ 33 <= 2 ^ i) by (apply Z.pow_le_mono_r; lia).
    apply Z.divide_pos_le in Hd; lia.
  - simpl. rewrite is_power_of_2_log2 by done. case_bool_decide as E; simpl; [by rewrite E at 1|].
    destruct (turn_off_log2 n) as [H1 H2]; [done..|].
    pose proof (Z.pow_pos_nonneg 2 (Z.log2 n) ltac:(lia) (Z.log2_nonneg n)).
    rewrite <- H2. apply (IH _ (i + 1)); [lia|lia|by apply turn_off_low|lia].
Qed.

Lemma ideal_bucket_cnt_ok n :
  0 <= n < 2 ^ 32 -> exists k, 2 <= k < 32 /\ ideal_bucket_cnt n = Ok (2 ^ k) /\
    2 ^ k <= Z.max 4 (n / 2) < 2 * 2 ^ k.
Proof.
  intros Hn. unfold ideal_bucket_cnt, BEST_ELEMS_PER_BUCKET.
  set (m := if n / 2 <? 4 then 4 else n / 2).
  assert (m = Z.max 4 (n / 2)) as Em by (unfold m; case_match; bool_to_prop; lia).
  assert (n / 2 < 2 ^ 31) by (apply Z.div_lt_upper_bound; lia).
  exists (Z.log2 m). pose proof (Z.log2_spec m ltac:(lia)) as Hl.
  assert (2 <= Z.log2 m) by (apply (Z.log2_le_mono 4 m); lia).
  assert (Z.log2 m < 32) by (apply Z.log2_lt_pow2; lia).
  rewrite (round_to_power_of_2_ok 33 m 0); [|lia|lia|apply Z.divide_1_l|simpl; lia].
  rewrite <- Em. rewrite Z.pow_succ_r in Hl by lia. auto.
Qed.

(** ** Tables *)

Section TableSpec.
Context {E : Type} `{EqDecision E}.
Variable hash : E -> Z.
Variable less : E -> E -> bool.
Hypothesis hash_range : forall e, 0 <= hash e < 2 ^ 32.
(** Neither less than the other is an equivalence, and the hash respects it. *)
Hypothesis equal_refl : forall x, equal less x x = true.
Hypothesis equal_trans : forall x y z, equal less x y = true -> equal less y z = true -> equal less x z = true.
Hypothesis equal_hash : forall x y, equal less x y = true -> hash x = hash y.

Notation table := (@hash_table E).
Definition elems (h : table) : list E := mjoin (buckets h).

(** The buckets form a power of two and every element is in its own bucket. *)
Record placed (h : table) : Prop := {
  pl_pow : exists k, 2 <= k < 32 /\ bucket_cnt h = 2 ^ k;
  pl_len : Z.of_nat (length (buckets h)) = bucket_cnt h;
  pl_idx : forall i b x, buckets h !! i = Some b -> x ∈ b -> Z.of_nat i = bucket_idx hash h x;
}.
Record table_ok (h : table) : Prop := {
  ok_placed : placed h;
  ok_cnt : elem_cnt h = Z.of_nat (length (elems h));
  ok_small : elem_cnt h < 2 ^ 32;
  ok_nodup : NoDup (elems h);
  ok_distinct : forall x y, x ∈ elems h -> y ∈ elems h -> equal less x y = true -> x = y;
}.

Lemma equal_sym x y : equal less x y = equal less y x.
Proof. unfold equal. apply andb_comm. Qed.

Lemma bucket_idx_mod h e : placed h -> bucket_idx hash h e = hash e mod bucket_cnt h.
Proof.
  intros [(k & Hk & Ek) _ _]. unfold bucket_idx. rewrite Ek.
  assert (2 ^ 2 <= 2 ^ k < 2 ^ 32) by (split; [apply Z.pow_le_mono_r|apply Z.pow_lt_mono_r]; lia).
  rewrite u32_small, Z.sub_1_r, <- Z.ones_equiv, Z.land_ones by lia. done.
Qed.

Lemma get_bucket_ok h e :
  placed h -> exists b, buckets h !! Z.to_nat (bucket_idx hash h e) = Some b /\
    get_bucket h (bucket_idx hash h e) = Ok b /\ 0 <= bucket_idx hash h e < bucket_cnt h.
Proof.
  intros Hp. pose proof (bucket_idx_mod h e Hp) as Ei. destruct Hp as [(k & Hk & Ek) Hl _].
  assert (0 < bucket_cnt h) by (rewrite Ek; apply Z.pow_pos_nonneg; lia).
  pose proof (Z.mod_pos_bound (hash e) (bucket_cnt h)).
  destruct (lookup_lt_is_Some_2 (buckets h) (Z.to_nat (bucket_idx hash h e))) as [b Eb]; [lia|].
  exists b. unfold get_bucket. rewrite Eb. split_and!; [done|done|lia|lia].
Qed.

Lemma elem_of_elems h x : x ∈ elems h <-> exists i b, buckets h !! i = Some b /\ x ∈ b.
Proof.
  unfold elems. rewrite list_elem_of_join. split.
  - intros (b & Hx & Hb). apply list_elem_of_lookup in Hb as [i Hi]. eauto.
  - intros (i & b & Hi & Hx). exists b. split; [done|]. by eapply list_elem_of_lookup_2.
Qed.

Lemma bucket_of h x b :
  placed h -> buckets h !! Z.to_nat (bucket_idx hash h x) = Some b -> x ∈ elems h -> x ∈ b.
Proof.
  intros Hp Hb (i & b' & Hi & Hx)%elem_of_elems.
  pose proof (pl_idx _ Hp _ _ _ Hi Hx) as E1. rewrite <- E1, Nat2Z.id in Hb. congruence.
Qed.

Lemma equal_bucket h x y : placed h -> equal less x y = true -> bucket_idx hash h x = bucket_idx hash h y.
Proof. intros Hp Heq. unfold bucket_idx. by rewrite (equal_hash _ _ Heq). Qed.

Lemma find_elem_spec b e :
  match find_elem less b e with
  | Some x => x ∈ b /\ equal less x e = true
  | None => forall x, x ∈ b -> equal less x e = false
  end.
Proof.
  induction b as [|y b IH]; simpl; [by intros x ?%not_elem_of_nil|].
  destruct (equal less y e) eqn:Ee; [split; [left|done]|].
  destruct (find_elem less b e) as [x|].
  - destruct IH. split; [by right|done].
  - intros x [->|?]%elem_of_cons; auto.
Qed.

(** What looking [e] up gives, as a property of the set of elements. *)
Definition finds (xs : list E) (e : E) (r : option E) : Prop :=
  match r with
  | Some x => x ∈ xs /\ equal less x e = true
  | None => forall x, x ∈ xs -> equal less x e = false
  end.

Lemma find_in_bucket h e b :
  placed h -> buckets h !! Z.to_nat (bucket_idx hash h e) = Some b ->
  finds (elems h) e (find_elem less b e).
Proof.
  intros Hp Hb. pose proof (find_elem_spec b e) as Hf. destruct (find_elem less b e) as [x|]; simpl.
  - destruct Hf as [Hx Heq]. split; [|done]. apply elem_of_elems. eauto.
  - intros x Hx. destruct (equal less x e) eqn:Heq; [|done]. rewrite <- Heq. apply Hf.
    eapply bucket_of; [done| |exact Hx]. by rewrite (equal_bucket h x e).
Qed.

Lemma join_alter (bs : list (list E)) i e :
  (i < length bs)%nat -> mjoin (alter (fun b => e :: b) i bs) ≡ₚ e :: mjoin bs.
Proof.
  revert i. induction bs as [|b bs IH]; intros i Hi; simpl in *; [lia|].
  destruct i; simpl; [done|]. etransitivity; [apply Permutation_app_head, (IH i); lia|].
  symmetry. apply Permutation_middle.
Qed.

Lemma push_bucket_placed h n e :
  placed h ->
  let h' := mk_hash n (bucket_cnt h) (push_bucket (buckets h) (bucket_idx hash h e) e) in
  placed h' /\ elems h' ≡ₚ e :: elems h.
Proof.
  intros Hp h'. destruct (get_bucket_ok h e Hp) as (b & Hb & _ & Hr).
  pose proof Hp as [Hpow Hl Hi]. split.
  - constructor; simpl; [done|by unfold push_bucket; rewrite length_alter|].
    intros i b' x Hx Hin. unfold push_bucket in Hx. change (bucket_idx hash h' x) with (bucket_idx hash h x).
    destruct (decide (i = Z.to_nat (bucket_idx hash h e))) as [->|].
    + rewrite list_lookup_alter_eq, Hb in Hx. simpl in Hx. simplify_eq.
      apply elem_of_cons in Hin as [->|Hin]; [rewrite Z2Nat.id by lia; done|]. by eapply Hi.
    + rewrite list_lookup_alter_ne in Hx by done. by eapply Hi.
  - unfold elems, h', push_bucket. simpl. apply join_alter. by eapply lookup_lt_Some.
Qed.

Lemma move_all_placed h es :
  placed h -> placed (foldl (move_elem hash) h es) /\
    elems (foldl (move_elem hash) h es) ≡ₚ es ++ elems h /\
    elem_cnt (foldl (move_elem hash) h es) = elem_cnt h.
Proof.
  revert h. induction es as [|e es IH]; intros h Hp; simpl; [done|].
  destruct (push_bucket_placed h (elem_cnt h) e Hp) as [Hp' He].
  destruct (IH _ Hp') as (? & IH2 & ?). split_and!; [done| |done].
  rewrite IH2, He. by rewrite Permutation_middle.
Qed.

(** The invariant depends on the elements only up to reordering. *)
Lemma table_ok_perm h h' :
  table_ok h -> placed h' -> elems h' ≡ₚ elems h -> elem_cnt h' = elem_cnt h -> table_ok h'.
Proof.
  intros [_ Hc Hs Hn Hd] Hp' HP Hcnt. constructor; [done|by rewrite HP, Hcnt|by rewrite Hcnt|by rewrite HP|].
  intros x y. rewrite HP. apply Hd.
Qed.

Lemma rehash_ok malloc_ok h :
  table_ok h -> exists h', rehash hash malloc_ok h = Ok h' /\ table_ok h' /\ elems h' ≡ₚ elems h.
Proof.
  intros Hok. pose proof Hok as [Hp Hc Hs _ _]. unfold rehash.
  destruct (ideal_bucket_cnt_ok (elem_cnt h)) as (k & Hk & -> & _); [lia|]. simpl.
  destruct (2 ^ k =? bucket_cnt h); [by exists h|]. destruct malloc_ok; simpl; [|by exists h].
  set (h1 := mk_hash (elem_cnt h) (2 ^ k) (replicate (Z.to_nat (2 ^ k)) [])).
  assert (0 < 2 ^ k) by (apply Z.pow_pos_nonneg; lia).
  assert (placed h1) as Hp1.
  { constructor; simpl; [by exists k|rewrite length_replicate; lia|].
    intros i b x Hb Hx. apply lookup_replicate in Hb as [-> _]. by apply not_elem_of_nil in Hx. }
  assert (elems h1 = []) as E1.
  { unfold elems, h1. simpl. generalize (Z.to_nat (2 ^ k)). intros n. by induction n. }
  destruct (move_all_placed h1 (mjoin (buckets h)) Hp1) as (Hp' & He & Hcnt).
  rewrite E1, app_nil_r in He. eexists. split; [done|].
  split; [by eapply table_ok_perm|done].
Qed.

Lemma insert_elem_ok h e :
  table_ok h -> elem_cnt h + 1 < 2 ^ 32 -> (forall x, x ∈ elems h -> equal less x e = false) ->
  table_ok (insert_elem h (bucket_idx hash h e) e) /\
  elems (insert_elem h (bucket_idx hash h e) e) ≡ₚ e :: elems h.
Proof.
  intros [Hp Hc Hs Hn Hd] Hlt Hne.
  destruct (push_bucket_placed h (u32 (elem_cnt h + 1)) e Hp) as [Hp' He].
  split; [|done]. constructor; [done|..].
  - rewrite He. simpl. rewrite u32_small by lia. lia.
  - simpl. rewrite u32_small by lia. done.
  - rewrite He. apply NoDup_cons. split; [|done]. intros Hin. specialize (Hne e Hin). by rewrite equal_refl in Hne.
  - intros x y. rewrite He, !elem_of_cons. intros [->|Hx] [->|Hy] Heq; [done| | |by apply Hd].
    + rewrite equal_sym, Hne in Heq; done.
    + rewrite Hne in Heq; done.
Qed.

Lemma remove_elem_ok h x :
  table_ok h -> x ∈ elems h ->
  table_ok (remove_elem h x) /\ x :: elems (remove_elem h x) ≡ₚ elems h.
Proof.
  intros [Hp Hc Hs Hn Hd] Hx.
  assert (elems (remove_elem h x) = filter (fun y => y <> x) (elems h)) as He by apply join_filter.
  pose proof (filter_ne_perm x _ Hn Hx) as HP. split; [|by rewrite He, <- HP].
  pose proof (Permutation_length HP) as Hlen. simpl in Hlen. constructor.
  - destruct Hp as [Hpow Hl Hi]. constructor; simpl; [done|by rewrite length_map|].
    intros i b y Hb Hy. rewrite list_lookup_fmap in Hb.
    destruct (buckets h !! i) as [b0|] eqn:Eb; simpl in Hb; [|done]. simplify_eq.
    apply list_elem_of_filter in Hy as [_ Hy]. by eapply Hi.
  - rewrite He. simpl. rewrite u32_small by lia. lia.
  - simpl. apply u32_range.
  - rewrite He. by apply NoDup_filter.
  - intros y z. rewrite He, !list_elem_of_filter. intros [_ Hy] [_ Hz]. by apply Hd.
Qed.

(** The table operations and what they promise of the set of elements. *)
Inductive hash_op := Insert (e : E) | Replace (e : E) | Find (e : E) | Delete (e : E).

Definition exec_hash (malloc_ok : bool) (op : hash_op) (h : table) : res (option E * table) :=
  match op with
  | Insert e => hash_insert hash less malloc_ok h e
  | Replace e => hash_replace hash less malloc_ok h e
  | Find e => r ← hash_find hash less h e; mret (r, h)
  | Delete e => hash_delete hash less malloc_ok h e
  end.

Definition hash_spec (op : hash_op) (xs : list E) (r : option E) (ys : list E) : Prop :=
  match op with
  | Insert e => finds xs e r /\ match r with Some _ => ys ≡ₚ xs | None => ys ≡ₚ e :: xs end
  | Replace e => finds xs e r /\ match r with Some o => o :: ys ≡ₚ e :: xs | None => ys ≡ₚ e :: xs end
  | Find e => finds xs e r /\ ys ≡ₚ xs
  | Delete e => finds xs e r /\ match r with Some o => o :: ys ≡ₚ xs | None => ys ≡ₚ xs end
  end.

Lemma exec_insert_ok malloc_ok h e :
  table_ok h -> elem_cnt h + 1 < 2 ^ 32 -> exists r h', exec_hash malloc_ok (Insert e) h = Ok (r, h') /\
    table_ok h' /\ hash_spec (Insert e) (elems h) r (elems h').
Proof.
  intros Hok Hlt. pose proof (ok_placed _ Hok) as Hp. simpl. unfold hash_insert.
  destruct (get_bucket_ok h e Hp) as (b & Hb & -> & _). simpl.
  pose proof (find_in_bucket h e b Hp Hb) as Hf. destruct (find_elem less b e) as [o|].
  - destruct (rehash_ok malloc_ok h Hok) as (h' & -> & Hok' & HP). eauto 10.
  - destruct (insert_elem_ok h e) as [Hok1 HP1]; [done..|].
    destruct (rehash_ok malloc_ok _ Hok1) as (h' & -> & Hok' & HP). rewrite HP1 in HP. simpl. eauto 10.
Qed.

Lemma exec_replace_ok malloc_ok h e :
  table_ok h -> elem_cnt h + 1 < 2 ^ 32 -> exists r h', exec_hash malloc_ok (Replace e) h = Ok (r, h') /\
    table_ok h' /\ hash_spec (Replace e) (elems h) r (elems h').
Proof.
  intros Hok Hlt. pose proof (ok_placed _ Hok) as Hp. simpl. unfold hash_replace.
  destruct (get_bucket_ok h e Hp) as (b & Hb & -> & _). simpl.
  pose proof (find_in_bucket h e b Hp Hb) as Hf. destruct (find_elem less b e) as [o|].
  - destruct Hf as [Ho Heq]. destruct (remove_elem_ok h o) as [Hok0 HP0]; [done..|].
    assert (elem_cnt (remove_elem h o) + 1 < 2 ^ 32).
    { rewrite (ok_cnt _ Hok0). pose proof (Permutation_length HP0). simpl in *.
      pose proof (ok_cnt _ Hok). lia. }
    destruct (insert_elem_ok (remove_elem h o) e) as [Hok1 HP1]; [done|done| |].
    { intros x Hx. destruct (equal less x e) eqn:Ex; [|done]. exfalso.
      assert (x ∈ elems h) by (rewrite <- HP0; by right).
      assert (x = o) as ->.
      { eapply (ok_distinct _ Hok); [done|done|]. eapply equal_trans; [exact Ex|].
        by rewrite equal_sym. }
      pose proof (ok_nodup _ Hok) as Hn. rewrite <- HP0 in Hn. by apply NoDup_cons in Hn as [? _]. }
    change (bucket_idx hash (remove_elem h o) e) with (bucket_idx hash h e) in *.
    destruct (rehash_ok malloc_ok _ Hok1) as (h' & -> & Hok' & HP). rewrite HP1 in HP. simpl.
    exists (Some o), h'. split_and!; [done..|]. rewrite HP, <- HP0. apply Permutation_swap.
  - destruct (insert_elem_ok h e) as [Hok1 HP1]; [done..|].
    destruct (rehash_ok malloc_ok _ Hok1) as (h' & -> & Hok' & HP). rewrite HP1 in HP. simpl. eauto 10.
Qed.

Lemma exec_delete_ok malloc_ok h e :
  table_ok h -> exists r h', exec_hash malloc_ok (Delete e) h = Ok (r, h') /\
    table_ok h' /\ hash_spec (Delete e) (elems h) r (elems h').
Proof.
  intros Hok. pose proof (ok_placed _ Hok) as Hp. simpl. unfold hash_delete.
  destruct (get_bucket_ok h e Hp) as (b & Hb & -> & _). simpl.
  pose proof (find_in_bucket h e b Hp Hb) as Hf. destruct (find_elem less b e) as [o|]; [|by eauto 10].
  destruct (remove_elem_ok h o) as [Hok0 HP0]; [done|apply Hf|].
  destruct (rehash_ok malloc_ok _ Hok0) as (h' & -> & Hok' & HP). simpl.
  exists (Some o), h'. split_and!; [done|done|done|by rewrite HP].
Qed.

Lemma hash_apply_elems {S} (action : S -> E -> S) h s :
  hash_apply action h s = foldl action s (elems h).
Proof.
  unfold hash_apply, elems. generalize (buckets h). intros bs. revert s.
  induction bs as [|b bs IH]; intros s; simpl; [done|]. by rewrite IH, foldl_app.
Qed.

(** The elements an iterator has still to return. *)
Definition ahead (h : table) (i : hash_iterator) : list E :=
  i_rest i ++ mjoin (drop (Datatypes.S (i_bucket i)) (buckets h)).

Lemma next_bucket_spec bs k h :
  drop k (buckets h) = bs ->
  match mjoin bs with
  | [] => i_elem (next_bucket bs k) = None
  | x :: rest => i_elem (next_bucket bs k) = Some x /\ ahead h (next_bucket bs k) = rest
  end.
Proof.
  revert k. induction bs as [|b bs IH]; intros k Hk; simpl; [done|].
  assert (drop (Datatypes.S k) (buckets h) = bs) as Hk'.
  { rewrite <- Nat.add_1_r, <- drop_drop, Hk. done. }
  destruct b as [|x b]; simpl; [by apply IH|]. split; [done|]. unfold ahead. simpl. by rewrite Hk'.
Qed.

(** [hash_next] hands out the elements one by one, each exactly once. *)
Lemma hash_next_spec h i :
  match ahead h i with
  | [] => hash_cur (hash_next h i) = None
  | x :: rest => hash_cur (hash_next h i) = Some x /\ ahead h (hash_next h i) = rest
  end.
Proof.
  unfold ahead, hash_next, hash_cur. destruct (i_rest i) as [|x rest]; simpl; [|done].
  by apply next_bucket_spec.
Qed.

Lemma hash_first_ahead h : ahead h (hash_first h) = elems h.
Proof.
  unfold ahead, hash_first, elems. simpl. destruct (buckets h) as [|b bs]; simpl; by rewrite ?drop_0.
Qed.

(** ** Theorems *)

(** C26: Every table operation refines a set of elements: from a well-formed
    table it terminates without a wild access, whether or not [rehash] gets
    memory, and returns and leaves what the set operation does; the table stays
    well-formed (bucket count a power of two, each element in its bucket, no two
    equal elements, [elem_cnt] exact). *)
Theorem hash_ops_refine malloc_ok h op :
  table_ok h -> elem_cnt h + 1 < 2 ^ 32 ->
  exists r h', exec_hash malloc_ok op h = Ok (r, h') /\ table_ok h' /\
    hash_spec op (elems h) r (elems h').
Proof.
  intros Hok Hlt. destruct op as [e|e|e|e];
    [by apply exec_insert_ok|by apply exec_replace_ok| |by apply exec_delete_ok].
  pose proof (ok_placed _ Hok) as Hp. simpl. unfold hash_find.
  destruct (get_bucket_ok h e Hp) as (b & Hb & -> & _). simpl.
  eexists _, h. split; [done|]. split; [done|]. split; [by apply find_in_bucket|done].
Qed.
End TableSpec.

(** A table of two integers, hashed by their low bits. *)
Definition demo_table : @hash_table Z := mk_hash 2 4 [[]; [5; 1]; []; []].

Lemma demo_table_ok : table_ok (fun x => u32 x) Z.ltb demo_table.
Proof.
  constructor; [constructor| | | |].
  - exists 2. simpl. lia.
  - reflexivity.
  - intros i b x Hi Hx. destruct i as [|[|[|[|i]]]]; simpl in Hi; simplify_eq.
    + by apply not_elem_of_nil in Hx.
    + apply elem_of_cons in Hx as [->|[->|Hx%not_elem_of_nil]%elem_of_cons]; [reflexivity|reflexivity|done].
    + by apply not_elem_of_nil in Hx.
    + by apply not_elem_of_nil in Hx.
  - reflexivity.
  - simpl. lia.
  - apply (bool_decide_unpack _). vm_compute. exact I.
  - intros x y _ _. unfold equal. lia.
Qed.

Lemma hash_ops_refine_witness :
  exists r h', exec_hash (fun x => u32 x) Z.ltb true (Insert 9) demo_table = Ok (r, h') /\
    elem_cnt h' = 3.
Proof.
  destruct (hash_ops_refine (fun x => u32 x) Z.ltb) with
    (malloc_ok := true) (h := demo_table) (op := Insert 9) as (r & h' & Hr & _).
  - intros x. unfold equal. lia.
  - intros x y z. unfold equal. lia.
  - intros x y. unfold equal. intros H. f_equal. lia.
  - exact demo_table_ok.
  - simpl. lia.
  - exists r, h'. split; [exact Hr|]. vm_compute in Hr. injection Hr as <- <-. reflexivity.
Defined.
