(* ===== verification/Block.v ===== *)
(** * Block devices: [devices/block.h], [devices/block.c]

    A block device is an array of 512-byte sectors behind a driver.  The driver
    is an interface, [BlockOperations] ([struct block_operations]), and what the
    clients of a device rely on are the laws [BlockLaws]: a read gives the bytes
    last written to the sector.  Two instances follow: a disk that is an array
    of sectors, and, in Partition, a partition of another device. *)

From S2P Require Import Prelude.

Definition BLOCK_SECTOR_SIZE : Z := 512.

Inductive block_type := BLOCK_KERNEL | BLOCK_FILESYS | BLOCK_SCRATCH | BLOCK_SWAP
  | BLOCK_RAW | BLOCK_FOREIGN.
#[global] Instance block_type_eq_dec : EqDecision block_type.
Proof. solve_decision. Defined.

(** Roles are the types before [BLOCK_ROLE_CNT]. *)
Definition is_role (t : block_type) : bool :=
  match t with BLOCK_RAW | BLOCK_FOREIGN => false | _ => true end.

Definition block_type_name (t : block_type) : string :=
  match t with
  | BLOCK_KERNEL => "kernel" | BLOCK_FILESYS => "filesys" | BLOCK_SCRATCH => "scratch"
  | BLOCK_SWAP => "swap" | BLOCK_RAW => "raw" | BLOCK_FOREIGN => "foreign"
  end.

(** Driver operations on the data [aux] the driver keeps, of type [D]. *)
Class BlockOperations (D : Type) := {
  ops_read : Z -> M D (list Z);
  ops_write : Z -> list Z -> M D unit;
}.

(** [b_name] is the array [name] up to its null byte. *)
Record block (D : Type) := mk_block {
  b_name : string;
  b_type : block_type;
  b_size : Z;
  b_aux : D;
  read_cnt : Z;
  write_cnt : Z;
}.
Arguments mk_block {D} _ _ _ _ _ _.
Arguments b_name {D} _. Arguments b_type {D} _. Arguments b_size {D} _.
Arguments b_aux {D} _. Arguments read_cnt {D} _. Arguments write_cnt {D} _.

Section Operations.
Context {D : Type} `{BlockOperations D}.

Definition check_sector (b : block D) (sector : Z) : res unit :=
  if b_size b <=? sector then Err (Panicked "Access past end of device") else mret tt.

Definition block_read (sector : Z) : M (block D) (list Z) :=
  b ← get;
  _ ← lift (check_sector b sector);
  r ← lift (ops_read sector (b_aux b));
  _ ← put (mk_block (b_name b) (b_type b) (b_size b) r.2 (u64 (read_cnt b + 1)) (write_cnt b));
  mret r.1.

Definition block_write (sector : Z) (buffer : list Z) : M (block D) unit :=
  b ← get;
  _ ← lift (check_sector b sector);
  _ ← assert (negb (bool_decide (b_type b = BLOCK_FOREIGN)));
  r ← lift (ops_write sector buffer (b_aux b));
  put (mk_block (b_name b) (b_type b) (b_size b) r.2 (read_cnt b) (u64 (write_cnt b + 1))).

Definition block_size (b : block D) : Z := b_size b.
Definition block_name (b : block D) : string := b_name b.
End Operations.

(** The registry: the devices in probe order, and for each role the position
    of its device in that order.  A device is named by its position. *)
Record registry (D : Type) := mk_registry {
  all_blocks : list (block D);
  block_by_role : block_type -> option nat;
}.
Arguments mk_registry {D} _ _. Arguments all_blocks {D} _. Arguments block_by_role {D} _.

Section Registry.
Context {D : Type}.

Definition block_get_role (role : block_type) (r : registry D) : res (option nat) :=
  _ ← ASSERT (is_role role); mret (block_by_role r role).
Definition block_set_role (role : block_type) (b : option nat) (r : registry D) : res (registry D) :=
  _ ← ASSERT (is_role role);
  mret (mk_registry (all_blocks r)
          (fun t => if bool_decide (t = role) then b else block_by_role r t)).

Definition list_elem_to_block (r : registry D) (i : nat) : option nat :=
  if decide (i < length (all_blocks r))%nat then Some i else None.
Definition block_first (r : registry D) : option nat := list_elem_to_block r 0.
Definition block_next (r : registry D) (i : nat) : option nat := list_elem_to_block r (S i).

Fixpoint get_by_name_loop (l : list (block D)) (i : nat) (nm : string) : option nat :=
  match l with
  | [] => None
  | b :: rest => if bool_decide (nm = b_name b) then Some i else get_by_name_loop rest (S i) nm
  end.
Definition block_get_by_name (nm : string) (r : registry D) : option nat :=
  get_by_name_loop (all_blocks r) 0 nm.

(** [strlcpy] into the 16 bytes of [name]. *)
Definition block_register (mem : bool) (nm : string) (type : block_type) (size : Z) (aux : D)
    (r : registry D) : res (nat * registry D) :=
  if mem then
    mret (length (all_blocks r),
          mk_registry (all_blocks r ++ [mk_block (String.substring 0 15 nm) type size aux 0 0])
            (block_by_role r))
  else Err (Panicked "Failed to allocate memory for block device descriptor").
End Registry.

(** ** What a driver promises *)

Class BlockLaws (D : Type) `{BlockOperations D} := {
  dev_ok : D -> Prop;
  dev_size : D -> Z;
  content : D -> Z -> list Z;
  content_length d s : dev_ok d -> 0 <= s < dev_size d -> length (content d s) = 512%nat;
  read_law d s : dev_ok d -> 0 <= s < dev_size d ->
    exists d', ops_read s d = Ok (content d s, d') /\ dev_ok d' /\ dev_size d' = dev_size d /\
      forall s', content d' s' = content d s';
  write_law d s bs : dev_ok d -> 0 <= s < dev_size d -> length bs = 512%nat ->
    exists d', ops_write s bs d = Ok (tt, d') /\ dev_ok d' /\ dev_size d' = dev_size d /\
      content d' s = bs /\ forall s', s' <> s -> content d' s' = content d s';
}.

(** A disk that is an array of sectors. *)
Notation ram_disk := (list (list Z)).
#[global] Instance ram_operations : BlockOperations ram_disk := {
  ops_read s := fun d =>
    match d !! Z.to_nat s with Some bs => Ok (bs, d) | None => Err Trap end;
  ops_write s bs := fun d => Ok (tt, <[Z.to_nat s := bs]> d);
}.
#[global] Instance ram_laws : BlockLaws ram_disk.
Proof.
  refine {| dev_ok d := Forall (fun bs => length bs = 512%nat) d;
            dev_size d := Z.of_nat (length d);
            content d s := if decide (0 <= s) then default [] (d !! Z.to_nat s) else [] |}.
  - intros d s Hd Hs. rewrite decide_True by lia.
    destruct (lookup_lt_is_Some_2 d (Z.to_nat s)) as [bs E]; [lia|]. rewrite E.
    exact (Forall_lookup_1 _ _ _ _ Hd E).
  - intros d s Hd Hs. rewrite decide_True by lia.
    destruct (lookup_lt_is_Some_2 d (Z.to_nat s)) as [bs E]; [lia|].
    exists d. simpl. rewrite E. auto.
  - intros d s bs Hd Hs Hb. eexists; split; [reflexivity|]. split; [by apply Forall_insert|].
    rewrite length_insert. split; [done|]. rewrite decide_True by lia. split.
    + by rewrite list_lookup_insert_eq by lia.
    + intros s' Hne. case_decide; [|done]. by rewrite list_lookup_insert_ne by lia.
Defined.

(** ** Devices *)

Section Devices.
Context `{BlockLaws D}.

(** A device in working order: as large as its driver can serve, and not
    foreign, so that it may be written. *)
Definition block_ok (b : block D) : Prop :=
  dev_ok (b_aux b) /\ b_size b <= dev_size (b_aux b) /\ b_size b <= 2 ^ 32 /\
  b_type b <> BLOCK_FOREIGN.

(** The bytes of a sector. *)
Definition sector (b : block D) (s : Z) : list Z := content (b_aux b) s.

(** [b'] is [b] up to what reading changes. *)
Definition like (b b' : block D) : Prop :=
  block_ok b' /\ b_name b' = b_name b /\ b_type b' = b_type b /\ b_size b' = b_size b.

Lemma sector_length b s : block_ok b -> 0 <= s < b_size b -> length (sector b s) = 512%nat.
Proof. intros (Hd & Hs & _) Hr. apply content_length; [done|lia]. Qed.

Lemma block_read_ok b s :
  block_ok b -> 0 <= s < b_size b ->
  exists b', block_read s b = Ok (sector b s, b') /\ like b b' /\
    forall s', sector b' s' = sector b s'.
Proof.
  intros (Hd & Hsz & Hmax & Ht) Hs. destruct (read_law (b_aux b) s) as (d & E & Hd' & Hz & Hc); [done|lia|].
  eexists. unfold block_read. bind_by reflexivity.
  bind_by (unfold check_sector; rewrite (proj2 (Z.leb_gt _ _)) by lia; reflexivity).
  bind_by (rewrite E; reflexivity). bind_by reflexivity. split; [reflexivity|].
  split; [|exact Hc]. unfold like, block_ok. simpl. rewrite Hz. done.
Qed.

Lemma block_write_ok b s bs :
  block_ok b -> 0 <= s < b_size b -> length bs = 512%nat ->
  exists b', block_write s bs b = Ok (tt, b') /\ like b b' /\ sector b' s = bs /\
    forall s', s' <> s -> sector b' s' = sector b s'.
Proof.
  intros (Hd & Hsz & Hmax & Ht) Hs Hb.
  destruct (write_law (b_aux b) s bs) as (d & E & Hd' & Hz & Hc & Hc'); [done|lia|done|].
  eexists. unfold block_write. bind_by reflexivity.
  bind_by (unfold check_sector; rewrite (proj2 (Z.leb_gt _ _)) by lia; reflexivity).
  bind_by (by rewrite bool_decide_false). bind_by (rewrite E; reflexivity). split; [reflexivity|].
  unfold like, block_ok. simpl. rewrite Hz. done.
Qed.

(** Past its end a device stops the kernel instead of wrapping around. *)
Lemma block_past_end b s bs :
  b_size b <= s ->
  block_read s b = Err (Panicked "Access past end of device") /\
  block_write s bs b = Err (Panicked "Access past end of device").
Proof.
  intros Hs. unfold block_read, block_write, check_sector.
  assert ((b_size b <=? s) = true) as E by (by apply Z.leb_le).
  unfold mbind, M_bind, get, lift. by rewrite E.
Qed.

Lemma like_refl b : block_ok b -> like b b.
Proof. done. Qed.
Lemma like_trans b b1 b2 : like b b1 -> like b1 b2 -> like b b2.
Proof. intros (? & ? & ? & ?) (? & ? & ? & ?). unfold like. split; [done|]. split; [|split]; congruence. Qed.
Lemma like_ok b b' : like b b' -> block_ok b'.
Proof. by intros []. Qed.
End Devices.
