(* ===== verification/FsState.v ===== *)
(** * The state of the file system: [filesys/inode.c], [file.c], [directory.c]

    The objects the file system keeps in kernel memory and on its device, by
    address, and the statements that read and update them.

    Memory comes from [malloc].  An allocation answers the address [brk], never
    used before, or a null pointer if the next element of [fails] says so; with
    [fails] empty every allocation succeeds.  Using an object that was not
    allocated, or was freed, is a [Trap]. *)

From S2P Require Import Prelude Bitmap Block.

Definition INODE_MAGIC : Z := 0x494e4f44.
Definition FREE_MAP_SECTOR : Z := 0.
Definition ROOT_DIR_SECTOR : Z := 1.

(** The [unused] words of the on-disk inode are kept as bytes. *)
Record inode_disk := mk_inode_disk {
  d_start : Z;
  d_length : Z;
  d_magic : Z;
  d_unused : list Z;
}.

Record inode := mk_inode {
  i_sector : Z;
  open_cnt : Z;
  removed : bool;
  deny_write_cnt : Z;
  i_data : inode_disk;
}.

Record file := mk_file { f_inode : Z; f_pos : Z; f_deny_write : bool }.
Record dir := mk_dir { dir_inode : Z; dir_pos : Z }.

Record fs (D : Type) := mk_fs {
  fs_device : block D;
  free_map : bitmap;
  free_map_file : Z;
  inodes : gmap Z inode;
  open_inodes : list Z;
  files : gmap Z file;
  dirs : gmap Z dir;
  brk : Z;
  fails : list bool;
}.
Arguments mk_fs {D} _ _ _ _ _ _ _ _ _.
Arguments fs_device {D} _. Arguments free_map {D} _. Arguments free_map_file {D} _.
Arguments inodes {D} _. Arguments open_inodes {D} _. Arguments files {D} _.
Arguments dirs {D} _. Arguments brk {D} _. Arguments fails {D} _.

Section Fields.
Context {D : Type}.

Definition set_device b (s : fs D) : fs D := mk_fs b (free_map s) (free_map_file s) (inodes s) (open_inodes s)
  (files s) (dirs s) (brk s) (fails s).
Definition set_free_map m (s : fs D) : fs D := mk_fs (fs_device s) m (free_map_file s) (inodes s) (open_inodes s)
  (files s) (dirs s) (brk s) (fails s).
Definition set_free_map_file f (s : fs D) : fs D := mk_fs (fs_device s) (free_map s) f (inodes s) (open_inodes s)
  (files s) (dirs s) (brk s) (fails s).
Definition set_inodes m (s : fs D) : fs D := mk_fs (fs_device s) (free_map s) (free_map_file s) m (open_inodes s)
  (files s) (dirs s) (brk s) (fails s).
Definition set_open_inodes l (s : fs D) : fs D := mk_fs (fs_device s) (free_map s) (free_map_file s) (inodes s) l
  (files s) (dirs s) (brk s) (fails s).
Definition set_files m (s : fs D) : fs D := mk_fs (fs_device s) (free_map s) (free_map_file s) (inodes s)
  (open_inodes s) m (dirs s) (brk s) (fails s).
Definition set_dirs m (s : fs D) : fs D := mk_fs (fs_device s) (free_map s) (free_map_file s) (inodes s)
  (open_inodes s) (files s) m (brk s) (fails s).
Definition set_mem n l (s : fs D) : fs D := mk_fs (fs_device s) (free_map s) (free_map_file s) (inodes s)
  (open_inodes s) (files s) (dirs s) n l.

(** [malloc] and [calloc]; what they return is written by the caller. *)
Definition malloc : M (fs D) Z := fun s =>
  match fails s with
  | true :: rest => Ok (NULL, set_mem (brk s) rest s)
  | rest => Ok (brk s, set_mem (brk s + 1) (tail rest) s)
  end.

Definition get_inode (a : Z) : M (fs D) inode := fun s =>
  match inodes s !! a with Some i => Ok (i, s) | None => Err Trap end.
Definition put_inode (a : Z) (i : inode) : M (fs D) unit :=
  modify (fun s => set_inodes (<[a := i]> (inodes s)) s).
Definition get_file (a : Z) : M (fs D) file := fun s =>
  match files s !! a with Some f => Ok (f, s) | None => Err Trap end.
Definition put_file (a : Z) (f : file) : M (fs D) unit :=
  modify (fun s => set_files (<[a := f]> (files s)) s).
Definition get_dir (a : Z) : M (fs D) dir := fun s =>
  match dirs s !! a with Some d => Ok (d, s) | None => Err Trap end.
Definition put_dir (a : Z) (d : dir) : M (fs D) unit :=
  modify (fun s => set_dirs (<[a := d]> (dirs s)) s).

(** An access to [fs_device]. *)
Definition on_device {A} (m : M (block D) A) : M (fs D) A := fun s =>
  match m (fs_device s) with
  | Ok (a, b) => Ok (a, set_device b s)
  | Err e => Err e
  end.
End Fields.

(** The on-disk inode as the bytes of its sector. *)
Definition disk_bytes (d : inode_disk) : list Z :=
  elem_bytes (d_start d) ++ elem_bytes (u32 (d_length d)) ++ elem_bytes (d_magic d) ++ d_unused d.
Definition disk_of_bytes (l : list Z) : inode_disk :=
  mk_inode_disk (elem_of_bytes (take 4 l)) (s32 (elem_of_bytes (take 4 (drop 4 l))))
    (elem_of_bytes (take 4 (drop 8 l))) (drop 12 l).

Lemma disk_bytes_length d : length (d_unused d) = 500%nat -> length (disk_bytes d) = 512%nat.
Proof. intros H. unfold disk_bytes. rewrite !length_app, H. reflexivity. Qed.

Lemma disk_roundtrip d :
  0 <= d_start d < 2 ^ 32 -> 0 <= d_length d < 2 ^ 31 -> 0 <= d_magic d < 2 ^ 32 ->
  disk_of_bytes (disk_bytes d) = d.
Proof.
  intros Hs Hl Hm. unfold disk_of_bytes, disk_bytes.
  assert (forall w, length (elem_bytes w) = 4%nat) as E4 by done.
  rewrite take_app_length' by done.
  rewrite (drop_app_length' (elem_bytes (d_start d)) _ 4) by done. rewrite take_app_length' by done.
  rewrite (app_assoc (elem_bytes (d_start d))).
  rewrite (drop_app_length' (elem_bytes (d_start d) ++ _) _ 8) by done. rewrite take_app_length' by done.
  rewrite (app_assoc (elem_bytes (d_start d) ++ _)).
  rewrite (drop_app_length' _ _ 12) by done.
  rewrite !elem_bytes_roundtrip by (auto with word).
  rewrite u32_small, s32_small by lia. by destruct d.
Qed.
