(* ===== verification/Inode.v ===== *)
(** * Inodes: [filesys/inode.c]

    Opening inodes and reading and writing their data.  [inode_create] and
    [inode_close] use the free map and are in FreeMap.

    The theorems relate the sector-wise loops of [inode_read_at] and
    [inode_write_at] to the byte array the extent of the inode holds. *)

From S2P Require Import Prelude Bitmap Block FsState.

Definition bytes_to_sectors (size : Z) : Z :=
  u32 (Z.quot (s32 (size + BLOCK_SECTOR_SIZE - 1)) BLOCK_SECTOR_SIZE).

Definition byte_to_sector (i : inode) (pos : Z) : Z :=
  if pos <? d_length (i_data i) then u32 (d_start (i_data i) + Z.quot pos BLOCK_SECTOR_SIZE)
  else u32 (-1).

Definition inode_length (i : inode) : Z := d_length (i_data i).

(** Bytes to copy in one iteration: what is left of the request, of the inode
    and of the sector, the least of them. *)
Definition sector_ofs (offset : Z) : Z := Z.rem offset BLOCK_SECTOR_SIZE.
Definition sector_left (offset : Z) : Z := BLOCK_SECTOR_SIZE - sector_ofs offset.
Definition chunk_size (i : inode) (size offset : Z) : Z :=
  let inode_left := s32 (inode_length i - offset) in
  let min_left := if inode_left <? sector_left offset then inode_left else sector_left offset in
  if size <? min_left then size else min_left.

Section Inode.
Context {D : Type} `{BlockOperations D}.

Definition inode_init : M (fs D) unit := modify (set_open_inodes []).

(** The loop of [inode_open] over the open inodes. *)
Fixpoint find_open (m : gmap Z inode) (l : list Z) (sector : Z) : res (option Z) :=
  match l with
  | [] => mret None
  | a :: rest =>
      i ← of_option Trap (m !! a);
      if i_sector i =? sector then mret (Some a) else find_open m rest sector
  end.

Definition inode_reopen (a : Z) : M (fs D) Z :=
  if a =? NULL then mret a
  else
    i ← get_inode a;
    _ ← put_inode a (mk_inode (i_sector i) (s32 (open_cnt i + 1)) (removed i) (deny_write_cnt i) (i_data i));
    mret a.

Definition inode_open (sector : Z) : M (fs D) Z :=
  s ← get;
  r ← lift (find_open (inodes s) (open_inodes s) sector);
  match r with
  | Some a => inode_reopen a
  | None =>
      a ← malloc;
      if a =? NULL then mret NULL
      else
        _ ← modify (fun s => set_open_inodes (a :: open_inodes s) s);
        data ← on_device (block_read sector);
        _ ← put_inode a (mk_inode sector 1 false 0 (disk_of_bytes data));
        mret a
  end.

Definition inode_get_inumber (a : Z) : M (fs D) Z := i ← get_inode a; mret (i_sector i).

Definition inode_remove (a : Z) : M (fs D) unit :=
  _ ← assert (negb (a =? NULL));
  i ← get_inode a;
  put_inode a (mk_inode (i_sector i) (open_cnt i) true (deny_write_cnt i) (i_data i)).

(** The bounce buffer is allocated by the first iteration that needs it. *)
Definition need_bounce (bounce : Z) : M (fs D) Z :=
  if bounce =? NULL then malloc else mret bounce.

(** The [while] loop of [inode_read_at]: the bytes stored into the buffer so
    far are [got], and their number is [bytes_read]. *)
Fixpoint read_loop (fuel : nat) (a bounce size offset bytes_read : Z) (got : list Z)
    : M (fs D) (Z * list Z) :=
  match fuel with
  | O => fail OutOfFuel
  | S fuel =>
      if 0 <? size then
        _ ← assert (negb (a =? NULL));
        i ← get_inode a;
        let sector_idx := byte_to_sector i offset in
        let chunk := chunk_size i size offset in
        if chunk <=? 0 then mret (bytes_read, got)
        else if (sector_ofs offset =? 0) && (chunk =? BLOCK_SECTOR_SIZE) then
          data ← on_device (block_read sector_idx);
          read_loop fuel a bounce (size - chunk) (offset + chunk) (bytes_read + chunk) (got ++ data)
        else
          bounce ← need_bounce bounce;
          if bounce =? NULL then mret (bytes_read, got)
          else
            data ← on_device (block_read sector_idx);
            piece ← lift (read_bytes data (sector_ofs offset) chunk);
            read_loop fuel a bounce (size - chunk) (offset + chunk) (bytes_read + chunk) (got ++ piece)
      else mret (bytes_read, got)
  end.

(** An iteration that is neither the first nor the last copies a whole sector,
    so there are at most two more iterations than whole sectors, and a test. *)
Definition rw_fuel (size : Z) : nat := Z.to_nat (size / BLOCK_SECTOR_SIZE) + 3.

Definition inode_read_at (a size offset : Z) : M (fs D) (Z * list Z) :=
  read_loop (rw_fuel size) a NULL size offset 0 [].

Fixpoint write_loop (fuel : nat) (a : Z) (buffer : list Z) (bounce size offset bytes_written : Z)
    : M (fs D) Z :=
  match fuel with
  | O => fail OutOfFuel
  | S fuel =>
      if 0 <? size then
        _ ← assert (negb (a =? NULL));
        i ← get_inode a;
        let sector_idx := byte_to_sector i offset in
        let chunk := chunk_size i size offset in
        if chunk <=? 0 then mret bytes_written
        else if (sector_ofs offset =? 0) && (chunk =? BLOCK_SECTOR_SIZE) then
          data ← lift (read_bytes buffer bytes_written chunk);
          _ ← on_device (block_write sector_idx data);
          write_loop fuel a buffer bounce (size - chunk) (offset + chunk) (bytes_written + chunk)
        else
          bounce ← need_bounce bounce;
          if bounce =? NULL then mret bytes_written
          else
            old ← (if (0 <? sector_ofs offset) || (chunk <? sector_left offset)
                   then on_device (block_read sector_idx)
                   else mret (replicate 512 0));
            data ← lift (read_bytes buffer bytes_written chunk);
            _ ← on_device (block_write sector_idx (overwrite old (sector_ofs offset) data));
            write_loop fuel a buffer bounce (size - chunk) (offset + chunk) (bytes_written + chunk)
      else mret bytes_written
  end.

Definition inode_write_at (a : Z) (buffer : list Z) (size offset : Z) : M (fs D) Z :=
  i ← get_inode a;
  if negb (deny_write_cnt i =? 0) then mret 0
  else write_loop (rw_fuel size) a buffer NULL size offset 0.

Definition inode_deny_write (a : Z) : M (fs D) unit :=
  i ← get_inode a;
  let n := s32 (deny_write_cnt i + 1) in
  _ ← put_inode a (mk_inode (i_sector i) (open_cnt i) (removed i) n (i_data i));
  assert (n <=? open_cnt i).

Definition inode_allow_write (a : Z) : M (fs D) unit :=
  i ← get_inode a;
  _ ← assert (0 <? deny_write_cnt i);
  _ ← assert (deny_write_cnt i <=? open_cnt i);
  put_inode a (mk_inode (i_sector i) (open_cnt i) (removed i) (s32 (deny_write_cnt i - 1)) (i_data i)).
End Inode.

Lemma bytes_to_sectors_val n : 0 <= n < 2 ^ 31 - 511 -> bytes_to_sectors n = (n + 511) / 512.
Proof.
  intros Hn. unfold bytes_to_sectors, BLOCK_SECTOR_SIZE. rewrite s32_small by lia.
  replace (n + 512 - 1) with (n + 511) by lia. rewrite Z.quot_div_nonneg by lia.
  apply u32_small. Z.to_euclidean_division_equations. lia.
Qed.

(** ** Bytes of a device *)

Section Bytes.
Context `{BlockLaws D}.
Implicit Types b : block D.

(** The byte at absolute position [q], and [n] bytes from there. *)
Definition dbyte (b : block D) (q : Z) : Z := nth (Z.to_nat (q mod 512)) (sector b (q / 512)) 0.
Definition bytes (b : block D) (q n : Z) : list Z := dbyte b <$> seqZ q n.

Lemma bytes_length b q n : length (bytes b q n) = Z.to_nat n.
Proof. unfold bytes. by rewrite length_fmap, length_seqZ. Qed.

Lemma bytes_nil b q n : n <= 0 -> bytes b q n = [].
Proof. intros. unfold bytes. by rewrite seqZ_nil. Qed.

Lemma bytes_app b q n m : 0 <= n -> 0 <= m -> bytes b q n ++ bytes b (q + n) m = bytes b q (n + m).
Proof. intros. unfold bytes. by rewrite <- fmap_app, seqZ_app. Qed.

Lemma bytes_lookup b q n i :
  bytes b q n !! i = if decide (Z.of_nat i < n) then Some (dbyte b (q + Z.of_nat i)) else None.
Proof.
  unfold bytes. rewrite list_lookup_fmap. case_decide.
  - by rewrite (proj2 (lookup_seqZ q n i (q + Z.of_nat i))).
  - by rewrite lookup_seqZ_ge by lia.
Qed.

Lemma bytes_ext b b' q n : (forall p, q <= p < q + n -> dbyte b' p = dbyte b p) -> bytes b' q n = bytes b q n.
Proof.
  intros Hp. apply list_eq. intros i. rewrite !bytes_lookup. case_decide; [|done].
  f_equal. apply Hp. lia.
Qed.

(** Part of a sector. *)
Lemma sector_piece b x o n :
  block_ok b -> 0 <= x < b_size b -> 0 <= o -> 0 <= n -> o + n <= 512 ->
  take (Z.to_nat n) (drop (Z.to_nat o) (sector b x)) = bytes b (512 * x + o) n.
Proof.
  intros Hb Hx Ho Hn Hle. pose proof (sector_length b x Hb Hx) as Hl.
  apply list_eq. intros i. rewrite bytes_lookup. case_decide as Hi.
  - rewrite lookup_take_lt, lookup_drop by lia. unfold dbyte.
    replace (512 * x + o + Z.of_nat i) with (o + Z.of_nat i + x * 512) by lia.
    rewrite Z.div_add, Z.mod_add, Z.div_small, Z.mod_small by lia. rewrite Z.add_0_l.
    destruct (lookup_lt_is_Some_2 (sector b x) (Z.to_nat o + i)) as [c E]; [lia|].
    rewrite E. f_equal. symmetry. apply nth_lookup_Some. rewrite <- E. f_equal. lia.
  - rewrite lookup_take_ge by lia. done.
Qed.

Lemma sector_bytes b x : block_ok b -> 0 <= x < b_size b -> sector b x = bytes b (512 * x) 512.
Proof.
  intros Hb Hx. rewrite <- (Z.add_0_r (512 * x)), <- (sector_piece b x 0 512) by (done || lia).
  rewrite drop_0, take_ge; [done|]. rewrite sector_length by done. lia.
Qed.

(** Two devices with the same bytes in a sector have the same sector. *)
Lemma sector_ext b b' x :
  block_ok b -> block_ok b' -> 0 <= x < b_size b -> b_size b' = b_size b ->
  (forall q, 512 * x <= q < 512 * x + 512 -> dbyte b' q = dbyte b q) -> sector b' x = sector b x.
Proof.
  intros Hb Hb' Hx Hsz Hq. rewrite (sector_bytes b x), (sector_bytes b' x) by (done || lia).
  by apply bytes_ext.
Qed.

(** [b'] is [b] with [data] stored at position [q]. *)
Definition stored (b b' : block D) (q : Z) (data : list Z) : Prop :=
  like b b' /\
  forall p, dbyte b' p = if decide (q <= p < q + Z.of_nat (length data))
    then nth (Z.to_nat (p - q)) data 0 else dbyte b p.

Lemma stored_nil b q : block_ok b -> stored b b q [].
Proof. intros Hb. split; [by apply like_refl|]. intros p. rewrite decide_False by (simpl; lia). done. Qed.

Lemma stored_app b b1 b2 q d1 d2 :
  stored b b1 q d1 -> stored b1 b2 (q + Z.of_nat (length d1)) d2 -> stored b b2 q (d1 ++ d2).
Proof.
  intros [L1 H1] [L2 H2]. split; [by eapply like_trans|]. intros p. rewrite H2, H1, length_app.
  repeat case_decide; try lia; try done.
  - rewrite app_nth2 by lia. f_equal. lia.
  - rewrite app_nth1 by lia. done.
Qed.

Lemma stored_same b b1 b2 q d :
  like b b1 -> (forall x, sector b1 x = sector b x) -> stored b1 b2 q d -> stored b b2 q d.
Proof.
  intros Hl Hs [L2 H2]. split; [by eapply like_trans|]. intros p. rewrite H2. case_decide; [done|].
  unfold dbyte. by rewrite Hs.
Qed.

(** Writing a sector that was overwritten at [o] with [data]. *)
Lemma stored_sector b b' x o data :
  block_ok b -> 0 <= x < b_size b -> 0 <= o -> o + Z.of_nat (length data) <= 512 -> like b b' ->
  sector b' x = overwrite (sector b x) o data -> (forall y, y <> x -> sector b' y = sector b y) ->
  stored b b' (512 * x + o) data.
Proof.
  intros Hb Hx Ho Hle Hl Hw Hother. split; [done|]. intros p. unfold dbyte.
  destruct (decide (p / 512 = x)) as [<-|Hne].
  2: { rewrite Hother by done. rewrite decide_False; [done|]. intros Hp. apply Hne.
       symmetry. apply (Z.div_unique p 512 x (p - 512 * x)); lia. }
  rewrite Hw. pose proof (sector_length b _ Hb Hx) as Hlen. pose proof (Z.div_mod p 512 ltac:(lia)) as E.
  pose proof (Z.mod_pos_bound p 512 ltac:(lia)) as Hm. unfold overwrite.
  assert (length (take (Z.to_nat o) (sector b (p / 512))) = Z.to_nat o) as Ht
    by (rewrite length_take; lia).
  case_decide as Hd.
  - rewrite app_nth2, app_nth1 by (rewrite ?Ht; lia). rewrite Ht. f_equal. lia.
  - destruct (decide (p mod 512 < o)).
    + rewrite app_nth1 by (rewrite Ht; lia). rewrite !nth_lookup, lookup_take_lt by lia. done.
    + rewrite app_nth2 by (rewrite Ht; lia). rewrite app_nth2 by (rewrite Ht; lia).
      rewrite !nth_lookup, lookup_drop, Ht. do 2 f_equal. lia.
Qed.
End Bytes.

(** ** Reading and writing the data of an inode *)

(** What the transfer loops leave alone in memory. *)
Record calm {D} (s s' : fs D) : Prop := {
  calm_map : free_map s' = free_map s;
  calm_map_file : free_map_file s' = free_map_file s;
  calm_inodes : inodes s' = inodes s;
  calm_open : open_inodes s' = open_inodes s;
  calm_files : files s' = files s;
  calm_dirs : dirs s' = dirs s;
  calm_brk : brk s <= brk s';
  calm_fails : fails s = [] -> fails s' = [];
}.

Lemma calm_refl {D} (s : fs D) : calm s s.
Proof. by constructor. Qed.
Lemma calm_trans {D} (s s1 s2 : fs D) : calm s s1 -> calm s1 s2 -> calm s s2.
Proof. intros [] []. constructor; try congruence; [lia|auto]. Qed.
Lemma calm_device {D} (s : fs D) b : calm s (set_device b s).
Proof. by constructor. Qed.

Section Transfer.
Context `{BlockLaws D}.
Implicit Types s : fs D.

(** The data of the inode is inside the device; [bytes_to_sectors] does not
    wrap for its length. *)
Record extent_ok (b : block D) (i : inode_disk) : Prop := {
  ext_start : 0 <= d_start i;
  ext_length : 0 <= d_length i < 2 ^ 31 - 511;
  ext_end : 512 * d_start i + d_length i <= 512 * b_size b;
}.

(** The bytes of a file. *)
Definition contents (b : block D) (i : inode_disk) : list Z := bytes b (512 * d_start i) (d_length i).

(** Bytes a transfer of [size] bytes at [offset] can move. *)
Definition avail (i : inode_disk) (size offset : Z) : Z := Z.max 0 (Z.min size (d_length i - offset)).

Lemma malloc_cases s :
  0 < brk s -> exists a s', malloc s = Ok (a, s') /\ calm s s' /\ 0 < brk s' /\ fs_device s' = fs_device s /\
    (a <> NULL -> a = brk s /\ brk s' = brk s + 1) /\ (fails s = [] -> a <> NULL).
Proof.
  intros Hb. unfold malloc. destruct (fails s) as [|[] r] eqn:E; simpl.
  - eexists _, _. split; [done|]. unfold NULL. split_and!; simpl; try lia; try done.
    constructor; simpl; try done; lia.
  - eexists _, _. split; [done|]. split_and!; simpl; try done.
    constructor; simpl; try done; congruence.
  - eexists _, _. split; [done|]. unfold NULL. split_and!; simpl; try lia; try done.
    constructor; simpl; try done; try lia; congruence.
Qed.

Lemma need_bounce_cases s bounce :
  0 < brk s -> exists a s', need_bounce bounce s = Ok (a, s') /\ calm s s' /\ 0 < brk s' /\
    fs_device s' = fs_device s /\ (fails s = [] -> a <> NULL).
Proof.
  intros Hb. unfold need_bounce. destruct (bounce =? NULL) eqn:E; bool_to_prop.
  - destruct (malloc_cases s Hb) as (a & s' & ? & ? & ? & ? & _ & ?). eauto 10.
  - exists bounce, s. auto using calm_refl.
Qed.

(** One iteration, in numbers. *)
Lemma chunk_facts b i size offset :
  extent_ok b (i_data i) -> 0 <= offset < 2 ^ 31 -> 0 < avail (i_data i) size offset ->
  let c := chunk_size i size offset in
  0 < c <= avail (i_data i) size offset /\
  sector_ofs offset = offset mod 512 /\ sector_left offset = 512 - offset mod 512 /\
  offset mod 512 + c <= 512 /\
  (c < avail (i_data i) size offset -> offset mod 512 + c = 512) /\
  0 <= d_start (i_data i) + offset / 512 < b_size b /\
  (b_size b <= 2 ^ 32 -> byte_to_sector i offset = d_start (i_data i) + offset / 512).
Proof.
  intros [Hs Hl He] Ho Ha c. unfold avail in *.
  assert (sector_ofs offset = offset mod 512) as E1.
  { unfold sector_ofs, BLOCK_SECTOR_SIZE. apply Z.rem_mod_nonneg; lia. }
  assert (sector_left offset = 512 - offset mod 512) as E2.
  { unfold sector_left. rewrite E1. reflexivity. }
  pose proof (Z.mod_pos_bound offset 512 ltac:(lia)).
  pose proof (Z.div_mod offset 512 ltac:(lia)).
  assert (c = Z.min size (Z.min (d_length (i_data i) - offset) (512 - offset mod 512))) as Ec.
  { unfold c, chunk_size, inode_length. rewrite E2, s32_small by lia.
    destruct (_ <? 512 - _) eqn:?; [destruct (size <? _ - offset) eqn:?|destruct (size <? 512 - _) eqn:?];
      bool_to_prop; lia. }
  assert (0 <= offset / 512) by (apply Z.div_pos; lia).
  rewrite Ec. split_and!; try lia; try done.
  intros Hsz. unfold byte_to_sector. rewrite (proj2 (Z.ltb_lt _ _)) by lia.
  unfold BLOCK_SECTOR_SIZE. rewrite Z.quot_div_nonneg by lia. apply u32_small. lia.
Qed.

(** Iterations still needed, the last test included. *)
Definition enough (fuel : nat) (n offset : Z) : Prop :=
  if decide (0 < n) then 1 + (n + offset mod 512 + 511) / 512 <= Z.of_nat fuel else (1 <= fuel)%nat.

Lemma enough_init size offset n :
  n <= Z.max 0 size -> 0 <= n -> enough (rw_fuel size) n offset.
Proof.
  intros Hn Hn0. unfold enough, rw_fuel, BLOCK_SECTOR_SIZE. pose proof (Z.mod_pos_bound offset 512 ltac:(lia)).
  case_decide; [|lia]. assert (0 <= size / 512) by (apply Z.div_pos; lia).
  rewrite Nat2Z.inj_add, Z2Nat.id by lia. change (Z.of_nat 3) with 3.
  assert ((n + offset mod 512 + 511) / 512 <= size / 512 + 2); [|lia].
  rewrite <- Z.div_add by lia. apply Z.div_le_mono; [lia|].
  Z.to_euclidean_division_equations. lia.
Qed.

Lemma enough_step fuel n offset c :
  enough (S fuel) n offset -> 0 < n -> 0 < c <= n -> offset mod 512 + c <= 512 ->
  (c < n -> offset mod 512 + c = 512) -> enough fuel (n - c) (offset + c).
Proof.
  unfold enough. intros Hf Hn Hc Hle Hfull. rewrite decide_True in Hf by done.
  pose proof (Z.mod_pos_bound offset 512 ltac:(lia)).
  assert (1 <= (n + offset mod 512 + 511) / 512) by (apply Z.div_le_lower_bound; lia).
  case_decide; [|lia]. specialize (Hfull ltac:(lia)).
  assert ((offset + c) mod 512 = 0) as ->.
  { rewrite <- Zplus_mod_idemp_l, Hfull. reflexivity. }
  replace (n + offset mod 512 + 511) with (n - c + 0 + 511 + 1 * 512) in Hf by lia.
  rewrite Z.div_add in Hf by lia. lia.
Qed.

Lemma avail_step i size offset c :
  0 < avail i size offset -> 0 < c <= avail i size offset ->
  avail i (size - c) (offset + c) = avail i size offset - c.
Proof. unfold avail. lia. Qed.
End Transfer.

Section Loops.
Context `{BlockLaws D}.
Implicit Types s : fs D.

(** Device accesses of the file system. *)
Lemma device_read s x :
  block_ok (fs_device s) -> 0 <= x < b_size (fs_device s) ->
  exists s', on_device (block_read x) s = Ok (sector (fs_device s) x, s') /\ calm s s' /\
    brk s' = brk s /\ fails s' = fails s /\ like (fs_device s) (fs_device s') /\
    forall y, sector (fs_device s') y = sector (fs_device s) y.
Proof.
  intros Hb Hx. destruct (block_read_ok _ x Hb Hx) as (b' & E & Hl & Hs).
  exists (set_device b' s). unfold on_device. rewrite E. split_and!; auto using calm_device.
Qed.

Lemma device_write s x bs :
  block_ok (fs_device s) -> 0 <= x < b_size (fs_device s) -> length bs = 512%nat ->
  exists s', on_device (block_write x bs) s = Ok (tt, s') /\ calm s s' /\
    brk s' = brk s /\ fails s' = fails s /\ like (fs_device s) (fs_device s') /\
    sector (fs_device s') x = bs /\
    forall y, y <> x -> sector (fs_device s') y = sector (fs_device s) y.
Proof.
  intros Hb Hx Hl. destruct (block_write_ok _ x bs Hb Hx Hl) as (b' & E & ? & ? & ?).
  exists (set_device b' s). unfold on_device. rewrite E. split_and!; auto using calm_device.
Qed.

Lemma same_bytes b b' q n :
  (forall y, sector b' y = sector (D:=D) b y) -> bytes b' q n = bytes b q n.
Proof. intros Hs. apply bytes_ext. intros. unfold dbyte. by rewrite Hs. Qed.

(** Nothing left to move: the chunk is empty. *)
Lemma chunk_empty b i size offset :
  extent_ok (D:=D) b (i_data i) -> 0 <= offset < 2 ^ 31 -> 0 < size ->
  avail (i_data i) size offset <= 0 -> (chunk_size i size offset <=? 0) = true.
Proof.
  intros [_ Hl _] Ho Hs Hz. apply Z.leb_le.
  assert (d_length (i_data i) - offset <= 0) by (unfold avail in Hz; lia).
  unfold chunk_size, inode_length. rewrite s32_small by lia.
  unfold sector_left, sector_ofs, BLOCK_SECTOR_SIZE.
  pose proof (Z.rem_bound_pos offset 512 ltac:(lia) ltac:(lia)).
  destruct (d_length (i_data i) - offset <? _) eqn:?; destruct (size <? _) eqn:?; bool_to_prop; lia.
Qed.

Lemma extent_like b b' i : like b b' -> extent_ok b i -> extent_ok (D:=D) b' i.
Proof. intros (_ & _ & _ & E) []. constructor; by rewrite ?E. Qed.

(** [s'] is [s] after device reads. *)
Definition quiet (s s' : fs D) : Prop :=
  calm s s' /\ like (fs_device s) (fs_device s') /\
  forall y, sector (fs_device s') y = sector (fs_device s) y.

Lemma quiet_trans s s1 s2 : quiet s s1 -> quiet s1 s2 -> quiet s s2.
Proof.
  intros (? & ? & E1) (? & ? & E2).
  split_and!; [by eapply calm_trans|by eapply like_trans|]. intros y. by rewrite E2.
Qed.

(** The run [r] of the read loop stopped after [k] bytes, short of what is
    available only if an allocation failed. *)
Definition read_post s i size offset br got (r : res (Z * list Z * fs D)) : Prop :=
  exists k s', r = Ok ((br + k, got ++ bytes (fs_device s) (512 * d_start i + offset) k), s') /\
    0 <= k <= avail i size offset /\ (fails s = [] -> k = avail i size offset) /\ quiet s s'.

Lemma read_post_stop s i size offset br got s' :
  quiet s s' -> (fails s = [] -> avail i size offset <= 0) ->
  read_post s i size offset br got (Ok ((br, got), s')).
Proof.
  intros Hq Hz. exists 0, s'. rewrite bytes_nil, app_nil_r, Z.add_0_r by lia.
  split; [done|]. split; [unfold avail; lia|]. split; [|done].
  intros Hf. specialize (Hz Hf). unfold avail in *. lia.
Qed.

Lemma read_post_step s s1 i size offset br got c r :
  quiet s s1 -> 0 < c <= avail i size offset ->
  read_post s1 i (size - c) (offset + c) (br + c)
    (got ++ bytes (fs_device s) (512 * d_start i + offset) c) r ->
  read_post s i size offset br got r.
Proof.
  intros Hq Hc (k & s' & -> & Hk & Hkf & Hq'). rewrite avail_step in Hk, Hkf by lia.
  pose proof Hq as (C & L & S). exists (c + k), s'. split.
  { rewrite (same_bytes (fs_device s) (fs_device s1)) by done.
    replace (512 * d_start i + (offset + c)) with (512 * d_start i + offset + c) by lia.
    rewrite <- app_assoc, bytes_app by lia. do 3 f_equal. lia. }
  split; [lia|]. split; [|by eapply quiet_trans].
  intros Hf. rewrite Hkf; [lia|]. by apply (calm_fails _ _ C).
Qed.

Lemma enough_pos fuel n offset : 0 <= n -> enough fuel n offset -> (0 < fuel)%nat.
Proof.
  intros Hn. unfold enough. pose proof (Z.mod_pos_bound offset 512 ltac:(lia)). case_decide; [|lia].
  assert (0 <= (n + offset mod 512 + 511) / 512) by (apply Z.div_pos; lia). lia.
Qed.

Lemma read_loop_ok a i fuel : forall s bounce size offset br got,
  block_ok (fs_device s) -> 0 < brk s -> a <> NULL -> inodes s !! a = Some i ->
  extent_ok (fs_device s) (i_data i) -> 0 <= offset < 2 ^ 31 ->
  enough fuel (avail (i_data i) size offset) offset ->
  read_post s (i_data i) size offset br got (read_loop fuel a bounce size offset br got s).
Proof.
  induction fuel as [|fuel IH]; intros s bounce size offset br got Hb Hbrk Ha Hi He Ho Hf.
  { apply enough_pos in Hf; [lia|]. unfold avail. lia. }
  assert (quiet s s) as Hq0 by (split_and!; [apply calm_refl|by apply like_refl|done]).
  cbn [read_loop]. destruct (0 <? size) eqn:Esz; bool_to_prop.
  2: { apply read_post_stop; [done|]. unfold avail. lia. }
  bind_by (apply assert_run; rewrite (proj2 (Z.eqb_neq _ _) Ha); reflexivity).
  bind_by (unfold get_inode; rewrite Hi; reflexivity). cbv zeta.
  destruct (decide (0 < avail (i_data i) size offset)) as [Hpos|Hz].
  2: { rewrite (chunk_empty _ _ _ _ He) by lia. apply read_post_stop; [done|lia]. }
  destruct (chunk_facts _ i size offset He Ho Hpos) as (Hc & Eo & El & Hle & Hfull & Hsec & Eidx).
  rewrite Eidx, Eo by apply Hb. clear Eidx. set (c := chunk_size i size offset) in *.
  set (x := d_start (i_data i) + offset / 512) in *.
  pose proof (Z.mod_pos_bound offset 512 ltac:(lia)). pose proof (Z.div_mod offset 512 ltac:(lia)).
  rewrite (proj2 (Z.leb_gt c 0)) by lia.
  assert (Epos : 512 * d_start (i_data i) + offset = 512 * x + offset mod 512) by (unfold x; lia).
  assert (Hgo : forall s1 bounce', quiet s s1 -> 0 < brk s1 ->
    read_post s (i_data i) size offset br got (read_loop fuel a bounce' (size - c) (offset + c) (br + c)
      (got ++ bytes (fs_device s) (512 * d_start (i_data i) + offset) c) s1)).
  { intros s1 bounce' (C1 & L1 & S1) B1. eapply (read_post_step s s1); [done|done|].
    apply IH; [apply L1|done|done|by rewrite (calm_inodes _ _ C1)|by eapply extent_like| |].
    - unfold avail in *. destruct He. lia.
    - rewrite avail_step by lia. apply enough_step; [done|lia..]. }
  destruct ((offset mod 512 =? 0) && (c =? BLOCK_SECTOR_SIZE)) eqn:Efull.
  - apply andb_true_iff in Efull as [E1 E2]. apply Z.eqb_eq in E1, E2. unfold BLOCK_SECTOR_SIZE in E2.
    destruct (device_read s x Hb Hsec) as (s1 & Er & C1 & B1 & F1 & L1 & S1). bind_by (exact Er).
    rewrite (sector_bytes _ x Hb Hsec). rewrite Epos, E1, E2, Z.add_0_r in Hgo. rewrite E2.
    apply Hgo; [done|lia].
  - destruct (need_bounce_cases s bounce Hbrk) as (bn & s0 & E0 & C0 & B0 & D0 & N0). bind_by (exact E0).
    assert (quiet s s0) as Hq1 by (split_and!; rewrite ?D0; [done|by apply like_refl|done]).
    destruct (bn =? NULL) eqn:En; bool_to_prop.
    { apply read_post_stop; [done|]. intros Hfs. by destruct (N0 Hfs). }
    destruct (device_read s0 x) as (s1 & Er & C1 & B1 & F1 & L1 & S1); [by rewrite D0..|].
    bind_by (exact Er).
    bind_by (rewrite read_bytes_ok; [reflexivity|lia|lia|rewrite D0, sector_length by done; lia]).
    rewrite D0, sector_piece by (done || lia). rewrite Epos in Hgo.
    apply Hgo; [by apply (quiet_trans s s0)|lia].
Qed.

(** The run [r] of the write loop stored [k] bytes of [buffer]. *)
Definition write_post s i buffer size offset bw (r : res (Z * fs D)) : Prop :=
  exists k s', r = Ok (bw + k, s') /\
    0 <= k <= avail i size offset /\ (fails s = [] -> k = avail i size offset) /\ calm s s' /\
    stored (fs_device s) (fs_device s') (512 * d_start i + offset)
      (take (Z.to_nat k) (drop (Z.to_nat bw) buffer)).

Lemma write_post_stop s i buffer size offset bw s' :
  block_ok (fs_device s) -> calm s s' -> fs_device s' = fs_device s ->
  (fails s = [] -> avail i size offset <= 0) ->
  write_post s i buffer size offset bw (Ok (bw, s')).
Proof.
  intros Hb Hc Hd Hz. exists 0, s'. rewrite Z.add_0_r, Hd. split; [done|].
  split; [unfold avail; lia|]. split; [|split; [done|by apply stored_nil]].
  intros Hf. specialize (Hz Hf). unfold avail in *. lia.
Qed.

Lemma write_post_step s s1 i buffer size offset bw c r :
  calm s s1 -> 0 < c <= avail i size offset -> 0 <= bw -> bw + size <= Z.of_nat (length buffer) ->
  stored (fs_device s) (fs_device s1) (512 * d_start i + offset)
    (take (Z.to_nat c) (drop (Z.to_nat bw) buffer)) ->
  write_post s1 i buffer (size - c) (offset + c) (bw + c) r ->
  write_post s i buffer size offset bw r.
Proof.
  intros C Hc Hbw Hlen Hst (k & s' & -> & Hk & Hkf & C' & Hst'). rewrite avail_step in Hk, Hkf by lia.
  assert (avail i size offset <= size) by (unfold avail in *; lia).
  exists (c + k), s'. split; [do 2 f_equal; lia|]. split; [lia|]. split.
  { intros Hf. rewrite Hkf; [lia|]. by apply (calm_fails _ _ C). }
  split; [by eapply calm_trans|].
  rewrite Z2Nat.inj_add, <- take_take_drop, drop_drop by lia.
  replace (Z.to_nat bw + Z.to_nat c)%nat with (Z.to_nat (bw + c)) by lia.
  eapply stored_app; [exact Hst|]. rewrite length_take, length_drop.
  replace (512 * d_start i + offset + _) with (512 * d_start i + (offset + c)) by lia. exact Hst'.
Qed.


Lemma write_loop_ok a i buffer fuel : forall s bounce size offset bw,
  block_ok (fs_device s) -> 0 < brk s -> a <> NULL -> inodes s !! a = Some i ->
  extent_ok (fs_device s) (i_data i) -> 0 <= offset < 2 ^ 31 ->
  0 <= bw -> bw + size <= Z.of_nat (length buffer) ->
  enough fuel (avail (i_data i) size offset) offset ->
  write_post s (i_data i) buffer size offset bw (write_loop fuel a buffer bounce size offset bw s).
Proof.
  induction fuel as [|fuel IH]; intros s bounce size offset bw Hb Hbrk Ha Hi He Ho Hbw Hlen Hf.
  { apply enough_pos in Hf; [lia|]. unfold avail. lia. }
  cbn [write_loop]. destruct (0 <? size) eqn:Esz; bool_to_prop.
  2: { apply write_post_stop; [done|apply calm_refl|done|]. unfold avail. lia. }
  bind_by (apply assert_run; rewrite (proj2 (Z.eqb_neq _ _) Ha); reflexivity).
  bind_by (unfold get_inode; rewrite Hi; reflexivity). cbv zeta.
  destruct (decide (0 < avail (i_data i) size offset)) as [Hpos|Hz].
  2: { rewrite (chunk_empty _ _ _ _ He) by lia. apply write_post_stop; [done|apply calm_refl|done|lia]. }
  destruct (chunk_facts _ i size offset He Ho Hpos) as (Hc & Eo & El & Hle & Hfull & Hsec & Eidx).
  rewrite Eidx, Eo, El by apply Hb. clear Eidx. set (c := chunk_size i size offset) in *.
  set (x := d_start (i_data i) + offset / 512) in *.
  pose proof (Z.mod_pos_bound offset 512 ltac:(lia)). pose proof (Z.div_mod offset 512 ltac:(lia)).
  rewrite (proj2 (Z.leb_gt c 0)) by lia.
  assert (Hcs : c <= size) by (unfold avail in *; lia).
  assert (Epos : 512 * d_start (i_data i) + offset = 512 * x + offset mod 512) by (unfold x; lia).
  set (data := take (Z.to_nat c) (drop (Z.to_nat bw) buffer)).
  assert (Hdata : length data = Z.to_nat c) by (unfold data; rewrite length_take, length_drop; lia).
  assert (Hread : read_bytes buffer bw c = Ok data) by (apply read_bytes_ok; lia).
  assert (Hgo : forall s1 bounce', calm s s1 -> 0 < brk s1 ->
    stored (fs_device s) (fs_device s1) (512 * d_start (i_data i) + offset) data ->
    write_post s (i_data i) buffer size offset bw
      (write_loop fuel a buffer bounce' (size - c) (offset + c) (bw + c) s1)).
  { intros s1 bounce' C1 B1 St. eapply (write_post_step s s1); [done..|].
    apply IH; [apply St|done|done|by rewrite (calm_inodes _ _ C1)|eapply extent_like; [apply St|done]| |lia..|].
    - unfold avail in *. destruct He. lia.
    - rewrite avail_step by lia. apply enough_step; [done|lia..]. }
  destruct ((offset mod 512 =? 0) && (c =? BLOCK_SECTOR_SIZE)) eqn:Efull.
  - apply andb_true_iff in Efull as [E1 E2]. apply Z.eqb_eq in E1, E2. unfold BLOCK_SECTOR_SIZE in E2.
    bind_by (rewrite Hread; reflexivity).
    destruct (device_write s x data Hb Hsec) as (s1 & Er & C1 & B1 & F1 & L1 & Sx & Sy); [lia|].
    bind_by (exact Er). apply Hgo; [done|lia|]. rewrite Epos.
    apply stored_sector; [done..|lia|lia|done| |done].
    rewrite Sx, E1. unfold overwrite. rewrite take_0, Hdata. simpl.
    rewrite drop_ge, app_nil_r; [done|]. rewrite sector_length by done. lia.
  - destruct (need_bounce_cases s bounce Hbrk) as (bn & s0 & E0 & C0 & B0 & D0 & N0). bind_by (exact E0).
    destruct (bn =? NULL) eqn:En; bool_to_prop.
    { apply write_post_stop; [done..|]. intros Hfs. by destruct (N0 Hfs). }
    assert ((0 <? offset mod 512) || (c <? 512 - offset mod 512) = true) as ->.
    { apply orb_true_iff. rewrite !Z.ltb_lt. unfold BLOCK_SECTOR_SIZE in Efull.
      apply andb_false_iff in Efull as [E|E]; apply Z.eqb_neq in E; lia. }
    destruct (device_read s0 x) as (s1 & Er & C1 & B1 & F1 & L1 & S1); [by rewrite D0..|].
    rewrite D0 in *. bind_by (exact Er). bind_by (rewrite Hread; reflexivity).
    destruct (device_write s1 x (overwrite (sector (fs_device s) x) (offset mod 512) data))
      as (s2 & Ew & C2 & B2 & F2 & L2 & Sx & Sy); [apply L1|by destruct L1 as (_ & _ & _ & ->)| |].
    { rewrite overwrite_length, sector_length by (done || lia || (rewrite sector_length by done; lia)). done. }
    bind_by (exact Ew). apply Hgo; [eauto using calm_trans|lia|]. rewrite Epos.
    eapply (stored_same _ (fs_device s1)); [done..|].
    apply stored_sector; [apply L1|by destruct L1 as (_ & _ & _ & ->)|lia|lia|done| |done].
    by rewrite Sx, S1.
Qed.
End Loops.

(** ** Files as byte arrays *)

Section Contents.
Context `{BlockLaws D}.
Implicit Types s : fs D.

(** An open inode whose data is on the device. *)
Record open_inode (s : fs D) (a : Z) (i : inode) : Prop := {
  oi_device : block_ok (fs_device s);
  oi_brk : 0 < brk s;
  oi_addr : a <> NULL;
  oi_inode : inodes s !! a = Some i;
  oi_extent : extent_ok (fs_device s) (i_data i);
}.

Lemma open_inode_calm s s' a i :
  open_inode s a i -> calm s s' -> like (fs_device s) (fs_device s') -> open_inode s' a i.
Proof.
  intros [] C L. constructor; [apply L|destruct C; lia|done|by rewrite (calm_inodes _ _ C)|].
  by eapply extent_like.
Qed.

Lemma inode_read_at_ok s a i size offset :
  open_inode s a i -> 0 <= offset < 2 ^ 31 ->
  exists k s', inode_read_at a size offset s =
      Ok ((k, bytes (fs_device s) (512 * d_start (i_data i) + offset) k), s') /\
    0 <= k <= avail (i_data i) size offset /\ (fails s = [] -> k = avail (i_data i) size offset) /\
    quiet s s'.
Proof.
  intros [] Ho. unfold inode_read_at.
  assert (enough (rw_fuel size) (avail (i_data i) size offset) offset) as Hf
    by (apply enough_init; unfold avail; lia).
  destruct (read_loop_ok a i (rw_fuel size) s NULL size offset 0 []) as (k & s' & E & ?); [done..|].
  exists k, s'. by rewrite E.
Qed.

Lemma inode_write_at_ok s a i buffer size offset :
  open_inode s a i -> 0 <= offset < 2 ^ 31 -> size <= Z.of_nat (length buffer) ->
  deny_write_cnt i = 0 ->
  exists k s', inode_write_at a buffer size offset s = Ok (k, s') /\
    0 <= k <= avail (i_data i) size offset /\ (fails s = [] -> k = avail (i_data i) size offset) /\
    calm s s' /\
    stored (fs_device s) (fs_device s') (512 * d_start (i_data i) + offset) (take (Z.to_nat k) buffer).
Proof.
  intros [] Ho Hl Hd. unfold inode_write_at.
  bind_by (unfold get_inode; rewrite oi_inode0; reflexivity). rewrite Hd. simpl.
  assert (enough (rw_fuel size) (avail (i_data i) size offset) offset) as Hf
    by (apply enough_init; unfold avail; lia).
  destruct (write_loop_ok a i buffer (rw_fuel size) s NULL size offset 0) as (k & s' & E & ?);
    [done..|lia|done|]. exists k, s'. by rewrite E.
Qed.

Lemma inode_write_at_denied s a i buffer size offset :
  inodes s !! a = Some i -> deny_write_cnt i <> 0 -> inode_write_at a buffer size offset s = Ok (0, s).
Proof.
  intros Hi Hd. unfold inode_write_at. bind_by (unfold get_inode; rewrite Hi; reflexivity).
  by rewrite (proj2 (Z.eqb_neq _ _) Hd).
Qed.

Lemma bytes_sub b q n o k :
  0 <= o -> 0 <= k -> o + k <= Z.max o n -> bytes (D:=D) b (q + o) k = take (Z.to_nat k) (drop (Z.to_nat o) (bytes b q n)).
Proof.
  intros Ho Hk Hle. apply list_eq. intros j. rewrite bytes_lookup. case_decide.
  - rewrite lookup_take_lt, lookup_drop, bytes_lookup, decide_True by lia. f_equal. f_equal. lia.
  - by rewrite lookup_take_ge by lia.
Qed.

Lemma stored_bytes b b' q n o data :
  stored (D:=D) b b' (q + o) data -> 0 <= o -> o + Z.of_nat (length data) <= Z.max o n ->
  bytes b' q n = overwrite (bytes b q n) o data.
Proof.
  intros [_ Hst] Ho Hle. apply list_eq. intros j. rewrite bytes_lookup. unfold overwrite.
  pose proof (bytes_length b q n) as Hlen. case_decide as Hj.
  - rewrite Hst. case_decide as Hd.
    + rewrite lookup_app_r by (rewrite length_take; lia). rewrite lookup_app_l by (rewrite length_take; lia).
      rewrite length_take, Hlen. replace (j - _)%nat with (Z.to_nat (q + Z.of_nat j - (q + o))) by lia.
      destruct (lookup_lt_is_Some_2 data (Z.to_nat (q + Z.of_nat j - (q + o)))) as [c E]; [lia|].
      rewrite E. f_equal. by apply nth_lookup_Some.
    + destruct (decide (Z.of_nat j < o)).
      * rewrite lookup_app_l by (rewrite length_take; lia).
        by rewrite lookup_take_lt, bytes_lookup, decide_True by lia.
      * rewrite lookup_app_r by (rewrite length_take; lia). rewrite lookup_app_r by (rewrite length_take; lia).
        rewrite lookup_drop, bytes_lookup, length_take, Hlen, decide_True by lia. do 2 f_equal. lia.
  - symmetry. apply lookup_ge_None. rewrite !length_app, length_take, length_drop, Hlen. lia.
Qed.

Lemma stored_outside b b' q data x :
  block_ok b -> stored (D:=D) b b' q data -> 0 <= x < b_size b ->
  length data = 0%nat \/ 512 * x + 512 <= q \/ q + Z.of_nat (length data) <= 512 * x ->
  sector b' x = sector b x.
Proof.
  intros Hb [L Hst] Hx Hout. apply sector_ext; [done|apply L|done|apply L|].
  intros p Hp. rewrite Hst, decide_False by lia. done.
Qed.
End Contents.

(** ** Theorems *)

(** [inode_read_at] reads the file: if memory suffices it returns the bytes
    of the file from [offset], as many as requested or as there are up to the
    end of the file, and changes neither the device nor the inodes. *)
Theorem inode_read_at_contents `{BlockLaws D} (s : fs D) a i size offset :
  open_inode s a i -> 0 <= offset < 2 ^ 31 -> fails s = [] ->
  exists s', inode_read_at a size offset s =
      Ok ((avail (i_data i) size offset,
           take (Z.to_nat (avail (i_data i) size offset))
             (drop (Z.to_nat offset) (contents (fs_device s) (i_data i)))), s') /\
    inodes s' = inodes s /\
    forall y, sector (fs_device s') y = sector (fs_device s) y.
Proof.
  intros Hi Ho Hf. destruct (inode_read_at_ok s a i size offset Hi Ho) as (k & s' & E & Hk & Hkf & C & _ & Hs).
  rewrite (Hkf Hf) in E. exists s'. split; [|split; [apply C|done]]. rewrite E. do 3 f_equal.
  apply bytes_sub; [lia|unfold avail; lia|unfold avail; lia].
Qed.

(** [inode_write_at] writes the file: if writing is not denied and memory
    suffices it stores the bytes of the buffer from [offset] up to the end of
    the file (files do not grow), leaves the other bytes of the file and every
    sector outside its extent alone, and returns the number of bytes stored.
    If writing is denied it returns 0 and changes nothing. *)
Theorem inode_write_at_contents `{BlockLaws D} (s : fs D) a i buffer size offset :
  open_inode s a i -> 0 <= offset < 2 ^ 31 -> size <= Z.of_nat (length buffer) -> fails s = [] ->
  if decide (deny_write_cnt i = 0) then
    let n := avail (i_data i) size offset in
    exists s', inode_write_at a buffer size offset s = Ok (n, s') /\
      contents (fs_device s') (i_data i) =
        overwrite (contents (fs_device s) (i_data i)) offset (take (Z.to_nat n) buffer) /\
      inodes s' = inodes s /\
      (forall x, 0 <= x < b_size (fs_device s) ->
        x < d_start (i_data i) \/ d_start (i_data i) + bytes_to_sectors (d_length (i_data i)) <= x ->
        sector (fs_device s') x = sector (fs_device s) x)
  else inode_write_at a buffer size offset s = Ok (0, s).
Proof.
  intros Hi Ho Hl Hf. case_decide as Hd; [|by apply (inode_write_at_denied s a i); [apply Hi|]].
  destruct (inode_write_at_ok s a i buffer size offset Hi Ho Hl Hd) as (k & s' & E & Hk & Hkf & C & St).
  rewrite (Hkf Hf) in *. intros n. fold n in E, Hk, St. exists s'. split; [done|].
  assert (Hn : Z.of_nat (length (take (Z.to_nat n) buffer)) = n).
  { rewrite length_take. unfold n, avail in *. lia. }
  destruct (oi_extent _ _ _ Hi) as [Hs Hlen He]. split; [|split; [apply C|]].
  - unfold contents. eapply stored_bytes; [exact St|lia|]. rewrite Hn. unfold n, avail. lia.
  - intros x Hx Hout. eapply stored_outside; [apply Hi|exact St|done|]. rewrite Hn.
    destruct (decide (n = 0)); [left; lia|right].
    destruct Hout as [Hlt|Hge]; [left; unfold n, avail in *; lia|right].
    rewrite bytes_to_sectors_val in Hge by done.
    unfold n, avail in *. Z.to_euclidean_division_equations. lia.
Qed.

(** A device of 8 sectors and an open inode at address 5 for a file of 700
    bytes in sectors 3 and 4. *)
Definition demo_inode : inode := mk_inode 2 1 false 0 (mk_inode_disk 3 700 INODE_MAGIC (replicate 500 0)).
Definition demo_fs : fs ram_disk :=
  mk_fs (mk_block "hda" BLOCK_FILESYS 8 (replicate 8 (replicate 512 7)) 0 0) (mk_bitmap 8 [31]) NULL
    {[5 := demo_inode]} [5] ∅ ∅ 6 [].

Lemma demo_open : open_inode demo_fs 5 demo_inode.
Proof.
  constructor; [|reflexivity|discriminate|reflexivity|constructor; simpl; lia].
  split; [|split; [reflexivity|split; [simpl; lia|discriminate]]].
  apply Forall_replicate. reflexivity.
Qed.

Lemma inode_read_at_contents_witness :
  exists s', inode_read_at 5 300 600 demo_fs = Ok ((100, replicate 100 7), s').
Proof.
  destruct (inode_read_at_contents demo_fs 5 demo_inode 300 600 demo_open) as (s' & E & _).
  - lia.
  - reflexivity.
  - exists s'. rewrite E. vm_compute. reflexivity.
Defined.

Lemma inode_write_at_contents_witness :
  exists s', inode_write_at 5 [1; 2; 3] 3 511 demo_fs = Ok (3, s') /\
    contents (fs_device s') (i_data demo_inode) = replicate 511 7 ++ [1; 2; 3] ++ replicate 186 7.
Proof.
  pose proof (inode_write_at_contents demo_fs 5 demo_inode [1; 2; 3] 3 511 demo_open) as E.
  rewrite decide_True in E by reflexivity.
  destruct E as (s' & E & Hc & _); [lia|simpl; lia|reflexivity|].
  exists s'. split; [rewrite E; vm_compute; reflexivity|rewrite Hc; vm_compute; reflexivity].
Defined.
