(* ===== verification/FreeMap.v ===== *)
(** * The free map: [filesys/free-map.c], with [inode_create] and [inode_close]

    The free map is a bitmap in memory with a copy in a file, and the inode
    layer allocates from it while it is written through an inode: the two
    modules are mutually dependent in C, in the order of definition here. *)

From S2P Require Import Prelude Bitmap Block FsState Inode.

Section Operations.
Context {D : Type} `{BlockOperations D}.

Definition file_read_at (f size ofs : Z) : M (fs D) (Z * list Z) :=
  fl ← get_file f; inode_read_at (f_inode fl) size ofs.
Definition file_write_at (f : Z) (buffer : list Z) (size ofs : Z) : M (fs D) Z :=
  fl ← get_file f; inode_write_at (f_inode fl) buffer size ofs.

(** The free map as a file. *)
Definition write_free_map : M (fs D) bool :=
  s ← get; bitmap_write (fun buf size => file_write_at (free_map_file s) buf size 0) (free_map s).

(** [junk] is what the memory of the bitmap holds before it is cleared. *)
Definition free_map_init (junk : list Z) : M (fs D) unit :=
  s ← get;
  hd ← malloc;
  bits ← (if hd =? NULL then mret NULL else malloc);
  r ← lift (bitmap_create (negb (hd =? NULL)) (fun _ => if bits =? NULL then None else Some junk)
              (block_size (fs_device s)));
  match r with
  | None => fail (Panicked "bitmap creation failed--file system device is too large")
  | Some b =>
      b ← lift (bitmap_mark b FREE_MAP_SECTOR);
      b ← lift (bitmap_mark b ROOT_DIR_SECTOR);
      modify (set_free_map b)
  end.

(** The sector stored to [*sectorp], if the allocation succeeds. *)
Definition free_map_allocate (cnt : Z) : M (fs D) (option Z) :=
  s ← get;
  r ← lift (bitmap_scan_and_flip (free_map s) 0 cnt false);
  let sector := r.1 in
  _ ← modify (set_free_map r.2);
  sector ← (if negb (sector =? BITMAP_ERROR) && negb (free_map_file s =? NULL) then
              ok ← write_free_map;
              if (ok : bool) then mret sector
              else
                s ← get;
                b ← lift (bitmap_set_multiple (free_map s) sector cnt false);
                _ ← modify (set_free_map b);
                mret BITMAP_ERROR
            else mret sector);
  mret (if sector =? BITMAP_ERROR then None else Some sector).

Definition free_map_release (sector cnt : Z) : M (fs D) unit :=
  s ← get;
  all ← lift (bitmap_all (free_map s) sector cnt); _ ← assert all;
  b ← lift (bitmap_set_multiple (free_map s) sector cnt false);
  _ ← modify (set_free_map b);
  _ ← write_free_map; mret tt.

(** The loop of [inode_create] that clears the data sectors. *)
Fixpoint zero_sectors (n : nat) (sector : Z) : M (fs D) unit :=
  match n with
  | O => mret tt
  | S n' =>
      _ ← on_device (block_write (u32 sector) (replicate 512 0));
      zero_sectors n' (sector + 1)
  end.

Definition inode_create (sector length : Z) : M (fs D) bool :=
  _ ← assert (0 <=? length);
  disk_inode ← malloc;
  if disk_inode =? NULL then mret false
  else
    let sectors := bytes_to_sectors length in
    r ← free_map_allocate sectors;
    match r with
    | None => mret false
    | Some start =>
        _ ← on_device (block_write sector
              (disk_bytes (mk_inode_disk start length INODE_MAGIC (replicate 500 0))));
        _ ← zero_sectors (Z.to_nat sectors) start;
        mret true
    end.

Definition inode_close (a : Z) : M (fs D) unit :=
  if a =? NULL then mret tt
  else
    i ← get_inode a;
    let n := s32 (open_cnt i - 1) in
    _ ← put_inode a (mk_inode (i_sector i) n (removed i) (deny_write_cnt i) (i_data i));
    if n =? 0 then
      _ ← modify (fun s => set_open_inodes (filter (fun x => x <> a) (open_inodes s)) s);
      _ ← (if removed i then
             _ ← free_map_release (i_sector i) 1;
             free_map_release (d_start (i_data i)) (bytes_to_sectors (d_length (i_data i)))
           else mret tt);
      modify (fun s => set_inodes (delete a (inodes s)) s)
    else mret tt.
End Operations.
