(* ===== verification/File.v ===== *)
(** * Open files: [filesys/file.c], and the file of the free map

    A [struct file] is a position in an inode, with a flag that says whether
    this opener denies writes. *)

From S2P Require Import Prelude Bitmap Block FsState Inode FreeMap.

Section Operations.
Context {D : Type} `{BlockOperations D}.

Definition file_open (ino : Z) : M (fs D) Z :=
  f ← malloc;
  if negb (ino =? NULL) && negb (f =? NULL) then
    _ ← put_file f (mk_file ino 0 false); mret f
  else
    _ ← inode_close ino; mret NULL.

Definition file_reopen (f : Z) : M (fs D) Z :=
  fl ← get_file f; ino ← inode_reopen (f_inode fl); file_open ino.

Definition file_allow_write (f : Z) : M (fs D) unit :=
  _ ← assert (negb (f =? NULL));
  fl ← get_file f;
  if f_deny_write fl then
    _ ← put_file f (mk_file (f_inode fl) (f_pos fl) false); inode_allow_write (f_inode fl)
  else mret tt.

Definition file_deny_write (f : Z) : M (fs D) unit :=
  _ ← assert (negb (f =? NULL));
  fl ← get_file f;
  if negb (f_deny_write fl) then
    _ ← put_file f (mk_file (f_inode fl) (f_pos fl) true); inode_deny_write (f_inode fl)
  else mret tt.

Definition file_close (f : Z) : M (fs D) unit :=
  if f =? NULL then mret tt
  else
    _ ← file_allow_write f;
    fl ← get_file f;
    _ ← inode_close (f_inode fl);
    modify (fun s => set_files (delete f (files s)) s).

Definition file_get_inode (f : Z) : M (fs D) Z := fl ← get_file f; mret (f_inode fl).

Definition file_read (f size : Z) : M (fs D) (Z * list Z) :=
  fl ← get_file f;
  r ← inode_read_at (f_inode fl) size (f_pos fl);
  _ ← put_file f (mk_file (f_inode fl) (s32 (f_pos fl + r.1)) (f_deny_write fl));
  mret r.

Definition file_write (f : Z) (buffer : list Z) (size : Z) : M (fs D) Z :=
  fl ← get_file f;
  n ← inode_write_at (f_inode fl) buffer size (f_pos fl);
  _ ← put_file f (mk_file (f_inode fl) (s32 (f_pos fl + n)) (f_deny_write fl));
  mret n.

Definition file_length (f : Z) : M (fs D) Z :=
  _ ← assert (negb (f =? NULL));
  fl ← get_file f; i ← get_inode (f_inode fl); mret (inode_length i).

Definition file_seek (f new_pos : Z) : M (fs D) unit :=
  _ ← assert (negb (f =? NULL));
  _ ← assert (0 <=? new_pos);
  fl ← get_file f; put_file f (mk_file (f_inode fl) new_pos (f_deny_write fl)).

Definition file_tell (f : Z) : M (fs D) Z :=
  _ ← assert (negb (f =? NULL));
  fl ← get_file f; mret (f_pos fl).

(** The rest of [free-map.c]. *)
Definition free_map_open : M (fs D) unit :=
  ino ← inode_open FREE_MAP_SECTOR; f ← file_open ino;
  _ ← modify (set_free_map_file f);
  if f =? NULL then fail (Panicked "can't open free map")
  else
    s ← get;
    r ← bitmap_read (fun size => file_read_at f size 0) (free_map s);
    _ ← modify (set_free_map r.2);
    if (r.1 : bool) then mret tt else fail (Panicked "can't read free map").

Definition free_map_close : M (fs D) unit := s ← get; file_close (free_map_file s).

Definition free_map_create : M (fs D) unit :=
  s ← get;
  ok ← inode_create FREE_MAP_SECTOR (s32 (bitmap_file_size (free_map s)));
  if negb ok then fail (Panicked "free map creation failed")
  else
    ino ← inode_open FREE_MAP_SECTOR; f ← file_open ino;
    _ ← modify (set_free_map_file f);
    if f =? NULL then fail (Panicked "can't open free map")
    else
      ok ← write_free_map;
      if (ok : bool) then mret tt else fail (Panicked "can't write free map").
End Operations.
