(* ===== verification/Directory.v ===== *)
(** * Directories: [filesys/directory.c], and the file system calls of
    [filesys/filesys.c]

    A directory is a file of 20-byte entries.  Names are byte strings without
    their null byte.  An entry in memory is its 20 bytes: what a member that is
    not written keeps is part of the model. *)

From S2P Require Import Prelude Bitmap Block FsState Inode FreeMap File.

Definition NAME_MAX : Z := 14.
(** [sizeof (struct dir_entry)] *)
Definition ENTRY_SIZE : Z := 20.

(** The members of an entry: 4 bytes of sector, 15 of name and the flag. *)
Definition inode_sector (e : list Z) : Z := elem_of_bytes (take 4 e).
Definition in_use (e : list Z) : bool := negb (nth 19 e 0 =? 0).

(** [!strcmp (name, buf)] *)
Fixpoint str_eq (name buf : list Z) : res bool :=
  match name, buf with
  | _, [] => Err Trap
  | [], b :: _ => mret (b =? 0)
  | c :: name, b :: buf => if c =? b then str_eq name buf else mret false
  end.

(** [strlcpy (e.name, name, sizeof e.name)], and the other stores of [dir_add]. *)
Definition store_name (name old : list Z) : list Z :=
  overwrite old 0 (take 14 name ++ [0]).
Definition make_entry (e name : list Z) (sector : Z) : list Z :=
  elem_bytes sector ++ store_name name (take 15 (drop 4 e)) ++ [1].
Definition clear_in_use (e : list Z) : list Z := take 19 e ++ [0].
(** The string in [e.name]. *)
Fixpoint c_string (l : list Z) : list Z :=
  match l with [] => [] | c :: l => if c =? 0 then [] else c :: c_string l end.

Section Operations.
Context {D : Type} `{BlockOperations D}.

Definition dir_create (sector entry_cnt : Z) : M (fs D) bool :=
  inode_create sector (s32 (u32 (entry_cnt * ENTRY_SIZE))).

Definition dir_open (ino : Z) : M (fs D) Z :=
  d ← malloc;
  if negb (ino =? NULL) && negb (d =? NULL) then
    _ ← put_dir d (mk_dir ino 0); mret d
  else
    _ ← inode_close ino; mret NULL.

Definition dir_open_root : M (fs D) Z := ino ← inode_open ROOT_DIR_SECTOR; dir_open ino.

Definition dir_reopen (d : Z) : M (fs D) Z :=
  dr ← get_dir d; ino ← inode_reopen (dir_inode dr); dir_open ino.

Definition dir_close (d : Z) : M (fs D) unit :=
  if d =? NULL then mret tt
  else
    dr ← get_dir d; _ ← inode_close (dir_inode dr);
    modify (fun s => set_dirs (delete d (dirs s)) s).

Definition dir_get_inode (d : Z) : M (fs D) Z := dr ← get_dir d; mret (dir_inode dr).

(** As many reads as there are whole entries, and one that is short. *)
Definition dir_fuel (i : inode) : nat := S (Z.to_nat (inode_length i / ENTRY_SIZE)).

(** The loop of [lookup]: the entry and its offset. *)
Fixpoint lookup_loop (fuel : nat) (ino : Z) (name : list Z) (ofs : Z)
    : M (fs D) (option (list Z * Z)) :=
  match fuel with
  | O => fail OutOfFuel
  | S fuel =>
      r ← inode_read_at ino ENTRY_SIZE ofs;
      if r.1 =? ENTRY_SIZE then
        if in_use r.2 then
          eq ← lift (str_eq name (drop 4 r.2));
          if (eq : bool) then mret (Some (r.2, ofs)) else lookup_loop fuel ino name (ofs + ENTRY_SIZE)
        else lookup_loop fuel ino name (ofs + ENTRY_SIZE)
      else mret None
  end.
Definition lookup_entry (d : Z) (name : list Z) : M (fs D) (option (list Z * Z)) :=
  _ ← assert (negb (d =? NULL));
  dr ← get_dir d; i ← get_inode (dir_inode dr);
  lookup_loop (dir_fuel i) (dir_inode dr) name 0.

(** The inode stored to [*inode]; null if there is no such file. *)
Definition dir_lookup (d : Z) (name : list Z) : M (fs D) Z :=
  _ ← assert (negb (d =? NULL));
  r ← lookup_entry d name;
  match r with
  | Some (e, _) => inode_open (inode_sector e)
  | None => mret NULL
  end.

(** The loop of [dir_add] that looks for a free slot: its offset, and what the
    reads left in the entry [e]. *)
Fixpoint free_slot_loop (fuel : nat) (ino ofs : Z) (e : list Z) : M (fs D) (Z * list Z) :=
  match fuel with
  | O => fail OutOfFuel
  | S fuel =>
      r ← inode_read_at ino ENTRY_SIZE ofs;
      let e := r.2 ++ drop (length r.2) e in
      if r.1 =? ENTRY_SIZE then
        if negb (in_use e) then mret (ofs, e)
        else free_slot_loop fuel ino (ofs + ENTRY_SIZE) e
      else mret (ofs, e)
  end.

(** [junk] is what the stack holds where [e] is. *)
Definition dir_add (d : Z) (name : list Z) (sector : Z) (junk : list Z) : M (fs D) bool :=
  _ ← assert (negb (d =? NULL));
  if bool_decide (name = []) || (NAME_MAX <? Z.of_nat (length name)) then mret false
  else
    found ← lookup_entry d name;
    match found with
    | Some _ => mret false
    | None =>
        dr ← get_dir d; i ← get_inode (dir_inode dr);
        slot ← free_slot_loop (dir_fuel i) (dir_inode dr) 0 junk;
        n ← inode_write_at (dir_inode dr) (make_entry slot.2 name sector) ENTRY_SIZE slot.1;
        mret (n =? ENTRY_SIZE)
    end.

Definition dir_remove (d : Z) (name : list Z) : M (fs D) bool :=
  _ ← assert (negb (d =? NULL));
  r ← lookup_entry d name;
  match r with
  | None => mret false
  | Some (e, ofs) =>
      ino ← inode_open (inode_sector e);
      if ino =? NULL then mret false
      else
        dr ← get_dir d;
        n ← inode_write_at (dir_inode dr) (clear_in_use e) ENTRY_SIZE ofs;
        if negb (n =? ENTRY_SIZE) then _ ← inode_close ino; mret false
        else
          _ ← inode_remove ino; _ ← inode_close ino; mret true
  end.

(** The name stored to the buffer of the caller. *)
Fixpoint readdir_loop (fuel : nat) (d : Z) : M (fs D) (option (list Z)) :=
  match fuel with
  | O => fail OutOfFuel
  | S fuel =>
      dr ← get_dir d;
      r ← inode_read_at (dir_inode dr) ENTRY_SIZE (dir_pos dr);
      if r.1 =? ENTRY_SIZE then
        _ ← put_dir d (mk_dir (dir_inode dr) (s32 (dir_pos dr + ENTRY_SIZE)));
        if in_use r.2 then mret (Some (take 14 (c_string (drop 4 r.2))))
        else readdir_loop fuel d
      else mret None
  end.
Definition dir_readdir (d : Z) : M (fs D) (option (list Z)) :=
  dr ← get_dir d; i ← get_inode (dir_inode dr); readdir_loop (dir_fuel i) d.

(** ** [filesys.c] *)

Definition do_format : M (fs D) unit :=
  _ ← free_map_create;
  ok ← dir_create ROOT_DIR_SECTOR 16;
  if negb ok then fail (Panicked "root directory creation failed") else free_map_close.

Definition filesys_init (dev : option (block D)) (format : bool) (junk : list Z) : M (fs D) unit :=
  match dev with
  | None => fail (Panicked "No file system device found, can't initialize file system.")
  | Some b =>
      _ ← modify (set_device b);
      _ ← inode_init; _ ← free_map_init junk;
      _ ← (if format then do_format else mret tt);
      free_map_open
  end.

Definition filesys_done : M (fs D) unit := free_map_close.

Definition filesys_create (name : list Z) (initial_size : Z) (junk : list Z) : M (fs D) bool :=
  d ← dir_open_root;
  r ← (if d =? NULL then mret (false, 0)
       else
         a ← free_map_allocate 1;
         match a with
         | None => mret (false, 0)
         | Some sector =>
             ok ← inode_create sector initial_size;
             if negb ok then mret (false, sector)
             else ok ← dir_add d name sector junk; mret (ok, sector)
         end);
  _ ← (if negb r.1 && negb (r.2 =? 0) then free_map_release r.2 1 else mret tt);
  _ ← dir_close d;
  mret r.1.

Definition filesys_open (name : list Z) : M (fs D) Z :=
  d ← dir_open_root;
  ino ← (if d =? NULL then mret NULL else dir_lookup d name);
  _ ← dir_close d;
  file_open ino.

Definition filesys_remove (name : list Z) : M (fs D) bool :=
  d ← dir_open_root;
  ok ← (if d =? NULL then mret false else dir_remove d name);
  _ ← dir_close d;
  mret ok.
End Operations.
