(* ===== verification/FsInv.v ===== *)
(** * The invariant of the file system

    [live] maps the sector of every inode in use, linked or open, to what the
    sector holds.  The invariant says that the sectors of different inodes are
    disjoint and marked in the free map, that the inodes in memory are copies of
    live inodes, one for each sector, and that reference counts count: the
    openers of an inode are the files and directories that refer to it and the
    references held by running code. *)

From S2P Require Import Prelude Bitmap Block FsState Inode FreeMap File.

(** How often an address occurs in a list. *)
Definition occurs (a : Z) (l : list Z) : Z := Z.of_nat (length (filter (fun x => x = a) l)).

Definition file_refs (a : Z) (fl : file) : Z := b2z (f_inode fl =? a).
Definition dir_refs (a : Z) (d : dir) : Z := b2z (dir_inode d =? a).
Definition file_denies (a : Z) (fl : file) : Z := b2z ((f_inode fl =? a) && f_deny_write fl).

(** Data sectors of an inode. *)
Definition data_sector (d : inode_disk) (x : Z) : Prop :=
  d_start d <= x < d_start d + bytes_to_sectors (d_length d).
#[global] Instance data_sector_dec d x : Decision (data_sector d x).
Proof. unfold data_sector. apply _. Defined.
(** Sectors an inode in sector [sec] uses. *)
Definition footprint (sec : Z) (d : inode_disk) (x : Z) : Prop := x = sec \/ data_sector d x.

(** Who holds references: running code, files and directories.  A file or
    directory that is being closed has given up its reference already. *)
Record own := mk_own { o_code : list Z; o_files : gmap Z file; o_dirs : gmap Z dir }.
Definition hold (a : Z) (w : own) : own := mk_own (a :: o_code w) (o_files w) (o_dirs w).

(** References in all; the count of an inode is at most that. *)
Definition handles (w : own) : Z :=
  Z.of_nat (length (o_code w) + size (o_files w) + size (o_dirs w)).

Section Invariant.
Context `{BlockLaws D}.
Implicit Types s : fs D.

Record live_inode (b : block D) (sec : Z) (d : inode_disk) : Prop := {
  li_sec : 0 <= sec < b_size b;
  li_disk : sector b sec = disk_bytes d;
  li_extent : extent_ok b d;
  li_start : d_start d < 2 ^ 32;
  li_magic : d_magic d = INODE_MAGIC;
  li_unused : length (d_unused d) = 500%nat;
  li_self : ~ data_sector d sec;
}.

(** An inode on the list of open inodes. *)
Definition opn (s : fs D) (a : Z) (i : inode) : Prop := a ∈ open_inodes s /\ inodes s !! a = Some i.

(** The file of the free map is open and large enough for it. *)
Definition map_file_ok (s : fs D) : Prop :=
  exists fl i, files s !! free_map_file s = Some fl /\ opn s (f_inode fl) i /\
    i_sector i = FREE_MAP_SECTOR /\ deny_write_cnt i = 0 /\ removed i = false /\
    d_length (i_data i) = byte_cnt (bit_cnt (free_map s)).

Record fs_inv (s : fs D) (live : gmap Z inode_disk) (w : own) : Prop := {
  v_dev : block_ok (fs_device s);
  v_map : bitmap_ok (free_map s);
  v_len : Z.of_nat (length (bits (free_map s))) = elem_cnt (bit_cnt (free_map s));
  v_size : bit_cnt (free_map s) = b_size (fs_device s);
  v_small : b_size (fs_device s) <= 2 ^ 31;
  v_live : forall sec d, live !! sec = Some d -> live_inode (fs_device s) sec d;
  v_disj : forall n1 d1 n2 d2 x, live !! n1 = Some d1 -> live !! n2 = Some d2 ->
    footprint n1 d1 x -> footprint n2 d2 x -> n1 = n2;
  v_bits : forall sec d x, live !! sec = Some d -> footprint sec d x -> bit (free_map s) x = true;
  v_nodup : NoDup (open_inodes s);
  v_open : forall a, a ∈ open_inodes s -> is_Some (inodes s !! a);
  v_inode : forall a i, opn s a i ->
    live !! i_sector i = Some (i_data i) /\ 1 <= open_cnt i;
  v_inj : forall a1 a2 i1 i2, opn s a1 i1 -> opn s a2 i2 ->
    i_sector i1 = i_sector i2 -> a1 = a2;
  v_refs : forall a i, opn s a i ->
    open_cnt i = map_sum (file_refs a) (o_files w) + map_sum (dir_refs a) (o_dirs w) + occurs a (o_code w) /\
    deny_write_cnt i = map_sum (file_denies a) (o_files w);
  v_sub : o_files w ⊆ files s /\ o_dirs w ⊆ dirs s;
  v_files : forall f fl, o_files w !! f = Some fl -> f_inode fl ∈ open_inodes s /\ 0 <= f_pos fl < 2 ^ 31;
  v_dirs : forall d dr, o_dirs w !! d = Some dr -> dir_inode dr ∈ open_inodes s;
  v_code : forall a, a ∈ o_code w -> a ∈ open_inodes s;
  v_brk : 0 < brk s;
  v_addr : forall a, is_Some (inodes s !! a) \/ is_Some (files s !! a) \/ is_Some (dirs s !! a) ->
    0 < a < brk s;
  v_mapfile : free_map_file s = NULL \/ map_file_ok s /\ is_Some (o_files w !! free_map_file s);
  v_mem : fails s = [];
}.

Lemma occurs_cons a x l : occurs a (x :: l) = b2z (x =? a) + occurs a l.
Proof.
  unfold occurs. destruct (x =? a) eqn:E; bool_to_prop.
  - rewrite filter_cons_True by done. simpl. lia.
  - rewrite filter_cons_False by done. done.
Qed.
Lemma occurs_hold a x w : occurs a (o_code (hold x w)) = b2z (x =? a) + occurs a (o_code w).
Proof. apply occurs_cons. Qed.
Lemma occurs_bound a l : 0 <= occurs a l <= Z.of_nat (length l).
Proof. unfold occurs. pose proof (length_filter (fun x => x = a) l). lia. Qed.
Lemma file_refs_nonneg a fl : 0 <= file_refs a fl.
Proof. unfold file_refs. by destruct (_ =? _). Qed.
Lemma dir_refs_nonneg a d : 0 <= dir_refs a d.
Proof. unfold dir_refs. by destruct (_ =? _). Qed.
Lemma file_denies_le a fl : 0 <= file_denies a fl <= file_refs a fl.
Proof. unfold file_denies, file_refs. destruct (_ =? _), (f_deny_write fl); simpl; lia. Qed.

Lemma sectors_pos n : 0 <= n < 2 ^ 31 - 511 -> 0 <= bytes_to_sectors n.
Proof. intros. rewrite bytes_to_sectors_val by done. apply Z.div_pos; lia. Qed.

Lemma data_sector_range b d x : extent_ok (D:=D) b d -> data_sector d x -> 0 <= x < b_size b.
Proof.
  intros [Hs Hl He] [H1 H2]. rewrite bytes_to_sectors_val in H2 by done.
  Z.to_euclidean_division_equations. lia.
Qed.

Lemma footprint_range b sec d x : live_inode b sec d -> footprint sec d x -> 0 <= x < b_size b.
Proof. intros L [->|Hx]; [apply L|]. eapply data_sector_range; [apply L|done]. Qed.

(** The bytes of a file are in its data sectors. *)
Lemma contents_ext b b' d :
  (forall x, data_sector d x -> sector (D:=D) b' x = sector b x) -> extent_ok b d ->
  contents b' d = contents b d.
Proof.
  intros Hs [H1 H2 H3]. apply bytes_ext. intros p Hp. unfold dbyte. rewrite Hs; [done|].
  unfold data_sector. rewrite bytes_to_sectors_val by done.
  Z.to_euclidean_division_equations. lia.
Qed.

Lemma live_ext b b' sec d :
  like b b' -> sector b' sec = sector b sec -> live_inode b sec d -> live_inode b' sec d.
Proof.
  intros (_ & _ & _ & Ez) Es []. constructor; rewrite ?Ez, ?Es; try done.
  destruct li_extent0. constructor; by rewrite ?Ez.
Qed.

(** An open inode of the invariant can be read and written. *)
Lemma inv_open_inode s live w a i : fs_inv s live w -> opn s a i -> open_inode s a i.
Proof.
  intros V Hi. destruct (v_inode _ _ _ V a i Hi) as [Hl _].
  destruct Hi as [_ Hi]. constructor; [apply V|apply V| |done|apply (v_live _ _ _ V _ _ Hl)].
  assert (0 < a < brk s) by (apply V; eauto). unfold NULL. lia.
Qed.

Lemma open_cnt_bound s live w a i : fs_inv s live w -> opn s a i -> open_cnt i <= handles w.
Proof.
  intros V Hi. destruct (v_refs _ _ _ V a i Hi) as [-> _]. pose proof (occurs_bound a (o_code w)).
  assert (map_sum (file_refs a) (o_files w) <= Z.of_nat (size (o_files w))).
  { apply map_sum_size. intros f fl _. unfold file_refs. destruct (_ =? _); simpl; lia. }
  assert (map_sum (dir_refs a) (o_dirs w) <= Z.of_nat (size (o_dirs w))).
  { apply map_sum_size. intros f fl _. unfold dir_refs. destruct (_ =? _); simpl; lia. }
  unfold handles. lia.
Qed.

(** Statements that change no object in memory and no inode sector. *)
Lemma inv_calm s s' live w :
  fs_inv s live w -> calm s s' -> like (fs_device s) (fs_device s') ->
  (forall sec d, live !! sec = Some d -> sector (fs_device s') sec = sector (fs_device s) sec) ->
  fs_inv s' live w.
Proof.
  intros V C L Hs. destruct C as [Em Ef Ei Eo Efl Ed Hb Hf].
  destruct V. unfold map_file_ok, opn in *.
  constructor; unfold map_file_ok, opn; rewrite ?Em, ?Ef, ?Ei, ?Eo, ?Efl, ?Ed; try done; try (by auto).
  - apply L.
  - rewrite v_size0. symmetry. apply L.
  - destruct L as (_ & _ & _ & ->). done.
  - intros sec d Hl. eapply live_ext; [done|by eapply Hs|auto].
  - lia.
  - intros a Ha. specialize (v_addr0 a Ha). lia.
Qed.

Lemma inv_quiet s s' live w : fs_inv s live w -> quiet s s' -> fs_inv s' live w.
Proof. intros V (C & L & S). eapply inv_calm; eauto. Qed.
End Invariant.

(** ** Writing data, and the free map *)

Section FreeMap.
Context `{BlockLaws D}.
Implicit Types s : fs D.

(** Only the data sectors of [d] may differ. *)
Definition only_data (d : inode_disk) (b b' : block D) : Prop :=
  forall x, 0 <= x < b_size b -> ~ data_sector d x -> sector b' x = sector b x.

Lemma stored_only_data b b' d offset data :
  block_ok b -> extent_ok b d -> stored (D:=D) b b' (512 * d_start d + offset) data -> 0 <= offset ->
  data = [] \/ offset + Z.of_nat (length data) <= d_length d -> only_data d b b'.
Proof.
  intros Hb [Hs Hl He] St Ho Hn x Hx Hnot. eapply stored_outside; [done|exact St|done|].
  destruct Hn as [->|Hn]; [by left|right].
  assert (x < d_start d \/ d_start d + bytes_to_sectors (d_length d) <= x) as [?|Hge]
    by (unfold data_sector in Hnot; lia); [left; lia|right].
  rewrite bytes_to_sectors_val in Hge by done. Z.to_euclidean_division_equations. lia.
Qed.

(** Data sectors of a live inode hold no inode. *)
Lemma live_not_data s live w sec d sec' d' :
  fs_inv s live w -> live !! sec = Some d -> live !! sec' = Some d' -> ~ data_sector d sec'.
Proof.
  intros V Hl Hl' Hx. assert (sec = sec') as <-.
  { apply (v_disj _ _ _ V sec d sec' d' sec'); [done..|by right|by left]. }
  by apply (li_self _ _ _ (v_live _ _ _ V _ _ Hl)).
Qed.

(** Writing an inode keeps the data of the others. *)
Lemma only_data_contents s s' live w sec d sec' d' :
  fs_inv s live w -> live !! sec = Some d -> live !! sec' = Some d' -> sec' <> sec ->
  only_data d (fs_device s) (fs_device s') -> contents (fs_device s') d' = contents (fs_device s) d'.
Proof.
  intros V Hl Hl' Hne Ho. pose proof (li_extent _ _ _ (v_live _ _ _ V _ _ Hl')) as He.
  apply contents_ext; [|done]. intros x Hx. apply Ho; [by eapply data_sector_range|].
  intros Hx'. apply Hne. by apply (v_disj _ _ _ V sec' d' sec d x); [..|right|right].
Qed.

Lemma inv_only_data s s' live w sec d :
  fs_inv s live w -> live !! sec = Some d -> calm s s' -> like (fs_device s) (fs_device s') ->
  only_data d (fs_device s) (fs_device s') -> fs_inv s' live w.
Proof.
  intros V Hl C L Ho. eapply inv_calm; [done..|]. intros sec' d' Hl'. apply Ho.
  - apply (v_live _ _ _ V _ _ Hl').
  - by eapply live_not_data.
Qed.

Lemma inv_write_at s live w a i buffer size offset :
  fs_inv s live w -> opn s a i -> 0 <= offset < 2 ^ 31 ->
  size <= Z.of_nat (length buffer) -> deny_write_cnt i = 0 ->
  let n := avail (i_data i) size offset in
  exists s', inode_write_at a buffer size offset s = Ok (n, s') /\ fs_inv s' live w /\ calm s s' /\
    like (fs_device s) (fs_device s') /\ only_data (i_data i) (fs_device s) (fs_device s') /\
    contents (fs_device s') (i_data i) =
      overwrite (contents (fs_device s) (i_data i)) offset (take (Z.to_nat n) buffer).
Proof.
  intros V Hi Ho Hl Hd n. pose proof (inv_open_inode _ _ _ _ _ V Hi) as Hop.
  destruct (inode_write_at_ok s a i buffer size offset Hop Ho Hl Hd) as (k & s' & E & Hk & Hkf & C & St).
  rewrite (Hkf (v_mem _ _ _ V)) in *. fold n in E, Hk, St.
  assert (Hn : Z.of_nat (length (take (Z.to_nat n) buffer)) = n).
  { rewrite length_take. unfold n, avail in *. lia. }
  assert (only_data (i_data i) (fs_device s) (fs_device s')) as Hod.
  { eapply stored_only_data; [apply V|apply Hop|exact St|lia|]. rewrite Hn.
    destruct (decide (n = 0)) as [->|]; [by left|right]. unfold n, avail in *. lia. }
  exists s'. split; [done|]. destruct (v_inode _ _ _ V a i Hi) as [Hlive _].
  split; [by eapply inv_only_data; [..|apply St|]|]. split; [done|]. split; [apply St|].
  split; [done|]. unfold contents. eapply stored_bytes; [exact St|lia|]. rewrite Hn. unfold n, avail. lia.
Qed.

(** Changes of the bitmap in memory. *)
Lemma inv_set_map s live w b :
  fs_inv s live w -> bitmap_ok b -> bit_cnt b = bit_cnt (free_map s) ->
  length (bits b) = length (bits (free_map s)) ->
  (forall sec d x, live !! sec = Some d -> footprint sec d x -> bit b x = true) ->
  fs_inv (set_free_map b s) live w.
Proof.
  intros [] Hb Hc Hl Hbits. constructor; simpl; try done; try (by auto).
  - by rewrite Hl, Hc.
  - by rewrite Hc.
  - destruct v_mapfile0 as [?|[(fl & i & Hm) ?]]; [by left|right]. split; [|done]. exists fl, i. simpl. by rewrite Hc.
Qed.

Lemma elems_bytes_size s live w :
  fs_inv s live w ->
  Z.of_nat (length (elems_bytes (bits (free_map s)))) = byte_cnt (bit_cnt (free_map s)) /\
  0 <= byte_cnt (bit_cnt (free_map s)) < 2 ^ 31.
Proof.
  intros V. pose proof (ok_cnt _ (v_map _ _ _ V)) as Hc. pose proof (v_len _ _ _ V) as Hl.
  rewrite elem_cnt_div in Hl by done. destruct (byte_cnt_val _ Hc) as [E ?].
  rewrite elems_bytes_length. lia.
Qed.

(** Writing the free map out: its file then holds it, and nothing else changes. *)
Lemma write_free_map_ok s live w :
  fs_inv s live w -> map_file_ok s ->
  exists d0 s', live !! FREE_MAP_SECTOR = Some d0 /\ write_free_map s = Ok (true, s') /\
    fs_inv s' live w /\ calm s s' /\ like (fs_device s) (fs_device s') /\
    only_data d0 (fs_device s) (fs_device s') /\
    contents (fs_device s') d0 = elems_bytes (bits (free_map s)).
Proof.
  intros V (fl & i & Hf & Hi & Hsec & Hd & _ & Hlen). destruct (elems_bytes_size s live w V) as [Hsz Hr].
  destruct (inv_write_at s live w (f_inode fl) i (elems_bytes (bits (free_map s)))
    (byte_cnt (bit_cnt (free_map s))) 0) as (s' & E & V' & C & L & O & Hc); [done..|lia|lia|done|].
  assert (avail (i_data i) (byte_cnt (bit_cnt (free_map s))) 0 = byte_cnt (bit_cnt (free_map s))) as Ea
    by (unfold avail; lia). rewrite Ea in *.
  destruct (v_inode _ _ _ V _ i Hi) as [Hlive _]. rewrite Hsec in Hlive.
  exists (i_data i), s'. split; [done|]. split.
  - unfold write_free_map. bind_by reflexivity.
    erewrite bitmap_write_ok; [|apply V|].
    + by rewrite Z.eqb_refl.
    + unfold file_write_at. bind_by (unfold get_file; rewrite Hf; reflexivity). exact E.
  - split_and!; try done. rewrite Hc. unfold overwrite. simpl.
    rewrite (take_ge (elems_bytes _)) by lia. rewrite drop_ge, app_nil_r; [done|].
    unfold contents. rewrite bytes_length, Hlen. lia.
Qed.
End FreeMap.

Section Allocation.
Context `{BlockLaws D}.
Implicit Types s : fs D.

(** As [calm], but for the free map. *)
Record steady (s s' : fs D) : Prop := {
  st_map_file : free_map_file s' = free_map_file s;
  st_inodes : inodes s' = inodes s;
  st_open : open_inodes s' = open_inodes s;
  st_files : files s' = files s;
  st_dirs : dirs s' = dirs s;
  st_brk : brk s <= brk s';
  st_like : like (fs_device s) (fs_device s');
  st_cnt : bit_cnt (free_map s') = bit_cnt (free_map s);
}.

Lemma steady_calm s s' : calm s s' -> like (fs_device s) (fs_device s') -> steady s s'.
Proof. intros [] L. constructor; try done. congruence. Qed.
Lemma steady_trans s s1 s2 : steady s s1 -> steady s1 s2 -> steady s s2.
Proof. intros [] []. constructor; try congruence; [lia|by eapply like_trans]. Qed.
Lemma steady_map s b : block_ok (fs_device s) -> bit_cnt b = bit_cnt (free_map s) -> steady s (set_free_map b s).
Proof. intros. by constructor. Qed.
Lemma steady_map_file s s' : steady s s' -> map_file_ok s -> map_file_ok s'.
Proof.
  intros [Em Ei Eo Ef _ _ _ Ec] (fl & i & Hm). exists fl, i. unfold opn. by rewrite Em, Ei, Eo, Ef, Ec.
Qed.

(** Only the data of the free map may differ on the device. *)
Definition keeps (live : gmap Z inode_disk) s s' : Prop :=
  forall x, 0 <= x < b_size (fs_device s) ->
    (forall d0, live !! FREE_MAP_SECTOR = Some d0 -> ~ data_sector d0 x) ->
    sector (fs_device s') x = sector (fs_device s) x.

Lemma keeps_refl live s : keeps live s s.
Proof. by intros x. Qed.
Lemma keeps_trans live s s1 s2 :
  steady s s1 -> keeps live s s1 -> keeps live s1 s2 -> keeps live s s2.
Proof.
  intros S K1 K2 x Hx Hd. rewrite K2; [by apply K1| |done].
  by destruct (st_like _ _ S) as (_ & _ & _ & ->).
Qed.
Lemma keeps_only live s s' d0 :
  live !! FREE_MAP_SECTOR = Some d0 -> only_data d0 (fs_device s) (fs_device s') -> keeps live s s'.
Proof. intros Hl Ho x Hx Hd. apply Ho; auto. Qed.

Lemma keeps_contents s s' live w sec d :
  fs_inv s live w -> keeps live s s' -> live !! sec = Some d -> sec <> FREE_MAP_SECTOR ->
  contents (fs_device s') d = contents (fs_device s) d.
Proof.
  intros V K Hl Hne. pose proof (li_extent _ _ _ (v_live _ _ _ V _ _ Hl)) as He.
  apply contents_ext; [|done]. intros x Hx. apply K; [by eapply data_sector_range|].
  intros d0 Hl0 Hx0. apply Hne. by apply (v_disj _ _ _ V sec d _ d0 x); [..|right|right].
Qed.

(** The file of the free map holds it, up to the unused bits of its last word. *)
Definition same_bits (m b : bitmap) : Prop :=
  bitmap_ok m /\ bit_cnt m = bit_cnt b /\ length (bits m) = length (bits b) /\
  forall i, 0 <= i < bit_cnt b -> bit m i = bit b i.
Definition saved s (live : gmap Z inode_disk) : Prop :=
  free_map_file s <> NULL -> forall d0, live !! FREE_MAP_SECTOR = Some d0 ->
    exists m, same_bits m (free_map s) /\ contents (fs_device s) d0 = elems_bytes (bits m).

Lemma saved_now s live w d0 :
  fs_inv s live w -> live !! FREE_MAP_SECTOR = Some d0 ->
  contents (fs_device s) d0 = elems_bytes (bits (free_map s)) -> saved s live.
Proof.
  intros V Hd0 Hc _ d1 Hd1. exists (free_map s). split; [by split; [apply V|]|]. congruence.
Qed.

(** What [free_map_allocate] answers. *)
Definition allocated (b b' : bitmap) (cnt : Z) (r : option Z) : Prop :=
  match r with
  | None => b' = b /\ forall j, 0 <= j -> ~ group b j cnt false
  | Some x => 0 <= x /\ x + cnt <= bit_cnt b /\ (forall k, x <= k < x + cnt -> bit b k = false) /\
      forall k, 0 <= k -> bit b' k = in_range x cnt k || bit b k
  end.

Lemma allocate_ok s live w cnt :
  fs_inv s live w -> 0 <= cnt ->
  exists r s', free_map_allocate cnt s = Ok (r, s') /\ fs_inv s' live w /\ steady s s' /\
    keeps live s s' /\ allocated (free_map s) (free_map s') cnt r /\ (saved s live -> saved s' live).
Proof.
  intros V Hc. pose proof (v_map _ _ _ V) as Hb. pose proof (ok_cnt _ Hb).
  destruct (bitmap_scan_and_flip_ok (free_map s) 0 cnt false) as (r & b' & E & Hr & Hu); [done|lia|done|].
  unfold free_map_allocate. bind_by reflexivity. bind_by (rewrite E; reflexivity). cbn [fst snd].
  bind_by reflexivity. destruct Hr as [(Hr0 & Hre & [Hle Hg] & _)|(-> & Hno)].
  2: { rewrite decide_True in Hu by done. subst b'. rewrite Z.eqb_refl. cbn [negb andb].
       bind_by reflexivity. rewrite Z.eqb_refl.
       assert (set_free_map (free_map s) s = s) as -> by (by destruct s).
       exists None, s. split; [done|]. split; [done|]. split; [apply steady_calm; [apply calm_refl|by apply like_refl, V]|].
       split; [apply keeps_refl|]. split; [done|done]. }
  rewrite decide_False in Hu by lia. destruct Hu as (Hb' & Hcnt & Hlen & Hbit).
  rewrite (proj2 (Z.eqb_neq r _)) by lia. cbn [negb andb].
  assert (Hall : allocated (free_map s) b' cnt (Some r)).
  { split; [done|]. split; [done|]. split; [done|]. intros k Hk. rewrite Hbit by done. by destruct (in_range _ _ _). }
  assert (V1 : fs_inv (set_free_map b' s) live w).
  { apply inv_set_map; try done. intros sec d x Hl Hx. destruct Hall as (_ & _ & _ & ->).
    - rewrite (v_bits _ _ _ V sec d x Hl Hx). apply orb_true_r.
    - pose proof (footprint_range _ sec d x (v_live _ _ _ V _ _ Hl) Hx). lia. }
  assert (S1 : steady s (set_free_map b' s)) by (apply steady_map; [apply V|done]).
  destruct (free_map_file s =? NULL) eqn:Ef; bool_to_prop; cbn [negb].
  - bind_by reflexivity. rewrite (proj2 (Z.eqb_neq r _)) by lia.
    exists (Some r), (set_free_map b' s). do 3 (split; [done|]). split; [by intros x|]. split; [done|]. by intros _ Hnull.
  - destruct (v_mapfile _ _ _ V1) as [Hn|[Hm _]]; [by destruct Ef|].
    destruct (write_free_map_ok _ live w V1 Hm) as (d0 & s2 & Hl0 & Ew & V2 & C2 & L2 & O2 & W2).
    bind_by (by bind_by (exact Ew)). rewrite (proj2 (Z.eqb_neq r _)) by lia.
    exists (Some r), s2. split; [done|]. split; [done|].
    split; [eapply steady_trans; [exact S1|by apply steady_calm]|].
    split; [by eapply (keeps_only live s s2)|]. rewrite (calm_map _ _ C2). split; [done|].
    intros _. eapply saved_now; [exact V2|done|]. by rewrite (calm_map _ _ C2).
Qed.

Lemma release_ok s live w sec cnt :
  fs_inv s live w -> map_file_ok s -> 0 <= sec -> 0 <= cnt -> sec + cnt <= bit_cnt (free_map s) ->
  (forall k, sec <= k < sec + cnt -> bit (free_map s) k = true) ->
  (forall n d x, live !! n = Some d -> footprint n d x -> ~ (sec <= x < sec + cnt)) ->
  exists s', free_map_release sec cnt s = Ok (tt, s') /\ fs_inv s' live w /\ steady s s' /\
    keeps live s s' /\ saved s' live /\
    forall k, 0 <= k -> bit (free_map s') k = negb (in_range sec cnt k) && bit (free_map s) k.
Proof.
  intros V Hm Hs Hc Hle Hall Hfree. pose proof (v_map _ _ _ V) as Hb.
  destruct (bitmap_all_ok (free_map s) sec cnt) as (c & Ea & Hca); [done..|].
  destruct (bitmap_set_multiple_ok (free_map s) sec cnt false) as (b' & Eb & Hb' & Hcnt & Hlen & Hbit); [done..|].
  unfold free_map_release. bind_by reflexivity. bind_by (rewrite Ea; reflexivity).
  bind_by (apply assert_run, Hca; done). bind_by (rewrite Eb; reflexivity). bind_by reflexivity.
  assert (V1 : fs_inv (set_free_map b' s) live w).
  { apply inv_set_map; try done. intros n d x Hl Hx. specialize (Hfree n d x Hl Hx).
    pose proof (footprint_range _ n d x (v_live _ _ _ V _ _ Hl) Hx). rewrite Hbit by lia.
    destruct (in_range sec cnt x) eqn:Ei; [unfold in_range in Ei; bool_to_prop; lia|].
    by apply (v_bits _ _ _ V n d x). }
  assert (S1 : steady s (set_free_map b' s)) by (apply steady_map; [apply V|done]).
  destruct (write_free_map_ok _ live w V1) as (d0 & s2 & Hl0 & Ew & V2 & C2 & L2 & O2 & W2).
  { by eapply steady_map_file. }
  bind_by (exact Ew). exists s2. split; [done|]. split; [done|].
  split; [eapply steady_trans; [exact S1|by apply steady_calm]|].
  split; [by eapply (keeps_only live s s2)|].
  split; [eapply saved_now; [exact V2|done|]; by rewrite (calm_map _ _ C2)|]. intros k Hk. rewrite (calm_map _ _ C2). simpl.
  rewrite Hbit by done. by destruct (in_range _ _ _).
Qed.
End Allocation.

(** ** Creating an inode *)

Section Create.
Context `{BlockLaws D}.
Implicit Types s : fs D.

Lemma zero_sectors_ok n : forall s x,
  block_ok (fs_device s) -> 0 <= x -> x + Z.of_nat n <= b_size (fs_device s) ->
  exists s', zero_sectors n x s = Ok (tt, s') /\ calm s s' /\ like (fs_device s) (fs_device s') /\
    (forall y, x <= y < x + Z.of_nat n -> sector (fs_device s') y = replicate 512 0) /\
    (forall y, ~ (x <= y < x + Z.of_nat n) -> sector (fs_device s') y = sector (fs_device s) y).
Proof.
  induction n as [|n IH]; intros s x Hb Hx Hle.
  { exists s. split; [done|]. split; [apply calm_refl|]. split; [by apply like_refl|]. split; [lia|done]. }
  assert (b_size (fs_device s) <= 2 ^ 32) by apply Hb.
  destruct (device_write s x (replicate 512 0)) as (s1 & E1 & C1 & B1 & F1 & L1 & S1 & O1); [done|lia|done|].
  destruct (IH s1 (x + 1)) as (s2 & E2 & C2 & L2 & S2 & O2); [apply L1|lia|destruct L1 as (_ & _ & _ & ->); lia|].
  exists s2. cbn [zero_sectors]. rewrite u32_small by lia.
  split; [by bind_by (exact E1)|]. split; [by eapply calm_trans|]. split; [by eapply like_trans|]. split.
  - intros y Hy. destruct (decide (y = x)) as [->|]; [|apply S2; lia]. rewrite O2 by lia. done.
  - intros y Hy. rewrite O2, O1 by lia. done.
Qed.

Lemma zero_contents b d :
  extent_ok (D:=D) b d -> (forall x, data_sector d x -> sector b x = replicate 512 0) ->
  contents b d = replicate (Z.to_nat (d_length d)) 0.
Proof.
  intros [H1 H2 H3] Hz. apply list_eq. intros j. unfold contents. rewrite bytes_lookup. case_decide as Hj.
  - rewrite lookup_replicate_2 by lia. f_equal. unfold dbyte. rewrite Hz.
    + rewrite nth_lookup. by destruct (replicate 512 0 !! _) eqn:E; [apply lookup_replicate in E as [-> _]|].
    + unfold data_sector. rewrite bytes_to_sectors_val by done. Z.to_euclidean_division_equations. lia.
  - symmetry. apply lookup_ge_None. rewrite length_replicate. lia.
Qed.

(** Sectors for lengths too close to the limit of [off_t] cannot be allocated. *)
Lemma sectors_small len m :
  0 <= len < 2 ^ 31 -> bytes_to_sectors len <= m -> m <= 2 ^ 31 -> len < 2 ^ 31 - 511.
Proof.
  intros Hl Hb Hm. destruct (decide (len < 2 ^ 31 - 511)); [done|exfalso].
  unfold bytes_to_sectors, BLOCK_SECTOR_SIZE in Hb.
  assert (s32 (len + 512 - 1) = len + 511 - 2 ^ 32) as E.
  { unfold s32. replace (len + 512 - 1 + 2 ^ 31) with (len + 511 - 2 ^ 31 + 1 * 2 ^ 32) by lia.
    rewrite Z.mod_add, Z.mod_small by lia. lia. }
  rewrite E in Hb. unfold u32 in Hb.
  replace (Z.quot (len + 511 - 2 ^ 32) 512) with (- Z.quot (2 ^ 32 - 511 - len) 512) in Hb
    by (rewrite <- Z.quot_opp_l by lia; f_equal; lia).
  rewrite Z.quot_div_nonneg in Hb by lia.
  assert (1 <= (2 ^ 32 - 511 - len) / 512 <= 2 ^ 23) by
    (split; [apply Z.div_le_lower_bound; lia|apply Z.div_le_upper_bound; lia]).
  rewrite <- (Z.mod_add _ 1) in Hb by lia. rewrite Z.mod_small in Hb by lia. lia.
Qed.

(** The new inode next to the live ones. *)
Lemma inv_add_live s s' live w sec d :
  fs_inv s live w -> steady s s' -> fails s' = [] -> live_inode (fs_device s') sec d ->
  bitmap_ok (free_map s') -> length (bits (free_map s')) = length (bits (free_map s)) ->
  (forall n dn, live !! n = Some dn -> sector (fs_device s') n = sector (fs_device s) n) ->
  (forall n dn x, live !! n = Some dn -> footprint n dn x -> ~ footprint sec d x) ->
  (forall x, 0 <= x < b_size (fs_device s) -> footprint sec d x \/ bit (free_map s) x = true ->
     bit (free_map s') x = true) ->
  fs_inv s' (<[sec := d]> live) w.
Proof.
  intros V [] Hf Hl Hm Hlen Hs Hd Hb. destruct st_like0 as (Hok & Hn & Ht & Hz).
  assert (Hfresh : live !! sec = None).
  { destruct (live !! sec) as [d'|] eqn:E; [|done]. by destruct (Hd sec d' sec E); [left|left]. }
  destruct V. unfold map_file_ok, opn in *. constructor; unfold map_file_ok, opn; rewrite ?st_map_file0, ?st_inodes0, ?st_open0, ?st_files0, ?st_dirs0; try done.
  - by rewrite Hlen, st_cnt0.
  - by rewrite st_cnt0, Hz.
  - by rewrite Hz.
  - intros n dn [[<- <-]|[Hne Hln]]%lookup_insert_Some; [done|].
    eapply live_ext; [done|by eapply Hs|auto].
  - intros n1 d1 n2 d2 x [[<- <-]|[Hne1 Hl1]]%lookup_insert_Some [[<- <-]|[Hne2 Hl2]]%lookup_insert_Some F1 F2;
      [done|by destruct (Hd n2 d2 x)|by destruct (Hd n1 d1 x)|by eapply v_disj0].
  - intros n dn x [[<- <-]|[Hne Hln]]%lookup_insert_Some Hx.
    + apply Hb; [rewrite <- Hz; by eapply footprint_range|by left].
    + apply Hb; [by eapply footprint_range; eauto|right; eauto].
  - intros a i Hi. destruct (v_inode0 a i Hi) as [Hli ?]. split; [|lia].
    rewrite lookup_insert_ne; [done|]. intros ->. congruence.
  - lia.
  - intros a Ha. specialize (v_addr0 a Ha). lia.
  - by rewrite st_cnt0.
Qed.

Lemma malloc_ok s live w :
  fs_inv s live w -> malloc s = Ok (brk s, set_mem (brk s + 1) [] s) /\ brk s <> NULL /\
  calm s (set_mem (brk s + 1) [] s) /\ fs_inv (set_mem (brk s + 1) [] s) live w.
Proof.
  intros V. pose proof (v_brk _ _ _ V). unfold malloc. rewrite (v_mem _ _ _ V). simpl.
  assert (calm s (set_mem (brk s + 1) [] s)) as C by (constructor; simpl; try done; lia).
  split; [done|]. split; [unfold NULL; lia|]. split; [done|].
  eapply inv_calm; [done..|apply like_refl, V|done].
Qed.

(** A sector that is marked and not used by a live inode. *)
Definition reserved s (live : gmap Z inode_disk) (sec : Z) : Prop :=
  0 <= sec < b_size (fs_device s) /\ bit (free_map s) sec = true /\
  forall n d, live !! n = Some d -> ~ footprint n d sec.

(** What [inode_create] does, when it succeeds and when it fails. *)
Definition created s s' (live : gmap Z inode_disk) (w : own) (sec len : Z) (ok : bool) : Prop :=
  steady s s' /\
  (forall n d, live !! n = Some d -> n <> FREE_MAP_SECTOR -> contents (fs_device s') d = contents (fs_device s) d) /\
  if ok then exists d, fs_inv s' (<[sec := d]> live) w /\ d_length d = len /\
      contents (fs_device s') d = replicate (Z.to_nat len) 0 /\ (saved s live -> saved s' (<[sec := d]> live)) /\
      (forall k, data_sector d k -> bit (free_map s) k = false) /\
      forall k, 0 <= k -> bit (free_map s') k = bool_decide (data_sector d k) || bit (free_map s) k
  else fs_inv s' live w /\ free_map s' = free_map s /\ (saved s live -> saved s' live) /\
    forall j, 0 <= j -> ~ group (free_map s) j (bytes_to_sectors len) false.

(** The writes of [inode_create], once the data sectors are allocated. *)
Lemma create_writes s live w sec len start :
  let d := mk_inode_disk start len INODE_MAGIC (replicate 500 0) in
  fs_inv s live w -> reserved s live sec -> 0 <= len < 2 ^ 31 - 511 -> 0 <= start ->
  start + bytes_to_sectors len <= bit_cnt (free_map s) ->
  (forall k, data_sector d k -> bit (free_map s) k = true /\ k <> sec) ->
  (forall n dn x, live !! n = Some dn -> footprint n dn x -> ~ data_sector d x) ->
  exists s', (_ ← on_device (block_write sec (disk_bytes d));
              _ ← zero_sectors (Z.to_nat (bytes_to_sectors len)) start; mret true) s = Ok (true, s') /\
    calm s s' /\ like (fs_device s) (fs_device s') /\ fs_inv s' (<[sec := d]> live) w /\
    contents (fs_device s') d = replicate (Z.to_nat len) 0 /\
    forall n dn x, live !! n = Some dn -> footprint n dn x ->
      sector (fs_device s') x = sector (fs_device s) x.
Proof.
  intros d V (Hsec & Hmark & Hnot) Hlen Hst Hend Hnew Hold. pose proof (sectors_pos len Hlen) as Hpos.
  destruct (device_write s sec (disk_bytes d)) as (s3 & E3 & C3 & _ & _ & L3 & W3 & O3);
    [apply V|lia|by apply disk_bytes_length|].
  destruct (zero_sectors_ok (Z.to_nat (bytes_to_sectors len)) s3 start) as (s4 & E4 & C4 & L4 & W4 & O4);
    [apply L3|done|destruct L3 as (_ & _ & _ & ->); rewrite <- (v_size _ _ _ V); lia|].
  rewrite Z2Nat.id in W4, O4 by lia. bind_by (exact E3). bind_by (exact E4).
  pose proof (calm_trans _ _ _ C3 C4) as C. pose proof (like_trans _ _ _ L3 L4) as L.
  assert (Hlv : forall n dn x, live !! n = Some dn -> footprint n dn x ->
    sector (fs_device s4) x = sector (fs_device s) x).
  { intros n dn x Hl Hx. rewrite O4, O3; [done| |by apply (Hold n dn x)]. intros ->. by apply (Hnot n dn). }
  assert (He : extent_ok (fs_device s4) d).
  { destruct L as (_ & _ & _ & Hz). constructor; simpl; [done|lia|]. rewrite Hz, <- (v_size _ _ _ V).
    rewrite bytes_to_sectors_val in Hend by lia. Z.to_euclidean_division_equations. lia. }
  assert (Hself : ~ data_sector d sec) by (intros Hd; by destruct (Hnew sec Hd)).
  exists s4. split; [done|]. split; [done|]. split; [done|]. split; [|split; [|exact Hlv]].
  - apply (inv_add_live s); [done|by apply steady_calm|apply (calm_fails _ _ C), V| | | | | |];
      rewrite ?(calm_map _ _ C); [|apply V|done| | |].
    + pose proof (ok_cnt _ (v_map _ _ _ V)). destruct L as (_ & _ & _ & Hz).
      constructor; simpl; try done; [by rewrite Hz|by rewrite O4|lia].
    + intros n dn Hl. apply (Hlv n dn n Hl). by left.
    + intros n dn x Hl Hx [->|Hd]; [by apply (Hnot n dn)|by apply (Hold n dn x)].
    + intros x Hx [[->|Hd]|]; [done|by apply Hnew|done].
  - apply (zero_contents _ d He). intros x [Hd1 Hd2]. apply W4. by split.
Qed.

Lemma inode_create_ok s live w sec len :
  fs_inv s live w -> reserved s live sec -> 0 <= len < 2 ^ 31 ->
  exists ok s', inode_create sec len s = Ok (ok, s') /\ created s s' live w sec len ok.
Proof.
  intros V (Hsec & Hmark & Hnot) Hlen. destruct (malloc_ok s live w V) as (Em & Hn & C1 & V1).
  set (s1 := set_mem (brk s + 1) [] s) in *. unfold inode_create.
  bind_by (apply assert_run, Z.leb_le; lia). bind_by (exact Em).
  rewrite (proj2 (Z.eqb_neq _ _) Hn). cbv zeta.
  assert (0 <= bytes_to_sectors len) by (unfold bytes_to_sectors, u32; apply Z.mod_pos_bound; lia).
  destruct (allocate_ok s1 live w (bytes_to_sectors len) V1) as (r & s2 & Ea & V2 & S2 & K2 & A2 & W2); [done|].
  bind_by (exact Ea).
  assert (S02 : steady s s2) by (eapply steady_trans; [apply steady_calm; [exact C1|apply like_refl, V]|done]).
  assert (K02 : forall n d, live !! n = Some d -> n <> FREE_MAP_SECTOR ->
    contents (fs_device s2) d = contents (fs_device s) d)
    by (intros n d; apply (keeps_contents s1 s2 live w n d V1 K2)).
  destruct r as [start|].
  2: { exists false, s2. split; [done|]. split; [done|]. split; [done|]. destruct A2 as [Emap Hno].
       split; [done|]. split; [by rewrite Emap|]. split; [|done]. intros Hs. by apply W2. }
  destruct A2 as (Hst & Hend & Hwas & Hnow). change (free_map s1) with (free_map s) in *.
  pose proof (v_small _ _ _ V). pose proof (v_size _ _ _ V).
  assert (Hsm : len < 2 ^ 31 - 511) by (apply (sectors_small len (2 ^ 31)); lia).
  destruct (st_like _ _ S02) as (_ & _ & _ & Hz). pose proof (st_cnt _ _ S02) as Hc.
  destruct (create_writes s2 live w sec len start) as (s3 & E3 & C3 & L3 & V3 & Hc3 & Hk3); try done; try lia.
  { split; [lia|]. split; [rewrite Hnow, Hmark by lia; apply orb_true_r|done]. }
  { intros k [Hk1 Hk2]. simpl in Hk1, Hk2. split.
    - rewrite Hnow by lia. unfold in_range. by rewrite (proj2 (Z.leb_le _ _) Hk1), (proj2 (Z.ltb_lt _ _) Hk2).
    - intros ->. rewrite Hwas in Hmark by lia. done. }
  { intros n dn x Hl Hx [Hx1 Hx2]. simpl in Hx1, Hx2.
    pose proof (v_bits _ _ _ V n dn x Hl Hx) as Hb. rewrite Hwas in Hb by lia. done. }
  exists true, s3. split; [exact E3|].
  split; [eapply steady_trans; [exact S02|by apply steady_calm]|].
  assert (Hold : forall n dn, live !! n = Some dn -> contents (fs_device s3) dn = contents (fs_device s2) dn).
  { intros n dn Hl. apply contents_ext; [|apply (v_live _ _ _ V2 _ _ Hl)]. intros x Hx. apply (Hk3 n dn x Hl). by right. }
  split; [intros n dn Hl Hne; by rewrite (Hold n dn Hl), <- (K02 n dn Hl Hne)|].
  eexists. split; [exact V3|]. split; [done|]. split; [done|]. split.
  - intros Hsav Hf d0 Hd0. rewrite (calm_map_file _ _ C3) in Hf. rewrite (calm_map _ _ C3).
    assert (is_Some (live !! FREE_MAP_SECTOR)) as [d1 Hd1].
    { destruct (v_mapfile _ _ _ V2) as [?|[(fl & j & _ & Hj & Ej & _) _]]; [done|].
      destruct (v_inode _ _ _ V2 _ j Hj) as [Hlj _]. rewrite Ej in Hlj. by eexists. }
    assert (sec <> FREE_MAP_SECTOR) by (intros ->; apply (Hnot _ d1 Hd1); by left).
    rewrite lookup_insert_ne in Hd0 by done. rewrite (Hold _ _ Hd0). by apply W2.
  - split; [intros k [Hk1 Hk2]; simpl in Hk1, Hk2; apply Hwas; lia|].
    intros k Hk. rewrite (calm_map _ _ C3), Hnow by done. unfold data_sector, in_range. simpl.
    f_equal. apply eq_true_iff_eq. rewrite andb_true_iff, bool_decide_eq_true, Z.leb_le, Z.ltb_lt. done.
Qed.
End Create.

(** ** Opening and closing inodes *)

Section OpenClose.
Context `{BlockLaws D}.
Implicit Types s : fs D.

(** Changes of an inode that count openers only. *)
Definition same_inode (i i' : inode) : Prop :=
  i_sector i' = i_sector i /\ removed i' = removed i /\ deny_write_cnt i' = deny_write_cnt i /\
  i_data i' = i_data i.

Lemma find_open_ok (m : gmap Z inode) l sec :
  (forall a, a ∈ l -> is_Some (m !! a)) ->
  exists r, find_open m l sec = Ok r /\
    match r with
    | Some a => a ∈ l /\ exists i, m !! a = Some i /\ i_sector i = sec
    | None => forall a i, a ∈ l -> m !! a = Some i -> i_sector i <> sec
    end.
Proof.
  induction l as [|a l IH]; intros Hl; [exists None; split; [done|]; by intros a i ?%not_elem_of_nil|].
  destruct (Hl a) as [i Hi]; [left|]. simpl. rewrite Hi. simpl. destruct (i_sector i =? sec) eqn:E; bool_to_prop.
  - exists (Some a). split; [done|]. split; [left|by exists i].
  - destruct IH as (r & Er & Hr); [intros; apply Hl; by right|]. exists r. split; [done|].
    destruct r as [a'|].
    + destruct Hr as [? ?]. split; [by right|done].
    + intros a' i' [->|Ha]%elem_of_cons Hi'; [congruence|by apply (Hr a' i')].
Qed.

(** One more opener of an inode that is open. *)
Lemma inv_reopen s live w a i :
  fs_inv s live w -> opn s a i -> handles w < 2 ^ 31 - 1 ->
  let i' := mk_inode (i_sector i) (open_cnt i + 1) (removed i) (deny_write_cnt i) (i_data i) in
  inode_reopen a s = Ok (a, set_inodes (<[a := i']> (inodes s)) s) /\
  fs_inv (set_inodes (<[a := i']> (inodes s)) s) live (hold a w).
Proof.
  intros V Hi Hmax i'. pose proof (inv_open_inode _ _ _ _ _ V Hi) as Hop. split.
  { unfold inode_reopen. rewrite (proj2 (Z.eqb_neq _ _)) by apply Hop.
    bind_by (unfold get_inode; rewrite (oi_inode _ _ _ Hop); reflexivity). bind_by reflexivity.
    pose proof (open_cnt_bound _ _ _ _ _ V Hi). destruct (v_inode _ _ _ V a i Hi). rewrite s32_small by lia. done. }
  set (s' := set_inodes (<[a := i']> (inodes s)) s). destruct Hi as [Ha Hi].
  assert (Hlk : forall x j, opn s' x j ->
    exists j0, opn s x j0 /\ same_inode j0 j /\ open_cnt j = open_cnt j0 + b2z (a =? x)).
  { intros x j [Hx Hj]. simpl in Hx, Hj. apply lookup_insert_Some in Hj as [[<- <-]|[Hne Hj]].
    - exists i. split; [done|]. rewrite Z.eqb_refl. done.
    - exists j. split; [done|]. rewrite (proj2 (Z.eqb_neq _ _)) by done. split; [done|]. simpl. lia. }
  destruct V. constructor; try done.
  - intros x Hx. simpl. rewrite lookup_insert_is_Some'. right. by apply v_open0.
  - intros x j Hj. destruct (Hlk x j Hj) as (j0 & Hj0 & (E1 & _ & _ & E4) & Ec).
    destruct (v_inode0 x j0 Hj0). rewrite E1, E4. split; [done|]. destruct (a =? x); simpl in *; lia.
  - intros x y j1 j2 H1 H2 E. destruct (Hlk x j1 H1) as (k1 & K1 & (E1 & _) & _).
    destruct (Hlk y j2 H2) as (k2 & K2 & (E2 & _) & _). eapply v_inj0; [exact K1|exact K2|congruence].
  - intros x j Hj. destruct (Hlk x j Hj) as (j0 & Hj0 & (_ & _ & E3 & _) & Ec).
    destruct (v_refs0 x j0 Hj0). rewrite Ec, E3, occurs_hold. split; [simpl; lia|done].
  - intros x [->|Hx]%elem_of_cons; [done|by apply v_code0].
  - intros x Hx. simpl in Hx. apply v_addr0. rewrite lookup_insert_is_Some' in Hx.
    destruct Hx as [[->|]|]; [left; by exists i|by left|by right].
  - destruct v_mapfile0 as [?|[(fl & j & Hf & Hj & Hm) Hin]]; [by left|right; split; [|done]].
    destruct (decide (f_inode fl = a)) as [E|Hne].
    + exists fl, i'. split; [done|]. rewrite E in *. destruct Hj as [? Hj]. assert (j = i) as -> by congruence.
      split; [split; [done|apply lookup_insert_eq]|done].
    + exists fl, j. destruct Hj. split; [done|]. split; [split; [done|]|done]. simpl. by rewrite lookup_insert_ne by done.
Qed.

Lemma no_refs s live w a :
  fs_inv s live w -> a ∉ open_inodes s ->
  map_sum (file_refs a) (o_files w) = 0 /\ map_sum (dir_refs a) (o_dirs w) = 0 /\
  map_sum (file_denies a) (o_files w) = 0 /\ occurs a (o_code w) = 0.
Proof.
  intros V Ha.
  assert (Hf : forall f fl, o_files w !! f = Some fl -> file_refs a fl = 0).
  { intros f fl Hf. unfold file_refs. destruct (f_inode fl =? a) eqn:E; [|done]. bool_to_prop. subst a.
    by destruct (v_files _ _ _ V f fl Hf). }
  split; [by apply map_sum_zero|]. split; [|split].
  - apply map_sum_zero. intros d dr Hd. unfold dir_refs. destruct (dir_inode dr =? a) eqn:E; [|done].
    bool_to_prop. subst a. by destruct Ha; apply (v_dirs _ _ _ V d dr Hd).
  - apply map_sum_zero. intros f fl Hfl. pose proof (file_denies_le a fl). rewrite (Hf f fl Hfl) in *. lia.
  - unfold occurs. destruct (filter _ (o_code w)) as [|x l] eqn:E; [done|exfalso].
    assert (x ∈ filter (fun y => y = a) (o_code w)) as Hx by (rewrite E; left).
    apply list_elem_of_filter in Hx as [-> Hx]. by destruct Ha; apply (v_code _ _ _ V a Hx).
Qed.

(** The first opener of an inode: a new object in memory. *)
Lemma inv_new_inode s s' live w sec d :
  let a := brk s in
  fs_inv s live w -> live !! sec = Some d ->
  (forall x i, opn s x i -> i_sector i <> sec) ->
  inodes s' = <[a := mk_inode sec 1 false 0 d]> (inodes s) -> open_inodes s' = a :: open_inodes s ->
  files s' = files s -> dirs s' = dirs s -> free_map s' = free_map s -> free_map_file s' = free_map_file s ->
  brk s' = a + 1 -> fails s' = [] -> like (fs_device s) (fs_device s') ->
  (forall y, sector (fs_device s') y = sector (fs_device s) y) -> fs_inv s' live (hold a w).
Proof.
  intros a V Hl Hnew Ei Eo Ef Ed Em Emf Eb Efl L Hs.
  assert (Ha : inodes s !! a = None).
  { destruct (inodes s !! a) as [i|] eqn:E; [|done].
    destruct (v_addr _ _ _ V a) as [_ Hlt]; [left; by exists i|]. unfold a in Hlt. lia. }
  assert (Hna : a ∉ open_inodes s) by (intros Hx; destruct (v_open _ _ _ V a Hx); congruence).
  destruct (no_refs _ _ _ _ V Hna) as (R1 & R2 & R3 & R4).
  assert (Hlk : forall x j, opn s' x j -> (x = a /\ j = mk_inode sec 1 false 0 d) \/ (x <> a /\ opn s x j)).
  { intros x j [Hx Hj]. rewrite Eo in Hx. rewrite Ei in Hj.
    apply lookup_insert_Some in Hj as [[<- <-]|[Hne Hj]]; [by left|right].
    split; [done|]. apply elem_of_cons in Hx as [->|Hx]; [done|]. by split. }
  assert (Hin : forall x, x ∈ open_inodes s -> x ∈ open_inodes s') by (intros; rewrite Eo; by right).
  destruct V. constructor; rewrite ?Ef, ?Ed, ?Em, ?Emf, ?Efl, ?Eb; try done.
  - apply L.
  - rewrite v_size0. symmetry. apply L.
  - destruct L as (_ & _ & _ & ->). done.
  - intros n dn Hn. eapply live_ext; [done|done|auto].
  - rewrite Eo. by constructor.
  - intros x. rewrite Eo, Ei, elem_of_cons, lookup_insert_is_Some'. intros [->|Hx]; [by left|right; auto].
  - intros x j [[-> ->]|[Hne Hx]]%Hlk; [done|exact (v_inode0 x j Hx)].
  - intros x y j1 j2 [[-> ->]|[N1 H1]]%Hlk [[-> ->]|[N2 H2]]%Hlk E; [done| | |by eapply v_inj0];
      simpl in E; [by destruct (Hnew y j2 H2)|by destruct (Hnew x j1 H1)].
  - intros x j [[-> ->]|[Hne Hx]]%Hlk; rewrite occurs_hold; simpl.
    + rewrite Z.eqb_refl, R1, R2, R3, R4. done.
    + destruct (v_refs0 x j Hx). rewrite (proj2 (Z.eqb_neq a x)) by done. simpl. split; [lia|done].
  - intros f fl Hf. destruct (v_files0 f fl Hf) as [Hx Hp]. by split; [apply Hin|].
  - intros f fl Hf. by eapply Hin, v_dirs0.
  - intros x [->|Hx]%elem_of_cons; [rewrite Eo; left|by apply Hin, v_code0].
  - unfold a. lia.
  - intros x Hx. rewrite Ei, lookup_insert_is_Some' in Hx. destruct (decide (x = a)) as [->|Hne]; [unfold a; lia|].
    destruct (v_addr0 x) as [? ?]; [naive_solver|]. unfold a. lia.
  - destruct v_mapfile0 as [?|[(fl & j & Hf & [Hj Hj'] & Hm) Hmf]]; [by left|right; split; [|done]]. exists fl, j.
    rewrite Emf, Ef, Em. split; [done|]. split; [|done]. split; [by apply Hin|].
    rewrite Ei, lookup_insert_ne; [done|congruence].
Qed.

(** What opening inode [a] leaves in memory. *)
Record opened s s' (a : Z) : Prop := {
  op_files : files s' = files s;
  op_dirs : dirs s' = dirs s;
  op_map : free_map s' = free_map s;
  op_map_file : free_map_file s' = free_map_file s;
  op_brk : brk s <= brk s' <= brk s + 1;
  op_like : like (fs_device s) (fs_device s');
  op_sectors : forall y, sector (fs_device s') y = sector (fs_device s) y;
  op_inodes : forall x i, opn s x i -> exists i', opn s' x i' /\ same_inode i i';
  op_other : forall x j, x <> a -> opn s' x j <-> opn s x j;
}.

Lemma inode_open_ok s live w sec d :
  fs_inv s live w -> live !! sec = Some d -> handles w < 2 ^ 31 - 1 ->
  exists a i s', inode_open sec s = Ok (a, s') /\ fs_inv s' live (hold a w) /\ opened s s' a /\
    opn s' a i /\ i_sector i = sec /\ i_data i = d /\
    (removed i = true -> exists i0, opn s a i0 /\ same_inode i0 i).
Proof.
  intros V Hl Hmax. destruct (find_open_ok (inodes s) (open_inodes s) sec) as (r & Er & Hr); [apply V|].
  unfold inode_open. bind_by reflexivity. bind_by (rewrite Er; reflexivity).
  destruct r as [a|].
  - destruct Hr as (Ha & i & Hi & Esec). assert (opn s a i) as Hop by done.
    destruct (inv_reopen s live w a i V Hop Hmax) as [E V'].
    destruct (v_inode _ _ _ V a i Hop) as [Hli _].
    eexists a, _, _. split; [exact E|]. split; [exact V'|].
    split; [|split; [split; [exact Ha|apply lookup_insert_eq]|]].
    + constructor; simpl; try done; [lia|apply like_refl, V| |by intros; unfold opn; simpl; rewrite lookup_insert_ne].
      intros x j [Hx Hj]. destruct (decide (x = a)) as [->|].
      * eexists. split; [split; [done|apply lookup_insert_eq]|]. by assert (j = i) as -> by congruence.
      * exists j. split; [split; [done|]|done]. simpl. by rewrite lookup_insert_ne.
    + simpl. split; [done|]. split; [congruence|]. intros _. by exists i.
  - destruct (malloc_ok s live w V) as (Em & Hn & C1 & V1). bind_by (exact Em).
    rewrite (proj2 (Z.eqb_neq _ _) Hn). bind_by reflexivity.
    set (s2 := set_open_inodes _ _). pose proof (v_live _ _ _ V _ _ Hl) as Hlv.
    destruct (device_read s2 sec) as (s3 & E3 & C3 & B3 & F3 & L3 & S3); [apply V|apply Hlv|].
    bind_by (exact E3). bind_by reflexivity.
    assert (Hda : disk_of_bytes (sector (fs_device s2) sec) = d).
    { change (fs_device s2) with (fs_device s). rewrite (li_disk _ _ _ Hlv).
      apply disk_roundtrip; destruct Hlv as [? ? []]; [lia|lia|]. rewrite li_magic0. unfold INODE_MAGIC. lia. }
    rewrite Hda. set (i := mk_inode sec 1 false 0 d).
    assert (Hnone : inodes s !! brk s = None).
    { destruct (inodes s !! brk s) as [j|] eqn:E; [|done].
      destruct (v_addr _ _ _ V (brk s)); [left; by exists j|lia]. }
    eexists (brk s), i, _. split; [reflexivity|].
    split; [|split; [|split; [split|split; [done|split; [done|done]]]]].
    + eapply (inv_new_inode s _ live w sec d); simpl; try done; try apply C3; rewrite ?B3, ?F3; try done.
      * intros x j [Hx Hj]. by eapply Hr.
      * by rewrite (calm_inodes _ _ C3).
    + constructor; simpl; try apply C3; try done; [rewrite B3; simpl; lia| |].
      * intros x j [Hx Hj]. exists j. split; [split|done]; simpl.
        -- rewrite (calm_open _ _ C3). by right.
        -- rewrite (calm_inodes _ _ C3), lookup_insert_ne; [done|]. intros <-. simpl in *. congruence.
      * intros x j Hx. unfold opn. simpl. rewrite (calm_inodes _ _ C3), (calm_open _ _ C3), lookup_insert_ne by done.
        simpl. rewrite elem_of_cons. naive_solver.
    + simpl. rewrite (calm_open _ _ C3). left.
    + simpl. by rewrite lookup_insert_eq.
Qed.

Definition with_cnt (n : Z) (i : inode) : inode :=
  mk_inode (i_sector i) n (removed i) (deny_write_cnt i) (i_data i).

Lemma occurs_one s live w a i :
  fs_inv s live (hold a w) -> opn s a i ->
  open_cnt i = map_sum (file_refs a) (o_files w) + map_sum (dir_refs a) (o_dirs w) + occurs a (o_code w) + 1.
Proof.
  intros V Hi. destruct (v_refs _ _ _ V a i Hi) as [E _]. rewrite occurs_hold, Z.eqb_refl in E. simpl in E. lia.
Qed.

(** Closing an inode that has other openers. *)
Lemma inv_close_more s live w a i :
  fs_inv s live (hold a w) -> opn s a i -> open_cnt i <> 1 ->
  fs_inv (set_inodes (<[a := with_cnt (open_cnt i - 1) i]> (inodes s)) s) live w.
Proof.
  intros V [Ha Hi] Hne. pose proof (occurs_one _ _ _ _ _ V (conj Ha Hi)) as Ec.
  set (s' := set_inodes _ s).
  assert (Hlk : forall x j, opn s' x j ->
    exists j0, opn s x j0 /\ same_inode j0 j /\ open_cnt j = open_cnt j0 - b2z (a =? x) /\ 1 <= open_cnt j).
  { intros x j [Hx Hj]. simpl in Hx, Hj. apply lookup_insert_Some in Hj as [[<- <-]|[Hnx Hj]].
    - exists i. split; [done|]. rewrite Z.eqb_refl. destruct (v_inode _ _ _ V a i (conj Ha Hi)). simpl. split; [done|lia].
    - exists j. split; [done|]. rewrite (proj2 (Z.eqb_neq _ _)) by done. split; [done|].
      destruct (v_inode _ _ _ V x j (conj Hx Hj)). simpl. lia. }
  destruct V. constructor; try done.
  - intros x Hx. simpl. rewrite lookup_insert_is_Some'. right. by apply v_open0.
  - intros x j Hj. destruct (Hlk x j Hj) as (j0 & Hj0 & (E1 & _ & _ & E4) & Ej & Hj1).
    destruct (v_inode0 x j0 Hj0) as [Hlv Hb]. rewrite E1, E4. done.
  - intros x y j1 j2 H1 H2 E. destruct (Hlk x j1 H1) as (k1 & K1 & (E1 & _) & _).
    destruct (Hlk y j2 H2) as (k2 & K2 & (E2 & _) & _). eapply v_inj0; [exact K1|exact K2|congruence].
  - intros x j Hj. destruct (Hlk x j Hj) as (j0 & Hj0 & (_ & _ & E3 & _) & Ej & _).
    destruct (v_refs0 x j0 Hj0) as [Er ?]. rewrite occurs_hold in Er. rewrite Ej, E3. split; [simpl in *; lia|done].
  - intros x Hx. apply v_code0. by right.
  - intros x Hx. simpl in Hx. apply v_addr0. rewrite lookup_insert_is_Some' in Hx.
    destruct Hx as [[->|]|]; [left; by exists i|by left|by right].
  - destruct v_mapfile0 as [?|[(fl & j & Hf & [Hj1 Hj] & Hm) Hin]]; [by left|right; split; [|done]].
    destruct (decide (f_inode fl = a)) as [E|Hnf].
    + exists fl, (with_cnt (open_cnt i - 1) i). split; [done|]. rewrite E in *. assert (j = i) as -> by congruence.
      split; [split; [done|apply lookup_insert_eq]|done].
    + exists fl, j. split; [done|]. split; [split; [done|]|done]. simpl. by rewrite lookup_insert_ne by done.
Qed.

(** The last opener: the inode leaves the list and is not referred to. *)
Lemma inv_close_last s live w a i :
  fs_inv s live (hold a w) -> opn s a i -> open_cnt i = 1 ->
  let s1 := set_open_inodes (filter (fun x => x <> a) (open_inodes s))
              (set_inodes (<[a := with_cnt 0 i]> (inodes s)) s) in
  fs_inv s1 live w /\ (forall x j, opn s1 x j <-> x <> a /\ opn s x j).
Proof.
  intros V [Ha Hi] H1 s1. pose proof (occurs_one _ _ _ _ _ V (conj Ha Hi)) as Ec. rewrite H1 in Ec.
  assert (0 <= map_sum (file_refs a) (o_files w)) by (apply map_sum_nonneg; intros; apply file_refs_nonneg).
  assert (0 <= map_sum (dir_refs a) (o_dirs w)) by (apply map_sum_nonneg; intros; apply dir_refs_nonneg).
  pose proof (occurs_bound a (o_code w)).
  assert (Hlk : forall x j, opn s1 x j <-> x <> a /\ opn s x j).
  { intros x j. unfold opn, s1. simpl. rewrite list_elem_of_filter. split.
    - intros [[Hxa Hx] Hj]. by rewrite lookup_insert_ne in Hj by done.
    - intros (Hxa & Hx & Hj). by rewrite lookup_insert_ne by done. }
  assert (Hfl : forall f fl, o_files w !! f = Some fl -> f_inode fl <> a).
  { intros f fl Hf E. pose proof (map_sum_ge (file_refs a) (o_files w) f fl) as Hge.
    unfold file_refs at 2 in Hge. rewrite E, Z.eqb_refl in Hge. simpl in Hge.
    specialize (Hge ltac:(intros; apply file_refs_nonneg) Hf). lia. }
  assert (Hdr : forall f dr, o_dirs w !! f = Some dr -> dir_inode dr <> a).
  { intros f dr Hf E. pose proof (map_sum_ge (dir_refs a) (o_dirs w) f dr) as Hge.
    unfold dir_refs at 2 in Hge. rewrite E, Z.eqb_refl in Hge. simpl in Hge.
    specialize (Hge ltac:(intros; apply dir_refs_nonneg) Hf). lia. }
  assert (Htm : forall x, x ∈ o_code w -> x <> a).
  { intros x Hx ->. assert (a ∈ filter (fun y => y = a) (o_code w)) as Hin by (by apply list_elem_of_filter).
    unfold occurs in *. destruct (filter _ (o_code w)); [by apply not_elem_of_nil in Hin|simpl in *; lia]. }
  split; [|exact Hlk]. assert (Hoc : forall x, x <> a -> occurs x (o_code (hold a w)) = occurs x (o_code w)).
  { intros x Hx. rewrite occurs_hold, (proj2 (Z.eqb_neq a x)) by done. done. }
  destruct V. constructor; try done.
  - simpl. by apply NoDup_filter.
  - intros x Hx. simpl in Hx |- *. apply list_elem_of_filter in Hx as [_ Hx].
    rewrite lookup_insert_is_Some'. right. by apply v_open0.
  - intros x j [Hxa Hx]%Hlk. exact (v_inode0 x j Hx).
  - intros x y j1 j2 [_ K1]%Hlk [_ K2]%Hlk. by apply v_inj0.
  - intros x j [Hxa Hx]%Hlk. rewrite <- Hoc by done. by apply v_refs0.
  - intros f fl Hf. destruct (v_files0 f fl Hf). split; [|done]. simpl.
    apply list_elem_of_filter. split; [by eapply Hfl|done].
  - intros f dr Hf. simpl. apply list_elem_of_filter. split; [by eapply Hdr|by eapply v_dirs0].
  - intros x Hx. simpl. apply list_elem_of_filter. split; [by apply Htm|apply v_code0; by right].
  - intros x Hx. simpl in Hx. apply v_addr0. rewrite lookup_insert_is_Some' in Hx.
    destruct Hx as [[->|]|]; [left; by exists i|by left|by right].
  - destruct v_mapfile0 as [?|[(fl & j & Hf & Hj & Hm) Hin]]; [by left|right; split; [|done]]. exists fl, j.
    split; [done|]. split; [|done]. apply Hlk. split; [|done].
    destruct Hin as [fl' Hin]. assert (fl' = fl) as ->; [|by eapply Hfl].
    pose proof (lookup_weaken _ _ _ _ Hin (proj1 v_sub0)) as Hw. simpl in Hw. congruence.
Qed.

(** An inode no one has open may be dropped. *)
Lemma inv_drop_live s live w sec :
  fs_inv s live w -> (forall x j, opn s x j -> i_sector j <> sec) -> fs_inv s (delete sec live) w.
Proof.
  intros [] Hno. constructor; try done.
  - intros n d [_ Hl]%lookup_delete_Some. auto.
  - intros n1 d1 n2 d2 x [_ L1]%lookup_delete_Some [_ L2]%lookup_delete_Some. by apply v_disj0.
  - intros n d x [_ Hl]%lookup_delete_Some. by apply v_bits0.
  - intros a i Hi. rewrite lookup_delete_ne; [exact (v_inode0 a i Hi)|]. intros E. by apply (Hno a i Hi).
Qed.

(** Freeing the memory of a closed inode. *)
Lemma inv_free_inode s live w a :
  fs_inv s live w -> a ∉ open_inodes s ->
  fs_inv (set_inodes (delete a (inodes s)) s) live w /\
  (forall x j, opn (set_inodes (delete a (inodes s)) s) x j <-> opn s x j).
Proof.
  intros V Ha. set (s' := set_inodes _ s).
  assert (Hlk : forall x j, opn s' x j <-> opn s x j).
  { intros x j. unfold opn, s'. simpl. split; intros [Hx Hj]; (split; [done|]).
    - by apply lookup_delete_Some in Hj as [_ ?].
    - rewrite lookup_delete_ne; [done|]. by intros <-. }
  split; [|exact Hlk]. destruct V. constructor; try done.
  - intros x Hx. simpl in *. rewrite lookup_delete_ne; [auto|]. by intros <-.
  - intros x j Hx%Hlk. exact (v_inode0 x j Hx).
  - intros x y j1 j2 H1%Hlk H2%Hlk. by apply v_inj0.
  - intros x j Hx%Hlk. by apply v_refs0.
  - intros x Hx. simpl in Hx. apply v_addr0. destruct Hx as [[j Hj]|]; [left|by right].
    apply lookup_delete_Some in Hj as [_ ?]. by exists j.
  - destruct v_mapfile0 as [?|[(fl & j & Hf & Hj & Hm) Hin]]; [by left|right; split; [|done]]. exists fl, j.
    split; [done|]. split; [by apply Hlk|done].
Qed.

(** Releasing the sectors of an inode that is not live any more. *)
Lemma release_inode s live w sec d :
  fs_inv s live w -> live !! sec = Some d -> map_file_ok s ->
  (forall x j, opn s x j -> i_sector j <> sec) ->
  exists s', (_ ← free_map_release sec 1;
              free_map_release (d_start d) (bytes_to_sectors (d_length d))) s = Ok (tt, s') /\
    fs_inv s' (delete sec live) w /\ steady s s' /\ keeps (delete sec live) s s' /\ saved s' (delete sec live) /\
    (forall x, 0 <= x -> footprint sec d x -> bit (free_map s') x = false) /\
    (forall x, 0 <= x -> ~ footprint sec d x -> bit (free_map s') x = bit (free_map s) x).
Proof.
  intros V Hl Hm Hno. pose proof (v_live _ _ _ V _ _ Hl) as Hlv. pose proof (inv_drop_live _ _ _ sec V Hno) as V0.
  assert (Hdis : forall n dn x, delete sec live !! n = Some dn -> footprint n dn x -> ~ footprint sec d x).
  { intros n dn x [Hne Hln]%lookup_delete_Some Hx Hx'. apply Hne. by apply (v_disj _ _ _ V sec d n dn x). }
  pose proof (li_extent _ _ _ Hlv) as [E1 E2 E3]. pose proof (sectors_pos _ E2) as Hpos.
  assert (d_start d + bytes_to_sectors (d_length d) <= b_size (fs_device s)) as Hend.
  { rewrite bytes_to_sectors_val by done. Z.to_euclidean_division_equations. lia. }
  destruct (release_ok s (delete sec live) w sec 1) as (s1 & R1 & V1 & S1 & K1 & _ & B1); [done..| |lia| | | |].
  { apply Hlv. }
  { rewrite (v_size _ _ _ V). destruct (li_sec _ _ _ Hlv). lia. }
  { intros k Hk. apply (v_bits _ _ _ V sec d k Hl). left. lia. }
  { intros n dn x Hn Hx Hr. apply (Hdis n dn x Hn Hx). left. lia. }
  destruct (release_ok s1 (delete sec live) w (d_start d) (bytes_to_sectors (d_length d)))
    as (s2 & R2 & V2 & S2 & K2 & W2 & B2); [done|by eapply steady_map_file|done|done| | | |].
  { rewrite (st_cnt _ _ S1), (v_size _ _ _ V). done. }
  { intros k Hk. rewrite B1 by lia. rewrite (v_bits _ _ _ V sec d k Hl) by (by right).
    destruct (in_range sec 1 k) eqn:Er; [exfalso|done]. unfold in_range in Er. bool_to_prop.
    apply (li_self _ _ _ Hlv). assert (k = sec) as -> by lia. done. }
  { intros n dn x Hn Hx Hr. apply (Hdis n dn x Hn Hx). by right. }
  exists s2. bind_by (exact R1). split; [exact R2|]. split; [done|].
  split; [by eapply steady_trans|]. split; [by eapply keeps_trans|]. split; [done|].
  assert (Hir : forall o c x, in_range o c x = true <-> o <= x < o + c).
  { intros. unfold in_range. rewrite andb_true_iff, Z.leb_le, Z.ltb_lt. done. }
  split; intros x Hx Hf; rewrite B2, B1 by done.
  - destruct Hf as [->|Hd]; [|by rewrite (proj2 (Hir _ _ x) Hd)].
    rewrite (proj2 (Hir sec 1 sec)) by lia. by rewrite andb_false_r.
  - destruct (in_range sec 1 x) eqn:Ea; [apply Hir in Ea; destruct Hf; left; lia|].
    destruct (in_range (d_start d) _ x) eqn:Eb; [apply Hir in Eb; destruct Hf; by right|]. done.
Qed.

(** What closing inode [a] leaves: [gone] tells that its sectors were freed. *)
Definition gone (i : inode) : bool := (open_cnt i =? 1) && removed i.
Definition left_live (i : inode) (live : gmap Z inode_disk) : gmap Z inode_disk :=
  if gone i then delete (i_sector i) live else live.

Record closed_inode s s' (live : gmap Z inode_disk) (a : Z) (i : inode) : Prop := {
  ci_files : files s' = files s;
  ci_dirs : dirs s' = dirs s;
  ci_map_file : free_map_file s' = free_map_file s;
  ci_brk : brk s <= brk s';
  ci_cnt : bit_cnt (free_map s') = bit_cnt (free_map s);
  ci_like : like (fs_device s) (fs_device s');
  ci_keeps : keeps (left_live i live) s s';
  ci_same : gone i = false -> free_map s' = free_map s /\ forall x, sector (fs_device s') x = sector (fs_device s) x;
  ci_freed : gone i = true -> forall x, 0 <= x ->
    (footprint (i_sector i) (i_data i) x -> bit (free_map s') x = false) /\
    (~ footprint (i_sector i) (i_data i) x -> bit (free_map s') x = bit (free_map s) x);
  ci_saved : saved s live -> saved s' (left_live i live);
  ci_other : forall x j, x <> a -> opn s' x j <-> opn s x j;
  ci_self : forall j, opn s' a j <-> open_cnt i <> 1 /\ j = with_cnt (open_cnt i - 1) i;
}.

Lemma inode_close_ok s live w a i :
  fs_inv s live (hold a w) -> opn s a i -> (removed i = true -> map_file_ok s) ->
  handles w < 2 ^ 31 - 1 ->
  exists s', inode_close a s = Ok (tt, s') /\ fs_inv s' (left_live i live) w /\ closed_inode s s' live a i.
Proof.
  intros V Hi Hrm Hmax. destruct (inv_open_inode _ _ _ _ _ V Hi) as [_ _ Ha Hlk _].
  destruct (v_inode _ _ _ V a i Hi) as [Hlive Hcnt]. pose proof (open_cnt_bound _ _ _ _ _ V Hi) as Hob.
  unfold handles in Hob, Hmax. simpl in Hob.
  unfold inode_close. rewrite (proj2 (Z.eqb_neq _ _) Ha).
  bind_by (unfold get_inode; rewrite Hlk; reflexivity). cbv zeta. bind_by reflexivity.
  rewrite s32_small by lia. fold (with_cnt (open_cnt i - 1) i).
  destruct (open_cnt i - 1 =? 0) eqn:E1; bool_to_prop.
  2: { eexists. split; [reflexivity|].
       assert (gone i = false) as Hg by (unfold gone; rewrite (proj2 (Z.eqb_neq (open_cnt i) 1)) by lia; done).
       assert (left_live i live = live) as El by (unfold left_live; by rewrite Hg). rewrite El.
       split; [apply inv_close_more; [done|done|lia]|].
       constructor; simpl; rewrite ?El; try done; [apply like_refl, V|congruence| |].
       - intros x j Hx. unfold opn. simpl. by rewrite lookup_insert_ne by done.
       - intros j. unfold opn. simpl. rewrite lookup_insert_eq. destruct Hi. split; [|naive_solver lia].
         intros [_ [=<-]]. split; [lia|done]. }
  replace (open_cnt i - 1) with 0 by lia. bind_by reflexivity.
  destruct (inv_close_last s live w a i V Hi ltac:(lia)) as [V1 O1]. set (s1 := set_open_inodes _ _) in *.
  assert (Hno : forall x j, opn s1 x j -> i_sector j <> i_sector i).
  { intros x j [Hx Hj]%O1 E. apply Hx. by eapply (v_inj _ _ _ V x a j i). }
  assert (Hns : forall s2, open_inodes s2 = open_inodes s1 -> a ∉ open_inodes s2).
  { intros s2 -> Hin. simpl in Hin. by apply list_elem_of_filter in Hin as [? _]. }
  destruct (removed i) eqn:Erm.
  - assert (Hg : gone i = true) by (unfold gone; rewrite Erm, (proj2 (Z.eqb_eq (open_cnt i) 1)) by lia; done).
    destruct (release_inode s1 live w (i_sector i) (i_data i) V1 Hlive) as (s2 & E2 & V2 & S2 & K2 & W2 & F2 & G2); [|done|].
    { destruct (Hrm eq_refl) as (fl & j & Hf & Hj & Hm). exists fl, j. split; [done|]. split; [|done].
      apply O1. split; [|done]. intros E. destruct Hm as (_ & _ & Hr & _). destruct Hj as [_ Hj]. rewrite E in Hj. congruence. }
    bind_by (exact E2). eexists. split; [reflexivity|].
    destruct (inv_free_inode s2 _ w a V2) as [V3 O3]; [apply Hns, S2|].
    assert (left_live i live = delete (i_sector i) live) as El by (unfold left_live; by rewrite Hg).
    rewrite El. split; [exact V3|].
    assert (Ho2 : forall x j, opn s2 x j <-> opn s1 x j) by (intros; unfold opn; by rewrite (st_inodes _ _ S2), (st_open _ _ S2)).
    constructor; try apply S2; rewrite ?El; try done; [by rewrite Hg|by intros _ x Hx; split; [apply F2|apply G2]| |].
    + intros x j Hx. rewrite O3, Ho2, O1. naive_solver.
    + intros j. rewrite O3, Ho2, O1. naive_solver lia.
  - assert (Hg : gone i = false) by (unfold gone; rewrite Erm; apply andb_false_r).
    bind_by reflexivity. eexists. split; [reflexivity|].
    destruct (inv_free_inode s1 _ w a V1) as [V3 O3]; [by apply Hns|].
    assert (left_live i live = live) as El by (unfold left_live; by rewrite Hg). rewrite El. split; [exact V3|].
    constructor; rewrite ?El; try done; [apply like_refl, V|by rewrite Hg| |].
    + intros x j Hx. rewrite (O3 x j), O1. naive_solver.
    + intros j. rewrite (O3 a j), O1. naive_solver lia.
Qed.
End OpenClose.
