(* ===== verification/FsFiles.v ===== *)
(** * Files and directories over the invariant of the file system

    Opening and closing [struct file] and [struct dir] moves references between
    running code and the objects; reading and writing through a file moves its
    position. *)

From S2P Require Import Prelude Bitmap Block FsState Inode FreeMap File Directory FsInv.

Section Handles.
Context `{BlockLaws D}.
Implicit Types s : fs D.

Definition with_files (m : gmap Z file) (w : own) : own := mk_own (o_code w) m (o_dirs w).
Definition with_dirs (m : gmap Z dir) (w : own) : own := mk_own (o_code w) (o_files w) m.

Lemma handles_del_dir w d : handles (with_dirs (delete d (o_dirs w)) w) <= handles w.
Proof.
  unfold handles. simpl. pose proof (map_subseteq_size (delete d (o_dirs w)) (o_dirs w) (delete_subseteq _ _)). lia.
Qed.
Lemma handles_del_file w f : handles (with_files (delete f (o_files w)) w) <= handles w.
Proof.
  unfold handles. simpl. pose proof (map_subseteq_size (delete f (o_files w)) (o_files w) (delete_subseteq _ _)). lia.
Qed.

(** A change of who holds the references. *)
Lemma inv_own s live w w' :
  fs_inv s live w ->
  (forall a i, opn s a i ->
     map_sum (file_refs a) (o_files w') + map_sum (dir_refs a) (o_dirs w') + occurs a (o_code w') =
     map_sum (file_refs a) (o_files w) + map_sum (dir_refs a) (o_dirs w) + occurs a (o_code w) /\
     map_sum (file_denies a) (o_files w') = map_sum (file_denies a) (o_files w)) ->
  o_files w' ⊆ o_files w -> o_dirs w' ⊆ o_dirs w ->
  (forall a, a ∈ o_code w' -> a ∈ open_inodes s) ->
  (is_Some (o_files w !! free_map_file s) -> is_Some (o_files w' !! free_map_file s)) ->
  fs_inv s live w'.
Proof.
  intros [] Hr Hf Hd Hc Hm. constructor; try done.
  - intros a i Hi. destruct (v_refs a i Hi). destruct (Hr a i Hi) as (E1 & E2). split; [lia|congruence].
  - destruct v_sub. split; by etrans.
  - intros f fl Hfl. apply (v_files f). by eapply lookup_weaken.
  - intros f fl Hfl. apply (v_dirs f). by eapply lookup_weaken.
  - destruct v_mapfile as [?|[? ?]]; [by left|right]. auto.
Qed.

Lemma inv_give_dir s live w d dr :
  fs_inv s live w -> o_dirs w !! d = Some dr ->
  fs_inv s live (hold (dir_inode dr) (with_dirs (delete d (o_dirs w)) w)).
Proof.
  intros V Hd. eapply inv_own; [exact V|..]; simpl; try done.
  - intros a i Hi. rewrite occurs_cons, (map_sum_delete _ _ d dr) by done.
    change (dir_refs a dr) with (b2z (dir_inode dr =? a)).
    destruct (dir_inode dr =? a); simpl; (split; [lia|done]).
  - apply delete_subseteq.
  - intros a [->|Ha]%elem_of_cons; [by eapply (v_dirs _ _ _ V)|by apply (v_code _ _ _ V)].
Qed.

Lemma inv_give_file s live w f fl :
  fs_inv s live w -> o_files w !! f = Some fl -> f_deny_write fl = false -> f <> free_map_file s ->
  fs_inv s live (hold (f_inode fl) (with_files (delete f (o_files w)) w)).
Proof.
  intros V Hf Hdw Hne. eapply inv_own; [exact V|..]; simpl; try done.
  - intros a i Hi. rewrite occurs_cons, !(map_sum_delete _ _ f fl) by done.
    change (file_refs a fl) with (b2z (f_inode fl =? a)).
    change (file_denies a fl) with (b2z ((f_inode fl =? a) && f_deny_write fl)). rewrite Hdw, andb_false_r.
    destruct (f_inode fl =? a); simpl; (split; lia).
  - apply delete_subseteq.
  - intros a [->|Ha]%elem_of_cons; [by eapply (v_files _ _ _ V)|by apply (v_code _ _ _ V)].
  - intros ?. by rewrite lookup_delete_ne.
Qed.

(** Objects nobody counts any more can be freed. *)
Lemma inv_del_dir s live w d :
  fs_inv s live w -> o_dirs w !! d = None -> fs_inv (set_dirs (delete d (dirs s)) s) live w.
Proof.
  intros [] Hd. constructor; try done.
  - destruct v_sub as [? Hs]. split; [done|]. simpl. apply map_subseteq_spec. intros x dr Hx.
    rewrite lookup_delete_ne by congruence. by eapply lookup_weaken.
  - intros a [Ha|[Ha|Ha]]; apply v_addr; [by left|by right; left|right; right].
    simpl in Ha. destruct Ha as [x Hx]. apply lookup_delete_Some in Hx as [_ Hx]. by exists x.
Qed.

Lemma inv_del_file s live w f :
  fs_inv s live w -> o_files w !! f = None -> fs_inv (set_files (delete f (files s)) s) live w.
Proof.
  intros [] Hf. constructor; try done.
  - destruct v_sub as [Hs ?]. split; [|done]. simpl. apply map_subseteq_spec. intros x fl Hx.
    rewrite lookup_delete_ne by congruence. by eapply lookup_weaken.
  - intros a [Ha|[Ha|Ha]]; apply v_addr; [by left|right; left|by right; right].
    simpl in Ha. destruct Ha as [x Hx]. apply lookup_delete_Some in Hx as [_ Hx]. by exists x.
  - destruct v_mapfile as [?|[(fl & i & Hfl & Hi & Hm) Hin]]; [by left|right]. split; [|done].
    exists fl, i. split; [|done]. simpl. rewrite lookup_delete_ne; [done|]. intros E.
    destruct Hin. congruence.
Qed.

(** A new object takes over a reference. *)
Lemma inv_new_dir s live w a i :
  let s' := set_dirs (<[brk s := mk_dir a 0]> (dirs s)) (set_mem (brk s + 1) [] s) in
  fs_inv s live (hold a w) -> opn s a i ->
  fs_inv s' live (with_dirs (<[brk s := mk_dir a 0]> (o_dirs w)) w).
Proof.
  intros s' V Hi. assert (Hnew : dirs s !! brk s = None).
  { destruct (dirs s !! brk s) as [x|] eqn:E; [|done].
    destruct (v_addr _ _ _ V (brk s)); [right; right; by exists x|lia]. }
  destruct V. assert (Hno : o_dirs w !! brk s = None).
  { destruct (o_dirs w !! brk s) as [x|] eqn:E; [|done].
    rewrite (lookup_weaken _ _ _ _ E (proj2 v_sub)) in Hnew. done. }
  constructor; try done; simpl.
  - intros x j Hj. destruct (v_refs x j Hj) as [Er ?]. rewrite occurs_hold in Er. simpl in Er.
    rewrite map_sum_new by done. unfold dir_refs at 1. simpl. split; [lia|done].
  - destruct v_sub. split; [done|]. by apply insert_mono.
  - intros d dr [[<- <-]|[_ Hd]]%lookup_insert_Some; [apply Hi|by eapply v_dirs].
  - intros x Hx. apply v_code. by right.
  - lia.
  - intros x [Hx|[Hx|Hx]].
    + destruct (v_addr x); [by left|lia].
    + destruct (v_addr x); [by right; left|lia].
    + apply lookup_insert_is_Some in Hx as [<-|[_ Hx]]; [lia|]. destruct (v_addr x); [by right; right|lia].
Qed.

Lemma inv_new_file s live w a i :
  let s' := set_files (<[brk s := mk_file a 0 false]> (files s)) (set_mem (brk s + 1) [] s) in
  fs_inv s live (hold a w) -> opn s a i ->
  fs_inv s' live (with_files (<[brk s := mk_file a 0 false]> (o_files w)) w).
Proof.
  intros s' V Hi. assert (Hnew : files s !! brk s = None).
  { destruct (files s !! brk s) as [x|] eqn:E; [|done].
    destruct (v_addr _ _ _ V (brk s)); [right; left; by exists x|lia]. }
  destruct V. assert (Hno : o_files w !! brk s = None).
  { destruct (o_files w !! brk s) as [x|] eqn:E; [|done].
    rewrite (lookup_weaken _ _ _ _ E (proj1 v_sub)) in Hnew. done. }
  constructor; try done; simpl.
  - intros x j Hj. destruct (v_refs x j Hj) as [Er Ed]. rewrite occurs_hold in Er. simpl in Er, Ed.
    rewrite !map_sum_new by done. unfold file_refs at 1. unfold file_denies at 1. simpl.
    rewrite andb_false_r. simpl. split; [lia|done].
  - destruct v_sub. split; [|done]. by apply insert_mono.
  - intros f fl [[<- <-]|[_ Hf]]%lookup_insert_Some; [split; [apply Hi|simpl; lia]|by eapply v_files].
  - intros x Hx. apply v_code. by right.
  - lia.
  - intros x [Hx|[Hx|Hx]].
    + destruct (v_addr x); [by left|lia].
    + apply lookup_insert_is_Some in Hx as [<-|[_ Hx]]; [lia|]. destruct (v_addr x); [by right; left|lia].
    + destruct (v_addr x); [by right; right|lia].
  - destruct v_mapfile as [?|[(fl & j & Hfl & Hj & Hm) Hin]]; [by left|right].
    assert (brk s <> free_map_file s) by (intros E; rewrite <- E in Hfl; congruence). split.
    + exists fl, j. split; [|done]. simpl. by rewrite lookup_insert_ne.
    + by rewrite lookup_insert_ne.
Qed.

Lemma dir_open_ok s live w a i :
  fs_inv s live (hold a w) -> opn s a i ->
  let s' := set_dirs (<[brk s := mk_dir a 0]> (dirs s)) (set_mem (brk s + 1) [] s) in
  dir_open a s = Ok (brk s, s') /\ fs_inv s' live (with_dirs (<[brk s := mk_dir a 0]> (o_dirs w)) w).
Proof.
  intros V Hi s'. destruct (malloc_ok s live _ V) as (Em & Hn & _ & _).
  destruct (inv_open_inode _ _ _ _ _ V Hi) as [_ _ Ha _ _]. split; [|by eapply inv_new_dir].
  unfold dir_open. bind_by (exact Em).
  rewrite (proj2 (Z.eqb_neq a NULL) Ha), (proj2 (Z.eqb_neq (brk s) NULL) Hn). cbn [negb andb]. done.
Qed.

Lemma file_open_ok s live w a i :
  fs_inv s live (hold a w) -> opn s a i ->
  let s' := set_files (<[brk s := mk_file a 0 false]> (files s)) (set_mem (brk s + 1) [] s) in
  file_open a s = Ok (brk s, s') /\ fs_inv s' live (with_files (<[brk s := mk_file a 0 false]> (o_files w)) w).
Proof.
  intros V Hi s'. destruct (malloc_ok s live _ V) as (Em & Hn & _ & _).
  destruct (inv_open_inode _ _ _ _ _ V Hi) as [_ _ Ha _ _]. split; [|by eapply inv_new_file].
  unfold file_open. bind_by (exact Em).
  rewrite (proj2 (Z.eqb_neq a NULL) Ha), (proj2 (Z.eqb_neq (brk s) NULL) Hn). cbn [negb andb]. done.
Qed.

(** Opening a file that does not exist. *)
Lemma file_open_null s live w :
  fs_inv s live w ->
  exists s', file_open NULL s = Ok (NULL, s') /\ fs_inv s' live w /\ s' = set_mem (brk s + 1) [] s.
Proof.
  intros V. destruct (malloc_ok s live _ V) as (Em & Hn & _ & V'). eexists. split; [|by split].
  unfold file_open. by bind_by (exact Em).
Qed.

Lemma dir_close_ok s live w d dr i :
  fs_inv s live w -> o_dirs w !! d = Some dr -> opn s (dir_inode dr) i ->
  (removed i = true -> map_file_ok s) -> handles w < 2 ^ 31 - 1 ->
  exists s1, dir_close d s = Ok (tt, set_dirs (delete d (dirs s1)) s1) /\
    fs_inv (set_dirs (delete d (dirs s1)) s1) (left_live i live) (with_dirs (delete d (o_dirs w)) w) /\
    closed_inode s s1 live (dir_inode dr) i.
Proof.
  intros V Hd Hi Hrm Hmax. pose proof (inv_give_dir _ _ _ _ _ V Hd) as V1.
  destruct (inode_close_ok s live _ (dir_inode dr) i V1 Hi Hrm) as (s1 & E1 & V2 & C).
  { pose proof (handles_del_dir w d). lia. }
  exists s1. pose proof (lookup_weaken _ _ _ _ Hd (proj2 (v_sub _ _ _ V))) as Hd'.
  split; [|split; [apply inv_del_dir; [done|apply lookup_delete_eq]|done]].
  unfold dir_close. assert (0 < d < brk s) by (apply (v_addr _ _ _ V); right; right; by exists dr).
  rewrite (proj2 (Z.eqb_neq d NULL)) by (unfold NULL; lia).
  bind_by (unfold get_dir; rewrite Hd'; reflexivity). by bind_by (exact E1).
Qed.

(** Overwriting a file object with one for the same inode. *)
Lemma inv_upd_file s live w f fl fl' :
  fs_inv s live w -> o_files w !! f = Some fl -> f_inode fl' = f_inode fl ->
  f_deny_write fl' = f_deny_write fl -> 0 <= f_pos fl' < 2 ^ 31 ->
  fs_inv (set_files (<[f := fl']> (files s)) s) live (with_files (<[f := fl']> (o_files w)) w).
Proof.
  intros [] Hf Ei Ed Hp. assert (Hs : files s !! f = Some fl) by (by eapply lookup_weaken; [|apply v_sub]).
  constructor; try done; simpl.
  - intros a i Hi. destruct (v_refs a i Hi). rewrite !(map_sum_update _ _ f fl fl') by done.
    assert (file_refs a fl' = file_refs a fl) as -> by (unfold file_refs; by rewrite Ei).
    assert (file_denies a fl' = file_denies a fl) as -> by (unfold file_denies; by rewrite Ei, Ed). split; lia.
  - destruct v_sub. split; [|done]. by apply insert_mono.
  - intros g gl [[<- <-]|[_ Hg]]%lookup_insert_Some; [|by eapply v_files].
    rewrite Ei. split; [by eapply v_files|done].
  - intros a Ha. apply v_addr. destruct Ha as [?|[Ha|?]]; [by left| |by right; right].
    apply lookup_insert_is_Some in Ha as [<-|[_ ?]]; right; left; [by exists fl|done].
  - destruct v_mapfile as [?|[(gl & i & Hg & Hi & Hm) Hin]]; [by left|right]. split.
    + unfold map_file_ok. simpl. destruct (decide (f = free_map_file s)) as [E|Hne].
      * exists fl', i. rewrite E, lookup_insert_eq. split; [done|]. rewrite Ei.
        assert (gl = fl) as -> by congruence. done.
      * exists gl, i. by rewrite lookup_insert_ne.
    + apply lookup_insert_is_Some'. by right.
Qed.

(** Reading and writing through a file. *)
Lemma file_read_ok s live w f fl i size :
  fs_inv s live w -> o_files w !! f = Some fl -> opn s (f_inode fl) i ->
  let n := avail (i_data i) size (f_pos fl) in
  let fl' := mk_file (f_inode fl) (f_pos fl + n) (f_deny_write fl) in
  exists s1, file_read f size s =
      Ok ((n, take (Z.to_nat n) (drop (Z.to_nat (f_pos fl)) (contents (fs_device s) (i_data i)))),
          set_files (<[f := fl']> (files s1)) s1) /\
    fs_inv (set_files (<[f := fl']> (files s1)) s1) live (with_files (<[f := fl']> (o_files w)) w) /\ quiet s s1.
Proof.
  intros V Hf Hi n fl'. destruct (v_files _ _ _ V f fl Hf) as [_ Hp].
  pose proof (inv_open_inode _ _ _ _ _ V Hi) as Hop.
  pose proof (lookup_weaken _ _ _ _ Hf (proj1 (v_sub _ _ _ V))) as Hf'.
  destruct (inode_read_at_ok s (f_inode fl) i size (f_pos fl) Hop Hp) as (k & s1 & E & Hk & Hkf & Q).
  rewrite (Hkf (v_mem _ _ _ V)) in *. fold n in E, Hk.
  assert (0 <= f_pos fl + n < 2 ^ 31).
  { destruct (oi_extent _ _ _ Hop). unfold n, avail in *. lia. }
  exists s1. split; [|split; [|done]].
  - unfold file_read. bind_by (unfold get_file; rewrite Hf'; reflexivity). bind_by (exact E). cbn [fst].
    rewrite s32_small by lia. bind_by reflexivity. cbv [mret M_ret]. do 3 f_equal.
    unfold contents. apply bytes_sub; unfold n, avail; lia.
  - destruct Q as (C & L & S). rewrite (calm_files _ _ C). rewrite <- (calm_files _ _ C).
    eapply inv_upd_file; [by eapply inv_quiet|done..].
Qed.

Lemma file_write_ok s live w f fl i buffer size :
  fs_inv s live w -> o_files w !! f = Some fl -> opn s (f_inode fl) i ->
  size <= Z.of_nat (length buffer) ->
  let n := if decide (deny_write_cnt i = 0) then avail (i_data i) size (f_pos fl) else 0 in
  let fl' := mk_file (f_inode fl) (f_pos fl + n) (f_deny_write fl) in
  exists s1, file_write f buffer size s = Ok (n, set_files (<[f := fl']> (files s1)) s1) /\
    fs_inv (set_files (<[f := fl']> (files s1)) s1) live (with_files (<[f := fl']> (o_files w)) w) /\
    calm s s1 /\ like (fs_device s) (fs_device s1) /\ only_data (i_data i) (fs_device s) (fs_device s1) /\
    contents (fs_device s1) (i_data i) =
      overwrite (contents (fs_device s) (i_data i)) (f_pos fl) (take (Z.to_nat n) buffer).
Proof.
  intros V Hf Hi Hl n fl'. destruct (v_files _ _ _ V f fl Hf) as [_ Hp].
  pose proof (inv_open_inode _ _ _ _ _ V Hi) as Hop.
  pose proof (lookup_weaken _ _ _ _ Hf (proj1 (v_sub _ _ _ V))) as Hf'.
  assert (Hn : 0 <= f_pos fl + n < 2 ^ 31).
  { destruct (oi_extent _ _ _ Hop). unfold n, avail in *. case_decide; lia. }
  assert (Hgo : exists s1, inode_write_at (f_inode fl) buffer size (f_pos fl) s = Ok (n, s1) /\
    fs_inv s1 live w /\ calm s s1 /\ like (fs_device s) (fs_device s1) /\
    only_data (i_data i) (fs_device s) (fs_device s1) /\
    contents (fs_device s1) (i_data i) =
      overwrite (contents (fs_device s) (i_data i)) (f_pos fl) (take (Z.to_nat n) buffer)).
  { unfold n. case_decide as Hd; [by eapply inv_write_at|]. exists s.
    split; [by eapply inode_write_at_denied; [apply Hop|]|]. split; [done|]. split; [apply calm_refl|].
    split; [apply like_refl, V|]. split; [by intros x|]. unfold overwrite. simpl.
    by rewrite Nat.add_0_r, take_drop. }
  destruct Hgo as (s1 & E & V1 & C & L & O & Hc). exists s1.
  split; [|split; [|done]].
  - unfold file_write. bind_by (unfold get_file; rewrite Hf'; reflexivity). bind_by (exact E).
    rewrite s32_small by lia. by bind_by reflexivity.
  - by eapply inv_upd_file.
Qed.

(** ** Denying writes *)

Definition with_deny (n : Z) (i : inode) : inode :=
  mk_inode (i_sector i) (open_cnt i) (removed i) n (i_data i).

(** The flag of a file and the count of its inode change together. *)
Lemma inv_set_deny s live w f fl i b :
  let fl' := mk_file (f_inode fl) (f_pos fl) b in
  let i' := with_deny (deny_write_cnt i + b2z b - b2z (f_deny_write fl)) i in
  fs_inv s live w -> o_files w !! f = Some fl -> opn s (f_inode fl) i -> i_sector i <> FREE_MAP_SECTOR ->
  fs_inv (set_inodes (<[f_inode fl := i']> (inodes s)) (set_files (<[f := fl']> (files s)) s)) live
    (with_files (<[f := fl']> (o_files w)) w).
Proof.
  intros fl' i' V Hf [Hin Hi] Hnm. set (a := f_inode fl) in *.
  set (s' := set_inodes _ _).
  assert (Hs : files s !! f = Some fl) by (eapply lookup_weaken; [exact Hf|apply V]).
  assert (Hlk : forall x j, opn s' x j -> exists j0, opn s x j0 /\ i_sector j = i_sector j0 /\
    open_cnt j = open_cnt j0 /\ i_data j = i_data j0 /\ removed j = removed j0 /\
    deny_write_cnt j = deny_write_cnt j0 + (if decide (x = a) then b2z b - b2z (f_deny_write fl) else 0)).
  { intros x j [Hx Hj]. simpl in Hx, Hj. apply lookup_insert_Some in Hj as [[<- <-]|[Hne Hj]].
    - exists i. rewrite decide_True by done. simpl. split; [done|]. split_and!; try done. lia.
    - exists j. rewrite decide_False by done. split; [done|]. split_and!; try done. lia. }
  destruct V. constructor; try done; simpl.
  - intros x Hx. apply lookup_insert_is_Some'. right. by apply v_open.
  - intros x j Hj. destruct (Hlk x j Hj) as (j0 & Hj0 & E1 & E2 & E3 & _). rewrite E1, E2, E3. exact (v_inode x j0 Hj0).
  - intros x y j1 j2 H1 H2 E. destruct (Hlk x j1 H1) as (k1 & K1 & E1 & _).
    destruct (Hlk y j2 H2) as (k2 & K2 & E2 & _). eapply v_inj; [exact K1|exact K2|congruence].
  - intros x j Hj. destruct (Hlk x j Hj) as (j0 & Hj0 & _ & E2 & _ & _ & E5). destruct (v_refs x j0 Hj0) as [R1 R2].
    rewrite !(map_sum_update _ _ f fl fl'), E2, E5 by done.
    change (file_refs x fl') with (file_refs x fl). split; [lia|]. rewrite R2.
    change (file_denies x fl') with (b2z ((a =? x) && b)).
    change (file_denies x fl) with (b2z ((a =? x) && f_deny_write fl)). destruct (decide (x = a)) as [->|Hne].
    + rewrite Z.eqb_refl. simpl. lia.
    + rewrite (proj2 (Z.eqb_neq a x)) by done. simpl. lia.
  - destruct v_sub. split; [|done]. by apply insert_mono.
  - intros g gl [[<- <-]|[_ Hg]]%lookup_insert_Some; [simpl; by apply (v_files f fl)|by eapply v_files].
  - intros x [Hx|[Hx|Hx]]; apply v_addr; [left|right; left|by right; right].
    + apply lookup_insert_is_Some in Hx as [<-|[_ ?]]; [by exists i|done].
    + apply lookup_insert_is_Some in Hx as [<-|[_ ?]]; [by exists fl|done].
  - destruct v_mapfile as [?|[(gl & j & Hg & [Hj1 Hj] & Hm) Hmi]]; [by left|right].
    assert (f <> free_map_file s).
    { intros ->. assert (gl = fl) as -> by congruence. fold a in Hj. assert (j = i) as -> by congruence.
      by destruct Hm. }
    assert (f_inode gl <> a) by (intros E; rewrite E in Hj; assert (j = i) as -> by congruence; by destruct Hm).
    split; [|apply lookup_insert_is_Some'; by right]. exists gl, j. simpl.
    rewrite lookup_insert_ne by done. split; [done|]. split; [split; [done|]|done]. simpl. by rewrite lookup_insert_ne.
Qed.

Lemma deny_bound s live w a i :
  fs_inv s live w -> opn s a i -> 0 <= deny_write_cnt i <= open_cnt i.
Proof.
  intros V Hi. destruct (v_refs _ _ _ V a i Hi) as [-> ->]. pose proof (occurs_bound a (o_code w)).
  assert (0 <= map_sum (dir_refs a) (o_dirs w)) by (apply map_sum_nonneg; intros; apply dir_refs_nonneg).
  assert (map_sum (file_denies a) (o_files w) <= map_sum (file_refs a) (o_files w)).
  { apply map_sum_le. intros. apply file_denies_le. }
  split; [apply map_sum_nonneg; intros; apply file_denies_le|lia].
Qed.

(** File object [f] becomes [fl'] and only counts of its inode [i] change. *)
Record deny_changed s s' (f : Z) (fl' : file) (i : inode) : Prop := {
  dc_files : files s' = <[f := fl']> (files s);
  dc_dirs : dirs s' = dirs s;
  dc_map : free_map s' = free_map s;
  dc_map_file : free_map_file s' = free_map_file s;
  dc_brk : brk s' = brk s;
  dc_device : fs_device s' = fs_device s;
  dc_self : exists i', opn s' (f_inode fl') i' /\ i_sector i' = i_sector i /\ removed i' = removed i /\
    open_cnt i' = open_cnt i /\ i_data i' = i_data i;
  dc_other : forall x j, x <> f_inode fl' -> opn s' x j <-> opn s x j;
}.

Lemma file_deny_write_ok s live w f fl i :
  let fl' := mk_file (f_inode fl) (f_pos fl) true in
  fs_inv s live w -> o_files w !! f = Some fl -> opn s (f_inode fl) i -> i_sector i <> FREE_MAP_SECTOR ->
  open_cnt i < 2 ^ 31 - 1 ->
  exists s', file_deny_write f s = Ok (tt, s') /\ fs_inv s' live (with_files (<[f := fl']> (o_files w)) w) /\
    deny_changed s s' f fl' i.
Proof.
  intros fl' V Hf Hi Hnm Hmax. pose proof (lookup_weaken _ _ _ _ Hf (proj1 (v_sub _ _ _ V))) as Hf'.
  assert (0 < f < brk s) by (apply (v_addr _ _ _ V); right; left; by exists fl).
  pose proof (deny_bound _ _ _ _ _ V Hi) as Hd.
  unfold file_deny_write. bind_by (apply assert_run; rewrite (proj2 (Z.eqb_neq f NULL)) by (unfold NULL; lia); done).
  bind_by (unfold get_file; rewrite Hf'; reflexivity).
  destruct (f_deny_write fl) eqn:Edw; cbn [negb].
  - assert (fl' = fl) as E by (unfold fl'; destruct fl; simpl in *; congruence). rewrite E, insert_id by done.
    exists s. split; [done|]. split; [by destruct w|]. constructor; try done; [by rewrite insert_id|].
    exists i. naive_solver.
  - pose proof (inv_set_deny s live w f fl i true V Hf Hi Hnm) as V'. rewrite Edw in V'. simpl in V'.
    replace (deny_write_cnt i + 1 - 0) with (deny_write_cnt i + 1) in V' by lia.
    assert (Hle : deny_write_cnt i + 1 <= open_cnt i).
    { pose proof (deny_bound _ _ _ (f_inode fl) (with_deny (deny_write_cnt i + 1) i) V') as Hb. simpl in Hb.
      apply Hb. destruct Hi. split; [done|]. simpl. by rewrite lookup_insert_eq. }
    bind_by reflexivity. unfold inode_deny_write. destruct Hi as [Hin Hi].
    bind_by (unfold get_inode; simpl; rewrite Hi; reflexivity). cbv zeta. rewrite s32_small by lia.
    bind_by reflexivity. rewrite assert_run by (by apply Z.leb_le).
    eexists. split; [reflexivity|]. split; [exact V'|]. constructor; simpl; try done.
    + eexists. split; [split; [exact Hin|simpl; apply lookup_insert_eq]|done].
    + intros x j Hx. unfold opn. simpl. by rewrite lookup_insert_ne.
Qed.

Lemma file_allow_write_ok s live w f fl i :
  let fl' := mk_file (f_inode fl) (f_pos fl) false in
  fs_inv s live w -> o_files w !! f = Some fl -> opn s (f_inode fl) i -> i_sector i <> FREE_MAP_SECTOR ->
  open_cnt i < 2 ^ 31 ->
  exists s', file_allow_write f s = Ok (tt, s') /\ fs_inv s' live (with_files (<[f := fl']> (o_files w)) w) /\
    deny_changed s s' f fl' i.
Proof.
  intros fl' V Hf Hi Hnm Hmax. pose proof (lookup_weaken _ _ _ _ Hf (proj1 (v_sub _ _ _ V))) as Hf'.
  assert (0 < f < brk s) by (apply (v_addr _ _ _ V); right; left; by exists fl).
  pose proof (deny_bound _ _ _ _ _ V Hi) as Hd.
  unfold file_allow_write. bind_by (apply assert_run; rewrite (proj2 (Z.eqb_neq f NULL)) by (unfold NULL; lia); done).
  bind_by (unfold get_file; rewrite Hf'; reflexivity).
  destruct (f_deny_write fl) eqn:Edw.
  - pose proof (inv_set_deny s live w f fl i false V Hf Hi Hnm) as V'. rewrite Edw in V'. simpl in V'.
    replace (deny_write_cnt i + 0 - 1) with (deny_write_cnt i - 1) in V' by lia.
    assert (Hpos : 0 < deny_write_cnt i).
    { destruct (v_refs _ _ _ V _ i Hi) as [_ ->].
      pose proof (map_sum_ge (file_denies (f_inode fl)) (o_files w) f fl ltac:(intros; apply file_denies_le) Hf) as Hge.
      unfold file_denies at 1 in Hge. rewrite Edw, Z.eqb_refl in Hge. simpl in Hge. lia. }
    bind_by reflexivity. unfold inode_allow_write. destruct Hi as [Hin Hi].
    bind_by (unfold get_inode; simpl; rewrite Hi; reflexivity).
    bind_by (apply assert_run, Z.ltb_lt; lia). bind_by (apply assert_run, Z.leb_le; lia).
    rewrite s32_small by lia. eexists. split; [reflexivity|]. split; [exact V'|]. constructor; simpl; try done.
    + eexists. split; [split; [exact Hin|simpl; apply lookup_insert_eq]|done].
    + intros x j Hx. unfold opn. simpl. by rewrite lookup_insert_ne.
  - assert (fl' = fl) as E by (unfold fl'; destruct fl; simpl in *; congruence). rewrite E, insert_id by done.
    exists s. split; [done|]. split; [by destruct w|]. constructor; try done; [by rewrite insert_id|].
    exists i. naive_solver.
Qed.

(** ** Closing a file *)

(** What closing a handle of inode [a], in state [i], leaves. *)
Record closed_handle s s' (live : gmap Z inode_disk) (a : Z) (i : inode) : Prop := {
  ch_map_file : free_map_file s' = free_map_file s;
  ch_brk : brk s <= brk s';
  ch_like : like (fs_device s) (fs_device s');
  ch_keeps : keeps (left_live i live) s s';
  ch_same : gone i = false -> free_map s' = free_map s /\ forall x, sector (fs_device s') x = sector (fs_device s) x;
  ch_freed : gone i = true -> forall x, 0 <= x ->
    (footprint (i_sector i) (i_data i) x -> bit (free_map s') x = false) /\
    (~ footprint (i_sector i) (i_data i) x -> bit (free_map s') x = bit (free_map s) x);
  ch_saved : saved s live -> saved s' (left_live i live);
  ch_other : forall x j, x <> a -> opn s' x j <-> opn s x j;
  ch_self : forall j, opn s' a j -> i_sector j = i_sector i /\ removed j = removed i /\ open_cnt i <> 1;
}.

Lemma closed_inode_handle s s' live a i : closed_inode s s' live a i -> closed_handle s s' live a i.
Proof.
  intros []. constructor; try done. intros j Hj. apply ci_self in Hj as [? ->]. done.
Qed.

Lemma file_close_ok s live w f fl i :
  fs_inv s live w -> o_files w !! f = Some fl -> opn s (f_inode fl) i -> i_sector i <> FREE_MAP_SECTOR ->
  f <> free_map_file s -> (removed i = true -> map_file_ok s) ->
  handles w < 2 ^ 31 - 1 ->
  exists s', file_close f s = Ok (tt, s') /\
    fs_inv s' (left_live i live) (with_files (delete f (o_files w)) w) /\
    files s' = delete f (files s) /\ dirs s' = dirs s /\ closed_handle s s' live (f_inode fl) i.
Proof.
  intros V Hf Hi Hnm Hne Hrm Hmax.
  assert (Hoc : open_cnt i < 2 ^ 31).
  { pose proof (open_cnt_bound _ _ _ _ _ V Hi). lia. }
  destruct (file_allow_write_ok s live w f fl i V Hf Hi Hnm Hoc)
    as (s0 & E0 & V0 & [Ef Ed Em Emf Eb Edev (i0 & Hi0 & Es & Er & Eo & Edt) Hoth]).
  cbn [f_inode] in Hi0, Hoth. set (fl' := mk_file (f_inode fl) (f_pos fl) false) in *.
  assert (Hg : gone i0 = gone i) by (unfold gone; by rewrite Eo, Er).
  assert (Hll : left_live i0 live = left_live i live) by (unfold left_live; by rewrite Hg, Es).
  pose proof (inv_give_file s0 live _ f fl' V0 (lookup_insert_eq _ _ _) eq_refl ltac:(congruence)) as V1.
  simpl in V1. rewrite delete_insert_eq in V1.
  destruct (inode_close_ok s0 live _ (f_inode fl) i0 V1 Hi0) as (s1 & E1 & V2 & C).
  { intros Hr. rewrite Er in Hr. destruct (Hrm Hr) as (gl & j & Hg1 & Hj & Hm). exists gl, j.
    rewrite Emf, Ef, Em, lookup_insert_ne by done. split; [done|]. split; [|done]. apply Hoth; [|done].
    intros Ex. rewrite Ex in Hj. destruct Hi as [_ Hi], Hj as [_ Hj], Hm as (Hm & _). congruence. }
  { pose proof (handles_del_file w f) as Hh. unfold handles in Hh, Hmax |- *. simpl in Hh |- *. lia. }
  rewrite Hll in V2. assert (0 < f < brk s) by (apply (v_addr _ _ _ V); right; left; exists fl;
    eapply lookup_weaken; [exact Hf|apply V]).
  exists (set_files (delete f (files s1)) s1). split.
  { unfold file_close. rewrite (proj2 (Z.eqb_neq f NULL)) by (unfold NULL; lia). bind_by (exact E0).
    bind_by (unfold get_file; rewrite Ef, lookup_insert_eq; reflexivity). by bind_by (exact E1). }
  split; [apply inv_del_file; [exact V2|apply lookup_delete_eq]|].
  split; [simpl; by rewrite (ci_files _ _ _ _ _ C), Ef, delete_insert_eq|].
  split; [simpl; by rewrite (ci_dirs _ _ _ _ _ C)|].
  destruct (closed_inode_handle _ _ _ _ _ C). rewrite ?Emf, ?Eb, ?Edev, ?Em, ?Hg, ?Hll in *.
  constructor; simpl; try done.
  - intros x Hx Hd. rewrite <- Edev. apply ch_keeps0; by rewrite ?Edev.
  - by rewrite <- Es, <- Edt.
  - intros W. apply ch_saved0. unfold saved in *. by rewrite Emf, Edev, Em.
  - intros x j Hx. rewrite <- Hoth by done. by apply ch_other0.
  - intros j Hj. apply ch_self0 in Hj as (? & ? & ?). split_and!; congruence.
Qed.
End Handles.
