(* ===== verification/FsDir.v ===== *)
(** * Directories as finite maps

    The entries of a directory in the bytes of its file, and what the loops of
    [lookup], [dir_add] and [dir_remove] do to them. *)

From S2P Require Import Prelude Bitmap Block FsState Inode FreeMap File Directory FsInv FsFiles.

(** ** Entries in the bytes of a directory *)

Definition n_entries (c : list Z) : nat := length c / 20.
Definition entry (c : list Z) (k : nat) : list Z := take 20 (drop (20 * k) c).

(** The name in an entry. *)
Definition ename (e : list Z) : list Z := c_string (drop 4 e).

(** Names [dir_add] accepts. *)
Definition valid_name (nm : list Z) : Prop :=
  (1 <= length nm <= 14)%nat /\ Forall (fun c => 0 < c < 256) nm.

(** Slot [k] is in use for [nm], whose inode is in [sec]. *)
Definition slot (c : list Z) (k : nat) (nm : list Z) (sec : Z) : Prop :=
  (k < n_entries c)%nat /\ in_use (entry c k) = true /\ ename (entry c k) = nm /\
  inode_sector (entry c k) = sec.

(** The directory [c] stands for the map [dm]. *)
Record dir_rep (c : list Z) (dm : gmap (list Z) Z) : Prop := {
  dr_names : forall k nm sec, slot c k nm sec -> valid_name nm;
  dr_unique : forall k1 k2 nm s1 s2, slot c k1 nm s1 -> slot c k2 nm s2 -> k1 = k2;
  dr_map : forall nm sec, dm !! nm = Some sec <-> exists k, slot c k nm sec;
}.

Lemma entry_length c k : (k < n_entries c)%nat -> length (entry c k) = 20%nat.
Proof.
  intros Hk. unfold entry, n_entries in *. rewrite length_take, length_drop.
  pose proof (Nat.div_mod_eq (length c) 20). lia.
Qed.

Lemma entry_lookup c k i : entry c k !! i = if decide (i < 20)%nat then c !! (20 * k + i)%nat else None.
Proof.
  unfold entry. case_decide; [by rewrite lookup_take_lt, lookup_drop by lia|].
  by rewrite lookup_take_ge by lia.
Qed.

(** Overwriting slot [k] changes that slot only; what is stored past the last
    whole entry changes no slot. *)
Lemma entry_overwrite c k e j :
  (20 * k <= length c)%nat -> (length e <= 20)%nat -> (j < n_entries c)%nat ->
  entry (overwrite c (20 * Z.of_nat k) e) j =
    if decide (j = k) then e ++ drop (length e) (entry c j) else entry c j.
Proof.
  intros Hk He Hj. apply list_eq. intros i. rewrite entry_lookup.
  rewrite lookup_overwrite by lia. replace (Z.to_nat (20 * Z.of_nat k)) with (20 * k)%nat by lia.
  destruct (decide (i < 20)%nat) as [Hi|Hi].
  - destruct (decide (j = k)) as [->|Hne].
    + case_decide as Hd.
      * rewrite lookup_app_l by lia. f_equal. lia.
      * rewrite lookup_app_r, lookup_drop, entry_lookup by lia. rewrite decide_True by lia. f_equal. lia.
    + rewrite decide_False by lia. rewrite entry_lookup, decide_True by lia. done.
  - symmetry. apply lookup_ge_None. pose proof (entry_length c j Hj). case_decide; [|lia].
    rewrite length_app, length_drop. lia.
Qed.

(** ** The members of entries *)

Lemma c_string_app nm l : Forall (fun c => 0 < c < 256) nm -> c_string (nm ++ 0 :: l) = nm.
Proof.
  induction 1 as [|c nm Hc Hn IH]; simpl; [done|]. rewrite (proj2 (Z.eqb_neq c 0)) by lia. by rewrite IH.
Qed.

Lemma str_eq_ok nm : forall buf,
  Forall (fun c => 0 < c < 256) nm -> (length (c_string buf) < length buf)%nat ->
  str_eq nm buf = Ok (bool_decide (nm = c_string buf)).
Proof.
  induction nm as [|c nm IH]; intros [|b buf] Hn Hl; simpl in *; try lia.
  - by destruct (b =? 0).
  - inversion Hn as [|? ? Hc Hn']; subst. destruct (c =? b) eqn:Ecb; bool_to_prop.
    + subst b. rewrite (proj2 (Z.eqb_neq c 0)) in * by lia. simpl in Hl. rewrite IH by (done || lia).
      f_equal. apply bool_decide_ext. split; [by intros ->|by intros [=]].
    + rewrite bool_decide_false; [done|]. destruct (b =? 0); [done|]. by intros [=].
Qed.

(** A name of a valid entry ends inside its field. *)
Lemma ename_terminated e :
  length e = 20%nat -> valid_name (ename e) -> (length (c_string (drop 4 e)) < length (drop 4 e))%nat.
Proof. intros He [Hl _]. unfold ename in Hl. rewrite length_drop, He. lia. Qed.

Lemma make_entry_ok e nm sec :
  length e = 20%nat -> valid_name nm -> 0 <= sec < 2 ^ 32 ->
  let e' := make_entry e nm sec in
  length e' = 20%nat /\ in_use e' = true /\ ename e' = nm /\ inode_sector e' = sec.
Proof.
  intros He [Hl Hn] Hs e'. unfold e', make_entry, store_name.
  assert (take 14 nm = nm) as -> by (apply take_ge; lia).
  assert (length (take 15 (drop 4 e)) = 15%nat) as H15 by (rewrite length_take, length_drop; lia).
  assert (length (overwrite (take 15 (drop 4 e)) 0 (nm ++ [0])) = 15%nat) as Ho.
  { rewrite overwrite_length; [done|lia|]. rewrite length_app, H15. simpl. lia. }
  assert (length (elem_bytes sec) = 4%nat) as H4 by done.
  split; [rewrite !length_app, Ho, H4; done|]. split; [|split].
  - unfold in_use. rewrite app_nth2, app_nth2 by (rewrite ?Ho, ?H4; lia). by rewrite Ho, H4.
  - unfold ename. rewrite drop_app_length' by done. unfold overwrite. simpl.
    rewrite <- !app_assoc. by apply c_string_app.
  - unfold inode_sector. rewrite take_app_length' by done. by apply elem_bytes_roundtrip.
Qed.

Lemma clear_in_use_ok e : length e = 20%nat -> length (clear_in_use e) = 20%nat /\ in_use (clear_in_use e) = false.
Proof.
  intros He. unfold clear_in_use, in_use. assert (length (take 19 e) = 19%nat) as Ht by (rewrite length_take; lia).
  rewrite length_app, Ht. split; [done|]. rewrite app_nth2, Ht by lia. done.
Qed.

(** ** What the updates do to the map *)

Section Updates.
Context (c : list Z) (dm : gmap (list Z) Z) (k : nat) (e : list Z).
Hypothesis Hrep : dir_rep c dm.
Hypothesis Hk : (k < n_entries c)%nat.
Hypothesis He : length e = 20%nat.

Let c' := overwrite c (20 * Z.of_nat k) e.

Lemma overwrite_n_entries : n_entries c' = n_entries c.
Proof.
  unfold n_entries, c' in *. pose proof (Nat.div_mod_eq (length c) 20). by rewrite overwrite_length by lia.
Qed.

Lemma entry_updated j : (j < n_entries c)%nat -> entry c' j = if decide (j = k) then e else entry c j.
Proof.
  intros Hj. unfold c', n_entries in *. pose proof (Nat.div_mod_eq (length c) 20).
  rewrite entry_overwrite by (unfold n_entries; lia). case_decide; [|done].
  rewrite He, drop_ge, app_nil_r; [done|]. rewrite entry_length; [lia|done].
Qed.

Lemma slot_updated j nm sec :
  slot c' j nm sec <->
  (j = k /\ in_use e = true /\ ename e = nm /\ inode_sector e = sec) \/ (j <> k /\ slot c j nm sec).
Proof.
  unfold slot. rewrite overwrite_n_entries. split.
  - intros (Hj & H1 & H2 & H3). rewrite entry_updated in * by done. case_decide; [by left|by right].
  - intros [(-> & ?)|(Hne & Hj & ?)]; rewrite entry_updated by done.
    + by rewrite decide_True.
    + by rewrite decide_False.
Qed.

Lemma dir_rep_add nm sec :
  in_use (entry c k) = false -> dm !! nm = None -> valid_name nm ->
  in_use e = true -> ename e = nm -> inode_sector e = sec -> dir_rep c' (<[nm := sec]> dm).
Proof.
  intros Hfree Hnew Hv Hu Hn Hs. destruct Hrep as [Hnames Huniq Hmap].
  assert (Hold : forall j s, ~ slot c j nm s).
  { intros j s Hj. assert (dm !! nm = Some s) by (apply Hmap; eauto). congruence. }
  split.
  - intros j n s [(_ & _ & <- & _)|(_ & Hj)]%slot_updated; [congruence|eauto].
  - intros j1 j2 n s1 s2 [(-> & _ & E1 & _)|(N1 & H1)]%slot_updated [(-> & _ & E2 & _)|(N2 & H2)]%slot_updated;
      [done| | |by eapply Huniq].
    + exfalso. apply (Hold j2 s2). congruence.
    + exfalso. apply (Hold j1 s1). congruence.
  - intros n s. rewrite lookup_insert_Some, Hmap. split.
    + intros [[<- <-]|[Hne [j Hj]]]; [exists k; apply slot_updated; by left|].
      exists j. apply slot_updated. right. split; [|done]. intros ->. destruct Hj as (_ & Hj & _). congruence.
    + intros [j [(-> & _ & <- & <-)|(Hne & Hj)]%slot_updated]; [by left|right].
      split; [|by exists j]. intros <-. by apply (Hold j s).
Qed.

Lemma dir_rep_remove nm sec :
  slot c k nm sec -> in_use e = false -> dir_rep c' (delete nm dm).
Proof.
  intros Hsl Hu. destruct Hrep as [Hnames Huniq Hmap]. split.
  - intros j n s [(_ & Hx & _)|(_ & Hj)]%slot_updated; [congruence|eauto].
  - intros j1 j2 n s1 s2 [(_ & Hx & _)|(_ & H1)]%slot_updated [(_ & Hy & _)|(_ & H2)]%slot_updated;
      [congruence..|by eapply Huniq].
  - intros n s. rewrite lookup_delete_Some, Hmap. split.
    + intros [Hne [j Hj]]. exists j. apply slot_updated. right. split; [|done]. intros ->.
      destruct Hj as (_ & _ & Hj & _), Hsl as (_ & _ & Hs & _). congruence.
    + intros [j [(_ & Hx & _)|(Hne & Hj)]%slot_updated]; [congruence|].
      split; [|by exists j]. intros <-. apply Hne. by eapply Huniq.
Qed.
End Updates.

(** ** The loops over a directory *)

Section Loops.
Context `{BlockLaws D} (live : gmap Z inode_disk) (a : Z) (i : inode).
Implicit Types s : fs D.

(** The directory whose inode is [a], open in [s], has the bytes [c]. *)
Definition dir_at s (w : own) (c : list Z) : Prop :=
  fs_inv s live w /\ opn s a i /\ contents (fs_device s) (i_data i) = c.

Lemma opn_calm s s' x j : calm s s' -> opn s x j -> opn s' x j.
Proof. intros C. unfold opn. by rewrite (calm_inodes _ _ C), (calm_open _ _ C). Qed.

Lemma dir_at_quiet s s' w c : dir_at s w c -> quiet s s' -> dir_at s' w c.
Proof.
  intros (V & Hi & Hc) Q. pose proof Q as (C & L & S). split; [by eapply inv_quiet|].
  split; [by eapply opn_calm|]. rewrite <- Hc. apply same_bytes. done.
Qed.

Lemma dir_length s w c : dir_at s w c -> d_length (i_data i) = Z.of_nat (length c) /\ Z.of_nat (length c) < 2 ^ 31 - 511.
Proof.
  intros (V & Hi & <-). destruct (inv_open_inode _ _ _ _ _ V Hi) as [_ _ _ _ []].
  unfold contents. rewrite bytes_length. lia.
Qed.

Lemma read_entry s w c k :
  dir_at s w c -> (k <= n_entries c)%nat ->
  exists s', quiet s s' /\
    if decide (k < n_entries c)%nat
    then inode_read_at a ENTRY_SIZE (20 * Z.of_nat k) s = Ok ((20, entry c k), s')
    else exists m bs, inode_read_at a ENTRY_SIZE (20 * Z.of_nat k) s = Ok ((m, bs), s') /\ m < 20 /\
      (length bs < 20)%nat.
Proof.
  intros Hd Hk. pose proof Hd as (V & Hi & Hc). destruct (dir_length s w c Hd) as [Hl Hmax].
  pose proof (Nat.div_mod_eq (length c) 20) as Hdm. fold (n_entries c) in Hdm.
  pose proof (Nat.mod_upper_bound (length c) 20 ltac:(lia)).
  destruct (inode_read_at_ok s a i ENTRY_SIZE (20 * Z.of_nat k)) as (m & s' & E & Hm & Hmf & Q);
    [by eapply inv_open_inode|lia|]. rewrite (Hmf (v_mem _ _ _ V)) in *. exists s'. split; [done|].
  unfold avail, ENTRY_SIZE in *. case_decide as Hk'.
  - rewrite E. replace (Z.max 0 _) with 20 by lia. do 3 f_equal. unfold entry. rewrite <- Hc. unfold contents.
    rewrite (bytes_sub _ _ (d_length (i_data i))) by lia.
    by replace (Z.to_nat (20 * Z.of_nat k)) with (20 * k)%nat by lia.
  - eexists _, _. split; [exact E|]. rewrite bytes_length. lia.
Qed.

Lemma lookup_loop_ok c dm nm w :
  dir_rep c dm -> Forall (fun x => 0 < x < 256) nm -> forall fuel k s,
  dir_at s w c -> (k <= n_entries c)%nat -> (n_entries c < fuel + k)%nat ->
  exists r s', lookup_loop fuel a nm (20 * Z.of_nat k) s = Ok (r, s') /\ quiet s s' /\
    match r with
    | Some (e, ofs) => exists j, slot c j nm (inode_sector e) /\ e = entry c j /\ ofs = 20 * Z.of_nat j
    | None => forall j sec, (k <= j)%nat -> ~ slot c j nm sec
    end.
Proof.
  intros Hrep Hn fuel. induction fuel as [|fuel IH]; intros k s Hd Hk Hf; [lia|].
  destruct (read_entry s w c k Hd Hk) as (s1 & Q1 & Hr). cbn [lookup_loop]. case_decide as Hlt.
  2: { destruct Hr as (m & bs & E & Hm & _). bind_by (exact E). cbn [fst].
       rewrite (proj2 (Z.eqb_neq m ENTRY_SIZE)) by (unfold ENTRY_SIZE; lia).
       exists None, s1. split; [done|]. split; [done|]. intros j sec Hj (Hj' & _). lia. }
  bind_by (exact Hr). cbn [fst snd]. change (20 =? ENTRY_SIZE) with true. cbv iota.
  assert (Hnext : (forall sec, ~ slot c k nm sec) ->
    exists r s', lookup_loop fuel a nm (20 * Z.of_nat k + ENTRY_SIZE) s1 = Ok (r, s') /\ quiet s s' /\
    match r with
    | Some (e, ofs) => exists j, slot c j nm (inode_sector e) /\ e = entry c j /\ ofs = 20 * Z.of_nat j
    | None => forall j sec, (k <= j)%nat -> ~ slot c j nm sec
    end).
  { intros Hno. replace (20 * Z.of_nat k + ENTRY_SIZE) with (20 * Z.of_nat (S k)) by (unfold ENTRY_SIZE; lia).
    destruct (IH (S k) s1) as (r & s2 & E & Q2 & Hp); [by eapply dir_at_quiet|lia|lia|].
    exists r, s2. split; [done|]. split; [by eapply quiet_trans|]. destruct r as [[e o]|]; [done|].
    intros j sec Hj. destruct (decide (j = k)) as [->|]; [done|]. apply Hp. lia. }
  destruct (in_use (entry c k)) eqn:Eu; [|apply Hnext; intros sec (_ & Hx & _); congruence].
  assert (Hval : valid_name (ename (entry c k))) by (by eapply (dr_names _ _ Hrep k); split).
  bind_by (rewrite str_eq_ok; [reflexivity|done|apply ename_terminated; [by apply entry_length|done]]).
  fold (ename (entry c k)). case_bool_decide as En.
  - eexists (Some _), s1. split; [reflexivity|]. split; [done|]. exists k. split; [|done]. by split.
  - apply Hnext. intros sec (_ & _ & Hx & _). congruence.
Qed.

Lemma free_slot_loop_ok c w : forall fuel k s e,
  dir_at s w c -> (k <= n_entries c)%nat -> (n_entries c < fuel + k)%nat -> length e = 20%nat ->
  exists j e' s', free_slot_loop fuel a (20 * Z.of_nat k) e s = Ok ((20 * Z.of_nat j, e'), s') /\ quiet s s' /\
    length e' = 20%nat /\ (k <= j <= n_entries c)%nat /\
    ((j < n_entries c)%nat -> in_use (entry c j) = false) /\
    (forall l, (k <= l < j)%nat -> in_use (entry c l) = true).
Proof.
  intros fuel. induction fuel as [|fuel IH]; intros k s e Hd Hk Hf He; [lia|].
  destruct (read_entry s w c k Hd Hk) as (s1 & Q1 & Hr). cbn [free_slot_loop]. case_decide as Hlt.
  2: { destruct Hr as (m & bs & E & Hm & Hbs). bind_by (exact E). cbn [fst snd].
       rewrite (proj2 (Z.eqb_neq m ENTRY_SIZE)) by (unfold ENTRY_SIZE; lia).
       eexists k, _, s1. split; [reflexivity|]. split; [done|].
       split; [rewrite length_app, length_drop; lia|]. split; [lia|]. split; [lia|]. lia. }
  bind_by (exact Hr). cbn [fst snd]. change (20 =? ENTRY_SIZE) with true. cbv iota.
  pose proof (entry_length c k Hlt) as Hlen. rewrite Hlen, drop_ge, app_nil_r by lia.
  destruct (in_use (entry c k)) eqn:Eu; cbn [negb].
  - replace (20 * Z.of_nat k + ENTRY_SIZE) with (20 * Z.of_nat (S k)) by (unfold ENTRY_SIZE; lia).
    destruct (IH (S k) s1 (entry c k)) as (j & e' & s2 & E & Q2 & Hl & Hj & Hfree & Hused);
      [by eapply dir_at_quiet|lia|lia|done|].
    exists j, e', s2. split; [done|]. split; [by eapply quiet_trans|]. split; [done|]. split; [lia|].
    split; [done|]. intros l Hl'. destruct (decide (l = k)) as [->|]; [done|]. apply Hused. lia.
  - eexists k, _, s1. split; [reflexivity|]. split; [done|]. split; [done|]. split; [lia|]. split; [done|]. lia.
Qed.
End Loops.
