(* ===== verification/FsSpec.v ===== *)
(** * What the file system promises

    The abstract file system: a directory that maps names to files, the bytes
    of every file that is linked or open, and the open files with their
    positions; and what each call does to it.  [refines] relates it to the file
    system of [filesys/]. *)

From S2P Require Import Prelude Bitmap Block FsState Inode FreeMap File Directory FsInv FsFiles FsDir.

(** An open file: its file, position, and whether it denies writes. *)
Record handle := mk_handle { h_file : Z; h_pos : Z; h_deny : bool }.

(** Files are named by the sector of their inode. *)
Record afs := mk_afs {
  a_dir : gmap (list Z) Z;
  a_data : gmap Z (list Z);
  a_open : gmap Z handle;
}.

Definition linked (A : afs) (sec : Z) : Prop := map_Exists (fun _ x => x = sec) (a_dir A).
Definition used (A : afs) (sec : Z) : Prop := map_Exists (fun _ h => h_file h = sec) (a_open A).
Definition denied (A : afs) (sec : Z) : Prop :=
  map_Exists (fun _ h => h_file h = sec /\ h_deny h = true) (a_open A).

(** A file that is neither linked nor open is deleted. *)
Definition collect (sec : Z) (A : afs) : afs :=
  if decide (linked A sec \/ used A sec) then A else mk_afs (a_dir A) (delete sec (a_data A)) (a_open A).

Definition with_handle (f : Z) (h : handle) (A : afs) : afs := mk_afs (a_dir A) (a_data A) (<[f := h]> (a_open A)).

(** ** The calls *)

(** [junk] is the uninitialised directory entry of [dir_add]. *)
Inductive call :=
| Create (name : list Z) (initial_size : Z) (junk : list Z)
| Open (name : list Z)
| Remove (name : list Z)
| Read (f size : Z)
| Write (f : Z) (buffer : list Z) (size : Z)
| Seek (f pos : Z)
| Tell (f : Z)
| Length (f : Z)
| Deny (f : Z)
| Allow (f : Z)
| Close (f : Z).

Inductive reply :=
| Done
| Answer (b : bool)
| Number (n : Z)
| Data (n : Z) (bytes : list Z).

Section Calls.
Context {D : Type} `{BlockOperations D}.

Definition run (c : call) : M (fs D) reply :=
  match c with
  | Create name n junk => b ← filesys_create name n junk; mret (Answer b)
  | Open name => f ← filesys_open name; mret (Number f)
  | Remove name => b ← filesys_remove name; mret (Answer b)
  | Read f size => r ← file_read f size; mret (Data r.1 r.2)
  | Write f buffer size => n ← file_write f buffer size; mret (Number n)
  | Seek f pos => _ ← file_seek f pos; mret Done
  | Tell f => n ← file_tell f; mret (Number n)
  | Length f => n ← file_length f; mret (Number n)
  | Deny f => _ ← file_deny_write f; mret Done
  | Allow f => _ ← file_allow_write f; mret Done
  | Close f => _ ← file_close f; mret Done
  end.

Fixpoint runs (cs : list call) : M (fs D) (list reply) :=
  match cs with
  | [] => mret []
  | c :: cs => r ← run c; rs ← runs cs; mret (r :: rs)
  end.
End Calls.

(** Bytes a transfer of [size] bytes at [pos] can move. *)
Definition moved (c : list Z) (size pos : Z) : Z := Z.max 0 (Z.min size (Z.of_nat (length c) - pos)).

(** What a call on open file [h], whose bytes are [c], may answer and do. *)
Definition file_spec (A : afs) (c : call) (f : Z) (h : handle) (bs : list Z) (r : reply) (A' : afs) : Prop :=
  match c with
  | Read _ size =>
      let n := moved bs size (h_pos h) in
      r = Data n (take (Z.to_nat n) (drop (Z.to_nat (h_pos h)) bs)) /\
      A' = with_handle f (mk_handle (h_file h) (h_pos h + n) (h_deny h)) A
  | Write _ buffer size =>
      let n := if decide (denied A (h_file h)) then 0 else moved bs size (h_pos h) in
      r = Number n /\
      A' = with_handle f (mk_handle (h_file h) (h_pos h + n) (h_deny h))
             (mk_afs (a_dir A) (<[h_file h := overwrite bs (h_pos h) (take (Z.to_nat n) buffer)]> (a_data A))
                (a_open A))
  | Seek _ pos => r = Done /\ A' = with_handle f (mk_handle (h_file h) pos (h_deny h)) A
  | Tell _ => r = Number (h_pos h) /\ A' = A
  | Length _ => r = Number (Z.of_nat (length bs)) /\ A' = A
  | Deny _ => r = Done /\ A' = with_handle f (mk_handle (h_file h) (h_pos h) true) A
  | Allow _ => r = Done /\ A' = with_handle f (mk_handle (h_file h) (h_pos h) false) A
  | Close _ =>
      r = Done /\ A' = collect (h_file h) (mk_afs (a_dir A) (a_data A) (delete f (a_open A)))
  | _ => False
  end.

(** [filesys_create] may fail for lack of space; what it then allocated is not
    part of any file. *)
Definition spec (A : afs) (c : call) (r : reply) (A' : afs) : Prop :=
  match c with
  | Create name n _ =>
      r = Answer false /\ A' = A \/
      exists sec, r = Answer true /\ valid_name name /\ a_dir A !! name = None /\
        a_data A !! sec = None /\
        A' = mk_afs (<[name := sec]> (a_dir A)) (<[sec := replicate (Z.to_nat n) 0]> (a_data A)) (a_open A)
  | Open name =>
      match a_dir A !! name with
      | None => r = Number NULL /\ A' = A
      | Some sec => exists f, r = Number f /\ f <> NULL /\ a_open A !! f = None /\
          A' = with_handle f (mk_handle sec 0 false) A
      end
  | Remove name =>
      match a_dir A !! name with
      | None => r = Answer false /\ A' = A
      | Some sec => r = Answer true /\
          A' = collect sec (mk_afs (delete name (a_dir A)) (a_data A) (a_open A))
      end
  | Read f _ | Write f _ _ | Seek f _ | Tell f | Length f | Deny f | Allow f | Close f =>
      exists h bs, a_open A !! f = Some h /\ a_data A !! h_file h = Some bs /\ file_spec A c f h bs r A'
  end.

(** Names are strings; files are open; sizes and offsets are those of their types. *)
Definition call_ok (A : afs) (c : call) : Prop :=
  match c with
  | Create name n junk => Forall (fun x => 0 < x < 256) name /\ 0 <= n < 2 ^ 31 /\ length junk = 20%nat
  | Open name | Remove name => Forall (fun x => 0 < x < 256) name
  | Write f buffer size => is_Some (a_open A !! f) /\ size <= Z.of_nat (length buffer)
  | Seek f pos => is_Some (a_open A !! f) /\ 0 <= pos < 2 ^ 31
  | Read f _ | Tell f | Length f | Deny f | Allow f | Close f => is_Some (a_open A !! f)
  end.

(** ** The relation with the state of the kernel *)

Definition is_system (sec : Z) : Prop := sec = FREE_MAP_SECTOR \/ sec = ROOT_DIR_SECTOR.
#[global] Instance is_system_dec sec : Decision (is_system sec).
Proof. unfold is_system. apply _. Defined.

Section State.
Context `{BlockLaws D}.
Implicit Types s : fs D.

(** Every file and directory object holds its reference. *)
Definition all_own s : own := mk_own [] (files s) (dirs s).

(** The handle an open file shows; the file of the free map is hidden. *)
Definition view s (f : Z) : option handle :=
  if decide (f = free_map_file s) then None
  else fl ← files s !! f; i ← inodes s !! f_inode fl; Some (mk_handle (i_sector i) (f_pos fl) (f_deny_write fl)).

(** The bytes of a file. *)
Definition user_data s (live : gmap Z inode_disk) (sec : Z) : option (list Z) :=
  if decide (is_system sec) then None else contents (fs_device s) <$> live !! sec.

(** With [w] the holders of references in the middle of a call. *)
Record sim s (live : gmap Z inode_disk) (w : own) (A : afs) : Prop := {
  m_inv : fs_inv s live w;
  m_map : map_file_ok s;
  m_saved : saved s live;
  m_files : files s = o_files w;
  m_dirs : dirs s = o_dirs w;
  m_root : exists d, live !! ROOT_DIR_SECTOR = Some d /\ dir_rep (contents (fs_device s) d) (a_dir A);
  m_linked : forall nm sec, a_dir A !! nm = Some sec -> is_Some (live !! sec) /\ ~ is_system sec;
  m_inj : forall n1 n2 sec, a_dir A !! n1 = Some sec -> a_dir A !! n2 = Some sec -> n1 = n2;
  m_removed : forall a i, opn s a i ->
    removed i = true <-> ~ is_system (i_sector i) /\ ~ linked A (i_sector i);
  m_rootdirs : forall d dr i, dirs s !! d = Some dr -> opn s (dir_inode dr) i -> i_sector i = ROOT_DIR_SECTOR;
  m_user : forall f fl i, files s !! f = Some fl -> opn s (f_inode fl) i -> f <> free_map_file s ->
    ~ is_system (i_sector i);
  m_data : forall sec, a_data A !! sec = user_data s live sec;
  m_open : forall f, a_open A !! f = view s f;
}.

Definition refines s (A : afs) : Prop := exists live, sim s live (all_own s) A.

(** Room for the references a call takes. *)
Definition room s : Prop := handles (all_own s) < 2 ^ 31 - 4.
Definition same_room s s' : Prop := handles (all_own s') = handles (all_own s).

Lemma linked_iff A sec : linked A sec <-> exists nm, a_dir A !! nm = Some sec.
Proof. unfold linked, map_Exists. naive_solver. Qed.
Lemma used_iff A sec : used A sec <-> exists f h, a_open A !! f = Some h /\ h_file h = sec.
Proof. unfold used, map_Exists. naive_solver. Qed.
Lemma denied_iff A sec :
  denied A sec <-> exists f h, a_open A !! f = Some h /\ h_file h = sec /\ h_deny h = true.
Proof. unfold denied, map_Exists. naive_solver. Qed.

(** ** Steps that change no file *)

(** Inodes keep their sector and their mark. *)
Definition inodes_kept s s' : Prop := forall x j j', opn s x j -> opn s' x j' ->
  i_sector j' = i_sector j /\ removed j' = removed j.

Lemma view_eq s s' live live' w w' f :
  fs_inv s live w -> fs_inv s' live' w' -> files s = o_files w -> files s' = o_files w' ->
  files s' !! f = files s !! f -> free_map_file s' = free_map_file s ->
  (forall x j j', opn s x j -> opn s' x j' -> i_sector j' = i_sector j) ->
  view s' f = view s f.
Proof.
  intros V V' Ef Ef' Hf Em K. unfold view. rewrite Em, Hf. case_decide as Hd; [done|].
  destruct (files s !! f) as [fl|] eqn:E; [simpl|done].
  rewrite Ef in E. rewrite Ef' in Hf. destruct (v_files _ _ _ V f fl E) as [O _].
  destruct (v_files _ _ _ V' f fl Hf) as [O' _].
  destruct (v_open _ _ _ V _ O) as [j Hj], (v_open _ _ _ V' _ O') as [j' Hj'].
  rewrite Hj, Hj'. simpl. by rewrite (K (f_inode fl) j j').
Qed.

Lemma sim_step s s' live w w' A :
  sim s live w A -> fs_inv s' live w' -> map_file_ok s' -> saved s' live ->
  (forall n d, live !! n = Some d -> n <> FREE_MAP_SECTOR -> contents (fs_device s') d = contents (fs_device s) d) ->
  inodes_kept s s' ->
  (forall x j', opn s' x j' -> (exists j, opn s x j) \/
    removed j' = false /\ (is_system (i_sector j') \/ linked A (i_sector j'))) ->
  free_map_file s' = free_map_file s -> files s' = files s -> o_files w' = files s -> dirs s' = o_dirs w' ->
  (forall d dr i, dirs s' !! d = Some dr -> opn s' (dir_inode dr) i -> i_sector i = ROOT_DIR_SECTOR) ->
  sim s' live w' A.
Proof.
  intros [] V' M' W' Hc K Hn Em Ef Ew Ed Hd. constructor; try done.
  - congruence.
  - destruct m_root0 as (d & Hd0 & Hr). exists d. split; [done|]. by rewrite (Hc _ _ Hd0).
  - intros a i Hi. destruct (Hn a i Hi) as [[j Hj]|[Hr Hs]].
    + destruct (K a j i Hj Hi) as [-> ->]. by apply (m_removed0 a).
    + rewrite Hr. naive_solver.
  - rewrite Ef, Em. intros f fl i Hf Hi Hne.
    assert (f_inode fl ∈ open_inodes s) as O by (rewrite m_files0 in Hf; by apply (v_files _ _ _ m_inv0 f fl)).
    destruct (v_open _ _ _ m_inv0 _ O) as [j Hj]. destruct (K _ j i (conj O Hj) Hi) as [-> _].
    by apply (m_user0 f fl).
  - intros sec. rewrite m_data0. unfold user_data. case_decide as Hs; [done|].
    destruct (live !! sec) as [d|] eqn:E; [|done]. simpl. f_equal. symmetry. apply (Hc _ _ E).
    intros ->. apply Hs. by left.
  - intros f. rewrite m_open0. symmetry. eapply view_eq; [exact m_inv0|exact V'|done| |by rewrite Ef|done|].
    + congruence.
    + intros x j j' Hj Hj'. by apply (K x).
Qed.

Lemma quiet_opn s s' x j : quiet s s' -> opn s' x j <-> opn s x j.
Proof. intros (C & _). unfold opn. by rewrite (calm_inodes _ _ C), (calm_open _ _ C). Qed.

Lemma saved_ext s s' live :
  free_map s' = free_map s -> free_map_file s' = free_map_file s ->
  (forall y, sector (fs_device s') y = sector (fs_device s) y) -> saved s live -> saved s' live.
Proof.
  intros Em Ef Hs W Hf d0 Hd0. rewrite Em. rewrite Ef in Hf. destruct (W Hf d0 Hd0) as (m & Hm & Hc).
  exists m. split; [done|]. rewrite <- Hc. by apply same_bytes.
Qed.

Lemma sim_quiet s s' live w A : sim s live w A -> quiet s s' -> sim s' live w A.
Proof.
  intros S Q. pose proof Q as (C & L & Hs). pose proof (m_inv _ _ _ _ S) as V.
  eapply sim_step; [exact S|by eapply inv_quiet|..].
  - destruct (m_map _ _ _ _ S) as (fl & i & Hf & Hi & Hm). exists fl, i.
    rewrite (calm_files _ _ C), (calm_map_file _ _ C), (calm_map _ _ C). split; [done|]. split; [|done].
    by apply (quiet_opn s s').
  - apply (saved_ext s s'); [apply C|apply C|done|apply S].
  - intros n d _ _. apply same_bytes. done.
  - intros x j j' Hj Hj'%(quiet_opn s s'); [|done]. destruct Hj as [_ Hj], Hj' as [_ Hj']. by simplify_eq.
  - intros x j' Hj'%(quiet_opn s s'); [|done]. left. by exists j'.
  - apply C.
  - apply C.
  - symmetry. apply S.
  - rewrite (calm_dirs _ _ C). apply S.
  - intros d dr i. rewrite (calm_dirs _ _ C). intros Hd Hi%(quiet_opn s s'); [|done]. by apply (m_rootdirs _ _ _ _ S d dr).
Qed.

Lemma steady_opn s s' x j : steady s s' -> opn s' x j <-> opn s x j.
Proof. intros []. unfold opn. by rewrite st_inodes, st_open. Qed.

Lemma sim_steady s s' live w A :
  sim s live w A -> fs_inv s' live w -> steady s s' -> saved s' live ->
  (forall n d, live !! n = Some d -> n <> FREE_MAP_SECTOR -> contents (fs_device s') d = contents (fs_device s) d) ->
  sim s' live w A.
Proof.
  intros S V' St W K. eapply sim_step; [exact S|exact V'|..].
  - eapply steady_map_file; [done|apply S].
  - done.
  - done.
  - intros x j j' Hj Hj'%(steady_opn s s'); [|done]. destruct Hj as [_ Hj], Hj' as [_ Hj']. by simplify_eq.
  - intros x j' Hj'%(steady_opn s s'); [|done]. left. by exists j'.
  - apply St.
  - apply St.
  - symmetry. apply S.
  - rewrite (st_dirs _ _ St). apply S.
  - intros d dr i. rewrite (st_dirs _ _ St). intros Hd Hi%(steady_opn s s'); [|done]. by apply (m_rootdirs _ _ _ _ S d dr).
Qed.

(** A new root directory; the bytes of the files stay. *)
Lemma sim_change s s' live w A dm :
  sim s live w A -> fs_inv s' live w -> map_file_ok s' -> saved s' live -> files s' = files s -> dirs s' = dirs s ->
  free_map_file s' = free_map_file s ->
  (forall x j', opn s' x j' -> exists j, opn s x j /\ i_sector j' = i_sector j) ->
  (forall n d, live !! n = Some d -> ~ is_system n -> contents (fs_device s') d = contents (fs_device s) d) ->
  (exists d, live !! ROOT_DIR_SECTOR = Some d /\ dir_rep (contents (fs_device s') d) dm) ->
  (forall nm sec, dm !! nm = Some sec -> is_Some (live !! sec) /\ ~ is_system sec) ->
  (forall n1 n2 sec, dm !! n1 = Some sec -> dm !! n2 = Some sec -> n1 = n2) ->
  (forall a i, opn s' a i ->
     removed i = true <-> ~ is_system (i_sector i) /\ ~ linked (mk_afs dm (a_data A) (a_open A)) (i_sector i)) ->
  sim s' live w (mk_afs dm (a_data A) (a_open A)).
Proof.
  intros [] V' M' W' Ef Ed Em K Hc Hr Hl Hi Hrm. constructor; simpl; try done.
  - congruence.
  - congruence.
  - intros d dr j. rewrite Ed. intros Hd (j0 & Hj & ->)%K. by apply (m_rootdirs0 d dr).
  - intros f fl j. rewrite Ef, Em. intros Hf (j0 & Hj & ->)%K. by apply (m_user0 f fl).
  - intros sec. rewrite m_data0. unfold user_data. case_decide as Hs; [done|].
    destruct (live !! sec) as [d|] eqn:E; [|done]. simpl. f_equal. symmetry. by eapply Hc.
  - intros f. rewrite m_open0. symmetry. eapply view_eq; [exact m_inv0|exact V'|done|congruence|by rewrite Ef|done|].
    intros x j j' [_ Hj] Hj'. destruct (K x j' Hj') as (j0 & [_ Hj0] & ->). congruence.
Qed.

(** ** Opening inodes, and the root directory *)

Lemma map_file_opened s s' a : opened s s' a -> map_file_ok s -> map_file_ok s'.
Proof.
  intros [] (fl & i & Hf & Hi & Es & Hd & Hr & Hl). destruct (op_inodes _ _ Hi) as (i' & Hi' & E1 & E2 & E3 & E4).
  exists fl, i'. rewrite op_files, op_map_file, op_map, E1, E2, E3, E4. done.
Qed.

Lemma opened_kept s s' a : opened s s' a -> inodes_kept s s'.
Proof.
  intros [] x j j' Hj Hj'. destruct (op_inodes x j Hj) as (k & Hk & E1 & E2 & _).
  destruct Hj' as [_ Hj'], Hk as [_ Hk]. by simplify_eq.
Qed.
End State.
