(* ===== verification/FsOps.v ===== *)
(** * The calls refine the abstract file system

    Each step of a call keeps [sim] or moves the abstract state; the calls of
    [filesys.c] and [file.c] are put together from the steps. *)

From S2P Require Import Prelude Bitmap Block FsState Inode FreeMap File Directory FsInv FsFiles FsDir FsSpec.

Section Steps.
Context `{BlockLaws D}.
Implicit Types s : fs D.

Lemma handles_hold a w : handles (hold a w) = handles w + 1.
Proof. unfold handles. simpl. lia. Qed.
Lemma handles_new_dir d dr w :
  o_dirs w !! d = None -> handles (with_dirs (<[d := dr]> (o_dirs w)) w) = handles w + 1.
Proof. intros Hd. unfold handles. simpl. rewrite map_size_insert_None by done. lia. Qed.

(** ** Opening inodes, and the root directory *)

Lemma sim_inode_open s live w A sec d :
  sim s live w A -> live !! sec = Some d -> is_system sec \/ linked A sec -> handles w < 2 ^ 31 - 1 ->
  exists a i s', inode_open sec s = Ok (a, s') /\ sim s' live (hold a w) A /\ opn s' a i /\
    i_sector i = sec /\ i_data i = d /\ a <> NULL /\ opened s s' a.
Proof.
  intros S Hl Hsec Hmax. pose proof (m_inv _ _ _ _ S) as V.
  destruct (inode_open_ok s live w sec d V Hl Hmax) as (a & i & s' & E & V' & O & Hi & Es & Ed & Hr).
  exists a, i, s'. split; [done|]. split; [|split; [done|]; split; [done|]; split; [done|]].
  2: { split; [apply (inv_open_inode _ _ _ _ _ V' Hi)|done]. }
  eapply sim_step; [exact S|exact V'|..].
  - eapply map_file_opened; [done|apply S].
  - apply (saved_ext s s'); try apply O. apply S.
  - intros n dn _ _. apply same_bytes, O.
  - by eapply opened_kept.
  - intros x j Hj. destruct (decide (x = a)) as [->|Hne].
    + destruct Hi as [? Hi], Hj as [? Hj]. simplify_eq. destruct (removed i).
      * left. destruct Hr as (i0 & ? & _); [done|]. by exists i0.
      * by right.
    + left. exists j. by apply (op_other _ _ _ O).
  - apply O.
  - apply O.
  - simpl. symmetry. apply S.
  - simpl. rewrite (op_dirs _ _ _ O). apply S.
  - intros x dr j. rewrite (op_dirs _ _ _ O). intros Hx Hj.
    assert (dir_inode dr ∈ open_inodes s) as Ho.
    { rewrite (m_dirs _ _ _ _ S) in Hx. by apply (v_dirs _ _ _ V x). }
    destruct (v_open _ _ _ V _ Ho) as [j0 Hj0]. destruct (opened_kept _ _ _ O (dir_inode dr) j0 j) as [-> _]; [done..|].
    by apply (m_rootdirs _ _ _ _ S x dr).
Qed.

Lemma sim_dir_open s live w A a i :
  sim s live (hold a w) A -> opn s a i -> i_sector i = ROOT_DIR_SECTOR ->
  exists d s', dir_open a s = Ok (d, s') /\ d <> NULL /\ o_dirs w !! d = None /\ opn s' a i /\ free_map s' = free_map s /\
    sim s' live (with_dirs (<[d := mk_dir a 0]> (o_dirs w)) w) A.
Proof.
  intros S Hi Es. pose proof (m_inv _ _ _ _ S) as V. destruct (malloc_ok s live _ V) as (_ & Hn & _ & _).
  destruct (dir_open_ok s live w a i V Hi) as [E V'].
  assert (Hnew : o_dirs w !! brk s = None).
  { change (o_dirs w) with (o_dirs (hold a w)). rewrite <- (m_dirs _ _ _ _ S).
    destruct (dirs s !! brk s) as [x|] eqn:Ex; [|done].
    destruct (v_addr _ _ _ V (brk s)); [right; right; by exists x|lia]. }
  eexists _, _. split; [exact E|]. split; [done|]. split; [done|]. split; [exact Hi|]. split; [done|].
  eapply sim_step; [exact S|exact V'|..]; try done.
  - apply S.
  - apply S.
  - intros x j j' [_ Hj] [_ Hj']. simpl in Hj'. by simplify_eq.
  - intros x j Hj. left. by exists j.
  - simpl. symmetry. apply S.
  - simpl. f_equal. apply S.
  - simpl. intros d dr j [[<- <-]|[_ Hd]]%lookup_insert_Some Hj; [|by apply (m_rootdirs _ _ _ _ S d dr)].
    destruct Hi as [_ Hi], Hj as [_ Hj]. simpl in Hj. by simplify_eq.
Qed.

Lemma sim_open_root s live w A :
  sim s live w A -> handles w < 2 ^ 31 - 1 ->
  exists d a i s', dir_open_root s = Ok (d, s') /\ d <> NULL /\ o_dirs w !! d = None /\ opn s' a i /\
    i_sector i = ROOT_DIR_SECTOR /\ sim s' live (with_dirs (<[d := mk_dir a 0]> (o_dirs w)) w) A /\
    free_map s' = free_map s.
Proof.
  intros S Hmax. destruct (m_root _ _ _ _ S) as (dr & Hdr & _).
  destruct (sim_inode_open s live w A ROOT_DIR_SECTOR dr S Hdr) as (a & i & s1 & E1 & S1 & Hi & Es & _ & _ & O1); [by left; right|done|].
  destruct (sim_dir_open s1 live w A a i S1 Hi Es) as (d & s2 & E2 & Hn & Hd & Hi2 & Em & S2).
  exists d, a, i, s2. split; [unfold dir_open_root; by bind_by (exact E1)|]. by rewrite Em, (op_map _ _ _ O1).
Qed.

Lemma sim_close_root s live w A d a i :
  sim s live (with_dirs (<[d := mk_dir a 0]> (o_dirs w)) w) A -> o_dirs w !! d = None -> opn s a i ->
  i_sector i = ROOT_DIR_SECTOR -> handles w < 2 ^ 31 - 2 ->
  exists s', dir_close d s = Ok (tt, s') /\ sim s' live w A /\ forall x j, x <> a -> opn s' x j <-> opn s x j.
Proof.
  intros S Hd Hi Es Hmax. pose proof (m_inv _ _ _ _ S) as V.
  destruct (dir_close_ok s live _ d (mk_dir a 0) i V) as (s1 & E & V1 & C).
  { apply lookup_insert_eq. } { done. } { intros _. apply S. } { rewrite handles_new_dir by done. lia. }
  assert (Hr : removed i = false).
  { destruct (removed i) eqn:Er; [|done]. apply (m_removed _ _ _ _ S a i Hi) in Er as [Hs _].
    destruct Hs. by right. }
  assert (Hg : gone i = false) by (unfold gone; by rewrite Hr, andb_false_r).
  unfold left_live in V1. rewrite Hg in V1. simpl in V1. rewrite delete_insert_id in V1 by done.
  destruct w as [wc wf wd]. unfold with_dirs in *. simpl in *.
  eexists. split; [exact E|]. split; [|exact (ci_other _ _ _ _ _ C)]. destruct (ci_same _ _ _ _ _ C Hg) as [Em Hsec].
  assert (Hkept : forall x j, opn s1 x j -> exists j0, opn s x j0 /\ i_sector j = i_sector j0 /\ removed j = removed j0).
  { intros x j Hj. destruct (decide (x = a)) as [->|Hne].
    - apply (ci_self _ _ _ _ _ C) in Hj as [_ ->]. by exists i.
    - exists j. split; [|done]. by apply (ci_other _ _ _ _ _ C). }
  eapply sim_step; [exact S|exact V1|..]; simpl; try done.
  - destruct (m_map _ _ _ _ S) as (fl & j & Hf & Hj & Hm).
    exists fl, j. simpl. rewrite (ci_files _ _ _ _ _ C), (ci_map_file _ _ _ _ _ C), Em. split; [done|].
    split; [|done]. apply (ci_other _ _ _ _ _ C); [|done]. intros Ea. rewrite Ea in Hj. destruct Hi as [_ Hi], Hj as [_ Hj], Hm as [Hm _].
    simplify_eq. by rewrite Es in Hm.
  - apply (saved_ext s); [done|apply C|done|apply S].
  - intros n dn _ _. by apply same_bytes.
  - intros x j j' Hj Hj'. destruct (Hkept x j' Hj') as (j0 & [_ Hj0] & E1 & E2). destruct Hj as [_ Hj]. by simplify_eq.
  - intros x j Hj. left. destruct (Hkept x j Hj) as (j0 & ? & _). by exists j0.
  - apply C.
  - apply C.
  - symmetry. apply S.
  - rewrite (ci_dirs _ _ _ _ _ C), (m_dirs _ _ _ _ S). simpl. by rewrite delete_insert_id.
  - intros x dr j [Hne Hx]%lookup_delete_Some Hj. rewrite (ci_dirs _ _ _ _ _ C) in Hx.
    destruct (Hkept _ j Hj) as (j0 & Hj0 & -> & _). by apply (m_rootdirs _ _ _ _ S x dr).
Qed.

(** ** Looking up a name *)

Lemma sim_lookup s live w A d a i name :
  sim s live w A -> o_dirs w !! d = Some (mk_dir a 0) -> opn s a i -> d <> NULL ->
  Forall (fun x => 0 < x < 256) name ->
  exists r s', lookup_entry d name s = Ok (r, s') /\ quiet s s' /\
    match r with
    | Some (e, ofs) => a_dir A !! name = Some (inode_sector e) /\
        exists j, slot (contents (fs_device s) (i_data i)) j name (inode_sector e) /\
          e = entry (contents (fs_device s) (i_data i)) j /\ ofs = 20 * Z.of_nat j
    | None => a_dir A !! name = None
    end.
Proof.
  intros S Hd Hi Hn Hname. pose proof (m_inv _ _ _ _ S) as V.
  assert (Hd' : dirs s !! d = Some (mk_dir a 0)) by (by rewrite (m_dirs _ _ _ _ S)).
  destruct (m_root _ _ _ _ S) as (dr & Hdr & Hrep).
  assert (i_data i = dr) as Edr.
  { destruct (v_inode _ _ _ V a i Hi) as [Hl _]. rewrite (m_rootdirs _ _ _ _ S d _ i Hd' Hi) in Hl. congruence. }
  set (c := contents (fs_device s) (i_data i)). rewrite <- Edr in Hrep. fold c in Hrep.
  assert (Hat : dir_at live a i s w c) by done. destruct (dir_length live a i s w c Hat) as [Hlen Hlt].
  destruct (lookup_loop_ok live a i c (a_dir A) name w Hrep Hname (dir_fuel i) 0 s Hat) as (r & s' & E & Q & Hr).
  { lia. }
  { unfold dir_fuel, inode_length, n_entries, ENTRY_SIZE. rewrite Hlen. change 20 with (Z.of_nat 20).
    rewrite <- Nat2Z.inj_div. lia. }
  exists r, s'. split.
  { unfold lookup_entry. bind_by (apply assert_run; by rewrite (proj2 (Z.eqb_neq d NULL) Hn)).
    bind_by (unfold get_dir; rewrite Hd'; reflexivity). destruct Hi as [_ Hi].
    bind_by (unfold get_inode; cbn [dir_inode]; rewrite Hi; reflexivity). exact E. }
  split; [done|]. destruct r as [[e ofs]|].
  - destruct Hr as (j & Hs & He & Ho). split; [apply (dr_map _ _ Hrep); by exists j|]. by exists j.
  - destruct (a_dir A !! name) as [sec|] eqn:Ea; [|done]. apply (dr_map _ _ Hrep) in Ea as [j Hj].
    exfalso. apply (Hr j sec); [lia|done].
Qed.

(** ** [filesys_open] *)

Lemma sim_file_open s live w A a i :
  sim s live (hold a w) A -> opn s a i -> ~ is_system (i_sector i) ->
  exists f s', file_open a s = Ok (f, s') /\ f <> NULL /\ a_open A !! f = None /\
    sim s' live (with_files (<[f := mk_file a 0 false]> (o_files w)) w) (with_handle f (mk_handle (i_sector i) 0 false) A).
Proof.
  intros S Hi Hns. pose proof (m_inv _ _ _ _ S) as V. destruct (malloc_ok s live _ V) as (_ & Hn & _ & _).
  destruct (file_open_ok s live w a i V Hi) as [E V'].
  assert (Hnew : files s !! brk s = None).
  { destruct (files s !! brk s) as [x|] eqn:Ex; [|done].
    destruct (v_addr _ _ _ V (brk s)); [right; left; by exists x|lia]. }
  assert (Hmf : brk s <> free_map_file s).
  { destruct (m_map _ _ _ _ S) as (fl & _ & Hf & _). congruence. }
  eexists _, _. split; [exact E|]. split; [done|]. split.
  { rewrite (m_open _ _ _ _ S). unfold view. by rewrite Hnew, decide_False. }
  destruct S. constructor; simpl; try done.
  - destruct m_map as (fl & j & Hf & Hj). exists fl, j. simpl. by rewrite lookup_insert_ne by done.
  - f_equal. apply m_files.
  - intros f fl j [[<- <-]|[_ Hf]]%lookup_insert_Some Hj Hne; [|by apply (m_user f fl)].
    destruct Hi as [_ Hi], Hj as [_ Hj]. simpl in Hj. by simplify_eq.
  - intros f. unfold view. simpl. destruct (decide (f = brk s)) as [->|Hne].
    + rewrite !lookup_insert_eq. rewrite decide_False by done. simpl. destruct Hi as [_ ->]. done.
    + rewrite !lookup_insert_ne by done. apply m_open.
Qed.

Lemma filesys_open_ok s A name :
  refines s A -> room s -> Forall (fun x => 0 < x < 256) name ->
  exists f s' A', filesys_open name s = Ok (f, s') /\ spec A (Open name) (Number f) A' /\ refines s' A' /\
    handles (all_own s') <= handles (all_own s) + 1.
Proof.
  intros [live S] Hroom Hname. unfold room in Hroom.
  destruct (sim_open_root s live _ A S) as (d & a & i & s1 & E1 & Hn & Hd & Hi & Es & S1 & _); [lia|].
  unfold filesys_open, dir_lookup. bind_by (exact E1). rewrite (proj2 (Z.eqb_neq _ _) Hn). simpl negb.
  destruct (sim_lookup s1 live _ A d a i name S1) as (r & s2 & E2 & Q & Hr); [apply lookup_insert_eq|done..|].
  pose proof (sim_quiet _ _ _ _ _ S1 Q) as S2. apply (quiet_opn s1 s2 a i Q) in Hi as Hi2.
  destruct r as [[e ofs]|].
  - destruct Hr as [Ha _]. destruct (m_linked _ _ _ _ S2 name _ Ha) as [[di Hdi] Hns].
    destruct (sim_inode_open s2 live _ A (inode_sector e) di S2 Hdi) as (b & j & s3 & E3 & S3 & Hj & Ej & _ & Hb & O3).
    { right. apply linked_iff. by exists name. } { rewrite handles_new_dir by done. lia. }
    bind_by (bind_by reflexivity; bind_by (exact E2); exact E3).
    destruct (op_inodes _ _ _ O3 a i Hi2) as (i' & Hi3 & Es' & _).
    destruct (sim_close_root s3 live (hold b (all_own s)) A d a i' S3) as (s4 & E4 & S4 & Hoth); [done|done|congruence| |].
    { rewrite handles_hold. lia. }
    bind_by (exact E4).
    assert (b <> a) as Hne.
    { intros ->. destruct Hi3 as [_ Hi3], Hj as [_ Hj]. simplify_eq. apply Hns. right. congruence. }
    destruct (sim_file_open s4 live (all_own s) A b j S4) as (f & s5 & E5 & Hf & Hfn & S5); [by apply Hoth|congruence|].
    rewrite Ej in S5. eexists f, s5, _. split; [exact E5|]. split; [|split].
    + simpl. rewrite Ha. by exists f.
    + exists live. unfold all_own. rewrite (m_files _ _ _ _ S5), (m_dirs _ _ _ _ S5). exact S5.
    + unfold all_own, handles. rewrite (m_files _ _ _ _ S5), (m_dirs _ _ _ _ S5). simpl. rewrite map_size_insert.
      destruct (files s !! f); simpl; lia.
  - bind_by (bind_by reflexivity; bind_by (exact E2); reflexivity).
    destruct (sim_close_root s2 live (all_own s) A d a i S2) as (s4 & E4 & S4 & Hoth); [done..|lia|].
    bind_by (exact E4).
    destruct (file_open_null s4 live (all_own s) (m_inv _ _ _ _ S4)) as (s5 & E5 & V5 & ->).
    eexists NULL, _, A. split; [exact E5|]. split; [simpl; by rewrite Hr|]. split.
    + exists live. unfold all_own. simpl. rewrite (m_files _ _ _ _ S4), (m_dirs _ _ _ _ S4).
      destruct S4. by constructor.
    + unfold all_own, handles. simpl. rewrite (m_files _ _ _ _ S4), (m_dirs _ _ _ _ S4). simpl. lia.
Qed.
(** ** Closing an inode *)

Lemma left_live_lookup j live n d :
  left_live j live !! n = Some d <-> live !! n = Some d /\ (gone j = true -> n <> i_sector j).
Proof.
  unfold left_live. destruct (gone j); [|naive_solver].
  rewrite lookup_delete_Some. naive_solver.
Qed.

Lemma close_contents s s' live w j n d :
  fs_inv s live w -> keeps (left_live j live) s s' -> i_sector j <> FREE_MAP_SECTOR ->
  live !! n = Some d -> n <> FREE_MAP_SECTOR -> contents (fs_device s') d = contents (fs_device s) d.
Proof.
  intros V K Hj Hl Hne. pose proof (li_extent _ _ _ (v_live _ _ _ V _ _ Hl)) as He.
  apply contents_ext; [|done]. intros x Hx. apply K; [by eapply data_sector_range|].
  intros d0 [Hl0 _]%left_live_lookup Hx0. apply Hne. by apply (v_disj _ _ _ V n d _ d0 x); [..|right|right].
Qed.

(** Closing one of the openers of inode [b], in state [j]: [w'] and [op] tell
    who is left. *)
Lemma sim_closed s s' live w w' A b j op :
  sim s live w A -> opn s b j -> ~ is_system (i_sector j) ->
  fs_inv s' (left_live j live) w' -> closed_handle s s' live b j ->
  files s' = o_files w' -> o_files w' ⊆ files s -> is_Some (o_files w' !! free_map_file s) ->
  dirs s' = o_dirs w' -> o_dirs w' = dirs s ->
  let A1 := mk_afs (a_dir A) (a_data A) op in
  (forall f, op !! f = view s' f) ->
  gone j = true <-> ~ linked A (i_sector j) /\ ~ used A1 (i_sector j) ->
  sim s' (left_live j live) w' (collect (i_sector j) A1).
Proof.
  intros S Hj Hns V' C Ef Hfs Hfm Ed Edw A1 Hop Hgone. pose proof (m_inv _ _ _ _ S) as V.
  assert (Hj0 : i_sector j <> FREE_MAP_SECTOR) by (intros E; apply Hns; by left).
  assert (Hj1 : i_sector j <> ROOT_DIR_SECTOR) by (intros E; apply Hns; by right).
  assert (Hc : forall n d, live !! n = Some d -> n <> FREE_MAP_SECTOR ->
    contents (fs_device s') d = contents (fs_device s) d).
  { intros n d. eapply close_contents; [exact V|apply C|done]. }
  assert (Hkept : forall x i, opn s' x i -> exists i0, opn s x i0 /\ i_sector i = i_sector i0 /\ removed i = removed i0).
  { intros x i Hi. destruct (decide (x = b)) as [->|Hne].
    - apply (ch_self _ _ _ _ _ C) in Hi as (? & ? & _). by exists j.
    - exists i. split; [|done]. by apply (ch_other _ _ _ _ _ C). }
  assert (Edir : a_dir (collect (i_sector j) A1) = a_dir A) by (unfold collect; by case_decide).
  assert (Eopen : a_open (collect (i_sector j) A1) = op) by (unfold collect; by case_decide).
  assert (Hlk : forall x, linked (collect (i_sector j) A1) x <-> linked A x) by (intros x; unfold linked; by rewrite Edir).
  constructor; rewrite ?Edir, ?Eopen; try done.
  - destruct (m_map _ _ _ _ S) as (fl & i & Hf & Hi & Hsec & Hd & Hr & Hl). exists fl, i.
    rewrite (ch_map_file _ _ _ _ _ C), Ef. split.
    { destruct Hfm as [fl' Hf']. rewrite Hf'. pose proof (lookup_weaken _ _ _ _ Hf' Hfs). congruence. }
    split; [apply (ch_other _ _ _ _ _ C); [|done]; intros E; rewrite E in Hi; destruct Hi as [_ Hi], Hj as [_ Hj]; congruence|].
    rewrite (v_size _ _ _ V'), (v_size _ _ _ V) in *. destruct (ch_like _ _ _ _ _ C) as (_ & _ & _ & ->). done.
  - apply (ch_saved _ _ _ _ _ C), S.
  - destruct (m_root _ _ _ _ S) as (d & Hd & Hrep). exists d.
    split; [by apply left_live_lookup|]. by rewrite (Hc _ _ Hd).
  - intros nm sec Hnm. destruct (m_linked _ _ _ _ S nm sec Hnm) as [[d Hd] Hs]. split; [|done].
    exists d. apply left_live_lookup. split; [done|]. intros [Hl _]%Hgone ->. apply Hl. apply linked_iff. by exists nm.
  - apply S.
  - intros x i Hi. rewrite Hlk. destruct (Hkept x i Hi) as (i0 & Hi0 & -> & ->). by apply (m_removed _ _ _ _ S x).
  - intros x dr i Hx Hi. destruct (Hkept _ i Hi) as (i0 & Hi0 & -> & _). rewrite Ed, Edw in Hx. by apply (m_rootdirs _ _ _ _ S x dr).
  - intros f fl i Hf Hi Hne. destruct (Hkept _ i Hi) as (i0 & Hi0 & -> & _). rewrite (ch_map_file _ _ _ _ _ C) in Hne.
    rewrite Ef in Hf. apply (m_user _ _ _ _ S f fl); [by eapply lookup_weaken|done..].
  - intros sec. transitivity (if gone j then delete (i_sector j) (a_data A) !! sec else a_data A !! sec).
    + unfold collect. change (linked A1 (i_sector j)) with (linked A (i_sector j)).
      case_decide as Hd; destruct (gone j); try done; exfalso.
      * destruct (proj1 Hgone eq_refl). tauto.
      * assert (false = true) by (apply Hgone; tauto). done.
    + rewrite lookup_delete, (m_data _ _ _ _ S). unfold user_data, left_live. destruct (decide (is_system sec)) as [Hs|Hs].
      { destruct (gone j); [by case_decide|done]. }
      assert (Hsame : contents (fs_device s') <$> live !! sec = contents (fs_device s) <$> live !! sec).
      { destruct (live !! sec) as [d|] eqn:E; [|done]. simpl. f_equal. apply (Hc _ _ E). intros ->. apply Hs. by left. }
      rewrite <- Hsame. destruct (gone j); [|done]. rewrite lookup_delete. by case_decide.
Qed.
(** ** Reference counts and handles *)

Lemma no_file_refs (m : gmap Z file) b :
  map_sum (file_refs b) m = 0 <-> forall f fl, m !! f = Some fl -> f_inode fl <> b.
Proof.
  split.
  - intros E f fl Hf Hb. pose proof (map_sum_ge (file_refs b) m f fl ltac:(intros; apply file_refs_nonneg) Hf) as Hge.
    unfold file_refs at 1 in Hge. rewrite Hb, Z.eqb_refl in Hge. simpl in Hge. lia.
  - intros Hno. apply map_sum_zero. intros f fl Hf. unfold file_refs.
    by rewrite (proj2 (Z.eqb_neq _ _) (Hno f fl Hf)).
Qed.

(** The handles of the file of an inode are the file objects on it. *)
Lemma view_inode s live w A b j f :
  sim s live w A -> opn s b j -> ~ is_system (i_sector j) ->
  (exists h, a_open A !! f = Some h /\ h_file h = i_sector j) <-> exists fl, files s !! f = Some fl /\ f_inode fl = b.
Proof.
  intros S Hj Hns. rewrite (m_open _ _ _ _ S). unfold view. pose proof (m_inv _ _ _ _ S) as V.
  destruct (files s !! f) as [fl|] eqn:Ef.
  2: { split; [intros (h & Hh & _); by case_decide|naive_solver]. }
  assert (f_inode fl ∈ open_inodes s) as O.
  { rewrite (m_files _ _ _ _ S) in Ef. by apply (v_files _ _ _ V f fl). }
  destruct (v_open _ _ _ V _ O) as [i Hi]. simpl. rewrite Hi. simpl. split.
  - intros (h & Hh & Eh). exists fl. split; [done|]. case_decide as Hd; [done|]. simplify_eq.
    by apply (v_inj _ _ _ V (f_inode fl) b i j).
  - intros (fl' & ? & Eb). simplify_eq. destruct Hj as [_ Hj]. simplify_eq. rewrite decide_False; [by eexists|].
    intros ->. destruct (m_map _ _ _ _ S) as (gl & k & Hg & [_ Hk] & Es & _). simplify_eq. apply Hns. by left.
Qed.

Lemma used_iff_file s live w A b j g :
  sim s live w A -> opn s b j -> ~ is_system (i_sector j) ->
  used (mk_afs (a_dir A) (a_data A) (delete g (a_open A))) (i_sector j) <->
  ~ map_sum (file_refs b) (delete g (files s)) = 0.
Proof.
  intros S Hj Hns. rewrite no_file_refs, used_iff. simpl. split.
  - intros (f & h & [Hne Hf]%lookup_delete_Some & Eh) Hno.
    destruct (proj1 (view_inode s live w A b j f S Hj Hns)) as (fl & Hfl & Eb); [by exists h|].
    by apply (Hno f fl); [rewrite lookup_delete_ne|].
  - intros Hno. apply dec_stable. intros Hu. apply Hno. intros f fl [Hne Hf]%lookup_delete_Some Eb. apply Hu.
    destruct (proj2 (view_inode s live w A b j f S Hj Hns)) as (h & Hh & Eh); [by exists fl|].
    exists f, h. by rewrite lookup_delete_ne.
Qed.

Lemma used_iff_files s live w A b j :
  sim s live w A -> opn s b j -> ~ is_system (i_sector j) ->
  used A (i_sector j) <-> ~ map_sum (file_refs b) (files s) = 0.
Proof.
  intros S Hj Hns. rewrite no_file_refs, used_iff. split.
  - intros (f & h & Hf & Eh) Hno.
    destruct (proj1 (view_inode s live w A b j f S Hj Hns)) as (fl & Hfl & Eb); [by exists h|]. by apply (Hno f fl).
  - intros Hno. apply dec_stable. intros Hu. apply Hno. intros f fl Hf Eb. apply Hu.
    destruct (proj2 (view_inode s live w A b j f S Hj Hns)) as (h & Hh & Eh); [by exists fl|]. by exists f, h.
Qed.

Lemma no_dir_refs s live w A b j :
  sim s live w A -> opn s b j -> ~ is_system (i_sector j) -> map_sum (dir_refs b) (o_dirs w) = 0.
Proof.
  intros S Hj Hns. apply map_sum_zero. intros d dr Hd. unfold dir_refs. rewrite (proj2 (Z.eqb_neq _ _)); [done|].
  intros E. apply Hns. right. rewrite <- (m_dirs _ _ _ _ S) in Hd. apply (m_rootdirs _ _ _ _ S d dr j Hd). by rewrite E.
Qed.

(** ** [inode_close] and [file_close] *)

Lemma sim_inode_close s live w A b j :
  sim s live (hold b w) A -> o_code w = [] -> opn s b j -> ~ is_system (i_sector j) -> handles w < 2 ^ 31 - 1 ->
  exists s', inode_close b s = Ok (tt, s') /\ sim s' (left_live j live) w (collect (i_sector j) A) /\
    forall x k, x <> b -> opn s' x k <-> opn s x k.
Proof.
  intros S Hw Hj Hns Hmax. pose proof (m_inv _ _ _ _ S) as V.
  destruct (inode_close_ok s live w b j V Hj) as (s' & E & V' & C); [intros _; apply S|done|].
  exists s'. split; [done|]. split; [|apply C]. pose proof (closed_inode_handle _ _ _ _ _ C) as C'.
  replace A with (mk_afs (a_dir A) (a_data A) (a_open A)) at 1 by (by destruct A).
  eapply (sim_closed s s' live (hold b w) w A b j (a_open A)); try done.
  - rewrite (ci_files _ _ _ _ _ C). apply S.
  - rewrite (m_files _ _ _ _ S). done.
  - change (o_files w) with (o_files (hold b w)). rewrite <- (m_files _ _ _ _ S).
    destruct (m_map _ _ _ _ S) as (fl & _ & Hf & _). by exists fl.
  - rewrite (ci_dirs _ _ _ _ _ C). apply S.
  - symmetry. apply S.
  - intros f. rewrite (m_open _ _ _ _ S). symmetry. eapply view_eq; [exact V|exact V'|apply S| |by rewrite (ci_files _ _ _ _ _ C)|apply C|].
    + rewrite (ci_files _ _ _ _ _ C). apply S.
    + intros x k k' Hk Hk'. destruct (decide (x = b)) as [->|Hne].
      * apply (ci_self _ _ _ _ _ C) in Hk' as [_ ->]. destruct Hk as [_ Hk], Hj as [_ Hj]. by simplify_eq.
      * apply (ci_other _ _ _ _ _ C) in Hk'; [|done]. destruct Hk as [_ Hk], Hk' as [_ Hk']. by simplify_eq.
  - replace (mk_afs (a_dir A) (a_data A) (a_open A)) with A by (by destruct A).
    rewrite (used_iff_files s live _ A b j S Hj Hns). unfold gone. rewrite andb_true_iff, Z.eqb_eq.
    rewrite (m_removed _ _ _ _ S b j Hj). destruct (v_refs _ _ _ V b j Hj) as [-> _].
    rewrite (no_dir_refs _ _ _ _ b j S Hj Hns), occurs_hold, Hw, Z.eqb_refl, (m_files _ _ _ _ S).
    change (occurs b []) with 0. simpl. split; [intros [? ?]|]; (split; [|]); try tauto; try lia.
Qed.
(** The file object behind a handle. *)
Lemma handle_file s live w A f h :
  sim s live w A -> a_open A !! f = Some h ->
  exists fl i, f <> free_map_file s /\ files s !! f = Some fl /\ o_files w !! f = Some fl /\
    opn s (f_inode fl) i /\ ~ is_system (i_sector i) /\
    h = mk_handle (i_sector i) (f_pos fl) (f_deny_write fl) /\ f <> NULL /\ live !! i_sector i = Some (i_data i) /\
    a_data A !! i_sector i = Some (contents (fs_device s) (i_data i)).
Proof.
  intros S Hf. rewrite (m_open _ _ _ _ S) in Hf. unfold view in Hf. case_decide as Hd; [done|].
  pose proof (m_inv _ _ _ _ S) as V.
  destruct (files s !! f) as [fl|] eqn:Ef; [simpl in Hf|done]. pose proof Ef as Ew. rewrite (m_files _ _ _ _ S) in Ew.
  destruct (v_files _ _ _ V f fl Ew) as [O _]. destruct (v_open _ _ _ V _ O) as [i Hi]. rewrite Hi in Hf.
  simpl in Hf. simplify_eq. assert (opn s (f_inode fl) i) as Hop by done.
  pose proof (m_user _ _ _ _ S f fl i Ef Hop Hd) as Hns. destruct (v_inode _ _ _ V _ i Hop) as [Hl _].
  exists fl, i. split_and!; try done.
  - assert (0 < f < brk s) by (apply (v_addr _ _ _ V); right; left; by exists fl). unfold NULL. lia.
  - rewrite (m_data _ _ _ _ S). unfold user_data. by rewrite decide_False, Hl.
Qed.

Lemma file_close_sim s live A f h :
  sim s live (all_own s) A -> room s -> a_open A !! f = Some h ->
  exists s', file_close f s = Ok (tt, s') /\
    refines s' (collect (h_file h) (mk_afs (a_dir A) (a_data A) (delete f (a_open A)))).
Proof.
  intros S Hroom Hh. pose proof (m_inv _ _ _ _ S) as V. unfold room in Hroom.
  destruct (handle_file s live _ A f h S Hh) as (fl & i & Hne & Hf & Hfw & Hi & Hns & -> & Hn & _).
  destruct (file_close_ok s live _ f fl i V Hfw Hi) as (s' & E & V' & Ef & Ed & C).
  { intros E. apply Hns. by left. } { done. } { intros _. apply S. } { lia. }
  exists s'. split; [done|]. exists (left_live i live). simpl in V' |- *.
  unfold all_own. rewrite Ef, Ed. unfold with_files, all_own in V'. simpl in V'.
  eapply (sim_closed s s' live (all_own s) _ A (f_inode fl) i (delete f (a_open A))); try done.
  - apply delete_subseteq.
  - simpl. rewrite lookup_delete_ne by done. destruct (m_map _ _ _ _ S) as (gl & _ & Hg & _). by exists gl.
  - intros g. destruct (decide (g = f)) as [->|Hg].
    + rewrite lookup_delete_eq. unfold view. rewrite Ef, lookup_delete_eq. by case_decide.
    + rewrite lookup_delete_ne, (m_open _ _ _ _ S) by done. symmetry.
      eapply view_eq; [exact V|exact V'|done|done|by rewrite Ef, lookup_delete_ne|apply C|].
      intros x k k' Hk Hk'. destruct (decide (x = f_inode fl)) as [->|Hx].
      * apply (ch_self _ _ _ _ _ C) in Hk' as [-> _]. destruct Hk as [_ Hk], Hi as [_ Hi]. by simplify_eq.
      * apply (ch_other _ _ _ _ _ C) in Hk'; [|done]. destruct Hk as [_ Hk], Hk' as [_ Hk']. by simplify_eq.
  - rewrite (used_iff_file s live _ A (f_inode fl) i f S Hi Hns). unfold gone. rewrite andb_true_iff, Z.eqb_eq.
    rewrite (m_removed _ _ _ _ S _ i Hi). destruct (v_refs _ _ _ V _ i Hi) as [-> _].
    rewrite (no_dir_refs _ _ _ _ _ i S Hi Hns), (map_sum_delete _ _ f fl) by done. simpl.
    change (occurs (f_inode fl) []) with 0. change (file_refs (f_inode fl) fl) with (b2z (f_inode fl =? f_inode fl)).
    rewrite Z.eqb_refl. simpl. split; [intros [? ?]|]; (split; [|]); try tauto; try lia.
Qed.
(** ** Calls on an open file *)

(** File object [f] becomes [fl'], and the bytes of its file [bs]. *)
Lemma sim_upd_file s s' live A f fl fl' i bs :
  sim s live (all_own s) A -> files s !! f = Some fl -> opn s (f_inode fl) i -> f <> free_map_file s ->
  f_inode fl' = f_inode fl -> ~ is_system (i_sector i) ->
  fs_inv s' live (with_files (<[f := fl']> (files s)) (all_own s)) ->
  files s' = <[f := fl']> (files s) -> dirs s' = dirs s -> free_map_file s' = free_map_file s ->
  free_map s' = free_map s ->
  (forall x j', opn s' x j' -> exists j, opn s x j /\ i_sector j' = i_sector j /\ removed j' = removed j) ->
  (forall x j, opn s x j -> i_sector j = FREE_MAP_SECTOR -> opn s' x j) ->
  (forall n d, live !! n = Some d -> n <> i_sector i ->
     contents (fs_device s') d = contents (fs_device s) d) ->
  contents (fs_device s') (i_data i) = bs ->
  refines s' (with_handle f (mk_handle (i_sector i) (f_pos fl') (f_deny_write fl'))
    (mk_afs (a_dir A) (<[i_sector i := bs]> (a_data A)) (a_open A))).
Proof.
  intros S Hf Hi Hne Ei Hns V' Ef Ed Em Emp K Kmap Hc Hbs. pose proof (m_inv _ _ _ _ S) as V.
  destruct (v_inode _ _ _ V _ i Hi) as [Hl _].
  exists live. unfold all_own. rewrite Ef, Ed. destruct S.
  constructor; simpl; try done.
  - destruct m_map as (gl & j & Hg & Hj & Hm & Hrest). exists gl, j. rewrite Em, Ef, Emp, lookup_insert_ne by done.
    split; [done|]. split; [by apply Kmap|done].
  - intros Hnull d0 Hd0. rewrite Em in Hnull. rewrite Emp. destruct (m_saved Hnull d0 Hd0) as (m & Hm & Hcm).
    exists m. split; [done|]. rewrite <- Hcm. apply (Hc _ _ Hd0).
    intros E. apply Hns. left. done.
  - destruct m_root as (d & Hd & Hrep). exists d. split; [done|]. rewrite (Hc _ _ Hd); [done|].
    intros E. apply Hns. by right.
  - intros x j (j0 & Hj0 & -> & ->)%K. by apply (m_removed x).
  - intros d dr j. rewrite Ed. intros Hd (j0 & Hj0 & -> & _)%K. by apply (m_rootdirs d dr).
  - intros g gl j. rewrite Ef, Em. intros [[<- <-]|[_ Hg]]%lookup_insert_Some (j0 & Hj0 & -> & _)%K.
    + rewrite Ei in Hj0. by apply (m_user f fl).
    + by apply (m_user g gl).
  - intros sec. unfold user_data. destruct (decide (sec = i_sector i)) as [->|Hsec].
    + rewrite lookup_insert_eq, decide_False, Hl by done. simpl. by rewrite Hbs.
    + rewrite lookup_insert_ne, m_data by done. unfold user_data. case_decide as Hs; [done|].
      destruct (live !! sec) as [d|] eqn:E; [|done]. simpl. f_equal. symmetry. by apply (Hc _ _ E).
  - intros g. destruct (decide (g = f)) as [->|Hg].
    + rewrite lookup_insert_eq. unfold view. rewrite Em, decide_False, Ef, lookup_insert_eq by done. simpl.
      destruct (v_files _ _ _ V' f fl') as [O _]; [apply lookup_insert_eq|]. destruct (v_open _ _ _ V' _ O) as [j' Hj'].
      rewrite Hj'. simpl. destruct (K _ j' (conj O Hj')) as (j & [_ Hj] & -> & _). rewrite Ei in Hj.
      destruct Hi as [_ Hi]. by simplify_eq.
    + rewrite lookup_insert_ne, m_open by done. symmetry.
      eapply view_eq; [exact V|exact V'|done|done|by rewrite Ef, lookup_insert_ne|done|].
      intros x j j' [_ Hj] Hj'. destruct (K x j' Hj') as (j0 & [_ Hj0] & -> & _). by simplify_eq.
Qed.

Lemma same_data A sec bs : a_data A !! sec = Some bs -> mk_afs (a_dir A) (<[sec := bs]> (a_data A)) (a_open A) = A.
Proof. intros Hs. rewrite insert_id by done. by destruct A. Qed.

Lemma avail_moved b d size pos : 0 <= d_length d -> avail d size pos = moved (contents (D:=D) b d) size pos.
Proof. intros. unfold avail, moved, contents. rewrite bytes_length. lia. Qed.

(** Another value of an open file. *)
Lemma put_file_room s s1 f fl fl' :
  files s !! f = Some fl -> files s1 = files s -> dirs s1 = dirs s -> same_room s (set_files (<[f := fl']> (files s1)) s1).
Proof. intros Hf Ef Ed. unfold same_room, handles, all_own. simpl. by rewrite Ef, Ed, map_size_insert_Some. Qed.

Lemma file_read_sim s live A f h bs size :
  sim s live (all_own s) A -> a_open A !! f = Some h -> a_data A !! h_file h = Some bs ->
  exists r s' A', run (Read f size) s = Ok (r, s') /\ file_spec A (Read f size) f h bs r A' /\ refines s' A' /\ brk s <= brk s' /\ same_room s s'.
Proof.
  intros S Hh Hbs. pose proof (m_inv _ _ _ _ S) as V.
  destruct (handle_file s live _ A f h S Hh) as (fl & i & Hne & Hf & Hfw & Hi & Hns & -> & Hn & Hl & Hda).
  simpl in Hbs. rewrite Hda in Hbs. injection Hbs as <-. destruct (file_read_ok s live _ f fl i size V Hfw Hi) as (s1 & E & V1 & Q).
  pose proof Q as (C & L & Hs). rewrite (avail_moved (fs_device s)) in E, V1
    by (destruct (inv_open_inode _ _ _ _ _ V Hi) as [_ _ _ _ []]; lia).
  set (n := moved _ _ _) in *. eexists _, _, _. split; [unfold run; bind_by (exact E); reflexivity|].
  split; [by split|]. split; [|split; [simpl; apply C|apply (put_file_room s s1 f fl); [done|by apply C|apply C]]]. simpl. fold n. rewrite <- (same_data A _ _ Hda).
  eapply (sim_upd_file s _ live A f fl (mk_file (f_inode fl) (f_pos fl + n) (f_deny_write fl)) i); try done; simpl; try apply C.
  - by rewrite (calm_files _ _ C).
  - intros x j Hj%(quiet_opn s s1); [|done]. by exists j.
  - intros x j Hj _. by apply (quiet_opn s s1).
  - intros m d _ _. by apply same_bytes.
  - by apply same_bytes.
Qed.

(** Writes are denied as long as a handle denies them. *)
Lemma deny_iff s live A b j :
  sim s live (all_own s) A -> opn s b j -> ~ is_system (i_sector j) ->
  deny_write_cnt j = 0 <-> ~ denied A (i_sector j).
Proof.
  intros S Hj Hns. destruct (v_refs _ _ _ (m_inv _ _ _ _ S) b j Hj) as [_ ->]. simpl. rewrite denied_iff. split.
  - intros E (f & h & Hh & Eh & Ed).
    destruct (handle_file s live _ A f h S Hh) as (fl & i & _ & Hf & _ & Hi & _ & -> & _). simpl in Eh, Ed.
    pose proof (map_sum_ge (file_denies b) (files s) f fl ltac:(intros; apply file_denies_le) Hf) as Hge.
    assert (f_inode fl = b) as <- by (by apply (v_inj _ _ _ (m_inv _ _ _ _ S) _ _ i j)).
    unfold file_denies at 1 in Hge. rewrite Z.eqb_refl, Ed in Hge. simpl in Hge. lia.
  - intros Hno. apply map_sum_zero. intros f fl Hf. unfold file_denies.
    destruct (f_inode fl =? b) eqn:Eb; [|done]. destruct (f_deny_write fl) eqn:Ed; [|done]. bool_to_prop. exfalso. apply Hno.
    destruct (proj2 (view_inode s live _ A b j f S Hj Hns)) as (h & Hh & Eh); [by exists fl|]. exists f, h.
    split; [done|]. split; [done|].
    destruct (handle_file s live _ A f h S Hh) as (fl' & i & _ & Hf' & _ & _ & _ & -> & _). simpl. congruence.
Qed.

Lemma file_write_sim s live A f h bs buffer size :
  sim s live (all_own s) A -> a_open A !! f = Some h -> a_data A !! h_file h = Some bs ->
  size <= Z.of_nat (length buffer) ->
  exists r s' A', run (Write f buffer size) s = Ok (r, s') /\ file_spec A (Write f buffer size) f h bs r A' /\
    refines s' A' /\ same_room s s'.
Proof.
  intros S Hh Hbs Hsz. pose proof (m_inv _ _ _ _ S) as V.
  destruct (handle_file s live _ A f h S Hh) as (fl & i & Hne & Hf & Hfw & Hi & Hns & -> & Hn & Hl & Hda).
  simpl in Hbs. rewrite Hda in Hbs. injection Hbs as <-.
  destruct (file_write_ok s live _ f fl i buffer size V Hfw Hi Hsz) as (s1 & E & V1 & C & L & O & Hc).
  rewrite (avail_moved (fs_device s)) in E, V1, Hc
    by (destruct (inv_open_inode _ _ _ _ _ V Hi) as [_ _ _ _ []]; lia).
  assert (En : (if decide (deny_write_cnt i = 0) then moved (contents (fs_device s) (i_data i)) size (f_pos fl) else 0) =
    if decide (denied A (i_sector i)) then 0 else moved (contents (fs_device s) (i_data i)) size (f_pos fl)).
  { pose proof (deny_iff s live A _ i S Hi Hns). repeat case_decide; tauto. }
  rewrite En in E, V1, Hc. set (n := if decide _ then _ else _) in *.
  eexists _, _, _. split; [unfold run; bind_by (exact E); reflexivity|].
  split; [by split|]. split; [|apply (put_file_room s s1 f fl); [done|by apply C|apply C]]. simpl. fold n.
  eapply (sim_upd_file s _ live A f fl (mk_file (f_inode fl) (f_pos fl + n) (f_deny_write fl)) i); try done; simpl; try apply C.
  - by rewrite (calm_files _ _ C).
  - unfold opn. simpl. rewrite (calm_inodes _ _ C), (calm_open _ _ C). intros x j Hj. by exists j.
  - unfold opn. simpl. by rewrite (calm_inodes _ _ C), (calm_open _ _ C).
  - intros m d Hm Hmi. by eapply (only_data_contents s s1 live _ (i_sector i) (i_data i) m d V).
Qed.
Lemma file_seek_sim s live A f h bs pos :
  sim s live (all_own s) A -> a_open A !! f = Some h -> a_data A !! h_file h = Some bs -> 0 <= pos < 2 ^ 31 ->
  exists r s' A', run (Seek f pos) s = Ok (r, s') /\ file_spec A (Seek f pos) f h bs r A' /\ refines s' A' /\ brk s <= brk s' /\ same_room s s'.
Proof.
  intros S Hh Hbs Hp. pose proof (m_inv _ _ _ _ S) as V.
  destruct (handle_file s live _ A f h S Hh) as (fl & i & Hne & Hf & Hfw & Hi & Hns & -> & Hn & Hl & Hda).
  eexists _, _, _. split.
  { unfold run, file_seek. bind_by (bind_by (apply assert_run; by rewrite (proj2 (Z.eqb_neq f NULL) Hn));
      bind_by (apply assert_run, Z.leb_le; lia); bind_by (unfold get_file; rewrite Hf; reflexivity); reflexivity).
    reflexivity. }
  split; [by split|]. split; [|split; [simpl; lia|by apply (put_file_room s s f fl)]]. simpl. rewrite <- (same_data A _ _ Hda).
  eapply (sim_upd_file s _ live A f fl (mk_file (f_inode fl) pos (f_deny_write fl)) i); try done; simpl.
  - eapply inv_upd_file; [exact V|done..].
  - intros x j Hj. by exists j.
Qed.

(** [file_deny_write] and [file_allow_write]. *)
Lemma deny_sim s s' live A f fl i b :
  let fl' := mk_file (f_inode fl) (f_pos fl) b in
  sim s live (all_own s) A -> files s !! f = Some fl -> opn s (f_inode fl) i -> f <> free_map_file s ->
  ~ is_system (i_sector i) -> fs_inv s' live (with_files (<[f := fl']> (files s)) (all_own s)) ->
  deny_changed s s' f fl' i ->
  refines s' (with_handle f (mk_handle (i_sector i) (f_pos fl) b) A).
Proof.
  intros fl' S Hf Hi Hne Hns V' [Ef Ed Em Emf Eb Edev (i' & Hi' & Es & Er & _) Hoth].
  destruct (v_inode _ _ _ (m_inv _ _ _ _ S) _ i Hi) as [Hl _].
  assert (Hda : a_data A !! i_sector i = Some (contents (fs_device s) (i_data i))).
  { rewrite (m_data _ _ _ _ S). unfold user_data. by rewrite decide_False, Hl. }
  rewrite <- (same_data A _ _ Hda). cbn [f_inode] in Hi', Hoth.
  eapply (sim_upd_file s s' live A f fl fl' i); try done.
  - intros x j Hj. destruct (decide (x = f_inode fl)) as [->|Hx].
    + exists i. destruct Hj as [_ Hj], Hi' as [_ Hi']. simpl in *. by simplify_eq.
    + exists j. split; [|done]. by apply Hoth.
  - intros x j Hj Hs. apply Hoth; [|done]. simpl. intros ->. destruct Hj as [_ Hj], Hi as [_ Hi]. simplify_eq.
    apply Hns. by left.
  - intros n d _ _. by rewrite Edev.
  - by rewrite Edev.
Qed.

Lemma file_deny_sim s live A f h bs :
  sim s live (all_own s) A -> room s -> a_open A !! f = Some h -> a_data A !! h_file h = Some bs ->
  exists r s' A', run (Deny f) s = Ok (r, s') /\ file_spec A (Deny f) f h bs r A' /\ refines s' A'.
Proof.
  intros S Hroom Hh Hbs. unfold room in Hroom. pose proof (m_inv _ _ _ _ S) as V.
  destruct (handle_file s live _ A f h S Hh) as (fl & i & Hne & Hf & Hfw & Hi & Hns & -> & Hn & Hl & Hda).
  pose proof (open_cnt_bound _ _ _ _ _ V Hi).
  destruct (file_deny_write_ok s live _ f fl i V Hfw Hi) as (s' & E & V' & C); [intros E; apply Hns; by left|lia|].
  eexists _, s', _. split; [unfold run; bind_by (exact E); reflexivity|]. split; [by split|].
  by eapply (deny_sim s s' live A f fl i true).
Qed.

Lemma file_allow_sim s live A f h bs :
  sim s live (all_own s) A -> room s -> a_open A !! f = Some h -> a_data A !! h_file h = Some bs ->
  exists r s' A', run (Allow f) s = Ok (r, s') /\ file_spec A (Allow f) f h bs r A' /\ refines s' A'.
Proof.
  intros S Hroom Hh Hbs. unfold room in Hroom. pose proof (m_inv _ _ _ _ S) as V.
  destruct (handle_file s live _ A f h S Hh) as (fl & i & Hne & Hf & Hfw & Hi & Hns & -> & Hn & Hl & Hda).
  pose proof (open_cnt_bound _ _ _ _ _ V Hi).
  destruct (file_allow_write_ok s live _ f fl i V Hfw Hi) as (s' & E & V' & C); [intros E; apply Hns; by left|lia|].
  eexists _, s', _. split; [unfold run; bind_by (exact E); reflexivity|]. split; [by split|].
  by eapply (deny_sim s s' live A f fl i false).
Qed.

(** Calls that change nothing. *)
Lemma file_tell_sim s live A f h bs :
  sim s live (all_own s) A -> a_open A !! f = Some h -> a_data A !! h_file h = Some bs ->
  run (Tell f) s = Ok (Number (h_pos h), s) /\ run (Length f) s = Ok (Number (Z.of_nat (length bs)), s).
Proof.
  intros S Hh Hbs.
  destruct (handle_file s live _ A f h S Hh) as (fl & i & Hne & Hf & Hfw & Hi & Hns & -> & Hn & Hl & Hda).
  simpl in Hbs. rewrite Hda in Hbs. injection Hbs as <-.
  assert (Ha : assert (negb (f =? NULL)) s = Ok (tt, s)) by (apply assert_run; by rewrite (proj2 (Z.eqb_neq f NULL) Hn)).
  split; unfold run, file_tell, file_length.
  - bind_by (bind_by (exact Ha); bind_by (unfold get_file; rewrite Hf; reflexivity); reflexivity). done.
  - destruct (inv_open_inode _ _ _ _ _ (m_inv _ _ _ _ S) Hi) as [_ _ _ Hi' []].
    bind_by (bind_by (exact Ha); bind_by (unfold get_file; rewrite Hf; reflexivity);
      bind_by (unfold get_inode; rewrite Hi'; reflexivity); reflexivity).
    unfold contents, inode_length. rewrite bytes_length, Z2Nat.id by lia. done.
Qed.
End Steps.
