(* ===== verification/FsNames.v ===== *)
(** * Creating and removing files

    The calls of [filesys.c] that change the root directory. *)

From S2P Require Import Prelude Bitmap Block FsState Inode FreeMap File Directory FsInv FsFiles FsDir FsSpec FsOps.

Section Names.
Context `{BlockLaws D}.
Implicit Types s : fs D.

Lemma calm_opn s s' x j : calm s s' -> opn s' x j <-> opn s x j.
Proof. intros C. unfold opn. by rewrite (calm_inodes _ _ C), (calm_open _ _ C). Qed.

Lemma map_file_calm s s' : calm s s' -> map_file_ok s -> map_file_ok s'.
Proof.
  intros C (fl & i & Hf & Hi & Hm). exists fl, i.
  rewrite (calm_files _ _ C), (calm_map_file _ _ C), (calm_map _ _ C). split; [done|]. split; [|done].
  by apply (calm_opn s s').
Qed.

(** ** Writing to the root directory *)

Lemma root_writable s live w A a i :
  sim s live w A -> opn s a i -> i_sector i = ROOT_DIR_SECTOR -> deny_write_cnt i = 0.
Proof.
  intros S Hi Es. destruct (v_refs _ _ _ (m_inv _ _ _ _ S) a i Hi) as [_ ->]. apply map_sum_zero.
  intros f fl Hf. unfold file_denies. rewrite <- (m_files _ _ _ _ S) in Hf.
  destruct (f_inode fl =? a) eqn:E; [exfalso|done]. bool_to_prop. subst a.
  destruct (decide (f = free_map_file s)) as [->|Hne].
  - destruct (m_map _ _ _ _ S) as (gl & j & Hg & [_ Hj] & Ej & _). destruct Hi as [_ Hi]. simplify_eq.
    by rewrite Es in Ej.
  - apply (m_user _ _ _ _ S f fl i Hf Hi Hne). by right.
Qed.

Lemma root_data s live w A a i :
  sim s live w A -> opn s a i -> i_sector i = ROOT_DIR_SECTOR ->
  live !! ROOT_DIR_SECTOR = Some (i_data i) /\ dir_rep (contents (fs_device s) (i_data i)) (a_dir A).
Proof.
  intros S Hi Es. destruct (m_root _ _ _ _ S) as (d & Hd & Hr).
  destruct (v_inode _ _ _ (m_inv _ _ _ _ S) a i Hi) as [Hl _]. rewrite Es in Hl. by simplify_eq.
Qed.

(** Writing another file leaves the file of the free map. *)
Lemma saved_only s s' live w A sec d :
  sim s live w A -> calm s s' -> live !! sec = Some d -> sec <> FREE_MAP_SECTOR ->
  only_data d (fs_device s) (fs_device s') -> saved s' live.
Proof.
  intros S C Hd Hne O Hf d0 Hd0. rewrite (calm_map_file _ _ C) in Hf. rewrite (calm_map _ _ C).
  destruct (m_saved _ _ _ _ S Hf d0 Hd0) as (m & Hm & Hcm). exists m. split; [done|]. rewrite <- Hcm. eapply only_data_contents; [apply S|exact Hd|exact Hd0|done|done].
Qed.

Lemma sim_root_write s s' live w A a i dm :
  sim s live w A -> opn s a i -> i_sector i = ROOT_DIR_SECTOR -> calm s s' -> fs_inv s' live w ->
  only_data (i_data i) (fs_device s) (fs_device s') -> dir_rep (contents (fs_device s') (i_data i)) dm ->
  (forall nm sec, dm !! nm = Some sec -> is_Some (live !! sec) /\ ~ is_system sec) ->
  (forall n1 n2 sec, dm !! n1 = Some sec -> dm !! n2 = Some sec -> n1 = n2) ->
  (forall x j, opn s x j ->
     removed j = true <-> ~ is_system (i_sector j) /\ ~ linked (mk_afs dm (a_data A) (a_open A)) (i_sector j)) ->
  sim s' live w (mk_afs dm (a_data A) (a_open A)).
Proof.
  intros S Hi Es C V' O Hrep Hl Hinj Hrm. destruct (root_data _ _ _ _ _ _ S Hi Es) as [Hroot _].
  eapply (sim_change s); try done; try apply C.
  - eapply map_file_calm; [done|apply S].
  - by eapply saved_only.
  - intros x j Hj%(calm_opn s s'); [|done]. by exists j.
  - intros n d Hn Hs. eapply (only_data_contents s s' live w ROOT_DIR_SECTOR (i_data i)); try done; [apply S|].
    intros ->. apply Hs. by right.
  - by exists (i_data i).
  - intros x j Hj%(calm_opn s s'); [|done]. by apply (Hrm x).
Qed.

(** Bytes past the last whole entry are not part of the directory. *)
Lemma dir_rep_tail c dm e :
  dir_rep c dm -> (length e <= 20)%nat -> (20 * n_entries c + length e <= length c)%nat ->
  dir_rep (overwrite c (20 * Z.of_nat (n_entries c)) e) dm.
Proof.
  intros [R1 R2 R3] He Hl. set (c' := overwrite _ _ _).
  assert (length c' = length c) as Elen by (unfold c'; rewrite overwrite_length; lia).
  assert (Hs : forall k nm sec, slot c' k nm sec <-> slot c k nm sec).
  { intros k nm sec. unfold slot. assert (n_entries c' = n_entries c) as -> by (unfold n_entries; by rewrite Elen).
    destruct (decide (k < n_entries c)%nat) as [Hk|]; [|naive_solver].
    unfold c'. rewrite entry_overwrite, decide_False by lia. done. }
  constructor.
  - intros k nm sec Hk%Hs. by apply (R1 k nm sec).
  - intros k1 k2 nm s1 s2 H1%Hs H2%Hs. by apply (R2 k1 k2 nm s1 s2).
  - intros nm sec. rewrite R3. by setoid_rewrite Hs.
Qed.

(** [dir_add] of a live file that is not linked. *)
Definition added s s' (live : gmap Z inode_disk) (w : own) (A : afs) (name : list Z) (sec : Z) (ok : bool) : Prop :=
  calm s s' /\
  if ok then valid_name name /\ a_dir A !! name = None /\
      sim s' live w (mk_afs (<[name := sec]> (a_dir A)) (a_data A) (a_open A))
  else sim s' live w A.

Lemma sim_add_write s live w A a i name sec e k :
  sim s live w A -> opn s a i -> i_sector i = ROOT_DIR_SECTOR -> valid_name name -> a_dir A !! name = None ->
  is_Some (live !! sec) -> ~ is_system sec -> ~ linked A sec -> (forall x j, opn s x j -> i_sector j <> sec) ->
  let c := contents (fs_device s) (i_data i) in
  length e = 20%nat -> (k <= n_entries c)%nat -> ((k < n_entries c)%nat -> in_use (entry c k) = false) ->
  exists n s', inode_write_at a (make_entry e name sec) ENTRY_SIZE (20 * Z.of_nat k) s = Ok (n, s') /\
    added s s' live w A name sec (n =? ENTRY_SIZE).
Proof.
  intros S Hi Es Hv Hnew Hlive Hns Hnl Hnop c He Hk Hfree. pose proof (m_inv _ _ _ _ S) as V.
  destruct (root_data _ _ _ _ _ _ S Hi Es) as [Hroot Hrep]. fold c in Hrep.
  destruct (dir_length live a i s w c) as [Hlen Hmax]; [done|].
  pose proof (Nat.div_mod_eq (length c) 20) as Hdm. fold (n_entries c) in Hdm.
  pose proof (Nat.mod_upper_bound (length c) 20 ltac:(lia)).
  assert (0 <= sec < 2 ^ 32) as Hsec.
  { destruct Hlive as [ds Hds]. pose proof (li_sec _ _ _ (v_live _ _ _ V _ _ Hds)). pose proof (v_small _ _ _ V). lia. }
  destruct (make_entry_ok e name sec He Hv Hsec) as (El & Eu & En & Ei).
  destruct (inv_write_at s live w a i (make_entry e name sec) ENTRY_SIZE (20 * Z.of_nat k)) as (s' & E & V' & C & L & O & Hc);
    [done|done|lia|rewrite El; done|by eapply root_writable|].
  set (n := avail _ _ _) in *. exists n, s'. split; [done|]. split; [done|]. fold c in Hc.
  destruct (decide (k < n_entries c)%nat) as [Hlt|Hge].
  - assert (n = 20) as -> by (unfold n, avail, ENTRY_SIZE; lia). change (20 =? ENTRY_SIZE) with true. cbv iota.
    split; [done|]. split; [done|]. rewrite take_ge in Hc by lia. eapply sim_root_write; try done.
    + rewrite Hc. by apply dir_rep_add; auto.
    + intros nm x [[<- <-]|[_ Hx]]%lookup_insert_Some; [done|]. by apply (m_linked _ _ _ _ S nm).
    + intros n1 n2 x [[<- <-]|[N1 K1]]%lookup_insert_Some [[<- Hx]|[N2 K2]]%lookup_insert_Some; try done.
      * exfalso. apply Hnl, linked_iff. by exists n2.
      * exfalso. apply Hnl, linked_iff. exists n1. by rewrite Hx.
      * by apply (m_inj _ _ _ _ S n1 n2 x).
    + intros x j Hj. rewrite (m_removed _ _ _ _ S x j Hj), !linked_iff. simpl.
      pose proof (Hnop x j Hj). split; intros [? Hno]; (split; [done|]); intros [nm Hnm]; apply Hno; exists nm.
      * apply lookup_insert_Some in Hnm as [[_ ?]|[_ ?]]; [congruence|done].
      * rewrite lookup_insert_ne; [done|]. intros <-. congruence.
  - assert (k = n_entries c) as -> by lia.
    assert (n < 20 /\ 20 * Z.of_nat (n_entries c) + n <= Z.of_nat (length c) /\ 0 <= n) as (Hn & Hfit & Hn0)
      by (unfold n, avail, ENTRY_SIZE; lia).
    rewrite (proj2 (Z.eqb_neq n ENTRY_SIZE)) by (unfold ENTRY_SIZE; lia).
    replace A with (mk_afs (a_dir A) (a_data A) (a_open A)) by (by destruct A).
    assert (length (take (Z.to_nat n) (make_entry e name sec)) = Z.to_nat n) as Et by (rewrite length_take; lia).
    eapply sim_root_write; try done; try apply S.
    + rewrite Hc. apply dir_rep_tail; [done|lia|lia].
Qed.

Lemma sim_dir_add s live w A d a i name sec junk :
  sim s live w A -> o_dirs w !! d = Some (mk_dir a 0) -> opn s a i -> d <> NULL ->
  Forall (fun x => 0 < x < 256) name -> length junk = 20%nat ->
  is_Some (live !! sec) -> ~ is_system sec -> ~ linked A sec -> (forall x j, opn s x j -> i_sector j <> sec) ->
  exists ok s', dir_add d name sec junk s = Ok (ok, s') /\ added s s' live w A name sec ok.
Proof.
  intros S Hd Hi Hn Hname Hjunk Hlive Hns Hnl Hnop. pose proof (m_inv _ _ _ _ S) as V.
  assert (Hd' : dirs s !! d = Some (mk_dir a 0)) by (by rewrite (m_dirs _ _ _ _ S)).
  pose proof (m_rootdirs _ _ _ _ S d _ i Hd' Hi) as Es.
  unfold dir_add. bind_by (apply assert_run; by rewrite (proj2 (Z.eqb_neq d NULL) Hn)).
  destruct (bool_decide (name = []) || (NAME_MAX <? Z.of_nat (length name))) eqn:Ev.
  { exists false, s. split; [done|]. split; [apply calm_refl|done]. }
  apply orb_false_iff in Ev as [Hne%bool_decide_eq_false Hle%Z.ltb_ge].
  assert (Hv : valid_name name).
  { split; [|done]. unfold NAME_MAX in Hle. destruct name; [done|]. simpl in *. lia. }
  destruct (sim_lookup s live w A d a i name S Hd Hi Hn Hname) as (r & s1 & E1 & Q1 & Hr).
  bind_by (exact E1). pose proof (sim_quiet _ _ _ _ _ S Q1) as S1. destruct r as [[e ofs]|].
  { exists false, s1. split; [done|]. split; [apply Q1|done]. }
  pose proof Q1 as (C1 & L1 & B1). apply (quiet_opn s s1 a i Q1) in Hi as Hi1.
  bind_by (unfold get_dir; rewrite (calm_dirs _ _ C1), Hd'; reflexivity). cbn [dir_inode].
  bind_by (unfold get_inode; destruct Hi1 as [_ ->]; reflexivity).
  set (c := contents (fs_device s1) (i_data i)).
  destruct (dir_length live a i s1 w c) as [Hlen Hmax]; [split; [apply S1|done]|].
  destruct (free_slot_loop_ok live a i c w (dir_fuel i) 0 s1 junk) as (k & e & s2 & E2 & Q2 & He & Hk & Hfree & _);
    [split; [apply S1|done]|lia| |done|].
  { unfold dir_fuel, inode_length, n_entries, ENTRY_SIZE. rewrite Hlen. change 20 with (Z.of_nat 20).
    rewrite <- Nat2Z.inj_div. lia. }
  bind_by (exact E2). cbn [fst snd]. pose proof (sim_quiet _ _ _ _ _ S1 Q2) as S2.
  assert (Ec : contents (fs_device s2) (i_data i) = c) by (apply same_bytes, Q2).
  destruct (sim_add_write s2 live w A a i name sec e k S2) as (n & s3 & E3 & Hadd); try done.
  - by apply (quiet_opn s1 s2 a i Q2).
  - intros x j Hj%(quiet_opn s1 s2 x j Q2)%(quiet_opn s s1 x j Q1). by apply (Hnop x).
  - rewrite Ec. apply Hk.
  - by rewrite Ec.
  - bind_by (exact E3). exists (n =? ENTRY_SIZE), s3. split; [done|]. destruct Hadd as [C3 Hadd]. split; [|done].
    eapply calm_trans; [apply C1|]. eapply calm_trans; [apply Q2|done].
Qed.
(** ** Sectors and inodes of a new file *)

Lemma sim_allocate s live w A cnt :
  sim s live w A -> 0 <= cnt ->
  exists r s', free_map_allocate cnt s = Ok (r, s') /\ sim s' live w A /\ steady s s' /\
    allocated (free_map s) (free_map s') cnt r.
Proof.
  intros S Hc. pose proof (m_inv _ _ _ _ S) as V.
  destruct (allocate_ok s live w cnt V Hc) as (r & s' & E & V' & St & K & Ha & W). exists r, s'.
  split; [done|]. split; [|done]. eapply sim_steady; [done..|apply W, S|]. intros n d Hn Hne. by eapply keeps_contents.
Qed.

Lemma sim_release s live w A sec :
  sim s live w A -> reserved s live sec ->
  exists s', free_map_release sec 1 s = Ok (tt, s') /\ sim s' live w A /\ steady s s'.
Proof.
  intros S (Hr & Hb & Hn). pose proof (m_inv _ _ _ _ S) as V.
  destruct (release_ok s live w sec 1 V) as (s' & E & V' & St & K & W & _).
  { apply S. } { lia. } { lia. } { rewrite (v_size _ _ _ V). lia. }
  { intros k Hk. by assert (k = sec) as -> by lia. }
  { intros n d x Hl Hx Hk. apply (Hn n d Hl). by assert (x = sec) as <- by lia. }
  exists s'. split; [done|]. split; [|done]. eapply sim_steady; [done..|]. intros n d Hd Hne. by eapply keeps_contents.
Qed.

Lemma free_sector s live w A s' sec :
  sim s live w A -> sim s' live w A -> steady s s' -> allocated (free_map s) (free_map s') 1 (Some sec) ->
  reserved s' live sec /\ ~ is_system sec /\ sec <> 0 /\ live !! sec = None.
Proof.
  intros S S' St (H1 & H2 & Hwas & Hnow). pose proof (m_inv _ _ _ _ S) as V.
  specialize (Hwas sec ltac:(lia)).
  assert (Hno : forall n d, live !! n = Some d -> ~ footprint n d sec).
  { intros n d Hn Hx. rewrite (v_bits _ _ _ V n d sec Hn Hx) in Hwas. done. }
  assert (Hnone : live !! sec = None).
  { destruct (live !! sec) as [d|] eqn:E; [|done]. exfalso. apply (Hno sec d E). by left. }
  destruct (m_root _ _ _ _ S) as (dr & Hdr & _). destruct (m_map _ _ _ _ S) as (fl & i & _ & Hi & Es & _).
  destruct (v_inode _ _ _ V _ i Hi) as [Hl _]. rewrite Es in Hl.
  assert (~ is_system sec) as Hns by (intros [->| ->]; congruence).
  split; [|split; [done|]; split; [intros ->; apply Hns; by left|done]].
  split; [|split; [|done]].
  - destruct (st_like _ _ St) as (_ & _ & _ & ->). rewrite <- (v_size _ _ _ V). lia.
  - rewrite Hnow by lia. unfold in_range. rewrite (proj2 (Z.leb_le _ _)), (proj2 (Z.ltb_lt _ _)) by lia. done.
Qed.

Definition with_data (sec : Z) (bs : list Z) (A : afs) : afs := mk_afs (a_dir A) (<[sec := bs]> (a_data A)) (a_open A).

Lemma sim_new_inode s s' live w A sec d :
  sim s live w A -> steady s s' -> fs_inv s' (<[sec := d]> live) w -> saved s' (<[sec := d]> live) -> live !! sec = None -> ~ is_system sec ->
  (forall n d, live !! n = Some d -> n <> FREE_MAP_SECTOR -> contents (fs_device s') d = contents (fs_device s) d) ->
  sim s' (<[sec := d]> live) w (with_data sec (contents (fs_device s') d) A).
Proof.
  intros S St V' W' Hnone Hns Hc. pose proof (m_inv _ _ _ _ S) as V. destruct S.
  assert (Ho : forall x j, opn s' x j <-> opn s x j) by (intros; by apply steady_opn).
  constructor; simpl; try done.
  - by eapply steady_map_file.
  - by rewrite (st_files _ _ St).
  - by rewrite (st_dirs _ _ St).
  - destruct m_root as (dr & Hdr & Hrep). exists dr.
    rewrite lookup_insert_ne by (intros ->; apply Hns; by right). split; [done|]. by rewrite (Hc _ _ Hdr).
  - intros nm x Hx. destruct (m_linked nm x Hx) as [[dx Hdx] Hs]. split; [|done].
    exists dx. rewrite lookup_insert_ne by congruence. done.
  - intros x j Hj%Ho. by apply (m_removed x).
  - rewrite (st_dirs _ _ St). intros x dr j Hx Hj%Ho. by apply (m_rootdirs x dr).
  - rewrite (st_files _ _ St), (st_map_file _ _ St). intros f fl j Hf Hj%Ho. by apply (m_user f fl).
  - intros x. unfold user_data. destruct (decide (x = sec)) as [->|Hx].
    + by rewrite !lookup_insert_eq, decide_False.
    + rewrite !lookup_insert_ne, m_data by done. unfold user_data. case_decide as Hs; [done|].
      destruct (live !! x) as [dx|] eqn:E; [|done]. simpl. f_equal. symmetry. apply (Hc _ _ E). intros ->. apply Hs. by left.
  - intros f. rewrite m_open. symmetry.
    eapply view_eq; [exact V|exact V'|done|by rewrite (st_files _ _ St)|by rewrite (st_files _ _ St)|apply St|].
    intros x j j' [_ Hj] [_ Hj']%Ho. by simplify_eq.
Qed.

(** Giving the new inode up again. *)
Lemma sim_drop s live w A sec d bs :
  sim s (<[sec := d]> live) w (with_data sec bs A) -> live !! sec = None -> ~ is_system sec -> a_data A !! sec = None ->
  (forall x j, opn s x j -> i_sector j <> sec) -> ~ linked A sec -> sim s live w A.
Proof.
  intros S Hnone Hns Hda Hnop Hnl. pose proof (inv_drop_live _ _ _ sec (m_inv _ _ _ _ S) Hnop) as V'.
  rewrite delete_insert_id in V' by done. destruct S. constructor; simpl in *; try done.
  - intros Hf d0 Hd0. apply m_saved; [done|]. rewrite lookup_insert_ne; [done|]. intros ->. apply Hns. by left.
  - destruct m_root as (dr & Hdr & Hrep). exists dr. split; [|done].
    rewrite lookup_insert_ne in Hdr by (intros ->; apply Hns; by right). done.
  - intros nm x Hx. destruct (m_linked nm x Hx) as [Hl Hs]. split; [|done].
    rewrite lookup_insert_ne in Hl; [done|]. intros <-. apply Hnl, linked_iff. by exists nm.
  - intros x. destruct (decide (x = sec)) as [->|Hx].
    + unfold user_data. by rewrite decide_False, Hnone.
    + specialize (m_data x). unfold user_data in *. rewrite !lookup_insert_ne in m_data by done. done.
Qed.

(** ** [filesys_create] *)

(** The part of [filesys_create] between the allocation and the release. *)
Lemma create_link s live w A d a i name n junk sec :
  sim s live w A -> o_dirs w !! d = Some (mk_dir a 0) -> opn s a i -> d <> NULL ->
  Forall (fun x => 0 < x < 256) name -> 0 <= n < 2 ^ 31 -> length junk = 20%nat ->
  reserved s live sec -> ~ is_system sec -> live !! sec = None ->
  exists ok s' live', (ok ← inode_create sec n;
      if negb ok then mret (false, sec) else ok ← dir_add d name sec junk; mret (ok, sec)) s = Ok ((ok, sec), s') /\
    opn s' a i /\
    if (ok : bool) then valid_name name /\ a_dir A !! name = None /\
      sim s' live' w (mk_afs (<[name := sec]> (a_dir A)) (<[sec := replicate (Z.to_nat n) 0]> (a_data A)) (a_open A))
    else sim s' live w A /\ reserved s' live sec.
Proof.
  intros S Hd Hi Hn Hname Hlen Hjunk Hres Hns Hnone. pose proof (m_inv _ _ _ _ S) as V.
  assert (Hnop : forall x j, opn s x j -> i_sector j <> sec).
  { intros x j Hj E. destruct (v_inode _ _ _ V x j Hj) as [Hl _]. congruence. }
  assert (Hnl : ~ linked A sec).
  { intros [nm Hnm]%linked_iff. destruct (m_linked _ _ _ _ S nm sec Hnm) as [[? ?] _]. congruence. }
  assert (Hda : a_data A !! sec = None).
  { rewrite (m_data _ _ _ _ S). unfold user_data. by rewrite decide_False, Hnone. }
  destruct (inode_create_ok s live w sec n V Hres Hlen) as (ok & s1 & E1 & St & Hc & Hok).
  bind_by (exact E1). assert (Hi1 : opn s1 a i) by (by apply (steady_opn s s1)).
  assert (Hb1 : forall b', (forall k, 0 <= k -> bit (free_map s) k = true -> bit b' k = true) ->
    0 <= sec < b_size (fs_device s1) /\ bit b' sec = true).
  { intros b' Hb'. destruct Hres as (Hr & Hb & _). destruct (st_like _ _ St) as (_ & _ & _ & ->).
    split; [done|]. apply Hb'; [lia|done]. }
  destruct ok; cbn [negb].
  2: { destruct Hok as (V1 & Em & W1 & _). exists false, s1, live. split; [done|]. split; [done|].
       split; [eapply sim_steady; [done..|apply W1, S|done]|]. destruct Hres as (Hr & Hb & Hx).
       destruct (Hb1 (free_map s1)) as [? ?]; [by rewrite Em|]. by split. }
  destruct Hok as (d' & V1 & El & Ez & W1 & _).
  pose proof (sim_new_inode s s1 live w A sec d' S St V1 (W1 (m_saved _ _ _ _ S)) Hnone Hns Hc) as S1. rewrite Ez in S1.
  destruct (sim_dir_add s1 _ w _ d a i name sec junk S1) as (ok & s2 & E2 & C2 & Hadd); try done.
  { rewrite lookup_insert_eq. by eexists. }
  { intros x j Hj%(steady_opn s s1); [|done]. by apply (Hnop x). }
  bind_by (exact E2). exists ok, s2, (<[sec := d']> live). split; [done|].
  split; [by apply (calm_opn s1 s2)|]. destruct ok; [done|]. split.
  - eapply sim_drop; try done. intros x j Hj%(calm_opn s1 s2)%(steady_opn s s1); [|done..]. by apply (Hnop x).
  - pose proof (m_inv _ _ _ _ Hadd) as V2. destruct Hres as (Hr & Hb & Hx). split; [|split; [|done]].
    + apply (v_live _ _ _ V2 sec d'). apply lookup_insert_eq.
    + apply (v_bits _ _ _ V2 sec d'); [apply lookup_insert_eq|by left].
Qed.

Lemma filesys_create_ok s A name n junk :
  refines s A -> room s -> call_ok A (Create name n junk) ->
  exists b s' A', filesys_create name n junk s = Ok (b, s') /\ spec A (Create name n junk) (Answer b) A' /\ refines s' A'.
Proof.
  intros [live S] Hroom (Hname & Hlen & Hjunk). unfold room in Hroom.
  assert (Hfin : forall s' live' A', sim s' live' (all_own s) A' -> refines s' A').
  { intros s' live' A' S'. exists live'. unfold all_own. by rewrite (m_files _ _ _ _ S'), (m_dirs _ _ _ _ S'). }
  destruct (sim_open_root s live _ A S) as (d & a & i & s1 & E1 & Hn & Hd & Hi & Es & S1 & _); [lia|].
  unfold filesys_create. bind_by (exact E1). rewrite (proj2 (Z.eqb_neq _ _) Hn). cbv iota.
  destruct (sim_allocate s1 live _ A 1 S1) as (r & s2 & E2 & S2 & St2 & Ha); [lia|].
  assert (Hi2 : opn s2 a i) by (by apply (steady_opn s1 s2)).
  destruct r as [sec|].
  2: { bind_by (by bind_by (exact E2)). cbn [fst snd negb andb]. bind_by reflexivity.
       destruct (sim_close_root s2 live (all_own s) A d a i S2) as (s3 & E3 & S3 & _); [done..|lia|].
       bind_by (exact E3). exists false, s3, A. split; [done|]. split; [by left|]. by eapply Hfin. }
  destruct (free_sector s1 live _ A s2 sec S1 S2 St2 Ha) as (Hres & Hns & Hsec & Hnone).
  destruct (create_link s2 live _ A d a i name n junk sec S2) as (ok & s3 & live' & E3 & Hi3 & Hok);
    [apply lookup_insert_eq|done..|].
  bind_by (bind_by (exact E2); exact E3). cbn [fst snd]. rewrite (proj2 (Z.eqb_neq _ _) Hsec). destruct ok; cbn [negb andb].
  - bind_by reflexivity. destruct Hok as (Hv & Hnew & S3).
    destruct (sim_close_root s3 live' (all_own s) _ d a i S3) as (s4 & E4 & S4 & _); [done..|lia|].
    bind_by (exact E4). eexists true, s4, _. split; [done|]. split; [|by eapply Hfin].
    right. exists sec. split_and!; try done. rewrite (m_data _ _ _ _ S). unfold user_data.
    by rewrite decide_False, Hnone.
  - destruct Hok as [S3 Hres3]. destruct (sim_release s3 live _ A sec S3 Hres3) as (s4 & E4 & S4 & St4).
    bind_by (exact E4).
    destruct (sim_close_root s4 live (all_own s) A d a i S4) as (s5 & E5 & S5 & _); [done|by apply (steady_opn s3 s4)|done|lia|].
    bind_by (exact E5). exists false, s5, A. split; [done|]. split; [by left|]. by eapply Hfin.
Qed.
(** ** [filesys_remove] *)

Definition marked (j : inode) : inode := mk_inode (i_sector j) (open_cnt j) true (deny_write_cnt j) (i_data j).

Lemma inv_mark s live w b j :
  fs_inv s live w -> opn s b j -> i_sector j <> FREE_MAP_SECTOR ->
  let s' := set_inodes (<[b := marked j]> (inodes s)) s in
  fs_inv s' live w /\ forall x k, opn s' x k -> exists k0, opn s x k0 /\ i_sector k = i_sector k0 /\
    k = if decide (x = b) then marked j else k0.
Proof.
  intros V Hj Hne s'. pose proof Hj as [Hb Hj'].
  assert (K : forall x k, opn s' x k -> exists k0, opn s x k0 /\ i_sector k = i_sector k0 /\
    k = if decide (x = b) then marked j else k0).
  { intros x k [Hx Hk]. simpl in Hx, Hk. apply lookup_insert_Some in Hk as [[<- <-]|[Hne' Hk]].
    - exists j. by rewrite decide_True.
    - exists k. by rewrite decide_False. }
  split; [|exact K]. destruct V. constructor; simpl; try done.
  - intros x Hx. apply lookup_insert_is_Some'. right. by apply v_open.
  - intros x k (k0 & Hk0 & _ & ->)%K. case_decide as Hd; [subst x|exact (v_inode x k0 Hk0)].
    exact (v_inode b j Hj).
  - intros x y k1 k2 (k01 & K1 & -> & _)%K (k02 & K2 & -> & _)%K. by apply v_inj.
  - intros x k (k0 & Hk0 & _ & ->)%K. case_decide as Hd; [subst x|exact (v_refs x k0 Hk0)].
    exact (v_refs b j Hj).
  - intros x Hx. apply v_addr. destruct Hx as [Hx|Hx]; [left|by right].
    apply lookup_insert_is_Some in Hx as [<-|[_ ?]]; [by exists j|done].
  - destruct v_mapfile as [?|[(fl & i & Hf & [Hi1 Hi2] & Es & Hm) Hin]]; [by left|right; split; [|done]].
    exists fl, i. split; [done|]. split; [split; [done|]|done]. simpl. rewrite lookup_insert_ne; [done|].
    intros ->. simplify_eq.
Qed.

(** Unlinking [name], whose inode [b] is open. *)
Lemma sim_unlink s live w A a i b j name k :
  sim s live w A -> opn s a i -> i_sector i = ROOT_DIR_SECTOR -> opn s b j -> ~ is_system (i_sector j) ->
  let c := contents (fs_device s) (i_data i) in
  slot c k name (i_sector j) ->
  exists s', inode_write_at a (clear_in_use (entry c k)) ENTRY_SIZE (20 * Z.of_nat k) s = Ok (ENTRY_SIZE, s') /\
    calm s s' /\
    exists s2, inode_remove b s' = Ok (tt, s2) /\
      sim s2 live w (mk_afs (delete name (a_dir A)) (a_data A) (a_open A)) /\ opn s2 b (marked j) /\
      dirs s2 = dirs s /\ forall x l, x <> b -> opn s2 x l <-> opn s x l.
Proof.
  intros S Hi Es Hj Hns c Hslot. pose proof (m_inv _ _ _ _ S) as V.
  destruct (root_data _ _ _ _ _ _ S Hi Es) as [Hroot Hrep]. fold c in Hrep.
  destruct (dir_length live a i s w c) as [Hlen Hmax]; [done|]. pose proof Hslot as (Hk & _).
  pose proof (Nat.div_mod_eq (length c) 20) as Hdm. fold (n_entries c) in Hdm.
  destruct (clear_in_use_ok (entry c k) (entry_length c k Hk)) as [El Eu].
  destruct (inv_write_at s live w a i (clear_in_use (entry c k)) ENTRY_SIZE (20 * Z.of_nat k)) as (s1 & E & V1 & C & L & O & Hc);
    [done|done|lia|rewrite El; done|by eapply root_writable|].
  assert (avail (i_data i) ENTRY_SIZE (20 * Z.of_nat k) = ENTRY_SIZE) as Ea by (unfold avail, ENTRY_SIZE; lia).
  rewrite Ea in *. rewrite take_ge in Hc by (rewrite El; done). fold c in Hc.
  assert (Hj1 : opn s1 b j) by (by apply (calm_opn s s1)).
  assert (Hjm : i_sector j <> FREE_MAP_SECTOR) by (intros Ej; apply Hns; by left).
  destruct (inv_mark s1 live w b j V1 Hj1 Hjm) as [V2 K2]. set (s2 := set_inodes _ s1) in *.
  assert (Hoth : forall x l, x <> b -> opn s2 x l <-> opn s x l).
  { intros x l Hx. rewrite <- (calm_opn s s1 x l C). unfold opn, s2. simpl. by rewrite lookup_insert_ne. }
  assert (Hdm' : a_dir A !! name = Some (i_sector j)) by (apply (dr_map _ _ Hrep); by exists k).
  exists s1. split; [done|]. split; [done|]. exists s2. split.
  { unfold inode_remove. pose proof (oi_addr _ _ _ (inv_open_inode _ _ _ _ _ V1 Hj1)) as Hbn.
    bind_by (apply assert_run; by rewrite (proj2 (Z.eqb_neq b NULL) Hbn)).
    bind_by (unfold get_inode; destruct Hj1 as [_ ->]; reflexivity). done. }
  split; [|split; [split; [apply Hj1|simpl; apply lookup_insert_eq]|split; [apply C|done]]].
  eapply (sim_change s); try done; try apply C.
  - destruct (map_file_calm s s1 C (m_map _ _ _ _ S)) as (fl & l & Hf & [Hl1 Hl2] & Esl & Hm). exists fl, l.
    split; [done|]. split; [split; [done|]|done]. simpl. rewrite lookup_insert_ne; [done|]. intros ->.
    destruct Hj1 as [_ Hj1]. simplify_eq.
  - by apply (saved_only s s1 live w A ROOT_DIR_SECTOR (i_data i)).
  - intros x l (l0 & Hl0%(calm_opn s s1) & -> & _)%K2; [|done]. by exists l0.
  - intros n dn Hn' Hs. eapply (only_data_contents s s1 live w ROOT_DIR_SECTOR (i_data i)); try done.
    intros ->. apply Hs. by right.
  - exists (i_data i). split; [done|]. change (fs_device s2) with (fs_device s1). rewrite Hc.
    by eapply dir_rep_remove.
  - intros nm sec [_ Hnm]%lookup_delete_Some. by apply (m_linked _ _ _ _ S nm).
  - intros n1 n2 sec [_ H1]%lookup_delete_Some [_ H2]%lookup_delete_Some. by apply (m_inj _ _ _ _ S n1 n2 sec).
  - intros x l (l0 & Hl0%(calm_opn s s1) & Esec & El0)%K2; [|done]. rewrite Esec, linked_iff. simpl.
    destruct (decide (x = b)) as [->|Hx].
    + subst l. destruct Hl0 as [_ Hl0], Hj as [_ Hj]. simplify_eq. split; [intros _|done]. split; [done|].
      intros [nm [Hne Hnm]%lookup_delete_Some]. apply Hne. by apply (m_inj _ _ _ _ S name nm (i_sector j)).
    + subst l0. rewrite (m_removed _ _ _ _ S x l Hl0), linked_iff.
      split; intros [? Hno]; (split; [done|]); intros [nm Hnm]; apply Hno; exists nm.
      * by apply lookup_delete_Some in Hnm as [_ ?].
      * rewrite lookup_delete_ne; [done|]. intros <-. apply Hx. apply (v_inj _ _ _ V x b l j Hl0 Hj). congruence.
Qed.

Lemma sim_dir_remove s live w A d a i name :
  sim s live w A -> o_code w = [] -> o_dirs w !! d = Some (mk_dir a 0) -> opn s a i -> i_sector i = ROOT_DIR_SECTOR ->
  d <> NULL -> Forall (fun x => 0 < x < 256) name -> handles w < 2 ^ 31 - 2 ->
  exists ok s' live' A' i', dir_remove d name s = Ok (ok, s') /\ sim s' live' w A' /\ opn s' a i' /\
    i_sector i' = ROOT_DIR_SECTOR /\ spec A (Remove name) (Answer ok) A'.
Proof.
  intros S Hw Hd Hi Es Hn Hname Hmax. unfold dir_remove.
  bind_by (apply assert_run; by rewrite (proj2 (Z.eqb_neq d NULL) Hn)).
  destruct (sim_lookup s live w A d a i name S Hd Hi Hn Hname) as (r & s1 & E1 & Q1 & Hr).
  bind_by (exact E1). pose proof (sim_quiet _ _ _ _ _ S Q1) as S1. apply (quiet_opn s s1 a i Q1) in Hi as Hi1.
  destruct r as [[e ofs]|]; [|exists false, s1, live, A, i; split_and!; try done; simpl; by rewrite Hr].
  destruct Hr as (Ha & k & Hslot & -> & ->). set (c := contents (fs_device s) (i_data i)) in *.
  set (sec := inode_sector (entry c k)) in *. destruct (m_linked _ _ _ _ S1 name sec Ha) as [[ds Hds] Hns].
  destruct (sim_inode_open s1 live w A sec ds S1 Hds) as (b & j & s2 & E2 & S2 & Hj & Ej & _ & Hb & O2).
  { right. apply linked_iff. by exists name. } { lia. }
  bind_by (exact E2). rewrite (proj2 (Z.eqb_neq _ _) Hb).
  assert (Hd2 : dirs s2 !! d = Some (mk_dir a 0)) by (by rewrite (m_dirs _ _ _ _ S2)).
  bind_by (unfold get_dir; rewrite Hd2; reflexivity). cbn [dir_inode].
  destruct (op_inodes _ _ _ O2 a i Hi1) as (i2 & Hi2 & Ei2 & _ & _ & Ed2).
  assert (Ec : contents (fs_device s2) (i_data i2) = c).
  { rewrite Ed2. transitivity (contents (fs_device s1) (i_data i)); apply same_bytes; [apply O2|apply Q1]. }
  rewrite <- Ej in Hns. assert (Hab : a <> b).
  { intros ->. destruct Hi2 as [_ Hi2], Hj as [_ Hj]. simplify_eq. apply Hns. right. congruence. }
  destruct (sim_unlink s2 live _ A a i2 b j name k S2 Hi2) as (s3 & E3 & C3 & s4 & E4 & S4 & Hb4 & Ed4 & Hoth);
    [congruence|done|done|rewrite Ec, Ej; exact Hslot|]. rewrite Ec in E3.
  bind_by (exact E3). rewrite Z.eqb_refl. cbn [negb]. bind_by (exact E4).
  destruct (sim_inode_close s4 live w _ b (marked j) S4 Hw Hb4) as (s5 & E5 & S5 & Hoth5); [done|lia|].
  bind_by (exact E5). eexists true, s5, _, _, i2. split; [done|]. split; [exact S5|].
  split; [by apply Hoth5, Hoth|]. split; [congruence|]. simpl. rewrite Ha. simpl. by rewrite Ej.
Qed.

Lemma filesys_remove_ok s A name :
  refines s A -> room s -> Forall (fun x => 0 < x < 256) name ->
  exists b s' A', filesys_remove name s = Ok (b, s') /\ spec A (Remove name) (Answer b) A' /\ refines s' A'.
Proof.
  intros [live S] Hroom Hname. unfold room in Hroom.
  destruct (sim_open_root s live _ A S) as (d & a & i & s1 & E1 & Hn & Hd & Hi & Es & S1 & _); [lia|].
  unfold filesys_remove. bind_by (exact E1). rewrite (proj2 (Z.eqb_neq _ _) Hn). cbv iota.
  destruct (sim_dir_remove s1 live _ A d a i name S1) as (ok & s2 & live' & A' & i' & E2 & S2 & Hi2 & Es2 & Hspec);
    [done|apply lookup_insert_eq|done..|rewrite handles_new_dir by done; lia|].
  bind_by (exact E2).
  destruct (sim_close_root s2 live' (all_own s) A' d a i' S2) as (s3 & E3 & S3 & _); [done..|lia|].
  bind_by (exact E3). exists ok, s3, A'. split; [done|]. split; [done|].
  exists live'. unfold all_own. by rewrite (m_files _ _ _ _ S3), (m_dirs _ _ _ _ S3).
Qed.

(** ** All calls *)

Lemma run_refines s A c :
  refines s A -> room s -> call_ok A c ->
  exists r s' A', run c s = Ok (r, s') /\ spec A c r A' /\ refines s' A'.
Proof.
  intros R Hroom Hok.
  assert (Hopen : forall f, is_Some (a_open A !! f) ->
    exists live h bs, sim s live (all_own s) A /\ a_open A !! f = Some h /\ a_data A !! h_file h = Some bs).
  { intros f [h Hh]. destruct R as [live S].
    destruct (handle_file s live _ A f h S Hh) as (fl & i & _ & _ & _ & _ & _ & -> & _ & _ & Hda).
    by eexists live, _, _. }
  destruct c; simpl in Hok.
  - destruct (filesys_create_ok s A name initial_size junk R Hroom Hok) as (b & s' & A' & E & Hs & R').
    exists (Answer b), s', A'. split; [unfold run; by bind_by (exact E)|done].
  - destruct (filesys_open_ok s A name R Hroom Hok) as (f & s' & A' & E & Hs & R' & _).
    exists (Number f), s', A'. split; [unfold run; by bind_by (exact E)|done].
  - destruct (filesys_remove_ok s A name R Hroom Hok) as (b & s' & A' & E & Hs & R').
    exists (Answer b), s', A'. split; [unfold run; by bind_by (exact E)|done].
  - destruct (Hopen f Hok) as (live & h & bs & S & Hh & Hbs).
    destruct (file_read_sim s live A f h bs size S Hh Hbs) as (r & s' & A' & E & Hs & R' & _).
    exists r, s', A'. split; [done|]. split; [by exists h, bs|done].
  - destruct Hok as [Hf Hsz]. destruct (Hopen f Hf) as (live & h & bs & S & Hh & Hbs).
    destruct (file_write_sim s live A f h bs buffer size S Hh Hbs Hsz) as (r & s' & A' & E & Hs & R' & _).
    exists r, s', A'. split; [done|]. split; [by exists h, bs|done].
  - destruct Hok as [Hf Hp]. destruct (Hopen f Hf) as (live & h & bs & S & Hh & Hbs).
    destruct (file_seek_sim s live A f h bs pos S Hh Hbs Hp) as (r & s' & A' & E & Hs & R' & _).
    exists r, s', A'. split; [done|]. split; [by exists h, bs|done].
  - destruct (Hopen f Hok) as (live & h & bs & S & Hh & Hbs).
    destruct (file_tell_sim s live A f h bs S Hh Hbs) as [E _]. eexists _, s, A. split; [exact E|].
    split; [by exists h, bs|done].
  - destruct (Hopen f Hok) as (live & h & bs & S & Hh & Hbs).
    destruct (file_tell_sim s live A f h bs S Hh Hbs) as [_ E]. eexists _, s, A. split; [exact E|].
    split; [by exists h, bs|done].
  - destruct (Hopen f Hok) as (live & h & bs & S & Hh & Hbs).
    destruct (file_deny_sim s live A f h bs S Hroom Hh Hbs) as (r & s' & A' & E & Hs & R').
    exists r, s', A'. split; [done|]. split; [by exists h, bs|done].
  - destruct (Hopen f Hok) as (live & h & bs & S & Hh & Hbs).
    destruct (file_allow_sim s live A f h bs S Hroom Hh Hbs) as (r & s' & A' & E & Hs & R').
    exists r, s', A'. split; [done|]. split; [by exists h, bs|done].
  - destruct (Hopen f Hok) as (live & h & bs & S & Hh & Hbs).
    destruct (file_close_sim s live A f h S Hroom Hh) as (s' & E & R').
    eexists Done, s', _. split; [unfold run; by bind_by (exact E)|]. split; [by exists h, bs|done].
Qed.
End Names.
