(* ===== verification/FsMount.v ===== *)
(** * Formatting, mounting and shutting down

    [filesys_init] on a device, [filesys_done], and what is left on the device
    in between. *)

From S2P Require Import Prelude Bitmap Block FsState Inode FreeMap File Directory FsInv FsFiles FsDir FsSpec FsOps FsNames.

Section Mount.
Context `{BlockLaws D}.
Implicit Types s t : fs D.

(** The static variables of [free-map.c]. *)
Definition with_map (m : bitmap) (f : Z) s : fs D := set_free_map m (set_free_map_file f s).

(** What a result is when the map is another one. *)
Definition on_map {A} (m : bitmap) (f : Z) (r : res (A * fs D)) : res (A * fs D) :=
  match r with Ok (x, s) => Ok (x, with_map m f s) | Err e => Err e end.

(** Memory at boot. *)
Record cold t : Prop := {
  cold_inodes : inodes t = ∅;
  cold_files : files t = ∅;
  cold_dirs : dirs t = ∅;
  cold_map_file : free_map_file t = NULL;
  cold_brk : 0 < brk t;
  cold_fails : fails t = [];
}.

Definition nobody : own := mk_own [] ∅ ∅.

(** A file system that is not mounted: map [B] marks its sectors. *)
Record dormant t (live : gmap Z inode_disk) (B : bitmap) (A : afs) : Prop := {
  z_inv : fs_inv (with_map B NULL t) live nobody;
  z_files : files t = ∅;
  z_dirs : dirs t = ∅;
  z_map : exists d0 m, live !! FREE_MAP_SECTOR = Some d0 /\ d_length d0 = byte_cnt (bit_cnt B) /\
    same_bits m B /\ contents (fs_device t) d0 = elems_bytes (bits m);
  z_root : exists d, live !! ROOT_DIR_SECTOR = Some d /\ dir_rep (contents (fs_device t) d) (a_dir A);
  z_linked : forall nm sec, a_dir A !! nm = Some sec -> is_Some (live !! sec) /\ ~ is_system sec;
  z_inj : forall n1 n2 sec, a_dir A !! n1 = Some sec -> a_dir A !! n2 = Some sec -> n1 = n2;
  z_data : forall sec, a_data A !! sec = user_data t live sec;
  z_open : a_open A = ∅;
}.

(** ** Steps that do not use the map *)

Lemma inode_open_map x m f s : inode_open x (with_map m f s) = on_map m f (inode_open x s).
Proof.
  unfold inode_open, inode_reopen, get_inode, put_inode, on_device, malloc, modify, get, lift.
  unfold mbind, M_bind, mret, M_ret.
  change (inodes (with_map m f s)) with (inodes s). change (open_inodes (with_map m f s)) with (open_inodes s).
  destruct (find_open _ _ x) as [[a|]|e]; [| |done].
  - destruct (a =? NULL); [done|]. change (inodes (with_map m f s)) with (inodes s). by destruct (inodes s !! a).
  - change (fails (with_map m f s)) with (fails s). change (brk (with_map m f s)) with (brk s).
    destruct (fails s) as [|[] l]; [destruct (brk s =? NULL)|done|destruct (brk s =? NULL)]; try done;
      cbn [fs_device set_open_inodes set_mem]; change (fs_device (with_map m f s)) with (fs_device s);
      by destruct (block_read x (fs_device s)) as [[? ?]|].
Qed.

Lemma file_open_map a m f s :
  a <> NULL -> fails s = [] -> 0 < brk s -> file_open a (with_map m f s) = on_map m f (file_open a s).
Proof.
  intros Ha Hf Hb. unfold file_open, malloc, put_file, modify, mbind, M_bind, mret, M_ret.
  change (fails (with_map m f s)) with (fails s). rewrite Hf. simpl.
  rewrite (proj2 (Z.eqb_neq a NULL) Ha), (proj2 (Z.eqb_neq (brk s) NULL)) by (unfold NULL; lia). done.
Qed.

Lemma inode_close_map a i m f s :
  inodes s !! a = Some i -> removed i = false -> inode_close a (with_map m f s) = on_map m f (inode_close a s).
Proof.
  intros Hi Hr. unfold inode_close. destruct (a =? NULL); [done|].
  unfold get_inode, put_inode, modify, mbind, M_bind, mret, M_ret.
  change (inodes (with_map m f s)) with (inodes s). rewrite Hi, Hr. by destruct (s32 _ =? 0).
Qed.
(** ** Opening the free map *)

Lemma inv_set_map_file s live w f :
  fs_inv s live w -> map_file_ok (set_free_map_file f s) -> is_Some (o_files w !! f) ->
  fs_inv (set_free_map_file f s) live w.
Proof. intros [] Hm Hf. constructor; try done. by right. Qed.

Lemma nobody_open s live a i : fs_inv s live nobody -> ~ opn s a i.
Proof.
  intros V Hi. destruct (v_refs _ _ _ V a i Hi) as [E _], (v_inode _ _ _ V a i Hi) as [_ Hc].
  change (open_cnt i = 0) in E. lia.
Qed.

(** Opening the file of the free map, for the first time. *)
Lemma open_map_file t live d0 :
  fs_inv t live nobody -> files t = ∅ -> dirs t = ∅ -> live !! FREE_MAP_SECTOR = Some d0 ->
  d_length d0 = byte_cnt (bit_cnt (free_map t)) ->
  exists a i f s1 s, let fl := mk_file a 0 false in
    (forall m g, inode_open FREE_MAP_SECTOR (with_map m g t) = Ok (a, with_map m g s1) /\
       file_open a (with_map m g s1) = Ok (f, with_map m g s)) /\
    f <> NULL /\ a <> NULL /\ files s = {[f := fl]} /\ dirs s = ∅ /\ opn s a i /\ i_data i = d0 /\
    (forall x j, opn s x j -> x = a) /\ removed i = false /\ i_sector i = FREE_MAP_SECTOR /\ deny_write_cnt i = 0 /\
    free_map s = free_map t /\ like (fs_device t) (fs_device s) /\
    (forall y, sector (fs_device s) y = sector (fs_device t) y) /\
    fs_inv (set_free_map_file f s) live (mk_own [] {[f := fl]} ∅) /\ map_file_ok (set_free_map_file f s).
Proof.
  intros V Ef Ed Hd0 Hlen.
  destruct (inode_open_ok t live nobody FREE_MAP_SECTOR d0 V Hd0) as (a & i & s1 & E1 & V1 & O & Hi & Es & Edt & Hr);
    [done|].
  assert (Hrm : removed i = false).
  { destruct (removed i); [|done]. destruct (Hr eq_refl) as (i0 & Hi0 & _). by destruct (nobody_open _ _ _ _ V Hi0). }
  destruct (inv_open_inode _ _ _ _ _ V1 Hi) as [_ _ Ha _ _].
  destruct (malloc_ok s1 live _ V1) as (_ & Hn & _ & _).
  destruct (file_open_ok s1 live nobody a i V1 Hi) as [E2 V2]. set (s2 := set_files _ _) in *.
  assert (Hdeny : deny_write_cnt i = 0) by (by destruct (v_refs _ _ _ V1 a i Hi)).
  assert (Efs : files s2 = {[brk s1 := mk_file a 0 false]}).
  { unfold s2. simpl. rewrite (op_files _ _ _ O), Ef. done. }
  assert (Hmap : map_file_ok (set_free_map_file (brk s1) s2)).
  { exists (mk_file a 0 false), i. simpl. rewrite lookup_insert_eq, (op_map _ _ _ O), Edt. done. }
  exists a, i, (brk s1), s1, s2.
  split; [intros m g; rewrite inode_open_map, E1, file_open_map, E2; [done|done|apply V1|apply V1]|].
  split_and!; try done; try apply O.
  - unfold s2. simpl. by rewrite (op_dirs _ _ _ O).
  - intros x j Hj. apply dec_stable. intros Hx. apply (op_other _ _ _ O x j Hx) in Hj. by apply (nobody_open t live x j V).
  - apply inv_set_map_file; [exact V2|exact Hmap|]. simpl. rewrite lookup_singleton_eq. by eexists.
Qed.

(** Reading the free map from its file, and the bits it then has. *)
Lemma read_map s live w f fl i B m m0 :
  fs_inv s live w -> files s !! f = Some fl -> opn s (f_inode fl) i -> d_length (i_data i) = byte_cnt (bit_cnt B) ->
  same_bits m B -> contents (fs_device s) (i_data i) = elems_bytes (bits m) ->
  bitmap_ok B -> Z.of_nat (length (bits B)) = elem_cnt (bit_cnt B) -> 0 < bit_cnt B ->
  bit_cnt m0 = bit_cnt B -> length (bits m0) = length (bits B) ->
  exists b s', bitmap_read (fun size => file_read_at f size 0) m0 (set_free_map m0 s) = Ok ((true, b), s') /\
    quiet (set_free_map m0 s) s' /\ same_bits b B.
Proof.
  intros V Hf Hi Hlen (Hm & Ec & El & Hb) Hc HB Hl Hpos Ec0 El0.
  assert (Ho : open_inode (set_free_map m0 s) (f_inode fl) i).
  { destruct (inv_open_inode _ _ _ _ _ V Hi). by constructor. }
  destruct (byte_cnt_val (bit_cnt B)) as [Ebc Hrng]; [apply HB|].
  destruct (inode_read_at_ok (set_free_map m0 s) (f_inode fl) i (byte_cnt (bit_cnt B)) 0 Ho) as (k & s' & E & _ & Hk & Q); [lia|].
  rewrite (Hk (v_mem _ _ _ V)) in E.
  assert (Eav : avail (i_data i) (byte_cnt (bit_cnt B)) 0 = byte_cnt (bit_cnt B)) by (unfold avail; lia).
  rewrite Eav, Z.add_0_r in E. simpl in E. unfold contents in Hc. rewrite Hlen in Hc. rewrite Hc in E.
  destruct (bitmap_read_ok (fun size => file_read_at f size 0) m m0 (set_free_map m0 s) s') as (b & Eb & Hu); try congruence.
  { unfold file_read_at. rewrite Ec. bind_by (unfold get_file; simpl; rewrite Hf; reflexivity). exact E. }
  exists b, s'. split; [done|]. split; [done|]. destruct Hu as (Hok & Hcnt & Hln & Hbit).
  split; [done|]. split; [congruence|]. split; [congruence|]. intros j Hj. rewrite Hbit by lia.
  rewrite (proj2 (Z.ltb_lt _ _)) by lia. by apply Hb.
Qed.

Lemma free_map_open_ok t live B A :
  dormant t live B A -> bit_cnt (free_map t) = bit_cnt B -> length (bits (free_map t)) = length (bits B) ->
  0 < bit_cnt B ->
  exists s, free_map_open t = Ok (tt, s) /\ refines s A /\ dirs s = ∅ /\ size (files s) = 1%nat.
Proof.
  intros Zd Hc Hl Hpos. destruct (z_map _ _ _ _ Zd) as (d0 & m & Hd0 & Hlen & Hm & Hcont).
  destruct (open_map_file (with_map B NULL t) live d0) as (a & i & f & s1 & s2 & E2 & Hf & Ha & Efs & Eds & Hi & Ei & Honly & Hrm & Es & Hdn & Em2 & L2 & S2 & V2 & Hmap);
    [apply Zd..|done|done|].
  set (fl := mk_file a 0 false) in *. simpl in Em2, L2, S2.
  assert (Et : t = with_map (free_map t) (free_map_file t) (with_map B NULL t)) by (by destruct t).
  pose proof (z_inv _ _ _ _ Zd) as VB. set (s3 := set_free_map_file f s2) in *.
  destruct (read_map s3 live (mk_own [] {[f := fl]} ∅) f fl i B m (free_map t)) as (b & s4 & E4 & Q4 & Hb); try done; try (by apply VB).
  { simpl. by rewrite Efs, lookup_singleton_eq. } { congruence. }
  { rewrite <- Hcont, Ei. by apply same_bytes. }
  pose proof Q4 as (C4 & L4 & S4).
  assert (V5 : fs_inv (set_free_map b s4) live (mk_own [] {[f := fl]} ∅)).
  { apply (inv_quiet (set_free_map b s3)).
    - apply inv_set_map; [exact V2|apply Hb|..]; simpl; rewrite ?Em2.
      + apply Hb.
      + apply Hb.
      + intros sec d x Hs Hx. pose proof (footprint_range _ sec d x (v_live _ _ _ VB _ _ Hs) Hx) as Hr. simpl in Hr.
        pose proof (v_size _ _ _ VB) as Hz. simpl in Hz. destruct Hb as (_ & _ & _ & Hb). rewrite Hb by lia.
        by apply (v_bits _ _ _ VB sec d x).
    - destruct C4. split; [by constructor|]. by split. }
  exists (set_free_map b s4). split.
  { unfold free_map_open. rewrite Et at 1.
    destruct (E2 (free_map t) (free_map_file t)) as [Ea Eb]. bind_by (exact Ea). bind_by (exact Eb).
    bind_by reflexivity. rewrite (proj2 (Z.eqb_neq f NULL) Hf). bind_by reflexivity. bind_by (exact E4). by bind_by reflexivity. }
  assert (Efs5 : files s4 = {[f := fl]}) by (by rewrite (calm_files _ _ C4)).
  assert (Eds5 : dirs s4 = ∅) by (by rewrite (calm_dirs _ _ C4)).
  assert (Hopn : forall x j, opn (set_free_map b s4) x j <-> opn s2 x j).
  { intros x j. unfold opn. simpl. by rewrite (calm_inodes _ _ C4), (calm_open _ _ C4). }
  assert (Hcs : forall d, contents (fs_device s4) d = contents (fs_device t) d).
  { intros d. unfold contents. rewrite (same_bytes (fs_device s3)) by done. by apply same_bytes. }
  assert (Hmf : free_map_file s4 = f) by (by rewrite (calm_map_file _ _ C4)).
  split; [|simpl; rewrite Efs5, Eds5; split; [done|by rewrite map_size_singleton]].
  exists live. unfold all_own. simpl. rewrite Efs5, Eds5. destruct Zd. constructor; simpl; try done.
  - exists fl, i. simpl. rewrite Hmf, Efs5, lookup_singleton_eq. split; [done|]. split; [by apply Hopn|].
    split_and!; try done. rewrite Ei, Hlen. f_equal. symmetry. apply Hb.
  - intros _ d1 Hd1. simplify_eq. exists m. split; [|simpl; congruence].
    destruct Hm as (Hm1 & Hm2 & Hm3 & Hm4), Hb as (_ & Hb2 & Hb3 & Hb4). simpl.
    split; [done|]. split; [congruence|]. split; [congruence|]. intros j Hj. rewrite Hm4, Hb4 by lia. done.
  - destruct z_root0 as (d & Hd & Hrep). exists d. by rewrite Hcs.
  - intros x j Hj%Hopn. rewrite (Honly x j Hj) in Hj. destruct Hj as [_ Hj], Hi as [_ Hi]. simplify_eq.
    rewrite Hrm, Es. split; [done|]. intros [Hs _]. destruct Hs. by left.
  - by rewrite Eds5.
  - intros g gl j. rewrite Efs5, Hmf. intros [<- _]%lookup_singleton_Some _. done.
  - intros sec. rewrite z_data0. unfold user_data. simpl. case_decide; [done|]. destruct (live !! sec); [simpl|done]. by rewrite Hcs.
  - intros g. rewrite z_open0. unfold view. simpl. rewrite Hmf, Efs5. case_decide as Hg; [done|].
    by rewrite lookup_singleton_ne.
Qed.
(** ** Closing the free map *)

Lemma close_map_file s live fl i :
  let f := free_map_file s in
  fs_inv s live (mk_own [] {[f := fl]} ∅) -> files s = {[f := fl]} -> f <> NULL ->
  opn s (f_inode fl) i -> deny_write_cnt i = 0 -> removed i = false ->
  exists s', file_close f s = Ok (tt, s') /\ fs_inv (with_map (free_map s) NULL s') live nobody /\
    files s' = ∅ /\ dirs s' = dirs s /\ free_map s' = free_map s /\ like (fs_device s) (fs_device s') /\
    forall x, sector (fs_device s') x = sector (fs_device s) x.
Proof.
  intros f V Ef Hf Hi Hdn Hrm. set (sN := with_map (free_map s) NULL s).
  assert (VN : fs_inv sN live (mk_own [] {[f := fl]} ∅)).
  { destruct V. constructor; try done. by left. }
  assert (Hdw : f_deny_write fl = false).
  { destruct (f_deny_write fl) eqn:E; [|done]. destruct (v_refs _ _ _ V _ i Hi) as [_ Hd]. rewrite Hdn in Hd.
    pose proof (map_sum_ge (file_denies (f_inode fl)) {[f := fl]} f fl ltac:(intros; apply file_denies_le) (lookup_singleton_eq _ _)) as Hge.
    unfold file_denies at 1 in Hge. rewrite Z.eqb_refl, E in Hge. simpl in *. lia. }
  pose proof (inv_give_file sN live _ f fl VN (lookup_singleton_eq _ _) Hdw Hf) as V1. simpl in V1.
  unfold with_files in V1. simpl in V1. rewrite delete_singleton_eq in V1.
  destruct (inode_close_ok sN live nobody (f_inode fl) i V1 Hi) as (s1 & E1 & V2 & C); [congruence|done|].
  assert (Hg : gone i = false) by (unfold gone; rewrite Hrm; apply andb_false_r).
  unfold left_live in V2. rewrite Hg in V2. destruct (ci_same _ _ _ _ _ C Hg) as [Em Hsec].
  assert (Es : s = with_map (free_map s) f sN) by (unfold f, sN; by destruct s).
  assert (Ec : inode_close (f_inode fl) s = Ok (tt, with_map (free_map s) f s1)).
  { rewrite Es at 1. destruct Hi as [_ Hi]. by rewrite (inode_close_map _ i), E1. }
  exists (set_files (delete f (files s1)) (with_map (free_map s) f s1)). split.
  { unfold file_close, file_allow_write. rewrite (proj2 (Z.eqb_neq f NULL) Hf).
    assert (Hgf : get_file f s = Ok (fl, s)) by (unfold get_file; by rewrite Ef, lookup_singleton_eq).
    bind_by (bind_by reflexivity; bind_by (exact Hgf); rewrite Hdw; reflexivity).
    bind_by (exact Hgf). by bind_by (exact Ec). }
  split; [|split_and!; try done; try apply C].
  - replace (with_map _ NULL _) with (set_files (delete f (files s1)) s1).
    + apply inv_del_file; [exact V2|done].
    + pose proof (ci_map_file _ _ _ _ _ C) as Emf. simpl in Em, Emf. unfold with_map. rewrite <- Em. destruct s1. simpl in *. by subst.
  - simpl. rewrite (ci_files _ _ _ _ _ C). simpl. by rewrite Ef, delete_singleton_eq.
Qed.

Lemma filesys_done_ok s A :
  refines s A -> a_open A = ∅ -> dirs s = ∅ ->
  exists s' live B, filesys_done s = Ok (tt, s') /\ like (fs_device s) (fs_device s') /\ dormant s' live B A.
Proof.
  intros [live S] Ho Hd. destruct (m_map _ _ _ _ S) as (fl & i & Hf & Hi & Es & Hdn & Hrm & Hlen).
  pose proof (m_inv _ _ _ _ S) as V. set (f := free_map_file s) in *.
  assert (Ef : files s = {[f := fl]}).
  { apply map_eq. intros g. destruct (decide (g = f)) as [->|Hg]; [by rewrite lookup_singleton_eq|].
    rewrite lookup_singleton_ne by done. destruct (files s !! g) as [gl|] eqn:Eg; [|done].
    pose proof (m_open _ _ _ _ S g) as Hv. rewrite Ho, lookup_empty in Hv. unfold view in Hv.
    rewrite decide_False, Eg in Hv by done. simpl in Hv.
    destruct (v_files _ _ _ V g gl Eg) as [O _]. destruct (v_open _ _ _ V _ O) as [j Hj]. by rewrite Hj in Hv. }
  assert (Hfn : f <> NULL).
  { assert (0 < f < brk s) by (apply (v_addr _ _ _ V); right; left; by exists fl). unfold NULL. lia. }
  unfold all_own in V. rewrite Ef, Hd in V.
  destruct (close_map_file s live fl i V Ef Hfn Hi Hdn Hrm) as (s' & E & V' & Ef' & Ed' & Em & L & Hsec).
  exists s', live, (free_map s). split; [exact E|]. split; [done|].
  assert (Hc : forall d, contents (fs_device s') d = contents (fs_device s) d) by (intros; by apply same_bytes).
  destruct (v_inode _ _ _ V _ i Hi) as [Hl _]. rewrite Es in Hl. destruct S. constructor; try done.
  - congruence.
  - destruct (m_saved Hfn (i_data i) Hl) as (m & Hm & Hcm). exists (i_data i), m. by rewrite Hc.
  - destruct m_root as (d & Hdd & Hrep). exists d. by rewrite Hc.
  - intros sec. rewrite m_data. unfold user_data. case_decide; [done|]. destruct (live !! sec); [simpl; by rewrite Hc|done].
Qed.

(** What is on the device is all that counts. *)
Lemma dormant_device t t' live B A :
  dormant t live B A -> cold t' -> open_inodes t' = [] -> fs_device t' = fs_device t -> dormant t' live B A.
Proof.
  intros [] C Eo Ed. constructor; rewrite ?Ed; try done; try apply C.
  - destruct C as [Ei Ef Edr Emf Eb Efl]. destruct z_inv0. unfold with_map in *. simpl in *.
    constructor; simpl; rewrite ?Ed, ?Eo, ?Ei, ?Ef, ?Edr; try done.
    + constructor.
    + intros a Ha. by apply not_elem_of_nil in Ha.
    + intros a i [Ha _]. simpl in Ha. rewrite Eo in Ha. by apply not_elem_of_nil in Ha.
    + intros a b i j [Ha _]. simpl in Ha. rewrite Eo in Ha. by apply not_elem_of_nil in Ha.
    + intros a i [Ha _]. simpl in Ha. rewrite Eo in Ha. by apply not_elem_of_nil in Ha.
    + intros a [[x Hx]|[[x Hx]|[x Hx]]]; by rewrite lookup_empty in Hx.
    + by left.
  - intros sec. rewrite z_data0. unfold user_data. by rewrite Ed.
Qed.

(** ** [free_map_init] *)

Definition junk_ok (junk : list Z) (n : Z) : Prop :=
  Z.of_nat (length junk) = elem_cnt n /\ Forall (fun w => 0 <= w < 2 ^ 32) junk.

Lemma free_map_init_ok t junk :
  2 <= b_size (fs_device t) <= 2 ^ 31 -> junk_ok junk (b_size (fs_device t)) -> 0 < brk t -> fails t = [] ->
  exists b, free_map_init junk t = Ok (tt, set_free_map b (set_mem (brk t + 2) [] t)) /\
    bitmap_ok b /\ bit_cnt b = b_size (fs_device t) /\ length (bits b) = length junk /\
    forall k, 0 <= k < b_size (fs_device t) -> bit b k = bool_decide (k = 0) || bool_decide (k = 1).
Proof.
  intros Hn [Hj Hw] Hb Hf. unfold free_map_init. bind_by reflexivity.
  bind_by (unfold malloc; rewrite Hf; reflexivity). rewrite (proj2 (Z.eqb_neq (brk t) NULL)) by (unfold NULL; lia).
  bind_by (unfold malloc; simpl; reflexivity). cbn [negb]. rewrite (proj2 (Z.eqb_neq (brk t + 1) NULL)) by (unfold NULL; lia).
  destruct (bitmap_create_ok (fun _ => Some junk) (b_size (fs_device t)) junk) as (b0 & E0 & Hb0 & Hc0 & Hl0 & Hz); [lia|done|lia|done|].
  destruct (bitmap_mark_ok b0 FREE_MAP_SECTOR) as (b1 & E1 & Hb1 & Hc1 & Hl1 & Hz1); [done|unfold FREE_MAP_SECTOR; lia|].
  destruct (bitmap_mark_ok b1 ROOT_DIR_SECTOR) as (b2 & E2 & Hb2 & Hc2 & Hl2 & Hz2); [done|unfold ROOT_DIR_SECTOR; lia|].
  bind_by (unfold block_size; rewrite E0; reflexivity). cbv beta iota. bind_by (rewrite E1; reflexivity).
  bind_by (rewrite E2; reflexivity). exists b2. split.
  { unfold modify. do 3 f_equal. unfold set_mem. simpl. f_equal. lia. }
  split; [done|]. split; [congruence|]. split; [congruence|]. intros k Hk.
  rewrite Hz2, Hz1, Hz by lia. rewrite orb_false_r. apply orb_comm.
Qed.
(** ** Mounting *)

Lemma mount_ok t live B A t' junk :
  dormant t live B A -> cold t' -> junk_ok junk (b_size (fs_device t)) ->
  exists s, filesys_init (Some (fs_device t)) false junk t' = Ok (tt, s) /\ refines s A.
Proof.
  intros Zd Hcold Hjunk. pose proof (z_inv _ _ _ _ Zd) as V. pose proof (v_size _ _ _ V) as Hz.
  pose proof (v_small _ _ _ V) as Hs. pose proof (v_len _ _ _ V) as Hlen. simpl in Hz, Hs, Hlen.
  assert (1 < b_size (fs_device t)) as H1.
  { destruct (z_root _ _ _ _ Zd) as (d & Hd & _). apply (v_live _ _ _ V _ _ Hd). }
  set (t1 := set_open_inodes [] (set_device (fs_device t) t')).
  destruct Hcold as [Ei Ef Ed Emf Eb Efl].
  destruct (free_map_init_ok t1 junk) as (b & E & Hb & Hc & Hl & _); [simpl; lia|done|done|done|].
  set (t2 := set_free_map b _) in E.
  destruct (free_map_open_ok t2 live B A) as (s & E2 & HR & _).
  { apply (dormant_device t); [done| |done|done]. by constructor; simpl; try lia. }
  { simpl. rewrite Hc, Hz. done. } { simpl. rewrite Hl. destruct Hjunk as [Hj _]. rewrite Hz in Hlen. lia. } { lia. }
  exists s. split; [|done]. unfold filesys_init. bind_by reflexivity. bind_by reflexivity.
  bind_by (exact E). bind_by reflexivity. exact E2.
Qed.

(** ** Formatting *)

Definition empty_afs : afs := mk_afs ∅ ∅ ∅.

Lemma blank_root n : dir_rep (replicate n 0) ∅.
Proof.
  assert (Hno : forall k nm sec, ~ slot (replicate n 0) k nm sec).
  { intros k nm sec (_ & Hu & _). unfold in_use in Hu. rewrite nth_lookup, entry_lookup, decide_True in Hu by lia.
    destruct (replicate n 0 !! (20 * k + 19)%nat) as [x|] eqn:E; [|done]. apply lookup_replicate in E as [-> _]. done. }
  constructor.
  - intros k nm sec Hs. by destruct (Hno k nm sec).
  - intros k1 k2 nm s1 s2 Hs. by destruct (Hno k1 nm s1).
  - intros nm sec. rewrite lookup_empty. split; [done|]. intros [k Hk]. by destruct (Hno k nm sec).
Qed.

Lemma map_sectors n : 4 <= n <= 2 ^ 31 -> 1 <= bytes_to_sectors (byte_cnt n) <= n - 3 /\ 0 <= byte_cnt n < 2 ^ 31 - 511.
Proof.
  intros Hn. destruct (byte_cnt_val n) as [E Hr]; [lia|]. rewrite E.
  rewrite bytes_to_sectors_val by lia. split; [|lia]. Z.to_euclidean_division_equations. lia.
Qed.

(** The state [filesys_init] gives to [do_format]. *)
Lemma blank_inv t b :
  block_ok (fs_device t) -> b_size (fs_device t) <= 2 ^ 31 -> open_inodes t = [] -> cold t ->
  bitmap_ok b -> Z.of_nat (length (bits b)) = elem_cnt (bit_cnt b) -> bit_cnt b = b_size (fs_device t) ->
  fs_inv (set_free_map b t) ∅ nobody.
Proof.
  intros Hb Hn Eo [Ei Ef Ed Emf Ebr Efl] Hok Hlen Hc.
  constructor; simpl; rewrite ?Eo, ?Ei, ?Ef, ?Ed; try done.
  - constructor.
  - intros a Ha. by apply not_elem_of_nil in Ha.
  - intros a i [Ha _]. simpl in Ha. rewrite Eo in Ha. by apply not_elem_of_nil in Ha.
  - intros a c i j [Ha _]. simpl in Ha. rewrite Eo in Ha. by apply not_elem_of_nil in Ha.
  - intros a i [Ha _]. simpl in Ha. rewrite Eo in Ha. by apply not_elem_of_nil in Ha.
  - intros a [[x Hx]|[[x Hx]|[x Hx]]]; by rewrite lookup_empty in Hx.
  - by left.
Qed.
(** [free_map_create] on a blank device with room. *)
Lemma free_map_create_ok t :
  fs_inv t ∅ nobody -> files t = ∅ -> dirs t = ∅ -> 4 <= b_size (fs_device t) ->
  (forall k, 0 <= k < b_size (fs_device t) -> bit (free_map t) k = bool_decide (k = 0) || bool_decide (k = 1)) ->
  exists a i f s d0, let fl := mk_file a 0 false in let live := {[FREE_MAP_SECTOR := d0]} in
    free_map_create t = Ok (tt, s) /\ free_map_file s = f /\ f <> NULL /\ files s = {[f := fl]} /\ dirs s = ∅ /\
    opn s a i /\ removed i = false /\ i_sector i = FREE_MAP_SECTOR /\ deny_write_cnt i = 0 /\ i_data i = d0 /\
    fs_inv s live (mk_own [] {[f := fl]} ∅) /\ map_file_ok s /\ saved s live /\
    d_length d0 = byte_cnt (bit_cnt (free_map s)) /\ bit_cnt (free_map s) = b_size (fs_device t) /\
    ~ data_sector d0 1 /\ bit (free_map s) 1 = true /\ exists k, 0 <= k /\ group (free_map s) k 1 false.
Proof.
  intros V Ef Ed Hn Hbits. pose proof (v_size _ _ _ V) as Hz. pose proof (v_small _ _ _ V) as Hs.
  set (n := b_size (fs_device t)) in *. destruct (map_sectors n) as [Hk Hlen]; [lia|]. set (k := bytes_to_sectors (byte_cnt n)) in *.
  unfold free_map_create. bind_by reflexivity. unfold bitmap_file_size. rewrite Hz, s32_small by lia.
  destruct (inode_create_ok t ∅ nobody FREE_MAP_SECTOR (byte_cnt n) V) as (ok & s1 & E1 & St & _ & Hok); [|lia|].
  { split; [unfold FREE_MAP_SECTOR; lia|]. split; [apply Hbits; unfold FREE_MAP_SECTOR; lia|done]. }
  bind_by (exact E1). destruct ok.
  2: { destruct Hok as (_ & _ & _ & Hno). exfalso. apply (Hno 2); [lia|]. fold k. split; [lia|].
       intros j Hj. rewrite Hbits by lia. rewrite !bool_decide_false by lia. done. }
  destruct Hok as (d0 & V1 & El0 & _ & _ & Hwas & Hnow). cbn [negb]. rewrite insert_empty in V1.
  set (live := {[FREE_MAP_SECTOR := d0]} : gmap Z inode_disk) in *.
  destruct (st_like _ _ St) as (_ & _ & _ & Hsz). pose proof (st_cnt _ _ St) as Hcnt.
  destruct (open_map_file s1 live d0) as (a & i & f & s2 & s3 & E3 & Hf & Ha & Efs & Eds & Hi & Ei & Honly & Hrm & Es & Hdn & Em3 & L3 & S3 & V3 & Hmap);
    [done|by rewrite (st_files _ _ St)|by rewrite (st_dirs _ _ St)|apply lookup_singleton_eq|congruence|].
  destruct (E3 (free_map s1) (free_map_file s1)) as [Ea Eb].
  assert (with_map (free_map s1) (free_map_file s1) s1 = s1) as Ew by (by destruct s1). rewrite Ew in Ea.
  bind_by (exact Ea). bind_by (exact Eb). bind_by reflexivity. rewrite (proj2 (Z.eqb_neq f NULL) Hf).
  set (fl := mk_file a 0 false) in *. set (s4 := set_free_map_file f s3) in *.
  assert (set_free_map_file f (with_map (free_map s1) (free_map_file s1) s3) = s4) as ->.
  { unfold s4, with_map. rewrite <- Em3. by destruct s3. }
  destruct (write_free_map_ok s4 live _ V3 Hmap) as (d1 & s5 & Hd1 & E5 & V5 & C5 & L5 & O5 & W5).
  bind_by (exact E5). assert (d1 = d0) as -> by (apply lookup_singleton_Some in Hd1 as [_ ?]; done).
  exists a, i, f, s5, d0. rewrite (calm_map _ _ C5). change (free_map s4) with (free_map s3). rewrite Em3.
  assert (Hdat : forall x, data_sector d0 x -> 2 <= x < n /\ d_start d0 + k <= n /\ 2 <= d_start d0).
  { assert (Hrange : forall x, data_sector d0 x -> 2 <= x < n).
    { intros x Hx. pose proof (data_sector_range _ d0 x (li_extent _ _ _ (v_live _ _ _ V1 _ _ (lookup_singleton_eq _ _))) Hx) as Hr.
      pose proof (Hwas x Hx) as Hb. rewrite Hbits in Hb by lia. apply orb_false_iff in Hb as [B0 B1].
      apply bool_decide_eq_false in B0, B1. lia. }
    intros x Hx. split; [by apply Hrange|]. unfold data_sector in Hrange. rewrite El0 in Hrange. fold k in Hrange.
    pose proof (Hrange (d_start d0) ltac:(lia)). pose proof (Hrange (d_start d0 + k - 1) ltac:(lia)). lia. }
  destruct (Hdat (d_start d0)) as (_ & Hend & Hst); [unfold data_sector; rewrite El0; fold k; lia|].
  split; [done|]. split; [apply C5|]. split; [done|]. split; [by rewrite (calm_files _ _ C5)|].
  split; [by rewrite (calm_dirs _ _ C5)|]. split; [by apply (calm_opn s4 s5)|]. do 4 (split; [done|]).
  split; [done|]. split; [by eapply map_file_calm|].
  split; [eapply saved_now; [exact V5|done|]; by rewrite (calm_map _ _ C5)|]. split; [congruence|]. split; [congruence|].
  split; [intros Hx%Hdat; lia|]. split; [rewrite Hnow, Hbits by lia; apply orb_true_r|].
  exists (if decide (d_start d0 = 2) then 2 + k else 2). split; [case_decide; lia|].
  split; [rewrite Hcnt, Hz; case_decide; lia|]. intros j Hj. rewrite Hnow by (case_decide; lia).
  rewrite Hbits by (case_decide; lia). rewrite !bool_decide_false; [done|case_decide; lia..|].
  unfold data_sector. rewrite El0. fold k. case_decide; lia.
Qed.

Lemma format_ok t :
  fs_inv t ∅ nobody -> files t = ∅ -> dirs t = ∅ -> 4 <= b_size (fs_device t) ->
  (forall k, 0 <= k < b_size (fs_device t) -> bit (free_map t) k = bool_decide (k = 0) || bool_decide (k = 1)) ->
  exists s live, do_format t = Ok (tt, s) /\ dormant s live (free_map s) empty_afs.
Proof.
  intros V Ef Ed Hn Hbits.
  destruct (free_map_create_ok t V Ef Ed Hn Hbits) as
    (a & i & f & s & d0 & E & Emf & Hf & Efs & Eds & Hi & Hrm & Es & Hdn & Ei & Vs & Hmap & Hsv & Hlen & Hcnt & Hnd & Hb1 & kfree & Hk0 & Hkf).
  set (live := {[FREE_MAP_SECTOR := d0]} : gmap Z inode_disk) in *. set (fl := mk_file a 0 false) in *.
  unfold do_format. bind_by (exact E). unfold dir_create.
  change (s32 (u32 (16 * ENTRY_SIZE))) with 320.
  destruct (inode_create_ok s live _ ROOT_DIR_SECTOR 320 Vs) as (ok & s1 & E1 & St & Hc & Hok); [|lia|].
  { pose proof (v_size _ _ _ Vs). split; [unfold ROOT_DIR_SECTOR; lia|]. split; [done|].
    intros n d [<- <-]%lookup_singleton_Some [?|?]; done. }
  bind_by (exact E1). destruct ok; [|destruct Hok as (_ & _ & _ & Hno); by destruct (Hno kfree Hk0)].
  destruct Hok as (dr & V1 & Elr & Hzero & Hsv1 & _ & _). cbn [negb]. specialize (Hsv1 Hsv).
  set (live1 := <[ROOT_DIR_SECTOR := dr]> live) in *.
  assert (Emf1 : free_map_file s1 = f) by (by rewrite (st_map_file _ _ St)).
  destruct (close_map_file s1 live1 fl i) as (s2 & E2 & V2 & Ef2 & Ed2 & Em2 & L2 & Hsec); rewrite ?Emf1; try done.
  { by rewrite (st_files _ _ St). } { by apply (steady_opn s s1). }
  exists s2, live1. split; [unfold free_map_close; bind_by reflexivity; by rewrite E2|].
  assert (Hroot : live1 !! ROOT_DIR_SECTOR = Some dr) by apply lookup_insert_eq.
  assert (Hm0 : live1 !! FREE_MAP_SECTOR = Some d0) by (unfold live1; rewrite lookup_insert_ne by done; apply lookup_singleton_eq).
  constructor; try done.
  - by rewrite Em2.
  - by rewrite Ed2, (st_dirs _ _ St).
  - destruct (Hsv1 ltac:(congruence) d0 Hm0) as (m & Hm & Hcm). exists d0, m. rewrite Em2, (st_cnt _ _ St).
    split; [done|]. split; [done|]. split; [done|]. rewrite <- Hcm. by apply same_bytes.
  - exists dr. split; [done|]. simpl. unfold contents. rewrite (same_bytes (fs_device s1)) by done.
    fold (contents (fs_device s1) dr). rewrite Hzero. apply blank_root.
  - intros sec. unfold user_data, empty_afs. cbn [a_data]. rewrite lookup_empty. case_decide as Hs; [done|]. unfold live1, live.
    rewrite lookup_insert_ne by (intros <-; apply Hs; by right). rewrite lookup_singleton_ne; [done|].
    intros <-. apply Hs. by left.
Qed.

Lemma filesys_format_ok b t junk :
  block_ok b -> 4 <= b_size b <= 2 ^ 31 -> cold t -> junk_ok junk (b_size b) ->
  exists s, filesys_init (Some b) true junk t = Ok (tt, s) /\ refines s empty_afs.
Proof.
  intros Hb Hn Hcold Hjunk. set (t1 := set_open_inodes [] (set_device b t)).
  assert (cold t1) as Hc1 by (destruct Hcold; by constructor).
  destruct (free_map_init_ok t1 junk) as (m & E & Hm & Hcnt & Hl & Hbits); [simpl; lia|done|apply Hc1|apply Hc1|].
  simpl in Hcnt, Hbits. set (t2 := set_mem (brk t1 + 2) [] t1) in *.
  assert (cold t2) as Hc2 by (destruct Hc1; constructor; simpl; try done; simpl in *; lia).
  destruct (format_ok (set_free_map m t2)) as (s & live & E2 & Zd); simpl; try apply Hc2; try done; [|lia|].
  { apply blank_inv; try done; [simpl; lia|]. destruct Hjunk as [Hj _]. rewrite Hl, Hcnt. done. }
  destruct (free_map_open_ok s live (free_map s) empty_afs Zd) as (s' & E3 & HR & _); [done|done| |].
  { pose proof (v_size _ _ _ (z_inv _ _ _ _ Zd)) as Hz. simpl in Hz. rewrite Hz.
    destruct (z_root _ _ _ _ Zd) as (d & Hd & _). pose proof (li_sec _ _ _ (v_live _ _ _ (z_inv _ _ _ _ Zd) _ _ Hd)) as Hr.
    simpl in Hr. lia. }
  exists s'. split; [|done]. unfold filesys_init. bind_by reflexivity. bind_by reflexivity.
  bind_by (exact E). bind_by (exact E2). exact E3.
Qed.
End Mount.
