(* ===== verification/FsProps.v ===== *)
(** * The file system: main theorems

    Refinement of the abstract file system by every call, formatting, and
    mounting again; and runs in which the calls do not do what they should. *)

From S2P Require Import Prelude Bitmap Block FsState Inode FreeMap File Directory FsInv FsFiles FsDir FsSpec FsOps FsNames FsMount.

(** A blank disk of 16 sectors, and the file system on it after formatting. *)
Definition blank_disk : block ram_disk := mk_block "hda1" BLOCK_FILESYS 16 (replicate 16 (replicate 512 0)) 0 0.
Definition powered_on : fs ram_disk := mk_fs blank_disk (mk_bitmap 0 []) NULL ∅ [] ∅ ∅ 1 [].
Definition state_of {A D} (r : res (A * fs D)) (s0 : fs D) : fs D := match r with Ok (_, s) => s | Err _ => s0 end.
Definition formatted : fs ram_disk := state_of (filesys_init (Some blank_disk) true [7] powered_on) powered_on.
Definition entry_junk : list Z := replicate 20 0.

Definition answer_of {A D} (r : res (A * fs D)) : option A := match r with Ok (a, _) => Some a | Err _ => None end.
Lemma answer_state {A D} (r : res (A * fs D)) s0 a : answer_of r = Some a -> r = Ok (a, state_of r s0).
Proof. destruct r as [[b s]|]; simpl; congruence. Qed.

(** Two runs on it: [filesys_create] of a name that exists, and
    [filesys_create] with two allocations that fail. *)
Definition first_file : fs ram_disk := state_of (run (Create [97] 0 entry_junk) formatted) formatted.
Definition second_try : fs ram_disk := state_of (run (Create [97] 600 entry_junk) first_file) formatted.
Definition short_of_memory : fs ram_disk :=
  set_mem (brk first_file) [false; false; false; false; false; true; true; false] first_file.
Definition overwritten : fs ram_disk := state_of (run (Create [98] 10 entry_junk) short_of_memory) formatted.

Lemma cold_powered_on : cold powered_on.
Proof. by constructor. Qed.
Lemma blank_disk_ok : block_ok blank_disk.
Proof. split; [by repeat constructor|]. done. Qed.
Lemma blank_junk : junk_ok [7] 16.
Proof. split; [done|]. by repeat constructor. Qed.
Lemma formatted_refines : refines formatted empty_afs.
Proof.
  destruct (filesys_format_ok blank_disk powered_on [7] blank_disk_ok) as (s & E & R);
    [done|apply cold_powered_on|apply blank_junk|]. unfold formatted. by rewrite E.
Qed.
Lemma formatted_room : room formatted.
Proof. by vm_compute. Qed.

(** C1: Every call of the file system refines the abstract file system: on a
    state of the kernel that stands for an abstract state, with memory left and
    fewer than 2^31-4 open files, a call on valid arguments returns, its answer
    and the state it leaves are ones the specification of the call allows. *)
Theorem filesys_refines {D} `{BlockLaws D} (s : fs D) (A : afs) (c : call) :
  refines s A -> room s -> call_ok A c ->
  exists r s' A', run c s = Ok (r, s') /\ spec A c r A' /\ refines s' A'.
Proof. apply run_refines. Qed.

Lemma filesys_refines_witness :
  exists r s' A', run (Create [97] 600 entry_junk) formatted = Ok (r, s') /\
    spec empty_afs (Create [97] 600 entry_junk) r A' /\ refines s' A'.
Proof.
  apply (filesys_refines formatted empty_afs (Create [97] 600 entry_junk)).
  - exact formatted_refines.
  - exact formatted_room.
  - split; [by repeat constructor|]. done.
Defined.

(** C10: Formatting a device of at least four sectors leaves an empty file
    system, mounted, whatever the device and the memory of the free map held. *)
Theorem filesys_format {D} `{BlockLaws D} (b : block D) (t : fs D) (junk : list Z) :
  block_ok b -> 4 <= b_size b <= 2 ^ 31 -> cold t -> junk_ok junk (b_size b) ->
  exists s, filesys_init (Some b) true junk t = Ok (tt, s) /\ refines s empty_afs.
Proof. apply filesys_format_ok. Qed.

Lemma filesys_format_witness :
  exists s, filesys_init (Some blank_disk) true [7] powered_on = Ok (tt, s) /\ refines s empty_afs.
Proof.
  apply (filesys_format blank_disk powered_on [7]);
    [exact blank_disk_ok|done|exact cold_powered_on|exact blank_junk].
Defined.

(** C9: What is in the file system survives a shutdown: with every file
    closed, [filesys_done] followed by [filesys_init] without formatting, on
    the device it left and in memory as at boot, gives a state for the same
    names and the same bytes. *)
Theorem filesys_remount {D} `{BlockLaws D} (s : fs D) (A : afs) (t : fs D) (junk : list Z) :
  refines s A -> a_open A = ∅ -> dirs s = ∅ -> cold t -> junk_ok junk (b_size (fs_device s)) ->
  exists s1 s2, filesys_done s = Ok (tt, s1) /\
    filesys_init (Some (fs_device s1)) false junk t = Ok (tt, s2) /\ refines s2 A.
Proof.
  intros R Ho Hd Hc Hj. destruct (filesys_done_ok s A R Ho Hd) as (s1 & live & B & E1 & L & Zd).
  destruct (mount_ok s1 live B A t junk Zd Hc) as (s2 & E2 & R2); [|by exists s1, s2].
  destruct L as (_ & _ & _ & ->). done.
Qed.

Lemma filesys_remount_witness :
  exists s1 s2, filesys_done formatted = Ok (tt, s1) /\
    filesys_init (Some (fs_device s1)) false [9] powered_on = Ok (tt, s2) /\ refines s2 empty_afs.
Proof.
  apply (filesys_remount formatted empty_afs powered_on [9]).
  - exact formatted_refines.
  - reflexivity.
  - by vm_compute.
  - exact cold_powered_on.
  - split; [by vm_compute|by repeat constructor].
Defined.

(** ** Runs that go wrong *)

(** Sectors the free map marks. *)
Definition marked_sectors {D} (s : fs D) : list Z := filter (fun k => bit (free_map s) k = true) (seqZ 0 (bit_cnt (free_map s))).


(** When [malloc] fails for the bounce buffers of the two reads of
    [dir_add], it takes the failed reads for the end of the directory and
    writes over its first entry: creating [b] succeeds, and the existing file
    [a] is gone. *)
Theorem create_overwrites_entry :
  answer_of (run (Open [97]) first_file) <> Some (Number NULL) /\
  run (Create [98] 10 entry_junk) short_of_memory = Ok (Answer true, overwritten) /\
  answer_of (run (Open [97]) overwritten) = Some (Number NULL).
Proof.
  split; [by vm_compute|]. split; [apply answer_state; by vm_compute|by vm_compute].
Qed.

(** C40: On a device with a free sector, [filesys_create] with a negative size
    fails an assertion of [inode_create], that is, the kernel panics. *)
Theorem create_negative_panics {D} `{BlockLaws D} (s : fs D) (A : afs) (name : list Z) (n : Z) (junk : list Z) (k : Z) :
  refines s A -> room s -> n < 0 -> 0 <= k -> group (free_map s) k 1 false ->
  filesys_create name n junk s = Err AssertFailed.
Proof.
  intros [live S] Hroom Hn Hk Hg. unfold room in Hroom.
  destruct (sim_open_root s live _ A S) as (d & a & i & s1 & E1 & Hd & _ & _ & _ & S1 & Em); [lia|].
  destruct (sim_allocate s1 live _ A 1 S1) as (r & s2 & E2 & _ & _ & Ha); [lia|].
  unfold filesys_create. bind_by (exact E1). rewrite (proj2 (Z.eqb_neq _ _) Hd). cbv iota.
  destruct r as [sec|]; [|destruct Ha as [_ Hno]; rewrite Em in Hno; by destruct (Hno k Hk)].
  assert (inode_create sec n s2 = Err AssertFailed) as E3.
  { unfold inode_create, mbind, M_bind. unfold assert. by rewrite (proj2 (Z.leb_gt 0 n)) by lia. }
  unfold mbind, M_bind. by rewrite E2, E3.
Qed.

Lemma create_negative_panics_witness : filesys_create [97] (-1) entry_junk formatted = Err AssertFailed.
Proof.
  apply (create_negative_panics formatted empty_afs [97] (-1) entry_junk 15).
  - exact formatted_refines.
  - exact formatted_room.
  - reflexivity.
  - done.
  - split; [by vm_compute|]. intros j Hj. assert (j = 15) as -> by lia. by vm_compute.
Defined.
