(* ===== verification/FsGrow.v ===== *)
(** * The heap only grows

    Every operation of the file system leaves the break where it is or moves it
    up, so the addresses [malloc] gave before stay taken. *)

From S2P Require Import Prelude Block Bitmap FsState Inode FreeMap File Directory FsSpec.

Section Grow.
Context {D : Type} `{BlockOperations D}.

Definition grows {A} (m : M (fs D) A) : Prop := forall s r s', m s = Ok (r, s') -> brk s <= brk s'.

Lemma grows_bind {A B} (m : M (fs D) A) (k : A -> M (fs D) B) : grows m -> (forall a, grows (k a)) -> grows (m ≫= k).
Proof.
  intros Hm Hk s r s' E. apply M_bind_ok in E as (a & s1 & E1 & E2). specialize (Hm _ _ _ E1). specialize (Hk _ _ _ _ E2). lia.
Qed.
Lemma grows_ret {A} (a : A) : grows (mret a).
Proof. by intros s r s' [= _ ->]. Qed.
Lemma grows_get : grows get.
Proof. by intros s r s' [= _ ->]. Qed.
Lemma grows_modify f : (forall s, brk (f s) = brk s) -> grows (modify f).
Proof. intros Hf s r s' [= _ <-]. by rewrite Hf. Qed.
Lemma grows_fail {A} e : grows (A := A) (fail e).
Proof. by intros s r s'. Qed.
Lemma grows_lift {A} (x : res A) : grows (lift x).
Proof. intros s r s'. unfold lift. destruct x; [by intros [= _ ->]|done]. Qed.
Lemma grows_malloc : grows malloc.
Proof. intros s r s'. unfold malloc. destruct (fails s) as [|[] l]; intros [= _ <-]; simpl; lia. Qed.
Lemma grows_on_device {A} (m : M (block D) A) : grows (on_device m).
Proof. intros s r s'. unfold on_device. destruct (m (fs_device s)) as [[a b]|]; [by intros [= _ <-]|done]. Qed.
Lemma grows_get_inode a : grows (get_inode a).
Proof. intros s r s'. unfold get_inode. destruct (inodes s !! a); [by intros [= _ <-]|done]. Qed.
Lemma grows_get_file a : grows (get_file a).
Proof. intros s r s'. unfold get_file. destruct (files s !! a); [by intros [= _ <-]|done]. Qed.
Lemma grows_get_dir a : grows (get_dir a).
Proof. intros s r s'. unfold get_dir. destruct (dirs s !! a); [by intros [= _ <-]|done]. Qed.

Create HintDb grows.
Hint Resolve grows_ret grows_get grows_fail grows_lift grows_malloc grows_on_device grows_get_inode grows_get_file grows_get_dir : grows.

(** Statement by statement. *)
Ltac grow :=
  repeat match goal with
    | |- grows (_ ≫= _) => apply grows_bind; [|intros ?]
    | |- grows (modify _) => apply grows_modify; reflexivity
    | |- grows (put_inode _ _) => apply grows_modify; reflexivity
    | |- grows (put_file _ _) => apply grows_modify; reflexivity
    | |- grows (put_dir _ _) => apply grows_modify; reflexivity
    | |- grows (assert _) => apply grows_lift
    | |- grows (let '(_, _) := ?x in _) => destruct x
    | |- grows (let _ := _ in _) => cbv zeta
    | |- grows (if ?b then _ else _) => destruct b
    | |- grows (match ?x with _ => _ end) => destruct x
    | |- grows _ => solve [auto with grows]
    end.

Lemma grows_reopen a : grows (inode_reopen a).
Proof. unfold inode_reopen. grow. Qed.
Hint Resolve grows_reopen : grows.
Lemma grows_inode_open sec : grows (inode_open sec).
Proof. unfold inode_open. grow. Qed.
Lemma grows_inumber a : grows (inode_get_inumber a).
Proof. unfold inode_get_inumber. grow. Qed.
Lemma grows_inode_remove a : grows (inode_remove a).
Proof. unfold inode_remove. grow. Qed.
Lemma grows_bounce b : grows (need_bounce b).
Proof. unfold need_bounce. grow. Qed.
Hint Resolve grows_inode_open grows_inumber grows_inode_remove grows_bounce : grows.
Lemma grows_read_loop fuel : forall a bounce size offset br got, grows (read_loop fuel a bounce size offset br got).
Proof. induction fuel as [|fuel IH]; intros; cbn [read_loop]; grow. Qed.
Lemma grows_write_loop fuel : forall a buffer bounce size offset bw, grows (write_loop fuel a buffer bounce size offset bw).
Proof. induction fuel as [|fuel IH]; intros; cbn [write_loop]; grow. Qed.
Lemma grows_read_at a size ofs : grows (inode_read_at a size ofs).
Proof. apply grows_read_loop. Qed.
Lemma grows_write_at a buffer size ofs : grows (inode_write_at a buffer size ofs).
Proof. unfold inode_write_at. pose proof grows_write_loop. grow. Qed.
Lemma grows_deny a : grows (inode_deny_write a).
Proof. unfold inode_deny_write. grow. Qed.
Lemma grows_allow a : grows (inode_allow_write a).
Proof. unfold inode_allow_write. grow. Qed.
Hint Resolve grows_read_at grows_write_at grows_deny grows_allow : grows.

Lemma grows_file_write_at f buffer size ofs : grows (file_write_at f buffer size ofs).
Proof. unfold file_write_at. grow. Qed.
Hint Resolve grows_file_write_at : grows.
Lemma grows_write_map : grows write_free_map.
Proof. unfold write_free_map, bitmap_write. grow. Qed.
Hint Resolve grows_write_map : grows.
Lemma grows_allocate cnt : grows (free_map_allocate cnt).
Proof. unfold free_map_allocate. grow. Qed.
Lemma grows_release sec cnt : grows (free_map_release sec cnt).
Proof. unfold free_map_release. grow. Qed.
Lemma grows_zero n : forall sec, grows (zero_sectors n sec).
Proof. induction n as [|n IH]; intros; cbn [zero_sectors]; grow. Qed.
Hint Resolve grows_allocate grows_release grows_zero : grows.
Lemma grows_inode_create sec len : grows (inode_create sec len).
Proof. unfold inode_create. grow. Qed.
Lemma grows_inode_close a : grows (inode_close a).
Proof. unfold inode_close. grow. Qed.
Hint Resolve grows_inode_create grows_inode_close : grows.

Lemma grows_file_open a : grows (file_open a).
Proof. unfold file_open. grow. Qed.
Lemma grows_file_allow f : grows (file_allow_write f).
Proof. unfold file_allow_write. grow. Qed.
Lemma grows_file_deny f : grows (file_deny_write f).
Proof. unfold file_deny_write. grow. Qed.
Hint Resolve grows_file_open grows_file_allow grows_file_deny : grows.
Lemma grows_file_close f : grows (file_close f).
Proof. unfold file_close. grow. Qed.
Lemma grows_file_read f n : grows (file_read f n).
Proof. unfold file_read. grow. Qed.
Lemma grows_file_write f b n : grows (file_write f b n).
Proof. unfold file_write. grow. Qed.
Lemma grows_file_seek f n : grows (file_seek f n).
Proof. unfold file_seek. grow. Qed.
Lemma grows_file_tell f : grows (file_tell f).
Proof. unfold file_tell. grow. Qed.
Lemma grows_file_length f : grows (file_length f).
Proof. unfold file_length. grow. Qed.
Hint Resolve grows_file_close grows_file_read grows_file_write grows_file_seek grows_file_tell grows_file_length : grows.

Lemma grows_dir_open i : grows (dir_open i).
Proof. unfold dir_open. grow. Qed.
Hint Resolve grows_dir_open : grows.
Lemma grows_root : grows dir_open_root.
Proof. unfold dir_open_root. grow. Qed.
Lemma grows_dir_close d : grows (dir_close d).
Proof. unfold dir_close. grow. Qed.
Lemma grows_lookup_loop fuel : forall ino name ofs, grows (lookup_loop fuel ino name ofs).
Proof. induction fuel as [|fuel IH]; intros; cbn [lookup_loop]; grow. Qed.
Lemma grows_slot_loop fuel : forall ino ofs e, grows (free_slot_loop fuel ino ofs e).
Proof. induction fuel as [|fuel IH]; intros; cbn [free_slot_loop]; grow. Qed.
Hint Resolve grows_root grows_dir_close grows_lookup_loop grows_slot_loop : grows.
Lemma grows_lookup_entry d name : grows (lookup_entry d name).
Proof. unfold lookup_entry. grow. Qed.
Hint Resolve grows_lookup_entry : grows.
Lemma grows_dir_lookup d name : grows (dir_lookup d name).
Proof. unfold dir_lookup. grow. Qed.
Lemma grows_dir_add d name sec junk : grows (dir_add d name sec junk).
Proof. unfold dir_add. grow. Qed.
Lemma grows_dir_remove d name : grows (dir_remove d name).
Proof. unfold dir_remove. grow. Qed.
Hint Resolve grows_dir_lookup grows_dir_add grows_dir_remove : grows.

(** The calls of the file system. *)
Lemma grows_run c : grows (run c).
Proof.
  destruct c; cbn [run]; unfold filesys_create, filesys_open, filesys_remove; grow.
Qed.
End Grow.
