(* ===== verification/Palloc.v ===== *)
(** * The page allocator: [threads/palloc.c]

    Memory is the content of the physical pages, by their kernel virtual
    addresses.  Two pools hand out pages, each with a bitmap of its pages.  The
    locks of the pools only surround one call of the bitmap each, and are not
    part of the model; the memory of the bitmaps themselves lies before the
    pools. *)

From S2P Require Import Prelude Bitmap Vaddr.

Definition PAL_ASSERT : Z := 1.
Definition PAL_ZERO : Z := 2.
Definition PAL_USER : Z := 4.
Definition flag (flags f : Z) : bool := negb (Z.land flags f =? 0).

Record pool := mk_pool { used_map : bitmap; base : Z }.

(** The pools, the content of memory, and the variables of [init.c] and the
    CPU register that page directories use. *)
Record machine := mk_machine {
  kernel_pool : pool;
  user_pool : pool;
  memory : gmap Z (list Z);
  init_page_dir : Z;
  init_ram_pages : Z;
  cr3 : Z;
}.

Definition set_kernel_pool p s := mk_machine p (user_pool s) (memory s) (init_page_dir s) (init_ram_pages s) (cr3 s).
Definition set_user_pool p s := mk_machine (kernel_pool s) p (memory s) (init_page_dir s) (init_ram_pages s) (cr3 s).
Definition set_memory m s := mk_machine (kernel_pool s) (user_pool s) m (init_page_dir s) (init_ram_pages s) (cr3 s).
Definition set_cr3 x s := mk_machine (kernel_pool s) (user_pool s) (memory s) (init_page_dir s) (init_ram_pages s) x.
Definition get_pool (user : bool) s := if user then user_pool s else kernel_pool s.
Definition set_pool (user : bool) p s := if user then set_user_pool p s else set_kernel_pool p s.

(** [memset (page, b, n * PGSIZE)] *)
Fixpoint fill_pages (n : nat) (page b : Z) (m : gmap Z (list Z)) : gmap Z (list Z) :=
  match n with
  | O => m
  | S n => fill_pages n (page + PGSIZE) b (<[page := replicate 4096 b]> m)
  end.

(** [buf] is the content of the memory the bitmap is put in. *)
Definition init_pool (base page_cnt : Z) (buf : list Z) : res pool :=
  let bm_pages := DIV_ROUND_UP (bitmap_buf_size page_cnt) PGSIZE in
  if page_cnt <? bm_pages then Err (Panicked "Not enough memory in %s for bitmap.")
  else
    let page_cnt := page_cnt - bm_pages in
    b ← bitmap_create_in_buf page_cnt buf (bm_pages * PGSIZE);
    mret (mk_pool b (u32 (base + bm_pages * PGSIZE))).

Definition palloc_init (user_page_limit : Z) (kbuf ubuf : list Z) : M machine unit :=
  s ← get;
  free_start ← lift (ptov (1024 * 1024));
  free_end ← lift (ptov (u32 (init_ram_pages s * PGSIZE)));
  let free_pages := (free_end - free_start) / PGSIZE in
  let user_pages := free_pages / 2 in
  let user_pages := if user_page_limit <? user_pages then user_page_limit else user_pages in
  let kernel_pages := free_pages - user_pages in
  k ← lift (init_pool free_start kernel_pages kbuf);
  u ← lift (init_pool (u32 (free_start + kernel_pages * PGSIZE)) user_pages ubuf);
  modify (fun s => set_user_pool u (set_kernel_pool k s)).

Definition palloc_get_multiple (flags page_cnt : Z) : M machine Z :=
  if page_cnt =? 0 then mret NULL
  else
    s ← get;
    let user := flag flags PAL_USER in
    let pool := get_pool user s in
    r ← lift (bitmap_scan_and_flip (used_map pool) 0 page_cnt false);
    _ ← modify (set_pool user (mk_pool r.2 (base pool)));
    let pages := if negb (r.1 =? BITMAP_ERROR) then u32 (base pool + PGSIZE * r.1) else NULL in
    if negb (pages =? NULL) then
      _ ← (if flag flags PAL_ZERO then modify (fun s => set_memory (fill_pages (Z.to_nat page_cnt) pages 0 (memory s)) s)
           else mret tt);
      mret pages
    else if flag flags PAL_ASSERT then fail (Panicked "palloc_get: out of pages")
    else mret pages.

Definition palloc_get_page (flags : Z) : M machine Z := palloc_get_multiple flags 1.

Definition page_from_pool (p : pool) (page : Z) : bool :=
  let page_no := pg_no page in
  let start_page := pg_no (base p) in
  let end_page := start_page + bitmap_size (used_map p) in
  (start_page <=? page_no) && (page_no <? end_page).

Definition palloc_free_multiple (pages page_cnt : Z) : M machine unit :=
  _ ← assert (pg_ofs pages =? 0);
  if (pages =? NULL) || (page_cnt =? 0) then mret tt
  else
    s ← get;
    user ← (if page_from_pool (kernel_pool s) pages then mret false
            else if page_from_pool (user_pool s) pages then mret true
            else fail (Panicked "executed an unreachable statement"));
    let pool := get_pool user s in
    let page_idx := u32 (pg_no pages - pg_no (base pool)) in
    _ ← modify (fun s => set_memory (fill_pages (Z.to_nat page_cnt) pages 0xcc (memory s)) s);
    all ← lift (bitmap_all (used_map pool) page_idx page_cnt); _ ← assert all;
    b ← lift (bitmap_set_multiple (used_map pool) page_idx page_cnt false);
    modify (set_pool user (mk_pool b (base pool))).

Definition palloc_free_page (page : Z) : M machine unit := palloc_free_multiple page 1.

(** ** Invariant *)

Record pool_ok (p : pool) : Prop := {
  po_map : bitmap_ok (used_map p);
  po_base : base p mod PGSIZE = 0;
  po_low : PHYS_BASE <= base p;
  po_high : base p + PGSIZE * bit_cnt (used_map p) <= 2 ^ 32;
}.

Record machine_ok (s : machine) : Prop := {
  mo_kernel : pool_ok (kernel_pool s);
  mo_user : pool_ok (user_pool s);
  mo_order : base (kernel_pool s) + PGSIZE * bit_cnt (used_map (kernel_pool s)) <= base (user_pool s);
}.

(** [page] is the address of page [i] of the pool. *)
Definition page_at (p : pool) (i : Z) : Z := base p + PGSIZE * i.
(** The page is allocated. *)
Definition used (p : pool) (page : Z) : Prop :=
  exists i, 0 <= i < bit_cnt (used_map p) /\ page = page_at p i /\ bit (used_map p) i = true.

Lemma pool_get s user : machine_ok s -> pool_ok (get_pool user s).
Proof. intros []. by destruct user. Qed.

Lemma pool_set s user p :
  machine_ok s -> pool_ok p -> base p = base (get_pool user s) ->
  bit_cnt (used_map p) = bit_cnt (used_map (get_pool user s)) -> machine_ok (set_pool user p s).
Proof. intros [] Hp Hb Hc. destruct user; simpl in *; constructor; simpl; try done; lia. Qed.

Lemma pool_get_set s user p v : get_pool v (set_pool user p s) = if bool_decide (v = user) then p else get_pool v s.
Proof. by destruct user, v. Qed.

(** Addresses of different pages differ, and the pools do not overlap. *)
Lemma page_at_inj p i j : page_at p i = page_at p j -> i = j.
Proof. unfold page_at, PGSIZE. lia. Qed.

Lemma pools_apart s i j :
  machine_ok s -> 0 <= i < bit_cnt (used_map (kernel_pool s)) -> 0 <= j ->
  page_at (kernel_pool s) i < page_at (user_pool s) j.
Proof. intros [] Hi Hj. unfold page_at, PGSIZE in *. lia. Qed.

Lemma page_range p i : pool_ok p -> 0 <= i < bit_cnt (used_map p) ->
  PHYS_BASE <= page_at p i < 2 ^ 32 /\ page_at p i mod PGSIZE = 0 /\ page_at p i <> NULL.
Proof.
  intros [] Hi. unfold page_at, PGSIZE, PHYS_BASE, NULL in *. split; [lia|]. split; [|lia].
  replace (base p + 4096 * i) with (base p + i * 4096) by lia. by rewrite Z.mod_add by lia.
Qed.

Lemma fill_lookup n : forall page b m q,
  fill_pages n page b m !! q =
    if decide (page <= q < page + PGSIZE * Z.of_nat n /\ (q - page) mod PGSIZE = 0)
    then Some (replicate 4096 b) else m !! q.
Proof.
  unfold PGSIZE. induction n as [|n IH]; intros page b m q; cbn [fill_pages].
  - rewrite decide_False; [done|]. lia.
  - rewrite IH. unfold PGSIZE. destruct (decide (q = page)) as [->|Hne].
    + rewrite decide_False, lookup_insert_eq, decide_True; [done| |lia].
      rewrite Z.sub_diag. split; [lia|done].
    + rewrite lookup_insert_ne by done.
      assert ((q - (page + 4096)) mod 4096 = (q - page) mod 4096) as ->.
      { replace (q - (page + 4096)) with (q - page + -1 * 4096) by lia. by rewrite Z.mod_add by lia. }
      apply decide_ext. split; [intros [? ?]; split; [lia|done]|]. intros [? Hm]. split; [|done].
      pose proof (Z.div_mod (q - page) 4096 ltac:(lia)). lia.
Qed.

(** ** What the operations do *)

(** Pages [page .. page + cnt * PGSIZE] of the pool become allocated, and zero
    if asked for; nothing else changes. *)
Record got (s s' : machine) (user zero : bool) (cnt page : Z) : Prop := {
  gt_ok : machine_ok s';
  gt_page : exists i, 0 <= i /\ i + cnt <= bit_cnt (used_map (get_pool user s)) /\ page = page_at (get_pool user s) i;
  gt_base : forall v, base (get_pool v s') = base (get_pool v s);
  gt_cnt : forall v, bit_cnt (used_map (get_pool v s')) = bit_cnt (used_map (get_pool v s));
  gt_free : forall q, page <= q < page + PGSIZE * cnt -> ~ used (get_pool user s) q;
  gt_used : forall q, used (get_pool user s') q <->
    used (get_pool user s) q \/ page <= q < page + PGSIZE * cnt /\ (q - page) mod PGSIZE = 0;
  gt_other : get_pool (negb user) s' = get_pool (negb user) s;
  gt_memory : memory s' = if zero then fill_pages (Z.to_nat cnt) page 0 (memory s) else memory s;
  gt_pd : init_page_dir s' = init_page_dir s /\ init_ram_pages s' = init_ram_pages s /\ cr3 s' = cr3 s;
}.

Lemma used_alloc p b i cnt q :
  pool_ok p -> 0 <= i -> i + cnt <= bit_cnt (used_map p) -> bit_cnt b = bit_cnt (used_map p) ->
  (forall k, 0 <= k -> bit b k = if in_range i cnt k then true else bit (used_map p) k) ->
  used (mk_pool b (base p)) q <->
    used p q \/ page_at p i <= q < page_at p i + PGSIZE * cnt /\ (q - page_at p i) mod PGSIZE = 0.
Proof.
  intros Hp Hi Hc Hb Hbit. unfold used, page_at, PGSIZE, in_range in *. simpl. rewrite Hb. split.
  - intros (k & Hk & -> & Hu). rewrite Hbit in Hu by lia. destruct ((i <=? k) && (k <? i + cnt)) eqn:E; bool_to_prop.
    + right. split; [lia|]. replace (base p + 4096 * k - (base p + 4096 * i)) with ((k - i) * 4096) by lia.
      by rewrite Z.mod_mul by lia.
    + left. by exists k.
  - intros [(k & Hk & -> & Hu)|[Hq Hm]].
    + exists k. split; [done|]. split; [done|]. rewrite Hbit by lia. by destruct (_ && _).
    + pose proof (Z.div_mod (q - (base p + 4096 * i)) 4096 ltac:(lia)) as Hd. rewrite Hm in Hd.
      set (k := (q - (base p + 4096 * i)) / 4096) in *. exists (i + k). split; [lia|]. split; [lia|].
      rewrite Hbit by lia. by rewrite (proj2 (Z.leb_le _ _)), (proj2 (Z.ltb_lt _ _)) by lia.
Qed.

Lemma palloc_get_ok s flags cnt :
  let user := flag flags PAL_USER in
  machine_ok s -> 0 < cnt ->
  (exists page s', palloc_get_multiple flags cnt s = Ok (page, s') /\ page <> NULL /\
     got s s' user (flag flags PAL_ZERO) cnt page) \/
  ((forall j, 0 <= j -> ~ group (used_map (get_pool user s)) j cnt false) /\
   palloc_get_multiple flags cnt s =
     if flag flags PAL_ASSERT then Err (Panicked "palloc_get: out of pages") else Ok (NULL, s)).
Proof.
  intros user Hs Hc. pose proof (pool_get s user Hs) as Hp. set (p := get_pool user s) in *.
  pose proof (po_map _ Hp) as Hm. pose proof (ok_cnt _ Hm).
  destruct (bitmap_scan_and_flip_ok (used_map p) 0 cnt false) as (r & b & E & Hr & Hu); [done|lia|lia|].
  unfold palloc_get_multiple. rewrite (proj2 (Z.eqb_neq cnt 0)) by lia. bind_by reflexivity. fold user p.
  bind_by (rewrite E; reflexivity). bind_by reflexivity. cbn [fst snd].
  destruct Hr as [(Hr0 & Hre & [Hle Hg] & _)|(-> & Hno)].
  - left. rewrite decide_False in Hu by lia. destruct Hu as (Hb & Hcnt & Hlen & Hbit).
    rewrite (proj2 (Z.eqb_neq r _)) by lia. cbn [negb]. fold (page_at p r).
    destruct (page_range p r Hp) as (Hrange & _ & Hnull); [lia|].
    rewrite u32_small, (proj2 (Z.eqb_neq _ _) Hnull) by (unfold page_at, PGSIZE, PHYS_BASE in *; lia). cbn [negb].
    assert (Hp' : pool_ok (mk_pool b (base p))) by (destruct Hp; constructor; simpl; try done; lia).
    assert (Hs' : machine_ok (set_pool user (mk_pool b (base p)) s)) by (by apply pool_set).
    set (s1 := set_pool user (mk_pool b (base p)) s) in *.
    assert (Hg1 : forall z, got s (if z : bool then set_memory (fill_pages (Z.to_nat cnt) (page_at p r) 0 (memory s1)) s1 else s1)
              user z cnt (page_at p r)).
    { intros z. set (s2 := if z then _ else _).
      assert (Ek : forall v, get_pool v s2 = get_pool v s1) by (intros v; unfold s2; by destruct z, v).
      assert (E1 : memory s1 = memory s) by (unfold s1; by destruct user). constructor.
      - unfold s2. destruct z; [|done]. by destruct Hs'.
      - by exists r.
      - intros v. rewrite Ek. unfold s1. rewrite pool_get_set. case_bool_decide; [by subst|done].
      - intros v. rewrite Ek. unfold s1. rewrite pool_get_set. case_bool_decide; [by subst|done].
      - intros q Hq (i & Hi & -> & Hui). rewrite Hg in Hui; [done|]. fold p in Hq. unfold page_at, PGSIZE in *. lia.
      - intros q. rewrite Ek. unfold s1. rewrite pool_get_set, bool_decide_true by done.
        rewrite (used_alloc p b r cnt q); [done|done|done|done|done|]. intros k Hk. by rewrite Hbit.
      - rewrite Ek. unfold s1. rewrite pool_get_set, bool_decide_false by (by destruct user). done.
      - unfold s2. destruct z; simpl; by rewrite ?E1.
      - unfold s2, s1. by destruct z, user. }
    destruct (flag flags PAL_ZERO); bind_by reflexivity; eexists _, _; (split; [reflexivity|]; split; [done|]).
    + exact (Hg1 true).
    + exact (Hg1 false).
  - right. rewrite decide_True in Hu by done. subst b. rewrite Z.eqb_refl. cbn [negb].
    replace (NULL =? NULL) with true by done. cbn [negb]. split; [done|].
    assert (set_pool user (mk_pool (used_map p) (base p)) s = s) as ->.
    { unfold p. destruct user, s as [[] []]; done. }
    by destruct (flag flags PAL_ASSERT).
Qed.

(** Pages given back: they are filled with [0xcc] and free again. *)
Record gave (s s' : machine) (user : bool) (cnt page : Z) : Prop := {
  gv_ok : machine_ok s';
  gv_base : forall v, base (get_pool v s') = base (get_pool v s);
  gv_cnt : forall v, bit_cnt (used_map (get_pool v s')) = bit_cnt (used_map (get_pool v s));
  gv_used : forall q, used (get_pool user s') q <-> used (get_pool user s) q /\ ~ page <= q < page + PGSIZE * cnt;
  gv_other : get_pool (negb user) s' = get_pool (negb user) s;
  gv_memory : memory s' = fill_pages (Z.to_nat cnt) page 0xcc (memory s);
  gv_pd : init_page_dir s' = init_page_dir s /\ init_ram_pages s' = init_ram_pages s /\ cr3 s' = cr3 s;
}.

Lemma pg_no_page p i : pool_ok p -> pg_no (page_at p i) = pg_no (base p) + i.
Proof.
  intros []. rewrite !pg_no_div. unfold page_at.
  replace (base p + PGSIZE * i) with (base p + i * PGSIZE) by lia. apply Z.div_add. done.
Qed.

Lemma from_pool p i :
  pool_ok p -> page_from_pool p (page_at p i) = bool_decide (0 <= i < bit_cnt (used_map p)).
Proof.
  intros Hp. unfold page_from_pool, bitmap_size. rewrite pg_no_page by done.
  apply eq_true_iff_eq. rewrite andb_true_iff, bool_decide_eq_true, Z.leb_le, Z.ltb_lt. lia.
Qed.

Lemma user_not_kernel s i :
  machine_ok s -> 0 <= i -> page_from_pool (kernel_pool s) (page_at (user_pool s) i) = false.
Proof.
  intros Hs Hi. pose proof (mo_kernel _ Hs) as Hk. pose proof (mo_order _ Hs) as Ho.
  unfold page_from_pool, bitmap_size. rewrite (pg_no_page _ i (mo_user _ Hs)), !pg_no_div.
  apply andb_false_iff. right. apply Z.ltb_ge.
  assert (base (kernel_pool s) / PGSIZE + bit_cnt (used_map (kernel_pool s)) <= base (user_pool s) / PGSIZE); [|lia].
  apply Z.div_le_lower_bound; [done|]. pose proof (po_base _ Hk). unfold PGSIZE in *.
  pose proof (Z.div_mod (base (kernel_pool s)) 4096 ltac:(lia)). lia.
Qed.

Lemma palloc_free_ok s user cnt i :
  let p := get_pool user s in
  machine_ok s -> 0 < cnt -> 0 <= i -> i + cnt <= bit_cnt (used_map p) ->
  (forall k, i <= k < i + cnt -> bit (used_map p) k = true) ->
  exists s', palloc_free_multiple (page_at p i) cnt s = Ok (tt, s') /\ gave s s' user cnt (page_at p i).
Proof.
  intros p Hs Hc Hi Hle Hall. pose proof (pool_get s user Hs) as Hp. fold p in Hp. pose proof (po_map _ Hp) as Hm.
  destruct (page_range p i Hp) as (Hrange & Hal & Hnull); [lia|].
  unfold palloc_free_multiple. bind_by (apply assert_run; rewrite pg_ofs_mod, Hal; done).
  rewrite (proj2 (Z.eqb_neq _ _) Hnull), (proj2 (Z.eqb_neq cnt 0)) by lia. cbn [orb]. bind_by reflexivity.
  assert (Epool : (if page_from_pool (kernel_pool s) (page_at p i) then mret false
            else if page_from_pool (user_pool s) (page_at p i) then mret true
            else fail (Panicked "executed an unreachable statement")) s = Ok (user, s)).
  { unfold p. destruct user; simpl.
    - rewrite user_not_kernel by done. rewrite from_pool by apply Hs. by rewrite bool_decide_true by (unfold p in Hle; simpl in Hle; lia).
    - rewrite from_pool by apply Hs. by rewrite bool_decide_true by (unfold p in Hle; simpl in Hle; lia). }
  bind_by (exact Epool). fold p. cbv zeta. rewrite pg_no_page by done.
  pose proof (ok_cnt _ Hm). replace (pg_no (base p) + i - pg_no (base p)) with i by lia. rewrite u32_small by lia.
  destruct (bitmap_all_ok (used_map p) i cnt) as (c & Ea & Hca); [done|lia..|].
  destruct (bitmap_set_multiple_ok (used_map p) i cnt false) as (b & Eb & Hb & Hcnt & Hlen & Hbit); [done|lia..|].
  bind_by reflexivity. bind_by (rewrite Ea; reflexivity). bind_by (apply assert_run, Hca; split; [lia|done]).
  bind_by (rewrite Eb; reflexivity).
  eexists. split; [reflexivity|]. set (s1 := set_memory _ s).
  assert (Hs1 : machine_ok s1) by (by destruct Hs).
  assert (Ek : forall v, get_pool v s1 = get_pool v s) by (by intros []).
  constructor.
  - apply pool_set; [done|destruct Hp; constructor; simpl; try done; lia|by rewrite Ek|by rewrite Ek].
  - intros v. rewrite pool_get_set, Ek. case_bool_decide; [by subst|done].
  - intros v. rewrite pool_get_set, Ek. case_bool_decide; [by subst|done].
  - intros q. rewrite pool_get_set, bool_decide_true by done. unfold used, page_at, PGSIZE, in_range in *. simpl. rewrite Hcnt. split.
    + intros (k & Hk & -> & Hu). rewrite Hbit in Hu by lia. destruct ((i <=? k) && (k <? i + cnt)) eqn:E; [done|].
      split; [by exists k|]. apply andb_false_iff in E as [E|E]; bool_to_prop; lia.
    + intros [(k & Hk & -> & Hu) Hq]. exists k. split; [done|]. split; [done|]. rewrite Hbit by lia.
      fold p in Hq. destruct ((i <=? k) && (k <? i + cnt)) eqn:E; [bool_to_prop; lia|done].
  - rewrite pool_get_set, Ek. by rewrite bool_decide_false by (by destruct user).
  - by destruct user.
  - by destruct user.
Qed.

(** ** Single pages *)

Lemma get_page_ok s flags :
  let user := flag flags PAL_USER in
  machine_ok s -> flag flags PAL_ASSERT = false ->
  (exists page s', palloc_get_page flags s = Ok (page, s') /\ page <> NULL /\ got s s' user (flag flags PAL_ZERO) 1 page) \/
  ((forall j, 0 <= j < bit_cnt (used_map (get_pool user s)) -> bit (used_map (get_pool user s)) j = true) /\
   palloc_get_page flags s = Ok (NULL, s)).
Proof.
  intros user Hs Ha. destruct (palloc_get_ok s flags 1 Hs ltac:(lia)) as [?|[Hno E]]; [by left|right].
  rewrite Ha in E. split; [|done]. intros j Hj. apply not_false_iff_true. intros Hf. apply (Hno j); [lia|].
  split; [fold user; lia|]. intros k Hk. fold user. by assert (k = j) as -> by lia.
Qed.

Lemma free_page_ok s user page :
  machine_ok s -> used (get_pool user s) page ->
  exists s', palloc_free_page page s = Ok (tt, s') /\ gave s s' user 1 page.
Proof.
  intros Hs (i & Hi & -> & Hb). apply palloc_free_ok; [done|lia|lia|lia|].
  intros k Hk. by assert (k = i) as -> by lia.
Qed.

(** ** Theorems *)

(** A machine with four pages in each pool; one user page is taken. *)
Definition demo_machine : machine :=
  mk_machine (mk_pool (mk_bitmap 4 [0]) 0xc0100000) (mk_pool (mk_bitmap 4 [1]) 0xc0200000) ∅ 0 1024 0.
Lemma demo_machine_ok : machine_ok demo_machine.
Proof. constructor; [constructor; try done; constructor; try done; by repeat constructor..|done]. Qed.

(** C22: Pages that [palloc_get_multiple] hands out are contiguous pages of the
    pool that was asked for, were free, and are zero if asked for; every page
    allocated before stays allocated, with its content, and no other page
    becomes allocated. *)
Theorem palloc_get_fresh s flags cnt page s' :
  machine_ok s -> 0 < cnt -> palloc_get_multiple flags cnt s = Ok (page, s') -> page <> NULL ->
  let user := flag flags PAL_USER in
  machine_ok s' /\
  (forall q, page <= q < page + PGSIZE * cnt -> ~ used (kernel_pool s) q /\ ~ used (user_pool s) q) /\
  (forall q, page <= q < page + PGSIZE * cnt -> (q - page) mod PGSIZE = 0 ->
     used (get_pool user s') q /\ (flag flags PAL_ZERO = true -> memory s' !! q = Some (replicate 4096 0))) /\
  (forall v q, used (get_pool v s) q -> used (get_pool v s') q /\ memory s' !! q = memory s !! q) /\
  (forall v q, used (get_pool v s') q -> used (get_pool v s) q \/ v = user /\ page <= q < page + PGSIZE * cnt).
Proof.
  intros Hs Hc E Hn user.
  destruct (palloc_get_ok s flags cnt Hs Hc) as [(page' & s1 & E' & _ & G)|[_ E']]; rewrite E in E'.
  2: { destruct (flag flags PAL_ASSERT); simplify_eq. }
  injection E' as <- <-. fold user in G. destruct G. pose proof (pool_get s user Hs) as Hp.
  destruct gt_page0 as (i & Hi & Hic & ->). set (p := get_pool user s) in *.
  assert (Hpool : forall v q, page_at p i <= q < page_at p i + PGSIZE * cnt -> ~ used (get_pool v s) q).
  { intros v q Hq Hu. destruct (decide (v = user)) as [->|Hv]; [by eapply gt_free0|].
    destruct Hu as (k & Hk & -> & _). pose proof (mo_order _ Hs). unfold p in *.
    destruct user, v; try done; simpl in *; unfold page_at, PGSIZE in *; lia. }
  assert (Hother : forall v, v <> user -> get_pool v s' = get_pool v s).
  { intros v Hv. replace v with (negb user) by (by destruct user, v). done. }
  split; [done|]. split; [intros q Hq; split; [apply (Hpool false q Hq)|apply (Hpool true q Hq)]|]. split; [|split].
  - intros q Hq Hm. split; [apply gt_used0; by right|]. intros Hz. rewrite gt_memory0, Hz, fill_lookup, decide_True; [done|].
    split; [|done]. lia.
  - intros v q Hu. split.
    + destruct (decide (v = user)) as [->|Hv]; [apply gt_used0; by left|by rewrite Hother].
    + rewrite gt_memory0. destruct (flag flags PAL_ZERO); [|done]. rewrite fill_lookup, decide_False; [done|].
      intros [Hq _]. rewrite Z2Nat.id in Hq by lia. by apply (Hpool v q).
  - intros v q Hu. destruct (decide (v = user)) as [->|Hv]; [|rewrite Hother in Hu by done; by left].
    apply gt_used0 in Hu as [?|[? _]]; [by left|by right].
Qed.

Definition demo_machine' : machine :=
  set_memory (fill_pages 2 0xc0201000 0 ∅) (set_user_pool (mk_pool (mk_bitmap 4 [7]) 0xc0200000) demo_machine).
Lemma palloc_get_fresh_witness :
  palloc_get_multiple (PAL_USER + PAL_ZERO) 2 demo_machine = Ok (0xc0201000, demo_machine') /\
  machine_ok demo_machine' /\ memory demo_machine' !! 0xc0202000 = Some (replicate 4096 0).
Proof.
  assert (E : palloc_get_multiple (PAL_USER + PAL_ZERO) 2 demo_machine = Ok (0xc0201000, demo_machine'))
    by (vm_compute; reflexivity).
  split; [exact E|].
  destruct (palloc_get_fresh demo_machine (PAL_USER + PAL_ZERO) 2 0xc0201000 demo_machine' demo_machine_ok eq_refl E ltac:(done))
    as (Hok & _ & Hz & _).
  split; [exact Hok|]. apply (Hz 0xc0202000); [done|reflexivity|reflexivity].
Defined.

(** Allocating pages and freeing them leaves the pools as they were: the
    same pages are allocated, with the same content. *)
Theorem palloc_get_free s flags cnt page s' :
  machine_ok s -> 0 < cnt -> palloc_get_multiple flags cnt s = Ok (page, s') -> page <> NULL ->
  exists s2, palloc_free_multiple page cnt s' = Ok (tt, s2) /\ machine_ok s2 /\
    (forall v q, used (get_pool v s2) q <-> used (get_pool v s) q) /\
    forall v q, used (get_pool v s) q -> memory s2 !! q = memory s !! q.
Proof.
  intros Hs Hc E Hn.
  destruct (palloc_get_ok s flags cnt Hs Hc) as [(page' & s1 & E' & _ & G)|[_ E']]; rewrite E in E'.
  2: { destruct (flag flags PAL_ASSERT); simplify_eq. }
  injection E' as <- <-. set (user := flag flags PAL_USER) in *.
  destruct (gt_page _ _ _ _ _ _ G) as (i & Hi & Hic & ->). set (p := get_pool user s) in *.
  assert (Ep : page_at p i = page_at (get_pool user s') i) by (unfold page_at, p; by rewrite (gt_base _ _ _ _ _ _ G)).
  destruct (palloc_free_ok s' user cnt i (gt_ok _ _ _ _ _ _ G) Hc Hi) as (s2 & E2 & F).
  { by rewrite (gt_cnt _ _ _ _ _ _ G). }
  { intros k Hk. destruct (proj2 (gt_used _ _ _ _ _ _ G (page_at p k))) as (k' & _ & Ek & Hb).
    - right. unfold page_at, PGSIZE. split; [lia|].
      replace (base p + 4096 * k - (base p + 4096 * i)) with ((k - i) * 4096) by lia. by rewrite Z.mod_mul.
    - unfold page_at, p in Ek. rewrite (gt_base _ _ _ _ _ _ G) in Ek. assert (k' = k) as -> by (unfold PGSIZE in Ek; lia). done. }
  rewrite Ep. exists s2. split; [done|]. split; [apply F|].
  assert (Hu : forall v q, used (get_pool v s2) q <-> used (get_pool v s) q).
  { intros v q. destruct (decide (v = user)) as [->|Hv].
    - rewrite (gv_used _ _ _ _ _ F), (gt_used _ _ _ _ _ _ G), <- Ep. fold p. split; [tauto|].
      intros Hq. split; [by left|]. intros Hr. by apply (gt_free _ _ _ _ _ _ G q Hr).
    - replace v with (negb user) by (by destruct user, v). by rewrite (gv_other _ _ _ _ _ F), (gt_other _ _ _ _ _ _ G). }
  split; [done|]. intros v q Hq.
  assert (Hout : ~ page_at p i <= q < page_at p i + PGSIZE * cnt).
  { intros Hr. destruct (decide (v = user)) as [->|Hv]; [by apply (gt_free _ _ _ _ _ _ G q Hr)|].
    destruct Hq as (k & Hk & -> & _). pose proof (mo_order _ Hs). unfold p in *.
    destruct user, v; try done; simpl in *; unfold page_at, PGSIZE in *; lia. }
  rewrite (gv_memory _ _ _ _ _ F), <- Ep, fill_lookup, Z2Nat.id, decide_False by (try lia; tauto).
  rewrite (gt_memory _ _ _ _ _ _ G). destruct (flag flags PAL_ZERO); [|done].
  by rewrite fill_lookup, Z2Nat.id, decide_False by (try lia; tauto).
Qed.

Lemma palloc_get_free_witness :
  palloc_get_multiple (PAL_USER + PAL_ZERO) 2 demo_machine = Ok (0xc0201000, demo_machine') /\
  exists s2, palloc_free_multiple 0xc0201000 2 demo_machine' = Ok (tt, s2) /\ machine_ok s2.
Proof.
  assert (E : palloc_get_multiple (PAL_USER + PAL_ZERO) 2 demo_machine = Ok (0xc0201000, demo_machine'))
    by (vm_compute; reflexivity).
  split; [exact E|].
  destruct (palloc_get_free demo_machine (PAL_USER + PAL_ZERO) 2 0xc0201000 demo_machine' demo_machine_ok eq_refl E ltac:(done))
    as (s2 & E2 & Hok & _).
  exists s2. by split.
Defined.
