(* ===== verification/Pagedir.v ===== *)
(** * Page directories: [userprog/pagedir.c]

    A page directory is a page of 1024 words, the first 768 for user addresses;
    an entry that is not zero points to a page table, a page of 1024 page table
    entries.  Both lie in the memory of [Palloc].  The CPU's register with the
    address of the active directory is [cr3]; its cache of translations is not
    modelled. *)

From S2P Require Import Prelude Bitmap Vaddr Palloc.

(** A word of memory, at an address that is a multiple of four. *)
Definition word_at (s : machine) (a : Z) : option Z :=
  bs ← memory s !! pg_round_down a; Some (elem_of_bytes (take 4 (drop (Z.to_nat (pg_ofs a)) bs))).
Definition load_word (a : Z) : M machine Z := fun s =>
  match word_at s a with Some w => Ok (w, s) | None => Err Trap end.
Definition store_word (a w : Z) : M machine unit := fun s =>
  match memory s !! pg_round_down a with
  | Some bs => Ok (tt, set_memory (<[pg_round_down a := overwrite bs (pg_ofs a) (elem_bytes w)]> (memory s)) s)
  | None => Err Trap
  end.

Definition pagedir_create : M machine Z :=
  pd ← palloc_get_page 0;
  _ ← (if negb (pd =? NULL) then
         s ← get;
         src ← lift (of_option Trap (memory s !! init_page_dir s));
         modify (set_memory (<[pd := src]> (memory s)))
       else mret tt);
  mret pd.

Definition pagedir_activate (pd : Z) : M machine unit :=
  s ← get;
  let pd := if pd =? NULL then init_page_dir s else pd in
  p ← lift (vtop pd);
  modify (set_cr3 p).

Definition active_pd : M machine Z := s ← get; lift (ptov (cr3 s)).

Definition invalidate_pagedir (pd : Z) : M machine unit :=
  a ← active_pd;
  if a =? pd then pagedir_activate pd else mret tt.

(** The address of the page table entry for [vaddr], or a null pointer. *)
Definition lookup_page (pd vaddr : Z) (create : bool) : M machine Z :=
  _ ← assert (negb (pd =? NULL));
  _ ← assert (negb create || is_user_vaddr vaddr);
  let pde := u32 (pd + 4 * pd_no vaddr) in
  w ← load_word pde;
  found ← (if w =? 0 then
             if create then
               pt ← palloc_get_page PAL_ZERO;
               if pt =? NULL then mret false
               else e ← lift (pde_create pt); _ ← store_word pde e; mret true
             else mret false
           else mret true);
  if (found : bool) then
    w ← load_word pde; pt ← lift (pde_get_pt w);
    mret (u32 (pt + 4 * pt_no vaddr))
  else mret NULL.

Definition pagedir_set_page (pd upage kpage : Z) (writable : bool) : M machine bool :=
  _ ← assert (pg_ofs upage =? 0);
  _ ← assert (pg_ofs kpage =? 0);
  _ ← assert (is_user_vaddr upage);
  p ← lift (vtop kpage);
  s ← get;
  _ ← assert (Z.shiftr p PTSHIFT <? init_ram_pages s);
  _ ← assert (negb (pd =? init_page_dir s));
  pte ← lookup_page pd upage true;
  if negb (pte =? NULL) then
    w ← load_word pte; _ ← assert (Z.land w PTE_P =? 0);
    e ← lift (pte_create_user kpage writable);
    _ ← store_word pte e; mret true
  else mret false.

Definition pagedir_get_page (pd uaddr : Z) : M machine Z :=
  _ ← assert (is_user_vaddr uaddr);
  pte ← lookup_page pd uaddr false;
  if negb (pte =? NULL) then
    w ← load_word pte;
    if negb (Z.land w PTE_P =? 0) then p ← lift (pte_get_page w); mret (u32 (p + pg_ofs uaddr))
    else mret NULL
  else mret NULL.

Definition pagedir_clear_page (pd upage : Z) : M machine unit :=
  _ ← assert (pg_ofs upage =? 0);
  _ ← assert (is_user_vaddr upage);
  pte ← lookup_page pd upage false;
  if negb (pte =? NULL) then
    w ← load_word pte;
    if negb (Z.land w PTE_P =? 0) then
      _ ← store_word pte (Z.land w (u32 (Z.lnot PTE_P))); invalidate_pagedir pd
    else mret tt
  else mret tt.

(** [pagedir_is_dirty] and [pagedir_is_accessed]; [pagedir_set_dirty] and
    [pagedir_set_accessed]. *)
Definition is_flag (f pd vpage : Z) : M machine bool :=
  pte ← lookup_page pd vpage false;
  if negb (pte =? NULL) then w ← load_word pte; mret (negb (Z.land w f =? 0)) else mret false.
Definition set_flag (f pd vpage : Z) (v : bool) : M machine unit :=
  pte ← lookup_page pd vpage false;
  if negb (pte =? NULL) then
    w ← load_word pte;
    if v then store_word pte (Z.lor w f)
    else _ ← store_word pte (Z.land w (u32 (Z.lnot f))); invalidate_pagedir pd
  else mret tt.

Definition pagedir_is_dirty : Z -> Z -> M machine bool := is_flag PTE_D.
Definition pagedir_set_dirty : Z -> Z -> bool -> M machine unit := set_flag PTE_D.
Definition pagedir_is_accessed : Z -> Z -> M machine bool := is_flag PTE_A.
Definition pagedir_set_accessed : Z -> Z -> bool -> M machine unit := set_flag PTE_A.

(** The loops of [pagedir_destroy]: [n] entries are left. *)
Fixpoint free_ptes (n : nat) (pte : Z) : M machine unit :=
  match n with
  | O => mret tt
  | S n =>
      w ← load_word pte;
      _ ← (if negb (Z.land w PTE_P =? 0) then p ← lift (pte_get_page w); palloc_free_page p else mret tt);
      free_ptes n (pte + 4)
  end.
Fixpoint free_pdes (n : nat) (pde : Z) : M machine unit :=
  match n with
  | O => mret tt
  | S n =>
      w ← load_word pde;
      _ ← (if negb (Z.land w PTE_P =? 0) then
             pt ← lift (pde_get_pt w);
             _ ← free_ptes (Z.to_nat (PGSIZE / 4)) pt; palloc_free_page pt
           else mret tt);
      free_pdes n (pde + 4)
  end.
Definition pagedir_destroy (pd : Z) : M machine unit :=
  if pd =? NULL then mret tt
  else
    s ← get;
    _ ← assert (negb (pd =? init_page_dir s));
    _ ← free_pdes (Z.to_nat (pd_no PHYS_BASE)) pd;
    palloc_free_page pd.

(** [install_page] of [process.c]; the directory is that of the current thread. *)
Definition install_page (pd upage kpage : Z) (writable : bool) : M machine bool :=
  p ← pagedir_get_page pd upage;
  if p =? NULL then pagedir_set_page pd upage kpage writable else mret false.

(** ** Words in pages *)

(** Word [i] of a page. *)
Definition entry (s : machine) (page i : Z) : option Z :=
  bs ← memory s !! page; Some (elem_of_bytes (take 4 (drop (Z.to_nat (4 * i)) bs))).
Definition page_ok (s : machine) (page : Z) : Prop :=
  exists bs, memory s !! page = Some bs /\ length bs = 4096%nat.

Lemma word_address page i :
  0 <= page < 2 ^ 32 -> page mod PGSIZE = 0 -> 0 <= i < 1024 ->
  u32 (page + 4 * i) = page + 4 * i /\ pg_round_down (page + 4 * i) = page /\ pg_ofs (page + 4 * i) = 4 * i /\
  page + 4 * i < 2 ^ 32.
Proof.
  intros Hp Hm Hi. unfold PGSIZE in *.
  assert (Hd : page = 4096 * (page / 4096)) by (pose proof (Z.div_mod page 4096 ltac:(lia)); lia).
  assert (Hr : page + 4 * i < 2 ^ 32) by lia.
  assert (Ho : (page + 4 * i) mod 4096 = 4 * i).
  { replace (page + 4 * i) with (4 * i + page / 4096 * 4096) by lia. rewrite Z.mod_add by lia. apply Z.mod_small. lia. }
  split; [apply u32_small; lia|]. rewrite pg_round_down_sub, pg_ofs_mod by lia. unfold PGSIZE. rewrite Ho. lia.
Qed.

Lemma load_entry s page i :
  0 <= page < 2 ^ 32 -> page mod PGSIZE = 0 -> 0 <= i < 1024 ->
  load_word (page + 4 * i) s = match entry s page i with Some w => Ok (w, s) | None => Err Trap end.
Proof.
  intros Hp Hm Hi. destruct (word_address page i Hp Hm Hi) as (_ & E1 & E2 & _).
  unfold load_word, word_at, entry. rewrite E1, E2. by destruct (memory s !! page).
Qed.

(** What a store of word [i] of [page] changes. *)
Record stored_word (s s' : machine) (page i w : Z) : Prop := {
  sw_entry : forall q j, 0 <= j < 1024 ->
    entry s' q j = if decide (q = page /\ j = i) then Some w else entry s q j;
  sw_memory : forall q, q <> page -> memory s' !! q = memory s !! q;
  sw_page : page_ok s' page;
  sw_same : kernel_pool s' = kernel_pool s /\ user_pool s' = user_pool s /\
    init_page_dir s' = init_page_dir s /\ init_ram_pages s' = init_ram_pages s /\ cr3 s' = cr3 s;
}.

Lemma store_entry s page i w :
  0 <= page < 2 ^ 32 -> page mod PGSIZE = 0 -> 0 <= i < 1024 -> page_ok s page -> 0 <= w < 2 ^ 32 ->
  exists s', store_word (page + 4 * i) w s = Ok (tt, s') /\ stored_word s s' page i w.
Proof.
  intros Hp Hm Hi (bs & Hbs & Hl) Hw. destruct (word_address page i Hp Hm Hi) as (_ & E1 & E2 & _).
  unfold store_word. rewrite E1, E2, Hbs. eexists. split; [reflexivity|].
  set (bs' := overwrite bs (4 * i) (elem_bytes w)).
  assert (Hl' : length bs' = 4096%nat) by (unfold bs'; rewrite overwrite_length; [done|lia|simpl; lia]).
  constructor.
  - intros q j Hj. unfold entry. simpl. destruct (decide (q = page)) as [->|Hne].
    2: { rewrite lookup_insert_ne, decide_False by (done || naive_solver). done. }
    rewrite lookup_insert_eq, Hbs. cbn [mbind option_bind]. unfold bs'. destruct (decide (j = i)) as [->|Hji].
    + rewrite decide_True by done. f_equal. transitivity (elem_of_bytes (elem_bytes w)); [f_equal|by apply elem_bytes_roundtrip].
      apply list_eq. intros k. destruct (decide (k < 4)%nat) as [Hk|Hk].
      * rewrite lookup_take_lt, lookup_drop, lookup_overwrite by lia. rewrite decide_True by (simpl; lia). f_equal. lia.
      * rewrite lookup_take_ge by lia. symmetry. apply lookup_ge_None. simpl. lia.
    + rewrite decide_False by naive_solver. do 2 f_equal. apply list_eq. intros k. destruct (decide (k < 4)%nat) as [Hk|Hk].
      * rewrite !lookup_take_lt, !lookup_drop, lookup_overwrite by lia. rewrite decide_False by (simpl; lia). done.
      * by rewrite !lookup_take_ge by lia.
  - intros q Hq. simpl. by rewrite lookup_insert_ne.
  - exists bs'. simpl. by rewrite lookup_insert_eq.
  - done.
Qed.

Lemma stored_page_ok s s' page i w q : stored_word s s' page i w -> page_ok s q -> page_ok s' q.
Proof.
  intros [] (bs & Hb & Hl). destruct (decide (q = page)) as [->|Hne]; [done|].
  exists bs. by rewrite sw_memory0.
Qed.

(** ** The invariant of page directories *)

(** The entry for a page table. *)
Definition pde_word (pt : Z) : Z := Z.lor (Z.lor (Z.lor (pt - PHYS_BASE) PTE_U) PTE_P) PTE_W.

(** The words found in page tables: 32 bits, the frame within physical memory
    the kernel maps. *)
Definition word_ok (w : Z) : Prop := 0 <= w < 2 ^ 32 /\ Z.land w PTE_ADDR < 2 ^ 32 - PHYS_BASE.
(** The flag is set in the word. *)
Definition has (f w : Z) : bool := negb (Z.land w f =? 0).

(** [P] are the page directories, the kernel's own included; [T] gives the page table for the
    addresses of a directory entry. *)
Record spaces (s : machine) (P : gset Z) (T : gmap (Z * Z) Z) : Prop := {
  sp_machine : machine_ok s;
  sp_dir : forall pd, pd ∈ P -> used (kernel_pool s) pd /\ page_ok s pd;
  sp_pde : forall pd i, pd ∈ P -> 0 <= i < 768 ->
    entry s pd i = Some (match T !! (pd, i) with Some pt => pde_word pt | None => 0 end);
  sp_table : forall pd i pt, T !! (pd, i) = Some pt ->
    pd ∈ P /\ 0 <= i < 768 /\ used (kernel_pool s) pt /\ page_ok s pt /\ pt ∉ P;
  sp_inj : forall k1 k2 pt, T !! k1 = Some pt -> T !! k2 = Some pt -> k1 = k2;
  sp_word : forall k pt j w, T !! k = Some pt -> 0 <= j < 1024 -> entry s pt j = Some w -> word_ok w;
  sp_init : init_page_dir s ∈ P /\ forall i, T !! (init_page_dir s, i) = None;
  sp_cr3 : 0 <= cr3 s < 2 ^ 32 - PHYS_BASE;
}.

(** The page table entry for an address; zero where there is no table. *)
Definition pte (s : machine) (T : gmap (Z * Z) Z) (pd va : Z) : Z :=
  match T !! (pd, pd_no va) with Some pt => default 0 (entry s pt (pt_no va)) | None => 0 end.

(** What an operation on page directories leaves alone: the user pool, and the
    content of its pages. *)
Record apart (s s' : machine) : Prop := {
  ap_user : user_pool s' = user_pool s;
  ap_kernel : base (kernel_pool s') = base (kernel_pool s) /\
    bit_cnt (used_map (kernel_pool s')) = bit_cnt (used_map (kernel_pool s)) /\
    forall q, used (kernel_pool s) q -> used (kernel_pool s') q;
  ap_memory : forall q, base (user_pool s) <= q -> memory s' !! q = memory s !! q;
  ap_vars : init_page_dir s' = init_page_dir s /\ init_ram_pages s' = init_ram_pages s /\ cr3 s' = cr3 s;
}.

Lemma used_range s page : machine_ok s -> used (kernel_pool s) page ->
  PHYS_BASE <= page < 2 ^ 32 /\ page mod PGSIZE = 0 /\ page <> NULL.
Proof. intros Hs (i & Hi & -> & _). apply page_range; [apply Hs|done]. Qed.

Lemma pde_word_ok pt :
  PHYS_BASE <= pt < 2 ^ 32 -> pt mod PGSIZE = 0 ->
  pde_create pt = Ok (pde_word pt) /\ pde_get_pt (pde_word pt) = Ok pt /\ 0 < pde_word pt < 2 ^ 32.
Proof.
  intros Hp Hm. destruct (pde_roundtrip pt Hp) as (w & E & Hg & Hw); [by rewrite pg_ofs_mod|].
  assert (w = pde_word pt) as <-; [|done].
  unfold pde_create in E. rewrite pg_ofs_mod, Hm, ASSERT_true, kernel_page_vtop in E by done.
  simpl in E. by injection E.
Qed.

Lemma user_indices va : 0 <= va < PHYS_BASE -> 0 <= pd_no va < 768 /\ 0 <= pt_no va < 1024.
Proof.
  intros Hv. rewrite pd_no_div, pt_no_divmod. unfold PHYS_BASE, PGSIZE in *.
  split; [Z.to_euclidean_division_equations; lia|]. apply Z.mod_pos_bound. lia.
Qed.

Section Lookup.
Context (s : machine) (P : gset Z) (T : gmap (Z * Z) Z) (pd va : Z).
Hypothesis Hs : spaces s P T.
Hypothesis Hpd : pd ∈ P.
Hypothesis Hva : 0 <= va < PHYS_BASE.

Lemma pd_range : PHYS_BASE <= pd < 2 ^ 32 /\ pd mod PGSIZE = 0 /\ pd <> NULL.
Proof. apply (used_range s); [apply Hs|by apply (sp_dir _ _ _ Hs)]. Qed.

Lemma pt_range pt : T !! (pd, pd_no va) = Some pt -> PHYS_BASE <= pt < 2 ^ 32 /\ pt mod PGSIZE = 0 /\ pt <> NULL.
Proof. intros Ht. apply (used_range s); [apply Hs|]. by apply (sp_table _ _ _ Hs pd (pd_no va)). Qed.

Lemma load_pde :
  load_word (u32 (pd + 4 * pd_no va)) s =
    Ok (match T !! (pd, pd_no va) with Some pt => pde_word pt | None => 0 end, s).
Proof.
  destruct pd_range as (Hr & Hm & _). destruct (user_indices va Hva) as [Hi _]. unfold PHYS_BASE in Hr.
  destruct (word_address pd (pd_no va)) as (-> & _); [lia|done|lia|].
  rewrite load_entry by (lia || done). by rewrite (sp_pde _ _ _ Hs) by done.
Qed.

(** Without creating tables, a lookup gives the address of the entry. *)
Lemma lookup_page_ok :
  lookup_page pd va false s =
    Ok (match T !! (pd, pd_no va) with Some pt => pt + 4 * pt_no va | None => NULL end, s).
Proof.
  destruct pd_range as (Hr & Hm & Hn). destruct (user_indices va Hva) as [_ Hi]. unfold lookup_page.
  bind_by (apply assert_run; by rewrite (proj2 (Z.eqb_neq _ _) Hn)). bind_by reflexivity. bind_by (exact load_pde).
  destruct (T !! (pd, pd_no va)) as [pt|] eqn:E; [|by bind_by reflexivity].
  destruct (pt_range pt E) as (Hpr & Hpm & _). destruct (pde_word_ok pt Hpr Hpm) as (_ & Hg & Hw).
  rewrite (proj2 (Z.eqb_neq _ _)) by lia. bind_by reflexivity. pose proof load_pde as Hl. rewrite E in Hl.
  cbv iota. bind_by (exact Hl). bind_by (rewrite Hg; reflexivity). unfold PHYS_BASE in *.
  destruct (word_address pt (pt_no va)) as (-> & _); [lia|done|lia|]. done.
Qed.

Lemma load_pte pt :
  T !! (pd, pd_no va) = Some pt -> load_word (pt + 4 * pt_no va) s = Ok (pte s T pd va, s).
Proof.
  intros Ht. destruct (pt_range pt Ht) as (Hr & Hm & _). destruct (user_indices va Hva) as [_ Hi]. unfold PHYS_BASE in *.
  rewrite load_entry by (lia || done). unfold pte. rewrite Ht.
  destruct (sp_table _ _ _ Hs _ _ _ Ht) as (_ & _ & _ & (bs & Hb & _) & _). unfold entry. by rewrite Hb.
Qed.

Lemma pte_address_nonnull pt : T !! (pd, pd_no va) = Some pt -> pt + 4 * pt_no va <> NULL.
Proof.
  intros Ht. destruct (pt_range pt Ht) as (Hr & _). destruct (user_indices va Hva) as [_ Hi].
  unfold PHYS_BASE, NULL in *. lia.
Qed.
End Lookup.

(** ** Stores into tables *)

(** The same, with no page of the kernel pool taken. *)
Definition stored (s s' : machine) : Prop := apart s s' /\ kernel_pool s' = kernel_pool s.

Lemma apart_refl s : apart s s.
Proof. by constructor. Qed.
Lemma apart_trans s s1 s2 : apart s s1 -> apart s1 s2 -> apart s s2.
Proof.
  intros [U1 (B1 & C1 & K1) M1 (I1 & R1 & X1)] [U2 (B2 & C2 & K2) M2 (I2 & R2 & X2)].
  constructor; [congruence|split_and!; [congruence|congruence|auto]| |split_and!; congruence].
  intros q Hq. rewrite M2 by (by rewrite U1). auto.
Qed.

Lemma stored_refl s : stored s s.
Proof. split; [apply apart_refl|done]. Qed.

Lemma kernel_low s q : machine_ok s -> used (kernel_pool s) q -> q < base (user_pool s).
Proof. intros Hs (i & Hi & -> & _). pose proof (mo_order _ Hs). unfold page_at, PGSIZE in *. lia. Qed.

Lemma stored_apart s s' page i w :
  machine_ok s -> used (kernel_pool s) page -> stored_word s s' page i w -> apart s s' /\ machine_ok s'.
Proof.
  intros Hs Hu [_ M _ (K & U & I & R & X)]. split.
  - constructor; rewrite ?K, ?U; try done. intros q Hq. apply M. pose proof (kernel_low s page Hs Hu). lia.
  - destruct Hs. constructor; by rewrite ?K, ?U.
Qed.

(** Same entry of the same directory. *)
Definition same_pte (pd va pd' va' : Z) : Prop := pd' = pd /\ pd_no va' = pd_no va /\ pt_no va' = pt_no va.
#[global] Instance same_pte_dec pd va pd' va' : Decision (same_pte pd va pd' va').
Proof. unfold same_pte. apply _. Defined.

Lemma spaces_store s s' P T pd va pt w :
  spaces s P T -> 0 <= va < PHYS_BASE -> T !! (pd, pd_no va) = Some pt ->
  stored_word s s' pt (pt_no va) w -> word_ok w ->
  spaces s' P T /\ stored s s' /\
  forall pd' va', 0 <= va' < PHYS_BASE ->
    pte s' T pd' va' = if decide (same_pte pd va pd' va') then w else pte s T pd' va'.
Proof.
  intros Hs Hva Ht Hw Hr. destruct (sp_table _ _ _ Hs _ _ _ Ht) as (Hpd & Hi & Hu & Hok & HnP).
  destruct (stored_apart s s' pt _ w (sp_machine _ _ _ Hs) Hu Hw) as [A M']. pose proof Hw as [He _ _ (K & U & I & R & X)].
  destruct (user_indices va Hva) as [_ Hj].
  split; [|split; [by split|]].
  - pose proof (stored_page_ok s s' pt (pt_no va) w) as Hpo. destruct Hs. constructor; rewrite ?K, ?I, ?X; try done.
    + intros q Hq. destruct (sp_dir0 q Hq). split; [done|]. by apply Hpo.
    + intros q i Hq Hi'. rewrite He by lia. rewrite decide_False; [by apply sp_pde0|]. by intros [-> _].
    + intros q i pt' Hq. destruct (sp_table0 q i pt' Hq) as (? & ? & ? & ? & ?). split_and!; try done; try lia. by apply Hpo.
    + intros k pt' j w' Hk Hj' Hw'. rewrite He in Hw' by done. case_decide; [by simplify_eq|by eapply sp_word0].
  - intros pd' va' Hva'. unfold pte. destruct (user_indices va' Hva') as [_ Hj'].
    destruct (T !! (pd', pd_no va')) as [pt'|] eqn:Et'.
    + rewrite He by done. destruct (decide (pt' = pt /\ pt_no va' = pt_no va)) as [[-> Ej]|Hne].
      * rewrite decide_True; [done|]. pose proof (sp_inj _ _ _ Hs _ _ _ Et' Ht) as E. injection E as -> E. by split.
      * rewrite decide_False; [done|]. intros (-> & E1 & E2). apply Hne. rewrite E1 in Et'. split; congruence.
    + rewrite decide_False; [done|]. intros (-> & E1 & _). congruence.
Qed.

Lemma pte_range s P T pd va : spaces s P T -> 0 <= va < PHYS_BASE -> word_ok (pte s T pd va).
Proof.
  intros Hs Hva. unfold pte. destruct (T !! (pd, pd_no va)) as [pt|] eqn:E; [|done].
  destruct (entry s pt (pt_no va)) as [w|] eqn:Ew; simpl; [|done].
  eapply (sp_word _ _ _ Hs); [exact E| |exact Ew]. by apply user_indices.
Qed.

Lemma invalidate_ok s P T pd : spaces s P T -> pd ∈ P -> invalidate_pagedir pd s = Ok (tt, s).
Proof.
  intros Hs Hpd. destruct (pd_range s P T pd Hs Hpd) as (Hr & _ & Hn). pose proof (sp_cr3 _ _ _ Hs) as Hc.
  unfold invalidate_pagedir, active_pd. bind_by (bind_by reflexivity; rewrite ptov_page by done; reflexivity).
  destruct (cr3 s + PHYS_BASE =? pd) eqn:E; [|done]. bool_to_prop. unfold pagedir_activate. bind_by reflexivity.
  rewrite (proj2 (Z.eqb_neq _ _) Hn). bind_by (rewrite kernel_page_vtop by lia; reflexivity).
  unfold modify. do 2 f_equal. subst pd. replace (cr3 s + PHYS_BASE - PHYS_BASE) with (cr3 s) by lia. by destruct s.
Qed.

(** Steps that change the user pool and its pages only. *)
Lemma spaces_user s s' P T :
  spaces s P T -> machine_ok s' -> (forall q, used (kernel_pool s) q -> used (kernel_pool s') q) ->
  (forall q, used (kernel_pool s) q -> memory s' !! q = memory s !! q) ->
  init_page_dir s' = init_page_dir s -> cr3 s' = cr3 s ->
  spaces s' P T /\ forall pd va, pte s' T pd va = pte s T pd va.
Proof.
  intros Hs Hm Hk Hmem Hi Hc.
  assert (He : forall q j, used (kernel_pool s) q -> entry s' q j = entry s q j) by (intros q j Hq; unfold entry; by rewrite Hmem).
  assert (Hpo : forall q, used (kernel_pool s) q -> page_ok s q -> page_ok s' q)
    by (intros q Hq (bs & Hb & Hl); exists bs; by rewrite Hmem).
  pose proof Hs as []. split.
  - constructor; rewrite ?Hi, ?Hc; try done.
    + intros q Hq. destruct (sp_dir0 q Hq). auto.
    + intros q i Hq. rewrite He by (by apply sp_dir0). by apply sp_pde0.
    + intros q i pt Hq. destruct (sp_table0 q i pt Hq) as (? & ? & ? & ? & ?). auto 10.
    + intros [q i] pt j w Hq. destruct (sp_table0 q i pt Hq) as (_ & _ & Hu & _). rewrite He by done. by apply (sp_word0 (q, i)).
  - intros pd va. unfold pte. destruct (T !! (pd, pd_no va)) as [pt|] eqn:E; [|done].
    destruct (sp_table0 _ _ _ E) as (_ & _ & Hu & _). by rewrite He.
Qed.

(** ** Creating tables *)

Lemma zero_entry i : 0 <= i < 1024 -> elem_of_bytes (take 4 (drop (Z.to_nat (4 * i)) (replicate 4096 0))) = 0.
Proof.
  intros Hi. rewrite drop_replicate, take_replicate. replace (4 `min` _)%nat with 4%nat by lia. done.
Qed.

Definition zero_page : list Z := replicate 4096 0.
Lemma zero_page_length : length zero_page = 4096%nat.
Proof. apply length_replicate. Qed.
Lemma zero_page_entry i : 0 <= i < 1024 -> elem_of_bytes (take 4 (drop (Z.to_nat (4 * i)) zero_page)) = 0.
Proof. apply zero_entry. Qed.
Lemma zero_page_byte i : (i < 4096)%nat -> zero_page !! i = Some 0.
Proof. apply lookup_replicate_2. Qed.
#[global] Opaque zero_page.

Lemma got_page s s1 user zero page : got s s1 user zero 1 page ->
  ~ used (get_pool user s) page /\ used (get_pool user s1) page /\
  (forall q, used (get_pool user s) q -> used (get_pool user s1) q) /\
  forall q, memory s1 !! q = if decide (zero = true /\ q = page) then Some zero_page else memory s !! q.
Proof.
  intros []. split_and!.
  - apply gt_free. unfold PGSIZE. lia.
  - apply gt_used. right. rewrite Z.sub_diag. unfold PGSIZE. split; [lia|done].
  - intros q Hq. apply gt_used. by left.
  - intros q. rewrite gt_memory. destruct zero; [|by rewrite decide_False by naive_solver].
    change (Z.to_nat 1) with 1%nat. cbn [fill_pages]. destruct (decide (q = page)) as [->|Hne].
    + by rewrite lookup_insert_eq, decide_True.
    + by rewrite lookup_insert_ne, decide_False by naive_solver.
Qed.

Lemma got_apart s s1 zero page : machine_ok s -> got s s1 false zero 1 page -> apart s s1.
Proof.
  intros Hm G. destruct (got_page s s1 false zero page G) as (_ & _ & Hu & Hmem). destruct G.
  constructor; [done| | |done].
  - split; [apply (gt_base false)|]. split; [apply (gt_cnt false)|done].
  - intros q Hq. rewrite Hmem, decide_False; [done|]. intros [_ ->]. destruct gt_page as (i & Hi & Hc & ->).
    pose proof (mo_order _ Hm). cbn [get_pool] in *. unfold page_at, PGSIZE in *. lia.
Qed.

Lemma spaces_table s s1 s2 P T pd i pt :
  spaces s P T -> pd ∈ P -> pd <> init_page_dir s -> 0 <= i < 768 -> T !! (pd, i) = None ->
  got s s1 false true 1 pt -> stored_word s1 s2 pd i (pde_word pt) ->
  spaces s2 P (<[(pd, i) := pt]> T) /\ apart s s2 /\
  forall pd' va, 0 <= va < PHYS_BASE -> pte s2 (<[(pd, i) := pt]> T) pd' va = pte s T pd' va.
Proof.
  intros Hs Hpd Hni Hi Hnone G Hw. pose proof (sp_machine _ _ _ Hs) as Hm.
  destruct (got_page s s1 false true pt G) as (Hnew & Hupt & Hu1 & Hmem0). pose proof (gt_ok _ _ _ _ _ _ G) as M1.
  pose proof (gt_pd _ _ _ _ _ _ G) as (I1 & R1 & X1). cbn [get_pool] in Hnew, Hupt, Hu1.
  assert (Hfresh : forall q, used (kernel_pool s) q -> q <> pt) by (intros q Hq ->; done).
  assert (Hmem : forall q, memory s1 !! q = if decide (q = pt) then Some zero_page else memory s !! q).
  { intros q. rewrite Hmem0. destruct (decide (q = pt)); [by rewrite decide_True|by rewrite decide_False by naive_solver]. }
  assert (He1 : forall q j, used (kernel_pool s) q -> entry s1 q j = entry s q j).
  { intros q j Hq. unfold entry. by rewrite Hmem, decide_False by (by apply Hfresh). }
  assert (Hpo1 : forall q, page_ok s q -> page_ok s1 q).
  { intros q (bs & Hb & Hl). unfold page_ok. rewrite Hmem. destruct (decide (q = pt)); [by exists zero_page|by exists bs]. }
  assert (Hptne : pt <> pd) by (intros E; by apply (Hfresh pd); [apply (sp_dir _ _ _ Hs)|]).
  destruct (stored_apart s1 s2 pd i _ M1 (Hu1 _ (proj1 (sp_dir _ _ _ Hs pd Hpd))) Hw) as [A2 M2].
  pose proof (fun q => stored_page_ok s1 s2 pd i _ q Hw) as Hpo2. pose proof Hw as [He _ _ (K2 & U2 & I2 & R2 & X2)].
  assert (Hzero : forall j, 0 <= j < 1024 -> entry s2 pt j = Some 0).
  { intros j Hj. rewrite He by done. rewrite decide_False by naive_solver. unfold entry.
    rewrite Hmem, decide_True by done. cbn [mbind option_bind]. by rewrite zero_page_entry. }
  assert (Hold : forall k' pt', T !! k' = Some pt' -> pt' <> pt /\ forall j, 0 <= j < 1024 -> entry s2 pt' j = entry s pt' j).
  { intros [q0 i0] pt' Hk'. destruct (sp_table _ _ _ Hs _ _ _ Hk') as (Hq0 & _ & Hu' & _ & HnP).
    split; [by apply Hfresh|]. intros j Hj. rewrite He by done. rewrite decide_False; [by apply He1|].
    intros [-> _]. done. }
  split; [|split].
  - constructor; rewrite ?K2, ?I2, ?I1, ?X2, ?X1; try done; try apply Hs.
    + intros q Hq. destruct (sp_dir _ _ _ Hs q Hq). split; [auto|]. apply Hpo2; auto.
    + intros q j Hq Hj. rewrite He by lia. destruct (decide (q = pd /\ j = i)) as [[-> ->]|Hne].
      * by rewrite lookup_insert_eq.
      * rewrite lookup_insert_ne by (intros [=]; naive_solver). rewrite He1 by (by apply (sp_dir _ _ _ Hs)).
        by apply (sp_pde _ _ _ Hs).
    + intros q j pt' [[[=<- <-] <-]|[Hne Hq]]%lookup_insert_Some.
      * split; [done|]. split; [done|]. split; [done|]. split.
        -- apply Hpo2. exists zero_page. by rewrite Hmem, decide_True.
        -- intros HP. by apply (Hfresh pt); [apply (sp_dir _ _ _ Hs)|].
      * destruct (sp_table _ _ _ Hs q j pt' Hq) as (? & ? & ? & ? & ?). split_and!; try done; try lia; [auto|].
        apply Hpo2; auto.
    + intros k1 k2 pt' [[<- <-]|[N1 H1]]%lookup_insert_Some [[<- E]|[N2 H2]]%lookup_insert_Some; try done.
      * by destruct (Hold _ _ H2).
      * subst pt'. by destruct (Hold _ _ H1).
      * by apply (sp_inj _ _ _ Hs k1 k2 pt').
    + intros k' pt' j w [[<- <-]|[N1 H1]]%lookup_insert_Some Hj Hwj.
      * rewrite Hzero in Hwj by done. by simplify_eq.
      * destruct (Hold _ _ H1) as [_ Ho]. rewrite Ho in Hwj by done. by apply (sp_word _ _ _ Hs k' pt' j w).
    + split; [apply Hs|]. intros j. rewrite lookup_insert_ne by congruence. apply Hs.
  - eapply apart_trans; [|exact A2]. by eapply got_apart.
  - intros pd' va Hva. unfold pte. destruct (user_indices va Hva) as [_ Hj].
    destruct (decide ((pd, i) = (pd', pd_no va))) as [<-|Hne].
    + rewrite lookup_insert_eq, Hnone, Hzero by done. done.
    + rewrite lookup_insert_ne by done. destruct (T !! (pd', pd_no va)) as [pt'|] eqn:E; [|done].
      destruct (Hold _ _ E) as [_ Ho]. by rewrite Ho.
Qed.

(** ** Flags of entries *)

Lemma has_bit k w : 0 <= k -> has (2 ^ k) w = Z.testbit w k.
Proof.
  intros Hk. unfold has. destruct (Z.testbit w k) eqn:E.
  - apply negb_true_iff, Z.eqb_neq. intros H0. apply (f_equal (fun x => Z.testbit x k)) in H0.
    by rewrite Z.land_spec, E, Z.pow2_bits_true, Z.bits_0 in H0.
  - apply negb_false_iff, Z.eqb_eq. apply Z.bits_inj'. intros n Hn. rewrite Z.land_spec, Z.bits_0, Z.pow2_bits_eqb by done.
    destruct (k =? n) eqn:Ek; bool_to_prop; [subst; by rewrite E|by rewrite andb_false_r].
Qed.

Lemma has_set k j w : 0 <= k -> 0 <= j -> has (2 ^ j) (Z.lor w (2 ^ k)) = (j =? k) || has (2 ^ j) w.
Proof.
  intros Hk Hj. rewrite !has_bit, Z.lor_spec, Z.pow2_bits_eqb by done. rewrite (Z.eqb_sym k j). apply orb_comm.
Qed.

Lemma clear_bit k w : 0 <= k < 32 -> 0 <= w < 2 ^ 32 -> Z.land w (u32 (Z.lnot (2 ^ k))) = Z.ldiff w (2 ^ k).
Proof.
  intros Hk Hw. unfold u32. rewrite <- (Z.land_ones _ 32) by lia. rewrite (Z.land_comm (Z.lnot _)), Z.land_assoc.
  rewrite (Z.land_ones w 32), (Z.mod_small w) by lia. by rewrite Z.ldiff_land.
Qed.

Lemma has_clear k j w :
  0 <= k < 32 -> 0 <= j -> 0 <= w < 2 ^ 32 ->
  has (2 ^ j) (Z.land w (u32 (Z.lnot (2 ^ k)))) = negb (j =? k) && has (2 ^ j) w.
Proof.
  intros Hk Hj Hw. rewrite clear_bit by done. rewrite !has_bit, Z.ldiff_spec, Z.pow2_bits_eqb by lia.
  rewrite (Z.eqb_sym k j). apply andb_comm.
Qed.

Lemma addr_bits w n : 0 <= n -> Z.testbit (Z.land w PTE_ADDR) n = Z.testbit w n && ((12 <=? n) && (n <? 32)).
Proof.
  intros Hn. rewrite Z.land_spec. f_equal. change PTE_ADDR with (Z.shiftl (Z.ones 20) 12).
  rewrite Z.shiftl_spec by done. destruct (12 <=? n) eqn:E; bool_to_prop; simpl.
  - destruct (n <? 32) eqn:E2; bool_to_prop; [apply Z.ones_spec_low; lia|apply Z.ones_spec_high; lia].
  - apply Z.testbit_neg_r. lia.
Qed.

(** The four flags the code sets and clears. *)
Definition pte_flag (f : Z) : Prop := exists k, 0 <= k < 12 /\ f = 2 ^ k.

Lemma set_flag_addr f w : pte_flag f -> Z.land (Z.lor w f) PTE_ADDR = Z.land w PTE_ADDR.
Proof.
  intros (k & Hk & ->). apply Z.bits_inj'. intros n Hn. rewrite !addr_bits, Z.lor_spec, Z.pow2_bits_eqb by lia.
  destruct (k =? n) eqn:E; bool_to_prop; [|by rewrite orb_false_r]. subst n.
  replace (12 <=? k) with false by (symmetry; apply Z.leb_gt; lia). by rewrite !andb_false_r.
Qed.

Lemma clear_flag_addr f w : pte_flag f -> 0 <= w < 2 ^ 32 ->
  Z.land (Z.land w (u32 (Z.lnot f))) PTE_ADDR = Z.land w PTE_ADDR.
Proof.
  intros (k & Hk & ->) Hw. rewrite clear_bit by lia. apply Z.bits_inj'. intros n Hn.
  rewrite !addr_bits, Z.ldiff_spec, Z.pow2_bits_eqb by lia.
  destruct (k =? n) eqn:E; bool_to_prop; [|by rewrite andb_true_r]. subst n.
  replace (12 <=? k) with false by (symmetry; apply Z.leb_gt; lia). by rewrite !andb_false_r.
Qed.

Lemma set_word_ok f w : pte_flag f -> word_ok w -> word_ok (Z.lor w f).
Proof.
  intros Hf [Hw Ha]. split; [|by rewrite set_flag_addr]. destruct Hf as (k & Hk & ->).
  assert (0 <= Z.lor w (2 ^ k)) by (apply Z.lor_nonneg; split; [lia|apply Z.pow_nonneg; lia]).
  split; [done|]. apply Z.log2_lt_cancel. rewrite Z.log2_lor, !Z.log2_pow2 by (lia || apply Z.pow_nonneg; lia).
  apply Z.max_lub_lt; [|lia]. destruct (decide (w = 0)) as [->|]; [done|]. apply Z.log2_lt_pow2; lia.
Qed.

Lemma clear_word_ok f w : pte_flag f -> word_ok w -> word_ok (Z.land w (u32 (Z.lnot f))).
Proof.
  intros Hf [Hw Ha]. split; [|by rewrite clear_flag_addr]. unfold u32.
  set (m := Z.lnot f mod 2 ^ 32). assert (0 <= m < 2 ^ 32) by (apply Z.mod_pos_bound; lia).
  split; [apply Z.land_nonneg; lia|]. apply Z.le_lt_trans with w; [|lia].
  apply Z.ldiff_le; [lia|]. apply Z.bits_inj'. intros n Hn. rewrite Z.ldiff_spec, Z.land_spec, Z.bits_0.
  by destruct (Z.testbit w n); rewrite ?andb_false_r.
Qed.

(** ** The operations *)

(** The kernel address a user address is mapped to. *)
Definition translate (w va : Z) : Z :=
  if has PTE_P w then Z.land w PTE_ADDR + PHYS_BASE + pg_ofs va else NULL.

Lemma word_page w : word_ok w -> pte_get_page w = Ok (Z.land w PTE_ADDR + PHYS_BASE) /\
  PHYS_BASE <= Z.land w PTE_ADDR + PHYS_BASE < 2 ^ 32 /\ (Z.land w PTE_ADDR + PHYS_BASE) mod PGSIZE = 0.
Proof.
  intros [Hw Ha]. assert (0 <= Z.land w PTE_ADDR) by (apply Z.land_nonneg; lia).
  split; [by apply ptov_page|]. split; [unfold PHYS_BASE in *; lia|].
  rewrite land_page_mask by done. unfold PHYS_BASE, PGSIZE. Z.to_euclidean_division_equations. lia.
Qed.

Lemma page_plus_ofs page va : 0 <= page < 2 ^ 32 -> page mod PGSIZE = 0 -> u32 (page + pg_ofs va) = page + pg_ofs va.
Proof.
  intros Hp Hm. apply u32_small. rewrite pg_ofs_mod. unfold PGSIZE in *.
  pose proof (Z.mod_pos_bound va 4096 ltac:(lia)). Z.to_euclidean_division_equations. lia.
Qed.

Lemma user_vaddr va : 0 <= va < PHYS_BASE -> is_user_vaddr va = true.
Proof. intros Hv. unfold is_user_vaddr. apply Z.ltb_lt. lia. Qed.

Section Ops.
Context (s : machine) (P : gset Z) (T : gmap (Z * Z) Z) (pd va : Z).
Hypothesis Hs : spaces s P T.
Hypothesis Hpd : pd ∈ P.
Hypothesis Hva : 0 <= va < PHYS_BASE.

Lemma get_page_run : pagedir_get_page pd va s = Ok (translate (pte s T pd va) va, s).
Proof.
  unfold pagedir_get_page. bind_by (apply assert_run; by apply user_vaddr). bind_by (by apply (lookup_page_ok s P T)).
  pose proof (load_pte s P T pd va Hs Hva) as Hl. pose proof (pte_address_nonnull s P T pd va Hs Hva) as Hn.
  unfold translate. destruct (T !! (pd, pd_no va)) as [pt|] eqn:E; [|by unfold pte; rewrite E].
  rewrite (proj2 (Z.eqb_neq _ _) (Hn pt eq_refl)). cbv beta iota delta [negb]. bind_by (by apply Hl).
  fold (has PTE_P (pte s T pd va)). unfold has. destruct (Z.land (pte s T pd va) PTE_P =? 0); [done|].
  destruct (word_page _ (pte_range s P T pd va Hs Hva)) as (Hg & Hr & Hm). cbv iota.
  bind_by (rewrite Hg; reflexivity). unfold PHYS_BASE in *. rewrite page_plus_ofs by (lia || done). done.
Qed.

Lemma is_flag_run f : is_flag f pd va s = Ok (has f (pte s T pd va), s).
Proof.
  unfold is_flag. bind_by (by apply (lookup_page_ok s P T)).
  pose proof (load_pte s P T pd va Hs Hva) as Hl. pose proof (pte_address_nonnull s P T pd va Hs Hva) as Hn.
  destruct (T !! (pd, pd_no va)) as [pt|] eqn:E; [|by unfold pte; rewrite E].
  rewrite (proj2 (Z.eqb_neq _ _) (Hn pt eq_refl)). cbv beta iota delta [negb]. by bind_by (by apply Hl).
Qed.

(** Storing a word in an entry that has a table. *)
Lemma store_pte pt w : T !! (pd, pd_no va) = Some pt -> word_ok w ->
  exists s', store_word (pt + 4 * pt_no va) w s = Ok (tt, s') /\ spaces s' P T /\ stored s s' /\
    forall pd' va', 0 <= va' < PHYS_BASE ->
      pte s' T pd' va' = if decide (same_pte pd va pd' va') then w else pte s T pd' va'.
Proof.
  intros Ht Hw. destruct (pt_range s P T pd va Hs pt Ht) as (Hr & Hm & _). destruct (user_indices va Hva) as [_ Hi].
  destruct (sp_table _ _ _ Hs _ _ _ Ht) as (_ & _ & _ & Hok & _). unfold PHYS_BASE in Hr.
  destruct (store_entry s pt (pt_no va) w) as (s' & E & Hst); [lia|done..|apply Hw|].
  exists s'. split; [done|]. by apply (spaces_store s s' P T pd va pt w).
Qed.
End Ops.

(** How [set_flag] and [pagedir_clear_page] change an entry. *)
Definition flag_word (f : Z) (v : bool) (w : Z) : Z :=
  if v then Z.lor w f else Z.land w (u32 (Z.lnot f)).
(** One entry is changed, where it has a table. *)
Definition changed_entry (s s' : machine) (T : gmap (Z * Z) Z) (pd va : Z) (g : Z -> Z) : Prop :=
  forall pd' va', 0 <= va' < PHYS_BASE ->
    pte s' T pd' va' =
      if decide (same_pte pd va pd' va') then
        if T !! (pd, pd_no va) then g (pte s T pd va) else 0
      else pte s T pd' va'.

Lemma no_table_entry s T pd va g : T !! (pd, pd_no va) = None -> changed_entry s s T pd va g.
Proof.
  intros E pd' va' Hv. case_decide as K; [|done]. destruct K as (-> & K1 & K2). unfold pte. by rewrite K1, E.
Qed.

Lemma flag_word_ok f v w : pte_flag f -> word_ok w -> word_ok (flag_word f v w).
Proof. intros Hf Hw. unfold flag_word. destruct v; [by apply set_word_ok|by apply clear_word_ok]. Qed.

Lemma set_flag_run s P T pd va f v :
  spaces s P T -> pd ∈ P -> 0 <= va < PHYS_BASE -> pte_flag f ->
  exists s', set_flag f pd va v s = Ok (tt, s') /\ spaces s' P T /\ stored s s' /\
    changed_entry s s' T pd va (flag_word f v).
Proof.
  intros Hs Hpd Hva Hf. unfold set_flag.
  pose proof (load_pte s P T pd va Hs Hva) as Hl. pose proof (pte_address_nonnull s P T pd va Hs Hva) as Hn.
  pose proof (pte_range s P T pd va Hs Hva) as Hw. destruct (T !! (pd, pd_no va)) as [pt|] eqn:E.
  - destruct (store_pte s P T pd va Hs Hva pt (flag_word f v (pte s T pd va)) E) as (s' & E' & Hs' & Ha & Hp);
      [by apply flag_word_ok|].
    exists s'. split_and!; [|done|done|].
    + bind_by (by apply (lookup_page_ok s P T)). rewrite E, (proj2 (Z.eqb_neq _ _) (Hn pt eq_refl)).
      cbv beta iota delta [negb]. bind_by (by apply Hl). destruct v; [done|]. bind_by (exact E').
      by apply (invalidate_ok s' P T).
    + intros pd' va' Hv. rewrite Hp, E by done. done.
  - exists s. split_and!; [|done|apply stored_refl|by apply no_table_entry].
    bind_by (by apply (lookup_page_ok s P T)). by rewrite E.
Qed.

Lemma clear_absent w : word_ok w -> has PTE_P w = false -> flag_word PTE_P false w = w.
Proof.
  intros [Hw _] Hp. unfold flag_word. change PTE_P with (2 ^ 0) in *. rewrite clear_bit by lia. rewrite has_bit in Hp by done.
  apply Z.bits_inj'. intros n Hn. rewrite Z.ldiff_spec, Z.pow2_bits_eqb by done.
  destruct (0 =? n) eqn:E; bool_to_prop; [subst n; by rewrite Hp|apply andb_true_r].
Qed.

Lemma same_pte_refl pd va : same_pte pd va pd va.
Proof. done. Qed.

Lemma flag_P : pte_flag PTE_P. Proof. by exists 0. Qed.
Lemma flag_W : pte_flag PTE_W. Proof. by exists 1. Qed.
Lemma flag_A : pte_flag PTE_A. Proof. by exists 5. Qed.
Lemma flag_D : pte_flag PTE_D. Proof. by exists 6. Qed.
Create HintDb paging.
#[export] Hint Resolve flag_P flag_W flag_A flag_D apart_refl same_pte_refl : paging.

Lemma clear_page_run s P T pd va :
  spaces s P T -> pd ∈ P -> 0 <= va < PHYS_BASE -> pg_ofs va = 0 ->
  exists s', pagedir_clear_page pd va s = Ok (tt, s') /\ spaces s' P T /\ stored s s' /\
    changed_entry s s' T pd va (flag_word PTE_P false).
Proof.
  intros Hs Hpd Hva Ho. unfold pagedir_clear_page. rewrite Ho.
  pose proof (load_pte s P T pd va Hs Hva) as Hl. pose proof (pte_address_nonnull s P T pd va Hs Hva) as Hn.
  pose proof (pte_range s P T pd va Hs Hva) as Hw. pose proof (user_vaddr va Hva) as Hu.
  destruct (T !! (pd, pd_no va)) as [pt|] eqn:E.
  2: { exists s. split_and!; [|done|apply stored_refl|by apply no_table_entry].
       bind_by reflexivity. bind_by (by apply assert_run). bind_by (by apply (lookup_page_ok s P T)). by rewrite E. }
  destruct (has PTE_P (pte s T pd va)) eqn:Hp.
  - destruct (store_pte s P T pd va Hs Hva pt (flag_word PTE_P false (pte s T pd va)) E) as (s' & E' & Hs' & Ha & Hc);
      [apply flag_word_ok; [apply flag_P|done]|].
    exists s'. split_and!; [|done|done|].
    + bind_by reflexivity. bind_by (by apply assert_run). bind_by (by apply (lookup_page_ok s P T)).
      rewrite E, (proj2 (Z.eqb_neq _ _) (Hn pt eq_refl)). cbv beta iota delta [negb]. bind_by (by apply Hl).
      unfold has in Hp. rewrite negb_true_iff in Hp. rewrite Hp. cbv iota. bind_by (exact E').
      by apply (invalidate_ok s' P T).
    + intros pd' va' Hv. rewrite Hc, E by done. done.
  - exists s. split_and!; [|done|apply stored_refl|].
    + bind_by reflexivity. bind_by (by apply assert_run). bind_by (by apply (lookup_page_ok s P T)).
      rewrite E, (proj2 (Z.eqb_neq _ _) (Hn pt eq_refl)). cbv beta iota delta [negb]. bind_by (by apply Hl).
      unfold has in Hp. rewrite negb_false_iff in Hp. by rewrite Hp.
    + intros pd' va' Hv. rewrite E. case_decide as K; [|done]. rewrite clear_absent by done.
      destruct K as (-> & K1 & K2). unfold pte. by rewrite K1, K2.
Qed.

(** Every page is taken. *)
Definition pool_full (p : pool) : Prop := forall j, 0 <= j < bit_cnt (used_map p) -> used p (page_at p j).

(** Looking up an entry, creating its table if there is none: either the entry
    exists afterwards and no mapping has changed, or there is no page for the
    table and nothing has changed. *)
Lemma lookup_create s P T pd va :
  spaces s P T -> pd ∈ P -> pd <> init_page_dir s -> 0 <= va < PHYS_BASE ->
  (exists pt s' T', lookup_page pd va true s = Ok (pt + 4 * pt_no va, s') /\ T' !! (pd, pd_no va) = Some pt /\
     spaces s' P T' /\ T ⊆ T' /\ apart s s' /\
     forall pd' va', 0 <= va' < PHYS_BASE -> pte s' T' pd' va' = pte s T pd' va') \/
  T !! (pd, pd_no va) = None /\ pool_full (kernel_pool s) /\ lookup_page pd va true s = Ok (NULL, s).
Proof.
  intros Hs Hpd Hni Hva. destruct (pd_range s P T pd Hs Hpd) as (Hr & Hm & Hn). pose proof (user_vaddr va Hva) as Hu.
  destruct (user_indices va Hva) as [Hi Hj]. unfold lookup_page. rewrite Hu, (proj2 (Z.eqb_neq _ _) Hn).
  destruct (T !! (pd, pd_no va)) as [pt|] eqn:E.
  - left. exists pt, s, T. split; [|by split_and!; auto using apart_refl].
    pose proof (load_pde s P T pd va Hs Hpd Hva) as Hl. rewrite E in Hl.
    destruct (pt_range s P T pd va Hs pt E) as (Hpr & Hpm & _). destruct (pde_word_ok pt Hpr Hpm) as (_ & Hg & Hw).
    bind_by reflexivity. bind_by reflexivity. bind_by (exact Hl). rewrite (proj2 (Z.eqb_neq _ _)) by lia.
    bind_by reflexivity. cbv iota. bind_by (exact Hl). bind_by (rewrite Hg; reflexivity). unfold PHYS_BASE in *.
    destruct (word_address pt (pt_no va)) as (-> & _); [lia|done|lia|]. done.
  - pose proof (load_pde s P T pd va Hs Hpd Hva) as Hl. rewrite E in Hl.
    destruct (get_page_ok s PAL_ZERO (sp_machine _ _ _ Hs) eq_refl) as [(pt & s1 & Ep & Hpn & G)|[Hfull Ep]].
    2: { right. split; [done|]. split; [intros j Hj0; exists j; auto|]. bind_by reflexivity. bind_by reflexivity. bind_by (exact Hl).
         by bind_by (simpl; bind_by (exact Ep); reflexivity). }
    left. change (flag PAL_ZERO PAL_USER) with false in G. change (flag PAL_ZERO PAL_ZERO) with true in G.
    destruct (got_page s s1 false true pt G) as (_ & Hupt & Hu1 & Hmem). pose proof (gt_ok _ _ _ _ _ _ G) as M1.
    destruct (used_range s1 pt M1 Hupt) as (Hptr & Hptm & Hptn). destruct (pde_word_ok pt Hptr Hptm) as (Hc & Hg & Hw).
    destruct (store_entry s1 pd (pd_no va) (pde_word pt)) as (s2 & E2 & Hst); try (unfold PHYS_BASE in *; lia).
    { destruct (proj2 (sp_dir _ _ _ Hs pd Hpd)) as (bs & Hb & Hlen). exists bs. rewrite Hmem, decide_False; [done|].
      intros [_ ->]. destruct (got_page s s1 false true pt G) as (Hf & _). apply Hf. by apply (sp_dir _ _ _ Hs). }
    destruct (spaces_table s s1 s2 P T pd (pd_no va) pt Hs Hpd Hni Hi E G Hst) as (Hs2 & Ha & Hpte).
    exists pt, s2, (<[(pd, pd_no va) := pt]> T). split_and!; try done; [|by rewrite lookup_insert_eq|by apply insert_subseteq].
    pose proof (load_pde s2 P _ pd va Hs2 Hpd Hva) as Hl2. rewrite lookup_insert_eq in Hl2.
    destruct (word_address pd (pd_no va)) as (Ea & _); [unfold PHYS_BASE in *; lia|done|lia|].
    bind_by reflexivity. bind_by reflexivity. bind_by (exact Hl).
    bind_by (simpl; bind_by (exact Ep); rewrite (proj2 (Z.eqb_neq _ _) Hpn); cbv iota; bind_by (rewrite Hc; reflexivity);
      bind_by (rewrite Ea; exact E2); reflexivity).
    cbv iota. bind_by (exact Hl2). bind_by (rewrite Hg; reflexivity). unfold PHYS_BASE in *.
    destruct (word_address pt (pt_no va)) as (-> & _); [lia|done|lia|]. done.
Qed.

(** The entry for a user page. *)
Definition user_word (kpage : Z) (w : bool) : Z :=
  Z.lor (Z.lor (Z.lor (kpage - PHYS_BASE) PTE_P) (if w then PTE_W else 0)) PTE_U.

Lemma user_word_ok kpage w :
  PHYS_BASE <= kpage < 2 ^ 32 -> kpage mod PGSIZE = 0 ->
  pte_create_user kpage w = Ok (user_word kpage w) /\ word_ok (user_word kpage w) /\
  Z.land (user_word kpage w) PTE_ADDR + PHYS_BASE = kpage /\ has PTE_P (user_word kpage w) = true /\
  has PTE_W (user_word kpage w) = w /\ has PTE_A (user_word kpage w) = false /\ has PTE_D (user_word kpage w) = false.
Proof.
  intros Hk Hm. destruct (pte_user_ok kpage w Hk) as (e & E & Hg & Hr & Hp & _ & Hw & Ha & Hd); [by rewrite pg_ofs_mod|].
  assert (e = user_word kpage w) as <-.
  { unfold pte_create_user, pte_create_kernel in E. rewrite pg_ofs_mod, Hm, ASSERT_true, kernel_page_vtop in E by done.
    simpl in E. by injection E. }
  assert (H0 : 0 <= Z.land e PTE_ADDR) by (apply Z.land_nonneg; lia).
  unfold pte_get_page, ptov, ASSERT in Hg. destruct (Z.land e PTE_ADDR <? PHYS_BASE) eqn:El.
  2: discriminate Hg.
  simpl in Hg. injection Hg as Hg. apply Z.ltb_lt in El.
  assert (Hlt : Z.land e PTE_ADDR < 2 ^ 32 - PHYS_BASE).
  { destruct (Z.lt_ge_cases (Z.land e PTE_ADDR) (2 ^ 32 - PHYS_BASE)); [done|]. exfalso.
    unfold u32, PHYS_BASE in *. rewrite <- (Z.mod_add _ (-1)), Z.mod_small in Hg by lia. lia. }
  rewrite u32_small in Hg by (unfold PHYS_BASE in *; lia).
  by split_and!.
Qed.

Section Map.
Context (s : machine) (P : gset Z) (T : gmap (Z * Z) Z) (pd upage kpage : Z) (w : bool).
Hypothesis Hs : spaces s P T.
Hypothesis Hpd : pd ∈ P.
Hypothesis Hni : pd <> init_page_dir s.
Hypothesis Hu : 0 <= upage < PHYS_BASE.
Hypothesis Huo : pg_ofs upage = 0.
Hypothesis Hk : PHYS_BASE <= kpage < 2 ^ 32.
Hypothesis Hkm : kpage mod PGSIZE = 0.
Hypothesis Hram : Z.shiftr (kpage - PHYS_BASE) PTSHIFT < init_ram_pages s.
Hypothesis Habs : has PTE_P (pte s T pd upage) = false.

(** Mapping a page: either it is mapped, or there is no page for a table and
    nothing has changed. *)
Lemma set_page_run :
  (exists s' T', pagedir_set_page pd upage kpage w s = Ok (true, s') /\ spaces s' P T' /\ T ⊆ T' /\ apart s s' /\
     forall pd' va', 0 <= va' < PHYS_BASE ->
       pte s' T' pd' va' = if decide (same_pte pd upage pd' va') then user_word kpage w else pte s T pd' va') \/
  T !! (pd, pd_no upage) = None /\ pool_full (kernel_pool s) /\ pagedir_set_page pd upage kpage w s = Ok (false, s).
Proof.
  destruct (user_word_ok kpage w Hk Hkm) as (Hc & Hw & _). pose proof (user_vaddr upage Hu) as Huv.
  unfold pagedir_set_page. rewrite Huo, pg_ofs_mod, Hkm, Huv, kernel_page_vtop by done.
  destruct (lookup_create s P T pd upage Hs Hpd Hni Hu) as [(pt & s1 & T1 & E1 & Ht & Hs1 & Hsub & Ha & Hpte)|(Hno & Hpf & E1)].
  - left. destruct (store_pte s1 P T1 pd upage Hs1 Hu pt _ Ht Hw) as (s2 & E2 & Hs2 & [Ha2 _] & Hp2).
    exists s2, T1. split_and!; try done; [|by eapply apart_trans|].
    + do 3 bind_by reflexivity. bind_by reflexivity. bind_by reflexivity.
      bind_by (apply assert_run; by apply Z.ltb_lt). bind_by (apply assert_run; by rewrite (proj2 (Z.eqb_neq _ _) Hni)).
      bind_by (exact E1). rewrite (proj2 (Z.eqb_neq _ _) (pte_address_nonnull s1 P T1 pd upage Hs1 Hu pt Ht)).
      cbv beta iota delta [negb]. bind_by (apply (load_pte s1 P T1 pd upage Hs1 Hu pt Ht)).
      rewrite Hpte by done. bind_by (apply assert_run; unfold has in Habs; by rewrite negb_false_iff in Habs).
      bind_by (rewrite Hc; reflexivity). by bind_by (exact E2).
    + intros pd' va' Hv. rewrite Hp2, Hpte by done. done.
  - right. split; [done|]. split; [done|]. do 3 bind_by reflexivity. bind_by reflexivity. bind_by reflexivity.
    bind_by (apply assert_run; by apply Z.ltb_lt). bind_by (apply assert_run; by rewrite (proj2 (Z.eqb_neq _ _) Hni)).
    by bind_by (exact E1).
Qed.

Lemma install_page_run : install_page pd upage kpage w s = pagedir_set_page pd upage kpage w s.
Proof.
  unfold install_page. bind_by (by apply (get_page_run s P T)). unfold translate. by rewrite Habs.
Qed.
End Map.

(** Mapping a page that is mapped already fails. *)
Lemma install_page_busy s P T pd upage kpage w :
  spaces s P T -> pd ∈ P -> 0 <= upage < PHYS_BASE -> has PTE_P (pte s T pd upage) = true ->
  install_page pd upage kpage w s = Ok (false, s).
Proof.
  intros Hs Hpd Hu Hp. unfold install_page. bind_by (by apply (get_page_run s P T)). unfold translate. rewrite Hp.
  destruct (word_page _ (pte_range s P T pd upage Hs Hu)) as (_ & Hr & _).
  rewrite (proj2 (Z.eqb_neq _ _)); [done|]. rewrite pg_ofs_mod. unfold NULL, PHYS_BASE, PGSIZE in *.
  pose proof (Z.mod_pos_bound upage 4096 ltac:(lia)). lia.
Qed.

(** ** New directories *)

Lemma pagedir_create_run s P T :
  spaces s P T ->
  (exists pd s', pagedir_create s = Ok (pd, s') /\ pd <> NULL /\ pd ∉ P /\ ~ used (kernel_pool s) pd /\
     spaces s' ({[pd]} ∪ P) T /\ apart s s' /\ (forall q, used (kernel_pool s') q -> q = pd \/ used (kernel_pool s) q) /\
     forall pd' va, 0 <= va < PHYS_BASE -> pte s' T pd' va = if decide (pd' = pd) then 0 else pte s T pd' va) \/
  pool_full (kernel_pool s) /\ pagedir_create s = Ok (NULL, s).
Proof.
  intros Hs. pose proof (sp_machine _ _ _ Hs) as Hm. unfold pagedir_create.
  destruct (get_page_ok s 0 Hm eq_refl) as [(pd & s1 & Ep & Hn & G)|[Hfull Ep]].
  2: { right. split; [intros j Hj; exists j; split; [done|]; split; [done|]; by apply Hfull|]. bind_by (exact Ep). by bind_by reflexivity. }
  left. change (flag 0 PAL_USER) with false in G. change (flag 0 PAL_ZERO) with false in G.
  destruct (got_page s s1 false false pd G) as (Hnew & Hupd & Hu1 & Hmem0). cbn [get_pool] in *.
  assert (Hmem : memory s1 = memory s) by apply (gt_memory _ _ _ _ _ _ G).
  pose proof (gt_pd _ _ _ _ _ _ G) as (I1 & R1 & X1). destruct (sp_init _ _ _ Hs) as [Hini Hnoi].
  destruct (sp_dir _ _ _ Hs _ Hini) as (Hui & bs & Hbs & Hlbs).
  assert (HnP : pd ∉ P) by (intros HP; apply Hnew; by apply (sp_dir _ _ _ Hs)).
  assert (HnT : forall i, T !! (pd, i) = None).
  { intros i. destruct (T !! (pd, i)) eqn:E; [|done]. by destruct (sp_table _ _ _ Hs _ _ _ E). }
  assert (Hold : forall q, used (kernel_pool s) q -> q <> pd) by (intros q Hq ->; done).
  set (s2 := set_memory (<[pd := bs]> (memory s1)) s1).
  assert (He : forall q j, entry s2 q j = if decide (q = pd) then entry s (init_page_dir s) j else entry s q j).
  { intros q j. unfold entry, s2. simpl. rewrite Hmem. destruct (decide (q = pd)) as [->|].
    - by rewrite lookup_insert_eq, Hbs.
    - by rewrite lookup_insert_ne. }
  assert (Hpo : forall q, page_ok s q -> page_ok s2 q).
  { intros q (b & Hb & Hlb). unfold page_ok, s2. simpl. rewrite Hmem. destruct (decide (q = pd)) as [->|].
    - exists bs. by rewrite lookup_insert_eq.
    - exists b. by rewrite lookup_insert_ne. }
  assert (Hpt : forall k pt, T !! k = Some pt -> pt <> pd).
  { intros [q i] pt Hk. apply Hold. by destruct (sp_table _ _ _ Hs _ _ _ Hk) as (_ & _ & ? & _). }
  exists pd, s2. split_and!; try done.
  - bind_by (exact Ep). rewrite (proj2 (Z.eqb_neq _ _) Hn).
    by bind_by (simpl; bind_by reflexivity; bind_by (rewrite Hmem, I1, Hbs; reflexivity); reflexivity).
  - constructor; simpl; rewrite ?I1, ?X1; try apply Hs.
    + pose proof (gt_ok _ _ _ _ _ _ G) as []. by constructor.
    + intros q [->%elem_of_singleton|Hq]%elem_of_union.
      * split; [done|]. exists bs. unfold s2. simpl. by rewrite lookup_insert_eq.
      * destruct (sp_dir _ _ _ Hs q Hq). auto.
    + intros q i Hq Hi. rewrite He. destruct (decide (q = pd)) as [K|K].
      * rewrite K, HnT, (sp_pde _ _ _ Hs) by done. by rewrite Hnoi.
      * apply (sp_pde _ _ _ Hs); [set_solver|done].
    + intros q i pt Hq. destruct (sp_table _ _ _ Hs _ _ _ Hq) as (? & ? & ? & ? & ?). pose proof (Hpt _ _ Hq).
      split_and!; [set_solver|lia|lia|auto|auto|set_solver].
    + intros k pt j w Hk Hj. rewrite He, decide_False by (by eapply Hpt). by apply (sp_word _ _ _ Hs k).
    + split; [set_solver|apply Hs].
  - eapply apart_trans; [by eapply got_apart|]. constructor; try done. intros q Hq. unfold s2. simpl.
    apply lookup_insert_ne. pose proof (kernel_low s1 pd (gt_ok _ _ _ _ _ _ G) Hupd). lia.
  - intros q Hq. apply (gt_used _ _ _ _ _ _ G) in Hq as [Hq|[Hq Hm4]]; [by right|left]. rewrite Z.mod_small in Hm4; lia.
  - intros pd' va Hva. unfold pte. destruct (decide (pd' = pd)) as [K|K]; [by rewrite K, HnT|].
    destruct (T !! (pd', pd_no va)) as [pt|] eqn:E; [|done]. by rewrite He, decide_False by (by eapply Hpt).
Qed.

(** ** Destroying a directory *)

(** Pages [FU] of the user pool and [FK] of the kernel pool are freed. *)
Record freed (s s' : machine) (FU FK : Z -> Prop) : Prop := {
  fd_ok : machine_ok s';
  fd_base : forall v, base (get_pool v s') = base (get_pool v s);
  fd_cnt : forall v, bit_cnt (used_map (get_pool v s')) = bit_cnt (used_map (get_pool v s));
  fd_used : forall (v : bool) q, Palloc.used (get_pool v s') q <-> Palloc.used (get_pool v s) q /\ ~ (if v then FU else FK) q;
  fd_memory : forall q, ~ FU q -> ~ FK q -> memory s' !! q = memory s !! q;
  fd_pages : forall q, page_ok s q -> page_ok s' q;
  fd_vars : init_page_dir s' = init_page_dir s /\ init_ram_pages s' = init_ram_pages s /\ cr3 s' = cr3 s;
}.

Lemma freed_refl s : machine_ok s -> freed s s (fun _ => False) (fun _ => False).
Proof. intros. constructor; try done. intros [] q; tauto. Qed.

Lemma freed_trans s s1 s2 FU FK FU' FK' :
  freed s s1 FU FK -> freed s1 s2 FU' FK' -> freed s s2 (fun q => FU q \/ FU' q) (fun q => FK q \/ FK' q).
Proof.
  intros [? B1 C1 U1 M1 P1 (I1 & R1 & X1)] [? B2 C2 U2 M2 P2 (I2 & R2 & X2)].
  constructor; [done|intros v; congruence|intros v; congruence| | |auto|split_and!; congruence].
  - intros v q. rewrite U2, U1. destruct v; tauto.
  - intros q Hu Hk. rewrite M2, M1 by tauto. done.
Qed.

Lemma freed_ext s s' FU FK FU' FK' :
  freed s s' FU FK -> (forall q, FU q <-> FU' q) -> (forall q, FK q <-> FK' q) -> freed s s' FU' FK'.
Proof.
  intros [] EU EK. constructor; try done.
  - intros v q. rewrite fd_used0. by destruct v; rewrite ?EU, ?EK.
  - intros q. rewrite <- EU, <- EK. auto.
Qed.

Lemma freed_page s s' user page :
  gave s s' user 1 page -> Palloc.used (get_pool user s) page ->
  (forall q, Palloc.used (get_pool user s) q -> page <= q < page + PGSIZE -> q = page) ->
  freed s s' (fun q => user = true /\ q = page) (fun q => user = false /\ q = page).
Proof.
  intros [] Hu Hun. change (Z.to_nat 1) with 1%nat in *. cbn [fill_pages] in *. rewrite Z.mul_1_r in *.
  assert (exists bs, memory s' = <[page := bs]> (memory s) /\ length bs = 4096%nat) as (junk & gv_bytes & Hjunk)
    by (eexists; split; [exact gv_memory|apply length_replicate]).
  clear gv_memory. constructor; try done.
  - intros v q. destruct (decide (v = user)) as [->|Hne].
    + rewrite gv_used. split; (intros [Hq Hn]; split; [done|]); destruct user; try tauto.
      all: try (intros [_ ->]; apply Hn; unfold PGSIZE; lia).
      all: intros Hr; apply Hn; split; [done|]; by apply Hun.
    + replace v with (negb user) by (by destruct v, user). rewrite gv_other. destruct user; simpl; naive_solver.
  - intros q H1 H2. rewrite gv_bytes. apply lookup_insert_ne. destruct user; naive_solver.
  - intros q (bs & Hb & Hl). unfold page_ok. rewrite gv_bytes. destruct (decide (q = page)) as [->|].
    + rewrite lookup_insert_eq. by exists junk.
    + rewrite lookup_insert_ne by done. by exists bs.
Qed.

Lemma pool_spacing p q q' : Palloc.used p q -> Palloc.used p q' -> q <= q' < q + PGSIZE -> q' = q.
Proof. intros (i & _ & -> & _) (j & _ & -> & _). unfold page_at, PGSIZE. intros Hr. assert (i = j) as -> by lia. done. Qed.

Lemma free_run s user page :
  machine_ok s -> Palloc.used (get_pool user s) page ->
  exists s', palloc_free_page page s = Ok (tt, s') /\
    freed s s' (fun q => user = true /\ q = page) (fun q => user = false /\ q = page).
Proof.
  intros Hs Hu. destruct (free_page_ok s user page Hs Hu) as (s' & E & G). exists s'. split; [done|].
  apply freed_page; [done|done|]. intros q Hq Hr. by apply (pool_spacing (get_pool user s) page).
Qed.

(** The page entry [j] of table [pt] maps. *)
Definition page_of (s : machine) (pt j : Z) : option Z :=
  w ← entry s pt j; if has PTE_P w then Some (Z.land w PTE_ADDR + PHYS_BASE) else None.

Lemma free_ptes_run pt n : forall s k,
  machine_ok s -> Palloc.used (kernel_pool s) pt -> page_ok s pt -> 0 <= k -> k + Z.of_nat n = 1024 ->
  (forall j w, 0 <= j < 1024 -> entry s pt j = Some w -> word_ok w) ->
  (forall j q, k <= j < 1024 -> page_of s pt j = Some q -> Palloc.used (user_pool s) q) ->
  (forall j j' q, k <= j < 1024 -> k <= j' < 1024 -> page_of s pt j = Some q -> page_of s pt j' = Some q -> j = j') ->
  exists s', free_ptes n (pt + 4 * k) s = Ok (tt, s') /\
    freed s s' (fun q => exists j, k <= j < 1024 /\ page_of s pt j = Some q) (fun _ => False).
Proof.
  induction n as [|n IH]; intros s k Hs Hpt Hok Hk Hn Hw Hu Hinj.
  { exists s. split; [done|]. eapply freed_ext; [by apply freed_refl| |done]. intros q. split; [done|].
    intros (j & Hj & _). lia. }
  destruct (used_range s pt Hs Hpt) as (Hr & Hm & _). destruct Hok as (bs & Hbs & Hl).
  assert (He : is_Some (entry s pt k)) by (unfold entry; rewrite Hbs; by eexists). destruct He as [w He].
  pose proof (Hw k w ltac:(lia) He) as Hwo. destruct (word_page w Hwo) as (Hg & _ & _).
  assert (Hstep : exists s1, (if negb (Z.land w PTE_P =? 0) then p ← lift (pte_get_page w); palloc_free_page p else mret tt) s
      = Ok (tt, s1) /\ freed s s1 (fun q => page_of s pt k = Some q) (fun _ => False)).
  { unfold page_of. rewrite He. cbn [mbind option_bind]. fold (has PTE_P w). destruct (has PTE_P w) eqn:Hp.
    - assert (Huk : Palloc.used (get_pool true s) (Z.land w PTE_ADDR + PHYS_BASE)).
      { apply (Hu k); [lia|]. unfold page_of. rewrite He. cbn [mbind option_bind]. by rewrite Hp. }
      destruct (free_run s true _ Hs Huk) as (s1 & E1 & F1). exists s1. split; [bind_by (rewrite Hg; reflexivity); done|].
      eapply freed_ext; [exact F1|naive_solver|naive_solver].
    - exists s. split; [done|]. eapply freed_ext; [by apply freed_refl|naive_solver|done]. }
  destruct Hstep as (s1 & E1 & F1).
  assert (Hke : forall q, Palloc.used (kernel_pool s) q -> memory s1 !! q = memory s !! q).
  { intros q Hq. apply (fd_memory _ _ _ _ F1); [|tauto]. intros Hp. apply (Hu k) in Hp; [|lia].
    pose proof (kernel_low s q Hs Hq). destruct Hp as (i & Hi & -> & _). unfold page_at, PGSIZE in *. lia. }
  assert (Hent : forall j, entry s1 pt j = entry s pt j) by (intros j; unfold entry; by rewrite Hke).
  assert (Hpo : forall j, page_of s1 pt j = page_of s pt j) by (intros j; unfold page_of; by rewrite Hent).
  destruct (IH s1 (k + 1)) as (s2 & E2 & F2).
  - apply F1.
  - apply (fd_used _ _ _ _ F1 false). split; [done|tauto].
  - exists bs. by rewrite Hke.
  - lia.
  - lia.
  - intros j w'. rewrite Hent. apply Hw.
  - intros j q Hj. rewrite Hpo. intros Hq. apply (fd_used _ _ _ _ F1 true). split; [apply (Hu j); [lia|done]|].
    intros Hk'. assert (j = k) by (apply (Hinj j k q); done || lia). lia.
  - intros j j' q Hj Hj'. rewrite !Hpo. apply Hinj; lia.
  - exists s2. split.
    + cbn [free_ptes]. unfold PHYS_BASE in *. bind_by (rewrite load_entry, He by (lia || done); reflexivity).
      bind_by (exact E1). replace (pt + 4 * k + 4) with (pt + 4 * (k + 1)) by lia. exact E2.
    + eapply freed_ext; [by eapply freed_trans| |naive_solver]. intros q. simpl. split.
      * intros [Hq|(j & Hj & Hq)]; [exists k; split; [lia|done]|]. rewrite Hpo in Hq. exists j. split; [lia|done].
      * intros (j & Hj & Hq). destruct (decide (j = k)) as [->|]; [by left|right]. exists j. rewrite Hpo. split; [lia|done].
Qed.

(** What is left to destroy from entry [k] of a directory on; [Tp] gives its
    tables. *)
Record doomed (s : machine) (pd : Z) (Tp : Z -> option Z) (k : Z) : Prop := {
  dm_machine : machine_ok s;
  dm_dir : Palloc.used (kernel_pool s) pd /\ page_ok s pd;
  dm_pde : forall i, k <= i < 768 -> entry s pd i = Some (match Tp i with Some pt => pde_word pt | None => 0 end);
  dm_table : forall i pt, k <= i < 768 -> Tp i = Some pt -> Palloc.used (kernel_pool s) pt /\ page_ok s pt /\ pt <> pd;
  dm_inj : forall i i' pt, k <= i < 768 -> k <= i' < 768 -> Tp i = Some pt -> Tp i' = Some pt -> i = i';
  dm_word : forall i pt j w, k <= i < 768 -> Tp i = Some pt -> 0 <= j < 1024 -> entry s pt j = Some w -> word_ok w;
  dm_used : forall i pt j q, k <= i < 768 -> Tp i = Some pt -> 0 <= j < 1024 -> page_of s pt j = Some q ->
    Palloc.used (user_pool s) q;
  dm_pages : forall i i' pt pt' j j' q, k <= i < 768 -> k <= i' < 768 -> Tp i = Some pt -> Tp i' = Some pt' ->
    0 <= j < 1024 -> 0 <= j' < 1024 -> page_of s pt j = Some q -> page_of s pt' j' = Some q -> i = i' /\ j = j';
}.

(** The pages and the tables from entry [k] on. *)
Definition pages_from (s : machine) (Tp : Z -> option Z) (k q : Z) : Prop :=
  exists i pt j, k <= i < 768 /\ Tp i = Some pt /\ 0 <= j < 1024 /\ page_of s pt j = Some q.
Definition tables_from (Tp : Z -> option Z) (k q : Z) : Prop := exists i, k <= i < 768 /\ Tp i = Some q.

Lemma user_not_kernel_page s q : machine_ok s -> Palloc.used (user_pool s) q -> Palloc.used (kernel_pool s) q -> False.
Proof.
  intros Hs (i & Hi & -> & _) Hk. pose proof (kernel_low s _ Hs Hk). unfold page_at, PGSIZE in *. lia.
Qed.

(** One entry of a directory. *)
Lemma free_table s pd Tp k pt :
  doomed s pd Tp k -> 0 <= k < 768 -> Tp k = Some pt ->
  exists s', (_ ← free_ptes (Z.to_nat (PGSIZE / 4)) pt; palloc_free_page pt) s = Ok (tt, s') /\
    freed s s' (fun q => exists j, 0 <= j < 1024 /\ page_of s pt j = Some q) (fun q => q = pt).
Proof.
  intros [] Hk Ht. destruct (dm_table0 k pt ltac:(lia) Ht) as (Hu & Hok & _).
  destruct (free_ptes_run pt (Z.to_nat (PGSIZE / 4)) s 0) as (s1 & E1 & F1); try done.
  - intros j w. apply (dm_word0 k pt); [lia|done].
  - intros j q. apply (dm_used0 k pt); [lia|done].
  - intros j j' q Hj Hj' Hq Hq'. by destruct (dm_pages0 k k pt pt j j' q) as [_ ?]; [lia..|done| |done| | | |].
  - rewrite Z.mul_0_r, Z.add_0_r in E1.
    destruct (free_run s1 false pt) as (s2 & E2 & F2); [apply F1|apply (fd_used _ _ _ _ F1 false); split; [done|tauto]|].
    exists s2. split; [bind_by (exact E1); exact E2|]. clear E1 E2.
    eapply freed_ext; [by eapply freed_trans|naive_solver|naive_solver].
Qed.

Lemma doomed_next s s' pd Tp k :
  doomed s pd Tp k -> 0 <= k < 768 ->
  freed s s' (fun q => exists pt j, Tp k = Some pt /\ 0 <= j < 1024 /\ page_of s pt j = Some q) (fun q => Tp k = Some q) ->
  doomed s' pd Tp (k + 1) /\ (forall q, pages_from s' Tp (k + 1) q <-> pages_from s Tp (k + 1) q).
Proof.
  intros [] Hk F.
  assert (Hmem : forall q, Palloc.used (kernel_pool s) q -> Tp k <> Some q -> memory s' !! q = memory s !! q).
  { intros q Hq Hn. apply F; [|done]. intros (pt & j & Ht & Hj & Hp). apply (user_not_kernel_page s q dm_machine0); [|done].
    apply (dm_used0 k pt j); [lia|done..]. }
  assert (Hent : forall q j, Palloc.used (kernel_pool s) q -> Tp k <> Some q -> entry s' q j = entry s q j).
  { intros q j Hq Hn. unfold entry. by rewrite Hmem. }
  assert (Hother : forall i pt, k + 1 <= i < 768 -> Tp i = Some pt -> Palloc.used (kernel_pool s) pt /\ Tp k <> Some pt).
  { intros i pt Hi Ht. split; [apply (dm_table0 i); [lia|done]|]. intros Hk'. pose proof (dm_inj0 i k pt ltac:(lia) ltac:(lia) Ht Hk'). lia. }
  assert (Hpo : forall i pt j, k + 1 <= i < 768 -> Tp i = Some pt -> page_of s' pt j = page_of s pt j).
  { intros i pt j Hi Ht. destruct (Hother i pt Hi Ht). unfold page_of. by rewrite Hent. }
  assert (Hpd : Tp k <> Some pd) by (intros E; by destruct (dm_table0 k pd ltac:(lia) E) as (_ & _ & ?)).
  split.
  - constructor.
    + apply F.
    + split; [apply (fd_used _ _ _ _ F false); split; [apply dm_dir0|done]|apply F, dm_dir0].
    + intros i Hi. rewrite Hent by (done || apply dm_dir0). apply dm_pde0. lia.
    + intros i pt Hi Ht. destruct (dm_table0 i pt ltac:(lia) Ht) as (? & ? & ?). destruct (Hother i pt Hi Ht).
      split_and!; [|by apply F|done]. by apply (fd_used _ _ _ _ F false).
    + intros i i' pt Hi Hi'. apply dm_inj0; lia.
    + intros i pt j w Hi Ht Hj. destruct (Hother i pt Hi Ht). rewrite Hent by done. apply (dm_word0 i); [lia|done..].
    + intros i pt j q Hi Ht Hj. rewrite (Hpo i) by done. intros Hq. apply (fd_used _ _ _ _ F true).
      split; [apply (dm_used0 i pt j); [lia|done..]|]. intros (pt' & j' & Ht' & Hj' & Hq').
      destruct (dm_pages0 i k pt pt' j j' q); [lia..|done|done|lia|lia|done|done|]. lia.
    + intros i i' pt pt' j j' q Hi Hi' Ht Ht' Hj Hj'. rewrite (Hpo i), (Hpo i') by done.
      apply (dm_pages0 i i' pt pt'); (lia || done).
  - intros q. unfold pages_from. split; intros (i & pt & j & Hi & Ht & Hj & Hq); exists i, pt, j; rewrite (Hpo i) in *; done.
Qed.

Lemma free_pdes_run pd Tp n : forall s k,
  doomed s pd Tp k -> 0 <= k -> k + Z.of_nat n = 768 ->
  exists s', free_pdes n (pd + 4 * k) s = Ok (tt, s') /\ freed s s' (pages_from s Tp k) (tables_from Tp k).
Proof.
  induction n as [|n IH]; intros s k Hd Hk Hn.
  { exists s. split; [done|]. eapply freed_ext; [apply freed_refl; apply Hd| |]; intros q; split; try done.
    - intros (i & ? & ? & ? & _). lia.
    - intros (i & ? & _). lia. }
  pose proof (dm_machine _ _ _ _ Hd) as Hs. destruct (used_range s pd Hs) as (Hr & Hm & _); [apply Hd|].
  pose proof (dm_pde _ _ _ _ Hd k ltac:(lia)) as He.
  set (w := match Tp k with Some pt => pde_word pt | None => 0 end) in *.
  assert (Hstep : exists s1, (if negb (Z.land w PTE_P =? 0) then pt ← lift (pde_get_pt w);
        _ ← free_ptes (Z.to_nat (PGSIZE / 4)) pt; palloc_free_page pt else mret tt) s = Ok (tt, s1) /\
      freed s s1 (fun q => exists pt j, Tp k = Some pt /\ 0 <= j < 1024 /\ page_of s pt j = Some q) (fun q => Tp k = Some q)).
  { unfold w. destruct (Tp k) as [pt|] eqn:Ht.
    - destruct (dm_table _ _ _ _ Hd k pt ltac:(lia) Ht) as (Hu & _). destruct (used_range s pt Hs Hu) as (Hpr & Hpm & _).
      destruct (pde_word_ok pt Hpr Hpm) as (_ & Hg & _). destruct (free_table s pd Tp k pt Hd ltac:(lia) Ht) as (s1 & E1 & F1).
      assert (Hp : Z.land (pde_word pt) PTE_P =? 0 = false).
      { clear E1. unfold pde_get_pt, ASSERT in Hg. by destruct (Z.land (pde_word pt) PTE_P =? 0). }
      exists s1. split.
      + rewrite Hp. cbv iota beta delta [negb]. bind_by (rewrite Hg; reflexivity). exact E1.
      + clear E1. eapply freed_ext; [exact F1|naive_solver|naive_solver].
    - exists s. split; [done|]. eapply freed_ext; [by apply freed_refl|naive_solver|naive_solver]. }
  destruct Hstep as (s1 & E1 & F1). destruct (doomed_next s s1 pd Tp k Hd ltac:(lia) F1) as [Hd1 Hpf].
  destruct (IH s1 (k + 1) Hd1) as (s2 & E2 & F2); [lia..|]. exists s2. split.
  - cbn [free_pdes]. unfold PHYS_BASE in *. bind_by (rewrite load_entry, He by (lia || done); reflexivity).
    bind_by (exact E1). replace (pd + 4 * k + 4) with (pd + 4 * (k + 1)) by lia. exact E2.
  - eapply freed_ext; [by eapply freed_trans| |]; intros q; simpl.
    + rewrite Hpf. split.
      * intros [(pt & j & ? & ? & ?)|(i & pt & j & ? & ? & ? & ?)]; [exists k, pt, j|exists i, pt, j]; split_and!; (lia || done).
      * intros (i & pt & j & Hi & ? & ? & ?). destruct (decide (i = k)) as [->|]; [left; by exists pt, j|].
        right. exists i, pt, j. split_and!; (lia || done).
    + split.
      * intros [?|(i & ? & ?)]; [exists k|exists i]; (split; [lia|done]).
      * intros (i & Hi & ?). destruct (decide (i = k)) as [->|]; [by left|]. right. exists i. split; [lia|done].
Qed.

(** The page the directory maps the address to. *)
Definition mapped (s : machine) (T : gmap (Z * Z) Z) (pd va q : Z) : Prop :=
  has PTE_P (pte s T pd va) = true /\ q = Z.land (pte s T pd va) PTE_ADDR + PHYS_BASE.

(** A user address from its indices. *)
Lemma va_of i j : 0 <= i < 768 -> 0 <= j < 1024 ->
  exists va, 0 <= va < PHYS_BASE /\ pg_ofs va = 0 /\ pd_no va = i /\ pt_no va = j.
Proof.
  intros Hi Hj. exists (PGSIZE * (1024 * i + j)). unfold PHYS_BASE, PGSIZE. split; [lia|].
  rewrite pg_ofs_mod, pd_no_div, pt_no_divmod. unfold PGSIZE. Z.to_euclidean_division_equations. lia.
Qed.

Lemma page_of_mapped s T pd va pt q :
  T !! (pd, pd_no va) = Some pt -> page_of s pt (pt_no va) = Some q -> mapped s T pd va q.
Proof.
  intros Ht. unfold page_of, mapped, pte. rewrite Ht. destruct (entry s pt (pt_no va)) as [w|]; [|done].
  cbn [mbind option_bind]. simpl. destruct (has PTE_P w); [|done]. by intros [=<-].
Qed.

Lemma mapped_page_of s T pd va q :
  mapped s T pd va q -> exists pt, T !! (pd, pd_no va) = Some pt /\ page_of s pt (pt_no va) = Some q.
Proof.
  unfold mapped, pte, page_of. intros [Hp ->]. destruct (T !! (pd, pd_no va)) as [pt|]; [|done].
  exists pt. split; [done|]. destruct (entry s pt (pt_no va)) as [w|]; [|done]. simpl in Hp. cbn [mbind option_bind].
  by rewrite Hp.
Qed.

Section Destroy.
Context (s : machine) (P : gset Z) (T : gmap (Z * Z) Z) (pd : Z).
Hypothesis Hs : spaces s P T.
Hypothesis Hpd : pd ∈ P.
Hypothesis Hni : pd <> init_page_dir s.
Hypothesis Hused : forall va q, 0 <= va < PHYS_BASE -> mapped s T pd va q -> Palloc.used (user_pool s) q.
Hypothesis Hinj : forall va va' q, 0 <= va < PHYS_BASE -> 0 <= va' < PHYS_BASE ->
  mapped s T pd va q -> mapped s T pd va' q -> pd_no va = pd_no va' /\ pt_no va = pt_no va'.

Local Definition Tp (i : Z) : option Z := T !! (pd, i).

Lemma mapped_index i pt j q :
  0 <= i < 768 -> Tp i = Some pt -> 0 <= j < 1024 -> page_of s pt j = Some q ->
  exists va, 0 <= va < PHYS_BASE /\ pd_no va = i /\ pt_no va = j /\ mapped s T pd va q.
Proof.
  intros Hi Ht Hj Hq. destruct (va_of i j Hi Hj) as (va & Hva & _ & <- & <-). exists va.
  split_and!; try done; try lia. by apply (page_of_mapped s T pd va pt).
Qed.

Lemma doomed_dir : doomed s pd Tp 0.
Proof.
  constructor.
  - apply Hs.
  - by apply (sp_dir _ _ _ Hs).
  - intros i Hi. by apply (sp_pde _ _ _ Hs).
  - intros i pt Hi Ht. destruct (sp_table _ _ _ Hs _ _ _ Ht) as (_ & _ & ? & ? & HnP). split_and!; [done..|]. by intros ->.
  - intros i i' pt _ _ Ht Ht'. pose proof (sp_inj _ _ _ Hs _ _ _ Ht Ht') as E. by injection E.
  - intros i pt j w _ Ht. by apply (sp_word _ _ _ Hs (pd, i)).
  - intros i pt j q Hi Ht Hj Hq. destruct (mapped_index i pt j q) as (va & Hva & _ & _ & Hm); [done..|]. by apply (Hused va).
  - intros i i' pt pt' j j' q Hi Hi' Ht Ht' Hj Hj' Hq Hq'.
    destruct (mapped_index i pt j q) as (va & Hva & <- & <- & Hm); [done..|].
    destruct (mapped_index i' pt' j' q) as (va' & Hva' & <- & <- & Hm'); [done..|]. by apply (Hinj va va' q).
Qed.

(** The tables of the other directories. *)
Definition other_tables : gmap (Z * Z) Z := filter (fun kv => kv.1.1 <> pd) T.

Lemma destroy_run :
  exists s', pagedir_destroy pd s = Ok (tt, s') /\
    spaces s' (P ∖ {[pd]}) other_tables /\
    (forall pd' va, 0 <= va < PHYS_BASE -> pd' <> pd -> pte s' other_tables pd' va = pte s T pd' va) /\
    (forall v, base (get_pool v s') = base (get_pool v s)) /\
    (forall v, bit_cnt (used_map (get_pool v s')) = bit_cnt (used_map (get_pool v s))) /\
    (forall q, Palloc.used (user_pool s') q <->
       Palloc.used (user_pool s) q /\ ~ exists va, 0 <= va < PHYS_BASE /\ mapped s T pd va q) /\
    (forall q, Palloc.used (user_pool s') q -> memory s' !! q = memory s !! q) /\
    init_page_dir s' = init_page_dir s /\ init_ram_pages s' = init_ram_pages s /\ cr3 s' = cr3 s.
Proof.
  pose proof (sp_machine _ _ _ Hs) as Hm. destruct (pd_range s P T pd Hs Hpd) as (_ & _ & Hn).
  destruct (free_pdes_run pd Tp (Z.to_nat (pd_no PHYS_BASE)) s 0 doomed_dir) as (s1 & E1 & F1); [lia|done|].
  rewrite Z.mul_0_r, Z.add_0_r in E1.
  assert (Hnt : forall i, Tp i <> Some pd).
  { intros i Ht. by destruct (sp_table _ _ _ Hs _ _ _ Ht) as (_ & _ & _ & _ & ?). }
  destruct (free_run s1 false pd) as (s2 & E2 & F2).
  { apply F1. } { apply (fd_used _ _ _ _ F1 false). split; [by apply (sp_dir _ _ _ Hs)|]. intros (i & _ & Ht). by apply (Hnt i). }
  exists s2. split.
  { unfold pagedir_destroy. rewrite (proj2 (Z.eqb_neq _ _) Hn). bind_by reflexivity.
    bind_by (apply assert_run; by rewrite (proj2 (Z.eqb_neq _ _) Hni)). bind_by (exact E1). exact E2. }
  clear E1 E2. pose proof (freed_trans _ _ _ _ _ _ _ F1 F2) as F. clear F1 F2 s1.
  assert (Hgone : forall q, pages_from s Tp 0 q <-> exists va, 0 <= va < PHYS_BASE /\ mapped s T pd va q).
  { intros q. split.
    - intros (i & pt & j & Hi & Ht & Hj & Hq). destruct (mapped_index i pt j q) as (va & Hva & _ & _ & Hmp); [done..|]. by exists va.
    - intros (va & Hva & Hmp). destruct (mapped_page_of s T pd va q Hmp) as (pt & Ht & Hq). destruct (user_indices va Hva).
      by exists (pd_no va), pt, (pt_no va). }
  assert (Hmem : forall q, (forall i, Tp i <> Some q) -> q <> pd -> ~ pages_from s Tp 0 q -> memory s2 !! q = memory s !! q).
  { intros q Ht Hq Hp. apply (fd_memory _ _ _ _ F); [tauto|]. intros [(i & _ & Hi)|[_ ->]]; [by apply (Ht i)|done]. }
  assert (Hker : forall q, Palloc.used (kernel_pool s) q -> ~ pages_from s Tp 0 q).
  { intros q Hq (va & Hva & Hmp)%Hgone. apply (user_not_kernel_page s q Hm); [by apply (Hused va)|done]. }
  assert (Hent : forall q j, Palloc.used (kernel_pool s) q -> (forall i, Tp i <> Some q) -> q <> pd -> entry s2 q j = entry s q j).
  { intros q j Hq Ht Hne. unfold entry. by rewrite Hmem by auto. }
  assert (Hkeep : forall q, Palloc.used (kernel_pool s) q -> (forall i, Tp i <> Some q) -> q <> pd -> Palloc.used (kernel_pool s2) q).
  { intros q Hq Ht Hne. apply (fd_used _ _ _ _ F false). split; [done|]. intros [(i & _ & Hi)|[_ ?]]; [by apply (Ht i)|done]. }
  assert (Hoth : forall k pt, other_tables !! k = Some pt -> T !! k = Some pt /\ (forall i, Tp i <> Some pt) /\ pt <> pd /\
      Palloc.used (kernel_pool s) pt).
  { intros [q i] pt [Ht Hne]%map_lookup_filter_Some. simpl in Hne. destruct (sp_table _ _ _ Hs _ _ _ Ht) as (_ & _ & Hu & _ & HnP).
    split_and!; [done| |by intros ->|done]. intros i' Ht'. pose proof (sp_inj _ _ _ Hs _ _ _ Ht Ht') as E. by injection E. }
  assert (Hdir : forall q, q ∈ P ∖ {[pd]} -> q ∈ P /\ q <> pd /\ (forall i, Tp i <> Some q) /\ Palloc.used (kernel_pool s) q).
  { intros q [Hq Hne]%elem_of_difference. apply not_elem_of_singleton in Hne. split_and!; [done..| |by apply (sp_dir _ _ _ Hs)].
    intros i Ht. by destruct (sp_table _ _ _ Hs _ _ _ Ht) as (_ & _ & _ & _ & ?). }
  pose proof (fd_vars _ _ _ _ F) as (I & R & X).
  split; [|split].
  - constructor; rewrite ?I, ?X.
    + apply F.
    + intros q Hq. destruct (Hdir q Hq) as (HqP & ? & ? & ?). split; [auto|]. apply F. by apply (sp_dir _ _ _ Hs).
    + intros q i Hq Hi. destruct (Hdir q Hq) as (HqP & Hne & ? & ?). rewrite Hent by done. rewrite (sp_pde _ _ _ Hs) by done.
      unfold other_tables. rewrite map_lookup_filter. destruct (T !! (q, i)); [|done].
      cbn [mbind option_bind]. by rewrite option_guard_True.
    + intros q i pt Ht. destruct (Hoth _ _ Ht) as (Ht' & ? & ? & ?). destruct (sp_table _ _ _ Hs _ _ _ Ht') as (HqP & ? & ? & ? & ?).
      apply map_lookup_filter_Some in Ht as [_ Hne]. simpl in Hne. split_and!; [set_solver|lia|lia|auto|by apply F|set_solver].
    + intros k1 k2 pt H1 H2. apply (sp_inj _ _ _ Hs k1 k2 pt); by apply Hoth.
    + intros k pt j w Hk Hj. destruct (Hoth _ _ Hk) as (Ht' & ? & ? & ?). rewrite Hent by done. by apply (sp_word _ _ _ Hs k).
    + destruct (sp_init _ _ _ Hs) as [Hi Hno]. split; [set_solver|]. intros i. apply map_lookup_filter_None. left. apply Hno.
    + apply Hs.
  - intros pd' va Hva Hne. unfold pte. destruct (other_tables !! (pd', pd_no va)) as [pt|] eqn:E.
    + destruct (Hoth _ _ E) as (-> & ? & ? & ?). by rewrite Hent.
    + apply map_lookup_filter_None in E as [->|E]; [done|]. destruct (T !! (pd', pd_no va)) eqn:E'; [|done].
      by destruct (E _ eq_refl).
  - split_and!; try done; try apply F.
    + intros q. rewrite <- Hgone. rewrite (fd_used _ _ _ _ F true). naive_solver.
    + intros q Hq. pose proof Hq as [Hu Hno]%(fd_used _ _ _ _ F true). apply Hmem.
      * intros i Ht. destruct (sp_table _ _ _ Hs _ _ _ Ht) as (_ & _ & Hk & _). by apply (user_not_kernel_page s q).
      * intros ->. apply (user_not_kernel_page s pd Hm); [done|]. by apply (sp_dir _ _ _ Hs).
      * tauto.
Qed.
End Destroy.

(** ** Theorems *)

(** A machine with the kernel's directory and one other, both without user
    mappings. *)
Definition paging_machine : machine :=
  mk_machine (mk_pool (mk_bitmap 4 [3]) 0xc0100000) (mk_pool (mk_bitmap 4 [1]) 0xc0200000)
    {[ 0xc0100000 := zero_page; 0xc0101000 := zero_page ]} 0xc0100000 1024 0x101000.
Definition paging_dirs : gset Z := {[ 0xc0100000; 0xc0101000 ]}.

Lemma paging_machine_ok : spaces paging_machine paging_dirs ∅.
Proof.
  assert (Hd : forall pd, pd ∈ paging_dirs -> memory paging_machine !! pd = Some zero_page).
  { intros pd [->%elem_of_singleton| ->%elem_of_singleton]%elem_of_union; done. }
  constructor; try done.
  - constructor; [constructor; try done; constructor; try done; by repeat constructor..|done].
  - intros pd Hpd. split; [|exists zero_page; auto using zero_page_length].
    apply elem_of_union in Hpd as [->%elem_of_singleton| ->%elem_of_singleton]; [by exists 0|by exists 1].
  - intros pd i Hpd Hi. unfold entry. rewrite Hd by done. cbn [mbind option_bind]. by rewrite zero_page_entry by lia.
Qed.

(** An address in a page. *)
Lemma page_plus va o : 0 <= va < PHYS_BASE -> pg_ofs va = 0 -> 0 <= o < PGSIZE ->
  0 <= va + o < PHYS_BASE /\ pd_no (va + o) = pd_no va /\ pt_no (va + o) = pt_no va /\ pg_ofs (va + o) = o.
Proof.
  rewrite !pg_ofs_mod, !pd_no_div, !pt_no_divmod. unfold PHYS_BASE, PGSIZE. intros Hv Hm Ho.
  assert (Hq : va = 4096 * (va / 4096)) by (pose proof (Z.div_mod va 4096 ltac:(lia)); lia).
  assert ((va + o) / 4096 = va / 4096) as E.
  { symmetry. apply (Z.div_unique _ _ _ o); lia. }
  split; [Z.to_euclidean_division_equations; lia|]. split; [Z.to_euclidean_division_equations; lia|].
  split; [by rewrite E|]. Z.to_euclidean_division_equations; lia.
Qed.

(** Addresses of different pages, or of different directories. *)
Definition other_page (pd upage pd' va : Z) : Prop := pd' <> pd \/ pg_no va <> pg_no upage.
Lemma other_not_same pd upage pd' va : 0 <= upage < PHYS_BASE -> 0 <= va < PHYS_BASE ->
  other_page pd upage pd' va <-> ~ same_pte pd upage pd' va.
Proof.
  intros Hu Hv. unfold other_page, same_pte. rewrite !pg_no_div, !pd_no_div, !pt_no_divmod. unfold PHYS_BASE, PGSIZE in *.
  split.
  - intros [Hp|Hp] (? & E1 & E2); [done|]. apply Hp. clear Hp. Z.to_euclidean_division_equations. lia.
  - intros Hn. destruct (decide (pd' = pd)) as [->|]; [right|by left]. intros E. apply Hn. split; [done|].
    split; [|by rewrite E]. Z.to_euclidean_division_equations. lia.
Qed.

(** C18: Page directories are maps from pages to pages.  Mapping a user page
    that is not mapped either succeeds, and then exactly the addresses of that
    page of that process translate to the frame given, clean and not accessed,
    while every other address of every process translates as before; or there
    is no page for a page table and nothing changes.  The content of the pages of
    the user pool stays the same in both cases. *)
Theorem pagedir_maps_page s P T pd upage kpage w :
  spaces s P T -> pd ∈ P -> pd <> init_page_dir s ->
  0 <= upage < PHYS_BASE -> pg_ofs upage = 0 -> pagedir_get_page pd upage s = Ok (NULL, s) ->
  PHYS_BASE <= kpage < 2 ^ 32 -> pg_ofs kpage = 0 -> Z.shiftr (kpage - PHYS_BASE) PTSHIFT < init_ram_pages s ->
  (exists s' T', install_page pd upage kpage w s = Ok (true, s') /\ spaces s' P T' /\ apart s s' /\
     (forall o, 0 <= o < PGSIZE -> pagedir_get_page pd (upage + o) s' = Ok (kpage + o, s')) /\
     pagedir_is_dirty pd upage s' = Ok (false, s') /\ pagedir_is_accessed pd upage s' = Ok (false, s') /\
     forall pd' va r, pd' ∈ P -> 0 <= va < PHYS_BASE -> other_page pd upage pd' va ->
       pagedir_get_page pd' va s' = Ok (r, s') <-> pagedir_get_page pd' va s = Ok (r, s)) \/
  pool_full (kernel_pool s) /\ install_page pd upage kpage w s = Ok (false, s).
Proof.
  intros Hs Hpd Hni Hu Huo Hnull Hk Hko Hram. rewrite pg_ofs_mod in Hko.
  assert (Habs : has PTE_P (pte s T pd upage) = false).
  { apply not_true_iff_false. intros Hp. rewrite (get_page_run s P T) in Hnull by done. injection Hnull as Hnull.
    unfold translate in Hnull. rewrite Hp, Huo in Hnull.
    destruct (word_page _ (pte_range s P T pd upage Hs Hu)) as (_ & Hr & _). unfold NULL, PHYS_BASE in *. lia. }
  rewrite (install_page_run s P T) by done.
  destruct (set_page_run s P T pd upage kpage w) as [(s' & T' & E & Hs' & _ & Ha & Hp)|(_ & Hpf & E)]; [done..| |by right].
  left. exists s', T'. destruct (user_word_ok kpage w Hk Hko) as (_ & _ & Hadr & HP & _ & HA & HD).
  assert (Hown : pte s' T' pd upage = user_word kpage w) by (rewrite Hp, decide_True by done; done).
  split_and!; try done.
  - intros o Ho. destruct (page_plus upage o Hu Huo Ho) as (Hv & E1 & E2 & E3).
    rewrite (get_page_run s' P T') by done. unfold translate. rewrite Hp by done. rewrite decide_True by done.
    rewrite HP, E3, Hadr. done.
  - unfold pagedir_is_dirty. rewrite (is_flag_run s' P T') by done. by rewrite Hown, HD.
  - unfold pagedir_is_accessed. rewrite (is_flag_run s' P T') by done. by rewrite Hown, HA.
  - intros pd' va r Hpd' Hv Hne. rewrite (get_page_run s' P T'), (get_page_run s P T) by done.
    rewrite Hp by done. rewrite decide_False by (by apply other_not_same). split; intros [=<-]; done.
Qed.

Lemma pagedir_maps_page_witness :
  (exists s' T', install_page 0xc0101000 0x8048000 0xc0200000 true paging_machine = Ok (true, s') /\
     spaces s' paging_dirs T' /\ pagedir_get_page 0xc0101000 (0x8048000 + 7) s' = Ok (0xc0200000 + 7, s')) \/
  pool_full (kernel_pool paging_machine) /\
  install_page 0xc0101000 0x8048000 0xc0200000 true paging_machine = Ok (false, paging_machine).
Proof.
  assert (H7 : 0 <= 7 < PGSIZE) by done.
  destruct (pagedir_maps_page paging_machine paging_dirs ∅ 0xc0101000 0x8048000 0xc0200000 true)
    as [(s' & T' & E & Hs & _ & Hg & _)|E].
  - exact paging_machine_ok.
  - apply elem_of_union_r. by apply elem_of_singleton.
  - done.
  - done.
  - done.
  - by rewrite (get_page_run _ _ _ 0xc0101000 0x8048000 paging_machine_ok) by (done || by apply elem_of_union_r, elem_of_singleton).
  - done.
  - done.
  - done.
  - left. exists s', T'. split; [exact E|]. split; [exact Hs|]. exact (Hg 7 H7).
  - by right.
Defined.

(** [pagedir_clear_page] takes away the translation of exactly one page;
    its accessed and dirty bits stay readable. *)
Theorem pagedir_clears_page s P T pd upage :
  spaces s P T -> pd ∈ P -> 0 <= upage < PHYS_BASE -> pg_ofs upage = 0 ->
  exists s', pagedir_clear_page pd upage s = Ok (tt, s') /\ spaces s' P T /\ apart s s' /\
    (forall o, 0 <= o < PGSIZE -> pagedir_get_page pd (upage + o) s' = Ok (NULL, s')) /\
    (forall b, pagedir_is_dirty pd upage s' = Ok (b, s') <-> pagedir_is_dirty pd upage s = Ok (b, s)) /\
    (forall b, pagedir_is_accessed pd upage s' = Ok (b, s') <-> pagedir_is_accessed pd upage s = Ok (b, s)) /\
    forall pd' va r, pd' ∈ P -> 0 <= va < PHYS_BASE -> other_page pd upage pd' va ->
      pagedir_get_page pd' va s' = Ok (r, s') <-> pagedir_get_page pd' va s = Ok (r, s).
Proof.
  intros Hs Hpd Hu Huo. destruct (clear_page_run s P T pd upage Hs Hpd Hu Huo) as (s' & E & Hs' & [Ha _] & Hp).
  pose proof (pte_range s P T pd upage Hs Hu) as [Hw _].
  assert (Hbit : forall k, k <> 0 -> 0 <= k -> has (2 ^ k) (pte s' T pd upage) = has (2 ^ k) (pte s T pd upage)).
  { intros k Hk0 Hk. rewrite Hp, decide_True by done. destruct (T !! (pd, pd_no upage)) as [pt|] eqn:Et.
    - cbn [flag_word]. unfold flag_word. change PTE_P with (2 ^ 0). rewrite has_clear by (done || lia).
      by rewrite (proj2 (Z.eqb_neq k 0) Hk0).
    - unfold pte. by rewrite Et. }
  exists s'. split_and!; try done.
  - intros o Ho. destruct (page_plus upage o Hu Huo Ho) as (Hv & E1 & E2 & _).
    rewrite (get_page_run s' P T) by done. unfold translate. rewrite Hp, decide_True by done.
    destruct (T !! (pd, pd_no upage)); [|done]. unfold flag_word. change PTE_P with (2 ^ 0). by rewrite has_clear by (done || lia).
  - intros b. unfold pagedir_is_dirty. rewrite (is_flag_run s' P T), (is_flag_run s P T) by done.
    change PTE_D with (2 ^ 6). rewrite Hbit by done. split; intros [=<-]; done.
  - intros b. unfold pagedir_is_accessed. rewrite (is_flag_run s' P T), (is_flag_run s P T) by done.
    change PTE_A with (2 ^ 5). rewrite Hbit by done. split; intros [=<-]; done.
  - intros pd' va r Hpd' Hv Hne. rewrite (get_page_run s' P T), (get_page_run s P T) by done.
    rewrite Hp by done. rewrite decide_False by (by apply other_not_same). split; intros [=<-]; done.
Qed.

Lemma pagedir_clears_page_witness :
  exists s', pagedir_clear_page 0xc0101000 0x8048000 paging_machine = Ok (tt, s') /\
    pagedir_get_page 0xc0101000 (0x8048000 + 0) s' = Ok (NULL, s').
Proof.
  assert (H0 : 0 <= 0 < PGSIZE) by done.
  destruct (pagedir_clears_page paging_machine paging_dirs ∅ 0xc0101000 0x8048000) as (s' & E & _ & _ & Hg & _).
  - exact paging_machine_ok.
  - apply elem_of_union_r. by apply elem_of_singleton.
  - done.
  - done.
  - exists s'. split; [exact E|]. exact (Hg 0 H0).
Defined.
