(* ===== verification/Spage.v ===== *)
(** * Supplemental page tables: [vm/spagetable.h] and [vm/spagetable.c]

    A process describes every page of its address space by a [struct spinfo];
    its table is a list of them, searched from the front. *)

From S2P Require Import Prelude.

Inductive load_instruction := USELESS | FILE | SWAP | STACK.

#[global] Instance load_instruction_eq_dec : EqDecision load_instruction.
Proof. solve_decision. Defined.

(** [id] stands for the address of the [struct spinfo]. *)
Record spinfo := mk_spinfo {
  sp_id : Z;
  file : Z;
  file_offset : Z;
  bytes_to_read : Z;
  writable : bool;
  upage_address : Z;
  kpage_address : Z;
  instructions : load_instruction;
  index_into_swap : Z;
}.

#[global] Instance spinfo_eq_dec : EqDecision spinfo.
Proof. solve_decision. Defined.

Fixpoint find_spinfo (info_list : list spinfo) (page : Z) : option spinfo :=
  match info_list with
  | [] => None
  | e :: rest => if upage_address e =? page then Some e else find_spinfo rest page
  end.

(** Stores into the members of the entry at address [id]. *)
Definition upd_spinfo (id : Z) (f : spinfo -> spinfo) (l : list spinfo) : list spinfo :=
  map (fun e => if sp_id e =? id then f e else e) l.

Definition set_kpage (k : Z) (e : spinfo) : spinfo :=
  mk_spinfo (sp_id e) (file e) (file_offset e) (bytes_to_read e) (writable e)
    (upage_address e) k (instructions e) (index_into_swap e).
Definition set_instructions (i : load_instruction) (idx : Z) (e : spinfo) : spinfo :=
  mk_spinfo (sp_id e) (file e) (file_offset e) (bytes_to_read e) (writable e)
    (upage_address e) (kpage_address e) i idx.

Lemma find_spinfo_spec l page :
  match find_spinfo l page with
  | Some e => e ∈ l /\ upage_address e = page
  | None => forall e, e ∈ l -> upage_address e <> page
  end.
Proof.
  induction l as [|x l IH]; simpl; [by intros e ?%not_elem_of_nil|].
  destruct (upage_address x =? page) eqn:E; bool_to_prop; [split; [left|done]|].
  destruct (find_spinfo l page) as [e|].
  - destruct IH. split; [by right|done].
  - intros e [->|?]%elem_of_cons; auto.
Qed.

Lemma find_spinfo_app l l' page e : find_spinfo l page = Some e -> find_spinfo (l ++ l') page = Some e.
Proof. induction l as [|x l IH]; simpl; [done|]. destruct (upage_address x =? page); [done|]. auto. Qed.
Lemma find_spinfo_snoc l e page :
  find_spinfo l page = None ->
  find_spinfo (l ++ [e]) page = if upage_address e =? page then Some e else None.
Proof.
  induction l as [|x l IH]; simpl; [done|]. destruct (upage_address x =? page); [done|]. auto.
Qed.

(** Stores to members other than the user address leave searches as they are. *)
Lemma find_spinfo_upd l id f page :
  (forall e, sp_id (f e) = sp_id e) -> (forall e, upage_address (f e) = upage_address e) ->
  find_spinfo (upd_spinfo id f l) page =
    (fun e => if sp_id e =? id then f e else e) <$> find_spinfo l page.
Proof.
  intros Hid Hup. induction l as [|x l IH]; simpl; [done|].
  destruct (sp_id x =? id) eqn:E; rewrite ?Hup; destruct (upage_address x =? page); simpl;
    rewrite ?E; done.
Qed.

Lemma NoDup_map_inj {A B} (g : A -> B) l x y : NoDup (map g l) -> x ∈ l -> y ∈ l -> g x = g y -> x = y.
Proof.
  intros Hnd Hx Hy E. apply list_elem_of_lookup in Hx as [i Hi], Hy as [j Hj].
  assert (i = j) as ->; [|congruence].
  apply (NoDup_lookup (map g l) i j (g x) Hnd); rewrite list_lookup_fmap; [by rewrite Hi|by rewrite Hj, E].
Qed.
Lemma find_spinfo_elem l e page : NoDup (map upage_address l) -> e ∈ l -> upage_address e = page -> find_spinfo l page = Some e.
Proof.
  intros Hnd He Eu. pose proof (find_spinfo_spec l page) as Hs. destruct (find_spinfo l page) as [x|]; [|by destruct (Hs e He)].
  destruct Hs as [Hx Ex]. f_equal. apply (NoDup_map_inj upage_address l); try done. congruence.
Qed.

(** An update of the entry [e], named by its address. *)
Lemma upd_spinfo_elem l e f x :
  NoDup (map sp_id l) -> e ∈ l -> (forall y, sp_id (f y) = sp_id y) ->
  x ∈ upd_spinfo (sp_id e) f l <-> x = f e \/ x ∈ l /\ sp_id x <> sp_id e.
Proof.
  intros Hnd He Hf. unfold upd_spinfo. rewrite list_elem_of_fmap. split.
  - intros (y & -> & Hy). destruct (sp_id y =? sp_id e) eqn:E; bool_to_prop; [left|by right].
    f_equal. by apply (NoDup_map_inj sp_id l).
  - intros [->|[Hx Hn]]; [exists e|exists x]; (split; [|done]).
    + by rewrite Z.eqb_refl.
    + by rewrite (proj2 (Z.eqb_neq _ _) Hn).
Qed.

Lemma upd_spinfo_map {A} (g : spinfo -> A) l id f :
  (forall y, g (f y) = g y) -> map g (upd_spinfo id f l) = map g l.
Proof.
  intros Hg. unfold upd_spinfo. rewrite map_map. apply map_ext. intros y. by destruct (sp_id y =? id).
Qed.
