(* ===== verification/Swap.v ===== *)
(** * The swap table: [vm/swaptable.c], [vm/swaptable.h]

    The swap device is divided into slots of eight sectors, one page each.  The
    table says which slots are taken, what kind of page they hold and whether
    the page was modified. *)

From S2P Require Import Prelude Vaddr Block Palloc Spage.

Record metaswap_entry := mk_swap_entry {
  swap_index : Z;
  slot_filled : bool;
  instructions_for_pageheld : load_instruction;
  slot_dirty : bool;
}.

Record swap (D : Type) := mk_swap {
  swap_block : block D;
  swaptable : list metaswap_entry;
  swaptable_size : Z;
}.
Arguments mk_swap {D} _ _ _. Arguments swap_block {D} _. Arguments swaptable {D} _. Arguments swaptable_size {D} _.

Section Operations.
Context {D : Type} `{BlockOperations D}.

(** [dev] is the device with the role [BLOCK_SWAP]; [mem] tells whether [calloc]
    gets memory: the stores through its null pointer trap. *)
Definition swaptable_init (dev : option (block D)) (mem : bool) : res (swap D) :=
  match dev with
  | None => Err (Panicked "Swap_block == NULL")
  | Some b =>
      let size := b_size b / (PGSIZE / BLOCK_SECTOR_SIZE) in
      if negb mem && (0 <? size) then Err Trap
      else mret (mk_swap b (map (fun i => mk_swap_entry i false USELESS false) (seqZ 0 size)) size)
  end.

(** The entries are named by their position in the table. *)
Definition get_entry (i : Z) : M (swap D) metaswap_entry := fun s =>
  match swaptable s !! Z.to_nat i with Some e => Ok (e, s) | None => Err Trap end.
Definition put_entry (i : Z) (e : metaswap_entry) : M (swap D) unit :=
  modify (fun s => mk_swap (swap_block s) (<[Z.to_nat i := e]> (swaptable s)) (swaptable_size s)).

(** The first comparison is between unsigned integers. *)
Definition get_metaswap_entry_byindex (index : Z) : M (swap D) Z :=
  s ← get;
  _ ← assert (u32 index <? swaptable_size s);
  _ ← assert (0 <=? index);
  mret index.

Fixpoint empty_entry_loop (l : list metaswap_entry) (i : Z) : option Z :=
  match l with
  | [] => None
  | e :: l => if negb (slot_filled e) then Some i else empty_entry_loop l (i + 1)
  end.
Definition next_empty_metaswap_entry : M (swap D) Z :=
  s ← get;
  match empty_entry_loop (swaptable s) 0 with
  | Some i => mret i
  | None => fail (Panicked "No more swap space!!!!")
  end.

Definition on_swap {A} (m : M (block D) A) : M (swap D) A := fun s =>
  match m (swap_block s) with
  | Ok (a, b) => Ok (a, mk_swap b (swaptable s) (swaptable_size s))
  | Err e => Err e
  end.

(** The loops over the eight sectors; [n] are left, [buffer] is the content of
    the page from the next sector on. *)
Fixpoint write_slot (n : nat) (sec : Z) (buffer : list Z) : M (swap D) unit :=
  match n with
  | O => mret tt
  | S n =>
      _ ← on_swap (block_write (u32 sec) (take 512 buffer));
      write_slot n (sec + 1) (drop 512 buffer)
  end.
Fixpoint read_slot (n : nat) (sec : Z) : M (swap D) (list Z) :=
  match n with
  | O => mret []
  | S n => bs ← on_swap (block_read (u32 sec)); rest ← read_slot n (sec + 1); mret (bs ++ rest)
  end.

(** [bytes] is the content of the page. *)
Definition move_into_swap (page : Z) (bytes : list Z) (instruction : load_instruction) (isdirty : bool) : M (swap D) Z :=
  if page =? NULL then fail (Panicked "Page in move_into_swap == NULL")
  else
    i ← next_empty_metaswap_entry;
    e ← get_entry i;
    _ ← write_slot 8 (8 * swap_index e) bytes;
    _ ← put_entry i (mk_swap_entry (swap_index e) true instruction isdirty);
    mret (swap_index e).

(** The bytes stored to the page. *)
Definition read_from_swap (index page : Z) : M (swap D) (list Z) :=
  _ ← assert (negb (index =? -1));
  if page =? NULL then fail (Panicked "Page in read_from_swap == NULL")
  else read_slot 8 (8 * index).

Definition free_metaswap_entry (index : Z) : M (swap D) Z :=
  _ ← assert (negb (index =? -1));
  i ← get_metaswap_entry_byindex index;
  e ← get_entry i;
  _ ← assert (slot_filled e);
  _ ← put_entry i (mk_swap_entry (swap_index e) false USELESS (slot_dirty e));
  mret i.
End Operations.

(** ** The invariant *)

Section Laws.
Context `{BlockLaws D}.
Implicit Types s : swap D.

Record swap_ok s : Prop := {
  so_block : block_ok (swap_block s);
  so_length : length (swaptable s) = Z.to_nat (swaptable_size s);
  so_size : 0 <= swaptable_size s /\ 8 * swaptable_size s <= b_size (swap_block s);
  so_index : forall i e, swaptable s !! i = Some e -> swap_index e = Z.of_nat i;
}.

(** The eight sectors from [sec] on. *)
Fixpoint sectors_from (b : block D) (n : nat) (sec : Z) : list Z :=
  match n with O => [] | S n => sector b sec ++ sectors_from b n (sec + 1) end.
Definition slot_bytes s (i : Z) : list Z := sectors_from (swap_block s) 8 (8 * i).

Lemma sectors_from_ext b b' n : forall sec,
  (forall k, sec <= k < sec + Z.of_nat n -> sector b' k = sector b k) -> sectors_from b' n sec = sectors_from b n sec.
Proof.
  induction n as [|n IH]; intros sec He; simpl; [done|]. rewrite He by lia. f_equal. apply IH. intros k Hk. apply He. lia.
Qed.

Lemma write_slot_ok n : forall s sec buf,
  block_ok (swap_block s) -> 0 <= sec -> sec + Z.of_nat n <= b_size (swap_block s) -> length buf = (n * 512)%nat ->
  exists b, write_slot n sec buf s = Ok (tt, mk_swap b (swaptable s) (swaptable_size s)) /\
    like (swap_block s) b /\ sectors_from b n sec = buf /\
    forall k, k < sec \/ sec + Z.of_nat n <= k -> sector b k = sector (swap_block s) k.
Proof.
  induction n as [|n IH]; intros s sec buf Hb Hs Hn Hl.
  { exists (swap_block s). split; [by destruct s|]. split; [by apply like_refl|]. split; [|done].
    simpl. symmetry. by apply nil_length_inv. }
  destruct (block_write_ok (swap_block s) sec (take 512 buf) Hb) as (b1 & E1 & L1 & W1 & O1); [lia|rewrite length_take; lia|].
  pose proof Hb as (_ & _ & Hmax & _). pose proof L1 as (Hb1 & _ & _ & Hz1).
  destruct (IH (mk_swap b1 (swaptable s) (swaptable_size s)) (sec + 1) (drop 512 buf)) as (b & E & L & W & O);
    simpl; [done|lia|lia|rewrite length_drop; lia|].
  simpl in *. exists b. split.
  { bind_by (unfold on_swap; rewrite u32_small, E1 by lia; reflexivity). exact E. }
  split; [by eapply like_trans|]. split.
  - rewrite W, O, W1 by lia. by rewrite take_drop.
  - intros k Hk. rewrite O, O1 by lia. done.
Qed.

Lemma read_slot_ok n : forall s sec,
  block_ok (swap_block s) -> 0 <= sec -> sec + Z.of_nat n <= b_size (swap_block s) ->
  exists b, read_slot n sec s = Ok (sectors_from (swap_block s) n sec, mk_swap b (swaptable s) (swaptable_size s)) /\
    like (swap_block s) b /\ forall k, sector b k = sector (swap_block s) k.
Proof.
  induction n as [|n IH]; intros s sec Hb Hs Hn.
  { exists (swap_block s). split; [by destruct s|]. split; [by apply like_refl|done]. }
  destruct (block_read_ok (swap_block s) sec Hb) as (b1 & E1 & L1 & O1); [lia|].
  pose proof Hb as (_ & _ & Hmax & _). pose proof L1 as (Hb1 & _ & _ & Hz1).
  destruct (IH (mk_swap b1 (swaptable s) (swaptable_size s)) (sec + 1)) as (b & E & L & O); simpl; [done|lia|lia|].
  simpl in *. exists b. split.
  { bind_by (unfold on_swap; rewrite u32_small, E1 by lia; reflexivity). bind_by (exact E).
    by rewrite (sectors_from_ext (swap_block s) b1 n (sec + 1)) by auto. }
  split; [by eapply like_trans|]. intros k. by rewrite O, O1.
Qed.

Lemma empty_entry_spec l : forall k,
  match empty_entry_loop l k with
  | Some i => exists n e, i = k + Z.of_nat n /\ l !! n = Some e /\ slot_filled e = false /\
      forall m e', (m < n)%nat -> l !! m = Some e' -> slot_filled e' = true
  | None => forall n e, l !! n = Some e -> slot_filled e = true
  end.
Proof.
  induction l as [|x l IH]; intros k; simpl; [done|]. destruct (slot_filled x) eqn:E; simpl.
  - specialize (IH (k + 1)). destruct (empty_entry_loop l (k + 1)) as [i|].
    + destruct IH as (n & e & -> & Hn & He & Hlt). exists (S n), e. split_and!; [lia|done|done|].
      intros [|m] e' Hm Hl; simpl in Hl; [by simplify_eq|]. apply (Hlt m); [lia|done].
    + intros [|n] e Hl; simpl in Hl; [by simplify_eq|]. by apply (IH n).
  - exists 0%nat, x. split_and!; [lia|done|done|]. intros; lia.
Qed.

Lemma slot_free_or_full (l : list metaswap_entry) :
  (exists i e, l !! i = Some e /\ slot_filled e = false) \/ (forall i e, l !! i = Some e -> slot_filled e = true).
Proof.
  pose proof (empty_entry_spec l 0) as Hs. destruct (empty_entry_loop l 0); [left|by right].
  destruct Hs as (n & e & _ & Hn & He & _). by exists n, e.
Qed.

(** Taking a slot for a page: the first free one; it then holds the bytes of the
    page, and the other slots are as before. *)
Lemma move_into_swap_ok s page bytes ins dirty :
  swap_ok s -> page <> NULL -> length bytes = 4096%nat ->
  (exists i e, swaptable s !! i = Some e /\ slot_filled e = false) ->
  exists i s', move_into_swap page bytes ins dirty s = Ok (Z.of_nat i, s') /\ swap_ok s' /\
    (exists e, swaptable s !! i = Some e /\ slot_filled e = false) /\
    swaptable s' = <[i := mk_swap_entry (Z.of_nat i) true ins dirty]> (swaptable s) /\
    swaptable_size s' = swaptable_size s /\
    slot_bytes s' (Z.of_nat i) = bytes /\ forall j, 0 <= j -> j <> Z.of_nat i -> slot_bytes s' j = slot_bytes s j.
Proof.
  intros Hs Hp Hl (i0 & e0 & Hi0 & He0). pose proof (empty_entry_spec (swaptable s) 0) as Hsp.
  destruct (empty_entry_loop (swaptable s) 0) as [x|] eqn:El; [|rewrite (Hsp i0 e0 Hi0) in He0; done].
  destruct Hsp as (i & e & -> & Hi & Hf & _). rewrite Z.add_0_l in El. destruct Hs as [Hb Hlen [Hnn Hsz] Hix].
  pose proof (lookup_lt_Some _ _ _ Hi) as Hlt. pose proof (Hix i e Hi) as Hidx.
  destruct (write_slot_ok 8 s (8 * Z.of_nat i) bytes Hb) as (b & E & L & W & O); [lia|lia|lia|].
  pose proof L as (Hb' & _ & _ & Hbz).
  exists i. eexists. split.
  { unfold move_into_swap. rewrite (proj2 (Z.eqb_neq _ _) Hp).
    bind_by (unfold next_empty_metaswap_entry; bind_by reflexivity; rewrite El; reflexivity).
    bind_by (unfold get_entry; rewrite Nat2Z.id, Hi; reflexivity). rewrite Hidx.
    bind_by (exact E). bind_by (unfold put_entry, modify; rewrite Nat2Z.id; reflexivity). reflexivity. }
  simpl. split_and!; try done.
  - constructor; simpl; [done|by rewrite length_insert|lia|].
    intros j e' [(<- & <- & _)|[Hne Hj]]%list_lookup_insert_Some; [done|by apply Hix].
  - by exists e.
  - intros j Hj0 Hne. unfold slot_bytes. simpl swap_block. apply sectors_from_ext. intros k Hk. apply O. lia.
Qed.

(** With every slot taken the kernel stops. *)
Lemma move_into_swap_full s page bytes ins dirty :
  page <> NULL -> (forall i e, swaptable s !! i = Some e -> slot_filled e = true) ->
  move_into_swap page bytes ins dirty s = Err (Panicked "No more swap space!!!!").
Proof.
  intros Hp Hall. pose proof (empty_entry_spec (swaptable s) 0) as Hsp.
  unfold move_into_swap. rewrite (proj2 (Z.eqb_neq _ _) Hp). unfold next_empty_metaswap_entry, mbind, M_bind, get.
  destruct (empty_entry_loop (swaptable s) 0) as [x|]; [|done].
  destruct Hsp as (i & e & _ & Hi & Hf & _). by rewrite (Hall i e Hi) in Hf.
Qed.

(** Reading a slot changes nothing but the state of the driver. *)
Lemma read_from_swap_ok s i page :
  swap_ok s -> 0 <= i < swaptable_size s -> page <> NULL ->
  exists s', read_from_swap i page s = Ok (slot_bytes s i, s') /\ swap_ok s' /\
    swaptable s' = swaptable s /\ swaptable_size s' = swaptable_size s /\ forall j, slot_bytes s' j = slot_bytes s j.
Proof.
  intros [Hb Hlen [Hnn Hsz] Hix] Hi Hp. destruct (read_slot_ok 8 s (8 * i) Hb) as (b & E & L & O); [lia|lia|].
  pose proof L as (Hb' & _ & _ & Hbz). eexists. split.
  { unfold read_from_swap. bind_by (apply assert_run; apply negb_true_iff, Z.eqb_neq; lia).
    rewrite (proj2 (Z.eqb_neq _ _) Hp). exact E. }
  split; [constructor; simpl; try done; lia|]. split_and!; [done..|]. intros j. by apply sectors_from_ext.
Qed.

(** Freeing a slot forgets what kind of page it holds, and keeps whether it was
    modified. *)
Lemma free_metaswap_entry_ok s i e :
  swap_ok s -> swaptable s !! Z.to_nat i = Some e -> 0 <= i < swaptable_size s -> slot_filled e = true ->
  swaptable_size s < 2 ^ 32 ->
  exists s', free_metaswap_entry i s = Ok (i, s') /\ swap_ok s' /\
    swaptable s' = <[Z.to_nat i := mk_swap_entry i false USELESS (slot_dirty e)]> (swaptable s) /\
    swaptable_size s' = swaptable_size s /\ forall j, slot_bytes s' j = slot_bytes s j.
Proof.
  intros [Hb Hlen [Hnn Hsz] Hix] Hi Hr Hf Hmax. pose proof (Hix _ _ Hi) as Hidx. rewrite Z2Nat.id in Hidx by lia.
  eexists. split.
  { unfold free_metaswap_entry, get_metaswap_entry_byindex.
    bind_by (apply assert_run; apply negb_true_iff, Z.eqb_neq; lia).
    bind_by (bind_by reflexivity; bind_by (apply assert_run; rewrite u32_small by lia; apply Z.ltb_lt; lia);
      bind_by (apply assert_run, Z.leb_le; lia); reflexivity).
    bind_by (unfold get_entry; rewrite Hi; reflexivity). bind_by (by apply assert_run).
    bind_by (unfold put_entry, modify; rewrite Hidx; reflexivity). reflexivity. }
  simpl. split_and!; try done.
  constructor; simpl; [done|by rewrite length_insert|lia|].
  intros j e' [(<- & <- & _)|[Hne Hj]]%list_lookup_insert_Some; [simpl; lia|by apply Hix].
Qed.

Lemma swaptable_init_ok b : block_ok b -> 0 <= b_size b ->
  exists s, swaptable_init (Some b) true = Ok s /\ swap_ok s /\ swap_block s = b /\ swaptable_size s = b_size b / 8 /\
    forall i e, swaptable s !! i = Some e -> slot_filled e = false.
Proof.
  intros Hb Hz. eexists. split; [reflexivity|]. change (PGSIZE / BLOCK_SECTOR_SIZE) with 8. simpl. split.
  - constructor; simpl; [done|by rewrite length_map, length_seqZ|Z.to_euclidean_division_equations; lia|].
    intros i e Hi. rewrite list_lookup_fmap in Hi. destruct (seqZ 0 (b_size b / 8) !! i) as [x|] eqn:E; simplify_eq/=.
    apply lookup_seqZ in E as [-> _]. lia.
  - split_and!; [done..|]. intros i e Hi. rewrite list_lookup_fmap in Hi.
    by destruct (seqZ 0 (b_size b / 8) !! i); simplify_eq/=.
Qed.
End Laws.

(** ** Theorem *)

(** A swap device of three slots. *)
Definition demo_swap : swap ram_disk :=
  mk_swap (mk_block "swap" BLOCK_SWAP 24 (replicate 24 (replicate 512 0)) 0 0)
    [mk_swap_entry 0 true STACK true; mk_swap_entry 1 false USELESS false; mk_swap_entry 2 false USELESS false] 3.
Lemma demo_swap_ok : swap_ok demo_swap.
Proof.
  constructor.
  - split; [apply Forall_replicate, length_replicate|]. split; [by vm_compute|]. split; [by vm_compute|done].
  - done.
  - split; by vm_compute.
  - intros [|[|[|i]]] e [=<-]; done.
Qed.
Definition demo_page : list Z := replicate 4096 7.
Lemma demo_page_length : length demo_page = 4096%nat.
Proof. apply length_replicate. Qed.
#[global] Opaque demo_page.

(** C21: Swapping a page out and in.  With a slot free, [move_into_swap] takes
    a free slot; reading that slot back, also after any other slots were read,
    gives the bytes of the page, and freeing it gives the table as it was, up to
    the kind and the mark left in the freed entry.  The content of the other
    slots does not change. *)
Theorem swap_roundtrip `{BlockLaws D} (s : swap D) page page' bytes ins dirty :
  swap_ok s -> swaptable_size s < 2 ^ 32 -> page <> NULL -> page' <> NULL -> length bytes = 4096%nat ->
  (exists i e, swaptable s !! i = Some e /\ slot_filled e = false) ->
  exists i s1 s2 s3, move_into_swap page bytes ins dirty s = Ok (Z.of_nat i, s1) /\
    read_from_swap (Z.of_nat i) page' s1 = Ok (bytes, s2) /\ free_metaswap_entry (Z.of_nat i) s2 = Ok (Z.of_nat i, s3) /\
    swap_ok s1 /\ swap_ok s3 /\ swaptable s3 = <[i := mk_swap_entry (Z.of_nat i) false USELESS dirty]> (swaptable s) /\
    (exists e, swaptable s !! i = Some e /\ slot_filled e = false) /\
    forall j, 0 <= j -> j <> Z.of_nat i -> slot_bytes s3 j = slot_bytes s j /\ slot_bytes s1 j = slot_bytes s j.
Proof.
  intros Hs Hmax Hp Hp' Hl Hfree.
  destruct (move_into_swap_ok s page bytes ins dirty Hs Hp Hl Hfree) as (i & s1 & E1 & Hs1 & Hi & Ht1 & Hz1 & Hb1 & Ho1).
  destruct Hi as (e & Hi & He). pose proof (lookup_lt_Some _ _ _ Hi) as Hlt. rewrite (so_length _ Hs) in Hlt.
  destruct (read_from_swap_ok s1 (Z.of_nat i) page' Hs1) as (s2 & E2 & Hs2 & Ht2 & Hz2 & Hb2); [lia|done|].
  destruct (free_metaswap_entry_ok s2 (Z.of_nat i) (mk_swap_entry (Z.of_nat i) true ins dirty) Hs2)
    as (s3 & E3 & Hs3 & Ht3 & Hz3 & Hb3); [|lia|done|lia|].
  { rewrite Ht2, Ht1, Nat2Z.id, list_lookup_insert_eq; [done|]. rewrite (so_length _ Hs). lia. }
  exists i, s1, s2, s3. rewrite Hb1 in E2. split_and!; try done.
  - rewrite Ht3, Ht2, Ht1, Nat2Z.id. apply list_insert_insert_eq.
  - by exists e.
  - intros j Hj Hne. rewrite Hb3, Hb2. auto.
Qed.

Lemma swap_roundtrip_witness :
  exists i s1 s2, move_into_swap 0xc0200000 demo_page STACK true demo_swap = Ok (i, s1) /\
    read_from_swap i 0xc0200000 s1 = Ok (demo_page, s2).
Proof.
  destruct (swap_roundtrip demo_swap 0xc0200000 0xc0200000 demo_page STACK true) as (i & s1 & s2 & s3 & E1 & E2 & _).
  - exact demo_swap_ok.
  - done.
  - done.
  - done.
  - exact demo_page_length.
  - by exists 1%nat, (mk_swap_entry 1 false USELESS false).
  - exists (Z.of_nat i), s1, s2. split; [exact E1|exact E2].
Defined.
