(* ===== verification/Frame.v ===== *)
(** * The frame table and page replacement: [vm/frametable.c], [vm/frametable.h]

    The state of virtual memory: the machine with its page directories, the
    table of the frames that hold user pages, the swap area, the processes with
    their supplemental page tables, and the file system the pages are loaded
    from.  [evict_page] calls [find_spinfo_by_kpage], which no file of the
    repository defines: it is a parameter, [KpageSearch]. *)

From S2P Require Import Prelude Block FsState File Vaddr Bitmap Palloc Pagedir Spage Swap.

(** Threads are named by the addresses of their [struct thread]. *)
Record metaframe := mk_frame { isfilled : bool; page : Z; owner : Z }.

(** The members of [struct thread] that belong to a process. *)
Record process := mk_process {
  pagedir : Z;
  spage_table : list spinfo;
  personal_esp : Z;
  code_file : Z;
  open_files : list Z;
  index_fd : Z;
  status_number : Z;
}.

(** [lock_holder] is the thread that holds [memory_master_lock]. *)
Record vm (D : Type) := mk_vm {
  mach : machine;
  frametable : list metaframe;
  clock_hand : Z;
  num_pages_assigned : Z;
  swap_area : swap D;
  procs : gmap Z process;
  current : Z;
  lock_holder : option Z;
  fsys : fs D;
}.
Arguments mk_vm {D} _ _ _ _ _ _ _ _ _.
Arguments mach {D} _. Arguments frametable {D} _. Arguments clock_hand {D} _. Arguments num_pages_assigned {D} _.
Arguments swap_area {D} _. Arguments procs {D} _. Arguments current {D} _. Arguments lock_holder {D} _.
Arguments fsys {D} _.

(** The search of a supplemental page table by kernel page. *)
Class KpageSearch := find_spinfo_by_kpage : list spinfo -> Z -> option spinfo.

(** [init_frametable]; [mem] tells whether [calloc] gets memory. *)
Definition init_frametable (init_ram_pages : Z) (mem : bool) : res (list metaframe) :=
  free_start ← ptov (1024 * 1024);
  free_end ← ptov (u32 (init_ram_pages * PGSIZE));
  let free_pages := (free_end - free_start) / PGSIZE in
  let user_pages := free_pages / 2 in
  let num_user_frames := user_pages - 1 in
  if negb mem && (0 <? num_user_frames) then Err Trap
  else mret (replicate (Z.to_nat num_user_frames) (mk_frame false NULL NULL)).

Section Operations.
Context {D : Type} `{BlockOperations D} `{KpageSearch}.

Definition set_mach m (v : vm D) := mk_vm m (frametable v) (clock_hand v) (num_pages_assigned v) (swap_area v)
  (procs v) (current v) (lock_holder v) (fsys v).
Definition set_frametable f (v : vm D) := mk_vm (mach v) f (clock_hand v) (num_pages_assigned v) (swap_area v)
  (procs v) (current v) (lock_holder v) (fsys v).
Definition set_clock_hand h (v : vm D) := mk_vm (mach v) (frametable v) h (num_pages_assigned v) (swap_area v)
  (procs v) (current v) (lock_holder v) (fsys v).
Definition set_assigned n (v : vm D) := mk_vm (mach v) (frametable v) (clock_hand v) n (swap_area v)
  (procs v) (current v) (lock_holder v) (fsys v).
Definition set_swap_area w (v : vm D) := mk_vm (mach v) (frametable v) (clock_hand v) (num_pages_assigned v) w
  (procs v) (current v) (lock_holder v) (fsys v).
Definition set_procs ps (v : vm D) := mk_vm (mach v) (frametable v) (clock_hand v) (num_pages_assigned v) (swap_area v)
  ps (current v) (lock_holder v) (fsys v).
Definition set_lock_holder l (v : vm D) := mk_vm (mach v) (frametable v) (clock_hand v) (num_pages_assigned v) (swap_area v)
  (procs v) (current v) l (fsys v).
Definition set_fsys f (v : vm D) := mk_vm (mach v) (frametable v) (clock_hand v) (num_pages_assigned v) (swap_area v)
  (procs v) (current v) (lock_holder v) f.

(** Running an operation of a component. *)
Definition on_mach {A} (m : M machine A) : M (vm D) A := fun v =>
  match m (mach v) with Ok (a, x) => Ok (a, set_mach x v) | Err e => Err e end.
Definition on_swap_area {A} (m : M (swap D) A) : M (vm D) A := fun v =>
  match m (swap_area v) with Ok (a, x) => Ok (a, set_swap_area x v) | Err e => Err e end.
Definition on_fsys {A} (m : M (fs D) A) : M (vm D) A := fun v =>
  match m (fsys v) with Ok (a, x) => Ok (a, set_fsys x v) | Err e => Err e end.

(** Loads and stores through pointers to threads, frames and pages. *)
Definition get_process (t : Z) : M (vm D) process := fun v =>
  match procs v !! t with Some p => Ok (p, v) | None => Err Trap end.
Definition put_process (t : Z) (p : process) : M (vm D) unit := modify (fun v => set_procs (<[t := p]> (procs v)) v).
Definition set_spage_table l (p : process) : process :=
  mk_process (pagedir p) l (personal_esp p) (code_file p) (open_files p) (index_fd p) (status_number p).
Definition set_pagedir pd (p : process) : process :=
  mk_process pd (spage_table p) (personal_esp p) (code_file p) (open_files p) (index_fd p) (status_number p).
Definition upd_entry (t id : Z) (f : spinfo -> spinfo) : M (vm D) unit :=
  p ← get_process t; put_process t (set_spage_table (upd_spinfo id f (spage_table p)) p).
Definition get_frame (i : Z) : M (vm D) metaframe := fun v =>
  match frametable v !! Z.to_nat i with Some f => Ok (f, v) | None => Err Trap end.
Definition put_frame (i : Z) (f : metaframe) : M (vm D) unit :=
  modify (fun v => set_frametable (<[Z.to_nat i := f]> (frametable v)) v).
Definition load_page (p : Z) : M (vm D) (list Z) := fun v =>
  match memory (mach v) !! p with Some bs => Ok (bs, v) | None => Err Trap end.
Definition store_page (p ofs : Z) (bytes : list Z) : M (vm D) unit := fun v =>
  match memory (mach v) !! p with
  | Some bs => Ok (tt, set_mach (set_memory (<[p := overwrite bs ofs bytes]> (memory (mach v))) (mach v)) v)
  | None => Err Trap
  end.

Definition num_user_frames (v : vm D) : Z := Z.of_nat (length (frametable v)).

Fixpoint bypage_loop (l : list metaframe) (i p : Z) : option Z :=
  match l with
  | [] => None
  | f :: l => if page f =? p then Some i else bypage_loop l (i + 1) p
  end.
Definition get_metaframe_bypage (p : Z) : M (vm D) (option Z) :=
  if p =? NULL then fail (Panicked "Page in get metaframe by page == NULL")
  else v ← get; mret (bypage_loop (frametable v) 0 p).

(** The null pointer for a page in no frame traps. *)
Definition free_frame (p : Z) : M (vm D) unit :=
  i ← get_metaframe_bypage p;
  match i with
  | Some i => put_frame i (mk_frame false NULL NULL)
  | None => fail Trap
  end.

(** The loop of [evict_page]: the hand of the clock moves until it finds a page
    that was not accessed.  The result is the frame and its entry. *)
Fixpoint clock_loop (fuel : nat) : M (vm D) (metaframe * spinfo) :=
  match fuel with
  | O => fail OutOfFuel
  | S fuel =>
      v ← get;
      let hand := u32 (clock_hand v + 1) in
      let hand := if u32 (num_user_frames v) <=? hand then 0 else hand in
      _ ← modify (set_clock_hand hand);
      f ← get_frame hand;
      p ← get_process (owner f);
      match find_spinfo_by_kpage (spage_table p) (page f) with
      | None => fail Trap
      | Some e =>
          accessed ← on_mach (pagedir_is_accessed (pagedir p) (upage_address e));
          _ ← on_mach (pagedir_set_accessed (pagedir p) (upage_address e) false);
          if (accessed : bool) then clock_loop fuel else mret (f, e)
      end
  end.

(** Enough for the loop: one turn clears every accessed bit. *)
Definition clock_fuel (v : vm D) : nat := S (length (frametable v)).

Definition evict_page : M (vm D) Z :=
  v ← get;
  r ← clock_loop (clock_fuel v);
  let (f, e) := (r : metaframe * spinfo) in
  p ← get_process (owner f);
  page_isdirty ← on_mach (pagedir_is_dirty (pagedir p) (upage_address e));
  _ ← (if bool_decide (instructions e = STACK) || page_isdirty then
         bytes ← load_page (page f);
         idx ← on_swap_area (move_into_swap (page f) bytes (instructions e) page_isdirty);
         upd_entry (owner f) (sp_id e) (set_instructions SWAP idx)
       else mret tt);
  _ ← on_mach (pagedir_clear_page (pagedir p) (upage_address e));
  _ ← upd_entry (owner f) (sp_id e) (set_kpage NULL);
  _ ← on_mach (palloc_free_page (page f));
  _ ← free_frame (page f);
  v ← get; mret (clock_hand v).

Fixpoint empty_frame_loop (l : list metaframe) (i : Z) : option Z :=
  match l with
  | [] => None
  | f :: l => if negb (isfilled f) then Some i else empty_frame_loop l (i + 1)
  end.
Definition next_empty_frame : M (vm D) Z :=
  v ← get;
  match empty_frame_loop (frametable v) 0 with
  | Some i => mret i
  | None => evict_page
  end.

Definition assign_page : M (vm D) Z :=
  i ← next_empty_frame;
  new_page ← on_mach (palloc_get_page (Z.lor PAL_USER PAL_ZERO));
  v ← get;
  _ ← put_frame i (mk_frame true new_page (current v));
  _ ← modify (fun v => set_assigned (s32 (num_pages_assigned v + 1)) v);
  mret new_page.
End Operations.
