(* ===== verification/Fault.v ===== *)
(** * Page faults and the end of a process: [userprog/exception.c],
    [userprog/process.c], [threads/thread.c]

    [page_fault] brings in the page of an address: it takes a frame, finds the
    entry of the page or makes one for a new page of the stack, and fills the
    frame from the file, from swap, or with zeros.  The handler runs with
    [memory_master_lock] held; the model runs it in one step. *)

From S2P Require Import Prelude Block FsState File Vaddr Bitmap Palloc Pagedir Spage Swap Frame.

Definition SEL_UCSEG : Z := 0x1B.
Definition SEL_KCSEG : Z := 0x08.
Definition PF_P : Z := 0x1.
Definition PF_W : Z := 0x2.
Definition PF_U : Z := 0x4.

(** The members of [struct intr_frame] the handler reads. *)
Record intr_frame := mk_intr_frame { error_code : Z; f_esp : Z; f_cs : Z }.

(** Whether the handler returns, or the thread exits. *)
Inductive outcome := Resumed | Exited.

Section Operations.
Context {D : Type} `{BlockOperations D} `{KpageSearch}.

(** A lock that another thread holds would make the thread wait; the handler
    starts when it gets the lock. *)
Definition lock_memory : M (vm D) unit :=
  v ← get;
  _ ← assert (negb (bool_decide (lock_holder v = Some (current v))));
  modify (set_lock_holder (Some (current v))).
Definition unlock_memory : M (vm D) unit :=
  v ← get;
  _ ← assert (bool_decide (lock_holder v = Some (current v)));
  modify (set_lock_holder None).

(** The loop of [process_exit]. *)
Fixpoint free_frames (l : list spinfo) : M (vm D) unit :=
  match l with
  | [] => mret tt
  | e :: l => _ ← (if negb (kpage_address e =? NULL) then free_frame (kpage_address e) else mret tt); free_frames l
  end.
Definition process_exit : M (vm D) unit :=
  v ← get;
  p ← get_process (current v);
  _ ← free_frames (spage_table p);
  let pd := pagedir p in
  if negb (pd =? NULL) then
    _ ← put_process (current v) (set_pagedir NULL p);
    _ ← on_mach (pagedir_activate NULL);
    on_mach (pagedir_destroy pd)
  else mret tt.

(** The loop of [thread_exit] over the supplemental page table. *)
Fixpoint free_entries (l : list spinfo) : M (vm D) unit :=
  match l with
  | [] => mret tt
  | e :: l =>
      _ ← (if bool_decide (instructions e = SWAP) then _ ← on_swap_area (free_metaswap_entry (index_into_swap e)); mret tt
           else mret tt);
      free_entries l
  end.

(** [thread_exit] up to the release of [memory_master_lock]. *)
Definition exit_memory : M (vm D) unit :=
  v ← get;
  _ ← (if negb (bool_decide (lock_holder v = Some (current v))) then lock_memory else mret tt);
  _ ← process_exit;
  p ← get_process (current v);
  _ ← free_entries (spage_table p);
  _ ← put_process (current v) (set_spage_table [] p);
  unlock_memory.

Fixpoint close_files_loop (l : list Z) : M (vm D) unit :=
  match l with
  | [] => mret tt
  | f :: l => _ ← (if negb (f =? NULL) then on_fsys (file_close f) else mret tt); close_files_loop l
  end.
(** The first two descriptors are not used. *)
Definition close_files (files : list Z) : M (vm D) unit := close_files_loop (drop 2 files).

(** [thread_exit] up to the end of the thread, which [Thread] models. *)
Definition thread_exit : M (vm D) unit :=
  _ ← exit_memory;
  v ← get;
  p ← get_process (current v);
  _ ← on_fsys (file_close (code_file p));
  _ ← close_files (open_files p);
  modify (fun v => set_procs (delete (current v) (procs v)) v).

Definition kill (f : intr_frame) : M (vm D) outcome :=
  if f_cs f =? SEL_UCSEG then _ ← thread_exit; mret Exited
  else if f_cs f =? SEL_KCSEG then fail (Panicked "Kernel bug - unexpected interrupt in kernel")
  else _ ← thread_exit; mret Exited.

(** [malloc] of a [struct spinfo] and the stores to its members; a null pointer
    traps.  Members the code does not store to keep what was in memory, [junk]. *)
Definition new_spinfo (e : spinfo) : M (vm D) spinfo :=
  a ← on_fsys malloc;
  if a =? NULL then fail Trap
  else
    let e := mk_spinfo a (Spage.file e) (file_offset e) (bytes_to_read e) (writable e) (upage_address e)
               (kpage_address e) (instructions e) (index_into_swap e) in
    v ← get;
    p ← get_process (current v);
    _ ← put_process (current v) (set_spage_table (spage_table p ++ [e]) p);
    mret e.

(** Filling the frame; the result is the entry of the swap table that was freed. *)
Definition fill_frame (e : spinfo) (kpage : Z) : M (vm D) (option Z) :=
  v ← get;
  match instructions e with
  | FILE =>
      _ ← on_fsys (file_seek (Spage.file e) (file_offset e));
      r ← on_fsys (file_read (Spage.file e) (bytes_to_read e));
      _ ← store_page kpage 0 r.2;
      if negb (r.1 =? bytes_to_read e) then
        _ ← free_frame kpage; fail (Panicked "reading the file failed in page fault handler")
      else
        _ ← store_page kpage (bytes_to_read e) (replicate (Z.to_nat (PGSIZE - bytes_to_read e)) 0);
        mret None
  | SWAP =>
      bytes ← on_swap_area (read_from_swap (index_into_swap e) kpage);
      _ ← store_page kpage 0 bytes;
      i ← on_swap_area (free_metaswap_entry (index_into_swap e));
      s ← on_swap_area (get_entry i);
      _ ← upd_entry (current v) (sp_id e) (set_instructions (instructions_for_pageheld s) (-1));
      mret (Some i)
  | _ => mret None
  end.

(** Mapping the frame. *)
Definition map_frame (e : spinfo) (kpage : Z) (freed : option Z) : M (vm D) unit :=
  v ← get;
  p ← get_process (current v);
  ok ← on_mach (install_page (pagedir p) (upage_address e) kpage (writable e));
  if negb ok then _ ← free_frame kpage; fail (Panicked "install page failed.")
  else
    _ ← upd_entry (current v) (sp_id e) (set_kpage kpage);
    _ ← match freed with
        | None => mret tt
        | Some i => s ← on_swap_area (get_entry i);
                    on_mach (pagedir_set_dirty (pagedir p) (upage_address e) (slot_dirty s))
        end;
    if kpage =? NULL then fail (Panicked "kpage == NULL") else mret tt.

(** Whether an access belongs to the stack: above the stack pointer, or where
    [PUSH] and [PUSHA] store. *)
Definition is_stack_access (fault_addr esp : Z) : bool :=
  (fault_addr <? PHYS_BASE) && (esp <=? fault_addr) || (u32 (esp - 0x20) =? fault_addr) || (u32 (esp - 0x04) =? fault_addr).

(** [junk] is the content of the memory [malloc] gives for a new entry. *)
Definition page_fault (f : intr_frame) (fault_addr : Z) (junk : spinfo) : M (vm D) outcome :=
  let write := negb (Z.land (error_code f) PF_W =? 0) in
  let user := negb (Z.land (error_code f) PF_U =? 0) in
  _ ← lock_memory;
  kpage ← assign_page;
  if kpage =? NULL then fail (Panicked "assign_page page failed while loading from file")
  else
    v ← get;
    p ← get_process (current v);
    let esp := if negb user then personal_esp p else f_esp f in
    let fpage := pg_round_down fault_addr in
    info ← (match find_spinfo (spage_table p) fpage with
            | Some e => mret (Some e)
            | None =>
                if is_stack_access fault_addr esp then
                  e ← new_spinfo (mk_spinfo 0 NULL (file_offset junk) 0 true fpage NULL STACK (index_into_swap junk));
                  mret (Some e)
                else mret None
            end);
    match info with
    | None => kill f
    | Some e =>
        if negb (writable e) && write then _ ← thread_exit; mret Exited
        else
          freed ← fill_frame e kpage;
          _ ← map_frame e kpage freed;
          _ ← unlock_memory;
          mret Resumed
    end.
End Operations.
