(* ===== verification/VmInv.v ===== *)
(** * The invariant of virtual memory

    What every page of every process holds, [M], is a ghost of the proofs: the
    invariant says where its bytes are (in a frame, in a slot of swap, in the
    executable, or nowhere as they are all zero) and that frames, entries of the
    supplemental page tables and page table entries agree. *)

From S2P Require Import Prelude Block FsState File FsSpec FsOps FsInv Vaddr Bitmap Palloc Pagedir Spage Swap Frame.

(** What the missing function promises by its name: an entry with the page, or
    a null pointer if there is none. *)
Class KpageLaws `{KpageSearch} := {
  kpage_found : forall l k e, find_spinfo_by_kpage l k = Some e -> e ∈ l /\ kpage_address e = k;
  kpage_missing : forall l k, find_spinfo_by_kpage l k = None -> forall e, e ∈ l -> kpage_address e <> k;
}.

Section Invariant.
Context `{BlockLaws D}.
Implicit Types v : vm D.

(** The bytes of the executable an entry describes. *)
Definition file_page (A : afs) (e : spinfo) : option (list Z) :=
  h ← a_open A !! Spage.file e;
  bs ← a_data A !! h_file h;
  Some (take (Z.to_nat (bytes_to_read e)) (drop (Z.to_nat (file_offset e)) bs) ++
        replicate (Z.to_nat (PGSIZE - bytes_to_read e)) 0).

(** The file of the entry is open, with writes denied, and long enough if
    anything is read. *)
Definition file_ok (A : afs) (e : spinfo) : Prop :=
  exists h bs, a_open A !! Spage.file e = Some h /\ h_deny h = true /\ a_data A !! h_file h = Some bs /\
    0 <= file_offset e < 2 ^ 31 /\ 0 <= bytes_to_read e <= PGSIZE /\
    (bytes_to_read e = 0 \/ file_offset e + bytes_to_read e <= Z.of_nat (length bs)).

(** What a page that is in no frame and not in swap holds. *)
Definition backing (A : afs) (e : spinfo) : option (list Z) :=
  match instructions e with FILE => file_page A e | SWAP => None | _ => Some zero_page end.

Definition slot_ok (w : swap D) (i : Z) (bs : list Z) : Prop :=
  0 <= i < swaptable_size w /\ slot_bytes w i = bs /\
  exists x, swaptable w !! Z.to_nat i = Some x /\ slot_filled x = true /\ (slot_dirty x = false -> bs = zero_page).

(** The entry [e] of a process with directory [pd] holds the bytes [bs]. *)
Record entry_ok (m : machine) (w : swap D) (T : gmap (Z * Z) Z) (A : afs) (pd : Z) (e : spinfo) (bs : list Z) : Prop := {
  eo_page : 0 <= upage_address e < PHYS_BASE /\ pg_ofs (upage_address e) = 0;
  eo_length : length bs = 4096%nat;
  eo_file : instructions e = FILE -> file_ok A e;
  eo_present : has PTE_P (pte m T pd (upage_address e)) = negb (kpage_address e =? NULL);
  eo_frame : kpage_address e <> NULL ->
    Z.land (pte m T pd (upage_address e)) PTE_ADDR + PHYS_BASE = kpage_address e /\
    has PTE_W (pte m T pd (upage_address e)) = writable e /\
    Palloc.used (user_pool m) (kpage_address e) /\ memory m !! kpage_address e = Some bs /\
    instructions e <> SWAP /\ (has PTE_D (pte m T pd (upage_address e)) = false -> backing A e = Some bs);
  eo_away : kpage_address e = NULL ->
    if decide (instructions e = SWAP) then slot_ok w (index_into_swap e) bs else backing A e = Some bs;
}.

Definition entry_at (ps : gmap Z process) (t : Z) (e : spinfo) : Prop :=
  exists p, ps !! t = Some p /\ e ∈ spage_table p.

(** The process [t]. *)
Record process_ok v (P : gset Z) (T : gmap (Z * Z) Z) (A : afs) (M : gmap (Z * Z) (list Z)) (t : Z) (p : process) : Prop := {
  pr_dir : pagedir p ∈ P /\ pagedir p <> init_page_dir (mach v);
  pr_ids : NoDup (map sp_id (spage_table p));
  pr_pages : NoDup (map upage_address (spage_table p));
  pr_fresh : forall e, e ∈ spage_table p -> sp_id e < brk (fsys v);
  pr_entry : forall e, e ∈ spage_table p -> exists bs, M !! (t, upage_address e) = Some bs /\
    entry_ok (mach v) (swap_area v) T A (pagedir p) e bs;
  pr_mapped : forall va, 0 <= va < PHYS_BASE -> has PTE_P (pte (mach v) T (pagedir p) va) = true ->
    exists e, e ∈ spage_table p /\ pd_no va = pd_no (upage_address e) /\ pt_no va = pt_no (upage_address e);
}.

(** [spare] is the frame a fault has taken and not yet mapped. *)
Record vm_inv v (P : gset Z) (T : gmap (Z * Z) Z) (A : afs) (M : gmap (Z * Z) (list Z)) (spare : option nat) : Prop := {
  vi_spaces : spaces (mach v) P T;
  vi_swap : swap_ok (swap_area v) /\ swaptable_size (swap_area v) < 2 ^ 32;
  vi_fs : refines (fsys v) A;
  vi_proc : forall t p, procs v !! t = Some p -> process_ok v P T A M t p;
  vi_dirs : forall t1 t2 p1 p2, procs v !! t1 = Some p1 -> procs v !! t2 = Some p2 -> pagedir p1 = pagedir p2 -> t1 = t2;
  vi_kpages : forall t1 t2 e1 e2, entry_at (procs v) t1 e1 -> entry_at (procs v) t2 e2 -> kpage_address e1 <> NULL ->
    kpage_address e1 = kpage_address e2 -> t1 = t2 /\ e1 = e2;
  vi_slots : forall t1 t2 e1 e2, entry_at (procs v) t1 e1 -> entry_at (procs v) t2 e2 ->
    instructions e1 = SWAP -> instructions e2 = SWAP -> index_into_swap e1 = index_into_swap e2 -> t1 = t2 /\ e1 = e2;
  vi_pages : forall t u, is_Some (M !! (t, u)) -> exists e, entry_at (procs v) t e /\ upage_address e = u;
  vi_frame : forall i f, frametable v !! i = Some f ->
    if isfilled f then
      if decide (spare = Some i) then
        Palloc.used (user_pool (mach v)) (page f) /\ forall t e, entry_at (procs v) t e -> kpage_address e <> page f
      else exists e, entry_at (procs v) (owner f) e /\ kpage_address e = page f /\ page f <> NULL
    else page f = NULL /\ spare <> Some i;
  vi_framed : forall t e, entry_at (procs v) t e -> kpage_address e <> NULL ->
    exists i f, frametable v !! i = Some f /\ isfilled f = true /\ page f = kpage_address e /\ owner f = t;
  vi_frames : forall i j f g, frametable v !! i = Some f -> frametable v !! j = Some g ->
    isfilled f = true -> isfilled g = true -> page f = page g -> i = j;
  vi_pool : forall q, Palloc.used (user_pool (mach v)) q ->
    exists i f, frametable v !! i = Some f /\ isfilled f = true /\ page f = q;
  vi_size : Z.of_nat (length (frametable v)) <= bit_cnt (used_map (user_pool (mach v))) /\
    Z.of_nat (length (frametable v)) < 2 ^ 31;
  vi_ram : base (user_pool (mach v)) + PGSIZE * bit_cnt (used_map (user_pool (mach v))) - PHYS_BASE <=
    PGSIZE * init_ram_pages (mach v);
  vi_hand : 0 <= clock_hand v /\ (clock_hand v = 0 \/ clock_hand v < Z.of_nat (length (frametable v)));
}.

(** ** Entries that keep their bytes *)

(** What the invariant says about a page table entry: all but the accessed bit;
    a dirty bit may appear. *)
Definition same_word (w w' : Z) : Prop :=
  has PTE_P w' = has PTE_P w /\ has PTE_W w' = has PTE_W w /\ (has PTE_D w' = false -> has PTE_D w = false) /\
  Z.land w' PTE_ADDR = Z.land w PTE_ADDR.

(** The same files, with the same names and bytes, are open.  The positions of
    executables, which deny writes, may change. *)
Definition h_shape (h : handle) : Z * bool * Z := (h_file h, h_deny h, if h_deny h then 0 else h_pos h).
Definition same_files (A A' : afs) : Prop :=
  a_data A' = a_data A /\ h_shape <$> a_open A' = h_shape <$> a_open A /\ a_dir A' = a_dir A.
(** What the invariant needs of the file of an entry. *)
Definition same_text (A A' : afs) (e : spinfo) : Prop :=
  instructions e = FILE -> file_ok A e -> file_ok A' e /\ file_page A' e = file_page A e.

Lemma same_word_refl w : same_word w w.
Proof. done. Qed.
Lemma same_files_refl A : same_files A A.
Proof. done. Qed.
Lemma same_files_trans A A1 A2 : same_files A A1 -> same_files A1 A2 -> same_files A A2.
Proof. intros (D1 & O1 & N1) (D2 & O2 & N2). split_and!; congruence. Qed.
Lemma same_files_shape A A' f h : same_files A A' -> a_open A !! f = Some h ->
  exists h', a_open A' !! f = Some h' /\ h_shape h' = h_shape h.
Proof.
  intros (_ & Ho & _) Hf. assert (E : (h_shape <$> a_open A') !! f = (h_shape <$> a_open A) !! f) by (by rewrite Ho).
  rewrite !lookup_fmap, Hf in E. destruct (a_open A' !! f) as [h'|]; [|done]. injection E as E. exists h'. split; [done|]. unfold h_shape. congruence.
Qed.
Lemma same_files_open A A' f h : same_files A A' -> a_open A !! f = Some h ->
  exists h', a_open A' !! f = Some h' /\ h_file h' = h_file h /\ h_deny h' = h_deny h.
Proof. intros Hs Hf. destruct (same_files_shape A A' f h Hs Hf) as (h' & Hh' & E). injection E as ? ? _. by exists h'. Qed.
Lemma same_files_sym A A' : same_files A A' -> same_files A' A.
Proof. intros (D1 & O1 & N1). by split_and!. Qed.
Lemma same_files_handle A A' f h : same_files A A' -> a_open A !! f = Some h -> h_deny h = false -> a_open A' !! f = Some h.
Proof.
  intros Hs Hf Hd. destruct (same_files_shape A A' f h Hs Hf) as (h' & -> & E). injection E as E1 E2 E3.
  destruct h as [hf hp []], h' as [hf' hp' []]; simpl in *; try done. by subst.
Qed.
Lemma same_files_denied A A' sec : same_files A A' -> denied A sec <-> denied A' sec.
Proof.
  assert (Hone : forall B B', same_files B B' -> denied B sec -> denied B' sec).
  { intros B B' Hs. rewrite !denied_iff. intros (f & h & Hh & Ef & Ed). destruct (same_files_open B B' f h Hs Hh) as (h' & Hh' & Ef' & Ed').
    exists f, h'. split; [done|]. split; congruence. }
  intros Hs. split; apply Hone; [done|by apply same_files_sym].
Qed.
(** Moving an executable. *)
Lemma same_files_move A f h pos : a_open A !! f = Some h -> h_deny h = true -> same_files A (with_handle f (mk_handle (h_file h) pos (h_deny h)) A).
Proof.
  intros Hh Hd. split; [done|]. split; [|done]. simpl. rewrite fmap_insert. apply insert_id.
  rewrite lookup_fmap, Hh. unfold h_shape. simpl. by rewrite Hd.
Qed.
#[local] Hint Resolve same_files_refl : core.

(** A file that is mapped stays open, and keeps its bytes. *)
Lemma mapped_text A A' e :
  (forall h bs, a_open A !! Spage.file e = Some h -> h_deny h = true -> a_data A !! h_file h = Some bs ->
     exists h', a_open A' !! Spage.file e = Some h' /\ h_file h' = h_file h /\ h_deny h' = true /\ a_data A' !! h_file h = Some bs) ->
  same_text A A' e.
Proof.
  intros Hk _ (h & bs & Hh & Hdn & Hbs & Hr). destruct (Hk h bs Hh Hdn Hbs) as (h' & Hh' & Ef & Hdn' & Hbs'). split.
  - exists h', bs. by rewrite Ef.
  - unfold file_page. rewrite Hh, Hh'. cbn [mbind option_bind]. by rewrite Ef, Hbs, Hbs'.
Qed.

Lemma same_files_text A A' e : same_files A A' -> same_text A A' e.
Proof.
  intros Hs. apply mapped_text. intros h bs Hh Hdn Hbs. destruct (same_files_open A A' _ h Hs Hh) as (h' & Hh' & Ef & Ed).
  destruct Hs as [Hd _]. exists h'. rewrite Hd. split_and!; try done. congruence.
Qed.
Lemma same_backing A A' e : same_text A A' e -> (instructions e = FILE -> file_ok A e) -> backing A' e = backing A e.
Proof. intros Hf Hok. unfold backing. destruct (instructions e) eqn:E; try done. by apply Hf; auto. Qed.

Lemma entry_keep m m' w w' T T' A A' pd e bs :
  entry_ok m w T A pd e bs ->
  same_word (pte m T pd (upage_address e)) (pte m' T' pd (upage_address e)) ->
  (kpage_address e <> NULL -> Palloc.used (user_pool m') (kpage_address e) /\
     memory m' !! kpage_address e = memory m !! kpage_address e) ->
  (instructions e = SWAP -> slot_ok w (index_into_swap e) bs -> slot_ok w' (index_into_swap e) bs) ->
  same_text A A' e -> entry_ok m' w' T' A' pd e bs.
Proof.
  intros [] (SP & SW & SD & SA) Hk Hsl Hf. constructor; try done.
  - intros Hi. by apply Hf; auto.
  - by rewrite SP.
  - intros Hn. destruct (eo_frame0 Hn) as (? & ? & ? & ? & ? & ?). destruct (Hk Hn) as [? Em].
    rewrite SA, SW, Em, (same_backing A A') by done. auto 10.
  - intros Hn. specialize (eo_away0 Hn). case_decide; [auto|]. by rewrite (same_backing A A').
Qed.

(** A step that changes accessed bits and the hand of the clock only. *)
Lemma inv_access v P T A M spare m h :
  vm_inv v P T A M spare -> spaces m P T -> apart (mach v) m ->
  (forall pd va, 0 <= va < PHYS_BASE -> same_word (pte (mach v) T pd va) (pte m T pd va)) ->
  0 <= h /\ (h = 0 \/ h < Z.of_nat (length (frametable v))) ->
  vm_inv (set_clock_hand h (set_mach m v)) P T A M spare.
Proof.
  intros [] Hs [Au Ak Am (Ai & Ar & Ac)] Hw Hh. constructor; simpl; rewrite ?Au, ?Ar; try done.
  intros t p Hp. destruct (vi_proc0 t p Hp). constructor; simpl; rewrite ?Ai; try done.
  - intros e He. destruct (pr_entry0 e He) as (bs & HM & Hok). exists bs. split; [done|].
    eapply entry_keep; [exact Hok|apply Hw, Hok| |done|done].
    intros Hn. destruct (eo_frame _ _ _ _ _ _ _ Hok Hn) as (_ & _ & Hu & _). rewrite Au. split; [done|]. apply Am.
    destruct Hu as (i & Hi & -> & _). unfold page_at, PGSIZE. lia.
  - intros va Hva. destruct (Hw (pagedir p) va Hva) as [-> _]. by apply pr_mapped0.
Qed.

Lemma flag_A_same w b : word_ok w -> same_word w (flag_word PTE_A b w).
Proof.
  intros [Hw _]. unfold same_word, flag_word. change PTE_A with (2 ^ 5). change PTE_P with (2 ^ 0). change PTE_W with (2 ^ 1).
  change PTE_D with (2 ^ 6). destruct b.
  - rewrite !has_set by done. split_and!; try done. apply set_flag_addr. by exists 5.
  - rewrite !has_clear by done. split_and!; try done. apply clear_flag_addr; [by exists 5|done].
Qed.
End Invariant.

#[export] Hint Resolve same_files_refl : core.
