(* ===== verification/Clock.v ===== *)
(** * The clock algorithm

    The loop of [evict_page] finds a page that was not accessed since the hand
    passed it, after at most one turn and one step; it changes nothing but
    accessed bits and the hand. *)

From S2P Require Import Prelude Block FsState FsSpec Vaddr Bitmap Palloc Pagedir Spage Swap Frame VmInv.

Section Clock.
Context `{BlockLaws D} `{KpageSearch} `{!KpageLaws}.
Implicit Types v : vm D.

(** The page in frame [i] was not accessed. *)
Definition idle_frame v (T : gmap (Z * Z) Z) (i : Z) : Prop :=
  forall f p e, frametable v !! Z.to_nat i = Some f -> procs v !! owner f = Some p -> e ∈ spage_table p ->
    kpage_address e = page f -> has PTE_A (pte (mach v) T (pagedir p) (upage_address e)) = false.

(** What the loop leaves alone. *)
Record ticked v v' : Prop := {
  tk_frames : frametable v' = frametable v;
  tk_assigned : num_pages_assigned v' = num_pages_assigned v;
  tk_swap : swap_area v' = swap_area v;
  tk_procs : procs v' = procs v;
  tk_current : current v' = current v;
  tk_lock : lock_holder v' = lock_holder v;
  tk_fs : fsys v' = fsys v;
  tk_mach : apart (mach v) (mach v');
  tk_kernel : kernel_pool (mach v') = kernel_pool (mach v);
}.
Lemma ticked_refl v : ticked v v.
Proof. by constructor; auto using apart_refl. Qed.
Lemma ticked_trans v v1 v2 : ticked v v1 -> ticked v1 v2 -> ticked v v2.
Proof. intros [] []. constructor; try congruence. by eapply apart_trans. Qed.

Definition next_hand v : Z := if num_user_frames v <=? clock_hand v + 1 then 0 else clock_hand v + 1.

(** One step of the hand. *)
Lemma clock_step v P T A M :
  vm_inv v P T A M None -> (forall i f, frametable v !! i = Some f -> isfilled f = true) -> frametable v <> [] ->
  exists f p e a v', frametable v !! Z.to_nat (next_hand v) = Some f /\ procs v !! owner f = Some p /\ e ∈ spage_table p /\
    kpage_address e = page f /\ a = has PTE_A (pte (mach v) T (pagedir p) (upage_address e)) /\
    (forall fuel, clock_loop (S fuel) v = if (a : bool) then clock_loop fuel v' else Ok ((f, e), v')) /\
    vm_inv v' P T A M None /\ ticked v v' /\ clock_hand v' = next_hand v /\ 0 <= next_hand v < num_user_frames v /\
    idle_frame v' T (next_hand v) /\ (forall i, idle_frame v T i -> idle_frame v' T i).
Proof.
  intros V Hfull Hne. set (n := num_user_frames v). assert (Hn : 0 < n).
  { unfold n, num_user_frames. destruct (frametable v); [done|simpl; lia]. }
  pose proof (vi_hand _ _ _ _ _ _ V) as Hh. pose proof (vi_size _ _ _ _ _ _ V) as [_ Hsz].
  assert (Hnh : 0 <= next_hand v < n).
  { unfold next_hand. fold n. fold (num_user_frames v) in Hh. fold n in Hh. destruct (n <=? clock_hand v + 1) eqn:E; bool_to_prop; lia. }
  destruct (lookup_lt_is_Some_2 (frametable v) (Z.to_nat (next_hand v))) as [f Hf].
  { unfold n, num_user_frames in Hnh. lia. }
  pose proof (vi_frame _ _ _ _ _ _ V _ f Hf) as Hfr. rewrite (Hfull _ _ Hf), decide_False in Hfr by done.
  destruct Hfr as (e & (p & Hp & He) & Hk & Hpn). pose proof (vi_proc _ _ _ _ _ _ V _ _ Hp) as Hpr.
  destruct (pr_entry _ _ _ _ _ _ _ Hpr e He) as (bs & HM & Hok). destruct (eo_page _ _ _ _ _ _ _ Hok) as [Hu Huo].
  destruct (pr_dir _ _ _ _ _ _ _ Hpr) as [Hpd _]. pose proof (vi_spaces _ _ _ _ _ _ V) as Hs.
  destruct (find_spinfo_by_kpage (spage_table p) (page f)) as [e'|] eqn:Ef.
  2: { by destruct (kpage_missing _ _ Ef e He). }
  destruct (kpage_found _ _ _ Ef) as [He' Hk'].
  assert (e' = e) as ->.
  { destruct (vi_kpages _ _ _ _ _ _ V (owner f) (owner f) e' e) as [_ ?]; try done; [by exists p|by exists p|congruence|congruence]. }
  destruct (set_flag_run (mach v) P T (pagedir p) (upage_address e) PTE_A false Hs Hpd Hu flag_A) as (m & Em & Hsm & [Ap Hkp] & Hc).
  set (v1 := set_clock_hand (next_hand v) v). set (v2 := set_mach m v1).
  assert (Hsame : forall pd va, 0 <= va < PHYS_BASE -> same_word (pte (mach v) T pd va) (pte m T pd va) /\
      (has PTE_A (pte (mach v) T pd va) = false -> has PTE_A (pte m T pd va) = false)).
  { intros pd va Hva. rewrite Hc by done. pose proof (pte_range (mach v) P T (pagedir p) (upage_address e) Hs Hu) as Hw.
    case_decide as K; [|by split]. destruct K as (-> & K1 & K2).
    assert (pte (mach v) T (pagedir p) va = pte (mach v) T (pagedir p) (upage_address e)) as ->
      by (unfold pte; by rewrite K1, K2).
    destruct (T !! (pagedir p, pd_no (upage_address e))) as [pt|] eqn:Et.
    - split; [by apply flag_A_same|]. intros _. unfold flag_word. change PTE_A with (2 ^ 5). by rewrite has_clear by (done || apply Hw).
    - unfold pte. by rewrite Et. }
  exists f, p, e, (has PTE_A (pte (mach v) T (pagedir p) (upage_address e))), v2. split_and!; try done.
  - intros fuel. cbn [clock_loop]. bind_by reflexivity.
    assert (Hnext : (if u32 (num_user_frames v) <=? u32 (clock_hand v + 1) then 0 else u32 (clock_hand v + 1)) = next_hand v).
    { unfold next_hand. fold (num_user_frames v) in Hh, Hsz. fold n in Hh, Hsz. fold n. by rewrite !u32_small by lia. }
    cbv zeta. rewrite Hnext. bind_by reflexivity. bind_by (unfold get_frame; simpl frametable; rewrite Hf; reflexivity).
    bind_by (unfold get_process; simpl procs; rewrite Hp; reflexivity). rewrite Ef.
    bind_by (unfold on_mach; simpl mach; unfold pagedir_is_accessed; rewrite (is_flag_run (mach v) P T) by done; reflexivity).
    bind_by (unfold on_mach; simpl mach; unfold pagedir_set_accessed; rewrite Em; reflexivity).
    by destruct (has PTE_A (pte (mach v) T (pagedir p) (upage_address e))).
  - apply (inv_access v P T A M None m (next_hand v)); try done.
    + intros pd va Hva. by apply Hsame.
    + fold (num_user_frames v). fold n. lia.
  - lia.
  - lia.
  - intros f' p' e' Hf' Hp' He'' Hk''. simpl in Hf', Hp'. rewrite Hf in Hf'. injection Hf' as <-. rewrite Hp in Hp'. injection Hp' as <-.
    assert (e' = e) as ->.
    { destruct (vi_kpages _ _ _ _ _ _ V (owner f) (owner f) e' e) as [_ ?]; try done; [by exists p|by exists p|congruence|congruence]. }
    simpl mach. rewrite Hc, decide_True by done. destruct (T !! (pagedir p, pd_no (upage_address e))); [|done].
    unfold flag_word. change PTE_A with (2 ^ 5). rewrite has_clear; [done|done|done|]. by apply (pte_range (mach v) P).
  - intros i Hi f' p' e' Hf' Hp' He'' Hk''. simpl in *. apply Hsame; [|by apply (Hi f' p' e')].
    destruct (pr_entry _ _ _ _ _ _ _ (vi_proc _ _ _ _ _ _ V _ _ Hp') e' He'') as (? & _ & Hok').
    apply (eo_page _ _ _ _ _ _ _ Hok').
Qed.

(** Positions modulo the number of frames. *)
Lemma hand_mod v : 0 < num_user_frames v -> 0 <= clock_hand v < num_user_frames v ->
  next_hand v = (clock_hand v + 1) mod num_user_frames v.
Proof.
  intros Hn Hh. unfold next_hand. destruct (num_user_frames v <=? clock_hand v + 1) eqn:E; bool_to_prop.
  - replace (clock_hand v + 1) with (num_user_frames v) by lia. by rewrite Z.mod_same by lia.
  - symmetry. apply Z.mod_small. lia.
Qed.

(** With the last [k] frames the hand passed idle, [n - k + 1] more steps are
    enough. *)
Lemma clock_loop_ok P T A M fuel : forall v k,
  vm_inv v P T A M None -> (forall i f, frametable v !! i = Some f -> isfilled f = true) -> frametable v <> [] ->
  0 <= k <= num_user_frames v ->
  (forall j, 0 <= j < k -> idle_frame v T ((clock_hand v - j) mod num_user_frames v)) ->
  num_user_frames v - k < Z.of_nat fuel ->
  exists f e v', clock_loop fuel v = Ok ((f, e), v') /\ vm_inv v' P T A M None /\ ticked v v' /\
    0 <= clock_hand v' < num_user_frames v /\ frametable v !! Z.to_nat (clock_hand v') = Some f /\
    entry_at (procs v) (owner f) e /\ kpage_address e = page f.
Proof.
  induction fuel as [|fuel IH]; intros v k V Hfull Hne Hk Hidle Hfuel; [lia|].
  destruct (clock_step v P T A M V Hfull Hne)
    as (f & p & e & a & v1 & Hf & Hp & He & Hkp & Ha & Hrun & V1 & Tk & Hh1 & Hr & Hi1 & Hkeep).
  pose proof (tk_frames _ _ Tk) as Ef. assert (En : num_user_frames v1 = num_user_frames v) by (unfold num_user_frames; by rewrite Ef).
  rewrite Hrun. assert (Hh : 0 <= clock_hand v < num_user_frames v).
  { pose proof (vi_hand _ _ _ _ _ _ V). unfold num_user_frames in *. lia. }
  destruct a.
  2: { exists f, e, v1. rewrite Hh1. split_and!; try done; try lia. by exists p. }
  pose proof (hand_mod v ltac:(lia) Hh) as Hmod. set (n := num_user_frames v) in *.
  assert (k < n) as Hkn.
  { destruct (decide (k = n)) as [->|]; [|lia]. exfalso.
    pose proof (Hidle (n - 1) ltac:(lia)) as Hid. replace (clock_hand v - (n - 1)) with (clock_hand v + 1 + -1 * n) in Hid by lia.
    rewrite Z.mod_add, <- Hmod in Hid by lia. by rewrite (Hid f p e Hf Hp He Hkp) in Ha. }
  destruct (IH v1 (k + 1)) as (f' & e' & v' & E & V' & Tk' & Hh' & Hf' & He' & Hk').
  - done.
  - rewrite Ef. done.
  - by rewrite Ef.
  - lia.
  - intros j Hj. rewrite En, Hh1. destruct (decide (j = 0)) as [->|].
    + rewrite Z.sub_0_r, Z.mod_small by done. done.
    + apply Hkeep. replace ((next_hand v - j) mod n) with ((clock_hand v - (j - 1)) mod n); [apply Hidle; lia|].
      rewrite Hmod, Zminus_mod_idemp_l. f_equal. lia.
  - lia.
  - exists f', e', v'. rewrite Ef, (tk_procs _ _ Tk), En in *. split_and!; try done; try lia. by eapply ticked_trans.
Qed.

Lemma clock_ok v P T A M fuel :
  vm_inv v P T A M None -> (forall i f, frametable v !! i = Some f -> isfilled f = true) -> frametable v <> [] ->
  (length (frametable v) < fuel)%nat ->
  exists f e v', clock_loop fuel v = Ok ((f, e), v') /\ vm_inv v' P T A M None /\ ticked v v' /\
    0 <= clock_hand v' < num_user_frames v /\ frametable v !! Z.to_nat (clock_hand v') = Some f /\
    entry_at (procs v) (owner f) e /\ kpage_address e = page f.
Proof.
  intros V Hfull Hne Hfuel. apply (clock_loop_ok P T A M fuel v 0); try done.
  - unfold num_user_frames. lia.
  - intros j Hj. lia.
  - unfold num_user_frames. lia.
Qed.

(** More fuel does not change the victim. *)
Lemma clock_mono fuel : forall v r k, clock_loop fuel v = Ok r -> clock_loop (fuel + k) v = Ok r.
Proof.
  induction fuel as [|fuel IH]; intros v r k; [done|]. cbn [clock_loop Nat.add]. unfold mbind, M_bind, get, modify.
  destruct (get_frame _ _) as [[f v1]|]; [|done]. destruct (get_process _ _) as [[p v2]|]; [|done].
  destruct (find_spinfo_by_kpage _ _) as [e|]; [|done]. destruct (on_mach _ v2) as [[a v3]|]; [|done].
  destruct (on_mach _ v3) as [[b v4]|]; [|done]. destruct a; [apply IH|done].
Qed.
End Clock.
