(* ===== verification/Evict.v ===== *)
(** * Taking frames

    [evict_page] moves a page out of its frame without losing its bytes, and
    [assign_page] gives a frame with a page of zeros: the content [M] of the
    pages of all processes stays what it is. *)

From S2P Require Import Prelude Block FsState FsSpec Vaddr Bitmap Palloc Pagedir Spage Swap Frame VmInv Clock.

Section Evict.
Context `{BlockLaws D}.
Implicit Types v : vm D.

(** Entries of different pages have different page table entries. *)
Lemma entries_apart v P T A M spare t1 t2 p1 p2 e1 e2 :
  vm_inv v P T A M spare -> procs v !! t1 = Some p1 -> procs v !! t2 = Some p2 -> e1 ∈ spage_table p1 -> e2 ∈ spage_table p2 ->
  same_pte (pagedir p1) (upage_address e1) (pagedir p2) (upage_address e2) -> t2 = t1 /\ e2 = e1.
Proof.
  intros V H1 H2 He1 He2 (Ed & E1 & E2). assert (t2 = t1) as -> by (by apply (vi_dirs _ _ _ _ _ _ V t2 t1 p2 p1)).
  rewrite H1 in H2. injection H2 as <-. split; [done|]. pose proof (vi_proc _ _ _ _ _ _ V _ _ H1) as Hp.
  destruct (pr_entry _ _ _ _ _ _ _ Hp e1 He1) as (? & _ & K1). destruct (pr_entry _ _ _ _ _ _ _ Hp e2 He2) as (? & _ & K2).
  destruct (eo_page _ _ _ _ _ _ _ K1) as [R1 O1]. destruct (eo_page _ _ _ _ _ _ _ K2) as [R2 O2]. unfold PHYS_BASE in *.
  apply (NoDup_map_inj upage_address (spage_table p1)); try done; [apply Hp|].
  apply page_index_inj; (lia || done).
Qed.

Lemma entry_at_set (ps : gmap Z process) t p l t' x :
  ps !! t = Some p ->
  entry_at (<[t := set_spage_table l p]> ps) t' x <-> if decide (t' = t) then x ∈ l else entry_at ps t' x.
Proof.
  intros Hp. unfold entry_at. split.
  - intros (q & Hq & Hx). destruct (decide (t' = t)) as [->|Hne].
    + rewrite lookup_insert_eq in Hq. by injection Hq as <-.
    + rewrite lookup_insert_ne in Hq by done. by exists q.
  - destruct (decide (t' = t)) as [->|Hne].
    + intros Hx. eexists. by rewrite lookup_insert_eq.
    + intros (q & Hq & Hx). exists q. by rewrite lookup_insert_ne.
Qed.

Section Victim.
Context v (P : gset Z) (T : gmap (Z * Z) Z) (A : afs) (M : gmap (Z * Z) (list Z)).
Context (i : nat) (f : metaframe) (p : process) (e : spinfo) (g : spinfo -> spinfo) (m' : machine) (w' : swap D).
Hypothesis V : vm_inv v P T A M None.
Hypothesis Hf : frametable v !! i = Some f.
Hypothesis Hfill : isfilled f = true.
Hypothesis Hp : procs v !! owner f = Some p.
Hypothesis He : e ∈ spage_table p.
Hypothesis Hk : kpage_address e = page f.
Hypothesis Hnn : page f <> NULL.
Hypothesis Hgid : forall y, sp_id (g y) = sp_id y.
Hypothesis Hgup : forall y, upage_address (g y) = upage_address y.
Hypothesis Hgk : kpage_address (g e) = NULL.
Hypothesis Hsm : spaces m' P T.
Hypothesis Hpte : forall pd va, 0 <= va < PHYS_BASE -> pte m' T pd va =
  if decide (same_pte (pagedir p) (upage_address e) pd va)
  then flag_word PTE_P false (pte (mach v) T (pagedir p) (upage_address e)) else pte (mach v) T pd va.
Hypothesis Hused : forall q, Palloc.used (user_pool m') q <-> Palloc.used (user_pool (mach v)) q /\ q <> page f.
Hypothesis Hmem : forall q, Palloc.used (user_pool m') q -> memory m' !! q = memory (mach v) !! q.
Hypothesis Hbase : base (user_pool m') = base (user_pool (mach v)) /\
  bit_cnt (used_map (user_pool m')) = bit_cnt (used_map (user_pool (mach v))).
Hypothesis Hvars : init_page_dir m' = init_page_dir (mach v) /\ init_ram_pages m' = init_ram_pages (mach v).
Hypothesis Hsw : swap_ok w' /\ swaptable_size w' < 2 ^ 32.
Hypothesis Hother : forall t x bs, entry_at (procs v) t x -> ~ (t = owner f /\ x = e) -> instructions x = SWAP ->
  slot_ok (swap_area v) (index_into_swap x) bs -> slot_ok w' (index_into_swap x) bs.
Hypothesis Hfile : instructions (g e) = FILE -> file_ok A (g e).
Hypothesis Haway : forall bs, M !! (owner f, upage_address e) = Some bs ->
  if decide (instructions (g e) = SWAP) then slot_ok w' (index_into_swap (g e)) bs else backing A (g e) = Some bs.
Hypothesis Hslot : instructions (g e) = SWAP -> forall t x, entry_at (procs v) t x -> instructions x = SWAP ->
  index_into_swap x <> index_into_swap (g e).

Local Definition table' : list spinfo := upd_spinfo (sp_id e) g (spage_table p).
Local Definition procs' : gmap Z process := <[owner f := set_spage_table table' p]> (procs v).
Local Definition v' : vm D := mk_vm m' (<[i := mk_frame false NULL NULL]> (frametable v)) (clock_hand v)
  (num_pages_assigned v) w' procs' (current v) (lock_holder v) (fsys v).

Local Lemma table_elem x : x ∈ table' <-> x = g e \/ x ∈ spage_table p /\ x <> e.
Proof.
  unfold table'. pose proof (vi_proc _ _ _ _ _ _ V _ _ Hp) as []. rewrite upd_spinfo_elem by done. split.
  - intros [->|[Hx Hn]]; [by left|right]. split; [done|]. by intros ->.
  - intros [->|[Hx Hn]]; [by left|right]. split; [done|]. intros E. apply Hn. by apply (NoDup_map_inj sp_id (spage_table p)).
Qed.

(** The entries of [v'] are those of [v], the victim changed. *)
Local Lemma entry_at' t x : entry_at procs' t x <->
  t = owner f /\ x = g e \/ entry_at (procs v) t x /\ ~ (t = owner f /\ x = e).
Proof.
  unfold procs'. rewrite entry_at_set by done. destruct (decide (t = owner f)) as [->|Hne].
  - rewrite table_elem. split.
    + intros [->|[Hx Hn]]; [by left|right]. split; [by exists p|naive_solver].
    + intros [[_ ->]|[(q & Hq & Hx) Hn]]; [by left|]. rewrite Hp in Hq. injection Hq as <-. right. naive_solver.
  - naive_solver.
Qed.

Local Lemma keep_entry t q x bs :
  procs v !! t = Some q -> x ∈ spage_table q -> ~ (t = owner f /\ x = e) ->
  entry_ok (mach v) (swap_area v) T A (pagedir q) x bs -> entry_ok m' w' T A (pagedir q) x bs.
Proof.
  intros Hq Hx Hne Hok. eapply entry_keep; [exact Hok|..|apply same_files_text, same_files_refl].
  - rewrite Hpte by apply Hok. rewrite decide_False; [done|]. intros Hsame.
    by apply Hne, (entries_apart v P T A M None (owner f) t p q e x).
  - intros Hn. destruct (eo_frame _ _ _ _ _ _ _ Hok Hn) as (_ & _ & Hu & _).
    assert (Hu' : Palloc.used (user_pool m') (kpage_address x)).
    { apply Hused. split; [done|]. intros E. apply Hne. apply (vi_kpages _ _ _ _ _ _ V t (owner f) x e); [by exists q|by exists p|done|congruence]. }
    split; [done|]. by apply Hmem.
  - intros Hi. apply (Hother t x); [by exists q|done..].
Qed.

Local Lemma victim_absent : has PTE_P (pte m' T (pagedir p) (upage_address e)) = false.
Proof.
  destruct (pr_entry _ _ _ _ _ _ _ (vi_proc _ _ _ _ _ _ V _ _ Hp) e He) as (? & _ & Hok). pose proof (eo_page _ _ _ _ _ _ _ Hok) as [Hu _].
  rewrite Hpte, decide_True by done. unfold flag_word. change PTE_P with (2 ^ 0). rewrite has_clear; [done|lia|lia|].
  by apply (pte_range (mach v) P T); [apply V|].
Qed.

Lemma inv_evicted : vm_inv v' P T A M None.
Proof.
  pose proof V as []. destruct Hvars as [Hvi Hvr]. destruct Hbase as [Hb Hbc].
  constructor; simpl; rewrite ?Hb, ?Hbc, ?Hvr, ?length_insert; try done.
  - intros t q Hq. unfold procs' in Hq. destruct (decide (t = owner f)) as [->|Hne].
    + rewrite lookup_insert_eq in Hq. injection Hq as <-. destruct (vi_proc _ _ Hp). constructor; simpl; rewrite ?Hvi; try done.
      * unfold table'. by rewrite upd_spinfo_map.
      * unfold table'. by rewrite upd_spinfo_map.
      * intros x [->|[Hx _]]%table_elem; [rewrite Hgid|]; auto.
      * intros x [->|[Hx Hn]]%table_elem.
        -- destruct (pr_entry e He) as (bs & HM & Hok). exists bs. rewrite Hgup. split; [done|].
           constructor; rewrite ?Hgup, ?Hgk; [apply Hok|apply Hok|done|by rewrite victim_absent|done|].
           intros _. by apply Haway.
        -- destruct (pr_entry x Hx) as (bs & HM & Hok). exists bs. split; [done|]. apply (keep_entry (owner f) p x bs); naive_solver.
      * intros va Hva Hpr. rewrite Hpte in Hpr by done. case_decide as K.
        -- exists (g e). rewrite Hgup. destruct K as (_ & ? & ?). split; [apply table_elem; by left|done].
        -- destruct (pr_mapped va Hva Hpr) as (x & Hx & E1 & E2). exists x. split; [|done]. apply table_elem. right.
           split; [done|]. intros ->. apply K. done.
    + rewrite lookup_insert_ne in Hq by done. destruct (vi_proc _ _ Hq). constructor; simpl; rewrite ?Hvi; try done.
      * intros x Hx. destruct (pr_entry x Hx) as (bs & HM & Hok). exists bs. split; [done|]. apply (keep_entry t q x bs); naive_solver.
      * intros va Hva Hpr. rewrite Hpte in Hpr by done. case_decide as K; [|by apply pr_mapped].
        destruct K as (Ed & _). by destruct (Hne (vi_dirs _ _ _ _ Hq Hp Ed)).
  - intros t1 t2 p1 p2. unfold procs'. intros [[<- <-]|[N1 H1]]%lookup_insert_Some [[<- <-]|[N2 H2]]%lookup_insert_Some; simpl; try done.
    + intros E. by apply (vi_dirs _ _ p p2).
    + intros E. by apply (vi_dirs _ _ p1 p).
    + by apply vi_dirs.
  - intros t1 t2 e1 e2 [[-> ->]|[H1 _]]%entry_at' [[-> ->]|[H2 _]]%entry_at' Hn E; try done; try congruence.
    by apply (vi_kpages t1 t2 e1 e2).
  - intros t1 t2 e1 e2 [[-> ->]|[H1 _]]%entry_at' [[-> ->]|[H2 _]]%entry_at' Hi1 Hi2 E; try done.
    + by destruct (Hslot Hi1 _ _ H2 Hi2).
    + by destruct (Hslot Hi2 _ _ H1 Hi1).
    + by apply (vi_slots t1 t2 e1 e2).
  - intros t u Hu. destruct (vi_pages t u Hu) as (x & Hx & Eu). destruct (decide (t = owner f /\ x = e)) as [[-> ->]|Hne].
    + exists (g e). rewrite Hgup. split; [|done]. apply entry_at'. by left.
    + exists x. split; [|done]. apply entry_at'. by right.
  - intros j h Hj. apply list_lookup_insert_Some in Hj as [(<- & <- & _)|[Hne Hj]]; [done|].
    specialize (vi_frame j h Hj). destruct (isfilled h) eqn:Eh; [|done]. rewrite decide_False in * by done.
    destruct vi_frame as (x & Hx & Ex & Hxn). exists x. split; [|done]. apply entry_at'. right. split; [done|].
    intros [E ->]. apply Hne. apply (vi_frames i j f h); try done. congruence.
  - intros t x [[-> ->]|[Hx Hne]]%entry_at' Hn; [done|]. destruct (vi_framed t x Hx Hn) as (j & h & Hj & Eh & Ej & Eo).
    exists j, h. split; [|done]. rewrite list_lookup_insert_ne; [done|]. intros <-. apply Hne. rewrite Hf in Hj. injection Hj as <-.
    destruct Hx as (q & Hq & Hx). apply (vi_kpages t (owner f) x e); [by exists q|by exists p|done|congruence].
  - intros j k h h' Hj Hj' Eh Eh' E. apply list_lookup_insert_Some in Hj as [(<- & <- & _)|[N1 Hj]]; [done|].
    apply list_lookup_insert_Some in Hj' as [(<- & <- & _)|[N2 Hj']]; [done|]. by apply (vi_frames j k h h').
  - intros q [Hq Hne]%Hused. destruct (vi_pool q Hq) as (j & h & Hj & Eh & Ej). exists j, h. split; [|done].
    rewrite list_lookup_insert_ne; [done|]. intros <-. rewrite Hf in Hj. injection Hj as <-. done.
Qed.
End Victim.

(** ** The run of [evict_page] *)

Lemma bypage_found l k : forall z i f,
  l !! i = Some f -> page f = k -> (forall j h, l !! j = Some h -> page h = k -> j = i) ->
  bypage_loop l z k = Some (z + Z.of_nat i).
Proof.
  induction l as [|x l IH]; intros z i f Hi Hk Hun; [done|]. simpl. destruct (page x =? k) eqn:E; bool_to_prop.
  - assert (i = 0%nat) as -> by (symmetry; by apply (Hun 0%nat x)). f_equal. lia.
  - destruct i as [|i]; [by simplify_eq/=|]. rewrite (IH (z + 1) i f); [f_equal; lia|done..|].
    intros j h Hj Hh. assert (S j = S i) by (by apply (Hun (S j) h)). lia.
Qed.

Lemma free_frame_run v v1 P T A M spare i f :
  vm_inv v P T A M spare -> frametable v1 = frametable v ->
  frametable v !! i = Some f -> isfilled f = true -> page f <> NULL ->
  free_frame (page f) v1 = Ok (tt, set_frametable (<[i := mk_frame false NULL NULL]> (frametable v)) v1).
Proof.
  intros V Ev Hi Hf Hn. rewrite <- Ev in Hi. unfold free_frame, get_metaframe_bypage. rewrite (proj2 (Z.eqb_neq _ _) Hn).
  bind_by (bind_by reflexivity; reflexivity). rewrite (bypage_found (frametable v1) (page f) 0 i f Hi eq_refl); rewrite Ev in *.
  - unfold put_frame, modify. by rewrite Z.add_0_l, Nat2Z.id, Ev.
  - intros j h Hj E. destruct (isfilled h) eqn:Eh; [by apply (vi_frames _ _ _ _ _ _ V j i h f)|].
    pose proof (vi_frame _ _ _ _ _ _ V j h Hj) as Hh. rewrite Eh in Hh. destruct Hh. congruence.
Qed.

Lemma pool_full_mono p p' :
  base p' = base p -> bit_cnt (used_map p') = bit_cnt (used_map p) -> (forall q, Palloc.used p' q -> Palloc.used p q) ->
  pool_full p' -> pool_full p.
Proof.
  intros Hb Hc Hu Hf j Hj. apply Hu. replace (page_at p j) with (page_at p' j) by (unfold page_at; by rewrite Hb).
  apply Hf. by rewrite Hc.
Qed.

(** Unmapping a page and freeing its frame. *)
Lemma unmap_page m P T pd va k :
  spaces m P T -> pd ∈ P -> 0 <= va < PHYS_BASE -> pg_ofs va = 0 -> has PTE_P (pte m T pd va) = true ->
  Palloc.used (user_pool m) k ->
  exists m1 m2, pagedir_clear_page pd va m = Ok (tt, m1) /\ palloc_free_page k m1 = Ok (tt, m2) /\ spaces m2 P T /\
    (forall pd' va', 0 <= va' < PHYS_BASE -> pte m2 T pd' va' =
       if decide (same_pte pd va pd' va') then flag_word PTE_P false (pte m T pd va) else pte m T pd' va') /\
    (forall q, Palloc.used (user_pool m2) q <-> Palloc.used (user_pool m) q /\ q <> k) /\
    (forall q, Palloc.used (user_pool m2) q -> memory m2 !! q = memory m !! q) /\
    (base (user_pool m2) = base (user_pool m) /\ bit_cnt (used_map (user_pool m2)) = bit_cnt (used_map (user_pool m))) /\
    (pool_full (kernel_pool m2) -> pool_full (kernel_pool m)) /\
    init_page_dir m2 = init_page_dir m /\ init_ram_pages m2 = init_ram_pages m.
Proof.
  intros Hs Hpd Hva Ho Hpr Hu. destruct (clear_page_run m P T pd va Hs Hpd Hva Ho) as (m1 & E1 & Hs1 & [Ap Hkp] & Hc).
  pose proof Ap as [Au Ak Am (Ai & Ar & Ac)].
  destruct (free_run m1 true k) as (m2 & E2 & F); [apply Hs1|by simpl; rewrite Au|].
  assert (Hkk : forall q, Palloc.used (kernel_pool m1) q -> q <> k).
  { intros q Hq ->. apply (user_not_kernel_page m1 k); [apply Hs1|by rewrite Au|done]. }
  destruct (spaces_user m1 m2 P T Hs1) as [Hs2 Hp2]; try apply F.
  { intros q Hq. apply (fd_used _ _ _ _ F false). split; [done|naive_solver]. }
  { intros q Hq. apply F; [|naive_solver]. intros [_ ->]. by apply (Hkk k). }
  assert (Hused : forall q, Palloc.used (user_pool m2) q <-> Palloc.used (user_pool m) q /\ q <> k).
  { intros q. rewrite <- Au. rewrite (fd_used _ _ _ _ F true). naive_solver. }
  destruct (fd_vars _ _ _ _ F) as (Fi & Fr & _).
  exists m1, m2. split_and!; try done; try congruence.
  - intros pd' va' Hv'. rewrite Hp2, Hc by done. destruct (T !! (pd, pd_no va)) eqn:E; [done|]. exfalso.
    unfold pte in Hpr. by rewrite E in Hpr.
  - intros q Hq. apply Hused in Hq as [Hq Hne]. rewrite (fd_memory _ _ _ _ F) by naive_solver. apply Am.
    destruct Hq as (j & Hj & -> & _). unfold page_at, PGSIZE. lia.
  - transitivity (base (user_pool m1)); [apply (fd_base _ _ _ _ F true)|by rewrite Au].
  - transitivity (bit_cnt (used_map (user_pool m1))); [apply (fd_cnt _ _ _ _ F true)|by rewrite Au].
  - rewrite <- Hkp. apply pool_full_mono; [apply (fd_base _ _ _ _ F false)|apply (fd_cnt _ _ _ _ F false)|].
    intros q Hq. by apply (fd_used _ _ _ _ F false) in Hq as [? _].
Qed.

(** ** What taking frames leaves alone *)

(** The process up to where its pages are; none was brought in, and entries
    without a frame stay as they are. *)
Definition key (e : spinfo) : Z * Z * bool := (sp_id e, upage_address e, writable e).
Definition process_like (p p' : process) : Prop :=
  set_spage_table [] p' = set_spage_table [] p /\ map key (spage_table p') = map key (spage_table p) /\
  (forall e, e ∈ spage_table p' -> kpage_address e <> NULL -> e ∈ spage_table p) /\
  (forall e, e ∈ spage_table p -> kpage_address e = NULL -> e ∈ spage_table p').

Record moved_pages v v' : Prop := {
  mv_current : current v' = current v;
  mv_lock : lock_holder v' = lock_holder v;
  mv_fs : fsys v' = fsys v;
  mv_frames : length (frametable v') = length (frametable v);
  mv_kernel : pool_full (kernel_pool (mach v')) -> pool_full (kernel_pool (mach v));
  mv_procs : forall t p, procs v !! t = Some p -> exists p', procs v' !! t = Some p' /\ process_like p p';
}.
Lemma process_like_refl p : process_like p p.
Proof. done. Qed.

Lemma upd_like id g l :
  (forall y, key (g y) = key y) -> map key (upd_spinfo id g l) = map key l.
Proof. intros Hg. by apply upd_spinfo_map. Qed.

(** Where the pages of a search are does not matter. *)
Lemma find_spinfo_like l l' u :
  map key l' = map key l ->
  match find_spinfo l u, find_spinfo l' u with
  | Some e, Some e' => key e' = key e
  | None, None => True
  | _, _ => False
  end.
Proof.
  revert l'. induction l as [|x l IH]; intros [|x' l'] E; try done. injection E as Ei Eu Ew El. simpl. rewrite Eu.
  destruct (upage_address x =? u); [unfold key; congruence|]. by apply IH.
Qed.

Context `{KpageSearch} `{!KpageLaws}.

(** The swap area and the update of the victim's entry. *)
Lemma evict_swap v P T A M t p e bs (dirty : bool) :
  vm_inv v P T A M None -> procs v !! t = Some p -> e ∈ spage_table p -> kpage_address e <> NULL ->
  M !! (t, upage_address e) = Some bs -> dirty = has PTE_D (pte (mach v) T (pagedir p) (upage_address e)) ->
  let run := (if bool_decide (instructions e = STACK) || dirty then
         bytes ← load_page (kpage_address e);
         idx ← on_swap_area (move_into_swap (kpage_address e) bytes (instructions e) dirty);
         upd_entry t (sp_id e) (set_instructions SWAP idx)
       else mret tt) in
  (exists g w, run v = Ok (tt, set_procs (<[t := set_spage_table (upd_spinfo (sp_id e) g (spage_table p)) p]> (procs v)) (set_swap_area w v)) /\
     (forall y, key (g y) = key y /\ kpage_address (g y) = kpage_address y) /\ swap_ok w /\ swaptable_size w < 2 ^ 32 /\
     (forall t' x bs', entry_at (procs v) t' x -> ~ (t' = t /\ x = e) -> instructions x = SWAP ->
        slot_ok (swap_area v) (index_into_swap x) bs' -> slot_ok w (index_into_swap x) bs') /\
     (instructions (g e) = FILE -> file_ok A (g e)) /\
     (if decide (instructions (g e) = SWAP) then slot_ok w (index_into_swap (g e)) bs else backing A (g e) = Some bs) /\
     (instructions (g e) = SWAP -> forall t' x, entry_at (procs v) t' x -> instructions x = SWAP ->
        index_into_swap x <> index_into_swap (g e))) \/
  (forall i x, swaptable (swap_area v) !! i = Some x -> slot_filled x = true) /\
  run v = Err (Panicked "No more swap space!!!!").
Proof.
  intros V Hp He Hn HM Hd run. pose proof (vi_proc _ _ _ _ _ _ V _ _ Hp) as Hpr.
  destruct (pr_entry _ _ _ _ _ _ _ Hpr e He) as (bs0 & HM0 & Hok). rewrite HM in HM0. injection HM0 as <-.
  destruct (eo_frame _ _ _ _ _ _ _ Hok Hn) as (_ & _ & _ & Hmem & Hns & Hback). destruct (vi_swap _ _ _ _ _ _ V) as [Hsw Hsz].
  destruct (bool_decide (instructions e = STACK) || dirty) eqn:Eb; unfold run; clear run.
  - destruct (slot_free_or_full (swaptable (swap_area v))) as [Hfree|Hfull].
    2: { right. split; [done|]. unfold mbind, M_bind, load_page, on_swap_area. rewrite Hmem. by rewrite move_into_swap_full. }
    destruct (move_into_swap_ok (swap_area v) (kpage_address e) bs (instructions e) dirty Hsw Hn (eo_length _ _ _ _ _ _ _ Hok) Hfree)
      as (i & w & Em & Hw & (x0 & Hx0 & Hx0f) & Et & Ez & Eb0 & Eo).
    left. exists (set_instructions SWAP (Z.of_nat i)), w. pose proof (lookup_lt_Some _ _ _ Hx0) as Hlt. rewrite (so_length _ Hsw) in Hlt.
    split_and!; try done; try lia.
    + bind_by (unfold load_page; rewrite Hmem; reflexivity). bind_by (unfold on_swap_area; rewrite Em; reflexivity).
      unfold upd_entry. by bind_by (unfold get_process; simpl procs; rewrite Hp; reflexivity).
    + intros t' x bs' Hx Hne Hi (Hr & Hb & x1 & Hx1 & Hf1 & Hd1). assert (index_into_swap x <> Z.of_nat i).
      { intros E. rewrite E, Nat2Z.id, Hx0 in Hx1. injection Hx1 as <-. congruence. }
      split; [lia|]. rewrite Eo by lia. split; [done|]. exists x1. rewrite Et, list_lookup_insert_ne by lia. done.
    + simpl. split; [lia|]. split; [done|]. eexists. rewrite Et, Nat2Z.id, list_lookup_insert_eq by (rewrite (so_length _ Hsw); lia).
      split; [done|]. split; [done|]. simpl. intros ->. specialize (Hback (eq_sym Hd)). apply orb_true_iff in Eb as [Eb|?]; [|done].
      apply bool_decide_eq_true in Eb. unfold backing in Hback. rewrite Eb in Hback. by injection Hback.
    + intros _ t' x (q & Hq & Hx) Hi E. simpl in E.
      destruct (pr_entry _ _ _ _ _ _ _ (vi_proc _ _ _ _ _ _ V _ _ Hq) x Hx) as (bs1 & _ & Hok1).
      destruct (decide (kpage_address x = NULL)) as [Hkn|Hkn].
      * pose proof (eo_away _ _ _ _ _ _ _ Hok1 Hkn) as Haw. rewrite decide_True in Haw by done.
        destruct Haw as (_ & _ & x1 & Hx1 & Hf1 & _). rewrite E, Nat2Z.id, Hx0 in Hx1. injection Hx1 as <-. congruence.
      * by destruct (eo_frame _ _ _ _ _ _ _ Hok1 Hkn) as (_ & _ & _ & _ & ? & _).
  - left. apply orb_false_iff in Eb as [Eb ->]. apply bool_decide_eq_false in Eb. exists (fun y => y), (swap_area v).
    split_and!; try done.
    + unfold upd_spinfo. replace (map _ (spage_table p)) with (spage_table p).
      * replace (set_spage_table (spage_table p) p) with p by (by destruct p). rewrite insert_id by done. by destruct v.
      * symmetry. rewrite <- (map_id (spage_table p)) at 2. apply map_ext. intros y. by destruct (sp_id y =? sp_id e).
    + intros Hi. by apply Hok.
    + rewrite decide_False by done. auto.
Qed.

Lemma upd_upd id g h l : (forall y, sp_id (g y) = sp_id y) ->
  upd_spinfo id h (upd_spinfo id g l) = upd_spinfo id (fun y => h (g y)) l.
Proof.
  intros Hg. unfold upd_spinfo. rewrite map_map. apply map_ext. intros y.
  destruct (sp_id y =? id) eqn:E; [by rewrite Hg, E|by rewrite E].
Qed.

(** [evict_page] with every frame filled: a frame is emptied and no page of any
    process changes, or the swap area is full and the kernel stops. *)
Lemma evict_ok v P T A M :
  vm_inv v P T A M None -> (forall i f, frametable v !! i = Some f -> isfilled f = true) -> frametable v <> [] ->
  (exists i v', evict_page v = Ok (Z.of_nat i, v') /\ vm_inv v' P T A M None /\ moved_pages v v' /\
     frametable v' !! i = Some (mk_frame false NULL NULL)) \/
  (forall i x, swaptable (swap_area v) !! i = Some x -> slot_filled x = true) /\
  evict_page v = Err (Panicked "No more swap space!!!!").
Proof.
  intros V Hfull Hne. destruct (clock_ok v P T A M (clock_fuel v) V Hfull Hne) as (f & e & v1 & E1 & V1 & Tk & Hh & Hf & (p & Hp & He) & Hk);
    [unfold clock_fuel; lia|].
  destruct Tk as [Tf _ Ts Tp Tc Tl Tfs _ Tk]. rewrite <- Tf in Hf. rewrite <- Tp in Hp. set (i := Z.to_nat (clock_hand v1)) in *.
  assert (Hfill : isfilled f = true) by (rewrite Tf in Hf; by apply (Hfull i)).
  pose proof (vi_frame _ _ _ _ _ _ V1 i f Hf) as Hfr. rewrite Hfill, decide_False in Hfr by done. destruct Hfr as (_ & _ & _ & Hnn).
  pose proof (vi_proc _ _ _ _ _ _ V1 _ _ Hp) as Hpr. destruct (pr_entry _ _ _ _ _ _ _ Hpr e He) as (bs & HM & Hok).
  assert (Hkn : kpage_address e <> NULL) by congruence. pose proof (eo_page _ _ _ _ _ _ _ Hok) as [Hu Huo].
  destruct (eo_frame _ _ _ _ _ _ _ Hok Hkn) as (_ & _ & Hused & _). destruct (pr_dir _ _ _ _ _ _ _ Hpr) as [Hpd _].
  pose proof (vi_spaces _ _ _ _ _ _ V1) as Hs.
  assert (Hrun : forall r, (let run := (if bool_decide (instructions e = STACK) || has PTE_D (pte (mach v1) T (pagedir p) (upage_address e)) then
         bytes ← load_page (kpage_address e);
         idx ← on_swap_area (move_into_swap (kpage_address e) bytes (instructions e) (has PTE_D (pte (mach v1) T (pagedir p) (upage_address e))));
         upd_entry (owner f) (sp_id e) (set_instructions SWAP idx)
       else mret tt) in run v1 = r) ->
     evict_page v = match r with Err x => Err x | Ok (_, v2) =>
       (_ ← on_mach (pagedir_clear_page (pagedir p) (upage_address e)); _ ← upd_entry (owner f) (sp_id e) (set_kpage NULL);
        _ ← on_mach (palloc_free_page (page f)); _ ← free_frame (page f); v ← get; mret (clock_hand v)) v2 end).
  { intros r Hr. unfold evict_page. bind_by reflexivity. bind_by (exact E1). cbv beta iota zeta.
    bind_by (unfold get_process; rewrite Hp; reflexivity).
    bind_by (unfold on_mach, pagedir_is_dirty; rewrite (is_flag_run (mach v1) P T) by done; reflexivity).
    rewrite <- Hk. cbv zeta in Hr. replace (set_mach (mach v1) v1) with v1 by (by destruct v1).
    unfold mbind at 1, M_bind at 1. rewrite Hr. by destruct r as [[[] v2]|]. }
  destruct (evict_swap v1 P T A M (owner f) p e bs _ V1 Hp He Hkn HM eq_refl)
    as [(g & w & Eg & Hg & Hw & Hws & Hoth & Hfl & Haw & Hsl)|[Hall Ee]].
  2: { right. rewrite <- Ts. split; [done|]. by rewrite (Hrun _ Ee). }
  left. destruct (unmap_page (mach v1) P T (pagedir p) (upage_address e) (page f) Hs Hpd Hu Huo)
    as (m1 & m2 & Em1 & Em2 & Hs2 & Hp2 & Hu2 & Hm2 & Hb2 & Hkf & Hv2).
  { rewrite (eo_present _ _ _ _ _ _ _ Hok), (proj2 (Z.eqb_neq _ _) Hkn). done. } { by rewrite <- Hk. }
  set (g' := fun y => set_kpage NULL (g y)).
  assert (Hgid : forall y, sp_id (g y) = sp_id y) by (intros y; destruct (Hg y) as [E _]; unfold key in E; congruence).
  assert (Hgup : forall y, upage_address (g y) = upage_address y) by (intros y; destruct (Hg y) as [E _]; unfold key in E; congruence).
  assert (V' : vm_inv (v' v1 i f p e g' m2 w) P T A M None).
  { apply inv_evicted; try done. intros bs' HM'. rewrite HM in HM'. by injection HM' as <-. }
  exists i. eexists. split; [|split; [exact V'|split]].
  - rewrite (Hrun _ Eg). bind_by (unfold on_mach; simpl mach; rewrite Em1; reflexivity).
    bind_by (unfold upd_entry; bind_by (unfold get_process; simpl procs; rewrite lookup_insert_eq; reflexivity); reflexivity).
    bind_by (unfold on_mach; simpl mach; rewrite Em2; reflexivity).
    bind_by (apply (free_frame_run v1 _ P T A M None i f V1); done).
    bind_by reflexivity. assert (Hi : Z.of_nat i = clock_hand v1) by (unfold i; lia). rewrite Hi.
    unfold mret, M_ret. do 2 f_equal.
    unfold v', procs', table', g'. simpl. rewrite insert_insert_eq. unfold set_spage_table at 2. simpl. by rewrite upd_upd.
  - constructor; simpl; rewrite ?length_insert; try congruence; [by rewrite <- Tk|].
    intros t q Hq. rewrite <- Tp in Hq. unfold procs'. destruct (decide (t = owner f)) as [->|Hnt].
    + rewrite lookup_insert_eq. eexists. split; [done|]. rewrite Hp in Hq. injection Hq as <-. split; [done|].
      split; [apply upd_like; intros y; by destruct (Hg y) as [<- _]|]. simpl. split; intros x Hx Hxn.
      * apply (upd_spinfo_elem (spage_table p) e g' x) in Hx as [->|[Hx _]]; [done|done|apply Hpr|done|exact Hgid].
      * apply (upd_spinfo_elem (spage_table p) e g' x); [apply Hpr|done|exact Hgid|]. right. split; [done|]. intros Ei.
        by rewrite (NoDup_map_inj sp_id (spage_table p) x e (pr_ids _ _ _ _ _ _ _ Hpr) Hx He Ei) in Hxn.
    + rewrite lookup_insert_ne by done. by exists q.
  - simpl. apply list_lookup_insert_eq. by eapply lookup_lt_Some.
Qed.

(** ** Assigning a frame *)

Lemma empty_frame_spec l : forall k,
  match empty_frame_loop l k with
  | Some i => exists n f, i = k + Z.of_nat n /\ l !! n = Some f /\ isfilled f = false
  | None => forall n f, l !! n = Some f -> isfilled f = true
  end.
Proof.
  induction l as [|x l IH]; intros k; simpl; [done|]. destruct (isfilled x) eqn:E; simpl.
  - specialize (IH (k + 1)). destruct (empty_frame_loop l (k + 1)) as [i|].
    + destruct IH as (n & f & -> & Hn & Hf). exists (S n), f. split; [lia|done].
    + intros [|n] f Hl; simpl in Hl; [by simplify_eq|]. by apply (IH n).
  - exists 0%nat, x. split; [lia|done].
Qed.

(** With an empty frame the user pool has a free page. *)
Lemma pool_not_full v P T A M i f :
  vm_inv v P T A M None -> frametable v !! i = Some f -> isfilled f = false ->
  ~ forall j, 0 <= j < bit_cnt (used_map (user_pool (mach v))) -> bit (used_map (user_pool (mach v))) j = true.
Proof.
  intros V Hi Hf Hall. set (pl := user_pool (mach v)) in *. pose proof (vi_size _ _ _ _ _ _ V) as [Hsz _]. fold pl in Hsz.
  pose proof (vi_spaces _ _ _ _ _ _ V) as Hs.
  assert (Hsub : map (page_at pl) (seqZ 0 (bit_cnt (used_map pl))) ⊆+ map page (delete i (frametable v))).
  { apply NoDup_submseteq.
    - apply NoDup_fmap_2; [|apply NoDup_seqZ]. intros x y. unfold page_at, PGSIZE. lia.
    - intros q (j & -> & Hj)%list_elem_of_fmap. apply elem_of_seqZ in Hj.
      destruct (vi_pool _ _ _ _ _ _ V (page_at pl j)) as (n & h & Hn & Eh & Eq); [exists j; fold pl; split; [lia|]; split; [done|apply Hall; lia]|].
      apply list_elem_of_fmap. exists h. split; [done|]. rewrite delete_take_drop. apply elem_of_app.
      destruct (decide (n < i)%nat).
      + left. apply list_elem_of_lookup. exists n. by rewrite lookup_take_lt.
      + right. apply list_elem_of_lookup. exists (n - S i)%nat. rewrite lookup_drop.
        assert (n <> i) by (intros ->; congruence). by replace (S i + (n - S i))%nat with n by lia. }
  apply submseteq_length in Hsub. rewrite !length_map, length_seqZ, length_delete in Hsub by (by eexists).
  apply lookup_lt_Some in Hi. lia.
Qed.

Section Assign.
Context v (P : gset Z) (T : gmap (Z * Z) Z) (A : afs) (M : gmap (Z * Z) (list Z)).
Context (i : nat) (k n : Z) (m' : machine).
Hypothesis V : vm_inv v P T A M None.
Hypothesis Hi : (i < length (frametable v))%nat.
Hypothesis Hempty : forall f, frametable v !! i = Some f -> isfilled f = false.
Hypothesis Hsm : spaces m' P T.
Hypothesis Hpte : forall pd va, pte m' T pd va = pte (mach v) T pd va.
Hypothesis Hkn : k <> NULL.
Hypothesis Hnew : ~ Palloc.used (user_pool (mach v)) k.
Hypothesis Hused : forall q, Palloc.used (user_pool m') q <-> Palloc.used (user_pool (mach v)) q \/ q = k.
Hypothesis Hmem : forall q, Palloc.used (user_pool (mach v)) q -> memory m' !! q = memory (mach v) !! q.
Hypothesis Hbase : base (user_pool m') = base (user_pool (mach v)) /\
  bit_cnt (used_map (user_pool m')) = bit_cnt (used_map (user_pool (mach v))).
Hypothesis Hvars : init_page_dir m' = init_page_dir (mach v) /\ init_ram_pages m' = init_ram_pages (mach v).

Lemma inv_assigned :
  vm_inv (set_assigned n (set_frametable (<[i := mk_frame true k (current v)]> (frametable v)) (set_mach m' v))) P T A M (Some i).
Proof.
  pose proof V as []. destruct Hvars as [Hvi Hvr]. destruct Hbase as [Hb Hbc].
  assert (Hnk : forall t e, entry_at (procs v) t e -> kpage_address e <> k).
  { intros t e (q & Hq & He) E. destruct (pr_entry _ _ _ _ _ _ _ (vi_proc _ _ Hq) e He) as (bs & _ & Hok).
    apply Hnew. rewrite <- E. by apply Hok; rewrite E. }
  assert (Hfr : forall j h, <[i := mk_frame true k (current v)]> (frametable v) !! j = Some h ->
    j = i /\ h = mk_frame true k (current v) \/ j <> i /\ frametable v !! j = Some h).
  { intros j h [(<- & <- & _)|[Hne Hj]]%list_lookup_insert_Some; [by left|by right]. }
  constructor; simpl; rewrite ?Hb, ?Hbc, ?Hvr, ?length_insert; try done.
  - intros t p Hp. destruct (vi_proc _ _ Hp). constructor; simpl; rewrite ?Hvi; try done.
    + intros e He. destruct (pr_entry e He) as (bs & HM & Hok). exists bs. split; [done|].
      eapply entry_keep; [exact Hok|by rewrite Hpte| |done|done].
      intros Hn. destruct (eo_frame _ _ _ _ _ _ _ Hok Hn) as (_ & _ & Hu & _). split; [apply Hused; by left|by apply Hmem].
    + intros va Hva. rewrite Hpte. by apply pr_mapped.
  - intros j h [[-> ->]|[Hne Hj]]%Hfr; simpl.
    + rewrite decide_True by done. split; [apply Hused; by right|]. intros t e He. by apply (Hnk t).
    + specialize (vi_frame j h Hj). destruct (isfilled h); [by rewrite decide_False in * by congruence|].
      destruct vi_frame. split; [done|congruence].
  - intros t e He Hn. destruct (vi_framed t e He Hn) as (j & h & Hj & Eh & Ep & Eo). exists j, h. split; [|done].
    rewrite list_lookup_insert_ne; [done|]. intros <-. by rewrite (Hempty h Hj) in Eh.
  - intros j j' h h' Hj Hj' Eh Eh' E. apply Hfr in Hj as [[-> ->]|[N1 Hj]]; apply Hfr in Hj' as [[-> ->]|[N2 Hj']]; simpl in *; try done.
    + specialize (vi_frame j' h' Hj'). rewrite Eh' in vi_frame.
      destruct vi_frame as (x & Hx & Ex & _). by destruct (Hnk _ _ Hx); congruence.
    + specialize (vi_frame j h Hj). rewrite Eh in vi_frame.
      destruct vi_frame as (x & Hx & Ex & _). by destruct (Hnk _ _ Hx); congruence.
    + by apply (vi_frames j j' h h').
  - intros q [Hq| ->]%Hused.
    + destruct (vi_pool q Hq) as (j & h & Hj & Eh & Ep). exists j, h. split; [|done].
      rewrite list_lookup_insert_ne; [done|]. intros <-. by rewrite (Hempty h Hj) in Eh.
    + exists i, (mk_frame true k (current v)). by rewrite list_lookup_insert_eq.
Qed.
End Assign.

Lemma next_empty_ok v P T A M :
  vm_inv v P T A M None -> frametable v <> [] ->
  (exists i f v', next_empty_frame v = Ok (Z.of_nat i, v') /\ vm_inv v' P T A M None /\ moved_pages v v' /\
     frametable v' !! i = Some f /\ isfilled f = false) \/
  (forall i x, swaptable (swap_area v) !! i = Some x -> slot_filled x = true) /\
  (forall i f, frametable v !! i = Some f -> isfilled f = true) /\
  next_empty_frame v = Err (Panicked "No more swap space!!!!").
Proof.
  intros V Hne. unfold next_empty_frame. pose proof (empty_frame_spec (frametable v) 0) as Hsp.
  destruct (empty_frame_loop (frametable v) 0) as [x|] eqn:El.
  - destruct Hsp as (n & f & -> & Hn & Hf). left. exists n, f, v. split_and!; try done.
    + bind_by reflexivity. by rewrite El.
    + constructor; try done. intros t p Hp. exists p. by split.
  - destruct (evict_ok v P T A M V Hsp Hne) as [(i & v' & E & V' & Mv & Hi)|[Hfull E]].
    + left. eexists i, _, v'. split_and!; [|done|done|exact Hi|done]. bind_by reflexivity. by rewrite El.
    + right. split_and!; [done..|]. unfold mbind, M_bind, get. by rewrite El.
Qed.

(** [assign_page]: a frame for the current process with a page of zeros; the
    pages of the processes keep their bytes. *)
Lemma assign_ok v P T A M :
  vm_inv v P T A M None -> frametable v <> [] ->
  (exists i k v', assign_page v = Ok (k, v') /\ k <> NULL /\ vm_inv v' P T A M (Some i) /\ moved_pages v v' /\
     frametable v' !! i = Some (mk_frame true k (current v)) /\ memory (mach v') !! k = Some zero_page) \/
  (forall i x, swaptable (swap_area v) !! i = Some x -> slot_filled x = true) /\
  (forall i f, frametable v !! i = Some f -> isfilled f = true) /\
  assign_page v = Err (Panicked "No more swap space!!!!").
Proof.
  intros V Hne. destruct (next_empty_ok v P T A M V Hne) as [(i & f & v1 & E1 & V1 & Mv & Hi & Hf)|(Hfull & Hfill & E)].
  2: { right. split_and!; [done..|]. unfold assign_page, mbind, M_bind. by rewrite E. }
  left. pose proof (vi_spaces _ _ _ _ _ _ V1) as Hs. pose proof (sp_machine _ _ _ Hs) as Hm.
  destruct (get_page_ok (mach v1) (Z.lor PAL_USER PAL_ZERO) Hm eq_refl) as [(k & m & Ep & Hkn & G)|[Hall _]].
  2: { by destruct (pool_not_full v1 P T A M i f V1 Hi Hf). }
  change (flag (Z.lor PAL_USER PAL_ZERO) PAL_USER) with true in G. change (flag (Z.lor PAL_USER PAL_ZERO) PAL_ZERO) with true in G.
  destruct (got_page (mach v1) m true true k G) as (Hnew & Hk & Hold & Hmem). cbn [get_pool] in Hnew, Hk, Hold.
  assert (Huk : forall q, Palloc.used (user_pool m) q <-> Palloc.used (user_pool (mach v1)) q \/ q = k).
  { intros q. split; [|intros [?| ->]; auto]. intros Hq. pose proof (proj1 (gt_used _ _ _ _ _ _ G q) Hq) as [Ho|[Hr Ha]]; [by left|right].
    apply (pool_spacing (user_pool m)); [done|done|]. lia. }
  assert (Hker : kernel_pool m = kernel_pool (mach v1)) by apply (gt_other _ _ _ _ _ _ G).
  assert (Hkk : forall q, Palloc.used (kernel_pool (mach v1)) q -> q <> k).
  { intros q Hq ->. apply (user_not_kernel_page m k); [apply G|done|by rewrite Hker]. }
  destruct (gt_pd _ _ _ _ _ _ G) as (Gi & Gr & Gc).
  destruct (spaces_user (mach v1) m P T Hs) as [Hs2 Hp2]; try done.
  { apply G. } { by rewrite Hker. } { intros q Hq. rewrite Hmem, decide_False; [done|]. intros [_ ->]. by apply (Hkk k). }
  exists i, k. eexists. split.
  { unfold assign_page. bind_by (exact E1). bind_by (unfold on_mach; rewrite Ep; reflexivity). bind_by reflexivity.
    bind_by (unfold put_frame, modify; rewrite Nat2Z.id; reflexivity). bind_by reflexivity. reflexivity. }
  split; [done|]. split; [|split; [|split]].
  - apply (inv_assigned v1); try done.
    + by eapply lookup_lt_Some.
    + intros h Hh. congruence.
    + intros q Hq. rewrite Hmem, decide_False; [done|]. intros [_ ->]. done.
    + split; [apply (gt_base _ _ _ _ _ _ G true)|apply (gt_cnt _ _ _ _ _ _ G true)].
  - destruct Mv. constructor; simpl; rewrite ?length_insert, ?Hker; done.
  - simpl. rewrite (mv_current _ _ Mv). apply list_lookup_insert_eq. by eapply lookup_lt_Some.
  - simpl. by rewrite Hmem, decide_True.
Qed.
End Evict.
