(* ===== verification/Paging.v ===== *)
(** * Page faults bring back the page

    A fault on a page of the process makes it present, with the bytes it has in
    [M], whatever pages had to be moved to swap for it. *)

From S2P Require Import Prelude Block FsState File FsSpec FsInv FsOps Vaddr Bitmap Palloc Pagedir Spage Swap Frame Fault VmInv Clock Evict.

Section Mapped.
Context `{BlockLaws D}.
Implicit Types v : vm D.

Context v (P : gset Z) (T T' : gmap (Z * Z) Z) (A A' : afs) (M : gmap (Z * Z) (list Z)).
Context (i : nat) (k t : Z) (p : process) (e : spinfo) (bs : list Z) (g : spinfo -> spinfo).
Context (m' : machine) (w' : swap D) (f' : fs D) (word : Z).
Hypothesis V : vm_inv v P T A M (Some i).
Hypothesis Hi : frametable v !! i = Some (mk_frame true k t).
Hypothesis Hkn : k <> NULL.
Hypothesis Hp : procs v !! t = Some p.
Hypothesis He : e ∈ spage_table p.
Hypothesis Hk0 : kpage_address e = NULL.
Hypothesis HM : M !! (t, upage_address e) = Some bs.
Hypothesis Hgkey : forall y, key (g y) = key y.
Hypothesis Hgk : kpage_address (g e) = k.
Hypothesis Hgi : instructions (g e) <> SWAP.
Hypothesis Hsm : spaces m' P T'.
Hypothesis Hpte : forall pd va, 0 <= va < PHYS_BASE -> pte m' T' pd va =
  if decide (same_pte (pagedir p) (upage_address e) pd va) then word else pte (mach v) T pd va.
Hypothesis Hword : has PTE_P word = true /\ has PTE_W word = writable e /\ Z.land word PTE_ADDR + PHYS_BASE = k.
Hypothesis Hclean : has PTE_D word = false -> backing A' (g e) = Some bs.
Hypothesis Hfile : instructions (g e) = FILE -> file_ok A' (g e).
Hypothesis Hpool : user_pool m' = user_pool (mach v).
Hypothesis Hmemk : memory m' !! k = Some bs.
Hypothesis Hmem : forall q, Palloc.used (user_pool (mach v)) q -> q <> k -> memory m' !! q = memory (mach v) !! q.
Hypothesis Hvars : init_page_dir m' = init_page_dir (mach v) /\ init_ram_pages m' = init_ram_pages (mach v).
Hypothesis Hsw : swap_ok w' /\ swaptable_size w' < 2 ^ 32.
Hypothesis Hother : forall t' x bs', entry_at (procs v) t' x -> ~ (t' = t /\ x = e) -> instructions x = SWAP ->
  slot_ok (swap_area v) (index_into_swap x) bs' -> slot_ok w' (index_into_swap x) bs'.
Hypothesis Hfs : refines f' A' /\ same_files A A' /\ brk (fsys v) <= brk f'.

Local Definition table2 : list spinfo := upd_spinfo (sp_id e) g (spage_table p).
Local Definition procs2 : gmap Z process := <[t := set_spage_table table2 p]> (procs v).
Definition mapped_vm : vm D := mk_vm m' (frametable v) (clock_hand v) (num_pages_assigned v) w' procs2
  (current v) (lock_holder v) f'.

Local Lemma gid y : sp_id (g y) = sp_id y.
Proof. pose proof (Hgkey y) as E. unfold key in E. congruence. Qed.
Local Lemma gup y : upage_address (g y) = upage_address y.
Proof. pose proof (Hgkey y) as E. unfold key in E. congruence. Qed.
Local Lemma gwr y : writable (g y) = writable y.
Proof. pose proof (Hgkey y) as E. unfold key in E. congruence. Qed.

Local Lemma table2_elem x : x ∈ table2 <-> x = g e \/ x ∈ spage_table p /\ x <> e.
Proof.
  unfold table2. pose proof (vi_proc _ _ _ _ _ _ V _ _ Hp) as []. rewrite upd_spinfo_elem by (done || apply gid). split.
  - intros [->|[Hx Hn]]; [by left|right]. split; [done|]. by intros ->.
  - intros [->|[Hx Hn]]; [by left|right]. split; [done|]. intros E. apply Hn. by apply (NoDup_map_inj sp_id (spage_table p)).
Qed.

Local Lemma entry_at2 t' x : entry_at procs2 t' x <->
  t' = t /\ x = g e \/ entry_at (procs v) t' x /\ ~ (t' = t /\ x = e).
Proof.
  unfold procs2. rewrite entry_at_set by done. destruct (decide (t' = t)) as [->|Hne].
  - rewrite table2_elem. split.
    + intros [->|[Hx Hn]]; [by left|right]. split; [by exists p|naive_solver].
    + intros [[_ ->]|[(q & Hq & Hx) Hn]]; [by left|]. rewrite Hp in Hq. injection Hq as <-. right. naive_solver.
  - naive_solver.
Qed.

Local Lemma spare_page : Palloc.used (user_pool (mach v)) k /\ forall t' x, entry_at (procs v) t' x -> kpage_address x <> k.
Proof. pose proof (vi_frame _ _ _ _ _ _ V i _ Hi) as Hf. simpl in Hf. by rewrite decide_True in Hf. Qed.

Local Lemma keep_entry2 t' q x bs' :
  procs v !! t' = Some q -> x ∈ spage_table q -> ~ (t' = t /\ x = e) ->
  entry_ok (mach v) (swap_area v) T A (pagedir q) x bs' -> entry_ok m' w' T' A' (pagedir q) x bs'.
Proof.
  intros Hq Hx Hne Hok. eapply entry_keep; [exact Hok|..|by apply same_files_text, Hfs].
  - rewrite Hpte by apply Hok. rewrite decide_False; [done|]. intros Hsame.
    by apply Hne, (entries_apart v P T A M (Some i) t t' p q e x).
  - intros Hn. destruct (eo_frame _ _ _ _ _ _ _ Hok Hn) as (_ & _ & Hu & _). rewrite Hpool. split; [done|].
    apply Hmem; [done|]. apply (proj2 spare_page t'). by exists q.
  - intros Hin. apply (Hother t' x); [by exists q|done..].
Qed.

Lemma inv_mapped : vm_inv mapped_vm P T' A' M None.
Proof.
  pose proof V as []. destruct Hvars as [Hvi Hvr]. destruct Hfs as (Hrf & Hsf & Hbrk). destruct Hword as (HwP & HwW & HwA).
  destruct spare_page as [Hku Hkf].
  constructor; simpl; rewrite ?Hpool, ?Hvr; try done.
  - intros t' q Hq. unfold procs2 in Hq. destruct (decide (t' = t)) as [->|Hne].
    + rewrite lookup_insert_eq in Hq. injection Hq as <-. destruct (vi_proc _ _ Hp). constructor; simpl; rewrite ?Hvi; try done.
      * unfold table2. rewrite upd_spinfo_map; [done|apply gid].
      * unfold table2. rewrite upd_spinfo_map; [done|apply gup].
      * intros x Hx. apply Z.lt_le_trans with (brk (fsys v)); [|done]. apply table2_elem in Hx as [->|[Hx _]]; [rewrite gid|]; auto.
      * intros x [->|[Hx Hn]]%table2_elem.
        -- destruct (pr_entry e He) as (bs0 & HM0 & Hok). exists bs. rewrite gup. split; [done|].
           rewrite HM in HM0. injection HM0 as <-.
           assert (Hu : 0 <= upage_address e < PHYS_BASE) by apply Hok.
           assert (Ew : pte m' T' (pagedir p) (upage_address e) = word) by (rewrite Hpte, decide_True by done; done).
           constructor; rewrite ?gup, ?Hgk, ?Ew; [apply Hok|apply Hok|done| | |done].
           ++ by rewrite HwP, (proj2 (Z.eqb_neq _ _) Hkn).
           ++ intros _. rewrite gwr, Hpool. done.
        -- destruct (pr_entry x Hx) as (bs' & HM' & Hok). exists bs'. split; [done|]. apply (keep_entry2 t p x bs'); naive_solver.
      * intros va Hva Hpr. rewrite Hpte in Hpr by done. case_decide as K.
        -- exists (g e). rewrite gup. destruct K as (_ & ? & ?). split; [apply table2_elem; by left|done].
        -- destruct (pr_mapped va Hva Hpr) as (x & Hx & E1 & E2). exists x. split; [|done]. apply table2_elem. right.
           split; [done|]. intros ->. apply K. done.
    + rewrite lookup_insert_ne in Hq by done. destruct (vi_proc _ _ Hq). constructor; simpl; rewrite ?Hvi; try done.
      * intros x Hx. apply Z.lt_le_trans with (brk (fsys v)); auto.
      * intros x Hx. destruct (pr_entry x Hx) as (bs' & HM' & Hok). exists bs'. split; [done|]. apply (keep_entry2 t' q x bs'); naive_solver.
      * intros va Hva Hpr. rewrite Hpte in Hpr by done. case_decide as K; [|by apply pr_mapped].
        destruct K as (Ed & _). by destruct (Hne (vi_dirs _ _ _ _ Hq Hp Ed)).
  - intros t1 t2 p1 p2. unfold procs2. intros [[<- <-]|[N1 H1]]%lookup_insert_Some [[<- <-]|[N2 H2]]%lookup_insert_Some; simpl; try done.
    + intros E. by apply (vi_dirs _ _ p p2).
    + intros E. by apply (vi_dirs _ _ p1 p).
    + by apply vi_dirs.
  - intros t1 t2 e1 e2 [[-> ->]|[H1 _]]%entry_at2 [[-> ->]|[H2 _]]%entry_at2 Hn E; try done.
    + by destruct (Hkf _ _ H2); congruence.
    + by destruct (Hkf _ _ H1); congruence.
    + by apply (vi_kpages t1 t2 e1 e2).
  - intros t1 t2 e1 e2 [[-> ->]|[H1 _]]%entry_at2 [[-> ->]|[H2 _]]%entry_at2 Hi1 Hi2 E; try done.
    by apply (vi_slots t1 t2 e1 e2).
  - intros t' u Hu. destruct (vi_pages t' u Hu) as (x & Hx & Eu). destruct (decide (t' = t /\ x = e)) as [[-> ->]|Hne].
    + exists (g e). rewrite gup. split; [|done]. apply entry_at2. by left.
    + exists x. split; [|done]. apply entry_at2. by right.
  - intros j h Hj. specialize (vi_frame j h Hj). destruct (isfilled h) eqn:Eh; [|by destruct vi_frame].
    case_decide as K.
    + injection K as <-. rewrite Hi in Hj. injection Hj as <-. exists (g e). simpl. split; [apply entry_at2; by left|done].
    + destruct vi_frame as (x & Hx & Ex & Hxn). exists x. split; [|done]. apply entry_at2. right. split; [done|]. intros [_ ->]. congruence.
  - intros t' x [[-> ->]|[Hx Hne]]%entry_at2 Hn; [|by apply vi_framed]. rewrite Hgk. by eexists i, _.
Qed.
End Mapped.

Section Fill.
Context `{BlockLaws D}.
Implicit Types v : vm D.

(** Reading from an open file at an offset. *)
Lemma seek_read_run (s : fs D) A f h data ofs size :
  refines s A -> a_open A !! f = Some h -> h_deny h = true -> a_data A !! h_file h = Some data -> 0 <= ofs < 2 ^ 31 ->
  exists s1 s2 A2, file_seek f ofs s = Ok (tt, s1) /\
    file_read f size s1 = Ok ((moved data size ofs, take (Z.to_nat (moved data size ofs)) (drop (Z.to_nat ofs) data)), s2) /\
    refines s2 A2 /\ same_files A A2 /\ (brk s <= brk s2 /\ same_room s s2) /\ (exists h2, a_open A2 !! f = Some h2 /\ h_file h2 = h_file h /\ h_deny h2 = h_deny h) /\
    a_dir A2 = a_dir A.
Proof.
  intros [live S] Hh Hdn Hbs Ho.
  destruct (file_seek_sim s live A f h data ofs S Hh Hbs Ho) as (r1 & s1 & A1 & E1 & [-> ->] & [live1 S1] & B1 & O1).
  assert (E1' : file_seek f ofs s = Ok (tt, s1)).
  { unfold run, mbind, M_bind in E1. destruct (file_seek f ofs s) as [[[] s']|] eqn:E; [|done].
    unfold mret, M_ret in E1. by injection E1 as <-. }
  set (h1 := mk_handle (h_file h) ofs (h_deny h)) in *.
  assert (Hh1 : a_open (with_handle f h1 A) !! f = Some h1) by (simpl; by rewrite lookup_insert_eq).
  destruct (file_read_sim s1 live1 _ f h1 data size S1 Hh1 Hbs) as (r2 & s2 & A2 & E2 & [-> ->] & R2 & B2 & O2).
  simpl in E2. eexists s1, s2, _. split; [done|]. split.
  { unfold mbind, M_bind in E2. destruct (file_read f size s1) as [[[n b] s']|] eqn:E; [|done].
    unfold mret, M_ret in E2. simpl in E2. injection E2 as -> -> ->. reflexivity. }
  split; [done|]. split_and!.
  - eapply same_files_trans; [exact (same_files_move A f h ofs Hh Hdn)|]. exact (same_files_move _ f h1 _ Hh1 Hdn).
  - lia.
  - unfold same_room in *. congruence.
  - eexists. simpl. by rewrite lookup_insert_eq.
  - done.
Qed.

(** Reading the bytes of a page of the executable. *)
Lemma read_page (s : fs D) A e :
  refines s A -> file_ok A e ->
  exists bs s1 s2 A2, file_seek (Spage.file e) (file_offset e) s = Ok (tt, s1) /\
    file_read (Spage.file e) (bytes_to_read e) s1 = Ok ((bytes_to_read e, bs), s2) /\ refines s2 A2 /\ same_files A A2 /\
    (brk s <= brk s2 /\ same_room s s2) /\ Z.of_nat (length bs) = bytes_to_read e /\
    file_page A e = Some (bs ++ replicate (Z.to_nat (PGSIZE - bytes_to_read e)) 0).
Proof.
  intros R (h & data & Hh & Hdn & Hbs & Ho & Hr & Hl).
  destruct (seek_read_run s A (Spage.file e) h data (file_offset e) (bytes_to_read e) R Hh Hdn Hbs Ho) as (s1 & s2 & A2 & E1 & E2 & R2 & F2 & [B2 O2] & _).
  assert (Hmv : moved data (bytes_to_read e) (file_offset e) = bytes_to_read e) by (unfold moved; lia). rewrite Hmv in E2.
  eexists _, s1, s2, A2. split; [exact E1|]. split; [exact E2|]. split_and!; try done.
  - rewrite length_take, length_drop. lia.
  - unfold file_page. rewrite Hh. cbn [mbind option_bind]. by rewrite Hbs.
Qed.

Lemma overwrite_page (z b : list Z) (n : Z) :
  length z = 4096%nat -> 0 <= n <= PGSIZE -> Z.of_nat (length b) = n ->
  overwrite (overwrite z 0 b) n (replicate (Z.to_nat (PGSIZE - n)) 0) = b ++ replicate (Z.to_nat (PGSIZE - n)) 0.
Proof.
  intros Hz Hn Hb. unfold PGSIZE in *. unfold overwrite. rewrite length_replicate. change (take (Z.to_nat 0) z) with (@nil Z).
  change (Z.to_nat 0) with 0%nat. rewrite !app_nil_l, take_app_length' by lia. rewrite drop_ge; [by rewrite app_nil_r|].
  rewrite length_app, length_drop. lia.
Qed.

(** The state after the frame is filled: its bytes, the swap area, the file
    system and the entry. *)
Definition filled_vm v (k t : Z) (p : process) (e : spinfo) (bs : list Z) (g : spinfo -> spinfo) (w : swap D) (f : fs D) : vm D :=
  set_procs (<[t := set_spage_table (upd_spinfo (sp_id e) g (spage_table p)) p]> (procs v))
    (set_fsys f (set_swap_area w (set_mach (set_memory (<[k := bs]> (memory (mach v))) (mach v)) v))).

Lemma upd_id id l : upd_spinfo id (fun y => y) l = l.
Proof.
  unfold upd_spinfo. rewrite <- (map_id l) at 2. apply map_ext. intros y. by destruct (sp_id y =? id).
Qed.

(** Filling with the bytes of the page. *)
Lemma fill_ok v P T A M i k p e bs :
  vm_inv v P T A M (Some i) -> k <> NULL -> procs v !! current v = Some p -> e ∈ spage_table p -> kpage_address e = NULL ->
  M !! (current v, upage_address e) = Some bs -> memory (mach v) !! k = Some zero_page ->
  exists freed g w f A', fill_frame e k v = Ok (freed, filled_vm v k (current v) p e bs g w f) /\
    (forall y, key (g y) = key y) /\ instructions (g e) <> SWAP /\ swap_ok w /\ swaptable_size w < 2 ^ 32 /\
    (forall t' x bs', entry_at (procs v) t' x -> ~ (t' = current v /\ x = e) -> instructions x = SWAP ->
       slot_ok (swap_area v) (index_into_swap x) bs' -> slot_ok w (index_into_swap x) bs') /\
    refines f A' /\ same_files A A' /\ (brk (fsys v) <= brk f /\ same_room (fsys v) f) /\ (instructions (g e) = FILE -> file_ok A' (g e)) /\
    match freed with
    | None => backing A' (g e) = Some bs
    | Some j => exists s, swaptable w !! Z.to_nat j = Some s /\ (slot_dirty s = false -> backing A' (g e) = Some bs)
    end.
Proof.
  intros V Hkn Hp He Hk0 HM Hmem. pose proof (vi_proc _ _ _ _ _ _ V _ _ Hp) as Hpr. destruct (vi_swap _ _ _ _ _ _ V) as [Hsw Hsz].
  destruct (pr_entry _ _ _ _ _ _ _ Hpr e He) as (bs0 & HM0 & Hok). rewrite HM in HM0. injection HM0 as <-.
  pose proof (eo_away _ _ _ _ _ _ _ Hok Hk0) as Haw. pose proof (vi_fs _ _ _ _ _ _ V) as Hfs.
  assert (Hself : set_spage_table (spage_table p) p = p /\ <[current v := p]> (procs v) = procs v)
    by (split; [by destruct p|by apply insert_id]).
  destruct (instructions e) eqn:Ei.
  - rewrite decide_False in Haw by congruence. unfold backing in Haw. rewrite Ei in Haw. injection Haw as <-.
    exists None, (fun y => y), (swap_area v), (fsys v), A. split_and!; try done; try congruence.
    + unfold fill_frame. bind_by reflexivity. rewrite Ei. unfold mret, M_ret, filled_vm. do 2 f_equal.
      rewrite upd_id. destruct Hself as [-> ->]. rewrite (insert_id (memory (mach v))) by done.
      destruct v as [[] ? ? ? ? ? ? ? ?]. done.
    + unfold backing. by rewrite Ei.
  - rewrite decide_False in Haw by congruence. unfold backing in Haw. rewrite Ei in Haw.
    destruct (read_page (fsys v) A e Hfs (eo_file _ _ _ _ _ _ _ Hok Ei)) as (b & s1 & s2 & A2 & E1 & E2 & R2 & Hsf & [Hbrk Hrm] & Hlb & Hfp).
    destruct (eo_file _ _ _ _ _ _ _ Hok Ei) as (_ & _ & _ & _ & _ & _ & Hbr & _).
    exists None, (fun y => y), (swap_area v), s2, A2. split_and!; try done; try congruence.
    + unfold fill_frame. bind_by reflexivity. rewrite Ei. bind_by (unfold on_fsys; rewrite E1; reflexivity).
      bind_by (unfold on_fsys; simpl fsys; rewrite E2; reflexivity).
      bind_by (unfold store_page; simpl mach; rewrite Hmem; reflexivity). simpl fst. rewrite Z.eqb_refl. cbv beta iota delta [negb].
      bind_by (unfold store_page; simpl mach; simpl memory; rewrite lookup_insert_eq; reflexivity).
      unfold mret, M_ret, filled_vm. do 2 f_equal. rewrite upd_id. destruct Hself as [-> ->].
      rewrite insert_insert_eq. simpl snd. rewrite overwrite_page by (done || apply zero_page_length). rewrite Hfp in Haw. injection Haw as <-.
      by destruct v.
    + intros Hfi. apply (same_files_text A A2 e); [done|done|by apply Hok].
    + rewrite (same_backing A A2) by (by apply same_files_text || apply Hok). unfold backing. by rewrite Ei.
  - rewrite decide_True in Haw by done. destruct Haw as (Hr & Hb & x & Hx & Hxf & Hxd).
    destruct (read_from_swap_ok (swap_area v) (index_into_swap e) k Hsw Hr Hkn) as (w1 & E1 & Hw1 & Et1 & Ez1 & Eb1). rewrite Hb in E1.
    destruct (free_metaswap_entry_ok w1 (index_into_swap e) x Hw1) as (w2 & E2 & Hw2 & Et2 & Ez2 & Eb2); [by rewrite Et1|lia|done|lia|].
    set (sn := mk_swap_entry (index_into_swap e) false USELESS (slot_dirty x)) in *.
    assert (Hlt : (Z.to_nat (index_into_swap e) < length (swaptable w1))%nat) by (rewrite Et1; by eapply lookup_lt_Some).
    assert (Hsn : swaptable w2 !! Z.to_nat (index_into_swap e) = Some sn) by (rewrite Et2; by apply list_lookup_insert_eq).
    exists (Some (index_into_swap e)), (set_instructions USELESS (-1)), w2, (fsys v), A. split_and!; try done; try lia.
    + unfold fill_frame. bind_by reflexivity. rewrite Ei. bind_by (unfold on_swap_area; rewrite E1; reflexivity).
      bind_by (unfold store_page; simpl mach; rewrite Hmem; reflexivity).
      bind_by (unfold on_swap_area; simpl swap_area; rewrite E2; reflexivity).
      bind_by (unfold on_swap_area, get_entry; simpl swap_area; rewrite Hsn; reflexivity).
      bind_by (unfold upd_entry; bind_by (unfold get_process; simpl procs; rewrite Hp; reflexivity); reflexivity).
      unfold mret, M_ret, filled_vm. do 2 f_equal. replace (overwrite zero_page 0 bs) with bs; [by destruct v|].
      unfold overwrite. change (Z.to_nat 0) with 0%nat. rewrite drop_ge; [by rewrite app_nil_r|].
      rewrite zero_page_length, (eo_length _ _ _ _ _ _ _ Hok). lia.
    + intros t' y bs' Hy Hne Hi (Hr' & Hb' & x' & Hx' & Hf' & Hd'). assert (index_into_swap y <> index_into_swap e).
      { intros E. apply Hne. apply (vi_slots _ _ _ _ _ _ V t' (current v) y e); try done. by exists p. }
      split; [lia|]. rewrite Eb2, Eb1. split; [done|]. exists x'. rewrite Et2, Et1, list_lookup_insert_ne by lia. done.
    + exists sn. split; [done|]. intros Hd. rewrite (Hxd Hd). done.
  - rewrite decide_False in Haw by congruence. unfold backing in Haw. rewrite Ei in Haw. injection Haw as <-.
    exists None, (fun y => y), (swap_area v), (fsys v), A. split_and!; try done; try congruence.
    + unfold fill_frame. bind_by reflexivity. rewrite Ei. unfold mret, M_ret, filled_vm. do 2 f_equal.
      rewrite upd_id. destruct Hself as [-> ->]. rewrite (insert_id (memory (mach v))) by done.
      destruct v as [[] ? ? ? ? ? ? ? ?]. done.
    + unfold backing. by rewrite Ei.
Qed.

(** A frame of the user pool can be mapped. *)
Lemma frame_range v P T A M spare k :
  vm_inv v P T A M spare -> Palloc.used (user_pool (mach v)) k ->
  PHYS_BASE <= k < 2 ^ 32 /\ k mod PGSIZE = 0 /\ Z.shiftr (k - PHYS_BASE) PTSHIFT < init_ram_pages (mach v).
Proof.
  intros V (j & Hj & -> & _). pose proof (sp_machine _ _ _ (vi_spaces _ _ _ _ _ _ V)) as [_ Hu _].
  destruct (page_range (user_pool (mach v)) j Hu Hj) as (Hr & Hm & _). split; [done|]. split; [done|].
  pose proof (vi_ram _ _ _ _ _ _ V) as Hram. rewrite Z.shiftr_div_pow2 by done. change (2 ^ PTSHIFT) with PGSIZE.
  apply Z.div_lt_upper_bound; [done|]. unfold page_at, PGSIZE in *. lia.
Qed.

(** Storing to a page of the user pool. *)
Lemma spaces_store_user m P T k bs :
  spaces m P T -> Palloc.used (user_pool m) k ->
  let m' := set_memory (<[k := bs]> (memory m)) m in
  spaces m' P T /\ forall pd va, pte m' T pd va = pte m T pd va.
Proof.
  intros Hs Hk m'. apply spaces_user; try done.
  - by destruct (sp_machine _ _ _ Hs).
  - intros q Hq. unfold m'. simpl. apply lookup_insert_ne. intros <-. by apply (user_not_kernel_page m k); [apply Hs|..].
Qed.

Lemma flag_D_word w b : word_ok w ->
  has PTE_P (flag_word PTE_D b w) = has PTE_P w /\ has PTE_W (flag_word PTE_D b w) = has PTE_W w /\
  Z.land (flag_word PTE_D b w) PTE_ADDR = Z.land w PTE_ADDR /\ has PTE_D (flag_word PTE_D b w) = b.
Proof.
  intros [Hw _]. unfold flag_word. change PTE_D with (2 ^ 6). change PTE_P with (2 ^ 0). change PTE_W with (2 ^ 1). destruct b.
  - rewrite !has_set by done. split_and!; try done. apply set_flag_addr. by exists 6.
  - rewrite !has_clear by done. split_and!; try done. apply clear_flag_addr; [by exists 6|done].
Qed.

(** Mapping the filled frame: the page is present, or there is no page for a
    page table and the kernel stops. *)
Lemma map_ok v P T A M i k p e bs freed g w f A' :
  vm_inv v P T A M (Some i) -> frametable v !! i = Some (mk_frame true k (current v)) -> k <> NULL ->
  procs v !! current v = Some p -> e ∈ spage_table p -> kpage_address e = NULL ->
  M !! (current v, upage_address e) = Some bs ->
  (forall y, key (g y) = key y) -> instructions (g e) <> SWAP -> swap_ok w -> swaptable_size w < 2 ^ 32 ->
  (forall t' x bs', entry_at (procs v) t' x -> ~ (t' = current v /\ x = e) -> instructions x = SWAP ->
       slot_ok (swap_area v) (index_into_swap x) bs' -> slot_ok w (index_into_swap x) bs') ->
  refines f A' -> same_files A A' -> brk (fsys v) <= brk f -> (instructions (g e) = FILE -> file_ok A' (g e)) ->
  match freed with
  | None => backing A' (g e) = Some bs
  | Some j => exists s, swaptable w !! Z.to_nat j = Some s /\ (slot_dirty s = false -> backing A' (g e) = Some bs)
  end ->
  (exists m' T', map_frame e k freed (filled_vm v k (current v) p e bs g w f) =
     Ok (tt, mapped_vm v (current v) p e (fun y => set_kpage k (g y)) m' w f) /\
     vm_inv (mapped_vm v (current v) p e (fun y => set_kpage k (g y)) m' w f) P T' A' M None /\
     has PTE_P (pte m' T' (pagedir p) (upage_address e)) = true) \/
  pool_full (kernel_pool (mach v)) /\
  map_frame e k freed (filled_vm v k (current v) p e bs g w f) = Err (Panicked "install page failed.").
Proof.
  intros V Hi Hkn Hp He Hk0 HM Hg Hgs Hw Hws Hoth Rf Hsf Hbrk Hfile Hfreed.
  pose proof (vi_proc _ _ _ _ _ _ V _ _ Hp) as Hpr. destruct (pr_dir _ _ _ _ _ _ _ Hpr) as [Hpd Hni].
  destruct (pr_entry _ _ _ _ _ _ _ Hpr e He) as (bs0 & HM0 & Hok). rewrite HM in HM0. injection HM0 as <-.
  pose proof (eo_page _ _ _ _ _ _ _ Hok) as [Hu Huo]. pose proof (vi_spaces _ _ _ _ _ _ V) as Hs.
  pose proof (vi_frame _ _ _ _ _ _ V i _ Hi) as Hfr. simpl in Hfr. rewrite decide_True in Hfr by done. destruct Hfr as [Hku Hkf].
  destruct (frame_range v P T A M (Some i) k V Hku) as (Hkr & Hkm & Hram).
  destruct (spaces_store_user (mach v) P T k bs Hs Hku) as [Hs1 Hp1]. set (m1 := set_memory (<[k := bs]> (memory (mach v))) (mach v)) in *.
  assert (Habs : has PTE_P (pte m1 T (pagedir p) (upage_address e)) = false).
  { rewrite Hp1, (eo_present _ _ _ _ _ _ _ Hok), Hk0. done. }
  set (v1 := filled_vm v k (current v) p e bs g w f). set (p1 := set_spage_table (upd_spinfo (sp_id e) g (spage_table p)) p).
  assert (Hget : get_process (current v) v1 = Ok (p1, v1)) by (unfold get_process; simpl procs; by rewrite lookup_insert_eq).
  pose proof (install_page_run m1 P T (pagedir p) (upage_address e) k (writable e) Hs1 Hpd Hu Habs) as Hinst.
  destruct (user_word_ok k (writable e) Hkr Hkm) as (_ & Hwok & Hadr & HwP & HwW & _ & HwD).
  destruct (set_page_run m1 P T (pagedir p) (upage_address e) k (writable e) Hs1 Hpd Hni Hu Huo Hkr Hkm Hram Habs)
    as [(m2 & T' & E2 & Hs2 & _ & Ap2 & Hp2)|(_ & Hpf & E2)]; rewrite E2 in Hinst.
  2: { right. split; [done|]. unfold map_frame. bind_by reflexivity. bind_by (exact Hget). bind_by (unfold on_mach; simpl mach; change (pagedir p1) with (pagedir p); fold m1; rewrite Hinst; reflexivity).
       cbv beta iota delta [negb]. unfold mbind, M_bind. by rewrite (free_frame_run v _ P T A M (Some i) i (mk_frame true k (current v)) V). }
  left.
  assert (Hend : exists m3 word, spaces m3 P T' /\ apart m1 m3 /\
    (forall pd va, 0 <= va < PHYS_BASE -> pte m3 T' pd va =
       if decide (same_pte (pagedir p) (upage_address e) pd va) then word else pte m1 T pd va) /\
    (has PTE_P word = true /\ has PTE_W word = writable e /\ Z.land word PTE_ADDR + PHYS_BASE = k) /\
    (has PTE_D word = false -> backing A' (g e) = Some bs) /\
    forall v2, mach v2 = m2 -> swap_area v2 = w ->
      (match freed with None => mret tt | Some j => s ← on_swap_area (get_entry j);
         on_mach (pagedir_set_dirty (pagedir p) (upage_address e) (slot_dirty s)) end) v2 = Ok (tt, set_mach m3 v2)).
  { destruct freed as [j|].
    - destruct Hfreed as (s & Hsj & Hsd). destruct (set_flag_run m2 P T' (pagedir p) (upage_address e) PTE_D (slot_dirty s) Hs2 Hpd Hu flag_D)
        as (m3 & E3 & Hs3 & [Ap3 _] & Hp3).
      destruct (flag_D_word (user_word k (writable e)) (slot_dirty s) Hwok) as (FP & FW & FA & FD).
      exists m3, (flag_word PTE_D (slot_dirty s) (user_word k (writable e))). split_and!; try congruence; try done.
      + by eapply apart_trans.
      + intros pd va Hva. rewrite Hp3 by done. rewrite (Hp2 pd va) by done. case_decide; [|done].
        destruct (T' !! (pagedir p, pd_no (upage_address e))) eqn:Et; [rewrite Hp2, decide_True by done; done|]. exfalso.
        assert (has PTE_P (pte m2 T' (pagedir p) (upage_address e)) = true) as Hx by (rewrite Hp2, decide_True by done; done).
        unfold pte in Hx. by rewrite Et in Hx.
      + intros Hd. apply Hsd. congruence.
      + intros v2 Em Ew. bind_by (unfold on_swap_area, get_entry; rewrite Ew, Hsj; reflexivity).
        unfold on_mach. simpl mach. rewrite Em. unfold pagedir_set_dirty. rewrite E3. do 2 f_equal. destruct v2. simpl in *. by subst.
    - exists m2, (user_word k (writable e)). split_and!; try done.
      intros v2 Em Ew. unfold mret, M_ret. do 2 f_equal. destruct v2. simpl in *. by subst. }
  destruct Hend as (m3 & word & Hs3 & Ap3 & Hp3 & Hword & Hclean & Hrun). destruct Ap3 as [Au Ak Am (Ai & Ar & _)].
  exists m3, T'. split; [|split].
  - unfold map_frame. bind_by reflexivity. bind_by (exact Hget). bind_by (unfold on_mach; simpl mach; change (pagedir p1) with (pagedir p); fold m1; rewrite Hinst; reflexivity).
    cbv beta iota delta [negb]. bind_by (unfold upd_entry; bind_by (unfold get_process; simpl procs; rewrite lookup_insert_eq; reflexivity); reflexivity).
    bind_by (apply Hrun; reflexivity). rewrite (proj2 (Z.eqb_neq _ _) Hkn). unfold mret, M_ret. do 2 f_equal.
    unfold mapped_vm, procs2, table2. simpl. rewrite insert_insert_eq. unfold set_spage_table at 2. simpl. rewrite upd_upd; [done|].
    intros y. pose proof (Hg y) as E. unfold key in E. congruence.
  - apply (inv_mapped v P T T' A A' M i k (current v) p e bs _ m3 w f word); try done.
    + intros pd va Hva. rewrite Hp3 by done. by rewrite Hp1.
    + rewrite Am; [simpl; by rewrite lookup_insert_eq|]. simpl. destruct Hku as (j & Hj & -> & _). unfold page_at, PGSIZE. lia.
    + intros q Hq Hne. rewrite Am; [simpl; by rewrite lookup_insert_ne|]. simpl. destruct Hq as (j & Hj & -> & _). unfold page_at, PGSIZE. lia.
  - rewrite Hp3, decide_True by done. apply Hword.
Qed.
End Fill.

(** ** New pages of the stack *)

Section Stack.
Context `{BlockLaws D}.
Implicit Types v : vm D.

Lemma refines_malloc (s : fs D) A : refines s A ->
  exists s', malloc s = Ok (brk s, s') /\ brk s <> NULL /\ refines s' A /\ brk s' = brk s + 1 /\ same_room s s'.
Proof.
  intros [live S]. pose proof (m_inv _ _ _ _ S) as F. destruct (malloc_ok s live _ F) as (E & Hn & C & _).
  eexists. split; [exact E|]. split; [done|]. split; [|split; [done|unfold same_room, handles, all_own; simpl; done]]. exists live.
  apply (sim_quiet s _ live _ A S). split; [done|]. split; [apply like_refl, F|done].
Qed.

(** The entry of a new page of the stack. *)
Definition stack_entry (id u ofs idx : Z) : spinfo := mk_spinfo id NULL ofs 0 true u NULL STACK idx.

(** An entry for a page that is not in memory. *)
Lemma inv_add_entry v P T A M spare t p u e bs f :
  vm_inv v P T A M spare -> procs v !! t = Some p -> 0 <= u < PHYS_BASE -> pg_ofs u = 0 -> find_spinfo (spage_table p) u = None ->
  refines f A -> brk f = brk (fsys v) + 1 ->
  sp_id e = brk (fsys v) -> upage_address e = u -> kpage_address e = NULL -> instructions e <> SWAP ->
  (instructions e = FILE -> file_ok A e) -> backing A e = Some bs -> length bs = 4096%nat ->
  vm_inv (set_procs (<[t := set_spage_table (spage_table p ++ [e]) p]> (procs v)) (set_fsys f v)) P T A
    (<[(t, u) := bs]> M) spare.
Proof.
  intros V Hp Hu Huo Hfind Rf Hbrk Eid Eup Ek Ei Hfile Hback Hlen. pose proof (find_spinfo_spec (spage_table p) u) as Hno. rewrite Hfind in Hno.
  pose proof V as []. pose proof (vi_proc _ _ Hp) as Hpr.
  assert (Hids : forall x, x ∈ spage_table p -> sp_id x <> brk (fsys v)).
  { intros x Hx E. pose proof (pr_fresh _ _ _ _ _ _ _ Hpr x Hx). lia. }
  assert (Hat : forall t' x, entry_at (<[t := set_spage_table (spage_table p ++ [e]) p]> (procs v)) t' x <->
    t' = t /\ x = e \/ entry_at (procs v) t' x).
  { intros t' x. rewrite entry_at_set by done. destruct (decide (t' = t)) as [->|Hne].
    - rewrite elem_of_app, list_elem_of_singleton. unfold entry_at. naive_solver.
    - naive_solver. }
  assert (Habs : has PTE_P (pte (mach v) T (pagedir p) u) = false).
  { apply not_true_iff_false. intros Hpres. destruct (pr_mapped _ _ _ _ _ _ _ Hpr u Hu Hpres) as (x & Hx & E1 & E2).
    destruct (pr_entry _ _ _ _ _ _ _ Hpr x Hx) as (? & _ & Hok). pose proof (eo_page _ _ _ _ _ _ _ Hok) as [Hxu Hxo].
    apply (Hno x Hx). symmetry. unfold PHYS_BASE in *. apply page_index_inj; (lia || done). }
  constructor; simpl; try done.
  - intros t' q Hq. destruct (decide (t' = t)) as [->|Hne].
    + rewrite lookup_insert_eq in Hq. injection Hq as <-. destruct Hpr. constructor; simpl; try done.
      * rewrite map_app. apply NoDup_app. split; [done|]. split; [|apply NoDup_singleton].
        intros x (y & -> & Hy)%list_elem_of_fmap E%list_elem_of_singleton. apply (Hids y Hy). congruence.
      * rewrite map_app. apply NoDup_app. split; [done|]. split; [|apply NoDup_singleton].
        intros x (y & -> & Hy)%list_elem_of_fmap E%list_elem_of_singleton. apply (Hno y Hy). congruence.
      * intros x [Hx| ->%list_elem_of_singleton]%elem_of_app; simpl; [|lia]. specialize (pr_fresh x Hx). lia.
      * intros x [Hx| ->%list_elem_of_singleton]%elem_of_app.
        -- destruct (pr_entry x Hx) as (bx & HM & Hok). exists bx. split; [|done].
           rewrite lookup_insert_ne; [done|]. intros [=E]. by apply (Hno x Hx).
        -- exists bs. rewrite Eup. split; [by rewrite lookup_insert_eq|].
           constructor; rewrite ?Eup, ?Ek; try done. intros _. by rewrite decide_False.
      * intros va Hva Hpr. destruct (pr_mapped va Hva Hpr) as (x & Hx & E). exists x. split; [apply elem_of_app; by left|done].
    + rewrite lookup_insert_ne in Hq by done. destruct (vi_proc _ _ Hq). constructor; simpl; try done.
      * intros x Hx. specialize (pr_fresh x Hx). lia.
      * intros x Hx. destruct (pr_entry x Hx) as (bx & HM & Hok). exists bx. split; [|done]. by rewrite lookup_insert_ne by congruence.
  - intros t1 t2 p1 p2 [[<- <-]|[N1 H1]]%lookup_insert_Some [[<- <-]|[N2 H2]]%lookup_insert_Some; simpl; try done.
    + intros E. by apply (vi_dirs _ _ p p2).
    + intros E. by apply (vi_dirs _ _ p1 p).
    + by apply vi_dirs.
  - intros t1 t2 e1 e2 [[-> ->]|H1]%Hat [[-> ->]|H2]%Hat Hn E; try done; try (simpl in *; congruence).
    by apply (vi_kpages t1 t2 e1 e2).
  - intros t1 t2 e1 e2 [[-> ->]|H1]%Hat [[-> ->]|H2]%Hat Hi1 Hi2 E; try done. by apply (vi_slots t1 t2 e1 e2).
  - intros t' u' [b Hb]. apply lookup_insert_Some in Hb as [[[=<- <-] _]|[Hne Hb]].
    + exists e. split; [|done]. apply Hat. by left.
    + destruct (vi_pages t' u') as (x & Hx & Ex); [by exists b|]. exists x. split; [|done]. apply Hat. by right.
  - intros j h Hj. specialize (vi_frame j h Hj). destruct (isfilled h); [|done]. case_decide.
    + destruct vi_frame as [Hus Hk]. split; [done|]. intros t' x [[-> ->]|Hx]%Hat; [|by apply (Hk t')]. rewrite Ek. intros E.
      destruct (sp_machine _ _ _ vi_spaces) as [_ Hpo _]. destruct Hus as (j0 & Hj0 & Ej & _).
      destruct (page_range (user_pool (mach v)) j0 Hpo Hj0) as (_ & _ & Hnn). congruence.
    + destruct vi_frame as (x & Hx & Ex). exists x. split; [apply Hat; by right|done].
  - intros t' x [[-> ->]|Hx]%Hat Hn; [done|]. by apply vi_framed.
Qed.

Lemma inv_new_entry v P T A M spare t p u ofs idx f :
  vm_inv v P T A M spare -> procs v !! t = Some p -> 0 <= u < PHYS_BASE -> pg_ofs u = 0 -> find_spinfo (spage_table p) u = None ->
  refines f A -> brk f = brk (fsys v) + 1 ->
  let e := stack_entry (brk (fsys v)) u ofs idx in
  vm_inv (set_procs (<[t := set_spage_table (spage_table p ++ [e]) p]> (procs v)) (set_fsys f v)) P T A
    (<[(t, u) := zero_page]> M) spare.
Proof. intros V Hp Hu Huo Hfind Rf Hbrk e. by apply (inv_add_entry v P T A M spare t p u e zero_page f). Qed.
End Stack.
