(* ===== verification/PageFault.v ===== *)
(** * The page fault handler and user memory

    [page_fault] for an access the process may make; then loads and stores of a
    user process, whose faults the handler serves: the process sees one array of
    bytes per page. *)

From S2P Require Import Prelude Block FsState File FsSpec FsInv FsOps Vaddr Bitmap Palloc Pagedir Spage Swap Frame Fault VmInv Clock Evict Paging.

Section PageFault.
Context `{BlockLaws D} `{KpageSearch} `{!KpageLaws}.
Implicit Types v : vm D.

Lemma inv_lock v P T A M spare l : vm_inv v P T A M spare -> vm_inv (set_lock_holder l v) P T A M spare.
Proof.
  intros []. constructor; try done. intros t p Hp. destruct (vi_proc t p Hp). by constructor.
Qed.

(** The pages of a process after an access to page [u]. *)
Definition touch (M : gmap (Z * Z) (list Z)) (t u : Z) : gmap (Z * Z) (list Z) :=
  match M !! (t, u) with Some _ => M | None => <[(t, u) := zero_page]> M end.

(** The process may access the address: it has an entry for the page, writable
    if the access is a write, or the access is one that grows the stack. *)
Definition may_access (p : process) (va esp : Z) (write : bool) : Prop :=
  match find_spinfo (spage_table p) (pg_round_down va) with
  | Some e => write = true -> writable e = true
  | None => is_stack_access va esp = true
  end.

Lemma page_base va : 0 <= va < PHYS_BASE ->
  0 <= pg_round_down va < PHYS_BASE /\ pg_ofs (pg_round_down va) = 0 /\ pd_no (pg_round_down va) = pd_no va /\
  pt_no (pg_round_down va) = pt_no va.
Proof.
  intros Hv. rewrite pg_round_down_sub by (unfold PHYS_BASE in *; lia). rewrite !pg_ofs_mod, !pd_no_div, !pt_no_divmod.
  unfold PHYS_BASE, PGSIZE in *. assert (va - va mod 4096 = 4096 * (va / 4096)) as E by (pose proof (Z.div_mod va 4096); lia).
  rewrite E. split; [Z.to_euclidean_division_equations; lia|]. split; [rewrite Z.mul_comm; by apply Z.mod_mul|].
  assert (4096 * (va / 4096) / 4096 = va / 4096) as E2 by (rewrite Z.mul_comm; by apply Z.div_mul).
  split; [Z.to_euclidean_division_equations; lia|by rewrite E2].
Qed.

(** Filling and mapping the frame [i] the fault has taken. *)
Lemma serve_ok v P T A M i k p e :
  vm_inv v P T A M (Some i) -> frametable v !! i = Some (mk_frame true k (current v)) -> k <> NULL ->
  memory (mach v) !! k = Some zero_page -> lock_holder v = Some (current v) ->
  procs v !! current v = Some p -> e ∈ spage_table p -> kpage_address e = NULL ->
  let run := (freed ← fill_frame e k; _ ← map_frame e k freed; _ ← unlock_memory; mret Resumed) in
  (exists v' T' A' p', run v = Ok (Resumed, v') /\ vm_inv v' P T' A' M None /\ lock_holder v' = None /\ current v' = current v /\
     length (frametable v') = length (frametable v) /\ procs v' !! current v = Some p' /\
     set_spage_table [] p' = set_spage_table [] p /\ (same_files A A' /\ same_room (fsys v) (fsys v')) /\
     map key (spage_table p') = map key (spage_table p) /\ has PTE_P (pte (mach v') T' (pagedir p) (upage_address e)) = true) \/
  pool_full (kernel_pool (mach v)) /\ run v = Err (Panicked "install page failed.").
Proof.
  intros V Hi Hkn Hmem Hlk Hp He Hk0 run. pose proof (vi_proc _ _ _ _ _ _ V _ _ Hp) as Hpr.
  destruct (pr_entry _ _ _ _ _ _ _ Hpr e He) as (bs & HM & _).
  destruct (fill_ok v P T A M i k p e bs V Hkn Hp He Hk0 HM Hmem) as (freed & g & w & f & A' & E1 & Hg & Hgs & Hw & Hws & Ho & Rf & Sf & [Hb Hrm] & Hfo & Hfr).
  destruct (map_ok v P T A M i k p e bs freed g w f A' V Hi Hkn Hp He Hk0 HM Hg Hgs Hw Hws Ho Rf Sf Hb Hfo Hfr)
    as [(m' & T' & E2 & V' & Hpres)|[Hfull E2]].
  - left. set (v2 := mapped_vm _ _ _ _ _ _ _ _) in *.
    exists (set_lock_holder None v2), T', A', (set_spage_table (upd_spinfo (sp_id e) (fun y => set_kpage k (g y)) (spage_table p)) p).
    split_and!; try done.
    + unfold run. bind_by (exact E1). bind_by (exact E2).
      bind_by (unfold unlock_memory; bind_by reflexivity; bind_by (apply assert_run; by apply bool_decide_eq_true); reflexivity). done.
    + by apply inv_lock.
    + simpl. unfold Paging.procs2. by rewrite lookup_insert_eq.
    + simpl. by apply upd_like.
  - right. split; [done|]. unfold run, mbind, M_bind. by rewrite E1, E2.
Qed.

Lemma touch_old v P T A M spare t p u :
  vm_inv v P T A M spare -> procs v !! t = Some p ->
  touch M t u = if find_spinfo (spage_table p) u then M else <[(t, u) := zero_page]> M.
Proof.
  intros V Hp. unfold touch. pose proof (find_spinfo_spec (spage_table p) u) as Hs.
  destruct (find_spinfo (spage_table p) u) as [e|].
  - destruct Hs as [He <-]. destruct (pr_entry _ _ _ _ _ _ _ (vi_proc _ _ _ _ _ _ V _ _ Hp) e He) as (bs & -> & _). done.
  - destruct (M !! (t, u)) eqn:E; [|done]. destruct (vi_pages _ _ _ _ _ _ V t u) as (e & (q & Hq & He) & Eu); [by eexists|].
    rewrite Hp in Hq. injection Hq as <-. by destruct (Hs e He).
Qed.

(** What a process may access afterwards: no less. *)
Definition rights_kept (p p' : process) : Prop :=
  forall va esp write, may_access p va esp write -> may_access p' va esp write.
Lemma rights_keys p p' : map key (spage_table p') = map key (spage_table p) -> rights_kept p p'.
Proof.
  intros Hk va esp write. unfold may_access. pose proof (find_spinfo_like (spage_table p) (spage_table p') (pg_round_down va) Hk) as Hl.
  destruct (find_spinfo (spage_table p) _) as [e|], (find_spinfo (spage_table p') _) as [e'|]; try done.
  unfold key in Hl. by assert (writable e' = writable e) as -> by congruence.
Qed.
Lemma rights_snoc p p' e : spage_table p' = spage_table p ++ [e] -> writable e = true -> rights_kept p p'.
Proof.
  intros Et Hw va esp write. unfold may_access. rewrite Et.
  pose proof (find_spinfo_spec (spage_table p) (pg_round_down va)) as Hs.
  destruct (find_spinfo (spage_table p) (pg_round_down va)) as [e0|] eqn:E0.
  - by rewrite (find_spinfo_app _ [e] _ e0 E0).
  - rewrite find_spinfo_snoc by done. simpl. by destruct (upage_address e =? pg_round_down va).
Qed.
Lemma rights_trans p1 p2 p3 : rights_kept p1 p2 -> rights_kept p2 p3 -> rights_kept p1 p3.
Proof. unfold rights_kept. auto. Qed.

(** The memory the handler may need: a free frame or a free slot of swap, and a
    page for a page table. *)
Definition memory_left v : Prop :=
  ((exists i f, frametable v !! i = Some f /\ isfilled f = false) \/
   (exists i x, swaptable (swap_area v) !! i = Some x /\ slot_filled x = false)) /\
  ~ pool_full (kernel_pool (mach v)).

(** The kernel stops for lack of memory. *)
Definition no_memory {B} (r : res B) : Prop :=
  r = Err (Panicked "No more swap space!!!!") \/ r = Err (Panicked "install page failed.").

(** The handler from the frame [k] on. *)
Local Definition resolve (f : intr_frame) (va : Z) (junk : spinfo) (k esp : Z) : M (vm D) outcome :=
  v ← get;
  p ← get_process (current v);
  info ← (match find_spinfo (spage_table p) (pg_round_down va) with
          | Some e => mret (Some e)
          | None =>
              if is_stack_access va esp then
                e ← new_spinfo (mk_spinfo 0 NULL (file_offset junk) 0 true (pg_round_down va) NULL STACK (index_into_swap junk));
                mret (Some e)
              else mret None
          end);
  match info with
  | None => kill f
  | Some e =>
      if negb (writable e) && negb (Z.land (error_code f) PF_W =? 0) then _ ← thread_exit; mret Exited
      else freed ← fill_frame e k; _ ← map_frame e k freed; _ ← unlock_memory; mret Resumed
  end.

Lemma page_fault_start v v1 p f va junk k :
  lock_holder v = None -> assign_page (set_lock_holder (Some (current v)) v) = Ok (k, v1) -> k <> NULL ->
  procs v1 !! current v1 = Some p ->
  page_fault f va junk v =
    resolve f va junk k (if negb (Z.land (error_code f) PF_U =? 0) then f_esp f else personal_esp p) v1.
Proof.
  intros Hlk E1 Hk Hp. unfold page_fault, resolve.
  bind_by (unfold lock_memory; bind_by reflexivity; bind_by (apply assert_run; rewrite Hlk; by rewrite bool_decide_false); reflexivity).
  bind_by (exact E1). rewrite (proj2 (Z.eqb_neq _ _) Hk). bind_by reflexivity.
  bind_by (unfold get_process; rewrite Hp; reflexivity). cbv zeta. rewrite negb_involutive.
  symmetry. bind_by reflexivity. bind_by (unfold get_process; rewrite Hp; reflexivity).
  by destruct (Z.land (error_code f) PF_U =? 0).
Qed.

(** A fault of an access the process may make, on a page that is not present:
    the handler brings it in, or stops the kernel as there is no memory left. *)
Lemma page_fault_cases v P T A M p (f : intr_frame) va junk (write : bool) :
  vm_inv v P T A M None -> frametable v <> [] -> lock_holder v = None -> procs v !! current v = Some p ->
  0 <= va < PHYS_BASE -> write = negb (Z.land (error_code f) PF_W =? 0) ->
  may_access p va (if negb (Z.land (error_code f) PF_U =? 0) then f_esp f else personal_esp p) write ->
  has PTE_P (pte (mach v) T (pagedir p) va) = false ->
  (exists v' T' A' p', page_fault f va junk v = Ok (Resumed, v') /\ vm_inv v' P T' A' (touch M (current v) (pg_round_down va)) None /\
    lock_holder v' = None /\ current v' = current v /\ length (frametable v') = length (frametable v) /\
    procs v' !! current v = Some p' /\ set_spage_table [] p' = set_spage_table [] p /\ same_files A A' /\ same_room (fsys v) (fsys v') /\ rights_kept p p' /\
    (forall e', find_spinfo (spage_table p') (pg_round_down va) = Some e' -> write = true -> writable e' = true) /\
    has PTE_P (pte (mach v') T' (pagedir p) va) = true) \/
  ~ memory_left v /\ no_memory (page_fault f va junk v).
Proof.
  intros V Hne Hlk Hp Hva Hwr Hmay Habs. destruct (page_base va Hva) as (Hu & Huo & Hui & Huj).
  set (u := pg_round_down va) in *. set (v0 := set_lock_holder (Some (current v)) v).
  assert (V0 : vm_inv v0 P T A M None) by (by apply inv_lock).
  destruct (assign_ok v0 P T A M V0 Hne) as [(i & k & v1 & E1 & Hkn & V1 & Mv & Hi & Hz)|(Hsf & Hff & E1)].
  2: { right. split; [intros [[(j & h & Hj & Hh)|(j & x & Hj & Hx)] _]; [by rewrite (Hff j h Hj) in Hh|by rewrite (Hsf j x Hj) in Hx]|].
       left. unfold page_fault. bind_by (unfold lock_memory; bind_by reflexivity; bind_by (apply assert_run; rewrite Hlk; by rewrite bool_decide_false); reflexivity).
       unfold mbind, M_bind. fold v0. by rewrite E1. }
  destruct (mv_procs _ _ Mv (current v) p Hp) as (p1 & Hp1 & (Hsame & Hkeys & Hres & _)). pose proof (rights_keys p p1 Hkeys) as Hrk.
  assert (Epd : pagedir p1 = pagedir p) by (by injection Hsame). assert (Eesp : personal_esp p1 = personal_esp p) by (by injection Hsame).
  pose proof (mv_current _ _ Mv) as Ec. pose proof (mv_lock _ _ Mv) as El. pose proof (mv_fs _ _ Mv) as Efs. simpl in Ec, El, Efs.
  assert (Hnf1 : pool_full (kernel_pool (mach v1)) -> ~ memory_left v) by (intros Hf [_ Hnf]; apply Hnf; by apply (mv_kernel _ _ Mv)).
  assert (Hlk1 : lock_holder v1 = Some (current v1)) by congruence. rewrite <- Ec in Hp1.
  change (current v0) with (current v) in Hi. rewrite <- Ec in Hi.
  pose proof (find_spinfo_like (spage_table p) (spage_table p1) u Hkeys) as Hfl.
  pose proof (touch_old v P T A M None (current v) p u V Hp) as Ht. unfold may_access in Hmay. fold u in Hmay.
  set (esp := if negb (Z.land (error_code f) PF_U =? 0) then f_esp f else personal_esp p) in *.
  assert (Hstart : page_fault f va junk v = resolve f va junk k esp v1).
  { rewrite (page_fault_start v v1 p1 f va junk k Hlk E1 Hkn Hp1). by rewrite Eesp. }
  unfold resolve in Hstart. fold u in Hstart. rewrite <- Hwr in Hstart. rewrite Hstart. clear Hstart.
  bind_by reflexivity. bind_by (unfold get_process; rewrite Hp1; reflexivity).
  destruct (find_spinfo (spage_table p) u) as [e|] eqn:Efind.
  - destruct (find_spinfo (spage_table p1) u) as [e1|] eqn:Efind1; [|done]. rewrite Ht.
    pose proof (find_spinfo_spec (spage_table p1) u) as Hs1. rewrite Efind1 in Hs1. destruct Hs1 as [He1 Eu1].
    assert (Hw1 : writable e1 = writable e) by (unfold key in Hfl; congruence).
    assert (Hk1 : kpage_address e1 = NULL).
    { destruct (decide (kpage_address e1 = NULL)) as [|Hn]; [done|]. exfalso. pose proof (Hres e1 He1 Hn) as He0.
      destruct (pr_entry _ _ _ _ _ _ _ (vi_proc _ _ _ _ _ _ V _ _ Hp) e1 He0) as (? & _ & Hok).
      pose proof (eo_present _ _ _ _ _ _ _ Hok) as Hpres. rewrite (proj2 (Z.eqb_neq _ _) Hn), Eu1 in Hpres. unfold pte in *.
      rewrite Hui, Huj, Habs in Hpres. done. }
    destruct (serve_ok v1 P T A M i k p1 e1 V1 Hi Hkn Hz Hlk1 Hp1 He1 Hk1)
      as [(v' & T' & A' & p' & E & V' & L' & C' & F' & Hp' & Hpd' & [Sf' Hrm'] & Hk' & Hpr')|[Hfull E]].
    2: { right. split; [auto|right]. bind_by reflexivity. cbv beta iota. rewrite Hw1. destruct (writable e) eqn:Ew; [exact E|].
         destruct write; [by destruct Hmay|exact E]. }
    left. exists v', T', A', p'. split_and!; try congruence; try done.
    + bind_by reflexivity. cbv beta iota. rewrite Hw1. destruct (writable e) eqn:Ew; [exact E|].
      destruct write; [by destruct Hmay|exact E].
    + rewrite F', (mv_frames _ _ Mv). done.
    + by eapply rights_trans; [|apply rights_keys].
    + intros e' He' Hw. pose proof (find_spinfo_like (spage_table p1) (spage_table p') u Hk') as Hl. rewrite Efind1, He' in Hl.
      unfold key in Hl. rewrite <- Hmay, <- Hw1 by done. congruence.
    + rewrite Eu1, Epd in Hpr'. unfold pte in *. by rewrite Hui, Huj in Hpr'.
  - destruct (find_spinfo (spage_table p1) u) as [e1|] eqn:Efind1; [done|]. rewrite Ht. clear Hfl.
    destruct (refines_malloc (fsys v1) A (vi_fs _ _ _ _ _ _ V1)) as (fs' & Em & Hbn & Rf & Hbrk & Hrm).
    pose proof (inv_new_entry v1 P T A M (Some i) (current v1) p1 u (file_offset junk) (index_into_swap junk) fs' V1 Hp1 Hu Huo Efind1 Rf Hbrk) as V2.
    set (e2 := stack_entry (brk (fsys v1)) u (file_offset junk) (index_into_swap junk)) in *.
    set (p2 := set_spage_table (spage_table p1 ++ [e2]) p1) in *.
    set (v2 := set_procs (<[current v1 := p2]> (procs v1)) (set_fsys fs' v1)) in *.
    assert (Hnew : forall B (c : option spinfo -> Prelude.M (vm D) B), ((e ← new_spinfo (mk_spinfo 0 NULL (file_offset junk) 0 true u NULL STACK (index_into_swap junk));
      mret (Some e)) ≫= c) v1 = c (Some e2) v2).
    { intros B c. bind_by (bind_by (unfold new_spinfo; bind_by (unfold on_fsys; rewrite Em; reflexivity);
        rewrite (proj2 (Z.eqb_neq _ _) Hbn); cbv zeta; bind_by reflexivity;
        bind_by (unfold get_process; cbn [procs current set_fsys]; rewrite Hp1; reflexivity); bind_by reflexivity; reflexivity); reflexivity).
      done. }
    destruct (serve_ok v2 P T A _ i k p2 e2 V2 Hi Hkn Hz Hlk1) as [(v' & T' & A' & p' & E & V' & L' & C' & F' & Hp' & Hpd' & [Sf' Hrm'] & Hk' & Hpr')|[Hfull E]];
      [simpl; by rewrite lookup_insert_eq|simpl; apply elem_of_app; right; by apply list_elem_of_singleton|done| |].
    2: { right. split; [auto|right]. rewrite Hmay. rewrite Hnew. exact E. }
    left. simpl in C', F', Hp', Hpd', Hpr'. rewrite Ec in V'. exists v', T', A', p'. split_and!; try congruence; try done.
    + rewrite Hmay. rewrite Hnew. exact E.
    + rewrite F', (mv_frames _ _ Mv). done.
    + by rewrite Hpd'.
    + unfold same_room in *. simpl in Hrm'. congruence.
    + eapply rights_trans; [exact Hrk|]. eapply rights_trans; [by apply (rights_snoc p1 p2 e2)|by apply rights_keys].
    + intros e' He' Hw. pose proof (find_spinfo_like (spage_table p2) (spage_table p') u Hk') as Hl.
      assert (find_spinfo (spage_table p2) u = Some e2) as Hf2 by (simpl; rewrite find_spinfo_snoc by done; simpl; by rewrite Z.eqb_refl).
      rewrite Hf2, He' in Hl. unfold key in Hl. by assert (writable e' = writable e2) as -> by congruence.
    + rewrite Epd in Hpr'. unfold pte in *. by rewrite Hui, Huj in Hpr'.
Qed.

(** With memory left the handler brings the page in. *)
Lemma page_fault_ok v P T A M p (f : intr_frame) va junk (write : bool) :
  vm_inv v P T A M None -> frametable v <> [] -> lock_holder v = None -> procs v !! current v = Some p ->
  0 <= va < PHYS_BASE -> write = negb (Z.land (error_code f) PF_W =? 0) ->
  may_access p va (if negb (Z.land (error_code f) PF_U =? 0) then f_esp f else personal_esp p) write ->
  has PTE_P (pte (mach v) T (pagedir p) va) = false -> memory_left v ->
  exists v' T' A' p', page_fault f va junk v = Ok (Resumed, v') /\ vm_inv v' P T' A' (touch M (current v) (pg_round_down va)) None /\
    lock_holder v' = None /\ current v' = current v /\ procs v' !! current v = Some p'.
Proof.
  intros V Hne Hlk Hp Hva Hw Hmay Habs Hleft.
  destruct (page_fault_cases v P T A M p f va junk write V Hne Hlk Hp Hva Hw Hmay Habs) as [(v' & T' & A' & p' & R)|[? _]]; [|done].
  exists v', T', A', p'. naive_solver.
Qed.
End PageFault.
