(* ===== verification/UserMemory.v ===== *)
(** * User memory

    Loads and stores of a user process as the CPU makes them: it walks the page
    directory, sets the accessed and dirty bits of the entry it uses, and calls
    [page_fault] when the page is not present or may not be written.  The
    theorems say that a process cannot tell paging from plain memory. *)

From S2P Require Import Prelude Block FsState File FsSpec FsInv FsOps FsMount FsProps Vaddr Bitmap Palloc Pagedir Spage Swap Frame Fault VmInv Clock Evict Paging PageFault.

(** The bits the CPU sets in an entry. *)
Definition used_word (write : bool) (w : Z) : Z :=
  if write then Z.lor (Z.lor w PTE_A) PTE_D else Z.lor w PTE_A.

(** The translation of an address by the CPU; [None] is a fault. *)
Definition cpu_access (pd va : Z) (write : bool) : M machine (option Z) :=
  a ← lookup_page pd va false;
  if a =? NULL then mret None
  else
    w ← load_word a;
    if negb (has PTE_P w) || write && negb (has PTE_W w) then mret None
    else
      _ ← store_word a (used_word write w);
      mret (Some (Z.land w PTE_ADDR + PHYS_BASE)).

Section Access.
Context {D : Type} `{BlockOperations D} `{KpageSearch}.

(** The page an access by the current process goes to; the instruction is started
    again after a fault, for which the CPU pushes the frame [f].  [None] means the
    process was killed. *)
Definition mem_access (f : intr_frame) (va : Z) (write : bool) (junk : spinfo) : M (vm D) (option Z) :=
  v ← get;
  p ← get_process (current v);
  r ← on_mach (cpu_access (pagedir p) va write);
  match r with
  | Some k => mret (Some k)
  | None =>
      o ← page_fault f va junk;
      match o with
      | Exited => mret None
      | Resumed => on_mach (cpu_access (pagedir p) va write)
      end
  end.

(** An access in user mode with stack pointer [esp]. *)
Definition user_frame (esp : Z) (write : bool) : intr_frame :=
  mk_intr_frame (Z.lor PF_U (if write then PF_W else 0)) esp SEL_UCSEG.
Definition user_access (va esp : Z) (write : bool) (junk : spinfo) : M (vm D) (option Z) :=
  mem_access (user_frame esp write) va write junk.

Definition user_load (va esp : Z) (junk : spinfo) : M (vm D) (option Z) :=
  r ← user_access va esp false junk;
  match r with
  | None => mret None
  | Some k => bs ← load_page k; mret (bs !! Z.to_nat (pg_ofs va))
  end.
Definition user_store (va b esp : Z) (junk : spinfo) : M (vm D) bool :=
  r ← user_access va esp true junk;
  match r with
  | None => mret false
  | Some k => _ ← store_page k (pg_ofs va) [b]; mret true
  end.
End Access.

Section Laws.
Context `{BlockLaws D} `{KpageSearch} `{!KpageLaws}.
Implicit Types v : vm D.

Lemma access_word w (write : bool) : word_ok w ->
  word_ok (used_word write w) /\
  same_word w (used_word write w) /\
  has PTE_D (used_word write w) = (write || has PTE_D w).
Proof.
  intros Hw. pose proof (set_word_ok PTE_A w flag_A Hw) as Hw1. pose proof (flag_A_same w true Hw) as (P1 & W1 & D1 & A1).
  unfold used_word. unfold flag_word in *. destruct write.
  - destruct (flag_D_word (Z.lor w PTE_A) true Hw1) as (P2 & W2 & A2 & D2). unfold flag_word in *.
    split; [by apply set_word_ok; [apply flag_D|]|]. split; [|done]. split_and!; congruence.
  - split; [done|]. split; [done|]. change PTE_A with (2 ^ 5). change PTE_D with (2 ^ 6). by rewrite has_set.
Qed.

(** An access to a page that is present, and writable for a write. *)
Lemma cpu_access_ok v P T A M p e k va (write : bool) :
  vm_inv v P T A M None -> procs v !! current v = Some p -> e ∈ spage_table p -> kpage_address e = k -> k <> NULL ->
  0 <= va < PHYS_BASE -> upage_address e = pg_round_down va -> (write = true -> writable e = true) ->
  exists m, cpu_access (pagedir p) va write (mach v) = Ok (Some k, m) /\ vm_inv (set_mach m v) P T A M None /\
    (write = true -> has PTE_D (pte m T (pagedir p) (upage_address e)) = true) /\ memory m !! k = memory (mach v) !! k.
Proof.
  intros V Hp He Hk Hkn Hva Hup Hw. pose proof (vi_spaces _ _ _ _ _ _ V) as Hs. pose proof (vi_proc _ _ _ _ _ _ V _ _ Hp) as Hpr.
  destruct (pr_dir _ _ _ _ _ _ _ Hpr) as [Hpd _]. destruct (pr_entry _ _ _ _ _ _ _ Hpr e He) as (bs & HM & Hok).
  destruct (page_base va Hva) as (Hu & Huo & Hui & Huj). rewrite <- Hup in *.
  assert (Epte : forall m T', pte m T' (pagedir p) va = pte m T' (pagedir p) (upage_address e)) by (intros; unfold pte; by rewrite Hui, Huj).
  pose proof (eo_present _ _ _ _ _ _ _ Hok) as Hpres. destruct (eo_frame _ _ _ _ _ _ _ Hok) as (Hadr & HW & Hus & Hmem & _); [congruence|].
  rewrite Hk, (proj2 (Z.eqb_neq _ _) Hkn) in Hpres. simpl in Hpres. rewrite <- Epte in Hpres, Hadr, HW.
  set (w := pte (mach v) T (pagedir p) va) in *. pose proof (pte_range (mach v) P T (pagedir p) va Hs Hva) as Hwok. fold w in Hwok.
  destruct (T !! (pagedir p, pd_no va)) as [pt|] eqn:Et.
  2: { unfold w, pte in Hpres. by rewrite Et in Hpres. }
  destruct (access_word w write Hwok) as (Hwok' & Hsw & HD).
  destruct (store_pte (mach v) P T (pagedir p) va Hs Hva pt _ Et Hwok') as (m & Em & Hsm & [Ap _] & Hpm).
  exists m. split; [|split; [|split]].
  - unfold cpu_access. bind_by (by apply (lookup_page_ok (mach v) P T)). rewrite Et.
    rewrite (proj2 (Z.eqb_neq _ _) (pte_address_nonnull (mach v) P T (pagedir p) va Hs Hva pt Et)).
    bind_by (apply (load_pte (mach v) P T (pagedir p) va Hs Hva pt Et)). fold w. rewrite Hpres.
    replace (negb true || write && negb (has PTE_W w)) with false.
    2: { rewrite HW. destruct write; [by rewrite Hw|done]. }
    bind_by (exact Em). by rewrite Hadr, Hk.
  - pose proof (inv_access v P T A M None m (clock_hand v) V Hsm Ap) as Hv.
    replace (set_mach m v) with (set_clock_hand (clock_hand v) (set_mach m v)) by (by destruct v).
    apply Hv; [|apply V]. intros pd va' Hva'. rewrite Hpm by done. case_decide as K; [|done]. destruct K as (-> & K1 & K2).
    replace (pte (mach v) T (pagedir p) va') with w by (unfold w, pte; by rewrite K1, K2). done.
  - intros ->. rewrite <- Epte, Hpm, decide_True by done. done.
  - apply (ap_memory _ _ Ap). destruct Hus as (j & Hj & Ej & _). rewrite Hk in Ej. rewrite Ej. unfold page_at, PGSIZE. lia.
Qed.

(** A store to a page that is marked dirty. *)
Lemma inv_store v P T A M t p e bs :
  vm_inv v P T A M None -> procs v !! t = Some p -> e ∈ spage_table p -> kpage_address e <> NULL ->
  has PTE_D (pte (mach v) T (pagedir p) (upage_address e)) = true -> length bs = 4096%nat ->
  vm_inv (set_mach (set_memory (<[kpage_address e := bs]> (memory (mach v))) (mach v)) v) P T A
    (<[(t, upage_address e) := bs]> M) None.
Proof.
  intros V Hp He Hkn HD Hl. pose proof V as []. pose proof (vi_proc _ _ Hp) as Hpr.
  destruct (pr_entry _ _ _ _ _ _ _ Hpr e He) as (bs0 & _ & Hoke). destruct (eo_frame _ _ _ _ _ _ _ Hoke Hkn) as (_ & _ & Hus & _).
  destruct (spaces_store_user (mach v) P T (kpage_address e) bs vi_spaces Hus) as [Hs' Hp'].
  constructor; simpl; try done.
  - intros t' q Hq. destruct (vi_proc _ _ Hq) as []. constructor; simpl; try done.
    + intros x Hx. destruct (pr_entry x Hx) as (bx & HM & Hok). destruct (decide (t' = t /\ upage_address x = upage_address e)) as [[-> Eu]|Hne].
      * rewrite Hp in Hq. injection Hq as <-. assert (x = e) as -> by (by apply (NoDup_map_inj upage_address (spage_table p))).
        exists bs. split; [by rewrite lookup_insert_eq|]. destruct Hok. constructor; simpl; rewrite ?Hp'; try done.
        intros Hn. destruct (eo_frame Hn) as (? & ? & ? & ? & ? & ?). split_and!; try done; [by rewrite lookup_insert_eq|congruence].
      * exists bx. split; [rewrite lookup_insert_ne; [done|naive_solver]|].
        eapply entry_keep; [exact Hok|by rewrite Hp'| |done|done]. intros Hn. destruct (eo_frame _ _ _ _ _ _ _ Hok Hn) as (_ & _ & Hu & _).
        simpl. split; [done|]. apply lookup_insert_ne. intros E. apply Hne.
        destruct (vi_kpages t t' e x) as [-> ->]; [by exists p|by exists q|done|done|done].
    + intros va Hva. rewrite Hp'. by apply pr_mapped.
  - intros t' u [b Hb]. apply lookup_insert_Some in Hb as [[[=<- <-] _]|[Hne Hb]].
    + exists e. split; [by exists p|done].
    + apply vi_pages. by exists b.
Qed.

Lemma cpu_fault m P T pd va write :
  spaces m P T -> pd ∈ P -> 0 <= va < PHYS_BASE -> has PTE_P (pte m T pd va) = false -> cpu_access pd va write m = Ok (None, m).
Proof.
  intros Hs Hpd Hva Hp. unfold cpu_access. bind_by (by apply (lookup_page_ok m P T)).
  destruct (T !! (pd, pd_no va)) as [pt|] eqn:Et; [|done].
  rewrite (proj2 (Z.eqb_neq _ _) (pte_address_nonnull m P T pd va Hs Hva pt Et)).
  bind_by (apply (load_pte m P T pd va Hs Hva pt Et)). by rewrite Hp.
Qed.

(** The page of an address that is present belongs to an entry. *)
Lemma present_entry v P T A M spare t p va :
  vm_inv v P T A M spare -> procs v !! t = Some p -> 0 <= va < PHYS_BASE -> has PTE_P (pte (mach v) T (pagedir p) va) = true ->
  exists e, find_spinfo (spage_table p) (pg_round_down va) = Some e /\ e ∈ spage_table p /\
    upage_address e = pg_round_down va /\ kpage_address e <> NULL.
Proof.
  intros V Hp Hva Hpres. pose proof (vi_proc _ _ _ _ _ _ V _ _ Hp) as Hpr. destruct (page_base va Hva) as (Hu & Huo & Hui & Huj).
  destruct (pr_mapped _ _ _ _ _ _ _ Hpr va Hva Hpres) as (x & Hx & E1 & E2).
  destruct (pr_entry _ _ _ _ _ _ _ Hpr x Hx) as (? & _ & Hok). pose proof (eo_page _ _ _ _ _ _ _ Hok) as [Hxu Hxo].
  assert (Ex : upage_address x = pg_round_down va).
  { unfold PHYS_BASE in *. apply page_index_inj; try (lia || done); congruence. }
  pose proof (find_spinfo_spec (spage_table p) (pg_round_down va)) as Hf.
  destruct (find_spinfo (spage_table p) (pg_round_down va)) as [e|]; [|by destruct (Hf x Hx)].
  destruct Hf as [He Eu]. assert (e = x) as ->.
  { apply (NoDup_map_inj upage_address (spage_table p)); [apply Hpr|done|done|congruence]. }
  exists x. split_and!; try done. intros Hk. pose proof (eo_present _ _ _ _ _ _ _ Hok) as Hq. rewrite Hk in Hq.
  unfold pte in *. by rewrite <- E1, <- E2, Hpres in Hq.
Qed.

(** The page of [va] is in a frame. *)
Definition in_memory (p : process) (va : Z) : Prop :=
  exists e, find_spinfo (spage_table p) (pg_round_down va) = Some e /\ kpage_address e <> NULL.
Lemma in_memory_present v P T A M spare t p va :
  vm_inv v P T A M spare -> procs v !! t = Some p -> 0 <= va < PHYS_BASE -> in_memory p va -> has PTE_P (pte (mach v) T (pagedir p) va) = true.
Proof.
  intros V Hp Hva (e & Hf & Hk). pose proof (find_spinfo_spec (spage_table p) (pg_round_down va)) as Hs. rewrite Hf in Hs. destruct Hs as [He Eu].
  destruct (pr_entry _ _ _ _ _ _ _ (vi_proc _ _ _ _ _ _ V _ _ Hp) e He) as (bs & _ & Hok).
  pose proof (eo_present _ _ _ _ _ _ _ Hok) as Hq. rewrite (proj2 (Z.eqb_neq _ _) Hk) in Hq. rewrite Eu in Hq.
  destruct (page_base va Hva) as (_ & _ & Hui & Huj). unfold pte in *. by rewrite Hui, Huj in Hq.
Qed.

Lemma touch_here v P T A M spare t p e :
  vm_inv v P T A M spare -> procs v !! t = Some p -> e ∈ spage_table p -> touch M t (upage_address e) = M.
Proof.
  intros V Hp He. unfold touch. by destruct (pr_entry _ _ _ _ _ _ _ (vi_proc _ _ _ _ _ _ V _ _ Hp) e He) as (bs & -> & _).
Qed.

Section Step.
Context v (P : gset Z) (T : gmap (Z * Z) Z) (A : afs) (M : gmap (Z * Z) (list Z)) (p : process) (va : Z) (junk : spinfo).
Hypothesis V : vm_inv v P T A M None.
Hypothesis Hne : frametable v <> [].
Hypothesis Hlk : lock_holder v = None.
Hypothesis Hp : procs v !! current v = Some p.
Hypothesis Hva : 0 <= va < PHYS_BASE.

Lemma mem_access_cases (f : intr_frame) (write : bool) :
  write = negb (Z.land (error_code f) PF_W =? 0) ->
  may_access p va (if negb (Z.land (error_code f) PF_U =? 0) then f_esp f else personal_esp p) write ->
  (exists v' T' A' p' e bs, mem_access f va write junk v = Ok (Some (kpage_address e), v') /\
    vm_inv v' P T' A' (touch M (current v) (pg_round_down va)) None /\
    lock_holder v' = None /\ current v' = current v /\ length (frametable v') = length (frametable v) /\
    procs v' !! current v = Some p' /\ e ∈ spage_table p' /\ upage_address e = pg_round_down va /\ kpage_address e <> NULL /\
    touch M (current v) (pg_round_down va) !! (current v, pg_round_down va) = Some bs /\ length bs = 4096%nat /\
    memory (mach v') !! kpage_address e = Some bs /\
    (write = true -> has PTE_D (pte (mach v') T' (pagedir p') (upage_address e)) = true) /\
    set_spage_table [] p' = set_spage_table [] p /\ same_files A A' /\ same_room (fsys v) (fsys v') /\ rights_kept p p' /\ (in_memory p va -> p' = p)) \/
  ~ memory_left v /\ ~ in_memory p va /\ no_memory (mem_access f va write junk v).
Proof.
  intros Hfw Hmay. pose proof (vi_spaces _ _ _ _ _ _ V) as Hs. pose proof (vi_proc _ _ _ _ _ _ V _ _ Hp) as Hpr.
  destruct (pr_dir _ _ _ _ _ _ _ Hpr) as [Hpd _].
  assert (Hgo : forall v1 T1 A1 M1 p1, vm_inv v1 P T1 A1 M1 None -> lock_holder v1 = None -> current v1 = current v ->
    length (frametable v1) = length (frametable v) -> procs v1 !! current v = Some p1 -> pagedir p1 = pagedir p ->
    has PTE_P (pte (mach v1) T1 (pagedir p) va) = true ->
    (forall e, find_spinfo (spage_table p1) (pg_round_down va) = Some e -> write = true -> writable e = true) ->
    exists v' e bs, on_mach (cpu_access (pagedir p) va write) v1 = Ok (Some (kpage_address e), v') /\ vm_inv v' P T1 A1 M1 None /\
      lock_holder v' = None /\ current v' = current v /\ length (frametable v') = length (frametable v) /\
      procs v' !! current v = Some p1 /\ e ∈ spage_table p1 /\ upage_address e = pg_round_down va /\ kpage_address e <> NULL /\
      M1 !! (current v, pg_round_down va) = Some bs /\ length bs = 4096%nat /\ memory (mach v') !! kpage_address e = Some bs /\
      (write = true -> has PTE_D (pte (mach v') T1 (pagedir p1) (upage_address e)) = true) /\ fsys v' = fsys v1).
  { intros v1 T1 A1 M1 p1 V1 L1 C1 F1 Hp1 Epd Hpres Hw. rewrite <- Epd in Hpres |- *. rewrite <- C1 in Hp1.
    destruct (present_entry v1 P T1 A1 M1 None (current v1) p1 va V1 Hp1 Hva Hpres) as (e & Hf & He & Eu & Hk).
    destruct (cpu_access_ok v1 P T1 A1 M1 p1 e (kpage_address e) va write V1 Hp1 He eq_refl Hk Hva Eu (Hw e Hf)) as (m & E & Vm & HD & Hm).
    destruct (pr_entry _ _ _ _ _ _ _ (vi_proc _ _ _ _ _ _ V1 _ _ Hp1) e He) as (bs & HM & Hok).
    destruct (eo_frame _ _ _ _ _ _ _ Hok Hk) as (_ & _ & _ & Hmem & _).
    exists (set_mach m v1), e, bs. rewrite <- Eu, <- C1. split_and!; try done; [unfold on_mach; by rewrite E|apply Hok|simpl; by rewrite Hm]. }
  destruct (has PTE_P (pte (mach v) T (pagedir p) va)) eqn:Hpres.
  - destruct (present_entry v P T A M None (current v) p va V Hp Hva Hpres) as (e0 & Hf0 & He0 & Eu0 & _).
    destruct (Hgo v T A M p V Hlk eq_refl eq_refl Hp eq_refl Hpres) as (v' & e & bs & E & R).
    { intros e He. unfold may_access in Hmay. by rewrite He in Hmay. }
    rewrite <- Eu0, (touch_here v P T A M None (current v) p e0 V Hp He0), Eu0. left. exists v', T, A, p, e, bs. split; [|destruct R as (R1 & R2 & R3 & R4 & R5 & R6 & R7 & R8 & R9 & R10 & R11 & R12 & R13); split_and!; try assumption; [done|apply same_files_refl|by unfold same_room; rewrite R13|by intros ?|done]].
    unfold mem_access. bind_by reflexivity. bind_by (unfold get_process; rewrite Hp; reflexivity). by bind_by (exact E).
  - assert (Hnin : ~ in_memory p va).
    { intros Hin. by rewrite (in_memory_present v P T A M None (current v) p va V Hp Hva Hin) in Hpres. }
    assert (Hrun : mem_access f va write junk v = (o ← page_fault f va junk;
      match o with Exited => mret None | Resumed => on_mach (cpu_access (pagedir p) va write) end) v).
    { unfold mem_access. bind_by reflexivity. bind_by (unfold get_process; rewrite Hp; reflexivity).
      bind_by (unfold on_mach; rewrite (cpu_fault (mach v) P T) by done; replace (set_mach (mach v) v) with v by (by destruct v); reflexivity).
      done. }
    rewrite Hrun. destruct (page_fault_cases v P T A M p f va junk write V Hne Hlk Hp Hva Hfw) as
      [(v1 & T1 & A1 & p1 & E1 & V1 & L1 & C1 & F1 & Hp1 & Es & Sf & Hrm & Hr & Hw1 & Hpres1)|[Hl Hno]]; [done|done| |].
    + left. assert (Epd : pagedir p1 = pagedir p) by (by injection Es).
      destruct (Hgo v1 T1 A1 _ p1 V1 L1 C1 F1 Hp1 Epd Hpres1 Hw1) as (v' & e & bs & E & R).
      exists v', T1, A1, p1, e, bs. split; [|destruct R as (R1 & R2 & R3 & R4 & R5 & R6 & R7 & R8 & R9 & R10 & R11 & R12 & R13); split_and!; (assumption || (unfold same_room in *; congruence) || done)]. bind_by (exact E1). exact E.
    + right. split; [done|]. split; [done|]. unfold mbind, M_bind. destruct Hno as [->| ->]; [by left|by right].
Qed.

Lemma user_access_ok (esp : Z) (write : bool) :
  may_access p va esp write -> memory_left v ->
  exists v' T' A' p' e bs, user_access va esp write junk v = Ok (Some (kpage_address e), v') /\
    vm_inv v' P T' A' (touch M (current v) (pg_round_down va)) None /\
    lock_holder v' = None /\ current v' = current v /\ length (frametable v') = length (frametable v) /\
    procs v' !! current v = Some p' /\ e ∈ spage_table p' /\ upage_address e = pg_round_down va /\ kpage_address e <> NULL /\
    touch M (current v) (pg_round_down va) !! (current v, pg_round_down va) = Some bs /\ length bs = 4096%nat /\
    memory (mach v') !! kpage_address e = Some bs /\
    (write = true -> has PTE_D (pte (mach v') T' (pagedir p') (upage_address e)) = true).
Proof.
  intros Hmay Hleft. destruct (mem_access_cases (user_frame esp write) write) as [(v' & T' & A' & p' & e & bs & R)|[? _]];
    [by destruct write|by destruct write| |done]. exists v', T', A', p', e, bs.
  destruct R as (R1 & R2 & R3 & R4 & R5 & R6 & R7 & R8 & R9 & R10 & R11 & R12 & R13 & _). split_and!; assumption.
Qed.
End Step.
End Laws.

(** The bytes of user memory: address [va] of process [t]. *)
Definition byte_at (M : gmap (Z * Z) (list Z)) (t va : Z) : option Z :=
  bs ← M !! (t, pg_round_down va); bs !! Z.to_nat (pg_ofs va).

Lemma pg_ofs_range va : 0 <= pg_ofs va < 4096.
Proof. rewrite pg_ofs_mod. by apply Z.mod_pos_bound. Qed.
(** A page with one byte stored. *)
Lemma byte_at_store M t va b bs t' x :
  M !! (t, pg_round_down va) = Some bs -> length bs = 4096%nat -> 0 <= va < PHYS_BASE -> 0 <= x < PHYS_BASE ->
  byte_at (<[(t, pg_round_down va) := <[Z.to_nat (pg_ofs va) := b]> bs]> M) t' x =
    if decide ((t', x) = (t, va)) then Some b else byte_at M t' x.
Proof.
  intros HM Hl Hva Hx. pose proof (pg_ofs_range va) as Ho. pose proof (pg_ofs_range x) as Hox. unfold byte_at. case_decide as K.
  - injection K as -> ->. rewrite lookup_insert_eq. cbn [mbind option_bind]. apply list_lookup_insert_eq. lia.
  - destruct (decide ((t, pg_round_down va) = (t', pg_round_down x))) as [Eq|Hd]; [|by rewrite lookup_insert_ne].
    rewrite <- Eq, lookup_insert_eq, HM. cbn [mbind option_bind]. apply list_lookup_insert_ne. intros Eo. apply K.
    injection Eq as <- Ep. f_equal. rewrite !pg_round_down_sub in Ep by (unfold PHYS_BASE in *; lia).
    rewrite !pg_ofs_mod in *. lia.
Qed.

Section Stores.
Context `{BlockLaws D}.
Implicit Types v : vm D.

(** A byte stored to a page in a frame that is marked dirty. *)
Lemma store_byte_ok v P T A M t p e bs va b :
  vm_inv v P T A M None -> procs v !! t = Some p -> e ∈ spage_table p -> upage_address e = pg_round_down va ->
  kpage_address e <> NULL -> length bs = 4096%nat -> memory (mach v) !! kpage_address e = Some bs ->
  has PTE_D (pte (mach v) T (pagedir p) (upage_address e)) = true ->
  exists m, store_page (kpage_address e) (pg_ofs va) [b] v = Ok (tt, set_mach m v) /\
    vm_inv (set_mach m v) P T A (<[(t, pg_round_down va) := <[Z.to_nat (pg_ofs va) := b]> bs]> M) None.
Proof.
  intros V Hp He Eu Hk Hl Hmem HD. pose proof (pg_ofs_range va) as Ho. set (o := Z.to_nat (pg_ofs va)).
  assert (Hov : overwrite bs (pg_ofs va) [b] = <[o := b]> bs).
  { apply list_eq. intros i. rewrite lookup_overwrite by lia. simpl length. fold o. destruct (decide (i = o)) as [->|Hio].
    - rewrite decide_True, list_lookup_insert_eq, Nat.sub_diag by lia. done.
    - rewrite decide_False, list_lookup_insert_ne by lia. done. }
  pose proof (inv_store v P T A M t p e (<[o := b]> bs) V Hp He Hk HD ltac:(by rewrite length_insert)) as V2.
  rewrite Eu in V2. eexists. split; [|exact V2]. unfold store_page. by rewrite Hmem, Hov.
Qed.
End Stores.

(** ** A concrete state *)

(** The missing search, as a search from the front. *)
Definition search_by_kpage : KpageSearch := fun l k => snd <$> list_find (fun e => kpage_address e = k) l.
Lemma search_by_kpage_ok : @KpageLaws search_by_kpage.
Proof.
  constructor; unfold find_spinfo_by_kpage, search_by_kpage.
  - intros l k e E. destruct (list_find _ l) as [[i x]|] eqn:Ef; [|done]. injection E as ->.
    apply list_find_Some in Ef as (Hi & Hk & _). split; [by eapply list_elem_of_lookup_2|done].
  - intros l k E e He. destruct (list_find _ l) as [[i x]|] eqn:Ef; [done|].
    apply list_find_None in Ef. rewrite Forall_forall in Ef. by apply Ef.
Qed.

(** A process with one page of stack, not yet in memory. *)
Definition demo_entry : spinfo := mk_spinfo 0 0 0 0 true 0xbffff000 0 STACK 0.
Definition demo_process : process := mk_process 0xc0101000 [demo_entry] 0xbffffff0 0 [] 2 (-1).
Definition demo_memory : machine :=
  mk_machine (mk_pool (mk_bitmap 4 [3]) 0xc0100000) (mk_pool (mk_bitmap 4 [0]) 0xc0200000)
    {[ 0xc0100000 := zero_page; 0xc0101000 := zero_page ]} 0xc0100000 1024 0x101000.
Definition demo_vm : vm ram_disk :=
  mk_vm demo_memory [mk_frame false 0 0; mk_frame false 0 0] 0 0 demo_swap {[ 1 := demo_process ]} 1 None formatted.
Definition demo_pages : gmap (Z * Z) (list Z) := {[ (1, 0xbffff000) := zero_page ]}.

Lemma demo_memory_ok : spaces demo_memory paging_dirs ∅.
Proof.
  assert (Hd : forall pd, pd ∈ paging_dirs -> memory demo_memory !! pd = Some zero_page).
  { intros pd [->%elem_of_singleton| ->%elem_of_singleton]%elem_of_union; done. }
  constructor; try done.
  - constructor; [constructor; try done; constructor; try done; by repeat constructor..|done].
  - intros pd Hpd. split; [|exists zero_page; auto using zero_page_length].
    apply elem_of_union in Hpd as [->%elem_of_singleton| ->%elem_of_singleton]; [by exists 0|by exists 1].
  - intros pd i Hpd Hi. unfold entry. rewrite Hd by done. cbn [mbind option_bind]. by rewrite zero_page_entry by lia.
Qed.

Lemma demo_procs t p : procs demo_vm !! t = Some p -> t = 1 /\ p = demo_process.
Proof. change (procs demo_vm) with ({[ 1 := demo_process ]} : gmap Z process). by intros [<- <-]%lookup_singleton_Some. Qed.

Lemma demo_brk : 0 < brk formatted.
Proof. by vm_compute. Qed.
#[local] Opaque formatted demo_swap.

Lemma demo_vm_ok : vm_inv demo_vm paging_dirs ∅ empty_afs demo_pages None.
Proof.
  assert (Hat : forall t e, entry_at (procs demo_vm) t e -> t = 1 /\ e = demo_entry).
  { intros t e (p & Hp & He). apply demo_procs in Hp as [-> ->]. by apply list_elem_of_singleton in He. }
  constructor.
  - exact demo_memory_ok.
  - split; [exact demo_swap_ok|done].
  - exact formatted_refines.
  - intros t p Hp. apply demo_procs in Hp as [-> ->]. constructor.
    + split; [apply elem_of_union_r; by apply elem_of_singleton|done].
    + apply NoDup_singleton.
    + apply NoDup_singleton.
    + intros e ->%list_elem_of_singleton. exact demo_brk.
    + intros e ->%list_elem_of_singleton. exists zero_page. split; [done|].
      constructor; try done.
    + intros va Hva. unfold pte. by rewrite lookup_empty.
  - intros t1 t2 p1 p2 [-> _]%demo_procs [-> _]%demo_procs _. done.
  - intros t1 t2 e1 e2 [-> ->]%Hat [-> ->]%Hat. done.
  - intros t1 t2 e1 e2 [-> ->]%Hat [-> ->]%Hat. done.
  - intros t u [b Hb]. unfold demo_pages in Hb. apply lookup_singleton_Some in Hb as [[=<- <-] _]. exists demo_entry. split; [|done].
    exists demo_process. split; [done|]. by apply list_elem_of_singleton.
  - intros [|[|i]] f [=<-]; done.
  - intros t e [-> ->]%Hat. done.
  - intros [|[|i]] j f g [=<-]; done.
  - intros q (i & Hi & _ & Hb). exfalso. change (bit_cnt (used_map (user_pool (mach demo_vm)))) with 4 in Hi.
    assert (i = 0 \/ i = 1 \/ i = 2 \/ i = 3) as [->|[->|[->| ->]]] by lia; by vm_compute in Hb.
  - done.
  - done.
  - simpl. lia.
Qed.

Lemma demo_vm_left : memory_left demo_vm.
Proof.
  split; [left; exists 0%nat, (mk_frame false 0 0); done|]. intros Hf.
  destruct (Hf 3) as (i & Hi & E & Hb); [done|]. change (bit_cnt (used_map (kernel_pool (mach demo_vm)))) with 4 in Hi.
  assert (i = 3) as -> by (unfold page_at, PGSIZE in E; simpl in E; lia). by vm_compute in Hb.
Qed.

(** ** Theorems *)

(** C2: A store of a user process behaves as a store to plain memory.  For an
    address the process may write, whatever pages the handler has to move to
    make it present, the store succeeds, afterwards that byte of that process
    has the value stored, every other byte of every process has the value it had
    (a new page of the stack is zero before the store), and virtual memory is in
    a good state again. *)
Theorem user_store_transparent `{BlockLaws D} `{KpageSearch} `{!KpageLaws} (v : vm D) P T A M p va b esp junk :
  vm_inv v P T A M None -> frametable v <> [] -> lock_holder v = None -> procs v !! current v = Some p ->
  0 <= va < PHYS_BASE -> may_access p va esp true -> memory_left v ->
  exists v' T' A' M', user_store va b esp junk v = Ok (true, v') /\ vm_inv v' P T' A' M' None /\
    lock_holder v' = None /\ current v' = current v /\ byte_at M' (current v) va = Some b /\
    (forall t x, 0 <= x < PHYS_BASE -> (t, x) <> (current v, va) ->
       byte_at M' t x = byte_at (touch M (current v) (pg_round_down va)) t x).
Proof.
  intros V Hne Hlk Hp Hva Hmay Hleft.
  destruct (user_access_ok v P T A M p va junk V Hne Hlk Hp Hva esp true Hmay Hleft)
    as (v' & T' & A' & p' & e & bs & E & V' & L' & C' & _ & Hp' & He & Eu & Hk & HM & Hl & Hmem & HD).
  destruct (store_byte_ok v' P T' A' _ (current v) p' e bs va b V' Hp' He Eu Hk Hl Hmem (HD eq_refl)) as (m & Es & V2).
  eexists (set_mach m v'), T', A', _. split; [|split; [exact V2|]].
  { unfold user_store. bind_by (exact E). cbv beta iota. bind_by (exact Es). done. }
  split; [done|]. split; [done|]. split.
  - by rewrite byte_at_store, decide_True by done.
  - intros t x Hx Hne'. by rewrite byte_at_store, decide_False by done.
Qed.

(** C3: A load of a user process gives the byte of user memory at the address,
    and no byte of any process changes, whatever pages are moved to make the
    address present. *)
Theorem user_load_transparent `{BlockLaws D} `{KpageSearch} `{!KpageLaws} (v : vm D) P T A M p va esp junk :
  vm_inv v P T A M None -> frametable v <> [] -> lock_holder v = None -> procs v !! current v = Some p ->
  0 <= va < PHYS_BASE -> may_access p va esp false -> memory_left v ->
  exists v' T' A' b, user_load va esp junk v = Ok (Some b, v') /\
    vm_inv v' P T' A' (touch M (current v) (pg_round_down va)) None /\ lock_holder v' = None /\ current v' = current v /\
    byte_at (touch M (current v) (pg_round_down va)) (current v) va = Some b.
Proof.
  intros V Hne Hlk Hp Hva Hmay Hleft.
  destruct (user_access_ok v P T A M p va junk V Hne Hlk Hp Hva esp false Hmay Hleft)
    as (v' & T' & A' & p' & e & bs & E & V' & L' & C' & _ & Hp' & He & Eu & Hk & HM & Hl & Hmem & _).
  assert (Ho : 0 <= pg_ofs va < PGSIZE) by (rewrite pg_ofs_mod; by apply Z.mod_pos_bound). unfold PGSIZE in Ho.
  destruct (lookup_lt_is_Some_2 bs (Z.to_nat (pg_ofs va))) as [b Hb]; [lia|].
  exists v', T', A', b. split_and!; try done.
  - unfold user_load. bind_by (exact E). cbv beta iota. bind_by (unfold load_page; rewrite Hmem; reflexivity). by rewrite Hb.
  - unfold byte_at. rewrite HM. exact Hb.
Qed.

Lemma user_store_transparent_witness :
  exists v' T' A' M', @user_store _ _ search_by_kpage 0xbffffffc 7 0xbffffffc demo_entry demo_vm = Ok (true, v') /\
    vm_inv v' paging_dirs T' A' M' None /\ byte_at M' 1 0xbffffffc = Some 7.
Proof.
  destruct (@user_store_transparent _ _ _ search_by_kpage search_by_kpage_ok demo_vm paging_dirs ∅ empty_afs demo_pages demo_process
    0xbffffffc 7 0xbffffffc demo_entry) as (v' & T' & A' & M' & E & V & _ & _ & Hb & _).
  - exact demo_vm_ok.
  - discriminate.
  - reflexivity.
  - reflexivity.
  - split; [discriminate|reflexivity].
  - intros _. reflexivity.
  - exact demo_vm_left.
  - exists v', T', A', M'. split; [exact E|]. split; [exact V|exact Hb].
Defined.

Lemma user_load_transparent_witness :
  exists v' b, @user_load _ _ search_by_kpage 0xbffffffc 0xbffffffc demo_entry demo_vm = Ok (Some b, v') /\
    byte_at (touch demo_pages 1 (pg_round_down 0xbffffffc)) 1 0xbffffffc = Some b.
Proof.
  destruct (@user_load_transparent _ _ _ search_by_kpage search_by_kpage_ok demo_vm paging_dirs ∅ empty_afs demo_pages demo_process
    0xbffffffc 0xbffffffc demo_entry) as (v' & T' & A' & b & E & _ & _ & _ & Hb).
  - exact demo_vm_ok.
  - discriminate.
  - reflexivity.
  - reflexivity.
  - split; [discriminate|reflexivity].
  - discriminate.
  - exact demo_vm_left.
  - exists v', b. split; [exact E|exact Hb].
Defined.
