(* ===== verification/ProcessExit.v ===== *)
(** * The end of a process

    [exit_memory] gives back the frames, the pages, the page tables and the
    slots of swap of a process; the pages of the other processes keep their
    bytes. *)

From S2P Require Import Prelude Block FsState FsSpec Vaddr Bitmap Palloc Pagedir Spage Swap Frame Fault VmInv Clock Evict Paging PageFault UserMemory.

Section Exit.
Context `{BlockLaws D}.
Implicit Types v : vm D.

(** ** The loops *)

(** The frames of the entries. *)
Definition kpages (l : list spinfo) : list Z := filter (fun k => k <> NULL) (map kpage_address l).
Definition emptied (ks : list Z) (f : metaframe) : metaframe :=
  if isfilled f && bool_decide (page f ∈ ks) then mk_frame false NULL NULL else f.

Record frames_ok (l : list metaframe) (ks : list Z) : Prop := {
  fo_found : forall k, k ∈ ks -> exists i f, l !! i = Some f /\ isfilled f = true /\ page f = k;
  fo_inj : forall i j f g, l !! i = Some f -> l !! j = Some g -> isfilled f = true -> isfilled g = true -> page f = page g -> i = j;
  fo_empty : forall i f, l !! i = Some f -> isfilled f = false -> page f = NULL;
}.

Lemma emptied_one l k ks i f :
  frames_ok l (k :: ks) -> k <> NULL -> l !! i = Some f -> isfilled f = true -> page f = k ->
  <[i := mk_frame false NULL NULL]> l = map (emptied [k]) l.
Proof.
  intros [] Hk Hi Hf Hp. apply list_eq. intros j. rewrite list_lookup_fmap. destruct (decide (i = j)) as [<-|Hne].
  - rewrite list_lookup_insert_eq by (by eapply lookup_lt_Some). rewrite Hi. simpl. unfold emptied. rewrite Hf, Hp.
    by rewrite bool_decide_true by (by apply list_elem_of_singleton).
  - rewrite list_lookup_insert_ne by done. destruct (l !! j) as [g|] eqn:Ej; [|done]. simpl. f_equal. unfold emptied.
    destruct (isfilled g) eqn:Eg; [|done]. rewrite bool_decide_false; [done|]. intros Hg%list_elem_of_singleton. apply Hne.
    apply (fo_inj0 i j f g); try done. congruence.
Qed.

Lemma emptied_cons l k ks : map (emptied ks) (map (emptied [k]) l) = map (emptied (k :: ks)) l.
Proof.
  rewrite map_map. apply map_ext. intros f. unfold emptied. destruct (isfilled f) eqn:Ef; simpl; [|by rewrite Ef].
  destruct (decide (page f = k)) as [->|Hne].
  - rewrite (bool_decide_true (k ∈ [k])), (bool_decide_true (k ∈ k :: ks)) by set_solver. done.
  - rewrite (bool_decide_false (page f ∈ [k])) by (by rewrite list_elem_of_singleton). rewrite Ef. simpl.
    destruct (decide (page f ∈ ks)) as [Hin|Hnin].
    + by rewrite !bool_decide_true by set_solver.
    + by rewrite !bool_decide_false by set_solver.
Qed.

Lemma frames_ok_emptied l k ks : frames_ok l (k :: ks) -> k ∉ ks -> frames_ok (map (emptied [k]) l) ks.
Proof.
  intros [] Hk. assert (Hback : forall i f, map (emptied [k]) l !! i = Some f -> isfilled f = true -> l !! i = Some f /\ page f <> k).
  { intros i f Hi Hf. rewrite list_lookup_fmap in Hi. destruct (l !! i) as [g|] eqn:Eg; [|done]. simpl in Hi. injection Hi as <-.
    unfold emptied in *. destruct (isfilled g && bool_decide (page g ∈ [k])) eqn:E; [done|]. split; [done|]. rewrite Hf in E.
    simpl in E. apply bool_decide_eq_false in E. by rewrite list_elem_of_singleton in E. }
  constructor.
  - intros q Hq. destruct (fo_found0 q) as (i & f & Hi & Hf & Hp); [by right|]. exists i, f. split; [|done].
    rewrite list_lookup_fmap, Hi. simpl. unfold emptied. rewrite Hf, bool_decide_false; [done|]. rewrite list_elem_of_singleton. congruence.
  - intros i j f g Hi Hj Hf Hg. destruct (Hback i f Hi Hf), (Hback j g Hj Hg). by apply fo_inj0.
  - intros i f Hi Hf. rewrite list_lookup_fmap in Hi. destruct (l !! i) as [g|] eqn:Eg; [|done]. simpl in Hi. injection Hi as <-.
    unfold emptied in *. destruct (isfilled g && bool_decide (page g ∈ [k])); [done|]. by apply (fo_empty0 i).
Qed.

Lemma emptied_nil l : map (emptied []) l = l.
Proof.
  rewrite <- (map_id l) at 2. apply map_ext. intros f. unfold emptied. rewrite bool_decide_false; [by rewrite andb_false_r|].
  apply not_elem_of_nil.
Qed.

Lemma free_frame_found v k ks i f :
  frames_ok (frametable v) ks -> k <> NULL -> frametable v !! i = Some f -> isfilled f = true -> page f = k ->
  free_frame k v = Ok (tt, set_frametable (<[i := mk_frame false NULL NULL]> (frametable v)) v).
Proof.
  intros [] Hk Hi Hf Hp. unfold free_frame, get_metaframe_bypage. rewrite (proj2 (Z.eqb_neq _ _) Hk).
  bind_by (bind_by reflexivity; reflexivity). rewrite (bypage_found (frametable v) k 0 i f Hi Hp).
  - unfold put_frame, modify. by rewrite Z.add_0_l, Nat2Z.id.
  - intros j g Hj E. destruct (isfilled g) eqn:Eg; [apply (fo_inj0 j i g f); congruence|]. pose proof (fo_empty0 j g Hj Eg). congruence.
Qed.

Lemma free_frames_run l : forall v,
  NoDup (kpages l) -> frames_ok (frametable v) (kpages l) ->
  free_frames l v = Ok (tt, set_frametable (map (emptied (kpages l)) (frametable v)) v).
Proof.
  induction l as [|e l IH]; intros v Hnd Hok; cbn [free_frames].
  { change (kpages []) with (@nil Z). rewrite emptied_nil. by destruct v. }
  unfold kpages in *. cbn [map] in *. rewrite filter_cons in *. destruct (decide (kpage_address e <> NULL)) as [Hk|Hk].
  2: { assert (kpage_address e = NULL) as -> by (by destruct (decide (kpage_address e = NULL))). bind_by reflexivity. by apply IH. }
  fold (kpages l) in *. apply NoDup_cons in Hnd as [Hnin Hnd]. destruct (fo_found _ _ Hok (kpage_address e)) as (i & f & Hi & Hf & Hp); [by left|].
  rewrite (proj2 (Z.eqb_neq _ _) Hk). cbv beta iota delta [negb].
  bind_by (apply (free_frame_found v _ (kpage_address e :: kpages l) i f); done).
  rewrite (emptied_one (frametable v) (kpage_address e) (kpages l) i f), IH by (done || by apply frames_ok_emptied).
  simpl. by rewrite emptied_cons.
Qed.

(** The slots of the entries. *)
Definition slots (l : list spinfo) : list Z := map index_into_swap (filter (fun e => instructions e = SWAP) l).

Lemma free_entries_run l : forall v,
  swap_ok (swap_area v) -> swaptable_size (swap_area v) < 2 ^ 32 -> NoDup (slots l) ->
  (forall i, i ∈ slots l -> 0 <= i < swaptable_size (swap_area v) /\
     exists x, swaptable (swap_area v) !! Z.to_nat i = Some x /\ slot_filled x = true) ->
  exists w, free_entries l v = Ok (tt, set_swap_area w v) /\ swap_ok w /\
    swaptable_size w = swaptable_size (swap_area v) /\ (forall j, slot_bytes w j = slot_bytes (swap_area v) j) /\
    (forall i, i ∈ slots l -> exists x, swaptable w !! Z.to_nat i = Some x /\ slot_filled x = false) /\
    (forall i, 0 <= i -> i ∉ slots l -> swaptable w !! Z.to_nat i = swaptable (swap_area v) !! Z.to_nat i).
Proof.
  induction l as [|e l IH]; intros v Hw Hmax Hnd Hin; cbn [free_entries].
  { exists (swap_area v). destruct v; split_and!; try done. intros i Hi. by apply not_elem_of_nil in Hi. }
  unfold slots in Hnd, Hin |- *. rewrite filter_cons in *. destruct (decide (instructions e = SWAP)) as [Hs|Hs].
  2: { rewrite (bool_decide_false _ Hs). bind_by reflexivity. by apply IH. }
  rewrite (bool_decide_true _ Hs). cbn [map] in *. fold (slots l) in *. apply NoDup_cons in Hnd as [Hnin Hnd].
  destruct (Hin (index_into_swap e)) as (Hr & x & Hx & Hf); [by left|].
  destruct (free_metaswap_entry_ok _ _ x Hw Hx Hr Hf Hmax) as (w1 & E1 & Hw1 & T1 & S1 & B1).
  assert (Hlt : (Z.to_nat (index_into_swap e) < length (swaptable (swap_area v)))%nat) by (by eapply lookup_lt_Some).
  assert (Hother : forall i, 0 <= i -> i <> index_into_swap e -> swaptable w1 !! Z.to_nat i = swaptable (swap_area v) !! Z.to_nat i).
  { intros i Hi Hne. rewrite T1. apply list_lookup_insert_ne. lia. }
  destruct (IH (set_swap_area w1 v)) as (w & E & Hw' & Sz & By & Hfr & Hk); [exact Hw1|simpl; lia|exact Hnd|..].
  { intros i Hi. simpl. destruct (Hin i) as (Hri & y & Hy & Hfy); [by right|]. rewrite S1. split; [done|]. exists y.
    rewrite Hother by (lia || set_solver). done. }
  simpl in *. exists w. split_and!; [|done|lia| | |].
  - bind_by (bind_by (unfold on_swap_area; rewrite E1; reflexivity); reflexivity). exact E.
  - intros j. by rewrite By, B1.
  - intros i [->|Hi]%elem_of_cons; [|by apply Hfr]. rewrite Hk by (lia || done). rewrite T1, list_lookup_insert_eq by done. by eexists.
  - intros i Hi0 Hi. rewrite Hk by set_solver. apply Hother; set_solver.
Qed.

(** ** The memory of the process *)

Lemma elem_kpages l k : k ∈ kpages l <-> exists e, e ∈ l /\ kpage_address e = k /\ k <> NULL.
Proof. unfold kpages. rewrite list_elem_of_filter, list_elem_of_fmap. naive_solver. Qed.
Lemma elem_slots l i : i ∈ slots l <-> exists e, e ∈ l /\ instructions e = SWAP /\ index_into_swap e = i.
Proof. unfold slots. rewrite list_elem_of_fmap. setoid_rewrite list_elem_of_filter. naive_solver. Qed.

Lemma NoDup_kpages l :
  NoDup l -> (forall e1 e2, e1 ∈ l -> e2 ∈ l -> kpage_address e1 <> NULL -> kpage_address e1 = kpage_address e2 -> e1 = e2) ->
  NoDup (kpages l).
Proof.
  induction 1 as [|e l Hni Hnd IH]; intros Hinj; [apply NoDup_nil_2|]. unfold kpages. cbn [map]. rewrite filter_cons.
  assert (Hr : NoDup (kpages l)) by (apply IH; intros; apply Hinj; by try right). case_decide as Hk; [|done].
  apply NoDup_cons. split; [|done]. intros (x & Hx & E & _)%elem_kpages. apply Hni.
  rewrite (Hinj e x); try done; [by left|by right].
Qed.
Lemma NoDup_slots l :
  NoDup l -> (forall e1 e2, e1 ∈ l -> e2 ∈ l -> instructions e1 = SWAP -> instructions e2 = SWAP ->
    index_into_swap e1 = index_into_swap e2 -> e1 = e2) -> NoDup (slots l).
Proof.
  induction 1 as [|e l Hni Hnd IH]; intros Hinj; [apply NoDup_nil_2|]. unfold slots. rewrite filter_cons.
  assert (Hr : NoDup (slots l)) by (apply IH; intros; apply Hinj; by try right). case_decide as Hk; [|done].
  cbn [map]. apply NoDup_cons. split; [|done]. intros (x & Hx & Hs & E)%elem_slots. apply Hni.
  rewrite (Hinj e x); try done; [by left|by right].
Qed.

Section Process.
Context v (P : gset Z) (T : gmap (Z * Z) Z) (A : afs) (M : gmap (Z * Z) (list Z)) (spare : option nat) (p : process).
Hypothesis V : vm_inv v P T A M spare.
Hypothesis Hp : procs v !! current v = Some p.

Local Definition table : list spinfo := spage_table p.

Lemma table_at e : e ∈ table -> entry_at (procs v) (current v) e.
Proof. intros He. by exists p. Qed.

Lemma table_frames : frames_ok (frametable v) (kpages table).
Proof.
  constructor.
  - intros k (e & He & <- & Hk)%elem_kpages. destruct (vi_framed _ _ _ _ _ _ V _ e (table_at e He) Hk) as (i & f & ? & ? & ? & _).
    by exists i, f.
  - apply V.
  - intros i f Hi Hf. pose proof (vi_frame _ _ _ _ _ _ V i f Hi) as Hv. rewrite Hf in Hv. apply Hv.
Qed.

Lemma table_nodup : NoDup table.
Proof. apply (NoDup_fmap_1 sp_id), (pr_ids _ _ _ _ _ _ _ (vi_proc _ _ _ _ _ _ V _ _ Hp)). Qed.
Lemma table_kpages : NoDup (kpages table).
Proof.
  apply NoDup_kpages; [apply table_nodup|]. intros e1 e2 H1 H2 Hk E.
  by apply (vi_kpages _ _ _ _ _ _ V (current v) (current v)); try apply table_at.
Qed.
Lemma table_slots : NoDup (slots table).
Proof.
  apply NoDup_slots; [apply table_nodup|]. intros e1 e2 H1 H2 S1 S2 E.
  by apply (vi_slots _ _ _ _ _ _ V (current v) (current v)); try apply table_at.
Qed.

Lemma table_filled i : i ∈ slots table ->
  0 <= i < swaptable_size (swap_area v) /\ exists x, swaptable (swap_area v) !! Z.to_nat i = Some x /\ slot_filled x = true.
Proof.
  intros (e & He & Hs & <-)%elem_slots. destruct (pr_entry _ _ _ _ _ _ _ (vi_proc _ _ _ _ _ _ V _ _ Hp) e He) as (bs & _ & Hok).
  destruct (decide (kpage_address e = NULL)) as [Hk|Hk].
  - pose proof (eo_away _ _ _ _ _ _ _ Hok Hk) as Ha. rewrite decide_True in Ha by done. destruct Ha as (Hr & _ & x & Hx & Hf & _).
    split; [done|]. by exists x.
  - by destruct (eo_frame _ _ _ _ _ _ _ Hok Hk) as (_ & _ & _ & _ & ? & _).
Qed.

(** The pages the directory maps are those of the resident entries. *)
Lemma mapped_entry va q : 0 <= va < PHYS_BASE -> mapped (mach v) T (pagedir p) va q ->
  exists e, e ∈ table /\ kpage_address e = q /\ q <> NULL /\ pd_no va = pd_no (upage_address e) /\ pt_no va = pt_no (upage_address e).
Proof.
  intros Hva [Hpr ->]. pose proof (vi_proc _ _ _ _ _ _ V _ _ Hp) as Hok.
  destruct (pr_mapped _ _ _ _ _ _ _ Hok va Hva Hpr) as (e & He & E1 & E2). exists e. split; [done|].
  destruct (pr_entry _ _ _ _ _ _ _ Hok e He) as (bs & _ & Hbs).
  assert (Ep : pte (mach v) T (pagedir p) va = pte (mach v) T (pagedir p) (upage_address e)) by (unfold pte; by rewrite E1, E2).
  rewrite Ep in *. pose proof (eo_present _ _ _ _ _ _ _ Hbs) as Hq. rewrite Hpr in Hq. symmetry in Hq. apply negb_true_iff, Z.eqb_neq in Hq.
  destruct (eo_frame _ _ _ _ _ _ _ Hbs Hq) as (Ea & _). by rewrite Ea.
Qed.
Lemma entry_mapped e : e ∈ table -> kpage_address e <> NULL ->
  (0 <= upage_address e < PHYS_BASE) /\ mapped (mach v) T (pagedir p) (upage_address e) (kpage_address e) /\
  Palloc.used (user_pool (mach v)) (kpage_address e).
Proof.
  intros He Hk. destruct (pr_entry _ _ _ _ _ _ _ (vi_proc _ _ _ _ _ _ V _ _ Hp) e He) as (bs & _ & Hbs).
  destruct (eo_frame _ _ _ _ _ _ _ Hbs Hk) as (Ea & _ & Hu & _). split; [apply Hbs|]. split; [|done]. split; [|done].
  rewrite (eo_present _ _ _ _ _ _ _ Hbs). by apply negb_true_iff, Z.eqb_neq.
Qed.

Lemma gone_iff q : (exists va, 0 <= va < PHYS_BASE /\ mapped (mach v) T (pagedir p) va q) <-> q ∈ kpages table.
Proof.
  rewrite elem_kpages. split.
  - intros (va & Hva & Hm). destruct (mapped_entry va q Hva Hm) as (e & ? & ? & ? & _). by exists e.
  - intros (e & He & <- & Hk). exists (upage_address e). by destruct (entry_mapped e He Hk) as (? & ? & _).
Qed.

(** The state when the memory of the process is free. *)
Section After.
Context (m' : machine) (w' : swap D).
Local Definition after : vm D :=
  mk_vm m' (map (emptied (kpages table)) (frametable v)) (clock_hand v) (num_pages_assigned v) w'
    (delete (current v) (procs v)) (current v) None (fsys v).
Local Definition pages_left : gmap (Z * Z) (list Z) := filter (fun kv => kv.1.1 <> current v) M.
Context (T' : gmap (Z * Z) Z).
Hypothesis Hs' : spaces m' (P ∖ {[pagedir p]}) T'.
Hypothesis Hpte : forall pd va, 0 <= va < PHYS_BASE -> pd <> pagedir p -> pte m' T' pd va = pte (mach v) T pd va.
Hypothesis Hpool : base (user_pool m') = base (user_pool (mach v)) /\
  bit_cnt (used_map (user_pool m')) = bit_cnt (used_map (user_pool (mach v))).
Hypothesis Hused : forall q, Palloc.used (user_pool m') q <-> Palloc.used (user_pool (mach v)) q /\ q ∉ kpages table.
Hypothesis Hmem : forall q, Palloc.used (user_pool m') q -> memory m' !! q = memory (mach v) !! q.
Hypothesis Hvars : init_page_dir m' = init_page_dir (mach v) /\ init_ram_pages m' = init_ram_pages (mach v).
Hypothesis Hw' : swap_ok w' /\ swaptable_size w' = swaptable_size (swap_area v).
Hypothesis Hbytes : forall j, slot_bytes w' j = slot_bytes (swap_area v) j.
Hypothesis Hslots : forall i, 0 <= i -> i ∉ slots table -> swaptable w' !! Z.to_nat i = swaptable (swap_area v) !! Z.to_nat i.

Lemma left_at t e : entry_at (procs after) t e -> t <> current v /\ entry_at (procs v) t e.
Proof.
  intros (q & Hq & He). simpl in Hq. apply lookup_delete_Some in Hq as [Hne Hq]. split; [done|]. by exists q.
Qed.

Lemma left_apart t e : entry_at (procs v) t e -> t <> current v -> kpage_address e ∉ kpages table.
Proof.
  intros He Hne (x & Hx & E & Hk)%elem_kpages. apply Hne.
  by apply (vi_kpages _ _ _ _ _ _ V t (current v) e x); try apply table_at.
Qed.

Lemma left_process t q : procs v !! t = Some q -> t <> current v -> process_ok after (P ∖ {[pagedir p]}) T' A pages_left t q.
Proof.
  intros Hq Hne. destruct (vi_proc _ _ _ _ _ _ V _ _ Hq). destruct Hvars as [Hvi _].
  assert (Hd : pagedir q <> pagedir p) by (intros E; apply Hne; by apply (vi_dirs _ _ _ _ _ _ V t (current v) q p)).
  constructor; simpl; rewrite ?Hvi; try done.
  - split; [|apply pr_dir]. apply elem_of_difference. split; [apply pr_dir|]. by intros E%elem_of_singleton.
  - intros e He. destruct (pr_entry e He) as (bs & HM & Hok). exists bs. split; [by apply map_lookup_filter_Some|].
    assert (Hat : entry_at (procs v) t e) by (by exists q).
    eapply entry_keep; [exact Hok| | | |done].
    + rewrite Hpte; [done|apply Hok|done].
    + intros Hk. destruct (eo_frame _ _ _ _ _ _ _ Hok Hk) as (_ & _ & Hu & _).
      assert (Hu' : Palloc.used (user_pool m') (kpage_address e)) by (apply Hused; split; [done|by apply (left_apart t)]). auto.
    + intros Hi (Hr & Hb & x & Hx & R). split; [by rewrite (proj2 Hw')|]. rewrite Hbytes. split; [done|]. exists x.
      rewrite Hslots; [done|lia|]. intros (y & Hy & Hs & E)%elem_slots. apply Hne.
      by apply (vi_slots _ _ _ _ _ _ V t (current v) e y); try apply table_at.
  - intros va Hva. rewrite Hpte by done. by apply pr_mapped.
Qed.

Lemma left_frame i f : map (emptied (kpages table)) (frametable v) !! i = Some f ->
  exists g, frametable v !! i = Some g /\
    (f = g /\ (isfilled g = true -> page g ∉ kpages table) \/ f = mk_frame false NULL NULL /\ isfilled g = true /\ page g ∈ kpages table).
Proof.
  rewrite list_lookup_fmap. destruct (frametable v !! i) as [g|]; [|done]. intros [=<-]. exists g. split; [done|]. unfold emptied.
  destruct (isfilled g); simpl; [|by left]. destruct (decide (page g ∈ kpages table)) as [Hin|Hin].
  - rewrite bool_decide_true by done. by right.
  - rewrite bool_decide_false by done. by left.
Qed.
Lemma kept_frame i f : frametable v !! i = Some f -> page f ∉ kpages table ->
  map (emptied (kpages table)) (frametable v) !! i = Some f.
Proof. intros Hi Hn. rewrite list_lookup_fmap, Hi. simpl. unfold emptied. by rewrite bool_decide_false, andb_false_r by done. Qed.

Lemma left_frames i f : frametable after !! i = Some f ->
  if isfilled f then
    if decide (spare = Some i) then
      Palloc.used (user_pool m') (page f) /\ forall t e, entry_at (procs after) t e -> kpage_address e <> page f
    else exists e, entry_at (procs after) (owner f) e /\ kpage_address e = page f /\ page f <> NULL
  else page f = NULL /\ spare <> Some i.
Proof.
  intros (g & Hg & [[-> Hn]|(-> & Hgf & Hin)])%left_frame; pose proof (vi_frame _ _ _ _ _ _ V i g Hg) as Hf.
  - destruct (isfilled g); [|done]. specialize (Hn eq_refl). destruct (decide (spare = Some i)) as [_|_].
    + destruct Hf as [Hu Hno]. split; [by apply Hused|]. intros t e [_ He]%left_at. by apply (Hno t).
    + destruct Hf as (e & (q & Hq & He) & Hk & Hnn). exists e. split; [|done]. exists q. split; [|done].
      apply lookup_delete_Some. split; [|done]. intros E. apply Hn. rewrite <- E in Hq. rewrite Hp in Hq. injection Hq as <-.
      apply elem_kpages. by exists e.
  - simpl. split; [done|]. intros Hsp. rewrite Hgf, decide_True in Hf by done. apply elem_kpages in Hin as (e & He & E & _).
    by destruct (proj2 Hf (current v) e (table_at e He)).
Qed.

Lemma inv_after : vm_inv after (P ∖ {[pagedir p]}) T' A pages_left spare.
Proof.
  pose proof V as []. destruct Hvars as [_ Hvr]. destruct Hpool as [Hb Hc]. destruct Hw' as [Hwok Hws].
  constructor; simpl; rewrite ?Hb, ?Hc, ?Hvr, ?Hws, ?length_map; try done.
  - split; [done|apply vi_swap].
  - intros t q [Hne Hq]%lookup_delete_Some. by apply left_process.
  - intros t1 t2 p1 p2 [_ H1]%lookup_delete_Some [_ H2]%lookup_delete_Some. by apply vi_dirs.
  - intros t1 t2 e1 e2 [_ H1]%left_at [_ H2]%left_at. by apply vi_kpages.
  - intros t1 t2 e1 e2 [_ H1]%left_at [_ H2]%left_at. by apply vi_slots.
  - intros t u [b [Hb' Hne]%map_lookup_filter_Some]. simpl in Hne. destruct (vi_pages t u) as (e & (q & Hq & He) & Eu); [by exists b|].
    exists e. split; [|done]. exists q. split; [|done]. by apply lookup_delete_Some.
  - exact left_frames.
  - intros t e [Hne He]%left_at Hk. destruct (vi_framed t e He Hk) as (i & f & Hi & Hf & Ep & Ho). exists i, f. split; [|done].
    apply kept_frame; [done|]. rewrite Ep. by apply (left_apart t).
  - intros i j f g (f0 & Hi & [[-> _]|[-> _]])%left_frame (g0 & Hj & [[-> _]|[-> _]])%left_frame; try done. by apply vi_frames.
  - intros q [Hq Hn]%Hused. destruct (vi_pool q Hq) as (i & f & Hi & Hf & Ep). exists i, f. split; [|done].
    apply kept_frame; [done|by rewrite Ep].
Qed.
End After.

Lemma cr3_init : exists c, pagedir_activate NULL (mach v) = Ok (tt, set_cr3 c (mach v)) /\ spaces (set_cr3 c (mach v)) P T.
Proof.
  pose proof (vi_spaces _ _ _ _ _ _ V) as Hs. destruct (sp_init _ _ _ Hs) as [Hi _].
  destruct (pd_range _ _ _ _ Hs Hi) as (Hr & Ho & Hn). exists (init_page_dir (mach v) - PHYS_BASE). split.
  - unfold pagedir_activate. bind_by reflexivity. rewrite Z.eqb_refl. bind_by (rewrite kernel_page_vtop by lia; reflexivity). done.
  - destruct Hs as [[]]. constructor; try done. unfold PHYS_BASE in *. simpl. lia.
Qed.

Lemma exit_release_ok : exists m' w' T',
  exit_memory v = Ok (tt, set_procs (<[current v := set_spage_table [] (set_pagedir NULL p)]> (procs v)) (after m' w')) /\
  vm_inv (after m' w') (P ∖ {[pagedir p]}) T' A pages_left spare /\
  (forall k, k ∈ kpages table -> ~ Palloc.used (user_pool m') k) /\
  (forall i, i ∈ slots table -> exists x, swaptable w' !! Z.to_nat i = Some x /\ slot_filled x = false).
Proof.
  pose proof (vi_spaces _ _ _ _ _ _ V) as Hs. destruct (pr_dir _ _ _ _ _ _ _ (vi_proc _ _ _ _ _ _ V _ _ Hp)) as [Hpd Hni].
  destruct (pd_range _ _ _ _ Hs Hpd) as (_ & _ & Hn). destruct cr3_init as (c & Ec & Hsc).
  destruct (destroy_run _ P T (pagedir p) Hsc Hpd Hni) as (m' & Ed & Hs' & Hpte & Hba & Hbc & Hus & Hmem & Hvi & Hvr & _).
  { intros va q Hva Hm. destruct (mapped_entry va q Hva Hm) as (e & He & <- & Hk & _). by apply (entry_mapped e He). }
  { intros va va' q Hva Hva' Hm Hm'. destruct (mapped_entry va q Hva Hm) as (e & He & Ek & Hk & E1 & E2).
    destruct (mapped_entry va' q Hva' Hm') as (e' & He' & Ek' & _ & E1' & E2').
    assert (e = e') as ->. { apply (vi_kpages _ _ _ _ _ _ V (current v) (current v)); try (by apply table_at); congruence. }
    split; congruence. }
  set (v1 := set_frametable (map (emptied (kpages table)) (frametable v)) (set_lock_holder (Some (current v)) v)).
  destruct (vi_swap _ _ _ _ _ _ V) as [Hwok Hwm].
  destruct (free_entries_run table (set_mach m' (set_procs (<[current v := set_pagedir NULL p]> (procs v)) v1)))
    as (w' & Ew & Hw' & Sz & By & Hfr & Hk); [exact Hwok|exact Hwm|exact table_slots|exact table_filled|].
  assert (Hused : forall q, Palloc.used (user_pool m') q <-> Palloc.used (user_pool (mach v)) q /\ q ∉ kpages table).
  { intros q. rewrite Hus. simpl. by rewrite <- gone_iff. }
  exists m', w', (other_tables T (pagedir p)). split_and!.
  - unfold exit_memory. bind_by reflexivity.
    assert (Hlock : (if negb (bool_decide (lock_holder v = Some (current v))) then lock_memory else mret tt) v =
      Ok (tt, set_lock_holder (Some (current v)) v)).
    { destruct (decide (lock_holder v = Some (current v))) as [El|El].
      - rewrite bool_decide_true by done. simpl. destruct v; simpl in *. by subst.
      - rewrite bool_decide_false by done. unfold negb, lock_memory. bind_by reflexivity.
        bind_by (apply assert_run; by rewrite bool_decide_false). done. }
    bind_by (exact Hlock). bind_by (unfold process_exit; bind_by reflexivity; bind_by (unfold get_process; simpl; rewrite Hp; reflexivity);
      bind_by (apply free_frames_run; [exact table_kpages|exact table_frames]); rewrite (proj2 (Z.eqb_neq _ _) Hn);
      unfold negb; bind_by reflexivity; bind_by (unfold on_mach; simpl; rewrite Ec; reflexivity); unfold on_mach; simpl; rewrite Ed; reflexivity).
    bind_by (unfold get_process; simpl; rewrite lookup_insert_eq; reflexivity). bind_by (exact Ew).
    bind_by reflexivity. unfold unlock_memory. bind_by reflexivity.
    bind_by (apply assert_run; simpl; by rewrite bool_decide_true). unfold modify, set_procs. simpl. by rewrite insert_insert_eq.
  - apply inv_after; try done.
    + split; [apply (Hba true)|apply (Hbc true)].
  - intros k Hin Hu. apply Hused in Hu. naive_solver.
  - done.
Qed.
End Process.
End Exit.
