(* ===== verification/Loader.v ===== *)
(** * Loading a program: [userprog/process.c]

    [load] gives a new process its page directory, reads the headers of the
    executable, makes an entry of the supplemental page table for every page of
    its segments, and puts the arguments on the first page of the stack. *)

From S2P Require Import Prelude CString Block FsState File Directory Vaddr Bitmap Palloc Pagedir Spage Swap Frame Fault UserMemory.

Definition MAXARGS : nat := 25.

(** ** The headers of an executable *)

Definition le16 (bs : list Z) (ofs : nat) : Z := nth ofs bs 0 + 256 * nth (S ofs) bs 0.
Definition le32 (bs : list Z) (ofs : nat) : Z := elem_of_bytes (drop ofs bs).

Record Elf32_Ehdr := mk_ehdr {
  e_ident : list Z; e_type : Z; e_machine : Z; e_version : Z; e_entry : Z; e_phoff : Z; e_shoff : Z; e_flags : Z;
  e_ehsize : Z; e_phentsize : Z; e_phnum : Z; e_shentsize : Z; e_shnum : Z; e_shstrndx : Z;
}.
Definition sizeof_ehdr : Z := 52.
Definition ehdr_of_bytes (bs : list Z) : Elf32_Ehdr :=
  mk_ehdr (take 16 bs) (le16 bs 16) (le16 bs 18) (le32 bs 20) (le32 bs 24) (le32 bs 28) (le32 bs 32) (le32 bs 36)
    (le16 bs 40) (le16 bs 42) (le16 bs 44) (le16 bs 46) (le16 bs 48) (le16 bs 50).

Record Elf32_Phdr := mk_phdr {
  p_type : Z; p_offset : Z; p_vaddr : Z; p_paddr : Z; p_filesz : Z; p_memsz : Z; p_flags : Z; p_align : Z;
}.
Definition sizeof_phdr : Z := 32.
Definition phdr_of_bytes (bs : list Z) : Elf32_Phdr :=
  mk_phdr (le32 bs 0) (le32 bs 4) (le32 bs 8) (le32 bs 12) (le32 bs 16) (le32 bs 20) (le32 bs 24) (le32 bs 28).

Definition PT_NULL : Z := 0.
Definition PT_LOAD : Z := 1.
Definition PT_DYNAMIC : Z := 2.
Definition PT_INTERP : Z := 3.
Definition PT_NOTE : Z := 4.
Definition PT_SHLIB : Z := 5.
Definition PT_PHDR : Z := 6.
Definition PT_STACK : Z := 0x6474e551.
Definition PF_W_segment : Z := 2.

(** The test of the executable header. *)
Definition ehdr_ok (e : Elf32_Ehdr) : bool :=
  bool_decide (take 7 (e_ident e) = [127; 69; 76; 70; 1; 1; 1]) && (e_type e =? 2) && (e_machine e =? 3) && (e_version e =? 1)
  && (e_phentsize e =? sizeof_phdr) && (e_phnum e <=? 1024).

(** [length] is the length of the file. *)
Definition validate_segment (phdr : Elf32_Phdr) (length : Z) : bool :=
  if negb (Z.land (p_offset phdr) PGMASK =? Z.land (p_vaddr phdr) PGMASK) then false
  else if u32 length <? p_offset phdr then false
  else if p_memsz phdr <? p_filesz phdr then false
  else if p_memsz phdr =? 0 then false
  else if negb (is_user_vaddr (p_vaddr phdr)) then false
  else if negb (is_user_vaddr (u32 (p_vaddr phdr + p_memsz phdr))) then false
  else if u32 (p_vaddr phdr + p_memsz phdr) <? p_vaddr phdr then false
  else if p_vaddr phdr <? PGSIZE then false
  else true.

(** ** The command line *)

(** The words of the command line, by [strtok_r], in the array [argv] of
    [MAXARGS] pointers; a word more is stored outside the array.  The line is at
    address 4096, the string of the delimiter at 1. *)
Definition cstring_at (m : cmem) (p : Z) : res (list Z) :=
  r ← strlen p m; mret (map (fun i => default 0 (m !! (p + Z.of_nat i))) (seq 0 (Z.to_nat r.1))).
Fixpoint cstrings_at (m : cmem) (ps : list Z) : res (list (list Z)) :=
  match ps with [] => mret [] | p :: ps => s ← cstring_at m p; l ← cstrings_at m ps; mret (s :: l) end.
Definition line_memory (file_name : list Z) : cmem := put_bytes (put_bytes ∅ 1 [32; 0]) 4096 (file_name ++ [0]).
Definition split_line (file_name : list Z) : res (list (list Z)) :=
  let m := line_memory file_name in
  r ← token_loop (S (length file_name)) 4096 1 0 m;
  if bool_decide (length r.1 <= MAXARGS)%nat then cstrings_at r.2 r.1 else Err Trap.

Section Operations.
Context {D : Type} `{BlockOperations D} `{KpageSearch}.

(** ** Accesses of the kernel to user memory *)

Definition kernel_frame (write : bool) : intr_frame := mk_intr_frame (if write then PF_W else 0) 0 SEL_KCSEG.

(** [false] means the thread has ended. *)
Definition kernel_store (va b : Z) (junk : spinfo) : M (vm D) bool :=
  r ← mem_access (kernel_frame true) va true junk;
  match r with
  | Some k => _ ← store_page k (pg_ofs va) [b]; mret true
  | None => mret false
  end.
Fixpoint kernel_write (va : Z) (bytes : list Z) (junk : spinfo) : M (vm D) bool :=
  match bytes with
  | [] => mret true
  | b :: bytes => ok ← kernel_store va b junk; if (ok : bool) then kernel_write (va + 1) bytes junk else mret false
  end.

(** ** Segments *)

Fixpoint segment_loop (fuel : nat) (file ofs upage read_bytes zero_bytes : Z) (writable : bool) (junk : spinfo) : M (vm D) bool :=
  match fuel with
  | O => fail OutOfFuel
  | S fuel =>
      if (0 <? read_bytes) || (0 <? zero_bytes) then
        let page_read_bytes := if read_bytes <? PGSIZE then read_bytes else PGSIZE in
        let page_zero_bytes := PGSIZE - page_read_bytes in
        _ ← lock_memory;
        _ ← new_spinfo (mk_spinfo 0 file ofs page_read_bytes writable upage NULL FILE (index_into_swap junk));
        _ ← unlock_memory;
        segment_loop fuel file (s32 (ofs + PGSIZE)) (u32 (upage + PGSIZE)) (u32 (read_bytes - page_read_bytes))
          (u32 (zero_bytes - page_zero_bytes)) writable junk
      else mret true
  end.
Definition load_segment (file ofs upage read_bytes zero_bytes : Z) (writable : bool) (junk : spinfo) : M (vm D) bool :=
  _ ← assert (u32 (read_bytes + zero_bytes) mod PGSIZE =? 0);
  _ ← assert (pg_ofs upage =? 0);
  _ ← assert (Z.rem ofs PGSIZE =? 0);
  segment_loop (S (Z.to_nat ((read_bytes + zero_bytes) / PGSIZE))) file ofs upage read_bytes zero_bytes writable junk.

(** One program header of the type [PT_LOAD]. *)
Definition load_phdr (file : Z) (phdr : Elf32_Phdr) (junk : spinfo) : M (vm D) bool :=
  length ← on_fsys (file_length file);
  if validate_segment phdr length then
    let writable := negb (Z.land (p_flags phdr) PF_W_segment =? 0) in
    let file_page := Z.land (p_offset phdr) (Z.lnot PGMASK) in
    let mem_page := Z.land (p_vaddr phdr) (Z.lnot PGMASK) in
    let page_offset := Z.land (p_vaddr phdr) PGMASK in
    let '(read_bytes, zero_bytes) :=
      if 0 <? p_filesz phdr then
        let read_bytes := u32 (page_offset + p_filesz phdr) in
        (read_bytes, u32 (ROUND_UP (u32 (page_offset + p_memsz phdr)) PGSIZE - read_bytes))
      else (0, ROUND_UP (u32 (page_offset + p_memsz phdr)) PGSIZE) in
    load_segment file (s32 file_page) mem_page read_bytes zero_bytes writable junk
  else mret false.

(** The loop over the [n] program headers from offset [file_ofs] on. *)
Fixpoint phdr_loop (n : nat) (file file_ofs : Z) (junk : spinfo) : M (vm D) bool :=
  match n with
  | O => mret true
  | S n =>
      length ← on_fsys (file_length file);
      if (file_ofs <? 0) || (length <? file_ofs) then mret false
      else
        _ ← on_fsys (file_seek file file_ofs);
        r ← on_fsys (file_read file sizeof_phdr);
        if negb (r.1 =? sizeof_phdr) then mret false
        else
          let phdr := phdr_of_bytes r.2 in
          let t := p_type phdr in
          ok ← (if (t =? PT_DYNAMIC) || (t =? PT_INTERP) || (t =? PT_SHLIB) then mret false
                else if t =? PT_LOAD then load_phdr file phdr junk
                else mret true);
          if (ok : bool) then phdr_loop n file (s32 (file_ofs + sizeof_phdr)) junk else mret false
  end.

(** ** The stack *)

(** The strings, from the top of user memory down; the result is the stack
    pointer and the addresses of the strings.  A store that faults would find the
    lock held; the thread cannot end here. *)
Fixpoint push_strings (argv : list (list Z)) (my_esp : Z) (junk : spinfo) : M (vm D) (Z * list Z) :=
  match argv with
  | [] => mret (my_esp, [])
  | s :: argv =>
      let my_esp := my_esp - (Z.of_nat (length s) + 1) in
      ok ← kernel_write my_esp (s ++ [0]) junk;
      if (ok : bool) then r ← push_strings argv my_esp junk; mret (r.1, my_esp :: r.2) else fail Trap
  end.
(** A push of a word, and of the pointers, the last argument first. *)
Definition push_word (esp w : Z) (junk : spinfo) : M (vm D) Z :=
  ok ← kernel_write (esp - 4) (elem_bytes (u32 w)) junk;
  if (ok : bool) then mret (esp - 4) else fail Trap.
Fixpoint push_words (ws : list Z) (esp : Z) (junk : spinfo) : M (vm D) Z :=
  match ws with [] => mret esp | w :: ws => esp ← push_word esp w junk; push_words ws esp junk end.

Definition setup_stack (argv : list (list Z)) (junk : spinfo) : M (vm D) Z :=
  let argc := Z.of_nat (length argv) in
  let upage := PHYS_BASE - PGSIZE in
  _ ← lock_memory;
  e ← new_spinfo (mk_spinfo 0 NULL (file_offset junk) 0 true upage (kpage_address junk) STACK (index_into_swap junk));
  kpage ← assign_page;
  v ← get;
  _ ← upd_entry (current v) (sp_id e) (set_kpage kpage);
  _ ← (if negb (kpage =? NULL) then
         p ← get_process (current v);
         success ← on_mach (install_page (pagedir p) upage kpage true);
         if (success : bool) then mret tt
         else _ ← free_frame kpage; on_mach (palloc_free_page kpage)
       else mret tt);
  r ← push_strings argv PHYS_BASE junk;
  let my_esp := r.1 in
  let padding := (4 - (PHYS_BASE - my_esp) mod 4) mod 4 in
  esp ← push_word (my_esp - padding) 0 junk;
  argvArrayPointer ← push_words (rev r.2) esp junk;
  esp ← push_words [argvArrayPointer; argc; 0] argvArrayPointer junk;
  _ ← unlock_memory;
  mret esp.

(** ** [load] *)

(** The result is the entry point and the stack pointer, or nothing.  The name of
    the thread is not part of the state; without a word in the command line
    [argv[0]] is not initialised. *)
Definition load (file_name : list Z) (junk : spinfo) : M (vm D) (option (Z * Z)) :=
  pd ← on_mach pagedir_create;
  v ← get;
  p ← get_process (current v);
  _ ← put_process (current v) (set_pagedir pd p);
  if pd =? NULL then mret None
  else
    _ ← on_mach (pagedir_activate pd);
    argv ← lift (split_line file_name);
    match argv with
    | [] => fail Trap
    | name :: _ =>
        file ← on_fsys (filesys_open name);
        if file =? NULL then mret None
        else
          p ← get_process (current v);
          _ ← put_process (current v) (mk_process (pagedir p) (spage_table p) (personal_esp p) file (open_files p) (index_fd p) (status_number p));
          _ ← on_fsys (file_deny_write file);
          r ← on_fsys (file_read file sizeof_ehdr);
          let ehdr := ehdr_of_bytes r.2 in
          if negb (r.1 =? sizeof_ehdr) || negb (ehdr_ok ehdr) then mret None
          else
            ok ← phdr_loop (Z.to_nat (e_phnum ehdr)) file (s32 (e_phoff ehdr)) junk;
            if (ok : bool) then esp ← setup_stack argv junk; mret (Some (e_entry ehdr, esp)) else mret None
    end.
End Operations.
