(* ===== verification/LoadSteps.v ===== *)
(** * The steps of [load]

    The command line, the page directory of a new process, entries of the
    supplemental page table for the pages of a segment, and stores to the stack. *)

From S2P Require Import Prelude CString Block FsState File Directory FsSpec FsInv FsOps Vaddr Bitmap Palloc Pagedir Spage Swap Frame Fault VmInv Clock Evict Paging PageFault UserMemory Loader.

(** ** The command line *)

Lemma cstring_at_ok m p s : str_at m p s -> p <> NULL -> cstring_at m p = Ok s.
Proof.
  intros Hs Hp. unfold cstring_at. rewrite (strlen_ok m p s Hs Hp). simpl. rewrite Nat2Z.id. f_equal.
  destruct Hs as [Hb _]. apply list_eq. intros i. rewrite list_lookup_fmap. destruct (s !! i) as [b|] eqn:E.
  - apply lookup_lt_Some in E as Hl. rewrite lookup_seq_lt by done. simpl. rewrite (Hb i b); [done|]. by rewrite lookup_app_l.
  - rewrite lookup_ge_None_2; [done|]. rewrite length_seq. by apply lookup_ge_None_1.
Qed.
Lemma cstrings_at_ok m ps ws : Forall2 (str_at m) ps ws -> Forall (fun p => p <> NULL) ps -> cstrings_at m ps = Ok ws.
Proof.
  induction 1 as [|p w ps ws Hp Hps IH]; intros Hn; [done|]. apply Forall_cons in Hn as [Hn Hns]. cbn [cstrings_at].
  rewrite (cstring_at_ok m p w Hp Hn). simpl. by rewrite IH.
Qed.

Lemma line_memory_ok s : Forall is_char s -> str_at (line_memory s) 4096 s /\ str_at (line_memory s) 1 [32].
Proof.
  intros Hs. split; [split; [apply put_bytes_at|done]|]. split; [|by repeat constructor].
  apply bytes_at_put; [apply put_bytes_at|]. rewrite length_app. simpl. lia.
Qed.

Lemma split_line_ok s :
  Forall is_char s -> split_line s = if bool_decide (length (words [32%Z] s) <= MAXARGS)%nat then Ok (words [32] s) else Err Trap.
Proof.
  intros Hs. destruct (line_memory_ok s Hs) as [H1 H2].
  destruct (token_loop_ok 1 [32] (S (length s)) (line_memory s) 4096 0 s) as (ps & m & E & Hw & Hps & _);
    [done|done|done|done|right; simpl; lia|lia|].
  unfold split_line. rewrite E. simpl. fold (words [32] s) in Hw. rewrite (Forall2_length _ _ _ Hw).
  destruct (bool_decide _); [|done]. apply cstrings_at_ok; [done|]. eapply Forall_impl; [exact Hps|]. simpl. unfold NULL. lia.
Qed.

Section Steps.
Context `{BlockLaws D}.
Implicit Types v : vm D.

(** ** The page directory *)

(** A process with a new page directory and no pages. *)
Lemma inv_new_process v P T A M t p pd m :
  vm_inv (set_procs (delete t (procs v)) v) P T A M None -> procs v !! t = Some p -> pagedir p = pd -> spage_table p = [] ->
  pd ∉ P -> spaces m ({[pd]} ∪ P) T -> apart (mach v) (set_cr3 (cr3 (mach v)) m) ->
  (forall pd' va, 0 <= va < PHYS_BASE -> pte m T pd' va = if decide (pd' = pd) then 0 else pte (mach v) T pd' va) ->
  vm_inv (set_mach m v) ({[pd]} ∪ P) T A M None.
Proof.
  intros V Hp Hpd Htab Hnew Hs [Au Ak Am (Ai & Ar & _)] Hpte. simpl in Au, Ai, Ar.
  destruct V as []. cbn [procs set_procs mach swap_area fsys frametable clock_hand] in *.
  assert (Hold : forall t' q, procs v !! t' = Some q -> t' <> t -> delete t (procs v) !! t' = Some q)
    by (intros; by apply lookup_delete_Some).
  assert (Hat : forall t' e, entry_at (procs v) t' e -> t' <> t /\ entry_at (delete t (procs v)) t' e).
  { intros t' e (q & Hq & He). destruct (decide (t' = t)) as [->|Hne].
    - rewrite Hp in Hq. injection Hq as <-. rewrite Htab in He. by apply not_elem_of_nil in He.
    - split; [done|]. exists q. auto. }
  assert (Hatd : forall t' e, entry_at (delete t (procs v)) t' e -> entry_at (procs v) t' e).
  { intros t' e (q & [_ Hq]%lookup_delete_Some & He). by exists q. }
  constructor; cbn [procs set_mach mach swap_area fsys frametable clock_hand]; rewrite ?Au, ?Ar; try done.
  - intros t' q Hq. destruct (decide (t' = t)) as [->|Hne].
    + rewrite Hp in Hq. injection Hq as <-. constructor; rewrite ?Htab; simpl; try apply NoDup_nil_2; try (by intros ? ?%not_elem_of_nil).
      * rewrite Hpd. split; [set_solver|]. rewrite Ai. intros E. apply Hnew. rewrite E. apply (sp_init _ _ _ vi_spaces).
      * intros va Hva. rewrite Hpte, Hpd, decide_True by done. done.
    + destruct (vi_proc _ _ (Hold _ _ Hq Hne)) as []. cbn [procs set_procs mach swap_area fsys] in *.
      assert (Hd : pagedir q <> pd) by (intros E; apply Hnew; rewrite <- E; apply pr_dir).
      constructor; cbn [mach set_mach swap_area fsys]; rewrite ?Ai; try done.
      * split; [set_solver|apply pr_dir].
      * intros e He. destruct (pr_entry e He) as (bs & HM & Hok). exists bs. split; [done|].
        eapply entry_keep; [exact Hok| | |done|done].
        -- rewrite Hpte, decide_False; [done|done|apply Hok].
        -- intros Hk. destruct (eo_frame _ _ _ _ _ _ _ Hok Hk) as (_ & _ & Hu & _). rewrite Au. split; [done|]. apply (Am (kpage_address e)).
           destruct Hu as (j & Hj & -> & _). unfold page_at, PGSIZE. lia.
      * intros va Hva. rewrite Hpte, decide_False by done. by apply pr_mapped.
  - intros t1 t2 p1 p2 H1 H2 E. destruct (decide (t1 = t)) as [->|N1], (decide (t2 = t)) as [->|N2]; try done.
    + exfalso. rewrite Hp in H1. injection H1 as <-. apply Hnew. rewrite <- Hpd, E.
      apply (pr_dir _ _ _ _ _ _ _ (vi_proc _ _ (Hold _ _ H2 N2))).
    + exfalso. rewrite Hp in H2. injection H2 as <-. apply Hnew. rewrite <- Hpd, <- E.
      apply (pr_dir _ _ _ _ _ _ _ (vi_proc _ _ (Hold _ _ H1 N1))).
    + by apply (vi_dirs t1 t2 p1 p2); auto.
  - intros t1 t2 e1 e2 [_ H1]%Hat [_ H2]%Hat. by apply vi_kpages.
  - intros t1 t2 e1 e2 [_ H1]%Hat [_ H2]%Hat. by apply vi_slots.
  - intros t' u HM. destruct (vi_pages t' u HM) as (e & He & Eu). exists e. auto.
  - intros i f Hi. specialize (vi_frame i f Hi). destruct (isfilled f); [|done]. rewrite decide_False in vi_frame |- * by done.
    destruct vi_frame as (e & He & R). exists e. auto.
  - intros t' e [_ He]%Hat. by apply vi_framed.
Qed.

(** What the invariant does not look at in a process. *)
Lemma inv_process_same v P T A M spare t p p' :
  vm_inv v P T A M spare -> procs v !! t = Some p -> pagedir p' = pagedir p -> spage_table p' = spage_table p ->
  vm_inv (set_procs (<[t := p']> (procs v)) v) P T A M spare.
Proof.
  intros [] Hp Hpd Hst.
  assert (Hat : forall t' e, entry_at (<[t := p']> (procs v)) t' e <-> entry_at (procs v) t' e).
  { intros t' e. unfold entry_at. destruct (decide (t' = t)) as [->|Hne]; [|by rewrite lookup_insert_ne].
    rewrite lookup_insert_eq, Hp. split; intros (q & [=<-] & He); eexists; (split; [done|]); congruence. }
  assert (Hq : forall t' q, <[t := p']> (procs v) !! t' = Some q ->
    exists q0, procs v !! t' = Some q0 /\ pagedir q = pagedir q0 /\ spage_table q = spage_table q0).
  { intros t' q [[<- <-]|[Hne Hq]]%lookup_insert_Some; [by exists p|by exists q]. }
  constructor; cbn [procs set_procs mach swap_area fsys frametable clock_hand]; try done.
  - intros t' q (q0 & Hq0 & E1 & E2)%Hq. destruct (vi_proc t' q0 Hq0). by constructor; rewrite ?E1, ?E2.
  - intros t1 t2 p1 p2 (q1 & H1q & E1 & _)%Hq (q2 & H2q & E2 & _)%Hq E. apply (vi_dirs t1 t2 q1 q2); congruence.
  - intros t1 t2 e1 e2 H1e%Hat H2e%Hat. by apply vi_kpages.
  - intros t1 t2 e1 e2 H1e%Hat H2e%Hat. by apply vi_slots.
  - intros t' u Hu. destruct (vi_pages t' u Hu) as (e & He & Eu). exists e. by rewrite Hat.
  - intros i f Hi. specialize (vi_frame i f Hi). destruct (isfilled f); [|done]. case_decide.
    + destruct vi_frame as [? Hf]. split; [done|]. intros t' e He%Hat. by apply (Hf t').
    + destruct vi_frame as (e & He & R). exists e. by rewrite Hat.
  - intros t' e He%Hat. by apply vi_framed.
Qed.

(** ** Files *)

Lemma inv_text v P T A A' M spare s :
  vm_inv v P T A M spare -> refines s A' -> (forall t e, entry_at (procs v) t e -> same_text A A' e) -> brk (fsys v) <= brk s ->
  vm_inv (set_fsys s v) P T A' M spare.
Proof.
  intros [] Rs Hst Hb. constructor; try done. intros t p Hp. destruct (vi_proc t p Hp). constructor; simpl; try done.
  - intros e He. specialize (pr_fresh e He). lia.
  - intros e He. destruct (pr_entry e He) as (bs & HM & Hok). exists bs. split; [done|].
    eapply entry_keep; [exact Hok|done| |done|apply (Hst t); by exists p].
    intros Hk. by destruct (eo_frame _ _ _ _ _ _ _ Hok Hk) as (_ & _ & Hu & _).
Qed.
Lemma inv_files v P T A A' M spare s :
  vm_inv v P T A M spare -> refines s A' -> same_files A A' -> brk (fsys v) <= brk s -> vm_inv (set_fsys s v) P T A' M spare.
Proof. intros V Rs Hsf Hb. apply (inv_text v P T A); try done. intros t e _. by apply same_files_text. Qed.

(** ** Segments *)

(** [e] at the address [malloc] gave. *)
Definition with_id (id : Z) (e : spinfo) : spinfo :=
  mk_spinfo id (Spage.file e) (file_offset e) (bytes_to_read e) (writable e) (upage_address e) (kpage_address e) (instructions e) (index_into_swap e).
(** [v] after [new_spinfo]. *)
Definition added_vm v (p : process) (e : spinfo) (s : fs D) : vm D :=
  set_procs (<[current v := set_spage_table (spage_table p ++ [e]) p]> (procs v)) (set_fsys s v).

Lemma new_spinfo_ok v P T A M spare p e0 bs :
  vm_inv v P T A M spare -> procs v !! current v = Some p -> 0 <= upage_address e0 < PHYS_BASE -> pg_ofs (upage_address e0) = 0 ->
  find_spinfo (spage_table p) (upage_address e0) = None -> kpage_address e0 = NULL -> instructions e0 <> SWAP ->
  (instructions e0 = FILE -> file_ok A e0) -> backing A e0 = Some bs -> length bs = 4096%nat ->
  exists s, new_spinfo e0 v = Ok (with_id (brk (fsys v)) e0, added_vm v p (with_id (brk (fsys v)) e0) s) /\
    vm_inv (added_vm v p (with_id (brk (fsys v)) e0) s) P T A (<[(current v, upage_address e0) := bs]> M) spare.
Proof.
  intros V Hp Hu Huo Hfind Hk Hi Hfile Hback Hlen. destruct (refines_malloc (fsys v) A (vi_fs _ _ _ _ _ _ V)) as (s & Em & Hbn & Rf & Hbrk & _).
  exists s. split.
  - unfold new_spinfo. bind_by (unfold on_fsys; rewrite Em; reflexivity). rewrite (proj2 (Z.eqb_neq _ _) Hbn). cbv zeta.
    bind_by reflexivity. bind_by (unfold get_process; cbn [procs current set_fsys]; rewrite Hp; reflexivity). by bind_by reflexivity.
  - by apply (inv_add_entry v P T A M spare (current v) p).
Qed.

(** Memory with the pages of [img] at [u]. *)
Fixpoint put_pages (M : gmap (Z * Z) (list Z)) (t u : Z) (n : nat) (img : list Z) : gmap (Z * Z) (list Z) :=
  match n with O => M | S n => put_pages (<[(t, u) := take 4096 img]> M) t (u + PGSIZE) n (drop 4096 img) end.
(** The bytes of a segment of [n] pages. *)
Definition segment_image (data : list Z) (ofs : Z) (read n : nat) : list Z :=
  take read (drop (Z.to_nat ofs) data) ++ replicate (n * 4096 - read) 0.

Lemma segment_page data ofs read n :
  0 <= ofs -> (read <= S n * 4096)%nat -> read = 0%nat \/ ofs + Z.of_nat read <= Z.of_nat (length data) ->
  let pr := (read `min` 4096)%nat in
  take 4096 (segment_image data ofs read (S n)) = take pr (drop (Z.to_nat ofs) data) ++ replicate (4096 - pr) 0 /\
  drop 4096 (segment_image data ofs read (S n)) = segment_image data (ofs + PGSIZE) (read - pr) n.
Proof.
  intros Ho Hr Hl pr. unfold segment_image. set (d := drop (Z.to_nat ofs) data).
  assert (Hd : length (take read d) = read). { rewrite length_take. unfold d. rewrite length_drop. lia. }
  destruct (decide (read <= 4096)%nat) as [Hle|Hgt].
  - assert (pr = read) as -> by lia. rewrite take_app, drop_app, Hd.
    rewrite (take_ge (take read d)), (drop_ge (take read d)) by lia. rewrite take_replicate, drop_replicate.
    rewrite Nat.sub_diag. split; [do 2 f_equal; lia|]. rewrite take_0. cbn [app]. f_equal. lia.
  - assert (pr = 4096%nat) as -> by lia. rewrite take_app_le, drop_app_le by lia. rewrite take_take. split.
    + replace (4096 - 4096)%nat with 0%nat by lia. simpl (replicate 0 _). rewrite app_nil_r. f_equal. lia.
    + rewrite skipn_firstn_comm. unfold d. rewrite drop_drop. f_equal; [|f_equal; lia]. f_equal. f_equal. unfold PGSIZE. lia.
Qed.

(** The pages from [u] on. *)
Definition page_list (u : Z) (n : nat) : list Z := map (fun k => u + PGSIZE * Z.of_nat k) (seq 0 n).

(** The current process has got entries for the pages [us], and nothing else
    has changed but the heap. *)
Record grown v v' (p p' : process) (us : list Z) : Prop := {
  gr_current : current v' = current v;
  gr_lock : lock_holder v' = lock_holder v;
  gr_frames : frametable v' = frametable v;
  gr_mach : mach v' = mach v;
  gr_swap : swap_area v' = swap_area v;
  gr_procs : procs v' = <[current v := p']> (procs v);
  gr_table : exists l, p' = set_spage_table (spage_table p ++ l) p /\ map upage_address l = us;
}.
Lemma grown_refl v p : procs v !! current v = Some p -> grown v v p p [].
Proof.
  intros Hp. constructor; try done; [by rewrite insert_id|]. exists []. split; [|done]. rewrite app_nil_r. by destruct p.
Qed.
Lemma grown_trans v v1 v2 p p1 p2 us us' : grown v v1 p p1 us -> grown v1 v2 p1 p2 us' -> grown v v2 p p2 (us ++ us').
Proof.
  intros [] []. constructor; try congruence.
  - rewrite gr_procs1, gr_procs0, gr_current0. apply insert_insert_eq.
  - destruct gr_table0 as (l & -> & <-), gr_table1 as (l' & -> & <-). exists (l ++ l'). simpl. rewrite map_app, app_assoc. by destruct p.
Qed.
Lemma grown_find v v' p p' us u :
  grown v v' p p' us -> find_spinfo (spage_table p) u = None -> u ∉ us -> find_spinfo (spage_table p') u = None.
Proof.
  intros [] Hf Hu. destruct gr_table0 as (l & -> & <-). simpl. pose proof (find_spinfo_spec (spage_table p) u) as Hs. rewrite Hf in Hs.
  pose proof (find_spinfo_spec (spage_table p ++ l) u) as Hs'. destruct (find_spinfo (spage_table p ++ l) u) as [e|]; [|done]. exfalso.
  destruct Hs' as [[He|He]%elem_of_app Eu]; [by apply (Hs e)|]. apply Hu. rewrite <- Eu. by apply list_elem_of_fmap_2.
Qed.
Lemma page_list_S u n : page_list u (S n) = u :: page_list (u + PGSIZE) n.
Proof.
  unfold page_list. rewrite <- cons_seq. cbn [map]. f_equal; [lia|]. rewrite <- seq_shift, map_map. apply map_ext. intros k. lia.
Qed.

(** One page: the lock, the entry, the lock. *)
Lemma add_page_ok v P T A M p e0 bs :
  vm_inv v P T A M None -> lock_holder v = None -> procs v !! current v = Some p -> 0 <= upage_address e0 < PHYS_BASE ->
  pg_ofs (upage_address e0) = 0 ->
  find_spinfo (spage_table p) (upage_address e0) = None -> kpage_address e0 = NULL -> instructions e0 <> SWAP ->
  (instructions e0 = FILE -> file_ok A e0) -> backing A e0 = Some bs -> length bs = 4096%nat ->
  exists v' p', (forall B (k : Prelude.M (vm D) B), (_ ← lock_memory; _ ← new_spinfo e0; _ ← unlock_memory; k) v = k v') /\
    vm_inv v' P T A (<[(current v, upage_address e0) := bs]> M) None /\ grown v v' p p' [upage_address e0].
Proof.
  intros V Hlk Hp Hu Huo Hfind Hk Hi Hfile Hback Hlen. set (v0 := set_lock_holder (Some (current v)) v).
  destruct (new_spinfo_ok v0 P T A M None p e0 bs (inv_lock _ _ _ _ _ _ _ V) Hp Hu Huo Hfind Hk Hi Hfile Hback Hlen) as (s & E & V').
  set (e := with_id (brk (fsys v0)) e0) in *.
  exists (set_lock_holder None (added_vm v0 p e s)), (set_spage_table (spage_table p ++ [e]) p). split_and!.
  - intros B k. bind_by (unfold lock_memory; bind_by reflexivity; bind_by (apply assert_run; rewrite Hlk; by rewrite bool_decide_false); reflexivity).
    bind_by (exact E). bind_by (unfold unlock_memory; bind_by reflexivity; bind_by (apply assert_run; by apply bool_decide_eq_true); reflexivity). done.
  - by apply inv_lock.
  - constructor; try done. by exists [e].
Qed.

Lemma segment_loop_ok P T A file h data wr junk n : forall v M p ofs upage read zero fuel,
  vm_inv v P T A M None -> lock_holder v = None -> procs v !! current v = Some p ->
  a_open A !! file = Some h -> h_deny h = true -> a_data A !! h_file h = Some data ->
  0 <= read -> 0 <= zero -> read + zero = Z.of_nat n * PGSIZE ->
  0 <= ofs -> ofs + Z.of_nat n * PGSIZE < 2 ^ 31 -> read = 0 \/ ofs + read <= Z.of_nat (length data) ->
  0 <= upage -> pg_ofs upage = 0 -> upage + Z.of_nat n * PGSIZE <= PHYS_BASE ->
  (forall u, u ∈ page_list upage n -> find_spinfo (spage_table p) u = None) -> (n < fuel)%nat ->
  exists v' p', segment_loop fuel file ofs upage read zero wr junk v = Ok (true, v') /\
    vm_inv v' P T A (put_pages M (current v) upage n (segment_image data ofs (Z.to_nat read) n)) None /\
    grown v v' p p' (page_list upage n).
Proof.
  unfold PGSIZE. induction n as [|n IH]; intros v M p ofs upage read zero fuel V Hlk Hp Hh Hdn Hd Hr Hz Hsum Ho Hom Hfl Hu Huo Hum Hno Hf.
  { destruct fuel as [|fuel]; [lia|]. cbn [segment_loop]. assert (read = 0 /\ zero = 0) as [-> ->] by lia.
    exists v, p. split; [done|]. split; [done|]. by apply grown_refl. }
  destruct fuel as [|fuel]; [lia|]. cbn [segment_loop]. unfold PGSIZE.
  assert (Hgo : (0 <? read) || (0 <? zero) = true).
  { apply orb_true_iff. destruct (decide (0 < read)); [left|right]; apply Z.ltb_lt; lia. }
  rewrite Hgo. set (pr := if read <? 4096 then read else 4096).
  assert (Hpr : pr = Z.min read 4096) by (unfold pr; destruct (read <? 4096) eqn:E; bool_to_prop; lia).
  set (e0 := mk_spinfo 0 file ofs pr wr upage NULL FILE (index_into_swap junk)).
  rewrite page_list_S in Hno. unfold PGSIZE in Hno.
  destruct (segment_page data ofs (Z.to_nat read) n Ho) as [Ht Hdr]; [lia|lia|]. unfold PGSIZE in Hdr.
  set (bs := take 4096 (segment_image data ofs (Z.to_nat read) (S n))) in *.
  assert (Hback : backing A e0 = Some bs).
  { unfold backing, file_page. cbn [instructions e0 Spage.file bytes_to_read file_offset]. rewrite Hh. cbn [mbind option_bind]. rewrite Hd.
    cbn [mbind option_bind]. rewrite Ht. unfold PGSIZE. f_equal. replace (Z.to_nat pr) with (Z.to_nat read `min` 4096)%nat by lia.
    f_equal. f_equal. lia. }
  assert (Hlen : length bs = 4096%nat).
  { rewrite Ht, length_app, length_replicate, length_take, length_drop. lia. }
  destruct (add_page_ok v P T A M p e0 bs V Hlk Hp) as (v1 & p1 & E1 & V1 & G1); cbn [e0 upage_address kpage_address instructions]; try done.
  { lia. } { apply Hno. by left. }
  { intros _. exists h, data. cbn [e0 Spage.file file_offset bytes_to_read]. unfold PGSIZE. split_and!; try done; lia. }
  rewrite E1. clear E1. assert (PHYS_BASE < 2 ^ 32) by done. rewrite s32_small, !u32_small by lia. pose proof G1 as []. cbn [e0 upage_address] in G1, V1.
  destruct (IH v1 (<[(current v, upage) := bs]> M) p1 (ofs + 4096) (upage + 4096) (read - pr) (zero - (4096 - pr)) fuel)
    as (v' & p' & E & V' & G'); try done; try lia; try congruence.
  { by rewrite gr_procs0, gr_current0, lookup_insert_eq. }
  { rewrite pg_ofs_mod in *. unfold PGSIZE in *. Z.to_euclidean_division_equations. lia. }
  { intros u Hin. apply (grown_find _ _ _ _ _ _ G1); [apply Hno; by right|]. rewrite list_elem_of_singleton. intros ->.
    apply list_elem_of_fmap in Hin as (k & Hk & _). unfold PGSIZE in Hk. lia. }
  exists v', p'. split; [done|]. split.
  - rewrite gr_current0 in V'. cbn [put_pages]. fold bs. rewrite Hdr. unfold PGSIZE.
    by replace (Z.to_nat read - Z.to_nat read `min` 4096)%nat with (Z.to_nat (read - pr)) by lia.
  - rewrite page_list_S. apply (grown_trans _ _ _ _ _ _ [upage] _ G1 G').
Qed.
End Steps.
