(* ===== verification/LoadOk.v ===== *)
(** * What a loaded program finds in memory

    Segments as the program headers describe them, byte by byte, and the first
    page of the stack with the arguments of [main]. *)

From S2P Require Import Prelude CString Block FsState File Directory FsSpec FsInv FsOps FsGrow Vaddr Bitmap Palloc Pagedir Spage Swap Frame Fault VmInv Clock Evict Paging PageFault UserMemory Loader LoadSteps.

(** ** Program headers *)

(** A segment the loader accepts and can page in: the checks of the loader hold,
    the bytes to read are in the file, which is not checked, and offsets stay
    positive as signed words. *)
Record phdr_ok (data : list Z) (ph : Elf32_Phdr) : Prop := {
  ph_words : (0 <= p_offset ph /\ 0 <= p_vaddr ph < 2 ^ 32) /\ 0 <= p_filesz ph /\ 0 <= p_memsz ph < 2 ^ 32;
  ph_valid : validate_segment ph (Z.of_nat (length data)) = true;
  ph_file : p_filesz ph = 0 \/ p_offset ph + p_filesz ph <= Z.of_nat (length data);
  ph_small : p_offset ph + p_memsz ph + 2 * PGSIZE <= 2 ^ 31;
}.

Definition seg_page (ph : Elf32_Phdr) : Z := p_vaddr ph - p_vaddr ph mod PGSIZE.
Definition seg_count (ph : Elf32_Phdr) : nat := Z.to_nat ((p_vaddr ph mod PGSIZE + p_memsz ph + PGSIZE - 1) / PGSIZE).
Definition seg_ofs (ph : Elf32_Phdr) : Z := p_offset ph - p_offset ph mod PGSIZE.
Definition seg_read (ph : Elf32_Phdr) : Z := if 0 <? p_filesz ph then p_vaddr ph mod PGSIZE + p_filesz ph else 0.
(** The pages of a segment, and user memory with a segment. *)
Definition seg_pages (ph : Elf32_Phdr) : list Z := page_list (seg_page ph) (seg_count ph).
Definition put_segment (data : list Z) (t : Z) (M : gmap (Z * Z) (list Z)) (ph : Elf32_Phdr) : gmap (Z * Z) (list Z) :=
  put_pages M t (seg_page ph) (seg_count ph) (segment_image data (seg_ofs ph) (Z.to_nat (seg_read ph)) (seg_count ph)).

Lemma land_not_mask x : Z.land x (Z.lnot PGMASK) = x - x mod PGSIZE.
Proof.
  rewrite <- Z.ldiff_land, PGMASK_val, Z.ldiff_ones_r, Z.shiftl_mul_pow2, Z.shiftr_div_pow2 by lia.
  change (2 ^ 12) with PGSIZE. pose proof (Z.div_mod x PGSIZE ltac:(done)). lia.
Qed.

Lemma validate_segment_true ph len :
  validate_segment ph len = true ->
  p_offset ph mod PGSIZE = p_vaddr ph mod PGSIZE /\ p_offset ph <= u32 len /\ p_filesz ph <= p_memsz ph /\ p_memsz ph <> 0 /\
  p_vaddr ph < PHYS_BASE /\ p_vaddr ph <= u32 (p_vaddr ph + p_memsz ph) < PHYS_BASE /\ PGSIZE <= p_vaddr ph.
Proof.
  unfold validate_segment, is_user_vaddr. rewrite !(fun x => eq_refl : Z.land x PGMASK = pg_ofs x), !pg_ofs_mod.
  repeat (match goal with |- context [if ?b then _ else _] => destruct b eqn:?; [done|] end). bool_to_prop. intros _. split_and!; lia.
Qed.
Lemma phdr_end data ph : phdr_ok data ph -> p_vaddr ph + p_memsz ph < PHYS_BASE.
Proof.
  intros []. destruct (validate_segment_true _ _ ph_valid0) as (_ & _ & _ & _ & Hv & Hw & _).
  unfold u32 in Hw. assert (PHYS_BASE < 2 ^ 32) by done. Z.to_euclidean_division_equations. lia.
Qed.

(** The sizes [load] computes with 32-bit words. *)
Definition phdr_sizes (ph : Elf32_Phdr) : Z * Z :=
  let page_offset := p_vaddr ph mod PGSIZE in
  if 0 <? p_filesz ph then
    (u32 (page_offset + p_filesz ph), u32 (ROUND_UP (u32 (page_offset + p_memsz ph)) PGSIZE - u32 (page_offset + p_filesz ph)))
  else (0, ROUND_UP (u32 (page_offset + p_memsz ph)) PGSIZE).

Lemma seg_count_bound data ph : phdr_ok data ph ->
  Z.of_nat (seg_count ph) * 4096 - 4096 < p_vaddr ph mod 4096 + p_memsz ph <= Z.of_nat (seg_count ph) * 4096 /\
  0 <= p_vaddr ph mod 4096 < 4096.
Proof.
  intros [(_ & _ & Hm) _ _ _]. unfold seg_count, PGSIZE. assert (0 <= p_vaddr ph mod 4096 < 4096) by (apply Z.mod_pos_bound; done).
  rewrite Z2Nat.id by (apply Z.div_pos; lia). split; [|done]. Z.to_euclidean_division_equations. lia.
Qed.
Lemma phdr_sizes_ok data ph : phdr_ok data ph -> phdr_sizes ph = (seg_read ph, Z.of_nat (seg_count ph) * 4096 - seg_read ph).
Proof.
  intros Hph. pose proof (phdr_end _ _ Hph). destruct (seg_count_bound _ _ Hph) as [Hn Hpo]. destruct Hph as [(? & ? & ?) Hval _ Hs].
  destruct (validate_segment_true _ _ Hval) as (_ & _ & Hfm & Hm0 & _ & _ & Hv). unfold PGSIZE in Hv, Hs.
  assert (PHYS_BASE < 2 ^ 32) by done. assert (p_vaddr ph mod 4096 <= p_vaddr ph) by (apply Z.mod_le; lia).
  unfold phdr_sizes, seg_read. unfold PGSIZE. set (po := p_vaddr ph mod 4096) in *. set (n := seg_count ph) in *.
  assert (Hru : ROUND_UP (u32 (po + p_memsz ph)) 4096 = Z.of_nat n * 4096).
  { unfold ROUND_UP. rewrite (u32_small (po + _)), (u32_small (_ + 4096 - 1)) by lia.
    rewrite u32_small by (Z.to_euclidean_division_equations; lia). Z.to_euclidean_division_equations. lia. }
  rewrite Hru. destruct (0 <? p_filesz ph); [|f_equal; lia]. rewrite !u32_small by lia. done.
Qed.
Lemma phdr_places data ph : phdr_ok data ph ->
  0 <= seg_read ph <= Z.of_nat (seg_count ph) * 4096 /\ s32 (seg_ofs ph) = seg_ofs ph /\ 0 <= seg_ofs ph /\
  seg_ofs ph + Z.of_nat (seg_count ph) * 4096 < 2 ^ 31 /\
  (seg_read ph = 0 \/ seg_ofs ph + seg_read ph <= Z.of_nat (length data)) /\
  0 <= seg_page ph /\ seg_page ph + Z.of_nat (seg_count ph) * 4096 <= PHYS_BASE /\ pg_ofs (seg_page ph) = 0 /\ seg_ofs ph mod 4096 = 0.
Proof.
  intros Hph. pose proof (phdr_end _ _ Hph). destruct (seg_count_bound _ _ Hph) as [Hn Hpo]. destruct Hph as [(? & ? & ?) Hval Hf Hs].
  destruct (validate_segment_true _ _ Hval) as (Ho & _ & Hfm & Hm0 & _ & _ & Hv). unfold PGSIZE in Hv, Hs, Ho.
  unfold seg_read, seg_ofs, seg_page. rewrite pg_ofs_mod. unfold PGSIZE. set (n := seg_count ph) in *.
  assert (PHYS_BASE = 786432 * 4096) as HB by reflexivity. assert (PHYS_BASE < 2 ^ 32) by done.
  assert (Hb : forall x, (x - x mod 4096) mod 4096 = 0) by (intros; Z.to_euclidean_division_equations; lia).
  assert (p_offset ph mod 4096 <= p_offset ph) by (apply Z.mod_le; lia). assert (p_vaddr ph mod 4096 <= p_vaddr ph) by (apply Z.mod_le; lia).
  pose proof (Hb (p_offset ph)) as Hbo. rewrite Ho in *. split_and!; try apply Hb; try lia.
  - destruct (0 <? p_filesz ph) eqn:E; bool_to_prop; lia.
  - destruct (0 <? p_filesz ph) eqn:E; bool_to_prop; lia.
  - apply s32_small. lia.
  - destruct (0 <? p_filesz ph) eqn:E; bool_to_prop; lia.
  - Z.to_euclidean_division_equations. lia.
Qed.

(** The headers of the file from [ofs] on, and the segments they load. *)
Definition file_phdrs (data : list Z) (ofs : Z) (n : nat) : list Elf32_Phdr :=
  map (fun k => phdr_of_bytes (take 32 (drop (Z.to_nat ofs + 32 * k) data))) (seq 0 n).
Definition segments (phs : list Elf32_Phdr) : list Elf32_Phdr := filter (fun ph => p_type ph = PT_LOAD) phs.
Definition phdr_fine (data : list Z) (ph : Elf32_Phdr) : Prop :=
  p_type ph <> PT_DYNAMIC /\ p_type ph <> PT_INTERP /\ p_type ph <> PT_SHLIB /\ (p_type ph = PT_LOAD -> phdr_ok data ph).
Definition all_pages (phs : list Elf32_Phdr) : list Z := mjoin (map seg_pages (segments phs)).
Definition put_segments (data : list Z) (t : Z) (M : gmap (Z * Z) (list Z)) (phs : list Elf32_Phdr) : gmap (Z * Z) (list Z) :=
  foldl (put_segment data t) M (segments phs).

Lemma file_phdrs_S data ofs n : 0 <= ofs ->
  file_phdrs data ofs (S n) = phdr_of_bytes (take 32 (drop (Z.to_nat ofs) data)) :: file_phdrs data (ofs + 32) n.
Proof.
  intros Ho. unfold file_phdrs. rewrite <- cons_seq. cbn [map]. f_equal; [do 3 f_equal; lia|].
  rewrite <- seq_shift, map_map. apply map_ext. intros k. do 3 f_equal. lia.
Qed.

(** ** Segments byte by byte *)

Lemma put_pages_lookup t n : forall M u img t' x,
  put_pages M t u n img !! (t', x) =
  if decide (t' = t /\ x ∈ page_list u n) then Some (take 4096 (drop (Z.to_nat (x - u)) img)) else M !! (t', x).
Proof.
  induction n as [|n IH]; intros M u img t' x; cbn [put_pages].
  { rewrite decide_False; [done|]. intros [_ Hx]. by apply not_elem_of_nil in Hx. }
  rewrite IH, page_list_S. assert (Hge : forall y, y ∈ page_list (u + PGSIZE) n -> u + 4096 <= y).
  { intros y (k & -> & _)%list_elem_of_fmap. unfold PGSIZE. lia. }
  destruct (decide (t' = t /\ x ∈ page_list (u + PGSIZE) n)) as [[-> Hx]|Hn].
  - rewrite decide_True by (split; [done|by right]). specialize (Hge x Hx). rewrite drop_drop. do 3 f_equal. unfold PGSIZE. lia.
  - destruct (decide (t' = t /\ x = u)) as [[-> ->]|Hne].
    + rewrite lookup_insert_eq, decide_True by (split; [done|by left]). by rewrite Z.sub_diag.
    + rewrite lookup_insert_ne by (intros [=]; apply Hne; split; congruence). rewrite decide_False; [done|]. intros [-> Hx].
      apply elem_of_cons in Hx as [->|Hx]; [by apply Hne|by apply Hn].
Qed.

Lemma page_list_elem u n x : pg_ofs u = 0 -> pg_ofs x = 0 -> x ∈ page_list u n <-> u <= x < u + Z.of_nat n * 4096.
Proof.
  rewrite !pg_ofs_mod. unfold page_list, PGSIZE. intros Hu Hx. rewrite list_elem_of_fmap. split.
  - intros (k & -> & Hk%elem_of_seq). lia.
  - intros Hb. exists (Z.to_nat ((x - u) / 4096)). rewrite elem_of_seq.
    assert (x - u = 4096 * ((x - u) / 4096)) by (Z.to_euclidean_division_equations; lia).
    assert (0 <= (x - u) / 4096) by (apply Z.div_pos; lia). lia.
Qed.

Lemma in_page_list u n a :
  0 <= u -> pg_ofs u = 0 -> 0 <= a < PHYS_BASE -> pg_round_down a ∈ page_list u n <-> u <= a < u + Z.of_nat n * 4096.
Proof.
  intros Hu Huo Ha. destruct (page_base a Ha) as (_ & Ho & _). rewrite page_list_elem by done. rewrite !pg_ofs_mod in *.
  rewrite pg_round_down_sub in * by (assert (PHYS_BASE < 2 ^ 32) by done; lia). unfold PGSIZE in *. Z.to_euclidean_division_equations. lia.
Qed.

Lemma put_pages_byte M t u n img t' a :
  0 <= u -> pg_ofs u = 0 -> u + Z.of_nat n * 4096 <= PHYS_BASE -> 0 <= a < PHYS_BASE -> length img = (n * 4096)%nat ->
  byte_at (put_pages M t u n img) t' a =
  if decide (t' = t /\ u <= a < u + Z.of_nat n * 4096) then img !! Z.to_nat (a - u) else byte_at M t' a.
Proof.
  intros Hu Huo Hn Ha Hi. unfold byte_at. rewrite put_pages_lookup. pose proof (in_page_list u n a Hu Huo Ha) as Hiff.
  case_decide as K1; case_decide as K2; try (exfalso; rewrite Hiff in K1; done); [|done].
  cbn [mbind option_bind]. destruct K1 as [-> K1]. destruct (page_base a Ha) as (_ & Ho & _).
  rewrite page_list_elem in K1 by done. rewrite pg_ofs_mod. rewrite pg_round_down_sub in * by (assert (PHYS_BASE < 2 ^ 32) by done; lia).
  assert (0 <= a mod PGSIZE < 4096) by (apply Z.mod_pos_bound; done).
  rewrite lookup_take_lt, lookup_drop by lia. f_equal. lia.
Qed.

Lemma segment_image_length data ofs read n :
  0 <= ofs -> (read <= n * 4096)%nat -> read = 0%nat \/ ofs + Z.of_nat read <= Z.of_nat (length data) ->
  length (segment_image data ofs read n) = (n * 4096)%nat.
Proof. intros. unfold segment_image. rewrite length_app, length_take, length_drop, length_replicate. lia. Qed.

(** User memory after the segment is put there. *)
Lemma put_segment_byte data t M ph t' a : phdr_ok data ph -> 0 <= a < PHYS_BASE ->
  (t' = t -> p_vaddr ph <= a < p_vaddr ph + p_filesz ph ->
     byte_at (put_segment data t M ph) t' a = data !! Z.to_nat (p_offset ph + (a - p_vaddr ph))) /\
  (t' = t -> p_vaddr ph + p_filesz ph <= a < p_vaddr ph + p_memsz ph -> byte_at (put_segment data t M ph) t' a = Some 0) /\
  (t' <> t \/ pg_round_down a ∉ seg_pages ph -> byte_at (put_segment data t M ph) t' a = byte_at M t' a).
Proof.
  intros Hph Ha. destruct (phdr_places _ _ Hph) as (Hr & _ & Ho & _ & Hf & Hu & Hum & Hpg & _).
  destruct (seg_count_bound _ _ Hph) as [Hn Hpo]. destruct (page_base a Ha) as (_ & Hda & _).
  assert (Hlen := segment_image_length data (seg_ofs ph) (Z.to_nat (seg_read ph)) (seg_count ph) Ho ltac:(lia) ltac:(lia)).
  unfold put_segment. rewrite put_pages_byte by done. unfold seg_pages. rewrite in_page_list by done.
  destruct (validate_segment_true _ _ (ph_valid _ _ Hph)) as (Hoff & _ & Hfm & _). destruct Hph as [(? & ? & ?) _ _ _].
  assert (p_offset ph mod PGSIZE <= p_offset ph) by (apply Z.mod_le; [lia|done]).
  unfold seg_page, seg_ofs, seg_read in *. unfold PGSIZE in *. unfold segment_image. split_and!.
  - intros -> Hin. rewrite decide_True by lia. rewrite (proj2 (Z.ltb_lt 0 (p_filesz ph))) in * by lia.
    rewrite lookup_app_l by (rewrite length_take, length_drop; lia). rewrite lookup_take_lt, lookup_drop by lia. f_equal. lia.
  - intros -> Hin. rewrite decide_True by lia. rewrite lookup_app_r.
    + rewrite length_take, length_drop. apply lookup_replicate. split; [done|]. destruct (0 <? p_filesz ph) eqn:E; bool_to_prop; lia.
    + rewrite length_take, length_drop. destruct (0 <? p_filesz ph) eqn:E; bool_to_prop; lia.
  - intros Hout. rewrite decide_False; [done|]. intros [-> Hin]. destruct Hout as [?|Hout]; [done|]. by apply Hout.
Qed.

(** Segments on pages of their own do not disturb each other. *)
Lemma put_segments_other data t phs : forall M t' a,
  Forall (phdr_fine data) phs -> 0 <= a < PHYS_BASE -> t' <> t \/ pg_round_down a ∉ all_pages phs ->
  byte_at (put_segments data t M phs) t' a = byte_at M t' a.
Proof.
  induction phs as [|ph phs IH]; intros M t' a Hall Ha Hout; [done|]. apply Forall_cons in Hall as [(_ & _ & _ & Hok) Hall].
  unfold put_segments, all_pages, segments in *. rewrite filter_cons in *. destruct (decide (p_type ph = PT_LOAD)) as [E|E]; [|by apply IH].
  cbn [foldl map mjoin list_join] in *. assert (Hout2 : t' <> t \/ pg_round_down a ∉ mjoin (map seg_pages (filter (fun ph => p_type ph = PT_LOAD) phs))).
  { destruct Hout as [?|Hout]; [by left|right]. intros Hin. apply Hout. apply elem_of_app. by right. }
  rewrite IH by done. apply (proj2 (proj2 (put_segment_byte data t M ph t' a (Hok E) Ha))).
  destruct Hout as [?|Hout]; [by left|right]. intros Hin. apply Hout. apply elem_of_app. by left.
Qed.

Lemma put_segments_byte data t phs : forall M ph a,
  Forall (phdr_fine data) phs -> NoDup (all_pages phs) -> ph ∈ segments phs -> p_vaddr ph <= a < p_vaddr ph + p_memsz ph ->
  pg_round_down a ∈ all_pages phs /\
  byte_at (put_segments data t M phs) t a =
    if decide (a < p_vaddr ph + p_filesz ph) then data !! Z.to_nat (p_offset ph + (a - p_vaddr ph)) else Some 0.
Proof.
  induction phs as [|ph0 phs IH]; intros M ph a Hall Hnd Hin Ha; [by apply not_elem_of_nil in Hin|].
  apply Forall_cons in Hall as [(_ & _ & _ & Hok) Hall]. pose proof (put_segments_other data t phs) as Hoth.
  unfold put_segments, all_pages, segments in *. rewrite filter_cons in *. destruct (decide (p_type ph0 = PT_LOAD)) as [E|E]; [|by apply IH].
  cbn [foldl map mjoin list_join] in *. apply NoDup_app in Hnd as (_ & Hdis & Hnd). apply elem_of_cons in Hin as [->|Hin].
  - specialize (Hok E). pose proof (phdr_end _ _ Hok). assert (Hab : 0 <= a < PHYS_BASE) by (destruct Hok as [(? & _) _ _ _]; lia).
    destruct (phdr_places _ _ Hok) as (_ & _ & _ & _ & _ & Hu & _ & Hpg & _). destruct (seg_count_bound _ _ Hok) as [Hn Hpo].
    assert (Hpa : pg_round_down a ∈ seg_pages ph0).
    { unfold seg_pages. apply in_page_list; [done|done|done|]. unfold seg_page, PGSIZE. lia. }
    split; [apply elem_of_app; by left|]. rewrite Hoth; [|done|done|right; by apply Hdis].
    destruct (put_segment_byte data t M ph0 t a Hok Hab) as (H1 & H2 & _). destruct (decide (a < _)); [apply H1|apply H2]; done || lia.
  - destruct (IH (put_segment data t M ph0) ph a Hall Hnd Hin Ha) as [Hp Hb]. split; [apply elem_of_app; by right|exact Hb].
Qed.

Section Loading.
Context `{BlockLaws D}.
Implicit Types v : vm D.

Lemma length_run (s : fs D) A f h data :
  refines s A -> a_open A !! f = Some h -> a_data A !! h_file h = Some data -> file_length f s = Ok (Z.of_nat (length data), s).
Proof.
  intros [live S] Hh Hd. destruct (file_tell_sim s live A f h data S Hh Hd) as [_ E]. unfold run, mbind, M_bind in E.
  destruct (file_length f s) as [[n s']|]; [|done]. unfold mret, M_ret in E. by injection E as -> ->.
Qed.

Lemma load_phdr_ok v P T A M p file h data ph junk :
  vm_inv v P T A M None -> lock_holder v = None -> procs v !! current v = Some p ->
  a_open A !! file = Some h -> h_deny h = true -> a_data A !! h_file h = Some data -> phdr_ok data ph ->
  (forall u, u ∈ seg_pages ph -> find_spinfo (spage_table p) u = None) ->
  exists v' p', load_phdr file ph junk v = Ok (true, v') /\ vm_inv v' P T A (put_segment data (current v) M ph) None /\
    grown v v' p p' (seg_pages ph).
Proof.
  intros V Hlk Hp Hh Hdn Hd Hph Hno. destruct (phdr_places _ _ Hph) as (Hr & Hs & Ho & Hom & Hf & Hu & Hum & Hpg & Hoa).
  unfold load_phdr. bind_by (unfold on_fsys; rewrite (length_run _ _ _ _ _ (vi_fs _ _ _ _ _ _ V) Hh Hd); reflexivity).
  replace (set_fsys (fsys v) v) with v by (by destruct v). rewrite (ph_valid _ _ Hph), !land_not_mask.
  rewrite !(fun x => eq_refl : Z.land x PGMASK = pg_ofs x), !pg_ofs_mod. cbv zeta. fold (seg_ofs ph) (seg_page ph). rewrite Hs.
  fold (phdr_sizes ph). rewrite (phdr_sizes_ok _ _ Hph). cbv beta iota. set (n := seg_count ph) in *.
  assert (PHYS_BASE < 2 ^ 32) by done. unfold load_segment.
  replace (seg_read ph + (Z.of_nat n * 4096 - seg_read ph)) with (Z.of_nat n * 4096) by lia.
  bind_by (apply assert_run; rewrite u32_small by lia; unfold PGSIZE; by rewrite Z.mod_mul).
  bind_by (apply assert_run; by rewrite Hpg). bind_by (apply assert_run; rewrite Z.rem_mod_nonneg by done; unfold PGSIZE; by rewrite Hoa).
  apply (segment_loop_ok P T A file h data); try done; try (unfold PGSIZE; lia). unfold PGSIZE. rewrite Z.div_mul by done. lia.
Qed.

(** One header that is not an error. *)
Lemma phdr_step_ok v P T A M p file h data ph junk :
  vm_inv v P T A M None -> lock_holder v = None -> procs v !! current v = Some p ->
  a_open A !! file = Some h -> h_deny h = true -> a_data A !! h_file h = Some data -> phdr_fine data ph ->
  (forall u, u ∈ all_pages [ph] -> find_spinfo (spage_table p) u = None) ->
  exists v' p', (if (p_type ph =? PT_DYNAMIC) || (p_type ph =? PT_INTERP) || (p_type ph =? PT_SHLIB) then mret false
      else if p_type ph =? PT_LOAD then load_phdr file ph junk else mret true) v = Ok (true, v') /\
    vm_inv v' P T A (put_segments data (current v) M [ph]) None /\ grown v v' p p' (all_pages [ph]).
Proof.
  intros V Hlk Hp Hh Hdn Hd (H1 & H2 & H3 & Hok) Hno. rewrite !(proj2 (Z.eqb_neq (p_type ph) _)) by done. cbn [orb].
  unfold all_pages, put_segments, segments in *. rewrite filter_cons, filter_nil in *. destruct (decide (p_type ph = PT_LOAD)) as [E|E].
  - rewrite (proj2 (Z.eqb_eq _ _) E). cbn [map mjoin list_join foldl] in *. rewrite app_nil_r in *.
    by apply (load_phdr_ok v P T A M p file h data); auto.
  - rewrite (proj2 (Z.eqb_neq _ _) E). exists v, p. split; [done|]. split; [done|]. by apply grown_refl.
Qed.

Lemma grown_files v v' p p' us s : grown (set_fsys s v) v' p p' us -> grown v v' p p' us.
Proof. by intros []. Qed.

Lemma phdr_loop_ok P T file data junk n : forall v A M p h ofs,
  vm_inv v P T A M None -> lock_holder v = None -> procs v !! current v = Some p ->
  a_open A !! file = Some h -> h_deny h = true -> a_data A !! h_file h = Some data ->
  0 <= ofs -> ofs + 32 * Z.of_nat n <= Z.of_nat (length data) -> ofs + 32 * Z.of_nat n < 2 ^ 31 ->
  Forall (phdr_fine data) (file_phdrs data ofs n) -> NoDup (all_pages (file_phdrs data ofs n)) ->
  (forall u, u ∈ all_pages (file_phdrs data ofs n) -> find_spinfo (spage_table p) u = None) ->
  exists v' A' p', phdr_loop n file ofs junk v = Ok (true, v') /\
    vm_inv v' P T A' (put_segments data (current v) M (file_phdrs data ofs n)) None /\ same_files A A' /\
    grown v v' p p' (all_pages (file_phdrs data ofs n)).
Proof.
  induction n as [|n IH]; intros v A M p h ofs V Hlk Hp Hh Hdn Hd Ho Hlen Hsm Hall Hnd Hno.
  { exists v, A, p. split; [done|]. split; [done|]. split; [apply same_files_refl|by apply grown_refl]. }
  rewrite file_phdrs_S in * by done. set (ph := phdr_of_bytes _) in *. apply Forall_cons in Hall as [Hph Hall].
  assert (Hap : all_pages (ph :: file_phdrs data (ofs + 32) n) = all_pages [ph] ++ all_pages (file_phdrs data (ofs + 32) n)).
  { unfold all_pages, segments. change (ph :: ?l) with ([ph] ++ l). by rewrite filter_app, map_app, join_app. }
  assert (Hps : forall M', put_segments data (current v) M' (ph :: file_phdrs data (ofs + 32) n) =
    put_segments data (current v) (put_segments data (current v) M' [ph]) (file_phdrs data (ofs + 32) n)).
  { intros M'. unfold put_segments, segments. change (ph :: ?l) with ([ph] ++ l). by rewrite filter_app, foldl_app. }
  rewrite Hap in *. rewrite Hps. apply NoDup_app in Hnd as (_ & Hdis & Hnd).
  destruct (seek_read_run (fsys v) A file h data ofs sizeof_phdr (vi_fs _ _ _ _ _ _ V) Hh Hdn Hd) as
    (s1 & s2 & A2 & E1 & E2 & R2 & F2 & [B2 _] & (h2 & Hh2 & Ef & Edn) & _); [lia|].
  assert (Hmv : moved data sizeof_phdr ofs = 32) by (unfold moved, sizeof_phdr; lia). rewrite Hmv in E2. change (Z.to_nat 32) with 32%nat in E2.
  assert (Hdn2 : h_deny h2 = true) by congruence. assert (Hd2 : a_data A2 !! h_file h2 = Some data) by (by rewrite Ef, (proj1 F2)).
  destruct (phdr_step_ok (set_fsys s2 v) P T A2 M p file h2 data ph junk) as (v3 & p3 & E3 & V3 & G3); try done.
  { by apply (inv_files v P T A). } { intros u Hu. apply Hno, elem_of_app. by left. }
  apply grown_files in G3. pose proof G3 as [Gc Gl _ _ _ Gp _]. cbn [current set_fsys] in V3.
  destruct (IH v3 A2 (put_segments data (current v) M [ph]) p3 h2 (ofs + 32)) as (v' & A' & p' & E & V' & F' & G');
    try done; try lia; try congruence.
  { by rewrite Gp, Gc, lookup_insert_eq. }
  { intros u Hu. apply (grown_find _ _ _ _ _ _ G3); [apply Hno, elem_of_app; by right|]. intros Hu'. by apply (Hdis u). }
  rewrite Gc in V'. exists v', A', p'. split; [|split; [done|split; [by eapply same_files_trans|by eapply grown_trans]]].
  cbn [phdr_loop]. bind_by (unfold on_fsys; rewrite (length_run _ _ _ _ _ (vi_fs _ _ _ _ _ _ V) Hh Hd); reflexivity).
  replace (set_fsys (fsys v) v) with v by (by destruct v).
  rewrite (proj2 (Z.ltb_ge ofs 0)), (proj2 (Z.ltb_ge _ ofs)) by lia. cbn [orb].
  bind_by (unfold on_fsys; rewrite E1; reflexivity). bind_by (unfold on_fsys; cbn [fsys set_fsys]; rewrite E2; reflexivity).
  replace (set_fsys s2 (set_fsys s1 v)) with (set_fsys s2 v) by (by destruct v). cbv beta iota zeta. cbn [fst snd].
  change (negb (32 =? sizeof_phdr)) with false. fold ph. cbv iota. bind_by (exact E3).
  unfold sizeof_phdr. by rewrite s32_small by lia.
Qed.
End Loading.
