(* ===== verification/LoadStack.v ===== *)
(** * The first page of the stack

    [setup_stack] maps a zeroed page below [PHYS_BASE] and writes the strings of
    the command line there, then the pointers to them and the arguments of
    [main], by ordinary stores of the kernel to user memory. *)

From S2P Require Import Prelude CString Block FsState File Directory FsSpec FsInv FsOps FsGrow Vaddr Bitmap Palloc Pagedir Spage Swap Frame Fault VmInv Clock Evict Paging PageFault UserMemory Loader LoadSteps LoadOk.

(** ** What is put on the stack *)

(** The strings, the last one lowest, and their addresses. *)
Definition strings_image (argv : list (list Z)) : list Z := mjoin (rev (map (fun s => s ++ [0]) argv)).
Fixpoint string_addresses (argv : list (list Z)) (esp : Z) : list Z :=
  match argv with
  | [] => []
  | s :: argv => esp - (Z.of_nat (length s) + 1) :: string_addresses argv (esp - (Z.of_nat (length s) + 1))
  end.
(** Words from the lowest address up. *)
Definition words_image (ws : list Z) : list Z := mjoin (map (fun w => elem_bytes (u32 w)) ws).
Definition stack_padding (argv : list (list Z)) : nat := Z.to_nat ((4 - Z.of_nat (length (strings_image argv)) mod 4) mod 4).
(** The address of the array [argv]. *)
Definition argv_address (argv : list (list Z)) : Z :=
  PHYS_BASE - (Z.of_nat (length (strings_image argv)) + Z.of_nat (stack_padding argv) + 4 + 4 * Z.of_nat (length argv)).
Definition stack_image (argv : list (list Z)) : list Z :=
  words_image ([0; Z.of_nat (length argv); argv_address argv] ++ string_addresses argv PHYS_BASE ++ [0]) ++
  replicate (stack_padding argv) 0 ++ strings_image argv.

Lemma words_image_length ws : length (words_image ws) = (4 * length ws)%nat.
Proof.
  induction ws as [|w ws IH]; [done|]. change (words_image (w :: ws)) with (elem_bytes (u32 w) ++ words_image ws).
  rewrite length_app, IH. simpl. lia.
Qed.
Lemma words_image_app ws ws' : words_image (ws ++ ws') = words_image ws ++ words_image ws'.
Proof. unfold words_image. by rewrite map_app, join_app. Qed.
Lemma string_addresses_length argv esp : length (string_addresses argv esp) = length argv.
Proof. revert esp. induction argv as [|s argv IH]; intros esp; [done|]. simpl. by rewrite IH. Qed.
Lemma strings_image_cons s argv : strings_image (s :: argv) = strings_image argv ++ s ++ [0].
Proof. unfold strings_image. cbn [map rev]. rewrite join_app. cbn [mjoin list_join]. by rewrite app_nil_r. Qed.

(** ** Bounds *)

(** The limit of [process_execute]: a line of at most 3977 bytes and 25 words
    fits in the page, to the last byte. *)
Lemma words_from_total ds fuel : forall s,
  (fold_right (fun (w : list Z) n => length w + 1 + n) 0 (words_from fuel ds s) <= S (length s))%nat.
Proof.
  induction fuel as [|fuel IH]; intros s; cbn [words_from]; [simpl; lia|]. set (t := drop _ s). set (n := prefix_len (out_set ds) t).
  assert (Hl : (length t <= length s)%nat) by (unfold t; rewrite length_drop; lia).
  destruct (decide (t = [])) as [->|Ht]; [simpl; lia|].
  replace (match t with [] => [] | _ => take n t :: words_from fuel ds (drop (S n) t) end)
    with (take n t :: words_from fuel ds (drop (S n) t)) by (by destruct t).
  cbn [fold_right]. specialize (IH (drop (S n) t)). rewrite length_drop in IH. rewrite length_take.
  assert (length t <> 0)%nat by (by destruct t).
  destruct (decide (S n <= length t)%nat); [lia|].
  rewrite (drop_ge t) in IH |- * by lia. destruct fuel; simpl; lia.
Qed.
Lemma strings_image_length argv :
  length (strings_image argv) = fold_right (fun (w : list Z) n => length w + 1 + n)%nat 0%nat argv.
Proof.
  induction argv as [|s argv IH]; [done|]. rewrite strings_image_cons, !length_app, IH. simpl. lia.
Qed.
Lemma stack_image_length argv :
  length (stack_image argv) = (4 * (length argv + 4) + stack_padding argv + length (strings_image argv))%nat.
Proof.
  unfold stack_image. rewrite !length_app, length_replicate, words_image_length, !length_app, string_addresses_length. simpl. lia.
Qed.
Lemma stack_image_fits s :
  (length s <= 3977)%nat -> (length (words [32%Z] s) <= MAXARGS)%nat -> (length (stack_image (words [32%Z] s)) <= 4096)%nat.
Proof.
  intros Hs Hw. rewrite stack_image_length. pose proof (words_from_total [32] (S (length s)) s) as Ht. fold (words [32] s) in Ht.
  rewrite <- strings_image_length in Ht. unfold stack_padding, MAXARGS in *. Z.to_euclidean_division_equations. lia.
Qed.

Section Stack.
Context `{BlockLaws D} `{KpageSearch} `{!KpageLaws}.
Implicit Types v : vm D.

(** ** Stores of the kernel to a page in a frame *)

Lemma overwrite_cons pg o b bytes :
  0 <= o -> o + 1 + Z.of_nat (length bytes) <= Z.of_nat (length pg) ->
  overwrite (overwrite pg o [b]) (o + 1) bytes = overwrite pg o (b :: bytes).
Proof.
  intros Ho Hl. assert (Hl1 : length (overwrite pg o [b]) = length pg) by (apply overwrite_length; simpl; lia).
  apply list_eq. intros i. rewrite !lookup_overwrite by (rewrite ?Hl1; simpl; lia). simpl length.
  destruct (decide (i = Z.to_nat o)) as [->|Hne].
  - rewrite decide_False, decide_True, decide_True by lia. by rewrite Nat.sub_diag.
  - destruct (decide (Z.to_nat o < i < Z.to_nat o + S (length bytes))%nat) as [Hin|Hout].
    + rewrite decide_True, decide_True by lia. replace (i - Z.to_nat o)%nat with (S (i - Z.to_nat (o + 1))) by lia. done.
    + by rewrite !decide_False by lia.
Qed.

(** The page of [e] in a frame of the current process; [pg] is what it holds. *)
Record resident v P T A M p e (pg : list Z) : Prop := {
  re_inv : vm_inv v P T A M None;
  re_proc : procs v !! current v = Some p;
  re_entry : e ∈ spage_table p;
  re_frame : kpage_address e <> NULL;
  re_writable : writable e = true;
  re_page : M !! (current v, upage_address e) = Some pg;
}.

Lemma kernel_store_ok v P T A M p e pg o b junk :
  resident v P T A M p e pg -> 0 <= o < 4096 ->
  exists m, kernel_store (upage_address e + o) b junk v = Ok (true, set_mach m v) /\
    resident (set_mach m v) P T A (<[(current v, upage_address e) := overwrite pg o [b]]> M) p e (overwrite pg o [b]).
Proof.
  intros [V Hp He Hk Hw HM] Ho. pose proof (vi_proc _ _ _ _ _ _ V _ _ Hp) as Hpr.
  destruct (pr_entry _ _ _ _ _ _ _ Hpr e He) as (bs & HM' & Hok). rewrite HM in HM'. injection HM' as <-.
  destruct (eo_page _ _ _ _ _ _ _ Hok) as [Hu Huo]. pose proof (eo_length _ _ _ _ _ _ _ Hok) as Hl.
  destruct (eo_frame _ _ _ _ _ _ _ Hok Hk) as (_ & _ & _ & Hmem & _).
  set (va := upage_address e + o). assert (Hva : 0 <= va < PHYS_BASE /\ pg_round_down va = upage_address e /\ pg_ofs va = o).
  { unfold va. rewrite pg_ofs_mod in *. assert (PHYS_BASE = 786432 * 4096) by done. unfold PGSIZE in *.
    assert ((upage_address e + o) mod 4096 = o) by (Z.to_euclidean_division_equations; lia).
    assert (upage_address e + o < PHYS_BASE) by (Z.to_euclidean_division_equations; lia).
    rewrite pg_round_down_sub by (unfold PHYS_BASE in *; lia). unfold PGSIZE. lia. }
  destruct Hva as (Hva & Hup & Hpo).
  destruct (cpu_access_ok v P T A M p e (kpage_address e) va true V Hp He eq_refl Hk Hva (eq_sym Hup) (fun _ => Hw))
    as (m & E & Vm & HD & Hm).
  assert (Hl1 : length (overwrite pg o [b]) = 4096%nat) by (rewrite overwrite_length; simpl; lia).
  pose proof (inv_store (set_mach m v) P T A M (current v) p e _ Vm Hp He Hk (HD eq_refl) Hl1) as V'.
  exists (set_memory (<[kpage_address e := overwrite pg o [b]]> (memory m)) m). split.
  - unfold kernel_store. bind_by (unfold mem_access; bind_by reflexivity; bind_by (unfold get_process; rewrite Hp; reflexivity);
      bind_by (unfold on_mach; rewrite E; reflexivity); reflexivity). cbv beta iota.
    bind_by (unfold store_page; simpl mach; rewrite Hm, Hmem, Hpo; reflexivity). done.
  - constructor; try done. by rewrite lookup_insert_eq.
Qed.

Lemma kernel_write_ok junk bytes : forall v P T A M p e pg o,
  resident v P T A M p e pg -> 0 <= o -> o + Z.of_nat (length bytes) <= 4096 ->
  exists m, kernel_write (upage_address e + o) bytes junk v = Ok (true, set_mach m v) /\
    resident (set_mach m v) P T A (<[(current v, upage_address e) := overwrite pg o bytes]> M) p e (overwrite pg o bytes).
Proof.
  induction bytes as [|b bytes IH]; intros v P T A M p e pg o R Ho Hl.
  - exists (mach v). replace (set_mach (mach v) v) with v by (by destruct v). split; [done|].
    assert (overwrite pg o [] = pg) as -> by (unfold overwrite; cbn [app length]; rewrite Nat.add_0_r; apply take_drop).
    rewrite insert_id by apply R. done.
  - simpl length in Hl. destruct (kernel_store_ok v P T A M p e pg o b junk R) as (m1 & E1 & R1); [lia|].
    destruct (IH _ P T A _ p e _ (o + 1) R1) as (m2 & E2 & R2); [lia|lia|].
    assert (Hlp : length pg = 4096%nat).
    { destruct R as [V Hp He _ _ HM]. destruct (pr_entry _ _ _ _ _ _ _ (vi_proc _ _ _ _ _ _ V _ _ Hp) e He) as (bs & HM' & Hok).
      rewrite HM in HM'. injection HM' as <-. apply Hok. }
    rewrite overwrite_cons in R2 by lia. cbn [current set_mach] in R2. rewrite insert_insert_eq in R2.
    exists m2. split; [|exact R2]. cbn [kernel_write]. bind_by (exact E1). cbv iota. rewrite <- Z.add_assoc. exact E2.
Qed.

(** ** Pushes *)

(** The stack [st] at the top of the page of [e], the rest of which is zero. *)
Definition stack_page (st : list Z) : list Z := replicate (4096 - length st) 0 ++ st.

Lemma stack_page_push st bytes : (length bytes + length st <= 4096)%nat ->
  overwrite (stack_page st) (4096 - Z.of_nat (length st) - Z.of_nat (length bytes)) bytes = stack_page (bytes ++ st).
Proof.
  intros Hl. unfold overwrite, stack_page. rewrite length_app.
  rewrite take_app_le, drop_app_ge, take_replicate, length_replicate by (rewrite length_replicate; lia).
  f_equal; [f_equal; lia|]. f_equal. replace (_ - _)%nat with 0%nat by lia. done.
Qed.
Lemma stack_page_pad st n : (n + length st <= 4096)%nat -> stack_page (replicate n 0 ++ st) = stack_page st.
Proof.
  intros Hn. unfold stack_page. rewrite length_app, length_replicate, app_assoc, <- replicate_add. do 2 f_equal. lia.
Qed.

Definition stacked v P T A M p e st : Prop :=
  resident v P T A (<[(current v, PHYS_BASE - 4096) := stack_page st]> M) p e (stack_page st) /\ upage_address e = PHYS_BASE - 4096.

Lemma push_bytes_ok v P T A M p e st bytes junk :
  stacked v P T A M p e st -> (length bytes + length st <= 4096)%nat ->
  exists m, kernel_write (PHYS_BASE - Z.of_nat (length st) - Z.of_nat (length bytes)) bytes junk v = Ok (true, set_mach m v) /\
    stacked (set_mach m v) P T A M p e (bytes ++ st).
Proof.
  intros [R Eu] Hl.
  destruct (kernel_write_ok junk bytes v P T A _ p e _ (4096 - Z.of_nat (length st) - Z.of_nat (length bytes)) R) as (m & E & R'); [lia|lia|].
  rewrite stack_page_push, Eu, insert_insert_eq in R' by done. exists m. split; [|done].
  rewrite <- E. f_equal. rewrite Eu. lia.
Qed.

Lemma push_word_ok v P T A M p e st w junk :
  stacked v P T A M p e st -> (4 + length st <= 4096)%nat ->
  exists m, push_word (PHYS_BASE - Z.of_nat (length st)) w junk v =
      Ok (PHYS_BASE - Z.of_nat (length (elem_bytes (u32 w) ++ st)), set_mach m v) /\
    stacked (set_mach m v) P T A M p e (elem_bytes (u32 w) ++ st).
Proof.
  intros R Hl. destruct (push_bytes_ok v P T A M p e st (elem_bytes (u32 w)) junk R) as (m & E & R'); [simpl; lia|].
  exists m. split; [|done]. rewrite length_app, Nat2Z.inj_add. change (Z.of_nat (length (elem_bytes (u32 w)))) with 4 in *.
  replace (PHYS_BASE - (4 + Z.of_nat (length st))) with (PHYS_BASE - Z.of_nat (length st) - 4) by lia.
  unfold push_word. by bind_by (exact E).
Qed.

Lemma push_words_ok P T A M p e junk ws : forall v st,
  stacked v P T A M p e st -> (4 * length ws + length st <= 4096)%nat ->
  exists m, push_words ws (PHYS_BASE - Z.of_nat (length st)) junk v =
      Ok (PHYS_BASE - Z.of_nat (length (words_image (rev ws) ++ st)), set_mach m v) /\
    stacked (set_mach m v) P T A M p e (words_image (rev ws) ++ st).
Proof.
  induction ws as [|w ws IH]; intros v st R Hl.
  { exists (mach v). by replace (set_mach (mach v) v) with v by (by destruct v). }
  simpl length in Hl. destruct (push_word_ok v P T A M p e st w junk R) as (m1 & E1 & R1); [lia|].
  destruct (IH _ _ R1) as (m2 & E2 & R2); [rewrite length_app; simpl; lia|]. cbn [rev]. rewrite words_image_app, <- app_assoc.
  change (words_image [w]) with (elem_bytes (u32 w)). exists m2. split; [|exact R2]. cbn [push_words]. by bind_by (exact E1).
Qed.

Lemma push_strings_ok P T A M p e junk argv : forall v st,
  stacked v P T A M p e st -> (length (strings_image argv) + length st <= 4096)%nat ->
  exists m, push_strings argv (PHYS_BASE - Z.of_nat (length st)) junk v =
      Ok ((PHYS_BASE - Z.of_nat (length (strings_image argv ++ st)), string_addresses argv (PHYS_BASE - Z.of_nat (length st))), set_mach m v) /\
    stacked (set_mach m v) P T A M p e (strings_image argv ++ st).
Proof.
  induction argv as [|s argv IH]; intros v st R Hl.
  { exists (mach v). by replace (set_mach (mach v) v) with v by (by destruct v). }
  rewrite strings_image_cons, !length_app in Hl. simpl in Hl.
  destruct (push_bytes_ok v P T A M p e st (s ++ [0]) junk R) as (m1 & E1 & R1); [rewrite length_app; simpl; lia|].
  destruct (IH _ _ R1) as (m2 & E2 & R2); [rewrite !length_app; simpl; lia|].
  rewrite strings_image_cons, <- (app_assoc _ (s ++ [0]) st). exists m2. split; [|exact R2].
  assert (Ea : PHYS_BASE - Z.of_nat (length st) - Z.of_nat (length (s ++ [0])) = PHYS_BASE - Z.of_nat (length st) - (Z.of_nat (length s) + 1))
    by (rewrite length_app; simpl; lia).
  assert (Eb : PHYS_BASE - Z.of_nat (length ((s ++ [0]) ++ st)) = PHYS_BASE - Z.of_nat (length st) - (Z.of_nat (length s) + 1))
    by (rewrite !length_app; simpl; lia).
  rewrite Ea in E1. rewrite Eb in E2. cbn [push_strings string_addresses]. bind_by (exact E1). cbv iota zeta. by bind_by (exact E2).
Qed.

(** All the pushes of [setup_stack]. *)
Lemma push_all_ok v P T A M p e argv junk :
  stacked v P T A M p e [] -> (length (stack_image argv) <= 4096)%nat ->
  exists m, (r ← push_strings argv PHYS_BASE junk;
       let my_esp := r.1 in
       let padding := (4 - (PHYS_BASE - my_esp) mod 4) mod 4 in
       esp ← push_word (my_esp - padding) 0 junk;
       argvArrayPointer ← push_words (rev r.2) esp junk;
       push_words [argvArrayPointer; Z.of_nat (length argv); 0] argvArrayPointer junk) v =
     Ok (PHYS_BASE - Z.of_nat (length (stack_image argv)), set_mach m v) /\
    stacked (set_mach m v) P T A M p e (stack_image argv).
Proof.
  intros R Hl. rewrite stack_image_length in Hl. unfold stack_image, argv_address.
  destruct (push_strings_ok P T A M p e junk argv v [] R) as (m1 & E1 & R1); [simpl; lia|].
  rewrite app_nil_r in *. simpl length in E1. rewrite Z.sub_0_r in E1. set (S := strings_image argv) in *.
  set (n := stack_padding argv) in *. set (st := replicate n 0 ++ S).
  assert (Hst : Z.of_nat (length st) = Z.of_nat (length S) + Z.of_nat n) by (unfold st; rewrite length_app, length_replicate; lia).
  assert (R2 : stacked (set_mach m1 v) P T A M p e st).
  { unfold stacked, st in *. rewrite stack_page_pad by lia. exact R1. }
  destruct (push_word_ok _ P T A M p e st 0 junk R2) as (m3 & E3 & R3); [lia|]. change (u32 0) with 0 in *.
  destruct (push_words_ok P T A M p e junk (rev (string_addresses argv PHYS_BASE)) _ _ R3) as (m4 & E4 & R4).
  { rewrite length_rev, string_addresses_length, length_app. simpl. lia. }
  rewrite rev_involutive in E4, R4. set (st4 := words_image (string_addresses argv PHYS_BASE) ++ elem_bytes 0 ++ st) in *.
  assert (Hl4 : length st4 = (4 * length argv + 4 + length st)%nat).
  { unfold st4. rewrite !length_app, words_image_length, string_addresses_length. simpl. lia. }
  set (a := PHYS_BASE - Z.of_nat (length st4)) in *.
  destruct (push_words_ok P T A M p e junk [a; Z.of_nat (length argv); 0] _ _ R4) as (m5 & E5 & R5); [simpl length; lia|].
  change (rev [a; Z.of_nat (length argv); 0]) with [0; Z.of_nat (length argv); a] in E5, R5. fold a in E5.
  replace (PHYS_BASE - (_ + _ + 4 + 4 * Z.of_nat (length argv))) with a by (unfold a; lia).
  rewrite words_image_app, words_image_app. change (words_image [0]) with (elem_bytes 0). rewrite <- !app_assoc. fold st. fold st4.
  exists m5. split; [|exact R5]. bind_by (exact E1). cbv zeta. cbn [fst snd].
  replace (PHYS_BASE - (PHYS_BASE - Z.of_nat (length S))) with (Z.of_nat (length S)) by lia.
  replace ((4 - Z.of_nat (length S) mod 4) mod 4) with (Z.of_nat n).
  2: { unfold n, stack_padding. fold S. rewrite Z2Nat.id; [done|]. by apply Z.mod_pos_bound. }
  replace (PHYS_BASE - Z.of_nat (length S) - Z.of_nat n) with (PHYS_BASE - Z.of_nat (length st)) by lia.
  bind_by (exact E3). bind_by (exact E4). exact E5.
Qed.
(** ** Mapping the page *)

(** The frame [i] is mapped for the entry [e] of a page that is still zero. *)
Lemma map_zero_ok v P T A M i k p e :
  vm_inv v P T A M (Some i) -> frametable v !! i = Some (mk_frame true k (current v)) -> k <> NULL ->
  memory (mach v) !! k = Some zero_page -> procs v !! current v = Some p -> e ∈ spage_table p -> kpage_address e = NULL ->
  instructions e = STACK -> M !! (current v, upage_address e) = Some zero_page -> ~ pool_full (kernel_pool (mach v)) ->
  exists m' T', install_page (pagedir p) (upage_address e) k (writable e) (mach v) = Ok (true, m') /\
    vm_inv (mapped_vm v (current v) p e (set_kpage k) m' (swap_area v) (fsys v)) P T' A M None.
Proof.
  intros V Hi Hkn Hmem Hp He Hk0 Hins HM Hnf. pose proof (vi_proc _ _ _ _ _ _ V _ _ Hp) as Hpr.
  destruct (pr_dir _ _ _ _ _ _ _ Hpr) as [Hpd Hni]. destruct (pr_entry _ _ _ _ _ _ _ Hpr e He) as (bs0 & _ & Hok).
  pose proof (eo_page _ _ _ _ _ _ _ Hok) as [Hu Huo]. pose proof (vi_spaces _ _ _ _ _ _ V) as Hs.
  pose proof (vi_frame _ _ _ _ _ _ V i _ Hi) as Hfr. simpl in Hfr. rewrite decide_True in Hfr by done. destruct Hfr as [Hku _].
  destruct (frame_range v P T A M (Some i) k V Hku) as (Hkr & Hkm & Hram).
  assert (Habs : has PTE_P (pte (mach v) T (pagedir p) (upage_address e)) = false) by (by rewrite (eo_present _ _ _ _ _ _ _ Hok), Hk0).
  destruct (user_word_ok k (writable e) Hkr Hkm) as (_ & _ & Hadr & HwP & HwW & _ & _).
  destruct (set_page_run (mach v) P T (pagedir p) (upage_address e) k (writable e) Hs Hpd Hni Hu Huo Hkr Hkm Hram Habs)
    as [(m2 & T' & E2 & Hs2 & _ & [Au Ak Am (Ai & Ar & _)] & Hp2)|(_ & ? & _)]; [|done].
  exists m2, T'. split; [by rewrite (install_page_run (mach v) P T) by done|].
  apply (inv_mapped v P T T' A A M i k (current v) p e zero_page _ m2 (swap_area v) (fsys v) (user_word k (writable e))); try done.
  - simpl. by rewrite Hins.
  - intros _. unfold backing. simpl. by rewrite Hins.
  - simpl. by rewrite Hins.
  - rewrite Am; [done|]. destruct Hku as (j & Hj & -> & _). unfold page_at, PGSIZE. lia.
  - intros q Hq _. apply Am. destruct Hq as (j & Hj & -> & _). unfold page_at, PGSIZE. lia.
  - apply V.
  - split; [apply V|]. split; [apply same_files_refl|done].
Qed.
(** The part of [setup_stack] up to the pushes. *)
Lemma stack_mapped_ok v P T A M p junk :
  vm_inv v P T A M None -> frametable v <> [] -> lock_holder v = None -> procs v !! current v = Some p ->
  find_spinfo (spage_table p) (PHYS_BASE - PGSIZE) = None -> kpage_address junk = NULL -> memory_left v ->
  exists v' T' p' e, (forall B (c : Prelude.M (vm D) B), (_ ← lock_memory;
      e ← new_spinfo (mk_spinfo 0 NULL (file_offset junk) 0 true (PHYS_BASE - PGSIZE) (kpage_address junk) STACK (index_into_swap junk));
      kpage ← assign_page;
      v ← get;
      _ ← upd_entry (current v) (sp_id e) (set_kpage kpage);
      _ ← (if negb (kpage =? NULL) then
             p ← get_process (current v);
             success ← on_mach (install_page (pagedir p) (PHYS_BASE - PGSIZE) kpage true);
             if (success : bool) then mret tt
             else _ ← free_frame kpage; on_mach (palloc_free_page kpage)
           else mret tt); c) v = c v') /\
    stacked v' P T' A M p' e [] /\ lock_holder v' = Some (current v) /\ current v' = current v /\
    length (frametable v') = length (frametable v) /\ set_spage_table [] p' = set_spage_table [] p.
Proof.
  intros V Hne Hlk Hp Hfind Hjk [Hroom Hnf]. set (u := PHYS_BASE - PGSIZE) in *. set (v0 := set_lock_holder (Some (current v)) v).
  set (e0 := mk_spinfo 0 NULL (file_offset junk) 0 true u (kpage_address junk) STACK (index_into_swap junk)).
  destruct (new_spinfo_ok v0 P T A M None p e0 zero_page (inv_lock _ _ _ _ _ _ _ V) Hp) as (s & E1 & V1); try done.
  set (e := with_id (brk (fsys v0)) e0) in *. set (v1 := added_vm v0 p e s) in *. cbn [e0 upage_address] in V1.
  change (current v0) with (current v) in V1. set (M1 := <[(current v, u) := zero_page]> M) in *.
  set (p1 := set_spage_table (spage_table p ++ [e]) p).
  assert (Hp1 : procs v1 !! current v1 = Some p1) by (simpl; by rewrite lookup_insert_eq).
  destruct (assign_ok v1 P T A M1 V1 Hne) as [(i & k & v2 & E2 & Hkn & V2 & Mv & Hi & Hz)|(Hsf & Hff & _)].
  2: { exfalso. destruct Hroom as [(j & h & Hj & Hh)|(j & x & Hj & Hx)]; [by rewrite (Hff j h Hj) in Hh|by rewrite (Hsf j x Hj) in Hx]. }
  destruct (mv_procs _ _ Mv (current v1) p1 Hp1) as (p2 & Hp2 & (Hsame & _ & _ & Hkeep)).
  assert (He2 : e ∈ spage_table p2) by (apply Hkeep; [simpl; apply elem_of_app; right; by apply list_elem_of_singleton|done]).
  pose proof (mv_current _ _ Mv) as Ec. pose proof (mv_lock _ _ Mv) as El. simpl in Ec, El.
  change (current v1) with (current v) in Hi, Hp2. rewrite <- Ec in Hi, Hp2.
  destruct (map_zero_ok v2 P T A M1 i k p2 e V2 Hi Hkn Hz Hp2 He2) as (m3 & T' & E3 & V3); try done.
  { rewrite Ec. unfold M1. by rewrite lookup_insert_eq. } { intros Hf. apply Hnf. by apply (mv_kernel _ _ Mv). }
  change (upage_address e) with u in E3. change (writable e) with true in E3. set (v3 := mapped_vm _ _ _ _ _ _ _ _) in V3. set (p3 := set_spage_table (upd_spinfo (sp_id e) (set_kpage k) (spage_table p2)) p2).
  exists v3, T', p3, (set_kpage k e). split_and!.
  - intros B c. bind_by (unfold lock_memory; bind_by reflexivity; bind_by (apply assert_run; rewrite Hlk; by rewrite bool_decide_false); reflexivity).
    bind_by (exact E1). bind_by (exact E2). bind_by reflexivity.
    bind_by (unfold upd_entry; bind_by (unfold get_process; rewrite Hp2; reflexivity); reflexivity).
    rewrite (proj2 (Z.eqb_neq _ _) Hkn). cbn [negb].
    bind_by (bind_by (unfold get_process; simpl procs; rewrite lookup_insert_eq; reflexivity);
      bind_by (unfold on_mach; simpl mach; change (pagedir (set_spage_table _ p2)) with (pagedir p2); rewrite E3; reflexivity); reflexivity).
    done.
  - split; [|done]. constructor; try done.
    + assert (current v3 = current v) as -> by exact Ec. exact V3.
    + simpl. unfold Paging.procs2. by rewrite lookup_insert_eq.
    + apply (upd_spinfo_elem (spage_table p2) e (set_kpage k)); [apply (vi_proc _ _ _ _ _ _ V2 _ _ Hp2)|done|done|by left].
    + by rewrite lookup_insert_eq.
  - done.
  - done.
  - apply (mv_frames _ _ Mv).
  - exact Hsame.
Qed.

Lemma setup_stack_ok v P T A M p argv junk :
  vm_inv v P T A M None -> frametable v <> [] -> lock_holder v = None -> procs v !! current v = Some p ->
  find_spinfo (spage_table p) (PHYS_BASE - PGSIZE) = None -> kpage_address junk = NULL -> memory_left v ->
  (length (stack_image argv) <= 4096)%nat ->
  exists v' T' p', setup_stack argv junk v = Ok (PHYS_BASE - Z.of_nat (length (stack_image argv)), v') /\
    vm_inv v' P T' A (<[(current v, PHYS_BASE - 4096) := stack_page (stack_image argv)]> M) None /\
    lock_holder v' = None /\ current v' = current v /\ length (frametable v') = length (frametable v) /\
    procs v' !! current v = Some p' /\ set_spage_table [] p' = set_spage_table [] p.
Proof.
  intros V Hne Hlk Hp Hfind Hjk Hleft Hl.
  destruct (stack_mapped_ok v P T A M p junk V Hne Hlk Hp Hfind Hjk Hleft) as (v1 & T' & p1 & e & E1 & S1 & L1 & C1 & F1 & Hs).
  destruct (push_all_ok v1 P T' A M p1 e argv junk S1 Hl) as (m & E2 & [R _]).
  exists (set_lock_holder None (set_mach m v1)), T', p1. pose proof (re_inv _ _ _ _ _ _ _ _ R) as V'. pose proof (re_proc _ _ _ _ _ _ _ _ R) as Hp'.
  simpl in V', Hp'. rewrite C1 in V', Hp'. split_and!; try done; [|by apply inv_lock].
  unfold setup_stack. rewrite E1. clear E1. cbv zeta in E2 |- *. unfold mbind, M_bind in E2 |- *.
  destruct (push_strings argv PHYS_BASE junk v1) as [[r s1]|]; [|done]. destruct (push_word _ 0 junk s1) as [[esp s2]|]; [|done].
  destruct (push_words (rev r.2) esp junk s2) as [[a s3]|]; [|done]. rewrite E2. unfold unlock_memory.
  unfold mbind, M_bind. cbn [get]. rewrite assert_run; [done|]. simpl. rewrite C1, L1. by apply bool_decide_eq_true.
Qed.
End Stack.

(** ** What [main] is called with *)

(** The bytes [bs] are at address [a] of process [t]. *)
Definition mem_holds (M : gmap (Z * Z) (list Z)) (t a : Z) (bs : list Z) : Prop :=
  forall i b, bs !! i = Some b -> byte_at M t (a + Z.of_nat i) = Some b.
(** The stack of a C program at its start: a return address, [argc], [argv], an
    array of pointers to the strings of [argv] and a null pointer. *)
Definition main_sees (M : gmap (Z * Z) (list Z)) (t esp : Z) (argv : list (list Z)) : Prop :=
  esp mod 4 = 0 /\ exists a, mem_holds M t (esp + 4) (elem_bytes (Z.of_nat (length argv))) /\ mem_holds M t (esp + 8) (elem_bytes a) /\
    (forall i s, argv !! i = Some s ->
       exists q, 0 <= q < PHYS_BASE /\ mem_holds M t (a + 4 * Z.of_nat i) (elem_bytes q) /\ mem_holds M t q (s ++ [0])) /\
    mem_holds M t (a + 4 * Z.of_nat (length argv)) (elem_bytes 0).

Lemma mem_holds_slice M t a l1 l2 l3 : mem_holds M t a (l1 ++ l2 ++ l3) -> mem_holds M t (a + Z.of_nat (length l1)) l2.
Proof.
  intros Hm i b Hi. specialize (Hm (length l1 + i)%nat b). rewrite <- Z.add_assoc, <- Nat2Z.inj_add. apply Hm.
  rewrite lookup_app_r, Nat.add_comm, Nat.add_sub by lia. by rewrite lookup_app_l by (by eapply lookup_lt_Some).
Qed.
Lemma stack_holds M t st :
  (length st <= 4096)%nat -> mem_holds (<[(t, PHYS_BASE - 4096) := stack_page st]> M) t (PHYS_BASE - Z.of_nat (length st)) st.
Proof.
  intros Hl i b Hi. pose proof (lookup_lt_Some _ _ _ Hi) as Hil. set (a := PHYS_BASE - Z.of_nat (length st) + Z.of_nat i).
  assert (Ha : PHYS_BASE - 4096 <= a < PHYS_BASE) by (unfold a; lia). assert (HB : PHYS_BASE = 786432 * 4096) by done.
  unfold byte_at. rewrite pg_round_down_sub, pg_ofs_mod by (rewrite HB in Ha; lia). unfold PGSIZE.
  assert (a mod 4096 = a - (PHYS_BASE - 4096)) as -> by (rewrite HB in *; Z.to_euclidean_division_equations; lia).
  replace (a - (a - (PHYS_BASE - 4096))) with (PHYS_BASE - 4096) by lia. rewrite lookup_insert_eq. cbn [mbind option_bind].
  unfold stack_page. rewrite lookup_app_r; rewrite length_replicate; [|unfold a; lia].
  replace (_ - (4096 - length st))%nat with i by (unfold a; lia). done.
Qed.

Lemma words_image_at M t ws : forall a i w,
  mem_holds M t a (words_image ws) -> ws !! i = Some w -> mem_holds M t (a + 4 * Z.of_nat i) (elem_bytes (u32 w)).
Proof.
  intros a i w Hm Hi. rewrite <- (take_drop_middle ws i w Hi) in Hm. rewrite words_image_app in Hm.
  change (words_image (w :: drop (S i) ws)) with (elem_bytes (u32 w) ++ words_image (drop (S i) ws)) in Hm.
  apply mem_holds_slice in Hm. rewrite words_image_length, length_take in Hm. apply lookup_lt_Some in Hi.
  by replace (a + 4 * Z.of_nat i) with (a + Z.of_nat (4 * (i `min` length ws))) by lia.
Qed.
Lemma string_address_at argv : forall esp i s, argv !! i = Some s ->
  exists a l1 l2, string_addresses argv esp !! i = Some a /\ strings_image argv = l1 ++ (s ++ [0]) ++ l2 /\
    a = esp - Z.of_nat (length (strings_image argv)) + Z.of_nat (length l1).
Proof.
  induction argv as [|s0 argv IH]; intros esp i s Hi; [done|]. rewrite strings_image_cons. destruct i as [|i]; cbn [string_addresses].
  - injection Hi as ->. eexists _, (strings_image argv), []. split; [done|]. rewrite app_nil_r. split; [done|].
    rewrite !length_app. simpl. lia.
  - destruct (IH (esp - (Z.of_nat (length s0) + 1)) i s Hi) as (a & l1 & l2 & Ha & -> & ->). eexists _, l1, (l2 ++ s0 ++ [0]).
    split; [exact Ha|]. rewrite <- !app_assoc. split; [done|]. rewrite !length_app. simpl. lia.
Qed.

Lemma stack_image_seen M t argv :
  (length (stack_image argv) <= 4096)%nat ->
  main_sees (<[(t, PHYS_BASE - 4096) := stack_page (stack_image argv)]> M) t (PHYS_BASE - Z.of_nat (length (stack_image argv))) argv.
Proof.
  intros Hl. pose proof (stack_holds M t _ Hl) as Hm. set (M' := <[_ := _]> M) in *. rewrite stack_image_length in *.
  assert (HB : PHYS_BASE = 786432 * 4096) by done. set (n := length (strings_image argv)) in *.
  assert (Hmod : (4 * Z.of_nat (length argv + 4) + Z.of_nat (stack_padding argv) + Z.of_nat n) mod 4 = 0).
  { unfold stack_padding. fold n. rewrite Z2Nat.id by (by apply Z.mod_pos_bound). Z.to_euclidean_division_equations. lia. }
  set (esp := PHYS_BASE - Z.of_nat _) in *. set (ws := [0; Z.of_nat (length argv); argv_address argv] ++ string_addresses argv PHYS_BASE ++ [0]).
  assert (Hw : mem_holds M' t esp (words_image ws)).
  { intros i b Hi. apply Hm. unfold stack_image. by rewrite lookup_app_l by (by eapply lookup_lt_Some). }
  assert (Ea : argv_address argv = esp + 12) by (unfold argv_address, esp; fold n; lia).
  split; [unfold esp; rewrite HB; Z.to_euclidean_division_equations; lia|]. exists (argv_address argv). split_and!.
  - pose proof (words_image_at _ _ _ _ 1 _ Hw eq_refl) as H1. by rewrite u32_small in H1 by lia.
  - pose proof (words_image_at _ _ _ _ 2 _ Hw eq_refl) as H2. rewrite u32_small in H2; [done|]. unfold argv_address. fold n. lia.
  - intros i s Hi. destruct (string_address_at argv PHYS_BASE i s Hi) as (q & l1 & l2 & Hq & Hs & Eq). fold n in Eq.
    assert (Hn : n = (length l1 + (length s + 1) + length l2)%nat) by (unfold n; rewrite Hs, !length_app; simpl; lia).
    exists q. split; [lia|]. split.
    + assert (Hwi : ws !! (3 + i)%nat = Some q) by (unfold ws; simpl; rewrite lookup_app_l; [done|by eapply lookup_lt_Some]).
      pose proof (words_image_at _ _ _ _ _ _ Hw Hwi) as H1. rewrite u32_small in H1 by lia.
      by replace (argv_address argv + 4 * Z.of_nat i) with (esp + 4 * Z.of_nat (3 + i)) by lia.
    + assert (Hst : stack_image argv = (words_image ws ++ replicate (stack_padding argv) 0 ++ l1) ++ (s ++ [0]) ++ l2).
      { unfold stack_image. rewrite Hs, <- !app_assoc. done. }
      rewrite Hst in Hm. apply mem_holds_slice in Hm. rewrite !length_app, words_image_length, length_replicate in Hm.
      unfold ws in Hm. rewrite !length_app, string_addresses_length in Hm. simpl length in Hm.
      replace q with (esp + Z.of_nat (4 * (3 + (length argv + 1)) + (stack_padding argv + length l1))) by (unfold esp; lia). exact Hm.
  - assert (Hwi : ws !! (3 + length argv)%nat = Some 0).
    { unfold ws. simpl. rewrite lookup_app_r by (by rewrite string_addresses_length). by rewrite string_addresses_length, Nat.sub_diag. }
    pose proof (words_image_at _ _ _ _ _ _ Hw Hwi) as H1.
    by replace (argv_address argv + 4 * Z.of_nat (length argv)) with (esp + 4 * Z.of_nat (3 + length argv)) by lia.
Qed.
