(* ===== verification/LoadProps.v ===== *)
(** * Loading a program

    [load] as a whole: the new process has the segments of its executable and its
    arguments in memory, and no other process has lost a byte. *)

From S2P Require Import Prelude CString Block FsState File Directory FsSpec FsInv FsOps FsNames FsMount FsProps FsGrow Vaddr Bitmap Palloc Pagedir Spage Swap Frame Fault VmInv Clock Evict Paging PageFault UserMemory Loader LoadSteps LoadOk LoadStack.

(** The program headers of an executable, and what makes one that can run: the
    checks of [load] pass, headers and segments are in the file, and segments are
    on pages of their own below the first page of the stack. *)
Definition file_ehdr (data : list Z) : Elf32_Ehdr := ehdr_of_bytes (take 52 data).
Definition program_headers (data : list Z) : list Elf32_Phdr :=
  file_phdrs data (e_phoff (file_ehdr data)) (Z.to_nat (e_phnum (file_ehdr data))).
Record program_ok (data : list Z) : Prop := {
  pg_header : (52 <= length data)%nat /\ ehdr_ok (file_ehdr data) = true;
  pg_table : 0 <= e_phoff (file_ehdr data) /\ 0 <= e_phnum (file_ehdr data) /\
    e_phoff (file_ehdr data) + 32 * e_phnum (file_ehdr data) <= Z.of_nat (length data) < 2 ^ 31;
  pg_phdrs : Forall (phdr_fine data) (program_headers data);
  pg_apart : NoDup (all_pages (program_headers data)) /\ PHYS_BASE - PGSIZE ∉ all_pages (program_headers data);
}.

Section Loading.
Context `{BlockLaws D} `{KpageSearch} `{!KpageLaws}.
Implicit Types v : vm D.

(** ** The page directory *)

Lemma activate_ok m P T pd : spaces m P T -> pd ∈ P ->
  exists c, pagedir_activate pd m = Ok (tt, set_cr3 c m) /\ spaces (set_cr3 c m) P T.
Proof.
  intros Hs Hpd. destruct (pd_range _ _ _ _ Hs Hpd) as (Hr & Ho & Hn). exists (pd - PHYS_BASE). split.
  - unfold pagedir_activate. bind_by reflexivity. rewrite (proj2 (Z.eqb_neq _ _) Hn).
    bind_by (rewrite kernel_page_vtop by lia; reflexivity). done.
  - destruct Hs as [[]]. constructor; try done. unfold PHYS_BASE in *. simpl. lia.
Qed.

(** Two free pages of the kernel pool: the page directory and a page table. *)
Definition two_pages (m : machine) : Prop :=
  exists j1 j2, 0 <= j1 < bit_cnt (used_map (kernel_pool m)) /\ 0 <= j2 < bit_cnt (used_map (kernel_pool m)) /\ j1 <> j2 /\
    ~ Palloc.used (kernel_pool m) (page_at (kernel_pool m) j1) /\ ~ Palloc.used (kernel_pool m) (page_at (kernel_pool m) j2).

(** [v] with the current process [p] on machine [m]. *)
Definition dir_vm v (p : process) (m : machine) : vm D := set_procs (<[current v := p]> (procs v)) (set_mach m v).

Lemma load_dir_ok v P T A M p :
  vm_inv (set_procs (delete (current v) (procs v)) v) P T A M None -> procs v !! current v = Some p -> spage_table p = [] ->
  two_pages (mach v) ->
  exists pd m1 m, (forall B (c : Prelude.M (vm D) B) (k : vm D -> Prelude.M (vm D) B), (pd ← on_mach pagedir_create;
      v ← get;
      p ← get_process (current v);
      _ ← put_process (current v) (set_pagedir pd p);
      if pd =? NULL then c else _ ← on_mach (pagedir_activate pd); k v) v = k (set_mach m1 v) (dir_vm v (set_pagedir pd p) m)) /\
    vm_inv (dir_vm v (set_pagedir pd p) m) ({[pd]} ∪ P) T A M None /\ ~ pool_full (kernel_pool m).
Proof.
  intros V Hp Htab (j1 & j2 & Hj1 & Hj2 & Hj & F1 & F2). pose proof (vi_spaces _ _ _ _ _ _ V) as Hs. cbn [mach set_procs] in Hs.
  destruct (pagedir_create_run (mach v) P T Hs) as [(pd & m1 & E1 & Hn & Hnew & _ & Hs1 & Ap & Hus & Hpte)|[Hf _]]; [|by destruct F1; apply Hf].
  destruct (activate_ok m1 _ T pd Hs1) as (c & E2 & Hs2); [set_solver|]. set (m := set_cr3 c m1) in *.
  exists pd, m1, m. split; [|split].
  - intros B c0 k. bind_by (unfold on_mach; rewrite E1; reflexivity). bind_by reflexivity.
    bind_by (unfold get_process; cbn [procs current set_mach]; rewrite Hp; reflexivity). bind_by reflexivity.
    rewrite (proj2 (Z.eqb_neq _ _) Hn). bind_by (unfold on_mach; cbn [mach set_procs set_mach]; rewrite E2; reflexivity). done.
  - set (v1 := set_procs (<[current v := set_pagedir pd p]> (procs v)) v).
    apply (inv_new_process v1 P T A M (current v) (set_pagedir pd p) pd m); try done.
    + simpl. rewrite delete_insert_eq. exact V.
    + simpl. by rewrite lookup_insert_eq.
    + destruct Ap as [? ? ? (? & ? & Ec)]. by constructor.
  - destruct Ap as [_ (Eb & En & _) _ _]. intros Hf. unfold m in *. cbn [kernel_pool set_cr3] in *.
    pose proof (Hf j1 ltac:(lia)) as G1. pose proof (Hf j2 ltac:(lia)) as G2. unfold page_at in *. rewrite Eb in G1, G2.
    apply Hus in G1 as [G1|G1]; [|done]. apply Hus in G2 as [G2|G2]; [|done]. unfold PGSIZE in *. lia.
Qed.

(** ** The executable *)

(** Opening the executable and denying writes to it. *)
Lemma open_deny_ok v P T A M name sec data :
  vm_inv v P T A M None -> room (fsys v) -> Forall (fun x => 0 < x < 256) name -> a_dir A !! name = Some sec -> a_data A !! sec = Some data ->
  handles (all_own (fsys v)) < 2 ^ 31 - 5 ->
  exists f s1 s2, f <> NULL /\ a_open A !! f = None /\ filesys_open name (fsys v) = Ok (f, s1) /\ file_deny_write f s1 = Ok (tt, s2) /\
    vm_inv (set_fsys s2 v) P T (with_handle f (mk_handle sec 0 true) A) M None.
Proof.
  intros V Hroom Hname Hdir Hd Hh. destruct (filesys_open_ok (fsys v) A name (vi_fs _ _ _ _ _ _ V) Hroom Hname) as (f & s1 & A1 & E1 & Hsp & R1 & Hh1).
  simpl in Hsp. rewrite Hdir in Hsp. destruct Hsp as (f' & [=<-] & Hn & Hnew & ->).
  destruct R1 as [live S1]. set (A1 := with_handle f (mk_handle sec 0 false) A) in *.
  destruct (file_deny_sim s1 live A1 f (mk_handle sec 0 false) data S1) as (r & s2 & A2 & E2 & [-> ->] & R2).
  { unfold room. lia. } { simpl. by rewrite lookup_insert_eq. } { done. }
  assert (E2' : file_deny_write f s1 = Ok (tt, s2)).
  { unfold run, mbind, M_bind in E2. destruct (file_deny_write f s1) as [[[] s']|]; [|done]. unfold mret, M_ret in E2. by injection E2 as ->. }
  exists f, s1, s2. split_and!; [done|done|exact E1|exact E2'|].
  unfold A1, with_handle in R2. simpl in R2. rewrite insert_insert_eq in R2. fold (with_handle f (mk_handle sec 0 true) A) in R2.
  apply (inv_text v P T A); try done.
  - intros t e _. apply mapped_text. intros h bs Hh' Hdn Hbs. exists h. split_and!; try done. simpl. rewrite lookup_insert_ne; [done|]. intros ->. congruence.
  - assert (Eo : run (Open name) (fsys v) = Ok (Number f, s1)) by (unfold run; by bind_by (exact E1)).
    apply grows_run in Eo. apply grows_file_deny in E2'. lia.
Qed.

Lemma read_header_ok v P T A M f sec data :
  vm_inv v P T A M None -> a_open A !! f = Some (mk_handle sec 0 true) -> a_data A !! sec = Some data -> (52 <= length data)%nat ->
  exists s A' h, file_read f sizeof_ehdr (fsys v) = Ok ((52, take 52 data), s) /\ vm_inv (set_fsys s v) P T A' M None /\
    a_open A' !! f = Some h /\ h_file h = sec /\ h_deny h = true /\ same_files A A' /\ a_dir A' = a_dir A.
Proof.
  intros V Hh Hd Hl. destruct (vi_fs _ _ _ _ _ _ V) as [live S].
  destruct (file_read_sim (fsys v) live A f _ data sizeof_ehdr S Hh Hd) as (r & s & A' & E & [-> ->] & R & B & _).
  cbn [h_pos h_file h_deny] in *. assert (Hmv : moved data sizeof_ehdr 0 = 52) by (unfold moved, sizeof_ehdr; lia).
  rewrite Hmv in *. change (Z.to_nat 52) with 52%nat in E. change (drop (Z.to_nat 0) data) with data in E.
  pose proof (same_files_move A f _ (0 + 52) Hh eq_refl) as Hsf. cbn [h_file h_deny] in Hsf.
  eexists s, _, _. split_and!; [|by apply (inv_files v P T A)|simpl; by rewrite lookup_insert_eq|done|done|done|done].
  unfold run, mbind, M_bind in E. destruct (file_read f sizeof_ehdr (fsys v)) as [[[n b] s']|]; [|done].
  unfold mret, M_ret in E. simpl in E. by injection E as -> -> ->.
Qed.

(** A free frame or a free slot of swap. *)
Definition frame_left v : Prop :=
  (exists i f, frametable v !! i = Some f /\ isfilled f = false) \/
  (exists i x, swaptable (swap_area v) !! i = Some x /\ slot_filled x = false).

(** [load] from the open file on. *)
Definition load_rest (argv : list (list Z)) (file : Z) (junk : spinfo) : Prelude.M (vm D) (option (Z * Z)) :=
  r ← on_fsys (file_read file sizeof_ehdr);
  let ehdr := ehdr_of_bytes r.2 in
  if negb (r.1 =? sizeof_ehdr) || negb (ehdr_ok ehdr) then mret None
  else
    ok ← phdr_loop (Z.to_nat (e_phnum ehdr)) file (s32 (e_phoff ehdr)) junk;
    if (ok : bool) then esp ← setup_stack argv junk; mret (Some (e_entry ehdr, esp)) else mret None.

Lemma load_rest_ok v P T A M p argv file sec data junk :
  vm_inv v P T A M None -> lock_holder v = None -> frametable v <> [] -> procs v !! current v = Some p -> spage_table p = [] ->
  a_open A !! file = Some (mk_handle sec 0 true) -> a_data A !! sec = Some data -> program_ok data ->
  frame_left v -> ~ pool_full (kernel_pool (mach v)) -> kpage_address junk = NULL -> (length (stack_image argv) <= 4096)%nat ->
  exists v' T' A' p', load_rest argv file junk v = Ok (Some (e_entry (file_ehdr data), PHYS_BASE - Z.of_nat (length (stack_image argv))), v') /\
    vm_inv v' P T' A' (<[(current v, PHYS_BASE - 4096) := stack_page (stack_image argv)]>
      (put_segments data (current v) M (program_headers data))) None /\
    lock_holder v' = None /\ current v' = current v /\ same_files A A' /\
    procs v' !! current v = Some p' /\ set_spage_table [] p' = set_spage_table [] p.
Proof.
  intros V Hlk Hne Hp Htab Hh Hd Hprog Hleft Hnf Hjk Hl. destruct Hprog as [[Hlen Hehdr] (Ho & Hn & Hsz) Hphs [Hnd Hst]].
  destruct (read_header_ok v P T A M file sec data V Hh Hd Hlen) as (s & A1 & h & E1 & V1 & Hh1 & Eh & Edn & F1 & _).
  assert (Hd1 : a_data A1 !! h_file h = Some data) by (by rewrite Eh, (proj1 F1)).
  unfold program_headers in *. set (eh := file_ehdr data) in *. set (n := Z.to_nat (e_phnum eh)) in *.
  destruct (phdr_loop_ok P T file data junk n (set_fsys s v) A1 M p h (e_phoff eh) V1 Hlk Hp Hh1 Edn Hd1)
    as (v2 & A2 & p2 & E2 & V2 & F2 & G2); try done; try lia.
  { intros u _. by rewrite Htab. }
  apply grown_files in G2. pose proof G2 as [Gc Gl Gf Gm Gs Gp (l & El & Eu)].
  destruct (setup_stack_ok v2 P T A2 (put_segments data (current v) M (file_phdrs data (e_phoff eh) n)) p2 argv junk)
    as (v3 & T3 & p3 & E3 & V3 & L3 & C3 & _ & Hp3 & Hs3); rewrite ?Gc, ?Gf; try done; try congruence.
  { by rewrite Gp, lookup_insert_eq. }
  { apply (grown_find _ _ _ _ _ _ G2); [by rewrite Htab|done]. }
  { split; [|by rewrite Gm]. unfold frame_left in Hleft. by rewrite Gf, Gs. }
  rewrite Gc in *. exists v3, T3, A2, p3. split_and!; try done; [|by eapply same_files_trans|].
  - unfold load_rest. bind_by (unfold on_fsys; rewrite E1; reflexivity). cbn [fst snd]. cbv zeta.
    fold (file_ehdr data). fold eh. rewrite Hehdr. change (negb (52 =? sizeof_ehdr) || negb true) with false. cbv iota.
    rewrite s32_small by lia. fold n. bind_by (exact E2). cbv iota. by bind_by (exact E3).
  - rewrite Hs3, El. by destruct p.
Qed.

Lemma words_chars ds fuel : forall s, Forall is_char s -> Forall (Forall is_char) (words_from fuel ds s).
Proof.
  induction fuel as [|fuel IH]; intros s Hs; cbn [words_from]; [constructor|]. set (t := drop _ s).
  assert (Ht : Forall is_char t) by (by apply Forall_drop). destruct t as [|b t]; [constructor|].
  constructor; [by apply Forall_take|]. apply IH. by apply Forall_drop.
Qed.

Lemma load_ok v P T A M p line name args sec data junk :
  vm_inv (set_procs (delete (current v) (procs v)) v) P T A M None -> procs v !! current v = Some p -> spage_table p = [] ->
  lock_holder v = None -> frametable v <> [] -> two_pages (mach v) -> frame_left v -> handles (all_own (fsys v)) < 2 ^ 31 - 5 ->
  kpage_address junk = NULL -> Forall is_char line -> (length line <= 3977)%nat -> words [32] line = name :: args ->
  (length (name :: args) <= MAXARGS)%nat -> a_dir A !! name = Some sec -> a_data A !! sec = Some data -> program_ok data ->
  exists v' pd f T' A', load line junk v =
      Ok (Some (e_entry (file_ehdr data), PHYS_BASE - Z.of_nat (length (stack_image (name :: args)))), v') /\
    vm_inv v' ({[pd]} ∪ P) T' A' (<[(current v, PHYS_BASE - 4096) := stack_page (stack_image (name :: args))]>
      (put_segments data (current v) M (program_headers data))) None /\
    lock_holder v' = None /\ current v' = current v /\ a_open A !! f = None /\ same_files (with_handle f (mk_handle sec 0 true) A) A'.
Proof.
  intros V Hp Htab Hlk Hne H2p Hfl Hh Hjk Hch Hlen Hw Hwn Hdir Hd Hprog.
  destruct (load_dir_ok v P T A M p V Hp Htab H2p) as (pd & m1 & m & E1 & V1 & Hnf). set (v1 := dir_vm _ _ _) in *.
  assert (Hname : Forall (fun x => 0 < x < 256) name).
  { pose proof (words_chars [32] (S (length line)) line Hch) as Hc. fold (words [32] line) in Hc. rewrite Hw in Hc. by apply Forall_cons in Hc as [Hc _]. }
  destruct (open_deny_ok v1 _ T A M name sec data V1) as (f & s1 & s2 & Hn & Hnew & E2 & E3 & V2);
    [unfold room; simpl; lia|exact Hname|exact Hdir|exact Hd|exact Hh|].
  set (A2 := with_handle f (mk_handle sec 0 true) A) in *. assert (Hh2 : a_open A2 !! f = Some (mk_handle sec 0 true)) by (simpl; by rewrite lookup_insert_eq).
  set (p2 := mk_process pd (spage_table p) (personal_esp p) f (open_files p) (index_fd p) (status_number p)).
  set (v2 := set_fsys s2 v1) in *. set (v3 := set_procs (<[current v2 := p2]> (procs v2)) v2).
  assert (V3 : vm_inv v3 ({[pd]} ∪ P) T A2 M None).
  { apply (inv_process_same v2 _ T A2 M None (current v2) (set_pagedir pd p)); [exact V2|simpl; by rewrite lookup_insert_eq|done|done]. }
  assert (Hfit : (length (stack_image (name :: args)) <= 4096)%nat) by (rewrite <- Hw; apply stack_image_fits; [done|by rewrite Hw]).
  destruct (load_rest_ok v3 _ T A2 M p2 (name :: args) f sec data junk V3) as (v' & T' & A' & p' & E & V' & L' & C' & F' & _ & _);
    [exact Hlk|exact Hne|simpl; by rewrite lookup_insert_eq|exact Htab|exact Hh2|exact Hd|exact Hprog|exact Hfl|exact Hnf|exact Hjk|exact Hfit|].
  exists v', pd, f, T', A'. split; [|split; [exact V'|split; [exact L'|split; [exact C'|by split]]]].
  unfold load. rewrite E1. clear E1.
  bind_by (unfold lift; rewrite split_line_ok, Hw, bool_decide_true by done; reflexivity). cbv beta iota.
  bind_by (unfold on_fsys; change (fsys v1) with (fsys v) in *; cbn [fsys dir_vm set_procs set_mach]; rewrite E2; reflexivity).
  rewrite (proj2 (Z.eqb_neq _ _) Hn).
  bind_by (unfold get_process, v1, dir_vm; cbn [procs set_fsys set_procs set_mach current]; rewrite lookup_insert_eq; reflexivity).
  bind_by reflexivity. bind_by (unfold on_fsys; cbn [fsys set_fsys set_procs]; rewrite E3; reflexivity).
  exact E.
Qed.
End Loading.

(** ** A program on disk *)

(** An executable for the entry point 0x8048054: four bytes of the file, and four
    more of zeros in memory. *)
Definition demo_elf : list Z :=
  [127; 69; 76; 70; 1; 1; 1; 0; 0; 0; 0; 0; 0; 0; 0; 0; 2; 0; 3; 0] ++ words_image [1; 0x8048054; 52; 0; 0] ++
  [52; 0; 32; 0; 1; 0; 0; 0; 0; 0; 0; 0] ++ words_image [1; 84; 0x8048054; 0; 4; 8; 7; 4096] ++ [205; 48; 235; 254].
Definition program_created : fs ram_disk := state_of (run (Create [97] 88 entry_junk) formatted) formatted.
Definition program_opened : fs ram_disk := state_of (run (Open [97]) program_created) formatted.
Definition program_file : Z := match answer_of (run (Open [97]) program_created) with Some (Number f) => f | _ => NULL end.
Definition program_fs : fs ram_disk := state_of (run (Write program_file demo_elf 88) program_opened) formatted.

Lemma program_states : state_of (run (Create [97] 88 entry_junk) formatted) formatted = program_created /\
  state_of (run (Open [97]) program_created) formatted = program_opened /\
  state_of (run (Write program_file demo_elf 88) program_opened) formatted = program_fs.
Proof. split; [unfold program_created; reflexivity|]. split; [unfold program_opened|unfold program_fs]; reflexivity. Qed.
Lemma program_rooms : room program_created /\ room program_opened.
Proof. split; vm_compute; reflexivity. Qed.
#[local] Opaque formatted program_created program_opened program_fs program_file demo_swap.
Lemma demo_step s A c r :
  refines s A -> room s -> call_ok A c -> answer_of (run c s) = Some r ->
  exists A', spec A c r A' /\ refines (state_of (run c s) formatted) A'.
Proof.
  intros R Hr Hc Ha. destruct (run_refines s A c R Hr Hc) as (r' & s' & A' & E & Sp & R'). rewrite E in *. injection Ha as <-.
  exists A'. split; assumption.
Qed.
(** A file that is created, opened and filled. *)
Lemma filled_file A1 A2 A3 name n junk f buf :
  spec empty_afs (Create name n junk) (Answer true) A1 -> spec A1 (Open name) (Number f) A2 ->
  spec A2 (Write f buf n) (Number n) A3 -> n = Z.of_nat (length buf) ->
  exists sec, a_dir A3 !! name = Some sec /\ a_data A3 !! sec = Some buf.
Proof.
  intros Hc Ho (h & bs & Hh & Hbs & Hn & EA) Hl. injection Hn as Hn. rewrite <- Hn in EA.
  destruct Hc as [[? _]|(sec & _ & _ & _ & _ & ->)]; [done|].
  unfold spec in Ho. simpl in Ho. rewrite lookup_insert_eq in Ho. destruct Ho as (f' & [=<-] & _ & _ & ->).
  simpl in Hh. rewrite lookup_insert_eq in Hh. injection Hh as <-. simpl in Hbs. rewrite lookup_insert_eq in Hbs. injection Hbs as <-.
  exists sec. rewrite EA. simpl. rewrite !lookup_insert_eq. split; [done|]. f_equal.
  unfold overwrite. simpl. rewrite take_ge by lia. rewrite drop_ge; [by rewrite app_nil_r|]. rewrite length_replicate. lia.
Qed.
Lemma opened_file A1 A2 name f : is_Some (a_dir A1 !! name) -> spec A1 (Open name) (Number f) A2 -> is_Some (a_open A2 !! f).
Proof. unfold spec. intros [sec ->] (f' & [=<-] & _ & _ & ->). simpl. rewrite lookup_insert_eq. by eexists. Qed.
Lemma created_file A name n junk A1 : spec A (Create name n junk) (Answer true) A1 -> is_Some (a_dir A1 !! name).
Proof. intros [[? _]|(sec & _ & _ & _ & _ & ->)]; [done|]. simpl. rewrite lookup_insert_eq. by eexists. Qed.

(** No file denies writes. *)
Definition undenied (A : afs) : Prop := forall f h, a_open A !! f = Some h -> h_deny h = false.
Lemma undenied_insert A f h : undenied A -> h_deny h = false -> undenied (with_handle f h A).
Proof. intros Hu Hh g k Hg. simpl in Hg. apply lookup_insert_Some in Hg as [[_ <-]|[_ Hg]]; [exact Hh|exact (Hu g k Hg)]. Qed.
Lemma undenied_create A name n junk r A' : spec A (Create name n junk) r A' -> undenied A -> undenied A'.
Proof. intros [[_ ->]|(sec & _ & _ & _ & _ & ->)] Hu; exact Hu. Qed.
Lemma undenied_open A name r A' : spec A (Open name) r A' -> undenied A -> undenied A'.
Proof.
  unfold spec. destruct (a_dir A !! name); [|by intros [_ ->]]. intros (f & _ & _ & _ & ->) Hu. by apply undenied_insert.
Qed.
Lemma undenied_write A f buf n r A' : spec A (Write f buf n) r A' -> undenied A -> undenied A'.
Proof. intros (h & bs & Hh & _ & _ & ->) Hu. apply undenied_insert; [exact Hu|exact (Hu f h Hh)]. Qed.

Lemma program_fs_refines : exists A sec, refines program_fs A /\ a_dir A !! [97] = Some sec /\ a_data A !! sec = Some demo_elf /\ undenied A.
Proof.
  assert (Hc : call_ok empty_afs (Create [97] 88 entry_junk)) by (split; [by repeat constructor|done]).
  assert (Hname : Forall (fun x => 0 < x < 256) [97]) by (by repeat constructor). destruct program_rooms as [Hr1 Hr2].
  destruct program_states as (Es1 & Es2 & Es3).
  destruct (demo_step formatted empty_afs (Create [97] 88 entry_junk) (Answer true) formatted_refines formatted_room)
    as (A1 & Sp1 & R1); [exact Hc|vm_compute; reflexivity|]. rewrite Es1 in R1.
  destruct (demo_step program_created A1 (Open [97]) (Number program_file) R1 Hr1) as (A2 & Sp2 & R2); [exact Hname|vm_compute; reflexivity|].
  rewrite Es2 in R2. pose proof (opened_file _ _ _ _ (created_file _ _ _ _ _ Sp1) Sp2) as Ho.
  destruct (demo_step program_opened A2 (Write program_file demo_elf 88) (Number 88) R2 Hr2) as (A3 & Sp3 & R3);
    [split; [exact Ho|vm_compute; congruence]|vm_compute; reflexivity|]. rewrite Es3 in R3.
  destruct (filled_file A1 A2 A3 [97] 88 entry_junk program_file demo_elf Sp1 Sp2 Sp3) as (sec & Hd & Hb); [reflexivity|].
  exists A3, sec. split; [exact R3|]. split; [exact Hd|]. split; [exact Hb|].
  apply (undenied_write _ _ _ _ _ _ Sp3), (undenied_open _ _ _ _ Sp2), (undenied_create _ _ _ _ _ _ Sp1).
  intros f h Hf. cbn [a_open empty_afs] in Hf. rewrite lookup_empty in Hf. discriminate Hf.
Qed.

Definition loader_process : process := mk_process NULL [] 0 NULL [] 2 (-1).
Definition loader_vm : vm ram_disk :=
  mk_vm demo_memory [mk_frame false 0 0; mk_frame false 0 0] 0 0 demo_swap {[ 1 := loader_process ]} 1 None program_fs.

Lemma loader_vm_ok A : refines program_fs A -> vm_inv (set_procs (delete 1 (procs loader_vm)) loader_vm) paging_dirs ∅ A ∅ None.
Proof.
  intros R. assert (Hno : forall t p, delete 1 (procs loader_vm) !! t <> Some p).
  { intros t p [Hne Hp]%lookup_delete_Some. cbn [procs loader_vm] in Hp. apply lookup_singleton_Some in Hp as [E _]. apply Hne. exact E. }
  assert (Hat : forall t e, ~ entry_at (delete 1 (procs loader_vm)) t e) by (intros t e (p & Hp & _); exact (Hno t p Hp)).
  constructor; cbn [procs set_procs mach loader_vm swap_area fsys frametable clock_hand].
  - exact demo_memory_ok.
  - split; [exact demo_swap_ok|reflexivity].
  - exact R.
  - intros t p Hp. destruct (Hno t p Hp).
  - intros t1 t2 p1 p2 Hp. destruct (Hno t1 p1 Hp).
  - intros t1 t2 e1 e2 He. destruct (Hat t1 e1 He).
  - intros t1 t2 e1 e2 He. destruct (Hat t1 e1 He).
  - intros t u [b Hb]. rewrite lookup_empty in Hb. discriminate Hb.
  - intros [|[|i]] f E; simpl in E; simplify_eq; split; [reflexivity|discriminate|reflexivity|discriminate].
  - intros t e He. destruct (Hat t e He).
  - intros [|[|i]] j f g E; simpl in E; simplify_eq; intros _ E; discriminate E.
  - intros q (i & Hi & _ & Hb). exfalso. change (bit_cnt (used_map (user_pool demo_memory))) with 4 in Hi.
    assert (i = 0 \/ i = 1 \/ i = 2 \/ i = 3) as [->|[->|[->| ->]]] by lia; vm_compute in Hb; discriminate Hb.
  - split; vm_compute; congruence.
  - vm_compute. congruence.
  - split; [lia|left; reflexivity].
Qed.

Lemma loader_two_pages : two_pages demo_memory.
Proof.
  exists 2, 3. change (bit_cnt (used_map (kernel_pool demo_memory))) with 4. split; [lia|]. split; [lia|]. split; [lia|].
  split; intros (i & Hi & E & Hb); unfold page_at, PGSIZE in E; cbn [base kernel_pool demo_memory] in E.
  - assert (i = 2) as -> by lia. vm_compute in Hb. discriminate Hb.
  - assert (i = 3) as -> by lia. vm_compute in Hb. discriminate Hb.
Qed.

Lemma demo_elf_ok : program_ok demo_elf.
Proof.
  assert (Hph : program_headers demo_elf = [mk_phdr 1 84 0x8048054 0 4 8 7 4096]) by (vm_compute; reflexivity).
  constructor; rewrite ?Hph.
  - split; [vm_compute; lia|vm_compute; reflexivity].
  - vm_compute. repeat split; congruence.
  - constructor; [|constructor]. repeat split; try (vm_compute; congruence). right. vm_compute. congruence.
  - change (all_pages [mk_phdr 1 84 0x8048054 0 4 8 7 4096]) with [0x8048000]. split; [apply NoDup_singleton|].
    intros E%list_elem_of_singleton. discriminate E.
Qed.

(** ** Theorems *)


