(* ===== verification/Syscall.v ===== *)
(** * System calls: [userprog/syscall.c]

    A user process makes a system call with its number and arguments on its
    stack.  The handler checks the first byte of every pointer, reads arguments
    and buffers with ordinary loads and stores, whose page faults [Fault] serves,
    and calls the file system with [syscall_lock] held.

    The bytes of a string or buffer argument are moved before, or after, the call
    of the file system that uses them, not in the middle of it.  Kernel memory is
    not part of the state: an access above [PHYS_BASE] traps. *)

From S2P Require Import Prelude Block FsState Inode File Directory Vaddr Bitmap Palloc Pagedir Spage Swap Frame Fault UserMemory Loader.

Definition MAX_FILES : Z := 128.
Definition STDIN_FILENO : Z := 0.
Definition STDOUT_FILENO : Z := 1.

Definition SYS_HALT : Z := 0.
Definition SYS_EXIT : Z := 1.
Definition SYS_EXEC : Z := 2.
Definition SYS_WAIT : Z := 3.
Definition SYS_CREATE : Z := 4.
Definition SYS_REMOVE : Z := 5.
Definition SYS_OPEN : Z := 6.
Definition SYS_FILESIZE : Z := 7.
Definition SYS_READ : Z := 8.
Definition SYS_WRITE : Z := 9.
Definition SYS_SEEK : Z := 10.
Definition SYS_TELL : Z := 11.
Definition SYS_CLOSE : Z := 12.

(** ** File descriptors *)

(** The loop of [assign_fd]; after the last slot it goes on with slot 3.  It does
    not end when no slot is free. *)
Fixpoint assign_fd_loop (fuel : nat) (new_file : Z) (files : list Z) (i : Z) : res (list Z * option Z) :=
  match fuel with
  | O => Err OutOfFuel
  | S fuel =>
      if i <? MAX_FILES then
        f ← of_option Trap (files !! Z.to_nat i);
        if f =? NULL then Ok (<[Z.to_nat i := new_file]> files, Some i)
        else assign_fd_loop fuel new_file files ((if i =? MAX_FILES - 1 then 2 else i) + 1)
      else Ok (files, None)
  end.
Definition fd_fuel : nat := 256.

Fixpoint find_fd_loop (files : list Z) (i target : Z) : Z :=
  match files with
  | [] => -1
  | f :: files => if f =? target then i else find_fd_loop files (i + 1) target
  end.
Definition find_fd (files : list Z) (target : Z) : Z := find_fd_loop (drop 2 files) 2 target.

(** ** State *)

(** Memory and files; the holder of [syscall_lock]; the exit status in the
    [status_holder] of each thread whose parent still has one; what the console
    has printed; the keys that will be pressed. *)
Record sys (D : Type) := mk_sys {
  sys_vm : vm D; syscall_lock : option Z; statuses : gmap Z Z; console : list Z; keyboard : list Z;
}.
Arguments mk_sys {D}. Arguments sys_vm {D}. Arguments syscall_lock {D}. Arguments statuses {D}.
Arguments console {D}. Arguments keyboard {D}.

(** What the handler does to the thread: it returns, with a value for [eax]; the
    machine is off; the thread has ended; or it goes on in [process_execute] or
    [process_wait], which [Thread] models. *)
Inductive sys_outcome :=
  | Return (eax : option Z)
  | PowerOff
  | Ended
  | Executing (cmd_line : list Z)
  | Waiting (tid : Z).

(** A call that the thread may not come back from: [None] if it has ended. *)
Abbreviation X S A := (M S (option A)).
Definition xret {S A} (a : A) : X S A := mret (Some a).
Definition xbind {S A B} (m : X S A) (k : A -> X S B) : X S B :=
  o ← m; match o with Some a => k a | None => mret None end.
Definition xlift {S A} (m : M S A) : X S A := a ← m; xret a.
Notation "x ⇐ m ; k" := (xbind m (fun x => k)) (at level 20, m at level 100, k at level 200, right associativity).

Section Operations.
Context {D : Type} `{BlockOperations D} `{KpageSearch}.

Definition set_sys_vm v (s : sys D) : sys D := mk_sys v (syscall_lock s) (statuses s) (console s) (keyboard s).
Definition set_syscall_lock l (s : sys D) : sys D := mk_sys (sys_vm s) l (statuses s) (console s) (keyboard s).
Definition set_statuses m (s : sys D) : sys D := mk_sys (sys_vm s) (syscall_lock s) m (console s) (keyboard s).
Definition set_console c (s : sys D) : sys D := mk_sys (sys_vm s) (syscall_lock s) (statuses s) c (keyboard s).
Definition set_keyboard k (s : sys D) : sys D := mk_sys (sys_vm s) (syscall_lock s) (statuses s) (console s) k.
Definition on_vm {A} (m : M (vm D) A) : M (sys D) A := fun s =>
  match m (sys_vm s) with Ok (a, v) => Ok (a, set_sys_vm v s) | Err e => Err e end.
Definition this_process : M (sys D) process := s ← get; on_vm (get_process (current (sys_vm s))).
Definition set_this_process (p : process) : M (sys D) unit := s ← get; on_vm (put_process (current (sys_vm s)) p).

Definition set_open_files fs (p : process) : process :=
  mk_process (pagedir p) (spage_table p) (personal_esp p) (code_file p) fs (index_fd p) (status_number p).
Definition set_index_fd i (p : process) : process :=
  mk_process (pagedir p) (spage_table p) (personal_esp p) (code_file p) (open_files p) i (status_number p).
Definition set_personal_esp e (p : process) : process :=
  mk_process (pagedir p) (spage_table p) e (code_file p) (open_files p) (index_fd p) (status_number p).
Definition set_status_number n (p : process) : process :=
  mk_process (pagedir p) (spage_table p) (personal_esp p) (code_file p) (open_files p) (index_fd p) n.

(** A lock another thread holds makes the thread wait; the step starts when it
    gets the lock. *)
Definition syscall_acquire : M (sys D) unit :=
  s ← get;
  _ ← assert (negb (bool_decide (syscall_lock s = Some (current (sys_vm s)))));
  modify (set_syscall_lock (Some (current (sys_vm s)))).
Definition syscall_release : M (sys D) unit :=
  s ← get;
  _ ← assert (bool_decide (syscall_lock s = Some (current (sys_vm s))));
  modify (set_syscall_lock None).

(** ** Accesses of the kernel to user memory *)

Definition kernel_load (va : Z) (junk : spinfo) : M (vm D) (option Z) :=
  r ← mem_access (kernel_frame false) va false junk;
  match r with
  | Some k => bs ← load_page k; b ← lift (of_option Trap (bs !! Z.to_nat (pg_ofs va))); mret (Some b)
  | None => mret None
  end.
Definition get_byte (va : Z) (junk : spinfo) : X (sys D) Z :=
  if is_user_vaddr va then on_vm (kernel_load va junk) else fail Trap.
Definition put_byte (va b : Z) (junk : spinfo) : X (sys D) unit :=
  if is_user_vaddr va then ok ← on_vm (kernel_store va b junk); mret (if (ok : bool) then Some tt else None) else fail Trap.

Fixpoint get_bytes (n : nat) (va : Z) (junk : spinfo) : X (sys D) (list Z) :=
  match n with
  | O => xret []
  | S n => b ⇐ get_byte va junk; bs ⇐ get_bytes n (va + 1) junk; xret (b :: bs)
  end.
Fixpoint put_bytes (va : Z) (bytes : list Z) (junk : spinfo) : X (sys D) unit :=
  match bytes with
  | [] => xret tt
  | b :: bytes => _ ⇐ put_byte va b junk; put_bytes (va + 1) bytes junk
  end.
Definition get_word (va : Z) (junk : spinfo) : X (sys D) Z := bs ⇐ get_bytes 4 va junk; xret (elem_of_bytes bs).
(** A string is no longer than the pages of the process, and one page of zeros
    that makes the stack grow. *)
Fixpoint get_string_loop (fuel : nat) (va : Z) (junk : spinfo) : X (sys D) (list Z) :=
  match fuel with
  | O => fail OutOfFuel
  | S fuel =>
      b ⇐ get_byte va junk;
      if b =? 0 then xret [] else bs ⇐ get_string_loop fuel (va + 1) junk; xret (b :: bs)
  end.
Definition get_string (va : Z) (junk : spinfo) : X (sys D) (list Z) :=
  p ← this_process; get_string_loop (4096 * (2 + length (spage_table p))) va junk.

(** ** Handlers *)

Definition halt_h : M (sys D) sys_outcome := mret PowerOff.

Definition exit_h (status : Z) : M (sys D) unit :=
  s ← get;
  let t := current (sys_vm s) in
  _ ← match statuses s !! t with Some _ => modify (set_statuses (<[t := status]> (statuses s))) | None => mret tt end;
  p ← this_process;
  _ ← set_this_process (set_status_number status p);
  on_vm thread_exit.

Definition check_pointer (pointer : Z) : X (sys D) unit :=
  p ← this_process;
  page ← (if is_user_vaddr pointer then on_vm (on_mach (pagedir_get_page (pagedir p) pointer)) else mret NULL);
  if page =? NULL then
    let stack_access := is_stack_access pointer (personal_esp p) in
    _ ← on_vm lock_memory;
    match find_spinfo (spage_table p) (pg_round_down pointer) with
    | None =>
        if negb stack_access then _ ← on_vm unlock_memory; _ ← exit_h (-1); mret None
        else _ ← on_vm unlock_memory; xret tt
    | Some _ => _ ← on_vm unlock_memory; xret tt
    end
  else xret tt.

Definition find_open_file (fd : Z) : M (sys D) Z :=
  if (fd <? 0) || (MAX_FILES <=? fd) then mret NULL
  else p ← this_process; lift (of_option Trap (open_files p !! Z.to_nat fd)).

Definition assign_fd (new_file : Z) : M (sys D) unit :=
  p ← this_process;
  r ← lift (assign_fd_loop fd_fuel new_file (open_files p) (index_fd p));
  match r with
  | (files, Some i) => set_this_process (set_index_fd i (set_open_files files p))
  | (_, None) => mret tt
  end.

(** [process_execute] up to the new thread; [exec_return] is the rest of [exec_h]. *)
Definition exec_h (cmd_line : Z) (junk : spinfo) : X (sys D) (list Z) :=
  _ ⇐ check_pointer cmd_line;
  _ ← syscall_acquire;
  line ⇐ get_string cmd_line junk;
  if 4096 - (19 + Z.of_nat MAXARGS * 4) <? Z.of_nat (length line) then fail (Panicked "Not enough space for arguments")
  else xret line.
Definition exec_return (tid : Z) : M (sys D) sys_outcome := _ ← syscall_release; mret (Return (Some tid)).

Definition wait_h (tid : Z) : M (sys D) sys_outcome := mret (Waiting tid).

Definition create_h (file initial_size : Z) (djunk : list Z) (junk : spinfo) : X (sys D) Z :=
  _ ⇐ check_pointer file;
  _ ← syscall_acquire;
  name ⇐ get_string file junk;
  success ← on_vm (on_fsys (filesys_create name (s32 initial_size) djunk));
  _ ← syscall_release;
  xret (b2z success).

Definition remove_h (file : Z) (junk : spinfo) : X (sys D) Z :=
  _ ⇐ check_pointer file;
  _ ← syscall_acquire;
  name ⇐ get_string file junk;
  success ← on_vm (on_fsys (filesys_remove name));
  _ ← syscall_release;
  xret (b2z success).

Definition open_h (file : Z) (junk : spinfo) : X (sys D) Z :=
  _ ⇐ check_pointer file;
  _ ← syscall_acquire;
  name ⇐ get_string file junk;
  open_file ← on_vm (on_fsys (filesys_open name));
  _ ← syscall_release;
  if open_file =? NULL then xret (-1)
  else
    _ ← assign_fd open_file;
    p ← this_process;
    xret (find_fd (open_files p) open_file).

Definition filesize_h (fd : Z) : M (sys D) Z :=
  f ← find_open_file fd;
  if negb (f =? NULL) then on_vm (on_fsys (file_length f)) else mret (-1).

(** The keys that are pressed go to the buffer; without a key the thread waits. *)
Definition input_getc : M (sys D) Z := fun s =>
  match keyboard s with k :: ks => Ok (k, set_keyboard ks s) | [] => Err OutOfFuel end.
Fixpoint read_keys (n : nat) (buffer : Z) (junk : spinfo) : X (sys D) unit :=
  match n with
  | O => xret tt
  | S n => k ← input_getc; _ ⇐ put_byte buffer k junk; read_keys n (buffer + 1) junk
  end.

Definition read_h (fd buffer size : Z) (junk : spinfo) : X (sys D) Z :=
  _ ⇐ check_pointer buffer;
  if fd =? STDIN_FILENO then _ ⇐ read_keys (Z.to_nat (s32 size)) buffer junk; xret (s32 size)
  else
    f ← find_open_file fd;
    if negb (f =? NULL) then
      _ ← syscall_acquire;
      r ← on_vm (on_fsys (file_read f (s32 size)));
      _ ⇐ put_bytes buffer r.2 junk;
      _ ← syscall_release;
      xret r.1
    else xret (-1).

(** The bytes [inode_write_at] takes from the buffer: up to the end of the file,
    none if writes are denied. *)
Definition write_count (f size : Z) : M (fs D) Z :=
  fl ← get_file f;
  i ← get_inode (f_inode fl);
  mret (if deny_write_cnt i =? 0 then Z.max 0 (Z.min size (inode_length i - f_pos fl)) else 0).

Definition putbuf (buffer n : Z) (junk : spinfo) : X (sys D) unit :=
  bs ⇐ get_bytes (Z.to_nat n) buffer junk;
  _ ← modify (fun s => set_console (console s ++ bs) s);
  xret tt.

Definition write_h (fd buffer size : Z) (junk : spinfo) : X (sys D) Z :=
  _ ⇐ check_pointer buffer;
  if fd =? STDOUT_FILENO then _ ⇐ putbuf buffer size junk; xret (s32 size)
  else
    f ← find_open_file fd;
    if negb (f =? NULL) then
      _ ← syscall_acquire;
      n ← on_vm (on_fsys (write_count f (s32 size)));
      bs ⇐ get_bytes (Z.to_nat n) buffer junk;
      written ← on_vm (on_fsys (file_write f bs n));
      _ ← syscall_release;
      xret written
    else xret (-1).

Definition seek_h (fd position : Z) : M (sys D) Z :=
  f ← find_open_file fd;
  if negb (f =? NULL) then
    _ ← syscall_acquire;
    _ ← on_vm (on_fsys (file_seek f (s32 position)));
    _ ← syscall_release;
    mret 1
  else mret (-1).

Definition tell_h (fd : Z) : M (sys D) Z :=
  f ← find_open_file fd;
  if negb (f =? NULL) then
    _ ← syscall_acquire;
    ret ← on_vm (on_fsys (file_tell f));
    _ ← syscall_release;
    mret (u32 ret)
  else mret (u32 (-1)).

Definition close_h (fd : Z) : M (sys D) Z :=
  f ← find_open_file fd;
  if negb (f =? NULL) then
    p ← this_process;
    _ ← set_this_process (set_open_files (<[Z.to_nat fd := NULL]> (open_files p)) p);
    _ ← on_vm (on_fsys (file_close f));
    mret 1
  else mret (-1).

(** ** The handler *)

Definition returns (m : X (sys D) Z) : M (sys D) sys_outcome :=
  o ← m; mret (match o with Some eax => Return (Some (u32 eax)) | None => Ended end).
Definition outcome_of (m : X (sys D) sys_outcome) : M (sys D) sys_outcome :=
  o ← m; mret (match o with Some r => r | None => Ended end).

(** The argument [n] of the call, a word checked by [check_pointer]. *)
Definition check_arg (esp n : Z) : X (sys D) unit := check_pointer (u32 (esp + 4 * n)).
Definition arg (esp n : Z) (junk : spinfo) : X (sys D) Z := get_word (u32 (esp + 4 * n)) junk.

Definition syscall_switch (syscall_number esp : Z) (djunk : list Z) (junk : spinfo) : X (sys D) sys_outcome :=
  if syscall_number =? SYS_HALT then xlift halt_h
  else if syscall_number =? SYS_EXIT then
    _ ⇐ check_arg esp 1; status ⇐ arg esp 1 junk; _ ← exit_h (s32 status); mret None
  else if syscall_number =? SYS_EXEC then
    _ ⇐ check_arg esp 1; cmd_line ⇐ arg esp 1 junk; line ⇐ exec_h cmd_line junk; xret (Executing line)
  else if syscall_number =? SYS_WAIT then
    _ ⇐ check_arg esp 1; tid ⇐ arg esp 1 junk; xlift (wait_h (s32 tid))
  else if syscall_number =? SYS_CREATE then
    _ ⇐ check_arg esp 1; _ ⇐ check_arg esp 2;
    initial_size ⇐ arg esp 2 junk; file ⇐ arg esp 1 junk; xlift (returns (create_h file initial_size djunk junk))
  else if syscall_number =? SYS_REMOVE then
    _ ⇐ check_arg esp 1; file ⇐ arg esp 1 junk; xlift (returns (remove_h file junk))
  else if syscall_number =? SYS_OPEN then
    _ ⇐ check_arg esp 1; file ⇐ arg esp 1 junk; xlift (returns (open_h file junk))
  else if syscall_number =? SYS_FILESIZE then
    _ ⇐ check_arg esp 1; fd ⇐ arg esp 1 junk; xlift (returns (xlift (filesize_h (s32 fd))))
  else if syscall_number =? SYS_READ then
    _ ⇐ check_arg esp 1; _ ⇐ check_arg esp 2; _ ⇐ check_arg esp 3;
    fd ⇐ arg esp 1 junk; size ⇐ arg esp 3 junk; buffer ⇐ arg esp 2 junk; xlift (returns (read_h (s32 fd) buffer size junk))
  else if syscall_number =? SYS_WRITE then
    _ ⇐ check_arg esp 1; _ ⇐ check_arg esp 2; _ ⇐ check_arg esp 3;
    fd ⇐ arg esp 1 junk; size ⇐ arg esp 3 junk; buffer ⇐ arg esp 2 junk; xlift (returns (write_h (s32 fd) buffer size junk))
  else if syscall_number =? SYS_SEEK then
    _ ⇐ check_arg esp 1; _ ⇐ check_arg esp 2;
    fd ⇐ arg esp 1 junk; pos ⇐ arg esp 2 junk; xlift (returns (xlift (seek_h (s32 fd) pos)))
  else if syscall_number =? SYS_TELL then
    _ ⇐ check_arg esp 1; fd ⇐ arg esp 1 junk; xlift (returns (xlift (tell_h (s32 fd))))
  else if syscall_number =? SYS_CLOSE then
    _ ⇐ check_arg esp 1; fd ⇐ arg esp 1 junk; xlift (returns (xlift (close_h (s32 fd))))
  else xret (Return None).

Definition syscall_handler (esp : Z) (djunk : list Z) (junk : spinfo) : M (sys D) sys_outcome := outcome_of (
  _ ⇐ check_pointer esp;
  p ← this_process;
  _ ← set_this_process (set_personal_esp esp p);
  n ⇐ get_word esp junk;
  syscall_switch (s32 n) esp djunk junk).
End Operations.
