(* ===== verification/SyscallMem.v ===== *)
(** * System calls and user memory

    Arguments and buffers of system calls are moved byte by byte through user
    memory.  Either every byte arrives, whatever pages are moved for it, or the
    kernel stops because no memory is left. *)

From S2P Require Import Prelude Block FsState Inode File Directory FsSpec FsInv FsOps Vaddr Bitmap Palloc Pagedir Spage Swap Frame Fault VmInv Clock Evict Paging PageFault UserMemory Loader LoadSteps LoadOk Syscall.

(** ** User memory as a function *)

(** A page the process has not touched yet is zero. *)
Definition user_byte (M : gmap (Z * Z) (list Z)) (t va : Z) : Z := default 0 (byte_at M t va).
Definition same_bytes (M M' : gmap (Z * Z) (list Z)) : Prop :=
  forall t a, 0 <= a < PHYS_BASE -> user_byte M' t a = user_byte M t a.
(** [M'] is [M] with [bytes] at [va] of process [t]. *)
Definition bytes_put (M M' : gmap (Z * Z) (list Z)) (t va : Z) (bytes : list Z) : Prop :=
  forall t' a, 0 <= a < PHYS_BASE ->
    user_byte M' t' a = if decide (t' = t /\ va <= a < va + Z.of_nat (length bytes)) then nth (Z.to_nat (a - va)) bytes 0 else user_byte M t' a.
Definition user_bytes (M : gmap (Z * Z) (list Z)) (t va : Z) (n : nat) : list Z :=
  map (fun i => user_byte M t (va + Z.of_nat i)) (seq 0 n).

Lemma touch_bytes M t u : same_bytes M (touch M t u).
Proof.
  intros t' a Ha. unfold user_byte, byte_at, touch. destruct (M !! (t, u)) eqn:E; [done|].
  destruct (decide ((t, u) = (t', pg_round_down a))) as [[= <- ->]|Hne]; [|by rewrite lookup_insert_ne].
  rewrite lookup_insert_eq, E. cbn [mbind option_bind default]. pose proof (pg_ofs_range a).
  rewrite zero_page_byte; [done|lia].
Qed.
Lemma same_bytes_refl M : same_bytes M M.
Proof. done. Qed.
Lemma same_bytes_trans M1 M2 M3 : same_bytes M1 M2 -> same_bytes M2 M3 -> same_bytes M1 M3.
Proof. intros H1 H2 t a Ha. by rewrite H2, H1. Qed.
Lemma user_bytes_S M t va n : user_bytes M t va (S n) = user_byte M t va :: user_bytes M t (va + 1) n.
Proof.
  unfold user_bytes. rewrite <- cons_seq. cbn [map]. f_equal; [f_equal; lia|]. rewrite <- seq_shift, map_map. apply map_ext. intros k. f_equal. lia.
Qed.
Lemma same_user_bytes M M' t va n : same_bytes M M' -> 0 <= va -> va + Z.of_nat n <= PHYS_BASE -> user_bytes M' t va n = user_bytes M t va n.
Proof.
  intros Hs Hv Hn. unfold user_bytes. apply map_ext_in. intros k Hk%in_seq. apply Hs. lia.
Qed.

(** ** Steps that fail *)

Lemma no_memory_bind {S A B} (m : Prelude.M S A) (k : A -> Prelude.M S B) (s : S) : no_memory (m s) -> no_memory ((m ≫= k) s).
Proof. unfold mbind, M_bind. intros [->| ->]; [by left|by right]. Qed.
Lemma no_memory_xbind {S A B} (m : X S A) (k : A -> X S B) (s : S) : no_memory (m s) -> no_memory (xbind m k s).
Proof. apply no_memory_bind. Qed.
Lemma xbind_run {S A B} (m : X S A) (k : A -> X S B) (s : S) a s' : m s = Ok (Some a, s') -> xbind m k s = k a s'.
Proof. intros E. unfold xbind, mbind, M_bind. by rewrite E. Qed.

Section Memory.
Context `{BlockLaws D} `{KpageSearch} `{!KpageLaws}.
Implicit Types (v : vm D) (s : sys D).

(** The addresses the call may access. *)
Context (R : Z -> Prop).
Definition resident (p : process) : Prop := forall a, R a -> in_memory p a.
(** The kernel stops for lack of memory, and a page was missing. *)
Definition starved {B} (p : process) (r : res B) : Prop := no_memory r /\ ~ resident p.

(** The state between the steps of a system call. *)
Record ready s P T A M p : Prop := {
  rd_inv : vm_inv (sys_vm s) P T A M None;
  rd_frames : frametable (sys_vm s) <> [];
  rd_lock : lock_holder (sys_vm s) = None;
  rd_proc : procs (sys_vm s) !! current (sys_vm s) = Some p;
}.
(** What moving pages leaves alone. *)
Record kept s s' (A A' : afs) (p p' : process) : Prop := {
  kp_current : current (sys_vm s') = current (sys_vm s);
  kp_rest : set_sys_vm (sys_vm s) s' = s;
  kp_process : set_spage_table [] p' = set_spage_table [] p;
  kp_files : same_files A A';
  kp_rights : rights_kept p p';
  kp_resident : resident p -> p' = p;
  kp_room : same_room (fsys (sys_vm s)) (fsys (sys_vm s'));
}.
Lemma kept_refl s A p : kept s s A A p p.
Proof. constructor; [done|by destruct s|done|apply same_files_refl|by intros ?|done|done]. Qed.
Lemma kept_trans s1 s2 s3 A1 A2 A3 p1 p2 p3 : kept s1 s2 A1 A2 p1 p2 -> kept s2 s3 A2 A3 p2 p3 -> kept s1 s3 A1 A3 p1 p3.
Proof.
  intros [C1 R1 P1 F1 G1 S1 O1] [C2 R2 P2 F2 G2 S2 O2].
  constructor; [congruence| |congruence|by eapply same_files_trans|by eapply rights_trans| |unfold same_room in *; congruence].
  2: { intros Hr. pose proof (S1 Hr) as ->. by apply S2. }
  rewrite <- R1 at 2. rewrite <- R2. by destruct s1, s2, s3.
Qed.
Lemma kept_esp s s' A A' p p' : kept s s' A A' p p' -> personal_esp p' = personal_esp p.
Proof. intros []. by injection kp_process0. Qed.

(** The process may access [n] bytes from [va] on. *)
Definition may_range (p : process) (va : Z) (n : nat) (write : bool) : Prop :=
  0 <= va /\ va + Z.of_nat n <= PHYS_BASE /\ forall a, va <= a < va + Z.of_nat n -> R a /\ may_access p a (personal_esp p) write.
Lemma may_range_S p va n w : may_range p va (S n) w ->
  0 <= va < PHYS_BASE /\ R va /\ may_access p va (personal_esp p) w /\ may_range p (va + 1) n w.
Proof. intros (Hv & Hn & Hm). split; [lia|]. split; [apply Hm; lia|]. split; [apply Hm; lia|]. split; [lia|]. split; [lia|]. intros a Ha. apply Hm. lia. Qed.
Lemma may_range_kept p p' va n w :
  rights_kept p p' -> personal_esp p' = personal_esp p -> may_range p va n w -> may_range p' va n w.
Proof. intros Hr He (Hv & Hn & Hm). split; [done|]. split; [done|]. intros a Ha. rewrite He. destruct (Hm a Ha). split; [done|]. by apply Hr. Qed.

Lemma no_memory_on_vm {A} (m : Prelude.M (vm D) A) s : no_memory (m (sys_vm s)) -> no_memory (on_vm m s).
Proof. unfold on_vm. intros [->| ->]; [by left|by right]. Qed.
Lemma starved_bind {A B} (m : Prelude.M (sys D) A) (k : A -> Prelude.M (sys D) B) s p : starved p (m s) -> starved p ((m ≫= k) s).
Proof. intros [Hno Hr]. split; [by apply no_memory_bind|done]. Qed.
Lemma starved_xbind {A B} (m : X (sys D) A) (k : A -> X (sys D) B) s p : starved p (m s) -> starved p (xbind m k s).
Proof. apply starved_bind. Qed.
Lemma starved_kept {B} s s' A A' p p' (r : res B) : kept s s' A A' p p' -> starved p' r -> starved p r.
Proof. intros K [Hno Hr]. split; [done|]. intros Hin. apply Hr. by rewrite (kp_resident _ _ _ _ _ _ K Hin). Qed.

(** ** One byte *)

Lemma get_byte_cases s P T A M p va junk :
  ready s P T A M p -> 0 <= va < PHYS_BASE -> R va -> may_access p va (personal_esp p) false ->
  (exists s' T' A' M' p', get_byte va junk s = Ok (Some (user_byte M (current (sys_vm s)) va), s') /\
     ready s' P T' A' M' p' /\ kept s s' A A' p p' /\ same_bytes M M') \/ starved p (get_byte va junk s).
Proof.
  intros [V Hne Hlk Hp] Hva HR Hmay. unfold get_byte, is_user_vaddr. rewrite (proj2 (Z.ltb_lt _ _)) by lia.
  destruct (mem_access_cases (sys_vm s) P T A M p va junk V Hne Hlk Hp Hva (kernel_frame false) false eq_refl Hmay)
    as [(v' & T' & A' & p' & e & bs & E & V' & L' & C' & F' & Hp' & He & Eu & Hk & HM & Hl & Hmem & _ & Es & Sf & Hrm & Hr & Hres)|(_ & Hnin & Hno)].
  - left. exists (set_sys_vm v' s), T', A', (touch M (current (sys_vm s)) (pg_round_down va)), p'.
    pose proof (pg_ofs_range va) as Ho. destruct (lookup_lt_is_Some_2 bs (Z.to_nat (pg_ofs va))) as [b Hb]; [lia|].
    assert (Eb : user_byte M (current (sys_vm s)) va = b).
    { rewrite <- (touch_bytes M (current (sys_vm s)) (pg_round_down va) _ va Hva). unfold user_byte, byte_at. rewrite HM. cbn [mbind option_bind]. by rewrite Hb. }
    split_and!.
    + unfold on_vm, kernel_load, mbind, M_bind. rewrite E. unfold load_page. rewrite Hmem. unfold lift. rewrite Hb. simpl. by rewrite Eb.
    + constructor; simpl; try done; [|by rewrite C']. intros E0. by rewrite E0 in F'; destruct (frametable (sys_vm s)).
    + constructor; simpl; try done; [by destruct s|]. intros Hin. by apply Hres, Hin.
    + apply touch_bytes.
  - right. split; [apply no_memory_on_vm, no_memory_bind; exact Hno|]. intros Hin. by apply Hnin, Hin.
Qed.

Lemma put_byte_cases s P T A M p va b junk :
  ready s P T A M p -> 0 <= va < PHYS_BASE -> R va -> may_access p va (personal_esp p) true ->
  (exists s' T' A' M' p', put_byte va b junk s = Ok (Some tt, s') /\
     ready s' P T' A' M' p' /\ kept s s' A A' p p' /\ bytes_put M M' (current (sys_vm s)) va [b]) \/ starved p (put_byte va b junk s).
Proof.
  intros [V Hne Hlk Hp] Hva HR Hmay. unfold put_byte, is_user_vaddr. rewrite (proj2 (Z.ltb_lt _ _)) by lia.
  destruct (mem_access_cases (sys_vm s) P T A M p va junk V Hne Hlk Hp Hva (kernel_frame true) true eq_refl Hmay)
    as [(v' & T' & A' & p' & e & bs & E & V' & L' & C' & F' & Hp' & He & Eu & Hk & HM & Hl & Hmem & HD & Es & Sf & Hrm & Hr & Hres)|(_ & Hnin & Hno)].
  - left. destruct (store_byte_ok v' P T' A' _ (current (sys_vm s)) p' e bs va b V' Hp' He Eu Hk Hl Hmem (HD eq_refl)) as (m & Est & V2).
    eexists (set_sys_vm (set_mach m v') s), T', A', _, p'. split_and!.
    + unfold mbind at 1, M_bind at 1, on_vm, kernel_store. unfold mbind, M_bind. rewrite E, Est. done.
    + constructor; simpl; [exact V2| |done|by rewrite C']. intros E0. by rewrite E0 in F'; destruct (frametable (sys_vm s)).
    + constructor; simpl; try done; [by destruct s|]. intros Hin. by apply Hres, Hin.
    + intros t' a Ha. unfold user_byte at 1. rewrite byte_at_store by done. simpl length.
      rewrite <- (touch_bytes M (current (sys_vm s)) (pg_round_down va) t' a Ha).
      case_decide as K.
      * injection K as -> ->. rewrite decide_True by lia. by rewrite Z.sub_diag.
      * rewrite decide_False; [done|]. intros [-> Hin]. apply K. f_equal. lia.
  - right. split; [apply no_memory_bind, no_memory_on_vm, no_memory_bind; exact Hno|]. intros Hin. by apply Hnin, Hin.
Qed.

(** ** Blocks of bytes *)

Lemma get_bytes_cases junk n : forall s P T A M p va,
  ready s P T A M p -> may_range p va n false ->
  (exists s' T' A' M' p', get_bytes n va junk s = Ok (Some (user_bytes M (current (sys_vm s)) va n), s') /\
     ready s' P T' A' M' p' /\ kept s s' A A' p p' /\ same_bytes M M') \/ starved p (get_bytes n va junk s).
Proof.
  induction n as [|n IH]; intros s P T A M p va Rd Hm.
  { left. exists s, T, A, M, p. split; [done|]. split; [done|]. split; [apply kept_refl|done]. }
  pose proof Hm as (Hv0 & Hn0 & _). apply may_range_S in Hm as (Hva & HR & Hmay & Hm). cbn [get_bytes].
  destruct (get_byte_cases s P T A M p va junk Rd Hva HR Hmay) as [(s1 & T1 & A1 & M1 & p1 & E1 & R1 & K1 & S1)|Hno].
  2: { right. by eapply starved_xbind. }
  rewrite (xbind_run _ _ _ _ _ E1).
  destruct (IH s1 P T1 A1 M1 p1 (va + 1) R1) as [(s2 & T2 & A2 & M2 & p2 & E2 & R2 & K2 & S2)|Hno].
  { apply (may_range_kept p); [apply K1|by eapply kept_esp|done]. }
  - left. exists s2, T2, A2, M2, p2. split_and!; [|done|by eapply kept_trans|by eapply same_bytes_trans].
    rewrite (xbind_run _ _ _ _ _ E2). rewrite user_bytes_S, (kp_current _ _ _ _ _ _ K1).
    by rewrite (same_user_bytes M M1) by (done || lia).
  - right. apply starved_xbind. by eapply starved_kept.
Qed.

Lemma bytes_put_cons M M1 M2 t va b bytes :
  bytes_put M M1 t va [b] -> bytes_put M1 M2 t (va + 1) bytes -> bytes_put M M2 t va (b :: bytes).
Proof.
  intros H1b H2b t' a Ha. rewrite H2b, H1b by done. simpl length. repeat case_decide; try lia; try done.
  - replace (Z.to_nat (a - va)) with (S (Z.to_nat (a - (va + 1)))) by lia. done.
  - by replace (Z.to_nat (a - va)) with 0%nat by lia.
Qed.
Lemma put_bytes_cases junk bytes : forall s P T A M p va,
  ready s P T A M p -> may_range p va (length bytes) true ->
  (exists s' T' A' M' p', put_bytes va bytes junk s = Ok (Some tt, s') /\
     ready s' P T' A' M' p' /\ kept s s' A A' p p' /\ bytes_put M M' (current (sys_vm s)) va bytes) \/ starved p (put_bytes va bytes junk s).
Proof.
  induction bytes as [|b bytes IH]; intros s P T A M p va Rd Hm.
  { left. exists s, T, A, M, p. split; [done|]. split; [done|]. split; [apply kept_refl|]. intros t' a Ha. simpl. by rewrite decide_False by lia. }
  simpl length in Hm. apply may_range_S in Hm as (Hva & HR & Hmay & Hm). cbn [put_bytes].
  destruct (put_byte_cases s P T A M p va b junk Rd Hva HR Hmay) as [(s1 & T1 & A1 & M1 & p1 & E1 & R1 & K1 & S1)|Hno].
  2: { right. by eapply starved_xbind. }
  rewrite (xbind_run _ _ _ _ _ E1).
  destruct (IH s1 P T1 A1 M1 p1 (va + 1) R1) as [(s2 & T2 & A2 & M2 & p2 & E2 & R2 & K2 & S2)|Hno]; [| |right; by eapply starved_kept].
  { apply (may_range_kept p); [apply K1|by eapply kept_esp|done]. }
  left. exists s2, T2, A2, M2, p2. split_and!; [done|done|by eapply kept_trans|].
  rewrite (kp_current _ _ _ _ _ _ K1) in S2. by eapply bytes_put_cons.
Qed.

(** A word of user memory. *)
Definition user_word_at (M : gmap (Z * Z) (list Z)) (t va : Z) : Z := elem_of_bytes (user_bytes M t va 4).
Lemma get_word_cases s P T A M p va junk :
  ready s P T A M p -> may_range p va 4 false ->
  (exists s' T' A' M' p', get_word va junk s = Ok (Some (user_word_at M (current (sys_vm s)) va), s') /\
     ready s' P T' A' M' p' /\ kept s s' A A' p p' /\ same_bytes M M') \/ starved p (get_word va junk s).
Proof.
  intros Rd Hm. unfold get_word. destruct (get_bytes_cases junk 4 s P T A M p va Rd Hm) as [(s1 & T1 & A1 & M1 & p1 & E1 & R1)|Hno].
  - left. exists s1, T1, A1, M1, p1. split; [|done]. by rewrite (xbind_run _ _ _ _ _ E1).
  - right. by eapply starved_xbind.
Qed.
Lemma same_user_word M M' t va : same_bytes M M' -> 0 <= va -> va + 4 <= PHYS_BASE -> user_word_at M' t va = user_word_at M t va.
Proof. intros Hs Hv Hn. unfold user_word_at. by rewrite (same_user_bytes M M') by done. Qed.

(** A string of user memory. *)
Definition user_string (M : gmap (Z * Z) (list Z)) (t va : Z) (str : list Z) : Prop :=
  user_bytes M t va (S (length str)) = str ++ [0] /\ Forall (fun b => b <> 0) str.
Lemma user_string_cons M t va b str : user_string M t va (b :: str) <-> user_byte M t va = b /\ b <> 0 /\ user_string M t (va + 1) str.
Proof. unfold user_string. rewrite user_bytes_S, Forall_cons. cbn [length app]. split; [intros [[=] []]|intros (-> & ? & -> & ?)]; done. Qed.
Lemma user_string_same M M' t va str :
  same_bytes M M' -> 0 <= va -> va + Z.of_nat (S (length str)) <= PHYS_BASE -> user_string M t va str -> user_string M' t va str.
Proof. intros Hs Hv Hn [E F]. split; [|done]. by rewrite (same_user_bytes M M') by done. Qed.

Lemma get_string_loop_cases junk str : forall fuel s P T A M p va,
  ready s P T A M p -> may_range p va (S (length str)) false -> user_string M (current (sys_vm s)) va str -> (length str < fuel)%nat ->
  (exists s' T' A' M' p', get_string_loop fuel va junk s = Ok (Some str, s') /\
     ready s' P T' A' M' p' /\ kept s s' A A' p p' /\ same_bytes M M') \/ starved p (get_string_loop fuel va junk s).
Proof.
  induction str as [|b str IH]; intros fuel s P T A M p va Rd Hm Hs Hf; (destruct fuel as [|fuel]; [simpl in Hf; lia|]); cbn [get_string_loop].
  - apply may_range_S in Hm as (Hva & HR & Hmay & _). assert (Hb : user_byte M (current (sys_vm s)) va = 0) by (destruct Hs as [[=] _]; by rewrite <- (Z.add_0_r va)).
    destruct (get_byte_cases s P T A M p va junk Rd Hva HR Hmay) as [(s1 & T1 & A1 & M1 & p1 & E1 & R1)|Hno]; [|right; by apply starved_xbind].
    left. exists s1, T1, A1, M1, p1. split; [|done]. by rewrite (xbind_run _ _ _ _ _ E1), Hb.
  - pose proof Hm as (Hv0 & Hn0 & _). simpl in Hn0. apply may_range_S in Hm as (Hva & HR & Hmay & Hm). apply user_string_cons in Hs as (Hb & Hb0 & Hs).
    destruct (get_byte_cases s P T A M p va junk Rd Hva HR Hmay) as [(s1 & T1 & A1 & M1 & p1 & E1 & R1 & K1 & S1)|Hno]; [|right; by apply starved_xbind].
    rewrite (xbind_run _ _ _ _ _ E1), Hb, (proj2 (Z.eqb_neq _ _) Hb0).
    destruct (IH fuel s1 P T1 A1 M1 p1 (va + 1) R1) as [(s2 & T2 & A2 & M2 & p2 & E2 & R2 & K2 & S2)|Hno].
    + apply (may_range_kept p); [apply K1|by eapply kept_esp|done].
    + rewrite (kp_current _ _ _ _ _ _ K1). apply (user_string_same M); try done; lia.
    + simpl in Hf. lia.
    + left. exists s2, T2, A2, M2, p2. split_and!; [by rewrite (xbind_run _ _ _ _ _ E2)|done|by eapply kept_trans|by eapply same_bytes_trans].
    + right. apply starved_xbind. by eapply starved_kept.
Qed.

(** Bytes that are not zero are on pages of the process. *)
Lemma user_string_page s P T A M p va str i :
  ready s P T A M p -> user_string M (current (sys_vm s)) va str -> (i < length str)%nat ->
  pg_round_down (va + Z.of_nat i) ∈ map upage_address (spage_table p).
Proof.
  intros [V _ _ Hp] [E F] Hi. destruct (lookup_lt_is_Some_2 str i Hi) as [b Hb]. rewrite Forall_lookup in F. specialize (F i b Hb).
  assert (Hu : user_bytes M (current (sys_vm s)) va (S (length str)) !! i = Some b) by (by rewrite E, lookup_app_l).
  unfold user_bytes in Hu. rewrite list_lookup_fmap, lookup_seq_lt in Hu by lia. simpl in Hu. injection Hu as Hu.
  unfold user_byte, byte_at in Hu. destruct (M !! (current (sys_vm s), pg_round_down (va + Z.of_nat i))) as [bs|] eqn:EM; [|by simpl in Hu].
  destruct (vi_pages _ _ _ _ _ _ V _ _ (mk_is_Some _ _ EM)) as (e & (q & Hq & He) & <-). rewrite Hp in Hq. injection Hq as <-.
  by apply list_elem_of_fmap_2.
Qed.
Lemma user_string_fits s P T A M p va str :
  ready s P T A M p -> user_string M (current (sys_vm s)) va str -> 0 <= va -> va + Z.of_nat (length str) <= PHYS_BASE ->
  (length str <= 4096 * length (spage_table p))%nat.
Proof.
  intros Rd Hs Hv Hn. destruct (decide (length str = 0)%nat) as [|Hl]; [lia|]. assert (HB : PHYS_BASE < 2 ^ 32) by done.
  set (n := Z.to_nat ((va + Z.of_nat (length str) - 1) / 4096 - va / 4096 + 1)).
  assert (Hlen : (length str <= 4096 * n)%nat) by (unfold n; Z.to_euclidean_division_equations; lia).
  assert (Hsub : page_list (va - va mod 4096) n ⊆+ map upage_address (spage_table p)).
  { apply NoDup_submseteq.
    - unfold page_list. apply NoDup_fmap; [|apply NoDup_seq]. intros x y. unfold PGSIZE. lia.
    - intros u (k & -> & Hk%elem_of_seq)%list_elem_of_fmap. unfold PGSIZE.
      set (i := Z.to_nat (Z.max 0 (va - va mod 4096 + 4096 * Z.of_nat k - va))).
      assert (Hi : (i < length str)%nat) by (unfold i, n in *; Z.to_euclidean_division_equations; lia).
      pose proof (user_string_page s P T A M p va str i Rd Hs Hi) as Hin.
      replace (va - va mod 4096 + 4096 * Z.of_nat k) with (pg_round_down (va + Z.of_nat i)); [done|].
      rewrite pg_round_down_sub by lia. unfold PGSIZE, i, n in *. Z.to_euclidean_division_equations. lia. }
  apply submseteq_length in Hsub. rewrite length_map in Hsub. unfold page_list in Hsub. rewrite length_map, length_seq in Hsub. lia.
Qed.

Lemma get_string_cases s P T A M p va str junk :
  ready s P T A M p -> may_range p va (S (length str)) false -> user_string M (current (sys_vm s)) va str ->
  (exists s' T' A' M' p', get_string va junk s = Ok (Some str, s') /\
     ready s' P T' A' M' p' /\ kept s s' A A' p p' /\ same_bytes M M') \/ starved p (get_string va junk s).
Proof.
  intros Rd Hm Hs. pose proof Hm as (Hv & Hn & _).
  pose proof (user_string_fits s P T A M p va str Rd Hs Hv ltac:(lia)) as Hfit.
  assert (Eq : get_string va junk s = get_string_loop (4096 * (2 + length (spage_table p))) va junk s).
  { unfold get_string. bind_by (unfold this_process; bind_by reflexivity; unfold on_vm, get_process; rewrite (rd_proc _ _ _ _ _ _ Rd); reflexivity).
    by replace (set_sys_vm (sys_vm s) s) with s by (by destruct s). }
  rewrite Eq. apply (get_string_loop_cases junk str _ s P T A M p va); try done. lia.
Qed.
End Memory.
