(* ===== verification/SyscallOk.v ===== *)
(** * The handlers of system calls

    Pointers, locks, descriptors, and the calls on files from the arguments on
    the stack of the process to the bytes in its memory. *)

From S2P Require Import Prelude Block FsState Inode File Directory FsSpec FsInv FsOps FsGrow Vaddr Bitmap Palloc Pagedir Spage Swap Frame Fault VmInv Clock Evict Paging PageFault UserMemory Loader LoadSteps LoadOk Syscall SyscallMem.

(** ** Calls of the file system and mapped files *)

(** A handle that denies writes is not closed, and goes on denying them. *)
Definition plain_call (A : afs) (c : call) : Prop :=
  match c with Close f | Allow f => forall h, a_open A !! f = Some h -> h_deny h = false | _ => True end.

Lemma overwrite_nil (l : list Z) pos : overwrite l pos [] = l.
Proof. unfold overwrite. cbn [length app]. by rewrite Nat.add_0_r, take_drop. Qed.
Lemma collect_data sec sec' A f h : a_open A !! f = Some h -> h_file h = sec' -> a_data (collect sec A) !! sec' = a_data A !! sec'.
Proof.
  intros Hh <-. unfold collect. case_decide as Hc; [done|]. simpl. apply lookup_delete_ne. intros ->. apply Hc. right. apply used_iff. eauto.
Qed.
Lemma collect_open sec A : a_open (collect sec A) = a_open A.
Proof. unfold collect. by case_decide. Qed.

Lemma spec_text A c r A' e : spec A c r A' -> plain_call A c -> same_text A A' e.
Proof.
  intros Hs Hpl. apply mapped_text. intros h bs Hh Hdn Hbs.
  assert (Hrep : forall f k pos, a_open A !! f = Some k -> exists h', a_open (with_handle f (mk_handle (h_file k) pos (h_deny k)) A) !! Spage.file e = Some h' /\
    h_file h' = h_file h /\ h_deny h' = true).
  { intros f k pos Hk. simpl. destruct (decide (Spage.file e = f)) as [Ef|Hne]; [rewrite Ef, lookup_insert_eq; assert (k = h) as -> by congruence; by eexists (mk_handle _ _ _)|].
    rewrite lookup_insert_ne by done. by exists h. }
  destruct c; simpl in Hs.
  - destruct Hs as [[_ ->]|(sec & _ & _ & _ & Hsec & ->)]; exists h; [done|]. simpl. rewrite lookup_insert_ne; [done|]. intros ->. congruence.
  - destruct (a_dir A !! name); [|destruct Hs as [_ ->]; by exists h]. destruct Hs as (f & _ & _ & Hf & ->). exists h. simpl.
    rewrite lookup_insert_ne; [done|]. intros ->. congruence.
  - destruct (a_dir A !! name); [|destruct Hs as [_ ->]; by exists h]. destruct Hs as [_ ->]. exists h. rewrite collect_open. split_and!; try done.
    by rewrite (collect_data _ _ _ (Spage.file e) h).
  - destruct Hs as (k & d & Hk & Hd & _ & ->). destruct (Hrep f k (h_pos k + moved d size (h_pos k)) Hk) as (h' & ? & ? & ?). by exists h'.
  - destruct Hs as (k & d & Hk & Hd & _ & ->). destruct (Hrep f k (h_pos k + (if decide (denied A (h_file k)) then 0 else moved d size (h_pos k))) Hk) as (h' & ? & ? & ?).
    exists h'. split_and!; try done. simpl. destruct (decide (h_file h = h_file k)) as [Ek|]; [|by rewrite lookup_insert_ne].
    rewrite Ek, lookup_insert_eq, decide_True by (apply denied_iff; eauto). rewrite Ek, Hd in Hbs. injection Hbs as <-. by rewrite take_0, overwrite_nil.
  - destruct Hs as (k & d & Hk & Hd & _ & ->). destruct (Hrep f k pos Hk) as (h' & ? & ? & ?). by exists h'.
  - destruct Hs as (k & d & _ & _ & _ & ->). by exists h.
  - destruct Hs as (k & d & _ & _ & _ & ->). by exists h.
  - destruct Hs as (k & d & Hk & _ & _ & ->). simpl. destruct (decide (Spage.file e = f)) as [Ef|Hne].
    + rewrite Ef, lookup_insert_eq. assert (k = h) as -> by congruence. by eexists (mk_handle _ _ _).
    + rewrite lookup_insert_ne by done. by exists h.
  - destruct Hs as (k & d & Hk & _ & _ & ->). exists h. simpl. rewrite lookup_insert_ne; [done|]. intros ->. specialize (Hpl h Hh). congruence.
  - destruct Hs as (k & d & Hk & _ & _ & ->). assert (Hne : f <> Spage.file e) by (intros ->; specialize (Hpl h Hh); congruence).
    assert (Ho : delete f (a_open A) !! Spage.file e = Some h) by (by rewrite lookup_delete_ne).
    exists h. rewrite collect_open. split_and!; try done. by rewrite (collect_data _ _ _ (Spage.file e) h).
Qed.

Section Handlers.
Context `{BlockLaws D} `{KpageSearch} `{!KpageLaws}.
Implicit Types (v : vm D) (s : sys D).

(** ** Steps that move no page *)

Lemma this_process_run s P T A M p : ready s P T A M p -> this_process s = Ok (p, s).
Proof.
  intros []. unfold this_process. bind_by reflexivity. unfold on_vm, get_process. rewrite rd_proc. by destruct s.
Qed.
Lemma ready_lock s P T A M p l : ready s P T A M p -> ready (set_syscall_lock l s) P T A M p.
Proof. by intros []. Qed.
Lemma acquire_run s : syscall_lock s = None -> syscall_acquire s = Ok (tt, set_syscall_lock (Some (current (sys_vm s))) s).
Proof.
  intros Hl. unfold syscall_acquire. bind_by reflexivity. bind_by (apply assert_run; rewrite Hl; by rewrite bool_decide_false). done.
Qed.
Lemma release_run s : syscall_lock s = Some (current (sys_vm s)) -> syscall_release s = Ok (tt, set_syscall_lock None s).
Proof.
  intros Hl. unfold syscall_release. bind_by reflexivity. bind_by (apply assert_run; rewrite Hl; by rewrite bool_decide_true). done.
Qed.

(** Another value in the current process that memory does not depend on. *)
Lemma set_process_ok s P T A M p p' :
  ready s P T A M p -> pagedir p' = pagedir p -> spage_table p' = spage_table p ->
  exists s', set_this_process p' s = Ok (tt, s') /\ ready s' P T A M p' /\ current (sys_vm s') = current (sys_vm s) /\
    set_sys_vm (sys_vm s) s' = s /\ fsys (sys_vm s') = fsys (sys_vm s).
Proof.
  intros [V Hne Hlk Hp] Hpd Hst. eexists. split; [unfold set_this_process; bind_by reflexivity; reflexivity|]. split_and!; try done.
  - constructor; simpl; try done; [|by rewrite lookup_insert_eq]. by apply (inv_process_same _ P T A M None _ p).
  - by destruct s.
Qed.

(** A call of the file system. *)
Lemma fs_step_ok {R} s P T A M p (m : Prelude.M (fs D) R) r f A' :
  ready s P T A M p -> m (fsys (sys_vm s)) = Ok (r, f) -> refines f A' ->
  (forall t e, entry_at (procs (sys_vm s)) t e -> same_text A A' e) -> brk (fsys (sys_vm s)) <= brk f ->
  exists s', on_vm (on_fsys m) s = Ok (r, s') /\ ready s' P T A' M p /\ current (sys_vm s') = current (sys_vm s) /\
    set_sys_vm (sys_vm s) s' = s /\ procs (sys_vm s') = procs (sys_vm s) /\ fsys (sys_vm s') = f.
Proof.
  intros [V Hne Hlk Hp] E Rf Hst Hb. eexists. split; [unfold on_vm, on_fsys; by rewrite E|]. split_and!; try done.
  - constructor; simpl; try done. by apply (inv_text _ P T A).
  - by destruct s.
Qed.

Lemma rest_lock s s' v : set_sys_vm v s' = s -> syscall_lock s' = syscall_lock s.
Proof. by intros <-. Qed.
Lemma rest_trans s1 s2 s3 v v' : set_sys_vm v s2 = s1 -> set_sys_vm v' s3 = s2 -> set_sys_vm v s3 = s1.
Proof. by intros <- <-. Qed.
(** The lock is taken and given back around a step that leaves the rest alone. *)
Lemma locked_rest s s1 s2 v l :
  set_sys_vm v s1 = set_syscall_lock l s -> sys_vm s2 = sys_vm s1 -> s2 = set_syscall_lock (syscall_lock s) s1 -> set_sys_vm (sys_vm s) s2 = s.
Proof. intros E _ ->. destruct s, s1. by injection E as -> _ -> -> ->. Qed.

(** ** Pointers *)

Lemma check_pointer_ok s P T A M p va :
  ready s P T A M p -> 0 <= va < PHYS_BASE -> may_access p va (personal_esp p) false -> check_pointer va s = Ok (Some tt, s).
Proof.
  intros Rd Hva Hmay. pose proof Rd as [V Hne Hlk Hp]. unfold check_pointer. bind_by (by eapply this_process_run).
  unfold is_user_vaddr. rewrite (proj2 (Z.ltb_lt _ _)) by lia.
  pose proof (vi_spaces _ _ _ _ _ _ V) as Hs. destruct (pr_dir _ _ _ _ _ _ _ (vi_proc _ _ _ _ _ _ V _ _ Hp)) as [Hpd _].
  bind_by (unfold on_vm, on_mach; rewrite (get_page_run (mach (sys_vm s)) P T) by done; reflexivity).
  replace (set_sys_vm (set_mach (mach (sys_vm s)) (sys_vm s)) s) with s by (destruct s as [[]]; done).
  destruct (_ =? NULL); [|done].
  bind_by (unfold on_vm, lock_memory; bind_by reflexivity; bind_by (apply assert_run; rewrite Hlk; by rewrite bool_decide_false); reflexivity).
  set (s1 := set_sys_vm _ s).
  assert (Hun : forall B (k : Prelude.M (sys D) B), (on_vm unlock_memory ≫= fun _ => k) s1 = k s).
  { intros B k. bind_by (unfold on_vm, unlock_memory; bind_by reflexivity; bind_by (apply assert_run; by rewrite bool_decide_true); reflexivity).
    replace (set_sys_vm _ s1) with s; [done|]. unfold s1. destruct s as [[]]. simpl in Hlk. by subst. }
  unfold may_access in Hmay. destruct (find_spinfo (spage_table p) (pg_round_down va)); [by rewrite Hun|].
  rewrite Hmay. cbn [negb]. by rewrite Hun.
Qed.

Lemma find_file_run s P T A M p fd f :
  ready s P T A M p -> 0 <= fd < MAX_FILES -> open_files p !! Z.to_nat fd = Some f -> find_open_file fd s = Ok (f, s).
Proof.
  intros Rd Hfd Hf. unfold find_open_file. rewrite (proj2 (Z.ltb_ge fd 0)), (proj2 (Z.leb_gt MAX_FILES fd)) by lia. cbn [orb].
  bind_by (by eapply this_process_run). unfold lift. by rewrite Hf.
Qed.

(** The addresses the call may access. *)
Context (R : Z -> Prop).

(** ** Reading a file *)

Lemma file_read_run (m : fs D) A f h data size :
  refines m A -> a_open A !! f = Some h -> a_data A !! h_file h = Some data ->
  let n := moved data size (h_pos h) in
  exists m', file_read f size m = Ok ((n, take (Z.to_nat n) (drop (Z.to_nat (h_pos h)) data)), m') /\
    refines m' (with_handle f (mk_handle (h_file h) (h_pos h + n) (h_deny h)) A) /\ brk m <= brk m' /\ same_room m m'.
Proof.
  intros [live S] Hh Hd n. destruct (file_read_sim m live A f h data size S Hh Hd) as (r & m' & A' & E & [-> ->] & Rm & B).
  exists m'. split; [|done]. unfold run, mbind, M_bind in E. destruct (file_read f size m) as [[[k b] m2]|]; [|done].
  unfold mret, M_ret in E. simpl in E. by injection E as -> -> ->.
Qed.

Lemma read_h_cases s P T A M p fd f h data buffer size junk :
  ready s P T A M p -> syscall_lock s = None -> 2 <= fd < MAX_FILES -> open_files p !! Z.to_nat fd = Some f -> f <> NULL ->
  a_open A !! f = Some h -> a_data A !! h_file h = Some data -> 0 <= size < 2 ^ 31 ->
  0 <= buffer < PHYS_BASE -> may_access p buffer (personal_esp p) false ->
  let n := moved data size (h_pos h) in may_range R p buffer (Z.to_nat n) true ->
  (exists s' T' A' M' p', read_h fd buffer size junk s = Ok (Some n, s') /\ ready s' P T' A' M' p' /\
     kept R s s' (with_handle f (mk_handle (h_file h) (h_pos h + n) (h_deny h)) A) A' p p' /\
     bytes_put M M' (current (sys_vm s)) buffer (take (Z.to_nat n) (drop (Z.to_nat (h_pos h)) data))) \/
  starved R p (read_h fd buffer size junk s).
Proof.
  intros Rd Hsl Hfd Hf Hfn Hh Hd Hsz Hb Hbm n Hrng. unfold read_h.
  rewrite (xbind_run _ _ _ _ _ (check_pointer_ok s P T A M p buffer Rd Hb Hbm)). rewrite (proj2 (Z.eqb_neq fd STDIN_FILENO)) by (unfold STDIN_FILENO; lia).
  rewrite s32_small by lia. unfold MAX_FILES in Hfd.
  set (t := current (sys_vm s)). set (s1 := set_syscall_lock (Some t) s).
  destruct (file_read_run (fsys (sys_vm s)) A f h data size (vi_fs _ _ _ _ _ _ (rd_inv _ _ _ _ _ _ Rd)) Hh Hd) as (m & Er & Rm & Bm & Om). fold n in Er, Rm.
  set (A1 := with_handle f _ A) in Rm.
  destruct (fs_step_ok s1 P T A M p (file_read f size) _ m A1 (ready_lock _ _ _ _ _ _ _ Rd) Er Rm) as (s2 & E2 & R2 & C2 & K2 & _ & Em); [|done|].
  { intros t' e _. apply (spec_text A (Read f size) (Data n (take (Z.to_nat n) (drop (Z.to_nat (h_pos h)) data)))); [|done]. by exists h, data. }
  set (bytes := take (Z.to_nat n) (drop (Z.to_nat (h_pos h)) data)) in *.
  assert (Hlb : (length bytes <= Z.to_nat n)%nat) by (unfold bytes; rewrite length_take; lia).
  assert (Hrng2 : may_range R p buffer (length bytes) true).
  { destruct Hrng as (H1r & H2r & H3r). split; [done|]. split; [lia|]. intros a Ha. apply H3r. lia. }
  assert (Hrun : (f ← find_open_file fd; if negb (f =? NULL) then
      _ ← syscall_acquire; r ← on_vm (on_fsys (file_read f size)); _ ⇐ put_bytes buffer r.2 junk; _ ← syscall_release; xret r.1 else xret (-1)) s =
      (_ ⇐ put_bytes buffer bytes junk; _ ← syscall_release; xret n) s2).
  { bind_by (apply (find_file_run s P T A M p); [done|unfold MAX_FILES; lia|done]). rewrite (proj2 (Z.eqb_neq f NULL) Hfn). cbn [negb].
    bind_by (by apply acquire_run). bind_by (exact E2). done. }
  rewrite Hrun. destruct (put_bytes_cases R junk bytes s2 P T A1 M p buffer R2 Hrng2) as [(s3 & T3 & A3 & M3 & p3 & E3 & R3 & K3 & B3)|Hno].
  2: { right. by apply starved_xbind. }
  left. destruct K3 as [C3 G3 P3 F3 G3' Q3 O3]. exists (set_syscall_lock None s3), T3, A3, M3, p3. rewrite C2 in *.
  assert (Eall : set_sys_vm (sys_vm s1) s3 = s1) by (by eapply rest_trans).
  assert (El3 : syscall_lock s3 = Some (current (sys_vm s3))) by (rewrite C3; by rewrite (rest_lock _ _ _ Eall)).
  split_and!.
  - rewrite (xbind_run _ _ _ _ _ E3). bind_by (by apply release_run). done.
  - by apply ready_lock.
  - constructor; [done| |done|done|done|done|unfold same_room in *; simpl in *; congruence]. rewrite <- Hsl. by apply (locked_rest s s3 _ (sys_vm s1) (Some t)).
  - exact B3.
Qed.

(** ** Writing a file *)

Lemma write_count_ok (m : fs D) A f h data size :
  refines m A -> a_open A !! f = Some h -> a_data A !! h_file h = Some data ->
  write_count f size m = Ok (if decide (denied A (h_file h)) then 0 else moved data size (h_pos h), m).
Proof.
  intros [live S] Hh Hd. destruct (handle_file m live _ A f h S Hh) as (fl & i & _ & Hf & _ & Hi & Hns & -> & _ & _ & Hda).
  simpl in *. rewrite Hda in Hd. injection Hd as <-. pose proof (deny_iff m live A _ i S Hi Hns) as Hdn.
  destruct (inv_open_inode _ _ _ _ _ (m_inv _ _ _ _ S) Hi) as [_ _ _ Hlk []].
  unfold write_count. bind_by (unfold get_file; rewrite Hf; reflexivity). bind_by (unfold get_inode; rewrite Hlk; reflexivity).
  unfold mret, M_ret. f_equal. f_equal. unfold moved, contents, inode_length. rewrite bytes_length.
  destruct (deny_write_cnt i =? 0) eqn:E; bool_to_prop.
  - rewrite decide_False by tauto. lia.
  - rewrite decide_True; [done|]. destruct (decide (denied A (i_sector i))); tauto.
Qed.
(** The bytes written and what becomes of the files. *)
Definition written (A : afs) (f : Z) (h : handle) (data bytes : list Z) : afs :=
  with_handle f (mk_handle (h_file h) (h_pos h + Z.of_nat (length bytes)) (h_deny h))
    (mk_afs (a_dir A) (<[h_file h := overwrite data (h_pos h) bytes]> (a_data A)) (a_open A)).
Definition write_limit (A : afs) (h : handle) (data : list Z) (size : Z) : Z :=
  if decide (denied A (h_file h)) then 0 else moved data size (h_pos h).

Lemma file_write_run (m : fs D) A f h data bytes :
  refines m A -> a_open A !! f = Some h -> a_data A !! h_file h = Some data ->
  write_limit A h data (Z.of_nat (length bytes)) = Z.of_nat (length bytes) ->
  let n := Z.of_nat (length bytes) in
  exists m', file_write f bytes n m = Ok (n, m') /\ spec A (Write f bytes n) (Number n) (written A f h data bytes) /\
    refines m' (written A f h data bytes) /\ brk m <= brk m' /\ same_room m m'.
Proof.
  intros [live S] Hh Hd Hlim n. destruct (file_write_sim m live A f h data bytes n S Hh Hd) as (r & m' & A' & E & Hsp & Rm & Om); [unfold n; lia|].
  pose proof Hsp as [-> ->]. fold (write_limit A h data n) in *. fold n in Hlim. rewrite Hlim in *. unfold n in *. rewrite Nat2Z.id, take_ge in * by done.
  exists m'. fold (written A f h data bytes) in *. split; [|split; [by exists h, data|split; [done|split; [by eapply grows_run|done]]]].
  unfold run, mbind, M_bind in E. destruct (file_write f bytes _ m) as [[k m2]|]; [|done]. unfold mret, M_ret in E. by injection E as -> ->.
Qed.
Lemma same_files_written A A1 f h data bytes : same_files A A1 -> same_files (written A f h data bytes) (written A1 f h data bytes).
Proof. intros (D1 & O1 & N1). split_and!; simpl; [by rewrite D1|by rewrite !fmap_insert, O1|done]. Qed.

Lemma write_limit_idem A A1 h data size n :
  same_files A A1 -> n = write_limit A h data size -> write_limit A1 h data n = n.
Proof.
  intros Hs ->. pose proof (same_files_denied A A1 (h_file h) Hs) as Hd. unfold write_limit, moved.
  destruct (decide (denied A (h_file h))) as [K|K]; [rewrite decide_True by tauto; done|]. rewrite decide_False by tauto. lia.
Qed.

Lemma write_h_cases s P T A M p fd f h data buffer size junk :
  ready s P T A M p -> syscall_lock s = None -> 2 <= fd < MAX_FILES -> open_files p !! Z.to_nat fd = Some f -> f <> NULL ->
  a_open A !! f = Some h -> h_deny h = false -> a_data A !! h_file h = Some data -> 0 <= size < 2 ^ 31 ->
  0 <= buffer < PHYS_BASE -> may_access p buffer (personal_esp p) false ->
  let n := write_limit A h data size in may_range R p buffer (Z.to_nat n) false ->
  let bytes := user_bytes M (current (sys_vm s)) buffer (Z.to_nat n) in
  (exists s' T' A' M' p', write_h fd buffer size junk s = Ok (Some n, s') /\ ready s' P T' A' M' p' /\
     kept R s s' (written A f h data bytes) A' p p' /\ same_bytes M M') \/
  starved R p (write_h fd buffer size junk s).
Proof.
  intros Rd Hsl Hfd Hf Hfn Hh Hdn Hd Hsz Hb Hbm n Hrng bytes. unfold write_h.
  rewrite (xbind_run _ _ _ _ _ (check_pointer_ok s P T A M p buffer Rd Hb Hbm)). rewrite (proj2 (Z.eqb_neq fd STDOUT_FILENO)) by (unfold STDOUT_FILENO; lia).
  rewrite s32_small by lia. unfold MAX_FILES in Hfd.
  set (t := current (sys_vm s)) in *. set (s1 := set_syscall_lock (Some t) s). pose proof (ready_lock _ _ _ _ _ _ (Some t) Rd) as R1. fold s1 in R1.
  bind_by (apply (find_file_run s P T A M p); [done|unfold MAX_FILES; lia|done]). rewrite (proj2 (Z.eqb_neq f NULL) Hfn). cbn [negb].
  bind_by (by apply acquire_run). fold t s1.
  bind_by (unfold on_vm, on_fsys; rewrite (write_count_ok _ A f h data size (vi_fs _ _ _ _ _ _ (rd_inv _ _ _ _ _ _ R1)) Hh Hd); reflexivity).
  fold (write_limit A h data size). fold n. replace (set_sys_vm _ s1) with s1 by (by destruct s as [[]]).
  assert (Hn : 0 <= n) by (unfold n, write_limit, moved; case_decide; lia).
  destruct (get_bytes_cases R junk (Z.to_nat n) s1 P T A M p buffer R1 Hrng) as [(s2 & T2 & A2 & M2 & p2 & E2 & R2 & K2 & S2)|Hno].
  2: { right. by apply starved_xbind. }
  rewrite (xbind_run _ _ _ _ _ E2). change (current (sys_vm s1)) with t. fold bytes.
  assert (Hlen : Z.of_nat (length bytes) = n) by (unfold bytes, user_bytes; rewrite length_map, length_seq; lia).
  pose proof (kp_files _ _ _ _ _ _ _ K2) as Sf. pose proof (same_files_handle _ _ _ _ Sf Hh Hdn) as Hh2.
  destruct (file_write_run (fsys (sys_vm s2)) A2 f h data bytes (vi_fs _ _ _ _ _ _ (rd_inv _ _ _ _ _ _ R2)) Hh2) as (m & Ew & Hsp & Rm & Bm & Om).
  { by rewrite (proj1 Sf). } { rewrite Hlen. by apply (write_limit_idem A A2 h data size). }
  rewrite Hlen in *.
  destruct (fs_step_ok s2 P T2 A2 M2 p2 (file_write f bytes n) n m _ R2 Ew Rm) as (s3 & E3 & R3 & C3 & K3 & _ & Em); [|done|].
  { intros t' e _. by apply (spec_text _ _ _ _ _ Hsp). }
  left. destruct K2 as [C2 G2 P2 F2 G2' Q2 O2]. exists (set_syscall_lock None s3), T2, (written A2 f h data bytes), M2, p2.
  assert (Eall : set_sys_vm (sys_vm s1) s3 = s1) by (by eapply rest_trans).
  assert (El3 : syscall_lock s3 = Some (current (sys_vm s3))) by (rewrite C3, C2; by rewrite (rest_lock _ _ _ Eall)).
  split_and!.
  - bind_by (exact E3). bind_by (by apply release_run). done.
  - by apply ready_lock.
  - constructor; [change (current (sys_vm s3) = t); by rewrite C3, C2| |done|by apply same_files_written|done|done|unfold same_room in *; simpl in *; congruence]. rewrite <- Hsl. by apply (locked_rest s s3 _ (sys_vm s1) (Some t)).
  - exact S2.
Qed.
End Handlers.
