(* ===== verification/SyscallCall.v ===== *)
(** * A system call from the arguments on the stack to the result

    The handler reads the number and the arguments of a call from the stack of
    the process, and calls the handler of its number. *)

From S2P Require Import Prelude Block FsState Inode File Directory FsSpec FsInv FsOps FsGrow Vaddr Bitmap Palloc Pagedir Spage Swap Frame Fault VmInv Clock Evict Paging PageFault UserMemory Loader LoadSteps LoadOk Syscall SyscallMem SyscallOk.

Section Calls.
Context `{BlockLaws D} `{KpageSearch} `{!KpageLaws}.
Implicit Types (v : vm D) (s : sys D).
Context (R : Z -> Prop).

(** The words of a call: its number and arguments, on the stack from [esp] on,
    which the process may read. *)
Record call_frame s M (p : process) (esp : Z) (words : list Z) : Prop := {
  cf_first : may_access p esp (personal_esp p) false;
  cf_range : may_range R (set_personal_esp esp p) esp (4 * length words) false;
  cf_words : forall i w, words !! i = Some w -> user_word_at M (current (sys_vm s)) (esp + 4 * Z.of_nat i) = w;
}.

(** A step that only reads memory. *)
Definition reads {B} (m : X (sys D) B) s P A M p (b : B) : Prop :=
  (exists s' T' A' M' p', m s = Ok (Some b, s') /\ ready s' P T' A' M' p' /\ kept R s s' A A' p p' /\ same_bytes M M') \/ starved R p (m s).

Lemma reads_bind {B C} (m : X (sys D) B) (k : B -> X (sys D) C) s P A M p b (G : res (option C * sys D) -> Prop) :
  reads m s P A M p b -> (forall r, starved R p r -> G r) ->
  (forall s' T' A' M' p', ready s' P T' A' M' p' -> kept R s s' A A' p p' -> same_bytes M M' -> G (k b s')) -> G (xbind m k s).
Proof.
  intros [(s' & T' & A' & M' & p' & E & Rd & K & Sb)|Hst] Hno Hk.
  - rewrite (xbind_run _ _ _ _ _ E). by eapply Hk.
  - apply Hno. by apply starved_xbind.
Qed.

Lemma call_range s M p esp words i :
  call_frame s M p esp words -> (i < length words)%nat -> may_range R (set_personal_esp esp p) (esp + 4 * Z.of_nat i) 4 false.
Proof. intros [_ (Hv & Hn & Hm) _] Hi. split; [lia|]. split; [lia|]. intros a Ha. apply Hm. lia. Qed.

Lemma arg_reads s P T A M p esp n junk :
  ready s P T A M p -> may_range R p (esp + 4 * n) 4 false -> reads (arg esp n junk) s P A M p (user_word_at M (current (sys_vm s)) (esp + 4 * n)).
Proof.
  intros Rd Hr. assert (HB : PHYS_BASE < 2 ^ 32) by done. unfold arg. rewrite u32_small by (destruct Hr as (? & ? & _); lia).
  by apply (get_word_cases R s P T).
Qed.
Lemma check_arg_ok s P T A M p esp n :
  ready s P T A M p -> may_range R p (esp + 4 * n) 4 false -> check_arg esp n s = Ok (Some tt, s).
Proof.
  intros Rd (Hv & Hn & Hm). assert (HB : PHYS_BASE < 2 ^ 32) by done. unfold check_arg. rewrite u32_small by lia.
  apply (check_pointer_ok s P T A M p); [done|lia|]. apply Hm. lia.
Qed.

(** The handler up to the switch. *)
Lemma handler_start s P T A M p esp words n djunk junk (G : res (option sys_outcome * sys D) -> Prop) :
  ready s P T A M p -> call_frame s M p esp words -> words !! 0%nat = Some n ->
  (forall r, starved R (set_personal_esp esp p) r -> G r) ->
  (forall s' T' A' M' p', ready s' P T' A' M' p' -> kept R s s' A A' (set_personal_esp esp p) p' -> same_bytes M M' ->
     G (syscall_switch (s32 n) esp djunk junk s')) ->
  G ((_ ⇐ check_pointer esp; p ← this_process; _ ← set_this_process (set_personal_esp esp p); n ⇐ get_word esp junk;
      syscall_switch (s32 n) esp djunk junk) s).
Proof.
  intros Rd Hcf Hn Hno Hk. pose proof Hcf as [Hf _ Hw]. pose proof (call_range s M p esp words 0 Hcf) as Hr.
  assert (Hl : (0 < length words)%nat) by (by apply lookup_lt_Some in Hn). specialize (Hr Hl). rewrite Z.mul_0_r, Z.add_0_r in Hr.
  specialize (Hw _ _ Hn). rewrite Z.mul_0_r, Z.add_0_r in Hw. destruct Hr as (Hv & Hp & Hm).
  rewrite (xbind_run _ _ _ _ _ (check_pointer_ok s P T A M p esp Rd ltac:(lia) Hf)).
  destruct (set_process_ok s P T A M p (set_personal_esp esp p) Rd) as (s1 & E1 & R1 & C1 & K1 & F1); [done|done|].
  bind_by (by eapply this_process_run). bind_by (exact E1).
  assert (K : kept R s s1 A A (set_personal_esp esp p) (set_personal_esp esp p)).
  { constructor; [done|done|done|apply same_files_refl|by intros ?|done|by unfold same_room; rewrite F1]. }
  eapply (reads_bind _ _ s1 P A M); [apply (get_word_cases R s1 P T); [exact R1|by split]|exact Hno|].
  intros s2 T2 A2 M2 p2 R2 K2 S2. rewrite C1, Hw. eapply (Hk s2 T2 A2 M2 p2 R2); [|done]. by eapply kept_trans.
Qed.

(** The frame after a step that only reads memory. *)
Lemma frame_word s s' A A' M M' p p' esp words i w :
  call_frame s M p esp words -> kept R s s' A A' (set_personal_esp esp p) p' -> same_bytes M M' -> words !! i = Some w ->
  may_range R p' (esp + 4 * Z.of_nat i) 4 false /\ user_word_at M' (current (sys_vm s')) (esp + 4 * Z.of_nat i) = w.
Proof.
  intros Hcf K Sb Hi. assert (Hl : (i < length words)%nat) by (by apply lookup_lt_Some in Hi).
  pose proof (call_range s M p esp words i Hcf Hl) as Hr. split.
  - apply (may_range_kept R (set_personal_esp esp p)); [apply K| |done]. by apply (kept_esp _ _ _ _ _ _ _ K).
  - destruct Hr as (Hv & Hn & _). rewrite (kp_current _ _ _ _ _ _ _ K), (same_user_word M) by (done || lia). by apply Hcf.
Qed.

(** The arguments of [read] and [write]. *)
Lemma args3_ok s s0 P T A0 A M0 M p0 p esp words w1 w2 w3 junk {C} (k : Z -> Z -> Z -> X (sys D) C) (G : res (option C * sys D) -> Prop) :
  call_frame s0 M0 p0 esp words -> words !! 1%nat = Some w1 -> words !! 2%nat = Some w2 -> words !! 3%nat = Some w3 ->
  ready s P T A M p -> kept R s0 s A0 A (set_personal_esp esp p0) p -> same_bytes M0 M ->
  (forall r, starved R (set_personal_esp esp p0) r -> G r) ->
  (forall s' T' A' M' p', ready s' P T' A' M' p' -> kept R s0 s' A0 A' (set_personal_esp esp p0) p' -> same_bytes M0 M' -> G (k w1 w3 w2 s')) ->
  G ((_ ⇐ check_arg esp 1; _ ⇐ check_arg esp 2; _ ⇐ check_arg esp 3;
      fd ⇐ arg esp 1 junk; size ⇐ arg esp 3 junk; buffer ⇐ arg esp 2 junk; k fd size buffer) s).
Proof.
  intros Hcf H1w H2w H3w Rd K Sb Hno Hk.
  assert (Hf : forall s' T' A' M' p' i w, ready s' P T' A' M' p' -> kept R s0 s' A0 A' (set_personal_esp esp p0) p' -> same_bytes M0 M' -> words !! i = Some w ->
    may_range R p' (esp + 4 * Z.of_nat i) 4 false /\ user_word_at M' (current (sys_vm s')) (esp + 4 * Z.of_nat i) = w)
    by (intros; by eapply frame_word).
  rewrite (xbind_run _ _ _ _ _ (check_arg_ok s P T A M p esp 1 Rd (proj1 (Hf _ _ _ _ _ _ _ Rd K Sb H1w)))).
  rewrite (xbind_run _ _ _ _ _ (check_arg_ok s P T A M p esp 2 Rd (proj1 (Hf _ _ _ _ _ _ _ Rd K Sb H2w)))).
  rewrite (xbind_run _ _ _ _ _ (check_arg_ok s P T A M p esp 3 Rd (proj1 (Hf _ _ _ _ _ _ _ Rd K Sb H3w)))).
  destruct (Hf _ _ _ _ _ _ _ Rd K Sb H1w) as [G1 E1]. change (Z.of_nat 1) with 1 in E1, G1.
  eapply (reads_bind _ _ s P A M); [by apply (arg_reads s P T A M p esp 1)|intros r Hr; apply Hno; by eapply starved_kept|].
  rewrite E1. intros s1 T1 A1 M1 p1 R1 K1 S1. pose proof (kept_trans _ _ _ _ _ _ _ _ _ _ K K1) as K1'. pose proof (same_bytes_trans _ _ _ Sb S1) as S1'.
  destruct (Hf _ _ _ _ _ _ _ R1 K1' S1' H3w) as [G3 E3]. change (Z.of_nat 3) with 3 in E3, G3.
  eapply (reads_bind _ _ s1 P A1 M1); [by apply (arg_reads s1 P T1 A1 M1 p1 esp 3)|intros r Hr; apply Hno; by eapply starved_kept|].
  rewrite E3. intros s2 T2 A2 M2 p2 R2 K2 S2. pose proof (kept_trans _ _ _ _ _ _ _ _ _ _ K1' K2) as K2'. pose proof (same_bytes_trans _ _ _ S1' S2) as S2'.
  destruct (Hf _ _ _ _ _ _ _ R2 K2' S2' H2w) as [G2 E2]. change (Z.of_nat 2) with 2 in E2, G2.
  eapply (reads_bind _ _ s2 P A2 M2); [by apply (arg_reads s2 P T2 A2 M2 p2 esp 2)|intros r Hr; apply Hno; by eapply starved_kept|].
  rewrite E2. intros s3 T3 A3 M3 p3 R3 K3 S3. eapply (Hk s3 T3 A3 M3 p3 R3); [by eapply kept_trans|by eapply same_bytes_trans].
Qed.

(** The result of the handler. *)
Lemma outcome_run (m : X (sys D) sys_outcome) s r s' : m s = Ok (Some r, s') -> outcome_of m s = Ok (r, s').
Proof. intros E. unfold outcome_of. by bind_by (exact E). Qed.
Lemma outcome_starved (m : X (sys D) sys_outcome) s p : starved R p (m s) -> starved R p (outcome_of m s).
Proof. apply starved_bind. Qed.
Lemma returns_run (m : X (sys D) Z) s n s' : 0 <= n < 2 ^ 32 -> m s = Ok (Some n, s') -> xlift (returns m) s = Ok (Some (Return (Some n)), s').
Proof.
  intros Hn E. assert (E' : returns m s = Ok (Return (Some n), s')) by (unfold returns, mbind, M_bind; rewrite E; unfold mret, M_ret; by rewrite u32_small by lia).
  unfold xlift. by bind_by (exact E').
Qed.
Lemma returns_starved (m : X (sys D) Z) s p : starved R p (m s) -> starved R p (xlift (returns m) s).
Proof. intros Hs. by apply starved_bind, starved_bind. Qed.

(** A file descriptor of the process. *)
Record descriptor (p : process) (A : afs) (fd f : Z) (h : handle) (data : list Z) : Prop := {
  ds_fd : 2 <= fd < MAX_FILES;
  ds_file : open_files p !! Z.to_nat fd = Some f;
  ds_null : f <> NULL;
  ds_open : a_open A !! f = Some h;
  ds_plain : h_deny h = false;
  ds_data : a_data A !! h_file h = Some data;
}.
Lemma descriptor_kept s s' A A' p p' fd f h data :
  descriptor p A fd f h data -> kept R s s' A A' p p' -> descriptor p' A' fd f h data.
Proof.
  intros [Hfd Hf Hn Ho Hd Hda] [_ _ Hp Sf _ _]. constructor; try done.
  - assert (E : open_files p' = open_files p) by (by injection Hp). by rewrite E.
  - by apply (same_files_handle A).
  - by rewrite (proj1 Sf).
Qed.
Lemma bytes_put_same M M1 M2 t va bytes : same_bytes M M1 -> bytes_put M1 M2 t va bytes -> bytes_put M M2 t va bytes.
Proof. intros Hs Hb t' a Ha. rewrite Hb by done. by rewrite Hs. Qed.
Lemma same_files_with A A1 f h : same_files A A1 -> same_files (with_handle f h A) (with_handle f h A1).
Proof. intros (D1 & O1 & N1). split_and!; simpl; [done|by rewrite !fmap_insert, O1|done]. Qed.
Lemma kept_after s s1 s2 A A1 B B1 B2 p p1 p2 :
  kept R s s1 A A1 p p1 -> kept R s1 s2 B1 B2 p1 p2 -> same_files B B1 -> kept R s s2 B B2 p p2.
Proof.
  intros K1 K2 Sf. assert (K : kept R s s1 B B1 p p1) by (destruct K1; by constructor). by eapply kept_trans.
Qed.
Lemma may_access_kept s s' A A' p p' va w :
  kept R s s' A A' p p' -> may_access p va (personal_esp p) w -> may_access p' va (personal_esp p') w.
Proof. intros K Hm. rewrite (kept_esp _ _ _ _ _ _ _ K). by apply K. Qed.

(** The end of a call that returns [n]. *)
Definition call_returns {B} (b : B) (P : gset Z) (p : process) (Q : sys D -> afs -> gmap (Z * Z) (list Z) -> process -> Prop) (r : res (B * sys D)) : Prop :=
  (exists s' T' A' M' p', r = Ok (b, s') /\ ready s' P T' A' M' p' /\ Q s' A' M' p') \/ starved R p r.

(** A call with three arguments. *)
Lemma call3_ok s P T A M p esp num w1 w2 w3 djunk junk k n Q :
  (forall s', syscall_switch (s32 num) esp djunk junk s' =
    (_ ⇐ check_arg esp 1; _ ⇐ check_arg esp 2; _ ⇐ check_arg esp 3;
     fd ⇐ arg esp 1 junk; size ⇐ arg esp 3 junk; buffer ⇐ arg esp 2 junk; xlift (returns (k fd size buffer))) s') ->
  ready s P T A M p -> call_frame s M p esp [num; w1; w2; w3] -> 0 <= n < 2 ^ 32 ->
  (forall s' T' A' M' p', ready s' P T' A' M' p' -> kept R s s' A A' (set_personal_esp esp p) p' -> same_bytes M M' ->
     call_returns (Some n) P p' Q (k w1 w3 w2 s')) ->
  call_returns (Return (Some n)) P (set_personal_esp esp p) Q (syscall_handler esp djunk junk s).
Proof.
  intros Hsw Rd Hcf Hn Hk. unfold syscall_handler.
  match goal with |- context [outcome_of ?m s] => cut (call_returns (Some (Return (Some n))) P (set_personal_esp esp p) Q (m s)) end.
  { intros [(s' & T' & A' & M' & p' & E & HQ)|Hst]; [left; exists s', T', A', M', p'; split; [by apply outcome_run|done]|right; by apply outcome_starved]. }
  apply (handler_start s P T A M p esp [num; w1; w2; w3] num); try done; [by right|].
  intros s1 T1 A1 M1 p1 R1 K1 S1. rewrite Hsw.
  apply (args3_ok s1 s P T1 A A1 M M1 p p1 esp [num; w1; w2; w3] w1 w2 w3); try done; [by right|].
  intros s2 T2 A2 M2 p2 R2 K2 S2. destruct (Hk s2 T2 A2 M2 p2 R2 K2 S2) as [(s3 & T3 & A3 & M3 & p3 & E3 & HQ)|Hst].
  - left. exists s3, T3, A3, M3, p3. split; [by apply returns_run|done].
  - right. apply returns_starved. by eapply starved_kept.
Qed.

Lemma read_call_ok s P T A M p esp fd f h data buffer size djunk junk :
  let p1 := set_personal_esp esp p in let n := moved data size (h_pos h) in
  ready s P T A M p -> syscall_lock s = None -> call_frame s M p esp [SYS_READ; fd; buffer; size] -> descriptor p1 A fd f h data ->
  0 <= size < 2 ^ 31 -> 0 <= buffer < PHYS_BASE -> may_access p1 buffer esp false -> may_range R p1 buffer (Z.to_nat n) true ->
  call_returns (Return (Some n)) P p1 (fun s' A' M' p' =>
     kept R s s' (with_handle f (mk_handle (h_file h) (h_pos h + n) (h_deny h)) A) A' p1 p' /\
     bytes_put M M' (current (sys_vm s)) buffer (take (Z.to_nat n) (drop (Z.to_nat (h_pos h)) data)))
    (syscall_handler esp djunk junk s).
Proof.
  intros p1 n Rd Hsl Hcf Hds Hsz Hb Hbm Hrng.
  apply (call3_ok s P T A M p esp SYS_READ fd buffer size djunk junk (fun fd size buffer => read_h (s32 fd) buffer size junk)); try done.
  { unfold n, moved. lia. }
  intros s2 T2 A2 M2 p2 R2 K2 S2. destruct (descriptor_kept _ _ _ _ _ _ _ _ _ _ Hds K2) as [Hfd Hf Hnl Hh Hdn Hda].
  rewrite s32_small by (unfold MAX_FILES in Hfd; lia).
  destruct (read_h_cases R s2 P T2 A2 M2 p2 fd f h data buffer size junk) as [(s3 & T3 & A3 & M3 & p3 & E3 & R3 & K3 & B3)|Hst]; try done.
  - rewrite <- Hsl. by apply (rest_lock _ _ _ (kp_rest _ _ _ _ _ _ _ K2)).
  - by eapply (may_access_kept _ _ _ _ p1).
  - fold n. apply (may_range_kept R p1); [apply K2|by eapply kept_esp|done].
  - fold n in E3, K3, B3. left. exists s3, T3, A3, M3, p3. split; [done|]. split; [done|]. split.
    + eapply kept_after; [exact K2|exact K3|]. apply same_files_with, K2.
    + rewrite (kp_current _ _ _ _ _ _ _ K2) in B3. by eapply bytes_put_same.
  - by right.
Qed.

Lemma write_call_ok s P T A M p esp fd f h data buffer size djunk junk :
  let p1 := set_personal_esp esp p in let n := write_limit A h data size in
  let bytes := user_bytes M (current (sys_vm s)) buffer (Z.to_nat n) in
  ready s P T A M p -> syscall_lock s = None -> call_frame s M p esp [SYS_WRITE; fd; buffer; size] -> descriptor p1 A fd f h data ->
  0 <= size < 2 ^ 31 -> 0 <= buffer < PHYS_BASE -> may_access p1 buffer esp false -> may_range R p1 buffer (Z.to_nat n) false ->
  call_returns (Return (Some n)) P p1 (fun s' A' M' p' => kept R s s' (written A f h data bytes) A' p1 p' /\ same_bytes M M')
    (syscall_handler esp djunk junk s).
Proof.
  intros p1 n bytes Rd Hsl Hcf Hds Hsz Hb Hbm Hrng.
  apply (call3_ok s P T A M p esp SYS_WRITE fd buffer size djunk junk (fun fd size buffer => write_h (s32 fd) buffer size junk)); try done.
  { unfold n, write_limit, moved. case_decide; lia. }
  intros s2 T2 A2 M2 p2 R2 K2 S2. destruct (descriptor_kept _ _ _ _ _ _ _ _ _ _ Hds K2) as [Hfd Hf Hnl Hh Hdn Hda].
  rewrite s32_small by (unfold MAX_FILES in Hfd; lia). pose proof (kp_files _ _ _ _ _ _ _ K2) as Sf.
  assert (Hlim : write_limit A2 h data size = n).
  { pose proof (same_files_denied A A2 (h_file h) Sf) as Hd. unfold n, write_limit. repeat case_decide; tauto. }
  assert (Hbytes : user_bytes M2 (current (sys_vm s2)) buffer (Z.to_nat n) = bytes).
  { rewrite (kp_current _ _ _ _ _ _ _ K2). destruct Hrng as (Hv & Hn & _). by apply same_user_bytes. }
  destruct (write_h_cases R s2 P T2 A2 M2 p2 fd f h data buffer size junk) as [(s3 & T3 & A3 & M3 & p3 & E3 & R3 & K3 & B3)|Hst]; try done.
  - rewrite <- Hsl. by apply (rest_lock _ _ _ (kp_rest _ _ _ _ _ _ _ K2)).
  - by eapply (may_access_kept _ _ _ _ p1).
  - rewrite Hlim. apply (may_range_kept R p1); [apply K2|by eapply kept_esp|done].
  - rewrite Hlim, ?Hbytes in *. left. exists s3, T3, A3, M3, p3. split; [done|]. split; [done|]. split; [|by eapply same_bytes_trans].
    eapply kept_after; [exact K2|exact K3|]. by apply same_files_written.
  - by right.
Qed.
End Calls.
