(* ===== verification/Descriptors.v ===== *)
(** * File descriptors

    The search for a free slot of the table of open files, the table as an
    invariant of a process, and the calls that change it. *)

From S2P Require Import Prelude Block FsState Inode File Directory FsSpec FsInv FsOps FsNames FsGrow Vaddr Bitmap Palloc Pagedir Spage Swap Frame Fault VmInv Clock Evict Paging PageFault UserMemory Loader LoadSteps LoadOk LoadProps Syscall SyscallMem SyscallOk SyscallCall.

(** ** The search *)

Section Search.
Context (files : list Z) (new_file : Z).
Hypothesis Hlen : length files = 128%nat.
Abbreviation free j := (files !! Z.to_nat j = Some NULL).

Lemma slot_some i : 0 <= i < 128 -> exists f, files !! Z.to_nat i = Some f.
Proof. intros Hi. apply lookup_lt_is_Some_2. lia. Qed.
Lemma scan_step fuel i : 0 <= i < 128 -> ~ free i ->
  assign_fd_loop (S fuel) new_file files i = assign_fd_loop fuel new_file files (if i =? 127 then 3 else i + 1).
Proof.
  intros Hi Hn. destruct (slot_some i Hi) as [f Hf]. cbn [assign_fd_loop]. unfold MAX_FILES. rewrite (proj2 (Z.ltb_lt i 128)) by lia. rewrite Hf.
  cbn [of_option mbind res_bind]. rewrite (proj2 (Z.eqb_neq f NULL)) by congruence. f_equal. change (128 - 1) with 127. by destruct (i =? 127).
Qed.
Lemma scan fuel n : forall i, 0 <= i -> i + Z.of_nat n <= 127 -> (forall k, i <= k < i + Z.of_nat n -> ~ free k) ->
  assign_fd_loop (n + fuel) new_file files i = assign_fd_loop fuel new_file files (i + Z.of_nat n).
Proof.
  induction n as [|n IH]; intros i Hi Hb Hno; [by rewrite Z.add_0_r|]. cbn [Nat.add]. rewrite scan_step by (lia || (apply Hno; lia)).
  rewrite (proj2 (Z.eqb_neq i 127)) by lia. rewrite IH by (lia || (intros k Hk; apply Hno; lia)). f_equal. lia.
Qed.
Lemma scan_free fuel i : 0 <= i < 128 -> free i -> assign_fd_loop (S fuel) new_file files i = Ok (<[Z.to_nat i := new_file]> files, Some i).
Proof.
  intros Hi Hf. cbn [assign_fd_loop]. unfold MAX_FILES. rewrite (proj2 (Z.ltb_lt i 128)) by lia. by rewrite Hf.
Qed.
(** The first free slot from [i] on. *)
Lemma first_free n : forall i, 
  (forall k, i <= k < i + Z.of_nat n -> ~ free k) \/
  (exists j, i <= j < i + Z.of_nat n /\ free j /\ forall k, i <= k < j -> ~ free k).
Proof.
  induction n as [|n IH]; intros i; [left; lia|]. destruct (decide (free i)) as [Hf|Hf].
  - right. exists i. split; [lia|]. split; [done|]. lia.
  - destruct (IH (i + 1)) as [Hno|(j & Hj & Hfj & Hno)].
    + left. intros k Hk. destruct (decide (k = i)) as [->|]; [done|]. apply Hno. lia.
    + right. exists j. split; [lia|]. split; [done|]. intros k Hk. destruct (decide (k = i)) as [->|]; [done|]. apply Hno. lia.
Qed.
Lemma scan_to fuel i j : 0 <= i <= j -> j < 128 -> free j -> (forall k, i <= k < j -> ~ free k) -> (Z.to_nat (j - i) < fuel)%nat ->
  assign_fd_loop fuel new_file files i = Ok (<[Z.to_nat j := new_file]> files, Some j).
Proof.
  intros Hi Hj Hf Hno Hfu. replace fuel with (Z.to_nat (j - i) + S (fuel - S (Z.to_nat (j - i))))%nat by lia.
  rewrite scan by (lia || (intros k Hk; apply Hno; lia)). replace (i + Z.of_nat (Z.to_nat (j - i))) with j by lia. apply scan_free; [lia|done].
Qed.

(** With a free slot, other than slot 2 after the first round, the search ends. *)
Lemma assign_fd_total i j : 2 <= i < 128 -> i <= j < 128 \/ 3 <= j < 128 -> free j ->
  exists k, 2 <= k < 128 /\ free k /\ assign_fd_loop fd_fuel new_file files i = Ok (<[Z.to_nat k := new_file]> files, Some k).
Proof.
  intros Hi Hj Hf. unfold fd_fuel. destruct (first_free (Z.to_nat (128 - i)) i) as [Hno|(k & Hk & Hfk & Hno)].
  2: { exists k. split; [lia|]. split; [done|]. apply scan_to; try done; lia. }
  destruct (first_free 125 3) as [Hno3|(k & Hk & Hfk & Hno3)].
  { exfalso. destruct (decide (i <= j)); [apply (Hno j); [lia|done]|apply (Hno3 j); [lia|done]]. }
  exists k. split; [lia|]. split; [done|].
  replace 256%nat with (Z.to_nat (127 - i) + S (128 + Z.to_nat i))%nat by lia. rewrite scan by (lia || (intros x Hx; apply Hno; lia)).
  replace (i + Z.of_nat (Z.to_nat (127 - i))) with 127 by lia. rewrite scan_step by (lia || (apply Hno; lia)). rewrite Z.eqb_refl. apply scan_to; try done; lia.
Qed.

(** Without one it does not end. *)
Lemma assign_fd_forever fuel : forall i, 2 <= i < 128 -> (forall j, i <= j < 128 \/ 3 <= j < 128 -> ~ free j) ->
  assign_fd_loop fuel new_file files i = Err OutOfFuel.
Proof.
  induction fuel as [|fuel IH]; intros i Hi Hno; [done|]. rewrite scan_step by (lia || (apply Hno; lia)).
  destruct (i =? 127) eqn:E; bool_to_prop; apply IH; try lia; intros j Hj; apply Hno; lia.
Qed.
End Search.

Lemma find_fd_loop_ok target l : forall i k, l !! k = Some target -> (forall j, (j < k)%nat -> l !! j <> Some target) ->
  find_fd_loop l i target = i + Z.of_nat k.
Proof.
  induction l as [|f l IH]; intros i k Hk Hno; [done|]. cbn [find_fd_loop]. destruct k as [|k].
  - injection Hk as ->. rewrite Z.eqb_refl. lia.
  - rewrite (proj2 (Z.eqb_neq f target)). 2: { intros ->. by apply (Hno 0%nat); [lia|]. }
    rewrite (IH (i + 1) k Hk); [lia|]. intros j Hj. apply (Hno (S j)). lia.
Qed.
Lemma find_fd_ok files target k : files !! Z.to_nat k = Some target -> 2 <= k -> (forall j, files !! j = Some target -> j = Z.to_nat k) ->
  find_fd files target = k.
Proof.
  intros Hk H2 Hu. unfold find_fd. rewrite (find_fd_loop_ok target _ 2 (Z.to_nat (k - 2))); [lia| |].
  - rewrite lookup_drop. by replace (2 + Z.to_nat (k - 2))%nat with (Z.to_nat k) by lia.
  - intros j Hj. rewrite lookup_drop. intros E. apply Hu in E. lia.
Qed.

(** ** The table of a process *)

(** Every slot from 2 on is empty or holds an open file of its own, which does
    not deny writes; the next search starts at a slot. *)
Record fd_table (p : process) (A : afs) : Prop := {
  ft_length : length (open_files p) = 128%nat;
  ft_index : 2 <= index_fd p < 128;
  ft_low : forall fd f, open_files p !! fd = Some f -> f <> NULL -> (2 <= fd)%nat;
  ft_open : forall fd f, open_files p !! fd = Some f -> f <> NULL -> exists h, a_open A !! f = Some h /\ h_deny h = false;
  ft_own : forall i j f, open_files p !! i = Some f -> open_files p !! j = Some f -> f <> NULL -> i = j;
}.
(** A slot the search will reach. *)
Definition slot_left (p : process) : Prop := exists j, (3 <= j < 128)%nat /\ open_files p !! j = Some NULL.

Lemma fd_table_same p p' A A' :
  fd_table p A -> open_files p' = open_files p -> index_fd p' = index_fd p ->
  (forall f h, a_open A !! f = Some h -> h_deny h = false -> exists h', a_open A' !! f = Some h' /\ h_deny h' = false) -> fd_table p' A'.
Proof.
  intros [] Eo Ei Hk. constructor; rewrite ?Eo, ?Ei; try done. intros fd f Hf Hn. destruct (ft_open0 fd f Hf Hn) as (h & Hh & Hd). by apply (Hk f h).
Qed.
Lemma fd_table_put p A f h k :
  fd_table p A -> 2 <= k < 128 -> open_files p !! Z.to_nat k = Some NULL -> a_open A !! f = None -> h_deny h = false ->
  let p' := set_index_fd k (set_open_files (<[Z.to_nat k := f]> (open_files p)) p) in
  fd_table p' (with_handle f h A) /\ (forall j, open_files p' !! j = Some f -> f <> NULL -> j = Z.to_nat k).
Proof.
  intros [] Hk Hfree Hnew Hd p'.
  assert (Hnot : forall j, open_files p !! j = Some f -> f <> NULL -> False) by (intros j Hj Hn; destruct (ft_open0 j f Hj Hn) as (? & ? & _); congruence).
  assert (Hlk : forall j g, open_files p' !! j = Some g -> j = Z.to_nat k /\ g = f \/ j <> Z.to_nat k /\ open_files p !! j = Some g).
  { intros j g Hj. simpl in Hj. apply list_lookup_insert_Some in Hj as [(<- & <- & _)|[Hne Hj]]; [by left|right]. by split. }
  split; [|intros j Hj Hn; destruct (Hlk j f Hj) as [[-> _]|[_ Hj']]; [done|by destruct (Hnot j Hj' Hn)]].
  constructor; simpl; [by rewrite length_insert|lia| | |].
  - intros j g Hj Hn. destruct (Hlk j g Hj) as [[-> _]|[_ Hj']]; [lia|by eapply ft_low0].
  - intros j g Hj Hn. destruct (Hlk j g Hj) as [[_ ->]|[_ Hj']]; [exists h; by rewrite lookup_insert_eq|].
    destruct (ft_open0 j g Hj' Hn) as (x & Hx & Hxd). exists x. split; [|done]. rewrite lookup_insert_ne; [done|]. intros ->. congruence.
  - intros i j g Hi Hj Hn. destruct (Hlk i g Hi) as [[-> E1]|[_ Hi']], (Hlk j g Hj) as [[-> E2]|[_ Hj']]; try done.
    + subst g. by destruct (Hnot j Hj' Hn).
    + subst g. by destruct (Hnot i Hi' Hn).
    + by eapply ft_own0.
Qed.
Lemma fd_table_clear p A A' k f :
  fd_table p A -> open_files p !! k = Some f -> f <> NULL ->
  (forall g h, g <> f -> a_open A !! g = Some h -> a_open A' !! g = Some h) ->
  fd_table (set_open_files (<[k := NULL]> (open_files p)) p) A'.
Proof.
  intros [] Hk Hn Hkeep.
  assert (Hlk : forall j g, <[k := NULL]> (open_files p) !! j = Some g -> g <> NULL -> j <> k /\ open_files p !! j = Some g).
  { intros j g Hj Hg. apply list_lookup_insert_Some in Hj as [(<- & <- & _)|[Hne Hj]]; [done|]. by split. }
  constructor; simpl; [by rewrite length_insert|done| | |].
  - intros j g Hj Hg. destruct (Hlk j g Hj Hg) as [_ Hj']. by eapply ft_low0.
  - intros j g Hj Hg. destruct (Hlk j g Hj Hg) as [Hne Hj']. destruct (ft_open0 j g Hj' Hg) as (h & Hh & Hd). exists h. split; [|done].
    apply Hkeep; [|done]. intros ->. apply Hne. by eapply ft_own0.
  - intros i j g Hi Hj Hg. destruct (Hlk i g Hi Hg) as [_ Hi'], (Hlk j g Hj Hg) as [_ Hj']. by eapply ft_own0.
Qed.

Section Handlers.
Context `{BlockLaws D} `{KpageSearch} `{!KpageLaws}.
Implicit Types (v : vm D) (s : sys D).

(** [assign_fd] for a file that is in no slot. *)
Lemma assign_fd_ok s P T A M p f h :
  ready s P T (with_handle f h A) M p -> fd_table p A -> slot_left p -> a_open A !! f = None -> f <> NULL -> h_deny h = false ->
  exists k s', 2 <= k < 128 /\ open_files p !! Z.to_nat k = Some NULL /\ assign_fd f s = Ok (tt, s') /\
    let p' := set_index_fd k (set_open_files (<[Z.to_nat k := f]> (open_files p)) p) in
    ready s' P T (with_handle f h A) M p' /\ current (sys_vm s') = current (sys_vm s) /\ set_sys_vm (sys_vm s) s' = s /\
    fd_table p' (with_handle f h A) /\ find_fd (open_files p') f = k.
Proof.
  intros Rd Ht (j & Hj & Hfree) Hnew Hn Hd. pose proof (ft_length _ _ Ht) as Hlen. pose proof (ft_index _ _ Ht) as Hidx.
  destruct (assign_fd_total (open_files p) f Hlen (index_fd p) (Z.of_nat j)) as (k & Hk & Hfk & E); [lia|right; lia|by rewrite Nat2Z.id|].
  destruct (fd_table_put p A f h k Ht Hk Hfk Hnew Hd) as [Ht' Huniq].
  set (p' := set_index_fd k (set_open_files (<[Z.to_nat k := f]> (open_files p)) p)) in *.
  destruct (set_process_ok s P T _ M p p' Rd) as (s' & E' & R' & C' & K' & _); [done|done|].
  exists k, s'. split; [done|]. split; [done|]. split.
  { unfold assign_fd. bind_by (by eapply this_process_run). bind_by (unfold lift; rewrite E; reflexivity). exact E'. }
  split; [exact R'|]. split; [done|]. split; [done|]. split; [done|]. apply find_fd_ok; [|lia|].
  - simpl. rewrite list_lookup_insert_eq; [done|lia].
  - intros i Hi. by apply Huniq.
Qed.

Context (R : Z -> Prop).

(** What [open] does: nothing if there is no file of the name, and otherwise a
    new handle in a slot that was empty. *)
Definition open_result (A A' : afs) (p p' : process) (name : list Z) (r : Z) : Prop :=
  match a_dir A !! name with
  | None => r = -1 /\ same_files A A' /\ open_files p' = open_files p
  | Some sec => exists f, 2 <= r < 128 /\ open_files p !! Z.to_nat r = Some NULL /\ f <> NULL /\ a_open A !! f = None /\
      same_files (with_handle f (mk_handle sec 0 false) A) A' /\ open_files p' = <[Z.to_nat r := f]> (open_files p)
  end.

Lemma open_result_files A A2 A' p p2 p' name r :
  same_files A A2 -> open_files p2 = open_files p -> open_result A2 A' p2 p' name r -> open_result A A' p p' name r.
Proof.
  intros Sf Eof. unfold open_result. rewrite (proj2 (proj2 Sf)), Eof. destruct (a_dir A !! name) as [sec|].
  - intros (f & Hr & Hfr & Hn & Hnew & Sf' & E). exists f. split; [done|]. split; [done|]. split; [done|]. split; [|split; [|done]].
    + destruct (a_open A !! f) as [h|] eqn:Eh; [|done]. destruct (same_files_open A A2 f h Sf Eh) as (h' & ? & _). congruence.
    + eapply same_files_trans; [by apply same_files_with|done].
  - intros (-> & Sf' & E). split_and!; try done. by eapply same_files_trans.
Qed.

Lemma open_h_cases s P T A M p file name junk :
  ready s P T A M p -> syscall_lock s = None -> fd_table p A -> slot_left p -> room (fsys (sys_vm s)) ->
  0 <= file < PHYS_BASE -> may_access p file (personal_esp p) false ->
  may_range R p file (S (length name)) false -> user_string M (current (sys_vm s)) file name -> Forall (fun x => 0 < x < 256) name ->
  (exists s' T' A' M' p' r, open_h file junk s = Ok (Some r, s') /\ ready s' P T' A' M' p' /\
     current (sys_vm s') = current (sys_vm s) /\ set_sys_vm (sys_vm s) s' = s /\ same_bytes M M' /\
     fd_table p' A' /\ open_result A A' p p' name r) \/
  starved R p (open_h file junk s).
Proof.
  intros Rd Hsl Ht Hleft Hroom Hb Hbm Hrng Hstr Hname. unfold open_h.
  rewrite (xbind_run _ _ _ _ _ (check_pointer_ok s P T A M p file Rd Hb Hbm)).
  set (t := current (sys_vm s)) in *. set (s1 := set_syscall_lock (Some t) s). pose proof (ready_lock _ _ _ _ _ _ (Some t) Rd) as R1. fold s1 in R1.
  bind_by (by apply acquire_run). fold t s1.
  destruct (get_string_cases R s1 P T A M p file name junk R1 Hrng Hstr) as [(s2 & T2 & A2 & M2 & p2 & E2 & R2 & K2 & S2)|Hno].
  2: { right. by apply starved_xbind. }
  rewrite (xbind_run _ _ _ _ _ E2). left. pose proof (kp_files _ _ _ _ _ _ _ K2) as Sf.
  destruct (filesys_open_ok (fsys (sys_vm s2)) A2 name (vi_fs _ _ _ _ _ _ (rd_inv _ _ _ _ _ _ R2))) as (f & m & A3 & Eo & Hsp & Rm & _).
  { unfold room in *. pose proof (kp_room _ _ _ _ _ _ _ K2) as Er. unfold same_room in Er. rewrite Er. exact Hroom. } { exact Hname. }
  destruct (fs_step_ok s2 P T2 A2 M2 p2 (filesys_open name) f m A3 R2 Eo Rm) as (s3 & E3 & R3 & C3 & K3 & _).
  { intros t' e _. by apply (spec_text _ _ _ _ _ Hsp). }
  { apply (grows_run (Open name) _ (Number f) m). unfold run. by bind_by (exact Eo). }
  assert (Eall : set_sys_vm (sys_vm s1) s3 = s1) by (destruct K2; by eapply rest_trans).
  assert (C3' : current (sys_vm s3) = t) by (by rewrite C3, (kp_current _ _ _ _ _ _ _ K2)).
  assert (El3 : syscall_lock s3 = Some (current (sys_vm s3))) by (rewrite C3'; by rewrite (rest_lock _ _ _ Eall)).
  set (s4 := set_syscall_lock None s3). assert (R4 : ready s4 P T2 A3 M2 p2) by (by apply ready_lock).
  assert (Erest : set_sys_vm (sys_vm s) s4 = s) by (unfold s4; rewrite <- Hsl; by apply (locked_rest s s3 _ (sys_vm s1) (Some t))).
  assert (Eof : open_files p2 = open_files p /\ index_fd p2 = index_fd p) by (destruct K2 as [_ _ Hp _ _ _ _]; by injection Hp).
  destruct Eof as [Eof Eif]. assert (Ht2 : fd_table p2 A2).
  { apply (fd_table_same p p2 A A2 Ht Eof Eif). intros g h Hg Hd. exists h. split; [by apply (same_files_handle A)|done]. }
  unfold open_result. rewrite <- (proj2 (proj2 Sf)). unfold spec in Hsp. destruct (a_dir A2 !! name) as [sec|].
  - destruct Hsp as (f' & [=<-] & Hn & Hnew & ->).
    assert (Hleft2 : slot_left p2) by (unfold slot_left; by rewrite Eof).
    destruct (assign_fd_ok s4 P T2 A2 M2 p2 f (mk_handle sec 0 false) R4 Ht2 Hleft2 Hnew Hn eq_refl) as (k & s5 & Hk & Hfk & E5 & R5 & C5 & K5 & Ht5 & Hfd).
    rewrite Eof in *. eexists s5, T2, _, M2, _, k. split.
    { bind_by (exact E3). bind_by (by apply release_run). fold s4. rewrite (proj2 (Z.eqb_neq _ _) Hn). bind_by (exact E5).
      bind_by (by eapply this_process_run). by rewrite Hfd. }
    split; [exact R5|]. split; [by rewrite C5|]. split; [by eapply rest_trans|]. split; [exact S2|]. split; [exact Ht5|].
    exists f. split; [done|]. split; [done|]. split; [done|]. split; [|split; [by apply same_files_with|done]].
    destruct (a_open A !! f) as [h|] eqn:Eh; [|done]. destruct (same_files_open A A2 f h Sf Eh) as (h' & ? & _). congruence.
  - destruct Hsp as [[= ->] ->]. exists s4, T2, A2, M2, p2, (-1). split.
    { bind_by (exact E3). by bind_by (by apply release_run). }
    by split_and!.
Qed.

(** [close] empties the slot and closes the file. *)
Lemma close_h_ok s P T A M p fd f h data :
  ready s P T A M p -> fd_table p A -> descriptor p A fd f h data -> room (fsys (sys_vm s)) ->
  let A' := collect (h_file h) (mk_afs (a_dir A) (a_data A) (delete f (a_open A))) in
  let p' := set_open_files (<[Z.to_nat fd := NULL]> (open_files p)) p in
  exists s', close_h fd s = Ok (1, s') /\ ready s' P T A' M p' /\ current (sys_vm s') = current (sys_vm s) /\
    set_sys_vm (sys_vm s) s' = s /\ fd_table p' A'.
Proof.
  intros Rd Ht [Hfd Hf Hn Ho Hd Hda] Hroom A' p'. unfold close_h. unfold MAX_FILES in Hfd.
  bind_by (apply (find_file_run s P T A M p); [done|unfold MAX_FILES; lia|done]). rewrite (proj2 (Z.eqb_neq f NULL) Hn). cbn [negb].
  bind_by (by eapply this_process_run). destruct (set_process_ok s P T A M p p' Rd) as (s1 & E1 & R1 & C1 & K1 & F1); [done|done|].
  bind_by (exact E1). destruct (vi_fs _ _ _ _ _ _ (rd_inv _ _ _ _ _ _ R1)) as [live S]. rewrite F1 in S.
  destruct (file_close_sim (fsys (sys_vm s)) live A f h S Hroom Ho) as (m & Ec & Rm). rewrite <- F1 in Ec.
  assert (Hsp : spec A (Close f) Done A') by (by exists h, data).
  destruct (fs_step_ok s1 P T A M p' (file_close f) tt m A' R1 Ec Rm) as (s2 & E2 & R2 & C2 & K2 & _).
  { intros t' e _. apply (spec_text _ _ _ _ _ Hsp). simpl. intros h' Hh'. congruence. }
  { by eapply (grows_file_close f). }
  exists s2. split; [by bind_by (exact E2)|]. split; [exact R2|]. split; [congruence|]. split; [by eapply rest_trans|].
  apply (fd_table_clear p A A' (Z.to_nat fd) f Ht Hf Hn). intros g k Hg Hk. unfold A'. rewrite collect_open. simpl. by rewrite lookup_delete_ne.
Qed.

Lemma user_string_kept s s' A A' M M' p p' va str :
  kept R s s' A A' p p' -> same_bytes M M' -> may_range R p va (S (length str)) false ->
  user_string M (current (sys_vm s)) va str -> user_string M' (current (sys_vm s')) va str.
Proof. intros K Sb (Hv & Hn & _) Hs. rewrite (kp_current _ _ _ _ _ _ _ K). by apply (user_string_same M). Qed.

(** The call [open]. *)
Lemma open_call_ok s P T A M p esp file name djunk junk :
  let p1 := set_personal_esp esp p in
  ready s P T A M p -> syscall_lock s = None -> call_frame R s M p esp [SYS_OPEN; file] -> fd_table p A -> slot_left p -> room (fsys (sys_vm s)) ->
  0 <= file < PHYS_BASE -> may_access p1 file esp false ->
  may_range R p1 file (S (length name)) false -> user_string M (current (sys_vm s)) file name -> Forall (fun x => 0 < x < 256) name ->
  (exists s' T' A' M' p' r, syscall_handler esp djunk junk s = Ok (Return (Some (u32 r)), s') /\ ready s' P T' A' M' p' /\
     current (sys_vm s') = current (sys_vm s) /\ set_sys_vm (sys_vm s) s' = s /\ same_bytes M M' /\
     fd_table p' A' /\ open_result A A' p p' name r) \/
  starved R p1 (syscall_handler esp djunk junk s).
Proof.
  intros p1 Rd Hsl Hcf Ht Hleft Hroom Hb Hbm Hrng Hstr Hname. unfold syscall_handler.
  set (G := fun rs : res (option sys_outcome * sys D) => (exists s' T' A' M' p' r, rs = Ok (Some (Return (Some (u32 r))), s') /\ ready s' P T' A' M' p' /\
     current (sys_vm s') = current (sys_vm s) /\ set_sys_vm (sys_vm s) s' = s /\ same_bytes M M' /\
     fd_table p' A' /\ open_result A A' p p' name r) \/ starved R p1 rs).
  match goal with |- context [outcome_of ?m s] => cut (G (m s)) end.
  { intros [(s' & T' & A' & M' & p' & r & E & Q)|Hst]; [left; exists s', T', A', M', p', r; split; [by apply outcome_run|done]|right; by apply outcome_starved]. }
  apply (handler_start R s P T A M p esp [SYS_OPEN; file] SYS_OPEN); try done; [by right|].
  intros s1 T1 A1 M1 q1 R1 K1 S1. change (syscall_switch (s32 SYS_OPEN) esp djunk junk s1) with
    ((_ ⇐ check_arg esp 1; file ⇐ arg esp 1 junk; xlift (returns (open_h file junk))) s1).
  destruct (frame_word R s s1 A A1 M M1 p q1 esp [SYS_OPEN; file] 1 file Hcf K1 S1 eq_refl) as [Hr1 Hw1]. change (Z.of_nat 1) with 1 in *.
  rewrite (xbind_run _ _ _ _ _ (check_arg_ok R s1 P T1 A1 M1 q1 esp 1 R1 Hr1)).
  eapply (reads_bind R _ _ s1 P A1 M1); [by apply (arg_reads R s1 P T1)|intros r Hst; right; by eapply starved_kept|].
  rewrite Hw1. intros s2 T2 A2 M2 q2 R2 K2' S2'. pose proof (kept_trans _ _ _ _ _ _ _ _ _ _ K1 K2') as K2. pose proof (same_bytes_trans _ _ _ S1 S2') as S2.
  pose proof (kp_files _ _ _ _ _ _ _ K2) as Sf. assert (Eof : open_files q2 = open_files p /\ index_fd q2 = index_fd p) by (destruct K2 as [_ _ Hp _ _ _ _]; by injection Hp).
  destruct Eof as [Eof Eif]. destruct (open_h_cases s2 P T2 A2 M2 q2 file name junk R2) as [(s3 & T3 & A3 & M3 & q3 & r & E3 & R3 & C3 & N3 & S3 & Ht3 & Hres)|Hst].
  - rewrite <- Hsl. by apply (rest_lock _ _ _ (kp_rest _ _ _ _ _ _ _ K2)).
  - apply (fd_table_same p q2 A A2 Ht Eof Eif). intros g h Hg Hd. exists h. split; [by apply (same_files_handle A)|done].
  - unfold slot_left. by rewrite Eof.
  - unfold room. pose proof (kp_room _ _ _ _ _ _ _ K2) as Er. unfold same_room in Er. by rewrite Er.
  - done.
  - by eapply (may_access_kept R _ _ _ _ p1).
  - apply (may_range_kept R p1); [apply K2|by eapply kept_esp|done].
  - by eapply user_string_kept.
  - done.
  - left. exists s3, T3, A3, M3, q3, r. split.
    { unfold xlift, returns. by bind_by (bind_by (exact E3); reflexivity). }
    split; [done|]. split; [rewrite C3; apply K2|]. split; [eapply rest_trans; [apply K2|done]|]. split; [by eapply same_bytes_trans|]. split; [done|].
    by apply (open_result_files A A2 A3 p q2).
  - right. apply returns_starved. by eapply starved_kept.
Qed.
End Handlers.
