(* ===== verification/SyscallProps.v ===== *)
(** * Properties of system calls

    What [read] and [write] do for a process, from the words on its stack to the
    bytes of its memory and of the file. *)

From S2P Require Import Prelude Block FsState Inode File Directory FsSpec FsInv FsOps FsNames FsMount FsProps FsGrow Vaddr Bitmap Palloc Pagedir Spage Swap Frame Fault VmInv Clock Evict Paging PageFault UserMemory Loader LoadSteps LoadOk LoadProps Syscall SyscallMem SyscallOk SyscallCall Descriptors.

(** ** A process that is about to make a call *)

(** The bytes put are the bytes found. *)
Lemma put_found M M' t va bytes k n :
  bytes_put M M' t va bytes -> 0 <= va -> va + Z.of_nat (length bytes) <= PHYS_BASE -> (k + n <= length bytes)%nat ->
  user_bytes M' t (va + Z.of_nat k) n = take n (drop k bytes).
Proof.
  intros Hb Hv Hl Hk. apply list_eq. intros i. unfold user_bytes. rewrite list_lookup_fmap. destruct (decide (i < n)%nat) as [Hi|Hi].
  - rewrite lookup_seq_lt by done. rewrite lookup_take_lt, lookup_drop by done. simpl. rewrite Hb by lia. rewrite decide_True by lia.
    replace (Z.to_nat (va + Z.of_nat k + Z.of_nat i - va)) with (k + i)%nat by lia.
    destruct (lookup_lt_is_Some_2 bytes (k + i)) as [b Eb]; [lia|]. by rewrite Eb, (nth_lookup_Some _ _ _ _ Eb).
  - rewrite lookup_seq_ge, lookup_take_ge by lia. done.
Qed.

(** The file of [LoadProps], opened again. *)
Definition call_fs : fs ram_disk := state_of (run (Open [97]) program_fs) formatted.
Definition call_file : Z := match answer_of (run (Open [97]) program_fs) with Some (Number f) => f | _ => NULL end.
Definition call_process : process := mk_process 0xc0101000 [demo_entry] 0xbfffff00 0 (<[2%nat := call_file]> (replicate 128 NULL)) 2 (-1).
Definition call_vm : vm ram_disk :=
  mk_vm demo_memory [mk_frame false 0 0; mk_frame false 0 0] 0 0 demo_swap {[ 1 := call_process ]} 1 None call_fs.
Definition call_sys : sys ram_disk := mk_sys call_vm None ∅ [] [].

Lemma call_facts : state_of (run (Open [97]) program_fs) formatted = call_fs /\ room program_fs /\
  answer_of (run (Open [97]) program_fs) = Some (Number call_file) /\ call_file <> NULL /\ (brk formatted <=? brk call_fs) = true /\ room call_fs.
Proof.
  split; [unfold call_fs; reflexivity|]. split; [vm_compute; reflexivity|]. split; [vm_compute; reflexivity|].
  split; [vm_compute; congruence|]. split; vm_compute; reflexivity.
Qed.
#[local] Opaque formatted demo_swap program_fs call_fs call_file.

Lemma opened_handle A A' name sec f : a_dir A !! name = Some sec -> spec A (Open name) (Number f) A' ->
  a_open A' !! f = Some (mk_handle sec 0 false) /\ a_data A' = a_data A /\ a_dir A' = a_dir A.
Proof. unfold spec. intros -> (f' & [=<-] & _ & _ & ->). simpl. by rewrite lookup_insert_eq. Qed.
Lemma call_fs_refines : exists A sec, refines call_fs A /\ a_open A !! call_file = Some (mk_handle sec 0 false) /\ a_data A !! sec = Some demo_elf /\ undenied A /\
  a_dir A !! [97] = Some sec.
Proof.
  destruct program_fs_refines as (A & sec & R & Hd & Hb & Hu). destruct call_facts as (Es & Hr & Ha & _).
  destruct (demo_step program_fs A (Open [97]) (Number call_file) R Hr) as (A' & Sp & R'); [by repeat constructor|exact Ha|].
  rewrite Es in R'. exists A', sec. split; [exact R'|].
  destruct (opened_handle A A' [97] sec call_file Hd Sp) as (Ho & -> & ->). split; [exact Ho|]. split; [exact Hb|]. split; [exact (undenied_open _ _ _ _ Sp Hu)|exact Hd].
Qed.

Lemma call_vm_ok A : refines call_fs A -> vm_inv call_vm paging_dirs ∅ A demo_pages None.
Proof.
  intros R. destruct call_facts as (_ & _ & _ & _ & Hbrk%Z.leb_le & _).
  assert (V : vm_inv (set_fsys call_fs demo_vm) paging_dirs ∅ A demo_pages None).
  { apply (inv_text demo_vm paging_dirs ∅ empty_afs); [exact demo_vm_ok|exact R| |exact Hbrk].
    intros t e (p & Hp & He). apply demo_procs in Hp as [-> ->]. apply list_elem_of_singleton in He as ->. intros E. discriminate E. }
  pose proof (inv_process_same (set_fsys call_fs demo_vm) paging_dirs ∅ A demo_pages None 1 demo_process call_process V eq_refl eq_refl eq_refl) as V2.
  exact V2.
Qed.

(** The page of the stack. *)
Definition stack_addr (a : Z) : Prop := 0xbffff000 <= a < PHYS_BASE.
Lemma stack_addr_page a : stack_addr a -> pg_round_down a = 0xbffff000.
Proof. unfold stack_addr, PHYS_BASE. intros Ha. rewrite pg_round_down_sub by lia. unfold PGSIZE. Z.to_euclidean_division_equations. lia. Qed.
Lemma call_may a esp w : stack_addr a -> may_access call_process a esp w.
Proof. intros Ha. unfold may_access. rewrite (stack_addr_page a Ha). change (find_spinfo (spage_table call_process) 0xbffff000) with (Some demo_entry). intros _. reflexivity. Qed.

Lemma same_but_table p q : set_spage_table [] p = set_spage_table [] q ->
  personal_esp p = personal_esp q /\ open_files p = open_files q /\ index_fd p = index_fd q.
Proof. by injection 1. Qed.
Lemma same_esp p : personal_esp p = 0xbfffff00 -> set_personal_esp 0xbfffff00 p = p.
Proof. intros <-. by destruct p. Qed.

(** A state in which the page of the stack is in memory. *)
Record calling (s : sys ram_disk) T A M p (sec : Z) : Prop := {
  ca_ready : ready s paging_dirs T A M p;
  ca_lock : syscall_lock s = None;
  ca_current : current (sys_vm s) = 1;
  ca_open : a_open A !! call_file = Some (mk_handle sec 0 false);
  ca_data : a_data A !! sec = Some demo_elf;
  ca_name : a_dir A !! [97] = Some sec;
  ca_denied : ~ denied A sec;
  ca_esp : personal_esp p = 0xbfffff00;
  ca_files : open_files p = <[2%nat := call_file]> (replicate 128 NULL) /\ index_fd p = 2;
  ca_resident : resident stack_addr p;
  ca_may : forall a w, stack_addr a -> may_access p a 0xbfffff00 w;
  ca_room : room (fsys (sys_vm s));
}.
Lemma call_ready : exists s T A M p sec, calling s T A M p sec.
Proof.
  destruct call_fs_refines as (A & sec & R & Ho & Hb & Hu & Hdir). pose proof (call_vm_ok A R) as V.
  assert (Hva : 0 <= 0xbfffff00 < PHYS_BASE) by done. assert (Hst : stack_addr 0xbfffff00) by done.
  destruct (@mem_access_cases _ _ _ search_by_kpage search_by_kpage_ok call_vm paging_dirs ∅ A demo_pages call_process 0xbfffff00 demo_entry V
    ltac:(discriminate) eq_refl eq_refl Hva (kernel_frame false) false eq_refl (call_may _ _ _ Hst))
    as [(v & T & A' & p & e & bs & E & V' & L' & C' & F' & Hp' & He & Eu & Hk & _ & _ & _ & _ & Es & Sf & Hrm & Hr & _)|[Hno _]].
  2: { exfalso. apply Hno. exact demo_vm_left. }
  destruct (same_but_table _ _ Es) as (Eesp & Eof & Eif). change (personal_esp call_process) with 0xbfffff00 in Eesp.
  exists (mk_sys v None ∅ [] []), T, A', (touch demo_pages 1 (pg_round_down 0xbfffff00)), p, sec. constructor.
  - constructor; [exact V'| |exact L'|]; cbn [sys_vm].
    + intros E0. rewrite E0 in F'. discriminate F'.
    + rewrite C'. exact Hp'.
  - reflexivity.
  - exact C'.
  - exact (same_files_handle A A' call_file _ Sf Ho eq_refl).
  - rewrite (proj1 Sf). exact Hb.
  - rewrite (proj2 (proj2 Sf)). exact Hdir.
  - intros Hd. apply (same_files_denied A A' sec Sf), denied_iff in Hd as (f & h & Hh & _ & Hdn). rewrite (Hu f h Hh) in Hdn. discriminate Hdn.
  - exact Eesp.
  - rewrite Eof, Eif. split; reflexivity.
  - intros a Ha. unfold in_memory. rewrite (stack_addr_page a Ha). rewrite (stack_addr_page _ Hst) in Eu.
    exists e. split; [|exact Hk]. exact (find_spinfo_elem (spage_table p) e 0xbffff000 (pr_pages _ _ _ _ _ _ _ (vi_proc _ _ _ _ _ _ V' _ _ Hp')) He Eu).
  - intros a w Ha. apply Hr, call_may. exact Ha.
  - unfold room. unfold same_room in Hrm. cbn [sys_vm]. rewrite Hrm. apply call_facts.
Qed.

Lemma stack_range p va n w : personal_esp p = 0xbfffff00 -> (forall a w, stack_addr a -> may_access p a 0xbfffff00 w) ->
  0xbffff000 <= va -> va + Z.of_nat n <= PHYS_BASE -> may_range stack_addr p va n w.
Proof.
  intros He Hmay Hv Hn. split; [lia|]. split; [lia|]. intros a Ha. assert (stack_addr a) by (unfold stack_addr; lia). split; [done|].
  rewrite He. by apply Hmay.
Qed.
Lemma calling_kept s s' T T' A A' M M' p sec :
  calling s T A M p sec -> ready s' paging_dirs T' A' M' p -> kept stack_addr s s' A A' p p -> calling s' T' A' M' p sec.
Proof.
  intros [] Rd [C1 N1 _ Sf _ _ Rm]. constructor; try assumption.
  - rewrite <- ca_lock0. exact (rest_lock _ _ _ N1).
  - rewrite C1. assumption.
  - exact (same_files_handle A A' call_file _ Sf ca_open0 eq_refl).
  - rewrite (proj1 Sf). assumption.
  - rewrite (proj2 (proj2 Sf)). assumption.
  - intros Hd. apply ca_denied0. exact (proj2 (same_files_denied A A' sec Sf) Hd).
  - unfold room, same_room in *. rewrite Rm. assumption.
Qed.
Lemma calling_fd s T A M p sec : calling s T A M p sec -> descriptor p A 2 call_file (mk_handle sec 0 false) demo_elf.
Proof.
  intros []. constructor; [unfold MAX_FILES; lia| |apply call_facts|assumption|reflexivity|assumption].
  rewrite (proj1 ca_files0). reflexivity.
Qed.

(** The words [ws] on the stack. *)
Lemma call_state ws : length ws = 4%nat -> Forall (fun w => 0 <= w < 2 ^ 32) ws ->
  exists s T A M p sec, calling s T A M p sec /\ call_frame stack_addr s M p 0xbfffff00 ws /\
    (forall k n, (k + n <= 16)%nat -> user_bytes M 1 (0xbfffff00 + Z.of_nat k) n = take n (drop k (concat (map elem_bytes ws)))).
Proof.
  intros Hlen Hw. destruct call_ready as (s & T & A & M & p & sec & Hca). pose proof (ca_esp _ _ _ _ _ _ Hca) as He. pose proof (ca_may _ _ _ _ _ _ Hca) as Hmay.
  assert (HB : PHYS_BASE = 0xc0000000) by reflexivity. set (bytes := concat (map elem_bytes ws)).
  assert (Hb : length bytes = 16%nat) by (destruct ws as [|w0 [|w1 [|w2 [|w3 [|]]]]]; try discriminate; reflexivity).
  destruct (@put_bytes_cases _ _ _ search_by_kpage search_by_kpage_ok stack_addr demo_entry bytes s paging_dirs T A M p 0xbfffff00 (ca_ready _ _ _ _ _ _ Hca))
    as [(s' & T' & A' & M' & p' & E & R' & K & B)|[_ Hno]]; [apply (stack_range p _ _ _ He Hmay); lia| |by destruct (Hno (ca_resident _ _ _ _ _ _ Hca))].
  pose proof (kp_resident _ _ _ _ _ _ _ K (ca_resident _ _ _ _ _ _ Hca)) as ->. rewrite (ca_current _ _ _ _ _ _ Hca) in B.
  assert (Hfound : forall k n, (k + n <= 16)%nat -> user_bytes M' 1 (0xbfffff00 + Z.of_nat k) n = take n (drop k bytes)).
  { intros k n Hk. apply (put_found M M' 1 _ bytes k n B); lia. }
  pose proof (calling_kept _ _ _ _ _ _ _ _ _ _ Hca R' K) as Hca'. exists s', T', A', M', p, sec. split; [exact Hca'|]. split; [|exact Hfound].
  constructor; [rewrite He; by apply Hmay|rewrite (same_esp p He); apply (stack_range p _ _ _ He Hmay); lia|]. intros i w Hi. unfold user_word_at.
  assert (Hil : (i < 4)%nat) by (apply lookup_lt_Some in Hi; lia). rewrite (ca_current _ _ _ _ _ _ Hca').
  replace (0xbfffff00 + 4 * Z.of_nat i) with (0xbfffff00 + Z.of_nat (4 * i)) by lia. rewrite Hfound by lia.
  transitivity (elem_of_bytes (elem_bytes w)); [f_equal|apply elem_bytes_roundtrip; by apply (Forall_lookup_1 _ _ _ _ Hw Hi)].
  destruct ws as [|w0 [|w1 [|w2 [|w3 [|]]]]]; try discriminate.
  destruct i as [|[|[|[|i]]]]; simpl in Hi; try lia; by injection Hi as <-.
Qed.

(** The first words of a frame. *)
Lemma frame_take R (s : sys ram_disk) M p esp ws ws' : call_frame R s M p esp (ws ++ ws') -> call_frame R s M p esp ws.
Proof.
  intros [Hf (Hv & Hn & Hm) Hw]. rewrite length_app in *. constructor; [done| |].
  - split; [done|]. split; [lia|]. intros a Ha. apply Hm. lia.
  - intros i w Hi. apply Hw. by apply lookup_app_l_Some.
Qed.
(** A table with one file. *)
Lemma one_fd p A f h : open_files p = <[2%nat := f]> (replicate 128 NULL) -> index_fd p = 2 -> a_open A !! f = Some h -> h_deny h = false -> fd_table p A.
Proof.
  intros Ef Ei Ho Hd.
  assert (Hlk : forall j g, <[2%nat := f]> (replicate 128 NULL) !! j = Some g -> g <> NULL -> j = 2%nat /\ g = f).
  { intros j g Hj Hg. apply list_lookup_insert_Some in Hj as [(<- & <- & _)|[Hne Hj]]; [done|]. apply lookup_replicate_1 in Hj as [-> _]. done. }
  constructor; rewrite ?Ef, ?Ei; [by rewrite length_insert|lia| | |].
  - intros j g Hj Hg. destruct (Hlk j g Hj Hg). lia.
  - intros j g Hj Hg. destruct (Hlk j g Hj Hg) as [_ ->]. eauto.
  - intros i j g Hi Hj Hg. destruct (Hlk i g Hi Hg), (Hlk j g Hj Hg). congruence.
Qed.

(** ** Theorems *)







(** C8: The table of descriptors stays well-formed when a file is closed.  If
    every slot of the table is empty or holds an open file of its own, then
    [close_h] on a descriptor in use answers 1, empties its slot, closes its file
    (which is deleted if it has no name and no other handle), and every other slot
    still holds an open file of its own; user memory and the locks are untouched. *)
Theorem close_keeps_table `{BlockLaws D} `{KpageSearch} `{!KpageLaws} (s : sys D) P T A M p fd f h data :
  ready s P T A M p -> fd_table p A -> descriptor p A fd f h data -> room (fsys (sys_vm s)) ->
  let A' := collect (h_file h) (mk_afs (a_dir A) (a_data A) (delete f (a_open A))) in
  let p' := set_open_files (<[Z.to_nat fd := NULL]> (open_files p)) p in
  exists s', close_h fd s = Ok (1, s') /\ ready s' P T A' M p' /\ current (sys_vm s') = current (sys_vm s) /\
    set_sys_vm (sys_vm s) s' = s /\ fd_table p' A'.
Proof. exact (close_h_ok s P T A M p fd f h data). Qed.

Lemma close_keeps_table_witness : exists (s s' : sys ram_disk) p' A', @close_h _ _ 2 s = Ok (1, s') /\ fd_table p' A'.
Proof.
  destruct call_ready as (s & T & A & M & p & sec & Hca). destruct (ca_files _ _ _ _ _ _ Hca) as [Ef Ei].
  destruct (@close_keeps_table _ _ _ search_by_kpage search_by_kpage_ok s paging_dirs T A M p 2 call_file (mk_handle sec 0 false) demo_elf)
    as (s' & E & _ & _ & _ & Ht).
  - exact (ca_ready _ _ _ _ _ _ Hca).
  - exact (one_fd p A call_file _ Ef Ei (ca_open _ _ _ _ _ _ Hca) eq_refl).
  - exact (calling_fd _ _ _ _ _ _ Hca).
  - exact (ca_room _ _ _ _ _ _ Hca).
  - eexists s, s', _, _. split; [exact E|exact Ht].
Defined.

(** C36: A process with too many open files hangs in [assign_fd].  When no slot
    from 3 on is free, and none from the slot where the search starts, the loop
    never ends: it runs out of every bound on its iterations. *)
Theorem fd_search_hangs files new_file i :
  length files = 128%nat -> 2 <= i < 128 -> (forall j, i <= j < 128 \/ 3 <= j < 128 -> files !! Z.to_nat j <> Some NULL) ->
  forall fuel, assign_fd_loop fuel new_file files i = Err OutOfFuel.
Proof. intros Hl Hi Hno fuel. by apply assign_fd_forever. Qed.

Lemma fd_search_hangs_witness :
  length (replicate 128 5) = 128%nat /\ (forall fuel, assign_fd_loop fuel 7 (replicate 128 5) 2 = Err OutOfFuel).
Proof.
  split; [reflexivity|]. apply (fd_search_hangs (replicate 128 5) 7 2).
  - reflexivity.
  - lia.
  - intros j Hj E. apply lookup_replicate_1 in E as [E _]. discriminate E.
Defined.
