(* ===== verification/VmProps.v ===== *)
(** * Properties of virtual memory

    The clock terminates, the end of a process gives back its memory, and two
    ways in which a faulty process can harm the kernel. *)

From S2P Require Import Prelude Block FsState File FsSpec FsMount FsProps Vaddr Bitmap Palloc Pagedir Spage Swap Frame Fault VmInv Clock Evict Paging PageFault UserMemory ProcessExit.

(** ** A state with every frame filled *)

#[local] Opaque formatted demo_swap.

Definition one_frame_vm : vm ram_disk := set_frametable [mk_frame false 0 0] demo_vm.

Lemma one_frame_vm_ok : vm_inv one_frame_vm paging_dirs ∅ empty_afs demo_pages None.
Proof.
  destruct demo_vm_ok. constructor; try done.
  - intros t p Hp. destruct (vi_proc t p Hp). by constructor.
  - intros [|i] f [=<-]; done.
  - intros t e He Hk. exfalso. destruct (vi_framed t e He Hk) as ([|[|i]] & f & [=<-] & ? & _); done.
  - intros [|i] j f g [=<-]; done.
  - intros q Hq. exfalso. destruct (vi_pool q Hq) as ([|[|i]] & f & [=<-] & ? & _); done.
Qed.

Lemma one_frame_vm_left : memory_left one_frame_vm.
Proof. split; [left; by exists 0%nat, (mk_frame false 0 0)|apply demo_vm_left]. Qed.

(** After an access to the page of the process the frame is filled. *)
Lemma full_vm : exists (v : vm ram_disk) T A M, vm_inv v paging_dirs T A M None /\ frametable v <> [] /\
  (forall i f, frametable v !! i = Some f -> isfilled f = true).
Proof.
  destruct (@user_access_ok _ _ _ search_by_kpage search_by_kpage_ok one_frame_vm paging_dirs ∅ empty_afs demo_pages demo_process
    0xbffffffc demo_entry one_frame_vm_ok ltac:(done) eq_refl eq_refl ltac:(done) 0xbffffffc true ltac:(done) one_frame_vm_left)
    as (v & T & A & p & e & bs & _ & V & _ & _ & Hlen & Hp & He & _ & Hk & _).
  eexists v, T, A, _. split; [exact V|]. change (length (frametable one_frame_vm)) with 1%nat in Hlen.
  split; [by destruct (frametable v)|]. intros i f Hi.
  destruct (vi_framed _ _ _ _ _ _ V (current one_frame_vm) e) as (j & g & Hj & Hg & _); [by exists p|done|].
  apply lookup_lt_Some in Hi as Hil. apply lookup_lt_Some in Hj as Hjl. assert (i = j) as -> by lia. congruence.
Qed.

(** ** Lemmas *)

Section Faults.
Context `{BlockLaws D} `{KpageSearch} `{!KpageLaws}.
Implicit Types v : vm D.

(** A frame of a thread that has ended stops the clock. *)
Lemma stale_frame_traps v i f :
  0 <= clock_hand v -> clock_hand v + 1 < 2 ^ 32 -> num_user_frames v < 2 ^ 31 -> next_hand v = Z.of_nat i ->
  frametable v !! i = Some f -> procs v !! owner f = None -> evict_page v = Err Trap.
Proof.
  intros Hh Hh' Hn Hi Hf Hp. unfold evict_page, clock_fuel. unfold mbind at 1, M_bind at 1, get. cbn [clock_loop].
  assert (Hnn : 0 <= num_user_frames v) by (unfold num_user_frames; lia).
  unfold mbind, M_bind, get, modify, get_frame, get_process. rewrite !u32_small by lia.
  cbn [frametable set_clock_hand]. unfold next_hand in Hi. rewrite Hi, Nat2Z.id, Hf. cbn [procs set_clock_hand]. by rewrite Hp.
Qed.

(** Closing files leaves memory alone. *)
Lemma close_files_memory l : forall v v', close_files_loop l v = Ok (tt, v') ->
  exists s, v' = set_fsys s v.
Proof.
  induction l as [|f l IH]; intros v v'; cbn [close_files_loop].
  - intros [=<-]. exists (fsys v). by destruct v.
  - unfold mbind, M_bind, on_fsys. destruct (negb (f =? NULL)).
    + destruct (file_close f (fsys v)) as [[[] s]|]; [|done]. intros E. destruct (IH _ _ E) as [s' ->]. by exists s'.
    + apply IH.
Qed.

Lemma thread_exit_memory v v1 v' :
  exit_memory v = Ok (tt, v1) -> thread_exit v = Ok (tt, v') ->
  exists s, v' = set_procs (delete (current v1) (procs v1)) (set_fsys s v1).
Proof.
  intros E1. unfold thread_exit, mbind, M_bind, get, modify. rewrite E1. destruct (get_process _ _) as [[p v2]|] eqn:Eg; [|done].
  assert (v2 = v1) as ->. { unfold get_process in Eg. destruct (procs v1 !! _); [by injection Eg|done]. }
  unfold on_fsys. destruct (file_close (code_file p) (fsys v1)) as [[[] s]|]; [|done]. unfold close_files.
  destruct (close_files_loop _ _) as [[[] v3]|] eqn:Ec; [|done]. apply close_files_memory in Ec as [s' ->]. intros [=<-]. by exists s'.
Qed.
End Faults.

(** ** Theorems *)

(** C19: The clock terminates.  When every frame is filled, the hand finds a
    victim within one turn more than the number of frames, the same one for all
    larger bounds; the victim is the frame under the hand, it is the page of an
    entry of the process that owns it, and no byte of user memory changes. *)
Theorem clock_terminates `{BlockLaws D} `{KpageSearch} `{!KpageLaws} (v : vm D) P T A M :
  vm_inv v P T A M None -> (forall i f, frametable v !! i = Some f -> isfilled f = true) -> frametable v <> [] ->
  exists f e v', (forall fuel, (length (frametable v) < fuel)%nat -> clock_loop fuel v = Ok ((f, e), v')) /\
    vm_inv v' P T A M None /\ frametable v !! Z.to_nat (clock_hand v') = Some f /\
    entry_at (procs v) (owner f) e /\ kpage_address e = page f.
Proof.
  intros V Hfull Hne. destruct (clock_ok v P T A M (S (length (frametable v))) V Hfull Hne) as (f & e & v' & E & V' & _ & _ & R); [lia|].
  exists f, e, v'. split_and!; [|done|apply R..]. intros fuel Hf.
  replace fuel with (S (length (frametable v)) + (fuel - S (length (frametable v))))%nat by lia. by apply clock_mono.
Qed.

Lemma clock_terminates_witness : exists (v : vm ram_disk) f e v',
  @clock_loop _ search_by_kpage (S (length (frametable v))) v = Ok ((f, e), v') /\ kpage_address e = page f.
Proof.
  destruct full_vm as (v & T & A & M & V & Hne & Hfull).
  destruct (@clock_terminates _ _ _ search_by_kpage search_by_kpage_ok v paging_dirs T A M V Hfull Hne) as (f & e & v' & E & _ & _ & _ & Hk).
  exists v, f, e, v'. split; [apply E; lia|exact Hk].
Defined.



(** C37: A process that makes an access it may not make leaves a frame behind.
    [page_fault] takes the frame before it looks at the address and does not give
    it back: when the process has ended, the frame is still filled and its page
    allocated, though it is the page of no process; it names a thread that is
    gone, and [evict_page] fails when the hand of the clock gets to it. *)
Theorem bad_access_leaks_frame `{BlockLaws D} `{KpageSearch} `{!KpageLaws} (v : vm D) P T A M p f va junk :
  vm_inv v P T A M None -> frametable v <> [] -> lock_holder v = None -> procs v !! current v = Some p -> memory_left v ->
  find_spinfo (spage_table p) (pg_round_down va) = None -> is_stack_access va (f_esp f) = false ->
  Z.land (error_code f) PF_U <> 0 -> f_cs f = SEL_UCSEG ->
  exists i k v1 v2, page_fault f va junk v = (_ ← thread_exit; mret Exited) v1 /\ exit_memory v1 = Ok (tt, v2) /\
    frametable v2 !! i = Some (mk_frame true k (current v)) /\ Palloc.used (user_pool (mach v2)) k /\
    (forall t e, t <> current v -> entry_at (procs v2) t e -> kpage_address e <> k) /\
    forall o v3, page_fault f va junk v = Ok (o, v3) ->
      frametable v3 = frametable v2 /\ mach v3 = mach v2 /\ procs v3 !! current v = None /\
      (next_hand v3 = Z.of_nat i -> evict_page v3 = Err Trap).
Proof.
  intros V Hne Hlk Hp [Hroom _] Hfind Hst Hus Hcs. set (v0 := set_lock_holder (Some (current v)) v).
  destruct (assign_ok v0 P T A M (inv_lock _ _ _ _ _ _ _ V) Hne) as [(i & k & v1 & E1 & Hkn & V1 & Mv & Hi & _)|(Hsf & Hff & _)].
  2: { exfalso. destruct Hroom as [(j & h & Hj & Hh)|(j & x & Hj & Hx)]; [by rewrite (Hff j h Hj) in Hh|by rewrite (Hsf j x Hj) in Hx]. }
  destruct (mv_procs _ _ Mv (current v) p Hp) as (p1 & Hp1 & (_ & Hkeys & _)). pose proof (mv_current _ _ Mv) as Ec. simpl in Ec.
  rewrite <- Ec in Hp1. pose proof (find_spinfo_like (spage_table p) (spage_table p1) (pg_round_down va) Hkeys) as Hfl.
  rewrite Hfind in Hfl. destruct (find_spinfo (spage_table p1) (pg_round_down va)) eqn:Ef; [done|].
  assert (Hrun : page_fault f va junk v = (_ ← thread_exit; mret Exited) v1).
  { rewrite (page_fault_start v v1 p1 f va junk k Hlk E1 Hkn Hp1), (proj2 (Z.eqb_neq _ _) Hus). unfold PageFault.resolve.
    bind_by reflexivity. bind_by (unfold get_process; rewrite Hp1; reflexivity). rewrite Ef. cbv beta iota delta [negb]. rewrite Hst.
    bind_by reflexivity. unfold kill. by rewrite Hcs, Z.eqb_refl. }
  destruct (exit_release_ok v1 P T A M (Some i) p1 V1 Hp1) as (m' & w' & T' & Ex & V2 & _).
  set (v2 := set_procs _ _) in Ex. exists i, k, v1, v2. split; [done|]. split; [done|].
  pose proof (vi_frame _ _ _ _ _ _ V1 i _ Hi) as Hf1. rewrite decide_True in Hf1 by done. destruct Hf1 as [_ Hno].
  assert (Hi2 : frametable v2 !! i = Some (mk_frame true k (current v))).
  { apply kept_frame; [exact Hi|]. intros (e & He & Ek & _)%elem_kpages. apply (Hno (current v1) e); [by exists p1|done]. }
  pose proof (vi_frame _ _ _ _ _ _ V2 i _ Hi2) as Hf2. rewrite decide_True in Hf2 by done. destruct Hf2 as [Hu2 Hno2].
  split; [done|]. split; [exact Hu2|]. split.
  { intros t e Hne' (q & Hq & He). apply (Hno2 t e). exists q. split; [|done]. simpl in Hq |- *. rewrite Ec in *.
    rewrite lookup_insert_ne in Hq by done. by apply lookup_delete_Some. }
  rewrite Hrun. intros o v3. unfold mbind at 1, M_bind at 1. destruct (thread_exit v1) as [[[] v4]|] eqn:Et; [|done].
  intros [=_ <-]. destruct (thread_exit_memory v1 v2 v4 Ex Et) as [s ->]. change (current v2) with (current v1). rewrite Ec.
  assert (Hgone : procs (set_procs (delete (current v) (procs v2)) (set_fsys s v2)) !! current v = None) by apply lookup_delete_eq.
  split_and!; try done. intros Hn. pose proof (vi_hand _ _ _ _ _ _ V2) as [Hh0 Hh]. pose proof (vi_size _ _ _ _ _ _ V2) as [_ Hsz].
  change (frametable (ProcessExit.after v1 p1 m' w')) with (frametable v2) in *. change (clock_hand (ProcessExit.after v1 p1 m' w')) with (clock_hand v2) in *.
  apply (stale_frame_traps _ i (mk_frame true k (current v))); try done;
    change (clock_hand (set_procs _ _)) with (clock_hand v2); unfold num_user_frames; lia || done.
Qed.

Lemma bad_access_leaks_frame_witness :
  exists i k v1 v2, @page_fault _ _ search_by_kpage (mk_intr_frame PF_U 0xbffffff0 SEL_UCSEG) 0 demo_entry demo_vm =
      (_ ← thread_exit; mret Exited) v1 /\ exit_memory v1 = Ok (tt, v2) /\ frametable v2 !! i = Some (mk_frame true k 1).
Proof.
  destruct (@bad_access_leaks_frame _ _ _ search_by_kpage search_by_kpage_ok demo_vm paging_dirs ∅ empty_afs demo_pages demo_process
    (mk_intr_frame PF_U 0xbffffff0 SEL_UCSEG) 0 demo_entry) as (i & k & v1 & v2 & E & Ex & Hi & _).
  - exact demo_vm_ok.
  - discriminate.
  - reflexivity.
  - reflexivity.
  - exact demo_vm_left.
  - reflexivity.
  - reflexivity.
  - discriminate.
  - reflexivity.
  - exists i, k, v1, v2. split; [exact E|]. split; [exact Ex|exact Hi].
Defined.

(** C38: A process can make the kernel fail.  With the stack pointer just above
    the start of the kernel, a push faults at [PHYS_BASE]; the handler takes the
    access for one of the stack, makes an entry for the page of the kernel, and
    the assertion of [pagedir_get_page] that the page is one of the user fails. *)
Theorem kernel_push_panics `{BlockLaws D} `{KpageSearch} `{!KpageLaws} (v : vm D) P T A M p f junk :
  vm_inv v P T A M None -> frametable v <> [] -> lock_holder v = None -> procs v !! current v = Some p -> memory_left v ->
  f_esp f = PHYS_BASE + 4 -> Z.land (error_code f) PF_U <> 0 ->
  page_fault f PHYS_BASE junk v = Err AssertFailed.
Proof.
  intros V Hne Hlk Hp [Hroom _] Hesp Hus. set (v0 := set_lock_holder (Some (current v)) v).
  destruct (assign_ok v0 P T A M (inv_lock _ _ _ _ _ _ _ V) Hne) as [(i & k & v1 & E1 & Hkn & V1 & Mv & Hi & _)|(Hsf & Hff & _)].
  2: { exfalso. destruct Hroom as [(j & h & Hj & Hh)|(j & x & Hj & Hx)]; [by rewrite (Hff j h Hj) in Hh|by rewrite (Hsf j x Hj) in Hx]. }
  destruct (mv_procs _ _ Mv (current v) p Hp) as (p1 & Hp1 & _). pose proof (mv_current _ _ Mv) as Ec. simpl in Ec. rewrite <- Ec in Hp1.
  rewrite (page_fault_start v v1 p1 f PHYS_BASE junk k Hlk E1 Hkn Hp1), (proj2 (Z.eqb_neq _ _) Hus). unfold PageFault.resolve.
  bind_by reflexivity. bind_by (unfold get_process; rewrite Hp1; reflexivity). cbv beta iota delta [negb]. rewrite Hesp.
  pose proof (find_spinfo_spec (spage_table p1) (pg_round_down PHYS_BASE)) as Hs.
  destruct (find_spinfo (spage_table p1) (pg_round_down PHYS_BASE)) as [e|].
  { destruct Hs as [He Eu]. destruct (pr_entry _ _ _ _ _ _ _ (vi_proc _ _ _ _ _ _ V1 _ _ Hp1) e He) as (? & _ & Hok).
    destruct (eo_page _ _ _ _ _ _ _ Hok) as [Hu _]. rewrite Eu in Hu. by destruct Hu. }
  destruct (refines_malloc (fsys v1) A (vi_fs _ _ _ _ _ _ V1)) as (fs' & Em & Hbn & _ & _).
  change (is_stack_access PHYS_BASE (PHYS_BASE + 4)) with true. cbv iota.
  bind_by (bind_by (unfold new_spinfo; bind_by (unfold on_fsys; rewrite Em; reflexivity);
    rewrite (proj2 (Z.eqb_neq _ _) Hbn); cbv zeta; bind_by reflexivity;
    bind_by (unfold get_process; cbn [procs current set_fsys]; rewrite Hp1; reflexivity); bind_by reflexivity; reflexivity); reflexivity).
  cbn [writable negb andb]. bind_by reflexivity. unfold map_frame, mbind, M_bind, get, get_process.
  cbn [procs current set_procs set_fsys]. rewrite lookup_insert_eq. reflexivity.
Qed.

Lemma kernel_push_panics_witness :
  @page_fault _ _ search_by_kpage (mk_intr_frame (Z.lor PF_U PF_W) (PHYS_BASE + 4) SEL_UCSEG) PHYS_BASE demo_entry demo_vm = Err AssertFailed.
Proof.
  apply (@kernel_push_panics _ _ _ search_by_kpage search_by_kpage_ok demo_vm paging_dirs ∅ empty_afs demo_pages demo_process).
  - exact demo_vm_ok.
  - discriminate.
  - reflexivity.
  - reflexivity.
  - exact demo_vm_left.
  - reflexivity.
  - discriminate.
Defined.
