(* ===== verification/Sched.v ===== *)
(** * The scheduler: [threads/thread.c] and [threads/interrupt.c]

    The state of the kernel as the scheduler and the synchronization primitives
    see it, and the operations that switch threads.  A thread that is switched
    out keeps on its kernel stack what it has still to do inside the primitive
    that put it to sleep: [kstack] is that stack of return points, innermost
    first, and [frame] enumerates the points at which the code can be
    suspended.  Calls into parts of the kernel that have models of their own
    are recorded, in order, in [trace]. *)

From S2P Require Import Prelude Spage.

Definition THREAD_MAGIC : Z := 0xcd6abf4b.
Definition TIME_SLICE : Z := 4.
Definition PRI_MIN : Z := 0.
Definition PRI_DEFAULT : Z := 31.
Definition PRI_MAX : Z := 63.
Definition TID_ERROR : Z := -1.
Definition MAX_FILES : Z := 128.

Inductive thread_status := THREAD_RUNNING | THREAD_READY | THREAD_BLOCKED | THREAD_DYING.
#[global] Instance thread_status_eq_dec : EqDecision thread_status.
Proof. solve_decision. Defined.

(** The semaphores of the kernel by where they are: an object of their own,
    inside a lock, on the stack of a thread in [cond_wait], or the two
    semaphores inside a [struct thread]. *)
Inductive sid :=
  | SSema (a : Z)
  | SLock (l : Z)
  | SWaiter (t : Z)
  | SExec (t : Z)
  | SWait (t : Z).
#[global] Instance sid_eq_dec : EqDecision sid.
Proof. solve_decision. Defined.
Definition sid_code (s : sid) : Z * Z :=
  match s with
  | SSema a => (0, a) | SLock l => (1, l) | SWaiter t => (2, t)
  | SExec t => (3, t) | SWait t => (4, t)
  end.
Definition sid_decode (p : Z * Z) : sid :=
  match p with
  | (0, a) => SSema a | (1, l) => SLock l | (2, t) => SWaiter t
  | (3, t) => SExec t | (_, t) => SWait t
  end.
#[global] Instance sid_countable : Countable sid.
Proof. apply (inj_countable' sid_code sid_decode). by intros []. Defined.

(** The thread functions the kernel starts threads with, as far as the
    scheduler is concerned: [idle], with its semaphore, or any other. *)
Inductive entry := EIdle (started : sid) | EOther.

(** Where a suspended thread continues. *)
Inductive frame :=
  | F_down (s : sid) (old_level : bool)   (* sema_down: after thread_block in the loop *)
  | F_acquire (l : Z)                     (* lock_acquire: after sema_down *)
  | F_wait_down (l : Z)                   (* cond_wait: after lock_release *)
  | F_wait_lock (l : Z)                   (* cond_wait: after sema_down *)
  | F_broadcast (c l : Z)                 (* cond_broadcast: the loop test *)
  | F_yield (old_level : bool)            (* thread_yield: after schedule *)
  | F_iret                                (* return from an external interrupt *)
  | F_start                               (* kernel_thread: first run *)
  | F_idle_init (started : sid)           (* idle: first statements *)
  | F_idle_block                          (* idle: top of the loop *)
  | F_idle_hlt                            (* idle: after thread_block *)
  | F_tid (t holder : Z) (e : entry)      (* thread_create: tid_lock acquired *)
  | F_created (t holder tid : Z) (e : entry) (* thread_create: after allocate_tid *)
  | F_exit_work                           (* thread_exit: memory_master_lock acquired *)
  | F_exit_up                             (* thread_exit: memory_master_lock released *)
  | F_exit_die                            (* thread_exit: after sema_up *)
  | F_exit_call                           (* start_process: load failed *)
  | F_reap (holder : Z)                   (* process_wait: after sema_down *)
  | F_exec_wait                           (* process_execute: after thread_create *)
  | F_exec_check.                         (* process_execute: after sema_down *)

(** Members of [struct thread] that belong to processes. *)
Record proc := mk_proc {
  childExecSuccess : bool;
  stat_holder : Z;
  status_number : Z;
  list_of_children : list Z;
  parent : Z;
  open_files : list Z;
  code_file : Z;
  index_fd : Z;
  personal_esp : Z;
  spage_table : list spinfo;
  pagedir : Z;
}.

Record thread := mk_thread {
  tid : Z;
  status : thread_status;
  name : list Z;
  priority : Z;
  magic : Z;
  process : proc;
  kstack : list frame;
}.

Record status_holder := mk_holder { h_tid : Z; h_status : Z; h_owner : Z }.

Record semaphore := mk_sema { value : Z; waiters : list Z }.

(** Calls into other components, and what the process calls return. *)
Inductive event :=
  | Ev_free_page (p : Z)
  | Ev_free_frame (kpage : Z)
  | Ev_free_swap (index : Z)
  | Ev_free (a : Z)
  | Ev_pagedir_destroy (pd : Z)
  | Ev_file_close (f : Z)
  | Ev_exit_message (t : Z) (status : Z)
  | Ev_wait_result (status : Z)
  | Ev_exec_result (loaded : bool).

Record kernel := mk_kernel {
  threads : gmap Z thread;
  ready_list : list Z;
  all_list : list Z;
  cur : Z;
  idle_thread : Z;
  initial_thread : Z;
  next_tid : Z;
  intr_on : bool;
  in_external_intr : bool;
  yield_on_return : bool;
  thread_ticks : Z;
  idle_ticks : Z;
  kernel_ticks : Z;
  user_ticks : Z;
  semas : gmap sid semaphore;
  locks : gmap Z Z;
  conds : gmap Z (list Z);
  holders : gmap Z status_holder;
  active_pd : Z;
  trace : list event;
}.

Definition set_status (st : thread_status) (t : thread) : thread :=
  mk_thread (tid t) st (name t) (priority t) (magic t) (process t) (kstack t).
Definition set_kstack (ks : list frame) (t : thread) : thread :=
  mk_thread (tid t) (status t) (name t) (priority t) (magic t) (process t) ks.
Definition set_process (p : proc) (t : thread) : thread :=
  mk_thread (tid t) (status t) (name t) (priority t) (magic t) p (kstack t).
Definition set_tid (n : Z) (t : thread) : thread :=
  mk_thread n (status t) (name t) (priority t) (magic t) (process t) (kstack t).
Definition set_priority (n : Z) (t : thread) : thread :=
  mk_thread (tid t) (status t) (name t) n (magic t) (process t) (kstack t).

Definition set_threads x (k : kernel) : kernel :=
  mk_kernel x (ready_list k) (all_list k) (cur k) (idle_thread k) (initial_thread k)
    (next_tid k) (intr_on k) (in_external_intr k) (yield_on_return k) (thread_ticks k)
    (idle_ticks k) (kernel_ticks k) (user_ticks k) (semas k) (locks k) (conds k) (holders k)
    (active_pd k) (trace k).
Definition set_ready_list x (k : kernel) : kernel :=
  mk_kernel (threads k) x (all_list k) (cur k) (idle_thread k) (initial_thread k) (next_tid
    k) (intr_on k) (in_external_intr k) (yield_on_return k) (thread_ticks k) (idle_ticks k)
    (kernel_ticks k) (user_ticks k) (semas k) (locks k) (conds k) (holders k) (active_pd k)
    (trace k).
Definition set_all_list x (k : kernel) : kernel :=
  mk_kernel (threads k) (ready_list k) x (cur k) (idle_thread k) (initial_thread k)
    (next_tid k) (intr_on k) (in_external_intr k) (yield_on_return k) (thread_ticks k)
    (idle_ticks k) (kernel_ticks k) (user_ticks k) (semas k) (locks k) (conds k) (holders k)
    (active_pd k) (trace k).
Definition set_cur x (k : kernel) : kernel :=
  mk_kernel (threads k) (ready_list k) (all_list k) x (idle_thread k) (initial_thread k)
    (next_tid k) (intr_on k) (in_external_intr k) (yield_on_return k) (thread_ticks k)
    (idle_ticks k) (kernel_ticks k) (user_ticks k) (semas k) (locks k) (conds k) (holders k)
    (active_pd k) (trace k).
Definition set_idle_thread x (k : kernel) : kernel :=
  mk_kernel (threads k) (ready_list k) (all_list k) (cur k) x (initial_thread k) (next_tid
    k) (intr_on k) (in_external_intr k) (yield_on_return k) (thread_ticks k) (idle_ticks k)
    (kernel_ticks k) (user_ticks k) (semas k) (locks k) (conds k) (holders k) (active_pd k)
    (trace k).
Definition set_initial_thread x (k : kernel) : kernel :=
  mk_kernel (threads k) (ready_list k) (all_list k) (cur k) (idle_thread k) x (next_tid k)
    (intr_on k) (in_external_intr k) (yield_on_return k) (thread_ticks k) (idle_ticks k)
    (kernel_ticks k) (user_ticks k) (semas k) (locks k) (conds k) (holders k) (active_pd k)
    (trace k).
Definition set_next_tid x (k : kernel) : kernel :=
  mk_kernel (threads k) (ready_list k) (all_list k) (cur k) (idle_thread k) (initial_thread
    k) x (intr_on k) (in_external_intr k) (yield_on_return k) (thread_ticks k) (idle_ticks k)
    (kernel_ticks k) (user_ticks k) (semas k) (locks k) (conds k) (holders k) (active_pd k)
    (trace k).
Definition set_intr_on x (k : kernel) : kernel :=
  mk_kernel (threads k) (ready_list k) (all_list k) (cur k) (idle_thread k) (initial_thread
    k) (next_tid k) x (in_external_intr k) (yield_on_return k) (thread_ticks k) (idle_ticks k)
    (kernel_ticks k) (user_ticks k) (semas k) (locks k) (conds k) (holders k) (active_pd k)
    (trace k).
Definition set_in_external_intr x (k : kernel) : kernel :=
  mk_kernel (threads k) (ready_list k) (all_list k) (cur k) (idle_thread k) (initial_thread
    k) (next_tid k) (intr_on k) x (yield_on_return k) (thread_ticks k) (idle_ticks k)
    (kernel_ticks k) (user_ticks k) (semas k) (locks k) (conds k) (holders k) (active_pd k)
    (trace k).
Definition set_yield_on_return x (k : kernel) : kernel :=
  mk_kernel (threads k) (ready_list k) (all_list k) (cur k) (idle_thread k) (initial_thread
    k) (next_tid k) (intr_on k) (in_external_intr k) x (thread_ticks k) (idle_ticks k)
    (kernel_ticks k) (user_ticks k) (semas k) (locks k) (conds k) (holders k) (active_pd k)
    (trace k).
Definition set_thread_ticks x (k : kernel) : kernel :=
  mk_kernel (threads k) (ready_list k) (all_list k) (cur k) (idle_thread k) (initial_thread
    k) (next_tid k) (intr_on k) (in_external_intr k) (yield_on_return k) x (idle_ticks k)
    (kernel_ticks k) (user_ticks k) (semas k) (locks k) (conds k) (holders k) (active_pd k)
    (trace k).
Definition set_idle_ticks x (k : kernel) : kernel :=
  mk_kernel (threads k) (ready_list k) (all_list k) (cur k) (idle_thread k) (initial_thread
    k) (next_tid k) (intr_on k) (in_external_intr k) (yield_on_return k) (thread_ticks k) x
    (kernel_ticks k) (user_ticks k) (semas k) (locks k) (conds k) (holders k) (active_pd k)
    (trace k).
Definition set_kernel_ticks x (k : kernel) : kernel :=
  mk_kernel (threads k) (ready_list k) (all_list k) (cur k) (idle_thread k) (initial_thread
    k) (next_tid k) (intr_on k) (in_external_intr k) (yield_on_return k) (thread_ticks k)
    (idle_ticks k) x (user_ticks k) (semas k) (locks k) (conds k) (holders k) (active_pd k)
    (trace k).
Definition set_user_ticks x (k : kernel) : kernel :=
  mk_kernel (threads k) (ready_list k) (all_list k) (cur k) (idle_thread k) (initial_thread
    k) (next_tid k) (intr_on k) (in_external_intr k) (yield_on_return k) (thread_ticks k)
    (idle_ticks k) (kernel_ticks k) x (semas k) (locks k) (conds k) (holders k) (active_pd k)
    (trace k).
Definition set_semas x (k : kernel) : kernel :=
  mk_kernel (threads k) (ready_list k) (all_list k) (cur k) (idle_thread k) (initial_thread
    k) (next_tid k) (intr_on k) (in_external_intr k) (yield_on_return k) (thread_ticks k)
    (idle_ticks k) (kernel_ticks k) (user_ticks k) x (locks k) (conds k) (holders k)
    (active_pd k) (trace k).
Definition set_locks x (k : kernel) : kernel :=
  mk_kernel (threads k) (ready_list k) (all_list k) (cur k) (idle_thread k) (initial_thread
    k) (next_tid k) (intr_on k) (in_external_intr k) (yield_on_return k) (thread_ticks k)
    (idle_ticks k) (kernel_ticks k) (user_ticks k) (semas k) x (conds k) (holders k)
    (active_pd k) (trace k).
Definition set_conds x (k : kernel) : kernel :=
  mk_kernel (threads k) (ready_list k) (all_list k) (cur k) (idle_thread k) (initial_thread
    k) (next_tid k) (intr_on k) (in_external_intr k) (yield_on_return k) (thread_ticks k)
    (idle_ticks k) (kernel_ticks k) (user_ticks k) (semas k) (locks k) x (holders k)
    (active_pd k) (trace k).
Definition set_holders x (k : kernel) : kernel :=
  mk_kernel (threads k) (ready_list k) (all_list k) (cur k) (idle_thread k) (initial_thread
    k) (next_tid k) (intr_on k) (in_external_intr k) (yield_on_return k) (thread_ticks k)
    (idle_ticks k) (kernel_ticks k) (user_ticks k) (semas k) (locks k) (conds k) x (active_pd
    k) (trace k).
Definition set_active_pd x (k : kernel) : kernel :=
  mk_kernel (threads k) (ready_list k) (all_list k) (cur k) (idle_thread k) (initial_thread
    k) (next_tid k) (intr_on k) (in_external_intr k) (yield_on_return k) (thread_ticks k)
    (idle_ticks k) (kernel_ticks k) (user_ticks k) (semas k) (locks k) (conds k) (holders k) x
    (trace k).
Definition set_trace x (k : kernel) : kernel :=
  mk_kernel (threads k) (ready_list k) (all_list k) (cur k) (idle_thread k) (initial_thread
    k) (next_tid k) (intr_on k) (in_external_intr k) (yield_on_return k) (thread_ticks k)
    (idle_ticks k) (kernel_ticks k) (user_ticks k) (semas k) (locks k) (conds k) (holders k)
    (active_pd k) x.

(** ** Statements *)

Definition upd_thread (t : Z) (f : thread -> thread) : M kernel unit := fun k =>
  match threads k !! t with
  | Some th => Ok (tt, set_threads (<[t := f th]> (threads k)) k)
  | None => Err Trap
  end.
Definition get_thread (t : Z) : M kernel thread := fun k =>
  match threads k !! t with Some th => Ok (th, k) | None => Err Trap end.
Definition log (e : event) : M kernel unit := fun k => Ok (tt, set_trace (trace k ++ [e]) k).
Definition running_thread : M kernel Z := fun k => Ok (cur k, k).

(** The innermost return point of the running thread. *)
Definition push_frame (f : frame) : M kernel unit :=
  c ← running_thread; upd_thread c (fun th => set_kstack (f :: kstack th) th).

(** ** [interrupt.c] *)

Definition intr_get_level : M kernel bool := fun k => Ok (intr_on k, k).
Definition intr_context : M kernel bool := fun k => Ok (in_external_intr k, k).
(** [cli] and [sti]: sets the flag and tells what it was. *)
Definition swap_flag (b : bool) : M kernel bool := fun k => Ok (intr_on k, set_intr_on b k).
Definition intr_disable : M kernel bool := swap_flag false.
Definition intr_enable : M kernel bool :=
  ctx ← intr_context; _ ← assert (negb ctx); swap_flag true.
Definition intr_set_level (level : bool) : M kernel bool :=
  if level then intr_enable else intr_disable.
Definition intr_yield_on_return : M kernel unit :=
  ctx ← intr_context; _ ← assert ctx; modify (set_yield_on_return true).

(** ** [thread.c]: the running thread and the run queue *)

(** A page that holds no [struct thread] does not hold its magic number. *)
Definition is_thread (t : Z) : M kernel bool := fun k =>
  Ok (negb (t =? NULL) &&
      match threads k !! t with Some th => magic th =? THREAD_MAGIC | None => false end, k).

Definition thread_current : M kernel Z :=
  t ← running_thread;
  ok ← is_thread t; _ ← assert ok;
  th ← get_thread t; _ ← assert (bool_decide (status th = THREAD_RUNNING));
  mret t.

Definition next_thread_to_run : M kernel Z := fun k =>
  match ready_list k with
  | [] => Ok (idle_thread k, k)
  | t :: rest => Ok (t, set_ready_list rest k)
  end.

(** [pagedir_activate] and [tss_update] of [process_activate]: the page
    directory and the kernel stack of the running thread go into the CPU. *)
Definition process_activate : M kernel unit :=
  t ← thread_current; th ← get_thread t;
  modify (set_active_pd (pagedir (process th))).

(** [palloc_free_page] of a thread's page: the [struct thread], with the
    semaphores in it and on its stack, is gone. *)
Definition free_thread (t : Z) : M kernel unit :=
  _ ← modify (fun k => set_threads (delete t (threads k)) k);
  _ ← modify (fun k => set_semas (delete (SWaiter t) (delete (SExec t) (delete (SWait t) (semas k)))) k);
  log (Ev_free_page t).

Definition thread_schedule_tail (prev : Z) : M kernel unit :=
  c ← running_thread;
  lv ← intr_get_level; _ ← assert (negb lv);
  _ ← upd_thread c (set_status THREAD_RUNNING);
  _ ← modify (set_thread_ticks 0);
  _ ← process_activate;
  if negb (prev =? NULL) then
    pth ← get_thread prev;
    k ← get;
    if bool_decide (status pth = THREAD_DYING) && negb (prev =? initial_thread k) then
      _ ← assert (negb (prev =? c)); free_thread prev
    else mret tt
  else mret tt.

(** [switch_threads] makes [next] the running thread; it returns, in the
    thread that runs next, the thread that ran before. *)
Definition schedule : M kernel unit :=
  c ← running_thread;
  next ← next_thread_to_run;
  lv ← intr_get_level; _ ← assert (negb lv);
  th ← get_thread c; _ ← assert (negb (bool_decide (status th = THREAD_RUNNING)));
  ok ← is_thread next; _ ← assert ok;
  if negb (c =? next) then
    _ ← modify (set_cur next); thread_schedule_tail c
  else thread_schedule_tail NULL.

(** The return point of the caller is pushed by the caller. *)
Definition thread_block : M kernel unit :=
  ctx ← intr_context; _ ← assert (negb ctx);
  lv ← intr_get_level; _ ← assert (negb lv);
  c ← thread_current; _ ← upd_thread c (set_status THREAD_BLOCKED);
  schedule.

Definition thread_unblock (t : Z) : M kernel unit :=
  ok ← is_thread t; _ ← assert ok;
  old_level ← intr_disable;
  th ← get_thread t; _ ← assert (bool_decide (status th = THREAD_BLOCKED));
  _ ← modify (fun k => set_ready_list (ready_list k ++ [t]) k);
  _ ← upd_thread t (set_status THREAD_READY);
  _ ← intr_set_level old_level; mret tt.

Definition thread_yield : M kernel unit :=
  c ← thread_current;
  ctx ← intr_context; _ ← assert (negb ctx);
  old_level ← intr_disable;
  _ ← push_frame (F_yield old_level);
  k ← get;
  _ ← (if negb (c =? idle_thread k) then modify (fun k => set_ready_list (ready_list k ++ [c]) k)
       else mret tt);
  _ ← upd_thread c (set_status THREAD_READY);
  schedule.

Definition thread_tick : M kernel unit :=
  t ← thread_current; th ← get_thread t; k ← get;
  _ ← (if t =? idle_thread k then modify (fun k => set_idle_ticks (idle_ticks k + 1) k)
       else if negb (pagedir (process th) =? NULL) then
         modify (fun k => set_user_ticks (user_ticks k + 1) k)
       else modify (fun k => set_kernel_ticks (kernel_ticks k + 1) k));
  _ ← modify (fun k => set_thread_ticks (u32 (thread_ticks k + 1)) k);
  k ← get;
  if TIME_SLICE <=? thread_ticks k then intr_yield_on_return else mret tt.

Definition thread_set_priority (new_priority : Z) : M kernel unit :=
  c ← thread_current; upd_thread c (set_priority new_priority).
Definition thread_get_priority : M kernel Z :=
  c ← thread_current; th ← get_thread c; mret (priority th).
Definition thread_tid : M kernel Z :=
  c ← thread_current; th ← get_thread c; mret (tid th).

(** An external interrupt: the CPU clears the interrupt flag on the way in,
    [handler] runs in interrupt context, and the interrupted code goes on (with
    the flag restored by [iret]) once the thread runs again. *)
Definition intr_handler_external (handler : M kernel unit) : M kernel unit :=
  _ ← modify (set_intr_on false);
  ctx ← intr_context; _ ← assert (negb ctx);
  _ ← modify (set_in_external_intr true);
  _ ← modify (set_yield_on_return false);
  _ ← handler;
  lv ← intr_get_level; _ ← assert (negb lv);
  ctx ← intr_context; _ ← assert ctx;
  _ ← modify (set_in_external_intr false);
  _ ← push_frame F_iret;
  k ← get;
  if yield_on_return k then thread_yield else mret tt.
