(* ===== verification/Synch.v ===== *)
(** * Synchronization: [threads/synch.c]

    Semaphores, locks and condition variables over the scheduler of Sched.  A
    primitive that may sleep leaves a return point on the kernel stack of the
    thread before it blocks; Thread.v gives every return point its code. *)

From S2P Require Import Prelude Spage Sched.

(** ** Semaphores *)

Definition get_sema (s : sid) : M kernel semaphore := fun k =>
  match semas k !! s with Some sm => Ok (sm, k) | None => Err Trap end.
Definition put_sema (s : sid) (sm : semaphore) : M kernel unit :=
  modify (fun k => set_semas (<[s := sm]> (semas k)) k).

Definition sema_init (s : sid) (v : Z) : M kernel unit := put_sema s (mk_sema v []).

(** The [while] loop of [sema_down]: one test, and what follows it up to the
    next suspension or the end of the function. *)
Definition sema_down_loop (s : sid) (old_level : bool) : M kernel unit :=
  sm ← get_sema s;
  if value sm =? 0 then
    c ← thread_current;
    _ ← put_sema s (mk_sema (value sm) (waiters sm ++ [c]));
    _ ← push_frame (F_down s old_level);
    thread_block
  else
    _ ← put_sema s (mk_sema (u32 (value sm - 1)) (waiters sm));
    _ ← intr_set_level old_level; mret tt.
Definition sema_down (s : sid) : M kernel unit :=
  ctx ← intr_context; _ ← assert (negb ctx);
  old_level ← intr_disable;
  sema_down_loop s old_level.

Definition sema_try_down (s : sid) : M kernel bool :=
  old_level ← intr_disable;
  sm ← get_sema s;
  success ← (if 0 <? value sm then
      _ ← put_sema s (mk_sema (u32 (value sm - 1)) (waiters sm)); mret true
    else mret false);
  _ ← intr_set_level old_level; mret success.

Definition sema_up (s : sid) : M kernel unit :=
  old_level ← intr_disable;
  sm ← get_sema s;
  _ ← (match waiters sm with
       | t :: rest => _ ← put_sema s (mk_sema (value sm) rest); thread_unblock t
       | [] => mret tt
       end);
  sm ← get_sema s;
  _ ← put_sema s (mk_sema (u32 (value sm + 1)) (waiters sm));
  _ ← intr_set_level old_level; mret tt.

(** ** Locks *)

Definition get_holder (l : Z) : M kernel Z := fun k =>
  match locks k !! l with Some h => Ok (h, k) | None => Err Trap end.
Definition put_holder (l h : Z) : M kernel unit :=
  modify (fun k => set_locks (<[l := h]> (locks k)) k).

Definition lock_init (l : Z) : M kernel unit :=
  _ ← put_holder l NULL; sema_init (SLock l) 1.

Definition lock_held_by_current_thread (l : Z) : M kernel bool :=
  h ← get_holder l; c ← thread_current; mret (h =? c).

(** [lock->holder = thread_current ()], after [sema_down]. *)
Definition lock_acquired (l : Z) : M kernel unit :=
  c ← thread_current; put_holder l c.
Definition lock_acquire (l : Z) : M kernel unit :=
  ctx ← intr_context; _ ← assert (negb ctx);
  held ← lock_held_by_current_thread l; _ ← assert (negb held);
  _ ← push_frame (F_acquire l);
  sema_down (SLock l).

Definition lock_try_acquire (l : Z) : M kernel bool :=
  held ← lock_held_by_current_thread l; _ ← assert (negb held);
  success ← sema_try_down (SLock l);
  _ ← (if (success : bool) then c ← thread_current; put_holder l c else mret tt);
  mret success.

Definition lock_release (l : Z) : M kernel unit :=
  held ← lock_held_by_current_thread l; _ ← assert held;
  _ ← put_holder l NULL; sema_up (SLock l).

(** ** Condition variables

    [waiters] of a condition is a list of [struct semaphore_elem]s, each on the
    stack of the thread that waits: it is kept as the list of these threads. *)

Definition get_cond (c : Z) : M kernel (list Z) := fun k =>
  match conds k !! c with Some ws => Ok (ws, k) | None => Err Trap end.
Definition put_cond (c : Z) (ws : list Z) : M kernel unit :=
  modify (fun k => set_conds (<[c := ws]> (conds k)) k).

Definition cond_init (c : Z) : M kernel unit := put_cond c [].

Definition cond_wait (c l : Z) : M kernel unit :=
  ctx ← intr_context; _ ← assert (negb ctx);
  held ← lock_held_by_current_thread l; _ ← assert held;
  t ← running_thread;
  _ ← sema_init (SWaiter t) 0;
  ws ← get_cond c; _ ← put_cond c (ws ++ [t]);
  _ ← push_frame (F_wait_down l);
  lock_release l.
Definition cond_wait_down (l : Z) : M kernel unit :=
  t ← running_thread;
  _ ← push_frame (F_wait_lock l);
  sema_down (SWaiter t).

Definition cond_signal (c l : Z) : M kernel unit :=
  ctx ← intr_context; _ ← assert (negb ctx);
  held ← lock_held_by_current_thread l; _ ← assert held;
  ws ← get_cond c;
  match ws with
  | t :: rest => _ ← put_cond c rest; sema_up (SWaiter t)
  | [] => mret tt
  end.

(** One test of the [while] loop; the rest of the loop is the return point. *)
Definition cond_broadcast (c l : Z) : M kernel unit :=
  ws ← get_cond c;
  match ws with
  | _ :: _ => _ ← push_frame (F_broadcast c l); cond_signal c l
  | [] => mret tt
  end.
