(* ===== verification/Thread.v ===== *)
(** * Threads: the life of a thread in [threads/thread.c], and the machine

    Creation, start, exit and reaping of threads, the code behind every return
    point of Sched, and the step relation of the kernel: the running thread
    calls a primitive, or goes on inside one, or an external interrupt
    arrives. *)

From S2P Require Import Prelude Spage Sched Synch.

(** The two locks of [thread.c]. *)
Definition tid_lock : Z := 1.
Definition memory_master_lock : Z := 2.

(** [strlcpy] into the 16 bytes of [name]. *)
Definition thread_name_size : nat := 16.

Definition new_proc : proc :=
  mk_proc false NULL 0 [] NULL (replicate (Z.to_nat MAX_FILES) NULL) NULL 2 NULL [] NULL.

Definition init_thread (t : Z) (nm : list Z) (prio : Z) : M kernel unit :=
  _ ← assert (negb (t =? NULL));
  _ ← assert ((PRI_MIN <=? prio) && (prio <=? PRI_MAX));
  _ ← modify (fun k => set_threads
         (<[t := mk_thread 0 THREAD_BLOCKED (take (thread_name_size - 1) nm) prio THREAD_MAGIC new_proc []]>
            (threads k)) k);
  _ ← sema_init (SExec t) 0;
  _ ← sema_init (SWait t) 0;
  modify (fun k => set_all_list (all_list k ++ [t]) k).

(** [allocate_tid] is [lock_acquire (&tid_lock)], [take_tid] and
    [lock_release (&tid_lock)]. *)
Definition take_tid : M kernel Z := fun k => Ok (next_tid k, set_next_tid (s32 (next_tid k + 1)) k).

(** Stack of a new thread: [switch_entry] and [kernel_thread], then the thread
    function. *)
Definition entry_frames (e : entry) : list frame :=
  match e with EIdle s => [F_start; F_idle_init s] | EOther => [F_start] end.

(** [thread_create], with the pages [palloc_get_page] returned for the thread
    and for its status holder.  The three parts are separated by the lock
    operations of [allocate_tid]. *)
Definition thread_create (t holder : Z) (nm : list Z) (prio : Z) (e : entry) : M kernel unit :=
  if t =? NULL then mret tt
  else
    _ ← init_thread t nm prio;
    _ ← push_frame (F_tid t holder e);
    lock_acquire tid_lock.
Definition create_tid (t holder : Z) (e : entry) : M kernel unit :=
  n ← take_tid;
  _ ← push_frame (F_created t holder n e);
  lock_release tid_lock.
Definition create_finish (t holder n : Z) (e : entry) : M kernel unit :=
  c ← thread_current;
  _ ← (if holder =? NULL then fail Trap else mret tt);
  _ ← upd_thread t (fun th =>
        let p := process th in
        set_tid n (set_process (mk_proc (childExecSuccess p) holder (-1) (list_of_children p) c
          (open_files p) (code_file p) (index_fd p) NULL (spage_table p) (pagedir p)) th));
  _ ← modify (fun k => set_holders (<[holder := mk_holder n (-1) t]> (holders k)) k);
  _ ← upd_thread c (fun th =>
        let p := process th in
        set_process (mk_proc (childExecSuccess p) (stat_holder p) (status_number p)
          (list_of_children p ++ [holder]) (parent p) (open_files p) (code_file p) (index_fd p)
          (personal_esp p) (spage_table p) (pagedir p)) th);
  _ ← upd_thread t (set_kstack (entry_frames e));
  thread_unblock t.

(** [process_exit]: frames of the pages in memory, then the page directory. *)
Definition process_exit : M kernel unit :=
  c ← thread_current; th ← get_thread c;
  let p := process th in
  let frames := filter (fun e => kpage_address e <> NULL) (spage_table p) in
  _ ← modify (fun k => set_trace (trace k ++ map (fun e => Ev_free_frame (kpage_address e)) frames) k);
  if negb (pagedir p =? NULL) then
    _ ← upd_thread c (set_process (mk_proc (childExecSuccess p) (stat_holder p) (status_number p)
          (list_of_children p) (parent p) (open_files p) (code_file p) (index_fd p)
          (personal_esp p) (spage_table p) NULL));
    _ ← modify (set_active_pd NULL);
    log (Ev_pagedir_destroy (pagedir p))
  else mret tt.

(** The loop of [thread_exit] over the supplemental page table. *)
Definition spage_events (e : spinfo) : list event :=
  (if bool_decide (instructions e = SWAP) then [Ev_free_swap (index_into_swap e)] else [])
    ++ [Ev_free (sp_id e)].
Definition exit_spage : M kernel unit :=
  c ← thread_current; th ← get_thread c;
  let p := process th in
  _ ← modify (fun k => set_trace (trace k ++ (spage_table p ≫= spage_events)) k);
  upd_thread c (set_process (mk_proc (childExecSuccess p) (stat_holder p) (status_number p)
    (list_of_children p) (parent p) (open_files p) (code_file p) (index_fd p)
    (personal_esp p) [] (pagedir p))).

Definition exit_work : M kernel unit :=
  _ ← process_exit; _ ← exit_spage;
  _ ← push_frame F_exit_up;
  held ← lock_held_by_current_thread memory_master_lock;
  if (held : bool) then lock_release memory_master_lock else mret tt.
Definition thread_exit : M kernel unit :=
  ctx ← intr_context; _ ← assert (negb ctx);
  held ← lock_held_by_current_thread memory_master_lock;
  if (held : bool) then exit_work
  else _ ← push_frame F_exit_work; lock_acquire memory_master_lock.
Definition exit_up : M kernel unit :=
  c ← thread_current; _ ← push_frame F_exit_die; sema_up (SWait c).

(** [close_files]: descriptors 2 and up. *)
Definition close_files (files : list Z) : list event :=
  map Ev_file_close (filter (fun f => f <> NULL) (drop 2 files)).
Definition exit_die : M kernel unit :=
  c ← thread_current; th ← get_thread c;
  let p := process th in
  _ ← log (Ev_exit_message c (status_number p));
  _ ← log (Ev_file_close (code_file p));
  _ ← modify (fun k => set_trace (trace k ++ close_files (open_files p)) k);
  _ ← intr_disable;
  _ ← modify (fun k => set_all_list (filter (fun t => t <> c) (all_list k)) k);
  _ ← upd_thread c (set_status THREAD_DYING);
  schedule.

(** [delete_children]: detaches and frees the status holders of the children. *)
Fixpoint delete_children_loop (hs : list Z) : M kernel unit :=
  match hs with
  | [] => mret tt
  | h :: rest =>
      k ← get;
      sh ← lift (of_option Trap (holders k !! h));
      _ ← upd_thread (h_owner sh) (fun th =>
            let p := process th in
            set_process (mk_proc (childExecSuccess p) NULL (status_number p) (list_of_children p)
              (parent p) (open_files p) (code_file p) (index_fd p) (personal_esp p)
              (spage_table p) (pagedir p)) th);
      _ ← modify (fun k => set_holders (delete h (holders k)) k);
      _ ← log (Ev_free_page h);
      delete_children_loop rest
  end.
Definition set_children (hs : list Z) (th : thread) : thread :=
  let p := process th in
  set_process (mk_proc (childExecSuccess p) (stat_holder p) (status_number p) hs (parent p)
    (open_files p) (code_file p) (index_fd p) (personal_esp p) (spage_table p) (pagedir p)) th.
Definition delete_children : M kernel unit :=
  c ← thread_current; th ← get_thread c;
  _ ← upd_thread c (set_children []);
  delete_children_loop (list_of_children (process th)).

(** [exit_h] of [syscall.c] stores the status and exits. *)
Definition exit_h (st : Z) : M kernel unit :=
  c ← thread_current; th ← get_thread c;
  let p := process th in
  k ← get;
  _ ← (if negb (stat_holder p =? NULL) then
         sh ← lift (of_option Trap (holders k !! stat_holder p));
         modify (fun k => set_holders (<[stat_holder p := mk_holder (h_tid sh) st (h_owner sh)]> (holders k)) k)
       else mret tt);
  _ ← upd_thread c (set_process (mk_proc (childExecSuccess p) (stat_holder p) st
    (list_of_children p) (parent p) (open_files p) (code_file p) (index_fd p)
    (personal_esp p) (spage_table p) (pagedir p)));
  thread_exit.

(** [process_wait]: the first child whose status holder carries the tid. *)
Fixpoint find_child (hs : gmap Z status_holder) (l : list Z) (child_tid : Z) : res (option Z) :=
  match l with
  | [] => mret None
  | h :: rest =>
      sh ← of_option Trap (hs !! h);
      if h_tid sh =? child_tid then mret (Some h) else find_child hs rest child_tid
  end.
Definition process_wait (child_tid : Z) : M kernel unit :=
  c ← thread_current; th ← get_thread c; k ← get;
  r ← lift (find_child (holders k) (list_of_children (process th)) child_tid);
  match r with
  | Some h =>
      sh ← lift (of_option Trap (holders k !! h));
      _ ← push_frame (F_reap h);
      sema_down (SWait (h_owner sh))
  | None => log (Ev_wait_result (-1))
  end.
Definition reap (h : Z) : M kernel unit :=
  c ← thread_current; k ← get;
  sh ← lift (of_option Trap (holders k !! h));
  _ ← upd_thread c (fun th => set_children (filter (fun x => x <> h) (list_of_children (process th))) th);
  _ ← modify (fun k => set_holders (delete h (holders k)) k);
  _ ← log (Ev_free_page h);
  log (Ev_wait_result (h_status sh)).

(** [process_execute]: the argument string fits and its copy was allocated;
    [t] and [holder] are the pages [thread_create] gets.  The caller learns only
    whether the child was loaded. *)
Definition set_exec_success (b : bool) (th : thread) : thread :=
  let p := process th in
  set_process (mk_proc b (stat_holder p) (status_number p) (list_of_children p) (parent p)
    (open_files p) (code_file p) (index_fd p) (personal_esp p) (spage_table p) (pagedir p)) th.
Definition process_execute (t holder : Z) (nm : list Z) : M kernel unit :=
  _ ← push_frame F_exec_wait;
  thread_create t holder nm PRI_DEFAULT EOther.
Definition execute_wait : M kernel unit :=
  c ← thread_current;
  _ ← upd_thread c (set_exec_success false);
  _ ← push_frame F_exec_check;
  sema_down (SExec c).
Definition execute_check : M kernel unit :=
  c ← thread_current; th ← get_thread c;
  log (Ev_exec_result (childExecSuccess (process th))).

(** [start_process], once [load] has returned [success]. *)
Definition start_process_loaded (success : bool) : M kernel unit :=
  c ← thread_current; th ← get_thread c;
  let p := parent (process th) in
  _ ← upd_thread p (set_exec_success success);
  _ ← (if (success : bool) then mret tt else push_frame F_exit_call);
  sema_up (SExec p).

(** The code behind a return point. *)
Definition exec_frame (f : frame) : M kernel unit :=
  match f with
  | F_down s old_level => sema_down_loop s old_level
  | F_acquire l => lock_acquired l
  | F_wait_down l => cond_wait_down l
  | F_wait_lock l => lock_acquire l
  | F_broadcast c l => cond_broadcast c l
  | F_yield old_level => _ ← intr_set_level old_level; mret tt
  | F_iret => modify (set_intr_on true)
  | F_start => _ ← intr_enable; mret tt
  | F_idle_init s =>
      c ← thread_current; _ ← modify (set_idle_thread c);
      _ ← push_frame F_idle_block; sema_up s
  | F_idle_block => _ ← intr_disable; _ ← push_frame F_idle_hlt; thread_block
  | F_idle_hlt => _ ← push_frame F_idle_block; modify (set_intr_on true)
  | F_tid t h e => create_tid t h e
  | F_created t h n e => create_finish t h n e
  | F_exit_work => exit_work
  | F_exit_up => exit_up
  | F_exit_die => exit_die
  | F_exit_call => thread_exit
  | F_reap h => reap h
  | F_exec_wait => execute_wait
  | F_exec_check => execute_check
  end.

(** What a thread may call from its own code. *)
Inductive call :=
  | C_intr (level : bool)
  | C_yield
  | C_sema_init (s : Z) (v : Z)
  | C_down (s : Z)
  | C_try_down (s : Z)
  | C_up (s : Z)
  | C_lock_init (l : Z)
  | C_acquire (l : Z)
  | C_try_acquire (l : Z)
  | C_release (l : Z)
  | C_cond_init (c : Z)
  | C_wait (c l : Z)
  | C_signal (c l : Z)
  | C_broadcast (c l : Z)
  | C_create (t holder : Z) (nm : list Z) (prio : Z)
  | C_exit (st : Z)
  | C_process_wait (child_tid : Z)
  | C_execute (t holder : Z) (nm : list Z)
  | C_loaded (success : bool).

Definition exec_call (c : call) : M kernel unit :=
  match c with
  | C_intr level => _ ← intr_set_level level; mret tt
  | C_yield => thread_yield
  | C_sema_init s v => sema_init (SSema s) v
  | C_down s => sema_down (SSema s)
  | C_try_down s => _ ← sema_try_down (SSema s); mret tt
  | C_up s => sema_up (SSema s)
  | C_lock_init l => lock_init l
  | C_acquire l => lock_acquire l
  | C_try_acquire l => _ ← lock_try_acquire l; mret tt
  | C_release l => lock_release l
  | C_cond_init c => cond_init c
  | C_wait c l => cond_wait c l
  | C_signal c l => cond_signal c l
  | C_broadcast c l => cond_broadcast c l
  | C_create t h nm prio => thread_create t h nm prio EOther
  | C_exit st => exit_h st
  | C_process_wait n => process_wait n
  | C_execute t h nm => process_execute t h nm
  | C_loaded success => start_process_loaded success
  end.

(** Going on at the innermost return point of the running thread. *)
Definition resume : M kernel unit := fun k =>
  match threads k !! cur k with
  | Some th =>
      match kstack th with
      | f :: rest =>
          (_ ← upd_thread (cur k) (set_kstack rest); exec_frame f) k
      | [] => Err Trap
      end
  | None => Err Trap
  end.

(** Booting: [thread_init] on the initial thread [t0], then [thread_start],
    which creates the idle thread on page [ti] with status holder [hi] and
    waits for it to start ([si] is its semaphore).  Only the initial and the
    idle thread exist, so the run is deterministic: [resumes n] lets the
    running thread go on [n] times. *)
Fixpoint resumes (n : nat) : M kernel unit :=
  match n with O => mret tt | S n' => _ ← resume; resumes n' end.

Definition blank_kernel (t0 : Z) : kernel :=
  mk_kernel ∅ [] [] t0 NULL NULL 1 false false false 0 0 0 0 ∅ ∅ ∅ ∅ NULL [].

Definition thread_init : M kernel unit :=
  lv ← intr_get_level; _ ← assert (negb lv);
  _ ← lock_init tid_lock;
  _ ← lock_init memory_master_lock;
  t ← running_thread;
  _ ← modify (set_initial_thread t);
  _ ← init_thread t [109; 97; 105; 110] PRI_DEFAULT;
  _ ← upd_thread t (set_status THREAD_RUNNING);
  _ ← lock_acquire tid_lock; _ ← resumes 1;
  n ← take_tid;
  _ ← lock_release tid_lock;
  upd_thread t (set_tid n).

Definition thread_start (ti hi si : Z) : M kernel unit :=
  _ ← sema_init (SSema si) 0;
  _ ← thread_create ti hi [105; 100; 108; 101] PRI_MIN (EIdle (SSema si));
  _ ← resumes 3;
  _ ← intr_enable;
  sema_down (SSema si).

Definition boot (t0 ti hi si : Z) : res kernel :=
  k ← (_ ← thread_init; _ ← thread_start ti hi si; resumes 4) (blank_kernel t0);
  mret k.2.
