(* ===== verification/KernelInv.v ===== *)
(** * Invariants of the kernel machine

    The well-formedness of the scheduler state of Thread.v, kept by every step:
    which lists a thread is on agrees with its status and with what it waits
    for, at most one thread owns a lock, and no wake-up is lost.  The proofs go
    through a Hoare logic for the primitives, in which a primitive may leave
    the two counts of the invariant off by one on the way. *)

From S2P Require Import Prelude Spage Sched Synch Thread.

(** ** Steps of the machine *)

(** A page no [struct thread], no semaphore and no suspended thread refers to. *)
Definition mentions (t : Z) (f : frame) : bool :=
  match f with
  | F_down (SWaiter u) _ | F_down (SExec u) _ | F_down (SWait u) _ => u =? t
  | _ => false
  end.
Definition fresh_page (k : kernel) (t : Z) : Prop :=
  threads k !! t = None /\
  semas k !! SWaiter t = None /\ semas k !! SExec t = None /\ semas k !! SWait t = None /\
  forall u th, threads k !! u = Some th -> Forall (fun f => mentions t f = false) (kstack th).

(** What the machine assumes of callers: an object is initialized once, and the
    page allocator hands out pages that are not in use. *)
Definition call_allowed (k : kernel) (c : call) : Prop :=
  match c with
  | C_sema_init s v => semas k !! SSema s = None /\ 0 <= v < 2 ^ 32
  | C_lock_init l => locks k !! l = None /\ semas k !! SLock l = None
  | C_create t _ _ _ | C_execute t _ _ => t = NULL \/ fresh_page k t
  | _ => True
  end.

(** The interrupt handlers that reach the scheduler: the timer, and handlers
    that wake a thread with [sema_up]. *)
Inductive irq := Irq_timer | Irq_up (s : Z).
Definition irq_handler (i : irq) : M kernel unit :=
  match i with Irq_timer => thread_tick | Irq_up s => sema_up (SSema s) end.

Inductive step (k : kernel) : kernel -> Prop :=
  | step_call c th k' :
      threads k !! cur k = Some th -> kstack th = [] -> call_allowed k c ->
      exec_call c k = Ok (tt, k') -> step k k'
  | step_resume k' : resume k = Ok (tt, k') -> step k k'
  | step_irq i k' :
      intr_on k = true -> intr_handler_external (irq_handler i) k = Ok (tt, k') -> step k k'.

(** ** The invariant *)

Definition is_intr (f : frame) : bool :=
  match f with F_yield _ | F_iret => true | _ => false end.

(** Where the thread goes on once it is back from interrupts and yields. *)
Fixpoint skip (ks : list frame) : list frame :=
  match ks with
  | f :: rest => if is_intr f then skip rest else ks
  | [] => []
  end.

(** [th] has taken the semaphore of [l] but not yet stored itself as holder. *)
Definition acq (l : Z) (th : thread) : Z :=
  match skip (kstack th) with F_acquire l' :: _ => b2z (l' =? l) | _ => 0 end.
(** [th] was woken from [s] and will test the value again. *)
Definition pend (s : sid) (th : thread) : Z :=
  if decide (status th = THREAD_BLOCKED) then 0
  else match skip (kstack th) with F_down s' _ :: _ => b2z (bool_decide (s' = s)) | _ => 0 end.
(** How often [th] is in the middle of creating [t]. *)
Definition creates (t : Z) (f : frame) : bool :=
  match f with F_tid t' _ _ | F_created t' _ _ _ => t' =? t | _ => false end.
Fixpoint crt_stack (t : Z) (ks : list frame) : Z :=
  match ks with [] => 0 | f :: rest => b2z (creates t f) + crt_stack t rest end.
Definition crt (t : Z) (th : thread) : Z := crt_stack t (kstack th).

Definition plain (ks : list frame) : Prop :=
  match skip ks with F_acquire _ :: _ | F_down _ _ :: _ => False | _ => True end.

(** A semaphore inside a [struct thread] or on its stack. *)
Definition embedded (s : sid) : bool :=
  match s with SWaiter _ | SExec _ | SWait _ => true | _ => false end.

(** The shapes of kernel stacks. *)
Definition frame_ok (k : kernel) (t : Z) (f : frame) (rest : list frame) : Prop :=
  match f with
  | F_yield _ | F_iret => True
  | F_down s _ =>
      (is_Some (semas k !! s) \/ embedded s = true) /\
      match s with
      | SLock l => exists r, rest = F_acquire l :: r
      | SWaiter u => u = t /\ plain rest
      | _ => plain rest
      end
  | F_acquire l => is_Some (locks k !! l) /\ plain rest
  | F_idle_init _ => False
  | F_idle_block | F_idle_hlt => t = idle_thread k /\ rest = []
  | F_exit_work | F_exit_up | F_exit_die | F_exit_call => rest = []
  | F_tid _ _ e | F_created _ _ _ e => e = EOther /\ plain rest
  | _ => plain rest
  end.
Fixpoint ks_ok (k : kernel) (t : Z) (ks : list frame) : Prop :=
  match ks with
  | [] => True
  | f :: rest => frame_ok k t f rest /\ ks_ok k t rest
  end.

(** Where a thread switch stands: not in one; the status of the running thread
    has changed ([schedule] begins); the next thread runs and the previous one,
    if it is dying, has not been freed yet. *)
Inductive phase := Ph_run | Ph_leave | Ph_done (prev : Z).

(** What the status of a thread says about the lists. *)
Definition status_ok (r : phase) (k : kernel) (t : Z) (th : thread) : Prop :=
  match status th with
  | THREAD_RUNNING => r <> Ph_leave /\ t = cur k
  | THREAD_READY => t ∈ ready_list k \/ t = idle_thread k
  | THREAD_BLOCKED =>
      match kstack th with
      | [] | F_idle_hlt :: _ => True
      | F_down s _ :: _ =>
          match semas k !! s with Some sm => t ∈ waiters sm | None => embedded s = true end
      | _ => False
      end
  | THREAD_DYING => kstack th = [] /\ (t = initial_thread k \/ (r = Ph_leave /\ t = cur k) \/ r = Ph_done t)
  end.

Record base (r : phase) (k : kernel) : Prop := {
  b_thr : forall t th, threads k !! t = Some th ->
    t <> NULL /\ magic th = THREAD_MAGIC /\ status_ok r k t th /\ ks_ok k t (kstack th);
  b_cur : exists th, threads k !! cur k = Some th /\ (r <> Ph_leave -> status th = THREAD_RUNNING);
  b_ready : NoDup (ready_list k) /\ forall t, t ∈ ready_list k ->
    exists th, threads k !! t = Some th /\ status th = THREAD_READY;
  b_wait : forall s sm, semas k !! s = Some sm -> 0 <= value sm < 2 ^ 32 /\ NoDup (waiters sm) /\
    forall t, t ∈ waiters sm -> exists th old rest, threads k !! t = Some th /\
      status th = THREAD_BLOCKED /\ kstack th = F_down s old :: rest;
}.

(** The value of a lock's semaphore, its holder and the threads about to become
    its holder add up to one (plus [d], on the way). *)
Definition lock_acct (d : Z -> Z) (k : kernel) : Prop :=
  forall l h, locks k !! l = Some h -> exists sm, semas k !! SLock l = Some sm /\
    value sm + b2z (negb (h =? NULL)) + map_sum (acq l) (threads k) = 1 + d l.

(** While threads sleep on a semaphore, every unit of its value has a woken
    thread that will ask for it (up to [e], on the way). *)
Definition wake_acct (e : sid -> Z) (k : kernel) : Prop :=
  forall s sm, semas k !! s = Some sm -> waiters sm <> [] ->
    value sm <= map_sum (pend s) (threads k) + e s.

(** A thread in creation is created by one thread, and sleeps without a stack. *)
Definition new_ok (k : kernel) : Prop :=
  forall t, map_sum (crt t) (threads k) <= 1 /\
    (0 < map_sum (crt t) (threads k) ->
     exists th, threads k !! t = Some th /\ status th = THREAD_BLOCKED /\ kstack th = []).

Definition zero {A} (_ : A) : Z := 0.
Definition at_ `{EqDecision A} (x : A) (y : A) : Z := b2z (bool_decide (x = y)).

(** The idle thread only ever runs its loop. *)
Definition idle_stack (k : kernel) : Prop :=
  exists th pre f, threads k !! idle_thread k = Some th /\ kstack th = pre ++ [f] /\
    Forall (fun g => is_intr g = true) pre /\ (f = F_idle_block \/ f = F_idle_hlt).

Record inv (k : kernel) : Prop := {
  i_base : base Ph_run k;
  i_lock : lock_acct zero k;
  i_wake : wake_acct zero k;
  i_new : new_ok k;
  i_idle : idle_stack k;
}.

(** ** Bookkeeping *)

Definition idle_shape (ks : list frame) : Prop :=
  exists pre f, ks = pre ++ [f] /\ Forall (fun g => is_intr g = true) pre /\
    (f = F_idle_block \/ f = F_idle_hlt).

Lemma idle_stack_shape k :
  idle_stack k <-> exists th, threads k !! idle_thread k = Some th /\ idle_shape (kstack th).
Proof. unfold idle_stack, idle_shape. naive_solver. Qed.

Lemma idle_shape_skip ks : idle_shape ks -> skip ks = [F_idle_block] \/ skip ks = [F_idle_hlt].
Proof.
  intros (pre & f & -> & Hpre & Hf). induction Hpre as [|g pre Hg _ IH]; simpl.
  - destruct Hf as [-> | ->]; auto.
  - by rewrite Hg.
Qed.

Lemma idle_shape_cons f ks : is_intr f = true -> idle_shape (f :: ks) <-> idle_shape ks.
Proof.
  intros Hf. split; intros (pre & g & E & Hpre & Hg).
  - destruct pre as [|h pre]; simplify_eq/=; [by destruct Hg; subst|].
    inversion Hpre; subst. exists pre, g. auto.
  - subst. exists (f :: pre), g. auto.
Qed.

Lemma idle_shape_top f ks : idle_shape (f :: ks) -> is_intr f = false ->
  ks = [] /\ (f = F_idle_block \/ f = F_idle_hlt).
Proof.
  intros (pre & g & E & Hpre & Hg) Hf. destruct pre as [|h pre]; simplify_eq/=; [done|].
  inversion Hpre. congruence.
Qed.

Lemma acq_nonneg l th : 0 <= acq l th.
Proof. unfold acq. destruct (skip (kstack th)) as [|[] ?]; try done. by destruct (_ =? _). Qed.
Lemma pend_nonneg s th : 0 <= pend s th.
Proof.
  unfold pend. case_decide; [done|]. destruct (skip (kstack th)) as [|[] ?]; try done.
  by destruct (bool_decide _).
Qed.
Lemma crt_stack_nonneg t ks : 0 <= crt_stack t ks.
Proof. induction ks as [|f ks IH]; simpl; [done|]. destruct (creates t f); simpl; lia. Qed.
Lemma crt_nonneg t th : 0 <= crt t th.
Proof. apply crt_stack_nonneg. Qed.

Lemma acq_plain l th : plain (kstack th) -> acq l th = 0.
Proof. unfold plain, acq. by destruct (skip (kstack th)) as [|[] ?]. Qed.
Lemma pend_plain s th : plain (kstack th) -> pend s th = 0.
Proof. unfold plain, pend. case_decide; [done|]. by destruct (skip (kstack th)) as [|[] ?]. Qed.

(** The state between two statements of a primitive. *)
Record mid (r : phase) (d : Z -> Z) (e : sid -> Z) (k : kernel) : Prop := {
  m_base : base r k;
  m_lock : lock_acct d k;
  m_wake : wake_acct e k;
  m_new : new_ok k;
  m_idle : idle_stack k;
}.

Lemma inv_mid k : inv k <-> mid Ph_run zero zero k.
Proof. split; intros []; by constructor. Qed.

(** The parts of the state the invariant looks at. *)
Definition same (k k' : kernel) : Prop :=
  threads k' = threads k /\ ready_list k' = ready_list k /\ cur k' = cur k /\
  idle_thread k' = idle_thread k /\ initial_thread k' = initial_thread k /\
  semas k' = semas k /\ locks k' = locks k.

Lemma ks_ok_mono k k' t ks :
  idle_thread k' = idle_thread k ->
  (forall s, is_Some (semas k !! s) -> is_Some (semas k' !! s) \/ embedded s = true) ->
  (forall l, is_Some (locks k !! l) -> is_Some (locks k' !! l)) ->
  ks_ok k t ks -> ks_ok k' t ks.
Proof.
  intros Hi Hs Hl. induction ks as [|f ks IH]; simpl; [done|].
  intros [Hf ?]. split; [|auto]. destruct f; simpl in *; rewrite ?Hi; naive_solver.
Qed.

Lemma mid_same r d e k k' : same k k' -> mid r d e k -> mid r d e k'.
Proof.
  intros (Ht & Hr & Hc & Hid & Hin & Hs & Hl) [[B1 B2 B3 B4] ML MW MN MI].
  constructor.
  - constructor.
    + intros t th. rewrite Ht. intros Hth. destruct (B1 t th Hth) as (? & ? & Hst & Hks).
      split_and!; [done|done| |].
      * revert Hst. unfold status_ok. by rewrite Hr, Hc, Hid, Hin, Hs.
      * eapply ks_ok_mono; [..|exact Hks]; [done|rewrite Hs; auto|by rewrite Hl].
    + by rewrite Ht, Hc.
    + by rewrite Ht, Hr.
    + by rewrite Ht, Hs.
  - intros l h. rewrite Hl, Hs, Ht. apply ML.
  - intros s sm. rewrite Hs, Ht. apply MW.
  - intros t. rewrite Ht. apply MN.
  - unfold idle_stack. by rewrite Ht, Hid.
Qed.

Lemma mid_weaken r d e d' e' k :
  (forall l, d l = d' l) -> (forall s, e s <= e' s) -> mid r d e k -> mid r d' e' k.
Proof.
  intros Hd He [B ML MW MN MI]. constructor; [done| | |done|done].
  - intros l h Hl. rewrite <- Hd. by apply ML.
  - intros s sm Hs Hw. specialize (MW s sm Hs Hw). specialize (He s). lia.
Qed.

(** Replacing a thread, its status kept. *)
Lemma mid_thread r d e k t th th' :
  mid r d e k -> threads k !! t = Some th ->
  status th' = status th -> magic th' = THREAD_MAGIC ->
  (t = cur k /\ status th = THREAD_RUNNING \/ kstack th' = kstack th) ->
  ks_ok k t (kstack th') ->
  (t = idle_thread k -> idle_shape (kstack th')) ->
  (forall u, crt u th' <= crt u th \/
     map_sum (crt u) (threads k) = crt u th /\ crt u th' <= 1 /\ u <> t /\
     exists thu, threads k !! u = Some thu /\ status thu = THREAD_BLOCKED /\ kstack thu = []) ->
  mid r (fun l => d l + acq l th' - acq l th) (fun s => e s + pend s th - pend s th')
    (set_threads (<[t := th']> (threads k)) k).
Proof.
  intros [[B1 B2 B3 B4] ML MW MN MI] Ht Hst Hmg Hks Hok Hid Hcrt.
  destruct (B1 t th Ht) as (Ht0 & _ & Hsto & _).
  constructor; [constructor| | | |].
  - intros u thu. simpl. destruct (decide (u = t)) as [->|Hne].
    + rewrite lookup_insert_eq. intros [= <-]. split_and!; [done|done| |].
      * revert Hsto. unfold status_ok. simpl. rewrite Hst.
        destruct Hks as [[-> E]| ->]; [by rewrite E|done].
      * eapply ks_ok_mono; [..|exact Hok]; auto.
    + rewrite lookup_insert_ne by done. intros Hu. destruct (B1 u thu Hu) as (? & ? & ? & ?).
      split_and!; [done|done|done|]. eapply ks_ok_mono; [..|done]; auto.
  - simpl. destruct B2 as (c & Hc & Hr). destruct (decide (cur k = t)) as [E|].
    + exists th'. rewrite E, lookup_insert_eq, Hst in *. split; [done|].
      by assert (c = th) as -> by congruence.
    + exists c. by rewrite lookup_insert_ne.
  - simpl. split; [apply B3|]. intros u Hu. destruct (proj2 B3 u Hu) as (thu & Hthu & Hs).
    destruct (decide (u = t)) as [->|]; [|by exists thu; rewrite lookup_insert_ne].
    exists th'. rewrite lookup_insert_eq. split; [done|]. congruence.
  - simpl. intros s sm Hs. destruct (B4 s sm Hs) as (? & ? & Hw). split; [done|split; [done|]].
    intros u Hu. destruct (Hw u Hu) as (thu & old & rest & Hthu & Hsu & Hku).
    destruct (decide (u = t)) as [->|]; [|exists thu, old, rest; by rewrite lookup_insert_ne].
    assert (thu = th) as -> by congruence. exists th', old, rest. rewrite lookup_insert_eq.
    split_and!; [done|congruence|]. destruct Hks as [[_ E]| ->]; [congruence|done].
  - intros l h Hl. destruct (ML l h Hl) as (sm & Hsm & E). exists sm. split; [done|]. simpl.
    rewrite (map_sum_update _ _ _ th) by done. lia.
  - intros s sm Hs Hw. specialize (MW s sm Hs Hw). simpl.
    rewrite (map_sum_update _ _ _ th) by done. lia.
  - intros u. destruct (MN u) as [Hle Hex]. simpl. rewrite (map_sum_update _ _ _ th) by done.
    destruct (Hcrt u) as [Hc|(Hsum & Hc & Hut & thu & Hthu & ?)].
    + split; [lia|]. intros Hpos. destruct Hex as (thu & Hthu & Hbu & Hku); [lia|].
      destruct (decide (u = t)) as [->|]; [|exists thu; by rewrite lookup_insert_ne].
      assert (thu = th) as -> by congruence. exists th'. rewrite lookup_insert_eq.
      split_and!; [done|congruence|]. destruct Hks as [[_ E]| ->]; [congruence|done].
    + pose proof (crt_nonneg u th). split; [lia|]. intros _. exists thu. by rewrite lookup_insert_ne.
  - apply idle_stack_shape. apply idle_stack_shape in MI as (thi & Hthi & Hsh). simpl.
    destruct (decide (idle_thread k = t)) as [E|]; [|exists thi; by rewrite lookup_insert_ne].
    exists th'. rewrite E, lookup_insert_eq. auto.
Qed.

(** ** Changes of semaphores and locks *)

Lemma mid_value r d e k s sm v :
  mid r d e k -> semas k !! s = Some sm -> 0 <= v < 2 ^ 32 ->
  mid r (fun l => d l + if decide (s = SLock l) then v - value sm else 0)
    (fun s' => e s' + if decide (s' = s) then v - value sm else 0)
    (set_semas (<[s := mk_sema v (waiters sm)]> (semas k)) k).
Proof.
  intros [[B1 B2 B3 B4] ML MW MN MI] Hs Hv. constructor; [constructor| | | |]; simpl.
  - intros t th Ht. destruct (B1 t th Ht) as (? & ? & Hst & Hks). split_and!; [done|done| |].
    + revert Hst. unfold status_ok. simpl. destruct (status th); try done.
      destruct (kstack th) as [|[] ?]; try done. destruct (decide (s = s0)) as [->|].
      * by rewrite lookup_insert_eq, Hs.
      * by rewrite lookup_insert_ne.
    + eapply ks_ok_mono; [..|exact Hks]; simpl; [done| |auto].
      intros s' Hs'. left. by apply lookup_insert_is_Some'; right.
  - done.
  - done.
  - intros s' sm' Hs'. destruct (decide (s' = s)) as [->|Hne].
    + rewrite lookup_insert_eq in Hs'. simplify_eq/=. destruct (B4 s sm Hs) as (_ & ? & ?). done.
    + rewrite lookup_insert_ne in Hs' by done. by apply B4.
  - intros l h Hl. destruct (ML l h Hl) as (sm' & Hsm' & E). simpl. case_decide as Hd.
    + subst. rewrite lookup_insert_eq. simplify_eq/=. eexists. split; [done|]. simpl. lia.
    + rewrite lookup_insert_ne by done. exists sm'. split; [done|]. lia.
  - intros s' sm' Hs' Hw'. simpl in Hs'. destruct (decide (s' = s)) as [->|Hne].
    + rewrite lookup_insert_eq in Hs'. simplify_eq/=. specialize (MW s sm Hs Hw'). simpl. lia.
    + rewrite lookup_insert_ne in Hs' by done.
      specialize (MW s' sm' Hs' Hw'). simpl. lia.
  - done.
  - done.
Qed.

Lemma mid_holder r d e k l h h' :
  mid r d e k -> locks k !! l = Some h ->
  mid r (fun l' => d l' + if decide (l' = l) then b2z (negb (h' =? NULL)) - b2z (negb (h =? NULL)) else 0) e
    (set_locks (<[l := h']> (locks k)) k).
Proof.
  intros [[B1 B2 B3 B4] ML MW MN MI] Hl. constructor; [constructor| | | |]; simpl; try done.
  - intros t th Ht. destruct (B1 t th Ht) as (? & ? & ? & Hks). split_and!; [done|done|done|].
    eapply ks_ok_mono; [..|exact Hks]; simpl; [done|auto|].
    intros l' Hl'. by apply lookup_insert_is_Some'; right.
  - intros l' h'' Hl'. simpl in *. destruct (decide (l' = l)) as [->|Hne].
    + rewrite lookup_insert_eq in Hl'. simplify_eq. destruct (ML l h Hl) as (sm & ? & ?).
      exists sm. split; [done|]. lia.
    + rewrite lookup_insert_ne in Hl' by done. destruct (ML l' h'' Hl') as (sm & ? & ?).
      exists sm. split; [done|]. lia.
Qed.

(** A semaphore is set up: it was not there, or it is the one on the running
    thread's own stack. *)
Lemma mid_sema_init r d e k s v :
  mid r d e k -> 0 <= v < 2 ^ 32 -> (forall l, s <> SLock l) ->
  (forall t th old rest, threads k !! t = Some th -> status th = THREAD_BLOCKED ->
     kstack th <> F_down s old :: rest) ->
  mid r d e (set_semas (<[s := mk_sema v []]> (semas k)) k).
Proof.
  intros [[B1 B2 B3 B4] ML MW MN MI] Hv Hnl Hnb. constructor; [constructor| | | |]; simpl; try done.
  - intros t th Ht. destruct (B1 t th Ht) as (? & ? & Hst & Hks). split_and!; [done|done| |].
    + revert Hst. unfold status_ok. simpl. destruct (status th) eqn:Es; try done.
      destruct (kstack th) as [|[] ?] eqn:Ek; try done. destruct (decide (s = s0)) as [->|].
      * by destruct (Hnb t th old_level l Ht Es).
      * by rewrite lookup_insert_ne.
    + eapply ks_ok_mono; [..|exact Hks]; simpl; [done| |auto].
      intros s' Hs'. left. by apply lookup_insert_is_Some'; right.
  - intros s' sm' Hs'. destruct (decide (s' = s)) as [->|Hne].
    + rewrite lookup_insert_eq in Hs'. simplify_eq/=. split; [done|]. split; [constructor|].
      by intros t ?%not_elem_of_nil.
    + rewrite lookup_insert_ne in Hs' by done. by apply B4.
  - intros l h Hl. destruct (ML l h Hl) as (sm' & Hsm' & E). exists sm'. split; [|done].
    simpl. by rewrite lookup_insert_ne.
  - intros s' sm' Hs' Hw'. simpl in Hs'. destruct (decide (s' = s)) as [->|Hne].
    + rewrite lookup_insert_eq in Hs'. by simplify_eq.
    + rewrite lookup_insert_ne in Hs' by done. by apply MW.
Qed.

(** No thread can be about to hold a lock that does not exist. *)
Lemma acq_none r d e k l :
  mid r d e k -> locks k !! l = None -> map_sum (acq l) (threads k) = 0.
Proof.
  intros Hm Hl. pose proof (map_sum_nonneg (acq l) (threads k) (fun _ _ _ => acq_nonneg _ _)).
  destruct (decide (0 < map_sum (acq l) (threads k))) as [Hpos|]; [|lia].
  apply map_sum_pos in Hpos as (t & th & Ht & Hp).
  destruct (b_thr _ _ (m_base _ _ _ _ Hm) t th Ht) as (_ & _ & _ & Hks).
  unfold acq in Hp. revert Hks Hp. generalize (kstack th). intros ks. induction ks as [|f ks IH]; simpl; [lia|].
  intros [Hf Hks]. destruct (is_intr f) eqn:Ei; [by apply IH|]. destruct f; simpl in *; try lia.
  destruct (l0 =? l) eqn:E; simpl; [|lia]. apply Z.eqb_eq in E. subst. rewrite Hl in Hf.
  destruct Hf as [[? ?] _]. done.
Qed.

Lemma mid_lock_init r d e k l :
  mid r d e k -> locks k !! l = None -> semas k !! SLock l = None -> d l = 0 ->
  mid r d e (set_semas (<[SLock l := mk_sema 1 []]> (semas k)) (set_locks (<[l := NULL]> (locks k)) k)).
Proof.
  intros Hm Hl Hs Hd0. pose proof (acq_none _ _ _ _ _ Hm Hl) as Hsum.
  destruct Hm as [[B1 B2 B3 B4] ML MW MN MI]. constructor; [constructor| | | |]; simpl; try done.
  - intros t th Ht. destruct (B1 t th Ht) as (? & ? & Hst & Hks). split_and!; [done|done| |].
    + revert Hst. unfold status_ok. simpl. destruct (status th) eqn:Es; try done.
      destruct (kstack th) as [|[] ?] eqn:Ek; try done. destruct (decide (SLock l = s)) as [<-|].
      * simpl in Hks. destruct Hks as [[[[? Hx]|Hx] _] _]; [congruence|done].
      * by rewrite lookup_insert_ne.
    + eapply ks_ok_mono; [..|exact Hks]; simpl; [done| |].
      * intros s' Hs'. left. by apply lookup_insert_is_Some'; right.
      * intros l' Hl'. by apply lookup_insert_is_Some'; right.
  - intros s' sm' Hs'. destruct (decide (s' = SLock l)) as [->|Hne].
    + rewrite lookup_insert_eq in Hs'. simplify_eq/=. split; [done|]. split; [constructor|].
      by intros t ?%not_elem_of_nil.
    + rewrite lookup_insert_ne in Hs' by done. by apply B4.
  - intros l' h Hl'. simpl in *. destruct (decide (l' = l)) as [->|Hne].
    + rewrite lookup_insert_eq in Hl'. rewrite lookup_insert_eq. simplify_eq. eexists. split; [done|]. simpl. lia.
    + rewrite lookup_insert_ne in Hl' by done. rewrite lookup_insert_ne by congruence. by apply ML.
  - intros s' sm' Hs' Hw'. simpl in Hs'. destruct (decide (s' = SLock l)) as [->|Hne].
    + rewrite lookup_insert_eq in Hs'. by simplify_eq.
    + rewrite lookup_insert_ne in Hs' by done. by apply MW.
Qed.

(** ** Changes of status *)

(** [sema_up] takes the first waiter off the list and makes it ready. *)
Definition woken (s : sid) (sm : semaphore) (t : Z) (rest : list Z) (th : thread) (k : kernel) : kernel :=
  set_threads (<[t := set_status THREAD_READY th]> (threads k))
    (set_ready_list (ready_list k ++ [t])
      (set_semas (<[s := mk_sema (value sm) rest]> (semas k)) k)).

Lemma mid_woken d e k s sm t rest th :
  mid Ph_run d e k -> semas k !! s = Some sm -> waiters sm = t :: rest -> threads k !! t = Some th ->
  mid Ph_run d (fun s' => e s' - if decide (s' = s) then 1 else 0) (woken s sm t rest th k).
Proof.
  intros [[B1 B2 B3 B4] ML MW MN MI] Hs Hw Ht.
  destruct (B4 s sm Hs) as (Hv & Hnd & Hblk). rewrite Hw in Hnd, Hblk.
  destruct (Hblk t) as (th0 & old & rest0 & E & Hb & Hk); [by left|].
  assert (th0 = th) as -> by congruence. clear E.
  apply NoDup_cons in Hnd as [Htr Hnd].
  assert (t <> cur k) as Htc.
  { intros ->. destruct B2 as (c & ? & Hc). assert (c = th) by congruence. subst.
    specialize (Hc ltac:(done)). congruence. }
  assert (t ∉ ready_list k) as Htrd.
  { intros Hin. destruct (proj2 B3 t Hin) as (? & ? & ?). congruence. }
  destruct (B1 t th Ht) as (Ht0 & Hmg & _ & Hks).
  constructor; [constructor| | | |].
  - intros u thu. simpl. destruct (decide (u = t)) as [->|Hne].
    + rewrite lookup_insert_eq. intros [= <-]. split_and!; [done|done| |].
      * unfold status_ok. simpl. left. apply elem_of_app. right. by left.
      * eapply ks_ok_mono; [..|exact Hks]; simpl; [done| |auto].
        intros s' Hs'. left. by apply lookup_insert_is_Some'; right.
    + rewrite lookup_insert_ne by done. intros Hu. destruct (B1 u thu Hu) as (? & ? & Hst & Hku).
      split_and!; [done|done| |].
      * revert Hst. unfold status_ok. simpl. destruct (status thu) eqn:Es; try done.
        { rewrite elem_of_app. naive_solver. }
        destruct (kstack thu) as [|[] ?] eqn:Ek; try done. destruct (decide (s = s0)) as [<-|].
        { rewrite lookup_insert_eq, Hs, Hw. simpl. rewrite elem_of_cons. naive_solver. }
        by rewrite lookup_insert_ne.
      * eapply ks_ok_mono; [..|exact Hku]; simpl; [done| |auto].
        intros s' Hs'. left. by apply lookup_insert_is_Some'; right.
  - simpl. destruct B2 as (c & ? & ?). exists c. by rewrite lookup_insert_ne.
  - simpl. split.
    + apply NoDup_app. split_and!; [apply B3| |apply NoDup_singleton].
      intros x Hx. rewrite list_elem_of_singleton. by intros ->.
    + intros u [Hu|Hu]%elem_of_app.
      * destruct (proj2 B3 u Hu) as (thu & ? & ?). exists thu.
        rewrite lookup_insert_ne by (by intros ->). done.
      * apply list_elem_of_singleton in Hu as ->. eexists. by rewrite lookup_insert_eq.
  - intros s' sm' Hs'. simpl in *. destruct (decide (s' = s)) as [->|Hne].
    + rewrite lookup_insert_eq in Hs'. simplify_eq/=. split; [done|]. split; [done|].
      intros u Hu. destruct (Hblk u) as (thu & ol & re & ? & ? & ?); [by right|].
      exists thu, ol, re. rewrite lookup_insert_ne by (by intros ->). done.
    + rewrite lookup_insert_ne in Hs' by done. destruct (B4 s' sm' Hs') as (? & ? & Hx).
      split; [done|]. split; [done|]. intros u Hu. destruct (Hx u Hu) as (thu & ol & re & ? & ? & ?).
      exists thu, ol, re. rewrite lookup_insert_ne; [done|]. intros ->. congruence.
  - intros l h Hl. destruct (ML l h Hl) as (sm' & Hsm' & E). simpl.
    rewrite (map_sum_update _ _ _ th) by done.
    change (acq l (set_status THREAD_READY th)) with (acq l th).
    destruct (decide (s = SLock l)) as [->|].
    + rewrite lookup_insert_eq. simplify_eq. eexists. split; [done|]. simpl. lia.
    + rewrite lookup_insert_ne by done. exists sm'. split; [done|]. lia.
  - intros s' sm' Hs' Hw'. simpl in *. rewrite (map_sum_update _ _ _ th) by done.
    assert (pend s' th = 0) as -> by (unfold pend; by rewrite decide_True).
    assert (pend s' (set_status THREAD_READY th) = if decide (s' = s) then 1 else 0) as ->.
    { unfold pend. rewrite decide_False by done. simpl. rewrite Hk. simpl.
      case_decide; [by rewrite bool_decide_true|by rewrite bool_decide_false]. }
    destruct (decide (s' = s)) as [->|Hne].
    + rewrite lookup_insert_eq in Hs'. simplify_eq/=.
      assert (waiters sm <> []) as Hne by (by rewrite Hw). specialize (MW s sm Hs Hne). lia.
    + rewrite lookup_insert_ne in Hs' by done. specialize (MW s' sm' Hs' Hw'). lia.
  - intros u. simpl. rewrite (map_sum_update _ _ _ th) by done.
    change (crt u (set_status THREAD_READY th)) with (crt u th).
    replace (_ - crt u th + crt u th) with (map_sum (crt u) (threads k)) by lia.
    destruct (MN u) as [? Hex]. split; [done|]. intros Hpos.
    destruct (Hex Hpos) as (thu & Hthu & ? & Hku). exists thu. rewrite lookup_insert_ne; [done|].
    intros ->. congruence.
  - apply idle_stack_shape. apply idle_stack_shape in MI as (thi & Hthi & Hsh). simpl.
    destruct (decide (idle_thread k = t)) as [E|]; [|exists thi; by rewrite lookup_insert_ne].
    exists (set_status THREAD_READY th). rewrite E, lookup_insert_eq. split; [done|].
    assert (thi = th) as -> by congruence. done.
Qed.

(** The running thread goes to sleep on [s]. *)
Definition asleep (s : sid) (sm : semaphore) (old : bool) (th : thread) (k : kernel) : kernel :=
  set_threads (<[cur k := set_status THREAD_BLOCKED (set_kstack (F_down s old :: kstack th) th)]> (threads k))
    (set_semas (<[s := mk_sema (value sm) (waiters sm ++ [cur k])]> (semas k)) k).

Lemma mid_asleep d e k s sm old th :
  mid Ph_run d e k -> semas k !! s = Some sm -> value sm = 0 ->
  threads k !! cur k = Some th -> cur k <> idle_thread k ->
  frame_ok k (cur k) (F_down s old) (kstack th) -> (forall s', pend s' th = 0) ->
  mid Ph_leave (fun l => d l - acq l th) (fun s' => if decide (s' = s) then 0 else e s')
    (asleep s sm old th k).
Proof.
  intros [[B1 B2 B3 B4] ML MW MN MI] Hs Hv Ht Hid Hf Hp.
  destruct (B1 _ th Ht) as (Ht0 & Hmg & _ & Hks).
  assert (status th = THREAD_RUNNING) as Hrun.
  { destruct B2 as (c & ? & Hc). assert (c = th) as -> by congruence. auto. }
  assert (Hmono : forall u ks, ks_ok k u ks -> ks_ok (asleep s sm old th k) u ks).
  { intros u ks Hku. eapply ks_ok_mono; [..|exact Hku]; simpl; [done| |auto].
    intros s' Hs'. left. by apply lookup_insert_is_Some'; right. }
  destruct (B4 s sm Hs) as (Hvr & Hnd & Hblk).
  constructor; [constructor| | | |].
  - intros u thu. simpl. destruct (decide (u = cur k)) as [->|Hne].
    + rewrite lookup_insert_eq. intros [= <-]. split_and!; [done|done| |by apply Hmono; split].
      unfold status_ok. simpl. rewrite lookup_insert_eq. simpl. apply elem_of_app. right. by left.
    + rewrite lookup_insert_ne by done. intros Hu. destruct (B1 u thu Hu) as (? & ? & Hst & Hku).
      split_and!; [done|done| |by apply Hmono].
      revert Hst. unfold status_ok. simpl. destruct (status thu) eqn:Es; try done; [by intros [_ ?]| |].
      * destruct (kstack thu) as [|[] ?] eqn:Ek; try done. destruct (decide (s = s0)) as [<-|].
        { rewrite lookup_insert_eq, Hs. simpl. rewrite elem_of_app. auto. }
        by rewrite lookup_insert_ne.
      * naive_solver.
  - simpl. eexists. by rewrite lookup_insert_eq.
  - simpl. split; [apply B3|]. intros u Hu. destruct (proj2 B3 u Hu) as (thu & ? & ?). exists thu.
    rewrite lookup_insert_ne; [done|]. intros E. congruence.
  - intros s' sm' Hs'. simpl in *.
    assert (Hkeep : forall u thu, threads k !! u = Some thu -> status thu = THREAD_BLOCKED ->
      <[cur k := set_status THREAD_BLOCKED (set_kstack (F_down s old :: kstack th) th)]> (threads k) !! u = Some thu).
    { intros u thu Hu Hb. rewrite lookup_insert_ne; [done|]. intros E. congruence. }
    destruct (decide (s' = s)) as [->|Hne].
    + rewrite lookup_insert_eq in Hs'. simplify_eq/=. split; [done|]. split.
      * apply NoDup_app. split_and!; [done| |apply NoDup_singleton].
        intros x Hx. rewrite list_elem_of_singleton. intros ->.
        destruct (Hblk _ Hx) as (? & ? & ? & ? & ? & ?). congruence.
      * intros u [Hu|Hu]%elem_of_app.
        { destruct (Hblk u Hu) as (thu & ol & re & ? & ? & ?). exists thu, ol, re. auto. }
        apply list_elem_of_singleton in Hu as ->. eexists _, old, _. by rewrite lookup_insert_eq.
    + rewrite lookup_insert_ne in Hs' by done. destruct (B4 s' sm' Hs') as (? & ? & Hx).
      split; [done|]. split; [done|]. intros u Hu. destruct (Hx u Hu) as (thu & ol & re & ? & ? & ?).
      exists thu, ol, re. auto.
  - intros l h Hl. destruct (ML l h Hl) as (sm' & Hsm' & E). simpl.
    rewrite (map_sum_update _ _ _ th) by done.
    change (acq l (set_status _ _)) with 0.
    destruct (decide (s = SLock l)) as [->|].
    + rewrite lookup_insert_eq. simplify_eq. eexists. split; [done|]. simpl. lia.
    + rewrite lookup_insert_ne by done. exists sm'. split; [done|]. lia.
  - intros s' sm' Hs' Hw'. simpl in *. rewrite (map_sum_update _ _ _ th), Hp by done.
    change (pend s' (set_status _ _)) with 0.
    destruct (decide (s' = s)) as [->|Hne].
    + rewrite lookup_insert_eq in Hs'. simplify_eq/=.
      pose proof (map_sum_nonneg (pend s) (threads k) (fun _ _ _ => pend_nonneg _ _)). lia.
    + rewrite lookup_insert_ne in Hs' by done. specialize (MW s' sm' Hs' Hw'). lia.
  - intros u. simpl. rewrite (map_sum_update _ _ _ th) by done.
    change (crt u (set_status _ _)) with (crt u th).
    replace (_ - crt u th + crt u th) with (map_sum (crt u) (threads k)) by lia.
    destruct (MN u) as [? Hex]. split; [done|]. intros Hpos.
    destruct (Hex Hpos) as (thu & Hthu & ? & Hku). exists thu. rewrite lookup_insert_ne; [done|].
    intros <-. congruence.
  - apply idle_stack_shape. apply idle_stack_shape in MI as (thi & Hthi & Hsh). simpl.
    exists thi. by rewrite lookup_insert_ne.
Qed.

(** The running thread gives up the CPU in another way; [b]: it goes to the end
    of the run queue. *)
Definition left_cpu (b : bool) (th' : thread) (k : kernel) : kernel :=
  set_threads (<[cur k := th']> (threads k))
    (set_ready_list (if b then ready_list k ++ [cur k] else ready_list k) k).

Lemma mid_left d e k th th' b :
  mid Ph_run d e k -> threads k !! cur k = Some th ->
  magic th' = THREAD_MAGIC -> status th' <> THREAD_RUNNING -> ks_ok k (cur k) (kstack th') ->
  (forall l, acq l th' = acq l th) -> (forall s, pend s th' = pend s th) ->
  (forall u, crt u th' = crt u th) -> (cur k = idle_thread k -> idle_shape (kstack th')) ->
  (b = true -> status th' = THREAD_READY) ->
  status_ok Ph_leave (left_cpu b th' k) (cur k) th' ->
  mid Ph_leave d e (left_cpu b th' k).
Proof.
  intros [[B1 B2 B3 B4] ML MW MN MI] Ht Hmg' Hst' Hks' Ha Hp Hc Hi Hb Hso.
  destruct (B1 _ th Ht) as (Ht0 & Hmg & _ & Hks).
  assert (status th = THREAD_RUNNING) as Hrun.
  { destruct B2 as (c & ? & Hc'). assert (c = th) as -> by congruence. by apply Hc'. }
  constructor; [constructor| | | |].
  - intros u thu. simpl. destruct (decide (u = cur k)) as [->|Hne].
    + rewrite lookup_insert_eq. intros [= <-]. split_and!; [done|done|done|].
      eapply ks_ok_mono; [..|exact Hks']; simpl; auto.
    + rewrite lookup_insert_ne by done. intros Hu. destruct (B1 u thu Hu) as (? & ? & Hst & Hku).
      split_and!; [done|done| |eapply ks_ok_mono; [..|exact Hku]; simpl; auto].
      revert Hst. unfold status_ok. simpl. destruct (status thu) eqn:Es; try done; [by intros [_ ?]| |].
      * intros [?|?]; [left|by right]. destruct b; [apply elem_of_app; by left|done].
      * naive_solver.
  - simpl. eexists. by rewrite lookup_insert_eq.
  - assert (cur k ∉ ready_list k) as Hnr.
    { intros Hin. destruct (proj2 B3 _ Hin) as (? & ? & ?). congruence. }
    assert (forall u, u ∈ ready_list k -> exists th0,
      <[cur k:=th']> (threads k) !! u = Some th0 /\ status th0 = THREAD_READY) as Hold.
    { intros u Hu. destruct (proj2 B3 u Hu) as (thu & ? & ?). exists thu.
      rewrite lookup_insert_ne; [done|]. intros E. congruence. }
    simpl. destruct b; [|split; [apply B3|done]]. split.
    + apply NoDup_app. split_and!; [apply B3| |apply NoDup_singleton].
      intros x Hx. rewrite list_elem_of_singleton. by intros ->.
    + intros u [Hu|Hu]%elem_of_app; [auto|]. apply list_elem_of_singleton in Hu as ->.
      exists th'. rewrite lookup_insert_eq. auto.
  - intros s sm Hs. destruct (B4 s sm Hs) as (? & ? & Hx). split; [done|]. split; [done|].
    intros u Hu. destruct (Hx u Hu) as (thu & ol & re & ? & ? & ?). exists thu, ol, re. simpl.
    rewrite lookup_insert_ne; [done|]. intros E. congruence.
  - intros l h Hl. destruct (ML l h Hl) as (sm' & Hsm' & E). exists sm'. split; [done|]. simpl.
    rewrite (map_sum_update _ _ _ th), Ha by done. lia.
  - intros s' sm' Hs' Hw'. simpl in *. rewrite (map_sum_update _ _ _ th), Hp by done.
    specialize (MW s' sm' Hs' Hw'). lia.
  - intros u. simpl. rewrite (map_sum_update _ _ _ th), Hc by done.
    replace (_ - crt u th + crt u th) with (map_sum (crt u) (threads k)) by lia.
    destruct (MN u) as [? Hex]. split; [done|]. intros Hpos.
    destruct (Hex Hpos) as (thu & Hthu & ? & Hku). exists thu. rewrite lookup_insert_ne; [done|].
    intros E. congruence.
  - apply idle_stack_shape. apply idle_stack_shape in MI as (thi & Hthi & Hsh). simpl.
    destruct (decide (cur k = idle_thread k)) as [E|]; [|exists thi; by rewrite lookup_insert_ne].
    exists th'. rewrite <- E, lookup_insert_eq. auto.
Qed.

(** The next thread runs. *)
Definition switched (next : Z) (rl : list Z) (thn : thread) (k : kernel) : kernel :=
  set_threads (<[next := set_status THREAD_RUNNING thn]> (threads k))
    (set_cur next (set_ready_list rl k)).

Definition picks (k : kernel) (next : Z) (rl : list Z) : Prop :=
  ready_list k = next :: rl \/ (ready_list k = [] /\ rl = [] /\ next = idle_thread k).

(** The thread picked is asleep on no semaphore. *)
Lemma picked_not_down d e k next rl thn :
  mid Ph_leave d e k -> picks k next rl -> threads k !! next = Some thn ->
  status thn = THREAD_READY \/ next = idle_thread k /\ (forall s old rest, kstack thn <> F_down s old :: rest) /\ kstack thn <> [].
Proof.
  intros [[B1 B2 B3 B4] ML MW MN MI] Hp Hn. destruct Hp as [E|(_ & _ & E)].
  - left. destruct (proj2 B3 next) as (? & ? & ?); [rewrite E; by left|]. congruence.
  - right. split; [done|]. apply idle_stack_shape in MI as (thi & Hthi & Hsh).
    assert (thi = thn) as -> by congruence. apply idle_shape_skip in Hsh.
    split; [intros s old rest Hk|intros Hk]; rewrite Hk in Hsh; naive_solver.
Qed.

Lemma mid_switched d e k next rl thn :
  mid Ph_leave d e k -> picks k next rl -> threads k !! next = Some thn ->
  mid (Ph_done (cur k)) d e (switched next rl thn k).
Proof.
  intros Hm Hp Hn. pose proof (picked_not_down _ _ _ _ _ _ Hm Hp Hn) as Hnd.
  destruct Hm as [[B1 B2 B3 B4] ML MW MN MI].
  destruct (B1 _ thn Hn) as (Hn0 & Hmg & Hso & Hks).
  assert (Hblk : forall s old rest, status thn = THREAD_BLOCKED -> kstack thn <> F_down s old :: rest).
  { intros s old rest Hb. destruct Hnd as [?|(_ & ? & _)]; [congruence|done]. }
  assert (Hsub : forall u, u ∈ rl -> u ∈ ready_list k /\ u <> next).
  { intros u Hu. destruct Hp as [E|(_ & -> & _)]; [|by apply not_elem_of_nil in Hu].
    rewrite E. split; [by right|]. intros ->. pose proof (proj1 B3) as HN. rewrite E in HN.
    by apply NoDup_cons in HN as [? _]. }
  constructor; [constructor| | | |].
  - intros u thu. simpl. destruct (decide (u = next)) as [->|Hne].
    + rewrite lookup_insert_eq. intros [= <-]. split_and!; [done|done|done|].
      eapply ks_ok_mono; [..|exact Hks]; simpl; auto.
    + rewrite lookup_insert_ne by done. intros Hu. destruct (B1 u thu Hu) as (? & ? & Hst & Hku).
      split_and!; [done|done| |eapply ks_ok_mono; [..|exact Hku]; simpl; auto].
      revert Hst. unfold status_ok. simpl. destruct (status thu) eqn:Es; try done; [by intros [? _]| |].
      * intros [Hin|?]; [|by right]. destruct Hp as [E|(E & _ & _)]; rewrite E in Hin.
        { apply elem_of_cons in Hin as [?|?]; [done|by left]. }
        by apply not_elem_of_nil in Hin.
      * intros [? [?|[[_ ->]|?]]]; [by auto|auto|done].
  - simpl. eexists. by rewrite lookup_insert_eq.
  - simpl. split.
    + destruct Hp as [E|(_ & -> & _)]; [|constructor]. pose proof (proj1 B3) as HN. rewrite E in HN.
      by apply NoDup_cons in HN as [_ ?].
    + intros u Hu. destruct (Hsub u Hu) as [Hin Hne]. destruct (proj2 B3 u Hin) as (thu & ? & ?).
      exists thu. by rewrite lookup_insert_ne.
  - intros s sm Hs. destruct (B4 s sm Hs) as (? & ? & Hx). split; [done|]. split; [done|].
    intros u Hu. destruct (Hx u Hu) as (thu & ol & re & ? & ? & ?). exists thu, ol, re. simpl.
    rewrite lookup_insert_ne; [done|]. intros <-. assert (thu = thn) as -> by congruence.
    by destruct (Hblk s ol re).
  - intros l h Hl. destruct (ML l h Hl) as (sm' & Hsm' & E). exists sm'. split; [done|]. simpl.
    rewrite (map_sum_update _ _ _ thn) by done.
    change (acq l (set_status _ _)) with (acq l thn). lia.
  - intros s' sm' Hs' Hw'. simpl in *. rewrite (map_sum_update _ _ _ thn) by done.
    assert (pend s' (set_status THREAD_RUNNING thn) = pend s' thn) as ->; [|specialize (MW s' sm' Hs' Hw'); lia].
    unfold pend. simpl. destruct (decide (THREAD_RUNNING = THREAD_BLOCKED)) as [|_]; [done|]. case_decide as Hb; [|done].
    destruct Hnd as [?|(-> & _ & _)]; [congruence|].
    apply idle_stack_shape in MI as (thi & Hthi & Hsh). assert (thi = thn) as -> by congruence.
    by apply idle_shape_skip in Hsh as [-> | ->].
  - intros u. simpl. rewrite (map_sum_update _ _ _ thn) by done.
    change (crt u (set_status _ _)) with (crt u thn).
    replace (_ - crt u thn + crt u thn) with (map_sum (crt u) (threads k)) by lia.
    destruct (MN u) as [? Hex]. split; [done|]. intros Hpos.
    destruct (Hex Hpos) as (thu & Hthu & ? & Hku). exists thu. rewrite lookup_insert_ne; [done|].
    intros <-. destruct Hnd as [?|(_ & _ & ?)]; congruence.
  - apply idle_stack_shape. apply idle_stack_shape in MI as (thi & Hthi & Hsh). simpl.
    destruct (decide (next = idle_thread k)) as [E|]; [|exists thi; by rewrite lookup_insert_ne].
    exists (set_status THREAD_RUNNING thn). rewrite <- E, lookup_insert_eq. split; [done|].
    assert (thi = thn) as -> by congruence. done.
Qed.

Lemma mid_done_keep p d e k :
  mid (Ph_done p) d e k ->
  (forall th, threads k !! p = Some th -> status th = THREAD_DYING -> p = initial_thread k) ->
  mid Ph_run d e k.
Proof.
  intros [[B1 B2 B3 B4] ML MW MN MI] Hd. constructor; [constructor| | | |]; try done.
  - intros t th Ht. destruct (B1 t th Ht) as (? & ? & Hst & ?). split_and!; [done|done| |done].
    revert Hst. unfold status_ok. destruct (status th) eqn:Es; try done; [by intros [_ ?]|].
    intros [? [?|[[? _]|[= <-]]]]; [by auto|done|]. eauto.
  - destruct B2 as (c & ? & ?). exists c. auto.
Qed.

Definition freed (p : Z) (k : kernel) : kernel :=
  set_semas (delete (SWaiter p) (delete (SExec p) (delete (SWait p) (semas k))))
    (set_threads (delete p (threads k)) k).

Lemma mid_done_free p d e k th :
  mid (Ph_done p) d e k -> threads k !! p = Some th -> status th = THREAD_DYING ->
  mid Ph_run d e (freed p k).
Proof.
  intros [[B1 B2 B3 B4] ML MW MN MI] Hp Hdy.
  destruct (B1 p th Hp) as (_ & _ & Hso & _). unfold status_ok in Hso. rewrite Hdy in Hso.
  destruct Hso as [Hk _].
  assert (Hsem : forall s sm, semas (freed p k) !! s = Some sm -> semas k !! s = Some sm).
  { intros s sm. simpl. by rewrite !lookup_delete_Some; intros (? & ? & ? & ?). }
  assert (Hkeep : forall s, semas (freed p k) !! s = semas k !! s \/
    embedded s = true /\ semas (freed p k) !! s = None).
  { intros s. simpl. destruct (decide (s = SWaiter p)) as [->|].
    { right. split; [done|]. apply lookup_delete_eq. }
    rewrite lookup_delete_ne by congruence. destruct (decide (s = SExec p)) as [->|].
    { right. split; [done|]. apply lookup_delete_eq. }
    rewrite lookup_delete_ne by congruence. destruct (decide (s = SWait p)) as [->|].
    { right. split; [done|]. apply lookup_delete_eq. }
    rewrite lookup_delete_ne by congruence. by left. }
  constructor; [constructor| | | |].
  - intros t tht. change (threads (freed p k)) with (delete p (threads k)).
    rewrite lookup_delete_Some. intros [Hne Ht]. destruct (B1 t tht Ht) as (? & ? & Hst & Hks).
    split_and!; [done|done| |].
    + revert Hst. unfold status_ok. destruct (status tht) eqn:Es; simpl cur; simpl ready_list; try done.
      * by intros [_ ?].
      * destruct (kstack tht) as [|[] ?]; try done.
        destruct (Hkeep s) as [-> |[? ->]]; done.
      * intros [? [?|[[? _]|?]]]; [auto|done|congruence].
    + eapply ks_ok_mono; [..|exact Hks]; [done| |auto].
      intros s Hs. destruct (Hkeep s) as [-> |[? _]]; auto.
  - destruct B2 as (c & Hc & Hr). exists c. split; [|auto]. simpl. rewrite lookup_delete_ne; [done|].
    intros ->. specialize (Hr ltac:(done)). congruence.
  - simpl. split; [apply B3|]. intros u Hu. destruct (proj2 B3 u Hu) as (thu & ? & ?). exists thu.
    rewrite lookup_delete_ne; [done|]. intros ->. congruence.
  - intros s sm Hs%Hsem. destruct (B4 s sm Hs) as (? & ? & Hx). split; [done|]. split; [done|].
    intros u Hu. destruct (Hx u Hu) as (thu & ol & re & ? & ? & ?). exists thu, ol, re. simpl.
    rewrite lookup_delete_ne; [done|]. intros ->. congruence.
  - intros l h Hl. destruct (ML l h Hl) as (sm' & Hsm' & E). exists sm'. split.
    + by destruct (Hkeep (SLock l)) as [-> |[? _]].
    + simpl. rewrite (map_sum_delete _ _ _ th) by done.
      assert (acq l th = 0) as -> by (unfold acq; by rewrite Hk). lia.
  - intros s sm Hs%Hsem Hw. simpl. rewrite (map_sum_delete _ _ _ th) by done.
    assert (pend s th = 0) as -> by (unfold pend; rewrite Hk; by case_decide).
    specialize (MW s sm Hs Hw). lia.
  - intros u. simpl. rewrite (map_sum_delete _ _ _ th) by done.
    assert (crt u th = 0) as -> by (unfold crt; by rewrite Hk). rewrite Z.sub_0_r.
    destruct (MN u) as [? Hex]. split; [done|]. intros Hpos.
    destruct (Hex Hpos) as (thu & Hthu & ? & Hku). exists thu. rewrite lookup_delete_ne; [done|].
    intros <-. congruence.
  - apply idle_stack_shape. apply idle_stack_shape in MI as (thi & Hthi & Hsh). simpl.
    exists thi. rewrite lookup_delete_ne; [done|]. intros ->.
    assert (thi = th) as -> by congruence. rewrite Hk in Hsh.
    apply idle_shape_skip in Hsh. naive_solver.
Qed.

(** A new thread: asleep, without a stack, known to nobody. *)
Lemma mid_new_thread d e k t th :
  mid Ph_run d e k -> threads k !! t = None -> t <> NULL -> magic th = THREAD_MAGIC ->
  status th = THREAD_BLOCKED -> kstack th = [] ->
  mid Ph_run d e (set_threads (<[t := th]> (threads k)) k).
Proof.
  intros [[B1 B2 B3 B4] ML MW MN MI] Ht Ht0 Hmg Hst Hk.
  assert (Hne : forall u thu, threads k !! u = Some thu -> t <> u) by (intros u thu Hu ->; congruence).
  constructor; [constructor| | | |]; simpl.
  - intros u thu. destruct (decide (u = t)) as [->|].
    + rewrite lookup_insert_eq. intros [= <-]. unfold status_ok. by rewrite Hst, Hk.
    + rewrite lookup_insert_ne by done. intros Hu. destruct (B1 u thu Hu) as (? & ? & ? & Hku).
      split_and!; [done|done|done|]. eapply ks_ok_mono; [..|exact Hku]; auto.
  - destruct B2 as (c & Hc & ?). exists c. rewrite lookup_insert_ne by eauto. done.
  - split; [apply B3|]. intros u Hu. destruct (proj2 B3 u Hu) as (thu & ? & ?). exists thu.
    rewrite lookup_insert_ne by eauto. done.
  - intros s sm Hs. destruct (B4 s sm Hs) as (? & ? & Hx). split; [done|]. split; [done|].
    intros u Hu. destruct (Hx u Hu) as (thu & ol & re & ? & ? & ?). exists thu, ol, re.
    rewrite lookup_insert_ne by eauto. done.
  - intros l h Hl. simpl. rewrite map_sum_new by done.
    assert (acq l th = 0) as -> by (unfold acq; by rewrite Hk). by apply ML.
  - intros s sm Hs Hw. simpl. rewrite map_sum_new by done.
    assert (pend s th = 0) as -> by (unfold pend; rewrite Hk; by case_decide). by apply MW.
  - intros u. simpl. rewrite map_sum_new by done.
    assert (crt u th = 0) as -> by (unfold crt; by rewrite Hk).
    destruct (MN u) as [? Hex]. split; [done|]. intros Hpos. destruct (Hex Hpos) as (thu & ? & ? & ?).
    exists thu. rewrite lookup_insert_ne by eauto. done.
  - apply idle_stack_shape. apply idle_stack_shape in MI as (thi & Hthi & Hsh). simpl.
    exists thi. rewrite lookup_insert_ne by eauto. done.
Qed.

(** The new thread is given its first frame and made ready. *)
Lemma mid_started d e k t th :
  mid Ph_run d e k -> threads k !! t = Some th -> status th = THREAD_BLOCKED -> kstack th = [] ->
  map_sum (crt t) (threads k) = 0 ->
  mid Ph_run d e
    (set_threads (<[t := set_status THREAD_READY (set_kstack [F_start] th)]> (threads k))
      (set_ready_list (ready_list k ++ [t]) k)).
Proof.
  intros [[B1 B2 B3 B4] ML MW MN MI] Ht Hst Hk Hcrt.
  destruct (B1 t th Ht) as (Ht0 & Hmg & _ & _).
  assert (Hnr : t ∉ ready_list k).
  { intros Hin. destruct (proj2 B3 t Hin) as (? & ? & ?). congruence. }
  constructor; [constructor| | | |]; simpl.
  - intros u thu. destruct (decide (u = t)) as [->|].
    + rewrite lookup_insert_eq. intros [= <-]. split_and!; [done|done| |].
      * left. simpl. apply elem_of_app. right. by left.
      * done.
    + rewrite lookup_insert_ne by done. intros Hu. destruct (B1 u thu Hu) as (? & ? & Hsu & Hku).
      split_and!; [done|done| |eapply ks_ok_mono; [..|exact Hku]; auto].
      revert Hsu. unfold status_ok. simpl. destruct (status thu); try done.
      rewrite elem_of_app. naive_solver.
  - destruct B2 as (c & Hc & Hr). exists c. rewrite lookup_insert_ne; [done|].
    intros E. specialize (Hr ltac:(done)). congruence.
  - split.
    + apply NoDup_app. split_and!; [apply B3| |apply NoDup_singleton].
      intros x Hx. rewrite list_elem_of_singleton. by intros ->.
    + intros u [Hu|Hu]%elem_of_app.
      * destruct (proj2 B3 u Hu) as (thu & ? & ?). exists thu.
        rewrite lookup_insert_ne by (intros ->; congruence). done.
      * apply list_elem_of_singleton in Hu as ->. eexists. by rewrite lookup_insert_eq.
  - intros s sm Hs. destruct (B4 s sm Hs) as (? & ? & Hx). split; [done|]. split; [done|].
    intros u Hu. destruct (Hx u Hu) as (thu & ol & re & ? & ? & ?). exists thu, ol, re.
    rewrite lookup_insert_ne by (intros ->; congruence). done.
  - intros l h Hl. simpl. rewrite (map_sum_update _ _ _ th) by done.
    change (acq l (set_status _ _)) with 0. assert (acq l th = 0) as -> by (unfold acq; by rewrite Hk).
    rewrite Z.sub_0_r, Z.add_0_r. by apply ML.
  - intros s sm Hs Hw. simpl. rewrite (map_sum_update _ _ _ th) by done.
    change (pend s (set_status _ _)) with 0.
    assert (pend s th = 0) as -> by (unfold pend; rewrite Hk; by case_decide).
    rewrite Z.sub_0_r, Z.add_0_r. by apply MW.
  - intros u. simpl. rewrite (map_sum_update _ _ _ th) by done.
    change (crt u (set_status _ _)) with 0. assert (crt u th = 0) as -> by (unfold crt; by rewrite Hk).
    rewrite Z.sub_0_r, Z.add_0_r. destruct (MN u) as [? Hex]. split; [done|]. intros Hpos.
    destruct (Hex Hpos) as (thu & ? & ? & ?). exists thu.
    rewrite lookup_insert_ne; [done|]. intros ->. lia.
  - apply idle_stack_shape. apply idle_stack_shape in MI as (thi & Hthi & Hsh). simpl.
    exists thi. rewrite lookup_insert_ne; [done|]. intros ->.
    assert (thi = th) as -> by congruence. rewrite Hk in Hsh. apply idle_shape_skip in Hsh. naive_solver.
Qed.

(** A semaphore without waiters owes no wake-up. *)
Lemma mid_nowait r d e k s sm x :
  mid r d e k -> semas k !! s = Some sm -> waiters sm = [] ->
  mid r d (fun s' => if decide (s' = s) then x else e s') k.
Proof.
  intros [B ML MW MN MI] Hs Hw. constructor; [done|done| |done|done].
  intros s' sm' Hs' Hw'. case_decide as E; [|by apply MW]. subst. congruence.
Qed.
