(* ===== verification/KernelSteps.v ===== *)
(** * Every step keeps the invariant

    The primitives of Synch and Thread, taken as a whole, from KernelInv's
    changes of single fields; then the step relation, and the theorems about
    every reachable state of the kernel. *)

From S2P Require Import Prelude Spage Sched Synch Thread KernelInv.

(** ** What single statements do *)

Lemma assert_inv {S} b (s s' : S) u : assert b s = Ok (u, s') -> b = true /\ s' = s.
Proof. unfold assert, lift, ASSERT. destruct b; intros H; simplify_eq; done. Qed.

Lemma thread_current_inv k c k' :
  thread_current k = Ok (c, k') ->
  c = cur k /\ k' = k /\ exists th, threads k !! cur k = Some th /\ status th = THREAD_RUNNING.
Proof.
  intros H. unfold thread_current, mbind, M_bind, running_thread, is_thread, get_thread, assert,
    lift, ASSERT, mret, M_ret in H.
  destruct (threads k !! cur k) as [th|] eqn:Et; [|by rewrite andb_false_r in H].
  destruct (_ && _); [|done]. destruct (threads k !! cur k) as [th'|]; [|done]. simplify_eq.
  case_bool_decide; simplify_eq. eauto.
Qed.

Lemma get_thread_inv t k th k' : get_thread t k = Ok (th, k') -> k' = k /\ threads k !! t = Some th.
Proof. unfold get_thread. destruct (threads k !! t) eqn:E; intros ?; by simplify_eq. Qed.
Lemma upd_thread_inv t f k u k' :
  upd_thread t f k = Ok (u, k') ->
  exists th, threads k !! t = Some th /\ k' = set_threads (<[t := f th]> (threads k)) k.
Proof. unfold upd_thread. destruct (threads k !! t) eqn:E; intros ?; simplify_eq. eauto. Qed.
Lemma push_frame_inv f k u k' :
  push_frame f k = Ok (u, k') ->
  exists th, threads k !! cur k = Some th /\
    k' = set_threads (<[cur k := set_kstack (f :: kstack th) th]> (threads k)) k.
Proof. apply upd_thread_inv. Qed.
Lemma get_sema_inv s k sm k' : get_sema s k = Ok (sm, k') -> k' = k /\ semas k !! s = Some sm.
Proof. unfold get_sema. destruct (semas k !! s) eqn:E; intros ?; by simplify_eq. Qed.
Lemma get_holder_inv l k h k' : get_holder l k = Ok (h, k') -> k' = k /\ locks k !! l = Some h.
Proof. unfold get_holder. destruct (locks k !! l) eqn:E; intros ?; by simplify_eq. Qed.
Lemma get_cond_inv c k ws k' : get_cond c k = Ok (ws, k') -> k' = k /\ conds k !! c = Some ws.
Proof. unfold get_cond. destruct (conds k !! c) eqn:E; intros ?; by simplify_eq. Qed.
Lemma modify_inv {S} (f : S -> S) s u s' : modify f s = Ok (u, s') -> s' = f s.
Proof. unfold modify. by intros [= _ <-]. Qed.
Lemma mret_inv {S A} (a b : A) (s s' : S) : mret (M := M S) a s = Ok (b, s') -> b = a /\ s' = s.
Proof. unfold mret, M_ret. by intros [= -> ->]. Qed.
Lemma get_inv {S} (s a s' : S) : get s = Ok (a, s') -> a = s /\ s' = s.
Proof. unfold get. by intros [= -> ->]. Qed.
Lemma running_thread_inv k c k' : running_thread k = Ok (c, k') -> c = cur k /\ k' = k.
Proof. unfold running_thread. by intros [= -> ->]. Qed.
Lemma intr_context_inv k b k' : intr_context k = Ok (b, k') -> b = in_external_intr k /\ k' = k.
Proof. unfold intr_context. by intros [= -> ->]. Qed.
Lemma intr_get_level_inv k b k' : intr_get_level k = Ok (b, k') -> b = intr_on k /\ k' = k.
Proof. unfold intr_get_level. by intros [= -> ->]. Qed.
Lemma intr_disable_inv k b k' :
  intr_disable k = Ok (b, k') -> b = intr_on k /\ k' = set_intr_on false k.
Proof. unfold intr_disable, swap_flag. by intros [= -> ->]. Qed.
Lemma lift_inv {S A} (r : res A) (s s' : S) a : lift r s = Ok (a, s') -> r = Ok a /\ s' = s.
Proof. unfold lift. destruct r; intros ?; by simplify_eq. Qed.

(** [stmt H] runs the statement whose execution is [H]. *)
Ltac stmt H :=
  lazymatch type of H with
  | thread_current _ = Ok _ => apply thread_current_inv in H as (-> & -> & ?)
  | get_thread _ _ = Ok _ => apply get_thread_inv in H as [-> ?]
  | assert _ _ = Ok _ => apply assert_inv in H as [? ->]
  | get_sema _ _ = Ok _ => apply get_sema_inv in H as [-> ?]
  | get_holder _ _ = Ok _ => apply get_holder_inv in H as [-> ?]
  | get_cond _ _ = Ok _ => apply get_cond_inv in H as [-> ?]
  | modify _ _ = Ok _ => apply modify_inv in H as ->
  | put_sema _ _ _ = Ok _ => apply modify_inv in H as ->
  | put_holder _ _ _ = Ok _ => apply modify_inv in H as ->
  | put_cond _ _ _ = Ok _ => apply modify_inv in H as ->
  | sema_init _ _ _ = Ok _ => apply modify_inv in H as ->
  | log _ _ = Ok _ => apply modify_inv in H as ->
  | mret _ _ = Ok _ => apply mret_inv in H as [-> ->]
  | get _ = Ok _ => apply get_inv in H as [-> ->]
  | running_thread _ = Ok _ => apply running_thread_inv in H as [-> ->]
  | intr_context _ = Ok _ => apply intr_context_inv in H as [-> ->]
  | intr_get_level _ = Ok _ => apply intr_get_level_inv in H as [-> ->]
  | intr_disable _ = Ok _ => apply intr_disable_inv in H as [-> ->]
  | lift _ _ = Ok _ => apply lift_inv in H as [? ->]
  end.
(** [stmts H] peels the statements off the front of the run [H]. *)
Ltac stmts H :=
  repeat lazymatch type of H with
  | (_ ≫= _) _ = Ok _ =>
      let a := fresh "a" in let k1 := fresh "k" in let E := fresh "E" in
      apply M_bind_ok in H as (a & k1 & E & H); try stmt E; cbv beta in H
  end;
  try stmt H.

Lemma intr_set_level_same lv k b k' : intr_set_level lv k = Ok (b, k') -> same k k'.
Proof.
  destruct lv; simpl; intros H.
  - unfold intr_enable in H. stmts H. unfold swap_flag in H. by simplify_eq.
  - by stmt H.
Qed.

Lemma same_refl k : same k k.
Proof. by unfold same. Qed.

(** ** Switching threads *)

Lemma process_activate_same k u k' : process_activate k = Ok (u, k') -> same k k'.
Proof. unfold process_activate. intros H. by stmts H. Qed.

Lemma next_inv k n k1 :
  next_thread_to_run k = Ok (n, k1) -> exists rl, picks k n rl /\ k1 = set_ready_list rl k.
Proof.
  unfold next_thread_to_run, picks. destruct (ready_list k) as [|t rl] eqn:E; intros ?; simplify_eq.
  - exists []. split; [auto|]. destruct k1. simpl in *. by subst.
  - eauto.
Qed.

Lemma is_thread_inv t k k' :
  is_thread t k = Ok (true, k') -> k' = k /\ exists th, threads k !! t = Some th.
Proof.
  unfold is_thread. intros [= H <-]. split; [done|]. destruct (threads k !! t); [eauto|].
  by rewrite andb_false_r in H.
Qed.

Lemma tail_mid p q d e k th u k' :
  mid Ph_leave d e q -> p = cur q -> threads k !! cur k = Some th ->
  same (switched (cur k) (ready_list k) th q) (set_threads (<[cur k := set_status THREAD_RUNNING th]> (threads k)) k) ->
  picks q (cur k) (ready_list k) -> threads q !! cur k = Some th ->
  thread_schedule_tail (if cur k =? p then NULL else p) k = Ok (u, k') -> mid Ph_run d e k'.
Proof.
  intros Hm Hp Hth Hsame Hpick Hthq H. unfold thread_schedule_tail in H. stmts H.
  apply upd_thread_inv in E as (th' & Hth' & ->). assert (th' = th) as -> by congruence.
  apply process_activate_same in E0 as E3. clear E0.
  assert (mid (Ph_done p) d e k1) as Hd.
  { eapply mid_same; [exact E3|]. eapply mid_same; [|rewrite Hp; by eapply mid_switched]. exact Hsame. }
  assert (Hcur : cur k1 = cur k) by apply E3.
  assert (Hkeep : (forall th0, threads k1 !! p = Some th0 -> status th0 = THREAD_DYING -> p = initial_thread k1) ->
    mid Ph_run d e k1) by (by apply mid_done_keep).
  destruct (cur k =? p) eqn:Ep.
  - apply Z.eqb_eq in Ep. simpl in H. stmt H. apply Hkeep. intros th0 Ht0 Hdy.
    destruct (b_cur _ _ (m_base _ _ _ _ Hd)) as (c & Hc & Hr). specialize (Hr ltac:(done)).
    rewrite Hcur, Ep in Hc. congruence.
  - apply Z.eqb_neq in Ep. destruct (negb (p =? NULL)) eqn:E0.
    + stmts H. destruct (_ && _) eqn:Eb in H.
      * apply andb_true_iff in Eb as [Hdy%bool_decide_eq_true _]. stmts H. unfold free_thread in H. stmts H.
        eapply mid_same; [|by eapply (mid_done_free p d e k1)]. done.
      * stmt H. apply Hkeep. intros th0 Ht0 Hdy. assert (th0 = a3) as -> by congruence.
        apply andb_false_iff in Eb as [Eb|Eb]; bool_to_prop; done.
    + stmt H. apply Hkeep. intros th0 Ht0. bool_to_prop. subst p.
      destruct (b_thr _ _ (m_base _ _ _ _ Hd) _ _ Ht0). congruence.
Qed.

Lemma schedule_mid d e k u k' : mid Ph_leave d e k -> schedule k = Ok (u, k') -> mid Ph_run d e k'.
Proof.
  intros Hm H. unfold schedule in H. stmts H. subst a3.
  apply next_inv in E as (rl & Hp & ->). apply is_thread_inv in E0 as (-> & thn & Hthn).
  simpl in Hthn. destruct (cur k =? a) eqn:Ec; simpl negb in H; cbv iota in H.
  - apply Z.eqb_eq in Ec. subst a.
    eapply (tail_mid (cur k) k d e (set_ready_list rl k)); [done|done|exact Hthn|done|done|done|].
    simpl. by rewrite Z.eqb_refl.
  - stmts H. apply Z.eqb_neq in Ec.
    eapply (tail_mid (cur k) k d e (set_cur a (set_ready_list rl k))); [done|done|exact Hthn|done|done|done|].
    simpl. by rewrite (proj2 (Z.eqb_neq a (cur k))) by congruence.
Qed.

(** ** Semaphores *)

Definition lock_of (s : sid) (l : Z) : Z := if decide (s = SLock l) then 1 else 0.

Lemma sema_down_loop_mid s old k u k' th :
  mid Ph_run (lock_of s) (at_ s) k -> threads k !! cur k = Some th -> cur k <> idle_thread k ->
  (is_Some (semas k !! s) -> frame_ok k (cur k) (F_down s old) (kstack th)) ->
  (forall s', pend s' th = 0) -> (forall l, acq l th = lock_of s l) ->
  sema_down_loop s old k = Ok (u, k') -> mid Ph_run zero zero k'.
Proof.
  intros Hm Hth Hid Hf Hp Ha H. unfold sema_down_loop in H. stmts H. specialize (Hf ltac:(eauto)).
  destruct (b_wait _ _ (m_base _ _ _ _ Hm) _ _ H0) as (Hv & _ & _).
  destruct (value a =? 0) eqn:Ev; bool_to_prop.
  - stmts H. apply push_frame_inv in E as (th1 & Hth1 & ->). simpl in Hth1.
    assert (th1 = th) as -> by congruence. simpl in H.
    unfold thread_block in H. stmts H. apply upd_thread_inv in E as (th2 & Hth2 & ->).
    simpl in Hth2. rewrite lookup_insert_eq in Hth2. injection Hth2 as <-.
    simpl in H. rewrite insert_insert_eq in H.
    eapply mid_weaken; [..|eapply schedule_mid; [|exact H]]; cycle 2.
    + eapply mid_same; [|by eapply (mid_asleep _ _ k s a old th)]. done.
    + intros l. simpl. rewrite Ha. unfold zero. lia.
    + intros s'. unfold zero, at_. case_decide; [done|]. by rewrite bool_decide_false by congruence.
  - stmts H. apply intr_set_level_same in E. eapply mid_same; [exact E|].
    rewrite u32_small by lia.
    eapply mid_weaken; [..|eapply (mid_value _ _ _ k s a (value a - 1)); [done|done|lia]].
    + intros l. unfold lock_of, zero. case_decide; lia.
    + intros s'. unfold zero, at_. case_decide; [subst; rewrite bool_decide_true by done; simpl; lia|].
      rewrite bool_decide_false by congruence. simpl. lia.
Qed.

Lemma unblock_mid d e k s sm t rest u k' :
  mid Ph_run d e k -> semas k !! s = Some sm -> waiters sm = t :: rest ->
  thread_unblock t (set_semas (<[s := mk_sema (value sm) rest]> (semas k)) k) = Ok (u, k') ->
  exists th, threads k !! t = Some th /\ same (woken s sm t rest th k) k'.
Proof.
  intros Hm Hs Hw H. unfold thread_unblock in H. stmts H.
  destruct a; [|done]. apply is_thread_inv in E as (-> & th & Hth). simpl in *.
  apply upd_thread_inv in E0 as (th1 & Hth1 & ->). apply intr_set_level_same in E1.
  exists th. split; [done|]. simpl in *. assert (th1 = th) as -> by congruence. exact E1.
Qed.

Lemma sema_up_mid d e k s u k' :
  mid Ph_run d e k -> (forall l sm, s = SLock l -> semas k !! s = Some sm -> value sm < 2 ^ 32 - 1) ->
  sema_up s k = Ok (u, k') -> mid Ph_run (fun l => d l + lock_of s l) e k'.
Proof.
  intros Hm Hlt H. unfold sema_up in H. stmts H. simpl in H0.
  destruct (b_wait _ _ (m_base _ _ _ _ Hm) _ _ H0) as (Hv & _ & _).
  apply intr_set_level_same in E0. eapply mid_same; [exact E0|]. clear E0.
  assert (Hval : forall e' k2, mid Ph_run d e' k2 -> semas k2 !! s = Some a1 -> value a1 = value a ->
    mid Ph_run (fun l => d l + lock_of s l) (fun s' => e' s' + if decide (s' = s) then 1 else 0)
      (set_semas (<[s := mk_sema (u32 (value a1 + 1)) (waiters a1)]> (semas k2)) k2)).
  { intros e' k2 Hm2 Hs2 Ev.
    assert (u32 (value a1 + 1) <= value a1 + 1) by (apply Z.mod_le; lia).
    eapply mid_weaken; [..|eapply (mid_value _ _ _ k2 s a1 (u32 (value a1 + 1))); [done|done|apply u32_range]].
    - intros l. unfold lock_of. case_decide as El; [|done]. rewrite u32_small; [lia|].
      pose proof (Hlt l a El H0). lia.
    - intros s'. repeat case_decide; first [lia|congruence]. }
  destruct (waiters a) as [|t rest] eqn:Ew.
  - stmt E. simpl in H1. assert (a1 = a) as -> by congruence.
    pose proof (mid_nowait _ _ _ _ s a (e s - 1) Hm H0 Ew) as Hn.
    eapply mid_weaken; [..|eapply (Hval _ (set_intr_on false k)); [eapply mid_same; [|exact Hn]; done|done|done]].
    + done.
    + intros s'. simpl. case_decide; [subst; lia|lia].
  - stmts E. simpl in E.
    destruct (unblock_mid d e (set_intr_on false k) s a t rest a0 k0) as (th & Hth & Hsm);
      [eapply mid_same; [|exact Hm]; done|done|done|exact E|].
    pose proof (mid_woken d e (set_intr_on false k) s a t rest th) as Hwk.
    assert (mid Ph_run d (fun s' => e s' - if decide (s' = s) then 1 else 0) k0) as Hm0.
    { eapply mid_same; [exact Hsm|]. apply Hwk; [eapply mid_same; [|exact Hm]; done|done|done|done]. }
    assert (a1 = mk_sema (value a) rest) as Ea.
    { destruct Hsm as (_ & _ & _ & _ & _ & Hss & _). rewrite Hss in H1. simpl in H1.
      rewrite lookup_insert_eq in H1. congruence. }
    eapply mid_weaken; [..|eapply (Hval _ k0); [exact Hm0|exact H1|by rewrite Ea]].
    + done.
    + intros s'. simpl. case_decide; lia.
Qed.

(** ** Locks *)

Lemma lock_value d e k l h sm :
  mid Ph_run d e k -> locks k !! l = Some h -> semas k !! SLock l = Some sm -> d l <= 1 -> value sm <= 2.
Proof.
  intros Hm Hl Hs Hd. destruct (m_lock _ _ _ _ Hm l h Hl) as (sm' & Hs' & E).
  assert (sm' = sm) as -> by congruence.
  pose proof (map_sum_nonneg (acq l) (threads k) (fun _ _ _ => acq_nonneg _ _)).
  destruct (negb (h =? NULL)); simpl in E; lia.
Qed.

Lemma held_inv l k b k' :
  lock_held_by_current_thread l k = Ok (b, k') ->
  k' = k /\ exists h th, locks k !! l = Some h /\ b = (h =? cur k) /\
    threads k !! cur k = Some th /\ status th = THREAD_RUNNING.
Proof.
  unfold lock_held_by_current_thread. intros H. stmts H. destruct H1 as (th & ? & ?).
  split; [done|]. exists a, th. auto.
Qed.

(** Pushing or popping frames of the running thread. *)
Lemma mid_stack d e k th ks :
  mid Ph_run d e k -> threads k !! cur k = Some th -> cur k <> idle_thread k ->
  ks_ok k (cur k) ks -> (forall u, crt_stack u ks <= crt u th) ->
  mid Ph_run (fun l => d l + acq l (set_kstack ks th) - acq l th)
    (fun s => e s + pend s th - pend s (set_kstack ks th))
    (set_threads (<[cur k := set_kstack ks th]> (threads k)) k).
Proof.
  intros Hm Ht Hid Hks Hc. destruct (b_thr _ _ (m_base _ _ _ _ Hm) _ _ Ht) as (_ & Hmg & _ & _).
  destruct (b_cur _ _ (m_base _ _ _ _ Hm)) as (c & Hc' & Hr). assert (c = th) as -> by congruence.
  specialize (Hr ltac:(done)). apply mid_thread; auto; [done|]. intros u. left. apply Hc.
Qed.

Lemma acq_top l l' ks th : acq l (set_kstack (F_acquire l' :: ks) th) = b2z (l' =? l).
Proof. done. Qed.
Lemma lock_of_b2z l l' : lock_of (SLock l) l' = b2z (l =? l').
Proof.
  unfold lock_of. destruct (l =? l') eqn:E; bool_to_prop; simpl.
  - subst. by rewrite decide_True.
  - rewrite decide_False; congruence.
Qed.

Lemma lock_acquire_mid l k u k' th :
  mid Ph_run zero zero k -> threads k !! cur k = Some th -> cur k <> idle_thread k -> plain (kstack th) ->
  lock_acquire l k = Ok (u, k') -> mid Ph_run zero zero k'.
Proof.
  intros Hm Hth Hid Hpl H. unfold lock_acquire in H. stmts H.
  apply held_inv in E as (-> & h & th' & Hl & -> & Hth' & Hrun). assert (th' = th) as -> by congruence.
  apply push_frame_inv in E0 as (th1 & Hth1 & ->). assert (th1 = th) as -> by congruence.
  destruct (m_lock _ _ _ _ Hm l h Hl) as (sm & Hsm & _).
  destruct (b_thr _ _ (m_base _ _ _ _ Hm) _ _ Hth) as (_ & _ & _ & Hks).
  assert (ks_ok k (cur k) (F_acquire l :: kstack th)) as Hks' by (split; [split; [eauto|done]|done]).
  pose proof (mid_stack zero zero k th (F_acquire l :: kstack th) Hm Hth Hid Hks') as Hm1.
  specialize (Hm1 ltac:(intros; simpl; unfold crt; lia)).
  unfold sema_down in H. stmts H.
  eapply (sema_down_loop_mid (SLock l) _ _ _ _ (set_kstack (F_acquire l :: kstack th) th)); [..|exact H].
  - eapply mid_same; [|eapply mid_weaken; [..|exact Hm1]]; [done| |].
    + intros l'. simpl. rewrite acq_top, acq_plain, lock_of_b2z by done. unfold zero. lia.
    + intros s'. cbv beta. rewrite pend_plain by done. unfold zero, at_. simpl.
      pose proof (pend_nonneg s' (set_kstack (F_acquire l :: kstack th) th)).
      destruct (bool_decide _); simpl; lia.
  - simpl. apply lookup_insert_eq.
  - done.
  - simpl. split; [left; eauto|eauto].
  - intros s'. unfold pend. simpl. by case_decide.
  - intros l'. by rewrite lock_of_b2z.
Qed.

Lemma lock_release_mid l k u k' :
  mid Ph_run zero zero k -> lock_release l k = Ok (u, k') -> mid Ph_run zero zero k'.
Proof.
  intros Hm H. unfold lock_release in H. stmts H.
  apply held_inv in E as (-> & h & th & Hl & -> & Hth & Hrun). apply Z.eqb_eq in H0. subst h.
  destruct (b_thr _ _ (m_base _ _ _ _ Hm) _ _ Hth) as (Hc0 & _).
  pose proof (mid_holder _ _ _ _ _ _ NULL Hm Hl) as Hm1.
  eapply mid_weaken; [..|eapply sema_up_mid; [exact Hm1| |exact H]].
  - intros l'. simpl. rewrite lock_of_b2z. rewrite (proj2 (Z.eqb_neq (cur k) NULL)) by done. unfold zero.
    destruct (l =? l') eqn:E; bool_to_prop; simpl.
    + by rewrite decide_True.
    + by rewrite decide_False by congruence.
  - done.
  - intros l' sm [= <-] Hsm. simpl in Hsm.
    pose proof (lock_value _ _ _ _ _ _ Hm Hl Hsm ltac:(unfold zero; lia)). lia.
Qed.

Lemma lock_of_other s : (forall l, s <> SLock l) -> forall l, lock_of s l = 0.
Proof. intros H l. unfold lock_of. by rewrite decide_False. Qed.

(** A thread asks for a semaphore that is not a lock's. *)
Lemma sema_down_mid s k u k' th :
  mid Ph_run zero zero k -> threads k !! cur k = Some th -> cur k <> idle_thread k -> plain (kstack th) ->
  (forall l, s <> SLock l) -> (forall t, s = SWaiter t -> t = cur k) ->
  sema_down s k = Ok (u, k') -> mid Ph_run zero zero k'.
Proof.
  intros Hm Hth Hid Hpl Hs Hw H. unfold sema_down in H. stmts H.
  eapply (sema_down_loop_mid s _ (set_intr_on false k)); [..|exact H].
  - eapply mid_same; [|eapply mid_weaken; [..|exact Hm]]; [done| |].
    + intros l. by rewrite lock_of_other.
    + intros s'. unfold zero, at_. by destruct (bool_decide _).
  - exact Hth.
  - done.
  - simpl. intros [sm Hsm]. split; [left; eauto|]. destruct s; [done|by destruct (Hs l)| |done|done].
    split; [by apply Hw|done].
  - intros s'. by apply pend_plain.
  - intros l. rewrite lock_of_other by done. by apply acq_plain.
Qed.

Lemma sema_try_down_inv s k b k' :
  sema_try_down s k = Ok (b, k') -> exists sm, semas k !! s = Some sm /\ b = (0 <? value sm) /\
    same (if b then set_semas (<[s := mk_sema (u32 (value sm - 1)) (waiters sm)]> (semas k)) k else k) k'.
Proof.
  unfold sema_try_down. intros H. stmts H. simpl in H0. apply intr_set_level_same in E0.
  exists a. split; [done|]. destruct (0 <? value a); stmts E; split; try done; exact E0.
Qed.

Lemma sema_try_down_mid s k b k' :
  mid Ph_run zero zero k -> (forall l, s <> SLock l) ->
  sema_try_down s k = Ok (b, k') -> mid Ph_run zero zero k'.
Proof.
  intros Hm Hs (sm & Hsm & -> & Hsame)%sema_try_down_inv. eapply mid_same; [exact Hsame|].
  destruct (0 <? value sm) eqn:E; [|done]. bool_to_prop.
  destruct (b_wait _ _ (m_base _ _ _ _ Hm) _ _ Hsm) as (Hv & _ & _). rewrite u32_small by lia.
  eapply mid_weaken; [..|eapply (mid_value _ _ _ k s sm (value sm - 1)); [done|done|lia]].
  - intros l. cbv beta. rewrite decide_False by done. done.
  - intros s'. unfold zero. case_decide; lia.
Qed.

Lemma lock_try_acquire_mid l k b k' :
  mid Ph_run zero zero k -> lock_try_acquire l k = Ok (b, k') -> mid Ph_run zero zero k'.
Proof.
  intros Hm H. unfold lock_try_acquire in H. stmts H.
  apply held_inv in E as (-> & h & th & Hl & -> & Hth & Hrun).
  apply sema_try_down_inv in E0 as (sm & Hsm & -> & Hsame).
  destruct (m_lock _ _ _ _ Hm l h Hl) as (sm' & Hs' & Eq). assert (sm' = sm) as -> by congruence.
  destruct (0 <? value sm) eqn:Ev; bool_to_prop; [|stmt E1; by eapply mid_same].
  destruct (b_wait _ _ (m_base _ _ _ _ Hm) _ _ Hsm) as (Hv & _ & _). rewrite u32_small in Hsame by lia.
  pose proof (map_sum_nonneg (acq l) (threads k) (fun _ _ _ => acq_nonneg _ _)) as Hnn.
  assert (h = NULL /\ value sm = 1) as [-> Hv1].
  { unfold zero in Eq. destruct (h =? NULL) eqn:Eh; bool_to_prop; simpl in Eq; [split; [done|lia]|lia]. }
  stmts E1. pose proof Hsame as (Ht & _ & Hc & _ & _ & _ & Hlk). rewrite Hc.
  pose proof (mid_value _ _ _ k (SLock l) sm (value sm - 1) Hm Hsm ltac:(lia)) as Hm1.
  pose proof (mid_same _ _ _ _ _ Hsame Hm1) as Hm2.
  assert (locks k1 !! l = Some NULL) as Hl1 by (by rewrite Hlk).
  destruct (b_thr _ _ (m_base _ _ _ _ Hm) _ _ Hth) as (Hc0 & _).
  eapply mid_weaken; [..|exact (mid_holder _ _ _ _ _ _ (cur k) Hm2 Hl1)].
  - intros l'. simpl. rewrite (proj2 (Z.eqb_neq (cur k) NULL)) by done. unfold zero.
    destruct (decide (l' = l)) as [->|].
    + rewrite decide_True by done. simpl. lia.
    + rewrite decide_False by congruence. lia.
  - intros s'. simpl. unfold zero. case_decide; lia.
Qed.

(** Updates that touch neither the status nor the stack. *)
Lemma mid_proc r d e k t f th :
  mid r d e k -> threads k !! t = Some th ->
  status (f th) = status th -> magic (f th) = magic th -> kstack (f th) = kstack th ->
  mid r d e (set_threads (<[t := f th]> (threads k)) k).
Proof.
  intros Hm Ht Hs Hmg Hk. destruct (b_thr _ _ (m_base _ _ _ _ Hm) _ _ Ht) as (_ & Hm0 & _ & Hks).
  assert (Ha : forall l, acq l (f th) = acq l th) by (intros; unfold acq; by rewrite Hk).
  assert (Hp : forall s, pend s (f th) = pend s th) by (intros; unfold pend; by rewrite Hk, Hs).
  eapply mid_weaken; [..|eapply (mid_thread r d e k t th (f th)); eauto].
  - intros l. cbv beta. rewrite Ha. lia.
  - intros s. cbv beta. rewrite Hp. lia.
  - congruence.
  - by rewrite Hk.
  - intros ->. pose proof (m_idle _ _ _ _ Hm) as Hi. apply idle_stack_shape in Hi as (thi & Hthi & Hsh).
    assert (thi = th) as -> by congruence. by rewrite Hk.
  - intros u. left. unfold crt. by rewrite Hk.
Qed.

(** Pushing or popping the frame of an interrupt or a yield. *)
Lemma mid_intr_frame d e k th ks :
  mid Ph_run d e k -> threads k !! cur k = Some th -> skip ks = skip (kstack th) ->
  ks_ok k (cur k) ks -> (cur k = idle_thread k -> idle_shape ks) ->
  (forall u, crt_stack u ks <= crt u th) ->
  mid Ph_run d e (set_threads (<[cur k := set_kstack ks th]> (threads k)) k).
Proof.
  intros Hm Ht Hsk Hks Hi Hc. destruct (b_thr _ _ (m_base _ _ _ _ Hm) _ _ Ht) as (_ & Hm0 & _ & _).
  destruct (b_cur _ _ (m_base _ _ _ _ Hm)) as (c & Hc' & Hr). assert (c = th) as -> by congruence.
  specialize (Hr ltac:(done)).
  assert (Ha : forall l, acq l (set_kstack ks th) = acq l th) by (intros; unfold acq; simpl; by rewrite Hsk).
  assert (Hp : forall s, pend s (set_kstack ks th) = pend s th) by (intros; unfold pend; simpl; by rewrite Hsk).
  eapply mid_weaken; [..|eapply (mid_thread Ph_run d e k (cur k) th (set_kstack ks th)); eauto].
  - intros l. cbv beta. rewrite Ha. lia.
  - intros s. cbv beta. rewrite Hp. lia.
Qed.

Lemma cur_running d e k th :
  mid Ph_run d e k -> threads k !! cur k = Some th -> status th = THREAD_RUNNING.
Proof.
  intros Hm Ht. destruct (b_cur _ _ (m_base _ _ _ _ Hm)) as (c & Hc & Hr).
  assert (c = th) as -> by congruence. by apply Hr.
Qed.
Lemma cur_ks_ok r d e k t th : mid r d e k -> threads k !! t = Some th -> ks_ok k t (kstack th).
Proof. intros Hm Ht. by destruct (b_thr _ _ (m_base _ _ _ _ Hm) _ _ Ht) as (_ & _ & _ & ?). Qed.
Lemma cur_magic r d e k t th : mid r d e k -> threads k !! t = Some th -> magic th = THREAD_MAGIC.
Proof. intros Hm Ht. by destruct (b_thr _ _ (m_base _ _ _ _ Hm) _ _ Ht) as (_ & ? & _). Qed.
Lemma idle_shape_of r d e k th :
  mid r d e k -> threads k !! idle_thread k = Some th -> idle_shape (kstack th).
Proof.
  intros Hm Ht. pose proof (m_idle _ _ _ _ Hm) as Hi.
  apply idle_stack_shape in Hi as (thi & Hthi & Hsh). by assert (thi = th) as -> by congruence.
Qed.

Lemma thread_yield_mid d e k u k' :
  mid Ph_run d e k -> thread_yield k = Ok (u, k') -> mid Ph_run d e k'.
Proof.
  intros Hm H. unfold thread_yield in H. stmts H. destruct H0 as (th & Hth & Hrun).
  apply push_frame_inv in E as (th1 & Hth1 & ->). simpl in Hth1. assert (th1 = th) as -> by congruence.
  apply upd_thread_inv in E1 as (th2 & Hth2 & ->).
  set (th' := set_status THREAD_READY (set_kstack (F_yield (intr_on k) :: kstack th) th)).
  set (b := negb (cur k =? idle_thread k)).
  eapply schedule_mid; [|exact H]. eapply mid_same; [|eapply (mid_left d e k th th' b); try done].
  - simpl in E0. unfold b, left_cpu, th'. destruct (cur k =? idle_thread k); simpl in E0; stmt E0;
      simpl in Hth2; rewrite lookup_insert_eq in Hth2; injection Hth2 as <-; simpl;
      rewrite insert_insert_eq; done.
  - simpl. by rewrite (cur_magic _ _ _ _ _ _ Hm Hth).
  - split; [done|]. by apply (cur_ks_ok _ _ _ _ _ _ Hm).
  - intros s. unfold pend. simpl. rewrite Hrun. done.
  - intros Hi. apply idle_shape_cons; [done|]. apply (idle_shape_of _ _ _ _ _ Hm). by rewrite <- Hi.
  - unfold status_ok, b. simpl. destruct (cur k =? idle_thread k) eqn:Ei; simpl.
    + apply Z.eqb_eq in Ei. by right.
    + left. apply elem_of_app. right. by left.
Qed.

Lemma thread_tick_same k u k' : thread_tick k = Ok (u, k') -> same k k'.
Proof.
  unfold thread_tick. intros H. stmts H.
  assert (same k k0) as Hs.
  { destruct (_ =? idle_thread k); [stmt E; done|]. destruct (negb _); stmt E; done. }
  assert (forall k1, same k k1 -> intr_yield_on_return k1 = Ok (u, k') -> same k k') as Hy.
  { intros k2 Hk2 Hy. unfold intr_yield_on_return in Hy. stmts Hy. exact Hk2. }
  destruct (TIME_SLICE <=? _); [|stmt H; exact Hs].
  by eapply (Hy (set_thread_ticks (u32 (thread_ticks k0 + 1)) k0)).
Qed.

Lemma intr_handler_mid i k u k' :
  mid Ph_run zero zero k -> intr_handler_external (irq_handler i) k = Ok (u, k') -> mid Ph_run zero zero k'.
Proof.
  intros Hm H. unfold intr_handler_external in H. stmts H.
  assert (mid Ph_run zero zero k0) as Hm0.
  { destruct i as [|s]; simpl in E.
    - eapply mid_same; [by eapply thread_tick_same|]. eapply mid_same; [|exact Hm]. done.
    - eapply mid_weaken; [..|eapply (sema_up_mid zero zero _ (SSema s)); [|by intros ? ? [=]|exact E]]; [|done|].
      + intros l. cbv beta. by rewrite lock_of_other.
      + eapply mid_same; [|exact Hm]. done. }
  apply push_frame_inv in E0 as (th & Hth & ->). simpl in Hth.
  assert (mid Ph_run zero zero (set_threads (<[cur k0 := set_kstack (F_iret :: kstack th) th]> (threads k0)) k0)) as Hm1.
  { apply mid_intr_frame; [done|done|done| | |].
    - split; [done|]. by eapply cur_ks_ok.
    - intros Hi. apply idle_shape_cons; [done|]. eapply (idle_shape_of _ _ _ k0); [exact Hm0|]. by rewrite <- Hi.
    - intros t. simpl. unfold crt. lia. }
  simpl in H. destruct (yield_on_return k0).
  - eapply thread_yield_mid; [|exact H]. eapply mid_same; [|exact Hm1]. done.
  - stmt H. eapply mid_same; [|exact Hm1]. done.
Qed.

(** ** Returning to a suspended primitive *)

(** The frame of a primitive is popped before its code runs; the counts are off
    by what the frame stood for. *)
Lemma mid_pop k th f rest :
  mid Ph_run zero zero k -> threads k !! cur k = Some th -> kstack th = f :: rest -> is_intr f = false ->
  cur k <> idle_thread k ->
  mid Ph_run (fun l => acq l (set_kstack rest th) - acq l th)
    (fun s => pend s th - pend s (set_kstack rest th))
    (set_threads (<[cur k := set_kstack rest th]> (threads k)) k).
Proof.
  intros Hm Hth Hk Hf Hid. pose proof (cur_ks_ok _ _ _ _ _ _ Hm Hth) as Hks. rewrite Hk in Hks.
  eapply mid_weaken; [..|eapply (mid_stack zero zero k th rest)]; [| |done|done|done|apply Hks|].
  - intros l. cbv beta. unfold zero. lia.
  - intros s. cbv beta. unfold zero. lia.
  - intros u. unfold crt. rewrite Hk. simpl. destruct (creates u f); simpl; lia.
Qed.

(** Frames whose code starts with nothing owed. *)
Definition ordinary (f : frame) : bool :=
  match f with F_down _ _ | F_acquire _ | F_yield _ | F_iret => false | _ => true end.

Lemma mid_pop_ordinary k th f rest :
  mid Ph_run zero zero k -> threads k !! cur k = Some th -> kstack th = f :: rest -> ordinary f = true ->
  cur k <> idle_thread k ->
  plain rest /\ mid Ph_run zero zero (set_threads (<[cur k := set_kstack rest th]> (threads k)) k).
Proof.
  intros Hm Hth Hk Hf Hid. pose proof (cur_ks_ok _ _ _ _ _ _ Hm Hth) as Hks. rewrite Hk in Hks.
  destruct Hks as [Hfr _].
  assert (plain rest) as Hpl by (destruct f; simpl in *; try done; try (by destruct Hfr); by subst).
  split; [done|].
  assert (plain (kstack th)) as Hpl2 by (rewrite Hk; by destruct f).
  eapply mid_weaken; [..|eapply (mid_pop k th f rest); try done; by destruct f].
  - intros l. cbv beta. rewrite !acq_plain by done. done.
  - intros s. cbv beta. rewrite !pend_plain by done. done.
Qed.

Lemma resume_down k th s old rest u k' :
  mid Ph_run zero zero k -> threads k !! cur k = Some th -> kstack th = F_down s old :: rest ->
  cur k <> idle_thread k ->
  sema_down_loop s old (set_threads (<[cur k := set_kstack rest th]> (threads k)) k) = Ok (u, k') ->
  mid Ph_run zero zero k'.
Proof.
  intros Hm Hth Hk Hid H. pose proof (cur_ks_ok _ _ _ _ _ _ Hm Hth) as Hks. rewrite Hk in Hks.
  pose proof (cur_running _ _ _ _ Hm Hth) as Hrun.
  destruct Hks as [[_ Hshape] _].
  assert (Hacq : forall l, acq l (set_kstack rest th) = lock_of s l).
  { intros l. unfold lock_of. destruct s as [a|l0|t|t|t]; try (rewrite decide_False by done; apply acq_plain; simpl; tauto).
    destruct Hshape as [r ->]. rewrite acq_top. destruct (l0 =? l) eqn:E; bool_to_prop; simpl.
    - subst. by rewrite decide_True.
    - by rewrite decide_False by congruence. }
  assert (Hpend : forall s', pend s' (set_kstack rest th) = 0).
  { intros s'. destruct s as [a|l0|t|t|t]; try (apply pend_plain; simpl; tauto).
    destruct Hshape as [r ->]. unfold pend. simpl. by case_decide. }
  eapply (sema_down_loop_mid s old _ _ _ (set_kstack rest th)); [..|exact H].
  - eapply mid_weaken; [..|by eapply (mid_pop k th (F_down s old) rest)].
    + intros l. cbv beta. rewrite Hacq. unfold acq. rewrite Hk. simpl. lia.
    + intros s'. cbv beta. rewrite Hpend. unfold pend. rewrite Hk, Hrun. simpl. unfold at_. lia.
  - simpl. apply lookup_insert_eq.
  - done.
  - simpl. intros Hs. split; [by left|done].
  - done.
  - done.
Qed.

Lemma resume_acquire k th l rest u k' :
  mid Ph_run zero zero k -> threads k !! cur k = Some th -> kstack th = F_acquire l :: rest ->
  cur k <> idle_thread k ->
  lock_acquired l (set_threads (<[cur k := set_kstack rest th]> (threads k)) k) = Ok (u, k') ->
  mid Ph_run zero zero k'.
Proof.
  intros Hm Hth Hk Hid H. pose proof (cur_ks_ok _ _ _ _ _ _ Hm Hth) as Hks. rewrite Hk in Hks.
  destruct Hks as [[[h Hl] Hpl] _]. unfold lock_acquired in H. stmts H.
  destruct (m_lock _ _ _ _ Hm l h Hl) as (sm & Hsm & Eq).
  destruct (b_wait _ _ (m_base _ _ _ _ Hm) _ _ Hsm) as (Hv & _ & _).
  assert (1 <= map_sum (acq l) (threads k)) as Hge.
  { assert (acq l th = 1) as <- by (unfold acq; rewrite Hk; simpl; by rewrite Z.eqb_refl).
    apply (map_sum_ge _ _ (cur k)); [intros; apply acq_nonneg|done]. }
  assert (h = NULL) as ->.
  { unfold zero in Eq. destruct (h =? NULL) eqn:Eh; bool_to_prop; simpl in Eq; [done|lia]. }
  pose proof (mid_pop k th _ rest Hm Hth Hk eq_refl Hid) as Hm1.
  destruct (b_thr _ _ (m_base _ _ _ _ Hm) _ _ Hth) as (Hc0 & _).
  eapply mid_weaken; [..|exact (mid_holder _ _ _ _ l NULL (cur k) Hm1 Hl)].
  - intros l'. cbv beta. rewrite acq_plain by done. unfold acq. rewrite Hk. simpl skip. cbv iota.
    rewrite (proj2 (Z.eqb_neq (cur k) NULL)) by done. unfold zero.
    destruct (decide (l' = l)) as [->|]; [rewrite Z.eqb_refl; done|].
    rewrite (proj2 (Z.eqb_neq l l')) by congruence. done.
  - intros s. cbv beta. rewrite (pend_plain s (set_kstack rest th)) by done. unfold pend. rewrite Hk. simpl.
    by case_decide.
Qed.

(** ** The remaining primitives *)

(** The running thread with its stack, not the idle thread. *)
Definition running (k : kernel) (th : thread) : Prop :=
  threads k !! cur k = Some th /\ cur k <> idle_thread k.

Definition creating (f : frame) : bool :=
  match f with F_tid _ _ _ | F_created _ _ _ _ => true | _ => false end.

(** Pushing an ordinary frame. *)
Lemma push_mid k th f u k' :
  mid Ph_run zero zero k -> running k th -> plain (kstack th) -> ordinary f = true ->
  frame_ok k (cur k) f (kstack th) -> creating f = false -> push_frame f k = Ok (u, k') ->
  mid Ph_run zero zero k' /\ running k' (set_kstack (f :: kstack th) th) /\ plain (f :: kstack th) /\
  locks k' = locks k /\ semas k' = semas k /\ cur k' = cur k.
Proof.
  intros Hm [Hth Hid] Hpl Hord Hf Hc H. apply push_frame_inv in H as (th1 & Hth1 & ->).
  assert (th1 = th) as -> by congruence. simpl.
  assert (plain (f :: kstack th)) as Hpl' by (by destruct f).
  split_and!; try done.
  - eapply mid_weaken; [..|eapply (mid_stack zero zero k th (f :: kstack th))]; [| |done|done|done| |].
    + intros l. cbv beta. rewrite !acq_plain by done. done.
    + intros s. cbv beta. rewrite !pend_plain by done. done.
    + split; [done|]. by eapply cur_ks_ok.
    + intros t. unfold crt. simpl. assert (creates t f = false) as -> by (by destruct f). simpl. lia.
  - split; [apply lookup_insert_eq|done].
Qed.

(** [upd_thread] of process data. *)
Lemma upd_mid k t f u k' :
  mid Ph_run zero zero k -> (forall th, status (f th) = status th) -> (forall th, magic (f th) = magic th) ->
  (forall th, kstack (f th) = kstack th) -> upd_thread t f k = Ok (u, k') ->
  mid Ph_run zero zero k' /\ cur k' = cur k /\ idle_thread k' = idle_thread k /\
  semas k' = semas k /\ locks k' = locks k /\
  (forall c th, threads k !! c = Some th -> exists th', threads k' !! c = Some th' /\
     status th' = status th /\ kstack th' = kstack th) /\
  (forall t, map_sum (crt t) (threads k') = map_sum (crt t) (threads k)).
Proof.
  intros Hm Hs Hmg Hk H. apply upd_thread_inv in H as (th & Hth & ->).
  split_and!; try done; [by apply mid_proc| |].
  - intros c thc Hc. simpl. destruct (decide (c = t)) as [->|].
    + rewrite lookup_insert_eq. exists (f th). assert (thc = th) as -> by congruence. auto.
    + rewrite lookup_insert_ne by done. eauto.
  - intros c. simpl. rewrite (map_sum_update _ _ _ th) by done.
    assert (crt c (f th) = crt c th) as -> by (unfold crt; by rewrite Hk). lia.
Qed.

Lemma cond_wait_mid c l k th u k' :
  mid Ph_run zero zero k -> running k th -> kstack th = [] ->
  cond_wait c l k = Ok (u, k') -> mid Ph_run zero zero k'.
Proof.
  intros Hm Hr Hk H. unfold cond_wait in H. stmts H.
  apply held_inv in E as (-> & h & th' & Hl & -> & Hth & Hrun).
  assert (mid Ph_run zero zero (set_semas (<[SWaiter (cur k) := mk_sema 0 []]> (semas k)) k)) as Hm1.
  { apply mid_sema_init; [done|lia|done|]. intros t tht old rest Ht Hb Hkt.
    pose proof (cur_ks_ok _ _ _ _ _ _ Hm Ht) as Hks. rewrite Hkt in Hks. destruct Hks as [[_ [<- _]] _].
    congruence. }
  eapply lock_release_mid; [|exact H].
  match type of E0 with push_frame _ ?k2 = _ =>
    assert (mid Ph_run zero zero k2) as Hm2 by (eapply mid_same; [|exact Hm1]; done) end.
  eapply (push_mid _ th (F_wait_down l) _ _ Hm2); [exact Hr| |done| |done|exact E0]; simpl; by rewrite Hk.
Qed.

Lemma cond_wait_down_mid l k th u k' :
  mid Ph_run zero zero k -> running k th -> plain (kstack th) ->
  cond_wait_down l k = Ok (u, k') -> mid Ph_run zero zero k'.
Proof.
  intros Hm Hr Hpl H. unfold cond_wait_down in H. stmts H.
  destruct (push_mid k th (F_wait_lock l) a k0 Hm Hr) as (Hm1 & [Hth1 Hid1] & Hpl1 & _ & _ & Hc); [done..|].
  eapply (sema_down_mid (SWaiter (cur k))); [exact Hm1|exact Hth1|done|done|done| |exact H].
  intros t [= <-]. done.
Qed.

Lemma cond_signal_mid c l k u k' :
  mid Ph_run zero zero k -> cond_signal c l k = Ok (u, k') -> mid Ph_run zero zero k'.
Proof.
  intros Hm H. unfold cond_signal in H. stmts H.
  apply held_inv in E as (-> & h & th' & Hl & -> & Hth & Hrun). destruct a2 as [|t rest].
  - stmt H. done.
  - stmts H. eapply mid_weaken; [..|eapply (sema_up_mid zero zero _ (SWaiter t)); [|by intros ? ? [=]|exact H]];
      [|done|eapply mid_same; [|exact Hm]; done].
    intros l'. cbv beta. by rewrite lock_of_other.
Qed.

Lemma cond_broadcast_mid c l k th u k' :
  mid Ph_run zero zero k -> running k th -> plain (kstack th) ->
  cond_broadcast c l k = Ok (u, k') -> mid Ph_run zero zero k'.
Proof.
  intros Hm Hr Hpl H. unfold cond_broadcast in H. stmts H. destruct a as [|t rest].
  - stmt H. done.
  - stmts H. eapply cond_signal_mid; [|exact H].
    by destruct (push_mid k th (F_broadcast c l) a k0 Hm Hr) as (Hm1 & _).
Qed.

(** *** Creating threads *)

Lemma init_thread_mid t nm prio k th u k' :
  mid Ph_run zero zero k -> running k th -> fresh_page k t ->
  init_thread t nm prio k = Ok (u, k') ->
  mid Ph_run zero zero k' /\ running k' th /\ t <> cur k /\
  (forall c, map_sum (crt c) (threads k') = map_sum (crt c) (threads k)) /\
  exists tht, threads k' !! t = Some tht /\ status tht = THREAD_BLOCKED /\ kstack tht = [] /\ cur k' = cur k.
Proof.
  intros Hm [Hth Hid] (Hf1 & Hf2 & Hf3 & Hf4 & Hf5) H. unfold init_thread in H. stmts H. bool_to_prop.
  assert (t <> cur k) as Htc by (intros ->; congruence).
  set (nt := mk_thread 0 THREAD_BLOCKED (take (thread_name_size - 1) nm) prio THREAD_MAGIC new_proc []).
  assert (Hm1 : mid Ph_run zero zero (set_threads (<[t := nt]> (threads k)) k)) by (by apply mid_new_thread).
  assert (Hno : forall s, mentions t (F_down s true) = true ->
    forall v tv old rest, <[t := nt]> (threads k) !! v = Some tv -> status tv = THREAD_BLOCKED ->
      kstack tv <> F_down s old :: rest).
  { intros s Hs v tv old rest Hv Hb Hk. destruct (decide (v = t)) as [->|].
    - rewrite lookup_insert_eq in Hv. by simplify_eq.
    - rewrite lookup_insert_ne in Hv by done. specialize (Hf5 v tv Hv). rewrite Hk in Hf5.
      inversion Hf5 as [|? ? Hx _]. simpl in *. by destruct s; simpl in *; congruence. }
  assert (Hm2 : mid Ph_run zero zero
    (set_semas (<[SExec t := mk_sema 0 []]> (semas k)) (set_threads (<[t := nt]> (threads k)) k))).
  { apply (mid_sema_init _ _ _ (set_threads (<[t := nt]> (threads k)) k)); [done|lia|done|].
    apply Hno. apply Z.eqb_refl. }
  assert (Hm3 := mid_sema_init _ _ _ _ (SWait t) 0 Hm2 ltac:(lia) ltac:(done) (Hno (SWait t) (Z.eqb_refl t))).
  split_and!.
  - eapply mid_same; [|exact Hm3]. done.
  - split; [simpl; by rewrite lookup_insert_ne|done].
  - done.
  - intros c. simpl. rewrite map_sum_new by done. done.
  - exists nt. simpl. by rewrite lookup_insert_eq.
Qed.

(** Pushing a frame of [thread_create] while the new thread [t] waits. *)
Lemma push_creating k th f t tht u k' :
  mid Ph_run zero zero k -> running k th -> plain (kstack th) ->
  (exists h, f = F_tid t h EOther) \/ (exists h n, f = F_created t h n EOther) ->
  threads k !! t = Some tht -> status tht = THREAD_BLOCKED -> kstack tht = [] ->
  map_sum (crt t) (threads k) = 0 -> push_frame f k = Ok (u, k') ->
  mid Ph_run zero zero k' /\ running k' (set_kstack (f :: kstack th) th) /\ plain (f :: kstack th).
Proof.
  intros Hm [Hth Hid] Hpl Hf Ht Hb Hkt Hsum H. apply push_frame_inv in H as (th1 & Hth1 & ->).
  assert (th1 = th) as -> by congruence. simpl.
  pose proof (cur_running _ _ _ _ Hm Hth) as Hrun.
  assert (plain (f :: kstack th)) as Hpl' by (by destruct Hf as [(h & ->)|(h & n & ->)]).
  split_and!; [|split; [apply lookup_insert_eq|done]|done].
  eapply mid_weaken; [..|eapply (mid_thread Ph_run zero zero k (cur k) th (set_kstack (f :: kstack th) th))].
  - intros l. cbv beta. rewrite !acq_plain by done. done.
  - intros s. cbv beta. rewrite !pend_plain by done. done.
  - done.
  - done.
  - done.
  - simpl. by eapply cur_magic.
  - by left.
  - split; [by destruct Hf as [(h & ->)|(h & n & ->)]|]. by eapply cur_ks_ok.
  - done.
  - intros v.
    assert (crt v (set_kstack (f :: kstack th) th) = b2z (t =? v) + crt v th) as ->.
    { unfold crt. simpl. f_equal. by destruct Hf as [(h & ->)|(h & n & ->)]. }
    destruct (t =? v) eqn:E; bool_to_prop; simpl; [subst v|left; lia].
    pose proof (map_sum_ge (crt t) (threads k) (cur k) th (fun _ _ _ => crt_nonneg _ _) Hth).
    pose proof (crt_nonneg t th).
    right. split_and!; [lia|lia|congruence|eauto].
Qed.

Lemma thread_create_mid t h nm prio k th u k' :
  mid Ph_run zero zero k -> running k th -> plain (kstack th) -> t = NULL \/ fresh_page k t ->
  thread_create t h nm prio EOther k = Ok (u, k') -> mid Ph_run zero zero k'.
Proof.
  intros Hm Hr Hpl Hfresh H. unfold thread_create in H. destruct (t =? NULL) eqn:E0; bool_to_prop.
  { stmt H. done. }
  destruct Hfresh as [?|Hfresh]; [done|]. stmts H.
  destruct (init_thread_mid t nm prio k th _ _ Hm Hr Hfresh E) as (Hm1 & Hr1 & Htc & Hcrt & tht & Ht & Hb & Hkt & _).
  assert (map_sum (crt t) (threads k0) = 0) as Hz.
  { rewrite Hcrt. pose proof (map_sum_nonneg (crt t) (threads k) (fun _ _ _ => crt_nonneg _ _)).
    destruct (m_new _ _ _ _ Hm t) as [_ Hex].
    destruct (decide (0 < map_sum (crt t) (threads k))) as [Hp|]; [|lia].
    destruct (Hex Hp) as (? & ? & _). destruct Hfresh. congruence. }
  destruct (push_creating k0 th (F_tid t h EOther) t tht a0 k1 Hm1 Hr1 Hpl) as (Hm2 & [Hth2 Hid2] & Hpl2); eauto.
  by eapply (lock_acquire_mid tid_lock).
Qed.

(** Popping a frame of [thread_create]: the new thread waits, and nobody else is
    creating it. *)
Lemma pop_creating k th f rest t :
  mid Ph_run zero zero k -> running k th -> kstack th = f :: rest -> creates t f = true ->
  let k1 := set_threads (<[cur k := set_kstack rest th]> (threads k)) k in
  exists tht, threads k1 !! t = Some tht /\ status tht = THREAD_BLOCKED /\ kstack tht = [] /\
    map_sum (crt t) (threads k1) = 0.
Proof.
  intros Hm [Hth Hid] Hk Hf k1. destruct (m_new _ _ _ _ Hm t) as [Hle Hex].
  pose proof (map_sum_ge (crt t) (threads k) (cur k) th (fun _ _ _ => crt_nonneg _ _) Hth) as Hge.
  assert (crt t th = 1 + crt_stack t rest) as Hc by (unfold crt; rewrite Hk; simpl; by rewrite Hf).
  pose proof (crt_stack_nonneg t rest). destruct Hex as (tht & Ht & Hb & Hkt); [lia|].
  exists tht. pose proof (cur_running _ _ _ _ Hm Hth). simpl.
  rewrite lookup_insert_ne by (intros E; congruence). split_and!; [done..|].
  rewrite (map_sum_update _ _ _ th) by done. change (crt t (set_kstack rest th)) with (crt_stack t rest). lia.
Qed.

Lemma create_tid_mid t h k th u k' tht :
  mid Ph_run zero zero k -> running k th -> plain (kstack th) ->
  threads k !! t = Some tht -> status tht = THREAD_BLOCKED -> kstack tht = [] ->
  map_sum (crt t) (threads k) = 0 ->
  create_tid t h EOther k = Ok (u, k') -> mid Ph_run zero zero k'.
Proof.
  intros Hm Hr Hpl Ht Hb Hkt Hs H. unfold create_tid in H. stmts H. unfold take_tid in E. simplify_eq.
  eapply lock_release_mid; [|exact H].
  match type of E0 with push_frame _ ?k2 = _ =>
    assert (mid Ph_run zero zero k2) as Hm2 by (eapply mid_same; [|exact Hm]; done) end.
  eapply (push_creating _ th _ t tht _ _ Hm2); [done|done|eauto|done|done|done|done|exact E0].
Qed.

Lemma create_finish_mid t h n k th u k' tht :
  mid Ph_run zero zero k -> running k th ->
  threads k !! t = Some tht -> status tht = THREAD_BLOCKED -> kstack tht = [] ->
  map_sum (crt t) (threads k) = 0 ->
  create_finish t h n EOther k = Ok (u, k') -> mid Ph_run zero zero k'.
Proof.
  intros Hm Hr Ht Hb Hkt Hs H. unfold create_finish in H. stmts H. clear H0.
  destruct (h =? NULL); [done|]. stmt E.
  apply upd_mid in E0 as (Hm1 & Hc1 & Hi1 & _ & _ & Hth1 & Hcrt1); [|done..].
  destruct (Hth1 t tht Ht) as (tht1 & Ht1 & Hb1 & Hk1).
  match type of E1 with upd_thread _ _ ?k2 = _ =>
    assert (mid Ph_run zero zero k2) as Hm1' by (eapply mid_same; [|exact Hm1]; done) end.
  apply upd_mid in E1 as (Hm2 & Hc2 & Hi2 & _ & _ & Hth2 & Hcrt2); [|done..]. simpl in *.
  destruct (Hth2 t tht1 Ht1) as (tht2 & Ht2 & Hb2 & Hk2).
  apply upd_thread_inv in E2 as (tht3 & Ht3 & ->). assert (tht3 = tht2) as -> by congruence.
  unfold thread_unblock in H. stmts H. subst a.
  apply is_thread_inv in E as (-> & th3 & Hth3). simpl in *.
  apply upd_thread_inv in E0 as (th4 & Hth4 & ->). apply intr_set_level_same in E1. simpl in *.
  rewrite lookup_insert_eq in Hth4. injection Hth4 as <-. rewrite insert_insert_eq in E1.
  assert (map_sum (crt t) (threads k2) = 0) as Hz by (by rewrite Hcrt2, Hcrt1).
  pose proof (mid_started zero zero k2 t tht2 Hm2 Ht2 ltac:(congruence) ltac:(congruence) Hz) as Hm3.
  eapply mid_same; [exact E1|]. eapply mid_same; [|exact Hm3]. done.
Qed.

(** *** Exiting and waiting *)

Lemma exit_work_mid k th u k' :
  mid Ph_run zero zero k -> running k th -> kstack th = [] ->
  exit_work k = Ok (u, k') -> mid Ph_run zero zero k'.
Proof.
  intros Hm [Hth Hid] Hk H. unfold exit_work in H. stmts H.
  assert (mid Ph_run zero zero k0 /\ exists th0, running k0 th0 /\ kstack th0 = []) as (Hm0 & th0 & Hr0 & Hk0).
  { unfold process_exit in E. stmts E. simpl in *. assert (a3 = th) as -> by congruence.
    destruct (negb _); [|stmt E; split; [eapply mid_same; [|exact Hm]; done|by exists th]].
    stmts E. simpl in E3.
    match type of E3 with upd_thread _ _ ?k2 = _ =>
      assert (mid Ph_run zero zero k2) as Hm' by (eapply mid_same; [|exact Hm]; done) end.
    apply upd_mid in E3 as (Hm2 & Hc2 & Hi2 & _ & _ & Hth2 & _); [|done..].
    destruct (Hth2 (cur k) th Hth) as (th2 & Hth2' & _ & Hk2).
    split; [eapply mid_same; [|exact Hm2]; done|]. exists th2. simpl in *.
    split; [split; simpl; congruence|congruence]. }
  assert (mid Ph_run zero zero k1 /\ exists th1, running k1 th1 /\ kstack th1 = []) as (Hm1 & th1 & Hr1 & Hk1).
  { unfold exit_spage in E0. stmts E0. simpl in *.
    match type of E0 with upd_thread _ _ ?k2 = _ =>
      assert (mid Ph_run zero zero k2) as Hm' by (eapply mid_same; [|exact Hm0]; done) end.
    apply upd_mid in E0 as (Hm2 & Hc2 & Hi2 & _ & _ & Hth2 & _); [|done..].
    destruct Hr0 as [Hth0 Hid0]. destruct (Hth2 (cur k0) th0 Hth0) as (th2 & Hth2' & _ & Hk2).
    split; [done|]. exists th2. simpl in *. split; [split; congruence|congruence]. }
  destruct (push_mid k1 th1 F_exit_up _ _ Hm1 Hr1 ltac:(by rewrite Hk1) eq_refl Hk1 eq_refl E1) as (Hm2 & _).
  apply held_inv in E2 as (-> & _). destruct a2; [by eapply lock_release_mid|stmt H; done].
Qed.

Lemma thread_exit_mid k th u k' :
  mid Ph_run zero zero k -> running k th -> kstack th = [] ->
  thread_exit k = Ok (u, k') -> mid Ph_run zero zero k'.
Proof.
  intros Hm Hr Hk H. unfold thread_exit in H. stmts H. apply held_inv in E as (-> & _).
  destruct a0; [by eapply exit_work_mid|]. stmts H.
  destruct (push_mid k th F_exit_work _ _ Hm Hr ltac:(by rewrite Hk) eq_refl Hk eq_refl E)
    as (Hm1 & [Hth1 Hid1] & Hpl1 & _).
  by eapply lock_acquire_mid.
Qed.

Lemma exit_h_mid st k th u k' :
  mid Ph_run zero zero k -> running k th -> kstack th = [] ->
  exit_h st k = Ok (u, k') -> mid Ph_run zero zero k'.
Proof.
  intros Hm [Hth Hid] Hk H. unfold exit_h in H. stmts H.
  assert (same k k0) as Hs by (destruct (negb _); stmts E; done).
  apply upd_mid in E0 as (Hm2 & Hc2 & Hi2 & _ & _ & Hth2 & _); [|by eapply mid_same|done..].
  destruct (Hth2 (cur k) th) as (th2 & Hth2' & _ & Hk2); [by rewrite (proj1 Hs)|].
  destruct Hs as (_ & _ & Hc & Hi & _). eapply (thread_exit_mid k1 th2); [done| |congruence|exact H].
  unfold running. by rewrite Hc2, Hi2, Hc, Hi.
Qed.

Lemma exit_die_mid k th u k' :
  mid Ph_run zero zero k -> running k th -> kstack th = [] ->
  exit_die k = Ok (u, k') -> mid Ph_run zero zero k'.
Proof.
  intros Hm [Hth Hid] Hk H. unfold exit_die in H. stmts H. simpl in *.
  apply upd_thread_inv in E as (th1 & Hth1 & ->). simpl in *. assert (th1 = th) as -> by congruence.
  eapply schedule_mid; [|exact H].
  eapply mid_same; [|eapply (mid_left zero zero k th (set_status THREAD_DYING th) false)]; try done.
  - simpl. by eapply cur_magic.
  - simpl. by eapply cur_ks_ok.
  - intros s. unfold pend. simpl. rewrite Hk. by repeat case_decide.
  - unfold status_ok. simpl. auto.
Qed.

Lemma process_wait_mid n k th u k' :
  mid Ph_run zero zero k -> running k th -> plain (kstack th) ->
  process_wait n k = Ok (u, k') -> mid Ph_run zero zero k'.
Proof.
  intros Hm Hr Hpl H. unfold process_wait in H. stmts H. destruct a0 as [h|].
  - stmts H.
    destruct (push_mid k th (F_reap h) _ _ Hm Hr Hpl eq_refl Hpl eq_refl E) as (Hm1 & [Hth1 Hid1] & Hpl1 & _).
    refine (sema_down_mid _ _ _ _ _ Hm1 Hth1 Hid1 Hpl1 _ _ H); [done|by intros ? [=]].
  - stmt H. eapply mid_same; [|exact Hm]. done.
Qed.

Lemma reap_mid h k u k' :
  mid Ph_run zero zero k -> reap h k = Ok (u, k') -> mid Ph_run zero zero k'.
Proof.
  intros Hm H. unfold reap in H. stmts H. apply upd_mid in E as (Hm1 & _); [|done..].
  eapply mid_same; [|exact Hm1]. done.
Qed.

Lemma process_execute_mid t h nm k th u k' :
  mid Ph_run zero zero k -> running k th -> kstack th = [] -> t = NULL \/ fresh_page k t ->
  process_execute t h nm k = Ok (u, k') -> mid Ph_run zero zero k'.
Proof.
  intros Hm Hr Hk Hf H. unfold process_execute in H. stmts H.
  destruct (push_mid k th F_exec_wait _ _ Hm Hr ltac:(by rewrite Hk) eq_refl ltac:(simpl; by rewrite Hk) eq_refl E)
    as (Hm1 & Hr1 & Hpl1 & Hlk & Hsm & Hc).
  eapply thread_create_mid; [exact Hm1|exact Hr1|exact Hpl1| |exact H].
  destruct Hf as [?|(F1 & F2 & F3 & F4 & F5)]; [by left|right].
  apply push_frame_inv in E as (th1 & Hth1 & ->). destruct Hr as [Hth Hid].
  assert (th1 = th) as -> by congruence. simpl in *.
  split_and!; simpl; try done.
  - rewrite lookup_insert_ne; [done|]. intros E. congruence.
  - intros v tv. destruct (decide (v = cur k)) as [->|].
    + rewrite lookup_insert_eq. intros [= <-]. simpl. rewrite Hk. by repeat constructor.
    + rewrite lookup_insert_ne by done. apply F5.
Qed.

Lemma execute_wait_mid k th u k' :
  mid Ph_run zero zero k -> running k th -> plain (kstack th) ->
  execute_wait k = Ok (u, k') -> mid Ph_run zero zero k'.
Proof.
  intros Hm [Hth Hid] Hpl H. unfold execute_wait in H. stmts H.
  apply upd_mid in E as (Hm1 & Hc1 & Hi1 & _ & _ & Hth1 & _); [|done..].
  destruct (Hth1 _ th Hth) as (th1 & Hth1' & _ & Hk1).
  assert (running k0 th1) as Hr1 by (split; congruence).
  assert (plain (kstack th1)) as Hpl1 by (by rewrite Hk1).
  destruct (push_mid k0 th1 F_exec_check _ _ Hm1 Hr1 Hpl1 eq_refl Hpl1 eq_refl E0) as (Hm2 & [Hth2 Hid2] & Hpl2 & _).
  refine (sema_down_mid _ _ _ _ _ Hm2 Hth2 Hid2 Hpl2 _ _ H); [done|by intros ? [=]].
Qed.

Lemma start_process_loaded_mid b k th u k' :
  mid Ph_run zero zero k -> running k th -> kstack th = [] ->
  start_process_loaded b k = Ok (u, k') -> mid Ph_run zero zero k'.
Proof.
  intros Hm [Hth Hid] Hk H. unfold start_process_loaded in H. stmts H.
  apply upd_mid in E as (Hm1 & Hc1 & Hi1 & _ & _ & Hth1 & _); [|done..].
  destruct (Hth1 _ th Hth) as (th1 & Hth1' & _ & Hk1).
  assert (running k0 th1) as Hr1 by (split; congruence).
  assert (mid Ph_run zero zero k1) as Hm2.
  { destruct b; [by stmt E0|]. rewrite Hk in Hk1.
    by destruct (push_mid k0 th1 F_exit_call _ _ Hm1 Hr1 ltac:(by rewrite Hk1) eq_refl Hk1 eq_refl E0) as (? & _). }
  eapply mid_weaken; [..|eapply (sema_up_mid zero zero _ (SExec (parent (process a)))); [exact Hm2|by intros ? ? [=]|exact H]];
    [|done].
  intros l. cbv beta. by rewrite lock_of_other.
Qed.

Lemma exit_up_mid k th u k' :
  mid Ph_run zero zero k -> running k th -> kstack th = [] ->
  exit_up k = Ok (u, k') -> mid Ph_run zero zero k'.
Proof.
  intros Hm Hr Hk H. unfold exit_up in H. stmts H.
  destruct (push_mid k th F_exit_die _ _ Hm Hr ltac:(by rewrite Hk) eq_refl Hk eq_refl E) as (Hm1 & _).
  eapply mid_weaken; [..|eapply (sema_up_mid zero zero _ (SWait (cur k))); [exact Hm1|by intros ? ? [=]|exact H]];
    [|done].
  intros l. cbv beta. by rewrite lock_of_other.
Qed.

(** *** The idle thread *)

Lemma idle_block_mid k th u k' :
  mid Ph_run zero zero k -> threads k !! cur k = Some th -> cur k = idle_thread k ->
  kstack th = [F_idle_block] ->
  (_ ← intr_disable; _ ← push_frame F_idle_hlt; thread_block)
    (set_threads (<[cur k := set_kstack [] th]> (threads k)) k) = Ok (u, k') ->
  mid Ph_run zero zero k'.
Proof.
  intros Hm Hth Hi Hk H. stmts H. apply push_frame_inv in E as (th1 & Hth1 & ->). simpl in *.
  rewrite lookup_insert_eq in Hth1. injection Hth1 as <-. rewrite insert_insert_eq in H. simpl in H.
  unfold thread_block in H. stmts H. apply upd_thread_inv in E as (th2 & Hth2 & ->). simpl in *.
  rewrite lookup_insert_eq in Hth2. injection Hth2 as <-. rewrite insert_insert_eq in H. simpl in H.
  pose proof (cur_running _ _ _ _ Hm Hth) as Hrun.
  eapply schedule_mid; [|exact H].
  eapply mid_same; [|eapply (mid_left zero zero k th (set_status THREAD_BLOCKED (set_kstack [F_idle_hlt] th)) false)];
    try done.
  - simpl. by eapply cur_magic.
  - intros l. unfold acq. by rewrite Hk.
  - intros s. unfold pend. simpl. by rewrite Hk, Hrun.
  - intros t. unfold crt. by rewrite Hk.
  - intros _. exists [], F_idle_hlt. split_and!; [done|constructor|by right].
Qed.

Lemma idle_hlt_mid k th u k' :
  mid Ph_run zero zero k -> threads k !! cur k = Some th -> cur k = idle_thread k ->
  kstack th = [F_idle_hlt] ->
  (_ ← push_frame F_idle_block; modify (set_intr_on true))
    (set_threads (<[cur k := set_kstack [] th]> (threads k)) k) = Ok (u, k') ->
  mid Ph_run zero zero k'.
Proof.
  intros Hm Hth Hi Hk H. stmts H. apply push_frame_inv in E as (th1 & Hth1 & ->). simpl in *.
  rewrite lookup_insert_eq in Hth1. injection Hth1 as <-. rewrite insert_insert_eq. simpl.
  pose proof (cur_running _ _ _ _ Hm Hth) as Hrun.
  eapply mid_same; [|eapply mid_weaken; [..|eapply (mid_thread Ph_run zero zero k (cur k) th (set_kstack [F_idle_block] th))]];
    try done.
  - intros l. cbv beta. unfold acq. by rewrite Hk.
  - intros s. cbv beta. unfold pend. simpl. by rewrite Hk, Hrun.
  - simpl. by eapply cur_magic.
  - by left.
  - intros _. exists [], F_idle_block. split_and!; [done|constructor|by left].
  - intros t. left. unfold crt. by rewrite Hk.
Qed.

(** ** Steps *)

Lemma call_mid c k th u k' :
  inv k -> threads k !! cur k = Some th -> kstack th = [] -> call_allowed k c ->
  exec_call c k = Ok (u, k') -> mid Ph_run zero zero k'.
Proof.
  intros Hinv Hth Hk Hall H. apply inv_mid in Hinv as Hm.
  assert (cur k <> idle_thread k) as Hid.
  { intros Hi. rewrite Hi in Hth. apply (idle_shape_of _ _ _ _ _ Hm) in Hth.
    rewrite Hk in Hth. apply idle_shape_skip in Hth. naive_solver. }
  assert (running k th) as Hr by done. assert (plain (kstack th)) as Hpl by (by rewrite Hk).
  assert (Hup : forall s, (forall l, s <> SLock l) -> sema_up s k = Ok (u, k') -> mid Ph_run zero zero k').
  { intros s Hs Hu. eapply mid_weaken; [..|eapply (sema_up_mid zero zero k s); [done| |exact Hu]]; [|done|].
    - intros l. cbv beta. by rewrite lock_of_other.
    - intros l sm ->. by destruct (Hs l). }
  destruct c; simpl in H, Hall.
  - stmts H. apply intr_set_level_same in E. by eapply mid_same.
  - by eapply thread_yield_mid.
  - stmt H. destruct Hall as [Hn Hv]. apply mid_sema_init; [done|done|done|].
    intros t tht old rest Ht Hb Hkt. pose proof (cur_ks_ok _ _ _ _ _ _ Hm Ht) as Hks. rewrite Hkt in Hks.
    destruct Hks as [[[[? Hx]|Hx] _] _]; [congruence|done].
  - refine (sema_down_mid _ _ _ _ _ Hm Hth Hid Hpl _ _ H); [done|by intros ? [=]].
  - stmts H. refine (sema_try_down_mid _ _ _ _ Hm _ E). done.
  - by apply (Hup (SSema s)).
  - unfold lock_init in H. stmts H. destruct Hall. eapply mid_same; [|by eapply (mid_lock_init Ph_run zero zero k l)]. done.
  - by eapply lock_acquire_mid.
  - stmts H. by eapply lock_try_acquire_mid.
  - by eapply lock_release_mid.
  - unfold cond_init in H. stmt H. eapply mid_same; [|exact Hm]. done.
  - by eapply cond_wait_mid.
  - by eapply cond_signal_mid.
  - by eapply cond_broadcast_mid.
  - by eapply thread_create_mid.
  - by eapply exit_h_mid.
  - by eapply process_wait_mid.
  - by eapply process_execute_mid.
  - by eapply start_process_loaded_mid.
Qed.

Lemma resume_ordinary k th f rest u k' :
  inv k -> running k th -> kstack th = f :: rest -> ordinary f = true ->
  exec_frame f (set_threads (<[cur k := set_kstack rest th]> (threads k)) k) = Ok (u, k') ->
  mid Ph_run zero zero k'.
Proof.
  intros Hinv [Hth Hid] Hk Hord H. apply inv_mid in Hinv as Hm.
  destruct (mid_pop_ordinary k th f rest Hm Hth Hk Hord Hid) as [Hpl Hm1].
  pose proof (cur_ks_ok _ _ _ _ _ _ Hm Hth) as Hks. rewrite Hk in Hks. destruct Hks as [Hf _].
  set (k1 := set_threads (<[cur k := set_kstack rest th]> (threads k)) k) in *.
  assert (running k1 (set_kstack rest th)) as Hr1 by (split; [apply lookup_insert_eq|done]).
  assert (Hnew : forall t, creates t f = true -> exists tht, threads k1 !! t = Some tht /\
    status tht = THREAD_BLOCKED /\ kstack tht = [] /\ map_sum (crt t) (threads k1) = 0).
  { intros t Ht. by eapply pop_creating. }
  pose proof Hr1 as [Hth1 Hid1].
  destruct f; simpl in H, Hf; try done.
  - by eapply cond_wait_down_mid.
  - by eapply lock_acquire_mid.
  - by eapply cond_broadcast_mid.
  - stmts H. unfold intr_enable in E. stmts E. unfold swap_flag in E. simplify_eq.
    eapply mid_same; [|exact Hm1]. done.
  - destruct Hf as [Hx _]. done.
  - destruct Hf as [Hx _]. done.
  - destruct Hf as [-> _]. destruct (Hnew t) as (tht & ? & ? & ? & ?); [apply Z.eqb_refl|].
    by eapply create_tid_mid.
  - destruct Hf as [-> _]. destruct (Hnew t) as (tht & ? & ? & ? & ?); [apply Z.eqb_refl|].
    by eapply create_finish_mid.
  - by eapply exit_work_mid.
  - by eapply exit_up_mid.
  - by eapply exit_die_mid.
  - by eapply thread_exit_mid.
  - by eapply reap_mid.
  - by eapply execute_wait_mid.
  - unfold execute_check in H. stmts H. eapply mid_same; [|exact Hm1]. done.
Qed.

Lemma resume_intr k th f rest :
  inv k -> threads k !! cur k = Some th -> kstack th = f :: rest -> is_intr f = true ->
  mid Ph_run zero zero (set_threads (<[cur k := set_kstack rest th]> (threads k)) k).
Proof.
  intros Hinv Hth Hk Hi. apply inv_mid in Hinv as Hm. apply mid_intr_frame; [done|done| | | |].
  - rewrite Hk. simpl. by rewrite Hi.
  - pose proof (cur_ks_ok _ _ _ _ _ _ Hm Hth) as Hks. rewrite Hk in Hks. apply Hks.
  - intros Hid. eapply idle_shape_cons; [exact Hi|]. rewrite <- Hk.
    eapply idle_shape_of; [exact Hm|]. by rewrite <- Hid.
  - intros u. unfold crt. rewrite Hk. simpl. destruct (creates u f); simpl; lia.
Qed.

Lemma resume_mid k u k' : inv k -> resume k = Ok (u, k') -> mid Ph_run zero zero k'.
Proof.
  intros Hinv H. apply inv_mid in Hinv as Hm. unfold resume in H.
  destruct (threads k !! cur k) as [th|] eqn:Hth; [|done].
  destruct (kstack th) as [|f rest] eqn:Hk; [done|]. stmts H.
  apply upd_thread_inv in E as (th1 & Hth1 & ->). assert (th1 = th) as -> by congruence.
  destruct (is_intr f) eqn:Ei.
  { pose proof (resume_intr k th f rest Hinv Hth Hk Ei) as Hm1. destruct f; try done; simpl in H.
    - stmts H. apply intr_set_level_same in E. by eapply mid_same.
    - stmt H. eapply mid_same; [|exact Hm1]. done. }
  destruct (decide (cur k = idle_thread k)) as [Hid|Hid].
  { assert (idle_shape (f :: rest)) as Hsh.
    { rewrite <- Hk. eapply idle_shape_of; [exact Hm|]. by rewrite <- Hid. }
    destruct (idle_shape_top f rest Hsh Ei) as [-> [-> | ->]].
    - by eapply idle_block_mid.
    - by eapply idle_hlt_mid. }
  destruct (ordinary f) eqn:Eo; [by eapply resume_ordinary|].
  destruct f; try done; simpl in H; [by eapply resume_down|by eapply resume_acquire].
Qed.

Lemma step_inv k k' : inv k -> step k k' -> inv k'.
Proof.
  intros Hinv Hst. apply inv_mid. destruct Hst as [c th k' Hth Hk Hall H|k' H|i k' Hon H].
  - by eapply call_mid.
  - by eapply resume_mid.
  - eapply intr_handler_mid; [|exact H]. by apply inv_mid.
Qed.

Lemma steps_inv k k' : inv k -> rtc step k k' -> inv k'.
Proof. intros Hinv Hs. revert Hinv. induction Hs; eauto using step_inv. Qed.
