(* ===== verification/KernelProps.v ===== *)
(** * Theorems about the threads of the kernel

    What KernelSteps shows of every state the booted kernel can reach, and
    functional properties of the scheduler. *)

From S2P Require Import Prelude Spage Sched Synch Thread KernelInv KernelSteps.

(** The kernel after [thread_start], with the initial thread where [start.S]
    puts it and the pages the allocator returned for the idle thread. *)
Definition booted : res kernel := boot 0xc000e000 0xc0101000 0xc0102000 0xc000ef00.
Definition initial_kernel : kernel :=
  match booted with Ok k => k | Err _ => blank_kernel NULL end.

Definition reachable (k : kernel) : Prop := rtc step initial_kernel k.

Lemma booted_ok : booted = Ok initial_kernel.
Proof. vm_compute. reflexivity. Qed.

(** The entries of the maps of the booted kernel. *)
Definition initial_threads : list (Z * thread) := map_to_list (threads initial_kernel).
Definition initial_semas : list (sid * semaphore) := map_to_list (semas initial_kernel).

Lemma map_entries `{Countable K} {A} (P : K -> A -> Prop) (m : gmap K A) :
  Forall (fun p => P p.1 p.2) (map_to_list m) -> forall i x, m !! i = Some x -> P i x.
Proof.
  intros HF i x Hi. apply elem_of_map_to_list in Hi. rewrite Forall_forall in HF. apply (HF (i, x) Hi).
Qed.

Lemma initial_thread_cases t th :
  threads initial_kernel !! t = Some th ->
  (t = 0xc000e000 /\ status th = THREAD_RUNNING /\ kstack th = [] /\ magic th = THREAD_MAGIC) \/
  (t = 0xc0101000 /\ status th = THREAD_BLOCKED /\ kstack th = [F_idle_hlt] /\ magic th = THREAD_MAGIC).
Proof.
  revert t th. apply map_entries. vm_compute.
  apply Forall_cons; split; [first [left; done|right; done]|].
  apply Forall_cons; split; [first [left; done|right; done]|]. apply Forall_nil. done.
Qed.

Lemma initial_sema_cases s sm :
  semas initial_kernel !! s = Some sm ->
  waiters sm = [] /\ (value sm = if decide (s = SLock 1 \/ s = SLock 2) then 1 else 0).
Proof.
  revert s sm. apply map_entries. vm_compute. repeat (apply Forall_cons; split; [done|]). by apply Forall_nil.
Qed.

Lemma initial_locks l h :
  locks initial_kernel !! l = Some h -> (l = 1 \/ l = 2) /\ h = NULL.
Proof.
  revert l h. apply map_entries. vm_compute. repeat (apply Forall_cons; split; [auto|]). by apply Forall_nil.
Qed.

Lemma initial_facts :
  cur initial_kernel = 0xc000e000 /\ idle_thread initial_kernel = 0xc0101000 /\
  ready_list initial_kernel = [] /\
  is_Some (threads initial_kernel !! 0xc000e000) /\ is_Some (threads initial_kernel !! 0xc0101000) /\
  is_Some (semas initial_kernel !! SLock 1) /\ is_Some (semas initial_kernel !! SLock 2).
Proof. vm_compute. repeat split; eexists; reflexivity. Qed.

#[local] Opaque initial_kernel.

Lemma initial_inv : inv initial_kernel.
Proof.
  destruct initial_facts as (Hc & Hi & Hr & [tm Htm] & [ti Hti] & Hl1 & Hl2).
  constructor.
  - constructor.
    + intros t th Ht. destruct (initial_thread_cases t th Ht) as [(-> & Hs & Hk & Hm)|(-> & Hs & Hk & Hm)];
        (split; [done|]; split; [done|]); unfold status_ok; rewrite Hs, Hk; simpl; rewrite ?Hc, ?Hi; auto.
    + rewrite Hc. exists tm. split; [done|]. intros _.
      by destruct (initial_thread_cases _ _ Htm) as [(_ & ? & _)|(? & _)].
    + rewrite Hr. split; [constructor|]. intros t Ht. destruct (not_elem_of_nil t Ht).
    + intros s sm Hs. destruct (initial_sema_cases s sm Hs) as [Hw Hv]. rewrite Hw, Hv.
      split; [case_decide; lia|]. split; [constructor|]. intros t Ht. destruct (not_elem_of_nil t Ht).
  - intros l h Hl. destruct (initial_locks l h Hl) as [Hl12 ->].
    assert (is_Some (semas initial_kernel !! SLock l)) as [sm Hsm] by (by destruct Hl12 as [-> | ->]).
    exists sm. split; [done|]. destruct (initial_sema_cases _ _ Hsm) as [_ ->].
    rewrite decide_True by (destruct Hl12 as [-> | ->]; auto).
    rewrite map_sum_zero; [done|]. intros t th Ht. apply acq_plain.
    by destruct (initial_thread_cases t th Ht) as [(_ & _ & -> & _)|(_ & _ & -> & _)].
  - intros s sm Hs Hw. destruct (initial_sema_cases s sm Hs) as [Hw0 _]. destruct (Hw Hw0).
  - intros t. rewrite map_sum_zero; [split; [lia|intros; lia]|]. intros u th Hu.
    unfold crt. by destruct (initial_thread_cases u th Hu) as [(_ & _ & -> & _)|(_ & _ & -> & _)].
  - exists ti, [], F_idle_hlt. rewrite Hi. split; [done|].
    destruct (initial_thread_cases _ _ Hti) as [(? & _)|(_ & _ & -> & _)]; [done|].
    split; [done|]. split; [constructor|by right].
Qed.

Lemma reachable_inv k : reachable k -> inv k.
Proof. intros H. eapply steps_inv; [|exact H]. exact initial_inv. Qed.

(** ** Executable traces *)

Inductive action := A_call (c : call) | A_resume | A_irq (i : irq).

Definition fresh_pageb (k : kernel) (t : Z) : bool :=
  bool_decide (threads k !! t = None) &&
  bool_decide (semas k !! SWaiter t = None) && bool_decide (semas k !! SExec t = None) &&
  bool_decide (semas k !! SWait t = None) &&
  forallb (fun p => forallb (fun f => negb (mentions t f)) (kstack p.2)) (map_to_list (threads k)).
Definition call_allowedb (k : kernel) (c : call) : bool :=
  match c with
  | C_sema_init s v => bool_decide (semas k !! SSema s = None) && (0 <=? v) && (v <? 2 ^ 32)
  | C_lock_init l => bool_decide (locks k !! l = None) && bool_decide (semas k !! SLock l = None)
  | C_create t _ _ _ | C_execute t _ _ => (t =? NULL) || fresh_pageb k t
  | _ => true
  end.

Definition act (a : action) : M kernel unit := fun k =>
  match a with
  | A_call c =>
      match threads k !! cur k with
      | Some th => match kstack th with
                   | [] => if call_allowedb k c then exec_call c k else Err Trap
                   | _ => Err Trap
                   end
      | None => Err Trap
      end
  | A_resume => resume k
  | A_irq i => if intr_on k then intr_handler_external (irq_handler i) k else Err Trap
  end.
Fixpoint acts (l : list action) : M kernel unit :=
  match l with [] => mret tt | a :: l' => _ ← act a; acts l' end.

Lemma fresh_pageb_ok k t : fresh_pageb k t = true -> fresh_page k t.
Proof.
  unfold fresh_pageb. rewrite !andb_true_iff, !bool_decide_eq_true, forallb_forall.
  intros [[[[? ?] ?] ?] Hf]. split_and!; try done. intros u th Hu.
  apply elem_of_map_to_list, list_elem_of_In in Hu. specialize (Hf _ Hu). simpl in Hf.
  rewrite forallb_forall in Hf. apply Forall_forall. intros f Hin%list_elem_of_In.
  specialize (Hf f Hin). by apply negb_true_iff in Hf.
Qed.
Lemma call_allowedb_ok k c : call_allowedb k c = true -> call_allowed k c.
Proof.
  destruct c; simpl; try done; rewrite ?andb_true_iff, ?orb_true_iff, ?bool_decide_eq_true.
  - intros [[? ?] ?]. split; [done|lia].
  - done.
  - intros [?%Z.eqb_eq|?%fresh_pageb_ok]; auto.
  - intros [?%Z.eqb_eq|?%fresh_pageb_ok]; auto.
Qed.

Lemma act_step a k k' : act a k = Ok (tt, k') -> step k k'.
Proof.
  destruct a; simpl; intros H.
  - destruct (threads k !! cur k) as [th|] eqn:Hth; [|done].
    destruct (kstack th) eqn:Hk; [|done]. destruct (call_allowedb k c) eqn:Hc; [|done].
    eapply step_call; [exact Hth|exact Hk|by apply call_allowedb_ok|exact H].
  - by apply step_resume.
  - destruct (intr_on k) eqn:Hi; [|done]. by eapply step_irq.
Qed.
Lemma acts_steps l k k' : acts l k = Ok (tt, k') -> rtc step k k'.
Proof.
  revert k. induction l as [|a l IH]; intros k H; simpl in H.
  - unfold mret, M_ret in H. simplify_eq. apply rtc_refl.
  - apply M_bind_ok in H as ([] & k1 & E & H). eapply rtc_l; [by eapply act_step|by apply IH].
Qed.

(** ** Theorems: scheduling *)

(** C11: In every reachable state exactly one thread is running, the run queue
    holds each ready thread once, a semaphore's wait list holds only blocked
    threads, and no thread is on the run queue and a wait list or on two wait
    lists: the one [elem] member of [struct thread] is enough for all of them. *)
Theorem elem_member_exclusive k :
  reachable k ->
  (forall t th, threads k !! t = Some th -> (status th = THREAD_RUNNING <-> t = cur k)) /\
  (NoDup (ready_list k) /\ forall t, t ∈ ready_list k ->
     exists th, threads k !! t = Some th /\ status th = THREAD_READY) /\
  (forall s sm, semas k !! s = Some sm -> NoDup (waiters sm) /\ forall t, t ∈ waiters sm ->
     t ∉ ready_list k /\ (exists th, threads k !! t = Some th /\ status th = THREAD_BLOCKED) /\
     forall s' sm', semas k !! s' = Some sm' -> t ∈ waiters sm' -> s' = s).
Proof.
  intros Hr%reachable_inv. destruct (i_base _ Hr) as [B1 B2 B3 B4]. split_and!.
  - intros t th Ht. destruct (B1 t th Ht) as (_ & _ & Hst & _). unfold status_ok in Hst. split.
    + intros Hs. rewrite Hs in Hst. by destruct Hst.
    + intros ->. destruct B2 as (c & Hc & Hrun). assert (c = th) as -> by congruence. by apply Hrun.
  - apply B3.
  - apply B3.
  - intros s sm Hs. destruct (B4 s sm Hs) as (_ & Hnd & Hw). split; [done|]. intros t Ht.
    destruct (Hw t Ht) as (th & old & rest & Hth & Hb & Hk). split_and!.
    + intros Hin. destruct (proj2 B3 t Hin) as (? & ? & ?). congruence.
    + eauto.
    + intros s' sm' Hs' Ht'. destruct (B4 s' sm' Hs') as (_ & _ & Hw').
      destruct (Hw' t Ht') as (? & ? & ? & ? & ? & ?). congruence.
Qed.


(** Threads that own lock [l]: the holder, or a thread that has taken the
    semaphore and not yet stored itself in [holder]. *)
Definition owns (k : kernel) (l t : Z) : Prop :=
  locks k !! l = Some t /\ t <> NULL \/
  exists th, threads k !! t = Some th /\ acq l th = 1.


(** C14: No wake-up is lost.  In every reachable state, a semaphore that has a
    positive value while threads sleep on it has at least as many threads that
    were woken and will test the value before they can sleep again. *)
Theorem no_lost_wakeup k s sm :
  reachable k -> semas k !! s = Some sm -> waiters sm <> [] ->
  value sm <= map_sum (pend s) (threads k) /\
  (0 < value sm -> exists t th old rest, threads k !! t = Some th /\
     status th <> THREAD_BLOCKED /\ skip (kstack th) = F_down s old :: rest).
Proof.
  intros Hr%reachable_inv Hs Hw. pose proof (i_wake _ Hr s sm Hs Hw) as Hle. unfold zero in Hle.
  split; [lia|]. intros Hpos. destruct (map_sum_pos (pend s) (threads k)) as (t & th & Ht & Hp); [lia|].
  unfold pend in Hp. case_decide as Hb; [lia|].
  destruct (skip (kstack th)) as [|[] rest] eqn:Ek; try lia.
  case_bool_decide; simpl in Hp; [|lia]. subst. eauto 10.
Qed.

(** Two threads go to sleep on a semaphore, and the initial thread ups it once. *)
Definition demo_actions : list action :=
  [ A_call (C_sema_init 7 0);
    A_call (C_create 0xc0103000 0xc0104000 [97] 31); A_resume; A_resume; A_resume;
    A_call (C_create 0xc0105000 0xc0106000 [98] 31); A_resume; A_resume; A_resume;
    A_call C_yield; A_resume; A_call (C_down 7); A_resume; A_call (C_down 7); A_resume;
    A_call (C_up 7) ].
Definition run_from_boot (l : list action) : kernel :=
  match acts l initial_kernel with Ok (_, k) => k | Err _ => initial_kernel end.
Definition demo_kernel : kernel := run_from_boot demo_actions.

Lemma demo_run : acts demo_actions initial_kernel = Ok (tt, demo_kernel).
Proof. vm_compute. reflexivity. Qed.
Lemma demo_reachable : reachable demo_kernel.
Proof. exact (acts_steps _ _ _ demo_run). Qed.
Lemma demo_facts :
  semas demo_kernel !! SSema 7 = Some (mk_sema 1 [0xc0105000]) /\
  locks demo_kernel !! tid_lock = Some NULL /\
  (status <$> threads demo_kernel !! 0xc0105000) = Some THREAD_BLOCKED /\
  ready_list demo_kernel = [0xc0103000].
Proof. vm_compute. repeat split. Qed.
#[local] Opaque demo_kernel.

Lemma elem_member_exclusive_witness :
  reachable demo_kernel /\ NoDup (ready_list demo_kernel).
Proof.
  split; [exact demo_reachable|].
  exact (proj1 (proj1 (proj2 (elem_member_exclusive demo_kernel demo_reachable)))).
Defined.



Lemma no_lost_wakeup_witness :
  exists t th old rest, threads demo_kernel !! t = Some th /\
    status th <> THREAD_BLOCKED /\ skip (kstack th) = F_down (SSema 7) old :: rest.
Proof.
  apply (proj2 (no_lost_wakeup demo_kernel (SSema 7) _ demo_reachable (proj1 demo_facts) ltac:(discriminate))).
  reflexivity.
Defined.

(** ** The scheduler cannot fail *)

Lemma next_eq k next rl :
  picks k next rl -> next_thread_to_run k = Ok (next, set_ready_list rl k).
Proof.
  unfold next_thread_to_run, picks. intros [-> |(E & -> & ->)]; [done|]. rewrite E.
  destruct k. simpl in *. by subst.
Qed.

Lemma thread_current_eq k th :
  threads k !! cur k = Some th -> cur k <> NULL -> magic th = THREAD_MAGIC -> status th = THREAD_RUNNING ->
  thread_current k = Ok (cur k, k).
Proof.
  intros Ht H0 Hm Hs. unfold thread_current, mbind, M_bind, running_thread, is_thread, get_thread.
  rewrite Ht, Hm, (proj2 (Z.eqb_neq _ _) H0). simpl. rewrite Ht, Hs. done.
Qed.

Lemma upd_thread_eq k t th f :
  threads k !! t = Some th -> upd_thread t f k = Ok (tt, set_threads (<[t := f th]> (threads k)) k).
Proof. unfold upd_thread. by intros ->. Qed.
Lemma get_thread_eq k t th : threads k !! t = Some th -> get_thread t k = Ok (th, k).
Proof. unfold get_thread. by intros ->. Qed.

(** The tail of a switch to thread [cur k], whose status is not yet running. *)
Lemma tail_eq k prev th :
  threads k !! cur k = Some th -> cur k <> NULL -> magic th = THREAD_MAGIC -> intr_on k = false ->
  prev <> cur k -> (prev <> NULL -> is_Some (threads k !! prev)) ->
  exists k', thread_schedule_tail prev k = Ok (tt, k') /\ cur k' = cur k /\ ready_list k' = ready_list k.
Proof.
  intros Ht H0 Hm Hi Hpc Hp. unfold thread_schedule_tail.
  bind_by (reflexivity). bind_by (reflexivity).
  bind_by (apply assert_run; simpl; by rewrite Hi).
  bind_by (by apply upd_thread_eq). bind_by (reflexivity).
  set (th' := set_status THREAD_RUNNING th).
  set (k1 := set_thread_ticks 0 (set_threads (<[cur k := th']> (threads k)) k)).
  assert (threads k1 !! cur k1 = Some th') as Ht1 by apply lookup_insert_eq.
  assert (process_activate k1 = Ok (tt, set_active_pd (pagedir (process th')) k1)) as Ha.
  { unfold process_activate. bind_by (by eapply thread_current_eq).
    bind_by (by apply get_thread_eq). done. }
  bind_by (exact Ha). destruct (prev =? NULL) eqn:E; bool_to_prop; cbn [negb].
  { eexists. split; [reflexivity|done]. }
  destruct (Hp E) as [pth Hpth].
  bind_by (apply get_thread_eq; simpl; by rewrite lookup_insert_ne).
  bind_by (reflexivity). destruct (_ && _).
  - bind_by (by apply assert_run, negb_true_iff, Z.eqb_neq). eexists. split; [reflexivity|done].
  - eexists. split; [reflexivity|done].
Qed.

Lemma schedule_eq d e k next rl thn :
  mid Ph_leave d e k -> intr_on k = false -> picks k next rl -> threads k !! next = Some thn ->
  exists k', schedule k = Ok (tt, k') /\ cur k' = next /\ ready_list k' = rl.
Proof.
  intros Hm Hi Hp Hn. destruct (m_base _ _ _ _ Hm) as [B1 B2 _ _]. destruct B2 as (c & Hc & _).
  destruct (B1 _ _ Hn) as (Hn0 & Hmg & _ & _). unfold schedule.
  bind_by (reflexivity). bind_by (by apply next_eq).
  bind_by (reflexivity). bind_by (apply assert_run; simpl; by rewrite Hi).
  bind_by (by apply get_thread_eq).
  bind_by (apply assert_run; apply negb_true_iff, bool_decide_eq_false; intros Hs;
    destruct (B1 _ _ Hc) as (_ & _ & Hst & _); unfold status_ok in Hst; rewrite Hs in Hst; by destruct Hst).
  bind_by (reflexivity).
  bind_by (apply assert_run; simpl; rewrite Hn, Hmg; by rewrite (proj2 (Z.eqb_neq _ _) Hn0)).
  destruct (cur k =? next) eqn:Ec; cbn [negb].
  - apply Z.eqb_eq in Ec. subst next.
    by apply (tail_eq (set_ready_list rl k) NULL thn).
  - apply Z.eqb_neq in Ec. bind_by (reflexivity).
    apply (tail_eq (set_cur next (set_ready_list rl k)) (cur k) thn); done.
Qed.

(** Yielding between two statements. *)
Lemma yield_eq k t rest :
  mid Ph_run zero zero k -> in_external_intr k = false -> cur k <> idle_thread k -> ready_list k = t :: rest ->
  exists k', thread_yield k = Ok (tt, k') /\ cur k' = t /\ ready_list k' = rest ++ [cur k].
Proof.
  intros Hm Hx Hid Hq.
  destruct (m_base _ _ _ _ Hm) as [B1 B2 B3 _]. destruct B2 as (th & Hth & Hrun).
  specialize (Hrun ltac:(done)). destruct (B1 _ _ Hth) as (Hc0 & Hmg & _ & Hks).
  destruct (proj2 B3 t) as (tht & Ht & Hst); [rewrite Hq; by left|].
  assert (cur k <> t) as Hct by (intros E; congruence).
  set (th' := set_status THREAD_READY (set_kstack (F_yield (intr_on k) :: kstack th) th)).
  assert (mid Ph_leave zero zero (left_cpu true th' k)) as Hl.
  { eapply (mid_left _ _ _ th th' true); try done.
    - intros s. unfold pend. simpl. by rewrite Hrun.
    - unfold status_ok. simpl. left. apply elem_of_app. right. by left. }
  set (k1 := set_intr_on false (left_cpu true th' k)).
  destruct (schedule_eq zero zero k1 t (rest ++ [cur k]) tht) as (k' & Hs & Hc' & Hr').
  - eapply mid_same; [|exact Hl]. done.
  - done.
  - left. simpl. by rewrite Hq.
  - simpl. by rewrite lookup_insert_ne.
  - exists k'. split; [|done]. unfold thread_yield.
    bind_by (by eapply thread_current_eq). bind_by (reflexivity).
    bind_by (apply assert_run; simpl; by rewrite Hx). bind_by (reflexivity).
    bind_by (unfold push_frame; bind_by (reflexivity); by apply upd_thread_eq).
    bind_by (reflexivity). cbn [idle_thread set_threads set_intr_on].
    rewrite (proj2 (Z.eqb_neq _ _) Hid). cbn [negb]. bind_by (reflexivity).
    bind_by (apply upd_thread_eq; apply lookup_insert_eq).
    rewrite <- Hs. simpl. rewrite insert_insert_eq. done.
Qed.

(** ** Theorems: the order of threads *)

(** C15: Round robin.  A thread that yields goes to the end of the run queue and
    the thread at the front runs; nothing can fail on the way. *)
Theorem yield_round_robin k t rest :
  reachable k -> in_external_intr k = false -> cur k <> idle_thread k -> ready_list k = t :: rest ->
  exists k', thread_yield k = Ok (tt, k') /\ cur k' = t /\ ready_list k' = rest ++ [cur k].
Proof. intros Hr%reachable_inv%inv_mid. by apply yield_eq. Qed.

Lemma yield_round_robin_witness :
  exists k', thread_yield demo_kernel = Ok (tt, k') /\ cur k' = 0xc0103000 /\
    ready_list k' = [0xc000e000].
Proof.
  destruct (yield_round_robin demo_kernel 0xc0103000 []) as (k' & Hy & Hc & Hr).
  - exact demo_reachable.
  - vm_compute. reflexivity.
  - vm_compute. discriminate.
  - exact (proj2 (proj2 (proj2 demo_facts))).
  - exists k'. split; [exact Hy|split; [exact Hc|]]. rewrite Hr. vm_compute. reflexivity.
Defined.

(** ** Theorems: races of the process calls *)

(** The initial thread executes a program; its time slice ends just after
    [thread_create], the child runs and is about to report that it is loaded. *)
Definition exec_prefix : list action :=
  [ A_call (C_execute 0xc0103000 0xc0104000 [97]); A_resume; A_resume; A_resume;
    A_irq Irq_timer; A_resume; A_irq Irq_timer; A_resume; A_irq Irq_timer; A_resume;
    A_irq Irq_timer; A_resume ].
(** The child yields and the parent goes on. *)
Definition exec_suffix : list action :=
  [ A_call C_yield; A_resume; A_resume; A_resume; A_resume ].

(** C34: [process_execute] may report a failure although the child was loaded:
    it clears [childExecSuccess] only after [thread_create], so a child that is
    scheduled at once has its report overwritten.  There is a reachable run in
    which the child reports success and the parent then gets a failure. *)
Theorem exec_success_lost :
  exists k1 k2 k3, reachable k1 /\ cur k1 = 0xc0103000 /\
    (parent ∘ process <$> threads k1 !! 0xc0103000) = Some 0xc000e000 /\
    exec_call (C_loaded true) k1 = Ok (tt, k2) /\ rtc step k2 k3 /\
    cur k3 = 0xc000e000 /\ trace k3 = trace k2 ++ [Ev_exec_result false].
Proof.
  pose (k1 := run_from_boot exec_prefix).
  pose (k2 := match exec_call (C_loaded true) k1 with Ok (_, k) => k | Err _ => k1 end).
  pose (k3 := match acts exec_suffix k2 with Ok (_, k) => k | Err _ => k2 end).
  exists k1, k2, k3. split; [|split; [|split; [|split; [|split; [|split]]]]].
  - apply (acts_steps exec_prefix). vm_compute. reflexivity.
  - vm_compute. reflexivity.
  - vm_compute. reflexivity.
  - vm_compute. reflexivity.
  - apply (acts_steps exec_suffix). vm_compute. reflexivity.
  - vm_compute. reflexivity.
  - vm_compute. reflexivity.
Qed.

(** The initial thread creates a thread and waits for it; the child exits. *)
Definition wait_actions : list action :=
  [ A_call (C_create 0xc0103000 0xc0104000 [97] 31); A_resume; A_resume; A_resume;
    A_call (C_process_wait 3); A_resume; A_call (C_exit 0); A_resume; A_resume; A_resume; A_resume ].

(** C35: [process_wait] reads freed memory: the semaphore it sleeps on is inside
    the child's [struct thread], whose page is freed when the child has exited,
    before the woken parent tests the semaphore again.  There is a reachable
    state in which the parent is about to make that access. *)
Theorem process_wait_use_after_free :
  exists k th, reachable k /\ threads k !! cur k = Some th /\
    kstack th = [F_down (SWait 0xc0103000) true; F_reap 0xc0104000] /\
    threads k !! 0xc0103000 = None /\ semas k !! SWait 0xc0103000 = None /\
    resume k = Err Trap.
Proof.
  pose (k := run_from_boot wait_actions).
  assert (is_Some (threads k !! cur k)) as [th Hth] by (vm_compute; eauto).
  exists k, th. split; [|split; [exact Hth|split; [|split; [|split]]]].
  - apply (acts_steps wait_actions). vm_compute. reflexivity.
  - assert (Some (kstack th) = Some [F_down (SWait 0xc0103000) true; F_reap 0xc0104000]) as E.
    { rewrite <- Hth || change (Some (kstack th)) with (kstack <$> Some th). rewrite <- Hth. vm_compute. reflexivity. }
    congruence.
  - vm_compute. reflexivity.
  - vm_compute. reflexivity.
  - vm_compute. reflexivity.
Qed.
