(* ===== verification/KernelLive.v ===== *)
(** * Every ready thread gets its turn

    The run queue is first in, first out: a step of the kernel appends threads at
    its end, or takes the thread at its front and runs it.  So a thread that is
    ready runs after at most as many switches as there are threads before it. *)

From S2P Require Import Prelude KList Spage Sched Synch Thread KernelInv KernelSteps KernelProps.

(** ** The run queue during a step *)

(** Threads may have become ready; the same thread runs. *)
Definition waited (k k' : kernel) : Prop := cur k' = cur k /\ exists l, ready_list k' = ready_list k ++ l.
(** Then the thread at the front may have been dispatched, or the idle thread if
    there was none. *)
Definition turn (k k' : kernel) : Prop :=
  waited k k' \/ (exists l, ready_list k ++ l = cur k' :: ready_list k') \/ ready_list k = [].

Definition calm {A} (m : M kernel A) : Prop := forall k r k', m k = Ok (r, k') -> waited k k'.
Definition fifo {A} (m : M kernel A) : Prop := forall k r k', m k = Ok (r, k') -> turn k k'.

Lemma waited_refl k : waited k k.
Proof. split; [done|]. exists []. by rewrite app_nil_r. Qed.
Lemma waited_trans k k1 k2 : waited k k1 -> waited k1 k2 -> waited k k2.
Proof. intros [C1 [l1 E1]] [C2 [l2 E2]]. split; [congruence|]. exists (l1 ++ l2). by rewrite E2, E1, app_assoc. Qed.
Lemma waited_turn k k1 k2 : waited k k1 -> turn k1 k2 -> turn k k2.
Proof.
  intros W [W2|[[l E]|E]]; [left; by eapply waited_trans|right|right]; destruct W as [_ [l0 E0]].
  - left. exists (l0 ++ l). by rewrite app_assoc, <- E0.
  - right. rewrite E in E0. symmetry in E0. by apply app_eq_nil in E0 as [-> _].
Qed.

Lemma calm_bind {A B} (m : M kernel A) (f : A -> M kernel B) : calm m -> (forall a, calm (f a)) -> calm (m ≫= f).
Proof. intros Hm Hf k r k' (a & k1 & E1 & E2)%M_bind_ok. eapply waited_trans; [by eapply Hm|by eapply Hf]. Qed.
Lemma fifo_bind {A B} (m : M kernel A) (f : A -> M kernel B) : calm m -> (forall a, fifo (f a)) -> fifo (m ≫= f).
Proof. intros Hm Hf k r k' (a & k1 & E1 & E2)%M_bind_ok. eapply waited_turn; [by eapply Hm|by eapply Hf]. Qed.
Lemma calm_fifo {A} (m : M kernel A) : calm m -> fifo m.
Proof. intros Hm k r k' E. left. by eapply Hm. Qed.
Lemma calm_ret {A} (a : A) : calm (mret a).
Proof. intros k r k' [= _ ->]. apply waited_refl. Qed.
Lemma calm_get : calm get.
Proof. intros k r k' [= _ ->]. apply waited_refl. Qed.
Lemma calm_modify f : (forall k, waited k (f k)) -> calm (modify f).
Proof. intros Hf k r k' [= _ <-]. apply Hf. Qed.
Lemma calm_fail {A} e : calm (A := A) (fail e).
Proof. by intros k r k'. Qed.
Lemma calm_lift {A} (x : res A) : calm (lift x).
Proof. intros k r k'. unfold lift. destruct x; [|done]. intros [= _ ->]. apply waited_refl. Qed.
(** A state that differs in other fields only. *)
Lemma waited_same k k' : cur k' = cur k -> ready_list k' = ready_list k -> waited k k'.
Proof. intros C E. split; [done|]. exists []. by rewrite E, app_nil_r. Qed.
Lemma waited_push k t : waited k (set_ready_list (ready_list k ++ [t]) k).
Proof. split; [done|]. by exists [t]. Qed.

Create HintDb calm.
Hint Resolve calm_ret calm_get calm_fail calm_lift : calm.

(** A primitive: a function of the state. *)
Ltac primitive :=
  intros k r k'; repeat match goal with |- context [match ?x with _ => _ end] => destruct x end;
  try discriminate; intros [= <- <-] || intros [= _ <-]; first [apply waited_refl | by apply waited_same].
Ltac calms :=
  repeat match goal with
    | |- calm (_ ≫= _) => apply calm_bind; [|intros ?]
    | |- calm (modify (fun k => set_ready_list (ready_list k ++ [_]) k)) => apply calm_modify; intros ?; apply waited_push
    | |- calm (modify _) => apply calm_modify; intros ?; by apply waited_same
    | |- calm (assert _) => apply calm_lift
    | |- calm (let _ := _ in _) => cbv zeta
    | |- calm (if ?b then _ else _) => destruct b
    | |- calm (match ?x with _ => _ end) => destruct x
    | |- calm _ => solve [auto with calm]
    end.
Ltac fifos :=
  repeat match goal with
    | |- fifo (_ ≫= _) => apply fifo_bind; [calms|intros ?]
    | |- fifo (let _ := _ in _) => cbv zeta
    | |- fifo (if ?b then _ else _) => destruct b
    | |- fifo (match ?x with _ => _ end) => destruct x
    | |- fifo _ => solve [auto with calm]
    | |- fifo _ => apply calm_fifo; calms; fail
    end.

(** ** [thread.c] and [synch.c] *)

Lemma calm_upd_thread t f : calm (upd_thread t f).
Proof. unfold upd_thread. primitive. Qed.
Lemma calm_get_thread t : calm (get_thread t).
Proof. unfold get_thread. primitive. Qed.
Lemma calm_log e : calm (log e).
Proof. unfold log. primitive. Qed.
Lemma calm_running : calm running_thread.
Proof. unfold running_thread. primitive. Qed.
Lemma calm_is_thread t : calm (is_thread t).
Proof. unfold is_thread. primitive. Qed.
Lemma calm_level : calm intr_get_level.
Proof. unfold intr_get_level. primitive. Qed.
Lemma calm_context : calm intr_context.
Proof. unfold intr_context. primitive. Qed.
Lemma calm_swap_flag b : calm (swap_flag b).
Proof. unfold swap_flag. primitive. Qed.
Lemma calm_get_sema s : calm (get_sema s).
Proof. unfold get_sema. primitive. Qed.
Lemma calm_get_holder l : calm (get_holder l).
Proof. unfold get_holder. primitive. Qed.
Lemma calm_get_cond c : calm (get_cond c).
Proof. unfold get_cond. primitive. Qed.
Lemma calm_take_tid : calm take_tid.
Proof. unfold take_tid. primitive. Qed.
Hint Resolve calm_upd_thread calm_get_thread calm_log calm_running calm_is_thread calm_level calm_context calm_swap_flag
  calm_get_sema calm_get_holder calm_get_cond calm_take_tid : calm.

Lemma calm_push_frame f : calm (push_frame f).
Proof. unfold push_frame. calms. Qed.
Lemma calm_set_level b : calm (intr_set_level b).
Proof. unfold intr_set_level, intr_enable, intr_disable. calms. Qed.
Lemma calm_disable : calm intr_disable.
Proof. apply calm_swap_flag. Qed.
Lemma calm_enable : calm intr_enable.
Proof. unfold intr_enable. calms. Qed.
Lemma calm_current : calm thread_current.
Proof. unfold thread_current. calms. Qed.
Lemma calm_put_sema s sm : calm (put_sema s sm).
Proof. unfold put_sema. calms. Qed.
Lemma calm_put_holder l h : calm (put_holder l h).
Proof. unfold put_holder. calms. Qed.
Lemma calm_put_cond c ws : calm (put_cond c ws).
Proof. unfold put_cond. calms. Qed.
Hint Resolve calm_push_frame calm_set_level calm_disable calm_enable calm_current calm_put_sema calm_put_holder calm_put_cond : calm.
Lemma calm_tail prev : calm (thread_schedule_tail prev).
Proof. unfold thread_schedule_tail, process_activate, free_thread. calms. Qed.
Hint Resolve calm_tail : calm.

(** [schedule] runs the thread at the front. *)
Lemma fifo_schedule : fifo schedule.
Proof.
  intros k r k' E. unfold schedule in E. apply M_bind_ok in E as (c & k0 & [= <- <-] & E). apply M_bind_ok in E as (next & k1 & E1 & E).
  unfold next_thread_to_run in E1. destruct (ready_list k) as [|t rest] eqn:El; [right; by right|]. injection E1 as <- <-.
  apply M_bind_ok in E as (lv & k2 & [= <- <-] & E). apply M_bind_ok in E as ([] & k2 & E2 & E). apply (calm_lift _) in E2 as [C2 [l2 L2]].
  apply M_bind_ok in E as (th & k3 & E3 & E). apply calm_get_thread in E3 as [C3 [l3 L3]].
  apply M_bind_ok in E as ([] & k4 & E4 & E). apply (calm_lift _) in E4 as [C4 [l4 L4]].
  apply M_bind_ok in E as (ok & k5 & E5 & E). apply calm_is_thread in E5 as [C5 [l5 L5]].
  apply M_bind_ok in E as ([] & k6 & E6 & E). apply (calm_lift _) in E6 as [C6 [l6 L6]].
  simpl in C2, L2. assert (W : cur k6 = cur k /\ ready_list k6 = rest ++ (l2 ++ l3 ++ l4 ++ l5 ++ l6)).
  { split; [congruence|]. by rewrite L6, L5, L4, L3, L2, <- !app_assoc. }
  destruct W as [C L]. set (l := l2 ++ _) in L. right. left.
  destruct (cur k =? t) eqn:Ec; cbn [negb] in E; bool_to_prop.
  - apply calm_tail in E as [C7 [l7 L7]]. exists (l ++ l7). rewrite El, L7, L, C7, C, Ec. cbn [app]. by rewrite app_assoc.
  - apply M_bind_ok in E as ([] & k7 & [= <-] & E). apply calm_tail in E as [C8 [l8 L8]]. simpl in C8, L8.
    exists (l ++ l8). rewrite El, L8, L, C8. cbn [app]. by rewrite app_assoc.
Qed.
Hint Resolve fifo_schedule : calm.

Lemma fifo_block : fifo thread_block.
Proof. unfold thread_block. fifos. Qed.
Lemma calm_unblock t : calm (thread_unblock t).
Proof. unfold thread_unblock. calms. Qed.
Lemma fifo_yield : fifo thread_yield.
Proof. unfold thread_yield. fifos. Qed.
Hint Resolve fifo_block calm_unblock fifo_yield : calm.
Lemma calm_tick : calm thread_tick.
Proof. unfold thread_tick, intr_yield_on_return. calms. Qed.
Lemma calm_sema_init s v : calm (sema_init s v).
Proof. unfold sema_init. calms. Qed.
Lemma fifo_down_loop s b : fifo (sema_down_loop s b).
Proof. unfold sema_down_loop. fifos. Qed.
Hint Resolve calm_tick calm_sema_init fifo_down_loop : calm.
Lemma fifo_down s : fifo (sema_down s).
Proof. unfold sema_down. fifos. Qed.
Lemma calm_try_down s : calm (sema_try_down s).
Proof. unfold sema_try_down. calms. Qed.
Lemma calm_up s : calm (sema_up s).
Proof. unfold sema_up. calms. Qed.
Hint Resolve fifo_down calm_try_down calm_up : calm.
Lemma calm_held l : calm (lock_held_by_current_thread l).
Proof. unfold lock_held_by_current_thread. calms. Qed.
Hint Resolve calm_held : calm.
Lemma fifo_acquire l : fifo (lock_acquire l).
Proof. unfold lock_acquire. fifos. Qed.
Lemma calm_release l : calm (lock_release l).
Proof. unfold lock_release. calms. Qed.
Hint Resolve fifo_acquire calm_release : calm.
Lemma calm_signal c l : calm (cond_signal c l).
Proof. unfold cond_signal. calms. Qed.
Hint Resolve calm_signal : calm.
Lemma calm_init_thread t nm prio : calm (init_thread t nm prio).
Proof. unfold init_thread. calms. Qed.
Hint Resolve calm_init_thread : calm.
Lemma fifo_create t h nm prio e : fifo (thread_create t h nm prio e).
Proof. unfold thread_create. fifos. Qed.
Hint Resolve fifo_create : calm.
Lemma calm_exit_work : calm exit_work.
Proof. unfold exit_work, process_exit, exit_spage. calms. Qed.
Hint Resolve calm_exit_work : calm.
Lemma fifo_exit : fifo thread_exit.
Proof. unfold thread_exit. fifos. Qed.
Hint Resolve fifo_exit : calm.

Lemma fifo_frame f : fifo (exec_frame f).
Proof.
  destruct f; cbn [exec_frame]; unfold lock_acquired, cond_wait_down, cond_broadcast, create_tid, create_finish, exit_up, exit_die, reap, execute_wait, execute_check; fifos.
Qed.
Lemma fifo_call c : fifo (exec_call c).
Proof.
  destruct c; cbn [exec_call]; unfold lock_init, lock_try_acquire, cond_init, cond_wait, cond_broadcast, exit_h, process_wait, process_execute, start_process_loaded; fifos.
Qed.
Lemma fifo_irq i : fifo (intr_handler_external (irq_handler i)).
Proof. unfold intr_handler_external. destruct i; cbn [irq_handler]; fifos. Qed.

Lemma step_turn k k' : step k k' -> turn k k'.
Proof.
  intros [c th k1 _ _ _ E|k1 E|i k1 _ E].
  - by eapply fifo_call.
  - unfold resume in E. destruct (threads k !! cur k) as [th|]; [|done]. destruct (kstack th) as [|f rest]; [done|].
    revert E. apply (fifo_bind (upd_thread (cur k) (set_kstack rest)) (fun _ => exec_frame f)); [auto with calm|intros _; apply fifo_frame].
  - by eapply fifo_irq.
Qed.

(** ** Runs *)

(** Consecutive steps, and how often the thread that runs changes. *)
Fixpoint is_run (k : kernel) (run : list kernel) : Prop :=
  match run with [] => True | k1 :: rest => step k k1 /\ is_run k1 rest end.
Fixpoint switches (k : kernel) (run : list kernel) : nat :=
  match run with
  | [] => 0
  | k1 :: rest => (if cur k1 =? cur k then 0 else 1) + switches k1 rest
  end.

(** One step on behalf of the thread at place [n]. *)
Lemma turn_forward k k' n t :
  turn k k' -> ready_list k !! n = Some t ->
  cur k' = t \/ exists m, ready_list k' !! m = Some t /\ (m <= n)%nat /\ (cur k' <> cur k -> (m < n)%nat).
Proof.
  intros [[C [l E]]|[[l E]|E]] Hn.
  - right. exists n. rewrite E, lookup_app_l by (by eapply lookup_lt_Some). split; [done|]. split; [lia|done].
  - assert (Hn' : (cur k' :: ready_list k') !! n = Some t) by (rewrite <- E, lookup_app_l by (by eapply lookup_lt_Some); done).
    destruct n as [|n]; [left; by injection Hn'|right]. exists n. split; [done|]. split; [lia|]. intros _. lia.
  - by rewrite E in Hn.
Qed.
Lemma run_forward run : forall k n t, is_run k run -> ready_list k !! n = Some t -> (n < switches k run)%nat ->
  exists k', k' ∈ run /\ cur k' = t.
Proof.
  induction run as [|k1 run IH]; intros k n t Hr Hn Hs; [simpl in Hs; lia|]. destruct Hr as [Hst Hr]. simpl in Hs.
  destruct (turn_forward k k1 n t (step_turn _ _ Hst) Hn) as [E|(m & Hm & Hle & Hlt)]; [exists k1; split; [by left|done]|].
  destruct (IH k1 m t Hr Hm) as (k' & Hin & E).
  - destruct (cur k1 =? cur k) eqn:Ec; bool_to_prop; [lia|]. specialize (Hlt Ec). lia.
  - exists k'. split; [by right|done].
Qed.

(** ** The end of a time slice *)

Lemma tick_eq k th :
  threads k !! cur k = Some th -> cur k <> NULL -> magic th = THREAD_MAGIC -> status th = THREAD_RUNNING ->
  in_external_intr k = true -> TIME_SLICE <= u32 (thread_ticks k + 1) ->
  exists k', thread_tick k = Ok (tt, k') /\ same k k' /\ yield_on_return k' = true /\ in_external_intr k' = true /\ intr_on k' = intr_on k.
Proof.
  intros Ht H0 Hm Hs Hx Hts. unfold thread_tick.
  destruct (if cur k =? idle_thread k then modify (fun k => set_idle_ticks (idle_ticks k + 1) k) k
       else if negb (pagedir (process th) =? NULL) then modify (fun k => set_user_ticks (user_ticks k + 1) k) k
       else modify (fun k => set_kernel_ticks (kernel_ticks k + 1) k) k) as [[[] k1]|] eqn:E1.
  2: { destruct (_ =? idle_thread k); [done|]. by destruct (negb _). }
  assert (H1 : same k k1 /\ thread_ticks k1 = thread_ticks k /\ in_external_intr k1 = true /\ intr_on k1 = intr_on k).
  { destruct (_ =? idle_thread k); [by injection E1 as <-|]. destruct (negb _); by injection E1 as <-. }
  destruct H1 as (S1 & T1 & X1 & I1).
  eexists. split; [|split; [|split; [|split]]].
  - bind_by (by eapply thread_current_eq). bind_by (by apply get_thread_eq). bind_by reflexivity.
    bind_by (rewrite <- E1; destruct (cur k =? idle_thread k); [done|by destruct (negb _)]). bind_by reflexivity. bind_by reflexivity.
    cbn [thread_ticks set_thread_ticks]. rewrite T1, (proj2 (Z.leb_le _ _) Hts). unfold intr_yield_on_return.
    bind_by reflexivity. bind_by (apply assert_run; exact X1). reflexivity.
  - exact S1.
  - done.
  - exact X1.
  - exact I1.
Qed.

Lemma slice_eq k t rest :
  mid Ph_run zero zero k -> in_external_intr k = false -> cur k <> idle_thread k -> TIME_SLICE <= u32 (thread_ticks k + 1) ->
  ready_list k = t :: rest ->
  exists k', intr_handler_external (irq_handler Irq_timer) k = Ok (tt, k') /\ cur k' = t /\ ready_list k' = rest ++ [cur k].
Proof.
  intros Hm Hx Hid Hts Hq. destruct (b_cur _ _ (m_base _ _ _ _ Hm)) as (th & Hth & Hrun). specialize (Hrun ltac:(done)).
  destruct (b_thr _ _ (m_base _ _ _ _ Hm) _ _ Hth) as (Hc0 & Hmg & _ & _).
  set (k1 := set_yield_on_return false (set_in_external_intr true (set_intr_on false k))).
  destruct (tick_eq k1 th) as (k2 & E2 & S2 & Y2 & X2 & I2); try done.
  assert (Hm2 : mid Ph_run zero zero (set_in_external_intr false k2)) by (eapply mid_same; [|exact Hm]; exact S2).
  pose proof S2 as (St & Sr & Sc & Si & _). simpl in St, Sr, Sc, Si. set (k3 := set_in_external_intr false k2) in *.
  assert (Ht3 : threads k3 !! cur k3 = Some th) by (simpl; by rewrite St, Sc).
  set (k4 := set_threads (<[cur k3 := set_kstack (F_iret :: kstack th) th]> (threads k3)) k3).
  assert (Hm4 : mid Ph_run zero zero k4).
  { apply mid_intr_frame; [done|done|done| | |].
    - split; [done|]. by eapply cur_ks_ok.
    - intros Hi. exfalso. apply Hid. simpl in Hi. congruence.
    - intros u. simpl. unfold crt. lia. }
  destruct (yield_eq k4 t rest Hm4) as (k' & E & Hc & Hr); [done|simpl; congruence|simpl; congruence|].
  exists k'. split; [|simpl in Hr; by rewrite Hr, Sc]. unfold intr_handler_external. bind_by reflexivity.
  bind_by reflexivity. bind_by (apply assert_run; simpl; by rewrite Hx). bind_by reflexivity. bind_by reflexivity. bind_by (exact E2).
  bind_by reflexivity. bind_by (apply assert_run; by rewrite I2). bind_by reflexivity. bind_by (apply assert_run; exact X2). bind_by reflexivity.
  bind_by (unfold push_frame; bind_by reflexivity; by apply (upd_thread_eq k3)). bind_by reflexivity.
  change (yield_on_return (set_threads _ k3)) with (yield_on_return k2). rewrite Y2. exact E.
Qed.

(** ** Theorems *)

(** C16: No thread waits for ever.  In every run of the kernel, whatever its
    threads call and whatever interrupts arrive, a thread with [n] threads before
    it in the run queue runs at the latest when the processor has been given to
    another thread [n + 1] times. *)
Theorem ready_thread_runs (run : list kernel) k n t :
  is_run k run -> ready_list k !! n = Some t -> (n < switches k run)%nat -> exists k', k' ∈ run /\ cur k' = t.
Proof. apply run_forward. Qed.

(** C17: A thread cannot keep the processor.  When its time slice is over, the
    next timer interrupt puts the running thread at the end of the run queue and
    runs the thread at the front; nothing can fail on the way. *)
Theorem slice_ends k t rest :
  reachable k -> in_external_intr k = false -> intr_on k = true -> cur k <> idle_thread k ->
  TIME_SLICE <= u32 (thread_ticks k + 1) -> ready_list k = t :: rest ->
  exists k', intr_handler_external (irq_handler Irq_timer) k = Ok (tt, k') /\ step k k' /\ cur k' = t /\ ready_list k' = rest ++ [cur k].
Proof.
  intros Hr%reachable_inv%inv_mid Hx Hon Hid Hts Hq. destruct (slice_eq k t rest Hr Hx Hid Hts Hq) as (k' & E & R).
  exists k'. split; [done|]. split; [by eapply step_irq|done].
Qed.

(** A run from [demo_kernel]: the thread that is ready runs after a yield. *)
Definition yielded : kernel := match act (A_call C_yield) demo_kernel with Ok (_, k) => k | Err _ => demo_kernel end.
Lemma yielded_step : act (A_call C_yield) demo_kernel = Ok (tt, yielded) /\ cur yielded =? cur demo_kernel = false /\
  ready_list demo_kernel !! 0%nat = Some 0xc0103000.
Proof. vm_compute. repeat split. Qed.

Lemma ready_thread_runs_witness : exists k', k' ∈ [yielded] /\ cur k' = 0xc0103000.
Proof.
  destruct yielded_step as (E & Hc & Hq). apply (ready_thread_runs [yielded] demo_kernel 0 0xc0103000).
  - split; [exact (act_step _ _ _ E)|exact I].
  - exact Hq.
  - cbn [switches]. rewrite Hc. lia.
Defined.

(** The same state at the end of the time slice. *)
Definition late_kernel : kernel := run_from_boot (demo_actions ++ [A_irq Irq_timer; A_resume; A_irq Irq_timer; A_resume; A_irq Irq_timer; A_resume]).
Lemma late_facts : acts (demo_actions ++ [A_irq Irq_timer; A_resume; A_irq Irq_timer; A_resume; A_irq Irq_timer; A_resume]) initial_kernel = Ok (tt, late_kernel) /\
  in_external_intr late_kernel = false /\ intr_on late_kernel = true /\ (cur late_kernel =? idle_thread late_kernel) = false /\
  (TIME_SLICE <=? u32 (thread_ticks late_kernel + 1)) = true /\ ready_list late_kernel = [0xc0103000].
Proof. vm_compute. repeat split. Qed.
Lemma slice_ends_witness : exists k', intr_handler_external (irq_handler Irq_timer) late_kernel = Ok (tt, k') /\ cur k' = 0xc0103000.
Proof.
  destruct late_facts as (E & Hx & Hon & Hid & Hts & Hq).
  destruct (slice_ends late_kernel 0xc0103000 []) as (k' & Ek & _ & Hc & _).
  - exact (acts_steps _ _ _ E).
  - exact Hx.
  - exact Hon.
  - apply Z.eqb_neq. exact Hid.
  - apply Z.leb_le. exact Hts.
  - exact Hq.
  - exists k'. split; [exact Ek|exact Hc].
Defined.
